(* ===== verification/_CoqProject ===== *)
-Q . S2P
Prelude.v
GoLib.v
Json.v
Net.v
ErrorCodes.v
Gorm.v
Model.v
Store.v
Scenario.v
Member.v
Catalog.v
Volume.v
Commands.v
VolumeRpc.v
Dispatch.v
Lifecycle.v
Backup.v
ConsistencyGroup.v
ConsistencyGroupRpc.v
GoFloat.v
Page.v
Ipam.v
Admin.v
NetInfo.v
Secgroup.v
SecgroupSystem.v
IpGroup.v
Subnet.v
SubnetPool.v
SubnetLife.v
Router.v
Hyper.v
HyperSystem.v
HyperReports.v
Fip.v
InstanceRpc.v
InstanceReports.v
InstanceLife.v
Balancer.v
FipAdmin.v
FipLife.v
BalancerLife.v
BalancerConf.v
Crypto.v
NicAdmin.v
ImageAdmin.v
InstanceAdmin.v
Accounts.v
ConsoleToken.v
InstanceSystem.v
MigrationAdmin.v
ImageLife.v
AlarmRules.v
Adjust.v
AdjustLife.v
