(* ===== verification/Prelude.v ===== *)
(** * CloudLand control plane: a verification development

    CloudLand is an infrastructure cloud.  Its control plane is a Go program
    (src/web/src): HTML views and REST handlers call the _admin_ objects of
    package routes, which check the caller's membership, read and write a
    PostgreSQL database through the object mapper gorm, and post shell command
    lines to the SCI endpoint, which runs them on hypervisors.  A script answers
    with a line [|:-COMMAND-:| name.sh 'arg' ...]; package rpcs decodes it and
    hands it to the handler registered under the name, which writes the result to
    the database.  This development models the core of that program and proves
    what makes it correct.

    ** The files

    - [Prelude.v]: record update, tactics, hint databases, generic lemmas.
    - [GoLib.v]: the parts of Go's [strings], [strconv], [fmt] and base64 the program uses,
      on byte strings; fixed-width integers.
    - [Json.v]: the part of [encoding/json] the program uses, printing and reading.
    - [ErrorCodes.v]: common/error_codes.go and the generated error_codes_str.go;
      [error] is the type of Go errors ([CLError], gorm's not-found, a failed
      statement, others).
    - [Gorm.v]: the interface to the database.  gorm and PostgreSQL are not part
      of the repository: the class [Gorm] names the statements the program issues
      on a table (deleted rows stay, out of reach of most statements), [GormOk] what
      it relies on; [MemGorm] implements the interface
      by finite maps, so the definitions run.
    - [Model.v]: the structs of package model as records, with their column
      defaults; volume states and paths (model/volume.go), roles (model/org.go).
    - [Store.v]: context, database, world and the effect monad [M] (a value, a Go
      error, or a panic); [with_tx] is StartTransaction with the deferred
      EndTransaction of common/db.go, [HyperExecute] is common/clients.go.  The
      file carries the proof automation: [go_ok] takes a successful run apart,
      [skip_db] an error, [pres], [np], [quiet_tac] and [db_only_tac] prove that
      an operation keeps an invariant, does not panic, posts nothing, fails only
      in the database.
    - [Scenario.v]: concrete databases and environments for the witnesses.
    - [Member.v] (common/member.go), [Catalog.v] (dbs/sortby.go and look-ups of
      routes/dictionary.go, flavor.go, consistency_group.go), [Admin.v] (the rest
      of routes/dictionary.go and flavor.go, and routes/task.go).
    - [Volume.v]: VolumeAdmin of routes/volume.go.
    - [Commands.v]: the command lines of rpcs/commands.go.
    - [VolumeRpc.v]: the reports on volumes, rpcs/attach_volume.go,
      detach_volume.go, resize_volume.go, create_volume.go.
    - [Dispatch.v]: the handler registry and the command branch of
      rpcs/frontback.go.
    - [Lifecycle.v]: the abstract life cycle of a volume, and the system of user
      requests, requests in flight and reports that implements it.
    - [Backup.v]: BackupAdmin of routes/backup.go and the reports of rpcs/backup.go.
    - [ConsistencyGroup.v]: the groups, members and snapshots of
      routes/consistency_group.go; [ConsistencyGroupRpc.v]: the reports on them
      (rpcs/consistency_group.go) and the system of requests and reports.
    - [GoFloat.v]: the float64 arithmetic the program uses; [Page.v]: pagination,
      routes/page.go.
    - [Ipam.v]: addresses and interfaces, common/interface.go; [NetInfo.v]: the
      rest of that file, what a hypervisor is told of an interface, and public
      interfaces.
    - [Secgroup.v]: security groups and rules, routes/secgroup.go, secrule.go and
      the organization look-up of routes/org.go; [SecgroupSystem.v]: sequences of
      requests on them.  The join table of interfaces and groups is the field
      [SecurityGroups] of an interface.
    - [Net.v]: the parts of Go's package [net] the program uses (addresses, networks,
      masks, their texts).  The module go-cidr is not part of the repository: the
      class [Cidr] names its functions, [CidrOk] says what they compute on IPv4
      networks, [BytesCidr] is an instance that runs.
    - [IpGroup.v]: IpGroupAdmin of routes/ipgroup.go.
    - [Subnet.v]: routes/subnet.go, routes/address.go and the PATCH handler of
      apis/subnet.go; [SubnetPool.v]: the creation of a subnet and its address pool;
      [SubnetLife.v]: its deletion, and creation and deletion together.
    - [Router.v]: RouterAdmin of routes/router.go.
    - [Hyper.v]: hypervisors and zones, routes/hyper.go, zone.go, model/hyper.go, the
      reports of rpcs/hyper_status.go, report_rc.go, system_router.go, the entry
      doExecute of rpcs/frontback.go and the PATCH handler of apis/hyper.go;
      [HyperSystem.v]: sequences of requests and reports; [HyperReports.v]: what a
      report records.
    - [Fip.v]: EnsureSubnetID of routes/floatingip.go, which reports need too.
    - [InstanceRpc.v]: the reports on instances, rpcs/inst_status.go, launch_vm.go,
      action_vm.go, clear_vm.go, migrate_vm.go, attach_vm_nic.go, detach_vm_nic.go,
      set_vrrp_ip.go, create_portmap.go, clear_router.go, set_vnc_passwd.go;
      [InstanceReports.v]: the fleet of instances and what status and launch reports
      do to it; [InstanceLife.v]: the removal of an instance and its migration.
    - [Balancer.v]: load balancers, listeners and backends, routes/loadbalancer.go,
      listener.go, backend.go, and the configurations of common/loadbalancer.go that
      hypervisors get for keepalived and haproxy.  The records [LoadedListener],
      [LoadedBalancer] and [LoadedFip] are rows with the associations a query
      preloads, [None] and [] where it does not.
    - [FipAdmin.v]: floating IPs, routes/floatingip.go, the deletion of a load
      balancer and rpcs/recover_loadbalancer.go; [FipLife.v]: creating and deleting
      floating IPs; [BalancerLife.v]: what a deleted load balancer leaves;
      [BalancerConf.v]: which configuration is deployed.
    - [Crypto.v]: access tokens (routes/jwt.go), password hashes of guests
      (utils/encrpt/mkpasswd.go) and the tests for UUIDs (utils/uuid.go).  The JWT,
      bcrypt, crypt, ssh and sha3 packages are not part of the repository: the class
      [Crypto] names the functions the program calls, [CryptoOk] their documented laws,
      [ToyCrypto] is an instance that runs.
    - [NicAdmin.v]: InterfaceAdmin of routes/interface.go.
    - [ImageAdmin.v]: images and their storages, routes/image.go, storage.go, and the
      reports of rpcs/create_image.go, capture_image.go, sync_image_info.go;
      [ImageLife.v]: what deleting and updating an image does.
    - [InstanceAdmin.v]: InstanceAdmin of routes/instance.go, with the rule links of
      routes/alarm.go it removes; [InstanceSystem.v]: what creating, deleting and
      rescuing an instance does.
    - [MigrationAdmin.v]: MigrationAdmin of routes/migration.go.
    - [Accounts.v]: keys, users and organizations, routes/key.go, user.go, org.go.
    - [ConsoleToken.v]: the tokens of routes/console.go and rpcs/console_resolve.go.
    - [AlarmRules.v]: the alarm rules in the database, their details and their links to
      machines, AlarmOperator of routes/alarm.go; [Adjust.v]: AdjustOperator of
      routes/adjust.go; [AdjustLife.v]: what the links of a rule, its deletion and the
      cooldown come to.

    A definition has the name of the Go function it translates, a method the name
    of its receiver type first ([VolumeAdmin_Update]).  A helper next to it holds
    a part of the function that is used twice or that a theorem talks about.

    ** What the theorems show

    - Volumes: every outcome of update, delete, resize, QoS change and creation
      (what a success changes, that an error changes nothing where the code is
      transactional, and what is left behind where it is not), tenant isolation
      of reads, bounds of the limits, the list.
    - Reports: attach and detach reports change one row or nothing.
    - Life cycle: [volume_lifecycle_refinement] shows that every step of the
      system moves a volume along the abstract life cycle, with at most one request
      in flight for it; safety and an attach/detach round trip follow.  The steps are
      fail-stop: a request either succeeds or fails without having been delivered.
      [lifecycle_needs_fail_stop] shows that this is needed.
    - Command lines: decoding is total, and a left inverse of encoding on the
      arguments the protocol can carry.
    - Backups: the outcomes of snapshot, backup and restore, and of the report.
    - Consistency groups: the membership invariant holds after any sequence of
      requests and reports; a snapshot completes; a restore is refused while a
      volume runs; every report settles the group it names.  A volume can be left
      stranded by a report that never comes, and a foreign volume can be added:
      both are shown.
    - Security groups: a new rule reaches every hypervisor that serves the group,
      in a command with all rules of the interface;
      the rules of a new group; the outcomes of a deletion; the switch of the
      default group; the port bounds an update does not check; references stay
      intact after any sequence of requests.  Creating a router can clear the
      default mark of another tenant's group.
    - Addresses: the allocated address is free and the least one; a consistency
      invariant (first addresses; a free address may still be a second one) holds after any sequence of requests built from the operations,
      whatever fails; creation and deletion are inverse; security data.
    - Subnets: a creation makes one row per address of the range, the gateway
      apart, in order; the two routines that fill a pool agree where the pool lies in
      the network and neither end is the gateway; every outcome of the deletion, with
      what is left of every row; creation and deletion are inverse;
      the range of a generated segment identifier.  A PATCH request of any caller
      changes a public subnet.
    - Routers: every outcome of the deletion, with the VRRP subnet and the groups.
    - Hypervisors: what a status or resource report records, column by column, and
      that nothing else changes; at most one zone is the default and
      the zone a hypervisor names exists, after any sequence of requests and
      reports; the group of hypervisors a command is sent to.  The status of a new
      hypervisor is lost while no public subnet has a free address.
    - Instances: a status report refines an abstract description of the fleet
      (instances there, deleted, unknown); a deleted instance that is reported comes
      back with a stale status; what a launch report records; what is left of every
      address and interface after an instance is removed; a migration report is recorded
      whatever its step does, also where a comment says that the migration fails, and one
      case in which it panics.
    - Requests on instances: a creation adds exactly the rows asked for, each with its
      boot volume; a deletion marks the row, drops the boot volumes, detaches the
      floating IPs and tells the hypervisor; rescue and its end; names of domains lead
      back to instances.  A request whose second interface finds no address panics
      and is committed.
    - Migrations: what a request does to an instance, in every case that succeeds.
    - Images: a deletion removes the rows and posts a command for every copy, which for
      an image without storages has an unbalanced quote; an update is lost when a storage
      is created along with it.
    - Accounts: a new user can log in and the token leads back to the user and the
      organization, but for the organization admin, where a new user is no member; a
      deleted user cannot log in; when a key can be deleted; a new
      organization cannot be deleted.
    - Consoles: a token resolves to what it was made for while the table of consoles is
      unchanged and until it expires; a newer token replaces it.
    - Adjustment of resources: the links of a rule are exactly the requested ones after
      a synchronisation, in any order of a map; a deleted rule leaves nothing behind and
      a failed deletion changes nothing; how long a cooldown lasts.  A link without a
      device that is replaced takes its replacement along.
    - Floating IPs: a creation makes the rows asked for, each with an address that was
      free, and touches nothing else; creation and deletion are inverse, but for the type
      and the second interface of the address.  A floating IP of a load balancer cannot be moved to an instance.
    - Load balancers: a deletion by a caller who sees all its parts leaves no floating
      IP, listener, backend, VRRP instance or interface behind; a new backend is deployed
      with the configuration the database describes, entry by entry, while a changed one is not; the recovery forgets SSL
      and panics for a named load balancer with a floating IP.
    - Administration: dictionaries and flavors change by administrators only, with the
      values given in their columns, and no instance loses its flavor; tasks are read by
      their own organization.
    - Pagination: the links of a page, its position, and when the loop of
      GetPages ends; two inputs on which the machine arithmetic goes astray.
    - Error codes: the printed names, and which codes collide.

    ** Bounds and fuel

    [Split] and [DecodeCommand] recurse with the length of the text as fuel: each
    round consumes a byte ([decode_total]).  [GetPages] takes its fuel as an
    argument: [get_pages_correct] gives the fuel that is enough, for a positive
    page size; [get_pages_diverges] shows that otherwise none is, as long as the offset
    has not wrapped around (for the page size 0: ever).  The address loop
    of a subnet and the search for a segment identifier take their fuel as an
    argument too: a network has at most 1000 addresses, so 1000 rounds are enough
    for the former ([subnet_create_spec]); the latter ends with a draw that is
    free, which [vni_generated] states of its result.  The duration of a cooldown is
    computed in 64 bits; [cooldown_spec] states the range in which it is exact.  Integers are
    unbounded where the code only compares and copies them; [int32] conversion and
    the range checks of [ParseInt] are explicit, and so is the refusal of the database to
    store a reported status that does not fit its column.  The integers of page.go and the
    identifier of an access token wrap around at 64 bits; the page count is a float64
    division, rounded as in IEEE 754, and [smart_pages_correct] states the range (totals
    below 2^53, an offset whose successor fits 64 bits) in which the result is exact.

    ** What is not modelled

    - The failure of COMMIT, whose result the source ignores, and requests that
      interleave: a request runs to its end.  A statement that fails inside a
      transaction of PostgreSQL makes the later ones fail too; here they may still
      succeed, which only adds outcomes.
    - Time stamps (a row's creation time and the clock, where a name is made of them,
      are oracles of the environment), log output, the texts of foreign errors, Unicode white space.
    - gorm saves loaded associations along with a struct.  It is modelled where
      it changes a row ([autosave_volume] of [Backup.v], [autosave_image] of
      [ImageAdmin.v], [resave_sites] of [InstanceAdmin.v], [create_migration] of
      [MigrationAdmin.v]); elsewhere the saved association is the one just read.
    - HTML views and REST handlers (but the two PATCH handlers named above), stored
      sessions, the C++ message layer and the scripts of the hypervisors: binding of
      requests, rendering and input/output around the operations modelled here.
    - The search filters of the web console (routes/search.go and the operations named
      List4View that use them): they build SQL conditions by text.
    - What is rendered from alarm rules for Prometheus, Nightingale and n9e (files,
      requests and webhooks of routes/alarm.go and n9ealarm.go), and the rules on nodes,
      which only exist there. *)

From stdpp Require Export base tactics option list gmap strings pretty.
From Stdlib Require Export ZArith Lia.

From Stdlib Require Export Ascii.

#[global] Open Scope Z_scope.

(** ** Record update

    [r <| p := v |>] is the Go assignment [r.p = v] on a struct value.  The
    setter of a projection is found by abstracting the projection in the
    eta-expansion of the record, which every struct declares once. *)

Class Eta (R : Type) := eta : R → R.

Class Setter {R T : Type} (p : R → T) := put : T → R → R.

Arguments put {R T} p {_} _ _.

Ltac derive_setter :=
  match goal with
  | |- @Setter ?R ?T ?p =>
      let r := fresh "r" in
      let v := fresh "v" in
      intros v r;
      let b := eval hnf in (eta r) in
      let b := eval pattern (p r) in b in
      match b with ?g _ => let t := eval cbv beta in (g v) in exact t end
  end.

#[global] Hint Extern 1 (Setter _) => derive_setter : typeclass_instances.

Declare Scope go_scope.
Delimit Scope go_scope with go.
#[global] Open Scope go_scope.

#[warnings="-postfix-notation-not-level-1"]
Notation "r <| p := v |>" := (put p v r)
  (at level 12, left associativity, p at level 11, v at level 200) : go_scope.

(** ** Automation

    [simp] splits conjunctions, existentials and pairs in the context and
    substitutes; [case_if] destructs the first boolean test of the goal.  The
    database [go] collects the facts about rows and statements that close the
    common side conditions; [go_rw] the rewriting rules. *)

Create HintDb go discriminated.
Create HintDb go_rw.

Ltac simp :=
  repeat match goal with
  | H : _ ∧ _ |- _ => destruct H
  | H : ∃ _, _ |- _ => destruct H
  | H : negb _ = true |- _ => apply negb_true_iff in H
  | H : negb _ = false |- _ => apply negb_false_iff in H
  | H : _ && _ = true |- _ => apply andb_true_iff in H
  | H : _ || _ = false |- _ => apply orb_false_iff in H
  | H : Z.eqb _ _ = true |- _ => apply Z.eqb_eq in H
  | H : Z.eqb _ _ = false |- _ => apply Z.eqb_neq in H
  | H : Z.ltb _ _ = true |- _ => apply Z.ltb_lt in H
  | H : Z.ltb _ _ = false |- _ => apply Z.ltb_ge in H
  | H : Z.leb _ _ = true |- _ => apply Z.leb_le in H
  | H : Z.leb _ _ = false |- _ => apply Z.leb_gt in H
  | _ => progress simplify_eq
  end.

Ltac case_if :=
  match goal with
  | |- context [if ?b then _ else _] =>
      match type of b with
      | bool => let E := fresh "E" in destruct b eqn:E
      | _ => let E := fresh "E" in destruct b as [E|E]
      end
  end.

(** ** Generic lemmas *)

Lemma bool_decide_sym {A} `{EqDecision A} (x y : A) :
  bool_decide (x = y) = bool_decide (y = x).
Proof. apply bool_decide_ext. naive_solver. Qed.

Lemma Forall_filter_bool {A} (P : A → Prop) (p : A → bool) (l : list A) :
  Forall P l → Forall P (List.filter p l).
Proof.
  induction 1 as [|x l Hx Hl IH]; simpl; [done|].
  destruct (p x); [by constructor|done].
Qed.

Lemma elem_of_filter_bool {A} (p : A → bool) (x : A) (l : list A) :
  x ∈ List.filter p l ↔ p x = true ∧ x ∈ l.
Proof. rewrite !list_elem_of_In, filter_In. tauto. Qed.
