(* ===== verification/GoLib.v ===== *)
(** * GoLib: the parts of Go and its standard library the program uses

    Fixed-width integers ([int32], [int64]), package [strings]
    ([Index], [Contains], [Split], [SplitN], [Trim], [TrimSpace],
    [TrimPrefix], [TrimSuffix], [LastIndex], [Join]) and package [strconv]
    ([ParseInt], [Atoi]) on byte strings, base64.StdEncoding, and [%d], [%t] of
    [fmt.Sprintf].
    White space is ASCII white space: [TrimSpace] also removes the Unicode
    spaces, which no string of the program's protocols contains. *)

From S2P Require Import Prelude.

(** ** Integers *)

(** [int32(x)]: conversion keeps the low 32 bits, as a signed number. *)
Definition int32 (x : Z) : Z := (x + 2 ^ 31) `mod` 2 ^ 32 - 2 ^ 31.

Definition fits (bits x : Z) : bool := (- 2 ^ (bits - 1) <=? x) && (x <? 2 ^ (bits - 1)).

Lemma int32_id x : fits 32 x = true → int32 x = x.
Proof.
  unfold fits, int32. intros [H1 H2]%andb_true_iff.
  apply Z.leb_le in H1. apply Z.ltb_lt in H2.
  change (2 ^ (32 - 1)) with (2 ^ 31) in *.
  rewrite Z.mod_small; lia.
Qed.

Lemma int32_fits x : fits 32 (int32 x) = true.
Proof.
  unfold fits, int32. pose proof (Z.mod_pos_bound (x + 2 ^ 31) (2 ^ 32)).
  apply andb_true_iff. change (2 ^ (32 - 1)) with (2 ^ 31).
  rewrite Z.leb_le, Z.ltb_lt. lia.
Qed.

(** An [int64], or an [int] of a 64-bit machine: sums and products wrap around. *)
Definition int64 (x : Z) : Z := (x + 2 ^ 63) `mod` 2 ^ 64 - 2 ^ 63.

Lemma int64_id x : - 2 ^ 63 ≤ x < 2 ^ 63 → int64 x = x.
Proof. intros H. unfold int64. rewrite Z.mod_small by lia. lia. Qed.

(** ** Package strings *)

(** The string split where [sub] first occurs: [(s[:i], s[i:])] for
    [i := strings.Index(s, sub)], [None] when the index is -1. *)
Fixpoint cut_at (sub s : string) : option (string * string) :=
  if String.prefix sub s then Some ("", s)
  else match s with
       | "" => None
       | String c s' =>
           match cut_at sub s' with
           | Some (a, b) => Some (String c a, b)
           | None => None
           end
       end.

Definition Contains (s sub : string) : bool :=
  match cut_at sub s with Some _ => true | None => false end.

Fixpoint drop_bytes (n : nat) (s : string) : string :=
  match n, s with
  | S n, String _ s => drop_bytes n s
  | _, _ => s
  end.

Fixpoint split_go (fuel : nat) (sep s : string) : list string :=
  match fuel with
  | O => [s]
  | S fuel =>
      match cut_at sep s with
      | Some (a, b) => a :: split_go fuel sep (drop_bytes (String.length sep) b)
      | None => [s]
      end
  end.

(** [strings.Split] for a non-empty separator; every cut consumes a byte, so
    the length of the string is enough fuel. *)
Definition Split (s sep : string) : list string := split_go (String.length s) sep s.

(** [strings.SplitN(s, sep, 2)] *)
Definition SplitN2 (s sep : string) : list string :=
  match cut_at sep s with
  | Some (a, b) => [a; drop_bytes (String.length sep) b]
  | None => [s]
  end.

Fixpoint trim_left (f : ascii → bool) (s : string) : string :=
  match s with
  | "" => ""
  | String c s' => if f c then trim_left f s' else s
  end.

Fixpoint trim_right (f : ascii → bool) (s : string) : string :=
  match s with
  | "" => ""
  | String c s' =>
      match trim_right f s' with
      | "" => if f c then "" else String c ""
      | t => String c t
      end
  end.

Definition TrimFunc (f : ascii → bool) (s : string) : string := trim_right f (trim_left f s).

Definition is_space (c : ascii) : bool :=
  match Ascii.nat_of_ascii c with
  | 9%nat | 10%nat | 11%nat | 12%nat | 13%nat | 32%nat => true
  | _ => false
  end.

Definition is_quote (c : ascii) : bool := Ascii.eqb c "'"%char.

Definition TrimSpace (s : string) : string := TrimFunc is_space s.

(** [strings.Trim(s, "'")] *)
Definition TrimQuote (s : string) : string := TrimFunc is_quote s.

Definition TrimPrefix (s prefix : string) : string :=
  if String.prefix prefix s then drop_bytes (String.length prefix) s else s.

(** [s[idx:]] for [idx := strings.LastIndex(s, "/")], [None] when absent. *)
Fixpoint last_cut (sub s : string) : option string :=
  match s with
  | "" => None
  | String _ s' =>
      match last_cut sub s' with
      | Some t => Some t
      | None => if String.prefix sub s then Some s else None
      end
  end.

Fixpoint TrimSuffix (s suffix : string) : string :=
  if String.eqb s suffix then ""
  else match s with
       | "" => ""
       | String c s' => String c (TrimSuffix s' suffix)
       end.

Fixpoint Join (ss : list string) (sep : string) : string :=
  match ss with
  | [] => ""
  | [s] => s
  | s :: ss => s +:+ sep +:+ Join ss sep
  end.

(** ** Package strconv and the verbs of fmt.Sprintf *)

Definition digit (c : ascii) : option Z :=
  let n := Z.of_nat (Ascii.nat_of_ascii c) in
  if (48 <=? n) && (n <=? 57) then Some (n - 48) else None.

Fixpoint digits (acc : Z) (s : string) : option Z :=
  match s with
  | "" => Some acc
  | String c s => match digit c with Some d => digits (acc * 10 + d) s | None => None end
  end.

Definition unsigned (s : string) : option Z :=
  match s with "" => None | _ => digits 0 s end.

Definition signed (s : string) : option Z :=
  match s with
  | String "-"%char s' => Z.opp <$> unsigned s'
  | String "+"%char s' => unsigned s'
  | _ => unsigned s
  end.

(** [strconv.ParseInt(s, 10, bits)], [None] for a syntax or a range error. *)
Definition ParseInt (bits : Z) (s : string) : option Z :=
  match signed s with
  | Some x => if fits bits x then Some x else None
  | None => None
  end.

(** [strconv.Atoi]: an [int] has 64 bits. *)
Definition Atoi (s : string) : option Z := ParseInt 64 s.

(** The number [strconv.Atoi] returns when its error is not looked at: the
    nearest one for a range error, 0 for a syntax error. *)
Definition Atoi_value (s : string) : Z :=
  match signed s with
  | Some x => if fits 64 x then x else if x <? 0 then - 2 ^ 63 else 2 ^ 63 - 1
  | None => 0
  end.

(** [%d] and [%t] *)
Definition fmt_d (x : Z) : string := pretty x.
Definition fmt_t (b : bool) : string := if b then "true" else "false".

(** ** base64.StdEncoding *)

Definition base64_alphabet : string :=
  "ABCDEFGHIJKLMNOPQRSTUVWXYZabcdefghijklmnopqrstuvwxyz0123456789+/".

(** The digit of the six bits of [x] above bit [k]. *)
Definition base64_digit (x k : Z) : ascii :=
  default "="%char (String.get (Z.to_nat (Z.land (Z.shiftr x k) 63)) base64_alphabet).

Definition byte_Z (c : ascii) : Z := Z.of_nat (Ascii.nat_of_ascii c).

Fixpoint EncodeToString (s : string) : string :=
  match s with
  | "" => ""
  | String a "" =>
      let x := Z.shiftl (byte_Z a) 16 in
      String (base64_digit x 18) (String (base64_digit x 12) "==")
  | String a (String b "") =>
      let x := Z.lor (Z.shiftl (byte_Z a) 16) (Z.shiftl (byte_Z b) 8) in
      String (base64_digit x 18) (String (base64_digit x 12) (String (base64_digit x 6) "="))
  | String a (String b (String c s)) =>
      let x := Z.lor (Z.lor (Z.shiftl (byte_Z a) 16) (Z.shiftl (byte_Z b) 8)) (byte_Z c) in
      String (base64_digit x 18) (String (base64_digit x 12)
        (String (base64_digit x 6) (String (base64_digit x 0) (EncodeToString s))))
  end.

Example EncodeToString_words :
  map EncodeToString [""; "f"; "fo"; "foo"; "foobar"] =
  [""; "Zg=="; "Zm8="; "Zm9v"; "Zm9vYmFy"].
Proof. reflexivity. Qed.

(** ** Lemmas *)

Lemma TrimSuffix_eq s suffix :
  TrimSuffix s suffix =
  if String.eqb s suffix then ""
  else match s with "" => "" | String c s' => String c (TrimSuffix s' suffix) end.
Proof. by destruct s. Qed.

Example TrimSuffix_sh : TrimSuffix "launch_vm.sh" ".sh" = "launch_vm".
Proof. reflexivity. Qed.

Example Split_ex : Split "a,b,,c" "," = ["a"; "b"; ""; "c"] ∧ Split "" "," = [""].
Proof. split; reflexivity. Qed.

Lemma digit_pretty (x : N) : (x < 10)%N → digit (pretty_N_char x) = Some (Z.of_N x).
Proof.
  intros H. assert (x ∈ [0; 1; 2; 3; 4; 5; 6; 7; 8; 9]%N) as Hx.
  { rewrite !elem_of_cons. lia. }
  repeat (apply elem_of_cons in Hx as [->|Hx]; [reflexivity|]). by apply elem_of_nil in Hx.
Qed.

Lemma digits_pretty_go (x : N) (s : string) :
  digits 0 (pretty_N_go x s) = digits (Z.of_N x) s.
Proof.
  revert s. induction (N.lt_wf_0 x) as [x _ IH]. intros s.
  destruct (decide (x = 0%N)) as [->|Hx]; [by rewrite pretty_N_go_0|].
  rewrite pretty_N_go_step by lia. rewrite IH by (apply N.div_lt; lia).
  simpl. rewrite digit_pretty by (apply N.mod_lt; lia).
  f_equal. pose proof (N.div_mod x 10). lia.
Qed.

Lemma digits_pretty_N (x : N) : unsigned (pretty x) = Some (Z.of_N x).
Proof.
  unfold pretty, pretty_N. case_decide as Hx; [by subst|].
  pose proof (digits_pretty_go x "") as H. simpl in H.
  unfold unsigned. destruct (pretty_N_go x ""); [|done].
  simpl in H. injection H as H. lia.
Qed.

Lemma pretty_N_no_sign (x : N) c s : pretty x = String c s → c ≠ "-"%char ∧ c ≠ "+"%char.
Proof.
  intros E. pose proof (digits_pretty_N x) as H. rewrite E in H. simpl in H.
  split; intros ->; simpl in H; discriminate.
Qed.

Lemma ParseInt_unsigned bits c s :
  c ≠ "-"%char → c ≠ "+"%char →
  ParseInt bits (String c s) =
  match unsigned (String c s) with
  | Some x => if fits bits x then Some x else None
  | None => None
  end.
Proof.
  intros H1 H2. unfold ParseInt, signed.
  destruct c as [[] [] [] [] [] [] [] []]; try reflexivity; congruence.
Qed.

(** Printing an integer with [%d] and reading it back with [ParseInt] gives
    the integer, for every integer of the width. *)
Lemma ParseInt_fmt_d bits x : fits bits x = true → ParseInt bits (fmt_d x) = Some x.
Proof.
  intros Hf. unfold fmt_d.
  assert (∀ p, ParseInt bits (pretty (N.pos p)) =
    if fits bits (Z.pos p) then Some (Z.pos p) else None) as Hpos.
  { intros p. destruct (pretty (N.pos p)) as [|c s] eqn:E.
    - pose proof (digits_pretty_N (N.pos p)) as H. by rewrite E in H.
    - destruct (pretty_N_no_sign _ _ _ E). rewrite ParseInt_unsigned by done.
      rewrite <- E, digits_pretty_N. done. }
  destruct x as [|p|p].
  - transitivity (if fits bits 0 then Some 0 else None); [reflexivity|by rewrite Hf].
  - change (pretty (Z.pos p)) with (pretty (N.pos p)). by rewrite Hpos, Hf.
  - change (pretty (Z.neg p)) with (String "-"%char (pretty (N.pos p))).
    unfold ParseInt, signed. rewrite digits_pretty_N.
    change ((if fits bits (Z.neg p) then Some (Z.neg p) else None) = Some (Z.neg p)).
    by rewrite Hf.
Qed.

Lemma split_go_cons fuel sep s : ∃ a l, split_go fuel sep s = a :: l.
Proof. destruct fuel; simpl; [by do 2 eexists|]. destruct (cut_at sep s) as [[]|]; by do 2 eexists. Qed.

(** A string has a second part exactly where it contains the separator. *)
Lemma Split_second s sep : s ≠ "" → Split s sep !! 1%nat = None → Contains s sep = false.
Proof.
  unfold Split, Contains. destruct s as [|ch s]; [done|]. intros _. cbn [String.length split_go].
  destruct (cut_at sep (String ch s)) as [[x y]|]; [|done].
  destruct (split_go_cons (String.length s) sep (drop_bytes (String.length sep) y)) as (a & l & ->).
  done.
Qed.
