(* ===== verification/Json.v ===== *)
(** * Json: json.Marshal on the values the program encodes

    The program passes lists and structs to the scripts of the hypervisors as
    JSON.  A struct is the object of its fields in the order of their
    declaration; a string is escaped byte by byte as package encoding/json of Go
    1.25 does it: the HTML characters, the control characters, the two Unicode
    line separators and bytes that are not UTF-8. *)

From S2P Require Import Prelude GoLib.

Inductive json :=
  | JNull
  | JBool (b : bool)
  | JNum (x : Z)
  | JStr (s : string)
  | JArr (l : list json)
  | JObj (fields : list (string * json)).

Definition dquote : string := String (Ascii.ascii_of_nat 34) "".
Definition backslash : string := String (Ascii.ascii_of_nat 92) "".

Definition hex_digit (n : nat) : string :=
  match String.get n "0123456789abcdef" with Some c => String c "" | None => "" end.

Definition escape_u (n : nat) : string :=
  backslash +:+ "u00" +:+ hex_digit (n / 16) +:+ hex_digit (n mod 16).

(** A byte below 128. *)
Definition escape_ascii (c : ascii) : string :=
  let n := Ascii.nat_of_ascii c in
  match n with
  | 34%nat | 92%nat => backslash +:+ String c ""
  | 8%nat => backslash +:+ "b"
  | 12%nat => backslash +:+ "f"
  | 10%nat => backslash +:+ "n"
  | 13%nat => backslash +:+ "r"
  | 9%nat => backslash +:+ "t"
  | 38%nat | 60%nat | 62%nat => escape_u n
  | _ => if (n <? 32)%nat then escape_u n else String c ""
  end.

Definition byte_in (lo hi : nat) (c : ascii) : bool :=
  let n := Ascii.nat_of_ascii c in (lo <=? n)%nat && (n <=? hi)%nat.

Definition continuation (c : ascii) : bool := byte_in 128 191 c.

(** The well-formed sequences of two, three and four bytes. *)
Definition utf8_2 (a b : ascii) : bool := byte_in 194 223 a && continuation b.

Definition utf8_3 (a b c : ascii) : bool :=
  (byte_in 224 224 a && byte_in 160 191 b
   || byte_in 237 237 a && byte_in 128 159 b
   || (byte_in 225 236 a || byte_in 238 239 a) && continuation b) && continuation c.

Definition utf8_4 (a b c d : ascii) : bool :=
  (byte_in 240 240 a && byte_in 144 191 b
   || byte_in 241 243 a && continuation b
   || byte_in 244 244 a && byte_in 128 143 b) && continuation c && continuation d.

(** The line separators U+2028 and U+2029. *)
Definition escape_3 (a b c : ascii) : string :=
  if byte_in 226 226 a && byte_in 128 128 b && byte_in 168 169 c then
    backslash +:+ "u202" +:+ hex_digit (Ascii.nat_of_ascii c - 160)
  else String a (String b (String c "")).

Fixpoint escape (s : string) : string :=
  match s with
  | "" => ""
  | String a s1 =>
      let bad := backslash +:+ "ufffd" +:+ escape s1 in
      if byte_in 0 127 a then escape_ascii a +:+ escape s1
      else match s1 with
           | "" => bad
           | String b s2 =>
               if utf8_2 a b then String a (String b (escape s2))
               else match s2 with
                    | "" => bad
                    | String c s3 =>
                        if utf8_3 a b c then escape_3 a b c +:+ escape s3
                        else match s3 with
                             | "" => bad
                             | String d s4 =>
                                 if utf8_4 a b c d then
                                   String a (String b (String c (String d (escape s4))))
                                 else bad
                             end
                    end
           end
  end.

Definition json_string (s : string) : string := dquote +:+ escape s +:+ dquote.

Fixpoint Marshal (j : json) : string :=
  match j with
  | JNull => "null"
  | JBool b => fmt_t b
  | JNum x => fmt_d x
  | JStr s => json_string s
  | JArr l => "[" +:+ Join (map Marshal l) "," +:+ "]"
  | JObj fs => "{" +:+ Join (map (λ '(k, v), json_string k +:+ ":" +:+ Marshal v) fs) "," +:+ "}"
  end.

(** [json.Marshal] of a []string: a nil slice is null. *)
Definition json_strings (l : list string) : string :=
  match l with [] => Marshal JNull | _ => Marshal (JArr (map JStr l)) end.

Example Marshal_ids :
  json_strings ["a"; "b<c"] =
  "[" +:+ dquote +:+ "a" +:+ dquote +:+ "," +:+ dquote +:+ "b" +:+ backslash +:+ "u003cc"
  +:+ dquote +:+ "]".
Proof. reflexivity. Qed.

Example Marshal_object :
  Marshal (JObj [("vol_id", JNum 7); ("wds_id", JStr "v7")]) =
  "{" +:+ dquote +:+ "vol_id" +:+ dquote +:+ ":7," +:+ dquote +:+ "wds_id" +:+ dquote +:+ ":"
  +:+ dquote +:+ "v7" +:+ dquote +:+ "}".
Proof. reflexivity. Qed.
