(* ===== verification/Net.v ===== *)
(** * Net: IP addresses, masks and networks (package net)

    The part of Go's package net the program uses, on byte slices as in Go: an
    [IP] has 4 or 16 bytes, or none (nil); an IPv4 address in 16 bytes has the
    prefix [v4InV6Prefix].  Address arithmetic comes from the package
    apparentlymart/go-cidr, which is not part of the repository: it is a parameter,
    the class [Cidr], with what the program relies on for IPv4 as [CidrOk];
    [BytesCidr] implements it.

    The lemmas relate the slices to numbers: [bytes4 n] is the IPv4 address [n],
    [dotted n] its text. *)

From S2P Require Import Prelude GoLib.

(** ** Addresses *)

(** [net.IP] and [net.IPMask]; the nil slice is empty. *)
Definition IP : Type := list Z.

Definition v4InV6Prefix : IP := [0; 0; 0; 0; 0; 0; 0; 0; 0; 0; 255; 255].

Definition IP_To4 (ip : IP) : IP :=
  if (length ip =? 4)%nat then ip
  else if (length ip =? 16)%nat && bool_decide (take 12 ip = v4InV6Prefix) then drop 12 ip
  else [].

(** ** Printing *)

Definition hex_digit (n : Z) : ascii :=
  Ascii.ascii_of_nat (Z.to_nat (if n <? 10 then 48 + n else 87 + n)).

(** [%02x] of a byte *)
Definition fmt_02x (b : Z) : string :=
  String (hex_digit (Z.land (Z.shiftr b 4) 15)) (String (hex_digit (Z.land b 15)) "").

(** A 16-bit group in hexadecimal, without leading zeros. *)
Definition fmt_x16 (v : Z) : string :=
  let d k := String (hex_digit (Z.land (Z.shiftr v k) 15)) "" in
  (if 4096 <=? v then d 12 else "") +:+ (if 256 <=? v then d 8 else "") +:+
  (if 16 <=? v then d 4 else "") +:+ d 0.

Fixpoint hextets (bytes : list Z) : list Z :=
  match bytes with
  | a :: b :: bytes => (a * 256 + b) :: hextets bytes
  | _ => []
  end.

(** The number of zeros a list starts with. *)
Fixpoint zero_run (l : list Z) : nat :=
  match l with
  | v :: l => if v =? 0 then S (zero_run l) else 0
  | [] => 0
  end.

(** The first longest run of two zero groups or more: start and end. *)
Fixpoint longest_run (i : nat) (l : list Z) (best : nat * nat) : nat * nat :=
  match l with
  | [] => best
  | _ :: l' =>
      let n := zero_run l in
      longest_run (S i) l'
        (if (2 <=? n)%nat && (best.2 - best.1 <? n)%nat then (i, i + n)%nat else best)
  end.

Definition String_v6 (ip : IP) : string :=
  let l := hextets ip in
  let '(i, j) := longest_run 0 l (9, 9)%nat in
  if (i <? 8)%nat then
    Join (map fmt_x16 (take i l)) ":" +:+ "::" +:+ Join (map fmt_x16 (drop j l)) ":"
  else Join (map fmt_x16 l) ":".

Definition IP_String (ip : IP) : string :=
  match ip with
  | [] => "<nil>"
  | _ =>
      if negb ((length ip =? 4)%nat || (length ip =? 16)%nat) then
        "?" +:+ String.concat "" (map fmt_02x ip)
      else match IP_To4 ip with
           | [a; b; c; d] => Join (map fmt_d [a; b; c; d]) "."
           | _ => String_v6 ip
           end
  end.

(** ** Parsing *)

(** One field of a dotted quad: decimal digits, at most 255, no leading zero. *)
Definition parse_octet (s : string) : option Z :=
  match unsigned s with
  | Some x => if (x <=? 255) && ((String.length s =? 1)%nat || negb (String.prefix "0" s))
              then Some x else None
  | None => None
  end.

Definition ParseIPv4 (s : string) : option IP :=
  match Split s "." with
  | [a; b; c; d] => mapM parse_octet [a; b; c; d]
  | _ => None
  end.

Definition hex_value (c : ascii) : option Z :=
  let n := Z.of_nat (Ascii.nat_of_ascii c) in
  if (48 <=? n) && (n <=? 57) then Some (n - 48)
  else if (97 <=? n) && (n <=? 102) then Some (n - 87)
  else if (65 <=? n) && (n <=? 70) then Some (n - 55)
  else None.

(** The hexadecimal digits a text starts with: how many, their value, the rest. *)
Fixpoint hex_prefix (n : nat) (acc : Z) (s : string) : nat * Z * string :=
  match s with
  | String c s' =>
      match hex_value c with
      | Some d => hex_prefix (S n) (acc * 16 + d) s'
      | None => (n, acc, s)
      end
  | "" => (n, acc, "")
  end.

(** The loop of [parseIPv6]: a group a round, at most eight.  The result is the
    bytes read, the position of the ellipsis and the text that is left. *)
Fixpoint parse_groups (fuel : nat) (bytes : list Z) (ellipsis : option nat) (s : string)
    : option (list Z * option nat * string) :=
  match fuel with
  | O => Some (bytes, ellipsis, s)
  | S fuel =>
      let '(n, acc, rest) := hex_prefix 0 0 s in
      if (n =? 0)%nat || (4 <? n)%nat then None
      else if String.prefix "." rest then
        if (bool_decide (ellipsis = None) && negb (length bytes =? 12)%nat)
           || (12 <? length bytes)%nat then None
        else (λ q, (bytes ++ q, ellipsis, "")) <$> ParseIPv4 s
      else
        let bytes := bytes ++ [Z.shiftr acc 8; Z.land acc 255] in
        match rest with
        | "" => Some (bytes, ellipsis, "")
        | String ":"%char (String ":"%char rest') =>
            match ellipsis with
            | Some _ => None
            | None =>
                match rest' with
                | "" => Some (bytes, Some (length bytes), "")
                | _ => parse_groups fuel bytes (Some (length bytes)) rest'
                end
            end
        | String ":"%char (String c rest') => parse_groups fuel bytes ellipsis (String c rest')
        | _ => None
        end
  end.

Definition ParseIPv6 (s : string) : option IP :=
  if Contains s "%" then None
  else if String.eqb s "::" then Some (replicate 16 0)
  else
    let '(e, s) := if String.prefix "::" s then (Some 0%nat, drop_bytes 2 s) else (None, s) in
    '(bytes, e, s) ← parse_groups 8 [] e s;
    if negb (String.eqb s "") then None
    else match e with
         | None => if (length bytes =? 16)%nat then Some bytes else None
         | Some i => if (length bytes <? 16)%nat
                     then Some (take i bytes ++ replicate (16 - length bytes) 0 ++ drop i bytes)
                     else None
         end.

(** [netip.ParseAddr]: is it an IPv4 address, and its 16 bytes.  The first dot,
    colon or percent sign tells which. *)
Fixpoint first_mark (s : string) : option ascii :=
  match s with
  | "" => None
  | String c s => if Ascii.eqb c "." || Ascii.eqb c ":" || Ascii.eqb c "%" then Some c
                  else first_mark s
  end.

Definition ParseAddr (s : string) : option (bool * IP) :=
  match first_mark s with
  | Some "."%char => (λ q, (true, v4InV6Prefix ++ q)) <$> ParseIPv4 s
  | Some ":"%char => (λ b, (false, b)) <$> ParseIPv6 s
  | _ => None
  end.

(** Nil for a text that is no address. *)
Definition ParseIP (s : string) : IP :=
  match ParseAddr s with Some (_, ip) => ip | None => [] end.

(** ** Masks and networks *)

Fixpoint mask_bytes (l : nat) (n : Z) : IP :=
  match l with
  | O => []
  | S l => if 8 <=? n then 255 :: mask_bytes l (n - 8)
           else (255 - Z.shiftr 255 n) :: mask_bytes l 0
  end.

Definition CIDRMask (ones bits : Z) : IP :=
  if ((bits =? 32) || (bits =? 128)) && (0 <=? ones) && (ones <=? bits)
  then mask_bytes (Z.to_nat (bits / 8)) ones else [].

(** The number of leading one bits of a byte, and the bits after them. *)
Fixpoint leading_ones (bits : nat) (v : Z) : Z * Z :=
  match bits with
  | O => (0, v)
  | S bits =>
      if Z.testbit v 7 then
        let '(n, rest) := leading_ones bits (Z.land (Z.shiftl v 1) 255) in (1 + n, rest)
      else (0, v)
  end.

(** [None] for a mask that is not ones followed by zeros. *)
Fixpoint simpleMaskLength (mask : IP) : option Z :=
  match mask with
  | [] => Some 0
  | v :: mask =>
      if v =? 255 then Z.add 8 <$> simpleMaskLength mask
      else let '(n, rest) := leading_ones 8 v in
           if (rest =? 0) && forallb (Z.eqb 0) mask then Some n else None
  end.

(** The first result of [IPMask.Size]. *)
Definition Mask_Size (mask : IP) : Z := default 0 (simpleMaskLength mask).

(** The first result of [net.IPMask(net.ParseIP(s).To4()).Size()]. *)
Definition mask_size (netmask : string) : Z := Mask_Size (IP_To4 (ParseIP netmask)).

Definition and_bytes (a b : IP) : IP := zip_with Z.land a b.

Definition IP_Mask (ip mask : IP) : IP :=
  let mask := if (length mask =? 16)%nat && (length ip =? 4)%nat
                 && forallb (Z.eqb 255) (take 12 mask) then drop 12 mask else mask in
  let ip := if (length mask =? 4)%nat && (length ip =? 16)%nat
               && bool_decide (take 12 ip = v4InV6Prefix) then drop 12 ip else ip in
  if (length ip =? length mask)%nat then and_bytes ip mask else [].

Record IPNet := mkIPNet { NetIP : IP; NetMask : IP }.

Definition networkNumberAndMask (n : IPNet) : IP * IP :=
  let ip := match IP_To4 (NetIP n) with
            | [] => if (length (NetIP n) =? 16)%nat then NetIP n else []
            | ip => ip
            end in
  match ip, length (NetMask n) with
  | [], _ => ([], [])
  | _, 4%nat => if (length ip =? 4)%nat then (ip, NetMask n) else ([], [])
  | _, 16%nat => (ip, if (length ip =? 4)%nat then drop 12 (NetMask n) else NetMask n)
  | _, _ => ([], [])
  end.

Definition IPNet_Contains (n : IPNet) (ip : IP) : bool :=
  let '(nn, m) := networkNumberAndMask n in
  let ip := match IP_To4 ip with [] => ip | x => x end in
  (length ip =? length nn)%nat && bool_decide (and_bytes nn m = and_bytes ip m).

(** [net.ParseCIDR]: the address and its network, [None] for an error. *)
Definition ParseCIDR (s : string) : option (IP * IPNet) :=
  match cut_at "/" s with
  | None => None
  | Some (addr, rest) =>
      '(is4, ip) ← ParseAddr addr;
      n ← unsigned (drop_bytes 1 rest);
      let bits := if is4 : bool then 32 else 128 in
      if n <=? bits then
        let m := CIDRMask n bits in Some (ip, mkIPNet (IP_Mask ip m) m)
      else None
  end.

Example parse_v6 :
  map (IP_String ∘ ParseIP)
    ["10.0.0.1"; "::ffff:10.0.0.1"; "2001:DB8::1"; "fe80::0:0:1:0"; "1:2:3:4:5:6:7::"; "::"; "::1";
     "1:2:3:4:5:6:7:8"; "1:2:3:4:5:6:7:8::"; "::1.2.3"; "010.0.0.1"; "1::2::3"; "12345::"; "1:"] =
    ["10.0.0.1"; "10.0.0.1"; "2001:db8::1"; "fe80::1:0"; "1:2:3:4:5:6:7:0"; "::"; "::1";
     "1:2:3:4:5:6:7:8"; "<nil>"; "<nil>"; "<nil>"; "<nil>"; "<nil>"; "<nil>"].
Proof. vm_compute. reflexivity. Qed.

Example parse_cidrs :
  map (λ s, (λ r, (IP_String r.1, IP_String (NetIP r.2), Mask_Size (NetMask r.2))) <$> ParseCIDR s)
    ["192.168.5.77/23"; "10.0.0.0/33"; "10.0.0.0"; "2001:db8::7/120"; "10.0.0.0/"] =
  [Some ("192.168.5.77", "192.168.4.0", 23); None; None;
   Some ("2001:db8::7", "2001:db8::", 120); None].
Proof. vm_compute. reflexivity. Qed.

(** ** Address arithmetic (package cidr)

    [None] stands for a panic. *)

Definition bytes4 (n : Z) : IP :=
  [(n / 2 ^ 24) `mod` 256; (n / 2 ^ 16) `mod` 256; (n / 2 ^ 8) `mod` 256; n `mod` 256].

(** The IPv4 network of a prefix length whose first address is [n]. *)
Definition net4 (n p : Z) : IPNet := mkIPNet (bytes4 n) (CIDRMask p 32).

Class Cidr := {
  AddressCount : IPNet → option Z;
  AddressRange : IPNet → IP * IP;
  Inc : IP → IP;
  Dec : IP → IP;
}.

(** Counting and stepping through IPv4 networks, for [p] a prefix length. *)
Class CidrOk (C : Cidr) : Prop := {
  AddressCount_v4 n p : 0 ≤ n < 2 ^ 32 → 0 ≤ p ≤ 32 → AddressCount (net4 n p) = Some (2 ^ (32 - p));
  AddressRange_v4 n p : 0 ≤ n < 2 ^ 32 → 0 ≤ p ≤ 32 → (2 ^ (32 - p) | n) →
    IP_To4 (AddressRange (net4 n p)).1 = bytes4 n ∧
    IP_To4 (AddressRange (net4 n p)).2 = bytes4 (n + 2 ^ (32 - p) - 1);
  Inc_v4 ip n : IP_To4 ip = bytes4 n → IP_To4 (Inc ip) = bytes4 ((n + 1) `mod` 2 ^ 32);
  Dec_v4 ip n : IP_To4 ip = bytes4 n → IP_To4 (Dec ip) = bytes4 ((n - 1) `mod` 2 ^ 32);
}.

(** An implementation through numbers. *)
Module BytesCidr.

Definition value (ip : IP) : Z := foldl (λ v b, v * 256 + b) 0 ip.

Fixpoint encode (l : nat) (v : Z) : IP :=
  match l with
  | O => []
  | S l => encode l (v / 256) ++ [v `mod` 256]
  end.

Definition step (d : Z) (ip : IP) : IP :=
  let ip := match IP_To4 ip with [] => ip | x => x end in encode (length ip) (value ip + d).

#[global] Instance bytes_cidr : Cidr := {|
  AddressCount n :=
    let k := Z.of_nat (8 * length (NetMask n)) - Mask_Size (NetMask n) in
    if k <? 64 then Some (2 ^ k) else None;
  AddressRange n :=
    let k := Z.of_nat (8 * length (NetMask n)) - Mask_Size (NetMask n) in
    (NetIP n, encode (length (NetIP n)) (value (NetIP n) + 2 ^ k - 1));
  Inc := step 1;
  Dec := step (-1);
|}.

End BytesCidr.

(** ** Numbers, slices and texts *)

(** The IPv4 address of a number, as text. *)
Definition dotted (n : Z) : string := Join (map fmt_d (bytes4 n)) ".".

Lemma byte_bits n k j :
  0 ≤ k → 0 ≤ j → Z.testbit ((n / 2 ^ k) `mod` 256) j = (j <? 8) && Z.testbit n (j + k).
Proof.
  intros Hk Hj. change 256 with (2 ^ 8). rewrite Z.testbit_mod_pow2 by lia.
  by rewrite <- Z.shiftr_div_pow2, Z.shiftr_spec by lia.
Qed.

Lemma bytes4_shape n :
  bytes4 n = [(n / 2 ^ 24) `mod` 256; (n / 2 ^ 16) `mod` 256; (n / 2 ^ 8) `mod` 256;
              (n / 2 ^ 0) `mod` 256].
Proof. unfold bytes4. by rewrite Z.div_1_r. Qed.

Lemma byte_mod n k : 0 ≤ k ≤ 24 → ((n `mod` 2 ^ 32) / 2 ^ k) `mod` 256 = (n / 2 ^ k) `mod` 256.
Proof.
  intros Hk. apply Z.bits_inj'. intros j Hj. rewrite !byte_bits by lia.
  destruct (Z.ltb_spec j 8); [|done]. rewrite Z.testbit_mod_pow2 by lia.
  by rewrite (proj2 (Z.ltb_lt (j + k) 32)) by lia.
Qed.

Lemma bytes4_mod n : bytes4 (n `mod` 2 ^ 32) = bytes4 n.
Proof. rewrite !bytes4_shape. by rewrite !byte_mod by lia. Qed.

Lemma bytes4_value n : 0 ≤ n < 2 ^ 32 → BytesCidr.value (bytes4 n) = n.
Proof. unfold BytesCidr.value, bytes4. simpl. intros. Z.to_euclidean_division_equations; lia. Qed.

Lemma bytes4_inj m n : 0 ≤ m < 2 ^ 32 → 0 ≤ n < 2 ^ 32 → bytes4 m = bytes4 n → m = n.
Proof. intros Hm Hn H. by rewrite <- (bytes4_value m), <- (bytes4_value n), H. Qed.

Lemma encode4 v : BytesCidr.encode 4 v = bytes4 v.
Proof.
  unfold bytes4. simpl. by rewrite !Z.div_div by lia.
Qed.

Lemma To4_bytes4 n : IP_To4 (bytes4 n) = bytes4 n.
Proof. done. Qed.

Lemma To4_mapped n : IP_To4 (v4InV6Prefix ++ bytes4 n) = bytes4 n.
Proof. done. Qed.

(** Closed facts about prefix lengths and bytes, by going through them all. *)
Lemma below (k : nat) (P : Z → bool) n :
  forallb (λ i, P (Z.of_nat i)) (seq 0 k) = true → 0 ≤ n < Z.of_nat k → P n = true.
Proof.
  intros H Hn. rewrite forallb_forall in H. specialize (H (Z.to_nat n)).
  rewrite Z2Nat.id in H by lia. apply H, in_seq. lia.
Qed.

Lemma CIDRMask_bytes p : 0 ≤ p ≤ 32 → CIDRMask p 32 = bytes4 (2 ^ 32 - 2 ^ (32 - p)).
Proof.
  intros Hp. pose (P := λ p, bool_decide (CIDRMask p 32 = bytes4 (2 ^ 32 - 2 ^ (32 - p)))).
  assert (H : P p = true) by (apply (below 33 P); [by vm_compute|lia]).
  by apply bool_decide_eq_true in H.
Qed.

Lemma CIDRMask_size p : 0 ≤ p ≤ 32 → Mask_Size (CIDRMask p 32) = p.
Proof.
  intros Hp. apply Z.eqb_eq.
  apply (below 33 (λ p, Mask_Size (CIDRMask p 32) =? p)); [by vm_compute|lia].
Qed.

(** Cutting a text at a byte it holds once, and joining it again. *)
Lemma cut_byte c a t :
  Contains a (String c "") = false → cut_at (String c "") (a +:+ String c t) = Some (a, String c t).
Proof.
  induction a as [|d a IH]; unfold Contains; simpl.
  - intros _. destruct (ascii_dec c c); [by destruct t|done].
  - destruct (ascii_dec c d) as [<-|Hd]; [by destruct a|]. intros H. unfold Contains in IH.
    destruct (cut_at (String c "") a) as [[]|]; [done|]. by rewrite IH.
Qed.

Lemma split_Join c l fuel :
  l ≠ [] → (length l ≤ S fuel)%nat → forallb (λ a, negb (Contains a (String c ""))) l = true →
  split_go fuel (String c "") (Join l (String c "")) = l.
Proof.
  revert fuel. induction l as [|a l IH]; intros fuel Hne Hf Hl; [done|]. simpl in Hl.
  apply andb_true_iff in Hl as [Ha%negb_true_iff Hl]. destruct l as [|b l].
  - simpl. destruct fuel; [done|]. simpl. unfold Contains in Ha.
    by destruct (cut_at (String c "") a).
  - destruct fuel as [|fuel]; [simpl in Hf; lia|].
    change (Join (a :: b :: l) (String c "")) with (a +:+ String c (Join (b :: l) (String c ""))).
    simpl split_go. rewrite cut_byte by done. f_equal. apply IH; [done|simpl in *; lia|done].
Qed.

Lemma Join_length c l : (length l ≤ S (String.length (Join l (String c ""))))%nat.
Proof.
  induction l as [|a [|b l] IH]; [simpl; lia..|].
  change (Join (a :: b :: l) (String c "")) with (a +:+ String c (Join (b :: l) (String c ""))).
  assert (H : ∀ s t, String.length (s +:+ t) = (String.length s + String.length t)%nat).
  { intros u t. induction u; simpl; [done|]. f_equal. done. }
  rewrite H. simpl in *. lia.
Qed.

Lemma Split_Join c l :
  l ≠ [] → forallb (λ a, negb (Contains a (String c ""))) l = true →
  Split (Join l (String c "")) (String c "") = l.
Proof. intros Hne Hl. apply split_Join; [done| |done]. apply Join_length. Qed.

(** The texts of bytes. *)
Definition byte_ok (b : Z) : bool :=
  bool_decide (parse_octet (fmt_d b) = Some b) && negb (Contains (fmt_d b) ".") &&
  match first_mark (fmt_d b) with None => true | Some _ => false end &&
  negb (Contains (fmt_d b) "/").

Lemma byte_texts b : 0 ≤ b < 256 → byte_ok b = true.
Proof. apply (below 256). by vm_compute. Qed.

Lemma bytes4_texts n : forallb byte_ok (bytes4 n) = true.
Proof.
  assert (∀ m, byte_ok (m `mod` 256) = true) as H.
  { intros m. apply byte_texts, Z.mod_pos_bound. lia. }
  unfold bytes4. simpl. by rewrite !H.
Qed.

Lemma bytes4_list n : ∃ a b c d, bytes4 n = [a; b; c; d] ∧ forallb byte_ok [a; b; c; d] = true.
Proof. do 4 eexists. split; [reflexivity|]. apply bytes4_texts. Qed.

Lemma byte_ok_spec b : byte_ok b = true →
  parse_octet (fmt_d b) = Some b ∧ Contains (fmt_d b) "." = false ∧
  first_mark (fmt_d b) = None ∧ Contains (fmt_d b) "/" = false.
Proof.
  unfold byte_ok. intros H. simp. rewrite bool_decide_eq_true in *. by destruct (first_mark _).
Qed.

Lemma ParseIPv4_dotted n : ParseIPv4 (dotted n) = Some (bytes4 n).
Proof.
  unfold ParseIPv4, dotted. destruct (bytes4_list n) as (a & b & c & d & -> & Hb).
  simpl in Hb. simp. repeat match goal with H : byte_ok _ = true |- _ => apply byte_ok_spec in H end.
  simp. rewrite Split_Join; [|done|].
  - simpl. repeat match goal with H : parse_octet _ = _ |- _ => rewrite H; clear H; simpl end. done.
  - simpl. repeat match goal with H : Contains _ _ = _ |- _ => rewrite H; clear H; simpl end. done.
Qed.

Lemma first_mark_app s t : first_mark s = None → first_mark (s +:+ t) = first_mark t.
Proof.
  induction s as [|c s IH]; simpl; [done|].
  destruct (Ascii.eqb c "." || Ascii.eqb c ":" || Ascii.eqb c "%"); [done|]. apply IH.
Qed.

Lemma ParseAddr_dotted n : ParseAddr (dotted n) = Some (true, v4InV6Prefix ++ bytes4 n).
Proof.
  unfold ParseAddr. replace (first_mark (dotted n)) with (Some "."%char).
  { by rewrite ParseIPv4_dotted. }
  unfold dotted. destruct (bytes4_list n) as (a & b & c & d & -> & Hb).
  simpl in Hb. simp. apply byte_ok_spec in H as (_ & _ & Hm & _).
  simpl. by rewrite first_mark_app.
Qed.

Lemma ParseIP_dotted n : ParseIP (dotted n) = v4InV6Prefix ++ bytes4 n.
Proof. unfold ParseIP. by rewrite ParseAddr_dotted. Qed.

Lemma To4_ParseIP n : IP_To4 (ParseIP (dotted n)) = bytes4 n.
Proof. by rewrite ParseIP_dotted. Qed.

Lemma dotted_inj m n : 0 ≤ m < 2 ^ 32 → 0 ≤ n < 2 ^ 32 → dotted m = dotted n → m = n.
Proof.
  intros Hm Hn H. apply bytes4_inj; [done..|].
  by rewrite <- (To4_ParseIP m), <- (To4_ParseIP n), H.
Qed.

Lemma dotted_nonempty n : dotted n ≠ "".
Proof. intros H. pose proof (ParseIP_dotted n) as Hp. by rewrite H in Hp. Qed.

Lemma IP_String_v4 ip n : IP_To4 ip = bytes4 n → IP_String ip = dotted n.
Proof.
  intros H. unfold IP_String. destruct ip as [|x l] eqn:Hl; [done|]. rewrite <- Hl in *. rewrite H.
  assert (Hlen : ((length ip =? 4)%nat || (length ip =? 16)%nat) = true).
  { unfold IP_To4 in H. destruct (length ip =? 4)%nat; [done|].
    destruct (length ip =? 16)%nat; [done|]. done. }
  by rewrite Hlen.
Qed.

(** ** Membership in an IPv4 network *)

Lemma and_bytes4 m n : and_bytes (bytes4 m) (bytes4 n) = bytes4 (Z.land m n).
Proof.
  assert (H : ∀ k, 0 ≤ k → Z.land ((m / 2 ^ k) `mod` 256) ((n / 2 ^ k) `mod` 256) =
                           (Z.land m n / 2 ^ k) `mod` 256).
  { intros k Hk. apply Z.bits_inj'. intros j Hj. rewrite Z.land_spec, !byte_bits, Z.land_spec by lia.
    by destruct (j <? 8). }
  rewrite !bytes4_shape. unfold and_bytes. simpl zip_with. by rewrite !H by lia.
Qed.

(** Masking clears the host part. *)
Lemma land_mask n k :
  0 ≤ n < 2 ^ 32 → 0 ≤ k ≤ 32 → Z.land n (2 ^ 32 - 2 ^ k) = n / 2 ^ k * 2 ^ k.
Proof.
  intros Hn Hk. rewrite <- Z.shiftr_div_pow2, <- Z.shiftl_mul_pow2 by lia.
  replace (2 ^ 32 - 2 ^ k) with (Z.shiftl (Z.ones (32 - k)) k).
  2: { rewrite Z.shiftl_mul_pow2, Z.ones_equiv, <- Z.sub_1_r, Z.mul_sub_distr_r, <- Z.pow_add_r by lia.
       replace (32 - k + k) with 32 by lia. lia. }
  apply Z.bits_inj'. intros j Hj. rewrite Z.land_spec, !Z.shiftl_spec by lia.
  destruct (Z.lt_ge_cases j k) as [Hjk|Hjk].
  { by rewrite !(Z.testbit_neg_r _ (j - k)), andb_false_r by lia. }
  rewrite Z.shiftr_spec by lia. replace (j - k + k) with j by lia.
  destruct (Z.lt_ge_cases j 32) as [Hj32|Hj32].
  - rewrite Z.ones_spec_low by lia. apply andb_true_r.
  - rewrite Z.ones_spec_high, andb_false_r by lia. symmetry. apply Z.testbit_false; [lia|].
    rewrite Z.div_small; [done|]. split; [lia|].
    apply Z.lt_le_trans with (2 ^ 32); [lia|]. by apply Z.pow_le_mono_r.
Qed.

Lemma Contains_v4 base p ip n :
  0 ≤ p ≤ 32 → 0 ≤ base < 2 ^ 32 → 0 ≤ n < 2 ^ 32 → IP_To4 ip = bytes4 n →
  IPNet_Contains (net4 base p) ip = (base / 2 ^ (32 - p) =? n / 2 ^ (32 - p)).
Proof.
  intros Hp Hb Hn Hip. unfold IPNet_Contains, networkNumberAndMask, net4. simpl NetIP. simpl NetMask.
  rewrite CIDRMask_bytes, To4_bytes4, Hip by done.
  change (bool_decide (and_bytes (bytes4 base) (bytes4 (2 ^ 32 - 2 ^ (32 - p))) =
                       and_bytes (bytes4 n) (bytes4 (2 ^ 32 - 2 ^ (32 - p)))) =
          (base / 2 ^ (32 - p) =? n / 2 ^ (32 - p))).
  rewrite !and_bytes4, !land_mask by lia.
  assert (Hk : 0 < 2 ^ (32 - p)) by (apply Z.pow_pos_nonneg; lia).
  assert (Hr : ∀ m, 0 ≤ m < 2 ^ 32 → 0 ≤ m / 2 ^ (32 - p) * 2 ^ (32 - p) < 2 ^ 32).
  { intros m Hm. pose proof (Z.mul_div_le m _ Hk). pose proof (Z.div_pos m _ (proj1 Hm) Hk). nia. }
  apply Bool.eq_iff_eq_true. rewrite bool_decide_eq_true, Z.eqb_eq. split.
  - intros H%bytes4_inj; [|by apply Hr..]. by apply Z.mul_cancel_r in H; [|lia].
  - by intros ->.
Qed.

(** In terms of the first address of the network. *)
Lemma Contains_range base p ip n :
  0 ≤ p ≤ 32 → 0 ≤ base < 2 ^ 32 → 0 ≤ n < 2 ^ 32 → (2 ^ (32 - p) | base) → IP_To4 ip = bytes4 n →
  IPNet_Contains (net4 base p) ip = true ↔ base ≤ n < base + 2 ^ (32 - p).
Proof.
  intros Hp Hb Hn [q ->] Hip. rewrite (Contains_v4 _ _ _ n), Z.eqb_eq by done.
  assert (Hk : 0 < 2 ^ (32 - p)) by (apply Z.pow_pos_nonneg; lia).
  rewrite Z.div_mul by lia. split.
  - intros ->. pose proof (Z.mul_div_le n _ Hk). pose proof (Z.mul_succ_div_gt n _ Hk). lia.
  - intros H. apply Z.div_unique with (n - q * 2 ^ (32 - p)); lia.
Qed.

(** ** The implementation meets the laws *)

#[global] Instance bytes_cidr_ok : CidrOk BytesCidr.bytes_cidr.
Proof.
  assert (Hl : ∀ p, 0 ≤ p ≤ 32 → length (CIDRMask p 32) = 4%nat).
  { intros p Hp. by rewrite CIDRMask_bytes. }
  assert (Hs : ∀ d ip n, IP_To4 ip = bytes4 n →
            IP_To4 (BytesCidr.step d ip) = bytes4 ((n + d) `mod` 2 ^ 32)).
  { intros d ip n Hip. unfold BytesCidr.step. rewrite Hip.
    change (length (match bytes4 n with [] => ip | x => x end)) with 4%nat.
    rewrite encode4, To4_bytes4. rewrite bytes4_mod.
    change (bytes4 (BytesCidr.value (bytes4 n) + d) = bytes4 (n + d)).
    rewrite <- (bytes4_mod n), bytes4_value by (apply Z.mod_pos_bound; lia).
    rewrite <- bytes4_mod, Zplus_mod_idemp_l. apply bytes4_mod. }
  split.
  - intros n p Hn Hp. simpl. rewrite Hl, CIDRMask_size by done.
    by rewrite (proj2 (Z.ltb_lt _ _)) by lia.
  - intros n p Hn Hp Hd. split; [done|].
    change (IP_To4 (BytesCidr.encode 4 (BytesCidr.value (bytes4 n) + 2 ^ (Z.of_nat (8 * length
              (CIDRMask p 32)) - Mask_Size (CIDRMask p 32)) - 1)) = bytes4 (n + 2 ^ (32 - p) - 1)).
    by rewrite Hl, CIDRMask_size, encode4, bytes4_value.
  - intros ip n. apply Hs.
  - intros ip n. apply Hs.
Qed.

(** ** Texts of networks *)

(** [fmt.Sprintf("%s/%d", ip, p)] *)
Definition cidr_text (ip : string) (p : Z) : string := ip +:+ "/" +:+ fmt_d p.

Lemma Contains_app_false c s t :
  Contains s (String c "") = false → Contains t (String c "") = false →
  Contains (s +:+ t) (String c "") = false.
Proof.
  induction s as [|d s IH]; [done|]. unfold Contains in *. simpl.
  destruct (ascii_dec c d); [by destruct s|]. intros Hs Ht.
  destruct (cut_at (String c "") s) as [[]|]; [done|]. specialize (IH eq_refl Ht).
  by destruct (cut_at (String c "") (s +:+ t)) as [[]|].
Qed.

Lemma dotted_no_slash n : Contains (dotted n) "/" = false.
Proof.
  unfold dotted. destruct (bytes4_list n) as (a & b & c & d & -> & Hb). simpl in Hb. simp.
  repeat match goal with H : byte_ok _ = true |- _ => apply byte_ok_spec in H as (_ & _ & _ & H) end.
  simpl Join. by repeat apply Contains_app_false.
Qed.

Lemma cut_cidr n p : cut_at "/" (cidr_text (dotted n) p) = Some (dotted n, "/" +:+ fmt_d p).
Proof. apply cut_byte, dotted_no_slash. Qed.

Lemma cidr_text_inj m n p :
  0 ≤ m < 2 ^ 32 → 0 ≤ n < 2 ^ 32 → cidr_text (dotted m) p = cidr_text (dotted n) p → m = n.
Proof.
  intros Hm Hn H. apply dotted_inj; [done..|].
  pose proof (cut_cidr m p) as H1. rewrite H, cut_cidr in H1. by inversion H1.
Qed.

Lemma IP_Mask_v4 n p :
  0 ≤ n < 2 ^ 32 → 0 ≤ p ≤ 32 →
  IP_Mask (v4InV6Prefix ++ bytes4 n) (CIDRMask p 32) = bytes4 (n / 2 ^ (32 - p) * 2 ^ (32 - p)).
Proof.
  intros Hn Hp. rewrite CIDRMask_bytes by done.
  change (and_bytes (bytes4 n) (bytes4 (2 ^ 32 - 2 ^ (32 - p))) =
          bytes4 (n / 2 ^ (32 - p) * 2 ^ (32 - p))).
  by rewrite and_bytes4, land_mask by lia.
Qed.

(** Every text [a.b.c.d/p] is a network, with its host part cleared. *)
Lemma ParseCIDR_v4 n p :
  0 ≤ n < 2 ^ 32 → 0 ≤ p ≤ 32 →
  ParseCIDR (cidr_text (dotted n) p) =
  Some (v4InV6Prefix ++ bytes4 n, net4 (n / 2 ^ (32 - p) * 2 ^ (32 - p)) p).
Proof.
  intros Hn Hp. unfold ParseCIDR. rewrite cut_cidr, ParseAddr_dotted. change (drop_bytes 1 ("/" +:+ fmt_d p)) with (fmt_d p).
  assert (H : unsigned (fmt_d p) = Some p).
  { pose (P := λ p, bool_decide (unsigned (fmt_d p) = Some p)).
    assert (H : P p = true) by (apply (below 33 P); [by vm_compute|lia]).
    by apply bool_decide_eq_true in H. }
  rewrite H. cbn [mbind option_bind]. rewrite (proj2 (Z.leb_le p 32)) by lia.
  unfold net4. by rewrite <- (IP_Mask_v4 n p).
Qed.
