(* ===== verification/ErrorCodes.v ===== *)
(** * ErrorCodes: the business error codes (common/error_codes.go, error_codes_str.go)

    The declared constants, the [String] method that [stringer] generated for
    them, and the error values the operations return: [CLError] with its code,
    message and cause, and the plain Go errors (gorm's not-found error, a
    failed statement, [fmt.Errorf]). *)

From S2P Require Import Prelude GoLib.

(** ** The constants *)

Definition ErrUnknown : Z := 100000.
Definition ErrInsufficientResource : Z := 100001.
Definition ErrResourceNotFound : Z := 100002.
Definition ErrInvalidParameter : Z := 100003.
Definition ErrPermissionDenied : Z := 100004.
Definition ErrExecuteOnHyperFailed : Z := 100005.
Definition ErrOwnerNotFound : Z := 100006.
Definition ErrEncryptionFailed : Z := 100008.
Definition ErrJSONMarshalFailed : Z := 100009.
Definition ErrResourcesInOrg : Z := 100010.
Definition ErrInvalidCIDR : Z := 100011.
Definition ErrCIDRTooBig : Z := 100012.
Definition ErrOperationNotSupported : Z := 100013.
Definition ErrDatabaseError : Z := 100100.
Definition ErrSQLSyntaxError : Z := 100101.
Definition ErrUserNotFound : Z := 100200.
Definition ErrUserCreationFailed : Z := 100201.
Definition ErrUserUpdateFailed : Z := 100202.
Definition ErrUserDeleteFailed : Z := 100203.
Definition ErrOrgNotFound : Z := 100204.
Definition ErrOrgCreationFailed : Z := 100205.
Definition ErrOrgUpdateFailed : Z := 100206.
Definition ErrOrgDeleteFailed : Z := 100207.
Definition ErrNoRoleOnUser : Z := 100208.
Definition ErrPasswordHashFailed : Z := 100209.
Definition ErrPasswordMismatch : Z := 100210.
Definition ErrMemberNotFound : Z := 100300.
Definition ErrMemberCreationFailed : Z := 100301.
Definition ErrMemberUpdateFailed : Z := 100302.
Definition ErrMemberDeleteFailed : Z := 100303.
Definition ErrInstanceNotFound : Z := 111001.
Definition ErrInstanceCreationFailed : Z := 111002.
Definition ErrInstanceUpdateFailed : Z := 111003.
Definition ErrInstanceDeleteFailed : Z := 111004.
Definition ErrInstanceInvalidState : Z := 111005.
Definition ErrInstanceInvalidConfig : Z := 111007.
Definition ErrInstancePowerActionFail : Z := 111008.
Definition ErrInstanceNoRouter : Z := 111009.
Definition ErrInstanceNoPrimaryInterface : Z := 111010.
Definition ErrInvalidDomainFormat : Z := 111011.
Definition ErrConsoleCreateFailed : Z := 111012.
Definition ErrConsoleNotFound : Z := 111013.
Definition ErrInvalidConsoleToken : Z := 111014.
Definition ErrInvalidMetadata : Z := 111015.
Definition ErrFlavorNotFound : Z := 111901.
Definition ErrFlavorCreateFailed : Z := 111902.
Definition ErrFlavorUpdateFailed : Z := 111903.
Definition ErrFlavorDeleteFailed : Z := 111904.
Definition ErrFlavorInUse : Z := 111905.
Definition ErrDiskTooSmall : Z := 111906.
Definition ErrMigrationNotFound : Z := 111801.
Definition ErrMigrationCreateFailed : Z := 111802.
Definition ErrMigrationUpdateFailed : Z := 111803.
Definition ErrMigrationDeleteFailed : Z := 111804.
Definition ErrMigrationInProgress : Z := 111805.
Definition ErrVolumeNotFound : Z := 121001.
Definition ErrVolumeCreationFailed : Z := 121002.
Definition ErrVolumeUpdateFailed : Z := 121003.
Definition ErrVolumeDeleteFailed : Z := 121004.
Definition ErrVolumeAttachFailed : Z := 121005.
Definition ErrVolumeDetachFailed : Z := 121006.
Definition ErrVolumeInvalidState : Z := 121007.
Definition ErrVolumeInvalidSize : Z := 121008.
Definition ErrBootVolumeNotFound : Z := 121009.
Definition ErrBootVolumeUpdateFailed : Z := 121010.
Definition ErrBootVolumeDeleteFailed : Z := 121011.
Definition ErrVolumeIsInUse : Z := 121012.
Definition ErrBootVolumeCannotDetach : Z := 121013.
Definition ErrVolumeIsBusy : Z := 121014.
Definition ErrVolumeIsRestoring : Z := 121015.
Definition ErrVolumeInConsistencyGroup : Z := 121016.
Definition ErrBackupNotFound : Z := 125100.
Definition ErrBackupCreationFailed : Z := 125101.
Definition ErrBackupUpdateFailed : Z := 125102.
Definition ErrBackupDeleteFailed : Z := 125103.
Definition ErrBackupInUse : Z := 125104.
Definition ErrCannotRestoreWhileInstanceIsRunning : Z := 125105.
Definition ErrCannotRestoreFromBackup : Z := 125106.
Definition ErrBackupInvalidState : Z := 125107.
Definition ErrCGNotFound : Z := 125200.
Definition ErrCGCreationFailed : Z := 125201.
Definition ErrCGUpdateFailed : Z := 125202.
Definition ErrCGDeleteFailed : Z := 125203.
Definition ErrCGInvalidState : Z := 125204.
Definition ErrCGIsBusy : Z := 125205.
Definition ErrCGSnapshotExists : Z := 125206.
Definition ErrCGVolumeNotInSamePool : Z := 125207.
Definition ErrCGVolumeIsBusy : Z := 125208.
Definition ErrCGVolumeInvalidState : Z := 125209.
Definition ErrCGSnapshotNotFound : Z := 125210.
Definition ErrCGSnapshotCreationFailed : Z := 125211.
Definition ErrCGSnapshotDeleteFailed : Z := 125212.
Definition ErrCGSnapshotRestoreFailed : Z := 125213.
Definition ErrCGSnapshotIsBusy : Z := 125214.
Definition ErrCGCannotModifyWithSnapshots : Z := 125215.
Definition ErrCGInstanceNotShutoff : Z := 125216.
Definition ErrCGNoVolumes : Z := 125217.
Definition ErrCGVolumeAttachedNoInstance : Z := 125218.
Definition ErrCGSnapshotCannotRestore : Z := 125219.
Definition ErrCGSnapshotRestoreInProgress : Z := 125220.
Definition ErrAddressNotFound : Z := 131001.
Definition ErrAddressUpdateFailed : Z := 131002.
Definition ErrAddressDeleteFailed : Z := 131003.
Definition ErrInsufficientAddress : Z := 131004.
Definition ErrAddressCreateFailed : Z := 131005.
Definition ErrAddressInUse : Z := 131006.
Definition ErrSubnetNotFound : Z := 131101.
Definition ErrSubnetCreateFailed : Z := 131102.
Definition ErrSubnetUpdateFailed : Z := 131103.
Definition ErrSubnetDeleteFailed : Z := 131104.
Definition ErrSubnetShouldBePublic : Z := 131105.
Definition ErrSubnetShouldBeSite : Z := 131106.
Definition ErrPublicSubnetNotFound : Z := 131107.
Definition ErrSiteSubnetUpdateFailed : Z := 131108.
Definition ErrSubnetsCrossVPCInOneInstance : Z := 131109.
Definition ErrPublicSubnetCannotInVPC : Z := 131110.
Definition ErrInterfaceNotFound : Z := 131201.
Definition ErrInterfaceCreateFailed : Z := 131202.
Definition ErrInterfaceUpdateFailed : Z := 131203.
Definition ErrNotAllowInterfaceInSiteSubnet : Z := 131204.
Definition ErrInterfaceDeleteFailed : Z := 131205.
Definition ErrCannotDeletePrimaryInterface : Z := 131206.
Definition ErrTooManyInterfaces : Z := 131207.
Definition ErrInterfaceInvalidSubnet : Z := 131208.
Definition ErrFIPNotFound : Z := 131201.
Definition ErrFIPCreateFailed : Z := 131202.
Definition ErrFIPUpdateFailed : Z := 131203.
Definition ErrDeleteNativeFIPFailed : Z := 131204.
Definition ErrUpdatePublicIPFailed : Z := 131205.
Definition ErrUpdateInstIDOfFIPFailed : Z := 131206.
Definition ErrUpdateSubnetIDOfFIPFailed : Z := 131207.
Definition ErrFIPDeleteFailed : Z := 131208.
Definition ErrFIPInUse : Z := 131209.
Definition ErrDummyFIPCreateFailed : Z := 131210.
Definition ErrUpdateGroupIDFailed : Z := 131211.
Definition ErrFIPListFailed : Z := 131212.
Definition ErrRouterNotFound : Z := 131301.
Definition ErrRouterCreateFailed : Z := 131302.
Definition ErrRouterUpdateFailed : Z := 131303.
Definition ErrRouterUpdateDefaultSGFailed : Z := 131304.
Definition ErrRouterDeleteFailed : Z := 131305.
Definition ErrRouterInUse : Z := 131306.
Definition ErrRouterHasFloatingIPs : Z := 131307.
Definition ErrRouterHasSubnets : Z := 131308.
Definition ErrRouterHasPortmaps : Z := 131309.
Definition ErrIpGroupNotFound : Z := 131401.
Definition ErrIpGroupCreateFailed : Z := 131402.
Definition ErrIpGroupUpdateFailed : Z := 131403.
Definition ErrIpGroupDeleteFailed : Z := 131404.
Definition ErrIpGroupInUse : Z := 131405.
Definition ErrSecurityGroupNotFound : Z := 141001.
Definition ErrSecurityGroupCreateFailed : Z := 141002.
Definition ErrSecurityGroupUpdateFailed : Z := 141003.
Definition ErrSecurityGroupDeleteFailed : Z := 141004.
Definition ErrAssociateSG2InterfaceFailed : Z := 141005.
Definition ErrAtLeastOneSGRequired : Z := 141006.
Definition ErrCannotDeleteDefaultSG : Z := 141007.
Definition ErrSGHasInterfaces : Z := 141008.
Definition ErrSecurityRuleNotFound : Z := 141009.
Definition ErrSecurityRuleInvalid : Z := 141010.
Definition ErrSecurityRuleDeleteFailed : Z := 141011.
Definition ErrSecurityRuleCreateFailed : Z := 141012.
Definition ErrSecurityRuleUpdateFailed : Z := 141013.
Definition ErrImageNotFound : Z := 151000.
Definition ErrImageInUse : Z := 151001.
Definition ErrImageNoQA : Z := 151002.
Definition ErrImageCreateFailed : Z := 151003.
Definition ErrImageUpdateFailed : Z := 151004.
Definition ErrImageDeleteFailed : Z := 151005.
Definition ErrImageNotAvailable : Z := 151006.
Definition ErrImageStorageCreateFailed : Z := 151007.
Definition ErrImageStorageDeleteFailed : Z := 151008.
Definition ErrImageStorageUpdateFailed : Z := 151009.
Definition ErrImageStorageNotFound : Z := 151010.
Definition ErrRescueImageNotFound : Z := 151011.
Definition ErrSSHKeyNotFound : Z := 161001.
Definition ErrSSHKeyCreateFailed : Z := 161002.
Definition ErrSSHKeyUpdateFailed : Z := 161003.
Definition ErrSSHKeyDeleteFailed : Z := 161004.
Definition ErrSSHKeyGenerateFailed : Z := 161005.
Definition ErrSSHKeyInUse : Z := 161006.
Definition ErrNoQualifiedHypervisor : Z := 171001.
Definition ErrHypervisorNotFound : Z := 171002.
Definition ErrHypervisorUpdateFailed : Z := 171003.
Definition ErrHypervisorDeleteFailed : Z := 171004.
Definition ErrHypervisorInvalidState : Z := 171005.
Definition ErrZoneNotFound : Z := 171006.
Definition ErrUnsetDefaultZoneFailed : Z := 171007.
Definition ErrZoneCreationFailed : Z := 171008.
Definition ErrZoneUpdateFailed : Z := 171009.
Definition ErrZoneDeleteFailed : Z := 171010.
Definition ErrHypersInZone : Z := 171011.
Definition ErrTaskNotFound : Z := 181001.
Definition ErrDictionaryRecordsNotFound : Z := 199801.
Definition ErrDictionaryCreateFailed : Z := 199802.
Definition ErrDictionaryUpdateFailed : Z := 199803.
Definition ErrDictionaryDeleteFailed : Z := 199804.

(** The codes of load balancers are untyped constants: they are not among the
    values of the type [ErrCode] that [stringer] reads. *)
Definition ErrLoadBalancerNotFound : Z := 131501.
Definition ErrLoadBalancerListFailed : Z := 131502.
Definition ErrLoadBalancerCreateFailed : Z := 131503.
Definition ErrLoadBalancerUpdateFailed : Z := 131504.
Definition ErrLoadBalancerDeleteFailed : Z := 131505.
Definition ErrVrrpInstanceNotFound : Z := 131506.
Definition ErrVrrpInstanceCreateFailed : Z := 131507.
Definition ErrVrrpInstanceUpdateFailed : Z := 131508.
Definition ErrVrrpInstanceDeleteFailed : Z := 131509.
Definition ErrListenerNotFound : Z := 131510.
Definition ErrListenerListFailed : Z := 131511.
Definition ErrListenerCreateFailed : Z := 131512.
Definition ErrListenerUpdateFailed : Z := 131513.
Definition ErrListenerDeleteFailed : Z := 131514.
Definition ErrBackendNotFound : Z := 131515.
Definition ErrBackendListFailed : Z := 131516.
Definition ErrBackendCreateFailed : Z := 131517.
Definition ErrBackendUpdateFailed : Z := 131518.
Definition ErrBackendDeleteFailed : Z := 131519.

(** Every declared constant with its identifier, the prefix [Err] trimmed, in
    the order of the source. *)
Definition ErrCode_constants : list (string * Z) :=
  [ ("Unknown", ErrUnknown);
    ("InsufficientResource", ErrInsufficientResource);
    ("ResourceNotFound", ErrResourceNotFound);
    ("InvalidParameter", ErrInvalidParameter);
    ("PermissionDenied", ErrPermissionDenied);
    ("ExecuteOnHyperFailed", ErrExecuteOnHyperFailed);
    ("OwnerNotFound", ErrOwnerNotFound);
    ("EncryptionFailed", ErrEncryptionFailed);
    ("JSONMarshalFailed", ErrJSONMarshalFailed);
    ("ResourcesInOrg", ErrResourcesInOrg);
    ("InvalidCIDR", ErrInvalidCIDR);
    ("CIDRTooBig", ErrCIDRTooBig);
    ("OperationNotSupported", ErrOperationNotSupported);
    ("DatabaseError", ErrDatabaseError);
    ("SQLSyntaxError", ErrSQLSyntaxError);
    ("UserNotFound", ErrUserNotFound);
    ("UserCreationFailed", ErrUserCreationFailed);
    ("UserUpdateFailed", ErrUserUpdateFailed);
    ("UserDeleteFailed", ErrUserDeleteFailed);
    ("OrgNotFound", ErrOrgNotFound);
    ("OrgCreationFailed", ErrOrgCreationFailed);
    ("OrgUpdateFailed", ErrOrgUpdateFailed);
    ("OrgDeleteFailed", ErrOrgDeleteFailed);
    ("NoRoleOnUser", ErrNoRoleOnUser);
    ("PasswordHashFailed", ErrPasswordHashFailed);
    ("PasswordMismatch", ErrPasswordMismatch);
    ("MemberNotFound", ErrMemberNotFound);
    ("MemberCreationFailed", ErrMemberCreationFailed);
    ("MemberUpdateFailed", ErrMemberUpdateFailed);
    ("MemberDeleteFailed", ErrMemberDeleteFailed);
    ("InstanceNotFound", ErrInstanceNotFound);
    ("InstanceCreationFailed", ErrInstanceCreationFailed);
    ("InstanceUpdateFailed", ErrInstanceUpdateFailed);
    ("InstanceDeleteFailed", ErrInstanceDeleteFailed);
    ("InstanceInvalidState", ErrInstanceInvalidState);
    ("InstanceInvalidConfig", ErrInstanceInvalidConfig);
    ("InstancePowerActionFail", ErrInstancePowerActionFail);
    ("InstanceNoRouter", ErrInstanceNoRouter);
    ("InstanceNoPrimaryInterface", ErrInstanceNoPrimaryInterface);
    ("InvalidDomainFormat", ErrInvalidDomainFormat);
    ("ConsoleCreateFailed", ErrConsoleCreateFailed);
    ("ConsoleNotFound", ErrConsoleNotFound);
    ("InvalidConsoleToken", ErrInvalidConsoleToken);
    ("InvalidMetadata", ErrInvalidMetadata);
    ("FlavorNotFound", ErrFlavorNotFound);
    ("FlavorCreateFailed", ErrFlavorCreateFailed);
    ("FlavorUpdateFailed", ErrFlavorUpdateFailed);
    ("FlavorDeleteFailed", ErrFlavorDeleteFailed);
    ("FlavorInUse", ErrFlavorInUse);
    ("DiskTooSmall", ErrDiskTooSmall);
    ("MigrationNotFound", ErrMigrationNotFound);
    ("MigrationCreateFailed", ErrMigrationCreateFailed);
    ("MigrationUpdateFailed", ErrMigrationUpdateFailed);
    ("MigrationDeleteFailed", ErrMigrationDeleteFailed);
    ("MigrationInProgress", ErrMigrationInProgress);
    ("VolumeNotFound", ErrVolumeNotFound);
    ("VolumeCreationFailed", ErrVolumeCreationFailed);
    ("VolumeUpdateFailed", ErrVolumeUpdateFailed);
    ("VolumeDeleteFailed", ErrVolumeDeleteFailed);
    ("VolumeAttachFailed", ErrVolumeAttachFailed);
    ("VolumeDetachFailed", ErrVolumeDetachFailed);
    ("VolumeInvalidState", ErrVolumeInvalidState);
    ("VolumeInvalidSize", ErrVolumeInvalidSize);
    ("BootVolumeNotFound", ErrBootVolumeNotFound);
    ("BootVolumeUpdateFailed", ErrBootVolumeUpdateFailed);
    ("BootVolumeDeleteFailed", ErrBootVolumeDeleteFailed);
    ("VolumeIsInUse", ErrVolumeIsInUse);
    ("BootVolumeCannotDetach", ErrBootVolumeCannotDetach);
    ("VolumeIsBusy", ErrVolumeIsBusy);
    ("VolumeIsRestoring", ErrVolumeIsRestoring);
    ("VolumeInConsistencyGroup", ErrVolumeInConsistencyGroup);
    ("BackupNotFound", ErrBackupNotFound);
    ("BackupCreationFailed", ErrBackupCreationFailed);
    ("BackupUpdateFailed", ErrBackupUpdateFailed);
    ("BackupDeleteFailed", ErrBackupDeleteFailed);
    ("BackupInUse", ErrBackupInUse);
    ("CannotRestoreWhileInstanceIsRunning", ErrCannotRestoreWhileInstanceIsRunning);
    ("CannotRestoreFromBackup", ErrCannotRestoreFromBackup);
    ("BackupInvalidState", ErrBackupInvalidState);
    ("CGNotFound", ErrCGNotFound);
    ("CGCreationFailed", ErrCGCreationFailed);
    ("CGUpdateFailed", ErrCGUpdateFailed);
    ("CGDeleteFailed", ErrCGDeleteFailed);
    ("CGInvalidState", ErrCGInvalidState);
    ("CGIsBusy", ErrCGIsBusy);
    ("CGSnapshotExists", ErrCGSnapshotExists);
    ("CGVolumeNotInSamePool", ErrCGVolumeNotInSamePool);
    ("CGVolumeIsBusy", ErrCGVolumeIsBusy);
    ("CGVolumeInvalidState", ErrCGVolumeInvalidState);
    ("CGSnapshotNotFound", ErrCGSnapshotNotFound);
    ("CGSnapshotCreationFailed", ErrCGSnapshotCreationFailed);
    ("CGSnapshotDeleteFailed", ErrCGSnapshotDeleteFailed);
    ("CGSnapshotRestoreFailed", ErrCGSnapshotRestoreFailed);
    ("CGSnapshotIsBusy", ErrCGSnapshotIsBusy);
    ("CGCannotModifyWithSnapshots", ErrCGCannotModifyWithSnapshots);
    ("CGInstanceNotShutoff", ErrCGInstanceNotShutoff);
    ("CGNoVolumes", ErrCGNoVolumes);
    ("CGVolumeAttachedNoInstance", ErrCGVolumeAttachedNoInstance);
    ("CGSnapshotCannotRestore", ErrCGSnapshotCannotRestore);
    ("CGSnapshotRestoreInProgress", ErrCGSnapshotRestoreInProgress);
    ("AddressNotFound", ErrAddressNotFound);
    ("AddressUpdateFailed", ErrAddressUpdateFailed);
    ("AddressDeleteFailed", ErrAddressDeleteFailed);
    ("InsufficientAddress", ErrInsufficientAddress);
    ("AddressCreateFailed", ErrAddressCreateFailed);
    ("AddressInUse", ErrAddressInUse);
    ("SubnetNotFound", ErrSubnetNotFound);
    ("SubnetCreateFailed", ErrSubnetCreateFailed);
    ("SubnetUpdateFailed", ErrSubnetUpdateFailed);
    ("SubnetDeleteFailed", ErrSubnetDeleteFailed);
    ("SubnetShouldBePublic", ErrSubnetShouldBePublic);
    ("SubnetShouldBeSite", ErrSubnetShouldBeSite);
    ("PublicSubnetNotFound", ErrPublicSubnetNotFound);
    ("SiteSubnetUpdateFailed", ErrSiteSubnetUpdateFailed);
    ("SubnetsCrossVPCInOneInstance", ErrSubnetsCrossVPCInOneInstance);
    ("PublicSubnetCannotInVPC", ErrPublicSubnetCannotInVPC);
    ("InterfaceNotFound", ErrInterfaceNotFound);
    ("InterfaceCreateFailed", ErrInterfaceCreateFailed);
    ("InterfaceUpdateFailed", ErrInterfaceUpdateFailed);
    ("NotAllowInterfaceInSiteSubnet", ErrNotAllowInterfaceInSiteSubnet);
    ("InterfaceDeleteFailed", ErrInterfaceDeleteFailed);
    ("CannotDeletePrimaryInterface", ErrCannotDeletePrimaryInterface);
    ("TooManyInterfaces", ErrTooManyInterfaces);
    ("InterfaceInvalidSubnet", ErrInterfaceInvalidSubnet);
    ("FIPNotFound", ErrFIPNotFound);
    ("FIPCreateFailed", ErrFIPCreateFailed);
    ("FIPUpdateFailed", ErrFIPUpdateFailed);
    ("DeleteNativeFIPFailed", ErrDeleteNativeFIPFailed);
    ("UpdatePublicIPFailed", ErrUpdatePublicIPFailed);
    ("UpdateInstIDOfFIPFailed", ErrUpdateInstIDOfFIPFailed);
    ("UpdateSubnetIDOfFIPFailed", ErrUpdateSubnetIDOfFIPFailed);
    ("FIPDeleteFailed", ErrFIPDeleteFailed);
    ("FIPInUse", ErrFIPInUse);
    ("DummyFIPCreateFailed", ErrDummyFIPCreateFailed);
    ("UpdateGroupIDFailed", ErrUpdateGroupIDFailed);
    ("FIPListFailed", ErrFIPListFailed);
    ("RouterNotFound", ErrRouterNotFound);
    ("RouterCreateFailed", ErrRouterCreateFailed);
    ("RouterUpdateFailed", ErrRouterUpdateFailed);
    ("RouterUpdateDefaultSGFailed", ErrRouterUpdateDefaultSGFailed);
    ("RouterDeleteFailed", ErrRouterDeleteFailed);
    ("RouterInUse", ErrRouterInUse);
    ("RouterHasFloatingIPs", ErrRouterHasFloatingIPs);
    ("RouterHasSubnets", ErrRouterHasSubnets);
    ("RouterHasPortmaps", ErrRouterHasPortmaps);
    ("IpGroupNotFound", ErrIpGroupNotFound);
    ("IpGroupCreateFailed", ErrIpGroupCreateFailed);
    ("IpGroupUpdateFailed", ErrIpGroupUpdateFailed);
    ("IpGroupDeleteFailed", ErrIpGroupDeleteFailed);
    ("IpGroupInUse", ErrIpGroupInUse);
    ("SecurityGroupNotFound", ErrSecurityGroupNotFound);
    ("SecurityGroupCreateFailed", ErrSecurityGroupCreateFailed);
    ("SecurityGroupUpdateFailed", ErrSecurityGroupUpdateFailed);
    ("SecurityGroupDeleteFailed", ErrSecurityGroupDeleteFailed);
    ("AssociateSG2InterfaceFailed", ErrAssociateSG2InterfaceFailed);
    ("AtLeastOneSGRequired", ErrAtLeastOneSGRequired);
    ("CannotDeleteDefaultSG", ErrCannotDeleteDefaultSG);
    ("SGHasInterfaces", ErrSGHasInterfaces);
    ("SecurityRuleNotFound", ErrSecurityRuleNotFound);
    ("SecurityRuleInvalid", ErrSecurityRuleInvalid);
    ("SecurityRuleDeleteFailed", ErrSecurityRuleDeleteFailed);
    ("SecurityRuleCreateFailed", ErrSecurityRuleCreateFailed);
    ("SecurityRuleUpdateFailed", ErrSecurityRuleUpdateFailed);
    ("ImageNotFound", ErrImageNotFound);
    ("ImageInUse", ErrImageInUse);
    ("ImageNoQA", ErrImageNoQA);
    ("ImageCreateFailed", ErrImageCreateFailed);
    ("ImageUpdateFailed", ErrImageUpdateFailed);
    ("ImageDeleteFailed", ErrImageDeleteFailed);
    ("ImageNotAvailable", ErrImageNotAvailable);
    ("ImageStorageCreateFailed", ErrImageStorageCreateFailed);
    ("ImageStorageDeleteFailed", ErrImageStorageDeleteFailed);
    ("ImageStorageUpdateFailed", ErrImageStorageUpdateFailed);
    ("ImageStorageNotFound", ErrImageStorageNotFound);
    ("RescueImageNotFound", ErrRescueImageNotFound);
    ("SSHKeyNotFound", ErrSSHKeyNotFound);
    ("SSHKeyCreateFailed", ErrSSHKeyCreateFailed);
    ("SSHKeyUpdateFailed", ErrSSHKeyUpdateFailed);
    ("SSHKeyDeleteFailed", ErrSSHKeyDeleteFailed);
    ("SSHKeyGenerateFailed", ErrSSHKeyGenerateFailed);
    ("SSHKeyInUse", ErrSSHKeyInUse);
    ("NoQualifiedHypervisor", ErrNoQualifiedHypervisor);
    ("HypervisorNotFound", ErrHypervisorNotFound);
    ("HypervisorUpdateFailed", ErrHypervisorUpdateFailed);
    ("HypervisorDeleteFailed", ErrHypervisorDeleteFailed);
    ("HypervisorInvalidState", ErrHypervisorInvalidState);
    ("ZoneNotFound", ErrZoneNotFound);
    ("UnsetDefaultZoneFailed", ErrUnsetDefaultZoneFailed);
    ("ZoneCreationFailed", ErrZoneCreationFailed);
    ("ZoneUpdateFailed", ErrZoneUpdateFailed);
    ("ZoneDeleteFailed", ErrZoneDeleteFailed);
    ("HypersInZone", ErrHypersInZone);
    ("TaskNotFound", ErrTaskNotFound);
    ("DictionaryRecordsNotFound", ErrDictionaryRecordsNotFound);
    ("DictionaryCreateFailed", ErrDictionaryCreateFailed);
    ("DictionaryUpdateFailed", ErrDictionaryUpdateFailed);
    ("DictionaryDeleteFailed", ErrDictionaryDeleteFailed) ].

(** ** The generated String method *)

Definition ErrCode_name : string :=
  "UnknownInsufficientResourceResourceNotFoundInvalidParameterPermissionDeniedExecuteOnHyperFailedOwnerNotFoundEncryptionFailedJSONMarshalFailedResourcesInOrgInvalidCIDRCIDRTooBigOperationNotSupportedDatabaseErrorSQLSyntaxErrorUserNotFoundUserCreationFailedUserUpdateFailedUserDeleteFailedOrgNotFoundOrgCreationFailedOrgUpdateFailedOrgDeleteFailedNoRoleOnUserPasswordHashFailedPasswordMismatchMemberNotFoundMemberCreationFailedMemberUpdateFailedMemberDeleteFailedInstanceNotFoundInstanceCreationFailedInstanceUpdateFailedInstanceDeleteFailedInstanceInvalidStateInstanceInvalidConfigInstancePowerActionFailInstanceNoRouterInstanceNoPrimaryInterfaceInvalidDomainFormatConsoleCreateFailedConsoleNotFoundInvalidConsoleTokenInvalidMetadataMigrationNotFoundMigrationCreateFailedMigrationUpdateFailedMigrationDeleteFailedMigrationInProgressFlavorNotFoundFlavorCreateFailedFlavorUpdateFailedFlavorDeleteFailedFlavorInUseDiskTooSmallVolumeNotFoundVolumeCreationFailedVolumeUpdateFailedVolumeDeleteFailedVolumeAttachFailedVolumeDetachFailedVolumeInvalidStateVolumeInvalidSizeBootVolumeNotFoundBootVolumeUpdateFailedBootVolumeDeleteFailedVolumeIsInUseBootVolumeCannotDetachVolumeIsBusyVolumeIsRestoringVolumeInConsistencyGroupBackupNotFoundBackupCreationFailedBackupUpdateFailedBackupDeleteFailedBackupInUseCannotRestoreWhileInstanceIsRunningCannotRestoreFromBackupBackupInvalidStateCGNotFoundCGCreationFailedCGUpdateFailedCGDeleteFailedCGInvalidStateCGIsBusyCGSnapshotExistsCGVolumeNotInSamePoolCGVolumeIsBusyCGVolumeInvalidStateCGSnapshotNotFoundCGSnapshotCreationFailedCGSnapshotDeleteFailedCGSnapshotRestoreFailedCGSnapshotIsBusyCGCannotModifyWithSnapshotsCGInstanceNotShutoffCGNoVolumesCGVolumeAttachedNoInstanceCGSnapshotCannotRestoreCGSnapshotRestoreInProgressAddressNotFoundAddressUpdateFailedAddressDeleteFailedInsufficientAddressAddressCreateFailedAddressInUseSubnetNotFoundSubnetCreateFailedSubnetUpdateFailedSubnetDeleteFailedSubnetShouldBePublicSubnetShouldBeSitePublicSubnetNotFoundSiteSubnetUpdateFailedSubnetsCrossVPCInOneInstancePublicSubnetCannotInVPCInterfaceNotFoundInterfaceCreateFailedInterfaceUpdateFailedNotAllowInterfaceInSiteSubnetInterfaceDeleteFailedCannotDeletePrimaryInterfaceTooManyInterfacesInterfaceInvalidSubnetFIPInUseDummyFIPCreateFailedUpdateGroupIDFailedFIPListFailedRouterNotFoundRouterCreateFailedRouterUpdateFailedRouterUpdateDefaultSGFailedRouterDeleteFailedRouterInUseRouterHasFloatingIPsRouterHasSubnetsRouterHasPortmapsIpGroupNotFoundIpGroupCreateFailedIpGroupUpdateFailedIpGroupDeleteFailedIpGroupInUseSecurityGroupNotFoundSecurityGroupCreateFailedSecurityGroupUpdateFailedSecurityGroupDeleteFailedAssociateSG2InterfaceFailedAtLeastOneSGRequiredCannotDeleteDefaultSGSGHasInterfacesSecurityRuleNotFoundSecurityRuleInvalidSecurityRuleDeleteFailedSecurityRuleCreateFailedSecurityRuleUpdateFailedImageNotFoundImageInUseImageNoQAImageCreateFailedImageUpdateFailedImageDeleteFailedImageNotAvailableImageStorageCreateFailedImageStorageDeleteFailedImageStorageUpdateFailedImageStorageNotFoundRescueImageNotFoundSSHKeyNotFoundSSHKeyCreateFailedSSHKeyUpdateFailedSSHKeyDeleteFailedSSHKeyGenerateFailedSSHKeyInUseNoQualifiedHypervisorHypervisorNotFoundHypervisorUpdateFailedHypervisorDeleteFailedHypervisorInvalidStateZoneNotFoundUnsetDefaultZoneFailedZoneCreationFailedZoneUpdateFailedZoneDeleteFailedHypersInZoneTaskNotFoundDictionaryRecordsNotFoundDictionaryCreateFailedDictionaryUpdateFailedDictionaryDeleteFailed".

Definition ErrCode_map : list (Z * (nat * nat)) :=
  [ (100000, (0%nat, 7%nat));
    (100001, (7%nat, 27%nat));
    (100002, (27%nat, 43%nat));
    (100003, (43%nat, 59%nat));
    (100004, (59%nat, 75%nat));
    (100005, (75%nat, 95%nat));
    (100006, (95%nat, 108%nat));
    (100008, (108%nat, 124%nat));
    (100009, (124%nat, 141%nat));
    (100010, (141%nat, 155%nat));
    (100011, (155%nat, 166%nat));
    (100012, (166%nat, 176%nat));
    (100013, (176%nat, 197%nat));
    (100100, (197%nat, 210%nat));
    (100101, (210%nat, 224%nat));
    (100200, (224%nat, 236%nat));
    (100201, (236%nat, 254%nat));
    (100202, (254%nat, 270%nat));
    (100203, (270%nat, 286%nat));
    (100204, (286%nat, 297%nat));
    (100205, (297%nat, 314%nat));
    (100206, (314%nat, 329%nat));
    (100207, (329%nat, 344%nat));
    (100208, (344%nat, 356%nat));
    (100209, (356%nat, 374%nat));
    (100210, (374%nat, 390%nat));
    (100300, (390%nat, 404%nat));
    (100301, (404%nat, 424%nat));
    (100302, (424%nat, 442%nat));
    (100303, (442%nat, 460%nat));
    (111001, (460%nat, 476%nat));
    (111002, (476%nat, 498%nat));
    (111003, (498%nat, 518%nat));
    (111004, (518%nat, 538%nat));
    (111005, (538%nat, 558%nat));
    (111007, (558%nat, 579%nat));
    (111008, (579%nat, 602%nat));
    (111009, (602%nat, 618%nat));
    (111010, (618%nat, 644%nat));
    (111011, (644%nat, 663%nat));
    (111012, (663%nat, 682%nat));
    (111013, (682%nat, 697%nat));
    (111014, (697%nat, 716%nat));
    (111015, (716%nat, 731%nat));
    (111801, (731%nat, 748%nat));
    (111802, (748%nat, 769%nat));
    (111803, (769%nat, 790%nat));
    (111804, (790%nat, 811%nat));
    (111805, (811%nat, 830%nat));
    (111901, (830%nat, 844%nat));
    (111902, (844%nat, 862%nat));
    (111903, (862%nat, 880%nat));
    (111904, (880%nat, 898%nat));
    (111905, (898%nat, 909%nat));
    (111906, (909%nat, 921%nat));
    (121001, (921%nat, 935%nat));
    (121002, (935%nat, 955%nat));
    (121003, (955%nat, 973%nat));
    (121004, (973%nat, 991%nat));
    (121005, (991%nat, 1009%nat));
    (121006, (1009%nat, 1027%nat));
    (121007, (1027%nat, 1045%nat));
    (121008, (1045%nat, 1062%nat));
    (121009, (1062%nat, 1080%nat));
    (121010, (1080%nat, 1102%nat));
    (121011, (1102%nat, 1124%nat));
    (121012, (1124%nat, 1137%nat));
    (121013, (1137%nat, 1159%nat));
    (121014, (1159%nat, 1171%nat));
    (121015, (1171%nat, 1188%nat));
    (121016, (1188%nat, 1212%nat));
    (125100, (1212%nat, 1226%nat));
    (125101, (1226%nat, 1246%nat));
    (125102, (1246%nat, 1264%nat));
    (125103, (1264%nat, 1282%nat));
    (125104, (1282%nat, 1293%nat));
    (125105, (1293%nat, 1328%nat));
    (125106, (1328%nat, 1351%nat));
    (125107, (1351%nat, 1369%nat));
    (125200, (1369%nat, 1379%nat));
    (125201, (1379%nat, 1395%nat));
    (125202, (1395%nat, 1409%nat));
    (125203, (1409%nat, 1423%nat));
    (125204, (1423%nat, 1437%nat));
    (125205, (1437%nat, 1445%nat));
    (125206, (1445%nat, 1461%nat));
    (125207, (1461%nat, 1482%nat));
    (125208, (1482%nat, 1496%nat));
    (125209, (1496%nat, 1516%nat));
    (125210, (1516%nat, 1534%nat));
    (125211, (1534%nat, 1558%nat));
    (125212, (1558%nat, 1580%nat));
    (125213, (1580%nat, 1603%nat));
    (125214, (1603%nat, 1619%nat));
    (125215, (1619%nat, 1646%nat));
    (125216, (1646%nat, 1666%nat));
    (125217, (1666%nat, 1677%nat));
    (125218, (1677%nat, 1703%nat));
    (125219, (1703%nat, 1726%nat));
    (125220, (1726%nat, 1753%nat));
    (131001, (1753%nat, 1768%nat));
    (131002, (1768%nat, 1787%nat));
    (131003, (1787%nat, 1806%nat));
    (131004, (1806%nat, 1825%nat));
    (131005, (1825%nat, 1844%nat));
    (131006, (1844%nat, 1856%nat));
    (131101, (1856%nat, 1870%nat));
    (131102, (1870%nat, 1888%nat));
    (131103, (1888%nat, 1906%nat));
    (131104, (1906%nat, 1924%nat));
    (131105, (1924%nat, 1944%nat));
    (131106, (1944%nat, 1962%nat));
    (131107, (1962%nat, 1982%nat));
    (131108, (1982%nat, 2004%nat));
    (131109, (2004%nat, 2032%nat));
    (131110, (2032%nat, 2055%nat));
    (131201, (2055%nat, 2072%nat));
    (131202, (2072%nat, 2093%nat));
    (131203, (2093%nat, 2114%nat));
    (131204, (2114%nat, 2143%nat));
    (131205, (2143%nat, 2164%nat));
    (131206, (2164%nat, 2192%nat));
    (131207, (2192%nat, 2209%nat));
    (131208, (2209%nat, 2231%nat));
    (131209, (2231%nat, 2239%nat));
    (131210, (2239%nat, 2259%nat));
    (131211, (2259%nat, 2278%nat));
    (131212, (2278%nat, 2291%nat));
    (131301, (2291%nat, 2305%nat));
    (131302, (2305%nat, 2323%nat));
    (131303, (2323%nat, 2341%nat));
    (131304, (2341%nat, 2368%nat));
    (131305, (2368%nat, 2386%nat));
    (131306, (2386%nat, 2397%nat));
    (131307, (2397%nat, 2417%nat));
    (131308, (2417%nat, 2433%nat));
    (131309, (2433%nat, 2450%nat));
    (131401, (2450%nat, 2465%nat));
    (131402, (2465%nat, 2484%nat));
    (131403, (2484%nat, 2503%nat));
    (131404, (2503%nat, 2522%nat));
    (131405, (2522%nat, 2534%nat));
    (141001, (2534%nat, 2555%nat));
    (141002, (2555%nat, 2580%nat));
    (141003, (2580%nat, 2605%nat));
    (141004, (2605%nat, 2630%nat));
    (141005, (2630%nat, 2657%nat));
    (141006, (2657%nat, 2677%nat));
    (141007, (2677%nat, 2698%nat));
    (141008, (2698%nat, 2713%nat));
    (141009, (2713%nat, 2733%nat));
    (141010, (2733%nat, 2752%nat));
    (141011, (2752%nat, 2776%nat));
    (141012, (2776%nat, 2800%nat));
    (141013, (2800%nat, 2824%nat));
    (151000, (2824%nat, 2837%nat));
    (151001, (2837%nat, 2847%nat));
    (151002, (2847%nat, 2856%nat));
    (151003, (2856%nat, 2873%nat));
    (151004, (2873%nat, 2890%nat));
    (151005, (2890%nat, 2907%nat));
    (151006, (2907%nat, 2924%nat));
    (151007, (2924%nat, 2948%nat));
    (151008, (2948%nat, 2972%nat));
    (151009, (2972%nat, 2996%nat));
    (151010, (2996%nat, 3016%nat));
    (151011, (3016%nat, 3035%nat));
    (161001, (3035%nat, 3049%nat));
    (161002, (3049%nat, 3067%nat));
    (161003, (3067%nat, 3085%nat));
    (161004, (3085%nat, 3103%nat));
    (161005, (3103%nat, 3123%nat));
    (161006, (3123%nat, 3134%nat));
    (171001, (3134%nat, 3155%nat));
    (171002, (3155%nat, 3173%nat));
    (171003, (3173%nat, 3195%nat));
    (171004, (3195%nat, 3217%nat));
    (171005, (3217%nat, 3239%nat));
    (171006, (3239%nat, 3251%nat));
    (171007, (3251%nat, 3273%nat));
    (171008, (3273%nat, 3291%nat));
    (171009, (3291%nat, 3307%nat));
    (171010, (3307%nat, 3323%nat));
    (171011, (3323%nat, 3335%nat));
    (181001, (3335%nat, 3347%nat));
    (199801, (3347%nat, 3372%nat));
    (199802, (3372%nat, 3394%nat));
    (199803, (3394%nat, 3416%nat));
    (199804, (3416%nat, 3438%nat)) ].

Fixpoint assoc_code {A} (i : Z) (l : list (Z * A)) : option A :=
  match l with
  | [] => None
  | (j, x) :: l => if i =? j then Some x else assoc_code i l
  end.

Definition ErrCode_String (i : Z) : string :=
  match assoc_code i ErrCode_map with
  | Some (lo, hi) => String.substring lo (hi - lo) ErrCode_name
  | None => "ErrCode(" +:+ fmt_d i +:+ ")"
  end.

(** ** Error values *)

#[warnings="-register-all"]
Inductive error :=
  | CLError (Code : Z) (Message : string) (Err : option error)
  | RecordNotFound                        (* gorm.ErrRecordNotFound *)
  | StatementFailed (n : nat)             (* the n-th statement failed in the database *)
  | GoError (msg : string).               (* fmt.Errorf, strconv errors *)

Definition NewCLError (code : Z) (message : string) (err : option error) : error :=
  CLError code message err.

(** Method [Error] of [CLError], with the texts of the foreign errors as a parameter. *)
Fixpoint Error (other : error → string) (e : error) : string :=
  match e with
  | CLError code msg (Some err) =>
      "Code " +:+ fmt_d code +:+ ": " +:+ msg +:+ " (Details: " +:+ Error other err +:+ ")"
  | CLError code msg None => "Code " +:+ fmt_d code +:+ ": " +:+ msg
  | GoError msg => msg
  | _ => other e
  end.

(** The code an API client sees in the reply: the one of the outermost
    [CLError]. *)
Definition Unwrap (e : error) : option error :=
  match e with CLError _ _ err => err | _ => None end.

Definition error_code (e : error) : option Z :=
  match e with CLError code _ _ => Some code | _ => None end.

(** ** The generated table against the constants *)

(** The constants whose number is already taken, with the constant that holds
    it: the floating-IP codes repeat the interface codes. *)
Definition shadowed : list (string * string) :=
  [ ("FIPNotFound", "InterfaceNotFound");
    ("FIPCreateFailed", "InterfaceCreateFailed");
    ("FIPUpdateFailed", "InterfaceUpdateFailed");
    ("DeleteNativeFIPFailed", "NotAllowInterfaceInSiteSubnet");
    ("UpdatePublicIPFailed", "InterfaceDeleteFailed");
    ("UpdateInstIDOfFIPFailed", "CannotDeletePrimaryInterface");
    ("UpdateSubnetIDOfFIPFailed", "TooManyInterfaces");
    ("FIPDeleteFailed", "InterfaceInvalidSubnet") ].

Fixpoint assoc_name {A} (n : string) (l : list (string * A)) : option A :=
  match l with
  | [] => None
  | (m, x) :: l => if String.eqb n m then Some x else assoc_name n l
  end.

(** The identifier a constant prints as. *)
Definition printed_name (n : string) : string := default n (assoc_name n shadowed).

Definition table_check (e : string * Z) : bool :=
  String.eqb (ErrCode_String e.2) (printed_name e.1) && (100000 <=? e.2) && (e.2 <=? 999999).

Definition collision_check (e1 e2 : string * Z) : bool :=
  negb (e1.2 =? e2.2) || String.eqb (printed_name e1.1) (printed_name e2.1).

Lemma constants_table_check : forallb table_check ErrCode_constants = true.
Proof. vm_compute. reflexivity. Qed.

Lemma constants_collision_check :
  forallb (λ e, forallb (collision_check e) ErrCode_constants) ErrCode_constants = true.
Proof. vm_compute. reflexivity. Qed.

Lemma elem_of_constants (f : string * Z → bool) (l : list (string * Z)) e :
  forallb f l = true → e ∈ l → f e = true.
Proof. rewrite forallb_forall, list_elem_of_In. auto. Qed.

(** Every declared error code lies in the documented range and the
    generated [String] method prints it as its own identifier, except the eight
    floating-IP codes, which print as the interface codes whose numbers they
    repeat. *)
Theorem errcode_string_declared n c :
  (n, c) ∈ ErrCode_constants →
  ErrCode_String c = printed_name n ∧ 100000 ≤ c ≤ 999999.
Proof.
  intros H. pose proof (elem_of_constants _ _ _ constants_table_check H) as E.
  unfold table_check in E. simpl in E. simp.
  split; [by apply String.eqb_eq|lia].
Qed.

Lemma errcode_string_declared_witness :
  ErrCode_String ErrVolumeIsBusy = "VolumeIsBusy" ∧
  ErrCode_String ErrFIPNotFound = "InterfaceNotFound".
Proof.
  split.
  - apply (errcode_string_declared "VolumeIsBusy" ErrVolumeIsBusy).
    apply (bool_decide_unpack _). vm_compute. exact I.
  - apply (errcode_string_declared "FIPNotFound" ErrFIPNotFound).
    apply (bool_decide_unpack _). vm_compute. exact I.
Defined.

(** A client can tell two errors apart by their number: two declared
    constants share a number only when they print the same, that is only for
    the eight floating-IP / interface pairs. *)
Theorem errcode_distinct n1 n2 c :
  (n1, c) ∈ ErrCode_constants → (n2, c) ∈ ErrCode_constants →
  printed_name n1 = printed_name n2.
Proof.
  intros H1 H2.
  pose proof (elem_of_constants _ _ _ constants_collision_check H1) as E.
  pose proof (elem_of_constants _ _ _ E H2) as E2.
  unfold collision_check in E2. simpl in E2. rewrite Z.eqb_refl in E2.
  by apply String.eqb_eq.
Qed.

Lemma errcode_distinct_witness :
  printed_name "FIPNotFound" = printed_name "InterfaceNotFound".
Proof.
  apply (errcode_distinct "FIPNotFound" "InterfaceNotFound" 131201);
    apply (bool_decide_unpack _); vm_compute; exact I.
Defined.
