(* ===== verification/Gorm.v ===== *)
(** * Gorm: the interface to the database

    The program reaches PostgreSQL through the object mapper gorm, which is not
    part of the repository.  It is a parameter of the model: the class [Gorm]
    names the statements the program issues on one table, the class [GormOk]
    what the program relies on.  A table is seen through [rows], the rows a
    statement can reach, by primary key.  A soft-deleted row is [gone]: only a
    statement with [Unscoped] reaches it.

    [MemGorm] is an implementation by a finite map, which shows that the
    interface can be met and on which the definitions of the development
    run. *)

From S2P Require Import Prelude GoLib.

(** ** Rows

    What gorm reads off a struct that embeds [model.Model]: its primary key, the
    [BeforeCreate] hook, and the [default:] tags of its columns, which replace
    blank values on an INSERT. *)
Class Row (R : Type) := {
  get_id : R → Z;
  set_id : Z → R → R;
  before_create : string → R → R;
  col_defaults : R → R;
}.

Class RowOk (R : Type) `{Row R} : Prop := {
  get_set_id (k : Z) (r : R) : get_id (set_id k r) = k;
  set_get_id (r : R) : set_id (get_id r) r = r;
  set_set_id (j k : Z) (r : R) : set_id k (set_id j r) = set_id k r;
}.

(** Structs with the column deleted_at: a DELETE marks the row. *)
Class SoftRow (R : Type) : Prop := soft_row : True.

(** A column update leaves the primary key alone. *)
Definition keeps_id {R} `{Row R} (f : R → R) : Prop := ∀ r, get_id (f r) = get_id r.

(** ** The statements *)

Class Gorm := {
  table : Type → Type;
  (* the rows the statements see *)
  rows : ∀ {R} `{Row R}, table R → gmap Z R;
  (* the soft-deleted rows *)
  gone : ∀ {R} `{Row R}, table R → gmap Z R;
  (* db.Where(p).Find: SELECT with no order *)
  g_find : ∀ {R} `{Row R}, (R → bool) → table R → list R;
  (* db.Where(p).Take: SELECT ... LIMIT 1 *)
  g_take : ∀ {R} `{Row R}, (R → bool) → table R → option R;
  (* db.Table(name).Where(p).Scan: soft-deleted rows are seen too *)
  g_scan : ∀ {R} `{Row R}, (R → bool) → table R → option R;
  (* db.Unscoped().Where(p).Take: the row, and whether it is soft-deleted *)
  g_take_all : ∀ {R} `{Row R}, (R → bool) → table R → option (R * bool);
  (* db.Where(p).Order(c).Take *)
  g_take_by : ∀ {R} `{Row R}, (R → R → bool) → (R → bool) → table R → option R;
  (* db.Offset(o).Limit(l).Order(..).Where(p).Find *)
  g_page : ∀ {R} `{Row R}, list string → Z → Z → (R → bool) → table R → list R;
  (* db.Create: INSERT, the row as gorm leaves it in the struct *)
  g_create : ∀ {R} `{Row R}, R → table R → R * table R;
  (* db.Create of a struct whose primary key is set: nothing when the key is taken *)
  g_insert : ∀ {R} `{Row R}, R → table R → option (R * table R);
  (* db.Where(p).Updates *)
  g_update : ∀ {R} `{Row R}, (R → bool) → (R → R) → table R → table R;
  (* db.Unscoped().Where(p).Updates: soft-deleted rows are updated too *)
  g_update_all : ∀ {R} `{Row R}, (R → bool) → (R → R) → table R → table R;
  (* db.Unscoped().Where(p).Updates with deleted_at set to NULL *)
  g_restore : ∀ {R} `{Row R}, (R → bool) → (R → R) → table R → table R;
  (* db.Where(p).Delete *)
  g_delete : ∀ {R} `{Row R}, (R → bool) → table R → table R;
  (* the condition gorm adds for the primary key of the struct it is given *)
  g_pk : Z → Z → bool;
}.

Class GormOk (G : Gorm) : Prop := {
  rows_id {R} `{RowOk R} (t : table R) k r : rows t !! k = Some r → get_id r = k;
  rows_pos {R} `{RowOk R} (t : table R) k r : rows t !! k = Some r → 0 < k;
  gone_id {R} `{RowOk R} (t : table R) k r : gone t !! k = Some r → get_id r = k;
  gone_dead {R} `{RowOk R} (t : table R) k r : gone t !! k = Some r → rows t !! k = None;
  find_spec {R} `{RowOk R} p (t : table R) r :
    r ∈ g_find p t ↔ p r = true ∧ rows t !! get_id r = Some r;
  find_nodup {R} `{RowOk R} p (t : table R) : NoDup (g_find p t);
  take_some {R} `{RowOk R} p (t : table R) r :
    g_take p t = Some r → p r = true ∧ rows t !! get_id r = Some r;
  take_none {R} `{RowOk R} p (t : table R) :
    g_take p t = None → ∀ k r, rows t !! k = Some r → p r = false;
  scan_some {R} `{RowOk R} p (t : table R) r : g_scan p t = Some r → p r = true;
  scan_live {R} `{RowOk R} (t : table R) k r :
    rows t !! k = Some r → g_scan (λ r, get_id r =? k) t = Some r;
  take_all_some {R} `{RowOk R} p (t : table R) r d :
    g_take_all p t = Some (r, d) →
    p r = true ∧ (if d then gone t else rows t) !! get_id r = Some r;
  take_all_none {R} `{RowOk R} p (t : table R) :
    g_take_all p t = None →
    ∀ k r, rows t !! k = Some r ∨ gone t !! k = Some r → p r = false;
  take_by_some {R} `{RowOk R} le p (t : table R) r :
    g_take_by le p t = Some r → p r = true ∧ rows t !! get_id r = Some r;
  take_by_none {R} `{RowOk R} le p (t : table R) :
    g_take_by le p t = None → ∀ k r, rows t !! k = Some r → p r = false;
  take_by_least {R} `{RowOk R} le p (t : table R) r :
    (∀ x y, le x y = true ∨ le y x = true) →
    (∀ x y z, le x y = true → le y z = true → le x z = true) →
    g_take_by le p t = Some r →
    ∀ k r', rows t !! k = Some r' → p r' = true → le r r' = true;
  page_spec {R} `{RowOk R} os o l p (t : table R) r :
    r ∈ g_page os o l p t → p r = true ∧ rows t !! get_id r = Some r;
  page_limit {R} `{RowOk R} os o l p (t : table R) :
    0 ≤ l → Z.of_nat (length (g_page os o l p t)) ≤ l;
  page_all {R} `{RowOk R} os l p (t : table R) :
    l < 0 → g_page os 0 l p t ≡ₚ g_find p t;
  create_spec {R} `{RowOk R} r (t : table R) r' t' :
    g_create r t = (r', t') →
    0 < get_id r' ∧ rows t !! get_id r' = None ∧
    r' = set_id (get_id r') (col_defaults r) ∧
    rows t' = <[get_id r' := r']> (rows t);
  create_gone {R} `{RowOk R} r (t : table R) r' t' :
    g_create r t = (r', t') → gone t !! get_id r' = None ∧ gone t' = gone t;
  insert_some {R} `{RowOk R} r (t : table R) r' t' :
    g_insert r t = Some (r', t') →
    rows t !! get_id r = None ∧ gone t !! get_id r = None ∧
    r' = set_id (get_id r) (col_defaults r) ∧
    rows t' = <[get_id r := r']> (rows t) ∧ gone t' = gone t;
  insert_none {R} `{RowOk R} r (t : table R) :
    0 < get_id r → g_insert r t = None →
    is_Some (rows t !! get_id r) ∨ is_Some (gone t !! get_id r);
  update_spec {R} `{RowOk R} p f (t : table R) :
    keeps_id f → rows (g_update p f t) = (λ r, if p r then f r else r) <$> rows t;
  update_all_spec {R} `{RowOk R} p f (t : table R) :
    keeps_id f → rows (g_update_all p f t) = (λ r, if p r then f r else r) <$> rows t;
  update_gone {R} `{RowOk R} p f (t : table R) : gone (g_update p f t) = gone t;
  update_all_gone {R} `{RowOk R} p f (t : table R) :
    keeps_id f → gone (g_update_all p f t) = (λ r, if p r then f r else r) <$> gone t;
  restore_spec {R} `{RowOk R} p f (t : table R) k :
    keeps_id f →
    rows (g_restore p f t) !! k =
    match rows t !! k with
    | Some r => Some (if p r then f r else r)
    | None => match gone t !! k with Some r => if p r then Some (f r) else None | None => None end
    end;
  restore_gone {R} `{RowOk R} p f (t : table R) k :
    keeps_id f →
    gone (g_restore p f t) !! k =
    match gone t !! k with Some r => if p r then None else Some r | None => None end;
  delete_spec {R} `{RowOk R} p (t : table R) k :
    rows (g_delete p t) !! k =
    match rows t !! k with Some r => if p r then None else Some r | None => None end;
  delete_gone {R} `{RowOk R} `{!SoftRow R} p (t : table R) k :
    gone (g_delete p t) !! k =
    match rows t !! k with Some r => if p r then Some r else None | None => gone t !! k end;
  pk_nonzero id k : id ≠ 0 → g_pk id k = (id =? k);
  pk_zero k : g_pk 0 k = true;
}.

(** The rows [db.Model(&r)] and [db.Take(&r)] reach through the primary key of
    the struct, and those of [Where("id = ?", k)]. *)
Definition by_pk {G : Gorm} {R} `{Row R} (k : Z) (r : R) : bool := g_pk k (get_id r).
Definition by_id {R} `{Row R} (k : Z) (r : R) : bool := get_id r =? k.

(** ** Lemmas every client uses *)

Section laws.
Context `{GOk : GormOk} {R : Type} `{RowOk R}.
Implicit Types (t : table R) (r : R) (p : R → bool).

Lemma find_lookup p t k r :
  rows t !! k = Some r → p r = true → r ∈ g_find p t.
Proof.
  intros E Hp. apply find_spec. pose proof (rows_id _ _ _ E). by subst.
Qed.

Lemma find_nil p t : g_find p t = [] ↔ ∀ k r, rows t !! k = Some r → p r = false.
Proof.
  split.
  - intros E k r Hr. destruct (p r) eqn:Hp; [|done].
    pose proof (find_lookup p t k r Hr Hp) as Hin. rewrite E in Hin. by apply elem_of_nil in Hin.
  - intros Hall. destruct (g_find p t) as [|r l] eqn:E; [done|].
    assert (r ∈ g_find p t) as Hin by (rewrite E; apply list_elem_of_here).
    apply find_spec in Hin as [Hp Hr]. specialize (Hall _ _ Hr). congruence.
Qed.

Lemma row_zero t : rows t !! 0 = None.
Proof. destruct (rows t !! 0) eqn:Hr; [|done]. apply rows_pos in Hr. lia. Qed.

(** A count of nothing: no row satisfies the condition. *)
Lemma count_none p t :
  negb (0 <? Z.of_nat (length (g_find p t))) = true →
  ∀ k r, rows t !! k = Some r → p r = false.
Proof.
  intros Hn. apply find_nil. by destruct (g_find p t).
Qed.

(** A SELECT by primary key finds the row of that key. *)
Lemma head_by_id k t : head (g_find (by_id k) t) = rows t !! k.
Proof.
  destruct (g_find (by_id k) t) as [|x l] eqn:Hf; simpl.
  - symmetry. destruct (rows t !! k) as [r|] eqn:Hr; [|done].
    pose proof (proj1 (find_nil _ _) Hf _ _ Hr) as Hk. unfold by_id in Hk.
    rewrite (rows_id _ _ _ Hr), Z.eqb_refl in Hk. done.
  - assert (x ∈ g_find (by_id k) t) as Hx by (rewrite Hf; apply list_elem_of_here).
    apply find_spec in Hx as [Hk Hx]. unfold by_id in Hk. apply Z.eqb_eq in Hk. by subst.
Qed.

Lemma update_lookup p f t k :
  keeps_id f →
  rows (g_update p f t) !! k = (λ r, if p r then f r else r) <$> rows t !! k.
Proof. intros Hf. rewrite update_spec by done. apply lookup_fmap. Qed.

Lemma update_lookup_Some p f t k r :
  keeps_id f → rows t !! k = Some r →
  rows (g_update p f t) !! k = Some (if p r then f r else r).
Proof. intros Hf E. rewrite update_lookup by done. by rewrite E. Qed.

Lemma pk_self k : g_pk k k = true.
Proof.
  destruct (decide (k = 0)) as [->|Hk]; [apply pk_zero|].
  rewrite pk_nonzero by done. apply Z.eqb_refl.
Qed.

Lemma take_pk_row id t r :
  id ≠ 0 → g_take (by_pk id) t = Some r →
  rows t !! id = Some r ∧ get_id r = id.
Proof.
  intros Hid [Hp Hr]%take_some. unfold by_pk in Hp. rewrite pk_nonzero in Hp by done.
  apply Z.eqb_eq in Hp. by subst.
Qed.

(** An update of the row with a given key is an insert at that key. *)
Lemma update_key t (f : R → R) k r :
  keeps_id f → rows t !! k = Some r →
  rows (g_update (by_id k) f t) = <[k := f r]> (rows t).
Proof.
  intros Hf Hr. rewrite update_spec by done. apply map_eq. intros j.
  rewrite lookup_fmap. destruct (decide (j = k)) as [->|Hj].
  - rewrite lookup_insert_eq, Hr. unfold by_id. simpl. by rewrite (rows_id _ _ _ Hr), Z.eqb_refl.
  - rewrite lookup_insert_ne by done. destruct (rows t !! j) as [x|] eqn:Hx; [|done].
    unfold by_id. simpl. rewrite (rows_id _ _ _ Hx). by rewrite (proj2 (Z.eqb_neq _ _) Hj).
Qed.

Lemma update_pk t (f : R → R) k r :
  k ≠ 0 → keeps_id f → rows t !! k = Some r →
  rows (g_update (by_pk k) f t) = <[k := f r]> (rows t).
Proof.
  intros Hk Hf Hr. rewrite <- update_key by done. rewrite !update_spec by done.
  apply map_eq. intros j. rewrite !lookup_fmap. destruct (rows t !! j); [|done].
  unfold by_pk, by_id. simpl. by rewrite pk_nonzero, Z.eqb_sym.
Qed.

(** A delete by primary key is a delete of that key. *)
Lemma delete_pk t k :
  k ≠ 0 → rows (g_delete (by_pk k) t) = delete k (rows t).
Proof.
  intros Hk. apply map_eq. intros j. rewrite delete_spec. unfold by_pk.
  destruct (decide (j = k)) as [->|Hj].
  - rewrite lookup_delete_eq. destruct (rows t !! k) as [x|] eqn:Hx; [|done].
    by rewrite (rows_id _ _ _ Hx), pk_self.
  - rewrite lookup_delete_ne by done. destruct (rows t !! j) as [x|] eqn:Hx; [|done].
    rewrite (rows_id _ _ _ Hx), pk_nonzero by done.
    by rewrite (proj2 (Z.eqb_neq k j)) by congruence.
Qed.

Lemma create_lookup r t r' t' :
  g_create r t = (r', t') → rows t' !! get_id r' = Some r'.
Proof. intros (_ & _ & _ & ->)%create_spec. apply lookup_insert_eq. Qed.

End laws.

(** ** The finite-map implementation *)

Module Mem.
Record mem (R : Type) := { next : Z; cells : gmap Z R; dead : gmap Z R }.
Arguments next {R}.
Arguments cells {R}.
Arguments dead {R}.

Section mem.
Context {R : Type} `{Row R}.

Definition view (t : mem R) : gmap Z R :=
  map_imap (λ k r, if 0 <? k then Some (set_id k r) else None) (cells t).

Definition corpses (t : mem R) : gmap Z R :=
  map_imap (λ k r, match view t !! k with
                   | Some _ => None
                   | None => if 0 <? k then Some (set_id k r) else None
                   end) (dead t).

Definition values (m : gmap Z R) : list R := (map_to_list m).*2.

Definition find (p : R → bool) (t : mem R) : list R := List.filter p (values (view t)).

Definition find_dead (p : R → bool) (t : mem R) : list R := List.filter p (values (corpses t)).

Definition take (p : R → bool) (t : mem R) : option R := head (find p t).

Definition take_all (p : R → bool) (t : mem R) : option (R * bool) :=
  head (map (λ r, (r, false)) (find p t) ++ map (λ r, (r, true)) (find_dead p t)).

Fixpoint least (le : R → R → bool) (l : list R) : option R :=
  match l with
  | [] => None
  | r :: l => match least le l with
              | Some r' => if le r r' then Some r else Some r'
              | None => Some r
              end
  end.

Definition take_by le (p : R → bool) (t : mem R) : option R := least le (find p t).

Definition page (os : list string) (o l : Z) (p : R → bool) (t : mem R) : list R :=
  let rs := drop (Z.to_nat o) (find p t) in
  if l <? 0 then rs else firstn (Z.to_nat l) rs.

Definition top (m : gmap Z R) : Z := map_fold (λ k _ m, Z.max k m) 0 m.

Definition fresh (t : mem R) : Z :=
  1 + Z.max 0 (Z.max (next t) (Z.max (top (cells t)) (top (dead t)))).

Definition create (r : R) (t : mem R) : R * mem R :=
  let k := fresh t in
  let r' := set_id k (col_defaults r) in
  (r', {| next := k; cells := <[k := r']> (cells t); dead := dead t |}).

Definition insert_key (r : R) (t : mem R) : option (R * mem R) :=
  let k := get_id r in
  let r' := set_id k (col_defaults r) in
  match view t !! k, corpses t !! k with
  | None, None =>
      if 0 <? k then Some (r', {| next := next t; cells := <[k := r']> (cells t); dead := dead t |})
      else None
  | _, _ => None
  end.

Definition change (p : R → bool) (f : R → R) (r : R) : R := if p r then f r else r.

Definition update (p : R → bool) (f : R → R) (t : mem R) : mem R :=
  {| next := next t; cells := change p f <$> view t; dead := corpses t |}.

Definition update_all (p : R → bool) (f : R → R) (t : mem R) : mem R :=
  {| next := next t; cells := change p f <$> view t; dead := change p f <$> corpses t |}.

Definition restore (p : R → bool) (f : R → R) (t : mem R) : mem R :=
  {| next := next t;
     cells := (change p f <$> view t)
                ∪ (f <$> filter (λ kr, p kr.2 = true) (corpses t));
     dead := filter (λ kr, p kr.2 = false) (corpses t) |}.

Definition remove (p : R → bool) (t : mem R) : mem R :=
  {| next := next t; cells := filter (λ kr, p kr.2 = false) (view t);
     dead := filter (λ kr, p kr.2 = true) (view t) ∪ corpses t |}.

Definition empty : mem R := {| next := 0; cells := ∅; dead := ∅ |}.

End mem.
End Mem.

Definition MemGorm : Gorm := {|
  table := Mem.mem;
  rows R _ := Mem.view;
  gone R _ := Mem.corpses;
  g_find R _ := Mem.find;
  g_take R _ := Mem.take;
  g_scan R _ := Mem.take;
  g_take_all R _ := Mem.take_all;
  g_take_by R _ := Mem.take_by;
  g_page R _ := Mem.page;
  g_create R _ := Mem.create;
  g_insert R _ := Mem.insert_key;
  g_update R _ := Mem.update;
  g_update_all R _ := Mem.update_all;
  g_restore R _ := Mem.restore;
  g_delete R _ := Mem.remove;
  g_pk id k := (id =? 0) || (id =? k);
|}.

Module MemOk.
Section mem_ok.
Context {R : Type} `{RowOk R}.
Implicit Types (t : Mem.mem R) (r : R) (p : R → bool).

Lemma view_lookup t k :
  Mem.view t !! k = if 0 <? k then set_id k <$> Mem.cells t !! k else None.
Proof.
  unfold Mem.view. rewrite map_lookup_imap. by destruct (Mem.cells t !! k), (0 <? k).
Qed.

Lemma view_pos t k r : Mem.view t !! k = Some r → 0 < k.
Proof. rewrite view_lookup. destruct (Z.ltb_spec 0 k); [done|discriminate]. Qed.

Lemma view_cells t k : 0 < k → Mem.view t !! k = set_id k <$> Mem.cells t !! k.
Proof. intros Hk. by rewrite view_lookup, (proj2 (Z.ltb_lt _ _) Hk). Qed.

Lemma view_id t k r : Mem.view t !! k = Some r → get_id r = k.
Proof.
  intros Hr. rewrite view_cells in Hr by by eapply view_pos.
  apply fmap_Some in Hr as (r0 & _ & ->). apply get_set_id.
Qed.

Lemma corpses_lookup t k :
  Mem.corpses t !! k =
  match Mem.view t !! k with
  | Some _ => None
  | None => if 0 <? k then set_id k <$> Mem.dead t !! k else None
  end.
Proof.
  unfold Mem.corpses. rewrite map_lookup_imap.
  by destruct (Mem.dead t !! k), (Mem.view t !! k), (0 <? k).
Qed.

Lemma corpses_pos t k r : Mem.corpses t !! k = Some r → 0 < k.
Proof. rewrite corpses_lookup. case_match; [done|]. destruct (Z.ltb_spec 0 k); done. Qed.

Lemma corpses_id t k r : Mem.corpses t !! k = Some r → get_id r = k.
Proof.
  rewrite corpses_lookup. repeat case_match; try done.
  intros (r0 & _ & ->)%fmap_Some. apply get_set_id.
Qed.

Lemma corpses_view t k r : Mem.corpses t !! k = Some r → Mem.view t !! k = None.
Proof. rewrite corpses_lookup. by case_match. Qed.

(** The values of a map whose rows know their key. *)
Lemma elem_of_values (m : gmap Z R) r :
  (∀ k x, m !! k = Some x → get_id x = k) → r ∈ Mem.values m ↔ m !! get_id r = Some r.
Proof.
  intros Hm. unfold Mem.values. rewrite list_elem_of_fmap. split.
  - intros ([k r'] & -> & Hin). simpl. apply elem_of_map_to_list in Hin. by rewrite (Hm _ _ Hin).
  - intros E. exists (get_id r, r). by rewrite elem_of_map_to_list.
Qed.

Lemma find_iff p t r :
  r ∈ Mem.find p t ↔ p r = true ∧ Mem.view t !! get_id r = Some r.
Proof. unfold Mem.find. by rewrite elem_of_filter_bool, elem_of_values by apply view_id. Qed.

Lemma find_dead_iff p t r :
  r ∈ Mem.find_dead p t ↔ p r = true ∧ Mem.corpses t !! get_id r = Some r.
Proof. unfold Mem.find_dead. by rewrite elem_of_filter_bool, elem_of_values by apply corpses_id. Qed.

Lemma values_nodup t : NoDup (Mem.values (Mem.view t)).
Proof.
  unfold Mem.values. apply NoDup_fmap_2_strong; [|apply NoDup_map_to_list].
  intros [k1 r1] [k2 r2] H1 H2 ?. simpl in *. subst.
  apply elem_of_map_to_list in H1. apply elem_of_map_to_list in H2.
  apply view_id in H1. apply view_id in H2. congruence.
Qed.

Lemma find_NoDup p t : NoDup (Mem.find p t).
Proof.
  unfold Mem.find. apply NoDup_ListNoDup, List.NoDup_filter, NoDup_ListNoDup, values_nodup.
Qed.

Lemma head_elem {A} (l : list A) x : head l = Some x → x ∈ l.
Proof. destruct l; simpl; intros; simplify_eq. apply list_elem_of_here. Qed.

Lemma least_elem le (l : list R) r : Mem.least le l = Some r → r ∈ l.
Proof.
  revert r. induction l as [|x l IH]; intros r; simpl; [done|].
  destruct (Mem.least le l) as [r'|]; [destruct (le x r')|];
    intros; simplify_eq; rewrite elem_of_cons; auto.
Qed.

Lemma least_None le (l : list R) : Mem.least le l = None → l = [].
Proof. destruct l; simpl; [done|]. by repeat case_match. Qed.

Lemma least_least le (l : list R) r :
  (∀ x y, le x y = true ∨ le y x = true) →
  (∀ x y z, le x y = true → le y z = true → le x z = true) →
  Mem.least le l = Some r → ∀ r', r' ∈ l → le r r' = true.
Proof.
  intros Htot Htrans. revert r. induction l as [|x l IH]; intros r; simpl; [done|].
  assert (Hrefl : ∀ y, le y y = true) by (intros y; by destruct (Htot y y)).
  destruct (Mem.least le l) as [m|] eqn:E.
  - destruct (le x m) eqn:Hxm; intros; simplify_eq; intros.
    + match goal with H : _ ∈ _ :: _ |- _ => apply elem_of_cons in H as [->|H] end; eauto.
    + match goal with H : _ ∈ _ :: _ |- _ => apply elem_of_cons in H as [->|H] end; eauto.
      destruct (Htot r x); congruence.
  - apply least_None in E as ->. intros; simplify_eq.
    match goal with H : _ ∈ [_] |- _ => apply list_elem_of_singleton in H as -> end; auto.
Qed.

Lemma find_empty p t :
  Mem.find p t = [] → ∀ k r, Mem.view t !! k = Some r → p r = false.
Proof.
  intros E k r Hr. destruct (p r) eqn:Hp; [|done].
  assert (r ∈ Mem.find p t) as Hin.
  { apply find_iff. by rewrite (view_id _ _ _ Hr). }
  rewrite E in Hin. by apply elem_of_nil in Hin.
Qed.

Lemma take_pk t k r :
  Mem.view t !! k = Some r → Mem.take (λ r, get_id r =? k) t = Some r.
Proof.
  intros Hr. unfold Mem.take. pose proof (view_id _ _ _ Hr) as Hk.
  destruct (Mem.find (λ r, get_id r =? k) t) as [|r' l] eqn:E.
  - pose proof (find_empty _ _ E _ _ Hr) as Hf. simpl in Hf. lia.
  - assert (r' ∈ Mem.find (λ r, get_id r =? k) t) as [Hk' Hv]%find_iff
      by (rewrite E; apply list_elem_of_here). simpl in *. apply Z.eqb_eq in Hk'. congruence.
Qed.

Lemma take_all_ok p t r d :
  Mem.take_all p t = Some (r, d) →
  p r = true ∧ (if d then Mem.corpses t else Mem.view t) !! get_id r = Some r.
Proof.
  unfold Mem.take_all. intros Hin%head_elem. apply elem_of_app in Hin as [Hin|Hin];
    apply list_elem_of_fmap in Hin as (x & [= -> ->] & Hx).
  - by apply find_iff.
  - by apply find_dead_iff.
Qed.

Lemma take_all_empty p t k r :
  Mem.take_all p t = None → Mem.view t !! k = Some r ∨ Mem.corpses t !! k = Some r → p r = false.
Proof.
  unfold Mem.take_all. intros Hnone Hr. destruct (p r) eqn:Hp; [|done]. exfalso.
  destruct (Mem.find p t) as [|x l] eqn:Hf; [|done].
  destruct (Mem.find_dead p t) as [|x l] eqn:Hd; [|done].
  destruct Hr as [Hr|Hr].
  - assert (r ∈ Mem.find p t) as Hin by (apply find_iff; by rewrite (view_id _ _ _ Hr)).
    rewrite Hf in Hin. by apply elem_of_nil in Hin.
  - assert (r ∈ Mem.find_dead p t) as Hin by (apply find_dead_iff; by rewrite (corpses_id _ _ _ Hr)).
    rewrite Hd in Hin. by apply elem_of_nil in Hin.
Qed.

Lemma top_bound (m : gmap Z R) k r : m !! k = Some r → k ≤ Mem.top m.
Proof.
  unfold Mem.top. revert k r. induction m as [|i x m Hi IH] using map_ind; intros k r; [done|].
  rewrite map_fold_insert_L by (done || (intros; lia)).
  rewrite lookup_insert_Some. intros [[<- _]|[_ Hk]]; [lia|].
  specialize (IH _ _ Hk). lia.
Qed.

Lemma fresh_spec t :
  0 < Mem.fresh t ∧ Mem.cells t !! Mem.fresh t = None ∧ Mem.dead t !! Mem.fresh t = None.
Proof.
  unfold Mem.fresh. split; [lia|].
  split; [destruct (Mem.cells t !! _) eqn:E|destruct (Mem.dead t !! _) eqn:E]; try done;
    apply top_bound in E; lia.
Qed.

(** A row written at a free key. *)
Lemma view_insert t n k r :
  0 < k → Mem.view {| Mem.next := n; Mem.cells := <[k := set_id k r]> (Mem.cells t);
                      Mem.dead := Mem.dead t |} = <[k := set_id k r]> (Mem.view t).
Proof.
  intros Hpos. apply map_eq. intros j. rewrite view_lookup. simpl.
  destruct (decide (j = k)) as [->|Hk].
  - rewrite !lookup_insert_eq, (proj2 (Z.ltb_lt _ _) Hpos). simpl. by rewrite set_set_id.
  - by rewrite !lookup_insert_ne, view_lookup.
Qed.

Lemma corpses_insert t n k r :
  Mem.corpses t !! k = None → 0 < k →
  Mem.corpses {| Mem.next := n; Mem.cells := <[k := set_id k r]> (Mem.cells t);
                 Mem.dead := Mem.dead t |} = Mem.corpses t.
Proof.
  intros Hk Hpos. apply map_eq. intros j. rewrite corpses_lookup, view_insert by done. simpl.
  destruct (decide (j = k)) as [->|Hne]; [by rewrite lookup_insert_eq|].
  rewrite lookup_insert_ne by done. by rewrite corpses_lookup.
Qed.

Lemma fresh_corpses t : Mem.corpses t !! Mem.fresh t = None.
Proof.
  destruct (fresh_spec t) as (_ & _ & Hd). rewrite corpses_lookup, Hd. by repeat case_match.
Qed.

Lemma create_ok r t r' t' :
  Mem.create r t = (r', t') →
  0 < get_id r' ∧ Mem.view t !! get_id r' = None ∧
  r' = set_id (get_id r') (col_defaults r) ∧
  Mem.view t' = <[get_id r' := r']> (Mem.view t).
Proof.
  unfold Mem.create. intros E. simplify_eq. destruct (fresh_spec t) as (Hpos & Hfresh & _).
  rewrite get_set_id. split_and!; [done| |done|].
  - by rewrite view_cells, Hfresh.
  - by apply view_insert.
Qed.

Lemma create_corpses r t r' t' :
  Mem.create r t = (r', t') →
  Mem.corpses t !! get_id r' = None ∧ Mem.corpses t' = Mem.corpses t.
Proof.
  unfold Mem.create. intros E. simplify_eq. destruct (fresh_spec t) as (Hpos & _).
  rewrite get_set_id. split; [apply fresh_corpses|]. by apply corpses_insert; [apply fresh_corpses|].
Qed.

Lemma insert_ok r t r' t' :
  Mem.insert_key r t = Some (r', t') →
  Mem.view t !! get_id r = None ∧ Mem.corpses t !! get_id r = None ∧
  r' = set_id (get_id r) (col_defaults r) ∧
  Mem.view t' = <[get_id r := r']> (Mem.view t) ∧ Mem.corpses t' = Mem.corpses t.
Proof.
  unfold Mem.insert_key. destruct (Mem.view t !! _) eqn:Hv; [done|].
  destruct (Mem.corpses t !! _) eqn:Hc; [done|]. destruct (Z.ltb_spec 0 (get_id r)); [|done].
  intros E. simplify_eq. split_and!; [done..| |].
  - by apply view_insert.
  - by apply corpses_insert.
Qed.

Lemma change_id p f k r : keeps_id f → get_id r = k → set_id k (Mem.change p f r) = Mem.change p f r.
Proof.
  intros Hf <-. unfold Mem.change. destruct (p r); [|apply set_get_id].
  rewrite <- (Hf r). apply set_get_id.
Qed.

(** The view of a table whose cells come from a map of rows that know their key. *)
Lemma view_fmap p f n (m d : gmap Z R) :
  keeps_id f → (∀ k r, m !! k = Some r → get_id r = k ∧ 0 < k) →
  Mem.view {| Mem.next := n; Mem.cells := Mem.change p f <$> m; Mem.dead := d |}
  = Mem.change p f <$> m.
Proof.
  intros Hf Hm. apply map_eq. intros k. rewrite view_lookup. simpl. rewrite lookup_fmap.
  destruct (m !! k) as [r|] eqn:E; [|by destruct (0 <? k)]. simpl.
  destruct (Hm _ _ E) as [Hk Hpos]. rewrite (proj2 (Z.ltb_lt _ _) Hpos). f_equal.
  by apply change_id.
Qed.

Lemma view_rows t k r : Mem.view t !! k = Some r → get_id r = k ∧ 0 < k.
Proof. intros Hr. split; [by eapply view_id|by eapply view_pos]. Qed.

Lemma update_ok p f t :
  keeps_id f → Mem.view (Mem.update p f t) = Mem.change p f <$> Mem.view t.
Proof. intros Hf. apply view_fmap; [done|]. apply view_rows. Qed.

Lemma update_all_ok p f t :
  keeps_id f → Mem.view (Mem.update_all p f t) = Mem.change p f <$> Mem.view t.
Proof. intros Hf. apply view_fmap; [done|]. apply view_rows. Qed.

(** A table with the same live keys and the corpses as dead rows. *)
Lemma corpses_fmap p f n t (m : gmap Z R) :
  (∀ r, get_id (if p r then f r else r) = get_id r) →
  (∀ j, Mem.view {| Mem.next := n; Mem.cells := m; Mem.dead := Mem.change p f <$> Mem.corpses t |}
          !! j = None ↔ Mem.view t !! j = None) →
  Mem.corpses {| Mem.next := n; Mem.cells := m; Mem.dead := Mem.change p f <$> Mem.corpses t |}
  = Mem.change p f <$> Mem.corpses t.
Proof.
  intros Hf Hm. apply map_eq. intros k. rewrite corpses_lookup. simpl. rewrite lookup_fmap.
  specialize (Hm k). destruct (Mem.corpses t !! k) as [r|] eqn:Hr; simpl.
  - rewrite (proj2 Hm) by by eapply corpses_view.
    rewrite (proj2 (Z.ltb_lt _ _) (corpses_pos _ _ _ Hr)). f_equal.
    rewrite <- (corpses_id _ _ _ Hr). unfold Mem.change. rewrite <- (Hf r) at 1.
    by destruct (p r); apply set_get_id.
  - by repeat case_match.
Qed.

Lemma update_keys p f n d t k :
  Mem.view {| Mem.next := n; Mem.cells := Mem.change p f <$> Mem.view t; Mem.dead := d |} !! k = None
  ↔ Mem.view t !! k = None.
Proof.
  rewrite (view_lookup {| Mem.next := n; Mem.cells := _; Mem.dead := d |}). simpl.
  rewrite lookup_fmap. destruct (Mem.view t !! k) as [y|] eqn:Hv; simpl.
  - rewrite (proj2 (Z.ltb_lt _ _) (view_pos _ _ _ Hv)). naive_solver.
  - by destruct (0 <? k).
Qed.

Lemma update_corpses p f t : Mem.corpses (Mem.update p f t) = Mem.corpses t.
Proof.
  assert (Hid : Mem.corpses t = Mem.change (λ _, false) id <$> Mem.corpses t).
  { apply map_eq. intros k. rewrite lookup_fmap. by destruct (Mem.corpses t !! k). }
  unfold Mem.update. rewrite Hid at 1. rewrite corpses_fmap; [done..|]. intros j. apply update_keys.
Qed.

Lemma update_all_corpses p f t :
  keeps_id f → Mem.corpses (Mem.update_all p f t) = Mem.change p f <$> Mem.corpses t.
Proof.
  intros Hf. apply corpses_fmap; [|intros j; apply update_keys].
  intros r. destruct (p r); [apply Hf|done].
Qed.

Lemma restore_ok p f t k :
  keeps_id f →
  Mem.view (Mem.restore p f t) !! k =
  match Mem.view t !! k with
  | Some r => Some (Mem.change p f r)
  | None => match Mem.corpses t !! k with
            | Some r => if p r then Some (f r) else None
            | None => None
            end
  end.
Proof.
  intros Hf. rewrite view_lookup. unfold Mem.restore. simpl.
  destruct (Mem.view t !! k) as [r|] eqn:Hv.
  - erewrite lookup_union_Some_l by (rewrite lookup_fmap, Hv; reflexivity).
    destruct (view_rows _ _ _ Hv) as [Hk Hpos]. rewrite (proj2 (Z.ltb_lt _ _) Hpos). simpl.
    by rewrite change_id.
  - rewrite lookup_union_r by by rewrite lookup_fmap, Hv.
    rewrite lookup_fmap, map_lookup_filter.
    destruct (Mem.corpses t !! k) as [r|] eqn:Hc; simpl; [|by destruct (0 <? k)].
    rewrite (proj2 (Z.ltb_lt _ _) (corpses_pos _ _ _ Hc)).
    destruct (p r) eqn:Hp; case_guard; try done. simpl. f_equal.
    rewrite <- (corpses_id _ _ _ Hc), <- (Hf r). apply set_get_id.
Qed.

Lemma restore_corpses p f t k :
  keeps_id f →
  Mem.corpses (Mem.restore p f t) !! k =
  match Mem.corpses t !! k with Some r => if p r then None else Some r | None => None end.
Proof.
  intros Hf. rewrite corpses_lookup, restore_ok by done. simpl. rewrite map_lookup_filter.
  destruct (Mem.corpses t !! k) as [r|] eqn:Hc; simpl.
  - rewrite (corpses_view _ _ _ Hc). destruct (p r) eqn:Hp; [done|].
    rewrite (proj2 (Z.ltb_lt _ _) (corpses_pos _ _ _ Hc)). case_guard; [|done]. simpl.
    f_equal. rewrite <- (corpses_id _ _ _ Hc). apply set_get_id.
  - by repeat case_match.
Qed.

Lemma remove_ok p t k :
  Mem.view (Mem.remove p t) !! k =
  match Mem.view t !! k with Some r => if p r then None else Some r | None => None end.
Proof.
  rewrite view_lookup. unfold Mem.remove. simpl.
  destruct (Mem.view t !! k) as [r|] eqn:E.
  - rewrite (proj2 (Z.ltb_lt _ _) (view_pos _ _ _ E)). destruct (p r) eqn:Hp.
    + rewrite map_lookup_filter_None_2; [done|]. right. intros r' ?. simpl. congruence.
    + rewrite (map_lookup_filter_Some_2 _ _ _ r) by done. simpl. f_equal.
      pose proof (view_id _ _ _ E) as <-. apply set_get_id.
  - rewrite map_lookup_filter_None_2; [by destruct (0 <? k)|auto].
Qed.

Lemma remove_corpses p t k :
  Mem.corpses (Mem.remove p t) !! k =
  match Mem.view t !! k with
  | Some r => if p r then Some r else None
  | None => Mem.corpses t !! k
  end.
Proof.
  rewrite corpses_lookup, remove_ok. unfold Mem.remove. simpl.
  destruct (Mem.view t !! k) as [r|] eqn:E.
  - destruct (p r) eqn:Hp; [|done]. rewrite (proj2 (Z.ltb_lt _ _) (view_pos _ _ _ E)).
    erewrite lookup_union_Some_l by (by apply map_lookup_filter_Some_2). simpl. f_equal.
    pose proof (view_id _ _ _ E) as <-. apply set_get_id.
  - rewrite lookup_union_r by (apply map_lookup_filter_None_2; auto).
    destruct (Mem.corpses t !! k) as [r|] eqn:Hc; [|by destruct (0 <? k)].
    rewrite (proj2 (Z.ltb_lt _ _) (corpses_pos _ _ _ Hc)). simpl. f_equal.
    rewrite <- (corpses_id _ _ _ Hc). apply set_get_id.
Qed.

End mem_ok.
End MemOk.

Lemma MemGormOk : GormOk MemGorm.
Proof.
  split; simpl; intros.
  - eapply MemOk.view_id; eauto.
  - eapply MemOk.view_pos; eauto.
  - eapply MemOk.corpses_id; eauto.
  - eapply MemOk.corpses_view; eauto.
  - apply MemOk.find_iff.
  - apply MemOk.find_NoDup.
  - apply MemOk.find_iff, MemOk.head_elem. done.
  - eapply MemOk.find_empty; [|done].
    unfold Mem.take in *. by destruct (Mem.find p t).
  - by eapply MemOk.find_iff, MemOk.head_elem.
  - by apply MemOk.take_pk.
  - by apply MemOk.take_all_ok.
  - by eapply MemOk.take_all_empty.
  - apply MemOk.find_iff. by eapply MemOk.least_elem.
  - eapply MemOk.find_empty; [|done]. by eapply MemOk.least_None.
  - eapply MemOk.least_least; [done..|]. apply MemOk.find_iff. split; [done|].
    by erewrite MemOk.view_id.
  - apply MemOk.find_iff. unfold Mem.page in *. case_match.
    + by eapply subseteq_drop.
    + by eapply subseteq_drop, subseteq_take.
  - unfold Mem.page. rewrite (proj2 (Z.ltb_ge _ _)) by lia.
    rewrite length_firstn. lia.
  - unfold Mem.page. by rewrite (proj2 (Z.ltb_lt _ _)).
  - by apply MemOk.create_ok.
  - by eapply MemOk.create_corpses.
  - by apply MemOk.insert_ok.
  - unfold Mem.insert_key in *. rewrite (proj2 (Z.ltb_lt _ _)) in * by done.
    destruct (Mem.view t !! _) eqn:?, (Mem.corpses t !! _) eqn:?; naive_solver.
  - by apply MemOk.update_ok.
  - by apply MemOk.update_all_ok.
  - apply MemOk.update_corpses.
  - by apply MemOk.update_all_corpses.
  - by apply MemOk.restore_ok.
  - by apply MemOk.restore_corpses.
  - apply MemOk.remove_ok.
  - apply MemOk.remove_corpses.
  - by rewrite (proj2 (Z.eqb_neq _ _)).
  - done.
Qed.
