(* ===== verification/Model.v ===== *)
(** * Model: the database structs (package model) and their methods

    One module per struct of src/web/src/model: its columns as record fields
    with the names of the source ([Type_] and [End_] for the two that are
    keywords), the associations the modelled operations preload, the zero value,
    and its [Row] instance, which writes out the [default:] tags and the
    [BeforeCreate] hook.  Time stamps and the associations no operation follows
    are left out.  Integers are [Z]; every operation that stores one keeps it at
    the width of its column. *)

From S2P Require Import Prelude GoLib Gorm.

(** A column with a [default:] tag: a blank value is not inserted, and gorm
    reads the default back into the struct. *)
Definition dflt_Z (d x : Z) : Z := if x =? 0 then d else x.
Definition dflt_s (d x : string) : string := if String.eqb x "" then d else x.

(** ** Structs *)

Module Organization.
Record Organization_t := mk {
  ID : Z;
  UUID : string;
  Creater : Z;
  Owner : Z;
  Name : string;
  DefaultSG : Z
}.
Abbreviation t := Organization_t.
#[global] Instance eta_t : Eta t := λ r,
  mk (ID r) (UUID r) (Creater r) (Owner r) (Name r) (DefaultSG r).
Definition zero : t :=
  mk 0 "" 0 0 "" 0.
#[global] Instance row : Row t := {|
  get_id := ID;
  set_id k r := r <| ID := k |>;
  before_create u r := r <| UUID := dflt_s u (UUID r) |>;
  col_defaults r := r
    <| Creater := dflt_Z 1 (Creater r) |>
    <| Owner := dflt_Z 1 (Owner r) |>
|}.
#[global] Instance Organization_row_ok : RowOk t.
Proof. split; by intros; destruct r. Qed.
End Organization.

Module Member.
Record Member_t := mk {
  ID : Z;
  UUID : string;
  Creater : Z;
  Owner : Z;
  UserID : Z;
  UserName : string;
  OrgID : Z;
  OrgName : string;
  Role : Z
}.
Abbreviation t := Member_t.
#[global] Instance eta_t : Eta t := λ r,
  mk (ID r) (UUID r) (Creater r) (Owner r) (UserID r) (UserName r) (OrgID r) (OrgName r)
    (Role r).
Definition zero : t :=
  mk 0 "" 0 0 0 "" 0 "" 0.
#[global] Instance row : Row t := {|
  get_id := ID;
  set_id k r := r <| ID := k |>;
  before_create u r := r <| UUID := dflt_s u (UUID r) |>;
  col_defaults r := r
    <| Creater := dflt_Z 1 (Creater r) |>
    <| Owner := dflt_Z 1 (Owner r) |>
|}.
#[global] Instance Member_row_ok : RowOk t.
Proof. split; by intros; destruct r. Qed.
End Member.

Module User.
Record User_t := mk {
  ID : Z;
  UUID : string;
  Creater : Z;
  Owner : Z;
  Username : string;
  Password : string
}.
Abbreviation t := User_t.
#[global] Instance eta_t : Eta t := λ r,
  mk (ID r) (UUID r) (Creater r) (Owner r) (Username r) (Password r).
Definition zero : t :=
  mk 0 "" 0 0 "" "".
#[global] Instance row : Row t := {|
  get_id := ID;
  set_id k r := r <| ID := k |>;
  before_create u r := r <| UUID := dflt_s u (UUID r) |>;
  col_defaults r := r
    <| Creater := dflt_Z 1 (Creater r) |>
    <| Owner := dflt_Z 1 (Owner r) |>
|}.
#[global] Instance User_row_ok : RowOk t.
Proof. split; by intros; destruct r. Qed.
End User.

Module Flavor.
Record Flavor_t := mk {
  ID : Z;
  UUID : string;
  Creater : Z;
  Owner : Z;
  Name : string;
  Cpu : Z;
  Memory : Z;
  Disk : Z;
  Swap : Z;
  Ephemeral : Z
}.
Abbreviation t := Flavor_t.
#[global] Instance eta_t : Eta t := λ r,
  mk (ID r) (UUID r) (Creater r) (Owner r) (Name r) (Cpu r) (Memory r) (Disk r) (Swap r)
    (Ephemeral r).
Definition zero : t :=
  mk 0 "" 0 0 "" 0 0 0 0 0.
#[global] Instance row : Row t := {|
  get_id := ID;
  set_id k r := r <| ID := k |>;
  before_create u r := r <| UUID := dflt_s u (UUID r) |>;
  col_defaults r := r
    <| Creater := dflt_Z 1 (Creater r) |>
    <| Owner := dflt_Z 1 (Owner r) |>
|}.
#[global] Instance Flavor_row_ok : RowOk t.
Proof. split; by intros; destruct r. Qed.
End Flavor.

Module Dictionary.
Record Dictionary_t := mk {
  ID : Z;
  UUID : string;
  Creater : Z;
  Owner : Z;
  Category : string;
  Name : string;
  ShortName : string;
  Value : string;
  SubType1 : string;
  SubType2 : string;
  SubType3 : string
}.
Abbreviation t := Dictionary_t.
#[global] Instance eta_t : Eta t := λ r,
  mk (ID r) (UUID r) (Creater r) (Owner r) (Category r) (Name r) (ShortName r) (Value r)
    (SubType1 r) (SubType2 r) (SubType3 r).
Definition zero : t :=
  mk 0 "" 0 0 "" "" "" "" "" "" "".
#[global] Instance row : Row t := {|
  get_id := ID;
  set_id k r := r <| ID := k |>;
  before_create u r := r <| UUID := dflt_s u (UUID r) |>;
  col_defaults r := r
    <| Creater := dflt_Z 1 (Creater r) |>
    <| Owner := dflt_Z 1 (Owner r) |>
|}.
#[global] Instance Dictionary_row_ok : RowOk t.
Proof. split; by intros; destruct r. Qed.
End Dictionary.

Module Task.
Record Task_t := mk {
  ID : Z;
  UUID : string;
  Creater : Z;
  Mission : Z;
  Owner : Z;
  Source : string;
  Name : string;
  Summary : string;
  Status : string;
  Message : string;
  Cron : string;
  Action : string;
  Resources : string
}.
Abbreviation t := Task_t.
#[global] Instance eta_t : Eta t := λ r,
  mk (ID r) (UUID r) (Creater r) (Mission r) (Owner r) (Source r) (Name r) (Summary r)
    (Status r) (Message r) (Cron r) (Action r) (Resources r).
Definition zero : t :=
  mk 0 "" 0 0 0 "" "" "" "" "" "" "" "".
#[global] Instance row : Row t := {|
  get_id := ID;
  set_id k r := r <| ID := k |>;
  before_create u r := r <| UUID := dflt_s u (UUID r) |>;
  col_defaults r := r
    <| Creater := dflt_Z 1 (Creater r) |>
    <| Owner := dflt_Z 1 (Owner r) |>
    <| Source := dflt_s "migration" (Source r) |>
|}.
#[global] Instance Task_row_ok : RowOk t.
Proof. split; by intros; destruct r. Qed.
End Task.

Module Image.
Record Image_t := mk {
  ID : Z;
  UUID : string;
  Creater : Z;
  Owner : Z;
  Name : string;
  OSCode : string;
  Format : string;
  Architecture : string;
  BootLoader : string;
  Status : string;
  Href : string;
  Checksum : string;
  OsHashAlgo : string;
  OsHashValue : string;
  Holder : string;
  Protected : bool;
  Visibility : string;
  MiniDisk : Z;
  MiniMem : Z;
  Size : Z;
  OsVersion : string;
  VirtType : string;
  UserName : string;
  QAEnabled : bool;
  CaptureFromInstanceID : Z;
  IsRescue : bool;
  RescueImage : Z;
  StorageType : string;
  OsFamily : string
}.
Abbreviation t := Image_t.
#[global] Instance eta_t : Eta t := λ r,
  mk (ID r) (UUID r) (Creater r) (Owner r) (Name r) (OSCode r) (Format r)
    (Architecture r) (BootLoader r) (Status r) (Href r) (Checksum r) (OsHashAlgo r)
    (OsHashValue r) (Holder r) (Protected r) (Visibility r) (MiniDisk r) (MiniMem r)
    (Size r) (OsVersion r) (VirtType r) (UserName r) (QAEnabled r)
    (CaptureFromInstanceID r) (IsRescue r) (RescueImage r) (StorageType r) (OsFamily r).
Definition zero : t :=
  mk 0 "" 0 0 "" "" "" "" "" "" "" "" "" "" "" false "" 0 0 0 "" "" "" false 0 false 0
    "" "".
#[global] Instance row : Row t := {|
  get_id := ID;
  set_id k r := r <| ID := k |>;
  before_create u r := r <| UUID := dflt_s u (UUID r) |>;
  col_defaults r := r
    <| Creater := dflt_Z 1 (Creater r) |>
    <| Owner := dflt_Z 1 (Owner r) |>
    <| OSCode := dflt_s "linux" (OSCode r) |>
    <| BootLoader := dflt_s "bios" (BootLoader r) |>
|}.
#[global] Instance Image_row_ok : RowOk t.
Proof. split; by intros; destruct r. Qed.
End Image.

Module Key.
Record Key_t := mk {
  ID : Z;
  UUID : string;
  Creater : Z;
  Owner : Z;
  Name : string;
  PublicKey : string;
  Length : Z;
  FingerPrint : string
}.
Abbreviation t := Key_t.
#[global] Instance eta_t : Eta t := λ r,
  mk (ID r) (UUID r) (Creater r) (Owner r) (Name r) (PublicKey r) (Length r) (FingerPrint r).
Definition zero : t :=
  mk 0 "" 0 0 "" "" 0 "".
#[global] Instance row : Row t := {|
  get_id := ID;
  set_id k r := r <| ID := k |>;
  before_create u r := r <| UUID := dflt_s u (UUID r) |>;
  col_defaults r := r
    <| Creater := dflt_Z 1 (Creater r) |>
    <| Owner := dflt_Z 1 (Owner r) |>
|}.
#[global] Instance Key_row_ok : RowOk t.
Proof. split; by intros; destruct r. Qed.
End Key.

Module Instance.
Record Instance_t := mk {
  ID : Z;
  UUID : string;
  Creater : Z;
  Owner : Z;
  Hostname : string;
  Domain : string;
  Status : string;
  Reason : string;
  Cpu : Z;
  Memory : Z;
  Disk : Z;
  FlavorID : Z;
  ImageID : Z;
  Image : option Image.t;
  Snapshot : Z;
  Keys : list Key.t;
  PasswdLogin : bool;
  Userdata : string;
  UserdataType : string;
  Vendordata : string;
  VendordataType : string;
  LoginPort : Z;
  Hyper : Z;
  ZoneID : Z;
  RouterID : Z
}.
Abbreviation t := Instance_t.
#[global] Instance eta_t : Eta t := λ r,
  mk (ID r) (UUID r) (Creater r) (Owner r) (Hostname r) (Domain r) (Status r) (Reason r)
    (Cpu r) (Memory r) (Disk r) (FlavorID r) (ImageID r) (Image r) (Snapshot r) (Keys r)
    (PasswdLogin r) (Userdata r) (UserdataType r) (Vendordata r) (VendordataType r)
    (LoginPort r) (Hyper r) (ZoneID r) (RouterID r).
Definition zero : t :=
  mk 0 "" 0 0 "" "" "" "" 0 0 0 0 0 None 0 [] false "" "" "" "" 0 0 0 0.
#[global] Instance row : Row t := {|
  get_id := ID;
  set_id k r := r <| ID := k |>;
  before_create u r := r <| UUID := dflt_s u (UUID r) |>;
  col_defaults r := r
    <| Creater := dflt_Z 1 (Creater r) |>
    <| Owner := dflt_Z 1 (Owner r) |>
    <| UserdataType := dflt_s "plain" (UserdataType r) |>
    <| VendordataType := dflt_s "plain" (VendordataType r) |>
    <| Hyper := dflt_Z (-1) (Hyper r) |>
|}.
#[global] Instance Instance_row_ok : RowOk t.
Proof. split; by intros; destruct r. Qed.
#[global] Instance Instance_soft : SoftRow t := I.
End Instance.

Module Volume.
Record Volume_t := mk {
  ID : Z;
  UUID : string;
  Creater : Z;
  Owner : Z;
  Name : string;
  Path : string;
  Size : Z;
  Booting : bool;
  Format : string;
  Status : string;
  Target : string;
  Href : string;
  InstanceID : Z;
  Instance : option Instance.t;
  IopsLimit : Z;
  IopsBurst : Z;
  BpsLimit : Z;
  BpsBurst : Z;
  PoolID : string
}.
Abbreviation t := Volume_t.
#[global] Instance eta_t : Eta t := λ r,
  mk (ID r) (UUID r) (Creater r) (Owner r) (Name r) (Path r) (Size r) (Booting r)
    (Format r) (Status r) (Target r) (Href r) (InstanceID r) (Instance r) (IopsLimit r)
    (IopsBurst r) (BpsLimit r) (BpsBurst r) (PoolID r).
Definition zero : t :=
  mk 0 "" 0 0 "" "" 0 false "" "" "" "" 0 None 0 0 0 0 "".
#[global] Instance row : Row t := {|
  get_id := ID;
  set_id k r := r <| ID := k |>;
  before_create u r := r <| UUID := dflt_s u (UUID r) |>;
  col_defaults r := r
    <| Creater := dflt_Z 1 (Creater r) |>
    <| Owner := dflt_Z 1 (Owner r) |>
|}.
#[global] Instance Volume_row_ok : RowOk t.
Proof. split; by intros; destruct r. Qed.
End Volume.

Module VolumeBackup.
Record VolumeBackup_t := mk {
  ID : Z;
  UUID : string;
  Creater : Z;
  Owner : Z;
  Name : string;
  VolumeID : Z;
  Volume : option Volume.t;
  BackupType : string;
  Status : string;
  Size : Z;
  Path : string;
  SnapshotID : string;
  TaskID : Z
}.
Abbreviation t := VolumeBackup_t.
#[global] Instance eta_t : Eta t := λ r,
  mk (ID r) (UUID r) (Creater r) (Owner r) (Name r) (VolumeID r) (Volume r)
    (BackupType r) (Status r) (Size r) (Path r) (SnapshotID r) (TaskID r).
Definition zero : t :=
  mk 0 "" 0 0 "" 0 None "" "" 0 "" "" 0.
#[global] Instance row : Row t := {|
  get_id := ID;
  set_id k r := r <| ID := k |>;
  before_create u r := r <| UUID := dflt_s u (UUID r) |>;
  col_defaults r := r
    <| Creater := dflt_Z 1 (Creater r) |>
    <| Owner := dflt_Z 1 (Owner r) |>
|}.
#[global] Instance VolumeBackup_row_ok : RowOk t.
Proof. split; by intros; destruct r. Qed.
End VolumeBackup.

Module ConsistencyGroupVolume.
Record ConsistencyGroupVolume_t := mk {
  ID : Z;
  UUID : string;
  Creater : Z;
  CGID : Z;
  VolumeID : Z;
  Volume : option Volume.t
}.
Abbreviation t := ConsistencyGroupVolume_t.
#[global] Instance eta_t : Eta t := λ r,
  mk (ID r) (UUID r) (Creater r) (CGID r) (VolumeID r) (Volume r).
Definition zero : t :=
  mk 0 "" 0 0 0 None.
#[global] Instance row : Row t := {|
  get_id := ID;
  set_id k r := r <| ID := k |>;
  before_create u r := r <| UUID := dflt_s u (UUID r) |>;
  col_defaults r := r
    <| Creater := dflt_Z 1 (Creater r) |>
|}.
#[global] Instance ConsistencyGroupVolume_row_ok : RowOk t.
Proof. split; by intros; destruct r. Qed.
End ConsistencyGroupVolume.

Module ConsistencyGroup.
Record ConsistencyGroup_t := mk {
  ID : Z;
  UUID : string;
  Creater : Z;
  Owner : Z;
  Name : string;
  Description : string;
  Status : string;
  WdsCgID : string
}.
Abbreviation t := ConsistencyGroup_t.
#[global] Instance eta_t : Eta t := λ r,
  mk (ID r) (UUID r) (Creater r) (Owner r) (Name r) (Description r) (Status r) (WdsCgID r).
Definition zero : t :=
  mk 0 "" 0 0 "" "" "" "".
#[global] Instance row : Row t := {|
  get_id := ID;
  set_id k r := r <| ID := k |>;
  before_create u r := r <| UUID := dflt_s u (UUID r) |>;
  col_defaults r := r
    <| Creater := dflt_Z 1 (Creater r) |>
    <| Owner := dflt_Z 1 (Owner r) |>
|}.
#[global] Instance ConsistencyGroup_row_ok : RowOk t.
Proof. split; by intros; destruct r. Qed.
End ConsistencyGroup.

Module ConsistencyGroupSnapshot.
Record ConsistencyGroupSnapshot_t := mk {
  ID : Z;
  UUID : string;
  Creater : Z;
  Owner : Z;
  Name : string;
  Description : string;
  Status : string;
  CGID : Z;
  Size : Z;
  WdsSnapID : string;
  TaskID : Z
}.
Abbreviation t := ConsistencyGroupSnapshot_t.
#[global] Instance eta_t : Eta t := λ r,
  mk (ID r) (UUID r) (Creater r) (Owner r) (Name r) (Description r) (Status r) (CGID r) (Size r) (WdsSnapID r) (TaskID r).
Definition zero : t :=
  mk 0 "" 0 0 "" "" "" 0 0 "" 0.
#[global] Instance row : Row t := {|
  get_id := ID;
  set_id k r := r <| ID := k |>;
  before_create u r := r <| UUID := dflt_s u (UUID r) |>;
  col_defaults r := r
    <| Creater := dflt_Z 1 (Creater r) |>
    <| Owner := dflt_Z 1 (Owner r) |>
|}.
#[global] Instance ConsistencyGroupSnapshot_row_ok : RowOk t.
Proof. split; by intros; destruct r. Qed.
End ConsistencyGroupSnapshot.

Module Router.
Record Router_t := mk {
  ID : Z;
  UUID : string;
  Creater : Z;
  Owner : Z;
  Name : string;
  Status : string;
  Hyper : Z;
  Peer : Z;
  DefaultSG : Z;
  VrrpSubnetID : Z
}.
Abbreviation t := Router_t.
#[global] Instance eta_t : Eta t := λ r,
  mk (ID r) (UUID r) (Creater r) (Owner r) (Name r) (Status r) (Hyper r) (Peer r)
    (DefaultSG r) (VrrpSubnetID r).
Definition zero : t :=
  mk 0 "" 0 0 "" "" 0 0 0 0.
#[global] Instance row : Row t := {|
  get_id := ID;
  set_id k r := r <| ID := k |>;
  before_create u r := r <| UUID := dflt_s u (UUID r) |>;
  col_defaults r := r
    <| Creater := dflt_Z 1 (Creater r) |>
    <| Owner := dflt_Z 1 (Owner r) |>
    <| Hyper := dflt_Z (-1) (Hyper r) |>
    <| Peer := dflt_Z (-1) (Peer r) |>
|}.
#[global] Instance Router_row_ok : RowOk t.
Proof. split; by intros; destruct r. Qed.
End Router.

Module SecurityGroup.
Record SecurityGroup_t := mk {
  ID : Z;
  UUID : string;
  Creater : Z;
  Owner : Z;
  Name : string;
  IsDefault : bool;
  RouterID : Z;
  Router : option Router.t
}.
Abbreviation t := SecurityGroup_t.
#[global] Instance eta_t : Eta t := λ r,
  mk (ID r) (UUID r) (Creater r) (Owner r) (Name r) (IsDefault r) (RouterID r)
    (Router r).
Definition zero : t :=
  mk 0 "" 0 0 "" false 0 None.
#[global] Instance row : Row t := {|
  get_id := ID;
  set_id k r := r <| ID := k |>;
  before_create u r := r <| UUID := dflt_s u (UUID r) |>;
  col_defaults r := r
    <| Creater := dflt_Z 1 (Creater r) |>
    <| Owner := dflt_Z 1 (Owner r) |>
|}.
#[global] Instance SecurityGroup_row_ok : RowOk t.
Proof. split; by intros; destruct r. Qed.
End SecurityGroup.

Module SecurityRule.
Record SecurityRule_t := mk {
  ID : Z;
  UUID : string;
  Creater : Z;
  Owner : Z;
  Secgroup : Z;
  RemoteIp : string;
  RemoteGroupID : Z;
  Direction : string;
  IpVersion : string;
  Protocol : string;
  PortMin : Z;
  PortMax : Z;
  Name : string
}.
Abbreviation t := SecurityRule_t.
#[global] Instance eta_t : Eta t := λ r,
  mk (ID r) (UUID r) (Creater r) (Owner r) (Secgroup r) (RemoteIp r) (RemoteGroupID r)
    (Direction r) (IpVersion r) (Protocol r) (PortMin r) (PortMax r) (Name r).
Definition zero : t :=
  mk 0 "" 0 0 0 "" 0 "" "" "" 0 0 "".
#[global] Instance row : Row t := {|
  get_id := ID;
  set_id k r := r <| ID := k |>;
  before_create u r := r <| UUID := dflt_s u (UUID r) |>;
  col_defaults r := r
    <| Creater := dflt_Z 1 (Creater r) |>
    <| Owner := dflt_Z 1 (Owner r) |>
    <| PortMin := dflt_Z (-1) (PortMin r) |>
    <| PortMax := dflt_Z (-1) (PortMax r) |>
|}.
#[global] Instance SecurityRule_row_ok : RowOk t.
Proof. split; by intros; destruct r. Qed.
End SecurityRule.

(** The subnets and floating IPs of a group are loaded into results of their own. *)
Module IpGroup.
Record IpGroup_t := mk {
  ID : Z;
  UUID : string;
  Creater : Z;
  Owner : Z;
  Name : string;
  TypeID : Z;
  Type_ : string;
  DictionaryType : option Dictionary.t
}.
Abbreviation t := IpGroup_t.
#[global] Instance eta_t : Eta t := λ r,
  mk (ID r) (UUID r) (Creater r) (Owner r) (Name r) (TypeID r) (Type_ r) (DictionaryType r).
Definition zero : t :=
  mk 0 "" 0 0 "" 0 "" None.
#[global] Instance row : Row t := {|
  get_id := ID;
  set_id k r := r <| ID := k |>;
  before_create u r := r <| UUID := dflt_s u (UUID r) |>;
  col_defaults r := r
    <| Creater := dflt_Z 1 (Creater r) |>
    <| Owner := dflt_Z 1 (Owner r) |>
    <| Type_ := dflt_s "system" (Type_ r) |>
|}.
#[global] Instance IpGroup_row_ok : RowOk t.
Proof. split; by intros; destruct r. Qed.
End IpGroup.

Module Subnet.
Record Subnet_t := mk {
  ID : Z;
  UUID : string;
  Creater : Z;
  Owner : Z;
  Name : string;
  Network : string;
  Netmask : string;
  Gateway : string;
  Start : string;
  End_ : string;
  NameServer : string;
  DomainSearch : string;
  Dhcp : bool;
  IsSite : bool;
  Interface : Z;
  Vlan : Z;
  Type_ : string;
  RouterID : Z;
  Router : option Router.t;
  Routes : string;
  Priority : Z;
  GroupID : Z;
  Group : option IpGroup.t;
  IdleCount : Z
}.
Abbreviation t := Subnet_t.
#[global] Instance eta_t : Eta t := λ r,
  mk (ID r) (UUID r) (Creater r) (Owner r) (Name r) (Network r) (Netmask r) (Gateway r)
    (Start r) (End_ r) (NameServer r) (DomainSearch r) (Dhcp r) (IsSite r) (Interface r)
    (Vlan r) (Type_ r) (RouterID r) (Router r) (Routes r) (Priority r) (GroupID r) (Group r)
    (IdleCount r).
Definition zero : t :=
  mk 0 "" 0 0 "" "" "" "" "" "" "" "" false false 0 0 "" 0 None "" 0 0 None 0.
#[global] Instance row : Row t := {|
  get_id := ID;
  set_id k r := r <| ID := k |>;
  before_create u r := r <| UUID := dflt_s u (UUID r) |>;
  col_defaults r := r
    <| Creater := dflt_Z 1 (Creater r) |>
    <| Owner := dflt_Z 1 (Owner r) |>
    <| Type_ := dflt_s "internal" (Type_ r) |>
|}.
#[global] Instance Subnet_row_ok : RowOk t.
Proof. split; by intros; destruct r. Qed.
End Subnet.

Module Address.
Record Address_t := mk {
  ID : Z;
  UUID : string;
  Creater : Z;
  Owner : Z;
  Address : string;
  Netmask : string;
  Type_ : string;
  Allocated : bool;
  Reserved : bool;
  SubnetID : Z;
  Subnet : option Subnet.t;
  Interface : Z;
  SecondInterface : Z;
  Remark : string
}.
Abbreviation t := Address_t.
#[global] Instance eta_t : Eta t := λ r,
  mk (ID r) (UUID r) (Creater r) (Owner r) (Address r) (Netmask r) (Type_ r)
    (Allocated r) (Reserved r) (SubnetID r) (Subnet r) (Interface r) (SecondInterface r)
    (Remark r).
Definition zero : t :=
  mk 0 "" 0 0 "" "" "" false false 0 None 0 0 "".
#[global] Instance row : Row t := {|
  get_id := ID;
  set_id k r := r <| ID := k |>;
  before_create u r := r <| UUID := dflt_s u (UUID r) |>;
  col_defaults r := r
    <| Creater := dflt_Z 1 (Creater r) |>
    <| Owner := dflt_Z 1 (Owner r) |>
    <| Type_ := dflt_s "native" (Type_ r) |>
|}.
#[global] Instance Address_row_ok : RowOk t.
Proof. split; by intros; destruct r. Qed.
End Address.

Module Interface.
Record Interface_t := mk {
  ID : Z;
  UUID : string;
  Creater : Z;
  Owner : Z;
  Name : string;
  MacAddr : string;
  Instance : Z;
  Device : Z;
  Dhcp : Z;
  FloatingIp : Z;
  Subnet : Z;
  RouterID : Z;
  AddressID : Z;
  Address : option Address.t;
  SecondAddresses : list Address.t;
  SiteSubnets : list Subnet.t;
  Hyper : Z;
  PrimaryIf : bool;
  Type_ : string;
  Mtu : Z;
  Inbound : Z;
  Outbound : Z;
  AllowSpoofing : bool;
  SecurityGroups : list SecurityGroup.t
}.
Abbreviation t := Interface_t.
#[global] Instance eta_t : Eta t := λ r,
  mk (ID r) (UUID r) (Creater r) (Owner r) (Name r) (MacAddr r) (Instance r) (Device r)
    (Dhcp r) (FloatingIp r) (Subnet r) (RouterID r) (AddressID r) (Address r)
    (SecondAddresses r) (SiteSubnets r) (Hyper r) (PrimaryIf r) (Type_ r) (Mtu r)
    (Inbound r) (Outbound r) (AllowSpoofing r) (SecurityGroups r).
Definition zero : t :=
  mk 0 "" 0 0 "" "" 0 0 0 0 0 0 0 None [] [] 0 false "" 0 0 0 false [].
#[global] Instance row : Row t := {|
  get_id := ID;
  set_id k r := r <| ID := k |>;
  before_create u r := r <| UUID := dflt_s u (UUID r) |>;
  col_defaults r := r
    <| Creater := dflt_Z 1 (Creater r) |>
    <| Owner := dflt_Z 1 (Owner r) |>
    <| Hyper := dflt_Z (-1) (Hyper r) |>
|}.
#[global] Instance Interface_row_ok : RowOk t.
Proof. split; by intros; destruct r. Qed.
End Interface.

Module FloatingIp.
Record FloatingIp_t := mk {
  ID : Z;
  UUID : string;
  Creater : Z;
  Owner : Z;
  Name : string;
  FipAddress : string;
  IntAddress : string;
  InstanceID : Z;
  LoadBalancerID : Z;
  Interface : option Interface.t;
  RouterID : Z;
  Inbound : Z;
  Outbound : Z;
  IPAddress : string;
  Type_ : string;
  GroupID : Z;
  SubnetID : Z;
  Subnet : option Subnet.t
}.
Abbreviation t := FloatingIp_t.
#[global] Instance eta_t : Eta t := λ r,
  mk (ID r) (UUID r) (Creater r) (Owner r) (Name r) (FipAddress r) (IntAddress r)
    (InstanceID r) (LoadBalancerID r) (Interface r) (RouterID r) (Inbound r)
    (Outbound r) (IPAddress r) (Type_ r) (GroupID r) (SubnetID r) (Subnet r).
Definition zero : t :=
  mk 0 "" 0 0 "" "" "" 0 0 None 0 0 0 "" "" 0 0 None.
#[global] Instance row : Row t := {|
  get_id := ID;
  set_id k r := r <| ID := k |>;
  before_create u r := r <| UUID := dflt_s u (UUID r) |>;
  col_defaults r := r
    <| Creater := dflt_Z 1 (Creater r) |>
    <| Owner := dflt_Z 1 (Owner r) |>
|}.
#[global] Instance FloatingIp_row_ok : RowOk t.
Proof. split; by intros; destruct r. Qed.
End FloatingIp.

Module Portmap.
Record Portmap_t := mk {
  ID : Z;
  UUID : string;
  Creater : Z;
  Owner : Z;
  Name : string;
  Status : string;
  LocalPort : Z;
  LocalAddress : string;
  RemotePort : Z;
  RemoteAddress : string;
  RouterID : Z;
  InstanceID : Z
}.
Abbreviation t := Portmap_t.
#[global] Instance eta_t : Eta t := λ r,
  mk (ID r) (UUID r) (Creater r) (Owner r) (Name r) (Status r) (LocalPort r) (LocalAddress r)
    (RemotePort r) (RemoteAddress r) (RouterID r) (InstanceID r).
Definition zero : t :=
  mk 0 "" 0 0 "" "" 0 "" 0 "" 0 0.
#[global] Instance row : Row t := {|
  get_id := ID;
  set_id k r := r <| ID := k |>;
  before_create u r := r <| UUID := dflt_s u (UUID r) |>;
  col_defaults r := r
    <| Creater := dflt_Z 1 (Creater r) |>
    <| Owner := dflt_Z 1 (Owner r) |>
|}.
#[global] Instance Portmap_row_ok : RowOk t.
Proof. split; by intros; destruct r. Qed.
End Portmap.

Module LoadBalancer.
Record LoadBalancer_t := mk {
  ID : Z;
  UUID : string;
  Creater : Z;
  Owner : Z;
  Name : string;
  Status : string;
  RouterID : Z;
  VrrpInstanceID : Z
}.
Abbreviation t := LoadBalancer_t.
#[global] Instance eta_t : Eta t := λ r,
  mk (ID r) (UUID r) (Creater r) (Owner r) (Name r) (Status r) (RouterID r) (VrrpInstanceID r).
Definition zero : t :=
  mk 0 "" 0 0 "" "" 0 0.
#[global] Instance row : Row t := {|
  get_id := ID;
  set_id k r := r <| ID := k |>;
  before_create u r := r <| UUID := dflt_s u (UUID r) |>;
  col_defaults r := r
    <| Creater := dflt_Z 1 (Creater r) |>
    <| Owner := dflt_Z 1 (Owner r) |>
|}.
#[global] Instance LoadBalancer_row_ok : RowOk t.
Proof. split; by intros; destruct r. Qed.
End LoadBalancer.

Module Zone.
Record Zone_t := mk {
  ID : Z;
  Name : string;
  Remark : string;
  Default : bool
}.
Abbreviation t := Zone_t.
#[global] Instance eta_t : Eta t := λ r,
  mk (ID r) (Name r) (Remark r) (Default r).
Definition zero : t :=
  mk 0 "" "" false.
#[global] Instance row : Row t := {|
  get_id := ID;
  set_id k r := r <| ID := k |>;
  before_create u r := r;
  col_defaults r := r
|}.
#[global] Instance Zone_row_ok : RowOk t.
Proof. split; by intros; destruct r. Qed.
End Zone.

Module Resource.
Record Resource_t := mk {
  ID : Z;
  Hostid : Z;
  Cpu : Z;
  CpuTotal : Z;
  Memory : Z;
  MemoryTotal : Z;
  Disk : Z;
  DiskTotal : Z
}.
Abbreviation t := Resource_t.
#[global] Instance eta_t : Eta t := λ r,
  mk (ID r) (Hostid r) (Cpu r) (CpuTotal r) (Memory r) (MemoryTotal r) (Disk r) (DiskTotal r).
Definition zero : t :=
  mk 0 0 0 0 0 0 0 0.
#[global] Instance row : Row t := {|
  get_id := ID;
  set_id k r := r <| ID := k |>;
  before_create u r := r;
  col_defaults r := r
|}.
#[global] Instance Resource_row_ok : RowOk t.
Proof. split; by intros; destruct r. Qed.
End Resource.

(** The rates are in millionths, the digits [%f] prints; the rounding of float32 is
    not modelled. *)
Module Hyper.
Record Hyper_t := mk {
  ID : Z;
  Hostid : Z;
  Hostname : string;
  Status : Z;
  Parentid : Z;
  Children : Z;
  Duration : Z;
  HostIP : string;
  RouteIP : string;
  VirtType : string;
  CpuModel : string;
  CpuOverRate : Z;
  MemOverRate : Z;
  DiskOverRate : Z;
  ZoneID : Z;
  Zone : option Zone.t;
  Remark : string
}.
Abbreviation t := Hyper_t.
#[global] Instance eta_t : Eta t := λ r,
  mk (ID r) (Hostid r) (Hostname r) (Status r) (Parentid r) (Children r) (Duration r)
    (HostIP r) (RouteIP r) (VirtType r) (CpuModel r) (CpuOverRate r) (MemOverRate r)
    (DiskOverRate r) (ZoneID r) (Zone r) (Remark r).
Definition zero : t :=
  mk 0 0 "" 0 0 0 0 "" "" "" "" 0 0 0 0 None "".
#[global] Instance row : Row t := {|
  get_id := ID;
  set_id k r := r <| ID := k |>;
  before_create u r := r;
  col_defaults r := r
    <| CpuOverRate := dflt_Z 1000000 (CpuOverRate r) |>
    <| MemOverRate := dflt_Z 1000000 (MemOverRate r) |>
    <| DiskOverRate := dflt_Z 1000000 (DiskOverRate r) |>
|}.
#[global] Instance Hyper_row_ok : RowOk t.
Proof. split; by intros; destruct r. Qed.
End Hyper.

Module Migration.
Record Migration_t := mk {
  ID : Z;
  UUID : string;
  Creater : Z;
  Name : string;
  InstanceID : Z;
  Force : bool;
  Type_ : string;
  SourceHyper : Z;
  TargetHyper : Z;
  Status : string
}.
Abbreviation t := Migration_t.
#[global] Instance eta_t : Eta t := λ r,
  mk (ID r) (UUID r) (Creater r) (Name r) (InstanceID r) (Force r) (Type_ r) (SourceHyper r)
    (TargetHyper r) (Status r).
Definition zero : t :=
  mk 0 "" 0 "" 0 false "" 0 0 "".
#[global] Instance row : Row t := {|
  get_id := ID;
  set_id k r := r <| ID := k |>;
  before_create u r := r <| UUID := dflt_s u (UUID r) |>;
  col_defaults r := r
    <| Creater := dflt_Z 1 (Creater r) |>
|}.
#[global] Instance Migration_row_ok : RowOk t.
Proof. split; by intros; destruct r. Qed.
End Migration.

Module VrrpInstance.
Record VrrpInstance_t := mk {
  ID : Z;
  UUID : string;
  Creater : Z;
  Owner : Z;
  Hyper : Z;
  Peer : Z;
  VrrpSubnetID : Z;
  VrrpSubnet : option Subnet.t;
  ZoneID : Z;
  RouterID : Z
}.
Abbreviation t := VrrpInstance_t.
#[global] Instance eta_t : Eta t := λ r,
  mk (ID r) (UUID r) (Creater r) (Owner r) (Hyper r) (Peer r) (VrrpSubnetID r) (VrrpSubnet r)
    (ZoneID r) (RouterID r).
Definition zero : t :=
  mk 0 "" 0 0 0 0 0 None 0 0.
#[global] Instance row : Row t := {|
  get_id := ID;
  set_id k r := r <| ID := k |>;
  before_create u r := r <| UUID := dflt_s u (UUID r) |>;
  col_defaults r := r
    <| Creater := dflt_Z 1 (Creater r) |>
    <| Owner := dflt_Z 1 (Owner r) |>
    <| Hyper := dflt_Z (-1) (Hyper r) |>
    <| Peer := dflt_Z (-1) (Peer r) |>
|}.
#[global] Instance VrrpInstance_row_ok : RowOk t.
Proof. split; by intros; destruct r. Qed.
End VrrpInstance.

Module Listener.
Record Listener_t := mk {
  ID : Z;
  UUID : string;
  Creater : Z;
  Owner : Z;
  Name : string;
  Status : string;
  Mode : string;
  Port : Z;
  LoadBalancerID : Z;
  Certificate : string;
  Key : string
}.
Abbreviation t := Listener_t.
#[global] Instance eta_t : Eta t := λ r,
  mk (ID r) (UUID r) (Creater r) (Owner r) (Name r) (Status r) (Mode r) (Port r)
    (LoadBalancerID r) (Certificate r) (Key r).
Definition zero : t :=
  mk 0 "" 0 0 "" "" "" 0 0 "" "".
#[global] Instance row : Row t := {|
  get_id := ID;
  set_id k r := r <| ID := k |>;
  before_create u r := r <| UUID := dflt_s u (UUID r) |>;
  col_defaults r := r
    <| Creater := dflt_Z 1 (Creater r) |>
    <| Owner := dflt_Z 1 (Owner r) |>
    <| Port := dflt_Z (-1) (Port r) |>
|}.
#[global] Instance Listener_row_ok : RowOk t.
Proof. split; by intros; destruct r. Qed.
End Listener.

Module Backend.
Record Backend_t := mk {
  ID : Z;
  UUID : string;
  Creater : Z;
  Owner : Z;
  Name : string;
  ListenerID : Z;
  BackendAddr : string;
  Status : string;
  SSL : bool
}.
Abbreviation t := Backend_t.
#[global] Instance eta_t : Eta t := λ r,
  mk (ID r) (UUID r) (Creater r) (Owner r) (Name r) (ListenerID r) (BackendAddr r) (Status r)
    (SSL r).
Definition zero : t :=
  mk 0 "" 0 0 "" 0 "" "" false.
#[global] Instance row : Row t := {|
  get_id := ID;
  set_id k r := r <| ID := k |>;
  before_create u r := r <| UUID := dflt_s u (UUID r) |>;
  col_defaults r := r
    <| Creater := dflt_Z 1 (Creater r) |>
|}.
#[global] Instance Backend_row_ok : RowOk t.
Proof. split; by intros; destruct r. Qed.
End Backend.

Module Vnc.
Record Vnc_t := mk {
  ID : Z;
  UUID : string;
  Creater : Z;
  Owner : Z;
  LocalAddress : string;
  LocalPort : Z;
  AccessAddress : string;
  AccessPort : Z;
  InstanceID : Z
}.
Abbreviation t := Vnc_t.
#[global] Instance eta_t : Eta t := λ r,
  mk (ID r) (UUID r) (Creater r) (Owner r) (LocalAddress r) (LocalPort r) (AccessAddress r)
    (AccessPort r) (InstanceID r).
Definition zero : t :=
  mk 0 "" 0 0 "" 0 "" 0 0.
#[global] Instance row : Row t := {|
  get_id := ID;
  set_id k r := r <| ID := k |>;
  before_create u r := r <| UUID := dflt_s u (UUID r) |>;
  col_defaults r := r
    <| Creater := dflt_Z 1 (Creater r) |>
    <| Owner := dflt_Z 1 (Owner r) |>
|}.
#[global] Instance Vnc_row_ok : RowOk t.
Proof. split; by intros; destruct r. Qed.
End Vnc.

Module ImageStorage.
Record ImageStorage_t := mk {
  ID : Z;
  UUID : string;
  Creater : Z;
  ImageID : Z;
  Image : option Image.t;
  VolumeID : string;
  PoolID : string;
  Status : string
}.
Abbreviation t := ImageStorage_t.
#[global] Instance eta_t : Eta t := λ r,
  mk (ID r) (UUID r) (Creater r) (ImageID r) (Image r) (VolumeID r) (PoolID r) (Status r).
Definition zero : t :=
  mk 0 "" 0 0 None "" "" "".
#[global] Instance row : Row t := {|
  get_id := ID;
  set_id k r := r <| ID := k |>;
  before_create u r := r <| UUID := dflt_s u (UUID r) |>;
  col_defaults r := r
    <| Creater := dflt_Z 1 (Creater r) |>
    <| Status := dflt_s "syncing" (Status r) |>
|}.
#[global] Instance ImageStorage_row_ok : RowOk t.
Proof. split; by intros; destruct r. Qed.
End ImageStorage.

Module RuleGroupV2.
Record RuleGroupV2_t := mk {
  ID : Z;
  UUID : string;
  Creater : Z;
  RuleID : string;
  Name : string;
  Type_ : string;
  Owner : string;
  Enabled : bool;
  TriggerCnt : Z;
  RegionID : string;
  Level : string;
  DurationMinutes : Z
}.
Abbreviation t := RuleGroupV2_t.
#[global] Instance eta_t : Eta t := λ r,
  mk (ID r) (UUID r) (Creater r) (RuleID r) (Name r) (Type_ r) (Owner r) (Enabled r)
    (TriggerCnt r) (RegionID r) (Level r) (DurationMinutes r).
Definition zero : t :=
  mk 0 "" 0 "" "" "" "" false 0 "" "" 0.
#[global] Instance row : Row t := {|
  get_id := ID;
  set_id k r := r <| ID := k |>;
  before_create u r := r <| UUID := dflt_s u (UUID r) |>;
  col_defaults r := r
    <| Creater := dflt_Z 1 (Creater r) |>
    <| Enabled := orb true (Enabled r) |>
|}.
#[global] Instance RuleGroupV2_row_ok : RowOk t.
Proof. split; by intros; destruct r. Qed.
End RuleGroupV2.

Module VMRuleLink.
Record VMRuleLink_t := mk {
  ID : Z;
  UUID : string;
  Creater : Z;
  GroupUUID : string;
  VMUUID : string;
  Interface : string
}.
Abbreviation t := VMRuleLink_t.
#[global] Instance eta_t : Eta t := λ r,
  mk (ID r) (UUID r) (Creater r) (GroupUUID r) (VMUUID r) (Interface r).
Definition zero : t :=
  mk 0 "" 0 "" "" "".
#[global] Instance row : Row t := {|
  get_id := ID;
  set_id k r := r <| ID := k |>;
  before_create u r := r <| UUID := dflt_s u (UUID r) |>;
  col_defaults r := r
    <| Creater := dflt_Z 1 (Creater r) |>
|}.
#[global] Instance VMRuleLink_row_ok : RowOk t.
Proof. split; by intros; destruct r. Qed.
End VMRuleLink.

Module Console.
Record Console_t := mk {
  ID : Z;
  UUID : string;
  Creater : Z;
  Owner : Z;
  Instance : Z;
  Type_ : string;
  HashSecret : string
}.
Abbreviation t := Console_t.
#[global] Instance eta_t : Eta t := λ r,
  mk (ID r) (UUID r) (Creater r) (Owner r) (Instance r) (Type_ r) (HashSecret r).
Definition zero : t :=
  mk 0 "" 0 0 0 "" "".
#[global] Instance row : Row t := {|
  get_id := ID;
  set_id k r := r <| ID := k |>;
  before_create u r := r <| UUID := dflt_s u (UUID r) |>;
  col_defaults r := r
    <| Creater := dflt_Z 1 (Creater r) |>
    <| Owner := dflt_Z 1 (Owner r) |>
|}.
#[global] Instance Console_row_ok : RowOk t.
Proof. split; by intros; destruct r. Qed.
End Console.

Module CPURuleDetail.
Record CPURuleDetail_t := mk {
  ID : Z;
  UUID : string;
  Creater : Z;
  GroupUUID : string;
  Name : string;
  Limit : Z;
  Rule : string;
  Duration : Z;
  Over : Z;
  DownDuration : Z;
  DownTo : Z
}.
Abbreviation t := CPURuleDetail_t.
#[global] Instance eta_t : Eta t := λ r,
  mk (ID r) (UUID r) (Creater r) (GroupUUID r) (Name r) (Limit r) (Rule r) (Duration r)
    (Over r) (DownDuration r) (DownTo r).
Definition zero : t :=
  mk 0 "" 0 "" "" 0 "" 0 0 0 0.
#[global] Instance row : Row t := {|
  get_id := ID;
  set_id k r := r <| ID := k |>;
  before_create u r := r <| UUID := dflt_s u (UUID r) |>;
  col_defaults r := r
    <| Creater := dflt_Z 1 (Creater r) |>
|}.
#[global] Instance CPURuleDetail_row_ok : RowOk t.
Proof. split; by intros; destruct r. Qed.
End CPURuleDetail.

Module MemoryRuleDetail.
Record MemoryRuleDetail_t := mk {
  ID : Z;
  UUID : string;
  Creater : Z;
  GroupUUID : string;
  Name : string;
  Limit : Z;
  Rule : string;
  Duration : Z;
  Over : Z;
  DownDuration : Z;
  DownTo : Z
}.
Abbreviation t := MemoryRuleDetail_t.
#[global] Instance eta_t : Eta t := λ r,
  mk (ID r) (UUID r) (Creater r) (GroupUUID r) (Name r) (Limit r) (Rule r) (Duration r)
    (Over r) (DownDuration r) (DownTo r).
Definition zero : t :=
  mk 0 "" 0 "" "" 0 "" 0 0 0 0.
#[global] Instance row : Row t := {|
  get_id := ID;
  set_id k r := r <| ID := k |>;
  before_create u r := r <| UUID := dflt_s u (UUID r) |>;
  col_defaults r := r
    <| Creater := dflt_Z 1 (Creater r) |>
|}.
#[global] Instance MemoryRuleDetail_row_ok : RowOk t.
Proof. split; by intros; destruct r. Qed.
End MemoryRuleDetail.

Module BWRuleDetail.
Record BWRuleDetail_t := mk {
  ID : Z;
  UUID : string;
  Creater : Z;
  GroupUUID : string;
  Name : string;
  Direction : string;
  Limit : Z;
  Duration : Z;
  InThreshold : Z;
  InDuration : Z;
  InOverType : string;
  InDownTo : Z;
  InDownDuration : Z;
  OutThreshold : Z;
  OutDuration : Z;
  OutOverType : string;
  OutDownTo : Z;
  OutDownDuration : Z
}.
Abbreviation t := BWRuleDetail_t.
#[global] Instance eta_t : Eta t := λ r,
  mk (ID r) (UUID r) (Creater r) (GroupUUID r) (Name r) (Direction r) (Limit r) (Duration r)
    (InThreshold r) (InDuration r) (InOverType r) (InDownTo r) (InDownDuration r)
    (OutThreshold r) (OutDuration r) (OutOverType r) (OutDownTo r) (OutDownDuration r).
Definition zero : t :=
  mk 0 "" 0 "" "" "" 0 0 0 0 "" 0 0 0 0 "" 0 0.
#[global] Instance row : Row t := {|
  get_id := ID;
  set_id k r := r <| ID := k |>;
  before_create u r := r <| UUID := dflt_s u (UUID r) |>;
  col_defaults r := r
    <| Creater := dflt_Z 1 (Creater r) |>
    <| InThreshold := dflt_Z (-1) (InThreshold r) |>
    <| InDuration := dflt_Z (-1) (InDuration r) |>
    <| InDownTo := dflt_Z (-1) (InDownTo r) |>
    <| InDownDuration := dflt_Z (-1) (InDownDuration r) |>
    <| OutThreshold := dflt_Z (-1) (OutThreshold r) |>
    <| OutDuration := dflt_Z (-1) (OutDuration r) |>
    <| OutDownTo := dflt_Z (-1) (OutDownTo r) |>
    <| OutDownDuration := dflt_Z (-1) (OutDownDuration r) |>
    <| InOverType := dflt_s "percent" (InOverType r) |>
    <| OutOverType := dflt_s "percent" (OutOverType r) |>
|}.
#[global] Instance BWRuleDetail_row_ok : RowOk t.
Proof. split; by intros; destruct r. Qed.
End BWRuleDetail.

Module AdjustRuleGroup.
Record AdjustRuleGroup_t := mk {
  ID : Z;
  UUID : string;
  Creater : Z;
  Name : string;
  Type_ : string;
  Owner : string;
  Enabled : bool;
  RegionID : string;
  RuleID : string;
  NotifyURL : string
}.
Abbreviation t := AdjustRuleGroup_t.
#[global] Instance eta_t : Eta t := λ r,
  mk (ID r) (UUID r) (Creater r) (Name r) (Type_ r) (Owner r) (Enabled r) (RegionID r)
    (RuleID r) (NotifyURL r).
Definition zero : t :=
  mk 0 "" 0 "" "" "" false "" "" "".
#[global] Instance row : Row t := {|
  get_id := ID;
  set_id k r := r <| ID := k |>;
  before_create u r := r <| UUID := dflt_s u (UUID r) |>;
  col_defaults r := r
    <| Creater := dflt_Z 1 (Creater r) |>
    <| Enabled := orb true (Enabled r) |>
|}.
#[global] Instance AdjustRuleGroup_row_ok : RowOk t.
Proof. split; by intros; destruct r. Qed.
End AdjustRuleGroup.

(** [HighThreshold] is a float64 that is only copied: the field holds its bits, of which
    [16468 * 2 ^ 48] are those of 80. *)
Module CPUAdjustRuleDetail.
Record CPUAdjustRuleDetail_t := mk {
  ID : Z;
  UUID : string;
  Creater : Z;
  GroupUUID : string;
  Name : string;
  HighThreshold : Z;
  SmoothWindow : Z;
  TriggerDuration : Z;
  LimitDuration : Z;
  LimitPercent : Z
}.
Abbreviation t := CPUAdjustRuleDetail_t.
#[global] Instance eta_t : Eta t := λ r,
  mk (ID r) (UUID r) (Creater r) (GroupUUID r) (Name r) (HighThreshold r) (SmoothWindow r)
    (TriggerDuration r) (LimitDuration r) (LimitPercent r).
Definition zero : t :=
  mk 0 "" 0 "" "" 0 0 0 0 0.
#[global] Instance row : Row t := {|
  get_id := ID;
  set_id k r := r <| ID := k |>;
  before_create u r := r <| UUID := dflt_s u (UUID r) |>;
  col_defaults r := r
    <| Creater := dflt_Z 1 (Creater r) |>
    <| HighThreshold := dflt_Z (16468 * 2 ^ 48) (HighThreshold r) |>
    <| SmoothWindow := dflt_Z 5 (SmoothWindow r) |>
    <| TriggerDuration := dflt_Z 30 (TriggerDuration r) |>
    <| LimitDuration := dflt_Z 300 (LimitDuration r) |>
    <| LimitPercent := dflt_Z 50 (LimitPercent r) |>
|}.
#[global] Instance CPUAdjustRuleDetail_row_ok : RowOk t.
Proof. split; by intros; destruct r. Qed.
End CPUAdjustRuleDetail.

Module BWAdjustRuleDetail.
Record BWAdjustRuleDetail_t := mk {
  ID : Z;
  UUID : string;
  Creater : Z;
  GroupUUID : string;
  Name : string;
  Direction : string;
  HighThresholdPct : Z;
  SmoothWindow : Z;
  TriggerDuration : Z;
  LimitDuration : Z;
  LimitValuePct : Z
}.
Abbreviation t := BWAdjustRuleDetail_t.
#[global] Instance eta_t : Eta t := λ r,
  mk (ID r) (UUID r) (Creater r) (GroupUUID r) (Name r) (Direction r) (HighThresholdPct r)
    (SmoothWindow r) (TriggerDuration r) (LimitDuration r) (LimitValuePct r).
Definition zero : t :=
  mk 0 "" 0 "" "" "" 0 0 0 0 0.
#[global] Instance row : Row t := {|
  get_id := ID;
  set_id k r := r <| ID := k |>;
  before_create u r := r <| UUID := dflt_s u (UUID r) |>;
  col_defaults r := r
    <| Creater := dflt_Z 1 (Creater r) |>
    <| SmoothWindow := dflt_Z 5 (SmoothWindow r) |>
    <| TriggerDuration := dflt_Z 30 (TriggerDuration r) |>
    <| LimitDuration := dflt_Z 300 (LimitDuration r) |>
|}.
#[global] Instance BWAdjustRuleDetail_row_ok : RowOk t.
Proof. split; by intros; destruct r. Qed.
End BWAdjustRuleDetail.

(** [AdjustTime] in nanoseconds since 1970. *)
Module AdjustmentHistory.
Record AdjustmentHistory_t := mk {
  ID : Z;
  UUID : string;
  Creater : Z;
  DomainName : string;
  RuleID : string;
  GroupUUID : string;
  ActionType : string;
  Status : string;
  Details : string;
  AdjustTime : Z
}.
Abbreviation t := AdjustmentHistory_t.
#[global] Instance eta_t : Eta t := λ r,
  mk (ID r) (UUID r) (Creater r) (DomainName r) (RuleID r) (GroupUUID r) (ActionType r)
    (Status r) (Details r) (AdjustTime r).
Definition zero : t :=
  mk 0 "" 0 "" "" "" "" "" "" 0.
#[global] Instance row : Row t := {|
  get_id := ID;
  set_id k r := r <| ID := k |>;
  before_create u r := r <| UUID := dflt_s u (UUID r) |>;
  col_defaults r := r
    <| Creater := dflt_Z 1 (Creater r) |>
|}.
#[global] Instance AdjustmentHistory_row_ok : RowOk t.
Proof. split; by intros; destruct r. Qed.
End AdjustmentHistory.

(** ** Roles (model/org.go) *)

Definition RoleNone : Z := 0.
Definition Reader : Z := 1.
Definition Writer : Z := 2.
Definition Owner : Z := 3.
Definition Admin : Z := 4.

Definition Role_String (r : Z) : string :=
  if r =? RoleNone then "None"
  else if r =? Reader then "Reader"
  else if r =? Writer then "Writer"
  else if r =? Owner then "Owner"
  else if r =? Admin then "Admin"
  else fmt_d r.

(** ** Volume and backup states (model/volume.go)

    A status is a string of the source: a report of a hypervisor may carry any. *)

Definition VolumeStatusResizing := "resizing".
Definition VolumeStatusAvailable := "available".
Definition VolumeStatusAttached := "attached".
Definition VolumeStatusAttaching := "attaching".
Definition VolumeStatusDetaching := "detaching".
Definition VolumeStatusRestoring := "restoring".
Definition VolumeStatusBackuping := "backuping".
Definition VolumeStatusError := "error".
Definition VolumeStatusPending := "pending".

Definition BackupStatusPending := "pending".
Definition BackupStatusReady := "available".
Definition BackupStatusError := "error".
Definition BackupStatusRestoring := "restoring".

Definition VolumeBpsLimitMax : Z := 102400.
Definition VolumeBpsLimitMin : Z := 10.
Definition VolumeIopsLimitMax : Z := 10000000.
Definition VolumeIopsLimitMin : Z := 100.

Definition Volume_IsBusy (v : Volume.t) : bool :=
  String.eqb (Volume.Status v) VolumeStatusPending ||
  String.eqb (Volume.Status v) VolumeStatusResizing ||
  String.eqb (Volume.Status v) VolumeStatusAttaching ||
  String.eqb (Volume.Status v) VolumeStatusDetaching ||
  String.eqb (Volume.Status v) VolumeStatusRestoring ||
  String.eqb (Volume.Status v) VolumeStatusBackuping.

Definition Volume_IsError (v : Volume.t) : bool := String.eqb (Volume.Status v) VolumeStatusError.
Definition Volume_IsAvailable (v : Volume.t) : bool :=
  String.eqb (Volume.Status v) VolumeStatusAvailable.
Definition Volume_IsAttached (v : Volume.t) : bool :=
  String.eqb (Volume.Status v) VolumeStatusAttached.

(** [parse]: the driver and the parts of a path [<driver>://<rest>]; the nil
    slice of the source is the empty list. *)
Definition parse (path : string) : list string :=
  if String.eqb path "" then []
  else match SplitN2 path "://" with
       | [driver; rest] =>
           if String.eqb driver "local" then [driver; rest] else driver :: Split rest "/"
       | _ => []
       end.

Definition Volume_ParsePath (v : Volume.t) : list string := parse (Volume.Path v).

Definition parseDriver (path : string) : string :=
  match parse path with d :: _ => d | [] => "" end.

Definition parsePath (path : string) : string :=
  match parse path with
  | d :: p :: _ => if String.eqb d "local" then p else path
  | _ => path
  end.

Definition parsePoolID (path : string) : string :=
  match parse path with [_; pool; _] => pool | _ => "" end.

Definition parseOriginID (path id : string) : string :=
  match parse path with [_; _; origin] => origin | _ => id end.

Definition Volume_GetVolumeDriver (v : Volume.t) : string := parseDriver (Volume.Path v).
Definition Volume_GetVolumePath (v : Volume.t) : string := parsePath (Volume.Path v).
Definition Volume_GetVolumePoolID (v : Volume.t) : string := parsePoolID (Volume.Path v).
Definition Volume_GetOriginVolumeID (v : Volume.t) : string :=
  parseOriginID (Volume.Path v) (Volume.UUID v).

Definition VolumeBackup_CanDelete (b : VolumeBackup.t) : bool :=
  negb (String.eqb (VolumeBackup.Status b) BackupStatusRestoring) &&
  negb (String.eqb (VolumeBackup.Status b) BackupStatusPending).
Definition VolumeBackup_CanRestore (b : VolumeBackup.t) : bool :=
  String.eqb (VolumeBackup.Status b) BackupStatusReady.
Definition VolumeBackup_GetBackupDriver (b : VolumeBackup.t) : string :=
  parseDriver (VolumeBackup.Path b).
Definition VolumeBackup_GetBackupPath (b : VolumeBackup.t) : string :=
  parsePath (VolumeBackup.Path b).
Definition VolumeBackup_GetBackupPoolID (b : VolumeBackup.t) : string :=
  parsePoolID (VolumeBackup.Path b).
Definition VolumeBackup_GetOriginBackupID (b : VolumeBackup.t) : string :=
  parseOriginID (VolumeBackup.Path b) "".

(** ** Consistency groups (model/consistency_group.go) *)

Definition CGStatusPending := "pending".
Definition CGStatusProcessing := "processing".
Definition CGStatusAvailable := "available".
Definition CGStatusError := "error".
Definition CGStatusUpdating := "updating".
Definition CGStatusDeleting := "deleting".

Definition ConsistencyGroup_IsBusy (cg : ConsistencyGroup.t) : bool :=
  String.eqb (ConsistencyGroup.Status cg) CGStatusPending ||
  String.eqb (ConsistencyGroup.Status cg) CGStatusProcessing ||
  String.eqb (ConsistencyGroup.Status cg) CGStatusUpdating ||
  String.eqb (ConsistencyGroup.Status cg) CGStatusDeleting.

Definition ConsistencyGroup_IsAvailable (cg : ConsistencyGroup.t) : bool :=
  String.eqb (ConsistencyGroup.Status cg) CGStatusAvailable.
Definition ConsistencyGroup_IsError (cg : ConsistencyGroup.t) : bool :=
  String.eqb (ConsistencyGroup.Status cg) CGStatusError.
Definition ConsistencyGroup_CanDelete (cg : ConsistencyGroup.t) : bool :=
  negb (ConsistencyGroup_IsBusy cg).
Definition ConsistencyGroup_CanUpdate (cg : ConsistencyGroup.t) : bool :=
  ConsistencyGroup_IsAvailable cg.

Definition CGSnapshotStatusPending := "pending".
Definition CGSnapshotStatusAvailable := "available".
Definition CGSnapshotStatusError := "error".
Definition CGSnapshotStatusRestoring := "restoring".
Definition CGSnapshotStatusDeleting := "deleting".

Definition ConsistencyGroupSnapshot_CanDelete (s : ConsistencyGroupSnapshot.t) : bool :=
  negb (String.eqb (ConsistencyGroupSnapshot.Status s) CGSnapshotStatusRestoring) &&
  negb (String.eqb (ConsistencyGroupSnapshot.Status s) CGSnapshotStatusPending) &&
  negb (String.eqb (ConsistencyGroupSnapshot.Status s) CGSnapshotStatusDeleting).
Definition ConsistencyGroupSnapshot_CanRestore (s : ConsistencyGroupSnapshot.t) : bool :=
  String.eqb (ConsistencyGroupSnapshot.Status s) CGSnapshotStatusAvailable.
Definition ConsistencyGroupSnapshot_IsBusy (s : ConsistencyGroupSnapshot.t) : bool :=
  String.eqb (ConsistencyGroupSnapshot.Status s) CGSnapshotStatusPending ||
  String.eqb (ConsistencyGroupSnapshot.Status s) CGSnapshotStatusRestoring ||
  String.eqb (ConsistencyGroupSnapshot.Status s) CGSnapshotStatusDeleting.

(** ** Instance states (model/instance.go) and tasks (model/task.go) *)

Definition StorageStatusSynced := "synced".
Definition StorageStatusError := "error".
Definition StorageStatusUnknown := "unknown".
Definition StorageStatusSyncing := "syncing".
Definition StorageStatusNotFound := "not_found".

Definition InstanceStatusPending := "pending".
Definition InstanceStatusRunning := "running".
Definition InstanceStatusShutoff := "shut_off".
Definition InstanceStatusPaused := "paused".
Definition InstanceStatusMigrating := "migrating".
Definition InstanceStatusMigrated := "migrated".
Definition InstanceStatusRollback := "rollback".
Definition InstanceStatusUnknown := "unknown".
Definition InstanceStatusReinstalling := "reinstalling".
Definition InstanceStatusResizing := "resizing".
Definition InstanceStatusDeleting := "deleting".
Definition InstanceStatusDeleted := "deleted".
Definition InstanceStatusRescuing := "rescuing".

Definition TaskSourceManual := "manual".
Definition TaskStatusRunning := "running".
Definition TaskStatusSuccess := "success".
Definition TaskStatusFailed := "failed".
Definition TaskActionBackup := "backup".
Definition TaskActionSnapshot := "snapshot".
Definition TaskActionRestore := "restore".

Definition DICT_CATEGORY_STORAGE_POOL := "storage_pool".
Definition DICT_CATEGORY_STORAGE_POOL_GROUP := "storage_pool_group".
