(* ===== verification/Store.v ===== *)
(** * Store: request context, database, effects (package common: db.go, clients.go)

    The state a request works on and the effects it has, as a monad:
    - the context [Ctx]: the caller's membership, whether a database handle is
      already stored under the key "dbs", the keys "error" and "hostid" of a callback;
    - the world [World]: the database, the commands posted to the SCI endpoint
      so far, and a clock that numbers the statements and posts;
    - a result: a value, a Go error, or a run-time panic.

    Faults are oracles of the environment [Env], indexed by the clock: any
    statement and any post may fail.  [StartTransaction]/[EndTransaction] are
    [with_tx]: the transaction is rolled back exactly when the operation that
    opened it returns an error.  COMMIT itself is taken to succeed (its result is
    not looked at in the source) and requests are taken one at a time. *)

From S2P Require Import Prelude GoLib ErrorCodes Gorm Model.

(** ** Results *)

Inductive Res (A : Type) :=
  | Ok (a : A)
  | Err (e : error)
  | Panic.
Arguments Ok {A} a.
Arguments Err {A} e.
Arguments Panic {A}.

(** What happened to a request posted to the SCI endpoint: answered, not
    delivered, or delivered without a readable answer. *)
Inductive PostResult := PostOk | PostRefused | PostNoReply.

(** ** The environment: what the program takes from outside the repository *)

Class Env := {
  db_fault : nat → bool;             (* does the statement sent at this time fail? *)
  post_result : nat → PostResult;    (* http.Post to sci.endpoint *)
  uuid_new : nat → string;           (* google/uuid *)
  rand_read : nat → option (Z * Z * Z * Z);  (* crypto/rand.Read of four bytes *)
  rand_intn : nat → Z → Z;           (* math/rand.Intn *)
  viper_IsSet : string → bool;       (* configuration *)
  viper_GetString : string → string;
  viper_GetInt32 : string → Z;
  sql_like : string → string → bool; (* text LIKE pattern *)
  inet_le : string → string → bool;  (* the order of the type inet *)
  gorm_autosave : bool;              (* gorm:association_autoupdate *)
  recently_updated : nat → Z → bool; (* was the instance changed in the last 6 minutes? *)
  instance_created : Z → Z;          (* CreatedAt.Unix() of an instance *)
  error_text : error → string;       (* Error() of an error of another package *)
  map_order : nat → list Z → list Z; (* the order in which range visits the keys of a map *)
  time_now : nat → Z;                (* time.Now().UnixNano() *)
  created_at : string → Z → Z;       (* CreatedAt.UnixNano() of the row of a table *)
}.

(** ** Context *)

(** [MemberShip] (common/member.go) *)
Module MemberShip.
Record MemberShip_t := mk {
  UserID : Z;
  UserName : string;
  OrgID : Z;
  OrgName : string;
  Role : Z
}.
Abbreviation t := MemberShip_t.
#[global] Instance eta_t : Eta t := λ r, mk (UserID r) (UserName r) (OrgID r) (OrgName r) (Role r).
Definition zero : t := mk 0 "" 0 "" 0.
End MemberShip.

Record Ctx := mkCtx {
  membership : option MemberShip.t;   (* key "membership" *)
  dbkey : bool;                       (* key "dbs" is set *)
  errkey : option string;             (* key "error" *)
  hostkey : option Z;                 (* key "hostid" *)
}.
#[global] Instance eta_Ctx : Eta Ctx := λ c, mkCtx (membership c) (dbkey c) (errkey c) (hostkey c).

(** The membership [GetMemberShip] finds in a context. *)
Definition caller (c : Ctx) : MemberShip.t := default MemberShip.zero (membership c).

Definition background : Ctx := mkCtx None false None None.

Section store.
Context {G : Gorm}.

(** ** The database *)

Record DB := mkDB {
  organizations : table Organization.t;
  members : table Member.t;
  users : table User.t;
  flavors : table Flavor.t;
  dictionaries : table Dictionary.t;
  tasks : table Task.t;
  images : table Image.t;
  instances : table Instance.t;
  volumes : table Volume.t;
  volume_backups : table VolumeBackup.t;
  cg_volumes : table ConsistencyGroupVolume.t;
  consistency_groups : table ConsistencyGroup.t;
  cg_snapshots : table ConsistencyGroupSnapshot.t;
  routers : table Router.t;
  secgroups : table SecurityGroup.t;
  secrules : table SecurityRule.t;
  subnets : table Subnet.t;
  addresses : table Address.t;
  interfaces : table Interface.t;
  floating_ips : table FloatingIp.t;
  ip_groups : table IpGroup.t;
  portmaps : table Portmap.t;
  load_balancers : table LoadBalancer.t;
  zones : table Zone.t;
  resources : table Resource.t;
  hypers : table Hyper.t;
  migrations : table Migration.t;
  vrrp_instances : table VrrpInstance.t;
  listeners : table Listener.t;
  backends : table Backend.t;
  keys : table Key.t;
  vncs : table Vnc.t;
  image_storages : table ImageStorage.t;
  rule_groups : table RuleGroupV2.t;
  vm_rule_links : table VMRuleLink.t;
  consoles : table Console.t;
  cpu_rule_details : table CPURuleDetail.t;
  memory_rule_details : table MemoryRuleDetail.t;
  bw_rule_details : table BWRuleDetail.t;
  adjust_groups : table AdjustRuleGroup.t;
  cpu_adjust_details : table CPUAdjustRuleDetail.t;
  bw_adjust_details : table BWAdjustRuleDetail.t;
  adjustment_histories : table AdjustmentHistory.t
}.
#[global] Instance eta_DB : Eta DB := λ d,
  mkDB (organizations d) (members d) (users d) (flavors d) (dictionaries d) (tasks d)
    (images d) (instances d) (volumes d) (volume_backups d) (cg_volumes d)
    (consistency_groups d) (cg_snapshots d) (routers d)
    (secgroups d) (secrules d) (subnets d) (addresses d) (interfaces d) (floating_ips d)
    (ip_groups d) (portmaps d) (load_balancers d) (zones d) (resources d) (hypers d)
    (migrations d) (vrrp_instances d) (listeners d) (backends d) (keys d)
    (vncs d) (image_storages d) (rule_groups d) (vm_rule_links d)
    (consoles d) (cpu_rule_details d) (memory_rule_details d) (bw_rule_details d)
    (adjust_groups d) (cpu_adjust_details d) (bw_adjust_details d) (adjustment_histories d).

(** The table a struct is stored in. *)
Class InDB (R : Type) := { tbl : DB → table R; set_tbl : table R → DB → DB }.

#[global] Instance in_organizations : InDB Organization.t :=
  {| tbl := organizations; set_tbl t d := d <| organizations := t |> |}.
#[global] Instance in_members : InDB Member.t :=
  {| tbl := members; set_tbl t d := d <| members := t |> |}.
#[global] Instance in_users : InDB User.t :=
  {| tbl := users; set_tbl t d := d <| users := t |> |}.
#[global] Instance in_flavors : InDB Flavor.t :=
  {| tbl := flavors; set_tbl t d := d <| flavors := t |> |}.
#[global] Instance in_dictionaries : InDB Dictionary.t :=
  {| tbl := dictionaries; set_tbl t d := d <| dictionaries := t |> |}.
#[global] Instance in_tasks : InDB Task.t :=
  {| tbl := tasks; set_tbl t d := d <| tasks := t |> |}.
#[global] Instance in_images : InDB Image.t :=
  {| tbl := images; set_tbl t d := d <| images := t |> |}.
#[global] Instance in_instances : InDB Instance.t :=
  {| tbl := instances; set_tbl t d := d <| instances := t |> |}.
#[global] Instance in_volumes : InDB Volume.t :=
  {| tbl := volumes; set_tbl t d := d <| volumes := t |> |}.
#[global] Instance in_volume_backups : InDB VolumeBackup.t :=
  {| tbl := volume_backups; set_tbl t d := d <| volume_backups := t |> |}.
#[global] Instance in_cg_volumes : InDB ConsistencyGroupVolume.t :=
  {| tbl := cg_volumes; set_tbl t d := d <| cg_volumes := t |> |}.
#[global] Instance in_consistency_groups : InDB ConsistencyGroup.t :=
  {| tbl := consistency_groups; set_tbl t d := d <| consistency_groups := t |> |}.
#[global] Instance in_cg_snapshots : InDB ConsistencyGroupSnapshot.t :=
  {| tbl := cg_snapshots; set_tbl t d := d <| cg_snapshots := t |> |}.
#[global] Instance in_routers : InDB Router.t :=
  {| tbl := routers; set_tbl t d := d <| routers := t |> |}.
#[global] Instance in_secgroups : InDB SecurityGroup.t :=
  {| tbl := secgroups; set_tbl t d := d <| secgroups := t |> |}.
#[global] Instance in_secrules : InDB SecurityRule.t :=
  {| tbl := secrules; set_tbl t d := d <| secrules := t |> |}.
#[global] Instance in_subnets : InDB Subnet.t :=
  {| tbl := subnets; set_tbl t d := d <| subnets := t |> |}.
#[global] Instance in_addresses : InDB Address.t :=
  {| tbl := addresses; set_tbl t d := d <| addresses := t |> |}.
#[global] Instance in_interfaces : InDB Interface.t :=
  {| tbl := interfaces; set_tbl t d := d <| interfaces := t |> |}.
#[global] Instance in_floating_ips : InDB FloatingIp.t :=
  {| tbl := floating_ips; set_tbl t d := d <| floating_ips := t |> |}.
#[global] Instance in_ip_groups : InDB IpGroup.t :=
  {| tbl := ip_groups; set_tbl t d := d <| ip_groups := t |> |}.
#[global] Instance in_portmaps : InDB Portmap.t :=
  {| tbl := portmaps; set_tbl t d := d <| portmaps := t |> |}.
#[global] Instance in_load_balancers : InDB LoadBalancer.t :=
  {| tbl := load_balancers; set_tbl t d := d <| load_balancers := t |> |}.
#[global] Instance in_zones : InDB Zone.t :=
  {| tbl := zones; set_tbl t d := d <| zones := t |> |}.
#[global] Instance in_resources : InDB Resource.t :=
  {| tbl := resources; set_tbl t d := d <| resources := t |> |}.
#[global] Instance in_hypers : InDB Hyper.t :=
  {| tbl := hypers; set_tbl t d := d <| hypers := t |> |}.
#[global] Instance in_migrations : InDB Migration.t :=
  {| tbl := migrations; set_tbl t d := d <| migrations := t |> |}.
#[global] Instance in_vrrp_instances : InDB VrrpInstance.t :=
  {| tbl := vrrp_instances; set_tbl t d := d <| vrrp_instances := t |> |}.
#[global] Instance in_listeners : InDB Listener.t :=
  {| tbl := listeners; set_tbl t d := d <| listeners := t |> |}.
#[global] Instance in_backends : InDB Backend.t :=
  {| tbl := backends; set_tbl t d := d <| backends := t |> |}.
#[global] Instance in_keys : InDB Key.t :=
  {| tbl := keys; set_tbl t d := d <| keys := t |> |}.
#[global] Instance in_vncs : InDB Vnc.t :=
  {| tbl := vncs; set_tbl t d := d <| vncs := t |> |}.
#[global] Instance in_image_storages : InDB ImageStorage.t :=
  {| tbl := image_storages; set_tbl t d := d <| image_storages := t |> |}.
#[global] Instance in_rule_groups : InDB RuleGroupV2.t :=
  {| tbl := rule_groups; set_tbl t d := d <| rule_groups := t |> |}.
#[global] Instance in_vm_rule_links : InDB VMRuleLink.t :=
  {| tbl := vm_rule_links; set_tbl t d := d <| vm_rule_links := t |> |}.
#[global] Instance in_consoles : InDB Console.t :=
  {| tbl := consoles; set_tbl t d := d <| consoles := t |> |}.
#[global] Instance in_cpu_rule_details : InDB CPURuleDetail.t :=
  {| tbl := cpu_rule_details; set_tbl t d := d <| cpu_rule_details := t |> |}.
#[global] Instance in_memory_rule_details : InDB MemoryRuleDetail.t :=
  {| tbl := memory_rule_details; set_tbl t d := d <| memory_rule_details := t |> |}.
#[global] Instance in_bw_rule_details : InDB BWRuleDetail.t :=
  {| tbl := bw_rule_details; set_tbl t d := d <| bw_rule_details := t |> |}.
#[global] Instance in_adjust_groups : InDB AdjustRuleGroup.t :=
  {| tbl := adjust_groups; set_tbl t d := d <| adjust_groups := t |> |}.
#[global] Instance in_cpu_adjust_details : InDB CPUAdjustRuleDetail.t :=
  {| tbl := cpu_adjust_details; set_tbl t d := d <| cpu_adjust_details := t |> |}.
#[global] Instance in_bw_adjust_details : InDB BWAdjustRuleDetail.t :=
  {| tbl := bw_adjust_details; set_tbl t d := d <| bw_adjust_details := t |> |}.
#[global] Instance in_adjustment_histories : InDB AdjustmentHistory.t :=
  {| tbl := adjustment_histories; set_tbl t d := d <| adjustment_histories := t |> |}.

(** ** The world and the monad *)

Record World := mkWorld {
  db : DB;
  sent : list (string * string);   (* control and command of every request delivered *)
  clock : nat
}.
#[global] Instance eta_World : Eta World := λ w, mkWorld (db w) (sent w) (clock w).

Definition tick (w : World) : World := w <| clock := S (clock w) |>.

Definition M (A : Type) : Type := Ctx → World → Res A * World.

#[global] Instance M_ret : MRet M := λ A a c w, (Ok a, w).

#[global] Instance M_bind : MBind M := λ A B k m c w,
  match m c w with
  | (Ok a, w1) => k a c w1
  | (Err e, w1) => (Err e, w1)
  | (Panic, w1) => (Panic, w1)
  end.

(** [err = e; return] *)
Definition fail {A} (e : error) : M A := λ c w, (Err e, w).

(** A nil dereference or an index out of range. *)
Definition panic {A} : M A := λ c w, (Panic, w).

(** [if !b { err = e; return }] *)
Definition require (b : bool) (e : error) : M unit := if b then mret tt else fail e.

(** The pointer [p] is dereferenced. *)
Definition deref {A} (p : option A) : M A :=
  match p with Some a => mret a | None => panic end.

(** [x, err := m], the error looked at by the caller. *)
Definition try {A} (m : M A) : M (A + error) := λ c w,
  match m c w with
  | (Ok a, w1) => (Ok (inl a), w1)
  | (Err e, w1) => (Ok (inr e), w1)
  | (Panic, w1) => (Panic, w1)
  end.

(** [if err != nil { err = NewCLError(code, msg, err); return }] *)
Definition wrap {A} (code : Z) (msg : string) (m : M A) : M A := λ c w,
  match m c w with
  | (Err e, w1) => (Err (NewCLError code msg (Some e)), w1)
  | r => r
  end.

Definition parse_arg (bits : Z) (s : string) : M Z :=
  match ParseInt bits s with
  | Some x => mret x
  | None => fail (GoError ("strconv.ParseInt: parsing " +:+ s))
  end.

(** [args[i]] *)
Definition arg (args : list string) (i : nat) : M string := deref (args !! i).

Fixpoint for_each {A} (l : list A) (f : A → M unit) : M unit :=
  match l with
  | [] => mret tt
  | x :: l => _ ← f x; for_each l f
  end.

(** ** Context operations (common/db.go, common/member.go) *)

(** [GetMemberShip]: the zero membership when the context has none. *)
Definition GetMemberShip : M MemberShip.t := λ c w, (Ok (caller c), w).

Definition ctx_error : M (option string) := λ c w, (Ok (errkey c), w).

(** [ctx.Value("hostid").(int32)]: a context without the key panics. *)
Definition ctx_hostid : M Z := λ c w,
  match hostkey c with Some k => (Ok k, w) | None => (Panic, w) end.

(** [ctx, db := GetContextDB(ctx)]: the rest of the function, and what it calls
    with the new context, finds a handle under "dbs". *)
Definition GetContextDB {A} (rest : M A) : M A := λ c w, rest (c <| dbkey := true |>) w.

(** [EndTransaction(ctx, err)]: rolled back exactly when an error is given. *)
Definition EndTransaction (before : DB) (err : option error) (w : World) : World :=
  match err with Some _ => w <| db := before |> | None => w end.

(** [ctx, db, newTransaction := StartTransaction(ctx)] with the deferred
    [EndTransaction(ctx, err)]: a context that already has a handle runs the
    body with no transaction of its own.  A panic runs the deferred call while
    [err] is still nil. *)
Definition with_tx {A} (body : M A) : M A := λ c w,
  if dbkey c then body c w
  else match body (c <| dbkey := true |>) w with
       | (Ok a, w1) => (Ok a, EndTransaction (db w) None w1)
       | (Err e, w1) => (Err e, EndTransaction (db w) (Some e) w1)
       | (Panic, w1) => (Panic, EndTransaction (db w) None w1)
       end.

(** The same with the deferred call [EndTransaction(ctx, nil)]. *)
Definition with_tx_nil {A} (body : M A) : M A := λ c w,
  if dbkey c then body c w
  else match body (c <| dbkey := true |>) w with
       | (r, w1) => (r, EndTransaction (db w) None w1)
       end.

Section effects.
Context {E : Env}.

(** ** Statements *)

Definition stmt {A} (f : DB → nat → A * DB) : M A := λ c w,
  if db_fault (clock w) then (Err (StatementFailed (clock w)), tick w)
  else let (a, d) := f (db w) (clock w) in (Ok a, (tick w) <| db := d |>).

(** A SELECT that joins tables. *)
Definition db_query {A} (f : DB → A) : M A := stmt (λ d _, (f d, d)).

Definition db_find {R} `{Row R, InDB R} (p : R → bool) : M (list R) :=
  stmt (λ d _, (g_find p (tbl d), d)).

Definition db_count {R} `{Row R, InDB R} (p : R → bool) : M Z :=
  stmt (λ d _, (Z.of_nat (length (g_find p (tbl d))), d)).

Definition db_page {R} `{Row R, InDB R} (orders : list string) (offset limit : Z)
    (p : R → bool) : M (list R) :=
  stmt (λ d _, (g_page orders offset limit p (tbl d), d)).

Definition found {R} (o : option R) : M R :=
  match o with Some r => mret r | None => fail RecordNotFound end.

Definition db_take {R} `{Row R, InDB R} (p : R → bool) : M R :=
  o ← stmt (λ d _, (g_take p (tbl d), d)); found o.

Definition db_take_by {R} `{Row R, InDB R} (le : R → R → bool) (p : R → bool) : M R :=
  o ← stmt (λ d _, (g_take_by le p (tbl d), d)); found o.

(** [db.Table(name).Select(..).Where("id = ?", id).Scan(..)] *)
Definition db_scan {R} `{Row R, InDB R} (id : Z) : M R :=
  o ← stmt (λ d _, (g_scan (by_id id : R → bool) (tbl d), d)); found o.

(** [db.Take(&R{ID: id})] *)
Definition db_get {R} `{Row R, InDB R} (id : Z) : M R := db_take (by_pk id).

Definition db_create {R} `{Row R, InDB R} (r : R) : M R :=
  stmt (λ d n, let (r', t) := g_create (before_create (uuid_new n) r) (tbl d) in
               (r', set_tbl t d)).

(** The same with a primary key of the caller's; a key that is taken is a failed
    statement. *)
Definition db_insert {R} `{Row R, InDB R} (r : R) : M R :=
  if get_id r =? 0 then db_create r
  else λ c w,
    if db_fault (clock w) then (Err (StatementFailed (clock w)), tick w)
    else match g_insert (before_create (uuid_new (clock w)) r) (tbl (db w)) with
         | Some (r', t) => (Ok r', (tick w) <| db := set_tbl t (db w) |>)
         | None => (Err (StatementFailed (clock w)), tick w)
         end.

(** [db.Unscoped().Take]: the row and whether it is soft-deleted. *)
Definition db_take_all {R} `{Row R, InDB R} (p : R → bool) : M (R * bool) :=
  o ← stmt (λ d _, (g_take_all p (tbl d), d)); found o.

(** [db.Unscoped().Model(..).Update] with deleted_at set to nil *)
Definition db_restore {R} `{Row R, InDB R} (p : R → bool) (f : R → R) : M unit :=
  stmt (λ d _, (tt, set_tbl (g_restore p f (tbl d)) d)).

Definition db_update {R} `{Row R, InDB R} (p : R → bool) (f : R → R) : M unit :=
  stmt (λ d _, (tt, set_tbl (g_update p f (tbl d)) d)).

Definition db_update_all {R} `{Row R, InDB R} (p : R → bool) (f : R → R) : M unit :=
  stmt (λ d _, (tt, set_tbl (g_update_all p f (tbl d)) d)).

Definition db_delete {R} `{Row R, InDB R} (p : R → bool) : M unit :=
  stmt (λ d _, (tt, set_tbl (g_delete p (tbl d)) d)).

(** A row preloaded by a foreign key: the blank key loads nothing. *)
Definition preload {R} `{Row R, InDB R} (id : Z) : M (option R) :=
  if id =? 0 then mret None
  else l ← db_find (by_id id : R → bool); mret (head l).

(** ** Remote execution (common/clients.go)

    [json.Marshal] of the request cannot fail (its fields are strings and
    integers); the reply is only logged. *)
Definition HyperExecute (control command : string) : M unit := λ c w,
  match post_result (clock w) with
  | PostOk => (Ok tt, (tick w) <| sent := sent w ++ [(control, command)] |>)
  | PostRefused =>
      (Err (NewCLError ErrExecuteOnHyperFailed "Error posting data" (Some (GoError "post"))),
       tick w)
  | PostNoReply =>
      (Err (NewCLError ErrExecuteOnHyperFailed "Error reading response body"
              (Some (GoError "read"))),
       (tick w) <| sent := sent w ++ [(control, command)] |>)
  end.

End effects.
End store.

(** ** Reasoning: what a successful run tells

    An operation that returns a value took every check on its way and every
    statement succeeded: the lemmas below turn [m c w = (Ok a, w')] into these
    facts, and [go_ok] applies them all. *)

Section inversion.
Context {G : Gorm} {E : Env}.
Implicit Types (c : Ctx) (w : World).

Lemma bind_Ok {A B} (m : M A) (k : A → M B) c w b w' :
  (m ≫= k) c w = (Ok b, w') ↔ ∃ a w1, m c w = (Ok a, w1) ∧ k a c w1 = (Ok b, w').
Proof.
  unfold mbind, M_bind. split.
  - destruct (m c w) as [[a|e|] w1]; naive_solver.
  - intros (a & w1 & -> & H). done.
Qed.

Lemma ret_Ok {A} (a b : A) c w w' : (mret a : M A) c w = (Ok b, w') ↔ a = b ∧ w = w'.
Proof. unfold mret, M_ret. naive_solver. Qed.

Lemma fail_Ok {A} e (a : A) c w w' : fail e c w = (Ok a, w') ↔ False.
Proof. unfold fail. naive_solver. Qed.

Lemma panic_Ok {A} (a : A) c w w' : panic c w = (Ok a, w') ↔ False.
Proof. unfold panic. naive_solver. Qed.

Lemma require_Ok b e c w u w' : require b e c w = (Ok u, w') ↔ b = true ∧ w = w'.
Proof.
  unfold require. destruct u, b; [rewrite ret_Ok|rewrite fail_Ok]; naive_solver.
Qed.

Lemma deref_Ok {A} (p : option A) c w a w' : deref p c w = (Ok a, w') ↔ p = Some a ∧ w = w'.
Proof. destruct p; simpl; [rewrite ret_Ok|rewrite panic_Ok]; naive_solver. Qed.

Lemma found_Ok {A} (p : option A) c w a w' : found p c w = (Ok a, w') ↔ p = Some a ∧ w = w'.
Proof. destruct p; simpl; [rewrite ret_Ok|rewrite fail_Ok]; naive_solver. Qed.

Lemma arg_Ok args i c w a w' : arg args i c w = (Ok a, w') ↔ args !! i = Some a ∧ w = w'.
Proof. apply deref_Ok. Qed.

Lemma parse_arg_Ok bits s c w x w' :
  parse_arg bits s c w = (Ok x, w') ↔ ParseInt bits s = Some x ∧ w = w'.
Proof.
  unfold parse_arg. destruct (ParseInt bits s); [rewrite ret_Ok|rewrite fail_Ok]; naive_solver.
Qed.

Lemma wrap_Ok {A} code msg (m : M A) c w a w' :
  wrap code msg m c w = (Ok a, w') ↔ m c w = (Ok a, w').
Proof. unfold wrap. destruct (m c w) as [[]]; naive_solver. Qed.

Lemma try_Ok {A} (m : M A) c w r w' :
  try m c w = (Ok r, w') ↔
  match r with inl a => m c w = (Ok a, w') | inr e => m c w = (Err e, w') end.
Proof. unfold try. destruct (m c w) as [[]], r; naive_solver. Qed.

Lemma GetMemberShip_Ok c w ms w' :
  GetMemberShip c w = (Ok ms, w') ↔ caller c = ms ∧ w = w'.
Proof. unfold GetMemberShip. naive_solver. Qed.

Lemma ctx_error_Ok c w o w' : ctx_error c w = (Ok o, w') ↔ errkey c = o ∧ w = w'.
Proof. unfold ctx_error. naive_solver. Qed.

Lemma ctx_hostid_Ok c w k w' : ctx_hostid c w = (Ok k, w') ↔ hostkey c = Some k ∧ w = w'.
Proof. unfold ctx_hostid. destruct (hostkey c); naive_solver. Qed.

Lemma with_tx_Ok {A} (m : M A) c w a w' :
  with_tx m c w = (Ok a, w') ↔ m (c <| dbkey := true |>) w = (Ok a, w').
Proof.
  unfold with_tx. destruct (dbkey c) eqn:Hk.
  - assert (c <| dbkey := true |> = c) as -> by (destruct c; simpl in *; by subst). done.
  - destruct (m _ w) as [[]]; naive_solver.
Qed.

Lemma with_tx_nil_Ok {A} (m : M A) c w a w' :
  with_tx_nil m c w = (Ok a, w') ↔ m (c <| dbkey := true |>) w = (Ok a, w').
Proof.
  unfold with_tx_nil. destruct (dbkey c) eqn:Hk.
  - assert (c <| dbkey := true |> = c) as -> by (destruct c; simpl in *; by subst). done.
  - destruct (m _ w) as [[]]; naive_solver.
Qed.

Lemma GetContextDB_eq {A} (m : M A) c w :
  GetContextDB m c w = m (c <| dbkey := true |>) w.
Proof. done. Qed.

Lemma stmt_Ok {A} (f : DB → nat → A * DB) c w a w' :
  stmt f c w = (Ok a, w') →
  db_fault (clock w) = false ∧ (a, db w') = f (db w) (clock w) ∧
  sent w' = sent w ∧ clock w' = S (clock w).
Proof.
  unfold stmt. destruct (db_fault (clock w)); [done|].
  destruct (f (db w) (clock w)) eqn:Ef. intros; simplify_eq. done.
Qed.

Lemma HyperExecute_Ok control command c w u w' :
  HyperExecute control command c w = (Ok u, w') →
  db w' = db w ∧ sent w' = sent w ++ [(control, command)] ∧ clock w' = S (clock w).
Proof. unfold HyperExecute. destruct (post_result (clock w)); intros; simplify_eq; done. Qed.

(** A command that is posted under a condition. *)
Lemma HyperExecute_if_Ok (b : bool) control command c w u w' :
  (if b then HyperExecute control command else mret tt) c w = (Ok u, w') →
  db w' = db w ∧ sent w' = sent w ++ (if b then [(control, command)] else []).
Proof.
  destruct b; [intros (? & ? & _)%HyperExecute_Ok; done|].
  intros [_ <-]%ret_Ok. by rewrite app_nil_r.
Qed.

Lemma db_query_Ok {A} (f : DB → A) c w a w' :
  db_query f c w = (Ok a, w') → a = f (db w) ∧ db w' = db w ∧ sent w' = sent w.
Proof. unfold db_query. intros (_ & Hf & Hs & _)%stmt_Ok. by simplify_eq. Qed.

Section statements.
Context {R : Type} {HR : Row R} {HD : InDB R}.

Lemma db_find_Ok (p : R → bool) c w l w' :
  db_find p c w = (Ok l, w') →
  l = g_find p (tbl (db w)) ∧ db w' = db w ∧ sent w' = sent w.
Proof. unfold db_find. intros (_ & Hf & Hs & _)%stmt_Ok. by simplify_eq. Qed.

Lemma db_count_Ok (p : R → bool) c w n w' :
  db_count p c w = (Ok n, w') →
  n = Z.of_nat (length (g_find p (tbl (db w)))) ∧ db w' = db w ∧ sent w' = sent w.
Proof. unfold db_count. intros (_ & Hf & Hs & _)%stmt_Ok. by simplify_eq. Qed.

Lemma db_page_Ok os o l (p : R → bool) c w rs w' :
  db_page os o l p c w = (Ok rs, w') →
  rs = g_page os o l p (tbl (db w)) ∧ db w' = db w ∧ sent w' = sent w.
Proof. unfold db_page. intros (_ & Hf & Hs & _)%stmt_Ok. by simplify_eq. Qed.

Lemma db_take_Ok (p : R → bool) c w r w' :
  db_take p c w = (Ok r, w') →
  g_take p (tbl (db w)) = Some r ∧ db w' = db w ∧ sent w' = sent w.
Proof.
  unfold db_take. rewrite bind_Ok. setoid_rewrite found_Ok.
  intros (o & w1 & (_ & Hf & Hs & _)%stmt_Ok & -> & ->). by simplify_eq.
Qed.

Lemma db_scan_Ok id c w (r : R) w' :
  db_scan id c w = (Ok r, w') →
  g_scan (by_id id : R → bool) (tbl (db w)) = Some r ∧ db w' = db w ∧ sent w' = sent w.
Proof.
  unfold db_scan. rewrite bind_Ok. setoid_rewrite found_Ok.
  intros (o & w1 & (_ & Hf & Hs & _)%stmt_Ok & -> & ->). by simplify_eq.
Qed.

Lemma db_take_by_Ok le (p : R → bool) c w r w' :
  db_take_by le p c w = (Ok r, w') →
  g_take_by le p (tbl (db w)) = Some r ∧ db w' = db w ∧ sent w' = sent w.
Proof.
  unfold db_take_by. rewrite bind_Ok. setoid_rewrite found_Ok.
  intros (o & w1 & (_ & Hf & Hs & _)%stmt_Ok & -> & ->). by simplify_eq.
Qed.

Lemma db_create_Ok (r r' : R) c w w' :
  db_create r c w = (Ok r', w') →
  ∃ t, g_create (before_create (uuid_new (clock w)) r) (tbl (db w)) = (r', t) ∧
       db w' = set_tbl t (db w) ∧ sent w' = sent w.
Proof.
  unfold db_create. intros (_ & Hf & Hs & _)%stmt_Ok. destruct (g_create _ _) as [r1 t] eqn:Hc.
  simplify_eq. eauto.
Qed.

Lemma db_insert_Ok (r r' : R) c w w' :
  get_id r ≠ 0 → db_insert r c w = (Ok r', w') →
  ∃ t, g_insert (before_create (uuid_new (clock w)) r) (tbl (db w)) = Some (r', t) ∧
       db w' = set_tbl t (db w) ∧ sent w' = sent w.
Proof.
  intros Hr. unfold db_insert. rewrite (proj2 (Z.eqb_neq _ _) Hr). destruct (db_fault _); [done|].
  destruct (g_insert _ _) as [[r1 t]|] eqn:Hi; [|done]. intros; simplify_eq. by exists t.
Qed.

Lemma db_take_all_Ok (p : R → bool) c w x w' :
  db_take_all p c w = (Ok x, w') →
  g_take_all p (tbl (db w)) = Some x ∧ db w' = db w ∧ sent w' = sent w.
Proof.
  unfold db_take_all. rewrite bind_Ok. setoid_rewrite found_Ok.
  intros (o & w1 & (_ & Hf & Hs & _)%stmt_Ok & -> & ->). by simplify_eq.
Qed.

Lemma db_restore_Ok (p : R → bool) f c w u w' :
  db_restore p f c w = (Ok u, w') →
  db w' = set_tbl (g_restore p f (tbl (db w))) (db w) ∧ sent w' = sent w.
Proof. unfold db_restore. intros (_ & Hf & Hs & _)%stmt_Ok. by simplify_eq. Qed.

Lemma db_update_Ok (p : R → bool) f c w u w' :
  db_update p f c w = (Ok u, w') →
  db w' = set_tbl (g_update p f (tbl (db w))) (db w) ∧ sent w' = sent w.
Proof. unfold db_update. intros (_ & Hf & Hs & _)%stmt_Ok. by simplify_eq. Qed.

Lemma db_update_all_Ok (p : R → bool) f c w u w' :
  db_update_all p f c w = (Ok u, w') →
  db w' = set_tbl (g_update_all p f (tbl (db w))) (db w) ∧ sent w' = sent w.
Proof. unfold db_update_all. intros (_ & Hf & Hs & _)%stmt_Ok. by simplify_eq. Qed.

Lemma db_delete_Ok (p : R → bool) c w u w' :
  db_delete p c w = (Ok u, w') →
  db w' = set_tbl (g_delete p (tbl (db w))) (db w) ∧ sent w' = sent w.
Proof. unfold db_delete. intros (_ & Hf & Hs & _)%stmt_Ok. by simplify_eq. Qed.

Lemma preload_Ok id c w (o : option R) w' :
  preload id c w = (Ok o, w') →
  o = (if id =? 0 then None else head (g_find (by_id id : R → bool) (tbl (db w)))) ∧
  db w' = db w ∧ sent w' = sent w.
Proof.
  unfold preload. destruct (id =? 0); [rewrite ret_Ok; naive_solver|].
  rewrite bind_Ok. setoid_rewrite ret_Ok. intros (l & w1 & H1%db_find_Ok & <- & ->).
  naive_solver.
Qed.

End statements.
End inversion.

(** [go_ok] takes the hypotheses [m c w = (Ok a, w')] apart. *)
Ltac go_ok_step :=
  match goal with
  | H : mbind _ _ _ _ = (Ok _, _) |- _ =>
      let a := fresh "a" in let w := fresh "w" in let H1 := fresh "H" in let H2 := fresh "H" in
      apply bind_Ok in H as (a & w & H1 & H2)
  | H : mret _ _ _ = (Ok _, _) |- _ => apply ret_Ok in H as [? ?]
  | H : fail _ _ _ = (Ok _, _) |- _ => by apply fail_Ok in H
  | H : panic _ _ = (Ok _, _) |- _ => by apply panic_Ok in H
  | H : require _ _ _ _ = (Ok _, _) |- _ => apply require_Ok in H as [? ?]
  | H : deref _ _ _ = (Ok _, _) |- _ => apply deref_Ok in H as [? ?]
  | H : arg _ _ _ _ = (Ok _, _) |- _ => apply arg_Ok in H as [? ?]
  | H : parse_arg _ _ _ _ = (Ok _, _) |- _ => apply parse_arg_Ok in H as [? ?]
  | H : wrap _ _ _ _ _ = (Ok _, _) |- _ => apply wrap_Ok in H
  | H : try _ _ _ = (Ok _, _) |- _ => apply try_Ok in H
  | H : GetMemberShip _ _ = (Ok _, _) |- _ => apply GetMemberShip_Ok in H as [? ?]
  | H : ctx_error _ _ = (Ok _, _) |- _ => apply ctx_error_Ok in H as [? ?]
  | H : ctx_hostid _ _ = (Ok _, _) |- _ => apply ctx_hostid_Ok in H as [? ?]
  | H : with_tx _ _ _ = (Ok _, _) |- _ => apply with_tx_Ok in H
  | H : with_tx_nil _ _ _ = (Ok _, _) |- _ => apply with_tx_nil_Ok in H
  | H : GetContextDB _ _ _ = (Ok _, _) |- _ => rewrite GetContextDB_eq in H
  | H : db_query _ _ _ = (Ok _, _) |- _ => apply db_query_Ok in H as (? & ? & ?)
  | H : db_find _ _ _ = (Ok _, _) |- _ => apply db_find_Ok in H as (? & ? & ?)
  | H : db_count _ _ _ = (Ok _, _) |- _ => apply db_count_Ok in H as (? & ? & ?)
  | H : db_page _ _ _ _ _ _ = (Ok _, _) |- _ => apply db_page_Ok in H as (? & ? & ?)
  | H : db_take _ _ _ = (Ok _, _) |- _ => apply db_take_Ok in H as (? & ? & ?)
  | H : db_get _ _ _ = (Ok _, _) |- _ => apply db_take_Ok in H as (? & ? & ?)
  | H : db_scan _ _ _ = (Ok _, _) |- _ => apply db_scan_Ok in H as (? & ? & ?)
  | H : db_take_all _ _ _ = (Ok _, _) |- _ => apply db_take_all_Ok in H as (? & ? & ?)
  | H : db_restore _ _ _ _ = (Ok _, _) |- _ => apply db_restore_Ok in H as [? ?]
  | H : db_take_by _ _ _ _ = (Ok _, _) |- _ => apply db_take_by_Ok in H as (? & ? & ?)
  | H : db_create _ _ _ = (Ok _, _) |- _ => apply db_create_Ok in H as (? & ? & ? & ?)
  | H : db_update _ _ _ _ = (Ok _, _) |- _ => apply db_update_Ok in H as [? ?]
  | H : db_update_all _ _ _ _ = (Ok _, _) |- _ => apply db_update_all_Ok in H as [? ?]
  | H : db_delete _ _ _ = (Ok _, _) |- _ => apply db_delete_Ok in H as [? ?]
  | H : preload _ _ _ = (Ok _, _) |- _ => apply preload_Ok in H as (? & ? & ?)
  | H : HyperExecute _ _ _ _ = (Ok _, _) |- _ => apply HyperExecute_Ok in H as (? & ? & ?)
  end.

Ltac go_ok := repeat (go_ok_step; simplify_eq).

(** [tables] shows the tables behind [tbl]; [flat] replaces every intermediate
    world by what is known of its database and its posted commands. *)
Ltac tables :=
  cbn [tbl set_tbl in_organizations in_members in_users in_flavors in_dictionaries in_tasks
       in_images in_instances in_volumes in_volume_backups in_cg_volumes in_consistency_groups in_cg_snapshots in_routers
       in_secgroups in_secrules in_subnets in_addresses in_interfaces in_floating_ips
       in_ip_groups in_portmaps in_load_balancers in_zones in_resources in_hypers
       in_migrations in_vrrp_instances in_listeners in_backends in_keys in_vncs
       in_image_storages in_rule_groups in_vm_rule_links in_consoles
       in_cpu_rule_details in_memory_rule_details in_bw_rule_details in_adjust_groups
       in_cpu_adjust_details in_bw_adjust_details in_adjustment_histories] in *.

Ltac flat :=
  repeat match goal with
  | H : db ?w = _ |- _ => is_var w; rewrite H in *; clear H
  | H : sent ?w = _ |- _ => is_var w; rewrite H in *; clear H
  | H : clock ?w = _ |- _ => is_var w; clear H
  end; tables.

(** ** Reasoning: where an error came from *)

Section errors.
Context {G : Gorm} {E : Env}.
Implicit Types (c : Ctx) (w : World).

Lemma bind_Err {A B} (m : M A) (k : A → M B) c w e w' :
  (m ≫= k) c w = (Err e, w') →
  m c w = (Err e, w') ∨ ∃ a w1, m c w = (Ok a, w1) ∧ k a c w1 = (Err e, w').
Proof.
  unfold mbind, M_bind. destruct (m c w) as [[a|e1|] w1]; intros; simplify_eq; eauto 6.
Qed.

Lemma ret_Err {A} (a : A) c w e w' : (mret a : M A) c w ≠ (Err e, w').
Proof. done. Qed.

Lemma fail_Err {A} e1 c w e w' : fail (A := A) e1 c w = (Err e, w') → e1 = e ∧ w = w'.
Proof. unfold fail. intros; simplify_eq; done. Qed.

Lemma require_Err b e1 c w e w' :
  require b e1 c w = (Err e, w') → b = false ∧ e1 = e ∧ w = w'.
Proof. unfold require. destruct b; [done|]. intros; apply fail_Err in H; tauto. Qed.

Lemma deref_Err {A} (p : option A) c w e w' : deref p c w ≠ (Err e, w').
Proof. by destruct p. Qed.

Lemma wrap_Err {A} code msg (m : M A) c w e w' :
  wrap code msg m c w = (Err e, w') →
  ∃ e1, e = NewCLError code msg (Some e1) ∧ m c w = (Err e1, w').
Proof. unfold wrap. destruct (m c w) as [[]]; intros; simplify_eq; eauto. Qed.

Lemma try_Err {A} (m : M A) c w e w' : try m c w ≠ (Err e, w').
Proof. unfold try. by destruct (m c w) as [[]]. Qed.

Lemma stmt_Err {A} (f : DB → nat → A * DB) c w e w' :
  stmt f c w = (Err e, w') → e = StatementFailed (clock w) ∧ db w' = db w ∧ sent w' = sent w.
Proof.
  unfold stmt. destruct (db_fault (clock w)); [intros; by simplify_eq|].
  by destruct (f (db w) (clock w)).
Qed.

Lemma HyperExecute_Err control command c w e w' :
  HyperExecute control command c w = (Err e, w') →
  error_code e = Some ErrExecuteOnHyperFailed ∧ db w' = db w.
Proof. unfold HyperExecute. destruct (post_result (clock w)); intros; by simplify_eq. Qed.

Lemma with_tx_Err_nested {A} (m : M A) c w e w' :
  dbkey c = true → with_tx m c w = (Err e, w') → m c w = (Err e, w').
Proof. unfold with_tx. by intros ->. Qed.

Lemma with_tx_nil_Err {A} (m : M A) c w e w' :
  with_tx_nil m c w = (Err e, w') → m (c <| dbkey := true |>) w = (Err e, w').
Proof.
  unfold with_tx_nil. destruct (dbkey c) eqn:Hk.
  - by assert (c <| dbkey := true |> = c) as -> by (destruct c; simpl in *; by subst).
  - by destruct (m _ w).
Qed.

(** The errors of the database are never those of a remote execution. *)
Definition not_remote (e : error) : Prop := error_code e ≠ Some ErrExecuteOnHyperFailed.

Definition db_only {A} (m : M A) : Prop := ∀ c w e w', m c w = (Err e, w') → not_remote e.

Lemma db_only_bind {A B} (m : M A) (k : A → M B) :
  db_only m → (∀ a, db_only (k a)) → db_only (m ≫= k).
Proof. intros Hm Hk c w e w' [H|(a & w1 & _ & H)]%bind_Err; [by eapply Hm|by eapply Hk]. Qed.

Lemma db_only_ret {A} (a : A) : db_only (mret a).
Proof. done. Qed.

Lemma db_only_fail {A} e : not_remote e → db_only (fail (A := A) e).
Proof. by intros He c w e1 w' [<- _]%fail_Err. Qed.

Lemma db_only_require b e : not_remote e → db_only (require b e).
Proof. destruct b; intros; [apply db_only_ret|by apply db_only_fail]. Qed.

Lemma db_only_deref {A} (p : option A) : db_only (deref p).
Proof. intros c w e w' H. by apply deref_Err in H. Qed.

Lemma db_only_wrap {A} code msg (m : M A) :
  code ≠ ErrExecuteOnHyperFailed → db_only (wrap code msg m).
Proof.
  intros Hc c w e w' (e1 & -> & _)%wrap_Err. unfold not_remote. simpl. congruence.
Qed.

Lemma db_only_try {A} (m : M A) : db_only (try m).
Proof. intros c w e w' H. by apply try_Err in H. Qed.

Lemma db_only_stmt {A} (f : DB → nat → A * DB) : db_only (stmt f).
Proof. intros c w e w' (-> & _)%stmt_Err. done. Qed.

Lemma db_only_GetMemberShip : db_only GetMemberShip.
Proof. done. Qed.

Lemma db_only_found {A} (o : option A) : db_only (found o).
Proof. destruct o; [apply db_only_ret|by apply db_only_fail]. Qed.

Lemma db_only_GetContextDB {A} (m : M A) : db_only m → db_only (GetContextDB m).
Proof. intros Hm c w e w'. apply Hm. Qed.

Lemma db_only_for_each {A} (l : list A) f :
  (∀ x, db_only (f x)) → db_only (for_each l f).
Proof. intros Hf. induction l; simpl; [apply db_only_ret|by apply db_only_bind]. Qed.

Lemma db_only_with_tx {A} (m : M A) : db_only m → db_only (with_tx m).
Proof.
  intros Hm c w e w'. unfold with_tx. destruct (dbkey c); [apply Hm|].
  specialize (Hm (c <| dbkey := true |>) w).
  destruct (m _ w) as [[]]; intros; simplify_eq; eauto.
Qed.

End errors.

Ltac db_only_step :=
  match goal with
  | |- db_only (mbind _ _) => apply db_only_bind; [|intros]
  | |- db_only (mret _) => apply db_only_ret
  | |- db_only (fail _) => apply db_only_fail; done
  | |- db_only (require _ _) => apply db_only_require; done
  | |- db_only (deref _) => apply db_only_deref
  | |- db_only (wrap _ _ _) => apply db_only_wrap; done
  | |- db_only (try _) => apply db_only_try
  | |- db_only (found _) => apply db_only_found
  | |- db_only GetMemberShip => apply db_only_GetMemberShip
  | |- db_only (GetContextDB _) => apply db_only_GetContextDB
  | |- db_only (with_tx _) => apply db_only_with_tx
  | |- db_only (for_each _ _) => apply db_only_for_each; intros
  | |- db_only (stmt _) => apply db_only_stmt
  | |- db_only (if ?b then _ else _) => destruct b
  | |- db_only (match ?x with _ => _ end) => destruct x
  | |- db_only _ => first [apply db_only_stmt | solve [auto with go nocore] | progress unfold db_take, db_take_all, db_restore, db_take_by, db_scan,
                             db_get, db_query, db_find, db_count, db_create, db_update, db_update_all, db_delete,
                             db_page, preload, arg]
  end.

(** [db_only_tac] shows that an operation posts nothing it can fail on. *)
Ltac db_only_tac := repeat db_only_step.

Lemma db_only_refute {G : Gorm} {A} (m : M A) c w e w' :
  db_only m → m c w = (Err e, w') → error_code e = Some ErrExecuteOnHyperFailed → False.
Proof. intros Hm H He. by apply (Hm _ _ _ _ H). Qed.

(** [skip_db H He]: the error [H] of a sequence is the one of a remote execution
    ([He]), so its first operation, which only uses the database, succeeded. *)
Ltac skip_db H He :=
  apply bind_Err in H as [H|(? & ? & ? & H)];
  [exfalso; refine (db_only_refute _ _ _ _ _ _ H He); solve [db_only_tac]|].

(** ** Reasoning: invariants over every outcome

    [preserves I m]: whatever [m] returns, a value, an error or a panic, the
    property [I] of the database survives it. *)

Definition preserves {G : Gorm} {A} (I : DB → Prop) (m : M A) : Prop :=
  ∀ c w, I (db w) → I (db (m c w).2).

Section preserves.
Context {G : Gorm} {E : Env}.
Variable I : DB → Prop.

Lemma pres_ret {A} (a : A) : preserves I (mret a).
Proof. by intros c w. Qed.

Lemma pres_fail {A} e : preserves I (fail (A := A) e).
Proof. by intros c w. Qed.

Lemma pres_panic {A} : preserves I (panic (A := A)).
Proof. by intros c w. Qed.

Lemma pres_bind {A B} (m : M A) (k : A → M B) :
  preserves I m → (∀ a, preserves I (k a)) → preserves I (m ≫= k).
Proof.
  intros Hm Hk c w Hw. unfold mbind, M_bind. specialize (Hm c w Hw).
  destruct (m c w) as [[a|e|] w1]; simpl in *; [by apply Hk|done|done].
Qed.

Lemma pres_require b e : preserves I (require b e).
Proof. destruct b; [apply pres_ret|apply pres_fail]. Qed.

(** What follows a check runs only when the check succeeds. *)
Lemma pres_guard {A} b e (k : M A) :
  (b = true → preserves I k) → preserves I (require b e ≫= λ _, k).
Proof. destruct b; intros Hk c w Hw; [by apply Hk|done]. Qed.

Lemma pres_deref {A} (p : option A) : preserves I (deref p).
Proof. destruct p; [apply pres_ret|apply pres_panic]. Qed.

Lemma pres_arg args i : preserves I (arg args i).
Proof. apply pres_deref. Qed.

Lemma pres_parse_arg bits s : preserves I (parse_arg bits s).
Proof. unfold parse_arg. destruct (ParseInt bits s); [apply pres_ret|apply pres_fail]. Qed.

Lemma pres_wrap {A} code msg (m : M A) : preserves I m → preserves I (wrap code msg m).
Proof.
  intros Hm c w Hw. unfold wrap. specialize (Hm c w Hw). by destruct (m c w) as [[]].
Qed.

Lemma pres_try {A} (m : M A) : preserves I m → preserves I (try m).
Proof.
  intros Hm c w Hw. unfold try. specialize (Hm c w Hw). by destruct (m c w) as [[]].
Qed.

Lemma pres_GetMemberShip : preserves I GetMemberShip.
Proof. by intros c w. Qed.

Lemma pres_ctx_error : preserves I ctx_error.
Proof. by intros c w. Qed.

Lemma pres_ctx_hostid : preserves I ctx_hostid.
Proof. intros c w. unfold ctx_hostid. by destruct (hostkey c). Qed.

Lemma pres_GetContextDB {A} (m : M A) : preserves I m → preserves I (GetContextDB m).
Proof. intros Hm c w. apply Hm. Qed.

Lemma pres_with_tx {A} (m : M A) : preserves I m → preserves I (with_tx m).
Proof.
  intros Hm c w Hw. unfold with_tx. destruct (dbkey c); [by apply Hm|].
  specialize (Hm (c <| dbkey := true |>) w Hw). by destruct (m _ w) as [[]].
Qed.

Lemma pres_with_tx_nil {A} (m : M A) : preserves I m → preserves I (with_tx_nil m).
Proof.
  intros Hm c w Hw. unfold with_tx_nil. destruct (dbkey c); [by apply Hm|].
  specialize (Hm (c <| dbkey := true |>) w Hw). by destruct (m _ w).
Qed.

Lemma pres_for_each {A} (l : list A) f :
  (∀ x, preserves I (f x)) → preserves I (for_each l f).
Proof.
  intros Hf. induction l as [|x l IH]; simpl; [apply pres_ret|].
  apply pres_bind; auto.
Qed.

Lemma pres_HyperExecute control command : preserves I (HyperExecute control command).
Proof. intros c w Hw. unfold HyperExecute. by destruct (post_result (clock w)). Qed.

Lemma pres_stmt {A} (f : DB → nat → A * DB) :
  (∀ d n, I d → I (f d n).2) → preserves I (stmt f).
Proof.
  intros Hf c w Hw. unfold stmt. destruct (db_fault _); [done|].
  specialize (Hf (db w) (clock w) Hw). by destruct (f (db w) (clock w)).
Qed.

Lemma pres_db_query {A} (f : DB → A) : preserves I (db_query f).
Proof. by apply pres_stmt. Qed.

Section statements.
Context {R : Type} {HR : Row R} {HD : InDB R}.

Lemma pres_db_find (p : R → bool) : preserves I (db_find p).
Proof. by apply pres_stmt. Qed.

Lemma pres_db_count (p : R → bool) : preserves I (db_count p).
Proof. by apply pres_stmt. Qed.

Lemma pres_db_page os o l (p : R → bool) : preserves I (db_page os o l p).
Proof. by apply pres_stmt. Qed.

Lemma pres_found (o : option R) : preserves I (found o).
Proof. destruct o; [apply pres_ret|apply pres_fail]. Qed.

Lemma pres_db_take (p : R → bool) : preserves I (db_take p).
Proof. apply pres_bind; [by apply pres_stmt|apply pres_found]. Qed.

Lemma pres_db_take_by le (p : R → bool) : preserves I (db_take_by le p).
Proof. apply pres_bind; [by apply pres_stmt|apply pres_found]. Qed.

Lemma pres_db_scan id : preserves I (db_scan (R := R) id).
Proof. apply pres_bind; [by apply pres_stmt|apply pres_found]. Qed.

Lemma pres_db_take_all (p : R → bool) : preserves I (db_take_all p).
Proof.
  apply pres_bind; [by apply pres_stmt|]. intros [x|]; [apply pres_ret|apply pres_fail].
Qed.

Lemma pres_db_get id : preserves I (db_get (R := R) id).
Proof. apply pres_db_take. Qed.

Lemma pres_preload id : preserves I (preload (R := R) id).
Proof.
  unfold preload. destruct (id =? 0); [apply pres_ret|].
  apply pres_bind; [apply pres_db_find|]. intros. apply pres_ret.
Qed.

Lemma pres_db_create (r : R) :
  (∀ d n, I d → I (set_tbl (g_create (before_create (uuid_new n) r) (tbl d)).2 d)) →
  preserves I (db_create r).
Proof.
  intros Hf. apply pres_stmt. intros d n Hd. specialize (Hf d n Hd).
  by destruct (g_create _ _).
Qed.

Lemma pres_db_update (p : R → bool) f :
  (∀ d, I d → I (set_tbl (g_update p f (tbl d)) d)) → preserves I (db_update p f).
Proof. intros Hf. apply pres_stmt. intros d n Hd. by apply Hf. Qed.

Lemma pres_db_delete (p : R → bool) :
  (∀ d, I d → I (set_tbl (g_delete p (tbl d)) d)) → preserves I (db_delete p).
Proof. intros Hf. apply pres_stmt. intros d n Hd. by apply Hf. Qed.

Lemma pres_db_insert (r : R) :
  (∀ d n, I d → I (set_tbl (g_create (before_create (uuid_new n) r) (tbl d)).2 d)) →
  (∀ d n r' t, get_id r ≠ 0 → I d →
     g_insert (before_create (uuid_new n) r) (tbl d) = Some (r', t) → I (set_tbl t d)) →
  preserves I (db_insert r).
Proof.
  intros Hc Hi. unfold db_insert. destruct (Z.eqb_spec (get_id r) 0); [by apply pres_db_create|].
  intros c w Hw. destruct (db_fault _); [done|]. destruct (g_insert _ _) as [[]|] eqn:Hg; [|done].
  by eapply Hi.
Qed.

End statements.
End preserves.

#[export] Hint Resolve pres_ret pres_fail pres_panic pres_require pres_deref pres_arg
  pres_parse_arg pres_wrap pres_try pres_GetMemberShip pres_ctx_error pres_ctx_hostid pres_GetContextDB
  pres_with_tx pres_with_tx_nil pres_for_each pres_HyperExecute pres_db_query pres_db_find pres_db_count
  pres_db_page pres_found pres_db_take pres_db_take_all pres_db_take_by pres_db_scan pres_db_get pres_preload : go.

(** [pres] walks through an operation; the writes that remain are the goals. *)
Ltac pres_step :=
  match goal with
  | |- preserves _ (mbind (λ _, ?k) (require _ _)) => apply pres_guard; intros
  | |- preserves _ (mbind _ _) => apply pres_bind; [|intros]
  | |- preserves _ (with_tx _) => apply pres_with_tx
  | |- preserves _ (with_tx_nil _) => apply pres_with_tx_nil
  | |- preserves _ (GetContextDB _) => apply pres_GetContextDB
  | |- preserves _ (wrap _ _ _) => apply pres_wrap
  | |- preserves _ (try _) => apply pres_try
  | |- preserves _ (for_each _ _) => apply pres_for_each; intros
  | |- preserves _ (if ?b then _ else _) => destruct b
  | |- preserves _ (match ?x with _ => _ end) => destruct x
  | |- preserves _ (let (_, _) := ?x in _) => destruct x
  | |- preserves _ _ => solve [auto with go nocore]
  end.

Ltac pres := repeat pres_step.

(** ** Reasoning: operations that post nothing *)

Definition quiet {G : Gorm} {A} (m : M A) : Prop := ∀ c w, sent (m c w).2 = sent w.

Section quiet.
Context {G : Gorm} {E : Env}.

Lemma quiet_ret {A} (a : A) : quiet (mret a).
Proof. done. Qed.

Lemma quiet_fail {A} e : quiet (fail (A := A) e).
Proof. done. Qed.

Lemma quiet_bind {A B} (m : M A) (k : A → M B) :
  quiet m → (∀ a, quiet (k a)) → quiet (m ≫= k).
Proof.
  intros Hm Hk c w. unfold mbind, M_bind. specialize (Hm c w).
  destruct (m c w) as [[a|e|] w1]; simpl in *; [by rewrite Hk|done|done].
Qed.

Lemma quiet_require b e : quiet (require b e).
Proof. by destruct b. Qed.

Lemma quiet_deref {A} (p : option A) : quiet (deref p).
Proof. by destruct p. Qed.

Lemma quiet_found {A} (p : option A) : quiet (found p).
Proof. by destruct p. Qed.

Lemma quiet_wrap {A} code msg (m : M A) : quiet m → quiet (wrap code msg m).
Proof. intros Hm c w. unfold wrap. specialize (Hm c w). by destruct (m c w) as [[]]. Qed.

Lemma quiet_try {A} (m : M A) : quiet m → quiet (try m).
Proof. intros Hm c w. unfold try. specialize (Hm c w). by destruct (m c w) as [[]]. Qed.

Lemma quiet_GetMemberShip : quiet GetMemberShip.
Proof. done. Qed.

Lemma quiet_GetContextDB {A} (m : M A) : quiet m → quiet (GetContextDB m).
Proof. intros Hm c w. apply Hm. Qed.

Lemma quiet_parse_arg bits s : quiet (parse_arg bits s).
Proof. unfold parse_arg. by destruct (ParseInt bits s). Qed.

Lemma quiet_with_tx {A} (m : M A) : quiet m → quiet (with_tx m).
Proof.
  intros Hm c w. unfold with_tx. destruct (dbkey c); [apply Hm|].
  specialize (Hm (c <| dbkey := true |>) w). by destruct (m _ w) as [[]].
Qed.

Lemma quiet_stmt {A} (f : DB → nat → A * DB) : quiet (stmt f).
Proof. intros c w. unfold stmt. destruct (db_fault _); [done|]. by destruct (f _ _). Qed.

End quiet.

#[export] Hint Resolve quiet_ret quiet_fail quiet_require quiet_deref quiet_found
  quiet_GetMemberShip quiet_parse_arg quiet_stmt : go.

Ltac quiet_step :=
  match goal with
  | |- quiet (mbind _ _) => apply quiet_bind; [|intros]
  | |- quiet (with_tx _) => apply quiet_with_tx
  | |- quiet (GetContextDB _) => apply quiet_GetContextDB
  | |- quiet (wrap _ _ _) => apply quiet_wrap
  | |- quiet (try _) => apply quiet_try
  | |- quiet (if ?b then _ else _) => destruct b
  | |- quiet (match ?x with _ => _ end) => destruct x
  | |- quiet _ =>
      first [solve [auto with go nocore]
            |progress unfold db_take, db_take_all, db_restore, db_take_by, db_scan, db_get, db_query, db_find, db_count, db_create,
               db_update, db_update_all, db_delete, db_page, preload, arg]
  end.

(** [quiet_tac] shows that an operation posts nothing. *)
Ltac quiet_tac := repeat quiet_step.

Lemma quiet_run {G : Gorm} {A} (m : M A) c w r w' : quiet m → m c w = (r, w') → sent w' = sent w.
Proof. intros Hm H. specialize (Hm c w). by rewrite H in Hm. Qed.

(** ** Reasoning: posted commands are only added *)

Definition grows {G : Gorm} {A} (m : M A) : Prop := ∀ c w, ∃ l, sent (m c w).2 = sent w ++ l.

Section grows.
Context {G : Gorm} {E : Env}.

Lemma grows_bind {A B} (m : M A) (k : A → M B) : grows m → (∀ a, grows (k a)) → grows (m ≫= k).
Proof.
  intros Hm Hk c w. unfold mbind, M_bind. destruct (Hm c w) as [l Hl].
  destruct (m c w) as [[a|e|] w1]; simpl in *; [|by exists l..].
  destruct (Hk a c w1) as [l' Hl']. exists (l ++ l'). by rewrite Hl', Hl, app_assoc.
Qed.

Lemma grows_quiet {A} (m : M A) : quiet m → grows m.
Proof. intros Hm c w. exists []. by rewrite Hm, app_nil_r. Qed.

Lemma grows_try {A} (m : M A) : grows m → grows (try m).
Proof. intros Hm c w. destruct (Hm c w) as [l Hl]. exists l. unfold try. by destruct (m c w) as [[]]. Qed.

Lemma grows_HyperExecute control command : grows (HyperExecute control command).
Proof.
  intros c w. unfold HyperExecute. destruct (post_result (clock w)); simpl.
  - by eexists.
  - exists []. by rewrite app_nil_r.
  - by eexists.
Qed.

Lemma grows_GetContextDB {A} (m : M A) : grows m → grows (GetContextDB m).
Proof. intros Hm c w. apply Hm. Qed.

Lemma grows_for_each {A} (l : list A) f : (∀ x, grows (f x)) → grows (for_each l f).
Proof.
  intros Hf. induction l; simpl; [apply grows_quiet, quiet_ret|by apply grows_bind].
Qed.

(** A loop whose body keeps an invariant runs the body on each element, from a
    database with the invariant; what the body posts is posted at the end. *)
Lemma for_each_elem {A} (I : DB → Prop) (l : list A) f c w u w' x :
  (∀ y, preserves I (f y)) → (∀ y, grows (f y)) → I (db w) →
  for_each l f c w = (Ok u, w') → x ∈ l →
  ∃ w1 v w2 more, I (db w1) ∧ f x c w1 = (Ok v, w2) ∧ sent w' = sent w2 ++ more.
Proof.
  intros HI Hg. revert w. induction l as [|y l IH]; intros w Hw; simpl.
  - intros _ Hx. by apply elem_of_nil in Hx.
  - intros (v & w1 & Hy & H)%bind_Ok [->|Hx]%elem_of_cons.
    + destruct (grows_for_each l f Hg c w1) as [more Hm]. rewrite H in Hm.
      by exists w, v, w1, more.
    + eapply IH; [|done..]. specialize (HI y c w Hw). by rewrite Hy in HI.
Qed.

End grows.

(** ** Reasoning: absence of run-time panics *)

Definition no_panic {G : Gorm} {A} (m : M A) : Prop := ∀ c w, (m c w).1 ≠ Panic.

Section no_panic.
Context {G : Gorm} {E : Env}.

Lemma np_ret {A} (a : A) : no_panic (mret a).
Proof. by intros c w. Qed.

Lemma np_fail {A} e : no_panic (fail (A := A) e).
Proof. by intros c w. Qed.

Lemma np_bind {A B} (m : M A) (k : A → M B) :
  no_panic m → (∀ a, no_panic (k a)) → no_panic (m ≫= k).
Proof.
  intros Hm Hk c w. unfold mbind, M_bind. specialize (Hm c w).
  destruct (m c w) as [[a|e|] w1]; simpl in *; [apply Hk|done|done].
Qed.

Lemma np_deref_Some {A B} (p : option A) (k : A → M B) a :
  p = Some a → no_panic (k a) → no_panic (deref p ≫= k).
Proof. intros -> Hk c w. apply Hk. Qed.

Lemma np_require b e : no_panic (require b e).
Proof. by destruct b. Qed.

Lemma np_parse_arg bits s : no_panic (parse_arg bits s).
Proof. unfold parse_arg. by destruct (ParseInt bits s). Qed.

Lemma np_wrap {A} code msg (m : M A) : no_panic m → no_panic (wrap code msg m).
Proof. intros Hm c w. unfold wrap. specialize (Hm c w). by destruct (m c w) as [[]]. Qed.

Lemma np_try {A} (m : M A) : no_panic m → no_panic (try m).
Proof. intros Hm c w. unfold try. specialize (Hm c w). by destruct (m c w) as [[]]. Qed.

Lemma np_GetMemberShip : no_panic GetMemberShip.
Proof. by intros c w. Qed.

Lemma np_ctx_error : no_panic ctx_error.
Proof. by intros c w. Qed.

Lemma np_GetContextDB {A} (m : M A) : no_panic m → no_panic (GetContextDB m).
Proof. intros Hm c w. apply Hm. Qed.

Lemma np_with_tx {A} (m : M A) : no_panic m → no_panic (with_tx m).
Proof.
  intros Hm c w. unfold with_tx. destruct (dbkey c); [apply Hm|].
  specialize (Hm (c <| dbkey := true |>) w). by destruct (m _ w) as [[]].
Qed.

Lemma np_with_tx_nil {A} (m : M A) : no_panic m → no_panic (with_tx_nil m).
Proof.
  intros Hm c w. unfold with_tx_nil. destruct (dbkey c); [apply Hm|].
  specialize (Hm (c <| dbkey := true |>) w). by destruct (m _ w).
Qed.

Lemma np_for_each {A} (l : list A) f : (∀ x, no_panic (f x)) → no_panic (for_each l f).
Proof.
  intros Hf. induction l as [|x l IH]; simpl; [apply np_ret|]. apply np_bind; auto.
Qed.

Lemma np_HyperExecute control command : no_panic (HyperExecute control command).
Proof. intros c w. unfold HyperExecute. by destruct (post_result (clock w)). Qed.

Lemma np_found {A} (o : option A) : no_panic (found o).
Proof. by destruct o. Qed.

Lemma np_stmt {A} (f : DB → nat → A * DB) : no_panic (stmt f).
Proof.
  intros c w. unfold stmt. destruct (db_fault _); [done|]. by destruct (f _ _).
Qed.

End no_panic.

#[export] Hint Resolve np_ret np_fail np_require np_parse_arg np_wrap np_try np_GetMemberShip
  np_ctx_error np_GetContextDB np_with_tx np_with_tx_nil np_for_each np_HyperExecute
  np_found np_stmt : go.

(** [np] walks through an operation; the indexed and dereferenced accesses that
    remain are the goals. *)
Ltac np_step :=
  match goal with
  | |- no_panic (mbind _ _) => apply np_bind; [|intros]
  | |- no_panic (with_tx _) => apply np_with_tx
  | |- no_panic (with_tx_nil _) => apply np_with_tx_nil
  | |- no_panic (GetContextDB _) => apply np_GetContextDB
  | |- no_panic (wrap _ _ _) => apply np_wrap
  | |- no_panic (try _) => apply np_try
  | |- no_panic (for_each _ _) => apply np_for_each; intros
  | |- no_panic (if ?b then _ else _) => let Hb := fresh "Hb" in destruct b eqn:Hb
  | |- no_panic (match ?x with _ => _ end) => destruct x
  | |- no_panic _ =>
      first [solve [auto with go nocore]
            |progress unfold db_take, db_take_all, db_restore, db_take_by, db_scan, db_get, db_query, db_find, db_count, db_create,
               db_update, db_update_all, db_delete, db_page, preload]
  end.

Ltac np := repeat np_step.

Lemma bind_Panic {G : Gorm} {A B} (m : M A) (k : A → M B) c w w' :
  (m ≫= k) c w = (Panic, w') →
  m c w = (Panic, w') ∨ ∃ a w1, m c w = (Ok a, w1) ∧ k a c w1 = (Panic, w').
Proof.
  unfold mbind, M_bind. destruct (m c w) as [[a|e1|] w1]; intros; simplify_eq; eauto 6.
Qed.

Lemma for_each_Panic {G : Gorm} {A} (l : list A) f c w w' :
  for_each l f c w = (Panic, w') → ∃ x w1 w2, x ∈ l ∧ f x c w1 = (Panic, w2).
Proof.
  revert w. induction l as [|x l IH]; intros w H; simpl in H; [done|].
  apply bind_Panic in H as [H|(u & w1 & _ & H)].
  - exists x, w, w'. split; [apply list_elem_of_here|done].
  - apply IH in H as (y & w2 & w3 & Hy & H). exists y, w2, w3.
    split; [by apply list_elem_of_further|done].
Qed.

Lemma deref_Panic {G : Gorm} {A} (p : option A) c w w' :
  deref p c w = (Panic, w') → p = None.
Proof. by destruct p. Qed.

Lemma np_refute {G : Gorm} {A} (m : M A) c w w' : no_panic m → m c w = (Panic, w') → False.
Proof. intros Hm H. apply (Hm c w). by rewrite H. Qed.

(** [skip_np H]: the panic [H] of a sequence is not one of its first operation. *)
Ltac skip_np H :=
  apply bind_Panic in H as [H|(? & ? & ? & H)];
  [exfalso; refine (np_refute _ _ _ _ _ H); solve [np]|].

(** ** Transactions *)

Section transactions.
Context {G : Gorm} {E : Env}.

(** An error that leaves a fresh transaction leaves the database as it was. *)
Lemma with_tx_Err {A} (m : M A) c w e w' :
  dbkey c = false → with_tx m c w = (Err e, w') → db w' = db w.
Proof.
  intros Hk. unfold with_tx. rewrite Hk. by destruct (m _ w) as [[]]; intros; simplify_eq.
Qed.

Lemma with_tx_Panic {A} (m : M A) c w w' :
  with_tx m c w = (Panic, w') → m (c <| dbkey := true |>) w = (Panic, w').
Proof.
  unfold with_tx. destruct (dbkey c) eqn:Hk.
  - by assert (c <| dbkey := true |> = c) as -> by (destruct c; simpl in *; by subst).
  - destruct (m _ w) as [[]]; intros; by simplify_eq.
Qed.

(** Every outcome of a transaction: that of its body, undone for an error of the
    outermost one. *)
Lemma with_tx_run {A} (m : M A) c w r w1 :
  m (c <| dbkey := true |>) w = (r, w1) →
  ∃ w', with_tx m c w = (r, w') ∧ sent w' = sent w1 ∧
    match r with
    | Err _ => db w' = if dbkey c then db w1 else db w
    | _ => w' = w1
    end.
Proof.
  intros H. unfold with_tx. destruct (dbkey c) eqn:Hk.
  - assert (c <| dbkey := true |> = c) as Hc by (destruct c; simpl in *; by subst).
    rewrite Hc in H. rewrite H. exists w1. by destruct r.
  - rewrite H. destruct r; by eexists.
Qed.

Lemma with_tx_nested {A} (m : M A) c w : dbkey c = true → with_tx m c w = m c w.
Proof. unfold with_tx. by intros ->. Qed.

End transactions.

(** ** Reasoning: operations that do not write *)

Definition reads {G : Gorm} {A} (m : M A) : Prop := ∀ c w, db (m c w).2 = db w.

Lemma reads_preserves {G : Gorm} {A} (m : M A) :
  (∀ d, preserves (λ d', d' = d) m) → reads m.
Proof. intros H c w. by apply (H (db w) c w). Qed.

Lemma reads_run {G : Gorm} {A} (m : M A) c w r w' : reads m → m c w = (r, w') → db w' = db w.
Proof. intros Hm H. specialize (Hm c w). by rewrite H in Hm. Qed.

(** [reads_tac] shows that an operation only reads. *)
Ltac reads_tac := apply reads_preserves; intros; pres.

(** What follows an operation that only reads starts from the same database. *)
Lemma after_read {G : Gorm} {A B} (I : DB → Prop) (m : M A) (k : A → M B) c w :
  reads m → I (db w) →
  (∀ a w1, m c w = (Ok a, w1) → db w1 = db w → I (db w1) → I (db (k a c w1).2)) →
  I (db ((m ≫= k) c w).2).
Proof.
  intros Hm Hw Hk. unfold mbind, M_bind. specialize (Hm c w).
  destruct (m c w) as [[a|e|] w1] eqn:H; simpl in *; rewrite <- Hm in Hw; auto.
Qed.

(** A property of a run: of the first operation, and of the rest where it goes on. *)
Lemma run_bind {G : Gorm} {A B} (I : DB → Prop) (m : M A) (k : A → M B) c w :
  I (db (m c w).2) →
  (∀ a w1, m c w = (Ok a, w1) → I (db w1) → I (db (k a c w1).2)) →
  I (db ((m ≫= k) c w).2).
Proof.
  intros Hm Hk. unfold mbind, M_bind.
  destruct (m c w) as [[a|e|] w1] eqn:H; simpl in *; auto.
Qed.

(** ** Reasoning: operations that fail only when a statement does *)

Definition no_faults `{Env} : Prop := ∀ n, db_fault n = false.

Definition never_err {G : Gorm} {A} (m : M A) : Prop := ∀ c w e w', m c w ≠ (Err e, w').

Lemma ne_refute {G : Gorm} {A} (m : M A) c w e w' : never_err m → m c w = (Err e, w') → False.
Proof. intros Hm H. by apply Hm in H. Qed.

Section never_err.
Context {G : Gorm} {E : Env}.
Hypothesis no_fault : no_faults.

Lemma ne_ret {A} (a : A) : never_err (mret a).
Proof. done. Qed.

Lemma ne_bind {A B} (m : M A) (k : A → M B) :
  never_err m → (∀ a, never_err (k a)) → never_err (m ≫= k).
Proof. intros Hm Hk c w e w' [H|(a & w1 & _ & H)]%bind_Err; [by apply Hm in H|by apply Hk in H]. Qed.

Lemma ne_try {A} (m : M A) : never_err (try m).
Proof. intros c w e w'. apply try_Err. Qed.

Lemma ne_deref {A} (p : option A) : never_err (deref p).
Proof. intros c w e w'. apply deref_Err. Qed.

Lemma ne_wrap {A} code msg (m : M A) : never_err m → never_err (wrap code msg m).
Proof. intros Hm c w e w' (e1 & _ & H)%wrap_Err. by apply Hm in H. Qed.

Lemma ne_GetMemberShip : never_err GetMemberShip.
Proof. done. Qed.

Lemma ne_stmt {A} (f : DB → nat → A * DB) : never_err (stmt f).
Proof.
  intros c w e w'. unfold stmt. rewrite no_fault. by destruct (f (db w) (clock w)).
Qed.

Lemma ne_GetContextDB {A} (m : M A) : never_err m → never_err (GetContextDB m).
Proof. intros Hm c w e w'. apply Hm. Qed.

Lemma ne_for_each {A} (l : list A) f : (∀ x, never_err (f x)) → never_err (for_each l f).
Proof. intros Hf. induction l; simpl; [apply ne_ret|by apply ne_bind]. Qed.

(** A statement that is sent returns. *)
Lemma stmt_runs {A} (f : DB → nat → A * DB) c w :
  stmt f c w = (Ok (f (db w) (clock w)).1, (tick w) <| db := (f (db w) (clock w)).2 |>).
Proof. unfold stmt. rewrite no_fault. by destruct (f (db w) (clock w)). Qed.

End never_err.

Ltac ne_step :=
  match goal with
  | |- never_err (mbind _ _) => apply ne_bind; [|intros]
  | |- never_err (mret _) => apply ne_ret
  | |- never_err (try _) => apply ne_try
  | |- never_err (deref _) => apply ne_deref
  | |- never_err (wrap _ _ _) => apply ne_wrap
  | |- never_err GetMemberShip => apply ne_GetMemberShip
  | |- never_err (stmt _) => apply ne_stmt; assumption
  | |- never_err (GetContextDB _) => apply ne_GetContextDB
  | |- never_err (for_each _ _) => apply ne_for_each; intros
  | |- never_err (if ?b then _ else _) => destruct b
  | |- never_err (match ?x with _ => _ end) => destruct x
  | |- never_err _ =>
      progress unfold db_query, db_restore, db_find, db_count, db_create, db_update, db_update_all, db_delete, db_page,
        preload
  end.

(** [ne_tac] shows that an operation cannot fail when no statement does. *)
Ltac ne_tac := repeat ne_step.

(** A row that exists is found by its primary key. *)
Lemma db_get_runs {G : Gorm} {E : Env} {GOk : GormOk G} {R} {HR : Row R}
    {HRO : RowOk R} {HD : InDB R} k (r : R) c w :
  no_faults → rows (tbl (db w)) !! k = Some r →
  ∃ w', db_get k c w = (Ok r, w') ∧ db w' = db w ∧ sent w' = sent w.
Proof.
  intros Hn Hr. pose proof (rows_pos _ _ _ Hr) as Hpos.
  unfold db_get, db_take, mbind, M_bind. rewrite stmt_runs by done. cbn.
  destruct (g_take (by_pk k) (tbl (db w))) as [x|] eqn:Hx.
  - apply take_pk_row in Hx as [Hx _]; [|lia]. rewrite Hr in Hx. simplify_eq. by eexists.
  - eapply take_none in Hx; [|done]. unfold by_pk in Hx. rewrite (rows_id _ _ _ Hr), pk_self in Hx.
    done.
Qed.

(** An operation that can neither fail nor panic returns. *)
Lemma runs {G : Gorm} {A} (m : M A) c w :
  never_err m → no_panic m → ∃ a w', m c w = (Ok a, w').
Proof.
  intros Hn Hp. destruct (m c w) as [[a|e|] w'] eqn:H; [by eauto|by apply Hn in H|].
  by apply np_refute in H.
Qed.

Lemma get_then_runs {G : Gorm} {E : Env} {GOk : GormOk G} {R B} {HR : Row R}
    {HRO : RowOk R} {HD : InDB R} k (r : R) (rest : R → M B) c w :
  no_faults → rows (tbl (db w)) !! k = Some r → never_err (rest r) → no_panic (rest r) →
  ∃ b w1 w', (db_get k ≫= rest) c w = (Ok b, w') ∧ rest r c w1 = (Ok b, w') ∧
    db w1 = db w ∧ sent w1 = sent w.
Proof.
  intros Hn Hr He Hp. destruct (db_get_runs (HD := HD) k r c w Hn Hr) as (w1 & Hg & Hd & Hs).
  destruct (runs (rest r) c w1 He Hp) as (b & w' & Hrun). exists b, w1, w'.
  unfold mbind, M_bind. by rewrite Hg.
Qed.

(** A loop whose body returns from every database with an invariant returns. *)
Lemma for_each_runs {G : Gorm} {A} (I : DB → Prop) (l : list A) f c w :
  (∀ x w, I (db w) → ∃ u w', f x c w = (Ok u, w') ∧ I (db w')) → I (db w) →
  ∃ u w', for_each l f c w = (Ok u, w') ∧ I (db w').
Proof.
  intros Hf. revert w. induction l as [|x l IH]; intros w Hw; simpl; [by do 2 eexists|].
  destruct (Hf x w Hw) as (u & w1 & H & Hw1). unfold mbind, M_bind. rewrite H. by apply IH.
Qed.

(** ** Statements that run when nothing fails *)

Section runs.
Context {G : Gorm} {E : Env} {GOk : GormOk G}.

Lemma bind_run {A B} (m : M A) (k : A → M B) c w a w1 :
  m c w = (Ok a, w1) → (m ≫= k) c w = k a c w1.
Proof. unfold mbind, M_bind. by intros ->. Qed.

Lemma count_runs {R} {HR : Row R} {HD : InDB R} (p : R → bool) c w :
  no_faults → ∃ n w', db_count p c w = (Ok n, w') ∧ db w' = db w ∧ sent w' = sent w.
Proof. intros Hn. unfold db_count. rewrite stmt_runs by done. by do 2 eexists. Qed.

Lemma create_runs {R} {HR : Row R} {HRO : RowOk R} {HD : InDB R} (r : R) c w :
  no_faults →
  ∃ r' t w', db_create r c w = (Ok r', w') ∧ sent w' = sent w ∧ db w' = set_tbl t (db w) ∧
    g_create (before_create (uuid_new (clock w)) r) (tbl (db w)) = (r', t).
Proof.
  intros Hn. unfold db_create. rewrite stmt_runs by done.
  destruct (g_create _ _) as [r' t] eqn:Hc. exists r', t. eexists. split; [reflexivity|done].
Qed.

Lemma take_id_runs {R} {HR : Row R} {HRO : RowOk R} {HD : InDB R} k (r : R) c w :
  no_faults → rows (tbl (db w)) !! k = Some r →
  ∃ w', db_take (by_id k) c w = (Ok r, w') ∧ db w' = db w ∧ sent w' = sent w.
Proof.
  intros Hn Hr. unfold db_take, mbind, M_bind. rewrite stmt_runs by done. cbn.
  destruct (g_take (by_id k) (tbl (db w))) as [x|] eqn:Hx.
  - apply take_some in Hx as [Hk%Z.eqb_eq Hx]. rewrite Hk, Hr in Hx. simplify_eq. by eexists.
  - eapply take_none in Hx; [|done]. unfold by_id in Hx. by rewrite (rows_id _ _ _ Hr), Z.eqb_refl in Hx.
Qed.

Lemma take_unique {R} {HR : Row R} {HRO : RowOk R} {HD : InDB R} (p : R → bool) (r : R) k c w :
  no_faults → rows (tbl (db w)) !! k = Some r → p r = true →
  (∀ j x, rows (tbl (db w)) !! j = Some x → p x = true → x = r) →
  ∃ w', db_take p c w = (Ok r, w') ∧ db w' = db w ∧ sent w' = sent w.
Proof.
  intros Hn Hr Hp Hu. unfold db_take, mbind, M_bind. rewrite stmt_runs by done. cbn.
  destruct (g_take p (tbl (db w))) as [x|] eqn:Hx.
  - apply take_some in Hx as [Hpx Hx]. rewrite (Hu _ _ Hx Hpx). by eexists.
  - eapply take_none in Hx; [|done]. congruence.
Qed.

Lemma take_nothing {R} {HR : Row R} {HRO : RowOk R} {HD : InDB R} (p : R → bool) c w :
  no_faults → (∀ j x, rows (tbl (db w)) !! j = Some x → p x = false) →
  ∃ w', db_take p c w = (Err RecordNotFound, w') ∧ db w' = db w ∧ sent w' = sent w.
Proof.
  intros Hn Hp. unfold db_take, mbind, M_bind. rewrite stmt_runs by done. cbn.
  destruct (g_take p (tbl (db w))) as [x|] eqn:Hx; [|by eexists].
  apply take_some in Hx as [Hpx Hx]. specialize (Hp _ _ Hx). congruence.
Qed.

Lemma update_runs {R} {HR : Row R} {HD : InDB R} (p : R → bool) f c w :
  no_faults →
  ∃ w', db_update p f c w = (Ok tt, w') ∧ db w' = set_tbl (g_update p f (tbl (db w))) (db w) ∧
    sent w' = sent w.
Proof. intros Hn. unfold db_update. rewrite stmt_runs by done. by eexists. Qed.

(** An update that selects one row. *)
Lemma update_one {R} {HR : Row R} {HRO : RowOk R} (p : R → bool) f (t : table R) k (x : R) :
  keeps_id f → rows t !! k = Some x → p x = true →
  (∀ j y, rows t !! j = Some y → p y = true → j = k) →
  rows (g_update p f t) = <[k := f x]> (rows t).
Proof.
  intros Hf Hx Hp Hu. rewrite update_spec by done. apply map_eq. intros j. rewrite lookup_fmap.
  destruct (decide (j = k)) as [->|Hj].
  - rewrite lookup_insert_eq, Hx. simpl. by rewrite Hp.
  - rewrite lookup_insert_ne by done. destruct (rows t !! j) as [y|] eqn:Hy; [|done]. simpl.
    destruct (p y) eqn:Hpy; [|done]. by specialize (Hu _ _ Hy Hpy).
Qed.

End runs.

(** ** Outcomes at a given world *)

Section outcomes.
Context {G : Gorm} {E : Env} {GOk : GormOk G}.

(** A transaction in a given context. *)
Lemma with_tx_at {A} (I : DB → Prop) (m : M A) c w :
  (I (db w) → I (db (m (c <| dbkey := true |>) w).2)) → I (db w) → I (db (with_tx m c w).2).
Proof.
  intros Hm Hw. specialize (Hm Hw). unfold with_tx. destruct (dbkey c) eqn:Hk.
  - by assert (c <| dbkey := true |> = c) as <- by (destruct c; simpl in *; by subst).
  - by destruct (m _ w) as [[]].
Qed.

(** Single statements at a given world. *)
Lemma run_wrap {A} (I : DB → Prop) code msg (m : M A) c w :
  I (db (m c w).2) → I (db (wrap code msg m c w).2).
Proof. unfold wrap. by destruct (m c w) as [[]]. Qed.

Lemma run_create {R} {HR : Row R} {HD : InDB R} (I : DB → Prop) (x : R) c w :
  (∀ y t, g_create (before_create (uuid_new (clock w)) x) (tbl (db w)) = (y, t) →
     I (set_tbl t (db w))) → I (db w) → I (db (db_create x c w).2).
Proof.
  intros Hc Hw. unfold db_create, stmt. destruct (db_fault _); [done|].
  destruct (g_create _ _) as [y t] eqn:Hg. by eapply Hc.
Qed.

Lemma run_update {R} {HR : Row R} {HD : InDB R} (I : DB → Prop) (p : R → bool) f c w :
  I (set_tbl (g_update p f (tbl (db w))) (db w)) → I (db w) → I (db (db_update p f c w).2).
Proof. intros Hu Hw. unfold db_update, stmt. by destruct (db_fault _). Qed.

(** A property of all rows after an UPDATE and after an INSERT. *)
Lemma rows_update {R} {HR : Row R} {HRO : RowOk R} (P : R → Prop) (p : R → bool) (f : R → R) (t : table R) :
  keeps_id f → (∀ x, p x = true → P x → P (f x)) →
  map_Forall (λ _, P) (rows t) → map_Forall (λ _, P) (rows (g_update p f t)).
Proof.
  intros Hk Hf Ht k x. rewrite update_lookup by done.
  intros (r & Hr & ->)%fmap_Some. specialize (Ht k r Hr). simpl in *.
  destruct (p r) eqn:Hp; auto.
Qed.

Lemma rows_create {R} {HR : Row R} {HRO : RowOk R} (P : R → Prop) (r : R) (t : table R) :
  (∀ k, P (set_id k (col_defaults r))) →
  map_Forall (λ _, P) (rows t) → map_Forall (λ _, P) (rows (g_create r t).2).
Proof.
  intros Hr Ht. destruct (g_create r t) as [r' t'] eqn:Hc.
  apply create_spec in Hc as (_ & _ & Hr' & Hrows). simpl. rewrite Hrows.
  intros k x. rewrite lookup_insert_Some. intros [[<- <-]|[_ Hx]]; [|by apply (Ht k)].
  rewrite Hr'. apply Hr.
Qed.

End outcomes.
