(* ===== verification/Scenario.v ===== *)
(** * Scenario: concrete databases and environments

    The finite-map database of [Gorm.v], an environment in which nothing fails,
    variants in which the SCI endpoint is down, and a small cloud: an
    organization with a member, a hypervisor with an instance, and volumes.  The
    witnesses of the theorems run the operations here. *)

From S2P Require Import Prelude GoLib ErrorCodes Gorm Model Store.

#[local] Existing Instance MemGorm.

Module Scenario.

Definition table_of {R} `{Row R} (l : list R) : table R :=
  {| Mem.next := 100; Mem.cells := list_to_map (map (λ r, (get_id r, r)) l);
     Mem.dead := ∅ |}.

(** Everything succeeds; the WDS driver is configured. *)
Definition env : Env := {|
  db_fault := λ _, false;
  post_result := λ _, PostOk;
  uuid_new n := "uuid-" +:+ fmt_d (Z.of_nat n);
  rand_read := λ _, Some (1, 2, 3, 4);
  rand_intn := λ _ _, 0;
  viper_IsSet := λ _, true;
  viper_GetString := λ _, "wds_vhost";
  viper_GetInt32 := λ _, 0;
  sql_like := λ _ _, true;
  inet_le a b := String.leb a b;
  gorm_autosave := true;
  recently_updated := λ _ _, false;
  instance_created := λ _, 1700000000;
  error_text := λ _, "error";
  map_order := λ _ l, l;
  time_now := Z.of_nat;
  created_at := λ _ k, k * 1000000000;
|}.

(** The same with an endpoint that refuses every request, and with the local
    volume driver. *)
Definition env_down : Env := {|
  db_fault := λ _, false;
  post_result := λ _, PostRefused;
  uuid_new n := "uuid-" +:+ fmt_d (Z.of_nat n);
  rand_read := λ _, Some (1, 2, 3, 4);
  rand_intn := λ _ _, 0;
  viper_IsSet := λ _, true;
  viper_GetString := λ _, "wds_vhost";
  viper_GetInt32 := λ _, 0;
  sql_like := λ _ _, true;
  inet_le a b := String.leb a b;
  gorm_autosave := true;
  recently_updated := λ _ _, false;
  instance_created := λ _, 1700000000;
  error_text := λ _, "error";
  map_order := λ _ l, l;
  time_now := Z.of_nat;
  created_at := λ _ k, k * 1000000000;
|}.

Definition env_local : Env := {|
  db_fault := λ _, false;
  post_result := λ _, PostOk;
  uuid_new n := "uuid-" +:+ fmt_d (Z.of_nat n);
  rand_read := λ _, Some (1, 2, 3, 4);
  rand_intn := λ _ _, 0;
  viper_IsSet := λ _, false;
  viper_GetString := λ _, "";
  viper_GetInt32 := λ _, 0;
  sql_like := λ _ _, true;
  inet_le a b := String.leb a b;
  gorm_autosave := true;
  recently_updated := λ _ _, false;
  instance_created := λ _, 1700000000;
  error_text := λ _, "error";
  map_order := λ _ l, l;
  time_now := Z.of_nat;
  created_at := λ _ k, k * 1000000000;
|}.

Definition empty_db : DB :=
  mkDB (table_of []) (table_of []) (table_of []) (table_of []) (table_of []) (table_of [])
    (table_of []) (table_of []) (table_of []) (table_of []) (table_of []) (table_of [])
    (table_of []) (table_of []) (table_of []) (table_of []) (table_of []) (table_of [])
    (table_of []) (table_of []) (table_of []) (table_of []) (table_of []) (table_of [])
    (table_of []) (table_of []) (table_of []) (table_of []) (table_of []) (table_of [])
    (table_of []) (table_of []) (table_of []) (table_of []) (table_of []) (table_of [])
    (table_of []) (table_of []) (table_of []) (table_of []) (table_of []) (table_of []) (table_of []).

Definition instance5 : Instance.t :=
  Instance.zero <| Instance.ID := 5 |> <| Instance.Owner := 2 |> <| Instance.Hostname := "vm5" |>
    <| Instance.Status := "running" |> <| Instance.Cpu := 2 |> <| Instance.Memory := 4096 |>
    <| Instance.Hyper := 3 |>.

(** Volume 7 is available, 8 is attached to instance 5, 9 is its boot volume. *)
Definition volume7 : Volume.t :=
  Volume.zero <| Volume.ID := 7 |> <| Volume.UUID := "u7" |> <| Volume.Owner := 2 |>
    <| Volume.Name := "data" |> <| Volume.Path := "wds_vhost://p1/v7" |>
    <| Volume.Size := 10 |> <| Volume.Status := "available" |>.

Definition volume8 : Volume.t :=
  volume7 <| Volume.ID := 8 |> <| Volume.UUID := "u8" |> <| Volume.Path := "wds_vhost://p1/v8" |>
    <| Volume.Status := "attached" |> <| Volume.InstanceID := 5 |> <| Volume.Target := "vdb" |>.

Definition volume9 : Volume.t :=
  volume8 <| Volume.ID := 9 |> <| Volume.UUID := "u9" |> <| Volume.Booting := true |>
    <| Volume.Target := "vda" |>.

Definition org2 : Organization.t :=
  Organization.zero <| Organization.ID := 2 |> <| Organization.Name := "tenant" |>.

Definition cloud : DB :=
  empty_db <| organizations := table_of [org2] |> <| instances := table_of [instance5] |>
    <| volumes := table_of [volume7; volume8; volume9] |>.

Definition world : World := mkWorld cloud [] 0.

(** A writer of organization 2, and a writer of another organization. *)
Definition writer : Ctx := mkCtx (Some (MemberShip.mk 4 "alice" 2 "tenant" 2)) false None None.
Definition stranger : Ctx := mkCtx (Some (MemberShip.mk 6 "bob" 3 "other" 2)) false None None.

End Scenario.

(** The value a run returned, for the witnesses. *)
Definition result_of {A B} (dflt : B) (f : A → B) (r : Res A * World) : B :=
  match r.1 with Ok a => f a | _ => dflt end.

Definition is_Ok {A} (r : Res A * World) : bool := match r.1 with Ok _ => true | _ => false end.
Definition is_Err {A} (r : Res A * World) : bool := match r.1 with Err _ => true | _ => false end.

Lemma run_Ok {A} (r : Res A * World) : is_Ok r = true → ∃ a w', r = (Ok a, w').
Proof. destruct r as [[]]; naive_solver. Qed.

Lemma run_Err {A} (r : Res A * World) : is_Err r = true → ∃ e w', r = (Err e, w').
Proof. destruct r as [[]]; naive_solver. Qed.

Lemma run_check {A} (r : Res A * World) (p : A → bool) :
  match r.1 with Ok a => p a | _ => false end = true → ∃ a w', r = (Ok a, w') ∧ p a = true.
Proof. destruct r as [[]]; naive_solver. Qed.

(** The run succeeds and posts exactly these requests. *)
Lemma run_sent {A} (r : Res A * World) (l : list (string * string)) :
  (is_Ok r, sent r.2) = (true, l) → ∃ a w', r = (Ok a, w') ∧ sent w' = l.
Proof. destruct r as [[]]; naive_solver. Qed.

Definition remote_failure (e : error) : bool :=
  match error_code e with Some n => n =? ErrExecuteOnHyperFailed | None => false end.

Lemma run_remote {A} (r : Res A * World) :
  match r.1 with Err e => remote_failure e | _ => false end = true →
  ∃ e w', r = (Err e, w') ∧ error_code e = Some ErrExecuteOnHyperFailed.
Proof.
  destruct r as [[|e|] w']; try done. simpl. unfold remote_failure. intros He.
  exists e, w'. split; [done|]. destruct (error_code e); [|done]. by apply Z.eqb_eq in He as ->.
Qed.

(** [run H as v w'] runs a closed operation that returns a value. *)
Ltac run_ok r v w H :=
  destruct (run_Ok r) as (v & w & H); [vm_compute; reflexivity|].
Ltac run_err r e w H :=
  destruct (run_Err r) as (e & w & H); [vm_compute; reflexivity|].
Ltac run_remote_err r e w H He :=
  destruct (run_remote r) as (e & w & H & He); [vm_compute; reflexivity|].

(** A property of every row of a closed table is a computation. *)
Lemma rows_all {A} (p : A → bool) (m : gmap Z A) :
  forallb (λ x, p x.2) (map_to_list m) = true → ∀ k x, m !! k = Some x → p x = true.
Proof.
  intros H k x Hx. rewrite forallb_forall in H. apply (H (k, x)).
  by apply list_elem_of_In, elem_of_map_to_list.
Qed.
