(* ===== verification/Member.v ===== *)
(** * Member: roles and ownership (common/member.go)

    What a caller may do: [CheckPermission] and [ValidateOwner] on roles,
    [CheckOwner] and [CheckCreater] through the database, and [GetWhere], the
    condition that narrows a query to the caller's organization. *)

From S2P Require Import Prelude GoLib ErrorCodes Gorm Model Store.

Import MemberShip.

Definition is_super (m : MemberShip.t) : bool :=
  String.eqb (OrgName m) "admin" && (Role m =? Admin).

(** The condition of [GetWhere]: "" or [owner = <org>]. *)
Inductive Where := WhereAll | WhereOwner (org : Z).

Definition GetWhere (m : MemberShip.t) : Where :=
  if is_super m then WhereAll else WhereOwner (OrgID m).

Definition where_sql (wh : Where) : string :=
  match wh with WhereAll => "" | WhereOwner org => "owner = " +:+ fmt_d org end.

Definition where_ok (wh : Where) (owner : Z) : bool :=
  match wh with WhereAll => true | WhereOwner org => owner =? org end.

Definition CheckPermission (m : MemberShip.t) (reqRole : Z) : bool :=
  (reqRole <=? Role m) || is_super m
  || (String.eqb (OrgName m) "admin" && String.eqb (UserName m) "admin").

Definition ValidateOwner (m : MemberShip.t) (reqRole owner : Z) : bool :=
  if owner =? 0 then false
  else if Role m <? reqRole then false
  else (OrgID m =? owner) || (Role m =? Admin).

Section member.
Context {G : Gorm} {E : Env}.

(** The table and the column "creater"/"owner" are those of the struct [R]. *)
Definition CheckCreater {R} `{Row R, !InDB R} (creater : R → Z) (m : MemberShip.t) (id : Z)
    : M bool :=
  r ← db_scan (R := R) id;
  mret ((UserID m =? creater r) || is_super m).

Definition CheckUser (m : MemberShip.t) (id : Z) : M bool :=
  u ← db_get (R := User.t) id;
  mret ((User.ID u =? UserID m) || is_super m).

Definition CheckOwner {R} `{Row R, !InDB R} (owner : R → Z) (m : MemberShip.t)
    (reqRole id : Z) : M bool :=
  if id =? 0 then mret false
  else if Role m <? reqRole then mret false
  else
    r ← wrap ErrOwnerNotFound "Failed to query resource owner" (db_scan (R := R) id);
    mret ((OrgID m =? owner r) || (Role m =? Admin)).

Definition CheckAdmin {R} `{Row R, !InDB R} (owner : R → Z) (m : MemberShip.t)
    (reqRole id : Z) : M bool :=
  if Role m =? Admin then mret true else CheckOwner (R := R) owner m reqRole id.

Definition GetDBMemberShip (userID orgID : Z) : M MemberShip.t :=
  member ← wrap ErrMemberNotFound "Member not found"
    (db_take (λ r, (Member.UserID r =? userID) && (Member.OrgID r =? orgID)));
  if Member.ID member =? 0 then fail (NewCLError ErrMemberNotFound "Member not found" None)
  else mret (MemberShip.mk userID (Member.UserName member) orgID (Member.OrgName member)
               (Member.Role member)).

End member.

(** ** Lemmas *)

Lemma ValidateOwner_true m req owner :
  ValidateOwner m req owner = true ↔
  owner ≠ 0 ∧ req ≤ Role m ∧ (OrgID m = owner ∨ Role m = Admin).
Proof.
  unfold ValidateOwner.
  destruct (owner =? 0) eqn:E1, (Role m <? req) eqn:E2; simp;
    rewrite ?orb_true_iff, ?Z.eqb_eq; intuition (congruence || lia).
Qed.

Lemma where_ok_owner m owner :
  where_ok (GetWhere m) owner = true → is_super m = true ∨ owner = OrgID m.
Proof. unfold GetWhere. destruct (is_super m); simpl; [auto|]. rewrite Z.eqb_eq. auto. Qed.

Lemma CheckOwner_db_only {G : Gorm} {E : Env} {R} {HR : Row R} {HD : InDB R}
    (owner : R → Z) m req id : db_only (CheckOwner owner m req id).
Proof. unfold CheckOwner. db_only_tac. Qed.

#[export] Hint Resolve CheckOwner_db_only : go.

(** A query narrowed by [GetWhere] never selects a row that [ValidateOwner]
    then refuses to a reader. *)
Lemma where_ok_validate m owner :
  OrgID m ≠ 0 → Reader ≤ Role m → owner ≠ 0 →
  where_ok (GetWhere m) owner = true → ValidateOwner m Reader owner = true.
Proof.
  intros Horg Hrole Howner Hw. apply ValidateOwner_true. split_and!; [done..|].
  apply where_ok_owner in Hw as [Hs|Ho]; [|auto].
  unfold is_super in Hs. simp. auto.
Qed.
