(* ===== verification/Catalog.v ===== *)
(** * Catalog: look-ups the other components share

    Sort orders of the list operations (dbs/sortby.go), dictionary entries
    (routes/dictionary.go), flavors (routes/flavor.go) and the membership of a
    volume in a consistency group (routes/consistency_group.go). *)

From S2P Require Import Prelude GoLib ErrorCodes Gorm Model Store Member.

(** ** Sort orders (dbs/sortby.go) *)

Fixpoint mapping (m : list (string * string)) (k : string) : string :=
  match m with
  | [] => k
  | (a, b) :: m => if String.eqb k a then b else mapping m k
  end.

(** One comma-separated item: [-f] is [f DESC], [+f] is [f]; blank is dropped. *)
Definition order_of (m : list (string * string)) (item : string) : list string :=
  match mapping m (TrimSpace item) with
  | "" => []
  | String "-"%char s => [s +:+ " DESC"]
  | String "+"%char s => [s]
  | s => [s]
  end.

Definition NewOrders (s : string) (m : list (string * string)) : list string :=
  if String.eqb s "" then [] else concat (map (order_of m) (Split s ",")).

Section catalog.
Context {G : Gorm} {E : Env}.

(** ** Dictionaries (routes/dictionary.go) *)

Definition DictionaryAdmin_Get (id : Z) : M Dictionary.t :=
  GetContextDB (
    m ← GetMemberShip;
    wrap ErrDictionaryRecordsNotFound "Dictionary not found"
      (db_take (λ d, by_pk id d && where_ok (GetWhere m) (Dictionary.Owner d) && by_id id d))).

Definition DictionaryAdmin_GetDictionaryByUUID (uuID : string) : M Dictionary.t :=
  GetContextDB (
    wrap ErrDictionaryRecordsNotFound "Dictionary records not found"
      (db_take (λ d, String.eqb (Dictionary.UUID d) uuID))).

Definition DictionaryAdmin_Find (category value : string) : M Dictionary.t :=
  wrap ErrDictionaryRecordsNotFound "Dictionary records not found"
    (db_take (λ d, String.eqb (Dictionary.Category d) category
                   && String.eqb (Dictionary.Value d) value)).

(** ** Flavors (routes/flavor.go) *)

Definition FlavorAdmin_Get (id : Z) : M Flavor.t :=
  if id <=? 0 then
    fail (NewCLError ErrInvalidParameter ("Invalid flavor ID: " +:+ fmt_d id) None)
  else wrap ErrFlavorNotFound "Flavor not found" (db_get (R := Flavor.t) id).

(** ** Consistency groups (routes/consistency_group.go) *)

Definition ConsistencyGroupAdmin_IsVolumeInCG (volumeID : Z) : M bool :=
  GetContextDB (
    count ← wrap ErrDatabaseError "Failed to check if volume is in consistency group"
      (db_count (λ r, ConsistencyGroupVolume.VolumeID r =? volumeID));
    mret (0 <? count)).

End catalog.
