(* ===== verification/Volume.v ===== *)
(** * Volume: block-storage volumes (routes/volume.go, type VolumeAdmin)

    The operations of the volume administration: look-up, creation, quality of
    service, attach and detach requests, deletion, resizing and listing, each
    with its permission checks, its guards on the volume's state, its database
    statements and the command it posts to the hypervisors. *)

From S2P Require Import Prelude GoLib ErrorCodes Gorm Model Store Member Catalog Scenario.

Section volume.
Context {G : Gorm} {E : Env}.

Definition GetVolumeDriver : string :=
  if viper_IsSet "volume.driver" then viper_GetString "volume.driver" else "local".

(** [db.Preload("Instance").Where(p).Take(volume)] *)
Definition take_volume (p : Volume.t → bool) : M Volume.t :=
  v ← db_take p;
  i ← preload (R := Instance.t) (Volume.InstanceID v);
  mret (v <| Volume.Instance := i |>).

(** [db.Preload("Instance")...Find(&volumes)] on the rows found. *)
Definition preload_instances (vs : list Volume.t) : M (list Volume.t) :=
  let keys := List.filter (λ k, negb (k =? 0)) (map Volume.InstanceID vs) in
  match keys with
  | [] => mret vs
  | _ =>
      insts ← db_find (λ i, existsb (Z.eqb (Instance.ID i)) keys);
      mret (map (λ v, v <| Volume.Instance :=
        List.find (λ i, Instance.ID i =? Volume.InstanceID v) insts |>) vs)
  end.

Definition PermissionDenied (msg : string) : error := NewCLError ErrPermissionDenied msg None.

(** The query and the permission check of both look-ups. *)
Definition read_volume (m : MemberShip.t) (msg : string) (p : Volume.t → bool) : M Volume.t :=
  v ← wrap ErrVolumeNotFound msg (take_volume p);
  _ ← require (ValidateOwner m Reader (Volume.Owner v))
        (PermissionDenied "Not authorized to read the volume");
  mret v.

Definition VolumeAdmin_Get (id : Z) : M Volume.t :=
  if id <=? 0 then
    fail (NewCLError ErrInvalidParameter ("Invalid volume ID: " +:+ fmt_d id) None)
  else GetContextDB (
    m ← GetMemberShip;
    read_volume m "Failed to query volume"
      (λ v, by_pk id v && where_ok (GetWhere m) (Volume.Owner v))).

Definition VolumeAdmin_GetVolumeByUUID (uuID : string) : M Volume.t :=
  GetContextDB (
    m ← GetMemberShip;
    read_volume m "Volume not found"
      (λ v, where_ok (GetWhere m) (Volume.Owner v) && String.eqb (Volume.UUID v) uuID)).

(** [limit > 0 && (limit < min || limit > max)] is refused. *)
Definition limit_ok (limit lo hi : Z) : bool :=
  negb ((0 <? limit) && ((limit <? lo) || (hi <? limit))).

Definition bps_ok (x : Z) : bool := limit_ok x VolumeBpsLimitMin VolumeBpsLimitMax.
Definition iops_ok (x : Z) : bool := limit_ok x VolumeIopsLimitMin VolumeIopsLimitMax.

Definition bps_error (x : Z) : error :=
  NewCLError ErrInvalidParameter
    ("Invalid bps limit: " +:+ fmt_d x +:+ ", should be between " +:+ fmt_d VolumeBpsLimitMin
     +:+ " and " +:+ fmt_d VolumeBpsLimitMax +:+ " (MB/s)") None.
Definition iops_error (x : Z) : error :=
  NewCLError ErrInvalidParameter
    ("Invalid iops limit: " +:+ fmt_d x +:+ ", should be between " +:+ fmt_d VolumeIopsLimitMin
     +:+ " and " +:+ fmt_d VolumeIopsLimitMax +:+ " (IOPS)") None.

(** A limit that is not given takes the configured default. *)
Definition limit_or (key : string) (limit : Z) : Z :=
  if limit =? 0 then viper_GetInt32 key else limit.

Definition VolumeAdmin_CreateVolume (name : string) (size instanceID : Z) (booting : bool)
    (iopsLimit iopsBurst bpsLimit bpsBurst : Z) : M Volume.t :=
  with_tx (
    let iopsLimit := limit_or "volume.default_iops_limit" iopsLimit in
    let iopsBurst := limit_or "volume.default_iops_burst" iopsBurst in
    let bpsLimit := limit_or "volume.default_bps_limit" bpsLimit in
    let bpsBurst := limit_or "volume.default_bps_burst" bpsBurst in
    _ ← require (bps_ok bpsLimit) (bps_error bpsLimit);
    _ ← require (iops_ok iopsLimit) (iops_error iopsLimit);
    m ← GetMemberShip;
    wrap ErrVolumeCreationFailed "Failed to create volume"
      (db_create (Volume.zero
        <| Volume.Creater := MemberShip.UserID m |>
        <| Volume.Owner := MemberShip.OrgID m |>
        <| Volume.Name := name |>
        <| Volume.InstanceID := instanceID |>
        <| Volume.Booting := booting |>
        <| Volume.Format := "raw" |>
        <| Volume.Target := if booting then "vda" else "" |>
        <| Volume.Size := size |>
        <| Volume.IopsLimit := iopsLimit |>
        <| Volume.IopsBurst := iopsBurst |>
        <| Volume.BpsLimit := bpsLimit |>
        <| Volume.BpsBurst := bpsBurst |>
        <| Volume.Status := "pending" |>
        <| Volume.PoolID := "" |>))).

(** The pool a volume is created in: the value of the dictionary entry when the
    given identifier names a group of pools. *)
Definition volume_pool (poolID : string) : M string :=
  if String.eqb poolID "" then mret poolID
  else
    d ← try (DictionaryAdmin_GetDictionaryByUUID poolID);
    mret (match d with
          | inl d => if String.eqb (Dictionary.Category d) DICT_CATEGORY_STORAGE_POOL_GROUP
                        && negb (String.eqb (Dictionary.Value d) "")
                     then Dictionary.Value d else poolID
          | inr _ => poolID
          end).

Definition create_volume_command (v : Volume.t) (iopsLimit iopsBurst bpsLimit bpsBurst : Z)
    (pool : string) : string :=
  "/opt/cloudland/scripts/backend/create_volume_" +:+ GetVolumeDriver +:+ ".sh '"
  +:+ fmt_d (Volume.ID v) +:+ "' '" +:+ fmt_d (Volume.Size v) +:+ "' '" +:+ Volume.UUID v
  +:+ "' '" +:+ fmt_d iopsLimit +:+ "' '" +:+ fmt_d iopsBurst +:+ "' '" +:+ fmt_d bpsLimit
  +:+ "' '" +:+ fmt_d bpsBurst +:+ "' '" +:+ pool +:+ "'".

Definition VolumeAdmin_Create (name : string) (size iopsLimit iopsBurst bpsLimit bpsBurst : Z)
    (poolID : string) : M Volume.t :=
  m ← GetMemberShip;
  _ ← require (CheckPermission m Writer) (PermissionDenied "Not authorized to create volume");
  newPoolID ← volume_pool poolID;
  v ← VolumeAdmin_CreateVolume name size 0 false iopsLimit iopsBurst bpsLimit bpsBurst;
  _ ← HyperExecute "inter="
        (create_volume_command v iopsLimit iopsBurst bpsLimit bpsBurst newPoolID);
  mret v.

(** [db.Model(v)...]: the rows selected by the primary key of the struct. *)
Definition of_volume (v : Volume.t) : Volume.t → bool := by_pk (Volume.ID v).

Definition in_error_state (v : Volume.t) : error :=
  NewCLError ErrVolumeInvalidState
    ("Volume " +:+ Volume.UUID v +:+ " is in error state, cannot update now") None.

Definition VolumeAdmin_UpdateQos (id iopsLimit bpsLimit : Z) : M Volume.t :=
  _ ← require (bps_ok bpsLimit) (bps_error bpsLimit);
  _ ← require (iops_ok iopsLimit) (iops_error iopsLimit);
  with_tx (
    v ← wrap ErrVolumeNotFound "Volume not found" (take_volume (by_pk id));
    m ← GetMemberShip;
    _ ← require (ValidateOwner m Writer (Volume.Owner v))
          (PermissionDenied "Not authorized to update the volume");
    _ ← require (negb (Volume_IsError v)) (in_error_state v);
    _ ← require (negb (String.eqb GetVolumeDriver "local"))
          (NewCLError ErrOperationNotSupported "Local volume does not support update qos" None);
    let v' := v <| Volume.IopsLimit := iopsLimit |> <| Volume.BpsLimit := bpsLimit |> in
    _ ← (if negb (Volume.IopsLimit v =? iopsLimit) || negb (Volume.BpsLimit v =? bpsLimit) then
           HyperExecute "inter="
             ("/opt/cloudland/scripts/backend/update_volume_" +:+ GetVolumeDriver +:+ ".sh '"
              +:+ fmt_d (Volume.ID v) +:+ "' '" +:+ Volume_GetOriginVolumeID v +:+ "' '"
              +:+ fmt_d iopsLimit +:+ "' '" +:+ fmt_d bpsLimit +:+ "'")
         else mret tt);
    _ ← wrap ErrVolumeUpdateFailed "Failed to update volume"
          (db_update (of_volume v) (λ r, r <| Volume.IopsLimit := iopsLimit |>
                                           <| Volume.BpsLimit := bpsLimit |>));
    mret v').

Definition VolumeAdmin_UpdateQosByUUID (uuid : string) (iopsLimit bpsLimit : Z) : M Volume.t :=
  GetContextDB (
    v ← wrap ErrVolumeNotFound "Volume not found"
      (db_take (λ v, String.eqb (Volume.UUID v) uuid));
    VolumeAdmin_UpdateQos (Volume.ID v) iopsLimit bpsLimit).

(** The identifier the storage backend knows the volume by. *)
Definition backend_uuid (v : Volume.t) : string :=
  if String.eqb GetVolumeDriver "local" then Volume.UUID v else Volume_GetOriginVolumeID v.

Definition detach_command (inst : Instance.t) (v : Volume.t) : string :=
  "/opt/cloudland/scripts/backend/detach_volume_" +:+ GetVolumeDriver +:+ ".sh '"
  +:+ fmt_d (Instance.ID inst) +:+ "' '" +:+ fmt_d (Volume.ID v) +:+ "' '" +:+ backend_uuid v
  +:+ "'".

Definition attach_command (inst : Instance.t) (v : Volume.t) : string :=
  "/opt/cloudland/scripts/backend/attach_volume_" +:+ GetVolumeDriver +:+ ".sh '"
  +:+ fmt_d (Instance.ID inst) +:+ "' '" +:+ fmt_d (Volume.ID v) +:+ "' '"
  +:+ Volume_GetVolumePath v +:+ "' '" +:+ backend_uuid v +:+ "'".

Definition hyper_of (inst : Instance.t) : string := "inter=" +:+ fmt_d (Instance.Hyper inst).

Definition paused_or_rescuing (inst : Instance.t) : bool :=
  String.eqb (Instance.Status inst) InstanceStatusPaused ||
  String.eqb (Instance.Status inst) InstanceStatusRescuing.

(** The detach branch of [Update]; [v] is the struct after the name was set. *)
Definition request_detach (v : Volume.t) : M string :=
  _ ← require (negb (Volume.Booting v))
        (NewCLError ErrBootVolumeCannotDetach "Boot volume can not be detached" None);
  instance ← wrap ErrInstanceNotFound "Instance not found"
    (db_get (R := Instance.t) (Volume.InstanceID v));
  _ ← require (negb (paused_or_rescuing instance))
        (NewCLError ErrInstanceInvalidState
           "Cannot detach volume to a paused/rescuing instance" None);
  inst ← deref (Volume.Instance v);
  _ ← HyperExecute (hyper_of inst) (detach_command inst v);
  mret VolumeStatusDetaching.

(** The attach branch of [Update]. *)
Definition request_attach (v : Volume.t) (instID : Z) : M string :=
  instance ← wrap ErrInstanceNotFound "Instance not found" (db_get (R := Instance.t) instID);
  _ ← require (negb (paused_or_rescuing instance))
        (NewCLError ErrInstanceInvalidState
           "Cannot attach volume to a paused/rescuing instance" None);
  _ ← HyperExecute (hyper_of instance) (attach_command instance v);
  mret VolumeStatusAttaching.

(** The request [Update] sends to the hypervisors, if any, and the status the
    volume takes. *)
Definition request_change (v : Volume.t) (instID : Z) : M string :=
  if (0 <? Volume.InstanceID v) && (instID =? 0) && Volume_IsAttached v then request_detach v
  else if (0 <? instID) && (Volume.InstanceID v =? 0) && Volume_IsAvailable v then
    request_attach v instID
  else mret (Volume.Status v).

Definition set_name (name : string) (v : Volume.t) : Volume.t :=
  if String.eqb name "" then v else v <| Volume.Name := name |>.

(** [updates := {"status": st}], with the name when there is one. *)
Definition status_and_name (st name : string) (r : Volume.t) : Volume.t :=
  set_name name (r <| Volume.Status := st |>).

Definition VolumeAdmin_Update (id : Z) (name : string) (instID : Z) : M Volume.t :=
  with_tx (
    v ← wrap ErrVolumeNotFound "Volume not found" (take_volume (by_pk id));
    m ← GetMemberShip;
    _ ← require (ValidateOwner m Writer (Volume.Owner v))
          (PermissionDenied "Not authorized to update the volume");
    _ ← require (negb (Volume_IsError v)) (in_error_state v);
    _ ← require (negb ((0 <? Volume.InstanceID v) && (0 <? instID)
                       && negb (Volume.InstanceID v =? instID)))
          (NewCLError ErrVolumeIsInUse
             "Please detach volume before attach it to new instance" None);
    let v := set_name name v in
    _ ← require (negb (negb (Volume.InstanceID v =? instID) && Volume_IsBusy v))
          (NewCLError ErrVolumeIsBusy
             ("Volume is busy, cannot be updated, status: " +:+ Volume.Status v) None);
    st ← request_change v instID;
    let v := v <| Volume.Status := st |> in
    _ ← wrap ErrVolumeUpdateFailed "Failed to update volume"
          (db_update (by_id (Volume.ID v)) (status_and_name st (Volume.Name v)));
    mret v).

Definition VolumeAdmin_UpdateByUUID (uuid name : string) (instID : Z) : M Volume.t :=
  GetContextDB (
    v ← wrap ErrVolumeNotFound "Volume not found"
      (db_take (λ v, String.eqb (Volume.UUID v) uuid));
    VolumeAdmin_Update (Volume.ID v) name instID).

Definition clear_command (v : Volume.t) : string :=
  "/opt/cloudland/scripts/backend/clear_volume_" +:+ GetVolumeDriver +:+ ".sh '"
  +:+ fmt_d (Volume.ID v) +:+ "' '" +:+ backend_uuid v +:+ "' '" +:+ Volume_GetVolumePath v
  +:+ "'".

Definition VolumeAdmin_Delete (v : Volume.t) : M unit :=
  with_tx (
    m ← GetMemberShip;
    _ ← require (ValidateOwner m Writer (Volume.Owner v))
          (PermissionDenied "Not authorized to delete the volume");
    _ ← require (negb (Volume_IsBusy v || Volume_IsAttached v))
          (NewCLError ErrVolumeIsBusy
             ("Volume[" +:+ Volume.Name v +:+ "](" +:+ Volume.UUID v
              +:+ ") is busy, cannot be deleted") None);
    inCG ← ConsistencyGroupAdmin_IsVolumeInCG (Volume.ID v);
    _ ← require (negb inCG)
          (NewCLError ErrVolumeInConsistencyGroup
             ("Volume " +:+ Volume.UUID v
              +:+ " is in a consistency group, please remove it from the CG first") None);
    _ ← wrap ErrVolumeDeleteFailed "Failed to delete volume" (db_delete (of_volume v));
    HyperExecute "inter=" (clear_command v)).

Definition VolumeAdmin_DeleteVolumeByUUID (uuID : string) : M unit :=
  GetContextDB (
    v ← wrap ErrVolumeNotFound "Volume not found"
      (db_take (λ v, String.eqb (Volume.UUID v) uuID));
    VolumeAdmin_Delete v).

(** The boot disk of an instance is recorded on the instance too. *)
Definition resize_instance (v : Volume.t) (size : Z) : M unit :=
  instance ← wrap ErrInstanceNotFound "Instance not found"
    (db_get (R := Instance.t) (Volume.InstanceID v));
  cm ← (if Instance.Cpu instance =? 0 then
          flavor ← wrap ErrFlavorNotFound "Flavor not found"
            (FlavorAdmin_Get (Instance.FlavorID instance));
          mret (Flavor.Cpu flavor, Flavor.Memory flavor)
        else mret (Instance.Cpu instance, Instance.Memory instance));
  wrap ErrInstanceUpdateFailed "Failed to update instance"
    (db_update (by_pk (Instance.ID instance))
       (λ r, r <| Instance.Cpu := cm.1 |> <| Instance.Memory := cm.2 |>
               <| Instance.Disk := size |>)).

Definition resize_command (v : Volume.t) (size : Z) : string :=
  "/opt/cloudland/scripts/backend/resize_volume_" +:+ GetVolumeDriver +:+ ".sh '"
  +:+ fmt_d (Volume.ID v) +:+ "' '" +:+ backend_uuid v +:+ "' '" +:+ fmt_d size +:+ "' '"
  +:+ fmt_t (Volume.Booting v) +:+ "' '" +:+ fmt_d (Volume.InstanceID v) +:+ "'".

Definition VolumeAdmin_Resize (v : Volume.t) (size : Z) : M unit :=
  with_tx_nil (
    m ← GetMemberShip;
    permit ← CheckOwner (R := Volume.t) Volume.Owner m Writer (Volume.ID v);
    if negb permit then mret tt
    else
      _ ← require (negb (Volume_IsError v))
            (NewCLError ErrVolumeInvalidState "Volume is in error status" None);
      _ ← require (negb (Volume_IsBusy v)) (NewCLError ErrVolumeIsBusy "Volume is busy" None);
      _ ← require (Volume.Size v <? size)
            (NewCLError ErrVolumeInvalidSize
               "The size must be greater than the original size" None);
      _ ← wrap ErrVolumeUpdateFailed "Failed to update volume"
            (db_update (of_volume v)
               (λ r, r <| Volume.Size := size |> <| Volume.Status := VolumeStatusResizing |>));
      _ ← (if Volume.Booting v then resize_instance v size else mret tt);
      control ← (if Volume.InstanceID v =? 0 then mret "inter="
                 else inst ← deref (Volume.Instance v); mret (hyper_of inst));
      HyperExecute control (resize_command v size)).

Definition VolumeAdmin_GetVolumesByInstanceID (instanceID : Z) : M (list Volume.t) :=
  GetContextDB (
    m ← GetMemberShip;
    wrap ErrSQLSyntaxError "Failed to query volumes" (
      vs ← db_find (λ v, where_ok (GetWhere m) (Volume.Owner v)
                         && (Volume.InstanceID v =? instanceID));
      preload_instances vs)).

(** The filter on [booting] of a list of a given type, [None] for an unknown
    type. *)
Definition booting_where (volume_type : string) : option (Volume.t → bool) :=
  if String.eqb volume_type "data" then Some (λ v, negb (Volume.Booting v))
  else if String.eqb volume_type "boot" then Some Volume.Booting
  else if String.eqb volume_type "all" then Some (λ _, true)
  else None.

Definition name_like (query : string) (name : string) : bool :=
  if String.eqb query "" then true else sql_like name ("%" +:+ query +:+ "%").

Definition VolumeAdmin_ListVolume (offset limit : Z) (order query volume_type : string)
    : M (Z * list Volume.t) :=
  m ← GetMemberShip;
  GetContextDB (
    let limit := if limit =? 0 then 16 else limit in
    let order := if String.eqb order "" then "created_at" else order in
    let where_query v := where_ok (GetWhere m) (Volume.Owner v) && name_like query (Volume.Name v) in
    match booting_where volume_type with
    | None =>
        fail (NewCLError ErrInvalidParameter ("Invalid volume type " +:+ volume_type) None)
    | Some booting =>
        total ← wrap ErrSQLSyntaxError "Failed to count volumes"
          (db_count (λ v, where_query v && booting v));
        volumes ← wrap ErrSQLSyntaxError "Failed to query volumes" (
          vs ← db_page (NewOrders order []) offset limit where_query;
          preload_instances vs);
        _ ← (if CheckPermission m Admin then
               for_each volumes (λ v : Volume.t,
                 _ ← wrap ErrOwnerNotFound "Owner organization not found"
                       (db_get (R := Organization.t) (Volume.Owner v)); mret tt)
             else mret tt);
        mret (total, volumes)
    end).

Definition VolumeAdmin_List (offset limit : Z) (order query : string)
    : M (Z * list Volume.t) :=
  VolumeAdmin_ListVolume offset limit order query "all".

Definition VolumeAdmin_UpdateDataVolumeStatus (instanceID : Z) (status : string) : M unit :=
  db_update (λ r, (Volume.InstanceID r =? instanceID) && negb (Volume.Booting r))
    (λ r, r <| Volume.InstanceID := 0 |> <| Volume.Target := "" |> <| Volume.Status := status |>).

End volume.

(** ** Shared lemmas *)

Section volume_lemmas.
Context {G : Gorm} {E : Env} {GOk : GormOk G}.
Implicit Types (c : Ctx) (w : World) (v : Volume.t).

Lemma caller_dbkey c b : caller (c <| dbkey := b |>) = caller c.
Proof. done. Qed.

(** A volume read with its instance preloaded is its row, and the instance is
    the row its foreign key names. *)
Lemma take_volume_Ok p c w v w' :
  take_volume p c w = (Ok v, w') →
  ∃ v0, g_take p (volumes (db w)) = Some v0 ∧
    v = v0 <| Volume.Instance := Volume.Instance v |> ∧
    (∀ i, Volume.Instance v = Some i →
       rows (instances (db w)) !! Volume.InstanceID v0 = Some i) ∧
    db w' = db w ∧ sent w' = sent w.
Proof.
  unfold take_volume. intros H. go_ok.
  eexists; split_and!; [done|done| |congruence|congruence].
  simpl. intros i. case_if; [done|]. intros Hi%MemOk.head_elem.
  apply find_spec in Hi as [Hk Hi]. unfold by_id in Hk. simp. simpl in *. congruence.
Qed.

Lemma request_detach_Ok v c w st w' :
  Volume.InstanceID v ≠ 0 →
  (∀ i, Volume.Instance v = Some i → rows (instances (db w)) !! Volume.InstanceID v = Some i) →
  request_detach v c w = (Ok st, w') →
  st = VolumeStatusDetaching ∧ Volume.Booting v = false ∧ db w' = db w ∧
  ∃ i, rows (instances (db w)) !! Volume.InstanceID v = Some i ∧
       paused_or_rescuing i = false ∧
       sent w' = sent w ++ [(hyper_of i, detach_command i v)].
Proof.
  unfold request_detach. intros Hid Hi H. go_ok. flat. simp.
  match goal with H : g_take _ _ = _ |- _ => apply take_pk_row in H as [Hr _]; [|done] end.
  match goal with H : Volume.Instance v = _ |- _ => apply Hi in H end. simp.
  eauto 10.
Qed.

Lemma request_attach_Ok v instID c w st w' :
  instID ≠ 0 → request_attach v instID c w = (Ok st, w') →
  st = VolumeStatusAttaching ∧ db w' = db w ∧
  ∃ i, rows (instances (db w)) !! instID = Some i ∧
       paused_or_rescuing i = false ∧
       sent w' = sent w ++ [(hyper_of i, attach_command i v)].
Proof.
  unfold request_attach. intros Hid H. go_ok. flat. simp.
  match goal with H : g_take _ _ = _ |- _ => apply take_pk_row in H as [Hr _]; [|done] end.
  eauto 10.
Qed.

End volume_lemmas.

Lemma set_name_ID name (v : Volume.t) : Volume.ID (set_name name v) = Volume.ID v.
Proof. unfold set_name. by case_if. Qed.

Lemma set_name_Instance name (v : Volume.t) :
  Volume.Instance (set_name name v) = Volume.Instance v.
Proof. unfold set_name. by case_if. Qed.

Lemma set_name_InstanceID name (v : Volume.t) :
  Volume.InstanceID (set_name name v) = Volume.InstanceID v.
Proof. unfold set_name. by case_if. Qed.

Lemma set_name_IsBusy name (v : Volume.t) : Volume_IsBusy (set_name name v) = Volume_IsBusy v.
Proof. unfold set_name. by case_if. Qed.

Lemma status_and_name_id st name : keeps_id (status_and_name st name).
Proof. intros r. exact (set_name_ID name (r <| Volume.Status := st |>)). Qed.

Lemma status_and_name_row st name o (v : Volume.t) :
  status_and_name st (Volume.Name (set_name name (v <| Volume.Instance := o |>))) v =
  v <| Volume.Status := st |>
    <| Volume.Name := if String.eqb name "" then Volume.Name v else name |>.
Proof.
  unfold status_and_name, set_name. destruct (String.eqb_spec name ""); simpl.
  - destruct (String.eqb_spec (Volume.Name v) "") as [Hn|]; [|done].
    destruct v; simpl in *. by subst.
  - by rewrite (proj2 (String.eqb_neq _ _)).
Qed.

(** ** Theorems *)

Section volume_theorems.
Context {G : Gorm} {E : Env} {GOk : GormOk G}.
Implicit Types (c : Ctx) (w : World) (v : Volume.t).

(** What [Update] asked of the hypervisors for the row [v]: nothing, a detach
    from the instance it is attached to, or an attach to [instID]. *)
Inductive asked (d : DB) (v : Volume.t) (instID : Z) : string → list (string * string) → Prop :=
  | asked_nothing   : asked d v instID (Volume.Status v) []
  | asked_detach i :
      Volume.Status v = VolumeStatusAttached → 0 < Volume.InstanceID v → instID = 0 →
      Volume.Booting v = false →
      rows (instances d) !! Volume.InstanceID v = Some i → paused_or_rescuing i = false →
      asked d v instID VolumeStatusDetaching [(hyper_of i, detach_command i v)]
  | asked_attach i :
      Volume.Status v = VolumeStatusAvailable → Volume.InstanceID v = 0 → 0 < instID →
      rows (instances d) !! instID = Some i → paused_or_rescuing i = false →
      asked d v instID VolumeStatusAttaching [(hyper_of i, attach_command i v)].

Lemma request_change_Ok v instID c w st w' :
  (∀ i, Volume.Instance v = Some i → rows (instances (db w)) !! Volume.InstanceID v = Some i) →
  request_change v instID c w = (Ok st, w') →
  db w' = db w ∧ ∃ posted, asked (db w) v instID st posted ∧ sent w' = sent w ++ posted.
Proof.
  intros Hi. unfold request_change.
  destruct ((0 <? _) && _ && _) eqn:Hd; [|destruct ((0 <? instID) && _ && _) eqn:Ha]; simp.
  - intros Hq. apply request_detach_Ok in Hq as (-> & ? & ? & i & ? & ? & ?); [|lia|done].
    split; [done|]. eexists. split; [|done]. apply asked_detach; try done.
    by apply String.eqb_eq.
  - intros Hq. apply request_attach_Ok in Hq as (-> & ? & i & ? & ? & ?); [|lia].
    split; [done|]. eexists. split; [|done]. apply asked_attach; try done.
    by apply String.eqb_eq.
  - intros [<- <-]%ret_Ok. split; [done|]. eexists. split; [constructor|].
    by rewrite app_nil_r.
Qed.

(** The request depends on the columns of the row only. *)
Lemma asked_columns d v name o instID st posted :
  asked d (set_name name (v <| Volume.Instance := o |>)) instID st posted →
  asked d v instID st posted.
Proof.
  unfold set_name. intros Ha.
  destruct (String.eqb name ""); inversion Ha; subst; simpl in *;
    repeat match goal with
    | |- context [detach_command ?i ?x] =>
        progress change (detach_command i x) with (detach_command i v)
    | |- context [attach_command ?i ?x] =>
        progress change (attach_command i x) with (attach_command i v)
    end;
    first [by apply asked_nothing | by eapply asked_detach | by eapply asked_attach].
Qed.

(** What a successful [Update] of the volume [id] did. *)
Record updated c w id name instID v w' v0 : Prop := {
  up_row : rows (volumes (db w)) !! id = Some v0;
  up_owner : ValidateOwner (caller c) Writer (Volume.Owner v0) = true;
  up_state : Volume_IsError v0 = false;
  up_busy : Volume.InstanceID v0 ≠ instID → Volume_IsBusy v0 = false;
  up_asked : ∃ posted, asked (db w) v0 instID (Volume.Status v) posted ∧
                       sent w' = sent w ++ posted;
  up_rows : rows (volumes (db w')) =
    <[id := v0 <| Volume.Status := Volume.Status v |>
               <| Volume.Name := if String.eqb name "" then Volume.Name v0 else name |>]>
      (rows (volumes (db w)));
  up_frame : db w' = (db w) <| volumes := volumes (db w') |>
}.

Lemma VolumeAdmin_Update_Ok c w id name instID v w' :
  id ≠ 0 → VolumeAdmin_Update id name instID c w = (Ok v, w') →
  ∃ v0, updated c w id name instID v w' v0.
Proof.
  intros Hid H. unfold VolumeAdmin_Update in H. go_ok.
  match goal with Hx : take_volume _ _ _ = _ |- _ =>
    apply take_volume_Ok in Hx as (v0 & Ht & Hv & Hi & Hdb & Hs) end.
  apply take_pk_row in Ht as [Hr Hk]; [|done]. change (Volume.ID v0 = id) in Hk.
  rewrite Hv in *. clear Hv. simpl in *.
  match goal with Hx : request_change _ _ _ _ = _ |- _ =>
    apply request_change_Ok in Hx as (Hdb' & posted & Hp & Hs') end.
  - apply asked_columns in Hp. flat. exists v0. split; simpl; try done; [by apply negb_true_iff|..].
    + rewrite set_name_InstanceID, set_name_IsBusy in *. intros Hne%Z.eqb_neq.
      match goal with Hx : negb (negb _ && _) = true |- _ =>
        simpl in Hx; rewrite Hne in Hx; by apply negb_true_iff in Hx end.
    + eauto.
    + match goal with Hx : db w' = _ |- _ => rewrite Hx end. simpl. rewrite set_name_ID. simpl.
      rewrite Hk, (update_key _ _ _ v0) by (done || apply status_and_name_id).
      by rewrite status_and_name_row.
    + match goal with Hx : db w' = _ |- _ => by rewrite Hx end.
  - intros i. rewrite set_name_Instance, set_name_InstanceID, Hdb. apply Hi.
Qed.

(** No read of [Update] can hit a nil pointer: the instance of an attached volume
    was looked up before. *)
Lemma take_volume_Instance p c w v w' :
  take_volume p c w = (Ok v, w') →
  ∀ i, Volume.InstanceID v ≠ 0 → rows (instances (db w)) !! Volume.InstanceID v = Some i →
  Volume.Instance v ≠ None.
Proof.
  unfold take_volume. intros H i Hne Hi. go_ok. simpl in *. flat.
  apply Z.eqb_neq in Hne as ->. intros Hnil.
  destruct (g_find _ _) eqn:Hf; [|done].
  pose proof (proj1 (find_nil _ _) Hf _ _ Hi) as Hk. unfold by_id in Hk.
  rewrite (rows_id _ _ _ Hi), Z.eqb_refl in Hk. done.
Qed.

Lemma request_change_no_panic v instID c w w' :
  (∀ i, Volume.InstanceID v ≠ 0 → rows (instances (db w)) !! Volume.InstanceID v = Some i →
        Volume.Instance v ≠ None) →
  request_change v instID c w ≠ (Panic, w').
Proof.
  intros Hi H. unfold request_change in H. destruct (_ && _ && _) eqn:Hd in H.
  - unfold request_detach in H. repeat skip_np H.
    apply bind_Panic in H as [H|(? & ? & _ & H)]; [|by repeat skip_np H].
    go_ok. simp. match goal with Hx : g_take _ _ = Some ?i |- _ =>
      apply take_pk_row in Hx as [Hr _]; [|lia]; apply (Hi i); [lia|done|] end.
    by destruct (Volume.Instance v).
  - case_match; [|done]. refine (np_refute _ _ _ _ _ H). unfold request_attach. np.
Qed.

Lemma VolumeAdmin_Update_no_panic id name instID c w w' :
  VolumeAdmin_Update id name instID c w ≠ (Panic, w').
Proof.
  intros H. apply with_tx_Panic in H.
  apply bind_Panic in H as [H|(v & w1 & Hv & H)].
  { refine (np_refute _ _ _ _ _ H). unfold take_volume. np. }
  apply wrap_Ok in Hv. repeat skip_np H.
  apply bind_Panic in H as [H|(? & ? & _ & H)]; [|by repeat skip_np H].
  revert H. apply request_change_no_panic. rewrite set_name_Instance, set_name_InstanceID.
  go_ok. apply take_volume_Ok in Hv as Hv'. destruct Hv' as (_ & _ & _ & _ & -> & _).
  exact (take_volume_Instance _ _ _ _ _ Hv).
Qed.

(** [VolumeAdmin.Update] called by a request that has no database handle yet
    never panics.  When it returns a volume it touched exactly one row, that of
    the given id, which the caller owns and which was not in the error state, nor
    busy unless no change of instance is asked for; it changed at most its name
    and its status, never the instance it belongs to; the status moves only from
    attached to detaching (never for a boot volume) or from available to
    attaching, and then exactly the matching command was posted to the hypervisor
    of a live instance that is neither paused nor rescuing.  When it returns an
    error the database is as it was. *)
Theorem volume_update_spec c w id name instID :
  id ≠ 0 → dbkey c = false →
  match VolumeAdmin_Update id name instID c w with
  | (Ok v, w') => ∃ v0, updated c w id name instID v w' v0
  | (Err _, w') => db w' = db w
  | (Panic, _) => False
  end.
Proof.
  intros Hid Hk. destruct (VolumeAdmin_Update id name instID c w) as [[v|e|] w'] eqn:H.
  - by apply VolumeAdmin_Update_Ok.
  - by eapply with_tx_Err.
  - by apply VolumeAdmin_Update_no_panic in H.
Qed.

(** The volume [v] is a live row the caller may read. *)
Definition readable c w v : Prop :=
  Reader ≤ MemberShip.Role (caller c) ∧
  (MemberShip.OrgID (caller c) = Volume.Owner v ∨ MemberShip.Role (caller c) = Admin) ∧
  ∃ o, rows (volumes (db w)) !! Volume.ID v = Some (v <| Volume.Instance := o |>).

Lemma read_volume_Ok m msg p c w v w' :
  caller c = m → read_volume m msg p c w = (Ok v, w') →
  readable c w v ∧ (∃ o, p (v <| Volume.Instance := o |>) = true) ∧
  db w' = db w ∧ sent w' = sent w.
Proof.
  unfold read_volume. intros <- H. go_ok.
  match goal with Hx : take_volume _ _ _ = _ |- _ =>
    apply take_volume_Ok in Hx as (v0 & [Hp Hr]%take_some & Hv & _ & Hdb & Hs) end.
  match goal with Hx : ValidateOwner _ _ _ = true |- _ =>
    apply ValidateOwner_true in Hx as (_ & Hrole & Hown) end.
  assert (v <| Volume.Instance := Volume.Instance v0 |> = v0) as Hv0.
  { rewrite Hv. by destruct v0. }
  unfold readable. split_and!; try done.
  - exists (Volume.Instance v0). rewrite Hv0. by rewrite Hv.
  - exists (Volume.Instance v0). by rewrite Hv0.
Qed.

(** Tenant isolation: a volume that [VolumeAdmin.Get] or [GetVolumeByUUID]
    returns is the live row with the id or the UUID asked for, and the caller
    is a reader of the organization that owns it, or holds the Admin role; the
    database is only read and nothing is posted. *)
Theorem volume_get_isolated c w v w' :
  (∀ id, VolumeAdmin_Get id c w = (Ok v, w') →
     Volume.ID v = id ∧ readable c w v ∧ db w' = db w ∧ sent w' = sent w) ∧
  (∀ uuID, VolumeAdmin_GetVolumeByUUID uuID c w = (Ok v, w') →
     Volume.UUID v = uuID ∧ readable c w v ∧ db w' = db w ∧ sent w' = sent w).
Proof.
  split.
  - intros id H. unfold VolumeAdmin_Get in H. destruct (id <=? 0) eqn:Hid; [go_ok|].
    go_ok. match goal with Hx : read_volume _ _ _ _ _ = _ |- _ =>
      apply read_volume_Ok in Hx as (? & [o Hp] & ? & ?); [|done] end.
    apply andb_true_iff in Hp as [Hp _]. unfold by_pk in Hp.
    rewrite pk_nonzero in Hp by lia. simp. done.
  - intros uuID H. unfold VolumeAdmin_GetVolumeByUUID in H. go_ok.
    match goal with Hx : read_volume _ _ _ _ _ = _ |- _ =>
      apply read_volume_Ok in Hx as (? & [o Hp] & ? & ?); [|done] end.
    apply andb_true_iff in Hp as [_ Hp]. by apply String.eqb_eq in Hp.
Qed.

(** What a successful [Delete] of the volume [v] did. *)
Record deleted c w v w' : Prop := {
  del_owner : ValidateOwner (caller c) Writer (Volume.Owner v) = true;
  del_busy : Volume_IsBusy v = false;
  del_attached : Volume_IsAttached v = false;
  del_cg : ∀ k r, rows (cg_volumes (db w)) !! k = Some r →
                  ConsistencyGroupVolume.VolumeID r ≠ Volume.ID v;
  del_rows : rows (volumes (db w')) = delete (Volume.ID v) (rows (volumes (db w)));
  del_frame : db w' = (db w) <| volumes := volumes (db w') |>;
  del_sent : sent w' = sent w ++ [("inter=", clear_command v)]
}.

Lemma VolumeAdmin_Delete_Ok c w v u w' :
  Volume.ID v ≠ 0 → VolumeAdmin_Delete v c w = (Ok u, w') → deleted c w v w'.
Proof.
  intros Hid H. unfold VolumeAdmin_Delete, ConsistencyGroupAdmin_IsVolumeInCG in H. go_ok.
  flat. simpl in *. simp. split; try done;
    repeat match goal with Hx : db w' = _ |- _ => rewrite Hx end; simpl; try done.
  - intros k r Hr Heq.
    match goal with Hx : Z.of_nat (length ?l) ≤ 0 |- _ => destruct l eqn:Hl; [|simpl in Hx; lia] end.
    pose proof (proj1 (find_nil _ _) Hl _ _ Hr) as Hf. simpl in Hf. by simp.
  - unfold of_volume. by rewrite delete_pk.
Qed.

Lemma VolumeAdmin_Delete_no_panic v : no_panic (VolumeAdmin_Delete v).
Proof. unfold VolumeAdmin_Delete, ConsistencyGroupAdmin_IsVolumeInCG. np. Qed.

(** C5. [VolumeAdmin.Delete] called by a request that has no database handle yet
    never panics.  When it succeeds it was given a volume of the caller's
    organization (or an Admin caller), neither busy nor attached nor in a
    consistency group; it removed exactly the row of that volume and posted
    exactly the command that clears its storage.  When it returns an error the
    database is as it was. *)
Theorem volume_delete_spec c w v :
  Volume.ID v ≠ 0 → dbkey c = false →
  match VolumeAdmin_Delete v c w with
  | (Ok _, w') => deleted c w v w'
  | (Err _, w') => db w' = db w
  | (Panic, _) => False
  end.
Proof.
  intros Hid Hk. destruct (VolumeAdmin_Delete v c w) as [[u|e|] w'] eqn:H.
  - by eapply VolumeAdmin_Delete_Ok.
  - by eapply with_tx_Err.
  - exact (np_refute _ _ _ _ (VolumeAdmin_Delete_no_panic v) H).
Qed.

(** [VolumeAdmin.UpdateQos] called by a request without a database handle
    never panics; when it returns an error the database is as it was; when it
    returns a volume, the limits are within their bounds, the row of that volume
    holds exactly the new limits, and a command was posted if and only if a limit
    changed. *)
Theorem volume_qos_spec c w id iops bps :
  id ≠ 0 → dbkey c = false →
  match VolumeAdmin_UpdateQos id iops bps c w with
  | (Ok v, w') =>
      ∃ v0, rows (volumes (db w)) !! id = Some v0 ∧
        bps_ok bps = true ∧ iops_ok iops = true ∧ Volume_IsError v0 = false ∧
        ValidateOwner (caller c) Writer (Volume.Owner v0) = true ∧
        rows (volumes (db w')) =
          <[id := v0 <| Volume.IopsLimit := iops |> <| Volume.BpsLimit := bps |>]>
            (rows (volumes (db w))) ∧
        (sent w' = sent w ↔ Volume.IopsLimit v0 = iops ∧ Volume.BpsLimit v0 = bps)
  | (Err _, w') => db w' = db w
  | (Panic, _) => False
  end.
Proof.
  intros Hid Hk. destruct (VolumeAdmin_UpdateQos id iops bps c w) as [[v|e|] w'] eqn:H.
  - unfold VolumeAdmin_UpdateQos in H. go_ok.
    match goal with Hx : take_volume _ _ _ = _ |- _ =>
      apply take_volume_Ok in Hx as (v0 & Ht & Hv & _ & Hdb & Hs) end.
    apply take_pk_row in Ht as [Hr Hi]; [|done]. change (Volume.ID v0 = id) in Hi.
    rewrite Hv in *. simpl in *.
    match goal with Hx : (if _ then HyperExecute _ _ else _) _ _ = _ |- _ =>
      apply HyperExecute_if_Ok in Hx as [Hd Hp] end.
    exists v0. split_and!; try done; [by apply negb_true_iff|..].
    + match goal with Hx : db w' = _ |- _ => rewrite Hx end. simpl. rewrite Hd, Hdb.
      unfold of_volume. simpl. rewrite Hi. by rewrite (update_pk _ _ _ v0).
    + match goal with Hx : sent w' = _ |- _ => rewrite Hx end. rewrite Hp, Hs.
      destruct (Volume.IopsLimit v0 =? iops) eqn:E1, (Volume.BpsLimit v0 =? bps) eqn:E2;
        simp; simpl; rewrite ?app_nil_r; try tauto;
        (split; [intros Hc%(f_equal length); rewrite length_app in Hc; simpl in Hc; lia|tauto]).
  - unfold VolumeAdmin_UpdateQos in H.
    repeat (apply bind_Err in H as [H|(? & ? & Hq & H)];
      [by apply require_Err in H as (_ & _ & ->)|apply require_Ok in Hq as [_ <-]]).
    by eapply with_tx_Err.
  - refine (np_refute _ _ _ _ _ H). unfold VolumeAdmin_UpdateQos, take_volume. np.
Qed.

(** The look-up of [DeleteVolumeByUUID] stores the plain database handle in
    the context, so the deletion it calls opens no transaction: when the remote
    execution fails, the call returns an error and the volume's row is gone. *)
Theorem volume_delete_by_uuid_not_atomic c w uuID e w' :
  VolumeAdmin_DeleteVolumeByUUID uuID c w = (Err e, w') →
  error_code e = Some ErrExecuteOnHyperFailed →
  ∃ v, Volume.UUID v = uuID ∧ rows (volumes (db w)) !! Volume.ID v = Some v ∧
       rows (volumes (db w')) !! Volume.ID v = None.
Proof.
  intros H He. unfold VolumeAdmin_DeleteVolumeByUUID in H. rewrite GetContextDB_eq in H.
  skip_db H He. unfold VolumeAdmin_Delete in H. rewrite with_tx_nested in H by done.
  unfold ConsistencyGroupAdmin_IsVolumeInCG in H. repeat skip_db H He.
  apply HyperExecute_Err in H as [_ H]. go_ok. flat.
  match goal with Hx : g_take _ _ = Some ?x |- _ =>
    apply take_some in Hx as [Hu Hr]; exists x end.
  apply String.eqb_eq in Hu. split_and!; [done|done|].
  simpl. rewrite delete_spec. simpl in Hr. rewrite Hr. unfold of_volume, by_pk. simpl.
  by rewrite pk_self.
Qed.

(** A volume that [CreateVolume] returns is stored under a fresh id, belongs
    to the caller's organization, is pending, and its bandwidth and IOPS limits
    are within the bounds of the model whenever they are positive. *)
Theorem volume_create_bounds c w name size inst boot il ib bl bb v w' :
  VolumeAdmin_CreateVolume name size inst boot il ib bl bb c w = (Ok v, w') →
  0 < Volume.ID v ∧ rows (volumes (db w)) !! Volume.ID v = None ∧
  rows (volumes (db w')) = <[Volume.ID v := v]> (rows (volumes (db w))) ∧
  Volume.Status v = VolumeStatusPending ∧ Volume.InstanceID v = inst ∧
  Volume.Size v = size ∧ Volume.Booting v = boot ∧
  Volume.Owner v = dflt_Z 1 (MemberShip.OrgID (caller c)) ∧
  (0 < Volume.BpsLimit v → VolumeBpsLimitMin ≤ Volume.BpsLimit v ≤ VolumeBpsLimitMax) ∧
  (0 < Volume.IopsLimit v → VolumeIopsLimitMin ≤ Volume.IopsLimit v ≤ VolumeIopsLimitMax) ∧
  sent w' = sent w.
Proof.
  intros H. unfold VolumeAdmin_CreateVolume in H. go_ok. flat.
  match goal with Hx : g_create _ _ = _ |- _ =>
    apply create_spec in Hx as (Hpos & Hnone & Hv & Hrows) end.
  simpl in Hrows, Hpos, Hnone. simpl.
  repeat match goal with Hx : _ = true |- _ =>
    unfold bps_ok, iops_ok, limit_ok in Hx; apply negb_true_iff, andb_false_iff in Hx end.
  split_and!; try done; rewrite Hv; simpl; try done;
    intros; repeat match goal with Hx : _ ∨ _ |- _ => destruct Hx end; simp; lia.
Qed.

(** ** Creation and resizing *)

Lemma volume_pool_same pool c w r w' :
  volume_pool pool c w = (r, w') → db w' = db w.
Proof.
  intros Hrun. assert (preserves (λ d, d = db w) (volume_pool pool)) as Hp.
  { unfold volume_pool, DictionaryAdmin_GetDictionaryByUUID. pres. }
  specialize (Hp c w eq_refl). by rewrite Hrun in Hp.
Qed.

Lemma volume_pool_quiet pool : quiet (volume_pool pool).
Proof. unfold volume_pool, DictionaryAdmin_GetDictionaryByUUID. quiet_tac. Qed.

(** [v] is a pending volume that [d'] has and [d] has not. *)
Definition fresh_pending (d d' : DB) v : Prop :=
  0 < Volume.ID v ∧ rows (volumes d) !! Volume.ID v = None ∧
  rows (volumes d') = <[Volume.ID v := v]> (rows (volumes d)) ∧
  Volume.Status v = VolumeStatusPending ∧ Volume.InstanceID v = 0.

Lemma CreateVolume_Ok c w name size il ib bl bb v w' :
  VolumeAdmin_CreateVolume name size 0 false il ib bl bb c w = (Ok v, w') →
  fresh_pending (db w) (db w') v ∧ sent w' = sent w.
Proof.
  intros H. unfold VolumeAdmin_CreateVolume in H. go_ok. flat.
  match goal with Hx : g_create _ _ = _ |- _ =>
    apply create_spec in Hx as (Hpos & Hnone & Hv & Hrows) end.
  split; [|done]. unfold fresh_pending. split_and!; [done..| |]; by rewrite Hv.
Qed.

Lemma CreateVolume_db_only name size inst boot il ib bl bb :
  db_only (VolumeAdmin_CreateVolume name size inst boot il ib bl bb).
Proof. unfold VolumeAdmin_CreateVolume. db_only_tac. Qed.

Lemma World_same_db w : w <| db := db w |> = w.
Proof. by destruct w. Qed.

Lemma busy_not_deleted v c w :
  Volume_IsBusy v = true → ∃ e, VolumeAdmin_Delete v c w = (Err e, w).
Proof.
  intros Hb. unfold VolumeAdmin_Delete, with_tx, mbind, M_bind, GetMemberShip, require.
  destruct (dbkey c); rewrite Hb; simpl; destruct (ValidateOwner _ _ _); simpl;
    rewrite ?World_same_db; by eexists.
Qed.

Lemma VolumeAdmin_Create_Ok c w name size il ib bl bb pool v w' :
  VolumeAdmin_Create name size il ib bl bb pool c w = (Ok v, w') →
  fresh_pending (db w) (db w') v ∧
  ∃ p, sent w' = sent w ++ [("inter=", create_volume_command v il ib bl bb p)].
Proof.
  intros H. unfold VolumeAdmin_Create in H. go_ok.
  match goal with Hx : volume_pool _ _ _ = _ |- _ =>
    pose proof (quiet_run _ _ _ _ _ (volume_pool_quiet _) Hx); apply volume_pool_same in Hx end.
  match goal with Hx : VolumeAdmin_CreateVolume _ _ _ _ _ _ _ _ _ _ = _ |- _ =>
    apply CreateVolume_Ok in Hx as [? ?] end.
  flat. eauto.
Qed.

(** An error of [Create]: before the row is stored, or after. *)
Lemma VolumeAdmin_Create_Err c w name size il ib bl bb pool e w' :
  dbkey c = false → VolumeAdmin_Create name size il ib bl bb pool c w = (Err e, w') →
  (not_remote e ∧ db w' = db w) ∨
  (error_code e = Some ErrExecuteOnHyperFailed ∧ ∃ v, fresh_pending (db w) (db w') v).
Proof.
  intros Hk H. unfold VolumeAdmin_Create in H. apply bind_Err in H as [H|(m & w1 & Hm & H)]; [done|].
  apply bind_Err in H as [(_ & <- & <-)%require_Err|(u & w2 & Hu & H)];
    [apply GetMemberShip_Ok in Hm as [_ <-]; by left|].
  apply bind_Err in H as [H|(p & w3 & Hp%volume_pool_same & H)].
  { assert (db_only (volume_pool pool)) as Hd by (unfold volume_pool; db_only_tac).
    left. split; [by eapply Hd|]. apply volume_pool_same in H. go_ok. done. }
  apply bind_Err in H as [H|(v & w4 & Hv & H)].
  { left. split; [by eapply CreateVolume_db_only|].
    apply with_tx_Err in H; [|done]. go_ok. congruence. }
  apply bind_Err in H as [[He Hdb]%HyperExecute_Err|(? & ? & _ & H)]; [|done].
  right. split; [done|]. apply CreateVolume_Ok in Hv as [Hv _]. go_ok.
  exists v. rewrite Hdb. by rewrite Hp in Hv.
Qed.

Lemma VolumeAdmin_Create_no_panic name size il ib bl bb pool :
  no_panic (VolumeAdmin_Create name size il ib bl bb pool).
Proof.
  unfold VolumeAdmin_Create, volume_pool, DictionaryAdmin_GetDictionaryByUUID,
    VolumeAdmin_CreateVolume. np.
Qed.

(** The two steps of [VolumeAdmin.Create], the row and the remote execution,
    are not one transaction.  Called by a request without a database handle it
    returns, and either it succeeds, with the pending row stored and the command
    posted; or it fails before the row is stored and the database is as it was;
    or the remote execution fails and the pending row stays although the caller
    got an error.  That row is busy, so every attempt to delete it is refused. *)
Theorem volume_create_outcomes c w name size il ib bl bb pool :
  dbkey c = false →
  match VolumeAdmin_Create name size il ib bl bb pool c w with
  | (Ok v, w') =>
      fresh_pending (db w) (db w') v ∧
      ∃ p, sent w' = sent w ++ [("inter=", create_volume_command v il ib bl bb p)]
  | (Err e, w') =>
      (not_remote e ∧ db w' = db w) ∨
      (error_code e = Some ErrExecuteOnHyperFailed ∧
       ∃ v, fresh_pending (db w) (db w') v ∧
            ∀ c1 w1, ∃ e1, VolumeAdmin_Delete v c1 w1 = (Err e1, w1))
  | (Panic, _) => False
  end.
Proof.
  intros Hk. destruct (VolumeAdmin_Create _ _ _ _ _ _ _ c w) as [[v|e|] w'] eqn:H.
  - by eapply VolumeAdmin_Create_Ok.
  - apply VolumeAdmin_Create_Err in H as [?|(He & v & Hv)]; [by left| |done].
    right. split; [done|]. exists v. split; [done|]. intros. apply busy_not_deleted.
    destruct Hv as (_ & _ & _ & Hs & _). unfold Volume_IsBusy. by rewrite Hs.
  - exact (np_refute _ _ _ _ (VolumeAdmin_Create_no_panic _ _ _ _ _ _ _) H).
Qed.

Definition sized (size : Z) (r : Volume.t) : Volume.t :=
  r <| Volume.Size := size |> <| Volume.Status := VolumeStatusResizing |>.

Lemma resize_instance_volumes v size c w u w' :
  resize_instance v size c w = (Ok u, w') → volumes (db w') = volumes (db w) ∧ sent w' = sent w.
Proof.
  unfold resize_instance, FlavorAdmin_Get. intros H. go_ok; try case_match; go_ok;
    try case_match; go_ok; flat; done.
Qed.

Lemma resize_instance_db_only v size : db_only (resize_instance v size).
Proof. unfold resize_instance. db_only_tac. Qed.

#[local] Hint Resolve resize_instance_db_only : go.

Lemma resize_boot_volumes v size c w u w' :
  (if Volume.Booting v then resize_instance v size else mret tt) c w = (Ok u, w') →
  volumes (db w') = volumes (db w) ∧ sent w' = sent w.
Proof. case_match; [apply resize_instance_volumes|]. intros. by go_ok. Qed.

Lemma resize_control_same v c w u w' :
  (if Volume.InstanceID v =? 0 then mret "inter="
   else inst ← deref (Volume.Instance v); mret (hyper_of inst)) c w = (Ok u, w') →
  db w' = db w ∧ sent w' = sent w.
Proof. case_match; intros; by go_ok. Qed.

Lemma CheckOwner_volume m id c w b w' :
  CheckOwner (R := Volume.t) Volume.Owner m Writer id c w = (Ok b, w') →
  db w' = db w ∧ sent w' = sent w ∧
  (b = true → Writer ≤ MemberShip.Role m ∧
     ∀ r, rows (volumes (db w)) !! id = Some r →
       MemberShip.OrgID m = Volume.Owner r ∨ MemberShip.Role m = Admin).
Proof.
  unfold CheckOwner. intros H. destruct (id =? 0); [go_ok; done|].
  destruct (MemberShip.Role m <? Writer) eqn:Hr; [go_ok; done|]. go_ok.
  split_and!; [congruence..|]. intros Hb. split; [by apply Z.ltb_ge|].
  intros r Hrow%scan_live. unfold by_id in *. simpl in *.
  match goal with Hx : g_scan _ _ = Some ?x |- _ =>
    assert_fails (constr_eq x r); assert (x = r) as -> by congruence end.
  apply orb_true_iff in Hb as [Hb|Hb]; simp; auto.
Qed.

(** What [Resize] did to the stored volume [v] (its row is [r]). *)
Record resized c w v size r w' : Prop := {
  rs_role : Writer ≤ MemberShip.Role (caller c);
  rs_owner : MemberShip.OrgID (caller c) = Volume.Owner v ∨ MemberShip.Role (caller c) = Admin;
  rs_error : Volume_IsError v = false;
  rs_busy : Volume_IsBusy v = false;
  rs_size : Volume.Size v < size;
  rs_rows : rows (volumes (db w')) = <[Volume.ID v := sized size r]> (rows (volumes (db w)));
  rs_sent : ∃ control, sent w' = sent w ++ [(control, resize_command v size)]
}.

(** [v] is the row [r], read with or without its instance. *)
Definition is_row v r : Prop := v = r <| Volume.Instance := Volume.Instance v |>.

Lemma VolumeAdmin_Resize_Ok c w v size r u w' :
  Volume.ID v ≠ 0 → rows (volumes (db w)) !! Volume.ID v = Some r → is_row v r →
  VolumeAdmin_Resize v size c w = (Ok u, w') →
  (db w' = db w ∧ sent w' = sent w) ∨ resized c w v size r w'.
Proof.
  intros Hid Hrow Hv H. unfold VolumeAdmin_Resize in H. go_ok.
  match goal with Hx : CheckOwner _ _ _ _ _ _ = _ |- _ =>
    apply CheckOwner_volume in Hx as (? & ? & Hb) end.
  case_match; go_ok; [left; split; congruence|]. right. simp.
  match goal with Hx : (if Volume.Booting v then _ else _) _ _ = _ |- _ =>
    apply resize_boot_volumes in Hx as [Hvs Hs] end.
  match goal with Hx : (if Volume.InstanceID v =? 0 then _ else _) _ _ = _ |- _ =>
    apply resize_control_same in Hx as [??] end.
  destruct Hb as [Hb1 Hb2]; [done|]. apply Hb2 in Hrow as Hown.
  split; try done; repeat match goal with Hx : db _ = _ |- _ => rewrite Hx in * end;
    simpl in *; try done.
  - by rewrite Hv.
  - rewrite Hvs. simpl. by apply update_pk.
  - match goal with Hx : sent w' = _ |- _ => rewrite Hx end. eexists. f_equal. congruence.
Qed.

(** Whatever [Resize] returns, the rows of the volumes are as they were or the
    new size is recorded. *)
Lemma VolumeAdmin_Resize_rows v size r c w :
  Volume.ID v ≠ 0 → rows (volumes (db w)) !! Volume.ID v = Some r →
  let d := db (VolumeAdmin_Resize v size c w).2 in
  rows (volumes d) = rows (volumes (db w)) ∨
  (Volume_IsError v = false ∧ Volume_IsBusy v = false ∧
   rows (volumes d) = <[Volume.ID v := sized size r]> (rows (volumes (db w)))).
Proof.
  intros Hid Hrow. simpl.
  set (I := λ d : DB, rows (volumes d) = rows (volumes (db w)) ∨
    (Volume_IsError v = false ∧ Volume_IsBusy v = false ∧
     rows (volumes d) = <[Volume.ID v := sized size r]> (rows (volumes (db w))))).
  enough (preserves I (VolumeAdmin_Resize v size)) as Hp by (apply Hp; by left).
  unfold VolumeAdmin_Resize, CheckOwner, resize_instance, FlavorAdmin_Get. pres; simp.
  - apply pres_db_update. intros d Hd. right. split_and!; [done..|]. simpl.
    destruct Hd as [Hd|(_ & _ & Hd)]; unfold of_volume.
    + rewrite (update_pk _ _ _ r), Hd; [done..|by rewrite Hd].
    + rewrite (update_pk _ _ _ (sized size r)), Hd;
        [by rewrite insert_insert_eq|done|done|by rewrite Hd, lookup_insert_eq].
  - apply pres_db_update. intros d Hd. exact Hd.
Qed.

(** [VolumeAdmin.Resize] of a stored volume that returns without an error
    either did nothing at all, silently, because the caller may not write the
    volume; or the caller is a writer of its organization (or an Admin), the
    volume was neither busy nor in the error state, the new size is strictly
    greater than the old one and is recorded with the status resizing, and one
    command was posted.  When the remote execution fails the call returns an
    error but has recorded the new size and the status resizing all the same:
    the transaction is ended with a nil error.  It panics only on an attached
    volume that was read without its instance. *)
Theorem volume_resize_outcomes c w v size r :
  Volume.ID v ≠ 0 → rows (volumes (db w)) !! Volume.ID v = Some r → is_row v r →
  match VolumeAdmin_Resize v size c w with
  | (Ok _, w') => (db w' = db w ∧ sent w' = sent w) ∨ resized c w v size r w'
  | (Err e, w') =>
      error_code e = Some ErrExecuteOnHyperFailed →
      rows (volumes (db w')) = <[Volume.ID v := sized size r]> (rows (volumes (db w)))
  | (Panic, _) => Volume.InstanceID v ≠ 0 ∧ Volume.Instance v = None
  end.
Proof.
  intros Hid Hrow Hv. destruct (VolumeAdmin_Resize v size c w) as [[u|e|] w'] eqn:H.
  - by eapply VolumeAdmin_Resize_Ok.
  - intros He. apply with_tx_nil_Err in H. repeat skip_db H He. go_ok.
    match goal with Hx : CheckOwner _ _ _ _ _ _ = _ |- _ =>
      apply CheckOwner_volume in Hx as (? & ? & _) end.
    case_match; [done|]. repeat skip_db H He. go_ok.
    apply HyperExecute_Err in H as [_ Hdb].
    match goal with Hx : (if Volume.Booting v then _ else _) _ _ = _ |- _ =>
      apply resize_boot_volumes in Hx as [Hvs _] end.
    match goal with Hx : (if Volume.InstanceID v =? 0 then _ else _) _ _ = _ |- _ =>
      apply resize_control_same in Hx as [? _] end.
    flat. rewrite Hvs. by apply update_pk.
  - destruct (decide (Volume.InstanceID v ≠ 0 ∧ Volume.Instance v = None)) as [|Hn]; [done|].
    exfalso. refine (np_refute _ _ _ _ _ H).
    unfold VolumeAdmin_Resize, CheckOwner, resize_instance, FlavorAdmin_Get. np.
    simp. destruct (Volume.Instance v); [apply np_ret|by destruct Hn].
Qed.

(** ** Listing *)

Definition same_columns v v' : Prop := v' = v <| Volume.Instance := Volume.Instance v' |>.

Lemma preload_instances_Ok vs c w vs' w' :
  preload_instances vs c w = (Ok vs', w') →
  Forall2 same_columns vs vs' ∧ db w' = db w ∧ sent w' = sent w.
Proof.
  assert (Hrefl : ∀ l, Forall2 same_columns l l).
  { intros l. apply Forall2_same_length_lookup_2; [done|]. intros i x y Hx Hy. simplify_eq.
    unfold same_columns. by destruct x. }
  unfold preload_instances. intros H. case_match; go_ok; [done|]. split; [|done].
  apply Forall2_fmap_r, Forall_Forall2_diag, Forall_forall. intros x _.
  unfold same_columns. simpl. done.
Qed.

Lemma owners_same (b : bool) (l : list Volume.t) c w u w' :
  (if b then for_each l (λ v : Volume.t,
    _ ← wrap ErrOwnerNotFound "Owner organization not found"
          (db_get (R := Organization.t) (Volume.Owner v)); mret tt) else mret tt) c w = (Ok u, w') →
  db w' = db w ∧ sent w' = sent w.
Proof.
  destruct b; [|intros; by go_ok]. revert w. induction l as [|x l IH]; simpl; intros w H; go_ok; [done|].
  match goal with Hx : for_each _ _ _ _ = _ |- _ => apply IH in Hx as [-> ->] end. done.
Qed.

(** [VolumeAdmin.ListVolume] returns at most [limit] volumes (16 when it is
    0), each of them a live row the caller's organization owns (any row for a
    super user) whose name matches the query; the total is the number of live
    rows that match and also have the asked type.  The type only restricts the
    total, not the page: a page may contain volumes of the other type. *)
Theorem volume_list_spec c w offset limit order query type total vs w' :
  0 ≤ limit →
  VolumeAdmin_ListVolume offset limit order query type c w = (Ok (total, vs), w') →
  Z.of_nat (length vs) ≤ (if limit =? 0 then 16 else limit) ∧
  (∀ v, v ∈ vs →
     where_ok (GetWhere (caller c)) (Volume.Owner v) = true ∧
     name_like query (Volume.Name v) = true ∧
     ∃ o, rows (volumes (db w)) !! Volume.ID v = Some (v <| Volume.Instance := o |>)) ∧
  (∃ booting, booting_where type = Some booting ∧
     ∃ counted : list Volume.t, total = Z.of_nat (length counted) ∧ NoDup counted ∧
       ∀ r, r ∈ counted ↔ rows (volumes (db w)) !! Volume.ID r = Some r ∧
         where_ok (GetWhere (caller c)) (Volume.Owner r) = true ∧
         name_like query (Volume.Name r) = true ∧ booting r = true) ∧
  db w' = db w ∧ sent w' = sent w.
Proof.
  intros Hlim H. unfold VolumeAdmin_ListVolume in H. go_ok.
  destruct (booting_where type) as [booting|]; go_ok.
  match goal with Hx : preload_instances _ _ _ = _ |- _ =>
    apply preload_instances_Ok in Hx as (Hcols & ? & ?) end.
  match goal with Hx : (if _ then for_each _ _ else _) _ _ = _ |- _ =>
    apply owners_same in Hx as [? ?] end.
  flat. split_and!; try done.
  - apply Forall2_length in Hcols. rewrite <- Hcols. apply page_limit.
    destruct (limit =? 0); [done|lia].
  - intros v Hin. apply list_elem_of_lookup in Hin as [i Hi].
    destruct (Forall2_lookup_r _ _ _ _ _ Hcols Hi) as (v0 & Hv0 & Hc).
    apply list_elem_of_lookup_2, page_spec in Hv0 as [Hp Hrow]. simp.
    rewrite Hc. simpl. split_and!; [done..|]. exists (Volume.Instance v0). by destruct v0.
  - exists booting. split; [done|]. eexists; split; [done|]. split; [apply find_nodup|].
    intros r. rewrite find_spec, !andb_true_iff. simpl. tauto.
Qed.

End volume_theorems.

(** ** Witnesses *)

Module VolumeWitness.
Import Scenario.
#[local] Existing Instance MemGorm.
#[local] Existing Instance MemGormOk.
#[local] Existing Instance env.

Lemma volume_update_spec_witness :
  ∃ v w' v0, VolumeAdmin_Update 7 "" 5 writer world = (Ok v, w') ∧
    updated writer world 7 "" 5 v w' v0.
Proof.
  pose proof (volume_update_spec writer world 7 "" 5 ltac:(done) eq_refl) as Ht.
  run_ok (VolumeAdmin_Update 7 "" 5 writer world) v w' Hrun.
  rewrite Hrun in Ht. destruct Ht as [v0 Hv0]. exists v, w', v0. auto.
Defined.

Lemma volume_get_isolated_witness :
  ∃ v w', VolumeAdmin_Get 8 writer world = (Ok v, w') ∧ Volume.ID v = 8 ∧
    readable writer world v ∧ is_Err (VolumeAdmin_Get 8 stranger world) = true.
Proof.
  run_ok (VolumeAdmin_Get 8 writer world) v w' Hrun.
  destruct (proj1 (volume_get_isolated writer world v w') 8 Hrun) as (? & ? & _).
  exists v, w'. split_and!; [done..|vm_compute; reflexivity].
Defined.

Lemma volume_delete_spec_witness :
  (∃ u w', VolumeAdmin_Delete volume7 writer world = (Ok u, w') ∧
    deleted writer world volume7 w') ∧
  ∃ e w', VolumeAdmin_Delete (E := env_down) volume7 writer world = (Err e, w') ∧
    db w' = db world.
Proof.
  split.
  - pose proof (volume_delete_spec writer world volume7 ltac:(done) eq_refl) as Ht.
    run_ok (VolumeAdmin_Delete volume7 writer world) u w' Hrun.
    rewrite Hrun in Ht. eauto.
  - pose proof (volume_delete_spec (E := env_down) writer world volume7 ltac:(done) eq_refl) as Ht.
    run_err (VolumeAdmin_Delete (E := env_down) volume7 writer world) e w' Hrun.
    rewrite Hrun in Ht. eauto.
Defined.

Lemma volume_qos_spec_witness :
  (∃ v w' v0, VolumeAdmin_UpdateQos 7 500 100 writer world = (Ok v, w') ∧
     rows (volumes (db w')) =
       <[7 := v0 <| Volume.IopsLimit := 500 |> <| Volume.BpsLimit := 100 |>]>
         (rows (volumes (db world)))) ∧
  is_Err (VolumeAdmin_UpdateQos 7 500 (VolumeBpsLimitMax + 1) writer world) = true.
Proof.
  split; [|vm_compute; reflexivity].
  pose proof (volume_qos_spec writer world 7 500 100 ltac:(done) eq_refl) as Ht.
  run_ok (VolumeAdmin_UpdateQos 7 500 100 writer world) v w' Hrun.
  rewrite Hrun in Ht. destruct Ht as (v0 & _ & _ & _ & _ & _ & Hr & _).
  exists v, w', v0. auto.
Defined.

Lemma volume_delete_by_uuid_not_atomic_witness :
  ∃ e w', VolumeAdmin_DeleteVolumeByUUID (E := env_down) "u7" writer world = (Err e, w') ∧
    ∃ v, Volume.UUID v = "u7" ∧ rows (volumes (db world)) !! Volume.ID v = Some v ∧
         rows (volumes (db w')) !! Volume.ID v = None.
Proof.
  run_remote_err (VolumeAdmin_DeleteVolumeByUUID (E := env_down) "u7" writer world) e w' Hrun He.
  exists e, w'. split; [exact Hrun|].
  exact (volume_delete_by_uuid_not_atomic (E := env_down) writer world "u7" e w' Hrun He).
Defined.

Lemma volume_create_bounds_witness :
  ∃ v w', VolumeAdmin_CreateVolume "d" 10 0 false 0 0 0 0 writer world = (Ok v, w') ∧
    Volume.Status v = VolumeStatusPending ∧
    rows (volumes (db w')) = <[Volume.ID v := v]> (rows (volumes (db world))) ∧
    is_Err (VolumeAdmin_CreateVolume "d" 10 0 false 0 0 (VolumeBpsLimitMax + 1) 0 writer world)
      = true.
Proof.
  run_ok (VolumeAdmin_CreateVolume "d" 10 0 false 0 0 0 0 writer world) v w' Hrun.
  destruct (volume_create_bounds writer world _ _ _ _ _ _ _ _ v w' Hrun)
    as (_ & _ & Hr & Hs & _).
  exists v, w'. split_and!; [exact Hrun|exact Hs|exact Hr|vm_compute; reflexivity].
Defined.

Lemma volume_create_outcomes_witness :
  ∃ e w' v, VolumeAdmin_Create (E := env_down) "d" 10 0 0 0 0 "" writer world = (Err e, w') ∧
    fresh_pending (db world) (db w') v.
Proof.
  run_remote_err (VolumeAdmin_Create (E := env_down) "d" 10 0 0 0 0 "" writer world)
    e w' Hrun He.
  pose proof (volume_create_outcomes (E := env_down) writer world "d" 10 0 0 0 0 "" eq_refl) as Ht.
  rewrite Hrun in Ht. destruct Ht as [[Hn _]|(_ & v & Hv & _)]; [by destruct Hn|].
  exists e, w', v. split; [exact Hrun|exact Hv].
Defined.

Lemma volume_resize_outcomes_witness :
  (∃ e w', VolumeAdmin_Resize (E := env_down) volume7 20 writer world = (Err e, w') ∧
     rows (volumes (db w')) = <[7 := sized 20 volume7]> (rows (volumes (db world)))) ∧
  (∃ u w', VolumeAdmin_Resize volume7 20 stranger world = (Ok u, w') ∧ sent w' = []).
Proof.
  split.
  - run_remote_err (VolumeAdmin_Resize (E := env_down) volume7 20 writer world) e w' Hrun He.
    pose proof (volume_resize_outcomes (E := env_down) writer world volume7 20 volume7
                  ltac:(done) eq_refl eq_refl) as Ht.
    rewrite Hrun in Ht. exists e, w'. split; [exact Hrun|exact (Ht He)].
  - destruct (run_sent (VolumeAdmin_Resize volume7 20 stranger world) []) as (u & w' & Hrun & Hs);
      [vm_compute; reflexivity|]. eauto.
Defined.

(** A list of data volumes whose page holds the boot volume 9. *)
Lemma volume_list_spec_witness :
  ∃ total vs w', VolumeAdmin_ListVolume 0 10 "" "" "data" writer world = (Ok (total, vs), w') ∧
    total = 2 ∧ existsb Volume.Booting vs = true ∧ Z.of_nat (length vs) ≤ 10.
Proof.
  destruct (run_check (VolumeAdmin_ListVolume 0 10 "" "" "data" writer world)
              (λ r, (r.1 =? 2) && existsb Volume.Booting r.2)) as ([total vs] & w' & Hrun & Hc);
    [vm_compute; reflexivity|].
  apply andb_true_iff in Hc as [Ht Hb].
  destruct (volume_list_spec writer world 0 10 "" "" "data" total vs w' ltac:(lia) Hrun)
    as (Hl & _).
  exists total, vs, w'. split_and!; [exact Hrun|by apply Z.eqb_eq|exact Hb|exact Hl].
Defined.

End VolumeWitness.
