(* ===== verification/Commands.v ===== *)
(** * Commands: the text protocol of the hypervisors (rpcs/commands.go)

    A command and its arguments travel as one line of text, each argument in
    single quotes.  [EncodeCommand] writes such a line, [DecodeCommand] takes it
    apart by cutting at the sequence blank-quote and stripping blanks and quotes
    from both ends of the pieces; there is no escaping.  The theorems say for
    which arguments the two are inverse and what happens to the others. *)

From S2P Require Import Prelude GoLib.

(** [EncodeCommand]; the arguments are given as [%v] prints them. *)
Definition EncodeCommand (name : string) (args : list string) : string :=
  foldl (λ command a, command +:+ " '" +:+ a +:+ "'") name args.

Definition popFirst (content : string) : string * string :=
  match cut_at " '" content with
  | Some (before, from) => (TrimQuote (TrimSpace before), TrimQuote (TrimSpace from))
  | None => (TrimQuote (TrimSpace content), "")
  end.

Definition parseCommand (s : string) : string :=
  let s := match last_cut "/" s with Some t => TrimPrefix t "/" | None => s end in
  TrimSuffix s ".sh".

(** The loop [for left != ""]; [None] when the fuel is used up. *)
Fixpoint pop_all (fuel : nat) (more : string) : option (list string) :=
  match more with
  | "" => Some []
  | _ =>
      match fuel with
      | O => None
      | S fuel => let '(first, more) := popFirst more in cons first <$> pop_all fuel more
      end
  end.

(** Every round of the loop consumes at least two bytes ([pop_all_total]), so
    the length of the text is enough fuel. *)
Definition DecodeCommand (content : string) : option (string * list string) :=
  if String.eqb content "" then Some ("", [])
  else
    let '(first, more) := popFirst content in
    args ← pop_all (String.length more) more;
    Some (parseCommand first, first :: args).

Definition newline : string := String (Ascii.ascii_of_nat 10) "".

Definition AppendAttachment (command attachment : string) : string :=
  command +:+ " <<EOF" +:+ newline +:+ attachment +:+ newline +:+ "EOF" +:+ newline.

(** ** Trimming *)

Section trim.
Variable f : ascii → bool.

(** Every byte of [s] satisfies [f]. *)
Fixpoint all_bytes (s : string) : bool :=
  match s with "" => true | String c s => f c && all_bytes s end.

Lemma trim_left_app u m : all_bytes u = true → trim_left f (u +:+ m) = trim_left f m.
Proof.
  induction u as [|c u IH]; simpl; [done|]. intros [-> Hu]%andb_true_iff. auto.
Qed.

Lemma trim_left_keep x m : x ≠ "" → trim_left f x = x → trim_left f (x +:+ m) = x +:+ m.
Proof.
  destruct x as [|c x]; [done|]. simpl. intros _. destruct (f c); [|done]. intros Hx.
  assert (∀ s, (String.length (trim_left f s) ≤ String.length s)%nat) as Hlen.
  { induction s as [|d s IH]; simpl; [lia|]. destruct (f d); simpl; lia. }
  specialize (Hlen x). rewrite Hx in Hlen. simpl in Hlen. lia.
Qed.

Lemma trim_right_keep m x : x ≠ "" → trim_right f x = x → trim_right f (m +:+ x) = m +:+ x.
Proof.
  intros Hne Hx. induction m as [|c m IH]; simpl; [done|]. rewrite IH.
  change (String c m +:+ x) with (String c (m +:+ x)).
  destruct (m +:+ x) eqn:Ea; [|done]. exfalso. by destruct m.
Qed.

Lemma trim_right_all v : all_bytes v = true → trim_right f v = "".
Proof.
  induction v as [|c v IH]; simpl; [done|]. intros [Hc Hv]%andb_true_iff.
  by rewrite (IH Hv), Hc.
Qed.

Lemma trim_right_app m v : all_bytes v = true → trim_right f (m +:+ v) = trim_right f m.
Proof.
  intros Hv. induction m as [|c m IH]; simpl; [by apply trim_right_all|]. by rewrite IH.
Qed.

Lemma trim_left_length s : (String.length (trim_left f s) ≤ String.length s)%nat.
Proof. induction s as [|d s IH]; simpl; [lia|]. destruct (f d); simpl; lia. Qed.

Lemma trim_right_length s : (String.length (trim_right f s) ≤ String.length s)%nat.
Proof.
  induction s as [|d s IH]; simpl; [lia|].
  destruct (trim_right f s); simpl in *; [destruct (f d); simpl; lia|lia].
Qed.

Lemma TrimFunc_length s : (String.length (TrimFunc f s) ≤ String.length s)%nat.
Proof.
  unfold TrimFunc. pose proof (trim_right_length (trim_left f s)).
  pose proof (trim_left_length s). lia.
Qed.

(** [TrimFunc] of a text whose ends are known. *)
Lemma TrimFunc_middle u m v :
  all_bytes u = true → all_bytes v = true → trim_left f m = m → trim_right f m = m →
  m ≠ "" → TrimFunc f (u +:+ m +:+ v) = m.
Proof.
  intros Hu Hv Hl Hr Hm. unfold TrimFunc. rewrite trim_left_app by done.
  rewrite trim_left_keep by done. rewrite trim_right_app by done. done.
Qed.

End trim.

Lemma trim_left_not f s : all_bytes (λ c, negb (f c)) s = true → trim_left f s = s.
Proof. destruct s; simpl; [done|]. by intros [->%negb_true_iff _]%andb_true_iff. Qed.

Lemma trim_right_not f s : all_bytes (λ c, negb (f c)) s = true → trim_right f s = s.
Proof.
  induction s as [|c s IH]; simpl; [done|]. intros [Hc%negb_true_iff Hs]%andb_true_iff.
  rewrite (IH Hs). destruct s; [by rewrite Hc|done].
Qed.

Lemma all_bytes_app f s t : all_bytes f (s +:+ t) = all_bytes f s && all_bytes f t.
Proof. induction s as [|c s IH]; simpl; [done|]. by rewrite IH, andb_assoc. Qed.

Lemma append_cons c s t : String c s +:+ t = String c (s +:+ t).
Proof. done. Qed.

Lemma append_nil_r s : s +:+ "" = s.
Proof. induction s as [|c s IH]; [done|]. by rewrite append_cons, IH. Qed.

Lemma append_eq_nil s t : s +:+ t = "" → s = "" ∧ t = "".
Proof. by destruct s. Qed.

Lemma append_assoc s t u : (s +:+ t) +:+ u = s +:+ t +:+ u.
Proof. induction s as [|c s IH]; [done|]. by rewrite !append_cons, IH. Qed.

(** ** The loop of [DecodeCommand] ends *)

Lemma cut_at_suffix sub s a b : cut_at sub s = Some (a, b) →
  String.prefix sub b = true ∧ s = a +:+ b.
Proof.
  revert a b. induction s as [|c s IH]; intros a b; cbn [cut_at].
  - destruct (String.prefix sub "") eqn:E; [|done]. intros; simplify_eq. by split.
  - destruct (String.prefix sub (String c s)) eqn:E; [intros; simplify_eq; by split|].
    destruct (cut_at sub s) as [[a1 b1]|] eqn:Ec; [|done]. intros; simplify_eq.
    destruct (IH a1 b eq_refl) as [? ->]. by split.
Qed.

Lemma prefix_cons c p d s :
  String.prefix (String c p) (String d s) = Ascii.eqb c d && String.prefix p s.
Proof.
  cbn [String.prefix]. destruct (ascii_dec c d) as [<-|Hne]; [by rewrite Ascii.eqb_refl|].
  by apply Ascii.eqb_neq in Hne as ->.
Qed.

Lemma prefix_blank_quote b : String.prefix " '" b = true → ∃ t, b = " '" +:+ t.
Proof.
  destruct b as [|c [|d b]]; [done|rewrite prefix_cons, andb_false_r; done|].
  rewrite !prefix_cons. intros H. simp. apply Ascii.eqb_eq in H as <-.
  match goal with Hx : Ascii.eqb _ _ = true |- _ => apply Ascii.eqb_eq in Hx as <- end.
  by exists b.
Qed.

Lemma string_length_app s t :
  String.length (s +:+ t) = (String.length s + String.length t)%nat.
Proof. induction s as [|c s IH]; [done|]. rewrite append_cons. simpl. by rewrite IH. Qed.

(** What is left to decode after a piece is at least two bytes shorter. *)
Lemma popFirst_shorter s first more :
  popFirst s = (first, more) → s ≠ "" → (String.length more < String.length s)%nat.
Proof.
  unfold popFirst. destruct (cut_at " '" s) as [[a b]|] eqn:Ec; intros; simplify_eq.
  - apply cut_at_suffix in Ec as [(t & ->)%prefix_blank_quote ->].
    rewrite string_length_app. unfold TrimQuote, TrimSpace.
    change (" '" +:+ t) with (String " " (String "'" t)).
    pose proof (TrimFunc_length is_quote (TrimFunc is_space (String " " (String "'" t)))) as H1.
    change (TrimFunc is_space (String " " (String "'" t)))
      with (trim_right is_space (String "'" t)) in *.
    pose proof (trim_right_length is_space (String "'" t)) as H2.
    cbn [String.length] in *. lia.
  - destruct s; [done|simpl; lia].
Qed.

Lemma pop_all_total fuel s : (String.length s ≤ fuel)%nat → is_Some (pop_all fuel s).
Proof.
  revert s. induction fuel as [|fuel IH]; intros s Hs.
  - destruct s; [by eexists|simpl in Hs; lia].
  - destruct s as [|c s]; [by eexists|]. cbn [pop_all].
    destruct (popFirst (String c s)) as [first more] eqn:Ep.
    apply popFirst_shorter in Ep; [|done].
    destruct (IH more) as [args ->]; [simpl in *; lia|]. by eexists.
Qed.

(** More fuel does not change the pieces. *)
Lemma pop_all_fuel fuel fuel' s l :
  pop_all fuel s = Some l → (fuel ≤ fuel')%nat → pop_all fuel' s = Some l.
Proof.
  revert fuel' s l. induction fuel as [|fuel IH]; intros fuel' s l H Hle.
  - destruct s; [by destruct fuel'|done].
  - destruct s as [|c s]; [by destruct fuel'|]. destruct fuel' as [|fuel']; [lia|].
    cbn [pop_all] in *. destruct (popFirst (String c s)) as [first more].
    destruct (pop_all fuel more) as [l'|] eqn:E; [|done].
    by rewrite (IH fuel' more l' E) by lia.
Qed.

(** C40. [DecodeCommand] returns on every text: its loop consumes the text. *)
Theorem decode_total content : ∃ cmd args, DecodeCommand content = Some (cmd, args).
Proof.
  unfold DecodeCommand. destruct (String.eqb content ""); [eauto|].
  destruct (popFirst content) as [first more].
  destruct (pop_all_total (String.length more) more) as [args ->]; [lia|].
  simpl. eauto.
Qed.

(** ** Round trip *)

(** An argument the protocol can carry: no quote in it, no blank at its ends. *)
Definition plain (a : string) : bool :=
  all_bytes (λ c, negb (is_quote c)) a && String.eqb (TrimSpace a) a.

(** The arguments of a command end in a non-empty one (or there is none). *)
Definition ends_well (args : list string) : bool :=
  match last args with Some a => negb (String.eqb a "") | None => true end.

Lemma trim_left_eq f s : trim_left f s = s ∨ (String.length (trim_left f s) < String.length s)%nat.
Proof.
  destruct s as [|c s]; [by left|]. simpl. destruct (f c); [|by left].
  right. pose proof (trim_left_length f s). lia.
Qed.

Lemma TrimFunc_id f s : TrimFunc f s = s → trim_left f s = s ∧ trim_right f s = s.
Proof.
  unfold TrimFunc. intros H. assert (trim_left f s = s) as E; [|by rewrite E in H].
  destruct (trim_left_eq f s) as [|Hlt]; [done|].
  pose proof (trim_right_length f (trim_left f s)) as Hr. rewrite H in Hr. lia.
Qed.

Lemma plain_spec a :
  plain a = true →
  trim_left is_space a = a ∧ trim_right is_space a = a ∧
  trim_left is_quote a = a ∧ trim_right is_quote a = a.
Proof.
  unfold plain. intros [Hq Ht%String.eqb_eq%TrimFunc_id]%andb_true_iff.
  split_and!; [apply Ht..|by apply trim_left_not|by apply trim_right_not].
Qed.

(** A text that ends in [x] still does after the trimming on its left. *)
Lemma trim_left_suffix f p x :
  x ≠ "" → trim_left f x = x → ∃ p', trim_left f (p +:+ x) = p' +:+ x.
Proof.
  intros Hne Hx. induction p as [|c p IH]; [by exists ""|]. rewrite append_cons. simpl.
  destruct (f c); [done|]. exists (String c p). done.
Qed.

Lemma trim_left_app_r f s v :
  trim_left f s ≠ "" → trim_left f (s +:+ v) = trim_left f s +:+ v.
Proof.
  induction s as [|c s IH]; [done|]. rewrite append_cons. simpl. destruct (f c); [done|].
  by rewrite append_cons.
Qed.

(** Stripping a piece that starts with blank-quote and ends in the argument
    [x], followed or not by its closing quote. *)
Lemma strip_piece p x v :
  x ≠ "" → plain x = true → v = "" ∨ v = "'" →
  TrimQuote (TrimSpace (" '" +:+ (p +:+ x) +:+ v)) = trim_left is_quote (p +:+ x).
Proof.
  intros Hne (Hl & Hr & Hql & Hqr)%plain_spec Hv. unfold TrimQuote, TrimSpace.
  assert (TrimFunc is_space (" '" +:+ (p +:+ x) +:+ v) = "'" +:+ (p +:+ x) +:+ v) as ->.
  { unfold TrimFunc. change (trim_left is_space (" '" +:+ (p +:+ x) +:+ v))
      with ("'" +:+ (p +:+ x) +:+ v).
    destruct Hv as [->| ->].
    - rewrite append_nil_r, <- append_assoc. by apply trim_right_keep.
    - rewrite <- append_assoc. by apply trim_right_keep. }
  unfold TrimFunc. change (trim_left is_quote ("'" +:+ (p +:+ x) +:+ v))
    with (trim_left is_quote ((p +:+ x) +:+ v)).
  destruct (trim_left_suffix is_quote p x Hne Hql) as [p' Hp'].
  rewrite trim_left_app_r; rewrite Hp'; [|by intros [_ ?]%append_eq_nil].
  rewrite trim_right_app by (by destruct Hv as [->| ->]). by apply trim_right_keep.
Qed.

(** The quoted arguments without the last closing quote, and what [popFirst]
    leaves of them. *)
Fixpoint quoted (args : list string) : string :=
  match args with
  | [] => ""
  | [a] => " '" +:+ a
  | a :: args => " '" +:+ a +:+ "'" +:+ quoted args
  end.

Definition stripped (args : list string) : string :=
  match args with
  | [] => ""
  | [a] => a
  | a :: args => if String.eqb a "" then quoted args else a +:+ "'" +:+ quoted args
  end.

(** [quoted] as a prefix and the last argument. *)
Lemma quoted_last a args x :
  last (a :: args) = Some x →
  ∃ p, quoted (a :: args) = " '" +:+ (p +:+ x) ∧
       (plain a = true → x ≠ "" → trim_left is_quote x = x →
        trim_left is_quote (p +:+ x) = stripped (a :: args)).
Proof.
  revert a. induction args as [|b args IH]; intros a Hl.
  - simpl in Hl. simplify_eq. exists "". done.
  - destruct (IH b) as (p & Hp & _); [by rewrite last_cons_cons in Hl|].
    exists (a +:+ "' '" +:+ p). split.
    + change (quoted (a :: b :: args)) with (" '" +:+ a +:+ "'" +:+ quoted (b :: args)).
      rewrite Hp, !append_assoc. done.
    + intros (_ & _ & Ha & _)%plain_spec Hne Hx. cbn [stripped].
      destruct (String.eqb_spec a "") as [->|Hane]; [by rewrite Hp|].
      rewrite Hp, !append_assoc, trim_left_keep by done. done.
Qed.

Definition no_quote (s : string) : bool := all_bytes (λ c, negb (is_quote c)) s.

Lemma prefix_blank_quote_no c s :
  c ≠ " "%char ∨ (∃ d s', s = String d s' ∧ d ≠ "'"%char) →
  String.prefix " '" (String c s) = false.
Proof.
  rewrite prefix_cons. intros [Hc|(d & s' & -> & Hd)].
  - rewrite (proj2 (Ascii.eqb_neq _ _)); [done|congruence].
  - rewrite prefix_cons, (proj2 (Ascii.eqb_neq "'" d)) by congruence. by rewrite andb_false_r.
Qed.

Lemma not_quote_spec c : negb (is_quote c) = true → c ≠ "'"%char.
Proof. intros H ->. done. Qed.

(** The first blank-quote after a text without quotes. *)
Lemma cut_no_quote a t : no_quote a = true → cut_at " '" (a +:+ " '" +:+ t) = Some (a, " '" +:+ t).
Proof.
  induction a as [|c a IH]; intros Ha; [by destruct t|]. simpl in Ha.
  apply andb_true_iff in Ha as [Hc%not_quote_spec Ha].
  rewrite append_cons. cbn [cut_at]. rewrite prefix_blank_quote_no, IH; [done..|].
  right. destruct a as [|d a]; [by eexists _, _|]. simpl in Ha.
  apply andb_true_iff in Ha as [Hd%not_quote_spec _]. by eexists _, _.
Qed.

Lemma cut_here t : cut_at " '" (" '" +:+ t) = Some ("", " '" +:+ t).
Proof. exact (cut_no_quote "" t eq_refl). Qed.

Lemma trim_right_tail f c a : trim_right f (String c a) = String c a → trim_right f a = a.
Proof. simpl. destruct (trim_right f a); [destruct (f c)|]; congruence. Qed.

(** The same when the text is followed by its closing quote. *)
Lemma cut_plain a t :
  no_quote a = true → trim_right is_space a = a →
  cut_at " '" (a +:+ "'" +:+ " '" +:+ t) = Some (a +:+ "'", " '" +:+ t).
Proof.
  induction a as [|c a IH]; intros Ha Hr; [by destruct t|]. simpl in Ha.
  apply andb_true_iff in Ha as [Hc%not_quote_spec Ha].
  rewrite append_cons. cbn [cut_at]. rewrite prefix_blank_quote_no.
  - rewrite IH; [done..|by apply trim_right_tail in Hr].
  - destruct a as [|d a].
    + left. intros ->. done.
    + right. simpl in Ha. apply andb_true_iff in Ha as [Hd%not_quote_spec _]. by eexists _, _.
Qed.

Lemma cut_none a : no_quote a = true → cut_at " '" a = None.
Proof.
  induction a as [|c a IH]; intros Ha; [done|]. simpl in Ha.
  apply andb_true_iff in Ha as [Hc%not_quote_spec Ha]. cbn [cut_at].
  rewrite IH by done. destruct a as [|d a].
  - by rewrite prefix_cons, andb_false_r.
  - rewrite prefix_blank_quote_no; [done|]. right.
    simpl in Ha. apply andb_true_iff in Ha as [Hd%not_quote_spec _]. by eexists _, _.
Qed.

Lemma plain_no_quote a : plain a = true → no_quote a = true.
Proof. unfold plain. by intros [? _]%andb_true_iff. Qed.

Lemma plain_trim a : plain a = true → TrimQuote (TrimSpace a) = a.
Proof.
  intros Ha. unfold plain in Ha. apply andb_true_iff in Ha as [Hq Ht].
  apply String.eqb_eq in Ht as ->. unfold TrimQuote, TrimFunc.
  by rewrite trim_left_not, trim_right_not.
Qed.

Lemma plain_trim_quoted a : plain a = true → a ≠ "" → TrimQuote (TrimSpace (a +:+ "'")) = a.
Proof.
  intros (Hl & Hr & Hql & Hqr)%plain_spec Hne. unfold TrimQuote, TrimSpace, TrimFunc at 2.
  rewrite trim_left_keep by done. rewrite trim_right_keep by done. unfold TrimFunc.
  rewrite trim_left_keep by done. rewrite trim_right_app by done. done.
Qed.

(** What is stripped of the quoted arguments, with or without the last quote. *)
Lemma strip_quoted args v :
  args ≠ [] → Forall (λ a, plain a = true) args → ends_well args = true →
  v = "" ∨ v = "'" →
  TrimQuote (TrimSpace (quoted args +:+ v)) = stripped args.
Proof.
  intros Hne Hp He Hv. destruct args as [|a args]; [done|]. unfold ends_well in He.
  destruct (last (a :: args)) as [x|] eqn:Hl; [|by apply last_None in Hl].
  destruct (String.eqb_spec x "") as [|Hx]; [done|].
  assert (plain x = true) as Hpx.
  { rewrite Forall_forall in Hp. by apply Hp, last_Some_elem_of. }
  destruct (quoted_last a args x Hl) as (p & -> & Hs).
  rewrite append_assoc, strip_piece by done. apply Hs; [by inversion Hp|done|].
  by apply plain_spec.
Qed.

Lemma pop_stripped args fuel :
  Forall (λ a, plain a = true) args → ends_well args = true → (length args ≤ fuel)%nat →
  pop_all fuel (stripped args) = Some args.
Proof.
  revert fuel. induction args as [|a args IH]; intros fuel Hp He Hf; [by destruct fuel|].
  destruct fuel as [|fuel]; [simpl in Hf; lia|].
  inversion Hp as [|? ? Ha Hp']; subst.
  destruct args as [|b args].
  - simpl. unfold ends_well in He. simpl in He. destruct a as [|c a]; [done|].
    unfold popFirst. rewrite cut_none by by apply plain_no_quote.
    rewrite plain_trim by done. by destruct fuel.
  - assert (popFirst (stripped (a :: b :: args)) = (a, stripped (b :: args)) ∧
            stripped (a :: b :: args) ≠ "") as [Hpop Hne].
    { pose proof (strip_quoted (b :: args) "" ltac:(done) Hp' He (or_introl eq_refl)) as Hs.
      rewrite append_nil_r in Hs. cbn [stripped].
      destruct (quoted (b :: args)) as [|q qs] eqn:Eq; [by destruct args|].
      assert (∃ t, String q qs = " '" +:+ t) as [t Ht].
      { rewrite <- Eq. destruct args; by eexists. }
      rewrite Ht in *. destruct (String.eqb_spec a "") as [->|Hane].
      - split; [|done]. unfold popFirst. by rewrite cut_here, Hs.
      - split; [|by destruct a]. unfold popFirst.
        rewrite cut_plain by (by apply plain_no_quote || by apply plain_spec).
        by rewrite Hs, plain_trim_quoted. }
    destruct (stripped (a :: b :: args)) eqn:E; [done|]. cbn [pop_all]. rewrite Hpop.
    rewrite IH; [done..|simpl in *; lia].
Qed.

Lemma EncodeCommand_quoted name args :
  args ≠ [] → EncodeCommand name args = name +:+ quoted args +:+ "'".
Proof.
  unfold EncodeCommand. revert name. induction args as [|a args IH]; intros name Hne; [done|].
  cbn [foldl]. destruct args as [|b args]; [by cbn; rewrite !append_assoc|].
  rewrite IH by done.
  change (quoted (a :: b :: args)) with (" '" +:+ a +:+ "'" +:+ quoted (b :: args)).
  by rewrite !append_assoc.
Qed.

(** One round of [popFirst], then the loop, with whatever fuel. *)
Lemma DecodeCommand_pop content first more fuel args :
  popFirst content = (first, more) → first ≠ "" → pop_all fuel more = Some args →
  DecodeCommand content = Some (parseCommand first, first :: args).
Proof.
  intros Hpop Hne Hargs. unfold DecodeCommand.
  destruct (String.eqb_spec content "") as [->|_]; [cbn in Hpop; congruence|].
  rewrite Hpop. destruct (pop_all_total (String.length more) more) as [l Hl]; [lia|].
  apply (pop_all_fuel _ (Nat.max fuel (String.length more))) in Hargs; [|lia].
  rewrite (pop_all_fuel _ _ _ _ Hl) in Hargs by lia. simplify_eq. by rewrite Hl.
Qed.

Lemma DecodeCommand_EncodeCommand name args :
  name ≠ "" → plain name = true → Forall (λ a, plain a = true) args → ends_well args = true →
  DecodeCommand (EncodeCommand name args) = Some (parseCommand name, name :: args).
Proof.
  intros Hne Hn Hp He.
  assert (popFirst (EncodeCommand name args) = (name, stripped args)) as Hpop.
  { unfold popFirst. destruct args as [|a args].
    - rewrite cut_none by by apply plain_no_quote. by rewrite plain_trim.
    - rewrite EncodeCommand_quoted by done.
      assert (∃ t, quoted (a :: args) = " '" +:+ t) as [t Ht] by (destruct args; by eexists).
      rewrite Ht, append_assoc, cut_no_quote by by apply plain_no_quote.
      rewrite plain_trim, <- append_assoc, <- Ht by done.
      rewrite strip_quoted by auto. done. }
  eapply DecodeCommand_pop; [done|done|]. by apply (pop_stripped args (length args)).
Qed.

(** The scripts report a failed attach as [attach_volume_*.sh '' '<id>' ''].
    [DecodeCommand] drops the empty argument at the end and keeps the one at the
    front: the handler is given exactly three words, the last of them the id. *)
Lemma decode_attach_failure name id :
  name ≠ "" → plain name = true → id ≠ "" → plain id = true →
  DecodeCommand (EncodeCommand name [""; id; ""]) = Some (parseCommand name, [name; ""; id]).
Proof.
  intros Hne Hn Hid Hp. apply plain_spec in Hp as Ht. destruct Ht as (Hl & Hr & Hql & Hqr).
  assert (Hone : (" '" +:+ id) +:+ "' " ≠ "") by done.
  assert (popFirst (EncodeCommand name [""; id; ""]) = (name, (" '" +:+ id) +:+ "' ")) as Hpop.
  { unfold popFirst. rewrite EncodeCommand_quoted by done.
    change (quoted [""; id; ""]) with (" '" +:+ "'" +:+ " '" +:+ id +:+ "'" +:+ " '").
    rewrite append_assoc, cut_no_quote by by apply plain_no_quote.
    rewrite plain_trim by done. f_equal. unfold TrimQuote, TrimSpace, TrimFunc at 2.
    replace (trim_left is_space _) with (("''" +:+ ((" '" +:+ id) +:+ "' ") +:+ "'") +:+ "'")
      by (rewrite !append_assoc; reflexivity).
    rewrite trim_right_keep by done.
    rewrite !(append_assoc "''"), (append_assoc _ "'" "'").
    apply (TrimFunc_middle is_quote "''" _ "''"); try done. by apply trim_right_keep. }
  assert (popFirst ((" '" +:+ id) +:+ "' ") = ("", id)) as Hpop2.
  { unfold popFirst. rewrite append_assoc, cut_here. f_equal.
    unfold TrimQuote, TrimSpace, TrimFunc at 2.
    change (trim_left is_space (" '" +:+ id +:+ "' ")) with ("'" +:+ id +:+ "' ").
    change "' " with ("'" +:+ " "). rewrite <- !append_assoc, trim_right_app by done.
    rewrite trim_right_keep, append_assoc by done. by apply TrimFunc_middle. }
  apply (DecodeCommand_pop _ _ _ 2 _ Hpop Hne).
  change ((" '" +:+ id) +:+ "' ") with (String " " (String "'" (id +:+ "' "))) in *.
  cbn [pop_all]. rewrite Hpop2. destruct id as [|c id]; [done|].
  unfold popFirst. by rewrite cut_none, plain_trim by (done || by apply plain_no_quote).
Qed.

(** C6. Round trip of the protocol: a command line written by [EncodeCommand]
    is read back by [DecodeCommand] as the same name and the same arguments,
    empty ones included, whenever no argument contains a quote or has blanks at
    its ends and the last argument is not empty.  In particular two such command
    lines are equal only if they carry the same command. *)
Theorem command_roundtrip name args :
  name ≠ "" → plain name = true → Forall (λ a, plain a = true) args → ends_well args = true →
  DecodeCommand (EncodeCommand name args) = Some (parseCommand name, name :: args) ∧
  ∀ name' args', name' ≠ "" → plain name' = true → Forall (λ a, plain a = true) args' →
    ends_well args' = true → EncodeCommand name args = EncodeCommand name' args' →
    name = name' ∧ args = args'.
Proof.
  intros Hne Hn Hp He. pose proof (DecodeCommand_EncodeCommand name args Hne Hn Hp He) as H.
  split; [done|]. intros name' args' Hne' Hn' Hp' He' Heq.
  pose proof (DecodeCommand_EncodeCommand name' args' Hne' Hn' Hp' He') as H'.
  rewrite Heq, H' in H. by simplify_eq.
Qed.

(** What the protocol cannot carry: an argument that is a single blank, as
    the script create_snapshot_wds_vhost.sh sends on a failure, is read as two
    empty arguments, so every later argument is found one place further: the
    seventh argument, where the handler reads the message, is empty. *)
Theorem blank_arguments_shift :
  DecodeCommand (EncodeCommand "create_snapshot_wds_vhost.sh"
                   ["11"; "4"; "error"; " "; "0"; " "; "failed to create snapshot"])
  = Some ("create_snapshot_wds_vhost",
      ["create_snapshot_wds_vhost.sh"; "11"; "4"; "error"; ""; ""; "0"; ""; "";
       "failed to create snapshot"]).
Proof. vm_compute. reflexivity. Qed.

(** ** Printed integers *)

Lemma all_bytes_pretty_go f (x : N) s :
  (∀ d, (d < 10)%N → f (pretty_N_char d) = true) → all_bytes f s = true →
  all_bytes f (pretty_N_go x s) = true.
Proof.
  intros Hf. revert s. induction (N.lt_wf_0 x) as [x _ IH]. intros s Hs.
  destruct (decide (x = 0%N)) as [->|Hx]; [by rewrite pretty_N_go_0|].
  rewrite pretty_N_go_step by lia. apply IH; [apply N.div_lt; lia|].
  simpl. rewrite Hs, Hf by (apply N.mod_lt; lia). done.
Qed.

Lemma all_bytes_fmt_d f x :
  (∀ d, (d < 10)%N → f (pretty_N_char d) = true) → f "-"%char = true →
  all_bytes f (fmt_d x) = true.
Proof.
  intros Hf Hm. unfold fmt_d.
  assert (∀ n : N, all_bytes f (pretty n) = true) as HN.
  { intros n. unfold pretty, pretty_N. case_decide; [|by apply all_bytes_pretty_go].
    change (f (pretty_N_char 0) && true = true). rewrite Hf by lia. done. }
  destruct x as [|p|p].
  - apply (HN 0%N).
  - apply (HN (N.pos p)).
  - change (f "-"%char && all_bytes f (pretty (N.pos p)) = true). by rewrite Hm, HN.
Qed.

Lemma digit_cases (d : N) (P : ascii → Prop) :
  (∀ c, c ∈ ["0"; "1"; "2"; "3"; "4"; "5"; "6"; "7"; "8"; "9"]%char → P c) →
  (d < 10)%N → P (pretty_N_char d).
Proof.
  intros HP Hd. apply HP. assert (d ∈ [0; 1; 2; 3; 4; 5; 6; 7; 8; 9]%N) as Hx.
  { rewrite !elem_of_cons. lia. }
  repeat (apply elem_of_cons in Hx as [->|Hx]; [cbn; set_solver|]). by apply elem_of_nil in Hx.
Qed.

Lemma fmt_d_bytes f x :
  forallb f (["0"; "1"; "2"; "3"; "4"; "5"; "6"; "7"; "8"; "9"; "-"]%char) = true →
  all_bytes f (fmt_d x) = true.
Proof.
  intros Hf. rewrite forallb_forall in Hf.
  apply all_bytes_fmt_d; [|apply Hf; simpl; tauto].
  intros d Hd. apply (digit_cases d (λ c, f c = true)); [|done]. intros c Hc. apply Hf. apply list_elem_of_In in Hc.
  simpl in *. tauto.
Qed.

Lemma fmt_d_no_quote x : no_quote (fmt_d x) = true.
Proof. by apply fmt_d_bytes. Qed.

Lemma fmt_d_plain x : plain (fmt_d x) = true.
Proof.
  unfold plain. rewrite (fmt_d_no_quote x : all_bytes _ _ = true). simpl.
  apply String.eqb_eq. unfold TrimSpace, TrimFunc.
  rewrite trim_left_not, trim_right_not; [done|by apply fmt_d_bytes..].
Qed.

Lemma fmt_d_nonempty x : fmt_d x ≠ "".
Proof.
  intros H. assert (fits (Z.abs x + 65) x = true) as Hf.
  { unfold fits. apply andb_true_iff. rewrite Z.leb_le, Z.ltb_lt.
    pose proof (Z.pow_gt_lin_r 2 (Z.abs x + 65 - 1)). lia. }
  apply ParseInt_fmt_d in Hf. rewrite H in Hf. done.
Qed.

Lemma fmt_d_inj x y : fmt_d x = fmt_d y → x = y.
Proof. apply (inj pretty). Qed.

(** Two texts equal up to their first quote. *)
Lemma quote_split s s' x x' :
  no_quote s = true → no_quote s' = true →
  s +:+ String "'" x = s' +:+ String "'" x' → s = s' ∧ x = x'.
Proof.
  revert s'. induction s as [|c s IH]; intros s' Hs Hs' Heq.
  - destruct s' as [|d s']; [by injection Heq as <-|]. rewrite append_cons in Heq.
    simpl in Heq. injection Heq as <- _. done.
  - destruct s' as [|d s'].
    + rewrite append_cons in Heq. injection Heq as -> _. done.
    + rewrite !append_cons in Heq. injection Heq as <- Heq. simpl in Hs, Hs'.
      apply andb_true_iff in Hs as [_ Hs], Hs' as [_ Hs'].
      by destruct (IH s' Hs Hs' Heq) as [-> ->].
Qed.

(** ** Witnesses *)

Lemma command_roundtrip_witness :
  DecodeCommand (EncodeCommand "/opt/cloudland/scripts/launch_vm.sh" ["5"; ""; "a message"])
  = Some ("launch_vm", ["/opt/cloudland/scripts/launch_vm.sh"; "5"; ""; "a message"]).
Proof.
  exact (proj1 (command_roundtrip "/opt/cloudland/scripts/launch_vm.sh" ["5"; ""; "a message"]
           ltac:(done) eq_refl ltac:(repeat constructor) eq_refl)).
Defined.
