(* ===== verification/VolumeRpc.v ===== *)
(** * VolumeRpc: what the hypervisors report about volumes
      (rpcs/attach_volume.go, detach_volume.go, resize_volume.go, create_volume.go)

    A script on a hypervisor answers a command with a line of text; the words of
    that line are the arguments of a handler, the first of them the name of the
    script.  Every handler runs in a transaction of its own. *)

From S2P Require Import Prelude GoLib ErrorCodes Gorm Model Store Scenario Volume.

(** [type Command func(ctx, args) (string, error)] *)
Definition Handler {G : Gorm} : Type := list string → M string.

Section handlers.
Context {G : Gorm} {E : Env}.

Definition wrong_params : error := GoError "Wrong params".

(** [strconv.ParseInt(s, 10, 64)], the error prefixed as [fmt.Errorf] does. *)
Definition parse_volume_id (s : string) : M Z :=
  match ParseInt 64 s with
  | Some x => mret x
  | None => fail (GoError ("Invalid volume ID: strconv.ParseInt: parsing " +:+ s))
  end.

Definition attached_to (instanceID : Z) (target : string) (r : Volume.t) : Volume.t :=
  r <| Volume.InstanceID := instanceID |> <| Volume.Target := target |>
    <| Volume.Status := VolumeStatusAttached |>.

Definition AttachVolume : Handler := λ args,
  with_tx (
    if (length args <? 4)%nat then
      a2 ← arg args 2;
      volID ← parse_volume_id a2;
      volume ← db_get (R := Volume.t) volID;
      _ ← db_update (by_id (Volume.ID volume)) (λ r, r <| Volume.Status := VolumeStatusAvailable |>);
      mret ""
    else
      a1 ← arg args 1;
      instanceID ← parse_arg 64 a1;
      a2 ← arg args 2;
      volID ← parse_arg 64 a2;
      target ← arg args 3;
      volume ← db_get (R := Volume.t) volID;
      _ ← db_update (by_id (Volume.ID volume)) (attached_to instanceID target);
      mret "").

(** The columns a detach report writes: those of the struct after its status was
    set, the instance and the target blank when it is available again. *)
Definition detached (volume : Volume.t) (status : string) (r : Volume.t) : Volume.t :=
  let free := String.eqb status VolumeStatusAvailable in
  r <| Volume.InstanceID := if free then 0 else Volume.InstanceID volume |>
    <| Volume.Target := if free then "" else Volume.Target volume |>
    <| Volume.Status := status |>.

Definition DetachVolume : Handler := λ args,
  with_tx (
    _ ← require (negb (length args <? 4)%nat) wrong_params;
    a1 ← arg args 1;
    _ ← parse_arg 64 a1;
    a2 ← arg args 2;
    volID ← parse_arg 64 a2;
    volume ← db_get (R := Volume.t) volID;
    status ← arg args 3;
    _ ← db_update (by_id (Volume.ID volume)) (detached volume status);
    mret "").

Definition ResizeVolume : Handler := λ args,
  with_tx (
    _ ← require (negb (length args <? 3)%nat) wrong_params;
    a1 ← arg args 1;
    volID ← parse_arg 64 a1;
    volume ← db_get (R := Volume.t) volID;
    status ← arg args 2;
    let status :=
      if String.eqb status "error" then status
      else if Volume.InstanceID volume =? 0 then VolumeStatusAvailable else VolumeStatusAttached in
    _ ← db_update (of_volume volume) (λ r, r <| Volume.Status := status |>);
    mret status).

Definition updateInstance (volume : Volume.t) (status reason : string) : M unit :=
  GetContextDB (
    if Volume.Booting volume && String.eqb status "error" then
      instance ← db_get (R := Instance.t) (Volume.InstanceID volume);
      db_update (by_id (Instance.ID instance))
        (λ r, r <| Instance.Status := status |> <| Instance.Reason := reason |>)
    else mret tt).

(** [db.Model(&volume).Updates(..)] also assigns the fields of the struct. *)
Definition placed (path status : string) (r : Volume.t) : Volume.t :=
  r <| Volume.Path := path |> <| Volume.Status := status |>.

Definition CreateVolumeLocal : Handler := λ args,
  with_tx (
    _ ← require (negb (length args <? 5)%nat) wrong_params;
    a1 ← arg args 1;
    volID ← parse_arg 64 a1;
    volume ← db_get (R := Volume.t) volID;
    path ← arg args 2;
    status ← arg args 3;
    _ ← db_update (of_volume volume) (placed path status);
    reason ← arg args 4;
    _ ← updateInstance (placed path status volume) status reason;
    mret status).

Definition CreateVolumeWDSVhost : Handler := λ args,
  with_tx (
    _ ← require (negb (length args <? 5)%nat) wrong_params;
    a1 ← arg args 1;
    volID ← parse_arg 64 a1;
    volume ← db_get (R := Volume.t) volID;
    status ← arg args 2;
    path ← arg args 3;
    _ ← db_update (of_volume volume) (placed path status);
    let volume := placed path status volume in
    let poolID := Volume_GetVolumePoolID volume in
    _ ← (if String.eqb poolID "" then mret tt
         else db_update (of_volume volume) (λ r, r <| Volume.PoolID := poolID |>));
    reason ← arg args 4;
    _ ← updateInstance volume status reason;
    mret status).

End handlers.

#[local] Arguments updateInstance : simpl never.
#[local] Arguments Volume_GetVolumePoolID : simpl never.

(** ** Lemmas *)

Section handler_lemmas.
Context {G : Gorm} {E : Env} {GOk : GormOk G}.
Implicit Types (c : Ctx) (w : World).

Lemma ParseInt_id k : fits 64 k = true → ParseInt 64 (fmt_d k) = Some k.
Proof. apply ParseInt_fmt_d. Qed.

Lemma parse_volume_id_Ok s c w x w' :
  parse_volume_id s c w = (Ok x, w') ↔ ParseInt 64 s = Some x ∧ w = w'.
Proof.
  unfold parse_volume_id. destruct (ParseInt 64 s); [rewrite ret_Ok|rewrite fail_Ok];
    naive_solver.
Qed.

(** [taken k t r]: [db_get k] finds the row [r]. *)
Lemma get_row k (t : table Volume.t) r :
  k ≠ 0 → g_take (by_pk k) t = Some r → rows t !! k = Some r ∧ Volume.ID r = k.
Proof. intros Hk H. exact (take_pk_row k t r Hk H). Qed.

Lemma vol_update_key (t : table Volume.t) f k r :
  rows t !! k = Some r → keeps_id f → rows (g_update (by_id k) f t) = <[k := f r]> (rows t).
Proof. intros. by apply update_key. Qed.

Lemma vol_update_pk (t : table Volume.t) f k r :
  k ≠ 0 → rows t !! k = Some r → keeps_id f →
  rows (g_update (by_pk k) f t) = <[k := f r]> (rows t).
Proof. intros. by apply update_pk. Qed.

(** Takes apart a successful run of a handler on given words. *)
Ltac handler :=
  go_ok; simpl in *; go_ok;
  try match goal with
  | Hx : parse_volume_id _ _ _ = _ |- _ => apply parse_volume_id_Ok in Hx as [? ?]
  end;
  simpl in *; simplify_eq;
  repeat match goal with
  | Hx : ParseInt 64 (fmt_d _) = Some _ |- _ => rewrite ParseInt_id in Hx by done; simplify_eq
  end;
  try match goal with
  | Hx : g_take (by_pk _) _ = Some _ |- _ => apply get_row in Hx as [Hrow Hkey]; [|done]
  end;
  flat; simpl in *.

(** The effect of a report on the row [k]: it becomes [f] of itself. *)
Definition reported k (f : Volume.t → Volume.t) w w' : Prop :=
  ∃ r, rows (volumes (db w)) !! k = Some r ∧
    rows (volumes (db w')) = <[k := f r]> (rows (volumes (db w))) ∧ sent w' = sent w.

Lemma AttachVolume_fail_Ok name k c w s w' :
  k ≠ 0 → fits 64 k = true →
  AttachVolume [name; ""; fmt_d k] c w = (Ok s, w') →
  reported k (λ r, r <| Volume.Status := VolumeStatusAvailable |>) w w'.
Proof.
  intros Hk Hf H. unfold AttachVolume in H. handler. eexists. split_and!; [done| |done].
  match goal with Hx : db w' = _ |- _ => rewrite Hx end. simpl. rewrite Hkey.
  by apply update_key.
Qed.

Lemma AttachVolume_Ok name i k target c w s w' :
  k ≠ 0 → fits 64 k = true → fits 64 i = true →
  AttachVolume [name; fmt_d i; fmt_d k; target] c w = (Ok s, w') →
  reported k (attached_to i target) w w'.
Proof.
  intros Hk Hf Hi H. unfold AttachVolume in H. handler. eexists. split_and!; [done| |done].
  match goal with Hx : db w' = _ |- _ => rewrite Hx end. simpl. rewrite Hkey.
  by apply update_key.
Qed.

Lemma DetachVolume_Ok name i k st c w s w' :
  k ≠ 0 → fits 64 k = true → fits 64 i = true →
  DetachVolume [name; fmt_d i; fmt_d k; st] c w = (Ok s, w') →
  reported k (λ r, detached r st r) w w'.
Proof.
  intros Hk Hf Hi H. unfold DetachVolume in H. handler. eexists. split_and!; [done| |done].
  match goal with Hx : db w' = _ |- _ => rewrite Hx end. simpl. rewrite Hkey.
  by rewrite (vol_update_key _ _ _ _ Hrow).
Qed.

(** The status a resize report leads to. *)
Definition resize_status (st : string) (r : Volume.t) : string :=
  if String.eqb st "error" then st
  else if Volume.InstanceID r =? 0 then VolumeStatusAvailable else VolumeStatusAttached.

Lemma ResizeVolume_Ok name k st c w s w' :
  k ≠ 0 → fits 64 k = true →
  ResizeVolume [name; fmt_d k; st] c w = (Ok s, w') →
  reported k (λ r, r <| Volume.Status := resize_status st r |>) w w'.
Proof.
  intros Hk Hf H. unfold ResizeVolume in H. handler. eexists. split_and!; [done| |done].
  match goal with Hx : db w' = _ |- _ => rewrite Hx end. simpl. unfold of_volume. rewrite Hkey.
  by rewrite (vol_update_pk _ _ _ _ Hk Hrow).
Qed.

Lemma updateInstance_volumes v st reason c w u w' :
  updateInstance v st reason c w = (Ok u, w') →
  volumes (db w') = volumes (db w) ∧ sent w' = sent w.
Proof. unfold updateInstance. intros H. go_ok. case_match; go_ok; flat; done. Qed.

Lemma CreateVolumeLocal_Ok name k path st reason c w s w' :
  k ≠ 0 → fits 64 k = true →
  CreateVolumeLocal [name; fmt_d k; path; st; reason] c w = (Ok s, w') →
  reported k (placed path st) w w'.
Proof.
  intros Hk Hf H. unfold CreateVolumeLocal in H. handler.
  match goal with Hx : updateInstance _ _ _ _ _ = _ |- _ =>
    apply updateInstance_volumes in Hx as [Hv Hs] end.
  unfold reported. rewrite Hv, Hs. eexists. split_and!; [done| |done].
  match goal with Hx : db ?x = _ |- context [db ?x] => rewrite Hx end. simpl.
  unfold of_volume. rewrite Hkey. by rewrite (vol_update_pk _ _ _ _ Hk Hrow).
Qed.

(** The pool is taken from the path when the path has one. *)
Definition placed_wds (path st : string) (r : Volume.t) : Volume.t :=
  let r := placed path st r in
  let pool := Volume_GetVolumePoolID r in
  if String.eqb pool "" then r else r <| Volume.PoolID := pool |>.

Lemma CreateVolumeWDSVhost_Ok name k st path reason c w s w' :
  k ≠ 0 → fits 64 k = true →
  CreateVolumeWDSVhost [name; fmt_d k; st; path; reason] c w = (Ok s, w') →
  reported k (placed_wds path st) w w'.
Proof.
  intros Hk Hf H. unfold CreateVolumeWDSVhost in H. handler.
  match goal with Hx : updateInstance _ _ _ _ _ = _ |- _ =>
    apply updateInstance_volumes in Hx as [Hv Hs] end.
  unfold reported. rewrite Hv, Hs. eexists. split; [exact Hrow|].
  unfold of_volume in *. simpl in *. rewrite Hkey in *.
  match goal with |- context [placed_wds ?p ?st] =>
    assert (Hput := vol_update_pk _ (placed p st) _ _ Hk Hrow ltac:(done)) end.
  case_match eqn:Hpool; go_ok; flat; unfold placed_wds; rewrite Hpool; (split; [|done]); simpl; [exact Hput|].
  erewrite vol_update_pk; [by rewrite Hput, insert_insert_eq|done| |done].
  by rewrite Hput, lookup_insert_eq.
Qed.

(** No word list the scripts send makes a handler read beyond it. *)
Lemma arg_no_panic args i : (i < length args)%nat → no_panic (arg args i).
Proof.
  intros Hi. unfold arg. destruct (lookup_lt_is_Some_2 args i Hi) as [x ->]. apply np_ret.
Qed.

End handler_lemmas.

Section handler_theorems.
Context {G : Gorm} {E : Env} {GOk : GormOk G}.
Implicit Types (c : Ctx) (w : World).

(** What a request without a database handle leaves behind when a handler does
    not succeed: nothing. *)
Lemma handler_not_Ok (m : M string) c w :
  dbkey c = false → no_panic m →
  match with_tx m c w with (Ok _, _) => True | (Err _, w') => db w' = db w | (Panic, _) => False end.
Proof.
  intros Hk Hn. destruct (with_tx m c w) as [[s|e|] w'] eqn:H; [done|by eapply with_tx_Err|].
  apply with_tx_Panic in H. exact (np_refute _ _ _ _ Hn H).
Qed.

Definition all_or_nothing (f : Volume.t → Volume.t) k c w (r : Res string * World) : Prop :=
  match r with
  | (Ok _, w') => reported k f w w'
  | (Err _, w') => db w' = db w
  | (Panic, _) => False
  end.

Ltac np_args := repeat (np_step || (apply arg_no_panic; simpl; lia)).

(** [aon h Ok]: the handler [h] is all or nothing, [Ok] tells what all is. *)
Ltac aon h HOk :=
  let H := fresh in
  pose proof HOk as H; unfold all_or_nothing; unfold h in *;
  match goal with Hc : dbkey ?c = false |- context [with_tx ?m ?c ?w] =>
    let HN := fresh in
    pose proof (handler_not_Ok m c w Hc) as HN; destruct (with_tx m c w) as [[?|?|] ?];
    [by eapply H|apply HN|apply HN]; simpl; unfold parse_volume_id, updateInstance; np_args
  end.

Lemma AttachVolume_fail_spec name k c w :
  k ≠ 0 → fits 64 k = true → dbkey c = false →
  all_or_nothing (λ r, r <| Volume.Status := VolumeStatusAvailable |>) k c w
    (AttachVolume [name; ""; fmt_d k] c w).
Proof. intros Hk Hf Hc. aon @AttachVolume (AttachVolume_fail_Ok name k c w). Qed.

Lemma AttachVolume_spec name i k target c w :
  k ≠ 0 → fits 64 k = true → fits 64 i = true → dbkey c = false →
  all_or_nothing (attached_to i target) k c w
    (AttachVolume [name; fmt_d i; fmt_d k; target] c w).
Proof. intros Hk Hf Hi Hc. aon @AttachVolume (AttachVolume_Ok name i k target c w). Qed.

Lemma DetachVolume_spec name i k st c w :
  k ≠ 0 → fits 64 k = true → fits 64 i = true → dbkey c = false →
  all_or_nothing (λ r, detached r st r) k c w
    (DetachVolume [name; fmt_d i; fmt_d k; st] c w).
Proof. intros Hk Hf Hi Hc. aon @DetachVolume (DetachVolume_Ok name i k st c w). Qed.

Lemma ResizeVolume_spec name k st c w :
  k ≠ 0 → fits 64 k = true → dbkey c = false →
  all_or_nothing (λ r, r <| Volume.Status := resize_status st r |>) k c w
    (ResizeVolume [name; fmt_d k; st] c w).
Proof. intros Hk Hf Hc. aon @ResizeVolume (ResizeVolume_Ok name k st c w). Qed.

Lemma CreateVolumeLocal_spec name k path st reason c w :
  k ≠ 0 → fits 64 k = true → dbkey c = false →
  all_or_nothing (placed path st) k c w
    (CreateVolumeLocal [name; fmt_d k; path; st; reason] c w).
Proof.
  intros Hk Hf Hc. aon @CreateVolumeLocal (CreateVolumeLocal_Ok name k path st reason c w).
Qed.

Lemma CreateVolumeWDSVhost_spec name k st path reason c w :
  k ≠ 0 → fits 64 k = true → dbkey c = false →
  all_or_nothing (placed_wds path st) k c w
    (CreateVolumeWDSVhost [name; fmt_d k; st; path; reason] c w).
Proof.
  intros Hk Hf Hc. aon @CreateVolumeWDSVhost (CreateVolumeWDSVhost_Ok name k st path reason c w).
Qed.

(** A report on an attach, whether it succeeded or failed, and one on a
    detach, change exactly one row, the volume they name, or nothing, and never
    panic: a successful attach records the instance and the target and sets the
    volume attached; a failed attach sets it available again; a detach report
    clears the instance and the target exactly when the reported status is
    available, and records that status otherwise. *)
Theorem attach_detach_reports name i k x c w :
  k ≠ 0 → fits 64 k = true → fits 64 i = true → dbkey c = false →
  all_or_nothing (attached_to i x) k c w (AttachVolume [name; fmt_d i; fmt_d k; x] c w) ∧
  all_or_nothing (λ r, r <| Volume.Status := VolumeStatusAvailable |>) k c w
    (AttachVolume [name; ""; fmt_d k] c w) ∧
  all_or_nothing (λ r, detached r x r) k c w (DetachVolume [name; fmt_d i; fmt_d k; x] c w).
Proof.
  intros. split_and!; [by apply AttachVolume_spec|by apply AttachVolume_fail_spec|
    by apply DetachVolume_spec].
Qed.

(** [AttachVolume] reads its third word before it knows that there is one:
    a report of fewer than three words makes it panic. *)
Theorem attach_short_report_panics args c w :
  (length args < 3)%nat → (AttachVolume args c w).1 = Panic.
Proof.
  intros Hl. unfold AttachVolume, with_tx.
  assert ((length args <? 4)%nat = true) as -> by (apply Nat.ltb_lt; lia).
  unfold arg. rewrite lookup_ge_None_2 by lia. by destruct (dbkey c).
Qed.

End handler_theorems.

(** ** Witnesses *)

Module VolumeRpcWitness.
Import Scenario.
#[local] Existing Instance MemGorm.
#[local] Existing Instance MemGormOk.
#[local] Existing Instance env.

Lemma attach_detach_reports_witness :
  ∃ s w', AttachVolume ["attach_volume_local.sh"; fmt_d 5; fmt_d 7; "vdb"] background world
            = (Ok s, w') ∧ reported 7 (attached_to 5 "vdb") world w'.
Proof.
  destruct (attach_detach_reports "attach_volume_local.sh" 5 7 "vdb" background world
              ltac:(done) eq_refl eq_refl eq_refl) as (Ha & _ & _).
  run_ok (AttachVolume ["attach_volume_local.sh"; fmt_d 5; fmt_d 7; "vdb"] background world)
    s w' Hrun.
  rewrite Hrun in Ha. eauto.
Defined.

Lemma attach_short_report_panics_witness :
  (AttachVolume ["attach_volume_local.sh"; "7"] background world).1 = Panic.
Proof.
  apply (attach_short_report_panics ["attach_volume_local.sh"; "7"] background world).
  simpl. lia.
Defined.

End VolumeRpcWitness.
