(* ===== verification/Dispatch.v ===== *)
(** * Dispatch: from a reported line to its handler (rpcs/frontback.go)

    The registry of handlers is a map from command names; [Add] and [Get] are
    guarded by a lock, so they are single steps here.  A line reported by a
    hypervisor is decoded and given to the handler its name selects. *)

From S2P Require Import Prelude GoLib ErrorCodes Gorm Model Store Scenario Volume Commands VolumeRpc.

Section dispatch.
Context {G : Gorm} {E : Env}.

Definition Registry : Type := gmap string Handler.

Definition Add (name : string) (command : Handler) (frontbacks : Registry) : Registry :=
  <[name := command]> frontbacks.

Definition Get (name : string) (frontbacks : Registry) : option Handler := frontbacks !! name.

Definition dispatchExecute (frontbacks : Registry) (cmd : string) (args : list string)
    : M string :=
  match Get cmd frontbacks with
  | Some command => command args
  | None => fail (GoError ("no command " +:+ cmd +:+ " found"))
  end.

(** The last branch of [doExecute]: the line of a hypervisor that is neither an
    agent's call nor a resource error. *)
Definition executeLine (frontbacks : Registry) (command : string) : M string :=
  match DecodeCommand command with
  | Some (cmd, args) => if String.eqb cmd "" then mret "" else dispatchExecute frontbacks cmd args
  | None => mret ""
  end.

(** The registrations of the files of [VolumeRpc]. *)
Definition add_attach_volume (f : Registry) : Registry :=
  Add "attach_volume_wds_vhost" AttachVolume (Add "attach_volume_local" AttachVolume f).
Definition add_detach_volume (f : Registry) : Registry :=
  Add "detach_volume_wds_vhost" DetachVolume (Add "detach_volume_local" DetachVolume f).
Definition add_resize_volume (f : Registry) : Registry := Add "resize_volume" ResizeVolume f.
Definition add_create_volume (f : Registry) : Registry :=
  Add "create_volume_wds_vhost" CreateVolumeWDSVhost
    (Add "create_volume_local" CreateVolumeLocal f).

(** A registry that holds the handlers of volumes, whatever else it holds. *)
Record volume_registry (f : Registry) : Prop := {
  reg_attach s : s ∈ ["local"; "wds_vhost"] → f !! ("attach_volume_" +:+ s) = Some AttachVolume;
  reg_detach s : s ∈ ["local"; "wds_vhost"] → f !! ("detach_volume_" +:+ s) = Some DetachVolume;
  reg_resize : f !! "resize_volume" = Some ResizeVolume;
  reg_local : f !! "create_volume_local" = Some CreateVolumeLocal;
  reg_wds : f !! "create_volume_wds_vhost" = Some CreateVolumeWDSVhost
}.

Definition volume_frontbacks : Registry :=
  add_resize_volume (add_detach_volume (add_create_volume (add_attach_volume ∅))).

Lemma volume_frontbacks_ok : volume_registry volume_frontbacks.
Proof.
  split; [intros s Hs; repeat (apply elem_of_cons in Hs as [->|Hs]; [reflexivity|]);
          by apply elem_of_nil in Hs..|reflexivity|reflexivity|reflexivity].
Qed.

(** A line with plain arguments reaches the handler of its command with the words
    of the line. *)
Lemma executeLine_plain f name cmd args (h : Handler) c w :
  f !! cmd = Some h → parseCommand name = cmd → cmd ≠ "" →
  name ≠ "" → plain name = true → Forall (λ a, plain a = true) args → ends_well args = true →
  executeLine f (EncodeCommand name args) c w = h (name :: args) c w.
Proof.
  intros Hf Hcmd Hne ? ? ? ?. unfold executeLine. rewrite DecodeCommand_EncodeCommand by done.
  rewrite Hcmd, (proj2 (String.eqb_neq _ _) Hne). unfold dispatchExecute, Get.
  by rewrite Hf.
Qed.

End dispatch.
