(* ===== verification/Lifecycle.v ===== *)
(** * Lifecycle: volumes between the web server and the hypervisors

    The operations of [Volume.v] ask hypervisors to create, attach, detach and
    resize volumes; the handlers of [VolumeRpc.v] record what the hypervisors
    report later.  Here the two are put together: a system of one database and a
    set of requests that were delivered and not yet answered, with the steps of
    both sides in any order.  The abstract specification is the life cycle of
    one volume; the theorem is that every run of the system keeps every volume in
    it, provided that a request that fails has delivered nothing.  The last
    theorem shows that the proviso is needed. *)

From S2P Require Import Prelude GoLib ErrorCodes Gorm Model Store Scenario Volume Commands VolumeRpc Dispatch.

(** ** Specification: the life of one volume

    The number is the instance the volume belongs to, 0 for none. *)

Inductive Life :=
  | Absent
  | Pending (i : Z)
  | Available
  | Attaching
  | Attached (i : Z)
  | Detaching (i : Z)
  | Resizing (i : Z)
  | Failed (i : Z)
  | Saving (i : Z).   (* a backup or a restore is running *)

Inductive live : Life → Life → Prop :=
  | live_create : live Absent (Pending 0)
  | live_created : live (Pending 0) Available
  | live_create_failed : live (Pending 0) (Failed 0)
  | live_attach : live Available Attaching
  | live_attached i : i ≠ 0 → live Attaching (Attached i)
  | live_attach_failed : live Attaching Available
  | live_detach i : live (Attached i) (Detaching i)
  | live_detached i : live (Detaching i) Available
  | live_detach_failed i : live (Detaching i) (Attached i)
  | live_resize_free : live Available (Resizing 0)
  | live_resize i : live (Attached i) (Resizing i)
  | live_resized_free : live (Resizing 0) Available
  | live_resized i : i ≠ 0 → live (Resizing i) (Attached i)
  | live_resize_failed i : live (Resizing i) (Failed i)
  | live_delete : live Available Absent
  | live_delete_failed i : live (Failed i) Absent.

(** Where a row is in its life; [None] for a combination of status and instance
    that has no place in it. *)
Definition life_of (v : Volume.t) : option Life :=
  let i := Volume.InstanceID v in
  let st := Volume.Status v in
  if String.eqb st VolumeStatusPending then Some (Pending i)
  else if String.eqb st VolumeStatusAvailable then if i =? 0 then Some Available else None
  else if String.eqb st VolumeStatusAttaching then if i =? 0 then Some Attaching else None
  else if String.eqb st VolumeStatusAttached then if i =? 0 then None else Some (Attached i)
  else if String.eqb st VolumeStatusDetaching then if i =? 0 then None else Some (Detaching i)
  else if String.eqb st VolumeStatusResizing then Some (Resizing i)
  else if String.eqb st VolumeStatusError then Some (Failed i)
  else if String.eqb st VolumeStatusRestoring || String.eqb st VolumeStatusBackuping
       then Some (Saving i)
  else None.

Definition life (o : option Volume.t) : option Life :=
  match o with Some v => life_of v | None => Some Absent end.

(** ** The requests in flight *)

Inductive Request :=
  | ReqCreate (k : Z)
  | ReqAttach (i k : Z)
  | ReqDetach (i k : Z)
  | ReqResize (k : Z).

Definition volume_of (q : Request) : Z :=
  match q with ReqCreate k | ReqAttach _ k | ReqDetach _ k | ReqResize k => k end.

Definition fits_request (q : Request) : bool :=
  match q with
  | ReqCreate k | ReqResize k => fits 64 k
  | ReqAttach i k | ReqDetach i k => fits 64 i && fits 64 k
  end.

(** The state in which a volume waits for the answer to a request. *)
Inductive expects : Request → Life → Prop :=
  | exp_create k : expects (ReqCreate k) (Pending 0)
  | exp_attach i k : i ≠ 0 → expects (ReqAttach i k) Attaching
  | exp_detach i k : expects (ReqDetach i k) (Detaching i)
  | exp_resize k i : expects (ReqResize k) (Resizing i).

Section requests.
Context {E : Env}.

(** The request a command text stands for. *)
Inductive request_of : string → Request → Prop :=
  | rq_create v il ib bl bb p :
      request_of (create_volume_command v il ib bl bb p) (ReqCreate (Volume.ID v))
  | rq_attach inst v :
      request_of (attach_command inst v) (ReqAttach (Instance.ID inst) (Volume.ID v))
  | rq_detach inst v :
      request_of (detach_command inst v) (ReqDetach (Instance.ID inst) (Volume.ID v))
  | rq_resize v size : request_of (resize_command v size) (ReqResize (Volume.ID v)).

(** The requests among the commands posted. *)
Inductive posts : list (string * string) → list Request → Prop :=
  | posts_nil : posts [] []
  | posts_request control cmd q l qs :
      request_of cmd q → posts l qs → posts ((control, cmd) :: l) (q :: qs)
  | posts_other control cmd l qs :
      (∀ q, ¬ request_of cmd q) → posts l qs → posts ((control, cmd) :: l) qs.

End requests.

(** The lines the scripts report about a request. *)
Definition drivers : list string := ["local"; "wds_vhost"].

Inductive answers : Request → string → Prop :=
  | ans_create_local k path st reason :
      plain path = true → st ∈ [VolumeStatusAvailable; VolumeStatusError] →
      plain reason = true → reason ≠ "" →
      answers (ReqCreate k)
        (EncodeCommand "create_volume_local.sh" [fmt_d k; path; st; reason])
  | ans_create_wds k path st reason :
      plain path = true → st ∈ [VolumeStatusAvailable; VolumeStatusError] →
      plain reason = true → reason ≠ "" →
      answers (ReqCreate k)
        (EncodeCommand "create_volume_wds_vhost.sh" [fmt_d k; st; path; reason])
  | ans_attach driver i k target :
      driver ∈ drivers → plain target = true → target ≠ "" →
      answers (ReqAttach i k)
        (EncodeCommand ("attach_volume_" +:+ driver +:+ ".sh") [fmt_d i; fmt_d k; target])
  | ans_attach_failed driver i k :
      driver ∈ drivers →
      answers (ReqAttach i k)
        (EncodeCommand ("attach_volume_" +:+ driver +:+ ".sh") [""; fmt_d k; ""])
  | ans_detach driver i k st :
      driver ∈ drivers → st ∈ [VolumeStatusAvailable; VolumeStatusAttached] →
      answers (ReqDetach i k)
        (EncodeCommand ("detach_volume_" +:+ driver +:+ ".sh") [fmt_d i; fmt_d k; st])
  | ans_resize k st :
      st ∈ ["success"; "error"] →
      answers (ReqResize k) (EncodeCommand "resize_volume" [fmt_d k; st]).

(** ** The system *)

Section system.
Context {G : Gorm} {E : Env}.
Variable frontbacks : Registry.

Record Sys := mkSys { world : World; net : list Request }.

(** A request that returned an error has delivered nothing. *)
Definition fail_stop {A} (r : Res A) (w w' : World) : Prop :=
  match r with Ok _ => True | _ => sent w' = sent w end.

(** The outcome of a request of a user: what it posted is in flight. *)
Definition requested {A} (m : M A) (c : Ctx) (s s' : Sys) : Prop :=
  dbkey c = false ∧
  ∃ r new qs, m c (world s) = (r, world s') ∧ fail_stop r (world s) (world s') ∧
    sent (world s') = sent (world s) ++ new ∧ posts new qs ∧ net s' = net s ++ qs.

Inductive step : Sys → Sys → Prop :=
  | step_create c name size il ib bl bb pool s s' :
      requested (VolumeAdmin_Create name size il ib bl bb pool) c s s' → step s s'
  | step_update c id name instID s s' :
      id ≠ 0 → requested (VolumeAdmin_Update id name instID) c s s' → step s s'
  | step_resize c v r size s s' :
      rows (volumes (db (world s))) !! Volume.ID v = Some r → is_row v r →
      requested (VolumeAdmin_Resize v size) c s s' → step s s'
  | step_delete c v r s s' :
      rows (volumes (db (world s))) !! Volume.ID v = Some r → is_row v r →
      requested (VolumeAdmin_Delete v) c s s' → step s s'
  | step_report c l1 q l2 line r w w' :
      answers q line → fits_request q = true → dbkey c = false →
      executeLine frontbacks line c w = (r, w') →
      step (mkSys w (l1 ++ q :: l2)) (mkSys w' (l1 ++ l2)).

Inductive steps (s : Sys) : Sys → Prop :=
  | steps_refl : steps s s
  | steps_step s1 s2 : steps s s1 → step s1 s2 → steps s s2.

Definition vols (s : Sys) : gmap Z Volume.t := rows (volumes (db (world s))).

(** Every volume is in its life, every request in flight is the only one about
    its volume, which waits for the answer. *)
Record Inv (s : Sys) : Prop := {
  inv_life k : is_Some (life (vols s !! k));
  inv_zero : vols s !! 0 = None;
  inv_net q : q ∈ net s → ∃ l, life (vols s !! volume_of q) = Some l ∧ expects q l;
  inv_one : NoDup (map volume_of (net s))
}.

(** The volume [k] stays where it is or moves along its life. *)
Definition moves (s s' : Sys) (k : Z) : Prop :=
  ∃ a b, life (vols s !! k) = Some a ∧ life (vols s' !! k) = Some b ∧ (a = b ∨ live a b).

End system.

(** ** Command texts determine their request *)

Section texts.
Context {E : Env}.

(** The two letters after the directory of the scripts tell the commands
    apart. *)
Definition kind (cmd : string) : string := String.substring 31 2 cmd.

Lemma kind_create v il ib bl bb p : kind (create_volume_command v il ib bl bb p) = "cr".
Proof. reflexivity. Qed.
Lemma kind_attach i v : kind (attach_command i v) = "at".
Proof. reflexivity. Qed.
Lemma kind_detach i v : kind (detach_command i v) = "de".
Proof. reflexivity. Qed.
Lemma kind_resize v size : kind (resize_command v size) = "re".
Proof. reflexivity. Qed.
Lemma kind_clear v : kind (clear_command v) = "cl".
Proof. reflexivity. Qed.

(** Printed numbers up to the first quote are equal. *)
Lemma printed_inj x y t u :
  fmt_d x +:+ String "'" t = fmt_d y +:+ String "'" u → x = y ∧ t = u.
Proof.
  intros H. apply quote_split in H as [H ->]; [|apply fmt_d_no_quote..].
  by apply fmt_d_inj in H.
Qed.

Ltac peel H := repeat (apply (inj (String.append _)) in H).

Lemma create_command_inj v v' il ib bl bb p il' ib' bl' bb' p' :
  create_volume_command v il ib bl bb p = create_volume_command v' il' ib' bl' bb' p' →
  Volume.ID v = Volume.ID v'.
Proof. unfold create_volume_command. intros H. peel H. by apply printed_inj in H as [? _]. Qed.

Lemma resize_command_inj v v' size size' :
  resize_command v size = resize_command v' size' → Volume.ID v = Volume.ID v'.
Proof. unfold resize_command. intros H. peel H. by apply printed_inj in H as [? _]. Qed.

Lemma two_ids_inj x y x' y' t t' :
  fmt_d x +:+ "' '" +:+ fmt_d y +:+ "' '" +:+ t = fmt_d x' +:+ "' '" +:+ fmt_d y' +:+ "' '" +:+ t' →
  x = x' ∧ y = y'.
Proof.
  intros H. apply printed_inj in H as [Hx H]. injection H as H.
  apply printed_inj in H as [Hy _]. done.
Qed.

Lemma attach_command_inj i v i' v' :
  attach_command i v = attach_command i' v' →
  Instance.ID i = Instance.ID i' ∧ Volume.ID v = Volume.ID v'.
Proof. unfold attach_command. intros H. peel H. by apply two_ids_inj in H. Qed.

Lemma detach_command_inj i v i' v' :
  detach_command i v = detach_command i' v' →
  Instance.ID i = Instance.ID i' ∧ Volume.ID v = Volume.ID v'.
Proof. unfold detach_command. intros H. peel H. by apply two_ids_inj in H. Qed.

Lemma request_of_eq cmd cmd' q q' :
  request_of cmd q → request_of cmd' q' → cmd = cmd' → q = q'.
Proof.
  intros [] []; intros Heq;
    try (apply (f_equal kind) in Heq; vm_compute in Heq; discriminate).
  - by apply create_command_inj in Heq as ->.
  - by apply attach_command_inj in Heq as [-> ->].
  - by apply detach_command_inj in Heq as [-> ->].
  - by apply resize_command_inj in Heq as ->.
Qed.

Lemma clear_no_request v cmd q : request_of cmd q → cmd ≠ clear_command v.
Proof.
  intros [] Heq; apply (f_equal kind) in Heq; vm_compute in Heq; discriminate.
Qed.

Lemma posts_one control cmd q qs :
  request_of cmd q → posts [(control, cmd)] qs → qs = [q].
Proof.
  intros Hq H. inversion H as [|? ? q' ? qs' Hq' Hn|? ? ? ? Hno Hn]; subst;
    [|by destruct (Hno q)].
  inversion Hn; subst. by rewrite (request_of_eq _ _ _ _ Hq' Hq eq_refl).
Qed.

Lemma posts_none qs : posts [] qs → qs = [].
Proof. by inversion 1. Qed.

Lemma posts_clear control v qs : posts [(control, clear_command v)] qs → qs = [].
Proof.
  intros H. inversion H as [|? ? q' ? qs' Hq' Hn|? ? ? ? Hno Hn]; subst.
  - by destruct (clear_no_request v _ _ Hq').
  - by apply posts_none.
Qed.

End texts.

(** ** The invariant *)

Definition idle (l : Life) : bool :=
  match l with Absent | Available | Attached _ | Failed _ => true | _ => false end.

Lemma expects_idle q l : expects q l → idle l = false.
Proof. by destruct 1. Qed.

Section invariant.
Context {G : Gorm} {E : Env} {GOk : GormOk G}.
Implicit Types (s : Sys) (k : Z) (v : Volume.t).

(** What a step must achieve. *)
Definition good s s' : Prop := Inv s' ∧ ∀ k, moves s s' k.

(** No request is in flight about a volume that waits for nothing. *)
Lemma idle_not_in_flight s k l :
  Inv s → life (vols s !! k) = Some l → idle l = true → k ∉ map volume_of (net s).
Proof.
  intros HI Hl Hi Hin. apply list_elem_of_fmap in Hin as (q & -> & Hq).
  destruct (inv_net s HI q Hq) as (l' & Hl' & He%expects_idle). simplify_eq. congruence.
Qed.

Lemma moves_same s s' k : Inv s → vols s' !! k = vols s !! k → moves s s' k.
Proof.
  intros HI Hk. destruct (inv_life s HI k) as [a Ha]. exists a, a. rewrite Hk. auto.
Qed.

Lemma good_same s s' : Inv s → vols s' = vols s → net s' = net s → good s s'.
Proof.
  intros HI Hv Hn. split; [|intros k; apply moves_same; [done|by rewrite Hv]].
  destruct HI. split; rewrite ?Hv, ?Hn; auto.
Qed.

(** The requests about other volumes are not concerned by a change of the
    volume [k]. *)
Lemma inv_net_other s s' k q :
  Inv s → (∀ j, j ≠ k → vols s' !! j = vols s !! j) → q ∈ net s → volume_of q ≠ k →
  ∃ l, life (vols s' !! volume_of q) = Some l ∧ expects q l.
Proof. intros HI Hf Hq Hk. rewrite Hf by done. by apply inv_net. Qed.

(** A volume that waits for nothing moves, with at most one request. *)
Lemma good_put s s' k v' l l' qs :
  Inv s → k ≠ 0 → life (vols s !! k) = Some l → idle l = true → life_of v' = Some l' →
  live l l' → vols s' = <[k := v']> (vols s) → net s' = net s ++ qs →
  qs = [] ∨ (∃ q, qs = [q] ∧ volume_of q = k ∧ expects q l') → good s s'.
Proof.
  intros HI Hk Hl Hi Hl' Hlive Hv Hn Hqs.
  pose proof (idle_not_in_flight s k l HI Hl Hi) as Hnot.
  assert (∀ j, j ≠ k → vols s' !! j = vols s !! j) as Hf.
  { intros j Hj. by rewrite Hv, lookup_insert_ne. }
  assert (life (vols s' !! k) = Some l') as Hkl by (by rewrite Hv, lookup_insert_eq).
  split; [split|].
  - intros j. destruct (decide (j = k)) as [->|Hj]; [by rewrite Hkl|].
    rewrite Hf by done. by apply inv_life.
  - rewrite Hf by done. by apply inv_zero.
  - intros q. rewrite Hn, elem_of_app. intros [Hq|Hq].
    + eapply inv_net_other; [done..|]. intros <-. apply Hnot. by apply list_elem_of_fmap_2.
    + destruct Hqs as [->|(q' & -> & Hvq & He)]; [by apply elem_of_nil in Hq|].
      apply list_elem_of_singleton in Hq as ->. rewrite Hvq. eauto.
  - rewrite Hn, map_app. destruct Hqs as [->|(q' & -> & <- & _)].
    + rewrite app_nil_r. by apply inv_one.
    + apply NoDup_app. split_and!; [by apply inv_one| |apply NoDup_singleton].
      intros x Hx Hx'%list_elem_of_singleton. by subst.
  - intros j. destruct (decide (j = k)) as [->|Hj]; [|apply moves_same; auto].
    exists l, l'. auto.
Qed.

(** A volume is rewritten without moving. *)
Lemma good_rewrite s s' k v v' :
  Inv s → k ≠ 0 → vols s !! k = Some v → life_of v' = life_of v →
  vols s' = <[k := v']> (vols s) → net s' = net s → good s s'.
Proof.
  intros HI Hk Hrow Hl Hv Hn.
  assert (∀ j, life (vols s' !! j) = life (vols s !! j)) as Hsame.
  { intros j. rewrite Hv. destruct (decide (j = k)) as [->|Hj].
    - by rewrite lookup_insert_eq, Hrow.
    - by rewrite lookup_insert_ne. }
  split; [split|].
  - intros j. rewrite Hsame. by apply inv_life.
  - rewrite Hv, lookup_insert_ne by done. by apply inv_zero.
  - intros q. rewrite Hn, Hsame. by apply inv_net.
  - rewrite Hn. by apply inv_one.
  - intros j. destruct (inv_life s HI j) as [a Ha]. exists a, a. rewrite Hsame. auto.
Qed.

(** A volume that waits for nothing is deleted. *)
Lemma good_delete s s' k l :
  Inv s → life (vols s !! k) = Some l → idle l = true → live l Absent →
  vols s' = delete k (vols s) → net s' = net s → good s s'.
Proof.
  intros HI Hl Hi Hlive Hv Hn.
  pose proof (idle_not_in_flight s k l HI Hl Hi) as Hnot.
  assert (∀ j, j ≠ k → vols s' !! j = vols s !! j) as Hf.
  { intros j Hj. by rewrite Hv, lookup_delete_ne. }
  assert (life (vols s' !! k) = Some Absent) as Hkl by (by rewrite Hv, lookup_delete_eq).
  split; [split|].
  - intros j. destruct (decide (j = k)) as [->|Hj]; [by rewrite Hkl|].
    rewrite Hf by done. by apply inv_life.
  - rewrite Hv. apply lookup_delete_None. right. by apply inv_zero.
  - intros q. rewrite Hn. intros Hq. eapply inv_net_other; [done..|].
    intros <-. apply Hnot. by apply list_elem_of_fmap_2.
  - rewrite Hn. by apply inv_one.
  - intros j. destruct (decide (j = k)) as [->|Hj]; [|apply moves_same; auto].
    exists l, Absent. auto.
Qed.

(** The answer to a request moves the volume that waits for it. *)
Lemma good_answer w w' l1 q l2 v' l l' :
  Inv (mkSys w (l1 ++ q :: l2)) → volume_of q ≠ 0 →
  life (rows (volumes (db w)) !! volume_of q) = Some l → life_of v' = Some l' → live l l' →
  rows (volumes (db w')) = <[volume_of q := v']> (rows (volumes (db w))) →
  good (mkSys w (l1 ++ q :: l2)) (mkSys w' (l1 ++ l2)).
Proof.
  intros HI Hk Hl Hl' Hlive Hv.
  set (s := mkSys w (l1 ++ q :: l2)) in *. set (s' := mkSys w' (l1 ++ l2)).
  assert (∀ j, j ≠ volume_of q → vols s' !! j = vols s !! j) as Hf.
  { intros j Hj. unfold vols. simpl. by rewrite Hv, lookup_insert_ne. }
  assert (life (vols s' !! volume_of q) = Some l') as Hkl.
  { unfold vols. simpl. by rewrite Hv, lookup_insert_eq. }
  pose proof (inv_one s HI) as Hnd. simpl in Hnd. rewrite map_app in Hnd. simpl in Hnd.
  apply NoDup_app in Hnd as (Hnd1 & Hdis & [Hnq Hnd2]%NoDup_cons).
  assert (∀ q', q' ∈ l1 ++ l2 → volume_of q' ≠ volume_of q) as Hother.
  { intros q' [Hq|Hq]%elem_of_app Heq.
    - apply (Hdis (volume_of q')); [by apply list_elem_of_fmap_2|]. rewrite Heq. left.
    - apply Hnq. rewrite <- Heq. by apply list_elem_of_fmap_2. }
  split; [split|].
  - intros j. destruct (decide (j = volume_of q)) as [->|Hj]; [by rewrite Hkl|].
    rewrite Hf by done. by apply inv_life.
  - rewrite Hf by done. by apply inv_zero.
  - intros q' Hq'. simpl in Hq'. eapply (inv_net_other s s' (volume_of q)); [done..| |by apply Hother].
    simpl. set_solver.
  - simpl. rewrite map_app. apply NoDup_app. split_and!; [done| |done].
    intros x Hx Hx'. apply (Hdis x Hx). by right.
  - intros j. destruct (decide (j = volume_of q)) as [->|Hj]; [|apply moves_same; auto].
    exists l, l'. auto.
Qed.

End invariant.

(** ** Every step is good *)

(** Rows that are neither busy nor in error, and rows that may be deleted. *)
Lemma life_not_busy v l :
  life_of v = Some l → Volume_IsBusy v = false → Volume_IsError v = false →
  (l = Available ∧ Volume.InstanceID v = 0) ∨
  (l = Attached (Volume.InstanceID v) ∧ Volume.InstanceID v ≠ 0).
Proof.
  unfold life_of, Volume_IsBusy, Volume_IsError. intros Hl Hb He. simp.
  repeat match goal with Hx : String.eqb _ _ = false |- _ => rewrite Hx in Hl; clear Hx end.
  simpl in Hl. destruct (Volume.InstanceID v =? 0) eqn:Hi;
    repeat case_match; simplify_eq; simp; auto.
Qed.

Lemma life_deletable v l :
  life_of v = Some l → Volume_IsBusy v = false → Volume_IsAttached v = false →
  idle l = true ∧ live l Absent.
Proof.
  unfold life_of, Volume_IsBusy, Volume_IsAttached. intros Hl Hb Ha. simp.
  repeat match goal with Hx : String.eqb _ _ = false |- _ => rewrite Hx in Hl; clear Hx end.
  simpl in Hl. repeat case_match; simplify_eq; (split; [done|constructor]).
Qed.

Lemma life_status v st :
  Volume.Status v = st →
  life_of v = life_of (Volume.zero <| Volume.InstanceID := Volume.InstanceID v |>
                                   <| Volume.Status := st |>).
Proof. intros <-. done. Qed.

Lemma life_available v :
  Volume.Status v = VolumeStatusAvailable → Volume.InstanceID v = 0 → life_of v = Some Available.
Proof. intros Hst Hi. by rewrite (life_status v _ Hst), Hi. Qed.

Lemma life_attaching v :
  Volume.Status v = VolumeStatusAttaching → Volume.InstanceID v = 0 → life_of v = Some Attaching.
Proof. intros Hst Hi. by rewrite (life_status v _ Hst), Hi. Qed.

Lemma life_attached v :
  Volume.Status v = VolumeStatusAttached → Volume.InstanceID v ≠ 0 →
  life_of v = Some (Attached (Volume.InstanceID v)).
Proof.
  intros Hst Hi%Z.eqb_neq. rewrite (life_status v _ Hst). unfold life_of. simpl. by rewrite Hi.
Qed.

Lemma life_detaching v :
  Volume.Status v = VolumeStatusDetaching → Volume.InstanceID v ≠ 0 →
  life_of v = Some (Detaching (Volume.InstanceID v)).
Proof.
  intros Hst Hi%Z.eqb_neq. rewrite (life_status v _ Hst). unfold life_of. simpl. by rewrite Hi.
Qed.

Lemma life_resizing v :
  Volume.Status v = VolumeStatusResizing → life_of v = Some (Resizing (Volume.InstanceID v)).
Proof. intros Hst. by rewrite (life_status v _ Hst). Qed.

Lemma life_error v :
  Volume.Status v = VolumeStatusError → life_of v = Some (Failed (Volume.InstanceID v)).
Proof. intros Hst. by rewrite (life_status v _ Hst). Qed.

Section good_steps.
Context {G : Gorm} {E : Env} {GOk : GormOk G}.
Implicit Types (s : Sys) (k : Z) (v : Volume.t).

Lemma sent_app_nil (w w' : World) new :
  sent w' = sent w ++ new → sent w' = sent w → new = [].
Proof. intros -> H. apply (f_equal length) in H. rewrite length_app in H. destruct new; simpl in *; [done|lia]. Qed.

Lemma sent_app_inj (w w' : World) new new' :
  sent w' = sent w ++ new → sent w' = sent w ++ new' → new = new'.
Proof. intros -> H. by apply app_inv_head in H. Qed.

Lemma good_create s s' v qs :
  Inv s → fresh_pending (db (world s)) (db (world s')) v →
  net s' = net s ++ qs → qs = [] ∨ qs = [ReqCreate (Volume.ID v)] → good s s'.
Proof.
  intros HI (Hpos & Hnone & Hrows & Hst & Hi) Hn Hqs.
  apply (good_put s s' (Volume.ID v) v Absent (Pending 0) qs); try done; [lia|..].
  - unfold vols. by rewrite Hnone.
  - rewrite (life_status v _ Hst), Hi. done.
  - constructor.
  - destruct Hqs as [->| ->]; [by left|right]. eexists. split_and!; [done|done|constructor].
Qed.

Lemma step_create_good c name size il ib bl bb pool s s' :
  Inv s → requested (VolumeAdmin_Create name size il ib bl bb pool) c s s' → good s s'.
Proof.
  intros HI (Hk & r & new & qs & Hrun & Hfs & Hs & Hp & Hn). destruct r as [v|e|].
  - apply VolumeAdmin_Create_Ok in Hrun as (Hv & p & Hs').
    rewrite (sent_app_inj _ _ _ _ Hs Hs') in Hp. eapply posts_one in Hp; [|constructor].
    eapply good_create; [done..|]. by right.
  - rewrite (sent_app_nil _ _ _ Hs Hfs) in Hp. apply posts_none in Hp as ->.
    apply VolumeAdmin_Create_Err in Hrun as [[_ Hdb]|(_ & v & Hv)]; [| |done].
    + apply good_same; [done|unfold vols; by rewrite Hdb|by rewrite app_nil_r in Hn].
    + eapply good_create; [done..|]. by left.
  - destruct (np_refute _ _ _ _ (VolumeAdmin_Create_no_panic _ _ _ _ _ _ _) Hrun).
Qed.

Lemma step_update_good c id name instID s s' :
  Inv s → id ≠ 0 → requested (VolumeAdmin_Update id name instID) c s s' → good s s'.
Proof.
  intros HI Hid (Hk & r & new & qs & Hrun & Hfs & Hs & Hp & Hn). destruct r as [v|e|].
  - apply VolumeAdmin_Update_Ok in Hrun as (v0 & Hu); [|done].
    destruct Hu as [Hrow _ _ _ (posted & Ha & Hs') Hrows _].
    rewrite (sent_app_inj _ _ _ _ Hs Hs') in Hp. inversion Ha as
      [Hst Hpost|i Hst Hinst Hz Hboot Hi Hpr Hst' Hpost|i Hst Hinst Hz Hi Hpr Hst' Hpost];
      rewrite <- Hpost in Hp.
    + apply posts_none in Hp as ->. rewrite app_nil_r in Hn.
      eapply good_rewrite; [done|done|exact Hrow| |exact Hrows|done].
      by rewrite <- Hst.
    + eapply posts_one in Hp; [|constructor]. apply rows_id in Hi as Hii. simpl in Hii.
      apply (good_put s s' id _ (Attached (Volume.InstanceID v0)) (Detaching (Volume.InstanceID v0))
               qs) in Hrows; try done.
      * unfold vols. rewrite Hrow. simpl. apply life_attached; [done|lia].
      * rewrite <- Hst'. by rewrite life_detaching by (done || simpl; lia).
      * constructor.
      * right. eexists. split_and!; [done|by apply rows_id in Hrow|]. rewrite Hii. constructor.
    + eapply posts_one in Hp; [|constructor]. apply rows_id in Hi as Hii. simpl in Hii.
      apply (good_put s s' id _ Available Attaching qs) in Hrows; try done.
      * unfold vols. rewrite Hrow. simpl. by apply life_available.
      * rewrite <- Hst'. by apply life_attaching.
      * constructor.
      * right. eexists. split_and!; [done|by apply rows_id in Hrow|]. constructor. lia.
  - rewrite (sent_app_nil _ _ _ Hs Hfs) in Hp. apply posts_none in Hp as ->.
    apply good_same; [done|unfold vols|by rewrite app_nil_r in Hn].
    by rewrite (with_tx_Err _ _ _ _ _ Hk Hrun).
  - by apply VolumeAdmin_Update_no_panic in Hrun.
Qed.

(** The rows a resize leaves, with the request in flight or not. *)
Lemma good_resize s s' v r size qs :
  Inv s → vols s !! Volume.ID v = Some r → is_row v r →
  Volume_IsError v = false → Volume_IsBusy v = false →
  vols s' = <[Volume.ID v := sized size r]> (vols s) → net s' = net s ++ qs →
  qs = [] ∨ qs = [ReqResize (Volume.ID v)] → good s s'.
Proof.
  intros HI Hrow Hv He Hb Hrows Hn Hqs.
  assert (Volume_IsError r = false ∧ Volume_IsBusy r = false) as [Her Hbr].
  { rewrite Hv in He, Hb. done. }
  destruct (inv_life s HI (Volume.ID v)) as [l Hl]. rewrite Hrow in Hl. simpl in Hl.
  assert (Volume.ID v ≠ 0) as Hk.
  { intros Hz. rewrite Hz, (inv_zero s HI) in Hrow. done. }
  apply (good_put s s' (Volume.ID v) (sized size r) l (Resizing (Volume.InstanceID r)) qs);
    try done.
  - by rewrite Hrow.
  - by destruct (life_not_busy r l Hl Hbr Her) as [[-> _]|[-> _]].
  - destruct (life_not_busy r l Hl Hbr Her) as [[-> ->]|[-> _]]; constructor.
  - destruct Hqs as [->| ->]; [by left|right]. eexists. split_and!; [done|done|constructor].
Qed.

Lemma step_resize_good c v r size s s' :
  Inv s → vols s !! Volume.ID v = Some r → is_row v r →
  requested (VolumeAdmin_Resize v size) c s s' → good s s'.
Proof.
  intros HI Hrow Hv (Hk & res & new & qs & Hrun & Hfs & Hs & Hp & Hn).
  assert (Volume.ID v ≠ 0) as Hid.
  { intros Hz. rewrite Hz, (inv_zero s HI) in Hrow. done. }
  assert ((∃ u, res = Ok u) ∨ sent (world s') = sent (world s)) as [[u ->]|Hsame]
    by (destruct res; eauto).
  - apply (VolumeAdmin_Resize_Ok _ _ _ _ r) in Hrun as [[Hdb Hsame]|Hr]; [| |done..].
    + rewrite (sent_app_nil _ _ _ Hs Hsame) in Hp. apply posts_none in Hp as ->.
      apply good_same; [done|unfold vols; by rewrite Hdb|by rewrite app_nil_r in Hn].
    + destruct Hr as [_ _ He Hb _ Hrows [control Hs']].
      rewrite (sent_app_inj _ _ _ _ Hs Hs') in Hp. eapply posts_one in Hp; [|constructor].
      eapply good_resize; [done..|by right].
  - rewrite (sent_app_nil _ _ _ Hs Hsame) in Hp. apply posts_none in Hp as ->.
    pose proof (VolumeAdmin_Resize_rows v size r c (world s) Hid Hrow) as Hrows.
    rewrite Hrun in Hrows. simpl in Hrows. destruct Hrows as [Hrows|(He & Hb & Hrows)].
    + apply good_same; [done|done|by rewrite app_nil_r in Hn].
    + eapply good_resize; [done..|by left].
Qed.

Lemma step_delete_good c v r s s' :
  Inv s → vols s !! Volume.ID v = Some r → is_row v r →
  requested (VolumeAdmin_Delete v) c s s' → good s s'.
Proof.
  intros HI Hrow Hv (Hk & res & new & qs & Hrun & Hfs & Hs & Hp & Hn).
  assert (Volume.ID v ≠ 0) as Hid.
  { intros Hz. rewrite Hz, (inv_zero s HI) in Hrow. done. }
  destruct res as [u|e|].
  - apply VolumeAdmin_Delete_Ok in Hrun as [_ Hb Ha _ Hrows _ Hs']; [|done].
    rewrite (sent_app_inj _ _ _ _ Hs Hs') in Hp. apply posts_clear in Hp as ->.
    rewrite app_nil_r in Hn. rewrite Hv in Hb, Ha.
    destruct (inv_life s HI (Volume.ID v)) as [l Hl].
    assert (life_of r = Some l) as Hlr by (by rewrite Hrow in Hl).
    destruct (life_deletable r l Hlr Hb Ha). by eapply good_delete.
  - rewrite (sent_app_nil _ _ _ Hs Hfs) in Hp. apply posts_none in Hp as ->.
    apply good_same; [done|unfold vols|by rewrite app_nil_r in Hn].
    by rewrite (with_tx_Err _ _ _ _ _ Hk Hrun).
  - destruct (np_refute _ _ _ _ (VolumeAdmin_Delete_no_panic v) Hrun).
Qed.

(** A report that is not recorded: the request is no longer in flight. *)
Lemma good_lost w w' l1 q l2 :
  Inv (mkSys w (l1 ++ q :: l2)) → db w' = db w →
  good (mkSys w (l1 ++ q :: l2)) (mkSys w' (l1 ++ l2)).
Proof.
  intros HI Hdb. split.
  - split; unfold vols; simpl; rewrite ?Hdb.
    + apply (inv_life _ HI).
    + apply (inv_zero _ HI).
    + intros q' Hq'. apply (inv_net _ HI). simpl. set_solver.
    + pose proof (inv_one _ HI) as Hnd. simpl in Hnd. rewrite map_app in *. simpl in Hnd.
      apply NoDup_app in Hnd as (Hnd1 & Hdis & [Hnq Hnd2]%NoDup_cons).
      apply NoDup_app. split_and!; [done| |done]. intros x Hx Hx'. apply (Hdis x Hx). by right.
  - intros k. apply moves_same; [done|]. unfold vols. simpl. by rewrite Hdb.
Qed.

(** A handler that moves the row of the volume as the request expects. *)
Lemma good_handled f w l1 q l2 l c (m : M string) r w' :
  Inv (mkSys w (l1 ++ q :: l2)) → volume_of q ≠ 0 →
  life (rows (volumes (db w)) !! volume_of q) = Some l →
  (∀ v, life_of v = Some l → ∃ l', life_of (f v) = Some l' ∧ live l l') → l ≠ Absent →
  all_or_nothing f (volume_of q) c w (m c w) → m c w = (r, w') →
  good (mkSys w (l1 ++ q :: l2)) (mkSys w' (l1 ++ l2)).
Proof.
  intros HI Hk Hl Hf Hne Haon Hrun. rewrite Hrun in Haon. destruct r as [u|e|]; simpl in Haon.
  - destruct Haon as (v & Hrow & Hrows & _). rewrite Hrow in Hl. simpl in Hl.
    destruct (Hf v Hl) as (l' & Hl' & Hlive).
    eapply good_answer; [done|done|by rewrite Hrow|done..].
  - by apply good_lost.
  - done.
Qed.

End good_steps.

(** ** Reports *)

(** The instance of a row, read off its place in life. *)
Lemma life_instance v l :
  life_of v = Some l →
  match l with
  | Absent => False
  | Available | Attaching => Volume.InstanceID v = 0
  | Attached i | Detaching i => Volume.InstanceID v = i ∧ i ≠ 0
  | Pending i | Resizing i | Failed i | Saving i => Volume.InstanceID v = i
  end.
Proof.
  unfold life_of. intros Hl.
  repeat (case_match; simplify_eq; simp; try done).
Qed.

(** The new life of a row that only depends on its new status and instance. *)
Lemma created_life st v :
  st ∈ [VolumeStatusAvailable; VolumeStatusError] → Volume.Status v = st →
  Volume.InstanceID v = 0 → ∃ l', life_of v = Some l' ∧ live (Pending 0) l'.
Proof.
  intros Hst Hv Hi. rewrite (life_status v _ Hv), Hi.
  repeat (apply elem_of_cons in Hst as [->|Hst]; [eexists; split; [reflexivity|constructor]|]).
  by apply elem_of_nil in Hst.
Qed.

Lemma detached_life st v i :
  st ∈ [VolumeStatusAvailable; VolumeStatusAttached] → Volume.InstanceID v = i → i ≠ 0 →
  ∃ l', life_of (detached v st v) = Some l' ∧ live (Detaching i) l'.
Proof.
  intros Hst <- Hi. apply elem_of_cons in Hst as [->|Hst]; [|apply elem_of_cons in Hst as [->|Hst]].
  - exists Available. split; [done|constructor].
  - exists (Attached (Volume.InstanceID v)). split; [|constructor].
    exact (life_attached (detached v VolumeStatusAttached v) eq_refl Hi).
  - by apply elem_of_nil in Hst.
Qed.

Lemma resized_life st v i :
  st ∈ ["success"; "error"] → Volume.InstanceID v = i →
  ∃ l', life_of (v <| Volume.Status := resize_status st v |>) = Some l' ∧ live (Resizing i) l'.
Proof.
  intros Hst <-. apply elem_of_cons in Hst as [->|Hst]; [|apply elem_of_cons in Hst as [->|Hst]].
  - unfold resize_status. simpl. destruct (Volume.InstanceID v =? 0) eqn:Hi; simp.
    + exists Available. split; [by apply life_available|]. rewrite Hi. constructor.
    + exists (Attached (Volume.InstanceID v)). split; [|by constructor].
      exact (life_attached (v <| Volume.Status := VolumeStatusAttached |>) eq_refl Hi).
  - exists (Failed (Volume.InstanceID v)). split; [|constructor].
    exact (life_error (v <| Volume.Status := VolumeStatusError |>) eq_refl).
  - by apply elem_of_nil in Hst.
Qed.

Section reports.
Context {G : Gorm} {E : Env} {GOk : GormOk G}.
Variable frontbacks : Registry.
Hypothesis registry : volume_registry frontbacks.

Lemma driver_script prefix driver :
  prefix ∈ ["attach_volume_"; "detach_volume_"] → driver ∈ drivers →
  parseCommand (prefix +:+ driver +:+ ".sh") = prefix +:+ driver ∧
  plain (prefix +:+ driver +:+ ".sh") = true.
Proof.
  intros Hp Hd.
  repeat (apply elem_of_cons in Hp as [->|Hp];
    [repeat (apply elem_of_cons in Hd as [->|Hd]; [by vm_compute|]); by apply elem_of_nil in Hd|]).
  by apply elem_of_nil in Hp.
Qed.

(** The line of a report makes its handler apply one change to the volume, or
    nothing, and the change moves the volume along its life cycle. *)
Definition effect q line c w : Prop :=
  ∃ f, all_or_nothing f (volume_of q) c w (executeLine frontbacks line c w) ∧
    ∀ l v, expects q l → life_of v = Some l → ∃ l', life_of (f v) = Some l' ∧ live l l'.

Lemma created_plain st : st ∈ [VolumeStatusAvailable; VolumeStatusError] → plain st = true.
Proof.
  intros Hs. repeat (apply elem_of_cons in Hs as [->|Hs]; [done|]). by apply elem_of_nil in Hs.
Qed.

Lemma create_effect k path st reason c w :
  plain path = true → st ∈ [VolumeStatusAvailable; VolumeStatusError] → plain reason = true →
  reason ≠ "" → fits 64 k = true → k ≠ 0 → dbkey c = false →
  effect (ReqCreate k) (EncodeCommand "create_volume_local.sh" [fmt_d k; path; st; reason]) c w ∧
  effect (ReqCreate k) (EncodeCommand "create_volume_wds_vhost.sh" [fmt_d k; st; path; reason]) c w.
Proof.
  intros Hpath Hs Hreason Hrne Hf Hk Hc. pose proof (created_plain st Hs) as Hst. split.
  - exists (placed path st).
    rewrite (executeLine_plain _ _ "create_volume_local" _ CreateVolumeLocal); try done.
    + split; [by apply CreateVolumeLocal_spec|].
      intros l v He Hl. inversion He; subst. apply life_instance in Hl. by eapply created_life.
    + apply registry.
    + repeat constructor; auto using fmt_d_plain.
    + unfold ends_well. simpl. by apply negb_true_iff, String.eqb_neq.
  - exists (placed_wds path st).
    rewrite (executeLine_plain _ _ "create_volume_wds_vhost" _ CreateVolumeWDSVhost); try done.
    + split; [by apply CreateVolumeWDSVhost_spec|].
      intros l v He Hl. inversion He; subst. apply life_instance in Hl.
      eapply created_life; [done|unfold placed_wds; by case_match..].
    + apply registry.
    + repeat constructor; auto using fmt_d_plain.
    + unfold ends_well. simpl. by apply negb_true_iff, String.eqb_neq.
Qed.

Lemma attach_effect driver i k target c w :
  driver ∈ drivers → plain target = true → target ≠ "" →
  fits_request (ReqAttach i k) = true → k ≠ 0 → dbkey c = false →
  effect (ReqAttach i k)
    (EncodeCommand ("attach_volume_" +:+ driver +:+ ".sh") [fmt_d i; fmt_d k; target]) c w.
Proof.
  intros Hd Ht Htne Hf Hk Hc. apply andb_true_iff in Hf as [Hfi Hfk]. exists (attached_to i target).
  destruct (driver_script "attach_volume_" driver) as [Hparse Hplain]; [set_solver|done|].
  rewrite (executeLine_plain _ _ _ _ AttachVolume c w (reg_attach _ registry driver Hd)); try done.
  - split; [by apply AttachVolume_spec|].
    intros l v He Hl. inversion He; subst. exists (Attached i).
    split; [by refine (life_attached (attached_to i target v) eq_refl _)|by constructor].
  - repeat constructor; auto using fmt_d_plain.
  - unfold ends_well. simpl. by apply negb_true_iff, String.eqb_neq.
Qed.

Lemma attach_failed_effect driver i k c w :
  driver ∈ drivers → fits_request (ReqAttach i k) = true → k ≠ 0 → dbkey c = false →
  effect (ReqAttach i k)
    (EncodeCommand ("attach_volume_" +:+ driver +:+ ".sh") [""; fmt_d k; ""]) c w.
Proof.
  intros Hd Hf Hk Hc. apply andb_true_iff in Hf as [Hfi Hfk].
  exists (λ r, r <| Volume.Status := VolumeStatusAvailable |>).
  destruct (driver_script "attach_volume_" driver) as [Hparse Hplain]; [set_solver|done|].
  unfold executeLine. rewrite decode_attach_failure by (done || auto using fmt_d_plain, fmt_d_nonempty).
  rewrite Hparse, (proj2 (String.eqb_neq _ "")) by done.
  unfold dispatchExecute, Get. rewrite (reg_attach _ registry driver Hd).
  split; [by apply AttachVolume_fail_spec|].
  intros l v He Hl. inversion He; subst. apply life_instance in Hl.
  exists Available. split; [by apply life_available|constructor].
Qed.

Lemma detach_effect driver i k st c w :
  driver ∈ drivers → st ∈ [VolumeStatusAvailable; VolumeStatusAttached] →
  fits_request (ReqDetach i k) = true → k ≠ 0 → dbkey c = false →
  effect (ReqDetach i k)
    (EncodeCommand ("detach_volume_" +:+ driver +:+ ".sh") [fmt_d i; fmt_d k; st]) c w.
Proof.
  intros Hd Hs Hf Hk Hc. apply andb_true_iff in Hf as [Hfi Hfk]. exists (λ r, detached r st r).
  destruct (driver_script "detach_volume_" driver) as [Hparse Hplain]; [set_solver|done|].
  rewrite (executeLine_plain _ _ _ _ DetachVolume c w (reg_detach _ registry driver Hd)); try done.
  - split; [by apply DetachVolume_spec|].
    intros l v He Hl. inversion He; subst. apply life_instance in Hl as [? ?].
    by apply detached_life.
  - repeat constructor; auto using fmt_d_plain. set_solver.
  - unfold ends_well. simpl. set_solver.
Qed.

Lemma resize_effect k st c w :
  st ∈ ["success"; "error"] → fits 64 k = true → k ≠ 0 → dbkey c = false →
  effect (ReqResize k) (EncodeCommand "resize_volume" [fmt_d k; st]) c w.
Proof.
  intros Hs Hf Hk Hc. exists (λ r, r <| Volume.Status := resize_status st r |>).
  rewrite (executeLine_plain _ _ "resize_volume" _ ResizeVolume); try done.
  - split; [by apply ResizeVolume_spec|].
    intros l v He Hl. inversion He; subst. apply life_instance in Hl. by apply resized_life.
  - apply registry.
  - repeat constructor; auto using fmt_d_plain. set_solver.
  - unfold ends_well. simpl. set_solver.
Qed.

Lemma report_effect q line c w :
  answers q line → fits_request q = true → volume_of q ≠ 0 → dbkey c = false → effect q line c w.
Proof.
  intros Ha Hf Hk Hc.
  destruct Ha as [k path st reason Hp Hs Hr Hn|k path st reason Hp Hs Hr Hn|driver i k target Hd Ht Hn
    |driver i k Hd|driver i k st Hd Hs|k st Hs].
  - exact (proj1 (create_effect k path st reason c w Hp Hs Hr Hn Hf Hk Hc)).
  - exact (proj2 (create_effect k path st reason c w Hp Hs Hr Hn Hf Hk Hc)).
  - exact (attach_effect driver i k target c w Hd Ht Hn Hf Hk Hc).
  - exact (attach_failed_effect driver i k c w Hd Hf Hk Hc).
  - exact (detach_effect driver i k st c w Hd Hs Hf Hk Hc).
  - exact (resize_effect k st c w Hs Hf Hk Hc).
Qed.

Lemma step_report_good c l1 q l2 line r w w' :
  Inv (mkSys w (l1 ++ q :: l2)) → answers q line → fits_request q = true → dbkey c = false →
  executeLine frontbacks line c w = (r, w') →
  good (mkSys w (l1 ++ q :: l2)) (mkSys w' (l1 ++ l2)).
Proof.
  intros HI Ha Hf Hc Hrun.
  destruct (inv_net _ HI q) as (l & Hl & He); [simpl; set_solver|].
  assert (volume_of q ≠ 0) as Hk.
  { intros Hz. rewrite Hz, (inv_zero _ HI) in Hl. simpl in Hl. simplify_eq. inversion He. }
  destruct (report_effect q line c w Ha Hf Hk Hc) as (f & Haon & Hmove).
  eapply (good_handled f); [done|done|exact Hl| |by destruct He|exact Haon|exact Hrun].
  intros v. by apply Hmove.
Qed.

Lemma step_good s s' : Inv s → step frontbacks s s' → good s s'.
Proof.
  intros HI Hstep. destruct Hstep.
  - by eapply step_create_good.
  - by eapply step_update_good.
  - by eapply step_resize_good.
  - by eapply step_delete_good.
  - by eapply step_report_good.
Qed.

Lemma steps_Inv s s' : Inv s → steps frontbacks s s' → Inv s'.
Proof. intros HI Hs. induction Hs as [|s1 s2 _ IH Hstep]; [done|]. by apply (step_good s1 s2). Qed.

(** C1. Refinement, for fail-stop requests: a step of the system, a request of any
    user that succeeds or that fails without having delivered a command to a
    hypervisor, or the report of a hypervisor on any request in flight, moves every
    volume along its life cycle or leaves it where it is, and keeps the invariant: at
    most one request in flight about a volume, which waits for its answer.  A request
    that returns an error after its command was delivered is not a step: for it the
    invariant fails ([lifecycle_needs_fail_stop]). *)
Theorem volume_lifecycle_refinement s s' :
  Inv s → step frontbacks s s' → Inv s' ∧ ∀ k, moves s s' k.
Proof. apply step_good. Qed.

(** Safety: in every state the system can reach, a volume is available
    exactly when it may be given to an instance, that is, an available or
    attaching volume belongs to no instance and an attached or detaching one
    belongs to some instance, and no two requests about one volume are in
    flight. *)
Theorem volume_lifecycle_safety s s' k v :
  Inv s → steps frontbacks s s' → vols s' !! k = Some v →
  (Volume.Status v = VolumeStatusAvailable ∨ Volume.Status v = VolumeStatusAttaching →
     Volume.InstanceID v = 0) ∧
  (Volume.Status v = VolumeStatusAttached ∨ Volume.Status v = VolumeStatusDetaching →
     Volume.InstanceID v ≠ 0) ∧
  NoDup (map volume_of (net s')).
Proof.
  intros HI Hs Hrow. pose proof (steps_Inv s s' HI Hs) as HI'.
  destruct (inv_life s' HI' k) as [l Hl]. rewrite Hrow in Hl. simpl in Hl.
  split_and!; [intros [Hst|Hst]|intros [Hst|Hst]|by apply inv_one];
    rewrite (life_status v _ Hst) in Hl; unfold life_of in Hl; simpl in Hl;
    destruct (Volume.InstanceID v =? 0) eqn:Hi; simp; done.
Qed.

End reports.

(** ** Attach, then detach *)

Section round_trip.
Context {G : Gorm} {E : Env} {GOk : GormOk G}.

(** Round trip: attaching an available data volume to an instance and
    detaching it again, each request followed by the success report of the
    hypervisor, leaves the rows of the volumes exactly as they were. *)
Theorem attach_detach_roundtrip c0 c1 w0 w1 w2 w3 w4 k i target v v1 v3 s2 s4 :
  k ≠ 0 → fits 64 k = true → fits 64 i = true → 0 < i →
  rows (volumes (db w0)) !! k = Some v →
  Volume.InstanceID v = 0 → Volume.Target v = "" → Volume.Status v = VolumeStatusAvailable →
  VolumeAdmin_Update k "" i c0 w0 = (Ok v1, w1) →
  AttachVolume ["attach_volume_local.sh"; fmt_d i; fmt_d k; target] c1 w1 = (Ok s2, w2) →
  VolumeAdmin_Update k "" 0 c0 w2 = (Ok v3, w3) →
  DetachVolume ["detach_volume_local.sh"; fmt_d i; fmt_d k; "available"] c1 w3 = (Ok s4, w4) →
  rows (volumes (db w4)) = rows (volumes (db w0)).
Proof.
  intros Hk Hfk Hfi Hi Hrow Hz Ht Hst Hu1 Ha Hu2 Hd.
  apply VolumeAdmin_Update_Ok in Hu1 as (r1 & Hu1); [|done].
  apply VolumeAdmin_Update_Ok in Hu2 as (r3 & Hu2); [|done].
  apply AttachVolume_Ok in Ha as (r2 & Hrow2 & Hrows2 & _); [|done..].
  apply DetachVolume_Ok in Hd as (r4 & Hrow4 & Hrows4 & _); [|done..].
  pose proof (up_rows _ _ _ _ _ _ _ _ Hu1) as Hrows1.
  pose proof (up_rows _ _ _ _ _ _ _ _ Hu2) as Hrows3.
  pose proof (up_row _ _ _ _ _ _ _ _ Hu1) as Hr1. pose proof (up_row _ _ _ _ _ _ _ _ Hu2) as Hr3.
  rewrite Hrows1, lookup_insert_eq in Hrow2. rewrite Hrows2, lookup_insert_eq in Hr3.
  rewrite Hrows3, lookup_insert_eq in Hrow4. simplify_eq.
  rewrite Hrows4, Hrows3, Hrows2, Hrows1, !insert_insert_eq. apply insert_id. rewrite Hrow.
  f_equal. destruct v. simpl in *. by subst.
Qed.

End round_trip.

(** ** The proviso is needed *)

Module LifecycleWitness.
Import Scenario.
#[local] Existing Instance MemGorm.
#[local] Existing Instance MemGormOk.
#[local] Existing Instance env.

(** The statement of time 3 fails. *)
Definition env_flaky : Env := {|
  db_fault := Nat.eqb 3;
  post_result := λ _, PostOk;
  uuid_new n := "uuid-" +:+ fmt_d (Z.of_nat n);
  rand_read := λ _, Some (1, 2, 3, 4);
  rand_intn := λ _ _, 0;
  viper_IsSet := λ _, true;
  viper_GetString := λ _, "wds_vhost";
  viper_GetInt32 := λ _, 0;
  sql_like := λ _ _, true;
  inet_le a b := String.leb a b;
  gorm_autosave := true;
  recently_updated := λ _ _, false;
  instance_created := λ _, 1700000000;
  error_text := λ _, "error";
  map_order := λ _ l, l;
  time_now := Z.of_nat;
  created_at := λ _ k, k * 1000000000;
|}.

(** An attach request is delivered, the update of the row fails and is rolled
    back; the request is made again; both requests are answered, the first with
    success, the second, on a volume that is attached by then, with a failure. *)
Definition attach_twice : M string :=
  _ ← try (VolumeAdmin_Update (E := env_flaky) 7 "" 5);
  _ ← VolumeAdmin_Update (E := env_flaky) 7 "" 5;
  _ ← executeLine volume_frontbacks
        (EncodeCommand "attach_volume_wds_vhost.sh" ["5"; "7"; "vdb"]);
  executeLine volume_frontbacks (EncodeCommand "attach_volume_wds_vhost.sh" [""; "7"; ""]).

(** When a request fails after its command was delivered, the invariant is
    lost: one retry of the user and two honest answers leave the volume available
    while it belongs to an instance. *)
Theorem lifecycle_needs_fail_stop :
  let w' := (attach_twice writer world).2 in
  is_Ok (attach_twice writer world) = true ∧
  (λ v, (Volume.Status v, Volume.InstanceID v)) <$> rows (volumes (db w')) !! 7
    = Some (VolumeStatusAvailable, 5).
Proof. split; vm_compute; reflexivity. Qed.

(** The small cloud, with nothing in flight, satisfies the invariant. *)
Definition start : Sys := mkSys world [].

Lemma Inv_start : Inv start.
Proof.
  assert (map_Forall (λ _ v, is_Some (life_of v)) (vols start)) as Hall.
  { apply (bool_decide_unpack _). vm_compute. exact I. }
  split.
  - intros k. destruct (vols start !! k) as [v|] eqn:Hv; [by apply (Hall k)|by eexists].
  - vm_compute. reflexivity.
  - intros q Hq. by apply elem_of_nil in Hq.
  - constructor.
Qed.

(** The attach of volume 7 to instance 5 in flight. *)
Lemma start_step : ∃ w', step volume_frontbacks start (mkSys w' [ReqAttach 5 7]).
Proof.
  destruct (run_sent (VolumeAdmin_Update 7 "" 5 writer world)
              [(hyper_of instance5, attach_command instance5 volume7)]) as (v & w' & Hrun & Hs);
    [vm_compute; reflexivity|].
  exists w'. apply (step_update _ writer 7 "" 5); [done|]. split; [done|].
  exists (Ok v), [(hyper_of instance5, attach_command instance5 volume7)], [ReqAttach 5 7].
  split_and!; [exact Hrun|done|exact Hs| |done].
  apply (posts_request _ _ _ _ _ (rq_attach instance5 volume7) posts_nil).
Qed.

Lemma volume_lifecycle_refinement_witness :
  ∃ w', step volume_frontbacks start (mkSys w' [ReqAttach 5 7]) ∧
    Inv (mkSys w' [ReqAttach 5 7]) ∧ moves start (mkSys w' [ReqAttach 5 7]) 7.
Proof.
  destruct start_step as [w' Hstep].
  destruct (volume_lifecycle_refinement volume_frontbacks volume_frontbacks_ok _ _
              Inv_start Hstep) as [HI Hm].
  exists w'. split_and!; [exact Hstep|exact HI|exact (Hm 7)].
Defined.

Lemma volume_lifecycle_safety_witness :
  ∃ w', steps volume_frontbacks start (mkSys w' [ReqAttach 5 7]) ∧
    ∀ v, vols (mkSys w' [ReqAttach 5 7]) !! 8 = Some v →
      Volume.Status v = VolumeStatusAttached → Volume.InstanceID v ≠ 0.
Proof.
  destruct start_step as [w' Hstep].
  pose proof (steps_step _ start start _ (steps_refl _ start) Hstep) as Hsteps.
  exists w'. split; [exact Hsteps|]. intros v Hv Hst.
  destruct (volume_lifecycle_safety volume_frontbacks volume_frontbacks_ok _ _ 8 v
              Inv_start Hsteps Hv) as (_ & H & _).
  apply H. left. exact Hst.
Defined.

Definition attach_detach_run : M unit :=
  _ ← VolumeAdmin_Update 7 "" 5;
  _ ← AttachVolume ["attach_volume_local.sh"; fmt_d 5; fmt_d 7; "vdb"];
  _ ← VolumeAdmin_Update 7 "" 0;
  _ ← DetachVolume ["detach_volume_local.sh"; fmt_d 5; fmt_d 7; "available"];
  mret tt.

Lemma attach_detach_roundtrip_witness :
  ∃ w', attach_detach_run writer world = (Ok tt, w') ∧
    rows (volumes (db w')) = rows (volumes (db world)).
Proof.
  run_ok (attach_detach_run writer world) u w' Hrun. destruct u. exists w'.
  split; [exact Hrun|]. unfold attach_detach_run in Hrun.
  apply bind_Ok in Hrun as (v1 & w1 & H1 & Hrun).
  apply bind_Ok in Hrun as (s2 & w2 & H2 & Hrun).
  apply bind_Ok in Hrun as (v3 & w3 & H3 & Hrun).
  apply bind_Ok in Hrun as (s4 & w4 & H4 & Hrun). apply ret_Ok in Hrun as [_ <-].
  exact (attach_detach_roundtrip writer writer world w1 w2 w3 w4 7 5 "vdb" volume7 v1 v3 s2 s4
    ltac:(done) eq_refl eq_refl ltac:(lia) eq_refl eq_refl eq_refl eq_refl H1 H2 H3 H4).
Defined.

End LifecycleWitness.
