(* ===== verification/Backup.v ===== *)
(** * Backup: backups and snapshots of volumes (routes/backup.go, rpcs/backup.go)

    The administration of backups (type BackupAdmin): creation of a backup or a
    snapshot with its task, look-up, deletion, restore, listing and update, and
    the two handlers that record what the storage backend reports.

    [db.Model(&r).Updates(..)] of gorm also saves the structs that are loaded in
    [r] unless it is told otherwise ([gorm_autosave]).  Saving a struct that was
    read in the same request and not changed since writes the values that are
    there; the one place where it is stale is written out, in [Restore]. *)

From S2P Require Import Prelude GoLib Json ErrorCodes Gorm Model Store Member Catalog Scenario Volume Commands VolumeRpc.

Section backup.
Context {G : Gorm} {E : Env}.

(** [fmt.Sprintf(`["%d"]`, id)] *)
Definition resources (id : Z) : string := "[" +:+ dquote +:+ fmt_d id +:+ dquote +:+ "]".

Definition BackupAdmin_createBackupModel (name backupType : string) (volume : Volume.t)
    (poolID : string) : M (VolumeBackup.t * Task.t) :=
  with_tx (
    m ← GetMemberShip;
    backup ← db_create (VolumeBackup.zero
      <| VolumeBackup.Owner := MemberShip.OrgID m |>
      <| VolumeBackup.Name := name |>
      <| VolumeBackup.VolumeID := Volume.ID volume |>
      <| VolumeBackup.BackupType := backupType |>
      <| VolumeBackup.Status := "pending" |>);
    let backup := backup <| VolumeBackup.Volume := Some volume |> in
    task ← db_create (Task.zero
      <| Task.Owner := MemberShip.OrgID m |>
      <| Task.Name := "create_" +:+ backupType +:+ "_" +:+ Volume.UUID volume |>
      <| Task.Summary := "Taking " +:+ backupType +:+ "(" +:+ name +:+ " ["
           +:+ fmt_d (VolumeBackup.ID backup) +:+ "]) for volume " +:+ Volume.UUID volume
           +:+ " to pool " +:+ poolID |>
      <| Task.Status := TaskStatusRunning |>
      <| Task.Source := TaskSourceManual |>
      <| Task.Action := TaskActionBackup |>
      <| Task.Resources := resources (VolumeBackup.ID backup) |>);
    _ ← db_update (by_pk (VolumeBackup.ID backup))
          (λ r, r <| VolumeBackup.TaskID := Task.ID task |>);
    mret (backup <| VolumeBackup.TaskID := Task.ID task |>, task)).

(** The guards both kinds of backup start with. *)
Definition backup_guards (what : string) (volume : Volume.t) : M unit :=
  m ← GetMemberShip;
  _ ← require (ValidateOwner m Writer (Volume.Owner volume))
        (PermissionDenied ("Not authorized to " +:+ what +:+ " the volume"));
  _ ← require (negb (String.eqb (Volume.Status volume) VolumeStatusError))
        (NewCLError ErrVolumeInvalidState
           ("Volume " +:+ Volume.UUID volume +:+ " is in error state, cannot " +:+ what +:+ " now")
           None);
  require (negb (Volume_IsBusy volume))
    (NewCLError ErrVolumeIsBusy
       ("Volume " +:+ Volume.UUID volume +:+ " is in " +:+ Volume.Status volume
        +:+ " state, cannot " +:+ what +:+ " now") None).

(** [fmt.Sprintf("<script>_%s.sh '%d' '%s' ..", driver, ..)] *)
Definition snapshot_script (what driver : string) (words : list string) : string :=
  EncodeCommand ("/opt/cloudland/scripts/backend/" +:+ what +:+ "_snapshot_" +:+ driver +:+ ".sh")
    words.

Definition create_snapshot_command (task : Task.t) (backup : VolumeBackup.t) (volume : Volume.t)
    (pools : list string) : string :=
  snapshot_script "create" GetVolumeDriver
    ([fmt_d (Task.ID task); fmt_d (VolumeBackup.ID backup); VolumeBackup.UUID backup;
      VolumeBackup.Name backup; fmt_d (Volume.ID volume); Volume_GetOriginVolumeID volume;
      Volume_GetVolumePoolID volume] ++ pools).

Definition BackupAdmin_createBackup (volume : Volume.t) (poolID name : string)
    : M VolumeBackup.t :=
  _ ← backup_guards "backup" volume;
  _ ← wrap ErrDictionaryRecordsNotFound ("Storage pool (" +:+ poolID +:+ ") not found")
        (DictionaryAdmin_Find DICT_CATEGORY_STORAGE_POOL poolID);
  bt ← wrap ErrDatabaseError "Failed to create backup record"
         (BackupAdmin_createBackupModel name "backup" volume "");
  with_tx (
    _ ← wrap ErrDatabaseError "Failed to update volume status"
          (db_update (of_volume volume) (λ r, r <| Volume.Status := VolumeStatusBackuping |>));
    control ← (if 0 <? Volume.InstanceID volume then
                 instance ← match Volume.Instance volume with
                            | Some i => mret i
                            | None => wrap ErrInstanceNotFound "Instance not found"
                                        (db_get (R := Instance.t) (Volume.InstanceID volume))
                            end;
                 mret (hyper_of instance)
               else mret "inter=");
    if String.eqb GetVolumeDriver "local" then
      fail (GoError "Backup not supported for local volume")
    else
      let other := negb (String.eqb poolID "")
                   && negb (String.eqb poolID (Volume_GetVolumePoolID volume)) in
      _ ← HyperExecute control
            (create_snapshot_command bt.2 bt.1 volume (if other then [poolID] else []));
      mret bt.1).

Definition BackupAdmin_CreateBackupByID (volumeID : Z) (poolID name : string)
    : M VolumeBackup.t :=
  volume ← VolumeAdmin_Get volumeID;
  BackupAdmin_createBackup volume poolID name.

Definition BackupAdmin_CreateBackupByUUID (uuid poolID name : string) : M VolumeBackup.t :=
  volume ← VolumeAdmin_GetVolumeByUUID uuid;
  BackupAdmin_createBackup volume poolID name.

Definition BackupAdmin_createSnapshot (name : string) (volume : Volume.t) : M VolumeBackup.t :=
  _ ← backup_guards "snapshot" volume;
  bt ← wrap ErrDatabaseError "Failed to create snapshot record"
         (BackupAdmin_createBackupModel name "snapshot" volume "");
  if String.eqb GetVolumeDriver "local" then
    fail (GoError "Snapshot not supported for local volume")
  else
    _ ← HyperExecute "inter=" (create_snapshot_command bt.2 bt.1 volume []);
    mret bt.1.

Definition BackupAdmin_CreateSnapshotByID (volumeID : Z) (name : string) : M VolumeBackup.t :=
  volume ← VolumeAdmin_Get volumeID;
  BackupAdmin_createSnapshot name volume.

Definition BackupAdmin_CreateSnapshotByUUID (uuid name : string) : M VolumeBackup.t :=
  volume ← VolumeAdmin_GetVolumeByUUID uuid;
  BackupAdmin_createSnapshot name volume.

(** [db.Preload("Volume")...Take(backup)] *)
Definition take_backup (p : VolumeBackup.t → bool) : M VolumeBackup.t :=
  b ← db_take p;
  v ← preload (R := Volume.t) (VolumeBackup.VolumeID b);
  mret (b <| VolumeBackup.Volume := v |>).

Definition BackupAdmin_GetBackupByID (backupID : Z) : M VolumeBackup.t :=
  if backupID <=? 0 then
    fail (NewCLError ErrInvalidParameter ("Invalid backup ID: " +:+ fmt_d backupID) None)
  else
    m ← GetMemberShip;
    backup ← wrap ErrBackupNotFound "Backup/Snapshot not found" (take_backup (by_pk backupID));
    _ ← require (ValidateOwner m Reader (VolumeBackup.Owner backup))
          (PermissionDenied "Not authorized to read the backup");
    mret backup.

Definition BackupAdmin_GetBackupByUUID (uuID : string) : M VolumeBackup.t :=
  m ← GetMemberShip;
  backup ← wrap ErrVolumeNotFound "Volume not found"
    (take_backup (λ b, where_ok (GetWhere m) (VolumeBackup.Owner b)
                       && String.eqb (VolumeBackup.UUID b) uuID));
  _ ← require (ValidateOwner m Reader (VolumeBackup.Owner backup))
        (PermissionDenied "Not authorized to read the backup");
  mret backup.

Definition BackupAdmin_Delete (backup : VolumeBackup.t) : M unit :=
  _ ← require (VolumeBackup_CanDelete backup)
        (NewCLError ErrBackupInvalidState
           ("Backup " +:+ VolumeBackup.UUID backup +:+ " is in " +:+ VolumeBackup.Status backup
            +:+ " state, cannot be deleted now") None);
  with_tx (
    m ← GetMemberShip;
    _ ← require (ValidateOwner m Writer (VolumeBackup.Owner backup))
          (PermissionDenied "Not authorized to delete the backup");
    _ ← wrap ErrDatabaseError "Failed to delete the backup record"
          (db_delete (R := VolumeBackup.t) (by_pk (VolumeBackup.ID backup)));
    let wdsUUID := VolumeBackup_GetOriginBackupID backup in
    if String.eqb wdsUUID "" then mret tt
    else HyperExecute "inter=" (snapshot_script "delete" GetVolumeDriver [wdsUUID])).

Definition BackupAdmin_DeleteByID (backupID : Z) : M unit :=
  backup ← wrap ErrBackupNotFound "Backup/Snapshot not found" (BackupAdmin_GetBackupByID backupID);
  BackupAdmin_Delete backup.

Definition BackupAdmin_DeleteByUUID (uuID : string) : M unit :=
  backup ← wrap ErrBackupNotFound "Backup/Snapshot not found" (BackupAdmin_GetBackupByUUID uuID);
  BackupAdmin_Delete backup.

(** Every column but the primary key is written. *)
Definition save_columns (v r : Volume.t) : Volume.t :=
  v <| Volume.ID := Volume.ID r |> <| Volume.Instance := Volume.Instance r |>.

(** The volume loaded in a backup is saved with it, as it was when it was read. *)
Definition autosave_volume (backup : VolumeBackup.t) : M unit :=
  match VolumeBackup.Volume backup with
  | Some v => if gorm_autosave then
                db_update (by_pk (Volume.ID v)) (save_columns v)
              else mret tt
  | None => mret tt
  end.

Definition restore_command (task : Task.t) (backupID : Z) (volume : Volume.t)
    (backup : VolumeBackup.t) : string :=
  snapshot_script "restore" (Volume_GetVolumeDriver volume)
    [fmt_d (Task.ID task); fmt_d backupID; fmt_d (Volume.ID volume);
     fmt_d (Volume.InstanceID volume); Volume_GetOriginVolumeID volume;
     if String.eqb (VolumeBackup.SnapshotID backup) "" then VolumeBackup_GetOriginBackupID backup
     else VolumeBackup.SnapshotID backup;
     Volume_GetVolumePoolID volume].

(** Is the instance of an attached volume stopped?  [None] is the dereference of
    a nil pointer. *)
Definition instance_stopped (volume : Volume.t) : option bool :=
  if 0 <? Volume.InstanceID volume then
    inst ← Volume.Instance volume; Some (String.eqb (Instance.Status inst) "shut_off")
  else Some true.

Definition running_error (volume : Volume.t) : error :=
  NewCLError ErrCannotRestoreWhileInstanceIsRunning
    ("Volume " +:+ Volume.Name volume +:+ " is attached to a running instance, please stop the instance "
     +:+ (match Volume.Instance volume with Some i => Instance.Hostname i | None => "" end)
     +:+ " first") None.

Definition BackupAdmin_Restore (backupID : Z) : M VolumeBackup.t :=
  backup ← BackupAdmin_GetBackupByID backupID;
  _ ← require (VolumeBackup_CanRestore backup)
        (NewCLError ErrCannotRestoreFromBackup
           ("Backup " +:+ VolumeBackup.UUID backup +:+ " is in " +:+ VolumeBackup.Status backup
            +:+ " state, cannot restore now") None);
  volume ← VolumeAdmin_Get (VolumeBackup.VolumeID backup);
  m ← GetMemberShip;
  _ ← require (ValidateOwner m Writer (Volume.Owner volume))
        (PermissionDenied "Not authorized to restore the volume");
  stopped ← deref (instance_stopped volume);
  _ ← require stopped (running_error volume);
  with_tx (
    _ ← wrap ErrDatabaseError "Failed to update volume status"
          (db_update (of_volume volume) (λ r, r <| Volume.Status := VolumeStatusRestoring |>));
    let what := VolumeBackup.BackupType backup +:+ "(" +:+ VolumeBackup.Name backup in
    task ← db_create (Task.zero
      <| Task.Owner := MemberShip.OrgID m |>
      <| Task.Name := "Restoring " +:+ what +:+ ") for volume " +:+ Volume.UUID volume |>
      <| Task.Summary := "Restoring " +:+ what +:+ " [" +:+ fmt_d (VolumeBackup.ID backup)
           +:+ "]) for volume " +:+ Volume.UUID volume |>
      <| Task.Status := TaskStatusRunning |>
      <| Task.Source := TaskSourceManual |>
      <| Task.Action := TaskActionRestore |>
      <| Task.Resources := resources (VolumeBackup.ID backup) |>);
    _ ← autosave_volume backup;
    _ ← db_update (by_pk (VolumeBackup.ID backup))
          (λ r, r <| VolumeBackup.TaskID := Task.ID task |>);
    control ← (if 0 <? Volume.InstanceID volume then
                 inst ← deref (Volume.Instance volume); mret (hyper_of inst)
               else mret "inter=");
    if String.eqb (Volume_GetVolumeDriver volume) "local" then
      fail (GoError "Restore not supported for local volume")
    else
      _ ← HyperExecute control (restore_command task backupID volume backup);
      mret (backup <| VolumeBackup.TaskID := Task.ID task |>)).

Definition BackupAdmin_Update (id : Z) (name path status : string) : M VolumeBackup.t :=
  with_tx (
    backup ← BackupAdmin_GetBackupByID id;
    m ← GetMemberShip;
    _ ← require (ValidateOwner m Writer (VolumeBackup.Owner backup))
          (PermissionDenied "Not authorized to update the backup");
    _ ← wrap ErrDatabaseError "Failed to update backup"
          (db_update (by_id (VolumeBackup.ID backup))
             (λ r, r <| VolumeBackup.Name :=
                          if String.eqb name "" || String.eqb name (VolumeBackup.Name backup)
                          then VolumeBackup.Name r else name |>
                     <| VolumeBackup.Path :=
                          if String.eqb path "" || String.eqb path (VolumeBackup.Path backup)
                          then VolumeBackup.Path r else path |>
                     <| VolumeBackup.Status :=
                          if String.eqb status "" || String.eqb status (VolumeBackup.Status backup)
                          then VolumeBackup.Status r else status |>));
    mret backup).

(** ** What the storage backend reports (rpcs/backup.go) *)

(** The volume goes back to the state it had before. *)
Definition rest_status (v : Volume.t) : string :=
  if 0 <? Volume.InstanceID v then VolumeStatusAttached else VolumeStatusAvailable.

(** The transaction of the report on a backup. *)
Definition complete_backup (taskID backupID : Z) (status path : string) (size : Z)
    (middleSnapshotID message : string) : M string :=
  task ← db_get (R := Task.t) taskID;
  _ ← db_update (by_pk (Task.ID task))
        (if String.eqb status "available" then
           λ r, r <| Task.Status := TaskStatusSuccess |>
         else λ r, r <| Task.Status := TaskStatusFailed |> <| Task.Message := message |>);
  backup ← take_backup (by_pk backupID);
  _ ← db_update (by_pk (VolumeBackup.ID backup))
        (λ r, r <| VolumeBackup.Path := path |> <| VolumeBackup.Status := status |>
                <| VolumeBackup.Size := size |> <| VolumeBackup.SnapshotID := middleSnapshotID |>
                <| VolumeBackup.TaskID := 0 |>);
  volume ← deref (VolumeBackup.Volume backup);
  _ ← db_update (of_volume volume) (λ r, r <| Volume.Status := rest_status volume |>);
  mret status.

Definition BackupVolumeWDSVhost : Handler := λ args,
  _ ← require (negb (length args <? 8)%nat) (GoError "wrong params");
  a1 ← arg args 1; taskID ← parse_arg 64 a1;
  a2 ← arg args 2; backupID ← parse_arg 64 a2;
  a5 ← arg args 5;
  let size := default 0 (ParseInt 64 a5) in
  let size := if 0 <? size then Z.quot (Z.quot size 1024) 1024 else size in
  status ← arg args 3;
  path ← arg args 4;
  middleSnapshotID ← arg args 6;
  message ← arg args 7;
  with_tx (complete_backup taskID backupID status path size middleSnapshotID message).

Definition RestoreVolumeWDSVhost : Handler := λ args,
  _ ← require (negb (length args <? 6)%nat) (GoError "wrong params");
  a1 ← arg args 1; taskID ← parse_arg 64 a1;
  a2 ← arg args 2; backupID ← parse_arg 64 a2;
  a3 ← arg args 3; volumeID ← parse_arg 64 a3;
  status ← arg args 4;
  path ← arg args 5;
  with_tx (
    task ← db_get (R := Task.t) taskID;
    _ ← db_update (by_pk (Task.ID task))
          (if String.eqb status "failed_to_restore" then
             λ r, r <| Task.Status := TaskStatusFailed |> <| Task.Message := status |>
           else λ r, r <| Task.Status := TaskStatusSuccess |>);
    backup ← db_get (R := VolumeBackup.t) backupID;
    _ ← db_update (by_pk (VolumeBackup.ID backup)) (λ r, r <| VolumeBackup.TaskID := 0 |>);
    volume ← db_get (R := Volume.t) volumeID;
    _ ← db_update (of_volume volume)
          (λ r, r <| Volume.Path := path |> <| Volume.Status := rest_status volume |>);
    mret status).

End backup.

(** ** Lemmas *)

Section backup_lemmas.
Context {G : Gorm} {E : Env} {GOk : GormOk G}.
Implicit Types (c : Ctx) (w : World) (v : Volume.t) (b : VolumeBackup.t) (t : Task.t).

(** The records of a backup: a pending backup of the volume, owned by the caller,
    and the running task it points to, both new; nothing else changed. *)
Record recorded c (d d' : DB) v b t : Prop := {
  rec_backup_new : rows (volume_backups d) !! VolumeBackup.ID b = None;
  rec_task_new : rows (tasks d) !! Task.ID t = None;
  rec_backup_row : ∃ o, rows (volume_backups d') =
    <[VolumeBackup.ID b := b <| VolumeBackup.Volume := o |>]> (rows (volume_backups d));
  rec_task_row : rows (tasks d') = <[Task.ID t := t]> (rows (tasks d));
  rec_frame : d' = d <| volume_backups := volume_backups d' |> <| tasks := tasks d' |>;
  rec_pending : VolumeBackup.Status b = BackupStatusPending;
  rec_volume : VolumeBackup.VolumeID b = Volume.ID v;
  rec_task : VolumeBackup.TaskID b = Task.ID t;
  rec_running : Task.Status t = TaskStatusRunning
}.

Lemma createBackupModel_Ok name type v pool c w b t w' :
  BackupAdmin_createBackupModel name type v pool c w = (Ok (b, t), w') →
  recorded c (db w) (db w') v b t ∧ sent w' = sent w.
Proof.
  intros H. unfold BackupAdmin_createBackupModel in H. go_ok.
  flat. simpl in *. split; [|done].
  match goal with Hx : g_create _ (volume_backups _) = (?x, _) |- _ =>
    rename x into b0; apply create_spec in Hx as (Hbpos & Hbnew & Hb & Hbrows) end.
  match goal with Hx : g_create _ (tasks _) = _ |- _ =>
    apply create_spec in Hx as (_ & Htnew & Ht & Htrows) end.
  simpl in Hbpos, Hbnew, Hbrows, Htnew, Htrows.
  split; simpl; try done.
  - exists (VolumeBackup.Volume b0). rewrite (update_pk _ _ _ b0)
      by (lia || done || by rewrite Hbrows, lookup_insert_eq).
    by rewrite Hbrows, insert_insert_eq.
  - by rewrite Hb.
  - by rewrite Hb.
  - by rewrite Ht.
Qed.

Lemma createBackupModel_Err name type v pool c w e w' :
  dbkey c = false →
  BackupAdmin_createBackupModel name type v pool c w = (Err e, w') → db w' = db w.
Proof. apply with_tx_Err. Qed.

Lemma createBackupModel_no_panic name type v pool :
  no_panic (BackupAdmin_createBackupModel name type v pool).
Proof. unfold BackupAdmin_createBackupModel. np. Qed.

Lemma createBackupModel_quiet name type v pool :
  quiet (BackupAdmin_createBackupModel name type v pool).
Proof. unfold BackupAdmin_createBackupModel. quiet_tac. Qed.

Lemma DictionaryAdmin_Find_same category value c w r w' :
  DictionaryAdmin_Find category value c w = (r, w') → db w' = db w.
Proof.
  intros Hrun. assert (preserves (λ d, d = db w) (DictionaryAdmin_Find category value)) as Hp.
  { unfold DictionaryAdmin_Find. pres. }
  specialize (Hp c w eq_refl). by rewrite Hrun in Hp.
Qed.

Lemma backup_guards_Ok what v c w u w' :
  backup_guards what v c w = (Ok u, w') →
  w' = w ∧ ValidateOwner (caller c) Writer (Volume.Owner v) = true ∧
  Volume_IsError v = false ∧ Volume_IsBusy v = false.
Proof. unfold backup_guards. intros H. go_ok. by simp. Qed.

Lemma backup_guards_same what v c w r w' : backup_guards what v c w = (r, w') → w' = w.
Proof.
  unfold backup_guards, require, GetMemberShip, mbind, M_bind, mret, M_ret, fail.
  repeat case_match; intros; by simplify_eq.
Qed.

(** A backup that is pending cannot be deleted. *)
Lemma pending_not_deleted b c w :
  VolumeBackup.Status b = BackupStatusPending → ∃ e, BackupAdmin_Delete b c w = (Err e, w).
Proof.
  intros Hp. unfold BackupAdmin_Delete, VolumeBackup_CanDelete. rewrite Hp. by eexists.
Qed.

End backup_lemmas.

Section backup_theorems.
Context {G : Gorm} {E : Env} {GOk : GormOk G}.
Implicit Types (c : Ctx) (w : World) (v : Volume.t) (b : VolumeBackup.t) (t : Task.t).

Lemma recorded_volumes c d d' v b t : recorded c d d' v b t → volumes d' = volumes d.
Proof. intros Hr. by rewrite (rec_frame _ _ _ _ _ _ Hr). Qed.

(** A record that no report will ever complete and nobody can delete. *)
Definition stuck c (d d' : DB) v : Prop :=
  ∃ b t, recorded c d d' v b t ∧ ∀ c1 w1, ∃ e, BackupAdmin_Delete b c1 w1 = (Err e, w1).

Lemma recorded_stuck c d d' v b t : recorded c d d' v b t → stuck c d d' v.
Proof.
  intros Hr. exists b, t. split; [done|]. intros. apply pending_not_deleted.
  apply (rec_pending _ _ _ _ _ _ Hr).
Qed.

(** [createSnapshot] of a volume by a request without a database handle
    either succeeds, and then the caller may write the volume, which was neither
    busy nor in error, exactly the records of a pending snapshot and its running
    task are new, and the command was posted; or it fails and the database is as
    it was; or it fails after the records were committed, which always happens
    with the local driver and when the remote execution fails: the snapshot then
    stays pending, and no call of [Delete] by anybody removes it. *)
Theorem snapshot_outcomes name v c w :
  dbkey c = false →
  match BackupAdmin_createSnapshot name v c w with
  | (Ok b, w') =>
      ValidateOwner (caller c) Writer (Volume.Owner v) = true ∧
      Volume_IsError v = false ∧ Volume_IsBusy v = false ∧ GetVolumeDriver ≠ "local" ∧
      ∃ t, recorded c (db w) (db w') v b t ∧
           sent w' = sent w ++ [("inter=", create_snapshot_command t b v [])]
  | (Err _, w') => db w' = db w ∨ stuck c (db w) (db w') v
  | (Panic, _) => False
  end.
Proof.
  intros Hk. destruct (BackupAdmin_createSnapshot name v c w) as [[b|e|] w'] eqn:H.
  - unfold BackupAdmin_createSnapshot in H. go_ok.
    match goal with Hx : backup_guards _ _ _ _ = _ |- _ =>
      apply backup_guards_Ok in Hx as (-> & ? & ? & ?) end.
    match goal with Hx : BackupAdmin_createBackupModel _ _ _ _ _ _ = (Ok ?bt, _) |- _ =>
      destruct bt as [b1 t1]; apply createBackupModel_Ok in Hx as [Hr Hs] end.
    destruct (String.eqb_spec GetVolumeDriver "local"); go_ok. simpl in *.
    split_and!; [done..|]. exists t1. split; [|congruence].
    match goal with Hx : db w' = _ |- _ => by rewrite Hx end.
  - unfold BackupAdmin_createSnapshot in H.
    apply bind_Err in H as [H|(u & w1 & Hg & H)]; [left; by apply backup_guards_same in H as ->|].
    apply backup_guards_same in Hg as ->.
    apply bind_Err in H as [(e1 & _ & H)%wrap_Err|([b t] & w2 & Hm & H)].
    { left. by eapply createBackupModel_Err. }
    right. apply wrap_Ok, createBackupModel_Ok in Hm as [Hr _].
    apply recorded_stuck in Hr. destruct (String.eqb GetVolumeDriver "local").
    { by apply fail_Err in H as [_ <-]. }
    apply bind_Err in H as [[_ Hdb]%HyperExecute_Err|(? & ? & _ & H)]; [by rewrite Hdb|done].
  - refine (np_refute _ _ _ _ _ H). unfold BackupAdmin_createSnapshot, backup_guards.
    np; apply createBackupModel_no_panic.
Qed.

(** The instance a backup is routed by is only read. *)
Lemma backup_control_same v c w r w' :
  (if 0 <? Volume.InstanceID v then
     instance ← match Volume.Instance v with
                | Some i => mret i
                | None => wrap ErrInstanceNotFound "Instance not found"
                            (db_get (R := Instance.t) (Volume.InstanceID v))
                end;
     mret (hyper_of instance)
   else mret "inter=") c w = (Ok r, w') → db w' = db w ∧ sent w' = sent w.
Proof. intros H. repeat case_match; go_ok; done. Qed.

(** What a successful [createBackup] did to the database [d]. *)
Record backed_up c (d d' : DB) v r b t : Prop := {
  bk_recorded : ∃ d1, recorded c d d1 v b t ∧ d' = d1 <| volumes := volumes d' |>;
  bk_volume : rows (volumes d') =
    <[Volume.ID v := r <| Volume.Status := VolumeStatusBackuping |>]> (rows (volumes d))
}.

(** [createBackup] of a stored volume by a request without a database handle
    either succeeds: the caller may write the volume, which was neither busy nor
    in error and is now backing up, the pending backup and its running task are
    recorded and the command was posted; or it fails and the database is as it
    was; or it fails after the records were committed: the volume is as it was
    but the backup stays pending and no call of [Delete] removes it. *)
Theorem backup_outcomes v r pool name c w :
  dbkey c = false → Volume.ID v ≠ 0 → rows (volumes (db w)) !! Volume.ID v = Some r →
  match BackupAdmin_createBackup v pool name c w with
  | (Ok b, w') =>
      ValidateOwner (caller c) Writer (Volume.Owner v) = true ∧
      Volume_IsError v = false ∧ Volume_IsBusy v = false ∧ GetVolumeDriver ≠ "local" ∧
      ∃ t control pools, backed_up c (db w) (db w') v r b t ∧
        sent w' = sent w ++ [(control, create_snapshot_command t b v pools)]
  | (Err _, w') => db w' = db w ∨ stuck c (db w) (db w') v
  | (Panic, _) => False
  end.
Proof.
  intros Hk Hid Hrow. destruct (BackupAdmin_createBackup v pool name c w) as [[b|e|] w'] eqn:H.
  - unfold BackupAdmin_createBackup, DictionaryAdmin_Find in H. go_ok.
    match goal with Hx : backup_guards _ _ _ _ = _ |- _ =>
      apply backup_guards_Ok in Hx as (-> & ? & ? & ?) end.
    match goal with Hx : BackupAdmin_createBackupModel _ _ _ _ _ _ = (Ok ?bt, _) |- _ =>
      destruct bt as [b1 t1]; apply createBackupModel_Ok in Hx as [Hr Hs] end.
    destruct (String.eqb_spec GetVolumeDriver "local"); go_ok.
    match goal with Hx : (if 0 <? _ then _ else _) _ _ = _ |- _ =>
      apply backup_control_same in Hx as [Hd1 Hs1] end.
    split_and!; [done..|]. simpl in *. eexists t1, _, _.
    split; [|match goal with Hx : sent w' = _ |- _ => rewrite Hx end; f_equal; congruence].
    repeat match goal with Hx : db ?x = _ |- _ => rewrite Hx in *; clear Hx end. simpl.
    split; [by eexists|]. simpl. unfold of_volume.
    rewrite (recorded_volumes _ _ _ _ _ _ Hr). by apply update_pk.
  - unfold BackupAdmin_createBackup in H.
    apply bind_Err in H as [H|(u & w1 & Hg & H)]; [left; by apply backup_guards_same in H as ->|].
    apply backup_guards_same in Hg as ->.
    apply bind_Err in H as [(e1 & _ & H)%wrap_Err|(d & w1 & Hd%wrap_Ok & H)];
      [left; by apply DictionaryAdmin_Find_same in H|].
    apply DictionaryAdmin_Find_same in Hd. rewrite <- Hd.
    apply bind_Err in H as [(e1 & _ & H)%wrap_Err|([b t] & w2 & Hm & H)].
    { left. by eapply createBackupModel_Err. }
    apply with_tx_Err in H; [|done]. rewrite H. right.
    apply wrap_Ok, createBackupModel_Ok in Hm as [Hr _]. by eapply recorded_stuck.
  - refine (np_refute _ _ _ _ _ H). unfold BackupAdmin_createBackup, backup_guards, DictionaryAdmin_Find.
    np; apply createBackupModel_no_panic.
Qed.


Lemma take_backup_Ok p c w b w' :
  take_backup p c w = (Ok b, w') →
  ∃ b0, g_take p (volume_backups (db w)) = Some b0 ∧
    b = b0 <| VolumeBackup.Volume := VolumeBackup.Volume b |> ∧
    VolumeBackup.Volume b =
      (if VolumeBackup.VolumeID b0 =? 0 then None
       else rows (volumes (db w)) !! VolumeBackup.VolumeID b0) ∧
    db w' = db w ∧ sent w' = sent w.
Proof.
  unfold take_backup. intros H. go_ok. flat.
  eexists; split_and!; [done|done| |congruence|congruence]; simpl. by rewrite head_by_id.
Qed.

Lemma GetBackupByID_Ok id c w b w' :
  BackupAdmin_GetBackupByID id c w = (Ok b, w') →
  ∃ b0, rows (volume_backups (db w)) !! id = Some b0 ∧ 0 < id ∧ VolumeBackup.ID b = id ∧
    b = b0 <| VolumeBackup.Volume := VolumeBackup.Volume b |> ∧
    VolumeBackup.Volume b =
      (if VolumeBackup.VolumeID b0 =? 0 then None
       else rows (volumes (db w)) !! VolumeBackup.VolumeID b0) ∧
    ValidateOwner (caller c) Reader (VolumeBackup.Owner b) = true ∧
    db w' = db w ∧ sent w' = sent w.
Proof.
  unfold BackupAdmin_GetBackupByID. intros H. destruct (id <=? 0) eqn:Hid; [by go_ok|]. go_ok.
  match goal with Hx : take_backup _ _ _ = _ |- _ =>
    apply take_backup_Ok in Hx as (b0 & Ht & Hb & Hv & ? & ?) end.
  apply take_pk_row in Ht as [Hr Hk]; [|lia]. exists b0. split_and!; try done; [lia|].
  rewrite Hb. done.
Qed.

Lemma VolumeAdmin_Get_Ok id c w v w' :
  VolumeAdmin_Get id c w = (Ok v, w') →
  ∃ r, 0 < id ∧ rows (volumes (db w)) !! id = Some r ∧ is_row v r ∧ Volume.ID v = id ∧
    (0 < Volume.InstanceID v → Volume.Instance v = rows (instances (db w)) !! Volume.InstanceID v) ∧
    db w' = db w ∧ sent w' = sent w.
Proof.
  intros H. unfold VolumeAdmin_Get in H. destruct (id <=? 0) eqn:Hid; [by go_ok|].
  unfold read_volume, take_volume in H. go_ok. flat. simpl in *.
  match goal with Hx : g_take _ _ = Some ?x |- _ =>
    exists x; apply take_some in Hx as [Hp Hr] end.
  apply andb_true_iff in Hp as [Hp _]. unfold by_pk in Hp. rewrite pk_nonzero in Hp by lia.
  simp. simpl in *. split_and!; try done.
  rewrite head_by_id. intros Hpos. by rewrite (proj2 (Z.eqb_neq _ _)) by lia.
Qed.

Lemma autosave_volume_Ok b v c w u w' :
  VolumeBackup.Volume b = Some v → autosave_volume b c w = (Ok u, w') →
  db w' = if gorm_autosave then
            (db w) <| volumes := g_update (by_pk (Volume.ID v))
              (save_columns v) (volumes (db w)) |>
          else db w.
Proof. intros Hv. unfold autosave_volume. rewrite Hv. intros H. case_match; by go_ok. Qed.

(** The end of [Restore] posts, and changes nothing in the database. *)
Lemma restore_post_same v t id b c w b' w' :
  (control ← (if 0 <? Volume.InstanceID v then
                inst ← deref (Volume.Instance v); mret (hyper_of inst)
              else mret "inter=");
   if String.eqb (Volume_GetVolumeDriver v) "local" then
     fail (GoError "Restore not supported for local volume")
   else
     _ ← HyperExecute control (restore_command t id v b);
     mret (b <| VolumeBackup.TaskID := Task.ID t |>)) c w = (Ok b', w') →
  db w' = db w ∧ b' = b <| VolumeBackup.TaskID := Task.ID t |>.
Proof.
  intros H. go_ok. repeat case_match; go_ok; (split; [congruence|done]).
Qed.

Lemma instance_stopped_true v :
  instance_stopped v = Some true → 0 < Volume.InstanceID v →
  ∃ i, Volume.Instance v = Some i ∧ Instance.Status i = InstanceStatusShutoff.
Proof.
  unfold instance_stopped. intros H Hpos. rewrite (proj2 (Z.ltb_lt _ _) Hpos) in H.
  destruct (Volume.Instance v) as [i|]; [|done]. simpl in H. injection H as H.
  apply String.eqb_eq in H. eauto.
Qed.

(** [BackupAdmin.Restore] that succeeds was given a backup that is ready and
    a volume the caller may write, whose instance, if any, is stopped; the task
    is recorded.  It sets the status of the volume to restoring, but then saves
    the backup with the volume that was loaded in it before: with the default
    settings of gorm the row of the volume is in the end exactly as it was, so
    that nothing shows that a restore is running.  Only with the saving of
    associations turned off the volume is restoring. *)
Theorem restore_status id c w b w' :
  BackupAdmin_Restore id c w = (Ok b, w') →
  ∃ b0 v0, rows (volume_backups (db w)) !! id = Some b0 ∧ VolumeBackup_CanRestore b0 = true ∧
    rows (volumes (db w)) !! VolumeBackup.VolumeID b0 = Some v0 ∧
    ValidateOwner (caller c) Writer (Volume.Owner v0) = true ∧
    (0 < Volume.InstanceID v0 →
       ∃ i, rows (instances (db w)) !! Volume.InstanceID v0 = Some i ∧
            Instance.Status i = InstanceStatusShutoff) ∧
    rows (tasks (db w)) !! VolumeBackup.TaskID b = None ∧
    is_Some (rows (tasks (db w')) !! VolumeBackup.TaskID b) ∧
    rows (volumes (db w')) =
      if gorm_autosave then rows (volumes (db w))
      else <[VolumeBackup.VolumeID b0 := v0 <| Volume.Status := VolumeStatusRestoring |>]>
             (rows (volumes (db w))).
Proof.
  intros H. unfold BackupAdmin_Restore in H.
  apply bind_Ok in H as (bk & w1 & Hb & H). apply bind_Ok in H as (? & ? & Hr & H).
  apply require_Ok in Hr as [Hr <-]. apply bind_Ok in H as (v & w2 & Hv & H).
  apply bind_Ok in H as (m & ? & [<- <-]%GetMemberShip_Ok & H).
  apply bind_Ok in H as (? & ? & [Hown <-]%require_Ok & H).
  apply bind_Ok in H as (st & ? & [Hst <-]%deref_Ok & H).
  apply bind_Ok in H as (? & ? & [-> <-]%require_Ok & H). apply with_tx_Ok in H.
  apply bind_Ok in H as (? & w3 & [Hd3 _]%wrap_Ok%db_update_Ok & H).
  apply bind_Ok in H as (t & w4 & (tt' & Ht & Hd4 & _)%db_create_Ok & H).
  apply bind_Ok in H as (? & w5 & Hd5 & H).
  apply bind_Ok in H as (? & w6 & [Hd6 _]%db_update_Ok & H).
  apply restore_post_same in H as [Hd7 ->].
  apply GetBackupByID_Ok in Hb as (b0 & Hb0 & Hid & Hbid & Hbk & Hbv & _ & Hd1 & _).
  apply VolumeAdmin_Get_Ok in Hv as (v0 & Hvid & Hv0 & Hv & Hvk & Hinst & Hd2 & _).
  assert (VolumeBackup.VolumeID bk = VolumeBackup.VolumeID b0) as Hk by (by rewrite Hbk).
  rewrite Hk, Hd1 in *. rewrite (proj2 (Z.eqb_neq _ _)), Hv0 in Hbv by lia.
  eapply autosave_volume_Ok in Hd5; [|done]. rewrite Hd2 in *. tables.
  apply create_spec in Ht as (_ & Htnew & _ & Htrows). simpl in Htnew, Htrows.
  assert (Volume.InstanceID v = Volume.InstanceID v0 ∧ Volume.Owner v = Volume.Owner v0)
    as [Hi Ho] by (by rewrite Hv).
  assert (Hrows3 : rows (volumes (db w3)) =
    <[VolumeBackup.VolumeID b0 := v0 <| Volume.Status := VolumeStatusRestoring |>]>
      (rows (volumes (db w)))).
  { rewrite Hd3. simpl. unfold of_volume. rewrite Hvk. by rewrite (update_pk _ _ _ v0) by (done || lia). }
  exists b0, v0. split_and!; try done.
  - by rewrite Hbk in Hr.
  - by rewrite <- Ho.
  - intros Hpos. rewrite <- Hi in *. destruct (instance_stopped_true v Hst Hpos) as (i & Hii & ?).
    exists i. by rewrite <- Hinst.
  - simpl. rewrite Hd3 in Htnew. done.
  - simpl. rewrite Hd7, Hd6. simpl. rewrite Hd5.
    case_match; simpl; rewrite Hd4; simpl; rewrite Htrows, lookup_insert_eq; by eexists.
  - rewrite Hd7, Hd6. simpl. rewrite Hd5. case_match; simpl; rewrite Hd4; simpl; [|done].
    assert (Volume.ID v0 = VolumeBackup.VolumeID b0) as Hk0 by (by apply rows_id in Hv0).
    rewrite Hk0, (update_pk (volumes (db w3)) _ _ (v0 <| Volume.Status := VolumeStatusRestoring |>))
      by (lia || done || (rewrite Hrows3; apply lookup_insert_eq)).
    rewrite Hrows3, insert_insert_eq. apply insert_id. rewrite Hv0. f_equal. by destruct v0.
Qed.

(** The size of a snapshot is reported in bytes and stored in megabytes. *)
Definition megabytes (size : Z) : Z :=
  if 0 <? size then Z.quot (Z.quot size 1024) 1024 else size.

Definition task_done (ok : bool) (message : string) (t : Task.t) : Task.t :=
  if ok then t <| Task.Status := TaskStatusSuccess |>
  else t <| Task.Status := TaskStatusFailed |> <| Task.Message := message |>.

Definition backup_done (path st : string) (size : Z) (mid : string) (b : VolumeBackup.t)
    : VolumeBackup.t :=
  b <| VolumeBackup.Path := path |> <| VolumeBackup.Status := st |>
    <| VolumeBackup.Size := size |> <| VolumeBackup.SnapshotID := mid |>
    <| VolumeBackup.TaskID := 0 |>.

(** What the report on the task [tid] and the backup [bid] did. *)
Record completed (d d' : DB) (tid bid : Z) ok message path st size mid : Prop := {
  cp_task : ∃ t0, rows (tasks d) !! tid = Some t0 ∧
    rows (tasks d') = <[tid := task_done ok message t0]> (rows (tasks d));
  cp_backup : ∃ b0 v0, rows (volume_backups d) !! bid = Some b0 ∧
    rows (volume_backups d') =
      <[bid := backup_done path st size mid b0]> (rows (volume_backups d)) ∧
    rows (volumes d) !! VolumeBackup.VolumeID b0 = Some v0 ∧
    rows (volumes d') =
      <[VolumeBackup.VolumeID b0 := v0 <| Volume.Status := rest_status v0 |>]> (rows (volumes d))
}.

Lemma BackupVolume_words name tid bid st path size mid message c w :
  fits 64 tid = true → fits 64 bid = true → fits 64 size = true →
  BackupVolumeWDSVhost [name; fmt_d tid; fmt_d bid; st; path; fmt_d size; mid; message] c w =
  with_tx (complete_backup tid bid st path (megabytes size) mid message) c w.
Proof.
  intros Ht Hb Hs. unfold BackupVolumeWDSVhost, parse_arg, arg. simpl. unfold mbind, M_bind. simpl.
  by rewrite !ParseInt_id by done.
Qed.

Lemma complete_backup_Ok tid bid st path size mid message c w s w' :
  tid ≠ 0 → bid ≠ 0 →
  complete_backup tid bid st path size mid message c w = (Ok s, w') →
  completed (db w) (db w') tid bid (String.eqb st "available") message path st size mid.
Proof.
  intros Ht Hb H. unfold complete_backup in H. go_ok. simpl in *.
  match goal with Hx : take_backup _ _ _ = _ |- _ =>
    apply take_backup_Ok in Hx as (b0 & Hb0 & Hbk & Hbv & Hd & _) end.
  match goal with Hx : g_take _ (tasks _) = Some ?x |- _ =>
    rename x into t0; apply take_pk_row in Hx as [Ht0 Htk]; [|done] end.
  apply take_pk_row in Hb0 as [Hb0 Hb0k]; [|done]. simpl in Htk, Hb0k.
  match goal with Hx : VolumeBackup.Volume ?x = Some ?y |- _ =>
    rename y into v0; assert (VolumeBackup.ID x = VolumeBackup.ID b0) as Hbid by (by rewrite Hbk);
    rewrite Hx in Hbv; clear Hx end.
  destruct (VolumeBackup.VolumeID b0 =? 0) eqn:Hz; [done|]. symmetry in Hbv.
  assert (Volume.ID v0 = VolumeBackup.VolumeID b0) as Hvk by (by apply rows_id in Hbv).
  rewrite Htk, Hbid, Hb0k in *. unfold of_volume in *. rewrite Hvk in *.
  apply Z.eqb_neq in Hz. flat. simpl in *.
  split.
  - exists t0. split; [done|]. simpl. rewrite (update_pk _ _ _ t0); [|done|by destruct (_ =? _)%string|done].
    unfold task_done. by destruct (_ =? _)%string.
  - exists b0, v0. split_and!; [done| |done|]; simpl; by apply update_pk.
Qed.


(** The report that a backup is finished, made of the words the script
    sends, changes one task, one backup and one volume, or nothing: the task is
    successful exactly when the reported state is available and failed with the
    reported message otherwise, the backup has the reported state, path and size
    and points to no task, and the volume is attached again if it belongs to an
    instance and available otherwise.  The handler panics only if the volume of
    the backup is gone. *)
Theorem backup_report name tid bid st path size mid message c w :
  tid ≠ 0 → bid ≠ 0 → fits 64 tid = true → fits 64 bid = true → fits 64 size = true →
  dbkey c = false →
  match BackupVolumeWDSVhost [name; fmt_d tid; fmt_d bid; st; path; fmt_d size; mid; message] c w with
  | (Ok _, w') =>
      completed (db w) (db w') tid bid (String.eqb st "available") message path st
        (megabytes size) mid
  | (Err _, w') => db w' = db w
  | (Panic, _) =>
      ∃ b0, rows (volume_backups (db w)) !! bid = Some b0 ∧
        (VolumeBackup.VolumeID b0 = 0 ∨ rows (volumes (db w)) !! VolumeBackup.VolumeID b0 = None)
  end.
Proof.
  intros Ht Hb Hft Hfb Hfs Hc. rewrite BackupVolume_words by done.
  destruct (with_tx _ c w) as [[s|e|] w'] eqn:H.
  - apply with_tx_Ok in H. by apply complete_backup_Ok in H.
  - by eapply with_tx_Err.
  - apply with_tx_Panic in H. unfold complete_backup in H. repeat skip_np H.
    apply bind_Panic in H as [H|(b & w1 & Hbk & H)].
    { exfalso. refine (np_refute _ _ _ _ _ H). unfold take_backup. np. }
    skip_np H. apply take_backup_Ok in Hbk as (b0 & Hb0 & _ & Hbv & _).
    apply bind_Panic in H as [H|(? & ? & _ & H)]; [|by repeat skip_np H].
    go_ok. flat. simpl in *. apply take_pk_row in Hb0 as [Hb0 _]; [|done].
    exists b0. split; [done|]. destruct (VolumeBackup.Volume b); [done|].
    destruct (VolumeBackup.VolumeID b0 =? 0) eqn:Hz; [left; by apply Z.eqb_eq|by right].
Qed.

End backup_theorems.

(** ** Witnesses *)

Module BackupWitness.
Import Scenario.
#[local] Existing Instance MemGorm.
#[local] Existing Instance MemGormOk.
#[local] Existing Instance env.

Definition pool1 : Dictionary.t :=
  Dictionary.zero <| Dictionary.ID := 1 |> <| Dictionary.Category := "storage_pool" |>
    <| Dictionary.Value := "p2" |>.

(** Backup 4 of volume 7 is ready, its task is 11. *)
Definition backup4 : VolumeBackup.t :=
  VolumeBackup.zero <| VolumeBackup.ID := 4 |> <| VolumeBackup.UUID := "b4" |>
    <| VolumeBackup.Owner := 2 |> <| VolumeBackup.VolumeID := 7 |>
    <| VolumeBackup.Status := BackupStatusReady |> <| VolumeBackup.Path := "wds_vhost://p1/s4" |>.

Definition task11 : Task.t :=
  Task.zero <| Task.ID := 11 |> <| Task.Owner := 2 |> <| Task.Status := TaskStatusRunning |>.

Definition backup_world : World :=
  world <| db := cloud <| dictionaries := table_of [pool1] |>
                       <| volume_backups := table_of [backup4] |>
                       <| tasks := table_of [task11] |> |>.

Lemma snapshot_outcomes_witness :
  (∃ b w', BackupAdmin_createSnapshot "s" volume7 writer backup_world = (Ok b, w') ∧
     ∃ t, recorded writer (db backup_world) (db w') volume7 b t) ∧
  (∃ e w', BackupAdmin_createSnapshot (E := env_local) "s" volume7 writer backup_world
             = (Err e, w') ∧
     (db w' = db backup_world ∨ stuck (E := env_local) writer (db backup_world) (db w') volume7)).
Proof.
  split.
  - pose proof (snapshot_outcomes "s" volume7 writer backup_world eq_refl) as Ht.
    run_ok (BackupAdmin_createSnapshot "s" volume7 writer backup_world) b w' Hrun.
    rewrite Hrun in Ht. destruct Ht as (_ & _ & _ & _ & t & Hr & _). eauto 6.
  - pose proof (snapshot_outcomes (E := env_local) "s" volume7 writer backup_world eq_refl) as Ht.
    run_err (BackupAdmin_createSnapshot (E := env_local) "s" volume7 writer backup_world) e w' Hrun.
    rewrite Hrun in Ht. eauto.
Defined.

Lemma backup_outcomes_witness :
  ∃ b w' t, BackupAdmin_createBackup volume7 "p2" "b" writer backup_world = (Ok b, w') ∧
    backed_up writer (db backup_world) (db w') volume7 volume7 b t.
Proof.
  pose proof (backup_outcomes volume7 volume7 "p2" "b" writer backup_world eq_refl ltac:(done)
                eq_refl) as Ht.
  run_ok (BackupAdmin_createBackup volume7 "p2" "b" writer backup_world) b w' Hrun.
  rewrite Hrun in Ht. destruct Ht as (_ & _ & _ & _ & t & _ & _ & Hr & _). eauto 6.
Defined.

Lemma restore_status_witness :
  ∃ b w', BackupAdmin_Restore 4 writer backup_world = (Ok b, w') ∧
    rows (volumes (db w')) = rows (volumes (db backup_world)).
Proof.
  run_ok (BackupAdmin_Restore 4 writer backup_world) b w' Hrun.
  destruct (restore_status 4 writer backup_world b w' Hrun)
    as (b0 & v0 & _ & _ & _ & _ & _ & _ & _ & Hr).
  exists b, w'. split; [exact Hrun|exact Hr].
Defined.

Lemma backup_report_witness :
  ∃ s w', BackupVolumeWDSVhost ["create_snapshot_wds_vhost.sh"; fmt_d 11; fmt_d 4; "available";
            "wds_vhost://p1/s4"; fmt_d 5242880; "m"; "success"] background backup_world
            = (Ok s, w') ∧
    completed (db backup_world) (db w') 11 4 true "success" "wds_vhost://p1/s4" "available" 5 "m".
Proof.
  pose proof (backup_report "create_snapshot_wds_vhost.sh" 11 4 "available" "wds_vhost://p1/s4"
    5242880 "m" "success" background backup_world ltac:(done) ltac:(done) eq_refl eq_refl eq_refl
    eq_refl) as Ht.
  run_ok (BackupVolumeWDSVhost ["create_snapshot_wds_vhost.sh"; fmt_d 11; fmt_d 4; "available";
    "wds_vhost://p1/s4"; fmt_d 5242880; "m"; "success"] background backup_world) s w' Hrun.
  rewrite Hrun in Ht. exists s, w'. split; [exact Hrun|exact Ht].
Defined.

End BackupWitness.
