(* ===== verification/ConsistencyGroup.v ===== *)
(** * ConsistencyGroup: groups of volumes and their snapshots
      (routes/consistency_group.go, type ConsistencyGroupAdmin)

    A consistency group is a row, its volumes are the join rows that name it, its
    snapshots are rows that refer to it.  Every operation that changes a group
    calls GetContextDB before StartTransaction, so the transaction it means to
    open is never one: [with_tx] under [GetContextDB] runs its body as it is. *)

From S2P Require Import Prelude GoLib Json ErrorCodes Gorm Model Store Member Catalog Scenario Volume Commands VolumeRpc Backup.

Section consistency_group.
Context {G : Gorm} {E : Env}.

(** [db.Take(&ConsistencyGroup{ID: id})] *)
Definition take_group (id : Z) : M ConsistencyGroup.t :=
  wrap ErrCGNotFound "Consistency group not found" (db_get (R := ConsistencyGroup.t) id).

Definition ConsistencyGroupAdmin_Get (id : Z) : M ConsistencyGroup.t :=
  GetContextDB (take_group id).

Definition ConsistencyGroupAdmin_GetByUUID (uuid : string) : M ConsistencyGroup.t :=
  GetContextDB (
    wrap ErrCGNotFound "Consistency group not found"
      (db_take (λ cg, String.eqb (ConsistencyGroup.UUID cg) uuid))).

Definition ConsistencyGroupAdmin_List (offset limit : Z) (order name : string)
    : M (Z * list ConsistencyGroup.t) :=
  GetContextDB (
    m ← GetMemberShip;
    let query cg := (if 0 <? MemberShip.OrgID m then
                       ConsistencyGroup.Owner cg =? MemberShip.OrgID m else true)
                    && name_like name (ConsistencyGroup.Name cg) in
    total ← wrap ErrDatabaseError "Failed to count consistency groups" (db_count query);
    cgs ← wrap ErrDatabaseError "Failed to list consistency groups"
            (db_page (NewOrders order []) offset limit query);
    mret (total, cgs)).

(** The volumes of a list of identifiers, in its order. *)
Fixpoint load_volumes (uuids : list string) : M (list Volume.t) :=
  match uuids with
  | [] => mret []
  | uuid :: uuids =>
      v ← wrap ErrVolumeNotFound ("Volume " +:+ uuid +:+ " not found")
            (db_take (λ v, String.eqb (Volume.UUID v) uuid));
      vs ← load_volumes uuids;
      mret (v :: vs)
  end.

Definition check_volume_states (vols : list Volume.t) : M unit :=
  for_each vols (λ vol,
    _ ← require (negb (Volume_IsError vol))
          (NewCLError ErrCGVolumeInvalidState
             ("Volume " +:+ Volume.UUID vol +:+ " is in error state") None);
    require (negb (Volume_IsBusy vol))
      (NewCLError ErrCGVolumeIsBusy ("Volume " +:+ Volume.UUID vol +:+ " is busy") None)).

(** The join rows of the volumes; [code] is the code of a failure. *)
Definition associate (code : Z) (cgID : Z) (vols : list Volume.t) : M unit :=
  for_each vols (λ vol,
    _ ← wrap code "Failed to create volume association"
          (db_create (ConsistencyGroupVolume.zero
             <| ConsistencyGroupVolume.CGID := cgID |>
             <| ConsistencyGroupVolume.VolumeID := Volume.ID vol |>));
    mret tt).

Definition wds_ids (vols : list Volume.t) : string :=
  json_strings (map Volume_GetOriginVolumeID vols).

(** [fmt.Sprintf("/opt/cloudland/scripts/backend/<name>_wds.sh '..' ..", ..)] *)
Definition wds_script (name : string) (words : list string) : string :=
  EncodeCommand ("/opt/cloudland/scripts/backend/" +:+ name +:+ "_wds.sh") words.

(** [err = HyperExecute(ctx, "inter=", command)]; a failure runs [undo], whose
    statements are not checked, and is wrapped. *)
Definition execute_or {A} (code : Z) (msg command : string) (undo : M unit) (a : A) : M A :=
  r ← try (HyperExecute "inter=" command);
  match r with
  | inl _ => mret a
  | inr e => _ ← undo; fail (NewCLError code msg (Some e))
  end.

Definition set_task_status (st : string) (r : Task.t) : Task.t := r <| Task.Status := st |>.

(** [db.Model(task).Update("status", failed)], unchecked. *)
Definition task_failed (task : Task.t) : M unit :=
  _ ← try (db_update (by_pk (Task.ID task)) (set_task_status TaskStatusFailed)); mret tt.

Definition ConsistencyGroupAdmin_Create (name description : string) (volumeUUIDs : list string)
    : M ConsistencyGroup.t :=
  m ← GetMemberShip;
  _ ← require (CheckPermission m Writer)
        (PermissionDenied "Not authorized to create consistency group");
  _ ← require (negb (length volumeUUIDs =? 0)%nat)
        (NewCLError ErrInvalidParameter "At least one volume is required" None);
  GetContextDB (
    vols ← load_volumes volumeUUIDs;
    _ ← check_volume_states vols;
    with_tx (
      cg ← wrap ErrCGCreationFailed "Failed to create consistency group"
        (db_create (ConsistencyGroup.zero
          <| ConsistencyGroup.Owner := MemberShip.OrgID m |>
          <| ConsistencyGroup.Name := name |>
          <| ConsistencyGroup.Description := description |>
          <| ConsistencyGroup.Status := CGStatusProcessing |>));
      task ← wrap ErrDatabaseError "Failed to create task record"
        (db_create (Task.zero
          <| Task.Owner := MemberShip.OrgID m |>
          <| Task.Name := "create_cg_" +:+ ConsistencyGroup.UUID cg |>
          <| Task.Summary := "Creating consistency group " +:+ name |>
          <| Task.Status := TaskStatusRunning |>
          <| Task.Source := TaskSourceManual |>));
      _ ← associate ErrCGCreationFailed (ConsistencyGroup.ID cg) vols;
      execute_or ErrCGCreationFailed "Failed to execute create CG script"
        (wds_script "create_cg"
           [fmt_d (Task.ID task); fmt_d (ConsistencyGroup.ID cg);
            "cg_" +:+ ConsistencyGroup.UUID cg; wds_ids vols])
        (task_failed task) cg)).

(** [db.Model(cg).Update("status", st)] *)
Definition set_group_status (code : Z) (cg : ConsistencyGroup.t) (st : string) : M unit :=
  wrap code "Failed to update CG status"
    (db_update (by_pk (ConsistencyGroup.ID cg)) (λ r, r <| ConsistencyGroup.Status := st |>)).

Definition no_snapshots (cg : ConsistencyGroup.t) (what : string) : M unit :=
  n ← wrap ErrDatabaseError "Failed to count snapshots"
        (db_count (λ s, ConsistencyGroupSnapshot.CGID s =? ConsistencyGroup.ID cg));
  require (negb (0 <? n))
    (NewCLError ErrCGSnapshotExists ("Consistency group has snapshots, cannot " +:+ what) None).

(** The group an operation with the right [Writer] may change: found, owned,
    available, without snapshots. *)
Definition updatable_group (m : MemberShip.t) (id : Z) (denied what : string)
    : M ConsistencyGroup.t :=
  cg ← take_group id;
  _ ← require (ValidateOwner m Writer (ConsistencyGroup.Owner cg)) (PermissionDenied denied);
  _ ← require (ConsistencyGroup_CanUpdate cg)
        (NewCLError ErrCGInvalidState
           ("Consistency group is not available for update, status: "
            +:+ ConsistencyGroup.Status cg) None);
  _ ← no_snapshots cg what;
  mret cg.

Definition ConsistencyGroupAdmin_Update (id : Z) (name description : string)
    : M ConsistencyGroup.t :=
  m ← GetMemberShip;
  GetContextDB (
    cg ← updatable_group m id "Not authorized to update consistency group" "update";
    with_tx (
      _ ← (if String.eqb name "" && String.eqb description "" then mret tt
           else wrap ErrCGUpdateFailed "Failed to update consistency group"
             (db_update (by_id (ConsistencyGroup.ID cg))
               (λ r, r <| ConsistencyGroup.Name :=
                            if String.eqb name "" then ConsistencyGroup.Name r else name |>
                       <| ConsistencyGroup.Description :=
                            if String.eqb description "" then ConsistencyGroup.Description r
                            else description |>)));
      mret cg)).

Definition ConsistencyGroupAdmin_Delete (id : Z) : M unit :=
  m ← GetMemberShip;
  GetContextDB (
    cg ← take_group id;
    _ ← require (ValidateOwner m Writer (ConsistencyGroup.Owner cg))
          (PermissionDenied "Not authorized to delete consistency group");
    _ ← require (ConsistencyGroup_CanDelete cg)
          (NewCLError ErrCGIsBusy
             ("Consistency group is busy, status: " +:+ ConsistencyGroup.Status cg) None);
    _ ← no_snapshots cg "delete";
    with_tx (
      _ ← set_group_status ErrCGDeleteFailed cg CGStatusDeleting;
      execute_or ErrCGDeleteFailed "Failed to execute delete CG script"
        (wds_script "delete_cg" [fmt_d (ConsistencyGroup.ID cg); ConsistencyGroup.WdsCgID cg])
        (mret tt) tt)).

(** [Preload("Volume")] on join rows. *)
Definition preload_volumes (cgvs : list ConsistencyGroupVolume.t)
    : M (list ConsistencyGroupVolume.t) :=
  let keys := List.filter (λ k, negb (k =? 0)) (map ConsistencyGroupVolume.VolumeID cgvs) in
  match keys with
  | [] => mret (map (λ r, r <| ConsistencyGroupVolume.Volume := None |>) cgvs)
  | _ =>
      vols ← db_find (λ v, existsb (Z.eqb (Volume.ID v)) keys);
      mret (map (λ r, r <| ConsistencyGroupVolume.Volume :=
        List.find (λ v, Volume.ID v =? ConsistencyGroupVolume.VolumeID r) vols |>) cgvs)
  end.

Definition of_group (cgID : Z) (r : ConsistencyGroupVolume.t) : bool :=
  ConsistencyGroupVolume.CGID r =? cgID.

(** [db.Preload("Volume").Where("cg_id = ?", cgID).Find(&cgVolumes)] *)
Definition find_group_volumes (cgID : Z) : M (list ConsistencyGroupVolume.t) :=
  cgvs ← db_find (of_group cgID);
  preload_volumes cgvs.

(** The error of the query is not looked at: join rows whose volumes could not be
    read have nil volumes. *)
Definition ConsistencyGroupAdmin_GetVolumes (id : Z) : M (list (option Volume.t)) :=
  m ← GetMemberShip;
  GetContextDB (
    cg ← take_group id;
    _ ← require (ValidateOwner m Reader (ConsistencyGroup.Owner cg))
          (PermissionDenied "Not authorized to get volumes of consistency group");
    cgvs ← try (db_find (of_group (ConsistencyGroup.ID cg)));
    match cgvs with
    | inr _ => mret []
    | inl cgvs =>
        full ← try (preload_volumes cgvs);
        mret (match full with
              | inl l => map ConsistencyGroupVolume.Volume l
              | inr _ => map (λ _, None) cgvs
              end)
    end).

(** No join row satisfies [p vol], for any of the volumes. *)
Definition none_associated (dbmsg msg : string)
    (p : Volume.t → ConsistencyGroupVolume.t → bool) (vols : list Volume.t) : M unit :=
  for_each vols (λ vol,
    n ← wrap ErrDatabaseError dbmsg (db_count (p vol));
    require (negb (0 <? n))
      (NewCLError ErrInvalidParameter ("Volume " +:+ Volume.UUID vol +:+ msg) None)).

Definition associates (cgID : Z) (vol : Volume.t) (r : ConsistencyGroupVolume.t) : bool :=
  (ConsistencyGroupVolume.CGID r =? cgID) && (ConsistencyGroupVolume.VolumeID r =? Volume.ID vol).

Definition ConsistencyGroupAdmin_AddVolumes (id : Z) (volumeUUIDs : list string)
    : M ConsistencyGroup.t :=
  m ← GetMemberShip;
  GetContextDB (
    cg ← updatable_group m id "Not authorized to add volumes to consistency group" "add volumes";
    _ ← require (negb (length volumeUUIDs =? 0)%nat)
          (NewCLError ErrInvalidParameter "At least one volume is required" None);
    vols ← load_volumes volumeUUIDs;
    _ ← check_volume_states vols;
    _ ← none_associated "Failed to check volume association" " is already in consistency group"
          (associates (ConsistencyGroup.ID cg)) vols;
    _ ← none_associated "Failed to check volume in other CGs"
          " is already in another consistency group"
          (λ vol r, ConsistencyGroupVolume.VolumeID r =? Volume.ID vol) vols;
    with_tx (
      _ ← set_group_status ErrCGUpdateFailed cg CGStatusUpdating;
      _ ← associate ErrCGUpdateFailed (ConsistencyGroup.ID cg) vols;
      execute_or ErrCGUpdateFailed "Failed to execute add volumes to CG script"
        (wds_script "add_volumes_to_cg"
           [fmt_d (ConsistencyGroup.ID cg); ConsistencyGroup.WdsCgID cg; wds_ids vols])
        (mret tt) (cg <| ConsistencyGroup.Status := CGStatusUpdating |>))).

Definition ConsistencyGroupAdmin_RemoveVolume (id : Z) (volumeUUID : string)
    : M ConsistencyGroup.t :=
  m ← GetMemberShip;
  GetContextDB (
    cg ← updatable_group m id "Not authorized to remove volume from consistency group"
           "remove volume";
    volume ← wrap ErrVolumeNotFound ("Volume " +:+ volumeUUID +:+ " not found")
               (db_take (λ v, String.eqb (Volume.UUID v) volumeUUID));
    cgVolume ← wrap ErrInvalidParameter
                 ("Volume " +:+ volumeUUID +:+ " is not in consistency group")
                 (db_take (associates (ConsistencyGroup.ID cg) volume));
    with_tx (
      _ ← set_group_status ErrCGUpdateFailed cg CGStatusUpdating;
      _ ← wrap ErrCGUpdateFailed "Failed to delete volume association"
            (db_delete (R := ConsistencyGroupVolume.t)
               (by_pk (ConsistencyGroupVolume.ID cgVolume)));
      execute_or ErrCGUpdateFailed "Failed to execute remove volume from CG script"
        (wds_script "remove_volumes_from_cg"
           [fmt_d (ConsistencyGroup.ID cg); ConsistencyGroup.WdsCgID cg; wds_ids [volume]])
        (mret tt) (cg <| ConsistencyGroup.Status := CGStatusUpdating |>))).

(** ** Snapshots *)

Definition ConsistencyGroupAdmin_GetSnapshot (id : Z) : M ConsistencyGroupSnapshot.t :=
  GetContextDB (
    wrap ErrCGSnapshotNotFound "Snapshot not found"
      (db_get (R := ConsistencyGroupSnapshot.t) id)).

Definition ConsistencyGroupAdmin_GetSnapshotByUUID (uuid : string)
    : M ConsistencyGroupSnapshot.t :=
  GetContextDB (
    wrap ErrCGSnapshotNotFound "Snapshot not found"
      (db_take (λ s, String.eqb (ConsistencyGroupSnapshot.UUID s) uuid))).

Definition ConsistencyGroupAdmin_ListSnapshots (cgID offset limit : Z) (order : string)
    : M (Z * list ConsistencyGroupSnapshot.t) :=
  GetContextDB (
    let query s := ConsistencyGroupSnapshot.CGID s =? cgID in
    total ← wrap ErrDatabaseError "Failed to count snapshots" (db_count query);
    let order := if String.eqb order "" then "-created_at" else order in
    snapshots ← wrap ErrDatabaseError "Failed to list snapshots"
                  (db_page (NewOrders order []) offset limit query);
    mret (total, snapshots)).

(** The group of a snapshot operation: found by its identifier and owned. *)
Definition writable_group (cgUUID what : string) : M ConsistencyGroup.t :=
  cg ← ConsistencyGroupAdmin_GetByUUID cgUUID;
  m ← GetMemberShip;
  _ ← require (ValidateOwner m Writer (ConsistencyGroup.Owner cg))
        (PermissionDenied ("Not authorized to " +:+ what +:+ " snapshot for this consistency group"));
  mret cg.

(** The volumes of a group, of which there must be one. *)
Definition group_volumes (cg : ConsistencyGroup.t) : M (list ConsistencyGroupVolume.t) :=
  cgvs ← wrap ErrDatabaseError "Failed to get volumes for consistency group"
           (find_group_volumes (ConsistencyGroup.ID cg));
  _ ← require (negb (length cgvs =? 0)%nat)
        (NewCLError ErrCGNoVolumes "Consistency group has no volumes" None);
  mret cgvs.

Definition volume_busy_error (what : string) (v : Volume.t) : error :=
  NewCLError ErrCGVolumeIsBusy
    ("Volume " +:+ Volume.UUID v +:+ " is busy (status: " +:+ Volume.Status v
     +:+ "), cannot " +:+ what +:+ " now") None.

(** The status of the volume of every join row; a nil volume is dereferenced. *)
Definition set_volumes_status (st : string) (cgvs : list ConsistencyGroupVolume.t) : M unit :=
  for_each cgvs (λ cgv,
    v ← deref (ConsistencyGroupVolume.Volume cgv);
    wrap ErrDatabaseError "Failed to update volume status"
      (db_update (by_id (Volume.ID v)) (λ r, r <| Volume.Status := st |>))).

Definition cg_task (cg : ConsistencyGroup.t) (name summary action : string) : Task.t :=
  Task.zero
    <| Task.Owner := ConsistencyGroup.Owner cg |>
    <| Task.Name := name |>
    <| Task.Summary := summary |>
    <| Task.Status := TaskStatusRunning |>
    <| Task.Source := TaskSourceManual |>
    <| Task.Action := action |>.

(** [db.Model(snapshot).Update("status", st)], unchecked. *)
Definition snapshot_failed (task : Task.t) (s : ConsistencyGroupSnapshot.t) : M unit :=
  _ ← task_failed task;
  _ ← try (db_update (by_pk (ConsistencyGroupSnapshot.ID s))
             (λ r, r <| ConsistencyGroupSnapshot.Status := CGSnapshotStatusError |>));
  mret tt.

(** The task, the snapshot and the state of the volumes of a new snapshot. *)
Definition record_snapshot (cg : ConsistencyGroup.t) (cgvs : list ConsistencyGroupVolume.t)
    (name description : string) : M (Task.t * ConsistencyGroupSnapshot.t) :=
  task ← wrap ErrDatabaseError "Failed to create task record"
    (db_create (cg_task cg ("create_cg_snapshot_" +:+ ConsistencyGroup.UUID cg)
       ("Creating snapshot for consistency group " +:+ ConsistencyGroup.Name cg)
       TaskActionSnapshot));
  snapshot ← wrap ErrDatabaseError "Failed to create snapshot record"
    (db_create (ConsistencyGroupSnapshot.zero
      <| ConsistencyGroupSnapshot.Owner := ConsistencyGroup.Owner cg |>
      <| ConsistencyGroupSnapshot.Name := name |>
      <| ConsistencyGroupSnapshot.Description := description |>
      <| ConsistencyGroupSnapshot.Status := CGSnapshotStatusPending |>
      <| ConsistencyGroupSnapshot.CGID := ConsistencyGroup.ID cg |>
      <| ConsistencyGroupSnapshot.TaskID := Task.ID task |>));
  _ ← set_volumes_status VolumeStatusBackuping cgvs;
  mret (task, snapshot).

Definition create_snapshot_script (cg : ConsistencyGroup.t) (s : ConsistencyGroupSnapshot.t)
    : string :=
  wds_script "create_cg_snapshot"
    [fmt_d (ConsistencyGroup.ID cg); fmt_d (ConsistencyGroupSnapshot.ID s);
     "cg_snap_" +:+ ConsistencyGroupSnapshot.UUID s; ConsistencyGroup.WdsCgID cg].

(** No volume of the group is in the middle of an operation. *)
Definition volumes_idle (what : string) (cgvs : list ConsistencyGroupVolume.t) : M unit :=
  for_each cgvs (λ cgv,
    v ← deref (ConsistencyGroupVolume.Volume cgv);
    require (negb (Volume_IsBusy v)) (volume_busy_error what v)).

Definition ConsistencyGroupAdmin_CreateSnapshot (cgUUID name description : string)
    : M ConsistencyGroupSnapshot.t :=
  cg ← writable_group cgUUID "create";
  _ ← require (ConsistencyGroup_IsAvailable cg)
        (NewCLError ErrCGInvalidState
           ("Consistency group is not available (status: " +:+ ConsistencyGroup.Status cg
            +:+ ")") None);
  GetContextDB (
    cgvs ← group_volumes cg;
    _ ← volumes_idle "create snapshot" cgvs;
    with_tx (
      ts ← record_snapshot cg cgvs name description;
      execute_or ErrExecuteOnHyperFailed "Failed to execute create CG snapshot script"
        (create_snapshot_script cg ts.2) (snapshot_failed ts.1 ts.2) ts.2)).

(** [db.Where("uuid = ? AND cg_id = ?", ..).First(snapshot)] *)
Definition first_snapshot (cg : ConsistencyGroup.t) (uuid : string)
    : M ConsistencyGroupSnapshot.t :=
  wrap ErrCGSnapshotNotFound ("Snapshot " +:+ uuid +:+ " not found")
    (db_take_by
       (λ a b, ConsistencyGroupSnapshot.ID a <=? ConsistencyGroupSnapshot.ID b)
       (λ s, String.eqb (ConsistencyGroupSnapshot.UUID s) uuid
             && (ConsistencyGroupSnapshot.CGID s =? ConsistencyGroup.ID cg))).

(** [db.Model(snapshot).Updates({"status": st, "task_id": task.ID})] *)
Definition set_snapshot (s : ConsistencyGroupSnapshot.t) (st : string) (task : Task.t) : M unit :=
  wrap ErrDatabaseError "Failed to update snapshot status"
    (db_update (by_pk (ConsistencyGroupSnapshot.ID s))
       (λ r, r <| ConsistencyGroupSnapshot.Status := st |>
               <| ConsistencyGroupSnapshot.TaskID := Task.ID task |>)).

Definition ConsistencyGroupAdmin_DeleteSnapshot (cgUUID snapUUID : string) : M unit :=
  cg ← writable_group cgUUID "delete";
  GetContextDB (
    snapshot ← first_snapshot cg snapUUID;
    _ ← require (ConsistencyGroupSnapshot_CanDelete snapshot)
          (NewCLError ErrCGSnapshotIsBusy
             ("Snapshot is busy (status: " +:+ ConsistencyGroupSnapshot.Status snapshot
              +:+ ") and cannot be deleted") None);
    with_tx (
      if String.eqb (ConsistencyGroupSnapshot.Status snapshot) CGSnapshotStatusError
         && String.eqb (ConsistencyGroupSnapshot.WdsSnapID snapshot) "" then
        wrap ErrDatabaseError "Failed to delete snapshot record"
          (db_delete (R := ConsistencyGroupSnapshot.t)
             (by_pk (ConsistencyGroupSnapshot.ID snapshot)))
      else
        task ← wrap ErrDatabaseError "Failed to create task record"
          (db_create (cg_task cg
             ("delete_cg_snapshot_" +:+ ConsistencyGroupSnapshot.UUID snapshot)
             ("Deleting snapshot " +:+ ConsistencyGroupSnapshot.Name snapshot
              +:+ " from consistency group " +:+ ConsistencyGroup.Name cg)
             TaskActionSnapshot));
        _ ← set_snapshot snapshot CGSnapshotStatusDeleting task;
        execute_or ErrExecuteOnHyperFailed "Failed to execute delete CG snapshot script"
          (wds_script "delete_cg_snapshot"
             [fmt_d (ConsistencyGroupSnapshot.ID snapshot);
              ConsistencyGroupSnapshot.WdsSnapID snapshot])
          (snapshot_failed task snapshot) tt)).

(** One entry of the JSON list of volumes. *)
Definition volume_info (v : Volume.t) : json :=
  JObj [("vol_id", JNum (Volume.ID v)); ("wds_id", JStr (Volume_GetOriginVolumeID v));
        ("instance_id", JNum (if 0 <? Volume.InstanceID v then Volume.InstanceID v else 0))].

(** The loop that collects the volumes and their instances; [im] is the map of
    the instances read so far. *)
Fixpoint collect_volumes (cgvs : list ConsistencyGroupVolume.t) (im : gmap Z Instance.t)
    : M (list json * gmap Z Instance.t) :=
  match cgvs with
  | [] => mret ([], im)
  | cgv :: cgvs =>
      vol ← deref (ConsistencyGroupVolume.Volume cgv);
      _ ← require (negb (Volume_IsBusy vol)) (volume_busy_error "restore" vol);
      im ← (if 0 <? Volume.InstanceID vol then
              match im !! Volume.InstanceID vol with
              | Some _ => mret im
              | None =>
                  instance ← wrap ErrInstanceNotFound
                    ("Instance not found for volume " +:+ Volume.UUID vol)
                    (db_get (R := Instance.t) (Volume.InstanceID vol));
                  mret (<[Volume.InstanceID vol := instance]> im)
              end
            else
              _ ← require (negb (String.eqb (Volume.Status vol) "attached"))
                    (NewCLError ErrCGVolumeAttachedNoInstance
                       ("Volume " +:+ Volume.UUID vol
                        +:+ " status is attached but has no instance") None);
              mret im);
      res ← collect_volumes cgvs im;
      mret (volume_info vol :: res.1, res.2)
  end.

Definition not_shutoff_error (i : Instance.t) : error :=
  NewCLError ErrCGInstanceNotShutoff
    ("Instance " +:+ Instance.Hostname i +:+ " (ID: " +:+ fmt_d (Instance.ID i)
     +:+ ") is not shutoff (status: " +:+ Instance.Status i
     +:+ "), all instances must be stopped before restoring CG snapshot") None.

(** The task, the state of the snapshot and of the volumes of a restore. *)
Definition record_restore (cg : ConsistencyGroup.t) (snapshot : ConsistencyGroupSnapshot.t)
    (cgvs : list ConsistencyGroupVolume.t) : M Task.t :=
  task ← wrap ErrDatabaseError "Failed to create restore task"
    (db_create (cg_task cg
       ("restore_cg_snapshot_" +:+ ConsistencyGroupSnapshot.UUID snapshot)
       ("Restoring consistency group " +:+ ConsistencyGroup.Name cg +:+ " from snapshot "
        +:+ ConsistencyGroupSnapshot.Name snapshot)
       TaskActionRestore));
  _ ← set_snapshot snapshot CGSnapshotStatusRestoring task;
  _ ← set_volumes_status "restoring" cgvs;
  mret task.

Definition restore_script (cg : ConsistencyGroup.t) (snapshot : ConsistencyGroupSnapshot.t)
    (volumesJSON : string) : string :=
  wds_script "restore_cg_snapshot"
    [fmt_d (ConsistencyGroupSnapshot.ID snapshot); fmt_d (ConsistencyGroup.ID cg);
     ConsistencyGroup.WdsCgID cg; ConsistencyGroupSnapshot.WdsSnapID snapshot; volumesJSON].

(** The range over the map has no fixed order; only the instance the error names
    depends on it. *)
Definition ConsistencyGroupAdmin_RestoreSnapshot (cgUUID snapshotUUID : string) : M Task.t :=
  cg ← writable_group cgUUID "restore";
  GetContextDB (
    snapshot ← first_snapshot cg snapshotUUID;
    _ ← require (negb (String.eqb (ConsistencyGroupSnapshot.Status snapshot)
                         CGSnapshotStatusRestoring))
          (NewCLError ErrCGSnapshotRestoreInProgress
             ("Snapshot " +:+ ConsistencyGroupSnapshot.UUID snapshot
              +:+ " has a restore operation already in progress") None);
    _ ← require (ConsistencyGroupSnapshot_CanRestore snapshot)
          (NewCLError ErrCGSnapshotCannotRestore
             ("Snapshot " +:+ ConsistencyGroupSnapshot.UUID snapshot
              +:+ " cannot be restored (status: " +:+ ConsistencyGroupSnapshot.Status snapshot
              +:+ ")") None);
    cgvs ← group_volumes cg;
    infos ← collect_volumes cgvs ∅;
    _ ← for_each (map_to_list infos.2) (λ ki,
          require (String.eqb (Instance.Status ki.2) InstanceStatusShutoff)
            (not_shutoff_error ki.2));
    let volumesJSON := Marshal (JArr infos.1) in
    with_tx (
      task ← record_restore cg snapshot cgvs;
      execute_or ErrExecuteOnHyperFailed "Failed to execute restore CG snapshot script"
        (restore_script cg snapshot volumesJSON) (snapshot_failed task snapshot) task)).

End consistency_group.

(** ** What the parts of the operations do *)

Section group_lemmas.
Context {G : Gorm} {E : Env} {GOk : GormOk G}.
Implicit Types (c : Ctx) (w : World) (cg : ConsistencyGroup.t).

Lemma take_group_Ok id c w cg w' :
  take_group id c w = (Ok cg, w') →
  rows (consistency_groups (db w)) !! ConsistencyGroup.ID cg = Some cg ∧
  (id ≠ 0 → ConsistencyGroup.ID cg = id) ∧ db w' = db w ∧ sent w' = sent w.
Proof.
  unfold take_group. intros H. go_ok. tables.
  match goal with Ht : g_take _ _ = _ |- _ => pose proof Ht as [_ Hr]%take_some end.
  split_and!; try done. intros Hid.
  match goal with Ht : g_take _ _ = _ |- _ => by apply take_pk_row in Ht as [_ ?] end.
Qed.

Lemma group_by_uuid_Ok uuid c w cg w' :
  ConsistencyGroupAdmin_GetByUUID uuid c w = (Ok cg, w') →
  rows (consistency_groups (db w)) !! ConsistencyGroup.ID cg = Some cg ∧
  ConsistencyGroup.UUID cg = uuid ∧ db w' = db w ∧ sent w' = sent w.
Proof.
  unfold ConsistencyGroupAdmin_GetByUUID. intros H. go_ok. tables.
  match goal with Ht : g_take _ _ = _ |- _ => apply take_some in Ht as [Hu Hr] end.
  apply String.eqb_eq in Hu. done.
Qed.

Lemma writable_group_Ok uuid what c w cg w' :
  writable_group uuid what c w = (Ok cg, w') →
  rows (consistency_groups (db w)) !! ConsistencyGroup.ID cg = Some cg ∧
  ConsistencyGroup.UUID cg = uuid ∧
  ValidateOwner (caller c) Writer (ConsistencyGroup.Owner cg) = true ∧
  db w' = db w ∧ sent w' = sent w.
Proof.
  unfold writable_group. intros H. apply bind_Ok in H as (x & w1 & Hg & H). go_ok.
  apply group_by_uuid_Ok in Hg as (? & ? & ? & ?). done.
Qed.

Lemma updatable_group_Ok m id denied what c w cg w' :
  updatable_group m id denied what c w = (Ok cg, w') →
  rows (consistency_groups (db w)) !! ConsistencyGroup.ID cg = Some cg ∧
  (id ≠ 0 → ConsistencyGroup.ID cg = id) ∧
  ValidateOwner m Writer (ConsistencyGroup.Owner cg) = true ∧
  ConsistencyGroup.Status cg = CGStatusAvailable ∧
  (∀ k s, rows (cg_snapshots (db w)) !! k = Some s →
     ConsistencyGroupSnapshot.CGID s ≠ ConsistencyGroup.ID cg) ∧
  db w' = db w ∧ sent w' = sent w.
Proof.
  unfold updatable_group, no_snapshots. intros H. apply bind_Ok in H as (x & w1 & Hg & H).
  apply take_group_Ok in Hg as (? & ? & Hd & Hs). go_ok. flat.
  match goal with Hc : ConsistencyGroup_CanUpdate _ = true |- _ =>
    apply String.eqb_eq in Hc end.
  split_and!; try done. intros k s Hr Hk.
  match goal with Hn : negb (0 <? _) = true |- _ =>
    pose proof (count_none _ _ Hn _ _ Hr) as Hf; simpl in Hf end.
  by apply Z.eqb_neq in Hf.
Qed.

Lemma load_volumes_Ok uuids c w vs w' :
  load_volumes uuids c w = (Ok vs, w') →
  Forall2 (λ u v, Volume.UUID v = u ∧ rows (volumes (db w)) !! Volume.ID v = Some v) uuids vs ∧
  db w' = db w ∧ sent w' = sent w.
Proof.
  revert w vs w'. induction uuids as [|u uuids IH]; intros w vs w' H; simpl in H; go_ok; [done|].
  match goal with Hl : load_volumes _ _ _ = _ |- _ => apply IH in Hl as (Hf & Hd & Hs) end.
  match goal with Ht : g_take _ _ = _ |- _ => apply take_some in Ht as [Hu Hr] end.
  apply String.eqb_eq in Hu. flat. split_and!; try done. constructor; [done|].
  eapply Forall2_impl; [done|]. done.
Qed.

Lemma load_volumes_reads uuids : reads (load_volumes uuids).
Proof.
  apply reads_preserves. intros d. induction uuids as [|u uuids IH]; simpl; pres.
Qed.

(** Distinct identifiers name distinct volumes. *)
Lemma loaded_distinct d uuids vs :
  NoDup uuids →
  Forall2 (λ u v, Volume.UUID v = u ∧ rows (volumes d) !! Volume.ID v = Some v) uuids vs →
  NoDup (map Volume.ID vs).
Proof.
  intros Hnd Hf. induction Hf as [|u v uuids vs [Hu Hr] Hf IH]; simpl; [constructor|].
  apply NoDup_cons in Hnd as [Hnu Hnd]. constructor; [|by apply IH].
  intros (v' & Hid & Hin)%list_elem_of_fmap. apply Hnu.
  apply list_elem_of_lookup in Hin as [i Hi].
  destruct (Forall2_lookup_r _ _ _ _ _ Hf Hi) as (u' & Hu' & <- & Hr').
  apply list_elem_of_lookup_2 in Hu'.
  rewrite <- Hid, Hr in Hr'. by simplify_eq.
Qed.

Lemma none_associated_Ok dbmsg msg p vols c w u w' :
  none_associated dbmsg msg p vols c w = (Ok u, w') →
  Forall (λ v, ∀ k r, rows (cg_volumes (db w)) !! k = Some r → p v r = false) vols ∧
  db w' = db w ∧ sent w' = sent w.
Proof.
  unfold none_associated. revert w. induction vols as [|v vols IH]; intros w H; simpl in H; go_ok;
    [done|].
  match goal with Hl : for_each _ _ _ _ = _ |- _ => apply IH in Hl as (Hf & Hd & Hs) end.
  flat. split_and!; try done. constructor; [|done].
  by apply count_none.
Qed.

Lemma check_volume_states_Ok vols c w u w' :
  check_volume_states vols c w = (Ok u, w') →
  Forall (λ v, Volume_IsError v = false ∧ Volume_IsBusy v = false) vols ∧ w' = w.
Proof.
  unfold check_volume_states. revert w. induction vols as [|v vols IH]; intros w H; simpl in H;
    go_ok; [done|].
  match goal with Hl : for_each _ _ _ _ = _ |- _ => apply IH in Hl as [Hf ->] end.
  split; [|done]. constructor; [|done]. by simp.
Qed.

(** [for_each] over a step that keeps the database and the posted commands. *)
Lemma check_volume_states_reads vols : reads (check_volume_states vols).
Proof. unfold check_volume_states. reads_tac. Qed.

Lemma none_associated_reads dbmsg msg p vols : reads (none_associated dbmsg msg p vols).
Proof. unfold none_associated. reads_tac. Qed.

Lemma updatable_group_reads m id denied what : reads (updatable_group m id denied what).
Proof. unfold updatable_group, take_group, no_snapshots. reads_tac. Qed.

Lemma execute_or_db {A} code msg command undo (a : A) c w :
  reads undo → db (execute_or code msg command undo a c w).2 = db w.
Proof.
  intros Hu. unfold execute_or, mbind, M_bind, try, HyperExecute.
  destruct (post_result (clock w)); simpl; [done|..];
    match goal with |- context [undo c ?w1] => pose proof (Hu c w1) as H; by destruct (undo c w1) as [[]] end.
Qed.

End group_lemmas.

(** ** The members of the groups

    A volume is in one group at most, and the volume of every join row exists. *)

Record groups_ok {G : Gorm} (d : DB) : Prop := {
  one_group k1 k2 r1 r2 :
    rows (cg_volumes d) !! k1 = Some r1 → rows (cg_volumes d) !! k2 = Some r2 →
    ConsistencyGroupVolume.VolumeID r1 = ConsistencyGroupVolume.VolumeID r2 → k1 = k2;
  members_exist k r :
    rows (cg_volumes d) !! k = Some r →
    is_Some (rows (volumes d) !! ConsistencyGroupVolume.VolumeID r)
}.

(** The volume with this key is in no group. *)
Definition ungrouped {G : Gorm} (d : DB) (volID : Z) : Prop :=
  ∀ k r, rows (cg_volumes d) !! k = Some r → ConsistencyGroupVolume.VolumeID r ≠ volID.

(** A volume that can join a group. *)
Definition joinable {G : Gorm} (d : DB) (v : Volume.t) : Prop :=
  ungrouped d (Volume.ID v) ∧ is_Some (rows (volumes d) !! Volume.ID v).

Section groups_ok.
Context {G : Gorm} {E : Env} {GOk : GormOk G}.
Implicit Types (c : Ctx) (w : World) (cg : ConsistencyGroup.t).

Lemma groups_ok_same d d' :
  cg_volumes d' = cg_volumes d → volumes d' = volumes d → groups_ok d → groups_ok d'.
Proof. intros Hc Hv [H1 H2]. by split; rewrite Hc, ?Hv. Qed.

Lemma groups_ok_delete p d :
  groups_ok d → groups_ok (d <| cg_volumes := g_delete p (cg_volumes d) |>).
Proof.
  intros Hd. split.
  - intros k1 k2 r1 r2. cbn. rewrite !delete_spec.
    destruct (rows (cg_volumes d) !! k1) as [x1|] eqn:H1; [|done].
    destruct (rows (cg_volumes d) !! k2) as [x2|] eqn:H2; [|done].
    destruct (p x1), (p x2); intros; simplify_eq. by eapply (one_group _ Hd).
  - intros k r. cbn. rewrite delete_spec. destruct (rows (cg_volumes d) !! k) as [x|] eqn:Hx; [|done].
    destruct (p x); intros; simplify_eq. by eapply members_exist.
Qed.

Lemma groups_ok_update p (f : Volume.t → Volume.t) d :
  keeps_id f → groups_ok d → groups_ok (d <| volumes := g_update p f (volumes d) |>).
Proof.
  intros Hf [H1 H2]. split; [done|]. intros k r Hr. cbn in *.
  rewrite update_lookup by done. destruct (H2 _ _ Hr) as [v ->]. simpl. eauto.
Qed.

(** The deletion of a volume that is in no group. *)
Lemma groups_ok_delete_volume k d :
  k ≠ 0 → ungrouped d k → groups_ok d →
  groups_ok (d <| volumes := g_delete (R := Volume.t) (by_pk k) (volumes d) |>).
Proof.
  intros Hk Hu [H1 H2]. split; [done|]. intros j r Hr. cbn in *.
  rewrite delete_pk by done. rewrite lookup_delete_ne; [by eapply H2|].
  intros Heq. by eapply Hu.
Qed.

(** A new join row for a volume that is in no group. *)
Lemma create_join_row d r r' t :
  g_create r (cg_volumes d) = (r', t) →
  ConsistencyGroupVolume.VolumeID r' = ConsistencyGroupVolume.VolumeID r ∧
  ConsistencyGroupVolume.CGID r' = ConsistencyGroupVolume.CGID r ∧
  rows (cg_volumes d) !! ConsistencyGroupVolume.ID r' = None ∧
  rows t = <[ConsistencyGroupVolume.ID r' := r']> (rows (cg_volumes d)).
Proof.
  intros (_ & Hnew & Hr & Ht)%create_spec. simpl in *. rewrite Hr. simpl. by rewrite Hr in *.
Qed.

Lemma groups_ok_create d r r' t :
  groups_ok d → ungrouped d (ConsistencyGroupVolume.VolumeID r) →
  is_Some (rows (volumes d) !! ConsistencyGroupVolume.VolumeID r) →
  g_create r (cg_volumes d) = (r', t) → groups_ok (d <| cg_volumes := t |>).
Proof.
  intros Hd Hu Hv0 (Hv & _ & Hnew & Ht)%create_join_row. split.
  - intros k1 k2 r1 r2. cbn. rewrite Ht.
    rewrite !lookup_insert_Some. intros [[<- <-]|[? H1]] [[<- <-]|[? H2]] Heq; [done| | |].
    + destruct (Hu _ _ H2). congruence.
    + destruct (Hu _ _ H1). congruence.
    + by eapply (one_group _ Hd).
  - intros k x. cbn. rewrite Ht, lookup_insert_Some.
    intros [[<- <-]|[? Hx]]; [by rewrite Hv|by eapply members_exist].
Qed.

(** The join rows of distinct volumes that can join, whatever fails. *)
Lemma associate_groups_ok code cgID vols c w :
  groups_ok (db w) → NoDup (map Volume.ID vols) → Forall (joinable (db w)) vols →
  groups_ok (db (associate code cgID vols c w).2).
Proof.
  unfold associate. revert w. induction vols as [|v vols IH]; intros w Hok Hnd Hun; simpl; [done|].
  apply NoDup_cons in Hnd as [Hnv Hnd]. apply Forall_cons in Hun as [[Huv Hv0] Hun].
  unfold mbind at 1, M_bind at 1. unfold mbind at 1, M_bind at 1, wrap, db_create, stmt.
  destruct (db_fault (clock w)); [done|].
  destruct (g_create _ _) as [r' t] eqn:Hc. cbn in Hc. cbn -[for_each].
  apply IH; [by eapply groups_ok_create; [done| | |exact Hc]|done|].
  apply create_join_row in Hc as (Hv & _ & _ & Ht). apply Forall_forall. intros x Hin.
  destruct (proj1 (Forall_forall _ _) Hun x Hin) as [Hx Hx0]. split; [|done].
  intros k r. cbn. rewrite Ht, lookup_insert_Some. intros [[_ <-]|[_ Hr]]; [|by eapply Hx].
  rewrite Hv. cbn. intros Heq. apply Hnv. rewrite Heq. by apply list_elem_of_fmap_2.
Qed.

Ltac same_groups :=
  pres;
  (first [apply pres_db_update | apply pres_db_create | apply pres_db_delete]; intros;
   first [solve [eapply groups_ok_same; [| |eassumption]; done]|by apply groups_ok_delete|by apply groups_ok_update]).

Lemma pres_execute_or {A} (I : DB → Prop) code msg command undo (a : A) :
  preserves I undo → preserves I (execute_or code msg command undo a).
Proof. intros Hu. unfold execute_or. pres; apply Hu. Qed.

(** The volumes of distinct identifiers become members of a group. *)
Lemma grow_group {A} d0 uuids vs code cgID code' msg command undo (a : A) c w :
  NoDup uuids →
  Forall2 (λ u v, Volume.UUID v = u ∧ rows (volumes d0) !! Volume.ID v = Some v) uuids vs →
  volumes (db w) = volumes d0 →
  Forall (λ v, ungrouped (db w) (Volume.ID v)) vs → preserves groups_ok undo →
  groups_ok (db w) →
  groups_ok (db ((_ ← associate code cgID vs; execute_or code' msg command undo a) c w).2).
Proof.
  intros Hnd Hl Hv Hun Hu Hw. apply run_bind.
  - apply associate_groups_ok; [done|by eapply loaded_distinct|].
    apply Forall_forall. intros v Hin. split; [exact (proj1 (Forall_forall _ _) Hun v Hin)|].
    apply list_elem_of_lookup in Hin as [i Hi].
    destruct (Forall2_lookup_r _ _ _ _ _ Hl Hi) as (u & _ & _ & Hrow). rewrite Hv. eauto.
  - intros u w1 _ H1. by apply pres_execute_or.
Qed.

(** [AddVolumes] with distinct identifiers keeps the invariant in every outcome. *)
Lemma add_volumes_groups_ok id uuids :
  NoDup uuids → preserves groups_ok (ConsistencyGroupAdmin_AddVolumes id uuids).
Proof.
  intros Hnd c w Hw. unfold ConsistencyGroupAdmin_AddVolumes, GetContextDB.
  unfold mbind at 1, M_bind at 1, GetMemberShip.
  apply after_read; [apply updatable_group_reads|done|]. intros cg w1 _ Hd1 Hw1.
  apply after_read; [reads_tac|done|]. intros _ w2 [_ <-]%require_Ok _ _.
  apply after_read; [apply load_volumes_reads|done|]. intros vs w3 Hl Hd3 Hw3.
  apply load_volumes_Ok in Hl as (Hl & _).
  apply after_read; [apply check_volume_states_reads|done|]. intros u4 w4 _ Hd4 Hw4.
  apply after_read; [apply none_associated_reads|done|]. intros u5 w5 _ Hd5 Hw5.
  apply after_read; [apply none_associated_reads|done|]. intros u6 w6 Hn Hd6 Hw6.
  apply none_associated_Ok in Hn as (Hn & _). rewrite with_tx_nested by done.
  apply run_bind; [unfold set_group_status; revert Hw6; apply pres_wrap; same_groups|].
  intros u7 w7 Hs Hw7. unfold set_group_status in Hs. apply wrap_Ok, db_update_Ok in Hs as [Hd7 _].
  rewrite <- Hd6 in Hn.
  eapply grow_group; [done|exact Hl|rewrite Hd7; simpl; congruence| |same_groups|done].
  eapply Forall_impl; [exact Hn|]. intros v Hv k r Hr Heq.
  rewrite Hd7 in Hr. specialize (Hv _ _ Hr). simpl in Hv. by apply Z.eqb_neq in Hv.
Qed.

(** [Create] keeps it when its volumes are distinct and in no group. *)
Lemma create_group_groups_ok name description uuids c w :
  NoDup uuids →
  (∀ k v, rows (volumes (db w)) !! k = Some v → Volume.UUID v ∈ uuids → ungrouped (db w) k) →
  groups_ok (db w) →
  groups_ok (db (ConsistencyGroupAdmin_Create name description uuids c w).2).
Proof.
  intros Hnd Hun Hw. unfold ConsistencyGroupAdmin_Create, GetContextDB.
  unfold mbind at 1, M_bind at 1, GetMemberShip.
  apply after_read; [reads_tac|done|]. intros _ w1 [_ <-]%require_Ok _ _.
  apply after_read; [reads_tac|done|]. intros _ w1 [_ <-]%require_Ok _ _.
  apply after_read; [apply load_volumes_reads|done|]. intros vs w1 Hl Hd1 Hw1.
  apply load_volumes_Ok in Hl as (Hl & _).
  apply after_read; [apply check_volume_states_reads|done|]. intros u2 w2 _ Hd2 Hw2.
  rewrite with_tx_nested by done.
  apply run_bind; [revert Hw2; apply pres_wrap; same_groups|]. intros cg w3 Hc Hw3. go_ok.
  apply run_bind; [revert Hw3; apply pres_wrap; same_groups|]. intros task w4 Ht Hw4. go_ok.
  eapply grow_group; [done|exact Hl| | |unfold task_failed; same_groups|done]; [by flat|].
  apply Forall_forall. intros v Hv k r Hr. flat.
  apply list_elem_of_lookup in Hv as [i Hi].
  destruct (Forall2_lookup_r _ _ _ _ _ Hl Hi) as (u & Hu & <- & Hrow).
  apply list_elem_of_lookup_2 in Hu. by eapply Hun.
Qed.

Lemma remove_volume_groups_ok id uuid :
  preserves groups_ok (ConsistencyGroupAdmin_RemoveVolume id uuid).
Proof.
  unfold ConsistencyGroupAdmin_RemoveVolume, updatable_group, take_group, no_snapshots,
    set_group_status, execute_or. same_groups.
Qed.

Lemma group_changes_groups_ok id name description :
  preserves groups_ok (ConsistencyGroupAdmin_Update id name description) ∧
  preserves groups_ok (ConsistencyGroupAdmin_Delete id).
Proof.
  unfold ConsistencyGroupAdmin_Update, ConsistencyGroupAdmin_Delete, updatable_group, take_group,
    no_snapshots, set_group_status, execute_or. split; same_groups.
Qed.

Lemma pres_collect_volumes (I : DB → Prop) cgvs im : preserves I (collect_volumes cgvs im).
Proof. revert im. induction cgvs as [|x l IH]; intros im; cbn [collect_volumes]; pres; apply IH. Qed.

Lemma snapshots_groups_ok uuid snap name description :
  preserves groups_ok (ConsistencyGroupAdmin_CreateSnapshot uuid name description) ∧
  preserves groups_ok (ConsistencyGroupAdmin_DeleteSnapshot uuid snap) ∧
  preserves groups_ok (ConsistencyGroupAdmin_RestoreSnapshot uuid snap).
Proof.
  unfold ConsistencyGroupAdmin_CreateSnapshot, ConsistencyGroupAdmin_DeleteSnapshot,
    ConsistencyGroupAdmin_RestoreSnapshot, writable_group, ConsistencyGroupAdmin_GetByUUID,
    group_volumes, find_group_volumes, preload_volumes, volumes_idle, record_snapshot,
    record_restore, set_volumes_status, set_snapshot, first_snapshot, snapshot_failed, task_failed,
    execute_or.
  split_and!; pres; try apply pres_collect_volumes;
    (first [apply pres_db_update | apply pres_db_create | apply pres_db_delete]; intros;
     first [solve [eapply groups_ok_same; [| |eassumption]; done]|by apply groups_ok_update]).
Qed.

(** A volume that is in a group is not deleted. *)
Lemma volume_delete_groups_ok v :
  Volume.ID v ≠ 0 → preserves groups_ok (VolumeAdmin_Delete v).
Proof.
  intros Hid. unfold VolumeAdmin_Delete, ConsistencyGroupAdmin_IsVolumeInCG. apply pres_with_tx.
  intros c w Hw. do 3 (apply after_read; [reads_tac|done|]; clear Hw; intros ? ? _ _ Hw).
  apply after_read; [reads_tac|done|]. intros n x2 Hn Hd2 Hx2. rewrite GetContextDB_eq in Hn. go_ok.
  apply after_read; [reads_tac|done|]. intros u x3 [Hn0 <-]%require_Ok _ Hw3.
  apply run_bind.
  - revert Hw3. unfold wrap, db_delete, stmt. destruct (db_fault _); [done|]. cbn. intros Hw3.
    apply groups_ok_delete_volume; [done| |done]. intros k r Hr. flat.
    pose proof (count_none _ _ Hn0 _ _ Hr) as Hf. simpl in Hf. by apply Z.eqb_neq in Hf.
  - intros u1 w4 _ H4. by apply pres_HyperExecute.
Qed.

End groups_ok.

(** ** The volumes of a group and their states *)

(** The keys of the volumes of a group. *)
Definition member_ids {G : Gorm} (d : DB) (cgID : Z) : list Z :=
  map ConsistencyGroupVolume.VolumeID (g_find (of_group cgID) (cg_volumes d)).

(** The volumes with these keys get the status [h] gives them. *)
Definition set_status (ids : list Z) (h : Volume.t → string) (m : gmap Z Volume.t)
    : gmap Z Volume.t :=
  (λ v, if bool_decide (Volume.ID v ∈ ids) then v <| Volume.Status := h v |> else v) <$> m.

(** A status computed from the other columns. *)
Definition status_free (h : Volume.t → string) : Prop :=
  ∀ v st, h (v <| Volume.Status := st |>) = h v.

Lemma set_status_nil h m : set_status [] h m = m.
Proof.
  unfold set_status. rewrite <- (map_fmap_id m) at 2. apply map_fmap_ext. intros k v _.
  by rewrite bool_decide_eq_false_2 by apply not_elem_of_nil.
Qed.

Lemma set_status_twice ids h h' m :
  status_free h → set_status ids h (set_status ids h' m) = set_status ids h m.
Proof.
  intros Hh. unfold set_status. rewrite <- map_fmap_compose. apply map_fmap_ext. intros k v _. simpl.
  destruct (bool_decide (Volume.ID v ∈ ids)) eqn:Hin; simpl; rewrite Hin; [|done]. by rewrite Hh.
Qed.

(** Volumes that have the status already do not change. *)
Lemma set_status_same ids h (m : gmap Z Volume.t) :
  (∀ k v, m !! k = Some v → Volume.ID v ∈ ids → Volume.Status v = h v) → set_status ids h m = m.
Proof.
  intros Hsame. unfold set_status. rewrite <- (map_fmap_id m) at 2. apply map_fmap_ext.
  intros k v Hv. case_bool_decide as Hin; [|done]. rewrite <- (Hsame _ _ Hv Hin). by destruct v.
Qed.

Lemma set_status_lookup ids h m k v :
  m !! k = Some v → Volume.ID v ∈ ids →
  set_status ids h m !! k = Some (v <| Volume.Status := h v |>).
Proof.
  intros Hv Hin. unfold set_status. rewrite lookup_fmap, Hv. simpl.
  by rewrite bool_decide_eq_true_2.
Qed.

Section group_volumes.
Context {G : Gorm} {E : Env} {GOk : GormOk G}.
Implicit Types (c : Ctx) (w : World) (cg : ConsistencyGroup.t).

Lemma set_status_update t ids h v (m : gmap Z Volume.t) :
  (∀ k x, m !! k = Some x → Volume.ID x = k) →
  m !! Volume.ID v = Some v → status_free h → rows t = set_status ids h m →
  rows (g_update (by_id (Volume.ID v)) (λ r, r <| Volume.Status := h v |>) t) =
  set_status (ids ++ [Volume.ID v]) h m.
Proof.
  intros Hm Hv Hh Ht. rewrite update_spec by done. rewrite Ht. unfold set_status.
  rewrite <- map_fmap_compose. apply map_fmap_ext. intros k x Hx. simpl. unfold by_id.
  assert (get_id (if bool_decide (Volume.ID x ∈ ids) then x <| Volume.Status := h x |> else x)
          = Volume.ID x) as -> by (by destruct (bool_decide _)).
  destruct (Z.eqb_spec (Volume.ID x) (Volume.ID v)) as [Heq|Hne].
  - assert (x = v) as -> by (rewrite <- Heq, (Hm _ _ Hx), Hx in Hv; congruence).
    rewrite (bool_decide_eq_true_2 (Volume.ID v ∈ ids ++ _)) by set_solver.
    by destruct (bool_decide _).
  - rewrite (bool_decide_ext (Volume.ID x ∈ ids ++ [Volume.ID v]) (Volume.ID x ∈ ids)); [done|].
    set_solver.
Qed.

(** A loop that sets the status of the volumes of the join rows [l]. *)
Lemma status_loop h m ids (l : list ConsistencyGroupVolume.t) f c w u w' :
  (∀ k x, m !! k = Some x → Volume.ID x = k) → status_free h →
  (∀ x c w u w', x ∈ l → f x c w = (Ok u, w') →
     ∃ v, m !! Volume.ID v = Some v ∧ ConsistencyGroupVolume.VolumeID x = Volume.ID v ∧
       db w' = (db w) <| volumes := g_update (by_id (Volume.ID v))
                 (λ r, r <| Volume.Status := h v |>) (volumes (db w)) |> ∧ sent w' = sent w) →
  rows (volumes (db w)) = set_status ids h m →
  for_each l f c w = (Ok u, w') →
  rows (volumes (db w')) = set_status (ids ++ map ConsistencyGroupVolume.VolumeID l) h m ∧
  db w' = (db w) <| volumes := volumes (db w') |> ∧ sent w' = sent w.
Proof.
  intros Hm Hh. revert w ids. induction l as [|x l IH]; intros w ids Hf Ht H; simpl in H; go_ok.
  - rewrite app_nil_r. split_and!; [done|by destruct (db w')|done].
  - match goal with Hx : f x _ _ = _ |- _ => apply Hf in Hx as (v & Hv & Hk & Hd & Hs) end;
      [|apply list_elem_of_here].
    match goal with Hl : for_each l _ _ ?w1 = _ |- _ =>
      apply (IH w1 (ids ++ [Volume.ID v])) in Hl as (Hr & Hd' & Hs') end.
    + simpl. rewrite Hk. rewrite <- app_assoc in Hr. split_and!; [done| |congruence].
      rewrite Hd', Hd. done.
    + intros y c1 w1 u1 w1' Hy. apply Hf. by apply list_elem_of_further.
    + rewrite Hd. by apply set_status_update.
Qed.

(** The volume [Preload] gives a join row. *)
Definition preloaded (d : DB) (x : ConsistencyGroupVolume.t) : Prop :=
  ConsistencyGroupVolume.Volume x =
  if ConsistencyGroupVolume.VolumeID x =? 0 then None
  else rows (volumes d) !! ConsistencyGroupVolume.VolumeID x.

Lemma preload_find keys t k :
  List.find (λ v, Volume.ID v =? k)
    (g_find (λ v, existsb (Z.eqb (Volume.ID v)) keys) t) =
  if existsb (Z.eqb k) keys then rows t !! k else None.
Proof.
  destruct (List.find _ _) as [v|] eqn:Hf.
  - apply List.find_some in Hf as [Hin Hk]. apply Z.eqb_eq in Hk.
    apply list_elem_of_In, find_spec in Hin as [Hin Hv]. simpl in *. rewrite Hk in *.
    by rewrite Hin.
  - destruct (existsb (Z.eqb k) keys) eqn:Hin; [|done].
    destruct (rows t !! k) as [v|] eqn:Hv; [|done].
    pose proof (rows_id _ _ _ Hv) as Hk. simpl in Hk.
    assert (v ∈ g_find (λ v, existsb (Z.eqb (Volume.ID v)) keys) t) as Hv'
      by (eapply find_lookup; [done|by rewrite Hk]).
    eapply List.find_none in Hf; [|by apply list_elem_of_In]. simpl in Hf. lia.
Qed.

Lemma nonzero_keys k l :
  existsb (Z.eqb k) (List.filter (λ k, negb (k =? 0)) l) = negb (k =? 0) && existsb (Z.eqb k) l.
Proof.
  induction l as [|x l IH]; simpl; [by destruct (k =? 0)|].
  destruct (Z.eqb_spec x 0) as [->|Hx]; simpl; rewrite IH; destruct (Z.eqb_spec k 0) as [->|Hk];
    simpl; try done. by destruct x.
Qed.

Lemma find_group_volumes_Ok cgID c w cgvs w' :
  find_group_volumes cgID c w = (Ok cgvs, w') →
  map ConsistencyGroupVolume.VolumeID cgvs = member_ids (db w) cgID ∧
  Forall (preloaded (db w)) cgvs ∧ db w' = db w ∧ sent w' = sent w.
Proof.
  unfold find_group_volumes, member_ids. intros H. apply bind_Ok in H as (l & w1 & Hl & H).
  go_ok. unfold preload_volumes in H. tables. set (l := g_find _ _) in *.
  assert (∀ f : ConsistencyGroupVolume.t → option Volume.t,
    map ConsistencyGroupVolume.VolumeID
      (map (λ r, r <| ConsistencyGroupVolume.Volume := f r |>) l) =
    map ConsistencyGroupVolume.VolumeID l) as Hids.
  { intros f. rewrite map_map. by apply map_ext. }
  assert (∀ x, x ∈ l → existsb (Z.eqb (ConsistencyGroupVolume.VolumeID x))
    (List.filter (λ k, negb (k =? 0)) (map ConsistencyGroupVolume.VolumeID l))
    = negb (ConsistencyGroupVolume.VolumeID x =? 0)) as Hkeys.
  { intros x Hx. rewrite nonzero_keys. rewrite (proj2 (existsb_exists _ _)); [apply andb_true_r|].
    eexists. split; [|apply Z.eqb_refl]. by apply in_map, list_elem_of_In. }
  destruct (List.filter _ _) as [|k0 keys] eqn:Hk; go_ok; flat.
  - split_and!; [apply (Hids (λ _, None))| |done..].
    apply Forall_fmap, Forall_forall. intros x Hx. unfold compose, preloaded. simpl.
    specialize (Hkeys x Hx). simpl in Hkeys. by destruct (_ =? 0).
  - split_and!; [apply Hids| |done..].
    apply Forall_fmap, Forall_forall. intros x Hx. unfold compose, preloaded. simpl.
    rewrite (preload_find (k0 :: keys)), (Hkeys x Hx). by destruct (_ =? 0).
Qed.

Lemma preloaded_row d x v :
  preloaded d x → ConsistencyGroupVolume.Volume x = Some v →
  rows (volumes d) !! Volume.ID v = Some v ∧ ConsistencyGroupVolume.VolumeID x = Volume.ID v ∧
  Volume.ID v ≠ 0.
Proof.
  unfold preloaded. intros -> Hv. destruct (Z.eqb_spec (ConsistencyGroupVolume.VolumeID x) 0); [done|].
  pose proof (rows_id _ _ _ Hv) as Hk. simpl in Hk. by rewrite Hk.
Qed.

Lemma volumes_idle_Ok what cgvs c w u w' :
  volumes_idle what cgvs c w = (Ok u, w') →
  Forall (λ x, ∃ v, ConsistencyGroupVolume.Volume x = Some v ∧ Volume_IsBusy v = false) cgvs ∧
  w' = w.
Proof.
  unfold volumes_idle. revert w. induction cgvs as [|x l IH]; intros w H; simpl in H; go_ok; [done|].
  match goal with Hl : for_each _ _ _ _ = _ |- _ => apply IH in Hl as [Hf ->] end.
  split; [|done]. constructor; [|done]. simp. eauto.
Qed.

Lemma set_volumes_status_Ok st cgvs d c w u w' :
  Forall (preloaded d) cgvs → rows (volumes (db w)) = rows (volumes d) →
  set_volumes_status st cgvs c w = (Ok u, w') →
  rows (volumes (db w')) =
    set_status (map ConsistencyGroupVolume.VolumeID cgvs) (λ _, st) (rows (volumes d)) ∧
  db w' = (db w) <| volumes := volumes (db w') |> ∧ sent w' = sent w.
Proof.
  intros Hp Hw H. unfold set_volumes_status in H.
  eapply (status_loop (λ _, st) (rows (volumes d)) []) in H;
    [exact H|exact (rows_id (volumes d))|done| |by rewrite set_status_nil].
  intros x c1 w1 u1 w1' Hx Hs. go_ok.
  match goal with Hv : ConsistencyGroupVolume.Volume x = Some ?v |- _ =>
    destruct (preloaded_row d x v) as (Hr & Hk & _); [by eapply Forall_forall|done|]; exists v end.
  done.
Qed.

(** What [CreateSnapshot] records before it posts its command. *)
Record snapshot_started (d d' : DB) cg (s : ConsistencyGroupSnapshot.t) (t : Task.t) : Prop := {
  ss_task : rows (tasks d) !! Task.ID t = None ∧ Task.ID t ≠ 0 ∧
    Task.Status t = TaskStatusRunning ∧ rows (tasks d') = <[Task.ID t := t]> (rows (tasks d));
  ss_snapshot : rows (cg_snapshots d) !! ConsistencyGroupSnapshot.ID s = None ∧
    0 < ConsistencyGroupSnapshot.ID s ∧
    ConsistencyGroupSnapshot.CGID s = ConsistencyGroup.ID cg ∧
    ConsistencyGroupSnapshot.Status s = CGSnapshotStatusPending ∧
    ConsistencyGroupSnapshot.TaskID s = Task.ID t ∧
    rows (cg_snapshots d') = <[ConsistencyGroupSnapshot.ID s := s]> (rows (cg_snapshots d));
  ss_volumes : rows (volumes d') =
    set_status (member_ids d (ConsistencyGroup.ID cg)) (λ _, VolumeStatusBackuping)
      (rows (volumes d));
  ss_frame : cg_volumes d' = cg_volumes d ∧ consistency_groups d' = consistency_groups d
}.

Lemma created_task u (t0 t : Task.t) tab tab' :
  g_create (before_create u t0) tab = (t, tab') →
  rows tab !! Task.ID t = None ∧ Task.ID t ≠ 0 ∧ Task.Status t = Task.Status t0 ∧
  rows tab' = <[Task.ID t := t]> (rows tab).
Proof.
  intros (Hpos & Hnew & Ht & Hrows)%create_spec. cbn in *. split_and!; try done; [lia|].
  by rewrite Ht.
Qed.

Lemma created_snapshot u (s0 s : ConsistencyGroupSnapshot.t) tab tab' :
  g_create (before_create u s0) tab = (s, tab') →
  rows tab !! ConsistencyGroupSnapshot.ID s = None ∧ 0 < ConsistencyGroupSnapshot.ID s ∧
  ConsistencyGroupSnapshot.CGID s = ConsistencyGroupSnapshot.CGID s0 ∧
  ConsistencyGroupSnapshot.Status s = ConsistencyGroupSnapshot.Status s0 ∧
  ConsistencyGroupSnapshot.TaskID s = ConsistencyGroupSnapshot.TaskID s0 ∧
  rows tab' = <[ConsistencyGroupSnapshot.ID s := s]> (rows tab).
Proof.
  intros (Hpos & Hnew & Hs & Hrows)%create_spec. cbn in *. split_and!; try done; by rewrite Hs.
Qed.

Lemma record_snapshot_Ok cg cgvs name description c w ts w' :
  map ConsistencyGroupVolume.VolumeID cgvs = member_ids (db w) (ConsistencyGroup.ID cg) →
  Forall (preloaded (db w)) cgvs →
  record_snapshot cg cgvs name description c w = (Ok ts, w') →
  snapshot_started (db w) (db w') cg ts.2 ts.1 ∧ sent w' = sent w.
Proof.
  intros Hids Hp H. unfold record_snapshot in H. apply bind_Ok in H as (t & w1 & Ht & H).
  apply bind_Ok in H as (s & w2 & Hs & H). apply bind_Ok in H as (u & w3 & Hv & H).
  apply ret_Ok in H as [<- <-].
  apply wrap_Ok, db_create_Ok in Ht as (tt1 & Ht & Hd1 & Hs1).
  apply wrap_Ok, db_create_Ok in Hs as (ts1 & Hs & Hd2 & Hs2).
  apply created_task in Ht. apply created_snapshot in Hs. tables. rewrite Hd1 in *. cbn in Hs.
  apply (set_volumes_status_Ok _ _ (db w)) in Hv as (Hv & Hd3 & Hs3);
    [|done|by rewrite Hd2].
  split; [|congruence]. split.
  - rewrite Hd3, Hd2. exact Ht.
  - rewrite Hd3, Hd2. exact Hs.
  - by rewrite <- Hids.
  - rewrite Hd3, Hd2. done.
Qed.

Lemma group_volumes_Ok cg c w cgvs w' :
  group_volumes cg c w = (Ok cgvs, w') →
  map ConsistencyGroupVolume.VolumeID cgvs = member_ids (db w) (ConsistencyGroup.ID cg) ∧
  cgvs ≠ [] ∧ Forall (preloaded (db w)) cgvs ∧ db w' = db w ∧ sent w' = sent w.
Proof.
  unfold group_volumes. intros H. apply bind_Ok in H as (l & w1 & Hl & H).
  apply wrap_Ok, find_group_volumes_Ok in Hl as (? & ? & ? & ?). go_ok.
  split_and!; try done. by intros ->.
Qed.

(** The volumes of a group are there and none of them is busy. *)
Definition members_idle (d : DB) cg : Prop :=
  member_ids d (ConsistencyGroup.ID cg) ≠ [] ∧
  Forall (λ k, ∃ v, rows (volumes d) !! k = Some v ∧ Volume_IsBusy v = false)
    (member_ids d (ConsistencyGroup.ID cg)).

Lemma idle_members d cg cgvs :
  map ConsistencyGroupVolume.VolumeID cgvs = member_ids d (ConsistencyGroup.ID cg) →
  cgvs ≠ [] → Forall (preloaded d) cgvs →
  Forall (λ x, ∃ v, ConsistencyGroupVolume.Volume x = Some v ∧ Volume_IsBusy v = false) cgvs →
  members_idle d cg.
Proof.
  intros Hids Hne Hp Hf. unfold members_idle. rewrite <- Hids.
  split; [by destruct cgvs|]. apply Forall_fmap. eapply Forall_impl; [apply Forall_and; split; [exact Hp|exact Hf]|].
  intros x [Hx (v & Hv & Hb)]. destruct (preloaded_row _ _ _ Hx Hv) as (Hr & Hk & Hz).
  unfold compose. rewrite Hk. eauto.
Qed.

(** The group the caller may take a snapshot of. *)
Definition snapshot_allowed c (d : DB) uuid cg : Prop :=
  rows (consistency_groups d) !! ConsistencyGroup.ID cg = Some cg ∧
  ConsistencyGroup.UUID cg = uuid ∧
  ValidateOwner (caller c) Writer (ConsistencyGroup.Owner cg) = true ∧
  ConsistencyGroup.Status cg = CGStatusAvailable ∧ members_idle d cg.

Lemma snapshot_prefix uuid what c1 c2 w w1 w2 w3 cg cgvs ts u w4 name description :
  writable_group uuid "create" c1 w = (Ok cg, w1) → ConsistencyGroup_IsAvailable cg = true →
  group_volumes cg c2 w1 = (Ok cgvs, w2) → volumes_idle what cgvs c2 w2 = (Ok u, w3) →
  record_snapshot cg cgvs name description c2 w3 = (Ok ts, w4) →
  snapshot_allowed c1 (db w) uuid cg ∧ snapshot_started (db w) (db w4) cg ts.2 ts.1 ∧
  sent w4 = sent w.
Proof.
  intros Hg Ha Hv Hi Hr. apply writable_group_Ok in Hg as (? & ? & ? & Hd1 & Hs1).
  apply group_volumes_Ok in Hv as (Hids & Hne & Hp & Hd2 & Hs2).
  apply volumes_idle_Ok in Hi as [Hf ->]. rewrite Hd1 in *.
  apply record_snapshot_Ok in Hr as [Hst Hs4]; [|by rewrite Hd2|by rewrite Hd2].
  rewrite Hd2 in Hst. apply String.eqb_eq in Ha. split_and!; try done; [|congruence].
  repeat split; try done; by eapply idle_members.
Qed.

Lemma db_only_find_group_volumes cgID : db_only (find_group_volumes cgID).
Proof. unfold find_group_volumes, preload_volumes. db_only_tac. Qed.

Lemma db_only_writable_group uuid what : db_only (writable_group uuid what).
Proof. unfold writable_group, ConsistencyGroupAdmin_GetByUUID. db_only_tac. Qed.

Lemma db_only_group_volumes cg : db_only (group_volumes cg).
Proof. unfold group_volumes. db_only_tac. Qed.

Lemma db_only_volumes_idle what cgvs : db_only (volumes_idle what cgvs).
Proof. unfold volumes_idle. db_only_tac. Qed.

Lemma db_only_set_volumes_status st cgvs : db_only (set_volumes_status st cgvs).
Proof. unfold set_volumes_status. db_only_tac. Qed.

Lemma db_only_record_snapshot cg cgvs name description :
  db_only (record_snapshot cg cgvs name description).
Proof.
  unfold record_snapshot. db_only_tac. apply db_only_set_volumes_status.
Qed.

End group_volumes.

#[export] Hint Resolve db_only_find_group_volumes db_only_writable_group db_only_group_volumes
  db_only_volumes_idle db_only_set_volumes_status db_only_record_snapshot : go.

(** ** Theorems on snapshots of groups *)

Section snapshot_theorems.
Context {G : Gorm} {E : Env} {GOk : GormOk G}.
Implicit Types (c : Ctx) (w : World) (cg : ConsistencyGroup.t).

Lemma execute_or_Ok {A} code msg command undo (a b : A) c w w' :
  execute_or code msg command undo a c w = (Ok b, w') →
  b = a ∧ db w' = db w ∧ sent w' = sent w ++ [("inter=", command)].
Proof.
  unfold execute_or. intros H. apply bind_Ok in H as (r & w1 & Hr & H). by destruct r; go_ok.
Qed.

Lemma execute_or_Err {A} code msg command undo (a : A) c w e w' :
  execute_or code msg command undo a c w = (Err e, w') →
  (∃ w1 u, db w1 = db w ∧ undo c w1 = (Ok u, w') ∧ error_code e = Some code) ∨
  (∃ w1, db w1 = db w ∧ undo c w1 = (Err e, w')).
Proof.
  unfold execute_or. intros [H|(r & w1 & Hr & H)]%bind_Err; [by apply try_Err in H|].
  destruct r as [|e1]; [done|]. apply try_Ok in Hr. simpl in Hr.
  apply HyperExecute_Err in Hr as [_ Hd].
  apply bind_Err in H as [H|(u & w2 & Hu & H)]; [by eauto|].
  apply fail_Err in H as [<- <-]. left. eauto.
Qed.

(** The members of a group that [CreateSnapshot] could not hand to the backend. *)
Definition stranded (d : DB) (cgID : Z) (d' : DB) : Prop :=
  ∀ k, k ∈ member_ids d cgID →
    ∃ v, rows (volumes d') !! k = Some v ∧ Volume.Status v = VolumeStatusBackuping.

Lemma started_stranded d d' cg s t :
  members_idle d cg → snapshot_started d d' cg s t → stranded d (ConsistencyGroup.ID cg) d'.
Proof.
  intros [_ Hidle] Hst k Hk. pose proof (proj1 (Forall_forall _ _) Hidle k Hk) as (v & Hv & _).
  rewrite (ss_volumes _ _ _ _ _ Hst). eexists. split; [apply set_status_lookup; [done|]|done].
  pose proof (rows_id _ _ _ Hv) as Hid. simpl in Hid. by rewrite Hid.
Qed.

(** The clean-up after a failed remote execution returns, and leaves the volumes. *)
Lemma snapshot_failed_run (t : Task.t) s c w :
  ∃ w', snapshot_failed t s c w = (Ok tt, w') ∧ volumes (db w') = volumes (db w).
Proof.
  assert (preserves (λ d, volumes d = volumes (db w)) (snapshot_failed t s)) as Hp.
  { unfold snapshot_failed, task_failed. pres; by apply pres_db_update. }
  specialize (Hp c w eq_refl).
  destruct (snapshot_failed t s c w) as [[[]|e|] w'] eqn:H; [by eauto|exfalso..].
  - assert (never_err (snapshot_failed t s)) as Hn by (unfold snapshot_failed, task_failed; ne_tac).
    by apply Hn in H.
  - refine (np_refute _ _ _ _ _ H). unfold snapshot_failed, task_failed. np.
Qed.

Lemma volumes_idle_Panic what cgvs c w w' :
  volumes_idle what cgvs c w = (Panic, w') →
  ∃ x, x ∈ cgvs ∧ ConsistencyGroupVolume.Volume x = None.
Proof.
  intros (x & w1 & w2 & Hx & H)%for_each_Panic. exists x. split; [done|].
  apply bind_Panic in H as [H|(v & w3 & _ & H)]; [by apply deref_Panic in H|].
  exfalso. refine (np_refute _ _ _ _ _ H). np.
Qed.

Lemma set_volumes_status_Panic st cgvs c w w' :
  set_volumes_status st cgvs c w = (Panic, w') →
  ∃ x, x ∈ cgvs ∧ ConsistencyGroupVolume.Volume x = None.
Proof.
  intros (x & w1 & w2 & Hx & H)%for_each_Panic. exists x. split; [done|].
  apply bind_Panic in H as [H|(v & w3 & _ & H)]; [by apply deref_Panic in H|].
  exfalso. refine (np_refute _ _ _ _ _ H). np.
Qed.

(** A join row of the group whose volume is gone. *)
Definition dangling (d : DB) (cgID : Z) : Prop :=
  ∃ k r, rows (cg_volumes d) !! k = Some r ∧ ConsistencyGroupVolume.CGID r = cgID ∧
    rows (volumes d) !! ConsistencyGroupVolume.VolumeID r = None.

Lemma missing_member d cgID cgvs x :
  map ConsistencyGroupVolume.VolumeID cgvs = member_ids d cgID →
  Forall (preloaded d) cgvs → x ∈ cgvs → ConsistencyGroupVolume.Volume x = None → dangling d cgID.
Proof.
  intros Hids Hp Hx Hnil. pose proof (proj1 (Forall_forall _ _) Hp x Hx) as Hpx.
  assert (ConsistencyGroupVolume.VolumeID x ∈ member_ids d cgID) as Hin.
  { rewrite <- Hids. by apply list_elem_of_fmap_2. }
  apply list_elem_of_fmap in Hin as (r & Hr & [Hg Hrow]%find_spec).
  apply Z.eqb_eq in Hg. exists (get_id r), r. split_and!; [done..|]. rewrite <- Hr.
  unfold preloaded in Hpx. rewrite Hnil in Hpx.
  destruct (Z.eqb_spec (ConsistencyGroupVolume.VolumeID x) 0) as [->|]; [apply row_zero|done].
Qed.

Lemma create_snapshot_Ok uuid name description c w s w' :
  ConsistencyGroupAdmin_CreateSnapshot uuid name description c w = (Ok s, w') →
  ∃ cg t, snapshot_allowed c (db w) uuid cg ∧ snapshot_started (db w) (db w') cg s t ∧
    sent w' = sent w ++ [("inter=", create_snapshot_script cg s)].
Proof.
  intros H. unfold ConsistencyGroupAdmin_CreateSnapshot in H.
  apply bind_Ok in H as (cg & w1 & Hg & H). apply bind_Ok in H as (? & ? & [Ha <-]%require_Ok & H).
  rewrite GetContextDB_eq in H. apply bind_Ok in H as (cgvs & w2 & Hv & H).
  apply bind_Ok in H as (u & w3 & Hi & H). rewrite with_tx_nested in H by done.
  apply bind_Ok in H as (ts & w4 & Hr & H).
  destruct (snapshot_prefix _ _ _ _ _ _ _ _ _ _ _ _ _ _ _ Hg Ha Hv Hi Hr) as (Hal & Hst & Hs).
  apply execute_or_Ok in H as (-> & Hd & Hsent). rewrite Hd, Hsent, Hs. eauto.
Qed.

Lemma create_snapshot_stranded uuid name description c w e w' :
  ConsistencyGroupAdmin_CreateSnapshot uuid name description c w = (Err e, w') →
  error_code e = Some ErrExecuteOnHyperFailed →
  ∃ cg, snapshot_allowed c (db w) uuid cg ∧ stranded (db w) (ConsistencyGroup.ID cg) (db w').
Proof.
  intros H He. unfold ConsistencyGroupAdmin_CreateSnapshot in H.
  apply bind_Err in H as [H|(cg & w1 & Hg & H)]; [by apply db_only_writable_group in H|].
  apply bind_Err in H as [H|(? & ? & [Ha <-]%require_Ok & H)];
    [by apply require_Err in H as (_ & <- & _)|].
  rewrite GetContextDB_eq in H.
  apply bind_Err in H as [H|(cgvs & w2 & Hv & H)]; [by apply db_only_group_volumes in H|].
  apply bind_Err in H as [H|(u & w3 & Hi & H)]; [by apply db_only_volumes_idle in H|].
  rewrite with_tx_nested in H by done.
  apply bind_Err in H as [H|(ts & w4 & Hr & H)]; [by apply db_only_record_snapshot in H|].
  destruct (snapshot_prefix _ _ _ _ _ _ _ _ _ _ _ _ _ _ _ Hg Ha Hv Hi Hr) as (Hal & Hst & Hs).
  exists cg. split; [done|].
  assert (volumes (db w') = volumes (db w4)) as Hvol.
  { apply execute_or_Err in H as [(w5 & u5 & Hd & H & _)|(w5 & Hd & H)];
      destruct (snapshot_failed_run ts.1 ts.2 (c <| dbkey := true |>) w5) as (w6 & H6 & Hv6);
      rewrite H6 in H; simplify_eq; congruence. }
  destruct Hal as (_ & _ & _ & _ & Hidle). unfold stranded. rewrite Hvol.
  by eapply started_stranded.
Qed.

Lemma create_snapshot_Panic uuid name description c w w' :
  ConsistencyGroupAdmin_CreateSnapshot uuid name description c w = (Panic, w') →
  ∃ cgID, dangling (db w) cgID.
Proof.
  intros H. unfold ConsistencyGroupAdmin_CreateSnapshot in H.
  apply bind_Panic in H as [H|(cg & w1 & Hg & H)];
    [exfalso; refine (np_refute _ _ _ _ _ H); unfold writable_group, ConsistencyGroupAdmin_GetByUUID; np|].
  apply bind_Panic in H as [H|(? & ? & [_ <-]%require_Ok & H)];
    [exfalso; refine (np_refute _ _ _ _ _ H); np|].
  rewrite GetContextDB_eq in H. apply writable_group_Ok in Hg as (_ & _ & _ & Hd1 & _).
  apply bind_Panic in H as [H|(cgvs & w2 & Hv & H)];
    [exfalso; refine (np_refute _ _ _ _ _ H);
     unfold group_volumes, find_group_volumes, preload_volumes; np|].
  apply group_volumes_Ok in Hv as (Hids & _ & Hp & _ & _). rewrite Hd1 in *.
  assert (∃ x, x ∈ cgvs ∧ ConsistencyGroupVolume.Volume x = None) as (y & Hy & Hnil).
  { apply bind_Panic in H as [H|(u & w3 & Hi & H)]; [by apply volumes_idle_Panic in H|].
    rewrite with_tx_nested in H by done.
    apply bind_Panic in H as [H|(ts & w4 & Hr & H)].
    - unfold record_snapshot in H. do 2 skip_np H.
      apply bind_Panic in H as [H|(? & ? & _ & H)]; [|done].
      by apply set_volumes_status_Panic in H.
    - exfalso. refine (np_refute _ _ _ _ _ H).
      unfold execute_or, snapshot_failed, task_failed. np. }
  exists (ConsistencyGroup.ID cg). by eapply missing_member.
Qed.

(** [ConsistencyGroupAdmin.CreateSnapshot]: a success was asked by a writer of
    the group's organization, for an available group whose volumes are all there
    and idle; it records one running task and one pending snapshot, makes every
    volume of the group backuping and no other, and posts the command.  If the
    remote execution fails, nothing is rolled back: the volumes of the group stay
    backuping although no snapshot is being made.  It panics only if the volume of
    a join row is gone. *)
Theorem cg_snapshot_outcomes uuid name description c w :
  match ConsistencyGroupAdmin_CreateSnapshot uuid name description c w with
  | (Ok s, w') =>
      ∃ cg t, snapshot_allowed c (db w) uuid cg ∧ snapshot_started (db w) (db w') cg s t ∧
        sent w' = sent w ++ [("inter=", create_snapshot_script cg s)]
  | (Err e, w') =>
      error_code e = Some ErrExecuteOnHyperFailed →
      ∃ cg, snapshot_allowed c (db w) uuid cg ∧
        stranded (db w) (ConsistencyGroup.ID cg) (db w')
  | (Panic, _) => ∃ cgID, dangling (db w) cgID
  end.
Proof.
  destruct (ConsistencyGroupAdmin_CreateSnapshot uuid name description c w) as [[s|e|] w'] eqn:H.
  - by eapply create_snapshot_Ok.
  - by eapply create_snapshot_stranded.
  - by eapply create_snapshot_Panic.
Qed.

Lemma first_snapshot_Ok cg uuid c w s w' :
  first_snapshot cg uuid c w = (Ok s, w') →
  rows (cg_snapshots (db w)) !! ConsistencyGroupSnapshot.ID s = Some s ∧
  ConsistencyGroupSnapshot.UUID s = uuid ∧
  ConsistencyGroupSnapshot.CGID s = ConsistencyGroup.ID cg ∧ db w' = db w ∧ sent w' = sent w.
Proof.
  unfold first_snapshot. intros H. go_ok. tables.
  match goal with Ht : g_take_by _ _ _ = _ |- _ => apply take_by_some in Ht as [Hu Hr] end.
  apply andb_true_iff in Hu as [Hu Hk]. apply String.eqb_eq in Hu. apply Z.eqb_eq in Hk. done.
Qed.

(** The instances a restore has read are those of the volumes. *)
Definition instances_read (d : DB) (im : gmap Z Instance.t) : Prop :=
  ∀ k i, im !! k = Some i → rows (instances d) !! k = Some i.

(** A volume that can be restored, given the instances read. *)
Definition restorable (im : gmap Z Instance.t) (x : ConsistencyGroupVolume.t) : Prop :=
  ∃ v, ConsistencyGroupVolume.Volume x = Some v ∧ Volume_IsBusy v = false ∧
    (0 < Volume.InstanceID v → is_Some (im !! Volume.InstanceID v)) ∧
    (Volume.InstanceID v ≤ 0 → Volume.Status v ≠ VolumeStatusAttached).

Lemma restorable_mono im im' x : im ⊆ im' → restorable im x → restorable im' x.
Proof.
  intros Hsub (v & Hv & Hb & Hi & Ha). exists v. split_and!; try done. intros Hpos.
  destruct (Hi Hpos) as [i Hii]. exists i. by eapply lookup_weaken.
Qed.

(** The instance of one volume is added to the map. *)
Lemma read_instance_Ok d v im c w im' w' :
  db w = d → instances_read d im →
  (if 0 <? Volume.InstanceID v then
     match im !! Volume.InstanceID v with
     | Some _ => mret im
     | None =>
         instance ← wrap ErrInstanceNotFound
           ("Instance not found for volume " +:+ Volume.UUID v)
           (db_get (R := Instance.t) (Volume.InstanceID v));
         mret (<[Volume.InstanceID v := instance]> im)
     end
   else
     _ ← require (negb (String.eqb (Volume.Status v) "attached"))
           (NewCLError ErrCGVolumeAttachedNoInstance
              ("Volume " +:+ Volume.UUID v
               +:+ " status is attached but has no instance") None);
     mret im) c w = (Ok im', w') →
  instances_read d im' ∧ im ⊆ im' ∧ db w' = d ∧ sent w' = sent w ∧
  (0 < Volume.InstanceID v → is_Some (im' !! Volume.InstanceID v)) ∧
  (Volume.InstanceID v ≤ 0 → Volume.Status v ≠ VolumeStatusAttached).
Proof.
  intros Hd Him. destruct (Z.ltb_spec 0 (Volume.InstanceID v)) as [Hpos|Hpos].
  - destruct (im !! Volume.InstanceID v) as [i|] eqn:Hi; intros H; go_ok.
    + split_and!; try done; intros; (lia || eauto).
    + match goal with Ht : g_take _ _ = _ |- _ => apply take_pk_row in Ht as [Hr _]; [|lia] end.
      tables. split_and!; try done; [|by apply insert_subseteq| |lia].
      * intros k j. rewrite lookup_insert_Some. intros [[<- <-]|[_ Hj]]; [done|by apply Him].
      * intros _. rewrite lookup_insert_eq. eauto.
  - intros H. go_ok. split_and!; try done; [lia|]. intros _ Hst. simp.
    by rewrite Hst in *.
Qed.

Lemma collect_volumes_Ok cgvs im c w r w' :
  instances_read (db w) im → collect_volumes cgvs im c w = (Ok r, w') →
  Forall (restorable r.2) cgvs ∧ instances_read (db w) r.2 ∧ im ⊆ r.2 ∧
  db w' = db w ∧ sent w' = sent w.
Proof.
  revert im w r. induction cgvs as [|x l IH]; intros im w r Him H; cbn [collect_volumes] in H.
  - go_ok. done.
  - apply bind_Ok in H as (v & ? & [Hv <-]%deref_Ok & H).
    apply bind_Ok in H as (? & ? & [Hb <-]%require_Ok & H).
    apply bind_Ok in H as (im1 & w1 & Hi & H).
    eapply read_instance_Ok in Hi as (Him1 & Hsub & Hd & Hs & Hpos & Hst); [|done|done].
    apply bind_Ok in H as (r1 & w2 & Hl & H). apply ret_Ok in H as [<- <-].
    rewrite <- Hd in Him1. apply IH in Hl as (Hf & Hr & Hsub' & Hd' & Hs'); [|done].
    rewrite Hd in *. simpl. split_and!; try done; [|by etrans|congruence].
    constructor; [|done]. eapply restorable_mono; [exact Hsub'|].
    exists v. split_and!; try done. by apply negb_true_iff in Hb.
Qed.

Lemma for_each_require {A} (p : A → bool) e (l : list A) c w u w' :
  for_each l (λ x, require (p x) (e x)) c w = (Ok u, w') →
  Forall (λ x, p x = true) l ∧ w' = w.
Proof.
  revert w. induction l as [|x l IH]; intros w H; simpl in H; go_ok; [done|].
  match goal with Hl : for_each _ _ _ _ = _ |- _ => apply IH in Hl as [Hf ->] end.
  split; [by constructor|done].
Qed.

(** What [RestoreSnapshot] records before it posts its command. *)
Record restore_started (d d' : DB) cg (s : ConsistencyGroupSnapshot.t) (t : Task.t) : Prop := {
  rs_task : rows (tasks d) !! Task.ID t = None ∧ Task.ID t ≠ 0 ∧
    Task.Status t = TaskStatusRunning ∧ rows (tasks d') = <[Task.ID t := t]> (rows (tasks d));
  rs_snapshot : rows (cg_snapshots d') =
    <[ConsistencyGroupSnapshot.ID s :=
        s <| ConsistencyGroupSnapshot.Status := CGSnapshotStatusRestoring |>
          <| ConsistencyGroupSnapshot.TaskID := Task.ID t |>]> (rows (cg_snapshots d));
  rs_volumes : rows (volumes d') =
    set_status (member_ids d (ConsistencyGroup.ID cg)) (λ _, VolumeStatusRestoring)
      (rows (volumes d));
  rs_frame : cg_volumes d' = cg_volumes d ∧ consistency_groups d' = consistency_groups d
}.

Lemma record_restore_Ok cg s cgvs c w t w' :
  rows (cg_snapshots (db w)) !! ConsistencyGroupSnapshot.ID s = Some s →
  map ConsistencyGroupVolume.VolumeID cgvs = member_ids (db w) (ConsistencyGroup.ID cg) →
  Forall (preloaded (db w)) cgvs →
  record_restore cg s cgvs c w = (Ok t, w') →
  restore_started (db w) (db w') cg s t ∧ sent w' = sent w.
Proof.
  intros Hrow Hids Hp H. unfold record_restore in H. apply bind_Ok in H as (t1 & w1 & Ht & H).
  apply bind_Ok in H as (u1 & w2 & Hs & H). apply bind_Ok in H as (u & w3 & Hv & H).
  apply ret_Ok in H as [<- <-].
  apply wrap_Ok, db_create_Ok in Ht as (tt1 & Ht & Hd1 & Hs1).
  unfold set_snapshot in Hs. apply wrap_Ok, db_update_Ok in Hs as [Hd2 Hs2].
  apply created_task in Ht. tables. rewrite Hd1 in *. cbn in Hd2.
  apply (set_volumes_status_Ok _ _ (db w)) in Hv as (Hv & Hd3 & Hs3);
    [|done|by rewrite Hd2].
  split; [|congruence]. split.
  - rewrite Hd3, Hd2. exact Ht.
  - rewrite Hd3, Hd2. cbn. pose proof (rows_pos _ _ _ Hrow).
    by rewrite (update_pk _ _ _ s) by (done || lia).
  - by rewrite <- Hids.
  - rewrite Hd3, Hd2. done.
Qed.

(** The instances of the volumes of a group are stopped. *)
Definition members_stopped (d : DB) cg : Prop :=
  ∀ k v, k ∈ member_ids d (ConsistencyGroup.ID cg) → rows (volumes d) !! k = Some v →
    0 < Volume.InstanceID v →
    ∃ i, rows (instances d) !! Volume.InstanceID v = Some i ∧
         Instance.Status i = InstanceStatusShutoff.

Lemma restorable_members d cg cgvs im :
  map ConsistencyGroupVolume.VolumeID cgvs = member_ids d (ConsistencyGroup.ID cg) →
  cgvs ≠ [] → Forall (preloaded d) cgvs → Forall (restorable im) cgvs → instances_read d im →
  Forall (λ ki, String.eqb (Instance.Status ki.2) InstanceStatusShutoff = true) (map_to_list im) →
  members_idle d cg ∧ members_stopped d cg.
Proof.
  intros Hids Hne Hp Hf Him Hoff. split.
  - eapply idle_members; try done. eapply Forall_impl; [exact Hf|].
    intros x (v & Hv & Hb & _). eauto.
  - intros k v Hk Hv Hpos. rewrite <- Hids in Hk. apply list_elem_of_fmap in Hk as (x & -> & Hx).
    pose proof (proj1 (Forall_forall _ _) Hp x Hx) as Hpx.
    pose proof (proj1 (Forall_forall _ _) Hf x Hx) as (v' & Hv' & _ & Hi & _).
    destruct (preloaded_row _ _ _ Hpx Hv') as (Hr & Hid & _). rewrite Hid, Hr in Hv. simplify_eq.
    destruct (Hi Hpos) as [i Hii]. exists i. split; [by apply Him|].
    apply elem_of_map_to_list in Hii.
    pose proof (proj1 (Forall_forall _ _) Hoff _ Hii) as Hst. by apply String.eqb_eq in Hst.
Qed.

(** C39. [ConsistencyGroupAdmin.RestoreSnapshot] that succeeds was asked by a writer
    of the group's organization, for an available snapshot of that group; every
    volume of the group is there and idle, and the instance of every attached one
    is shut off.  Then exactly one task is recorded, the snapshot and the volumes
    of the group, and no others, are restoring, and one command is posted. *)
Theorem cg_restore_safe uuid snap c w t w' :
  ConsistencyGroupAdmin_RestoreSnapshot uuid snap c w = (Ok t, w') →
  ∃ cg s json, rows (consistency_groups (db w)) !! ConsistencyGroup.ID cg = Some cg ∧
    ConsistencyGroup.UUID cg = uuid ∧
    ValidateOwner (caller c) Writer (ConsistencyGroup.Owner cg) = true ∧
    rows (cg_snapshots (db w)) !! ConsistencyGroupSnapshot.ID s = Some s ∧
    ConsistencyGroupSnapshot.UUID s = snap ∧
    ConsistencyGroupSnapshot.CGID s = ConsistencyGroup.ID cg ∧
    ConsistencyGroupSnapshot.Status s = CGSnapshotStatusAvailable ∧
    members_idle (db w) cg ∧ members_stopped (db w) cg ∧
    restore_started (db w) (db w') cg s t ∧
    sent w' = sent w ++ [("inter=", restore_script cg s json)].
Proof.
  intros H. unfold ConsistencyGroupAdmin_RestoreSnapshot in H.
  apply bind_Ok in H as (cg & w1 & Hg & H). rewrite GetContextDB_eq in H.
  apply bind_Ok in H as (s & w2 & Hs & H). apply bind_Ok in H as (? & ? & [_ <-]%require_Ok & H).
  apply bind_Ok in H as (? & ? & [Ha <-]%require_Ok & H).
  apply bind_Ok in H as (cgvs & w3 & Hv & H). apply bind_Ok in H as (r & w4 & Hc & H).
  apply bind_Ok in H as (u & w5 & Ho & H). cbv zeta in H. rewrite with_tx_nested in H by done.
  apply bind_Ok in H as (t1 & w6 & Hr & H). apply execute_or_Ok in H as (-> & Hd & Hsent).
  apply writable_group_Ok in Hg as (? & ? & ? & Hd1 & Hs1).
  apply first_snapshot_Ok in Hs as (Hrow & ? & ? & Hd2 & Hs2). rewrite Hd1 in *.
  apply group_volumes_Ok in Hv as (Hids & Hne & Hp & Hd3 & Hs3). rewrite Hd2 in *.
  apply collect_volumes_Ok in Hc as (Hf & Him & _ & Hd4 & Hs4); [|by intros k i Hi].
  apply for_each_require in Ho as [Hoff ->]. rewrite Hd3 in *.
  destruct (restorable_members _ _ _ _ Hids Hne Hp Hf Him Hoff) as [Hidle Hstop].
  apply record_restore_Ok in Hr as [Hst Hs6]; [|by rewrite Hd4..].
  rewrite Hd4 in Hst. apply String.eqb_eq in Ha. rewrite <- Hd in Hst.
  exists cg, s, (Marshal (JArr r.1)). split_and!; try done. rewrite Hsent. congruence.
Qed.

End snapshot_theorems.
