(* ===== verification/ConsistencyGroupRpc.v ===== *)
(** * ConsistencyGroupRpc: what the storage backend reports about groups
      (rpcs/consistency_group.go)

    The seven handlers of the reports on consistency groups and their snapshots.
    Each runs in a transaction of its own. *)

From S2P Require Import Prelude GoLib Json ErrorCodes Gorm Model Store Member Catalog Scenario Volume Commands VolumeRpc Dispatch Backup ConsistencyGroup.

Definition getArgSafe (args : list string) (index : nat) (defaultVal : string) : string :=
  if (index <? length args)%nat then default "" (args !! index) else defaultVal.

Definition joinRemainingArgs (args : list string) (index : nat) : string :=
  if (index <? length args)%nat then Join (drop index args) " " else "".

Section handlers.
Context {G : Gorm} {E : Env}.

Definition wrong_args (n : nat) (args : list string) : M unit :=
  require (negb (length args <? n)%nat) (GoError "wrong params").

Definition is_available (status : string) : bool := String.eqb status "available".

(** The columns of a task after a report. *)
Definition report_task (ok : bool) (message : string) (r : Task.t) : Task.t :=
  if ok then r <| Task.Status := TaskStatusSuccess |>
  else r <| Task.Status := TaskStatusFailed |> <| Task.Message := message |>.

Definition update_task (taskID : Z) (ok : bool) (message : string) : M unit :=
  if 0 <? taskID then db_update (by_id taskID) (report_task ok message) else mret tt.

(** The columns of a group after the report on its creation. *)
Definition group_reported (ok : bool) (wdsCgID : string) (r : ConsistencyGroup.t)
    : ConsistencyGroup.t :=
  if ok then r <| ConsistencyGroup.Status := CGStatusAvailable |>
               <| ConsistencyGroup.WdsCgID := wdsCgID |>
  else r <| ConsistencyGroup.Status := CGStatusError |>.

(** The transaction of the report on a new group. *)
Definition complete_group (taskID cgID : Z) (status wdsCgID message : string) : M string :=
  _ ← db_get (R := ConsistencyGroup.t) cgID;
  _ ← db_update (by_id cgID) (group_reported (is_available status) wdsCgID);
  _ ← update_task taskID (is_available status) message;
  mret status.

Definition CreateCGWDS : Handler := λ args,
  _ ← wrong_args 4 args;
  a1 ← arg args 1; taskID ← parse_arg 64 a1;
  a2 ← arg args 2; cgID ← parse_arg 64 a2;
  let status := getArgSafe args 3 "error" in
  let wdsCgID := getArgSafe args 4 "" in
  let message := joinRemainingArgs args 5 in
  with_tx (complete_group taskID cgID status wdsCgID message).

(** The transaction of the report on the deletion of a group. *)
Definition complete_delete (cgID : Z) (status : string) : M string :=
  if String.eqb status "deleted" then
    _ ← db_delete (of_group cgID);
    _ ← db_delete (R := ConsistencyGroup.t) (by_pk cgID);
    mret status
  else
    _ ← db_update (by_id cgID) (λ r, r <| ConsistencyGroup.Status := CGStatusError |>);
    mret status.

Definition DeleteCGWDS : Handler := λ args,
  _ ← wrong_args 3 args;
  a1 ← arg args 1; cgID ← parse_arg 64 a1;
  let status := getArgSafe args 2 "error" in
  with_tx (complete_delete cgID status).

(** The state a group is left in by a report on its volumes. *)
Definition group_status (status : string) : string :=
  if is_available status then CGStatusAvailable else CGStatusError.

Definition AddVolumesToCGWDS : Handler := λ args,
  _ ← wrong_args 3 args;
  a1 ← arg args 1; cgID ← parse_arg 64 a1;
  let status := getArgSafe args 2 "error" in
  with_tx (
    _ ← db_get (R := ConsistencyGroup.t) cgID;
    _ ← db_update (by_id cgID) (λ r, r <| ConsistencyGroup.Status := group_status status |>);
    mret status).

Definition RemoveVolumesFromCGWDS : Handler := λ args,
  _ ← wrong_args 3 args;
  a1 ← arg args 1; cgID ← parse_arg 64 a1;
  let status := getArgSafe args 2 "error" in
  with_tx (
    _ ← db_get (R := ConsistencyGroup.t) cgID;
    _ ← db_update (by_id cgID) (λ r, r <| ConsistencyGroup.Status := group_status status |>);
    mret status).

(** Every volume of the group goes back to the state it rests in. *)
Definition release_volumes (cgID : Z) : M unit :=
  cgvs ← find_group_volumes cgID;
  for_each cgvs (λ cgv,
    v ← deref (ConsistencyGroupVolume.Volume cgv);
    db_update (by_id (ConsistencyGroupVolume.VolumeID cgv))
      (λ r, r <| Volume.Status := rest_status v |>)).

(** From bytes to gigabytes. *)
Definition gigabytes (size : Z) : Z :=
  if 0 <? size then Z.quot (Z.quot (Z.quot size 1024) 1024) 1024 else size.

(** The columns of a snapshot after the report on its creation. *)
Definition snapshot_reported (ok : bool) (wdsSnapID : string) (size : Z)
    (r : ConsistencyGroupSnapshot.t) : ConsistencyGroupSnapshot.t :=
  if ok then r <| ConsistencyGroupSnapshot.Status := CGSnapshotStatusAvailable |>
               <| ConsistencyGroupSnapshot.WdsSnapID := wdsSnapID |>
               <| ConsistencyGroupSnapshot.Size := size |>
  else r <| ConsistencyGroupSnapshot.Status := CGSnapshotStatusError |>.

(** The transaction of the report on a new snapshot. *)
Definition complete_snapshot (snapshotID : Z) (status wdsSnapID : string) (size : Z)
    (message : string) : M string :=
  snapshot ← db_get (R := ConsistencyGroupSnapshot.t) snapshotID;
  _ ← preload (R := ConsistencyGroup.t) (ConsistencyGroupSnapshot.CGID snapshot);
  _ ← db_update (by_id snapshotID) (snapshot_reported (is_available status) wdsSnapID size);
  _ ← try (update_task (ConsistencyGroupSnapshot.TaskID snapshot) (is_available status) message);
  _ ← release_volumes (ConsistencyGroupSnapshot.CGID snapshot);
  mret status.

Definition CreateCGSnapshotWDS : Handler := λ args,
  _ ← wrong_args 3 args;
  a1 ← arg args 1; snapshotID ← parse_arg 64 a1;
  let status := getArgSafe args 2 "error" in
  let wdsSnapID := getArgSafe args 3 "" in
  let size := gigabytes (default 0 (ParseInt 64 (getArgSafe args 4 "0"))) in
  let message := joinRemainingArgs args 5 in
  with_tx (complete_snapshot snapshotID status wdsSnapID size message).

Definition DeleteCGSnapshotWDS : Handler := λ args,
  _ ← wrong_args 3 args;
  a1 ← arg args 1; snapshotID ← parse_arg 64 a1;
  let status := getArgSafe args 2 "error" in
  let message := joinRemainingArgs args 3 in
  with_tx (
    s ← try (db_get (R := ConsistencyGroupSnapshot.t) snapshotID);
    let taskID := match s with inl s => ConsistencyGroupSnapshot.TaskID s | inr _ => 0 end in
    if String.eqb status "deleted" then
      _ ← db_delete (R := ConsistencyGroupSnapshot.t) (by_id snapshotID);
      _ ← try (update_task taskID true message);
      mret status
    else
      _ ← db_update (by_id snapshotID)
            (λ r, r <| ConsistencyGroupSnapshot.Status := CGSnapshotStatusError |>);
      _ ← try (update_task taskID false message);
      mret status).

Definition RestoreCGSnapshotWDS : Handler := λ args,
  _ ← wrong_args 4 args;
  a1 ← arg args 1; snapshotID ← parse_arg 64 a1;
  a2 ← arg args 2; cgID ← parse_arg 64 a2;
  let status := getArgSafe args 3 "error" in
  let message := joinRemainingArgs args 4 in
  with_tx (
    snapshot ← db_get (R := ConsistencyGroupSnapshot.t) snapshotID;
    _ ← db_update (by_id snapshotID)
          (λ r, r <| ConsistencyGroupSnapshot.Status := CGSnapshotStatusAvailable |>);
    _ ← try (update_task (ConsistencyGroupSnapshot.TaskID snapshot) (is_available status) message);
    _ ← release_volumes cgID;
    mret status).

(** The registrations of the file. *)
Definition add_consistency_group (f : Registry) : Registry :=
  Add "restore_cg_snapshot_wds" RestoreCGSnapshotWDS
  (Add "delete_cg_snapshot_wds" DeleteCGSnapshotWDS
  (Add "create_cg_snapshot_wds" CreateCGSnapshotWDS
  (Add "remove_volumes_from_cg_wds" RemoveVolumesFromCGWDS
  (Add "add_volumes_to_cg_wds" AddVolumesToCGWDS
  (Add "delete_cg_wds" DeleteCGWDS
  (Add "create_cg_wds" CreateCGWDS f)))))).

End handlers.

(** ** What the reports do *)

Lemma snapshot_reported_id ok wds size : keeps_id (snapshot_reported ok wds size).
Proof. by destruct ok. Qed.

Lemma report_task_id ok message : keeps_id (report_task ok message).
Proof. by destruct ok. Qed.

Lemma rest_status_free : status_free rest_status.
Proof. done. Qed.

Section reports.
Context {G : Gorm} {E : Env} {GOk : GormOk G}.
Implicit Types (c : Ctx) (w : World).

Lemma release_volumes_Ok cgID c w u w' :
  release_volumes cgID c w = (Ok u, w') →
  rows (volumes (db w')) =
    set_status (member_ids (db w) cgID) rest_status (rows (volumes (db w))) ∧
  db w' = (db w) <| volumes := volumes (db w') |> ∧ sent w' = sent w.
Proof.
  unfold release_volumes. intros H. apply bind_Ok in H as (cgvs & w1 & Hv & H).
  apply find_group_volumes_Ok in Hv as (Hids & Hp & Hd & Hs).
  eapply (status_loop rest_status (rows (volumes (db w))) []) in H.
  - rewrite Hids, Hd, Hs in H. exact H.
  - exact (rows_id (volumes (db w))).
  - apply rest_status_free.
  - intros x c1 w2 u2 w2' Hx Hu. go_ok.
    match goal with Hv : ConsistencyGroupVolume.Volume x = Some ?v |- _ =>
      destruct (preloaded_row (db w) x v) as (Hr & Hk & _); [by eapply Forall_forall|done|];
      exists v end.
    rewrite Hk in *. tables. done.
  - by rewrite set_status_nil, Hd.
Qed.

Lemma release_volumes_Panic cgID c w w' :
  release_volumes cgID c w = (Panic, w') → dangling (db w) cgID.
Proof.
  unfold release_volumes. intros H. apply bind_Panic in H as [H|(cgvs & w1 & Hv & H)].
  { exfalso. refine (np_refute _ _ _ _ _ H). unfold find_group_volumes, preload_volumes. np. }
  apply find_group_volumes_Ok in Hv as (Hids & Hp & _ & _).
  apply for_each_Panic in H as (x & w2 & w3 & Hx & H).
  apply bind_Panic in H as [H|(v & w4 & _ & H)].
  - apply deref_Panic in H. by eapply missing_member.
  - exfalso. refine (np_refute _ _ _ _ _ H). np.
Qed.

Lemma release_volumes_never_err cgID : no_faults → never_err (release_volumes cgID).
Proof. intros Hn. unfold release_volumes, find_group_volumes, preload_volumes. ne_tac. Qed.

(** What a report on the creation of the snapshot [sid] did. *)
Record snapshot_settled (d d' : DB) (sid : Z) (ok : bool) wds size message
    (s : ConsistencyGroupSnapshot.t) : Prop := {
  st_row : rows (cg_snapshots d) !! sid = Some s;
  st_snapshot : rows (cg_snapshots d') =
    <[sid := snapshot_reported ok wds size s]> (rows (cg_snapshots d));
  st_volumes : rows (volumes d') =
    set_status (member_ids d (ConsistencyGroupSnapshot.CGID s)) rest_status (rows (volumes d));
  st_task : no_faults → 0 < ConsistencyGroupSnapshot.TaskID s →
    rows (tasks d') =
    (λ t, if by_id (ConsistencyGroupSnapshot.TaskID s) t then report_task ok message t else t)
      <$> rows (tasks d);
  st_frame : cg_volumes d' = cg_volumes d ∧ consistency_groups d' = consistency_groups d
}.

Lemma update_task_try taskID ok message c w r w' :
  try (update_task taskID ok message) c w = (Ok r, w') →
  db w' = (db w) <| tasks := tasks (db w') |> ∧ sent w' = sent w ∧
  (no_faults → 0 < taskID →
     rows (tasks (db w')) =
     (λ t, if by_id taskID t then report_task ok message t else t) <$> rows (tasks (db w))).
Proof.
  unfold update_task. intros H. apply try_Ok in H. destruct r as [u|e].
  - destruct (Z.ltb_spec 0 taskID); go_ok; split_and!; try done; [| |by destruct (db w')|lia].
    + match goal with Hd : db w' = _ |- _ => by rewrite Hd end.
    + intros _ _. match goal with Hd : db w' = _ |- _ => rewrite Hd end. cbn.
      by rewrite update_spec by apply report_task_id.
  - destruct (Z.ltb_spec 0 taskID); [|done].
    destruct (stmt_Err _ _ _ _ _ H) as (_ & Hd & Hs). rewrite Hd. split_and!; [by destruct (db w)|done|].
    intros Hn. by destruct (ne_stmt Hn _ _ _ _ _ H).
Qed.

Lemma complete_snapshot_Ok sid st wds size message c w r w' :
  sid ≠ 0 → complete_snapshot sid st wds size message c w = (Ok r, w') →
  r = st ∧ ∃ s, snapshot_settled (db w) (db w') sid (is_available st) wds size message s.
Proof.
  intros Hsid H. unfold complete_snapshot in H. apply bind_Ok in H as (s & w1 & Hs & H).
  apply bind_Ok in H as (o & w2 & Hpre & H). apply bind_Ok in H as (u & w3 & Hu & H).
  apply bind_Ok in H as (t & w4 & Ht & H). apply bind_Ok in H as (v & w5 & Hv & H).
  apply ret_Ok in H as [<- <-]. split; [done|]. exists s.
  apply db_take_Ok in Hs as (Hs & Hd1 & _). apply take_pk_row in Hs as [Hs _]; [|done].
  apply preload_Ok in Hpre as (_ & Hd2 & _). apply db_update_Ok in Hu as [Hd3 _].
  apply update_task_try in Ht as (Hd4 & _ & Ht). apply release_volumes_Ok in Hv as (Hv & Hd5 & _).
  tables. rewrite Hd2, Hd1 in Hd3. rewrite Hd3 in Hd4, Ht. rewrite Hd4 in Hd5, Hv. cbn in *.
  split.
  - done.
  - rewrite Hd5. cbn. by rewrite (update_key _ _ _ s) by (done || apply snapshot_reported_id).
  - rewrite Hv. done.
  - rewrite Hd5. exact Ht.
  - by rewrite Hd5.
Qed.

Lemma complete_snapshot_Panic sid st wds size message c w w' :
  0 < sid → complete_snapshot sid st wds size message c w = (Panic, w') →
  ∃ s, rows (cg_snapshots (db w)) !! sid = Some s ∧
    dangling (db w) (ConsistencyGroupSnapshot.CGID s).
Proof.
  intros Hsid H. unfold complete_snapshot in H.
  apply bind_Panic in H as [H|(s & w1 & Hs & H)]; [exfalso; refine (np_refute _ _ _ _ _ H); np|].
  apply db_take_Ok in Hs as (Hs & Hd1 & _). apply take_pk_row in Hs as [Hs _]; [|lia].
  exists s. split; [done|].
  apply bind_Panic in H as [H|(o & w2 & Ho & H)]; [exfalso; refine (np_refute _ _ _ _ _ H); np|].
  apply bind_Panic in H as [H|(u & w3 & Hu & H)]; [exfalso; refine (np_refute _ _ _ _ _ H); np|].
  apply bind_Panic in H as [H|(t & w4 & Ht & H)];
    [exfalso; refine (np_refute _ _ _ _ _ H); unfold update_task; np|].
  apply bind_Panic in H as [H|(? & ? & _ & H)]; [|done].
  apply release_volumes_Panic in H. apply preload_Ok in Ho as (_ & Hd2 & _).
  apply db_update_Ok in Hu as [Hd3 _]. apply update_task_try in Ht as (Hd4 & _).
  rewrite Hd4, Hd3, Hd2, Hd1 in H. exact H.
Qed.

Lemma CreateCGSnapshot_words name sid st rest c w :
  fits 64 sid = true →
  CreateCGSnapshotWDS (name :: fmt_d sid :: st :: rest) c w =
  with_tx (complete_snapshot sid st (getArgSafe rest 0 "")
             (gigabytes (default 0 (ParseInt 64 (getArgSafe rest 1 "0"))))
             (joinRemainingArgs rest 2)) c w.
Proof.
  intros Hf. unfold CreateCGSnapshotWDS, wrong_args, arg, parse_arg. cbn -[with_tx ParseInt].
  unfold mbind, M_bind. cbn -[with_tx ParseInt]. rewrite ParseInt_fmt_d by done.
  cbn -[with_tx ParseInt]. unfold getArgSafe, joinRemainingArgs. cbn -[with_tx ParseInt].
  by destruct rest as [|? [|? [|]]].
Qed.

(** The report on the creation of a snapshot, made of the words the script
    sends, settles one snapshot or changes nothing: the snapshot is available with
    the identifier and the size of the backend exactly when the backend says so
    and in error otherwise, and every volume of its group goes back to attached or
    available.  It panics only if a volume of the group is gone. *)
Theorem cg_snapshot_report name sid st rest c w :
  0 < sid → fits 64 sid = true → dbkey c = false →
  match CreateCGSnapshotWDS (name :: fmt_d sid :: st :: rest) c w with
  | (Ok r, w') => r = st ∧
      ∃ s, snapshot_settled (db w) (db w') sid (is_available st) (getArgSafe rest 0 "")
             (gigabytes (default 0 (ParseInt 64 (getArgSafe rest 1 "0"))))
             (joinRemainingArgs rest 2) s
  | (Err _, w') => db w' = db w
  | (Panic, _) => ∃ s, rows (cg_snapshots (db w)) !! sid = Some s ∧
      dangling (db w) (ConsistencyGroupSnapshot.CGID s)
  end.
Proof.
  intros Hsid Hf Hc. rewrite CreateCGSnapshot_words by done.
  destruct (with_tx _ c w) as [[r|e|] w'] eqn:H.
  - apply with_tx_Ok in H. apply complete_snapshot_Ok in H; [done|lia].
  - by eapply with_tx_Err.
  - apply with_tx_Panic in H. by eapply complete_snapshot_Panic.
Qed.

(** Without faults of the database the report is recorded. *)
Lemma complete_snapshot_runs sid st wds size message c w s :
  no_faults → rows (cg_snapshots (db w)) !! sid = Some s →
  ¬ dangling (db w) (ConsistencyGroupSnapshot.CGID s) →
  ∃ w', complete_snapshot sid st wds size message c w = (Ok st, w').
Proof.
  intros Hn Hs Hdang. pose proof (rows_pos _ _ _ Hs) as Hpos.
  destruct (complete_snapshot sid st wds size message c w) as [[r|e|] w'] eqn:H.
  - apply complete_snapshot_Ok in H as [-> _]; [eauto|lia].
  - exfalso. unfold complete_snapshot in H.
    destruct (db_get_runs (HD := in_cg_snapshots) sid s c w Hn Hs) as (w1 & Hg & _).
    unfold mbind at 1, M_bind at 1 in H. rewrite Hg in H.
    refine (ne_refute _ _ _ _ _ _ H). ne_tac. by apply release_volumes_never_err.
  - exfalso. destruct (complete_snapshot_Panic _ _ _ _ _ _ _ _ Hpos H) as (s' & Hs' & Hd).
    rewrite Hs in Hs'. simplify_eq. done.
Qed.

(** A volume that is in no operation rests in the status of its attachment. *)
Definition at_rest (d : DB) (ids : list Z) : Prop :=
  ∀ k v, rows (volumes d) !! k = Some v → k ∈ ids → Volume.Status v = rest_status v.

Lemma started_not_dangling d d' cg s t :
  members_idle d cg → snapshot_started d d' cg s t →
  member_ids d' (ConsistencyGroup.ID cg) = member_ids d (ConsistencyGroup.ID cg) ∧
  ¬ dangling d' (ConsistencyGroup.ID cg).
Proof.
  intros Hidle Hst. destruct (ss_frame _ _ _ _ _ Hst) as [Hcg _].
  split; [by unfold member_ids; rewrite Hcg|]. intros (k & r & Hr & Hk & Hno).
  rewrite Hcg in Hr. assert (ConsistencyGroupVolume.VolumeID r
    ∈ member_ids d (ConsistencyGroup.ID cg)) as Hin.
  { apply list_elem_of_fmap_2. eapply find_lookup; [done|]. unfold of_group. lia. }
  destruct (started_stranded _ _ _ _ _ Hidle Hst _ Hin) as (v & Hv & _). congruence.
Qed.

Lemma settled_task d (t : Task.t) f :
  rows (tasks d) !! Task.ID t = Some t → keeps_id f →
  (λ t', if by_id (Task.ID t) t' then f t' else t') <$> rows (tasks d) =
  <[Task.ID t := f t]> (rows (tasks d)).
Proof. intros Ht Hf. rewrite <- update_spec by done. by rewrite (update_key _ _ _ t). Qed.

(** C9. A snapshot of a group comes to an end: after [CreateSnapshot] has succeeded,
    the report of the backend, whatever it says, is recorded (if the database
    answers).  Then the snapshot is available or in error, its task has succeeded
    or failed, no volume of the group is backuping any more, and if the volumes
    were at rest before the snapshot, the table of volumes is exactly what it was. *)
Theorem cg_snapshot_completes uuid name description c w s w1 script st rest c' :
  no_faults →
  ConsistencyGroupAdmin_CreateSnapshot uuid name description c w = (Ok s, w1) →
  fits 64 (ConsistencyGroupSnapshot.ID s) = true → dbkey c' = false →
  ∃ w2 ids,
    CreateCGSnapshotWDS (script :: fmt_d (ConsistencyGroupSnapshot.ID s) :: st :: rest) c' w1
      = (Ok st, w2) ∧
    ids = member_ids (db w) (ConsistencyGroupSnapshot.CGID s) ∧
    rows (volumes (db w2)) = set_status ids rest_status (rows (volumes (db w))) ∧
    (at_rest (db w) ids → rows (volumes (db w2)) = rows (volumes (db w))) ∧
    rows (cg_snapshots (db w2)) =
      <[ConsistencyGroupSnapshot.ID s :=
          snapshot_reported (is_available st) (getArgSafe rest 0 "")
            (gigabytes (default 0 (ParseInt 64 (getArgSafe rest 1 "0")))) s]>
        (rows (cg_snapshots (db w))) ∧
    (∃ t, Task.ID t = ConsistencyGroupSnapshot.TaskID s ∧
       rows (tasks (db w)) !! Task.ID t = None ∧
       rows (tasks (db w2)) =
         <[Task.ID t := report_task (is_available st) (joinRemainingArgs rest 2) t]>
           (rows (tasks (db w)))).
Proof.
  intros Hn H Hf Hc.
  destruct (create_snapshot_Ok _ _ _ _ _ _ _ H) as (cg & t & (_ & _ & _ & _ & Hidle) & Hst & _).
  destruct (started_not_dangling _ _ _ _ _ Hidle Hst) as [Hids Hnd].
  destruct (ss_snapshot _ _ _ _ _ Hst) as (_ & Hpos & Hcg & _ & Htid & Hsn).
  destruct (ss_task _ _ _ _ _ Hst) as (Htn & _ & _ & Htr).
  assert (rows (cg_snapshots (db w1)) !! ConsistencyGroupSnapshot.ID s = Some s) as Hrow
    by (rewrite Hsn; apply lookup_insert_eq).
  assert (rows (tasks (db w1)) !! Task.ID t = Some t) as Htrow
    by (rewrite Htr; apply lookup_insert_eq).
  pose proof (rows_pos _ _ _ Htrow) as Htpos.
  destruct (complete_snapshot_runs (ConsistencyGroupSnapshot.ID s) st (getArgSafe rest 0 "")
    (gigabytes (default 0 (ParseInt 64 (getArgSafe rest 1 "0")))) (joinRemainingArgs rest 2)
    (c' <| dbkey := true |>) w1 s Hn Hrow) as [w2 Hrun]; [by rewrite Hcg|].
  pose proof Hrun as [_ (s' & Hset)]%complete_snapshot_Ok; [|lia].
  pose proof (st_row _ _ _ _ _ _ _ _ Hset) as Hs'. rewrite Hrow in Hs'. simplify_eq.
  assert (rows (volumes (db w2)) =
    set_status (member_ids (db w) (ConsistencyGroupSnapshot.CGID s')) rest_status
      (rows (volumes (db w)))) as Hvol.
  { rewrite (st_volumes _ _ _ _ _ _ _ _ Hset), (ss_volumes _ _ _ _ _ Hst), Hcg, Hids.
    apply set_status_twice, rest_status_free. }
  exists w2, (member_ids (db w) (ConsistencyGroupSnapshot.CGID s')). split_and!; [|done|done|..].
  - rewrite CreateCGSnapshot_words by done. by apply with_tx_Ok.
  - intros Hrest. rewrite Hvol. apply set_status_same. intros k v Hv Hin.
    pose proof (rows_id _ _ _ Hv) as Hk. simpl in Hk. rewrite Hk in Hin. by eapply Hrest.
  - by rewrite (st_snapshot _ _ _ _ _ _ _ _ Hset), Hsn, insert_insert_eq.
  - exists t. split_and!; [done|done|].
    rewrite (st_task _ _ _ _ _ _ _ _ Hset Hn), Htid by lia.
    by rewrite settled_task, Htr, insert_insert_eq by (done || apply report_task_id).
Qed.

(** *** Reports on groups *)

Lemma CreateCG_words name tid cgID st rest c w :
  fits 64 tid = true → fits 64 cgID = true →
  CreateCGWDS (name :: fmt_d tid :: fmt_d cgID :: st :: rest) c w =
  with_tx (complete_group tid cgID st (getArgSafe rest 0 "") (joinRemainingArgs rest 1)) c w.
Proof.
  intros Hf1 Hf2. unfold CreateCGWDS, wrong_args, arg, parse_arg. cbn -[with_tx ParseInt].
  unfold mbind at 1, M_bind at 1. cbn -[with_tx ParseInt].
  unfold mbind at 1, M_bind at 1. cbn -[with_tx ParseInt]. rewrite ParseInt_fmt_d by done.
  unfold mbind at 1, M_bind at 1. cbn -[with_tx ParseInt].
  unfold mbind at 1, M_bind at 1. cbn -[with_tx ParseInt].
  unfold mbind at 1, M_bind at 1. cbn -[with_tx ParseInt]. rewrite ParseInt_fmt_d by done.
  cbn -[with_tx ParseInt]. unfold getArgSafe, joinRemainingArgs. cbn -[with_tx ParseInt].
  by destruct rest as [|? [|? [|]]].
Qed.

(** The first words of a report that names a group. *)
Lemma group_words {A} name cgID (rest : list string) (k : Z → M A) c w :
  fits 64 cgID = true →
  (_ ← wrong_args 3 (name :: fmt_d cgID :: rest);
   a1 ← arg (name :: fmt_d cgID :: rest) 1;
   x ← parse_arg 64 a1; k x) c w =
  (if (length rest =? 0)%nat then fail (GoError "wrong params") else k cgID) c w.
Proof.
  intros Hf. unfold wrong_args, arg, parse_arg. destruct rest as [|st rest]; [done|].
  unfold mbind, M_bind. cbn -[ParseInt]. by rewrite ParseInt_fmt_d.
Qed.

(** The rows of the groups after a report that sets the status of one. *)
Definition set_group (cgID : Z) (f : ConsistencyGroup.t → ConsistencyGroup.t) (st : string)
    : M string :=
  _ ← db_get (R := ConsistencyGroup.t) cgID;
  _ ← db_update (by_id cgID) f;
  mret st.

Lemma settle_group cgID cg f st c w :
  no_faults → rows (consistency_groups (db w)) !! cgID = Some cg → keeps_id f →
  ∃ w', set_group cgID f st c w = (Ok st, w') ∧
    rows (consistency_groups (db w')) = <[cgID := f cg]> (rows (consistency_groups (db w))) ∧
    cg_volumes (db w') = cg_volumes (db w) ∧ volumes (db w') = volumes (db w).
Proof.
  intros Hn Hcg Hf. unfold set_group.
  destruct (get_then_runs (HD := in_consistency_groups) cgID cg
    (λ _ : ConsistencyGroup.t, (_ ← db_update (by_id cgID) f; mret st) : M string) c w Hn Hcg) as (r & w1 & w' & Hrun & Hk & Hd & _);
    [ne_tac|np|].
  apply bind_Ok in Hk as (u & w2 & [Hu _]%db_update_Ok & [<- <-]%ret_Ok).
  exists w2. split; [exact Hrun|]. rewrite Hu, Hd. cbn. by rewrite (update_key _ _ _ cg).
Qed.

Lemma group_reported_id ok wds : keeps_id (group_reported ok wds).
Proof. by destruct ok. Qed.

Lemma complete_group_runs tid cgID cg st wds message c w :
  no_faults → rows (consistency_groups (db w)) !! cgID = Some cg →
  ∃ w', complete_group tid cgID st wds message c w = (Ok st, w') ∧
    rows (consistency_groups (db w')) =
      <[cgID := group_reported (is_available st) wds cg]> (rows (consistency_groups (db w))) ∧
    cg_volumes (db w') = cg_volumes (db w).
Proof.
  intros Hn Hcg. unfold complete_group.
  destruct (get_then_runs (HD := in_consistency_groups) cgID cg
    (λ _ : ConsistencyGroup.t,
       (_ ← db_update (by_id cgID) (group_reported (is_available st) wds);
        _ ← update_task tid (is_available st) message; mret st) : M string) c w Hn Hcg)
    as (r & w1 & w' & Hrun & Hk & Hd & _); [unfold update_task; ne_tac|unfold update_task; np|].
  apply bind_Ok in Hk as (u & w2 & [Hu _]%db_update_Ok & Hk).
  apply bind_Ok in Hk as (u' & w3 & Ht & [<- <-]%ret_Ok).
  exists w3. split; [exact Hrun|]. rewrite Hd in Hu. clear Hrun.
  assert (consistency_groups (db w3) = consistency_groups (db w2) ∧
          cg_volumes (db w3) = cg_volumes (db w2)) as [-> ->].
  { unfold update_task in Ht. destruct (0 <? tid); go_ok; [by flat|done]. }
  rewrite Hu. cbn. by rewrite (update_key _ _ _ cg) by (done || apply group_reported_id).
Qed.

Lemma complete_delete_runs cgID cg st c w :
  no_faults → rows (consistency_groups (db w)) !! cgID = Some cg →
  ∃ w', complete_delete cgID st c w = (Ok st, w') ∧
    if String.eqb st "deleted" then
      rows (consistency_groups (db w')) = delete cgID (rows (consistency_groups (db w))) ∧
      ∀ k, rows (cg_volumes (db w')) !! k =
        match rows (cg_volumes (db w)) !! k with
        | Some r => if of_group cgID r then None else Some r
        | None => None
        end
    else
      rows (consistency_groups (db w')) =
        <[cgID := cg <| ConsistencyGroup.Status := CGStatusError |>]>
          (rows (consistency_groups (db w))) ∧
      cg_volumes (db w') = cg_volumes (db w).
Proof.
  intros Hn Hcg. pose proof (rows_pos _ _ _ Hcg) as Hpos.
  destruct (runs (complete_delete cgID st) c w) as (r & w' & H);
    [unfold complete_delete; ne_tac|unfold complete_delete; np|].
  assert (r = st) as ->.
  { unfold complete_delete in H. destruct (String.eqb st "deleted"); by go_ok. }
  exists w'. split; [done|]. unfold complete_delete in H.
  destruct (String.eqb st "deleted"); go_ok; flat; cbn.
  - split; [apply delete_pk; lia|]. intros k. apply delete_spec.
  - split; [|done]. by rewrite (update_key _ _ _ cg).
Qed.

(** A group that waits for the backend does not stay busy: if the database
    answers, every report on an existing group is recorded.  The report on its
    creation makes it available with the identifier of the backend, or in error;
    a report on its volumes makes it available or in error; the report that it was
    deleted removes it with its join rows and no others, any other report on the
    deletion puts it in error. *)
Theorem cg_reports_settle name cgID cg st rest c w :
  no_faults → rows (consistency_groups (db w)) !! cgID = Some cg →
  fits 64 cgID = true → dbkey c = false →
  (∀ tid, fits 64 tid = true →
     ∃ w', CreateCGWDS (name :: fmt_d tid :: fmt_d cgID :: st :: rest) c w = (Ok st, w') ∧
       rows (consistency_groups (db w')) =
         <[cgID := group_reported (is_available st) (getArgSafe rest 0 "") cg]>
           (rows (consistency_groups (db w))) ∧
       cg_volumes (db w') = cg_volumes (db w)) ∧
  (∀ h : Handler, h = AddVolumesToCGWDS ∨ h = RemoveVolumesFromCGWDS →
     ∃ w', h (name :: fmt_d cgID :: st :: rest) c w = (Ok st, w') ∧
       rows (consistency_groups (db w')) =
         <[cgID := cg <| ConsistencyGroup.Status := group_status st |>]>
           (rows (consistency_groups (db w))) ∧
       cg_volumes (db w') = cg_volumes (db w)) ∧
  (∃ w', DeleteCGWDS (name :: fmt_d cgID :: st :: rest) c w = (Ok st, w') ∧
     if String.eqb st "deleted" then
       rows (consistency_groups (db w')) = delete cgID (rows (consistency_groups (db w))) ∧
       ∀ k, rows (cg_volumes (db w')) !! k =
         match rows (cg_volumes (db w)) !! k with
         | Some r => if of_group cgID r then None else Some r
         | None => None
         end
     else
       rows (consistency_groups (db w')) =
         <[cgID := cg <| ConsistencyGroup.Status := CGStatusError |>]>
           (rows (consistency_groups (db w))) ∧
       cg_volumes (db w') = cg_volumes (db w)).
Proof.
  intros Hn Hcg Hf Hc. pose proof (rows_pos _ _ _ Hcg) as Hpos. split_and!.
  - intros tid Ht. rewrite CreateCG_words by done.
    destruct (complete_group_runs tid cgID cg st (getArgSafe rest 0 "") (joinRemainingArgs rest 1)
      (c <| dbkey := true |>) w Hn Hcg) as (w' & Hrun & Hg & Hm).
    exists w'. split; [by apply with_tx_Ok|]. by rewrite Hg.
  - intros h Hh.
    destruct (settle_group cgID cg (λ r, r <| ConsistencyGroup.Status := group_status st |>) st
      (c <| dbkey := true |>) w Hn Hcg) as (w' & Hrun & Hg & Hm & _); [done|].
    exists w'. split; [|done]. destruct Hh as [->| ->];
      [unfold AddVolumesToCGWDS|unfold RemoveVolumesFromCGWDS];
      rewrite group_words by done; by apply with_tx_Ok.
  - destruct (complete_delete_runs cgID cg st (c <| dbkey := true |>) w Hn Hcg) as (w' & Hrun & Hw).
    exists w'. split; [|done]. unfold DeleteCGWDS. rewrite group_words by done. by apply with_tx_Ok.
Qed.

End reports.

(** ** The requests on groups, as one system

    Requests of users, the deletion of a volume, and reports of the backend, which
    reach their handler through the registry. *)

Inductive cg_op :=
  | OpCreate (name description : string) (uuids : list string)
  | OpUpdate (id : Z) (name description : string)
  | OpDelete (id : Z)
  | OpAddVolumes (id : Z) (uuids : list string)
  | OpRemoveVolume (id : Z) (uuid : string)
  | OpCreateSnapshot (uuid name description : string)
  | OpDeleteSnapshot (uuid snap : string)
  | OpRestoreSnapshot (uuid snap : string)
  | OpDeleteVolume (v : Volume.t)
  | OpReport (cmd : string) (args : list string).

Section system.
Context {G : Gorm} {E : Env} {GOk : GormOk G}.
Implicit Types (c : Ctx) (w : World).

Definition run_op (o : cg_op) : M unit :=
  match o with
  | OpCreate name description uuids =>
      _ ← ConsistencyGroupAdmin_Create name description uuids; mret tt
  | OpUpdate id name description => _ ← ConsistencyGroupAdmin_Update id name description; mret tt
  | OpDelete id => ConsistencyGroupAdmin_Delete id
  | OpAddVolumes id uuids => _ ← ConsistencyGroupAdmin_AddVolumes id uuids; mret tt
  | OpRemoveVolume id uuid => _ ← ConsistencyGroupAdmin_RemoveVolume id uuid; mret tt
  | OpCreateSnapshot uuid name description =>
      _ ← ConsistencyGroupAdmin_CreateSnapshot uuid name description; mret tt
  | OpDeleteSnapshot uuid snap => ConsistencyGroupAdmin_DeleteSnapshot uuid snap
  | OpRestoreSnapshot uuid snap => _ ← ConsistencyGroupAdmin_RestoreSnapshot uuid snap; mret tt
  | OpDeleteVolume v => VolumeAdmin_Delete v
  | OpReport cmd args => _ ← dispatchExecute (add_consistency_group ∅) cmd args; mret tt
  end.

(** What the code does not check by itself: identifiers given twice, and, in
    [Create], volumes that are in a group already. *)
Definition op_ok (d : DB) (o : cg_op) : Prop :=
  match o with
  | OpCreate _ _ uuids =>
      NoDup uuids ∧
      ∀ k v, rows (volumes d) !! k = Some v → Volume.UUID v ∈ uuids → ungrouped d k
  | OpAddVolumes _ uuids => NoDup uuids
  | OpDeleteVolume v => Volume.ID v ≠ 0
  | _ => True
  end.

(** The worlds that requests lead to, each with its own context and outcome. *)
Inductive cg_reach (w : World) : World → Prop :=
  | reach_start : cg_reach w w
  | reach_step w1 c o :
      cg_reach w w1 → op_ok (db w1) o → cg_reach w (run_op o c w1).2.

Lemma reports_groups_ok cmd args :
  preserves groups_ok (dispatchExecute (add_consistency_group ∅) cmd args).
Proof.
  unfold dispatchExecute, Get. destruct (add_consistency_group ∅ !! cmd) as [h|] eqn:Hh;
    [|apply pres_fail].
  unfold add_consistency_group, Add, Registry in Hh.
  repeat (apply lookup_insert_Some in Hh as [[_ <-]|[_ Hh]]); [..|by apply lookup_empty_Some in Hh].
  all: unfold RestoreCGSnapshotWDS, DeleteCGSnapshotWDS, CreateCGSnapshotWDS, complete_snapshot,
    RemoveVolumesFromCGWDS, AddVolumesToCGWDS, DeleteCGWDS, complete_delete, CreateCGWDS, complete_group, wrong_args, update_task, release_volumes,
    find_group_volumes, preload_volumes; pres;
    (first [apply pres_db_update | apply pres_db_delete]; intros;
     first [solve [eapply groups_ok_same; [| |eassumption]; done]
           |by apply groups_ok_delete|by apply groups_ok_update]).
Qed.

Lemma run_op_groups_ok o c w :
  op_ok (db w) o → groups_ok (db w) → groups_ok (db (run_op o c w).2).
Proof.
  intros Hok Hw. destruct o; simpl in *;
    try (apply run_bind; [|by intros; apply pres_ret]).
  - destruct Hok. by apply create_group_groups_ok.
  - by apply group_changes_groups_ok.
  - by apply (group_changes_groups_ok id "" "").
  - by apply add_volumes_groups_ok.
  - by apply remove_volume_groups_ok.
  - by apply (snapshots_groups_ok uuid "").
  - by apply (snapshots_groups_ok uuid snap "" "").
  - by apply (snapshots_groups_ok uuid snap "" "").
  - by apply volume_delete_groups_ok.
  - by apply reports_groups_ok.
Qed.

(** C8. Whatever sequence of requests on groups, deletions of volumes and reports
    of the backend runs, and whatever fails in it, a volume is in one group at
    most and the volume of every join row exists.  Two things the code does not
    check are assumed: the identifiers of one request are distinct, and the
    volumes given to [Create] are in no group yet. *)
Theorem cg_membership_invariant w w' :
  groups_ok (db w) → cg_reach w w' → groups_ok (db w').
Proof. intros Hw. induction 1; [done|]. by apply run_op_groups_ok. Qed.

End system.

(** ** Witnesses *)

Module GroupWitness.
Import Scenario.
#[local] Existing Instance MemGorm.
#[local] Existing Instance MemGormOk.
#[local] Existing Instance env.

(** Group 1 of organization 2 holds volume 7 and has the snapshot 3. *)
Definition group1 : ConsistencyGroup.t :=
  ConsistencyGroup.zero <| ConsistencyGroup.ID := 1 |> <| ConsistencyGroup.UUID := "g1" |>
    <| ConsistencyGroup.Owner := 2 |> <| ConsistencyGroup.Status := CGStatusAvailable |>
    <| ConsistencyGroup.WdsCgID := "wcg1" |>.

Definition member1 : ConsistencyGroupVolume.t :=
  ConsistencyGroupVolume.zero <| ConsistencyGroupVolume.ID := 1 |>
    <| ConsistencyGroupVolume.CGID := 1 |> <| ConsistencyGroupVolume.VolumeID := 7 |>.

Definition snapshot3 : ConsistencyGroupSnapshot.t :=
  ConsistencyGroupSnapshot.zero <| ConsistencyGroupSnapshot.ID := 3 |>
    <| ConsistencyGroupSnapshot.UUID := "s3" |> <| ConsistencyGroupSnapshot.Owner := 2 |>
    <| ConsistencyGroupSnapshot.CGID := 1 |>
    <| ConsistencyGroupSnapshot.Status := CGSnapshotStatusAvailable |>
    <| ConsistencyGroupSnapshot.WdsSnapID := "ws3" |>.

Definition group_world : World :=
  world <| db := cloud <| consistency_groups := table_of [group1] |>
                       <| cg_volumes := table_of [member1] |>
                       <| cg_snapshots := table_of [snapshot3] |> |>.

Lemma env_no_faults : no_faults.
Proof. done. Qed.

Lemma group_world_members : rows (cg_volumes (db group_world)) = {[1 := member1]}.
Proof. vm_compute. reflexivity. Qed.

Lemma group_world_volume7 : rows (volumes (db group_world)) !! 7 = Some volume7.
Proof. vm_compute. reflexivity. Qed.

Lemma group_world_ok : groups_ok (db group_world).
Proof.
  split; rewrite group_world_members.
  - intros k1 k2 r1 r2 [-> _]%lookup_singleton_Some [-> _]%lookup_singleton_Some. done.
  - intros k r [_ <-]%lookup_singleton_Some.
    change (ConsistencyGroupVolume.VolumeID member1) with 7. rewrite group_world_volume7. eauto.
Qed.

Lemma cg_snapshot_outcomes_witness :
  ∃ e w', ConsistencyGroupAdmin_CreateSnapshot (E := env_down) "g1" "n" "" writer group_world
            = (Err e, w') ∧
    ∃ cg, stranded (db group_world) (ConsistencyGroup.ID cg) (db w').
Proof.
  pose proof (cg_snapshot_outcomes (E := env_down) "g1" "n" "" writer group_world) as Ht.
  run_remote_err (ConsistencyGroupAdmin_CreateSnapshot (E := env_down) "g1" "n" "" writer group_world)
    e w' Hrun He.
  rewrite Hrun in Ht. destruct (Ht He) as (cg & _ & Hst). exists e, w'. split; [exact Hrun|eauto].
Defined.

Lemma cg_restore_safe_witness :
  ∃ t w', ConsistencyGroupAdmin_RestoreSnapshot "g1" "s3" writer group_world = (Ok t, w') ∧
    ∃ cg s, members_stopped (db group_world) cg ∧ restore_started (db group_world) (db w') cg s t.
Proof.
  run_ok (ConsistencyGroupAdmin_RestoreSnapshot "g1" "s3" writer group_world) t w' Hrun.
  destruct (cg_restore_safe "g1" "s3" writer group_world t w' Hrun)
    as (cg & s & j & _ & _ & _ & _ & _ & _ & _ & _ & Hstop & Hst & _).
  exists t, w'. split; [exact Hrun|]. exists cg, s. split; [exact Hstop|exact Hst].
Defined.

Lemma cg_snapshot_report_witness :
  ∃ w', CreateCGSnapshotWDS ["create_cg_snapshot_wds.sh"; fmt_d 3; "available"; "ws3"; "2147483648"]
          background group_world = (Ok "available", w') ∧
    ∃ s, snapshot_settled (db group_world) (db w') 3 true "ws3" 2 "" s.
Proof.
  pose proof (cg_snapshot_report "create_cg_snapshot_wds.sh" 3 "available" ["ws3"; "2147483648"]
    background group_world ltac:(lia) eq_refl eq_refl) as Ht.
  run_ok (CreateCGSnapshotWDS ["create_cg_snapshot_wds.sh"; fmt_d 3; "available"; "ws3";
    "2147483648"] background group_world) r w' Hrun.
  rewrite Hrun in Ht. destruct Ht as [-> Hs]. exists w'. split; [exact Hrun|exact Hs].
Defined.

Lemma cg_snapshot_completes_witness :
  ∃ s w1 w2, ConsistencyGroupAdmin_CreateSnapshot "g1" "n" "" writer group_world = (Ok s, w1) ∧
    CreateCGSnapshotWDS ["x"; fmt_d (ConsistencyGroupSnapshot.ID s); "error"] background w1
      = (Ok "error", w2).
Proof.
  destruct (run_check (ConsistencyGroupAdmin_CreateSnapshot "g1" "n" "" writer group_world)
    (λ s, fits 64 (ConsistencyGroupSnapshot.ID s))) as (s & w1 & Hrun & Hf);
    [vm_compute; reflexivity|].
  destruct (cg_snapshot_completes "g1" "n" "" writer group_world s w1 "x" "error" [] background
    env_no_faults Hrun Hf eq_refl) as (w2 & ids & H2 & _).
  exists s, w1, w2. split; [exact Hrun|exact H2].
Defined.

Lemma cg_reports_settle_witness :
  ∃ w', DeleteCGWDS ["delete_cg_wds.sh"; fmt_d 1; "deleted"] background group_world
          = (Ok "deleted", w') ∧
    rows (consistency_groups (db w')) = delete 1 (rows (consistency_groups (db group_world))).
Proof.
  destruct (cg_reports_settle "delete_cg_wds.sh" 1 group1 "deleted" [] background group_world
    env_no_faults ltac:(vm_compute; reflexivity) eq_refl eq_refl) as (_ & _ & w' & Hrun & Hg & _).
  exists w'. split; [exact Hrun|exact Hg].
Defined.

(** Two requests: volume 8 joins the group, and volume 7 is asked to be deleted,
    which is refused. *)
Lemma cg_membership_invariant_witness :
  groups_ok (db (run_op (OpDeleteVolume volume7) writer
                   (run_op (OpAddVolumes 1 ["u8"]) writer group_world).2).2).
Proof.
  apply (cg_membership_invariant group_world).
  - apply group_world_ok.
  - apply reach_step; [apply reach_step; [apply reach_start|]|].
    + constructor; [apply not_elem_of_nil|constructor].
    + intros H. vm_compute in H. discriminate.
Defined.

(** [Create] checks neither the owner of the volumes it is given nor whether
    they are in a group: a writer of another organization makes a group of its own
    with a volume of organization 2 that is in a group already, and afterwards the
    volume is in two groups. *)
Theorem create_takes_foreign_volume :
  groups_ok (db group_world) ∧
  ∃ cg w', ConsistencyGroupAdmin_Create "mine" "" ["u7"] stranger group_world = (Ok cg, w') ∧
    ConsistencyGroup.Owner cg ≠ Volume.Owner volume7 ∧ ¬ groups_ok (db w').
Proof.
  split; [apply group_world_ok|].
  set (r := ConsistencyGroupAdmin_Create "mine" "" ["u7"] stranger group_world).
  destruct (run_check r (λ cg, negb (ConsistencyGroup.Owner cg =? Volume.Owner volume7)))
    as (cg & w' & Hrun & Ho); [vm_compute; reflexivity|].
  exists cg, w'. split; [exact Hrun|]. split; [apply Z.eqb_neq; by apply negb_true_iff|].
  assert (w' = r.2) as -> by (by rewrite Hrun). intros Hok.
  assert (∀ k, ConsistencyGroupVolume.VolumeID <$> rows (cg_volumes (db r.2)) !! k = Some 7 →
    k = 1) as Huniq.
  { intros k (x & Hx & Hv)%fmap_Some.
    assert (ConsistencyGroupVolume.VolumeID <$> rows (cg_volumes (db r.2)) !! 1 = Some 7)
      as (y & Hy & Hv')%fmap_Some by (vm_compute; reflexivity).
    eapply (one_group _ Hok); eauto; congruence. }
  assert (101 = 1) by (apply Huniq; vm_compute; reflexivity). done.
Qed.

End GroupWitness.
