(* ===== verification/GoFloat.v ===== *)
(** * GoFloat: the float64 arithmetic the program uses

    Conversion from an integer, division, [math.Ceil] and the conversion back.  A finite
    number is an integer times a power of two; every operation rounds the exact result to
    53 binary digits, to the nearest and on a tie to the even one, as IEEE 754 says.  The
    operands come from 64-bit integers, so that no result is too large or too small for the
    exponent of a float64; the divisor is positive. *)

From S2P Require Import Prelude GoLib.

Record float64 := mkFloat { mantissa : Z; exponent : Z }.

(** The integer nearest to [n / d], an even one on a tie. *)
Definition nearest_even (n d : Z) : Z :=
  let q := n / d in
  match 2 * (n mod d) ?= d with
  | Lt => q
  | Gt => q + 1
  | Eq => if Z.even q then q else q + 1
  end.

(** [a / d] without its fraction in base 2: the largest [k] with [d * 2 ^ k <= a]. *)
Definition binary_order (a d : Z) : Z :=
  let k := Z.log2 a - Z.log2 d in
  if d * 2 ^ Z.max 0 k <=? a * 2 ^ Z.max 0 (- k) then k else k - 1.

(** [n / d] rounded. *)
Definition round_quot (n d : Z) : float64 :=
  if n =? 0 then mkFloat 0 0
  else
    let a := Z.abs n in
    let e := binary_order a d - 52 in
    mkFloat (Z.sgn n * nearest_even (a * 2 ^ Z.max 0 (- e)) (d * 2 ^ Z.max 0 e)) e.

Definition float_of_int (n : Z) : float64 := round_quot n 1.

Definition float_div (x y : float64) : float64 :=
  round_quot (mantissa x * 2 ^ Z.max 0 (exponent x - exponent y))
             (mantissa y * 2 ^ Z.max 0 (exponent y - exponent x)).

Definition Ceil (x : float64) : Z :=
  if 0 <=? exponent x then mantissa x * 2 ^ exponent x
  else - (- mantissa x / 2 ^ (- exponent x)).

(** [int(x)] of an integral [x]: outside of the range Go leaves the result to the machine,
    and amd64 gives the least integer. *)
Definition int_of_float (x : Z) : Z := if fits 64 x then x else - 2 ^ 63.

(** ** Rounding *)

Lemma nearest_even_error n d :
  0 < d → Z.abs (2 * (nearest_even n d * d - n)) ≤ d.
Proof.
  intros Hd. unfold nearest_even. pose proof (Z.div_mod n d ltac:(lia)).
  pose proof (Z.mod_pos_bound n d Hd).
  destruct (Z.compare_spec (2 * (n mod d)) d); [destruct (Z.even _)|..]; nia.
Qed.

Lemma binary_order_spec a d :
  0 < a → 0 < d →
  let k := binary_order a d in
  d * 2 ^ Z.max 0 k ≤ a * 2 ^ Z.max 0 (- k) ∧
  a * 2 ^ Z.max 0 (- k) < 2 * (d * 2 ^ Z.max 0 k).
Proof.
  intros Ha Hd. unfold binary_order. cbv zeta.
  pose proof (Z.log2_spec a Ha) as [A1 A2]. pose proof (Z.log2_spec d Hd) as [D1 D2].
  rewrite Z.pow_succ_r in A2, D2 by apply Z.log2_nonneg.
  set (la := Z.log2 a) in *. set (ld := Z.log2 d) in *.
  assert (0 ≤ la ∧ 0 ≤ ld) as [L1 L2] by (split; apply Z.log2_nonneg).
  assert (∀ x y, 0 ≤ x → 0 ≤ y → 2 ^ (x + y) = 2 ^ x * 2 ^ y) as Hp by (intros; by apply Z.pow_add_r).
  destruct (Z.le_ge_cases ld la) as [Hk|Hk].
  - replace (Z.max 0 (la - ld)) with (la - ld) by lia.
    replace (Z.max 0 (- (la - ld))) with 0 by lia.
    pose proof (Hp ld (la - ld) L2 ltac:(lia)) as E. replace (ld + (la - ld)) with la in E by lia.
    pose proof (Z.pow_pos_nonneg 2 (la - ld) ltac:(lia) ltac:(lia)).
    destruct (d * 2 ^ (la - ld) <=? a * 2 ^ 0) eqn:Hc; simp.
    + replace (Z.max 0 (la - ld)) with (la - ld) by lia.
      replace (Z.max 0 (- (la - ld))) with 0 by lia. rewrite ?Z.pow_0_r, ?Z.pow_1_r, ?Z.mul_1_r in *. nia.
    + destruct (Z.eq_dec la ld) as [Heq|Hne].
      * replace (la - ld) with 0 in * by lia. rewrite ?Z.pow_0_r, ?Z.pow_1_r, ?Z.mul_1_r in *.
        change (Z.max 0 (0 - 1)) with 0. change (Z.max 0 (- (0 - 1))) with 1. rewrite ?Z.pow_0_r, ?Z.pow_1_r. nia.
      * replace (Z.max 0 (la - ld - 1)) with (la - ld - 1) by lia.
        replace (Z.max 0 (- (la - ld - 1))) with 0 by lia. rewrite ?Z.pow_0_r, ?Z.pow_1_r, ?Z.mul_1_r in *.
        pose proof (Hp 1 (la - ld - 1) ltac:(lia) ltac:(lia)) as E2.
        replace (1 + (la - ld - 1)) with (la - ld) in E2 by lia. nia.
  - replace (Z.max 0 (la - ld)) with 0 by lia.
    replace (Z.max 0 (- (la - ld))) with (ld - la) by lia.
    pose proof (Hp la (ld - la) L1 ltac:(lia)) as E. replace (la + (ld - la)) with ld in E by lia.
    pose proof (Z.pow_pos_nonneg 2 (ld - la) ltac:(lia) ltac:(lia)).
    destruct (d * 2 ^ 0 <=? a * 2 ^ (ld - la)) eqn:Hc; simp.
    + replace (Z.max 0 (la - ld)) with 0 by lia.
      replace (Z.max 0 (- (la - ld))) with (ld - la) by lia. rewrite ?Z.pow_0_r, ?Z.pow_1_r, ?Z.mul_1_r in *. nia.
    + replace (Z.max 0 (la - ld - 1)) with 0 by lia.
      replace (Z.max 0 (- (la - ld - 1))) with (ld - la + 1) by lia.
      rewrite (Hp (ld - la) 1) by lia. rewrite ?Z.pow_0_r, ?Z.pow_1_r, ?Z.mul_1_r in *. nia.
Qed.

Lemma nearest_even_1 n : nearest_even n 1 = n.
Proof. unfold nearest_even. by rewrite Z.div_1_r, Z.mod_1_r. Qed.

(** The mantissa has 53 digits. *)
Lemma scaled_order a d :
  0 < a → 0 < d →
  let e := binary_order a d - 52 in
  2 ^ 52 * (d * 2 ^ Z.max 0 e) ≤ a * 2 ^ Z.max 0 (- e).
Proof.
  intros Ha Hd. pose proof (binary_order_spec a d Ha Hd) as [H _]. cbv zeta in *.
  set (k := binary_order a d) in *. destruct (Z.le_ge_cases 52 k).
  - replace (Z.max 0 k) with (52 + (k - 52)) in H by lia.
    replace (Z.max 0 (- k)) with 0 in H by lia. rewrite Z.pow_add_r in H by lia.
    replace (Z.max 0 (k - 52)) with (k - 52) by lia.
    replace (Z.max 0 (- (k - 52))) with 0 by lia. lia.
  - replace (Z.max 0 (k - 52)) with 0 by lia.
    replace (Z.max 0 (- (k - 52))) with (52 - k) by lia. destruct (Z.le_ge_cases 0 k).
    + replace (Z.max 0 k) with k in H by lia. replace (Z.max 0 (- k)) with 0 in H by lia.
      assert (2 ^ 52 = 2 ^ k * 2 ^ (52 - k)) as E by (rewrite <- Z.pow_add_r by lia; f_equal; lia).
      pose proof (Z.pow_pos_nonneg 2 (52 - k) ltac:(lia) ltac:(lia)).
      rewrite E. rewrite ?Z.pow_0_r, ?Z.mul_1_r in *. nia.
    + replace (Z.max 0 k) with 0 in H by lia. replace (Z.max 0 (- k)) with (- k) in H by lia.
      replace (52 - k) with (52 + - k) by lia. rewrite Z.pow_add_r by lia. lia.
Qed.

Lemma order_below a d : 0 < a < 2 ^ 53 * d → 0 < d → binary_order a d ≤ 52.
Proof.
  intros [Ha Hlt] Hd. pose proof (binary_order_spec a d Ha Hd) as [H _]. cbv zeta in H.
  set (k := binary_order a d) in *. destruct (Z.le_gt_cases k 52) as [|Hk]; [done|exfalso].
  replace (Z.max 0 k) with (53 + (k - 53)) in H by lia. replace (Z.max 0 (- k)) with 0 in H by lia.
  rewrite Z.pow_add_r in H by lia. pose proof (Z.pow_pos_nonneg 2 (k - 53) ltac:(lia) ltac:(lia)). nia.
Qed.

(** Integers below 2^53 are converted without loss, larger ones stay that large. *)
Lemma float_of_int_exact n :
  0 < n < 2 ^ 53 →
  exponent (float_of_int n) ≤ 0 ∧ 0 < mantissa (float_of_int n) ∧
  mantissa (float_of_int n) = n * 2 ^ (- exponent (float_of_int n)).
Proof.
  intros Hn. pose proof (order_below n 1 ltac:(lia) ltac:(lia)).
  unfold float_of_int, round_quot. rewrite (proj2 (Z.eqb_neq n 0)) by lia.
  cbn [mantissa exponent]. rewrite Z.abs_eq, Z.sgn_pos by lia.
  set (e := binary_order n 1 - 52) in *. assert (e ≤ 0) by lia. clearbody e.
  replace (Z.max 0 e) with 0 by lia. replace (Z.max 0 (- e)) with (- e) by lia.
  change (1 * 2 ^ 0) with 1. rewrite nearest_even_1.
  pose proof (Z.pow_pos_nonneg 2 (- e) ltac:(lia) ltac:(lia)). split_and!; [lia|nia|lia].
Qed.

Lemma float_of_int_large n :
  2 ^ 53 ≤ n →
  0 ≤ exponent (float_of_int n) ∧ 0 < mantissa (float_of_int n) ∧
  2 ^ 53 ≤ mantissa (float_of_int n) * 2 ^ exponent (float_of_int n).
Proof.
  intros Hn. unfold float_of_int, round_quot. rewrite (proj2 (Z.eqb_neq n 0)) by lia.
  cbn [mantissa exponent]. rewrite Z.abs_eq, Z.sgn_pos by lia.
  pose proof (scaled_order n 1 ltac:(lia) ltac:(lia)) as H1.
  pose proof (binary_order_spec n 1 ltac:(lia) ltac:(lia)) as [_ H2]. cbv zeta in *.
  set (k := binary_order n 1) in *. clearbody k.
  assert (53 ≤ k) as Hk.
  { destruct (Z.le_gt_cases 53 k) as [|Hk]; [done|exfalso].
    assert (2 ^ Z.max 0 k ≤ 2 ^ 52) by (apply Z.pow_le_mono_r; lia).
    pose proof (Z.pow_pos_nonneg 2 (Z.max 0 (- k)) ltac:(lia) ltac:(lia)). nia. }
  replace (Z.max 0 (k - 52)) with (1 + (k - 53)) in * by lia.
  replace (Z.max 0 (- (k - 52))) with 0 in * by lia.
  replace (k - 52) with (1 + (k - 53)) by lia. set (B := 2 ^ (1 + (k - 53))) in *.
  assert (2 ≤ B) as HB.
  { unfold B. rewrite Z.pow_add_r by lia. pose proof (Z.pow_pos_nonneg 2 (k - 53) ltac:(lia) ltac:(lia)). lia. }
  clearbody B. pose proof (nearest_even_error (n * 2 ^ 0) (1 * B) ltac:(lia)) as He.
  set (m := nearest_even _ _) in *. clearbody m. assert (2 ^ 52 ≤ m) by nia. split_and!; [lia|lia|nia].
Qed.

Lemma ceil_unique n d c : 0 < d → (c - 1) * d < n ≤ c * d → - (- n / d) = c.
Proof. intros Hd H. rewrite <- (Z.div_unique (- n) d (- c) (c * d - n)); lia. Qed.

(** The ceiling of a rounded quotient is the ceiling of the quotient, when the
    numerator is below 2^53. *)
Lemma Ceil_round N D n d c :
  0 < N → 0 < D → 0 < n < 2 ^ 53 → 0 < d → N * d = n * D →
  (c - 1) * d < n ≤ c * d → Ceil (round_quot N D) = c.
Proof.
  intros HN HD Hn Hd Heq Hc. assert (N < 2 ^ 53 * D) as Hlt by nia.
  pose proof (order_below N D ltac:(lia) HD) as Hk. pose proof (scaled_order N D HN HD) as Hs.
  unfold round_quot. rewrite (proj2 (Z.eqb_neq N 0)), Z.abs_eq, Z.sgn_pos by lia. cbv zeta in *.
  set (e := binary_order N D - 52) in *. assert (e ≤ 0) as He by lia. clearbody e.
  replace (Z.max 0 e) with 0 in * by lia. replace (Z.max 0 (- e)) with (- e) in * by lia.
  rewrite Z.pow_0_r, Z.mul_1_r in *. rewrite Z.mul_1_l.
  pose proof (Z.pow_pos_nonneg 2 (- e) ltac:(lia) ltac:(lia)) as Hp.
  pose proof (nearest_even_error (N * 2 ^ (- e)) D HD) as Herr.
  set (m := nearest_even _ _) in *. clearbody m. set (s := 2 ^ (- e)) in *.
  assert ((c - 1) * s < m ≤ c * s) as Hm.
  { assert (2 ^ 52 * d ≤ n * s) as H1 by nia. assert (d < 2 * s) as H2 by nia. split.
    - apply Z.nle_gt. intros Hle.
      assert (2 * (N * s - m * D) ≤ D) as H3 by lia.
      assert (2 * (n * s - m * d) ≤ d) as H4.
      { apply (Z.mul_le_mono_pos_r _ _ D HD). replace (2 * (n * s - m * d) * D) with (2 * (N * s - m * D) * d)
          by (replace (2 * (n * s - m * d) * D) with (2 * (s * (n * D) - m * d * D)) by ring; rewrite <- Heq; ring).
        rewrite (Z.mul_comm d D). by apply Z.mul_le_mono_nonneg_r; [lia|]. }
      assert (m * d ≤ (c - 1) * s * d) as H5 by (apply Z.mul_le_mono_nonneg_r; lia). nia.
    - apply Z.nlt_ge. intros Hge. assert (N ≤ c * D) by nia. assert (2 * (m * D - N * s) ≤ D) by lia. nia. }
  unfold Ceil. cbn [mantissa exponent]. destruct (0 <=? e) eqn:He0; simp.
  - assert (e = 0) by lia. subst e. unfold s in *. simpl in *. lia.
  - by apply ceil_unique.
Qed.

Lemma ceil_float_div n d :
  0 ≤ n < 2 ^ 53 → 0 < d →
  Ceil (float_div (float_of_int n) (float_of_int d)) = - (- n / d).
Proof.
  intros Hn Hd. destruct (Z.eq_dec n 0) as [->|Hn0].
  { unfold float_div. simpl (mantissa (float_of_int 0)). unfold round_quot. simpl.
    by rewrite Z.div_0_l by lia. }
  destruct (float_of_int_exact n ltac:(lia)) as (En & Mn & Vn).
  set (x := float_of_int n) in *. unfold float_div.
  assert (∃ d', 0 < d' ∧ - (- n / d) = - (- n / d') ∧ 0 < mantissa (float_of_int d) ∧
    mantissa x * 2 ^ Z.max 0 (exponent x - exponent (float_of_int d)) * d'
    = n * (mantissa (float_of_int d) * 2 ^ Z.max 0 (exponent (float_of_int d) - exponent x)))
    as (d' & Hd' & -> & Md & Heq).
  { destruct (Z.lt_ge_cases d (2 ^ 53)) as [Hs|Hl].
    - destruct (float_of_int_exact d ltac:(lia)) as (Ed & Md & Vd).
      set (y := float_of_int d) in *. exists d. split_and!; [done..|].
      assert (2 ^ (- exponent x) * 2 ^ Z.max 0 (exponent x - exponent y) =
              2 ^ (- exponent y) * 2 ^ Z.max 0 (exponent y - exponent x)) as E
        by (rewrite <- !Z.pow_add_r by lia; f_equal; lia).
      rewrite Vn, Vd. nia.
    - destruct (float_of_int_large d Hl) as (Ed & Md & Vd).
      set (y := float_of_int d) in *. exists (mantissa y * 2 ^ exponent y).
      split_and!; [lia| |done|].
      + rewrite !(ceil_unique _ _ 1) by lia. done.
      + replace (Z.max 0 (exponent x - exponent y)) with 0 by lia.
        replace (Z.max 0 (exponent y - exponent x)) with (exponent y + - exponent x) by lia.
        rewrite Z.pow_add_r by lia. rewrite Vn. lia. }
  pose proof (Z.pow_pos_nonneg 2 (Z.max 0 (exponent x - exponent (float_of_int d))) ltac:(lia) ltac:(lia)).
  pose proof (Z.pow_pos_nonneg 2 (Z.max 0 (exponent (float_of_int d) - exponent x)) ltac:(lia) ltac:(lia)).
  apply (Ceil_round _ _ n d'); [nia|nia|lia|done|done|].
  pose proof (Z.div_mod (- n) d' ltac:(lia)). pose proof (Z.mod_pos_bound (- n) d' Hd'). nia.
Qed.
