(* ===== verification/Page.v ===== *)
(** * Page: the page links of the lists (routes/page.go)

    Which page links a list of [total] entries shown [limit] at a time gets:
    [GetSmartPaginationInfo] (at most 11 links around the current page, the first
    and the last one, dots in between) and the older [GetPages] (every page).

    The number of pages is [math.Ceil] of a quotient of floats, and every sum and
    product of integers wraps around at 64 bits.  [ceil_div] is the exact ceiling, which
    the floats give for totals below 2^53. *)

From S2P Require Import Prelude GoLib GoFloat.

Definition minPagesForSmartDisplay : Z := 11.
Definition pageRangeAroundCurrent : Z := 5.

Record Page := mkPage {
  Number : Z;
  Offset : Z;
  IsCurrent : bool;
  IsEllipsis : bool
}.

Record PageInfo := mkPageInfo {
  Pages : list Page;
  TotalPages : Z;
  CurrentPage : Z;
  HasPrevious : bool;
  HasNext : bool;
  PreviousPage : Z;
  NextPage : Z;
  PreviousOffset : Z;
  NextOffset : Z;
  PageSizes : list Z
}.

Definition ceil_div (total limit : Z) : Z := - (- total / limit).

(** The links of the pages [from] to [to]. *)
Definition page_links (limit current from to : Z) : list Page :=
  map (λ i, mkPage i (int64 ((i - 1) * limit)) (i =? current) false) (seqZ from (to - from + 1)).

Definition ellipsis : Page := mkPage 0 0 false true.

Definition smart_pages (limit totalPages currentPage : Z) : list Page :=
  if totalPages <=? minPagesForSmartDisplay then page_links limit currentPage 1 totalPages
  else
    let rangeStart := int64 (currentPage - pageRangeAroundCurrent) in
    let rangeEnd := int64 (currentPage + pageRangeAroundCurrent) in
    let first := if 1 <? rangeStart
                 then mkPage 1 0 false false :: (if 2 <? rangeStart then [ellipsis] else [])
                 else [] in
    let rangeStart := if rangeStart <? 1 then 1 else rangeStart in
    let rangeEnd := if totalPages <? rangeEnd then totalPages else rangeEnd in
    let last := if rangeEnd <? totalPages
                then (if rangeEnd <? totalPages - 1 then [ellipsis] else [])
                     ++ [mkPage totalPages (int64 ((totalPages - 1) * limit)) (totalPages =? currentPage) false]
                else [] in
    first ++ page_links limit currentPage rangeStart rangeEnd ++ last.

Definition total_pages (total limit : Z) : Z :=
  let n := int_of_float (Ceil (float_div (float_of_int total) (float_of_int limit))) in
  if n <? 1 then 1 else n.

Definition current_page (offset limit totalPages : Z) : Z :=
  let n := int64 (Z.quot offset limit + 1) in
  let n := if totalPages <? n then totalPages else n in
  if n <? 1 then 1 else n.

Definition GetSmartPaginationInfo (total limit offset : Z) : PageInfo :=
  let limit := if limit <=? 0 then 1 else limit in
  let totalPages := total_pages total limit in
  let currentPage := current_page offset limit totalPages in
  let hasPrevious := 1 <? currentPage in
  let hasNext := currentPage <? totalPages in
  mkPageInfo (smart_pages limit totalPages currentPage) totalPages currentPage
    hasPrevious hasNext
    (if hasPrevious then currentPage - 1 else 0)
    (if hasNext then currentPage + 1 else 0)
    (if hasPrevious then int64 ((currentPage - 1 - 1) * limit) else 0)
    (if hasNext then int64 (currentPage * limit) else 0)
    [].

Definition GetSmartPages (total limit offset : Z) : list Page :=
  Pages (GetSmartPaginationInfo total limit offset).

(** The loop of [GetPages]: [None] when it has not ended within the fuel. *)
Fixpoint pages_loop (fuel : nat) (total limit number start : Z) : option (list Page) :=
  if start <? total then
    match fuel with
    | O => None
    | S fuel => cons (mkPage (number + 1) start false false)
                  <$> pages_loop fuel total limit (number + 1) (int64 (start + limit))
    end
  else Some [].

Definition GetPages (fuel : nat) (total limit : Z) : option (list Page) :=
  if total <=? limit then Some [] else pages_loop fuel total limit 0 0.

(** ** Lemmas *)

(** The same links with unbounded integers. *)
Definition exact_links (limit current from to : Z) : list Page :=
  map (λ i, mkPage i ((i - 1) * limit) (i =? current) false) (seqZ from (to - from + 1)).

Definition exact_pages (limit totalPages currentPage : Z) : list Page :=
  if totalPages <=? minPagesForSmartDisplay then exact_links limit currentPage 1 totalPages
  else
    let rangeStart := currentPage - pageRangeAroundCurrent in
    let rangeEnd := currentPage + pageRangeAroundCurrent in
    let first := if 1 <? rangeStart
                 then mkPage 1 0 false false :: (if 2 <? rangeStart then [ellipsis] else [])
                 else [] in
    let rangeStart := if rangeStart <? 1 then 1 else rangeStart in
    let rangeEnd := if totalPages <? rangeEnd then totalPages else rangeEnd in
    let last := if rangeEnd <? totalPages
                then (if rangeEnd <? totalPages - 1 then [ellipsis] else [])
                     ++ [mkPage totalPages ((totalPages - 1) * limit) (totalPages =? currentPage) false]
                else [] in
    first ++ exact_links limit currentPage rangeStart rangeEnd ++ last.

Lemma page_links_exact limit cur from to :
  0 < limit → 1 ≤ from → (to - 1) * limit < 2 ^ 63 →
  page_links limit cur from to = exact_links limit cur from to.
Proof.
  intros Hl Hf Ht. apply map_ext_in. intros i Hi%list_elem_of_In%elem_of_seqZ.
  rewrite int64_id by nia. done.
Qed.

Lemma smart_pages_exact limit n cur :
  0 < limit → 1 ≤ cur ≤ n → n < 2 ^ 60 → (n - 1) * limit < 2 ^ 63 →
  smart_pages limit n cur = exact_pages limit n cur.
Proof.
  intros Hl Hc Hn Hm. unfold smart_pages, exact_pages, pageRangeAroundCurrent.
  rewrite (int64_id (cur - 5)), (int64_id (cur + 5)), (int64_id ((n - 1) * limit)) by nia.
  case_match; [by apply page_links_exact|]. cbv zeta. rewrite page_links_exact; [done|done|..];
    repeat case_match; simp; nia.
Qed.

Lemma ceil_div_spec total limit :
  0 < limit → (ceil_div total limit - 1) * limit < total ≤ ceil_div total limit * limit.
Proof.
  intros Hl. unfold ceil_div. pose proof (Z.div_mod (- total) limit).
  pose proof (Z.mod_pos_bound (- total) limit). nia.
Qed.

Lemma total_pages_exact total limit :
  0 ≤ total < 2 ^ 53 → 0 < limit → total_pages total limit = Z.max 1 (ceil_div total limit).
Proof.
  intros Ht Hl. unfold total_pages. rewrite ceil_float_div by done. fold (ceil_div total limit).
  pose proof (ceil_div_spec total limit Hl). unfold int_of_float.
  assert (fits 64 (ceil_div total limit) = true) as ->.
  { unfold fits. apply andb_true_iff. rewrite Z.leb_le, Z.ltb_lt. simpl. nia. }
  case_match; simp; lia.
Qed.

Lemma total_pages_spec total limit :
  0 < limit → 0 ≤ total < 2 ^ 53 →
  1 ≤ total_pages total limit ∧ (total_pages total limit - 1) * limit ≤ total ∧
  total ≤ total_pages total limit * limit ∧
  (0 < total → (total_pages total limit - 1) * limit < total).
Proof.
  intros Hl Ht. rewrite total_pages_exact by done. pose proof (ceil_div_spec total limit Hl). nia.
Qed.

Lemma current_page_spec offset limit n :
  1 ≤ n → 1 ≤ current_page offset limit n ≤ n.
Proof.
  intros Hn. unfold current_page. repeat case_match; simp; lia.
Qed.

(** Following the links from a page [last]: each is the next page, or dots that
    stand for at least one page; the result is the last page linked. *)
Fixpoint follow (last : Z) (ps : list Page) : option Z :=
  match ps with
  | [] => Some last
  | p :: ps =>
      if IsEllipsis p then
        match ps with
        | q :: ps => if negb (IsEllipsis q) && (last + 1 <? Number q) then follow (Number q) ps
                     else None
        | [] => None
        end
      else if Number p =? last + 1 then follow (Number p) ps else None
  end.

Lemma follow_links_nat limit cur from (n : nat) ps :
  follow (from - 1) (map (λ i, mkPage i ((i - 1) * limit) (i =? cur) false) (seqZ from (Z.of_nat n)) ++ ps)
  = follow (from - 1 + Z.of_nat n) ps.
Proof.
  revert from. induction n as [|n IH]; intros from.
  - by rewrite Z.add_0_r.
  - rewrite seqZ_cons by lia. simpl. rewrite (proj2 (Z.eqb_eq _ _)) by lia.
    specialize (IH (Z.succ from)).
    replace (Z.succ from - 1) with from in IH by lia.
    replace (Z.pred (Z.of_nat (S n))) with (Z.of_nat n) by lia.
    change (Z.pos (Pos.of_succ_nat n)) with (Z.of_nat (S n)).
    replace (Z.pred (Z.of_nat (S n))) with (Z.of_nat n) by lia.
    rewrite IH. f_equal. lia.
Qed.

Lemma follow_links limit cur from to ps :
  from ≤ to + 1 → follow (from - 1) (exact_links limit cur from to ++ ps) = follow to ps.
Proof.
  intros H. unfold exact_links.
  replace (to - from + 1) with (Z.of_nat (Z.to_nat (to - from + 1))) by lia.
  rewrite follow_links_nat. f_equal. lia.
Qed.

Lemma exact_links_elem limit cur from to p :
  p ∈ exact_links limit cur from to ↔
  ∃ i, from ≤ i ≤ to ∧ p = mkPage i ((i - 1) * limit) (i =? cur) false.
Proof.
  unfold exact_links. rewrite list_elem_of_fmap. setoid_rewrite elem_of_seqZ.
  split; intros (i & ? & ?); exists i; split; [lia|done|done|lia].
Qed.

Lemma exact_links_length limit cur from to :
  Z.of_nat (length (exact_links limit cur from to)) = Z.max 0 (to - from + 1).
Proof. unfold exact_links. rewrite length_map, length_seqZ. lia. Qed.

(** A link shows its page: number in range, offset of its first entry, marked
    when it is the current one. *)
Definition shows (limit n cur : Z) (p : Page) : Prop :=
  1 ≤ Number p ≤ n ∧ Offset p = (Number p - 1) * limit ∧ IsCurrent p = (Number p =? cur).

Section smart.
Variables (limit n cur : Z).
Hypothesis Hfirst : 1 ≤ cur.
Hypothesis Hlast : cur ≤ n.

Ltac cases := repeat match goal with
  | |- context [?a <=? ?b] => destruct (a <=? b) eqn:?
  | |- context [?a <? ?b] => destruct (a <? b) eqn:?
  end; simp.

Lemma exact_pages_follow : follow 0 (exact_pages limit n cur) = Some n.
Proof.
  unfold exact_pages, minPagesForSmartDisplay, pageRangeAroundCurrent.
  destruct (n <=? 11) eqn:Hn; simp.
  - rewrite <- (app_nil_r (exact_links _ _ _ _)). change 0 with (1 - 1) at 1.
    rewrite follow_links by lia. done.
  - assert (∀ e, follow 0 ((if 1 <? cur - 5 then
              mkPage 1 0 false false :: (if 2 <? cur - 5 then [ellipsis] else []) else [])
              ++ exact_links limit cur (if cur - 5 <? 1 then 1 else cur - 5)
                   (if n <? cur + 5 then n else cur + 5) ++ e)
            = follow (if n <? cur + 5 then n else cur + 5) e) as ->.
    { intros e. destruct (1 <? cur - 5) eqn:H1; simp.
      - rewrite (proj2 (Z.ltb_ge (cur - 5) 1)) by lia.
        assert (cur - 5 ≤ (if n <? cur + 5 then n else cur + 5)) as Hle by (cases; lia).
        set (hi := if n <? cur + 5 then n else cur + 5) in *.
        destruct (2 <? cur - 5) eqn:H2; simp; simpl.
        + destruct (exact_links limit cur (cur - 5) hi) as [|q ps] eqn:Hq.
          { apply (f_equal (λ l, Z.of_nat (length l))) in Hq. rewrite exact_links_length in Hq.
            simpl in Hq. lia. }
          pose proof (follow_links limit cur (cur - 5) hi e ltac:(lia)) as Hf.
          rewrite Hq in Hf. unfold exact_links in Hq. rewrite seqZ_cons in Hq by lia.
          simpl in Hq. injection Hq as <- <-. simpl in *.
          rewrite (proj2 (Z.ltb_lt 2 _)) by lia.
          rewrite (proj2 (Z.eqb_eq (cur - 5) _)) in Hf by lia. exact Hf.
        + replace (cur - 5) with 2 by lia. change 1 with (2 - 1) at 1.
          apply follow_links. lia.
      - simpl. replace (if cur - 5 <? 1 then 1 else cur - 5) with 1 by (cases; lia).
        change 0 with (1 - 1) at 1. apply follow_links. cases; lia. }
    destruct (n <? cur + 5) eqn:He; simp.
    + by rewrite Z.ltb_irrefl.
    + destruct (cur + 5 <? n) eqn:H1; simp; [|simpl; f_equal; lia].
      destruct (cur + 5 <? n - 1) eqn:H2; simp; simpl.
      * by rewrite (proj2 (Z.ltb_lt _ _)) by lia.
      * by rewrite (proj2 (Z.eqb_eq _ _)) by lia.
Qed.

Lemma exact_pages_shows p :
  p ∈ exact_pages limit n cur → IsEllipsis p = true ∨ shows limit n cur p.
Proof.
  unfold exact_pages, minPagesForSmartDisplay, pageRangeAroundCurrent, shows.
  destruct (n <=? 11) eqn:Hn; simp.
  - rewrite exact_links_elem. intros (i & Hi & ->). right. done.
  - rewrite !elem_of_app, exact_links_elem. intros [Hp|[(i & Hi & ->)|Hp]].
    + destruct (1 <? cur - 5) eqn:H1; [|by apply elem_of_nil in Hp]. simp.
      apply elem_of_cons in Hp as [->|Hp].
      * right. cbn [Number Offset IsCurrent]. split_and!; [lia..|]. symmetry.
        apply Z.eqb_neq. lia.
      * left. case_match; [|by apply elem_of_nil in Hp].
        by apply list_elem_of_singleton in Hp as ->.
    + right. simpl. split; [|done]. revert Hi. cases; lia.
    + case_match; [|by apply elem_of_nil in Hp]. apply elem_of_app in Hp as [Hp|Hp].
      * left. case_match; [|by apply elem_of_nil in Hp].
        by apply list_elem_of_singleton in Hp as ->.
      * apply list_elem_of_singleton in Hp as ->. right. simpl. split; [lia|done].
Qed.

Lemma exact_pages_near i :
  1 ≤ i ≤ n → cur - 5 ≤ i ≤ cur + 5 →
  mkPage i ((i - 1) * limit) (i =? cur) false ∈ exact_pages limit n cur.
Proof.
  intros Hi Hnear. unfold exact_pages, minPagesForSmartDisplay, pageRangeAroundCurrent.
  destruct (n <=? 11); [|rewrite !elem_of_app; right; left]; rewrite exact_links_elem;
    exists i; (split; [|done]); cases; lia.
Qed.

Lemma exact_pages_length : Z.of_nat (length (exact_pages limit n cur)) ≤ 15.
Proof.
  unfold exact_pages, minPagesForSmartDisplay, pageRangeAroundCurrent.
  destruct (n <=? 11) eqn:Hn; simp; [rewrite exact_links_length; lia|].
  rewrite !length_app, !Nat2Z.inj_add, exact_links_length.
  assert (∀ (b b' : bool) (x y : Page), (length (if b then x :: (if b' then [y] else []) else []) ≤ 2)%nat)
    as H1 by (intros [] []; simpl; lia).
  assert (∀ (b b' : bool) (x y : Page), (length (if b then (if b' then [y] else []) ++ [x] else []) ≤ 2)%nat)
    as H2 by (intros [] []; simpl; lia).
  match goal with |- ?a + (?b + ?c) ≤ 15 => assert (a ≤ 2 ∧ c ≤ 2 ∧ b ≤ 11) end; [|lia].
  split_and!; [apply (inj_le _ 2), H1|apply (inj_le _ 2), H2|cases; lia].
Qed.

End smart.

(** ** Theorems *)

(** The page size in use: a size that is not positive counts as 1. *)
Definition page_size (limit : Z) : Z := if limit <=? 0 then 1 else limit.

Lemma page_size_pos limit : 0 < page_size limit.
Proof. unfold page_size. case_match; simp; lia. Qed.

Lemma info_current total limit offset :
  0 ≤ total < 2 ^ 53 →
  1 ≤ CurrentPage (GetSmartPaginationInfo total limit offset)
    ≤ TotalPages (GetSmartPaginationInfo total limit offset).
Proof.
  intros Ht. simpl. apply current_page_spec.
  apply (total_pages_spec total (page_size limit)); [apply page_size_pos|done].
Qed.

Lemma info_exact total limit offset :
  0 ≤ total < 2 ^ 53 →
  let info := GetSmartPaginationInfo total limit offset in
  Pages info = exact_pages (page_size limit) (TotalPages info) (CurrentPage info).
Proof.
  intros Ht info. pose proof (page_size_pos limit) as Hl.
  pose proof (total_pages_spec total (page_size limit) Hl Ht) as (H1 & H2 & _ & H3).
  apply smart_pages_exact; [done|by apply info_current| |];
    change (TotalPages info) with (total_pages total (page_size limit)); [|lia].
  destruct (Z.eq_dec total 0) as [->|]; nia.
Qed.

Lemma current_page_exact offset limit n :
  0 < limit → 1 ≤ n → fits 64 (offset + 1) = true →
  current_page offset limit n = (if offset <? 0 then 1 else Z.min n (offset / limit + 1)).
Proof.
  intros Hl Hn [Ho1%Z.leb_le Ho2%Z.ltb_lt]%andb_true_iff.
  change (2 ^ (64 - 1)) with (2 ^ 63) in *. unfold current_page.
  pose proof (Z.quot_rem offset limit ltac:(lia)) as Hq. destruct (offset <? 0) eqn:Hneg; simp.
  - assert (offset ≤ Z.quot offset limit ≤ 0) as Hb.
    { rewrite <- (Z.opp_involutive offset) in Hq |- *. rewrite Z.quot_opp_l by lia.
      rewrite Z.quot_div_nonneg by lia. pose proof (Z.div_pos (- offset) limit ltac:(lia) Hl).
      pose proof (Z.div_le_upper_bound (- offset) limit (- offset) Hl). nia. }
    rewrite int64_id by lia. repeat case_match; simp; lia.
  - rewrite Z.quot_div_nonneg by lia. pose proof (Z.div_pos offset limit ltac:(lia) Hl).
    pose proof (Z.div_le_upper_bound offset limit offset Hl ltac:(nia)).
    rewrite int64_id by lia. repeat case_match; simp; lia.
Qed.

(** C37. The links of [GetSmartPaginationInfo] for a total from 0 to 2^53 - 1, the range in
    which the quotient of floats has the exact ceiling, and any page size and offset of 64
    bits.  The number of pages is the least one, at least 1, that holds all entries.
    The current page is the one of the offset, cut to the last page, and the first page for a
    negative offset.  Followed from the left the links lead from page 1 to the last page,
    each to the next page or over dots that stand for at least one page left out; every link
    shows its own page and the offset of its first entry and marks exactly the current one;
    the pages up to 5 away from the current one are all there; and there are never more than
    15 entries.  A page size that is not positive counts as 1.  The largest offset of 64 bits
    is left out: with one entry per page the addition of 1 wraps around. *)
Theorem smart_pages_correct total limit offset :
  0 ≤ total < 2 ^ 53 → fits 64 (offset + 1) = true →
  let info := GetSmartPaginationInfo total limit offset in
  let size := page_size limit in
  let n := TotalPages info in
  let cur := CurrentPage info in
  n = Z.max 1 (ceil_div total size) ∧
  cur = (if offset <? 0 then 1 else Z.min n (offset / size + 1)) ∧
  follow 0 (Pages info) = Some n ∧
  (∀ p, p ∈ Pages info → IsEllipsis p = true ∨ shows size n cur p) ∧
  (∀ i, 1 ≤ i ≤ n → cur - 5 ≤ i ≤ cur + 5 →
     ∃ p, p ∈ Pages info ∧ IsEllipsis p = false ∧ Number p = i) ∧
  (length (Pages info) ≤ 15)%nat.
Proof.
  intros Ht Ho info size n cur. pose proof (info_current total limit offset Ht) as [H1 H2].
  fold info in H1, H2. fold n cur in H1, H2.
  assert (HP : Pages info = exact_pages size n cur) by by apply info_exact.
  rewrite HP. split_and!.
  - apply total_pages_exact; [done|apply page_size_pos].
  - apply current_page_exact; [apply page_size_pos|lia|done].
  - by apply exact_pages_follow.
  - intros p. by apply exact_pages_shows.
  - intros i Hi Hn. eexists. split; [by apply exact_pages_near|done].
  - pose proof (exact_pages_length size n cur). lia.
Qed.

(** The position [GetSmartPaginationInfo] reports: an offset that lies in the
    data lies on the current page; there is a previous page exactly when the
    current one is not the first, a next page exactly when it is not the last;
    and their offsets are offsets of the data, so no product overflows. *)
Theorem page_position total limit offset :
  0 ≤ total < 2 ^ 53 →
  let info := GetSmartPaginationInfo total limit offset in
  let size := page_size limit in
  let cur := CurrentPage info in
  1 ≤ cur ≤ TotalPages info ∧
  (0 ≤ offset < total → (cur - 1) * size ≤ offset < cur * size) ∧
  (HasPrevious info = true ↔ cur ≠ 1) ∧
  (HasPrevious info = true →
     PreviousPage info = cur - 1 ∧ PreviousOffset info = (cur - 2) * size ∧
     0 ≤ PreviousOffset info < total) ∧
  (HasNext info = true ↔ cur ≠ TotalPages info) ∧
  (HasNext info = true →
     NextPage info = cur + 1 ∧ NextOffset info = cur * size ∧ 0 < NextOffset info < total).
Proof.
  intros Ht info size cur. pose proof (info_current total limit offset Ht) as [H1 H2].
  fold info in H1, H2. fold cur in H1, H2.
  pose proof (page_size_pos limit) as Hs. fold size in Hs.
  pose proof (total_pages_spec total size Hs Ht) as (_ & Hn1 & Hn2 & Hn3).
  change (total_pages total size) with (TotalPages info) in *.
  change (HasPrevious info) with (1 <? cur). change (HasNext info) with (cur <? TotalPages info).
  change (PreviousPage info) with (if 1 <? cur then cur - 1 else 0).
  change (PreviousOffset info) with (if 1 <? cur then int64 ((cur - 1 - 1) * size) else 0).
  change (NextPage info) with (if cur <? TotalPages info then cur + 1 else 0).
  change (NextOffset info) with (if cur <? TotalPages info then int64 (cur * size) else 0).
  split_and!; try lia.
  - intros Ho. assert (cur = offset / size + 1) as ->.
    { change cur with (current_page offset size (TotalPages info)). unfold current_page.
      rewrite Z.quot_div_nonneg by lia.
      pose proof (Z.div_le_upper_bound offset size offset Hs ltac:(nia)).
      rewrite int64_id by (pose proof (Z.div_pos offset size ltac:(lia) Hs); lia).
      assert (offset / size < TotalPages info) by (apply Z.div_lt_upper_bound; [done|]; rewrite Z.mul_comm; lia).
      pose proof (Z.div_pos offset size ltac:(lia) Hs). repeat case_match; simp; lia. }
    pose proof (Z.div_mod offset size). pose proof (Z.mod_pos_bound offset size). nia.
  - intros Hp. rewrite Hp. simp. rewrite int64_id by nia. split_and!; [done|lia|nia|nia].
  - intros Hp. rewrite Hp. simp. rewrite int64_id by nia. split_and!; [done|done|nia|nia].
Qed.

(** ** All pages *)

Lemma pages_loop_links fuel total limit number (n : nat) :
  0 < limit → (n ≤ fuel)%nat → 0 ≤ number → total + limit ≤ 2 ^ 63 →
  (number + Z.of_nat n - 1) * limit < total ≤ (number + Z.of_nat n) * limit →
  pages_loop fuel total limit number (number * limit) =
  Some (map (λ i, mkPage i ((i - 1) * limit) false false) (seqZ (number + 1) (Z.of_nat n))).
Proof.
  intros Hl. revert fuel number. induction n as [|n IH]; intros fuel number Hf H0 Hb Hn.
  - assert ((number * limit <? total) = false) as Hstop by (apply Z.ltb_ge; lia).
    destruct fuel; simpl; by rewrite Hstop.
  - assert ((number * limit <? total) = true) as Hgo by (apply Z.ltb_lt; nia).
    destruct fuel as [|fuel]; [lia|]. cbn [pages_loop]. rewrite Hgo.
    replace (number * limit + limit) with ((number + 1) * limit) by lia. simp.
    rewrite int64_id, IH by nia. rewrite (seqZ_cons (number + 1)) by lia. simpl.
    replace (number + 1 - 1) with number by lia.
    replace (Z.succ (number + 1)) with (number + 1 + 1) by lia.
    replace (Z.pred (Z.of_nat (S n))) with (Z.of_nat n) by lia. done.
Qed.

(** With a positive page size and a total below 2^53 [GetPages] returns, and its links are exactly
    the pages from 1 to the last one in order, each with the offset of its first
    entry; none when everything fits on one page. *)
Theorem get_pages_correct total limit fuel :
  0 < limit → 0 ≤ total ≤ Z.of_nat fuel → total < 2 ^ 53 →
  GetPages fuel total limit =
  Some (if total <=? limit then [] else exact_links limit 0 1 (ceil_div total limit)).
Proof.
  intros Hl Hf H53. unfold GetPages. destruct (total <=? limit) eqn:Ht; [done|]. simp.
  pose proof (ceil_div_spec total limit Hl) as Hn.
  set (n := ceil_div total limit) in *. clearbody n. assert (1 ≤ n) by nia.
  pose proof (pages_loop_links fuel total limit 0 (Z.to_nat n) Hl) as Hloop.
  rewrite Z.mul_0_l in Hloop. rewrite Hloop by nia. unfold exact_links. f_equal.
  replace (Z.of_nat (Z.to_nat n)) with (n - 1 + 1) by lia.
  apply map_ext_in. intros i Hi%list_elem_of_In%elem_of_seqZ. f_equal. symmetry.
  apply Z.eqb_neq. lia.
Qed.

Lemma pages_loop_runs fuel total limit number start :
  limit ≤ 0 → start ≤ 0 → start < total → - 2 ^ 63 ≤ start + Z.of_nat fuel * limit →
  pages_loop fuel total limit number start = None.
Proof.
  intros Hl. revert number start. induction fuel as [|fuel IH]; intros number start H0 Hs Hb; cbn [pages_loop];
    rewrite (proj2 (Z.ltb_lt _ _) Hs); [done|].
  rewrite int64_id by nia. by rewrite IH by nia.
Qed.

(** With a page size that is not positive, which a request can ask for
    ([?limit=-1]), the loop of [GetPages] appends a page and goes on, for as many
    rounds as the offset stays within 64 bits: on a list with an entry it does
    not return. *)
Theorem get_pages_diverges total limit fuel :
  limit ≤ 0 → 0 < total → Z.of_nat fuel * - limit < 2 ^ 63 →
  GetPages fuel total limit = None.
Proof.
  intros Hl Ht Hb. unfold GetPages. rewrite (proj2 (Z.leb_gt _ _)) by lia.
  apply pages_loop_runs; lia.
Qed.

(** ** Witnesses *)

Lemma smart_pages_correct_witness :
  let info := GetSmartPaginationInfo 400 10 200 in
  map (λ p, if IsEllipsis p then 0 else Number p) (Pages info)
    = [1; 0; 16; 17; 18; 19; 20; 21; 22; 23; 24; 25; 26; 0; 40] ∧
  follow 0 (Pages info) = Some 40.
Proof.
  split; [vm_compute; reflexivity|].
  destruct (smart_pages_correct 400 10 200 ltac:(lia) eq_refl) as (_ & _ & H & _). exact H.
Defined.

Lemma page_position_witness :
  let info := GetSmartPaginationInfo 400 10 200 in
  CurrentPage info = 21 ∧ (CurrentPage info - 1) * 10 ≤ 200 < CurrentPage info * 10 ∧
  NextOffset info = 210.
Proof.
  destruct (page_position 400 10 200 ltac:(lia)) as (_ & H & _).
  split; [vm_compute; reflexivity|]. split; [|vm_compute; reflexivity].
  apply H. lia.
Defined.

Lemma get_pages_correct_witness :
  GetPages 25 25 10 = Some [mkPage 1 0 false false; mkPage 2 10 false false; mkPage 3 20 false false].
Proof. exact (get_pages_correct 25 10 25 ltac:(lia) ltac:(lia) ltac:(lia)). Defined.

Lemma get_pages_diverges_witness : GetPages 1000 1 (-1) = None.
Proof. apply (get_pages_diverges 1 (-1) 1000); lia. Defined.


(** The largest offset, one entry per page: the sum wraps around to the first page. *)
Example last_offset_wraps : CurrentPage (GetSmartPaginationInfo 400 1 (2 ^ 63 - 1)) = 1.
Proof. vm_compute. reflexivity. Qed.

(** From 2^53 on the number of pages is inexact. *)
Example float_total_inexact : TotalPages (GetSmartPaginationInfo (2 ^ 53 + 1) 1 0) = 2 ^ 53.
Proof. vm_compute. reflexivity. Qed.
