(* ===== verification/Ipam.v ===== *)
(** * Ipam: interfaces and their addresses (common/interface.go)

    Every subnet has a row per address.  Creating an interface takes a free
    address of the subnet and marks it allocated; deleting the interface releases
    it.  The functions run with the database handle of their caller
    ([GetContextDB]), which opens the transaction.

    The text of a [fmt.Errorf] error is kept without the text of its cause. *)

From S2P Require Import Prelude GoLib Net ErrorCodes Gorm Model Store Scenario.

Section ipam.
Context {G : Gorm} {E : Env}.

Definition GenerateMacaddr : M string := λ c w,
  match rand_read (clock w) with
  | Some (b0, b1, b2, b3) =>
      (Ok ("52:54:" +:+ fmt_02x b0 +:+ ":" +:+ fmt_02x b1 +:+ ":" +:+ fmt_02x b2
           +:+ ":" +:+ fmt_02x b3), tick w)
  | None => (Err (GoError "rand.Read"), tick w)
  end.

(** ** Addresses *)

(** [ORDER BY address::inet] *)
Definition inet_order (a b : Address.t) : bool := inet_le (Address.Address a) (Address.Address b).

(** The rows the query of [AllocateAddress] selects from: for no given address
    any free one but the gateway, else the free one with that text, a prefix
    length being added where the text has none. *)
Definition candidate (subnet : Subnet.t) (ipaddr : string) (a : Address.t) : bool :=
  (Address.SubnetID a =? Subnet.ID subnet) && negb (Address.Allocated a) &&
  negb (Address.Reserved a) &&
  (if String.eqb ipaddr "" then negb (String.eqb (Address.Address a) (Subnet.Gateway subnet))
   else String.eqb (Address.Address a)
          (if Contains ipaddr "/" then ipaddr
           else ipaddr +:+ "/" +:+ fmt_d (mask_size (Subnet.Netmask subnet)))).

(** The columns [AllocateAddress] sets, on the address it read. *)
Definition allocated (ifaceID : Z) (addrType : string) (address : Address.t) : Address.t :=
  let address := address <| Address.Allocated := true |> <| Address.Type_ := addrType |> in
  if String.eqb addrType "second" then address <| Address.SecondInterface := ifaceID |>
  else address <| Address.Interface := ifaceID |>.

Definition AllocateAddress (subnet : Subnet.t) (ifaceID : Z) (ipaddr addrType : string)
    : M Address.t :=
  GetContextDB (
    address ← db_take_by inet_order (candidate subnet ipaddr);
    let address := allocated ifaceID addrType address in
    _ ← db_update (by_id (Address.ID address))
          (λ r, r <| Address.Allocated := Address.Allocated address |>
                  <| Address.Type_ := Address.Type_ address |>
                  <| Address.SecondInterface := Address.SecondInterface address |>
                  <| Address.Interface := Address.Interface address |>);
    mret (address <| Address.Subnet := Some subnet |>)).

(** An empty condition is no condition: every address is updated. *)
Definition of_interfaces (ifaces : list Interface.t) (a : Address.t) : bool :=
  match ifaces with
  | [] => true
  | _ => existsb (λ i, Address.Interface a =? Interface.ID i) ifaces
  end.

Definition DeallocateAddress (ifaces : list Interface.t) : M unit :=
  GetContextDB (
    db_update (of_interfaces ifaces)
      (λ r, r <| Address.Allocated := false |> <| Address.Interface := 0 |>
              <| Address.SecondInterface := 0 |>)).

(** ** Interfaces *)

(** The struct [CreateInterface] inserts: the owner of an interface is recorded
    in the column its type says. *)
Definition interface_model (subnet : Subnet.t) (ID owner hyper inbound outbound : Z)
    (mac ifaceName ifType : string) (secgroups : list SecurityGroup.t) (allowSpoofing : bool)
    : Interface.t :=
  let iface := Interface.zero
    <| Interface.Owner := owner |> <| Interface.Name := ifaceName |>
    <| Interface.MacAddr := mac |> <| Interface.PrimaryIf := String.eqb ifaceName "eth0" |>
    <| Interface.Inbound := inbound |> <| Interface.Outbound := outbound |>
    <| Interface.Subnet := Subnet.ID subnet |> <| Interface.Hyper := hyper |>
    <| Interface.Type_ := ifType |> <| Interface.Mtu := 1450 |>
    <| Interface.RouterID := Subnet.RouterID subnet |>
    <| Interface.SecurityGroups := secgroups |>
    <| Interface.AllowSpoofing := allowSpoofing |> in
  if String.eqb ifType "instance" then iface <| Interface.Instance := ID |>
  else if String.eqb ifType "floating" then iface <| Interface.FloatingIp := ID |>
  else if String.eqb ifType "dhcp" then iface <| Interface.Dhcp := ID |>
  else if Contains ifType "gateway" then iface <| Interface.Device := ID |>
  else if Contains ifType "vrrp" then iface <| Interface.Device := ID |>
  else iface.

Definition CreateInterface (subnet : Subnet.t) (ID owner hyper inbound outbound : Z)
    (address mac ifaceName ifType : string) (secgroups : list SecurityGroup.t)
    (allowSpoofing : bool) : M Interface.t :=
  GetContextDB (
    mac ← (if String.eqb mac "" then GenerateMacaddr else mret mac);
    iface ← db_create (interface_model subnet ID owner hyper inbound outbound mac ifaceName
                         ifType secgroups allowSpoofing);
    r ← try (AllocateAddress subnet (Interface.ID iface) address "native");
    match r with
    | inl a => mret (iface <| Interface.Address := Some a |>)
    | inr _ =>
        _ ← try (db_delete (R := Interface.t) (by_pk (Interface.ID iface)));
        fail (GoError "Failed to allocate address")
    end).

(** The interfaces of a master: the query of [DeleteInterfaces]. *)
Definition of_master (masterID subnetID : Z) (ifType : string) (i : Interface.t) : bool :=
  (if String.eqb ifType "instance" then
     (Interface.Instance i =? masterID) && String.eqb (Interface.Type_ i) "instance"
   else if String.eqb ifType "floating" then
     (Interface.FloatingIp i =? masterID) && String.eqb (Interface.Type_ i) "floating"
   else if String.eqb ifType "dhcp" then
     (Interface.Dhcp i =? masterID) && String.eqb (Interface.Type_ i) "dhcp"
   else (Interface.Device i =? masterID) && sql_like (Interface.Type_ i) "%gateway%") &&
  (if 0 <? subnetID then Interface.Subnet i =? subnetID else true).

(** The types [DeleteInterfaces] deletes interfaces of; for any other type the
    query finds gateways, but no DELETE is issued. *)
Definition deletable (ifType : string) : bool :=
  String.eqb ifType "instance" || String.eqb ifType "floating" ||
  String.eqb ifType "gateway" || String.eqb ifType "dhcp".

Definition DeleteInterfaces (masterID subnetID : Z) (ifType : string) : M unit :=
  GetContextDB (
    ifaces ← db_find (of_master masterID subnetID ifType);
    if (0 <? length ifaces)%nat then
      _ ← (if deletable ifType then db_delete (of_master masterID subnetID ifType) else mret tt);
      DeallocateAddress ifaces
    else mret tt).

Definition DeleteInterface (iface : Interface.t) : M unit :=
  GetContextDB (
    _ ← db_delete (R := Interface.t) (by_pk (Interface.ID iface));
    _ ← db_update (λ a, Address.Interface a =? Interface.ID iface)
          (λ r, r <| Address.Allocated := false |> <| Address.Interface := 0 |>);
    _ ← db_update (λ a, (Address.SecondInterface a =? Interface.ID iface) &&
                        (Address.Interface a =? 0))
          (λ r, r <| Address.Allocated := false |> <| Address.SecondInterface := 0 |>);
    db_update (λ a, (Address.SecondInterface a =? Interface.ID iface) &&
                    (0 <? Address.Interface a))
      (λ r, r <| Address.SecondInterface := 0 |>)).

(** ** Security rules *)

Record SecurityData := mkSecurityData {
  Secgroup : Z;
  RemoteIp : string;
  RemoteGroup : Z;
  Direction : string;
  IpVersion : string;
  Protocol : string;
  PortMin : Z;
  PortMax : Z
}.

(** The loop of [GetSecurityRules]. *)
Fixpoint security_rules (secGroups : list SecurityGroup.t) (rules : list SecurityRule.t)
    : M (list SecurityRule.t) :=
  match secGroups with
  | [] => mret rules
  | sg :: secGroups =>
      secrules ← db_find (λ r, SecurityRule.Secgroup r =? SecurityGroup.ID sg);
      security_rules secGroups (rules ++ secrules)
  end.

Definition GetSecurityRules (secGroups : list SecurityGroup.t) : M (list SecurityRule.t) :=
  GetContextDB (security_rules secGroups []).

Definition security_data (rule : SecurityRule.t) : SecurityData :=
  mkSecurityData (SecurityRule.Secgroup rule) (SecurityRule.RemoteIp rule)
    (SecurityRule.RemoteGroupID rule) (SecurityRule.Direction rule)
    (SecurityRule.IpVersion rule) (SecurityRule.Protocol rule)
    (SecurityRule.PortMin rule) (SecurityRule.PortMax rule).

Definition GetSecurityData (secgroups : list SecurityGroup.t) : M (list SecurityData) :=
  secRules ← GetSecurityRules secgroups; mret (map security_data secRules).

(** ** VRRP pairs *)

(** [Preload("Address")]: the address that names the interface. *)
Definition take_interface (p : Interface.t → bool) : M Interface.t :=
  iface ← db_take p;
  l ← db_find (λ a, Address.Interface a =? Interface.ID iface);
  mret (iface <| Interface.Address := last l |>).

Definition vrrp_side (name : string) (vrrpID : Z) (i : Interface.t) : bool :=
  String.eqb (Interface.Type_ i) "vrrp" && String.eqb (Interface.Name i) name &&
  (Interface.Device i =? vrrpID).

Definition GetVrrpInterfaces (vrrpID : Z) : M (Interface.t * Interface.t) :=
  GetContextDB (
    vrrpIface1 ← take_interface (vrrp_side "MASTER" vrrpID);
    vrrpIface2 ← take_interface (vrrp_side "BACKUP" vrrpID);
    mret (vrrpIface1, vrrpIface2)).

Definition hyper_list (h1 h2 : Z) : string :=
  let hyperList := if 0 <=? h1 then fmt_d h1 +:+ "," else "" in
  if 0 <=? h2 then hyperList +:+ fmt_d h2 else hyperList.

Definition GetVrrpHyperGroup (vrrpID : Z) : M (string * Interface.t * Interface.t) :=
  '(vrrpIface1, vrrpIface2) ← GetVrrpInterfaces vrrpID;
  let hyperList := hyper_list (Interface.Hyper vrrpIface1) (Interface.Hyper vrrpIface2) in
  _ ← require (negb (String.eqb hyperList "")) (GoError "No valid hyper for vrrp interfaces");
  mret ("group-vrrp-" +:+ fmt_d vrrpID +:+ ":" +:+ hyperList, vrrpIface1, vrrpIface2).

(** ** The operating system of an instance (common/instance.go)

    The image is loaded into the instance; when the load fails the instance is
    left with an image that has only its key. *)
Definition GetImageOSCode (instance : Instance.t) : M (string * Instance.t) :=
  match Instance.Image instance with
  | Some image => mret (Image.OSCode image, instance)
  | None =>
      GetContextDB (
        r ← try (db_get (R := Image.t) (Instance.ImageID instance));
        match r with
        | inl image =>
            mret (Image.OSCode image, instance <| Instance.Image := Some image |>)
        | inr _ =>
            mret ("linux", instance <| Instance.Image :=
                    Some (Image.zero <| Image.ID := Instance.ImageID instance |>) |>)
        end)
  end.

End ipam.

Example mask_sizes :
  map mask_size ["255.255.255.0"; "255.255.240.0"; "0.0.0.0"; "255.0.255.0"; "x"] =
  [24; 20; 0; 0; 0].
Proof. vm_compute. reflexivity. Qed.

(** ** Lemmas *)

Section ipam_lemmas.
Context {G : Gorm} {E : Env} {GOk : GormOk G}.
Implicit Types (c : Ctx) (w : World) (d : DB) (a r : Address.t) (i : Interface.t) (s : Subnet.t).

Definition ads d : gmap Z Address.t := rows (addresses d).
Definition ifs d : gmap Z Interface.t := rows (interfaces d).

Lemma inet_total :
  (∀ x y, inet_le x y = true ∨ inet_le y x = true) →
  ∀ a b, inet_order a b = true ∨ inet_order b a = true.
Proof. unfold inet_order. auto. Qed.

Lemma inet_trans :
  (∀ x y z, inet_le x y = true → inet_le y z = true → inet_le x z = true) →
  ∀ a b r, inet_order a b = true → inet_order b r = true → inet_order a r = true.
Proof. unfold inet_order. eauto. Qed.

(** The row the database ends with is the row that was read, allocated. *)
Lemma allocate_row s k ty r :
  let a := allocated k ty r in
  r <| Address.Allocated := Address.Allocated a |> <| Address.Type_ := Address.Type_ a |>
    <| Address.SecondInterface := Address.SecondInterface a |>
    <| Address.Interface := Address.Interface a |> = a.
Proof. destruct r. unfold allocated. simpl. by destruct (String.eqb ty "second"). Qed.

Lemma allocated_id k ty r : Address.ID (allocated k ty r) = Address.ID r.
Proof. unfold allocated. by destruct (String.eqb ty "second"). Qed.

(** What a successful allocation did: the first candidate is allocated, nothing
    else changes. *)
Record took s k ip ty d d' a r : Prop := {
  took_candidate : candidate s ip r = true;
  took_first : g_take_by inet_order (candidate s ip) (addresses d) = Some r;
  took_row : ads d !! Address.ID r = Some r;
  took_result : a = allocated k ty r <| Address.Subnet := Some s |>;
  took_ads : ads d' = <[Address.ID r := allocated k ty r]> (ads d);
  took_frame : d' = d <| addresses := addresses d' |>
}.

Lemma AllocateAddress_Ok s k ip ty c w a w' :
  AllocateAddress s k ip ty c w = (Ok a, w') →
  sent w' = sent w ∧ ∃ r, took s k ip ty (db w) (db w') a r.
Proof.
  unfold AllocateAddress. intros H. go_ok. flat. split; [done|].
  match goal with Hx : g_take_by _ _ _ = Some ?x |- _ => rename Hx into Ht; rename x into r end.
  pose proof (take_by_some _ _ _ _ Ht) as [Hc Hr]. exists r. split; try done.
  unfold ads. simpl. rewrite allocated_id.
  rewrite (update_key _ _ (Address.ID r) r); [by rewrite allocate_row|by intros []|done].
Qed.

Lemma AllocateAddress_Err s k ip ty c w e w' :
  AllocateAddress s k ip ty c w = (Err e, w') → db w' = db w ∧ sent w' = sent w.
Proof.
  unfold AllocateAddress, db_take_by, db_update. rewrite GetContextDB_eq.
  intros [[(_ & Hd & Hs)%stmt_Err|(o & w1 & (_ & Ho & Hs & _)%stmt_Ok & He)]%bind_Err
         |(r & w1 & Hr & He)]%bind_Err; [done| |].
  - destruct o; [done|]. unfold found, fail in He. by simplify_eq.
  - apply bind_Ok in Hr as (o & w2 & (_ & Ho & Hs & _)%stmt_Ok & [-> ->]%found_Ok).
    apply bind_Err in He as [(_ & Hd & Hs')%stmt_Err|(? & ? & ? & He)]; [|done].
    simplify_eq. split; congruence.
Qed.

Lemma AllocateAddress_np s k ip ty : no_panic (AllocateAddress s k ip ty).
Proof. unfold AllocateAddress. np. Qed.

(** When no statement fails and a candidate exists, an address is allocated. *)
Lemma AllocateAddress_total s k ip ty c w j a :
  (∀ n, db_fault n = false) → ads (db w) !! j = Some a → candidate s ip a = true →
  ∃ b w', AllocateAddress s k ip ty c w = (Ok b, w').
Proof.
  intros Hf Ha Hc. unfold AllocateAddress, GetContextDB, db_take_by, db_update.
  unfold mbind, M_bind, stmt. rewrite !Hf. simpl.
  destruct (g_take_by inet_order (candidate s ip) (addresses (db w))) as [r|] eqn:Ht; simpl.
  - unfold stmt. rewrite Hf. simpl. eauto.
  - pose proof (take_by_none _ _ _ Ht _ _ Ha). congruence.
Qed.

Lemma GenerateMacaddr_world c w res w' :
  GenerateMacaddr c w = (res, w') → db w' = db w ∧ sent w' = sent w ∧ res ≠ Panic.
Proof.
  unfold GenerateMacaddr. destruct (rand_read _) as [[[[]]]|]; intros; by simplify_eq.
Qed.

Lemma mac_world (mac : string) c w res w' :
  (if String.eqb mac "" then GenerateMacaddr else mret mac) c w = (res, w') →
  db w' = db w ∧ sent w' = sent w ∧ res ≠ Panic.
Proof.
  destruct (String.eqb mac ""); [apply GenerateMacaddr_world|].
  unfold mret, M_ret. intros. by simplify_eq.
Qed.

(** The columns of the row [CreateInterface] inserts. *)
Lemma interface_columns u j s k o h ib ob mac name ty sgs spoof :
  let i := set_id j (col_defaults (before_create u
             (interface_model s k o h ib ob mac name ty sgs spoof))) in
  Interface.MacAddr i = mac ∧ Interface.Type_ i = ty ∧ Interface.Subnet i = Subnet.ID s ∧
  (ty = "instance" → Interface.Instance i = k) ∧ (ty = "floating" → Interface.FloatingIp i = k) ∧
  (ty = "gateway" ∨ ty = "vrrp" → Interface.Device i = k).
Proof.
  simpl. split_and!; [| | |by intros ->|by intros ->|by intros [-> | ->]];
    unfold interface_model; by repeat case_if.
Qed.

(** What a successful [CreateInterface] did: a fresh interface, and an address
    allocated to it. *)
Record connected s i0 ip d d' i a r : Prop := {
  connected_fresh : ifs d !! Interface.ID i = None;
  connected_pos : 0 < Interface.ID i;
  connected_row : ∃ u, i = set_id (Interface.ID i) (col_defaults (before_create u i0));
  connected_ifs : ifs d' = <[Interface.ID i := i]> (ifs d);
  connected_candidate : candidate s ip r = true;
  connected_first : g_take_by inet_order (candidate s ip) (addresses d) = Some r;
  connected_addr : ads d !! Address.ID r = Some r;
  connected_result : a = allocated (Interface.ID i) "native" r <| Address.Subnet := Some s |>;
  connected_ads : ads d' = <[Address.ID r := allocated (Interface.ID i) "native" r]> (ads d);
  connected_frame : d' = d <| interfaces := interfaces d' |> <| addresses := addresses d' |>
}.

Lemma CreateInterface_Ok s k o h ib ob ip mac name ty sgs spoof c w i w' :
  CreateInterface s k o h ib ob ip mac name ty sgs spoof c w = (Ok i, w') →
  sent w' = sent w ∧
  ∃ mac' i1 a r, i = i1 <| Interface.Address := Some a |> ∧ (mac ≠ "" → mac' = mac) ∧
    connected s (interface_model s k o h ib ob mac' name ty sgs spoof) ip (db w) (db w') i1 a r.
Proof.
  unfold CreateInterface. rewrite GetContextDB_eq.
  intros (mac' & w1 & Hm & (i1 & w2 & Hi & (x & w3 & Hx%try_Ok & H)%bind_Ok)%bind_Ok)%bind_Ok.
  destruct (mac_world _ _ _ _ _ Hm) as (Hd1 & Hs1 & _).
  destruct x as [a|e]; [|apply bind_Ok in H as (? & ? & _ & []%fail_Ok)].
  apply ret_Ok in H as [<- <-]. apply AllocateAddress_Ok in Hx as (Hs3 & r & [H1 H2 H3 H4 H5 H6]).
  apply db_create_Ok in Hi as (t & Ht & Hd2 & Hs2). rewrite Hd1 in *.
  pose proof (create_spec _ _ _ _ Ht) as (Hpos & Hfresh & Hrow & Hrows).
  split; [congruence|]. exists mac', i1, a, r. split; [done|]. split.
  { intros Hne. apply String.eqb_neq in Hne. rewrite Hne in Hm. by apply ret_Ok in Hm as [<- _]. }
  assert (Ha : addresses (db w2) = addresses (db w)) by (by rewrite Hd2).
  unfold ads, ifs in *. rewrite Ha in *.
  split; try done.
  - eauto.
  - rewrite H6. simpl. by rewrite Hd2.
  - rewrite H6, Hd2. done.
Qed.

(** A failed [CreateInterface] whose statements all succeed leaves the rows as
    they were: the interface it had created is deleted again. *)
Lemma CreateInterface_Err s k o h ib ob ip mac name ty sgs spoof c w e w' :
  (∀ n, db_fault n = false) →
  CreateInterface s k o h ib ob ip mac name ty sgs spoof c w = (Err e, w') →
  sent w' = sent w ∧ ifs (db w') = ifs (db w) ∧ ads (db w') = ads (db w).
Proof.
  intros Hf. unfold CreateInterface. rewrite GetContextDB_eq.
  intros [Hm|(mac' & w1 & Hm & H)]%bind_Err.
  { destruct (mac_world _ _ _ _ _ Hm) as (-> & -> & _). done. }
  destruct (mac_world _ _ _ _ _ Hm) as (Hd1 & Hs1 & _).
  apply bind_Err in H as [H|(i1 & w2 & Hi & H)].
  { unfold db_create, stmt in H. rewrite Hf in H. by destruct (g_create _ _). }
  apply db_create_Ok in Hi as (t & Ht & Hd2 & Hs2). rewrite Hd1 in *.
  pose proof (create_spec _ _ _ _ Ht) as (Hpos & Hfresh & Hrow & Hrows).
  apply bind_Err in H as [H|(x & w3 & Hx%try_Ok & H)]; [by apply try_Err in H|].
  destruct x as [a|e1]; [done|]. apply AllocateAddress_Err in Hx as [Hd3 Hs3].
  apply bind_Err in H as [H|(y & w4 & Hy%try_Ok & [_ <-]%fail_Err)]; [by apply try_Err in H|].
  destruct y as [u|e2].
  2:{ unfold db_delete, stmt in Hy. rewrite Hf in Hy. done. }
  apply db_delete_Ok in Hy as [Hd4 Hs4]. split; [congruence|].
  unfold ifs, ads. rewrite Hd4, Hd3, Hd2. simpl. split; [|done].
  assert (Interface.ID i1 ≠ 0) as Hne by (change (get_id i1 ≠ 0); lia).
  rewrite (delete_pk (R := Interface.t)) by done. rewrite Hrows.
  change (get_id i1) with (Interface.ID i1). apply delete_insert_id. exact Hfresh.
Qed.

(** What deleting interface [k] does to an address: its own address is free
    again, an address that was only its second address too, and one that has
    another interface keeps it. *)
Definition released (k : Z) a : Address.t :=
  if Address.Interface a =? k then
    a <| Address.Allocated := false |> <| Address.Interface := 0 |>
      <| Address.SecondInterface :=
           if Address.SecondInterface a =? k then 0 else Address.SecondInterface a |>
  else if Address.SecondInterface a =? k then
    if Address.Interface a =? 0 then
      a <| Address.Allocated := false |> <| Address.SecondInterface := 0 |>
    else if 0 <? Address.Interface a then a <| Address.SecondInterface := 0 |>
    else a
  else a.

Lemma DeleteInterface_Ok i c w u w' :
  Interface.ID i ≠ 0 → DeleteInterface i c w = (Ok u, w') →
  sent w' = sent w ∧ ifs (db w') = delete (Interface.ID i) (ifs (db w)) ∧
  ads (db w') = released (Interface.ID i) <$> ads (db w) ∧
  db w' = db w <| interfaces := interfaces (db w') |> <| addresses := addresses (db w') |>.
Proof.
  unfold DeleteInterface. intros Hk H. go_ok. flat. unfold ifs, ads. simpl.
  split_and!; [done| | |done].
  - by rewrite (delete_pk (R := Interface.t)) by done.
  - rewrite !update_spec by (by intros []). rewrite <- !map_fmap_compose.
    apply map_fmap_ext. intros j b _. unfold released, compose.
    destruct b as [? ? ? ? ? ? ? al ? ? ? ai si ?]. cbn -[Z.eqb Z.ltb].
    assert (H0 : (0 =? Interface.ID i) = false) by (by apply Z.eqb_neq).
    destruct (ai =? Interface.ID i) eqn:?, (si =? Interface.ID i) eqn:Hs;
      repeat (progress (cbn -[Z.eqb Z.ltb]; rewrite ?Hs, ?H0, ?Z.eqb_refl, ?Z.ltb_irrefl)); try done.
    destruct (ai =? 0) eqn:?; cbn -[Z.eqb Z.ltb]; rewrite ?Hs, ?H0; simpl; [done|].
    by destruct (0 <? ai).
Qed.

Lemma DeleteInterface_np i : no_panic (DeleteInterface i).
Proof. unfold DeleteInterface. np. Qed.

(** What [DeleteInterfaces] does when it finds interfaces. *)
Definition freed a : Address.t :=
  a <| Address.Allocated := false |> <| Address.Interface := 0 |>
    <| Address.SecondInterface := 0 |>.

Lemma of_interfaces_true l a :
  l ≠ [] → of_interfaces l a = true ↔ ∃ i, i ∈ l ∧ Interface.ID i = Address.Interface a.
Proof.
  intros Hl. destruct l as [|i0 l]; [done|]. unfold of_interfaces. rewrite existsb_exists.
  setoid_rewrite list_elem_of_In. setoid_rewrite Z.eqb_eq.
  by split; intros (i & ? & ?); exists i.
Qed.

Lemma DeleteInterfaces_Ok m sn ty c w u w' :
  DeleteInterfaces m sn ty c w = (Ok u, w') →
  let l := g_find (of_master m sn ty) (interfaces (db w)) in
  sent w' = sent w ∧
  (∀ j, ifs (db w') !! j =
     match ifs (db w) !! j with
     | Some i => if deletable ty && of_master m sn ty i then None else Some i
     | None => None
     end) ∧
  ads (db w') =
    (λ a, if bool_decide (l ≠ []) && of_interfaces l a then freed a else a) <$> ads (db w) ∧
  db w' = db w <| interfaces := interfaces (db w') |> <| addresses := addresses (db w') |>.
Proof.
  unfold DeleteInterfaces, DeallocateAddress. intros H. go_ok. flat.
  destruct (g_find (of_master m sn ty) (interfaces (db w))) as [|i0 l0] eqn:Hl; simpl in *.
  - go_ok. flat. rewrite map_fmap_id. split_and!; [done| |done|by destruct (db _)].
    intros j. unfold ifs. destruct (rows (interfaces _) !! j) as [i|] eqn:Hi; [|done].
    rewrite (proj1 (find_nil _ _) Hl _ _ Hi). by rewrite andb_false_r.
  - go_ok. destruct (deletable ty); go_ok; flat.
    + unfold ifs, ads. simpl. split_and!; [done| | |done].
      * intros j. by rewrite delete_spec.
      * by rewrite update_spec by (by intros []).
    + unfold ifs, ads. simpl. split_and!; [done| | |by destruct (db _)].
      * intros j. by destruct (rows _ !! j).
      * by rewrite update_spec by (by intros []).
Qed.

Lemma DeleteInterfaces_np m sn ty : no_panic (DeleteInterfaces m sn ty).
Proof. unfold DeleteInterfaces, DeallocateAddress. np. Qed.

(** ** The consistency of addresses and interfaces

    A free address is the first address of no interface, an allocated one is the
    first or second address of one, the interface of an address exists, and an interface is the
    first interface of at most one address. *)
Record Consistent d : Prop := {
  free_unused k a : ads d !! k = Some a → Address.Allocated a = false → Address.Interface a = 0;
  allocated_used k a : ads d !! k = Some a → Address.Allocated a = true →
    Address.Interface a ≠ 0 ∨ Address.SecondInterface a ≠ 0;
  interface_exists k a : ads d !! k = Some a → Address.Interface a ≠ 0 →
    is_Some (ifs d !! Address.Interface a);
  one_address j k a b : ads d !! j = Some a → ads d !! k = Some b →
    Address.Interface a = Address.Interface b → Address.Interface a ≠ 0 → j = k
}.

Lemma candidate_free s ip a : candidate s ip a = true → Address.Allocated a = false.
Proof. unfold candidate. intros H. simp. done. Qed.

(** What a candidate is. *)
Lemma candidate_true s ip a :
  candidate s ip a = true ↔
  Address.SubnetID a = Subnet.ID s ∧ Address.Allocated a = false ∧ Address.Reserved a = false ∧
  (ip = "" → Address.Address a ≠ Subnet.Gateway s) ∧
  (ip ≠ "" → Address.Address a =
     if Contains ip "/" then ip else ip +:+ "/" +:+ fmt_d (mask_size (Subnet.Netmask s))).
Proof.
  unfold candidate. rewrite !andb_true_iff, !negb_true_iff, Z.eqb_eq.
  destruct (String.eqb_spec ip "") as [He|He].
  - rewrite negb_true_iff, String.eqb_neq. tauto.
  - rewrite String.eqb_eq. tauto.
Qed.

Lemma consistent_second s k ip d d' a r :
  k ≠ 0 → took s k ip "second" d d' a r → Consistent d → Consistent d'.
Proof.
  intros Hk [Hc _ Hr _ Ha Hf] [C1 C2 C3 C4]. pose proof (candidate_free _ _ _ Hc) as Hfree.
  assert (ifs d' = ifs d) as Hi by (unfold ifs; by rewrite Hf).
  pose proof (C1 _ _ Hr Hfree) as Hr0.
  split; rewrite Ha, ?Hi.
  - intros j b [[<- <-]|[? ?]]%lookup_insert_Some; simpl; eauto.
  - intros j b [[<- <-]|[? ?]]%lookup_insert_Some; simpl; eauto.
  - intros j b [[<- <-]|[? ?]]%lookup_insert_Some; simpl; eauto.
  - intros j j' b b' [[<- <-]|[? ?]]%lookup_insert_Some [[<- <-]|[? ?]]%lookup_insert_Some;
      simpl; intros; eauto; congruence.
Qed.

(** No address belongs to an interface that does not exist. *)
Lemma fresh_interface d k j a :
  Consistent d → ifs d !! k = None → k ≠ 0 → ads d !! j = Some a → Address.Interface a ≠ k.
Proof. intros [_ _ C3 _] Hk Hk0 Ha <-. destruct (C3 _ _ Ha Hk0). congruence. Qed.

Lemma consistent_create s i0 ip d d' i a r :
  connected s i0 ip d d' i a r → Consistent d → Consistent d'.
Proof.
  intros [Hfresh Hpos _ Hi Hc _ Hr _ Ha _] HC. pose proof HC as [C1 C2 C3 C4].
  pose proof (candidate_free _ _ _ Hc) as Hfree. pose proof (C1 _ _ Hr Hfree) as Hr0.
  assert (Hne : ∀ j b, ads d !! j = Some b → Address.Interface b ≠ Interface.ID i).
  { intros j b Hb. eapply fresh_interface; eauto. lia. }
  split; rewrite Ha, ?Hi.
  - intros j b [[<- <-]|[? ?]]%lookup_insert_Some; simpl; [done|eauto].
  - intros j b [[<- <-]|[? ?]]%lookup_insert_Some; simpl; [lia|eauto].
  - intros j b [[<- <-]|[? ?]]%lookup_insert_Some; simpl; intros; [by rewrite lookup_insert_eq|].
    rewrite lookup_insert_ne by (intros Hx; by eapply Hne). eauto.
  - intros j j' b b' [[<- <-]|[? ?]]%lookup_insert_Some [[<- <-]|[? ?]]%lookup_insert_Some;
      simpl; intros; eauto; exfalso; eapply Hne; eauto.
Qed.

Lemma released_Interface k a :
  Address.Interface (released k a) = if Address.Interface a =? k then 0 else Address.Interface a.
Proof. unfold released. by repeat case_if. Qed.

Lemma consistent_delete k d d' :
  ifs d' = delete k (ifs d) → ads d' = released k <$> ads d → Consistent d → Consistent d'.
Proof.
  intros Hi Ha [C1 C2 C3 C4].
  split; rewrite Ha, ?Hi.
  - intros j b (a & <- & Hb)%lookup_fmap_Some. rewrite released_Interface. specialize (C1 _ _ Hb).
    unfold released. repeat case_if; simpl; intros; simp; auto.
  - intros j b (a & <- & Hb)%lookup_fmap_Some. specialize (C2 _ _ Hb).
    unfold released. repeat case_if; simpl; intros; simp; auto; lia.
  - intros j b (a & <- & Hb)%lookup_fmap_Some. rewrite released_Interface.
    case_if; [done|]. simp. intros. rewrite lookup_delete_ne by congruence. eauto.
  - intros j j' b b' (x & <- & Hx)%lookup_fmap_Some (y & <- & Hy)%lookup_fmap_Some.
    rewrite !released_Interface. repeat case_if; try done; intros; simp; eauto.
Qed.

Lemma consistent_delete_all m sn ty c w u w' :
  DeleteInterfaces m sn ty c w = (Ok u, w') → Consistent (db w) → Consistent (db w').
Proof.
  intros (_ & Hi & Ha & _)%DeleteInterfaces_Ok [C1 C2 C3 C4].
  set (l := g_find (of_master m sn ty) (interfaces (db w))) in *.
  set (p := λ a, bool_decide (l ≠ []) && of_interfaces l a) in Ha.
  assert (Hint : ∀ x, Address.Interface (if p x then freed x else x) =
                      if p x then 0 else Address.Interface x) by (intros x; by case_if).
  change (ads (db w') = (λ a, if p a then freed a else a) <$> ads (db w)) in Ha.
  split; rewrite Ha.
  - intros j b (a & <- & Hb)%lookup_fmap_Some. specialize (C1 _ _ Hb). case_if; auto.
  - intros j b (a & <- & Hb)%lookup_fmap_Some. specialize (C2 _ _ Hb). case_if; auto.
  - intros j b (a & <- & Hb)%lookup_fmap_Some. rewrite Hint. case_if; [done|]. intros Hne.
    rewrite Hi. destruct (C3 _ _ Hb Hne) as [i Hx]. rewrite Hx.
    destruct (deletable ty && of_master m sn ty i) eqn:Hm; [|by eexists].
    exfalso. simp. assert (i ∈ l) as Hl by (eapply find_lookup; [exact Hx|done]).
    assert (p a = true); [|congruence]. unfold p.
    assert (l ≠ []) as Hnil by (intros Hnil; rewrite Hnil in Hl; by apply elem_of_nil in Hl).
    rewrite bool_decide_eq_true_2 by done. apply of_interfaces_true; [done|].
    exists i. split; [done|]. exact (rows_id _ _ _ Hx).
  - intros j j' b b' (x & <- & Hx)%lookup_fmap_Some (y & <- & Hy)%lookup_fmap_Some.
    rewrite !Hint. repeat case_if; try done; intros; simp; eauto.
Qed.

(** A program that handles interfaces: any sequence of the operations of this
    file, each of which may use what the ones before it returned. *)
Inductive prog : ∀ A : Type, M A → Prop :=
  | prog_ret A (a : A) : prog A (mret a)
  | prog_fail A e : prog A (fail e)
  | prog_bind A B (m : M A) (k : A → M B) :
      prog A m → (∀ c w x w', m c w = (Ok x, w') → prog B (k x)) → prog B (m ≫= k)
  | prog_create s k o h ib ob ip mac name ty sgs spoof :
      prog _ (CreateInterface s k o h ib ob ip mac name ty sgs spoof)
  | prog_second s k ip : k ≠ 0 → prog _ (AllocateAddress s k ip "second")
  | prog_delete i : Interface.ID i ≠ 0 → prog _ (DeleteInterface i)
  | prog_delete_all m sn ty : prog _ (DeleteInterfaces m sn ty).

Lemma prog_consistent A (m : M A) :
  prog A m → ∀ c w x w', m c w = (Ok x, w') → Consistent (db w) → Consistent (db w').
Proof.
  induction 1 as [A a|A e|A B m k Hm IHm Hk IHk|s k o h ib ob ip mac name ty sgs spoof
                 |s k ip Hk|i Hi|m sn ty]; intros c w x w' H HC.
  - by apply ret_Ok in H as [_ <-].
  - by apply fail_Ok in H.
  - apply bind_Ok in H as (a & w1 & H1 & H2). eauto.
  - apply CreateInterface_Ok in H as (_ & mac' & i1 & a & r & _ & _ & Hcon).
    by eapply consistent_create.
  - apply AllocateAddress_Ok in H as (_ & r & Ht). by eapply consistent_second.
  - apply DeleteInterface_Ok in H as (_ & Hi' & Ha & _); [|done]. by eapply consistent_delete.
  - by eapply consistent_delete_all.
Qed.

Lemma CreateInterface_np s k o h ib ob ip mac name ty sgs spoof :
  no_panic (CreateInterface s k o h ib ob ip mac name ty sgs spoof).
Proof.
  unfold CreateInterface. np; try apply AllocateAddress_np.
  intros c w Hp. destruct (GenerateMacaddr c w) as [res w'] eqn:Hg.
  by apply GenerateMacaddr_world in Hg as (_ & _ & ?).
Qed.

Lemma prog_np A (m : M A) : prog A m → no_panic m.
Proof.
  induction 1 as [A a|A e|A B m k Hm IHm Hk IHk|s k o h ib ob ip mac name ty sgs spoof
                 |s k ip Hk|i Hi|m sn ty].
  - apply np_ret.
  - apply np_fail.
  - intros c w. unfold mbind, M_bind. pose proof (IHm c w) as Hp.
    destruct (m c w) as [[a|e|] w1] eqn:H; simpl in *; [|done|done]. by eapply IHk.
  - apply CreateInterface_np.
  - apply AllocateAddress_np.
  - apply DeleteInterface_np.
  - apply DeleteInterfaces_np.
Qed.

(** Requests are served one after the other, each in its own transaction. *)
Fixpoint serve (requests : list (Ctx * M unit)) w : World :=
  match requests with
  | [] => w
  | (c, m) :: requests => serve requests (with_tx m c w).2
  end.

End ipam_lemmas.

Section ipam_theorems.
Context {G : Gorm} {E : Env} {GOk : GormOk G}.
Implicit Types (c : Ctx) (w : World) (a r : Address.t) (i : Interface.t) (s : Subnet.t).


(** [AllocateAddress] takes a free, unreserved address of the subnet: the
    first in the order of addresses that is not the gateway, or the very one
    asked for.  It changes that one row and nothing else, an error changes
    nothing, it never panics, and when no statement fails it succeeds as soon as
    such an address exists. *)
Theorem allocate_address_outcomes s k ip ty c w :
  (∀ x y, inet_le x y = true ∨ inet_le y x = true) →
  (∀ x y z, inet_le x y = true → inet_le y z = true → inet_le x z = true) →
  match AllocateAddress s k ip ty c w with
  | (Ok a, w') => ∃ r,
      ads (db w) !! Address.ID r = Some r ∧
      (Address.SubnetID r = Subnet.ID s ∧ Address.Allocated r = false ∧ Address.Reserved r = false ∧
       (ip = "" → Address.Address r ≠ Subnet.Gateway s) ∧
       (ip ≠ "" → Address.Address r =
          if Contains ip "/" then ip else ip +:+ "/" +:+ fmt_d (mask_size (Subnet.Netmask s)))) ∧
      (ip = "" → ∀ j b, ads (db w) !! j = Some b → Address.SubnetID b = Subnet.ID s →
         Address.Allocated b = false → Address.Reserved b = false →
         Address.Address b ≠ Subnet.Gateway s →
         inet_le (Address.Address r) (Address.Address b) = true) ∧
      a = (if String.eqb ty "second" then r <| Address.SecondInterface := k |>
           else r <| Address.Interface := k |>)
            <| Address.Allocated := true |> <| Address.Type_ := ty |>
            <| Address.Subnet := Some s |> ∧
      ads (db w') = <[Address.ID r := a <| Address.Subnet := Address.Subnet r |>]> (ads (db w)) ∧
      db w' = db w <| addresses := addresses (db w') |>
  | (Err _, w') => db w' = db w
  | (Panic, _) => False
  end ∧
  ((∀ n, db_fault n = false) →
   (∃ j a, ads (db w) !! j = Some a ∧ Address.SubnetID a = Subnet.ID s ∧
      Address.Allocated a = false ∧ Address.Reserved a = false ∧
      if String.eqb ip "" then Address.Address a ≠ Subnet.Gateway s
      else Address.Address a =
        if Contains ip "/" then ip else ip +:+ "/" +:+ fmt_d (mask_size (Subnet.Netmask s))) →
   ∃ a w', AllocateAddress s k ip ty c w = (Ok a, w')).
Proof.
  intros Htot Htr. split.
  - destruct (AllocateAddress s k ip ty c w) as [[a|e|] w'] eqn:H.
    + apply AllocateAddress_Ok in H as (_ & r & [H1 H2 H3 H4 H5 H6]). exists r.
      rewrite candidate_true in H1. split_and!; try tauto.
      * intros He j b Hb. intros.
        apply (take_by_least _ _ _ _ (inet_total Htot) (inet_trans Htr) H2 _ _ Hb), candidate_true.
        by split_and!.
      * rewrite H4. unfold allocated. by destruct r, (String.eqb ty "second").
      * rewrite H5, H4. f_equal. unfold allocated. by destruct r, (String.eqb ty "second").
    + by apply AllocateAddress_Err in H as [? _].
    + exact (np_refute _ _ _ _ (AllocateAddress_np s k ip ty) H).
  - intros Hf (j & a & Ha & Hs & Hal & Hr & Hx). eapply AllocateAddress_total; [done..|].
    apply candidate_true. destruct (String.eqb_spec ip ""); by split_and!.
Qed.

(** [CreateInterface], when no statement fails: on success the new interface
    is a fresh row of the requested kind, with the MAC address asked for, which
    owns the one address allocated to it.  On an error nothing is left behind
    (the interface row it had inserted is deleted again), and when a MAC address
    was given the error means that the subnet had no address to give.  It never
    panics. *)
Theorem create_interface_outcomes s k o h ib ob ip mac name ty sgs spoof c w :
  (∀ n, db_fault n = false) →
  match CreateInterface s k o h ib ob ip mac name ty sgs spoof c w with
  | (Ok i, w') => ∃ mac' i1 a r,
      i = i1 <| Interface.Address := Some a |> ∧
      Address.Interface a = Interface.ID i ∧ Address.SubnetID a = Subnet.ID s ∧
      (mac ≠ "" → Interface.MacAddr i = mac) ∧ Interface.Type_ i = ty ∧
      Interface.Subnet i = Subnet.ID s ∧
      (ty = "instance" → Interface.Instance i = k) ∧ (ty = "floating" → Interface.FloatingIp i = k) ∧
      (ty = "gateway" ∨ ty = "vrrp" → Interface.Device i = k) ∧
      connected s (interface_model s k o h ib ob mac' name ty sgs spoof) ip (db w) (db w') i1 a r
  | (Err _, w') => ifs (db w') = ifs (db w) ∧ ads (db w') = ads (db w) ∧
      (mac ≠ "" → ∀ j a, ads (db w) !! j = Some a → candidate s ip a = false)
  | (Panic, _) => False
  end.
Proof.
  intros Hf. destruct (CreateInterface _ _ _ _ _ _ _ _ _ _ _ _ c w) as [[i|e|] w'] eqn:H.
  - apply CreateInterface_Ok in H as (_ & mac' & i1 & a & r & Hi & Hmac & Hcon).
    pose proof (connected_result _ _ _ _ _ _ _ _ Hcon) as Ha.
    pose proof (proj1 (candidate_true _ _ _) (connected_candidate _ _ _ _ _ _ _ _ Hcon)) as (Hs & _).
    destruct (connected_row _ _ _ _ _ _ _ _ Hcon) as [u Hrow].
    destruct (interface_columns u (Interface.ID i1) s k o h ib ob mac' name ty sgs spoof)
      as (C1 & C2 & C3 & C4 & C5 & C6). rewrite <- Hrow in C1, C2, C3, C4, C5, C6.
    exists mac', i1, a, r. rewrite Hi.
    split_and!; try done; [by rewrite Ha|by rewrite Ha|]. intros Hm. by rewrite <- (Hmac Hm).
  - pose proof (CreateInterface_Err _ _ _ _ _ _ _ _ _ _ _ _ _ _ _ _ Hf H) as (_ & ? & ?).
    split_and!; [done..|]. intros Hm j a Ha. destruct (candidate s ip a) eqn:Hc; [exfalso|done].
    revert H. apply String.eqb_neq in Hm. unfold CreateInterface, GetContextDB. rewrite Hm.
    unfold mbind at 1, mret at 1, M_bind at 1, M_ret at 1. cbn [fst snd].
    intros [H|(i1 & w2 & Hi & H)]%bind_Err.
    { unfold db_create, stmt in H. rewrite Hf in H. by destruct (g_create _ _). }
    apply db_create_Ok in Hi as (t & _ & Hd & _).
    assert (Ha' : ads (db w2) !! j = Some a) by (by rewrite Hd).
    destruct (AllocateAddress_total s (Interface.ID i1) ip "native" (c <| dbkey := true |>) w2 j a)
      as (b & w3 & Hb); [done..|].
    apply bind_Err in H as [H|(x & w4 & Hx%try_Ok & H)]; [by apply try_Err in H|].
    destruct x; [done|]. congruence.
  - exact (np_refute _ _ _ _ (CreateInterface_np _ _ _ _ _ _ _ _ _ _ _ _) H).
Qed.

(** Deleting an interface undoes its creation: the interfaces are those of
    before, and so is every address, but for the type of the one that was
    allocated. *)
Theorem interface_roundtrip s k o h ib ob ip mac name ty sgs spoof c w i w1 c' u w2 :
  Consistent (db w) →
  CreateInterface s k o h ib ob ip mac name ty sgs spoof c w = (Ok i, w1) →
  (∀ j a, ads (db w) !! j = Some a → Address.SecondInterface a ≠ Interface.ID i) →
  DeleteInterface i c' w1 = (Ok u, w2) →
  ifs (db w2) = ifs (db w) ∧
  ∃ r, ads (db w) !! Address.ID r = Some r ∧ candidate s ip r = true ∧
    ads (db w2) = <[Address.ID r := r <| Address.Type_ := "native" |>]> (ads (db w)).
Proof.
  intros HC (_ & mac' & i1 & a & r & -> & _ & Hcon)%CreateInterface_Ok Hs HD. simpl in Hs.
  destruct Hcon as [Hfresh Hpos _ Hi Hc _ Hr _ Ha _].
  apply DeleteInterface_Ok in HD as (_ & Hi2 & Ha2 & _); simpl in *; [|lia].
  split; [rewrite Hi2, Hi; by apply delete_insert_id|]. exists r. split_and!; [done..|].
  rewrite Ha2, Ha, fmap_insert. f_equal.
  - pose proof (free_unused _ HC _ _ Hr (candidate_free _ _ _ Hc)) as H0.
    pose proof (Hs _ _ Hr) as H2. apply Z.eqb_neq in H2.
    unfold released, allocated. simpl. rewrite Z.eqb_refl, H2.
    pose proof (candidate_free _ _ _ Hc). destruct r; simpl in *. by subst.
  - apply map_eq. intros j. rewrite lookup_fmap. destruct (ads (db w) !! j) as [b|] eqn:Hb; [|done].
    simpl. f_equal. pose proof (fresh_interface _ _ _ _ HC Hfresh ltac:(lia) Hb) as H1.
    pose proof (Hs _ _ Hb) as H2. apply Z.eqb_neq in H1, H2. unfold released. by rewrite H1, H2.
Qed.

Lemma security_rules_Ok sgs l c w res w' :
  security_rules sgs l c w = (Ok res, w') →
  db w' = db w ∧
  res = l ++ concat (map (λ sg, g_find (λ x, SecurityRule.Secgroup x =? SecurityGroup.ID sg)
                                  (secrules (db w))) sgs).
Proof.
  revert l w. induction sgs as [|sg sgs IH]; intros l w; simpl.
  - intros [-> <-]%ret_Ok. by rewrite app_nil_r.
  - intros (l1 & w1 & (-> & Hd & _)%db_find_Ok & H)%bind_Ok. apply IH in H as [Hd' ->].
    rewrite Hd in *. by rewrite <- app_assoc.
Qed.

(** [GetSecurityData] gives a hypervisor exactly the rules of the security
    groups of an interface: every rule of every group, none of another group,
    group by group in the order of the groups. *)
Theorem security_data_complete sgs c w res w' :
  GetSecurityData sgs c w = (Ok res, w') →
  db w' = db w ∧
  (∀ x, x ∈ res ↔ ∃ sg rule, sg ∈ sgs ∧ rows (secrules (db w)) !! SecurityRule.ID rule = Some rule ∧
                    SecurityRule.Secgroup rule = SecurityGroup.ID sg ∧ x = security_data rule) ∧
  ∃ parts, res = concat parts ∧
    Forall2 (λ sg part, Forall (λ x, Secgroup x = SecurityGroup.ID sg) part) sgs parts.
Proof.
  unfold GetSecurityData, GetSecurityRules.
  intros (l & w1 & H & [<- <-]%ret_Ok)%bind_Ok. apply security_rules_Ok in H as [-> ->].
  split; [done|]. simpl. split.
  - intros x. rewrite list_elem_of_fmap. setoid_rewrite list_elem_of_In.
    setoid_rewrite in_concat. setoid_rewrite in_map_iff. split.
    + intros (rule & -> & part & (sg & <- & Hsg) & Hr). apply list_elem_of_In in Hr.
      apply find_spec in Hr as [Hg Hr]. apply Z.eqb_eq in Hg. by exists sg, rule.
    + intros (sg & rule & Hsg & Hr & Hg & ->). exists rule. split; [done|].
      eexists. split; [by exists sg|]. apply list_elem_of_In, find_spec.
      split; [by apply Z.eqb_eq|done].
  - exists (map (λ sg, map security_data
      (g_find (λ x, SecurityRule.Secgroup x =? SecurityGroup.ID sg) (secrules (db w)))) sgs).
    split; [by rewrite concat_map, map_map|].
    induction sgs as [|sg sgs IH]; simpl; constructor; [|done].
    apply Forall_forall. intros x. rewrite list_elem_of_fmap.
    intros (rule & -> & [Hg _]%find_spec). by apply Z.eqb_eq in Hg.
Qed.

End ipam_theorems.

(** ** Witnesses: a subnet 10.0.0.0/24 with three addresses *)

Module IpamWitness.
Import Scenario.
#[local] Existing Instance MemGorm.
#[local] Existing Instance MemGormOk.

(** The numeric order of dotted quads. *)
Definition inet_key (s : string) : Z :=
  match ParseIPv4 (match Split s "/" with a :: _ => a | [] => "" end) with
  | Some l => fold_left (λ x b, x * 256 + b) l 0
  | None => 0
  end.

#[local] Instance env_inet : Env := {|
  db_fault := λ _, false;
  post_result := λ _, PostOk;
  uuid_new n := "uuid-" +:+ fmt_d (Z.of_nat n);
  rand_read := λ _, Some (1, 2, 3, 255);
  rand_intn := λ _ _, 0;
  viper_IsSet := λ _, true;
  viper_GetString := λ _, "wds_vhost";
  viper_GetInt32 := λ _, 0;
  sql_like := λ _ _, true;
  inet_le a b := inet_key a <=? inet_key b;
  gorm_autosave := true;
  recently_updated := λ _ _, false;
  instance_created := λ _, 1700000000;
  error_text := λ _, "error";
  map_order := λ _ l, l;
  time_now := Z.of_nat;
  created_at := λ _ k, k * 1000000000;
|}.

Definition subnet1 : Subnet.t :=
  Subnet.zero <| Subnet.ID := 1 |> <| Subnet.Netmask := "255.255.255.0" |>
    <| Subnet.Gateway := "10.0.0.1/24" |>.

Definition addr (k : Z) (ip : string) : Address.t :=
  Address.zero <| Address.ID := k |> <| Address.Address := ip |> <| Address.SubnetID := 1 |>.

Definition group6 : SecurityGroup.t := SecurityGroup.zero <| SecurityGroup.ID := 6 |>.
Definition rule (k g : Z) (proto : string) : SecurityRule.t :=
  SecurityRule.zero <| SecurityRule.ID := k |> <| SecurityRule.Secgroup := g |>
    <| SecurityRule.Protocol := proto |>.

Definition lan : DB :=
  cloud <| subnets := table_of [subnet1] |>
    <| addresses := table_of [addr 31 "10.0.0.10/24"; addr 32 "10.0.0.9/24"; addr 33 "10.0.0.1/24"] |>
    <| secrules := table_of [rule 1 6 "tcp"; rule 2 7 "udp"; rule 3 6 "icmp"] |>.

Definition lan_world : World := mkWorld lan [] 0.

Definition create (name : string) : M Interface.t :=
  CreateInterface subnet1 5 2 3 0 0 "" "" name "instance" [] false.

Lemma lan_rows k a :
  ads lan !! k = Some a →
  Address.Allocated a = false ∧ Address.Interface a = 0 ∧ Address.SecondInterface a = 0.
Proof.
  assert (forallb (λ x, negb (Address.Allocated x.2) && (Address.Interface x.2 =? 0) &&
                        (Address.SecondInterface x.2 =? 0)) (map_to_list (ads lan)) = true) as H
    by (by vm_compute).
  intros Ha. rewrite forallb_forall in H. specialize (H (k, a)). simpl in H.
  rewrite !andb_true_iff, negb_true_iff, !Z.eqb_eq in H.
  destruct H as [[? ?] ?]; [|done]. apply list_elem_of_In. by apply elem_of_map_to_list.
Qed.

Lemma lan_consistent : Consistent lan.
Proof.
  split; intros *; intros Ha; destruct (lan_rows _ _ Ha) as (H1 & H2 & H3); congruence.
Qed.

(** Two interfaces are created, one is deleted: address 32 (10.0.0.9, the least
    but the gateway) and then 31 are given, and 32 is free at the end. *)
Definition requests : list (Ctx * M unit) :=
  [(writer, i ← create "eth0"; _ ← create "eth1"; DeleteInterface i);
   (writer, DeleteInterfaces 5 0 "instance")].

Lemma create_prog name : prog _ (create name).
Proof. unfold create. exact (prog_create subnet1 5 2 3 0 0 "" "" name "instance" [] false). Qed.

Lemma requests_prog : Forall (λ cm, dbkey cm.1 = false ∧ prog unit cm.2) requests.
Proof.
  constructor; [split; [done|]|constructor; [split; [done|apply prog_delete_all]|constructor]].
  apply prog_bind; [apply create_prog|]. intros c w i w' H. apply prog_bind; [apply create_prog|]. intros _ _ j _ _. apply prog_delete.
  unfold create in H. apply CreateInterface_Ok in H as (_ & ? & i1 & ? & ? & -> & _ & Hc).
  pose proof (connected_pos _ _ _ _ _ _ _ _ Hc). simpl. lia.
Qed.


Lemma inet_env_total x y : inet_le x y = true ∨ inet_le y x = true.
Proof. simpl. rewrite !Z.leb_le. lia. Qed.

Lemma inet_env_trans x y z : inet_le x y = true → inet_le y z = true → inet_le x z = true.
Proof. simpl. rewrite !Z.leb_le. lia. Qed.

Lemma allocate_address_outcomes_witness :
  ∃ a w', AllocateAddress subnet1 9 "" "native" writer lan_world = (Ok a, w').
Proof.
  destruct (allocate_address_outcomes subnet1 9 "" "native" writer lan_world
              inet_env_total inet_env_trans) as [_ H].
  apply H; [done|]. exists 31, (addr 31 "10.0.0.10/24"). by vm_compute.
Defined.

(** The least address but the gateway is given: 10.0.0.9. *)
Example allocate_least :
  result_of "" Address.Address (AllocateAddress subnet1 9 "" "native" writer lan_world) = "10.0.0.9/24" ∧
  result_of "" Address.Address (AllocateAddress subnet1 9 "10.0.0.1" "native" writer lan_world)
    = "10.0.0.1/24".
Proof. vm_compute. done. Qed.

Lemma create_interface_outcomes_witness :
  ifs (db (CreateInterface subnet1 5 2 3 0 0 "10.0.0.200" "" "eth0" "instance" [] false
             writer lan_world).2) = ifs (db lan_world).
Proof.
  pose proof (create_interface_outcomes subnet1 5 2 3 0 0 "10.0.0.200" "" "eth0" "instance" [] false
                writer lan_world (λ _, eq_refl)) as H.
  run_err (CreateInterface subnet1 5 2 3 0 0 "10.0.0.200" "" "eth0" "instance" [] false
             writer lan_world) e w' Hr.
  rewrite Hr in *. apply H.
Defined.

Lemma interface_roundtrip_witness : ∃ i w1 u w2,
  create "eth0" writer lan_world = (Ok i, w1) ∧
  DeleteInterface i writer w1 = (Ok u, w2) ∧ ifs (db w2) = ifs (db lan_world).
Proof.
  run_ok (create "eth0" writer lan_world) i w1 Hc.
  assert (is_Ok (DeleteInterface i writer w1) = true) as HD.
  { assert ((result_of Interface.zero id (create "eth0" writer lan_world),
             (create "eth0" writer lan_world).2) = (i, w1)) as Heq by (by rewrite Hc).
    injection Heq as <- <-. by vm_compute. }
  apply run_Ok in HD as (u & w2 & HD). exists i, w1, u, w2. unfold create in *.
  split_and!; [done..|].
  refine (proj1 (interface_roundtrip _ _ _ _ _ _ _ _ _ _ _ _ _ lan_world _ _ _ _ _
                   lan_consistent Hc _ HD)).
  intros j a Ha. assert (0 < Interface.ID i) as Hpos.
  { apply CreateInterface_Ok in Hc as (_ & ? & i1 & ? & ? & -> & _ & Hcon).
    exact (connected_pos _ _ _ _ _ _ _ _ Hcon). }
  destruct (lan_rows _ _ Ha) as (_ & _ & ->). lia.
Defined.

Lemma security_data_complete_witness : ∃ res w',
  GetSecurityData [group6] writer lan_world = (Ok res, w') ∧ security_data (rule 3 6 "icmp") ∈ res.
Proof.
  run_ok (GetSecurityData [group6] writer lan_world) res w' H. exists res, w'. split; [done|].
  apply (security_data_complete _ _ _ _ _ H). exists group6, (rule 3 6 "icmp").
  split_and!; [apply list_elem_of_here|by vm_compute..].
Defined.

(** Address 40 is the first address of interface 20 and the second of 21. *)
Definition shared_lan : DB :=
  lan <| interfaces := table_of [Interface.zero <| Interface.ID := 20 |>;
                                 Interface.zero <| Interface.ID := 21 |>] |>
      <| addresses := table_of [addr 40 "10.0.0.40/24" <| Address.Allocated := true |>
                                  <| Address.Type_ := "second" |>
                                  <| Address.Interface := 20 |>
                                  <| Address.SecondInterface := 21 |>] |>.

Definition reuse_address : M Address.t :=
  _ ← DeleteInterface (Interface.zero <| Interface.ID := 20 |>);
  AllocateAddress subnet1 22 "" "native".

Definition reused (r : Res Address.t * World) : bool :=
  result_of false (λ a, (Address.ID a =? 40) && (Address.Interface a =? 22) &&
                        (Address.SecondInterface a =? 21)) r &&
  match ifs (db r.2) !! 21 with Some _ => true | None => false end.

(** Deleting the first interface of an address frees the address although
    another interface still has it as a second address: the next allocation in
    the subnet hands out the address that the other interface is using. *)
Theorem second_address_freed : ∃ a w',
  reuse_address writer (mkWorld shared_lan [] 0) = (Ok a, w') ∧
  Address.ID a = 40 ∧ Address.Interface a = 22 ∧ Address.SecondInterface a = 21 ∧
  is_Some (ifs (db w') !! 21).
Proof.
  assert (reused (reuse_address writer (mkWorld shared_lan [] 0)) = true) as H by (by vm_compute).
  destruct (reuse_address _ _) as [[a|e|] w']; simpl in H; [|done|done].
  exists a, w'. unfold reused, result_of in H. cbn [fst snd] in H.
  destruct (ifs (db w') !! 21); simp. by split_and!; try eexists.
Qed.

End IpamWitness.
