(* ===== verification/Admin.v ===== *)
(** * Admin: dictionaries, flavors and tasks (routes/dictionary.go, flavor.go, task.go)

    The tables every request reads and only administrators change, and the
    tasks an organization can look at.  Each list operation counts the rows that
    match and reads one page of them. *)

From S2P Require Import Prelude GoLib ErrorCodes Gorm Model Store Scenario Member Catalog Volume.

Definition TaskSourceScheduler := "scheduler".
Definition TaskSourceMigration := "migration".

Section admin.
Context {G : Gorm} {E : Env}.

Definition NotAuthorized : error :=
  NewCLError ErrPermissionDenied "Not authorized for this operation" None.

(** ** Lists *)

(** The default page of a list and its order. *)
Definition page_limit_of (limit : Z) : Z := if limit =? 0 then 16 else limit.
Definition page_order_of (order : string) : list string :=
  NewOrders (if String.eqb order "" then "created_at" else order) [].

Definition list_rows {R} `{Row R, InDB R} (cannotCount cannotFind : string) (offset limit : Z)
    (order : string) (p : R → bool) : M (Z * list R) :=
  total ← wrap ErrSQLSyntaxError cannotCount (db_count p);
  rs ← wrap ErrSQLSyntaxError cannotFind
         (db_page (page_order_of order) offset (page_limit_of limit) p);
  mret (total, rs).

(** ** Dictionaries *)

Definition DictionaryAdmin_Create (category name value shortname subtype1 subtype2 subtype3 : string)
    : M Dictionary.t :=
  m ← GetMemberShip;
  _ ← require (CheckPermission m Admin) NotAuthorized;
  with_tx (
    _ ← require (negb (String.eqb value ""))
          (NewCLError ErrInvalidParameter "Value cannot be empty" None);
    db_create (Dictionary.zero
      <| Dictionary.Category := category |> <| Dictionary.Name := name |>
      <| Dictionary.Value := value |> <| Dictionary.ShortName := shortname |>
      <| Dictionary.SubType1 := subtype1 |> <| Dictionary.SubType2 := subtype2 |>
      <| Dictionary.SubType3 := subtype3 |>)).

(** [query] is the meaning of the SQL condition the caller passes. *)
Definition DictionaryAdmin_List (offset limit : Z) (order : string) (query : Dictionary.t → bool)
    : M (Z * list Dictionary.t) :=
  GetContextDB (
    m ← GetMemberShip;
    list_rows "Failed to count dictionaries" "Failed to find dictionaries" offset limit order
      (λ d, where_ok (GetWhere m) (Dictionary.Owner d) && query d)).

(** The column an update may change: kept when the new value is blank or equal to
    the one of the struct. *)
Definition updated_column (new old column : string) : string :=
  if negb (String.eqb new "") && negb (String.eqb old new) then new else column.

Definition DictionaryAdmin_Update (dictionaries : Dictionary.t)
    (category name value shortname subtype1 subtype2 subtype3 : string) : M Dictionary.t :=
  with_tx (
    m ← GetMemberShip;
    _ ← require (CheckPermission m Admin)
          (NewCLError ErrPermissionDenied "Not authorized to update the dictionary" None);
    _ ← wrap ErrDictionaryUpdateFailed "Failed to update dictionary"
          (db_update (by_id (Dictionary.ID dictionaries)) (λ r, r
             <| Dictionary.Category := updated_column category (Dictionary.Category dictionaries) (Dictionary.Category r) |>
             <| Dictionary.Name := updated_column name (Dictionary.Name dictionaries) (Dictionary.Name r) |>
             <| Dictionary.Value := updated_column value (Dictionary.Value dictionaries) (Dictionary.Value r) |>
             <| Dictionary.ShortName := updated_column shortname (Dictionary.ShortName dictionaries) (Dictionary.ShortName r) |>
             <| Dictionary.SubType1 := updated_column subtype1 (Dictionary.SubType1 dictionaries) (Dictionary.SubType1 r) |>
             <| Dictionary.SubType2 := updated_column subtype2 (Dictionary.SubType2 dictionaries) (Dictionary.SubType2 r) |>
             <| Dictionary.SubType3 := updated_column subtype3 (Dictionary.SubType3 dictionaries) (Dictionary.SubType3 r) |>));
    mret dictionaries).

(** [created] is [dictionaries.CreatedAt.Unix()]. *)
Definition DictionaryAdmin_Delete (created : Z) (dictionaries : Dictionary.t) : M unit :=
  with_tx (
    m ← GetMemberShip;
    _ ← require (CheckPermission m Admin)
          (NewCLError ErrPermissionDenied "Not authorized to delete the dictionary" None);
    _ ← wrap ErrDictionaryDeleteFailed "Failed to delete dictionary"
          (db_delete (R := Dictionary.t) (by_pk (Dictionary.ID dictionaries)));
    wrap ErrDictionaryUpdateFailed "Failed to update dictionary value"
      (db_update_all (by_id (Dictionary.ID dictionaries))
         (λ r, r <| Dictionary.Value := Dictionary.Value dictionaries +:+ "-" +:+ fmt_d created |>))).

(** ** Flavors *)

Definition FlavorAdmin_Create (name : string) (cpu memory disk : Z) : M Flavor.t :=
  m ← GetMemberShip;
  _ ← require (CheckPermission m Admin) NotAuthorized;
  with_tx (
    wrap ErrFlavorCreateFailed "Failed to create flavor"
      (db_create (Flavor.zero <| Flavor.Name := name |> <| Flavor.Cpu := cpu |>
                    <| Flavor.Disk := disk |> <| Flavor.Memory := memory |>))).

Definition FlavorAdmin_GetFlavorByName (name : string) : M Flavor.t :=
  wrap ErrFlavorNotFound "Flavor not found" (db_take (λ f, String.eqb (Flavor.Name f) name)).

Definition FlavorAdmin_Delete (flavor : Flavor.t) : M unit :=
  m ← GetMemberShip;
  _ ← require (CheckPermission m Admin) NotAuthorized;
  with_tx (
    refCount ← wrap ErrSQLSyntaxError "Failed to count instances using the flavor"
                 (db_count (λ i, Instance.FlavorID i =? Flavor.ID flavor));
    _ ← require (negb (0 <? refCount))
          (NewCLError ErrFlavorInUse
             "The flavor can not be deleted if there are instances using it" None);
    wrap ErrFlavorDeleteFailed "Failed to delete flavor"
      (db_delete (R := Flavor.t) (by_pk (Flavor.ID flavor)))).

Definition FlavorAdmin_List (offset limit : Z) (order query : string) : M (Z * list Flavor.t) :=
  GetContextDB (
    list_rows "Failed to count flavors" "Failed to list flavors" offset limit order
      (λ f, name_like query (Flavor.Name f))).

(** ** Tasks *)

Definition TaskAdmin_Get (taskID : Z) : M Task.t :=
  if taskID <=? 0 then
    fail (NewCLError ErrInvalidParameter ("Invalid task ID: " +:+ fmt_d taskID) None)
  else GetContextDB (
    m ← GetMemberShip;
    task ← wrap ErrTaskNotFound "Task not found"
             (db_take (λ t, where_ok (GetWhere m) (Task.Owner t) && by_pk taskID t));
    _ ← require (ValidateOwner m Reader (Task.Owner task))
          (NewCLError ErrPermissionDenied "Not authorized to read the task" None);
    mret task).

Definition TaskAdmin_GetTaskByUUID (uuid : string) : M Task.t :=
  GetContextDB (
    m ← GetMemberShip;
    task ← wrap ErrTaskNotFound "Task not found"
             (db_take (λ t, where_ok (GetWhere m) (Task.Owner t) && String.eqb (Task.UUID t) uuid));
    _ ← require (ValidateOwner m Reader (Task.Owner task))
          (NewCLError ErrPermissionDenied "Not authorized to read the task" None);
    mret task).

(** The filter on the source of a list, [None] for an unknown source. *)
Definition source_where (source : string) : option (Task.t → bool) :=
  if String.eqb source TaskSourceManual || String.eqb source TaskSourceScheduler
     || String.eqb source TaskSourceMigration
  then Some (λ t, String.eqb (Task.Source t) source)
  else if String.eqb source "not_migration" || String.eqb source ""
  then Some (λ t, negb (String.eqb (Task.Source t) TaskSourceMigration))
  else if String.eqb source "all" then Some (λ _, true)
  else None.

Definition TaskAdmin_List (offset limit : Z) (order query source : string) : M (Z * list Task.t) :=
  m ← GetMemberShip;
  GetContextDB (
    match source_where source with
    | None => fail (NewCLError ErrInvalidParameter ("Invalid task source " +:+ source) None)
    | Some from =>
        '(total, tasks) ← list_rows "Failed to count tasks" "Failed to query tasks"
          offset limit order
          (λ t, where_ok (GetWhere m) (Task.Owner t) && name_like query (Task.Name t) && from t);
        _ ← (if CheckPermission m Admin then
               for_each tasks (λ t : Task.t,
                 _ ← wrap ErrOwnerNotFound "Owner organization not found"
                       (db_get (R := Organization.t) (Task.Owner t)); mret tt)
             else mret tt);
        mret (total, tasks)
    end).

End admin.

(** ** Lemmas *)

Section admin_lemmas.
Context {G : Gorm} {E : Env} {GOk : GormOk G}.
Implicit Types (c : Ctx) (w : World).

(** A list is a page of the rows that match and the number of all of them. *)
Lemma list_rows_Ok {R} {HR : Row R} {HO : RowOk R} {HD : InDB R} e1 e2 offset limit order
    (p : R → bool) c w total rs w' :
  0 ≤ limit →
  list_rows e1 e2 offset limit order p c w = (Ok (total, rs), w') →
  total = Z.of_nat (length (g_find p (tbl (db w)))) ∧
  Z.of_nat (length rs) ≤ page_limit_of limit ∧
  (∀ r, r ∈ rs → p r = true ∧ rows (tbl (db w)) !! get_id r = Some r) ∧
  db w' = db w ∧ sent w' = sent w.
Proof.
  intros Hl. unfold list_rows. intros H. go_ok. flat. split_and!; try done.
  - apply page_limit. unfold page_limit_of. case_if; lia.
  - intros r. apply page_spec.
Qed.

Lemma task_owners_same (b : bool) (l : list Task.t) c w u w' :
  (if b then for_each l (λ t : Task.t,
     _ ← wrap ErrOwnerNotFound "Owner organization not found"
           (db_get (R := Organization.t) (Task.Owner t)); mret tt) else mret tt) c w = (Ok u, w') →
  db w' = db w ∧ sent w' = sent w.
Proof.
  destruct b; [|intros; by go_ok]. revert w.
  induction l as [|x l IH]; simpl; intros w H; go_ok; [done|].
  match goal with Hx : for_each _ _ _ _ = _ |- _ => apply IH in Hx as [-> ->] end. done.
Qed.

(** An operation that only administrators can carry out, in one transaction, on
    the database alone. *)
Definition admin_only {A} (m : M A) (effect : DB → DB → Prop) : Prop :=
  ∀ c w, dbkey c = false →
  match m c w with
  | (Ok _, w') => CheckPermission (caller c) Admin = true ∧ sent w' = sent w ∧ effect (db w) (db w')
  | (Err _, w') => db w' = db w ∧ sent w' = sent w
  | (Panic, _) => False
  end.

(** The checks before the transaction and the transaction itself. *)
Lemma admin_only_intro {A} (m : M A) effect :
  quiet m → no_panic m →
  (∀ c w e w', dbkey c = false → m c w = (Err e, w') → db w' = db w) →
  (∀ c w x w', m c w = (Ok x, w') →
     CheckPermission (caller c) Admin = true ∧ effect (db w) (db w')) →
  admin_only m effect.
Proof.
  intros Hq Hn He Ho c w Hc. pose proof (Hq c w) as Hs. pose proof (Hn c w) as Hp.
  destruct (m c w) as [[x|e|] w'] eqn:H; simpl in *; [|by eauto|done].
  destruct (Ho _ _ _ _ H). done.
Qed.

(** An error of a check followed by a transaction changes nothing. *)
Lemma guarded_tx_Err {A} b e0 (m : M A) c w e w' :
  dbkey c = false →
  (ms ← GetMemberShip; _ ← require (b ms) e0; with_tx m) c w = (Err e, w') → db w' = db w.
Proof.
  intros Hc. unfold mbind, M_bind, GetMemberShip, require. simpl.
  destruct (b (caller c)); simpl; [by apply with_tx_Err|]. unfold fail. intros. by simplify_eq.
Qed.

End admin_lemmas.

Section admin_theorems.
Context {G : Gorm} {E : Env} {GOk : GormOk G}.
Implicit Types (c : Ctx) (w : World) (d : DB).

Definition dicts d : gmap Z Dictionary.t := rows (dictionaries d).

Lemma dictionary_create_admin cat name val short s1 s2 s3 :
  admin_only (DictionaryAdmin_Create cat name val short s1 s2 s3)
    (λ d d', val ≠ "" ∧ ∃ r, dicts d !! Dictionary.ID r = None ∧
       r = Dictionary.mk (Dictionary.ID r) (Dictionary.UUID r) 1 1
             cat name short val s1 s2 s3 ∧
       dicts d' = <[Dictionary.ID r := r]> (dicts d) ∧
       d' = d <| dictionaries := dictionaries d' |>).
Proof.
  apply admin_only_intro; unfold DictionaryAdmin_Create; [quiet_tac|np| |].
  - intros c w e w' Hc. by apply guarded_tx_Err.
  - intros c w x w' H. go_ok. flat. simp.
    match goal with Hx : g_create _ _ = _ |- _ => apply create_spec in Hx as (? & ? & Hr & ?) end.
    split; [done|]. split; [by apply String.eqb_neq|]. exists x. split_and!; try done.
    destruct x. by injection Hr as -> -> -> -> -> -> -> -> -> ->.
Qed.

(** The new value, when one was given. *)
Definition given (new old : string) : string := if String.eqb new "" then old else new.

Lemma updated_column_same new old : updated_column new old old = given new old.
Proof.
  unfold updated_column, given. destruct (String.eqb_spec new ""); simpl; [done|].
  destruct (String.eqb_spec old new); simpl; congruence.
Qed.

Lemma dictionary_update_admin x cat name val short s1 s2 s3 :
  admin_only (DictionaryAdmin_Update x cat name val short s1 s2 s3)
    (λ d d', (∀ k, k ≠ Dictionary.ID x → dicts d' !! k = dicts d !! k) ∧
       (dicts d !! Dictionary.ID x = Some x → dicts d' !! Dictionary.ID x = Some
          (Dictionary.mk (Dictionary.ID x) (Dictionary.UUID x) (Dictionary.Creater x) (Dictionary.Owner x)
             (given cat (Dictionary.Category x)) (given name (Dictionary.Name x))
             (given short (Dictionary.ShortName x)) (given val (Dictionary.Value x))
             (given s1 (Dictionary.SubType1 x)) (given s2 (Dictionary.SubType2 x))
             (given s3 (Dictionary.SubType3 x)))) ∧
       d' = d <| dictionaries := dictionaries d' |>).
Proof.
  apply admin_only_intro; unfold DictionaryAdmin_Update; [quiet_tac|np| |].
  - intros c w e w' Hc. by apply with_tx_Err.
  - intros c w y w' H. go_ok. flat. split; [done|]. unfold dicts. simpl. split_and!; [| |done].
    + intros k Hk. rewrite update_lookup by (by intros []).
      destruct (rows (dictionaries (db _)) !! k) as [r|] eqn:Hr; [|done]. simpl. unfold by_id.
      rewrite (rows_id _ _ _ Hr). by rewrite (proj2 (Z.eqb_neq _ _) Hk).
    + intros Hx. rewrite update_lookup by (by intros []). rewrite Hx. simpl. unfold by_id.
      rewrite (rows_id _ _ _ Hx), Z.eqb_refl. f_equal. cbn. by rewrite !updated_column_same.
Qed.

Lemma dictionary_delete_admin t x :
  Dictionary.ID x ≠ 0 →
  admin_only (DictionaryAdmin_Delete t x)
    (λ d d', dicts d' = delete (Dictionary.ID x) (dicts d) ∧
       d' = d <| dictionaries := dictionaries d' |>).
Proof.
  intros Hid. apply admin_only_intro; unfold DictionaryAdmin_Delete; [quiet_tac|np| |].
  - intros c w e w' Hc. by apply with_tx_Err.
  - intros c w y w' H. go_ok. flat. split; [done|]. unfold dicts. simpl. split; [|done].
    rewrite update_all_spec by (by intros []). rewrite (delete_pk (R := Dictionary.t)) by done.
    apply map_eq. intros k. rewrite lookup_fmap.
    destruct (delete (Dictionary.ID x) (rows (dictionaries (db _))) !! k) as [r|] eqn:Hr; [|done].
    apply lookup_delete_Some in Hr as [Hne Hr]. simpl. unfold by_id.
    rewrite (rows_id _ _ _ Hr). by rewrite (proj2 (Z.eqb_neq _ _)) by congruence.
Qed.

Lemma flavor_create_admin name cpu memory disk :
  admin_only (FlavorAdmin_Create name cpu memory disk)
    (λ d d', ∃ r, rows (flavors d) !! Flavor.ID r = None ∧
       r = Flavor.mk (Flavor.ID r) (Flavor.UUID r) 1 1 name cpu memory disk 0 0 ∧
       rows (flavors d') = <[Flavor.ID r := r]> (rows (flavors d)) ∧
       d' = d <| flavors := flavors d' |>).
Proof.
  apply admin_only_intro; unfold FlavorAdmin_Create; [quiet_tac|np| |].
  - intros c w e w' Hc. by apply guarded_tx_Err.
  - intros c w x w' H. go_ok. flat. split; [done|].
    match goal with Hx : g_create _ _ = _ |- _ => apply create_spec in Hx as (? & ? & Hr & ?) end.
    exists x. split_and!; try done. destruct x. by injection Hr as -> -> -> -> -> -> -> -> ->.
Qed.

Lemma flavor_delete_admin f :
  Flavor.ID f ≠ 0 →
  admin_only (FlavorAdmin_Delete f)
    (λ d d', (∀ k i, rows (instances d) !! k = Some i → Instance.FlavorID i ≠ Flavor.ID f) ∧
       rows (flavors d') = delete (Flavor.ID f) (rows (flavors d)) ∧
       d' = d <| flavors := flavors d' |>).
Proof.
  intros Hid. apply admin_only_intro; unfold FlavorAdmin_Delete; [quiet_tac|np| |].
  - intros c w e w' Hc. by apply guarded_tx_Err.
  - intros c w x w' H. go_ok. flat. split; [done|]. simp. split_and!; [|by apply (delete_pk (R := Flavor.t))|done].
    intros k i Hi Hf.
    match goal with Hl : Z.of_nat (length ?l) ≤ 0 |- _ => destruct l as [|y l'] eqn:Hg; [|simpl in Hl; lia] end.
    pose proof (proj1 (find_nil _ _) Hg _ _ Hi) as Hn. simpl in Hn. by apply Z.eqb_neq in Hn.
Qed.

(** C38. Dictionaries and flavors are changed by administrators only: each of the
    five operations that write them succeeds only for a caller with the Admin
    permission, changes nothing when it fails, posts nothing and never panics.
    A creation stores one fresh entry, with each value given in its own column and the
    other columns at their defaults; an update of an entry that was read as it is stored
    changes that entry only, and of it exactly the columns for which a value was given; a
    deletion removes one entry, a flavor only when no instance uses it; and no other table
    is touched. *)
Theorem admin_operations :
  (∀ cat name val short s1 s2 s3,
     admin_only (DictionaryAdmin_Create cat name val short s1 s2 s3)
       (λ d d', val ≠ "" ∧ ∃ r, dicts d !! Dictionary.ID r = None ∧
          r = Dictionary.mk (Dictionary.ID r) (Dictionary.UUID r) 1 1
                cat name short val s1 s2 s3 ∧
          dicts d' = <[Dictionary.ID r := r]> (dicts d) ∧
          d' = d <| dictionaries := dictionaries d' |>)) ∧
  (∀ x cat name val short s1 s2 s3,
     admin_only (DictionaryAdmin_Update x cat name val short s1 s2 s3)
       (λ d d', (∀ k, k ≠ Dictionary.ID x → dicts d' !! k = dicts d !! k) ∧
          (dicts d !! Dictionary.ID x = Some x → dicts d' !! Dictionary.ID x = Some
             (Dictionary.mk (Dictionary.ID x) (Dictionary.UUID x) (Dictionary.Creater x) (Dictionary.Owner x)
                (given cat (Dictionary.Category x)) (given name (Dictionary.Name x))
                (given short (Dictionary.ShortName x)) (given val (Dictionary.Value x))
                (given s1 (Dictionary.SubType1 x)) (given s2 (Dictionary.SubType2 x))
                (given s3 (Dictionary.SubType3 x)))) ∧
          d' = d <| dictionaries := dictionaries d' |>)) ∧
  (∀ t x, Dictionary.ID x ≠ 0 →
     admin_only (DictionaryAdmin_Delete t x)
       (λ d d', dicts d' = delete (Dictionary.ID x) (dicts d) ∧
          d' = d <| dictionaries := dictionaries d' |>)) ∧
  (∀ name cpu memory disk,
     admin_only (FlavorAdmin_Create name cpu memory disk)
       (λ d d', ∃ r, rows (flavors d) !! Flavor.ID r = None ∧
          r = Flavor.mk (Flavor.ID r) (Flavor.UUID r) 1 1 name cpu memory disk 0 0 ∧
          rows (flavors d') = <[Flavor.ID r := r]> (rows (flavors d)) ∧
          d' = d <| flavors := flavors d' |>)) ∧
  (∀ f, Flavor.ID f ≠ 0 →
     admin_only (FlavorAdmin_Delete f)
       (λ d d', (∀ k i, rows (instances d) !! k = Some i → Instance.FlavorID i ≠ Flavor.ID f) ∧
          rows (flavors d') = delete (Flavor.ID f) (rows (flavors d)) ∧
          d' = d <| flavors := flavors d' |>)).
Proof.
  split_and!; eauto using dictionary_create_admin, dictionary_update_admin,
    dictionary_delete_admin, flavor_create_admin, flavor_delete_admin.
Qed.

(** Every instance with a flavor has a flavor that exists. *)
Definition flavor_refs d : Prop :=
  ∀ k i, rows (instances d) !! k = Some i → Instance.FlavorID i ≠ 0 →
         is_Some (rows (flavors d) !! Instance.FlavorID i).

(** No sequence of flavor operations leaves an instance with a flavor that is
    gone: creating and deleting flavors, by whomever and with whatever outcome,
    keeps every reference of an instance to its flavor. *)
Theorem flavor_references f name cpu memory disk c w :
  dbkey c = false → Flavor.ID f ≠ 0 → flavor_refs (db w) →
  flavor_refs (db (FlavorAdmin_Delete f c w).2) ∧
  flavor_refs (db (FlavorAdmin_Create name cpu memory disk c w).2).
Proof.
  intros Hc Hf HI. split.
  - pose proof (flavor_delete_admin f Hf c w Hc) as H.
    destruct (FlavorAdmin_Delete f c w) as [[u|e|] w']; simpl; [|by destruct H as [-> _]|done].
    destruct H as (_ & _ & Hno & Hfl & Hd). intros k i.
    rewrite Hfl, (f_equal instances Hd). simpl. intros Hi H0.
    rewrite lookup_delete_ne by (apply not_eq_sym; by eapply Hno). by eapply HI.
  - pose proof (flavor_create_admin name cpu memory disk c w Hc) as H.
    destruct (FlavorAdmin_Create name cpu memory disk c w) as [[u|e|] w']; simpl;
      [|by destruct H as [-> _]|done].
    destruct H as (_ & _ & r & Hr & _ & Hfl & Hd). intros k i.
    rewrite Hfl, (f_equal instances Hd). simpl. intros Hi H0.
    destruct (decide (Flavor.ID r = Instance.FlavorID i)) as [->|Hne];
      [by rewrite lookup_insert_eq|]. rewrite lookup_insert_ne by done. by eapply HI.
Qed.

(** The tasks a caller may see. *)
Definition visible c (t : Task.t) : Prop :=
  is_super (caller c) = true ∨ Task.Owner t = MemberShip.OrgID (caller c).

(** Tasks are read by their own organization: a task that [TaskAdmin.Get] or
    [GetTaskByUUID] returns, and every task of a list, is a live row of the
    caller's organization (any row for a super user); a list holds at most the
    page asked for, tasks from the source asked for (all but migrations when none
    is named) whose name matches, and its total is the number of all of them;
    nothing is written or posted. *)
Theorem task_reads c w :
  (∀ id t w', TaskAdmin_Get id c w = (Ok t, w') →
     Task.ID t = id ∧ rows (tasks (db w)) !! id = Some t ∧ visible c t ∧
     db w' = db w ∧ sent w' = sent w) ∧
  (∀ uuid t w', TaskAdmin_GetTaskByUUID uuid c w = (Ok t, w') →
     Task.UUID t = uuid ∧ rows (tasks (db w)) !! Task.ID t = Some t ∧ visible c t ∧
     db w' = db w ∧ sent w' = sent w) ∧
  (∀ offset limit order query source total ts w', 0 ≤ limit →
     TaskAdmin_List offset limit order query source c w = (Ok (total, ts), w') →
     Z.of_nat (length ts) ≤ page_limit_of limit ∧
     ∃ from, source_where source = Some from ∧
       (∀ t, t ∈ ts → rows (tasks (db w)) !! Task.ID t = Some t ∧ visible c t ∧
          name_like query (Task.Name t) = true ∧ from t = true) ∧
       (∃ all, total = Z.of_nat (length all) ∧ NoDup all ∧ ∀ t, t ∈ all ↔
          rows (tasks (db w)) !! Task.ID t = Some t ∧
          where_ok (GetWhere (caller c)) (Task.Owner t) = true ∧
          name_like query (Task.Name t) = true ∧ from t = true) ∧
       db w' = db w ∧ sent w' = sent w).
Proof.
  assert (Hv : ∀ t : Task.t, where_ok (GetWhere (caller c)) (Task.Owner t) = true → visible c t).
  { intros t. apply where_ok_owner. }
  split_and!.
  - intros id t w' H. unfold TaskAdmin_Get in H. destruct (id <=? 0) eqn:Hid; [by go_ok|]. go_ok.
    flat. match goal with Hx : g_take _ _ = _ |- _ => apply take_some in Hx as [Hp Hr] end. simp.
    unfold by_pk in *. rewrite pk_nonzero in * by lia. simp. change (get_id t) with (Task.ID t) in *.
    split_and!; auto.
  - intros uuid t w' H. unfold TaskAdmin_GetTaskByUUID in H. go_ok.
    flat. match goal with Hx : g_take _ _ = _ |- _ => apply take_some in Hx as [Hp Hr] end. simp.
    match goal with Hx : String.eqb _ _ = true |- _ => apply String.eqb_eq in Hx end.
    split_and!; auto.
  - intros offset limit order query source total ts w' Hl H. unfold TaskAdmin_List in H. go_ok.
    destruct (source_where source) as [from|]; go_ok.
    destruct a as [n l]. go_ok.
    match goal with Hx : (if _ then for_each _ _ else _) _ _ = _ |- _ =>
      apply task_owners_same in Hx as [? ?] end.
    match goal with Hx : list_rows _ _ _ _ _ _ _ _ = _ |- _ =>
      apply list_rows_Ok in Hx as (Ht & Hn & Hm & ? & ?); [|done] end.
    flat. split; [done|]. exists from. split_and!; try done.
    + intros t Hin. apply Hm in Hin as [Hp Hr]. simp. split_and!; auto.
    + eexists. split; [exact Ht|]. split; [apply find_nodup|].
      intros t. rewrite find_spec, !andb_true_iff. tauto.
Qed.

End admin_theorems.

(** ** Witnesses *)

Module AdminWitness.
Import Scenario.
#[local] Existing Instance MemGorm.
#[local] Existing Instance MemGormOk.
#[local] Existing Instance env.

Definition admin : Ctx := mkCtx (Some (MemberShip.mk 1 "root" 1 "admin" Admin)) false None None.
Definition flavor2 : Flavor.t := Flavor.zero <| Flavor.ID := 2 |> <| Flavor.Name := "small" |>.
Definition flavor3 : Flavor.t := Flavor.zero <| Flavor.ID := 3 |> <| Flavor.Name := "big" |>.
Definition task_of (k owner : Z) (source : string) : Task.t :=
  Task.zero <| Task.ID := k |> <| Task.Owner := owner |> <| Task.Source := source |>.

(** Instance 5 has flavor 3. *)
Definition admin_world : World :=
  mkWorld (cloud <| flavors := table_of [flavor2; flavor3] |>
             <| instances := table_of [instance5 <| Instance.FlavorID := 3 |>] |>
             <| tasks := table_of [task_of 1 2 "manual"; task_of 2 2 "migration"; task_of 3 9 "manual"] |>)
    [] 0.

(** An administrator creates a flavor, a writer is refused. *)
Lemma admin_operations_witness :
  (∃ r w', FlavorAdmin_Create "huge" 8 1024 10 admin admin_world = (Ok r, w')) ∧
  (∃ e w', FlavorAdmin_Create "huge" 8 1024 10 writer admin_world = (Err e, w') ∧
     db w' = db admin_world).
Proof.
  destruct admin_operations as (_ & _ & _ & Hc & _). split.
  - run_ok (FlavorAdmin_Create "huge" 8 1024 10 admin admin_world) r w' H. eauto.
  - run_err (FlavorAdmin_Create "huge" 8 1024 10 writer admin_world) e w' H.
    exists e, w'. specialize (Hc "huge" 8 1024 10 writer admin_world eq_refl).
    rewrite H in Hc. destruct Hc. done.
Defined.

Lemma admin_world_refs : flavor_refs (db admin_world).
Proof.
  assert (forallb (λ x, match rows (flavors (db admin_world)) !! Instance.FlavorID x.2 with
                        | Some _ => true | None => false end)
            (map_to_list (rows (instances (db admin_world)))) = true) as H by (by vm_compute).
  intros k i Hi _. rewrite forallb_forall in H.
  assert (In (k, i) (map_to_list (rows (instances (db admin_world))))) as Hin
    by (by apply list_elem_of_In, elem_of_map_to_list).
  specialize (H _ Hin). cbn [snd] in H.
  destruct (rows (flavors (db admin_world)) !! Instance.FlavorID i); [by eexists|discriminate H].
Qed.

(** Flavor 3 is in use: it cannot be deleted; flavor 2 can. *)
Lemma flavor_references_witness :
  is_Err (FlavorAdmin_Delete flavor3 admin admin_world) = true ∧
  is_Ok (FlavorAdmin_Delete flavor2 admin admin_world) = true ∧
  flavor_refs (db (FlavorAdmin_Delete flavor2 admin admin_world).2).
Proof.
  split_and!; [by vm_compute..|].
  apply (flavor_references flavor2 "huge" 8 1024 10 admin admin_world eq_refl ltac:(done) admin_world_refs).
Defined.

(** Neither the migration nor the task of organization 9 is listed. *)
Lemma task_reads_witness : ∃ total ts w',
  TaskAdmin_List 0 10 "" "" "" writer admin_world = (Ok (total, ts), w') ∧ total = 1 ∧
  Z.of_nat (length ts) ≤ 10.
Proof.
  destruct (run_check (TaskAdmin_List 0 10 "" "" "" writer admin_world) (λ r, r.1 =? 1))
    as ([total ts] & w' & Hr & Ht); [vm_compute; reflexivity|].
  destruct (task_reads writer admin_world) as (_ & _ & Hl).
  destruct (Hl 0 10 "" "" "" total ts w' ltac:(lia) Hr) as [Hn _].
  exists total, ts, w'. split_and!; [exact Hr|by apply Z.eqb_eq|exact Hn].
Defined.

End AdminWitness.
