(* ===== verification/NetInfo.v ===== *)
(** * NetInfo: what a hypervisor is told of an interface (common/interface.go)

    An interface is loaded with its address, its further addresses and the site
    subnets it carries; [GetInterfaceInfo] puts them together with the security
    rules of its groups, and [ApplyInterface] posts the result as JSON.
    [DerivePublicInterface] turns floating IPs into the public interface of an
    instance.

    The join table of interfaces and security groups is the field
    [SecurityGroups] of an interface row, of which only the keys count: a query
    reads the groups themselves from their own table. *)

From S2P Require Import Prelude GoLib Json ErrorCodes Gorm Model Store Scenario Member Ipam.

Module NetworkRoute.
Record NetworkRoute_t := mk { Network : string; Netmask : string; Gateway : string }.
Abbreviation t := NetworkRoute_t.
End NetworkRoute.

Module InstanceNetwork.
Record InstanceNetwork_t := mk {
  Type_ : string;
  Address : string;
  Netmask : string;
  Link : string;
  ID : string;
  Routes : list NetworkRoute.t
}.
Abbreviation t := InstanceNetwork_t.
End InstanceNetwork.

Module VlanInfo.
Record VlanInfo_t := mk {
  Device : string;
  Vlan : Z;
  Gateway : string;
  Router : Z;
  PublicLink : Z;
  Inbound : Z;
  Outbound : Z;
  AllowSpoofing : bool;
  IpAddr : string;
  MacAddr : string;
  SecRules : list SecurityData;
  MoreAddresses : option (list string)   (* a nil slice is [None] *)
}.
Abbreviation t := VlanInfo_t.
End VlanInfo.

Definition PublicReserved := "reserved".

(** [strings.Split(s, "/")[0]] *)
Definition before_slash (s : string) : string := hd "" (Split s "/").

(** ** JSON *)

Definition json_security (r : SecurityData) : json :=
  JObj [("Secgroup", JNum (Secgroup r)); ("remote_ip", JStr (RemoteIp r));
        ("remote_group", JNum (RemoteGroup r)); ("direction", JStr (Direction r));
        ("ip_version", JStr (IpVersion r)); ("protocol", JStr (Protocol r));
        ("port_min", JNum (PortMin r)); ("port_max", JNum (PortMax r))].

Definition json_vlan (v : VlanInfo.t) : json :=
  JObj [("device", JStr (VlanInfo.Device v)); ("vlan", JNum (VlanInfo.Vlan v));
        ("gateway", JStr (VlanInfo.Gateway v)); ("router", JNum (VlanInfo.Router v));
        ("public_link", JNum (VlanInfo.PublicLink v)); ("inbound", JNum (VlanInfo.Inbound v));
        ("outbound", JNum (VlanInfo.Outbound v));
        ("allow_spoofing", JBool (VlanInfo.AllowSpoofing v));
        ("ip_address", JStr (VlanInfo.IpAddr v)); ("mac_address", JStr (VlanInfo.MacAddr v));
        ("security", match VlanInfo.SecRules v with
                     | [] => JNull | l => JArr (map json_security l) end);
        ("more_addresses", match VlanInfo.MoreAddresses v with
                           | None => JNull | Some l => JArr (map JStr l) end)].

Section netinfo.
Context {G : Gorm} {E : Env}.

(** ** Loading interfaces *)

(** [Preload("Subnet")] of addresses: no query when none has a subnet. *)
Definition preload_subnets (addrs : list Address.t) : M (list Address.t) :=
  if existsb (λ a, negb (Address.SubnetID a =? 0)) addrs then
    subnets ← db_find (λ s, existsb (λ a, Subnet.ID s =? Address.SubnetID a) addrs);
    mret (map (λ a, a <| Address.Subnet :=
                 List.find (λ s, Subnet.ID s =? Address.SubnetID a) subnets |>) addrs)
  else mret addrs.

(** [Preload] of Address, Address.Subnet, SecondAddresses, SecondAddresses.Subnet
    and SiteSubnets, each one query for all interfaces. *)
Definition preload_addresses (ifaces : list Interface.t) : M (list Interface.t) :=
  match ifaces with
  | [] => mret []
  | _ =>
      addrs ← db_find (λ a, existsb (λ i, Address.Interface a =? Interface.ID i) ifaces);
      addrs ← preload_subnets addrs;
      seconds ← db_find (λ a, existsb (λ i, Address.SecondInterface a =? Interface.ID i) ifaces);
      seconds ← preload_subnets seconds;
      sites ← db_find (λ s, existsb (λ i, Subnet.Interface s =? Interface.ID i) ifaces);
      mret (map (λ i, i
        <| Interface.Address :=
             last (List.filter (λ a, Address.Interface a =? Interface.ID i) addrs) |>
        <| Interface.SecondAddresses :=
             List.filter (λ a, Address.SecondInterface a =? Interface.ID i) seconds |>
        <| Interface.SiteSubnets :=
             List.filter (λ s, Subnet.Interface s =? Interface.ID i) sites |>) ifaces)
  end.

(** An interface is in a security group. *)
Definition in_group (sgID : Z) (i : Interface.t) : bool :=
  existsb (λ sg, SecurityGroup.ID sg =? sgID) (Interface.SecurityGroups i).

(** [db.Model(iface).Related(&iface.SecurityGroups, "SecurityGroups")] *)
Definition groups_of (ifaceID : Z) (d : DB) : list SecurityGroup.t :=
  match g_take (by_id ifaceID) (interfaces d) with
  | Some i => g_find (λ sg, in_group (SecurityGroup.ID sg) i) (secgroups d)
  | None => []
  end.

Definition related_groups (ifaceID : Z) : M (list SecurityGroup.t) := db_query (groups_of ifaceID).

(** ** The networks of an instance *)

Definition ipv4_network (address netmask link : string) (netID : nat)
    (routes : list NetworkRoute.t) : InstanceNetwork.t :=
  InstanceNetwork.mk "ipv4" address netmask link ("network" +:+ fmt_d (Z.of_nat netID)) routes.

(** The further addresses of a primary interface, each a network of its own for
    a Linux image. *)
Fixpoint second_networks (osCode link : string) (netID : nat) (addrs : list Address.t)
    : M (list InstanceNetwork.t) :=
  match addrs with
  | [] => mret []
  | addr :: addrs =>
      net ← (if String.eqb osCode "linux" then
               subnet ← deref (Address.Subnet addr);
               mret [ipv4_network (before_slash (Address.Address addr)) (Subnet.Netmask subnet)
                       link netID []]
             else mret []);
      nets ← second_networks osCode link netID addrs;
      mret (net ++ nets)
  end.

(** The addresses of the site subnets. *)
Fixpoint site_networks (osCode link : string) (netID : nat) (sites : list Subnet.t)
    : M (list InstanceNetwork.t * list string) :=
  match sites with
  | [] => mret ([], [])
  | site :: sites =>
      siteAddrs ← db_find (λ a, (Address.SubnetID a =? Subnet.ID site) &&
                                negb (String.eqb (Address.Address a) (Subnet.Gateway site)));
      let nets := if String.eqb osCode "linux" then
                    map (λ a, ipv4_network (before_slash (Address.Address a))
                                (Subnet.Netmask site) link netID []) siteAddrs
                  else [] in
      '(nets', more) ← site_networks osCode link netID sites;
      mret (nets ++ nets', map Address.Address siteAddrs ++ more)
  end.

(** One round of the loop: the networks to append, the new value of
    [moreAddresses], and the interface, whose name may have changed. *)
Definition interface_networks (osCode : string) (netID : nat) (iface : Interface.t)
    (more : option (list string))
    : M (list InstanceNetwork.t * option (list string) * Interface.t) :=
  address ← deref (Interface.Address iface);
  subnet ← deref (Address.Subnet address);
  let instNetwork := ipv4_network (before_slash (Address.Address address)) (Subnet.Netmask subnet)
                       (Interface.Name iface) netID in
  if Interface.PrimaryIf iface then
    _ ← (if String.eqb (Interface.Name iface) "eth0" then mret tt
         else db_update (by_id (Interface.ID iface)) (λ r, r <| Interface.Name := "eth0" |>));
    let iface := iface <| Interface.Name := "eth0" |> in
    seconds ← second_networks osCode "eth0" netID (Interface.SecondAddresses iface);
    '(sites, siteMore) ← (if Subnet.RouterID subnet =? 0 then
                            site_networks osCode "eth0" netID (Interface.SiteSubnets iface)
                          else mret ([], []));
    mret (seconds ++ sites ++
            [instNetwork [NetworkRoute.mk "0.0.0.0" "0.0.0.0"
                            (before_slash (Subnet.Gateway subnet))]],
          Some (map Address.Address (Interface.SecondAddresses iface) ++ siteMore), iface)
  else mret ([instNetwork []], more, iface).

Fixpoint networks_loop (osCode : string) (netID : nat) (ifaces : list Interface.t)
    (more : option (list string))
    : M (list InstanceNetwork.t * option (list string) * list Interface.t) :=
  match ifaces with
  | [] => mret ([], more, [])
  | iface :: ifaces =>
      '(nets, more, iface) ← interface_networks osCode netID iface more;
      '(nets', more, ifaces) ← networks_loop osCode (S netID) ifaces more;
      mret (nets ++ nets', more, iface :: ifaces)
  end.

(** [interfaces] is [instance.Interfaces].  The structs the call changes are
    returned with its results: the interfaces and the instance. *)
Definition GetInstanceNetworks (instance : Instance.t) (interfaces ifaces : list Interface.t)
    : M (list InstanceNetwork.t * option (list string) * list Interface.t * Instance.t) :=
  GetContextDB (
    '(osCode, instance) ← GetImageOSCode instance;
    let ifaces := match ifaces with [] => interfaces | _ => ifaces end in
    '(nets, more, ifaces) ← networks_loop osCode 0 ifaces None;
    mret (nets, more, ifaces, instance)).

(** ** What a hypervisor is told *)

Definition GetInterfaceInfo (instance : Instance.t) (iface : Interface.t)
    : M (VlanInfo.t * Instance.t) :=
  GetContextDB (
    groups ← related_groups (Interface.ID iface);
    let iface := iface <| Interface.SecurityGroups := groups |> in
    securityData ← GetSecurityData groups;
    '(_, moreAddresses, ifaces, instance) ← GetInstanceNetworks instance [] [iface];
    iface ← deref (head ifaces);
    address ← deref (Interface.Address iface);
    subnet ← deref (Address.Subnet address);
    mret (VlanInfo.mk (Interface.Name iface) (Subnet.Vlan subnet) (Subnet.Gateway subnet)
            (Subnet.RouterID subnet) 0 (Interface.Inbound iface) (Interface.Outbound iface)
            (Interface.AllowSpoofing iface) (Address.Address address) (Interface.MacAddr iface)
            securityData moreAddresses, instance)).

Definition newline : string := String (Ascii.ascii_of_nat 10) "".

Definition sync_nic_command (instance : Instance.t) (osCode : string) (updateMeta : bool)
    (vlanInfo : VlanInfo.t) : string :=
  "/opt/cloudland/scripts/backend/sync_nic_info.sh '" +:+ fmt_d (Instance.ID instance) +:+ "' '"
  +:+ Instance.Hostname instance +:+ "' '" +:+ osCode +:+ "' '" +:+ fmt_t updateMeta
  +:+ "'<<EOF" +:+ newline +:+ Marshal (JArr [json_vlan vlanInfo]) +:+ newline +:+ "EOF".

Definition ApplyInterface (instance : Instance.t) (iface : Interface.t) (updateMeta : bool)
    : M unit :=
  '(vlanInfo, instance) ← GetInterfaceInfo instance iface;
  '(osCode, instance) ← GetImageOSCode instance;
  HyperExecute ("inter=" +:+ fmt_d (Instance.Hyper instance))
    (sync_nic_command instance osCode updateMeta vlanInfo).

(** ** Public interfaces *)

(** The columns of a floating IP that is bound to an instance. *)
Definition bound (instanceID : Z) (address : string) (fip : FloatingIp.t) : FloatingIp.t :=
  fip <| FloatingIp.InstanceID := instanceID |> <| FloatingIp.IntAddress := address |>
      <| FloatingIp.Type_ := PublicReserved |>.

(** The interface that becomes the first one of an instance. *)
Definition promoted (instanceID : Z) (primaryMac primaryUUID : string) (iface : Interface.t)
    : Interface.t :=
  let iface := iface <| Interface.Instance := instanceID |> <| Interface.Name := "eth0" |>
                     <| Interface.PrimaryIf := true |> in
  let iface := if String.eqb primaryMac "" then iface
               else iface <| Interface.MacAddr := primaryMac |> in
  if String.eqb primaryUUID "" then iface else iface <| Interface.UUID := primaryUUID |>.

(** One round of the loop on the floating IPs. *)
Definition derive_round (instance : Instance.t) (updatePrimary : bool)
    (primaryMac primaryUUID : string) (i : nat) (fip : FloatingIp.t) (primaryIface : Interface.t)
    : M (FloatingIp.t * Interface.t) :=
  let instanceID := Instance.ID instance in
  if negb updatePrimary && (0 <? FloatingIp.InstanceID fip) then mret (fip, primaryIface)
  else
    _ ← require (negb ((0 <? FloatingIp.InstanceID fip) &&
                       negb (FloatingIp.InstanceID fip =? instanceID)))
          (GoError "Public IP is already in use");
    match i with
    | O =>
        let primaryIface := promoted instanceID primaryMac primaryUUID primaryIface in
        _ ← db_update (by_id (Interface.ID primaryIface)) (λ r, r
              <| Interface.Instance := Interface.Instance primaryIface |>
              <| Interface.Name := Interface.Name primaryIface |>
              <| Interface.PrimaryIf := Interface.PrimaryIf primaryIface |>
              <| Interface.MacAddr := Interface.MacAddr primaryIface |>
              <| Interface.UUID := Interface.UUID primaryIface |>);
        address ← deref (Interface.Address primaryIface);
        _ ← db_update (by_id (FloatingIp.ID fip))
              (λ r, bound instanceID (Address.Address address) r <| FloatingIp.RouterID := 0 |>);
        mret (bound instanceID (Address.Address address) fip, primaryIface)
    | S _ =>
        fipIface ← deref (FloatingIp.Interface fip);
        address ← deref (Interface.Address fipIface);
        let secondAddr := address <| Address.Type_ := "second" |>
                            <| Address.SecondInterface := Interface.ID primaryIface |> in
        _ ← db_update (by_pk (Address.ID secondAddr)) (λ r, r
              <| Address.SecondInterface := Interface.ID primaryIface |>
              <| Address.Type_ := "second" |>);
        let primaryIface := primaryIface <| Interface.SecondAddresses :=
              Interface.SecondAddresses primaryIface ++ [secondAddr] |> in
        _ ← db_update (by_pk (FloatingIp.ID fip))
              (λ r, bound instanceID (Address.Address secondAddr) r
                      <| FloatingIp.RouterID := 0 |>);
        mret (bound instanceID (Address.Address secondAddr) fip
                <| FloatingIp.Interface := Some (fipIface <| Interface.Address := Some secondAddr |>) |>,
              primaryIface)
    end.

Fixpoint derive_loop (instance : Instance.t) (updatePrimary : bool)
    (primaryMac primaryUUID : string) (i : nat) (fips : list FloatingIp.t)
    (primaryIface : Interface.t) : M (list FloatingIp.t * Interface.t) :=
  match fips with
  | [] => mret ([], primaryIface)
  | fip :: fips =>
      '(fip, primaryIface) ← derive_round instance updatePrimary primaryMac primaryUUID i fip
                               primaryIface;
      '(fips, primaryIface) ← derive_loop instance updatePrimary primaryMac primaryUUID (S i) fips
                                primaryIface;
      mret (fip :: fips, primaryIface)
  end.

(** Without an interface the one of the first floating IP is taken; the two are
    the same struct then, also at the end.  The floating IPs are returned as the
    call leaves them. *)
Definition DerivePublicInterface (instance : Instance.t) (iface : option Interface.t)
    (floatingIps : list FloatingIp.t) (primaryMac primaryUUID : string)
    : M (Interface.t * option Subnet.t * list FloatingIp.t) :=
  GetContextDB (
    primaryIface ← match iface with
                   | Some i => mret i
                   | None => fip ← deref (head floatingIps); deref (FloatingIp.Interface fip)
                   end;
    let updatePrimary := match iface with Some _ => false | None => true end in
    address ← deref (Interface.Address primaryIface);
    _ ← db_update (by_id (Address.ID address)) (λ r, r <| Address.SecondInterface := 0 |>);
    '(fips, primaryIface) ← derive_loop instance updatePrimary primaryMac primaryUUID 0
      floatingIps (primaryIface <| Interface.SecondAddresses := [] |>);
    let fips := match iface, fips with
                | None, fip :: fips =>
                    fip <| FloatingIp.Interface := Some primaryIface |> :: fips
                | _, _ => fips
                end in
    mret (primaryIface, Address.Subnet address, fips)).

End netinfo.

(** ** Lemmas *)

Section netinfo_lemmas.
Context {G : Gorm} {E : Env} {GOk : GormOk G}.
Implicit Types (c : Ctx) (w : World) (d : DB) (a : Address.t) (i j : Interface.t) (s : Subnet.t).

(** Loading interfaces only reads, posts nothing, does not panic and fails only
    when a statement does. *)
Lemma preload_subnets_reads l I : preserves I (preload_subnets l).
Proof. unfold preload_subnets. pres. Qed.

Lemma preload_addresses_reads l I : preserves I (preload_addresses l).
Proof. unfold preload_addresses. destruct l; pres; apply preload_subnets_reads. Qed.

Lemma preload_subnets_quiet l : quiet (preload_subnets l).
Proof. unfold preload_subnets. quiet_tac. Qed.

Lemma preload_addresses_quiet l : quiet (preload_addresses l).
Proof. unfold preload_addresses. destruct l; quiet_tac; apply preload_subnets_quiet. Qed.

Lemma preload_subnets_np l : no_panic (preload_subnets l).
Proof. unfold preload_subnets. np. Qed.

Lemma preload_addresses_np l : no_panic (preload_addresses l).
Proof. unfold preload_addresses. destruct l; np; apply preload_subnets_np. Qed.

Lemma preload_addresses_ne l : no_faults → never_err (preload_addresses l).
Proof. intros Hn. unfold preload_addresses, preload_subnets. destruct l; ne_tac. Qed.

(** Every address is in a subnet. *)
Definition addresses_ok d : Prop :=
  ∀ k a, ads d !! k = Some a → is_Some (rows (subnets d) !! Address.SubnetID a).

(** The address row [a0] as it is loaded. *)
Definition loaded_address d a0 a : Prop :=
  ads d !! Address.ID a0 = Some a0 ∧
  ∃ s, rows (subnets d) !! Address.SubnetID a0 = Some s ∧ a = a0 <| Address.Subnet := Some s |>.

Lemma preload_subnets_Ok l c w l' w' :
  addresses_ok (db w) →
  (∀ a, a ∈ l → ads (db w) !! Address.ID a = Some a) →
  preload_subnets l c w = (Ok l', w') →
  Forall2 (loaded_address (db w)) l l'.
Proof.
  intros Hok Hl. unfold preload_subnets. destruct (existsb _ l) eqn:Hex; intros H; go_ok.
  - rewrite <- (map_id l) at 1. apply Forall2_fmap, Forall_Forall2_diag, Forall_forall.
    intros a Ha. split; [by apply Hl|]. destruct (Hok _ _ (Hl _ Ha)) as [s Hs].
    exists s. split; [done|]. destruct (List.find _ _) as [s'|] eqn:Hf.
    + apply List.find_some in Hf as [Hin Hk]. apply Z.eqb_eq in Hk.
      apply list_elem_of_In, find_spec in Hin as [_ Hr]. tables.
      change (get_id s') with (Subnet.ID s') in Hr. rewrite Hk in Hr. by simplify_eq.
    + exfalso. pose proof (rows_id _ _ _ Hs) as Hid. simpl in Hid.
      assert (In s (g_find (λ s, existsb (λ a, Subnet.ID s =? Address.SubnetID a) l)
                      (subnets (db w)))) as Hin.
      { apply list_elem_of_In. eapply find_lookup; [done|]. apply existsb_exists.
        exists a. split; [by apply list_elem_of_In|]. by rewrite Hid, Z.eqb_refl. }
      pose proof (List.find_none _ _ Hf s Hin) as Hn. simpl in Hn.
      by rewrite Hid, Z.eqb_refl in Hn.
  - apply Forall_Forall2_diag, Forall_forall. intros a Ha. exfalso.
    destruct (Hok _ _ (Hl _ Ha)) as [s Hs]. apply rows_pos in Hs.
    apply not_true_iff_false in Hex. apply Hex, existsb_exists. exists a.
    split; [by apply list_elem_of_In|]. apply negb_true_iff, Z.eqb_neq. lia.
Qed.

(** The interface row [i] as it is loaded. *)
Record loads d i j : Prop := {
  loads_row : j = i <| Interface.Address := Interface.Address j |>
                    <| Interface.SecondAddresses := Interface.SecondAddresses j |>
                    <| Interface.SiteSubnets := Interface.SiteSubnets j |>;
  loads_address a : Interface.Address j = Some a →
    ∃ a0, Address.Interface a0 = Interface.ID i ∧ loaded_address d a0 a;
  loads_has a0 : ads d !! Address.ID a0 = Some a0 → Address.Interface a0 = Interface.ID i →
    is_Some (Interface.Address j);
  loads_seconds a : a ∈ Interface.SecondAddresses j →
    ∃ a0, Address.SecondInterface a0 = Interface.ID i ∧ loaded_address d a0 a
}.

Lemma filter_last_elem {A} (p : A → bool) (l : list A) x :
  last (List.filter p l) = Some x → x ∈ l ∧ p x = true.
Proof.
  intros [l' Hl]%last_Some. assert (x ∈ List.filter p l) as Hx.
  { rewrite Hl. apply elem_of_app. right. apply list_elem_of_here. }
  apply elem_of_filter_bool in Hx. tauto.
Qed.

Lemma filter_last_some {A} (p : A → bool) (l : list A) x :
  x ∈ l → p x = true → is_Some (last (List.filter p l)).
Proof.
  intros Hx Hp. apply last_is_Some. intros Hnil.
  assert (x ∈ List.filter p l) as Hin by (by apply elem_of_filter_bool).
  rewrite Hnil in Hin. by apply elem_of_nil in Hin.
Qed.

Lemma preload_addresses_Ok l c w l' w' :
  addresses_ok (db w) → preload_addresses l c w = (Ok l', w') →
  Forall2 (loads (db w)) l l'.
Proof.
  intros Hok. unfold preload_addresses. destruct l as [|i0 l0]; [by intros [<- _]%ret_Ok|].
  set (l := i0 :: l0). intros H.
  repeat match type of H with (mbind _ _) _ _ = _ => apply bind_Ok in H as (? & ? & ? & H) end.
  match goal with
  | H1 : db_find _ _ w = (Ok ?x, ?w1), H2 : preload_subnets ?x _ ?w1 = (Ok ?y, ?w2),
    H3 : db_find _ _ ?w2 = (Ok ?z, ?w3), H4 : preload_subnets ?z _ ?w3 = (Ok ?u, ?w4) |- _ =>
      pose proof (reads_run _ _ _ _ _ (reads_preserves _ (λ _, preload_subnets_reads x _)) H2) as Hd2;
      apply db_find_Ok in H1 as (Hx & Hd1 & _); apply db_find_Ok in H3 as (Hz & Hd3 & _);
      rewrite Hd2, Hd1 in Hd3, Hz; rename H2 into Ha; rename H4 into Hb
  end.
  assert (∀ (p : Address.t → bool) a, a ∈ g_find p (tbl (db w)) →
            ads (db w) !! Address.ID a = Some a) as Hrows by (by intros p a [_ ?]%find_spec).
  apply preload_subnets_Ok in Ha; [|by rewrite Hd1|rewrite Hd1, Hx; apply Hrows].
  apply preload_subnets_Ok in Hb; [|by rewrite Hd3|rewrite Hd3, Hz; apply Hrows].
  rewrite Hd1 in Ha. rewrite Hd3 in Hb. go_ok. clear Hrows.
  rewrite <- (map_id l) at 1. apply Forall2_fmap, Forall_Forall2_diag, Forall_forall.
  intros i Hi. split; simpl.
  - by destruct i.
  - intros a [Hin Hk]%filter_last_elem. apply Z.eqb_eq in Hk.
    apply list_elem_of_lookup in Hin as [n Hn].
    destruct (Forall2_lookup_r _ _ _ _ _ Ha Hn) as (a0 & _ & Hr & s & Hs & ->).
    exists a0. simpl in Hk. split; [done|]. split; [done|]. by exists s.
  - intros a0 Hr Hk.
    assert (a0 ∈ g_find (λ a, existsb (λ i, Address.Interface a =? Interface.ID i) l)
              (tbl (db w))) as Hin.
    { apply find_spec. split; [|done]. apply existsb_exists. exists i.
      split; [by apply list_elem_of_In|by apply Z.eqb_eq]. }
    apply list_elem_of_lookup in Hin as [n Hn].
    destruct (Forall2_lookup_l _ _ _ _ _ Ha Hn) as (a & Hn' & _ & s & _ & ->).
    eapply filter_last_some; [by eapply list_elem_of_lookup_2|]. simpl. by apply Z.eqb_eq.
  - intros a [Hk Hin]%elem_of_filter_bool. apply Z.eqb_eq in Hk.
    apply list_elem_of_lookup in Hin as [n Hn].
    destruct (Forall2_lookup_r _ _ _ _ _ Hb Hn) as (a0 & _ & Hr & s & Hs & ->).
    exists a0. simpl in Hk. split; [done|]. split; [done|]. by exists s.
Qed.

(** *** What the call writes: the name of a primary interface *)

Definition nameless i : Interface.t := i <| Interface.Name := "" |>.

Definition renames d d' : Prop :=
  d' = d <| interfaces := interfaces d' |> ∧
  ∀ k, nameless <$> ifs d' !! k = nameless <$> ifs d !! k.

Lemma renames_refl d : renames d d.
Proof. by split; [destruct d|]. Qed.

Lemma renames_row d d' k i :
  renames d d' → ifs d !! k = Some i → ∃ i', ifs d' !! k = Some i' ∧ nameless i' = nameless i.
Proof.
  intros [_ H] Hi. specialize (H k). rewrite Hi in H. simpl in H.
  destruct (ifs d' !! k) as [i'|]; [|done]. apply (inj Some) in H. by exists i'.
Qed.

Lemma rename_update d0 p :
  preserves (renames d0) (db_update p (λ r, r <| Interface.Name := "eth0" |>)).
Proof.
  apply pres_db_update. intros d [Hd Hk]. split; [by rewrite Hd|]. intros k. rewrite <- Hk.
  unfold ifs. simpl. rewrite update_lookup by (by intros []).
  destruct (rows (interfaces d) !! k) as [x|]; [|done]. simpl. by destruct (p x), x.
Qed.

Lemma GetImageOSCode_reads v I : preserves I (GetImageOSCode v).
Proof. unfold GetImageOSCode. pres. Qed.

Lemma second_networks_reads os l n seconds I : preserves I (second_networks os l n seconds).
Proof. induction seconds; simpl; pres. Qed.

Lemma site_networks_reads os l n sites I : preserves I (site_networks os l n sites).
Proof. induction sites; simpl; pres. Qed.

Lemma interface_networks_renames d0 os n i more :
  preserves (renames d0) (interface_networks os n i more).
Proof.
  unfold interface_networks. pres; first [apply rename_update|apply second_networks_reads
    |apply site_networks_reads].
Qed.

Lemma networks_loop_renames d0 os n l more : preserves (renames d0) (networks_loop os n l more).
Proof.
  revert n more. induction l; intros; simpl; pres; first [apply interface_networks_renames|auto].
Qed.

Lemma GetSecurityData_reads sgs I : preserves I (GetSecurityData sgs).
Proof.
  unfold GetSecurityData, GetSecurityRules. pres. generalize (@nil SecurityRule.t).
  induction sgs; intros; simpl; pres.
Qed.

Lemma security_rules_quiet sgs l : quiet (security_rules sgs l).
Proof.
  revert l. induction sgs; intros; simpl; [apply quiet_ret|].
  apply quiet_bind; [apply quiet_stmt|done].
Qed.

Lemma GetInstanceNetworks_renames d0 v il l : preserves (renames d0) (GetInstanceNetworks v il l).
Proof.
  unfold GetInstanceNetworks. pres; [apply GetImageOSCode_reads|apply networks_loop_renames].
Qed.

Lemma GetInterfaceInfo_renames d0 v i : preserves (renames d0) (GetInterfaceInfo v i).
Proof.
  unfold GetInterfaceInfo, related_groups. pres; [apply GetSecurityData_reads
    |apply GetInstanceNetworks_renames].
Qed.

Lemma ApplyInterface_renames d0 v i b : preserves (renames d0) (ApplyInterface v i b).
Proof.
  unfold ApplyInterface. pres; [apply GetInterfaceInfo_renames|apply GetImageOSCode_reads].
Qed.

(** *** What a hypervisor is told *)

(** The rules of the groups of an interface. *)
Definition security_of (ifaceID : Z) d : list SecurityData :=
  map security_data (concat (map (λ sg, g_find (λ r, SecurityRule.Secgroup r =? SecurityGroup.ID sg)
                                          (secrules d)) (groups_of ifaceID d))).

(** The addresses of a primary interface but the first one. *)
Definition site_addresses (sites : list Subnet.t) d : list string :=
  concat (map (λ site, map Address.Address
    (g_find (λ a, (Address.SubnetID a =? Subnet.ID site) &&
                  negb (String.eqb (Address.Address a) (Subnet.Gateway site))) (addresses d))) sites).

Definition more_of i s d : option (list string) :=
  if Interface.PrimaryIf i then
    Some (map Address.Address (Interface.SecondAddresses i) ++
          (if Subnet.RouterID s =? 0 then site_addresses (Interface.SiteSubnets i) d else []))
  else None.

Definition vlan_of i a s d : VlanInfo.t :=
  VlanInfo.mk (if Interface.PrimaryIf i then "eth0" else Interface.Name i) (Subnet.Vlan s)
    (Subnet.Gateway s) (Subnet.RouterID s) 0 (Interface.Inbound i) (Interface.Outbound i)
    (Interface.AllowSpoofing i) (Address.Address a) (Interface.MacAddr i)
    (security_of (Interface.ID i) d) (more_of i s d).

Lemma site_networks_Ok os l n sites c w nets more w' :
  site_networks os l n sites c w = (Ok (nets, more), w') →
  more = site_addresses sites (db w) ∧ db w' = db w ∧ sent w' = sent w.
Proof.
  revert nets more w w'. induction sites as [|s sites IH]; intros nets more w w'; simpl.
  - intros H. by go_ok.
  - intros (l1 & w1 & (-> & Hd & Hs)%db_find_Ok & H)%bind_Ok.
    apply bind_Ok in H as ([nets1 more1] & w2 & (-> & Hd2 & Hs2)%IH & H).
    go_ok. rewrite Hd2, Hs2, Hd, Hs. done.
Qed.

Lemma second_networks_same os l n seconds c w nets w' :
  second_networks os l n seconds c w = (Ok nets, w') → db w' = db w ∧ sent w' = sent w.
Proof.
  intros H. split.
  - apply (reads_run _ _ _ _ _ (reads_preserves _ (λ _, second_networks_reads _ _ _ _ _)) H).
  - refine (quiet_run _ _ _ _ _ _ H). clear. induction seconds; simpl; quiet_tac.
Qed.

Lemma interface_networks_Ok os n i more c w nets more' i' w' :
  interface_networks os n i more c w = (Ok (nets, more', i'), w') →
  sent w' = sent w ∧ ∃ a s,
    Interface.Address i = Some a ∧ Address.Subnet a = Some s ∧
    i' = i <| Interface.Name := if Interface.PrimaryIf i then "eth0" else Interface.Name i |> ∧
    more' = if Interface.PrimaryIf i then more_of i s (db w) else more.
Proof.
  unfold interface_networks, more_of. intros H.
  apply bind_Ok in H as (a & w1 & [Ha <-]%deref_Ok & H).
  apply bind_Ok in H as (s & w1 & [Hs <-]%deref_Ok & H).
  destruct (Interface.PrimaryIf i); [|go_ok; split; [done|]; exists a, s; split_and!; try done; by destruct i'].
  apply bind_Ok in H as (u & w1 & H1 & H).
  assert (addresses (db w1) = addresses (db w) ∧ sent w1 = sent w) as [Had Hs1].
  { destruct (String.eqb _ _); go_ok; flat; done. }
  apply bind_Ok in H as (nets2 & w2 & [Hd2 Hs2]%second_networks_same & H).
  apply bind_Ok in H as ([nets3 more3] & w3 & H3 & H).
  assert (more3 = (if Subnet.RouterID s =? 0 then site_addresses (Interface.SiteSubnets i) (db w)
                   else []) ∧ sent w3 = sent w2) as [-> Hs3].
  { destruct (Subnet.RouterID s =? 0); [|by go_ok].
    apply site_networks_Ok in H3 as (-> & _ & ?). split; [|done].
    unfold site_addresses. by rewrite Hd2, Had. }
  go_ok. split; [congruence|]. by exists a, s.
Qed.

Lemma GetImageOSCode_Ok v c w os v' w' :
  GetImageOSCode v c w = (Ok (os, v'), w') →
  db w' = db w ∧ sent w' = sent w ∧ v' = v <| Instance.Image := Instance.Image v' |>.
Proof.
  intros H. split; [|split].
  - apply (reads_run _ _ _ _ _ (reads_preserves _ (λ _, GetImageOSCode_reads _ _)) H).
  - refine (quiet_run _ _ _ _ _ _ H). clear. unfold GetImageOSCode. quiet_tac.
  - unfold GetImageOSCode in H. destruct (Instance.Image v) eqn:Hi.
    + apply ret_Ok in H as [H _]. simplify_eq. destruct v'; simpl in *; by subst.
    + rewrite GetContextDB_eq in H. apply bind_Ok in H as ([x|e] & w1 & _ & H); go_ok; by destruct v.
Qed.

(** The networks of one interface. *)
Lemma GetInstanceNetworks_one v i c w nets more il v' w' :
  GetInstanceNetworks v [] [i] c w = (Ok (nets, more, il, v'), w') →
  sent w' = sent w ∧ v' = v <| Instance.Image := Instance.Image v' |> ∧ ∃ a s,
    Interface.Address i = Some a ∧ Address.Subnet a = Some s ∧
    il = [i <| Interface.Name := if Interface.PrimaryIf i then "eth0" else Interface.Name i |>] ∧
    more = more_of i s (db w).
Proof.
  unfold GetInstanceNetworks. rewrite GetContextDB_eq. cbn [networks_loop].
  intros ([os v1] & w1 & (Hd & Hs & Hv)%GetImageOSCode_Ok & H)%bind_Ok.
  apply bind_Ok in H as ([[nets1 more1] il1] & w2 & H2 & [H <-]%ret_Ok).
  apply bind_Ok in H2 as ([[nets2 more2] i2] & w3 & (Hs3 & a & s & Ha & Hsub & -> & ->)
    %interface_networks_Ok & H2).
  apply bind_Ok in H2 as ([[nets4 more4] il4] & w4 & [H4 ->]%ret_Ok & [H2 ->]%ret_Ok).
  simplify_eq. split_and!; [congruence|done|]. exists a, s. split_and!; [done..|].
  unfold more_of. rewrite Hd. by destruct (Interface.PrimaryIf i).
  Unshelve. all: exact c.
Qed.

Lemma GetInterfaceInfo_Ok v i c w info v' w' :
  GetInterfaceInfo v i c w = (Ok (info, v'), w') →
  sent w' = sent w ∧ v' = v <| Instance.Image := Instance.Image v' |> ∧ ∃ a s,
    Interface.Address i = Some a ∧ Address.Subnet a = Some s ∧ info = vlan_of i a s (db w).
Proof.
  unfold GetInterfaceInfo, GetSecurityData, GetSecurityRules. rewrite GetContextDB_eq.
  intros (gs & w2 & (-> & Hd2 & Hs2)%db_query_Ok & H)%bind_Ok.
  apply bind_Ok in H as (sd & w3 & H3 & H).
  apply bind_Ok in H3 as (rs & w3' & Hr & [<- <-]%ret_Ok).
  assert (sent w3' = sent w2) as Hs3.
  { refine (quiet_run _ _ _ _ _ _ Hr). apply quiet_GetContextDB, security_rules_quiet. }
  rewrite GetContextDB_eq in Hr. apply security_rules_Ok in Hr as [Hd3 ->].
  apply bind_Ok in H as ([[[nets more] il] v2] & w4 & (Hs4 & Hv & a & s & Ha & Hs & -> & ->)
    %GetInstanceNetworks_one & H).
  apply bind_Ok in H as (i1 & w5 & [Hi <-]%deref_Ok & H).
  apply bind_Ok in H as (a1 & w5 & [Ha1 <-]%deref_Ok & H).
  apply bind_Ok in H as (s1 & w5 & [Hs1 <-]%deref_Ok & [H <-]%ret_Ok). simpl in Hi, Ha.
  injection Hi as <-. simpl in Ha1. rewrite Ha in Ha1. injection Ha1 as <-.
  rewrite Hs in Hs1. injection Hs1 as <-. injection H as <- <-.
  split_and!; [congruence|done|]. exists a, s. split_and!; [done..|].
  unfold vlan_of, security_of, more_of. by rewrite Hd3, Hd2.
  Unshelve. all: exact c.
Qed.

(** A successful [ApplyInterface] posts one command, with the data of the
    interface and all rules of its groups. *)
Lemma ApplyInterface_Ok v i b c w u w' :
  ApplyInterface v i b c w = (Ok u, w') →
  ∃ a s v' os, Interface.Address i = Some a ∧ Address.Subnet a = Some s ∧
    v' = v <| Instance.Image := Instance.Image v' |> ∧
    sent w' = sent w ++ [("inter=" +:+ fmt_d (Instance.Hyper v),
                          sync_nic_command v' os b (vlan_of i a s (db w)))].
Proof.
  unfold ApplyInterface.
  intros ([info v1] & w1 & (Hs1 & Hv1 & a & s & Ha & Hs & ->)%GetInterfaceInfo_Ok & H)%bind_Ok.
  apply bind_Ok in H as ([os v2] & w2 & (Hd2 & Hs2 & Hv2)%GetImageOSCode_Ok & H).
  apply HyperExecute_Ok in H as (_ & Hsent & _).
  assert (v2 = v <| Instance.Image := Instance.Image v2 |>) as Hv.
  { rewrite Hv2 at 1. by rewrite Hv1 at 1. }
  exists a, s, v2, os. split_and!; [done..|]. rewrite Hsent, Hs2, Hs1. rewrite Hv at 1. done.
Qed.

Lemma groups_of_row k d i :
  ifs d !! k = Some i →
  groups_of k d = g_find (λ sg, in_group (SecurityGroup.ID sg) i) (secgroups d).
Proof.
  intros Hi. unfold groups_of. destruct (g_take (by_id k) (interfaces d)) as [x|] eqn:Hx.
  - apply take_some in Hx as [Hk Hx]. unfold by_id in Hk. apply Z.eqb_eq in Hk.
    unfold ifs in Hi. rewrite Hk in Hx. by simplify_eq.
  - eapply take_none in Hx; [|done]. unfold by_id in Hx.
    by rewrite (rows_id _ _ _ Hi), Z.eqb_refl in Hx.
Qed.

(** The rules of an interface are those of its groups. *)
Lemma security_of_spec k d i x :
  ifs d !! k = Some i →
  x ∈ security_of k d ↔
  ∃ sg r, rows (secgroups d) !! SecurityGroup.ID sg = Some sg ∧
    in_group (SecurityGroup.ID sg) i = true ∧
    rows (secrules d) !! SecurityRule.ID r = Some r ∧
    SecurityRule.Secgroup r = SecurityGroup.ID sg ∧ x = security_data r.
Proof.
  intros Hi. unfold security_of. rewrite (groups_of_row _ _ _ Hi), list_elem_of_fmap.
  setoid_rewrite list_elem_of_In. setoid_rewrite in_concat. setoid_rewrite in_map_iff. split.
  - intros (r & -> & part & (sg & <- & Hsg) & Hr). apply list_elem_of_In in Hsg, Hr.
    apply find_spec in Hsg as [Hg Hsg]. apply find_spec in Hr as [Hk Hr]. apply Z.eqb_eq in Hk.
    by exists sg, r.
  - intros (sg & r & Hsg & Hin & Hr & Hk & ->). exists r. split; [done|].
    eexists. split; [exists sg; split; [done|]|]; apply list_elem_of_In, find_spec.
    + done.
    + split; [by apply Z.eqb_eq|done].
Qed.

(** *** When the call succeeds *)

Definition all_posted : Prop := ∀ n, post_result n = PostOk.

Lemma ne_HyperExecute control command : all_posted → never_err (HyperExecute control command).
Proof. intros Hp c w e w'. unfold HyperExecute. by rewrite Hp. Qed.

Lemma GetImageOSCode_ne v : no_faults → never_err (GetImageOSCode v).
Proof. intros Hn. unfold GetImageOSCode, GetContextDB. destruct (Instance.Image v); [ne_tac|].
  intros c w e w' [H|([]&w1&_&H)]%bind_Err; [by apply try_Err in H|done|done].
Qed.

Lemma second_networks_ne os l n seconds : never_err (second_networks os l n seconds).
Proof. induction seconds; simpl; ne_tac. done. Qed.

Lemma site_networks_ne os l n sites : no_faults → never_err (site_networks os l n sites).
Proof. intros Hn. induction sites; simpl; ne_tac. done. Qed.

Lemma interface_networks_ne os n i more : no_faults → never_err (interface_networks os n i more).
Proof.
  intros Hn. unfold interface_networks. ne_tac; [apply second_networks_ne..|];
    by apply site_networks_ne.
Qed.

Lemma security_rules_ne sgs l : no_faults → never_err (security_rules sgs l).
Proof. intros Hn. revert l. induction sgs; intros; simpl; ne_tac. done. Qed.

Lemma ApplyInterface_ne v i b : no_faults → all_posted → never_err (ApplyInterface v i b).
Proof.
  intros Hn Hp. unfold ApplyInterface, GetInterfaceInfo, GetInstanceNetworks, GetSecurityData,
    GetSecurityRules, related_groups. cbn [networks_loop].
  ne_tac; auto using ne_HyperExecute, GetImageOSCode_ne, interface_networks_ne, security_rules_ne.
Qed.

(** The pointers [ApplyInterface] follows. *)
Definition followed i : Prop :=
  (∃ a s, Interface.Address i = Some a ∧ Address.Subnet a = Some s) ∧
  ∀ a, a ∈ Interface.SecondAddresses i → is_Some (Address.Subnet a).

Lemma loads_followed d i j a0 :
  loads d i j → ads d !! Address.ID a0 = Some a0 → Address.Interface a0 = Interface.ID i →
  followed j.
Proof.
  intros Hl Ha Hi. split.
  - destruct (loads_has _ _ _ Hl _ Ha Hi) as [a Hj].
    destruct (loads_address _ _ _ Hl _ Hj) as (a1 & _ & _ & s & _ & ->).
    by exists (a1 <| Address.Subnet := Some s |>), s.
  - intros a Hj. destruct (loads_seconds _ _ _ Hl _ Hj) as (a1 & _ & _ & s & _ & ->). by exists s.
Qed.

Lemma loads_followed' d i j a : loads d i j → Interface.Address j = Some a → followed j.
Proof.
  intros Hl Hj. destruct (loads_address _ _ _ Hl _ Hj) as (a0 & Hi & Hr & _).
  by eapply loads_followed.
Qed.

Lemma second_networks_np os l n seconds :
  (∀ a, a ∈ seconds → is_Some (Address.Subnet a)) → no_panic (second_networks os l n seconds).
Proof.
  induction seconds as [|a l' IH]; intros Hs; simpl; np.
  - destruct (Hs a) as [s ->]; [apply list_elem_of_here|done].
  - apply IH. intros. apply Hs. by apply list_elem_of_further.
Qed.

Lemma site_networks_np os l n sites : no_panic (site_networks os l n sites).
Proof. induction sites; simpl; np. Qed.

Lemma interface_networks_np os n i more :
  followed i → no_panic (interface_networks os n i more).
Proof.
  intros [(a & s & Ha & Hs) H2]. unfold interface_networks.
  apply (np_deref_Some _ _ a); [done|]. apply (np_deref_Some _ _ s); [done|].
  np; auto using second_networks_np, site_networks_np.
Qed.

Lemma security_rules_np sgs l : no_panic (security_rules sgs l).
Proof. revert l. induction sgs; intros; simpl; np. Qed.

Lemma GetImageOSCode_np v : no_panic (GetImageOSCode v).
Proof. unfold GetImageOSCode. destruct (Instance.Image v); np. Qed.

Lemma ApplyInterface_np v i b : followed i → no_panic (ApplyInterface v i b).
Proof.
  intros Hi. unfold ApplyInterface. np; [|apply GetImageOSCode_np].
  apply np_GetContextDB, np_bind; [apply np_stmt|]. intros gs.
  apply np_bind; [unfold GetSecurityData, GetSecurityRules; np; apply security_rules_np|].
  intros sd c w Hp. unfold mbind at 1, M_bind at 1 in Hp.
  destruct (GetInstanceNetworks v [] _ c w) as [[[[[nets more] il] v2]|e|] w1] eqn:H; [|done|].
  - apply GetInstanceNetworks_one in H as (_ & _ & a & s & Ha & Hs & -> & _).
    unfold mbind, M_bind in Hp. simpl in *. rewrite Ha in Hp. simpl in Hp. by rewrite Hs in Hp.
  - refine (np_refute _ _ _ _ _ H). unfold GetInstanceNetworks. cbn [networks_loop].
    np; [apply GetImageOSCode_np|by apply interface_networks_np].
Qed.

Lemma interface_networks_quiet os n i more : quiet (interface_networks os n i more).
Proof.
  unfold interface_networks. quiet_tac;
    repeat match goal with |- quiet (second_networks _ _ _ ?l) => induction l; simpl; quiet_tac
           | |- quiet (site_networks _ _ _ ?l) => induction l; simpl; quiet_tac end.
Qed.

Lemma GetImageOSCode_quiet v : quiet (GetImageOSCode v).
Proof. unfold GetImageOSCode. quiet_tac. Qed.

Lemma GetInterfaceInfo_quiet v i : quiet (GetInterfaceInfo v i).
Proof.
  unfold GetInterfaceInfo, GetSecurityData, GetSecurityRules, GetInstanceNetworks, related_groups.
  cbn [networks_loop].
  quiet_tac; auto using interface_networks_quiet, security_rules_quiet, GetImageOSCode_quiet.
Qed.

Lemma ApplyInterface_grows v i b : grows (ApplyInterface v i b).
Proof.
  unfold ApplyInterface. apply grows_bind; [apply grows_quiet, GetInterfaceInfo_quiet|].
  intros [info v1]. apply grows_bind; [apply grows_quiet, GetImageOSCode_quiet|].
  intros [os v2]. apply grows_HyperExecute.
Qed.

End netinfo_lemmas.
