(* ===== verification/Secgroup.v ===== *)
(** * Secgroup: security groups and rules (routes/secgroup.go, routes/secrule.go)

    A security group owns rules; an interface is in security groups.  A change of
    the rules of a group is sent to the hypervisors of the instances that have an
    interface in it ([ApplySecgroup]).  Each router, and each organization for
    what has no router, has a default group.

    The rules of a group are made by [SecruleAdmin_Create], also the default ones
    of a new group. *)

From S2P Require Import Prelude GoLib Json ErrorCodes Gorm Model Store Scenario Member Catalog Volume Admin Ipam NetInfo.

Definition SystemDefaultSGName := "system-default".

(** [BaseReference] (common/http.go) *)
Module BaseReference.
Record BaseReference_t := mk { ID : string; Name : string }.
Abbreviation t := BaseReference_t.
End BaseReference.

Section secgroup.
Context {G : Gorm} {E : Env}.

(** [OrgAdmin.Get] (routes/org.go) *)
Definition OrgAdmin_Get (id : Z) : M Organization.t :=
  if id <=? 0 then
    fail (NewCLError ErrInvalidParameter ("Invalid org ID: " +:+ fmt_d id) None)
  else GetContextDB (
    wrap ErrOrgNotFound "Failed to find organization" (db_get (R := Organization.t) id)).

(** ** Interfaces of a group *)

Definition SecgroupAdmin_GetSecgroupInterfaces (secgroup : SecurityGroup.t)
    : M (list Interface.t) :=
  GetContextDB (
    wrap ErrSecurityGroupNotFound "Failed to find security group" (
      ifaces ← db_find (λ i, in_group (SecurityGroup.ID secgroup) i && (0 <? Interface.Instance i));
      preload_addresses ifaces)).

(** The body of the loop of [ApplySecgroup]: an instance that is gone, and a
    command that cannot be sent, are skipped. *)
Definition apply_iface (iface : Interface.t) : M unit :=
  if 0 <? Interface.Instance iface then
    r ← try (db_get (R := Instance.t) (Interface.Instance iface));
    match r with
    | inl instance =>
        match Interface.Address iface with
        | Some _ => _ ← try (ApplyInterface instance iface false); mret tt
        | None => mret tt
        end
    | inr _ => mret tt
    end
  else mret tt.

Definition SecruleAdmin_ApplySecgroup (secgroup : SecurityGroup.t) : M unit :=
  GetContextDB (
    ifaces ← SecgroupAdmin_GetSecgroupInterfaces secgroup;
    for_each ifaces apply_iface).

(** ** Rules *)

(** [db.Where(&model.SecurityRule{..})]: a blank field is no condition. *)
Definition same_rule (secgroupID : Z) (remoteIp direction protocol : string) (portMin portMax : Z)
    (r : SecurityRule.t) : bool :=
  let str x y := String.eqb x "" || String.eqb y x in
  let num x y := (x =? 0) || (y =? x) in
  num secgroupID (SecurityRule.Secgroup r) && str remoteIp (SecurityRule.RemoteIp r) &&
  str direction (SecurityRule.Direction r) && String.eqb (SecurityRule.IpVersion r) "ipv4" &&
  str protocol (SecurityRule.Protocol r) && num portMin (SecurityRule.PortMin r) &&
  num portMax (SecurityRule.PortMax r).

Definition SecruleAdmin_GetRule (remoteIp direction protocol : string) (portMin portMax : Z)
    (secgroup : SecurityGroup.t) : M SecurityRule.t :=
  m ← GetMemberShip;
  _ ← require (ValidateOwner m Reader (SecurityGroup.Owner secgroup)) NotAuthorized;
  with_tx (
    wrap ErrSecurityRuleNotFound "Failed to find security rule"
      (db_take (same_rule (SecurityGroup.ID secgroup) remoteIp direction protocol portMin portMax))).

(** The struct a rule is inserted from: ICMP has no ports. *)
Definition rule_model (m : MemberShip.t) (name remoteIp direction protocol : string)
    (portMin portMax : Z) (secgroup : SecurityGroup.t) : SecurityRule.t :=
  let icmp := String.eqb protocol "icmp" in
  SecurityRule.zero
    <| SecurityRule.Creater := MemberShip.UserID m |> <| SecurityRule.Owner := MemberShip.OrgID m |>
    <| SecurityRule.Secgroup := SecurityGroup.ID secgroup |> <| SecurityRule.RemoteIp := remoteIp |>
    <| SecurityRule.Direction := direction |> <| SecurityRule.IpVersion := "ipv4" |>
    <| SecurityRule.Protocol := protocol |>
    <| SecurityRule.PortMin := if icmp then -1 else portMin |>
    <| SecurityRule.PortMax := if icmp then -1 else portMax |> <| SecurityRule.Name := name |>.

(** [None] is the nil pointer: the rule exists already, which is no error. *)
Definition SecruleAdmin_Create (name remoteIp direction protocol : string) (portMin portMax : Z)
    (secgroup : SecurityGroup.t) : M (option SecurityRule.t) :=
  m ← GetMemberShip;
  _ ← require (ValidateOwner m Writer (SecurityGroup.Owner secgroup)) NotAuthorized;
  with_tx (
    r ← try (SecruleAdmin_GetRule remoteIp direction protocol portMin portMax secgroup);
    match r with
    | inl _ => mret None
    | inr _ =>
        secrule ← wrap ErrSecurityRuleCreateFailed "Failed to create security rule"
          (db_create (rule_model m name remoteIp direction protocol portMin portMax secgroup));
        _ ← SecruleAdmin_ApplySecgroup secgroup;
        mret (Some secrule)
    end).

(** The ports [Update] sets, [None] for an error. *)
Definition update_ports (portMin portMax : Z) (secrule : SecurityRule.t)
    : SecurityRule.t + error :=
  let invalid msg := inr (NewCLError ErrInvalidParameter msg None) in
  if portMin <=? portMax then
    if (0 <? portMin) && (portMin <? 65536) then
      let secrule := secrule <| SecurityRule.PortMin := int32 portMin |> in
      if (0 <? portMax) && (portMax <? 65536) then
        inl (secrule <| SecurityRule.PortMax := int32 portMax |>)
      else if 65535 <? portMax then invalid "Invalid PortMax"
      else inl (secrule <| SecurityRule.PortMax := -1 |>)
    else if (portMin <? -1) || (portMin =? 0) then invalid "Invalid PortMin"
    else if 65535 <? portMin then invalid "Invalid PortMin"
    else inl (secrule <| SecurityRule.PortMin := -1 |>)
  else invalid "PortMax should be greater than PortMin".

Definition SecruleAdmin_Update (id : Z) (name remoteIp direction protocol : string)
    (portMin portMax : Z) : M SecurityRule.t :=
  GetContextDB (
    secrule ← wrap ErrSecurityRuleNotFound "Failed to find security rule"
                (db_get (R := SecurityRule.t) id);
    secrule ← (if String.eqb remoteIp "" then mret secrule
               else
                 netLen ← deref (Split remoteIp "/" !! 1%nat);
                 let n := Atoi_value netLen in
                 _ ← require (negb ((n <? 0) || (32 <? n)))
                       (GoError "Invalid Netmask for RemoteIp, please fill a valid one");
                 mret (secrule <| SecurityRule.RemoteIp := remoteIp |>));
    let keep new old := if String.eqb new "" then old else new in
    let secrule := secrule
      <| SecurityRule.Direction := keep direction (SecurityRule.Direction secrule) |>
      <| SecurityRule.Protocol := keep protocol (SecurityRule.Protocol secrule) |>
      <| SecurityRule.Name := keep name (SecurityRule.Name secrule) |> in
    match update_ports portMin portMax secrule with
    | inr e => fail e
    | inl secrule =>
        _ ← wrap ErrSecurityRuleUpdateFailed "Failed to update security rule"
              (db_update (by_id (SecurityRule.ID secrule)) (λ r, r
                 <| SecurityRule.RemoteIp := SecurityRule.RemoteIp secrule |>
                 <| SecurityRule.Direction := SecurityRule.Direction secrule |>
                 <| SecurityRule.Protocol := SecurityRule.Protocol secrule |>
                 <| SecurityRule.Name := SecurityRule.Name secrule |>
                 <| SecurityRule.PortMin := SecurityRule.PortMin secrule |>
                 <| SecurityRule.PortMax := SecurityRule.PortMax secrule |>));
        mret secrule
    end).

Definition SecruleAdmin_Delete (secrule : SecurityRule.t) (secgroup : SecurityGroup.t) : M unit :=
  with_tx (
    m ← GetMemberShip;
    _ ← require (ValidateOwner m Writer (SecurityRule.Owner secrule)) NotAuthorized;
    _ ← wrap ErrSecurityRuleDeleteFailed "Failed to delete security rule"
          (db_delete (R := SecurityRule.t) (by_pk (SecurityRule.ID secrule)));
    SecruleAdmin_ApplySecgroup secgroup).

Definition SecruleAdmin_List (offset limit : Z) (order : string) (secgroup : SecurityGroup.t)
    : M (Z * list SecurityRule.t) :=
  m ← GetMemberShip;
  _ ← require (ValidateOwner m Reader (SecurityGroup.Owner secgroup)) NotAuthorized;
  GetContextDB (
    list_rows "Failed to count security rule(s)" "Failed to query security rule(s)" offset limit
      order (λ r, (SecurityRule.Secgroup r =? SecurityGroup.ID secgroup) &&
                  where_ok (GetWhere m) (SecurityRule.Owner r))).

(** [Get] and [GetSecruleByUUID] use a database handle of their own, outside the
    transaction of the caller; both are only called outside one. *)
Definition SecruleAdmin_Get (id : Z) (secgroup : SecurityGroup.t) : M SecurityRule.t :=
  if id <=? 0 then fail (GoError ("Invalid security rule ID: " +:+ fmt_d id))
  else
    m ← GetMemberShip;
    secrule ← db_take (λ r, where_ok (GetWhere m) (SecurityRule.Owner r) && by_pk id r);
    _ ← require (ValidateOwner m Reader (SecurityRule.Owner secrule)) (GoError "Not authorized");
    mret secrule.

Definition SecruleAdmin_GetSecruleByUUID (uuID : string) (secgroup : SecurityGroup.t)
    : M SecurityRule.t :=
  m ← GetMemberShip;
  secrule ← db_take (λ r, where_ok (GetWhere m) (SecurityRule.Owner r) &&
                          String.eqb (SecurityRule.UUID r) uuID &&
                          (SecurityRule.Secgroup r =? SecurityGroup.ID secgroup));
  _ ← require (ValidateOwner m Reader (SecurityRule.Owner secrule)) (GoError "Not authorized");
  mret secrule.

(** ** Groups *)

(** The router of a group, loaded when it has one. *)
Definition load_router (secgroup : SecurityGroup.t) : M SecurityGroup.t :=
  if 0 <? SecurityGroup.RouterID secgroup then
    router ← wrap ErrRouterNotFound "Failed to find router"
               (db_get (R := Router.t) (SecurityGroup.RouterID secgroup));
    mret (secgroup <| SecurityGroup.Router := Some router |>)
  else mret secgroup.

(** Every organization may read the group named "system-default". *)
Definition may_read (m : MemberShip.t) (secgroup : SecurityGroup.t) : M unit :=
  if String.eqb (SecurityGroup.Name secgroup) SystemDefaultSGName then mret tt
  else require (ValidateOwner m Reader (SecurityGroup.Owner secgroup))
         (NewCLError ErrPermissionDenied "Not authorized to get security group" None).

(** The group a condition selects, as a caller may read it. *)
Definition read_group (p : SecurityGroup.t → bool) : M SecurityGroup.t :=
  GetContextDB (
    m ← GetMemberShip;
    secgroup ← wrap ErrSecurityGroupNotFound "Failed to find security group" (db_take p);
    secgroup ← load_router secgroup;
    _ ← may_read m secgroup;
    mret secgroup).

Definition SecgroupAdmin_GetSecgroupByName (name : string) : M SecurityGroup.t :=
  read_group (λ sg, String.eqb (SecurityGroup.Name sg) name).

Definition SecgroupAdmin_GetSecgroupByUUID (uuID : string) : M SecurityGroup.t :=
  m ← GetMemberShip;
  read_group (λ sg, where_ok (GetWhere m) (SecurityGroup.Owner sg) &&
                    String.eqb (SecurityGroup.UUID sg) uuID).

Definition SecgroupAdmin_Get (id : Z) : M SecurityGroup.t :=
  if id <=? 0 then SecgroupAdmin_GetSecgroupByName SystemDefaultSGName
  else
    m ← GetMemberShip;
    read_group (λ sg, where_ok (GetWhere m) (SecurityGroup.Owner sg) && by_pk id sg).

Definition SecgroupAdmin_GetSecurityGroup (reference : option BaseReference.t)
    : M SecurityGroup.t :=
  match reference with
  | Some r =>
      if String.eqb (BaseReference.ID r) "" then
        if String.eqb (BaseReference.Name r) "" then
          fail (GoError "Security group base reference must be provided with either uuid or name")
        else SecgroupAdmin_GetSecgroupByName (BaseReference.Name r)
      else SecgroupAdmin_GetSecgroupByUUID (BaseReference.ID r)
  | None =>
      fail (GoError "Security group base reference must be provided with either uuid or name")
  end.

(** The group that [Switch] replaces: it is taken by primary key, and key 0 is
    no condition. *)
Definition replace_default (newSg : SecurityGroup.t) (router : option Router.t) : M Z :=
  match router with
  | Some router =>
      oldSg ← wrap ErrSecurityGroupNotFound "Failed to find default security group"
                (db_get (R := SecurityGroup.t) (Router.DefaultSG router));
      _ ← wrap ErrRouterUpdateFailed "Failed to update router default security group"
            (db_update (by_pk (Router.ID router))
               (λ r, r <| Router.DefaultSG := SecurityGroup.ID newSg |>));
      mret (SecurityGroup.ID oldSg)
  | None =>
      m ← GetMemberShip;
      org ← wrap ErrOrgNotFound "Failed to find organization" (OrgAdmin_Get (MemberShip.OrgID m));
      oldID ← (if 0 <? Organization.DefaultSG org then
                 oldSg ← db_get (R := SecurityGroup.t) (Organization.DefaultSG org);
                 mret (SecurityGroup.ID oldSg)
               else mret 0);
      _ ← wrap ErrOrgUpdateFailed "Failed to update organization default security group"
            (db_update (by_pk (Organization.ID org))
               (λ r, r <| Organization.DefaultSG := SecurityGroup.ID newSg |>));
      mret oldID
  end.

Definition set_default (id : Z) (b : bool) : M unit :=
  wrap ErrSecurityGroupUpdateFailed "Failed to update security group"
    (db_update (by_pk id) (λ r, r <| SecurityGroup.IsDefault := b |>)).

Definition SecgroupAdmin_Switch (newSg : SecurityGroup.t) (router : option Router.t) : M unit :=
  GetContextDB (
    oldID ← replace_default newSg router;
    _ ← (if 0 <? oldID then set_default oldID false else mret tt);
    set_default (SecurityGroup.ID newSg) true).

(** The error of [Switch] is not looked at; a map of updates that is empty issues
    no statement. *)
Definition SecgroupAdmin_Update (secgroup : SecurityGroup.t) (name : string) (isDefault : bool)
    : M unit :=
  with_tx (
    let rename := negb (String.eqb name "") && negb (String.eqb (SecurityGroup.Name secgroup) name) in
    let promote := isDefault && negb (SecurityGroup.IsDefault secgroup) in
    _ ← (if promote then
           _ ← try (SecgroupAdmin_Switch secgroup (SecurityGroup.Router secgroup)); mret tt
         else mret tt);
    if rename || promote then
      wrap ErrSecurityGroupUpdateFailed "Failed to update security group"
        (db_update (by_id (SecurityGroup.ID secgroup)) (λ r,
           let r := if rename then r <| SecurityGroup.Name := name |> else r in
           if promote then r <| SecurityGroup.IsDefault := true |> else r))
    else mret tt).

(** The rules of a new group: remote network, direction, protocol, ports. *)
Definition rule_spec : Type := string * string * string * Z * Z.

Definition default_rules : list rule_spec :=
  [("0.0.0.0/0", "egress", "tcp", 1, 65535); ("0.0.0.0/0", "egress", "udp", 1, 65535);
   ("0.0.0.0/0", "ingress", "tcp", 22, 22); ("0.0.0.0/0", "ingress", "tcp", 3389, 3389);
   ("0.0.0.0/0", "ingress", "udp", 68, 68); ("0.0.0.0/0", "egress", "icmp", -1, -1);
   ("0.0.0.0/0", "ingress", "icmp", -1, -1)].

Definition subnet_rules (subnet : Subnet.t) : list rule_spec :=
  [(Subnet.Network subnet, "ingress", "tcp", 1, 65535);
   (Subnet.Network subnet, "ingress", "udp", 1, 65535)].

Definition create_rule (secgroup : SecurityGroup.t) (s : rule_spec) : M unit :=
  let '(remoteIp, direction, protocol, portMin, portMax) := s in
  _ ← SecruleAdmin_Create "" remoteIp direction protocol portMin portMax secgroup; mret tt.

(** A group without a router takes the role Owner, one of a router its writer. *)
Definition may_create_group (m : MemberShip.t) (router : option Router.t) : bool :=
  match router with
  | Some r => ValidateOwner m Writer (Router.Owner r)
  | None => CheckPermission m Owner
  end.

Definition group_model (m : MemberShip.t) (name : string) (isDefault : bool)
    (router : option Router.t) : SecurityGroup.t :=
  SecurityGroup.zero <| SecurityGroup.Creater := MemberShip.UserID m |>
    <| SecurityGroup.Owner := MemberShip.OrgID m |> <| SecurityGroup.Name := name |>
    <| SecurityGroup.IsDefault := isDefault |>
    <| SecurityGroup.RouterID := match router with Some r => Router.ID r | None => 0 end |>.

(** The part of [SecgroupAdmin_Create] that makes the rules. *)
Definition create_rules (secgroup : SecurityGroup.t) (router : option Router.t) : M unit :=
  _ ← for_each default_rules (create_rule secgroup);
  match router with
  | Some r =>
      subnets ← wrap ErrSubnetNotFound "Failed to find subnets for the router"
                  (db_find (λ s, Subnet.RouterID s =? Router.ID r));
      for_each subnets (λ s, for_each (subnet_rules s) (create_rule secgroup))
  | None => mret tt
  end.

Definition SecgroupAdmin_Create (name : string) (isDefault : bool) (router : option Router.t)
    : M SecurityGroup.t :=
  m ← GetMemberShip;
  _ ← require (may_create_group m router) NotAuthorized;
  with_tx (
    secgroup ← wrap ErrSecurityGroupCreateFailed "Failed to create security group"
                 (db_create (group_model m name isDefault router));
    _ ← create_rules secgroup router;
    _ ← (if isDefault then SecgroupAdmin_Switch secgroup router else mret tt);
    mret secgroup).

(** [timestamp] is [time.Now().UnixNano()]. *)
Definition SecgroupAdmin_GetDefaultSecgroup (timestamp : Z) : M SecurityGroup.t :=
  GetContextDB (
    m ← GetMemberShip;
    org ← OrgAdmin_Get (MemberShip.OrgID m);
    if Organization.DefaultSG org =? 0 then
      secgroup ← SecgroupAdmin_Create ("default-" +:+ fmt_d timestamp) true None;
      _ ← wrap ErrOrgUpdateFailed "Failed to update organization default security group"
            (db_update (by_pk (Organization.ID org))
               (λ r, r <| Organization.DefaultSG := SecurityGroup.ID secgroup |>));
      mret secgroup
    else
      wrap ErrSecurityGroupNotFound "Failed to find security group"
        (db_get (R := SecurityGroup.t) (Organization.DefaultSG org))).

(** Is the group the default one of its router, or of an organization that
    exists?  An error of the query counts as no. *)
Definition guards_default (secgroup : SecurityGroup.t) : M bool :=
  if SecurityGroup.IsDefault secgroup &&
     negb (String.eqb (SecurityGroup.Name secgroup) SystemDefaultSGName)
  then
    if 0 <? SecurityGroup.RouterID secgroup then
      r ← try (db_take (λ r, by_pk (SecurityGroup.RouterID secgroup) r &&
                             (Router.DefaultSG r =? SecurityGroup.ID secgroup)));
      mret (match r with inl _ => true | inr _ => false end)
    else
      r ← try (OrgAdmin_Get (SecurityGroup.Owner secgroup));
      mret (match r with inl _ => true | inr _ => false end)
  else mret false.

(** [created] is [secgroup.CreatedAt.Unix()]. *)
Definition SecgroupAdmin_Delete (created : Z) (secgroup : SecurityGroup.t) : M unit :=
  with_tx (
    m ← GetMemberShip;
    _ ← require (ValidateOwner m Writer (SecurityGroup.Owner secgroup))
          (NewCLError ErrPermissionDenied "Not authorized to delete the security group" None);
    isDefault ← guards_default secgroup;
    _ ← require (negb isDefault)
          (NewCLError ErrCannotDeleteDefaultSG "Default security group can not be deleted" None);
    ifaces ← wrap ErrDatabaseError "Failed to count the number of interfaces using the security group"
               (db_find (in_group (SecurityGroup.ID secgroup)));
    _ ← require (negb (0 <? length ifaces)%nat)
          (NewCLError ErrSGHasInterfaces
             "The security group can not be deleted if there are associated interfaces" None);
    _ ← wrap ErrSecurityRuleDeleteFailed "Failed to delete security group rules"
          (db_delete (λ r, SecurityRule.Secgroup r =? SecurityGroup.ID secgroup));
    _ ← wrap ErrSecurityGroupDeleteFailed "Failed to delete security group"
          (db_delete (R := SecurityGroup.t) (by_pk (SecurityGroup.ID secgroup)));
    wrap ErrSecurityGroupUpdateFailed "Failed to update security group name"
      (db_update_all (by_id (SecurityGroup.ID secgroup))
         (λ r, r <| SecurityGroup.Name :=
                      SecurityGroup.Name secgroup +:+ "-" +:+ fmt_d created |>))).

(** ** Lists *)

(** [db.Take] on a handle that still carries the offset of the page: the one row
    there is is skipped. *)
Definition db_get_offset {R} `{Row R, InDB R} (offset id : Z) : M R :=
  o ← db_query (λ d, if 0 <? offset then None else g_take (by_pk id) (tbl d)); found o.

Fixpoint load_routers (offset : Z) (secgroups : list SecurityGroup.t)
    : M (list SecurityGroup.t) :=
  match secgroups with
  | [] => mret []
  | sg :: secgroups =>
      sg ← (if 0 <? SecurityGroup.RouterID sg then
              r ← try (db_get_offset (R := Router.t) offset (SecurityGroup.RouterID sg));
              mret (sg <| SecurityGroup.Router := Some (match r with
                      | inl router => router
                      | inr _ => Router.zero <| Router.ID := SecurityGroup.RouterID sg |>
                      end) |>)
            else mret sg);
      secgroups ← load_routers offset secgroups;
      mret (sg :: secgroups)
  end.

(** [query] is the meaning of the SQL condition the caller passes; the owner
    information an administrator sees is read and dropped here. *)
Definition SecgroupAdmin_List (offset limit : Z) (order : string) (query : SecurityGroup.t → bool)
    : M (Z * list SecurityGroup.t) :=
  m ← GetMemberShip;
  _ ← require (CheckPermission m Reader) NotAuthorized;
  GetContextDB (
    '(total, secgroups) ← list_rows "Failed to count security group(s)"
      "Failed to query security group(s)" offset limit order
      (λ sg, where_ok (GetWhere m) (SecurityGroup.Owner sg) && query sg);
    secgroups ← load_routers offset secgroups;
    _ ← (if CheckPermission m Admin then
           for_each secgroups (λ sg : SecurityGroup.t,
             _ ← try (db_get (R := Organization.t) (SecurityGroup.Owner sg)); mret tt)
         else mret tt);
    mret (total, secgroups)).

Definition SecgroupAdmin_List4View (offset limit : Z) (order : string)
    (search : SecurityGroup.t → bool) : M (Z * list SecurityGroup.t) :=
  m ← GetMemberShip;
  _ ← require (CheckPermission m Reader) NotAuthorized;
  GetContextDB (
    list_rows "Failed to count security group(s)" "Failed to query security group(s)" offset limit
      order (λ sg, where_ok (GetWhere m) (SecurityGroup.Owner sg) && search sg)).

(** ** Login ports of instances *)

Definition common_port (port : Z) : bool := (port =? 22) || (port =? 3389) || (port <=? 0).

Definition SecgroupAdmin_AllowInstanceLoginPort (port : Z) (iface : Interface.t) : M unit :=
  if common_port port then mret tt
  else for_each (Interface.SecurityGroups iface) (λ sg,
         _ ← SecruleAdmin_Create "" "0.0.0.0/0" "ingress" "tcp" port port sg; mret tt).

Definition SecgroupAdmin_RemoveInstanceLoginPort (instance : Instance.t) (iface : Interface.t)
    : M unit :=
  let port := Instance.LoginPort instance in
  if common_port port then mret tt
  else GetContextDB (
    m ← GetMemberShip;
    count ← wrap ErrDatabaseError "Failed to count instances of the login port"
      (db_count (λ i, where_ok (GetWhere m) (Instance.Owner i) && (Instance.LoginPort i =? port) &&
                      (Instance.RouterID i =? Instance.RouterID instance)));
    if 1 <? count then mret tt
    else for_each (Interface.SecurityGroups iface) (λ sg,
           secrule ← wrap ErrSecurityRuleNotFound "Failed to find security rule"
                       (SecruleAdmin_GetRule "0.0.0.0/0" "ingress" "tcp" port port sg);
           SecruleAdmin_Delete secrule sg)).

End secgroup.

(** ** Lemmas *)

Section secgroup_lemmas.
Context {G : Gorm} {E : Env} {GOk : GormOk G}.
Implicit Types (c : Ctx) (w : World) (d : DB) (i j : Interface.t) (a : Address.t)
  (sg : SecurityGroup.t) (r : SecurityRule.t).

Definition groups d : gmap Z SecurityGroup.t := rows (secgroups d).
Definition rules d : gmap Z SecurityRule.t := rows (secrules d).

(** *** Applying a group: it returns, and tells every hypervisor *)

Lemma GetSecgroupInterfaces_reads sg I : preserves I (SecgroupAdmin_GetSecgroupInterfaces sg).
Proof. unfold SecgroupAdmin_GetSecgroupInterfaces. pres. apply preload_addresses_reads. Qed.

Lemma apply_iface_renames d0 i : preserves (renames d0) (apply_iface i).
Proof. unfold apply_iface. pres. apply ApplyInterface_renames. Qed.

Lemma ApplySecgroup_renames d0 sg : preserves (renames d0) (SecruleAdmin_ApplySecgroup sg).
Proof.
  unfold SecruleAdmin_ApplySecgroup. pres; [apply GetSecgroupInterfaces_reads
    |apply apply_iface_renames].
Qed.

Lemma apply_iface_grows i : grows (apply_iface i).
Proof.
  unfold apply_iface. destruct (0 <? _); [|apply grows_quiet, quiet_ret].
  apply grows_bind; [apply grows_quiet; quiet_tac|]. intros [v|e]; [|apply grows_quiet, quiet_ret].
  destruct (Interface.Address i); [|apply grows_quiet, quiet_ret].
  apply grows_bind; [apply grows_try, ApplyInterface_grows|]. intros. apply grows_quiet, quiet_ret.
Qed.

Lemma apply_iface_ne i : never_err (apply_iface i).
Proof. unfold apply_iface. ne_tac. Qed.

Lemma apply_iface_np i :
  (∀ a, Interface.Address i = Some a → followed i) → no_panic (apply_iface i).
Proof.
  intros Hf. unfold apply_iface. destruct (0 <? _); [|np]. apply np_bind; [np|].
  intros [v|e]; [|np]. destruct (Interface.Address i) eqn:Ha; np.
  by eapply ApplyInterface_np, Hf.
Qed.

Lemma GetSecgroupInterfaces_Ok sg c w l w' :
  addresses_ok (db w) → SecgroupAdmin_GetSecgroupInterfaces sg c w = (Ok l, w') →
  Forall2 (loads (db w))
    (g_find (λ i, in_group (SecurityGroup.ID sg) i && (0 <? Interface.Instance i))
       (interfaces (db w))) l.
Proof.
  unfold SecgroupAdmin_GetSecgroupInterfaces. rewrite GetContextDB_eq.
  intros Hok H%wrap_Ok. apply bind_Ok in H as (x & w1 & (-> & Hd & _)%db_find_Ok & H).
  apply preload_addresses_Ok in H; [|by rewrite Hd]. by rewrite Hd in H.
Qed.

Lemma ApplySecgroup_runs sg c w :
  no_faults → addresses_ok (db w) → ∃ u w', SecruleAdmin_ApplySecgroup sg c w = (Ok u, w').
Proof.
  intros Hn Hok. unfold SecruleAdmin_ApplySecgroup. rewrite GetContextDB_eq.
  set (c' := c <| dbkey := true |>).
  destruct (runs (SecgroupAdmin_GetSecgroupInterfaces sg) c' w) as (l & w1 & H).
  { unfold SecgroupAdmin_GetSecgroupInterfaces. ne_tac. by apply preload_addresses_ne. }
  { unfold SecgroupAdmin_GetSecgroupInterfaces. np. apply preload_addresses_np. }
  pose proof (GetSecgroupInterfaces_Ok _ _ _ _ _ Hok H) as Hl.
  unfold mbind, M_bind. rewrite H. cbn.
  destruct (for_each l apply_iface c' w1) as [[u|e|] w2] eqn:Hf; [by eauto|..]; exfalso.
  - refine (ne_refute _ _ _ _ _ _ Hf). apply ne_for_each, apply_iface_ne.
  - apply for_each_Panic in Hf as (j & w3 & w4 & [n Hj]%list_elem_of_lookup & Hp).
    destruct (Forall2_lookup_r _ _ _ _ _ Hl Hj) as (i & _ & Hload).
    refine (np_refute _ _ _ _ _ Hp). apply apply_iface_np. intros a. by eapply loads_followed'.
Qed.

(** What a hypervisor is told of the rules: those of the groups of the interface. *)
Definition told d i (info : VlanInfo.t) : Prop :=
  VlanInfo.MacAddr info = Interface.MacAddr i ∧
  ∀ x, x ∈ VlanInfo.SecRules info ↔
    ∃ sg r, groups d !! SecurityGroup.ID sg = Some sg ∧ in_group (SecurityGroup.ID sg) i = true ∧
      rules d !! SecurityRule.ID r = Some r ∧ SecurityRule.Secgroup r = SecurityGroup.ID sg ∧
      x = security_data r.

Lemma apply_iface_posts d i j v c w u w' :
  no_faults → all_posted → loads d i j → renames d (db w) → ifs d !! Interface.ID i = Some i →
  is_Some (Interface.Address j) → 0 < Interface.Instance i →
  rows (instances d) !! Interface.Instance i = Some v →
  apply_iface j c w = (Ok u, w') →
  ∃ v' os info, v' = v <| Instance.Image := Instance.Image v' |> ∧ told d i info ∧
    ("inter=" +:+ fmt_d (Instance.Hyper v), sync_nic_command v' os false info) ∈ sent w'.
Proof.
  intros Hn Hp Hl Hren Hi [a Ha] Hpos Hv. unfold apply_iface.
  pose proof (loads_row _ _ _ Hl) as Hrow.
  assert (Interface.Instance j = Interface.Instance i ∧ Interface.ID j = Interface.ID i ∧
          Interface.MacAddr j = Interface.MacAddr i) as (-> & HID & Hmac)
    by (rewrite Hrow; by destruct i).
  rewrite (proj2 (Z.ltb_lt _ _) Hpos), Ha. intros (o & w1 & Ho%try_Ok & H)%bind_Ok.
  destruct (db_get_runs (HD := in_instances) (Interface.Instance i) v c w Hn) as (w2 & Hg & Hd2 & _).
  { simpl. by rewrite (proj1 Hren). }
  rewrite Hg in Ho. destruct o as [v0|]; [|done]. simplify_eq.
  apply bind_Ok in H as ([u1|e] & w3 & H3%try_Ok & [_ ->]%ret_Ok);
    [|by apply ApplyInterface_ne in H3].
  apply ApplyInterface_Ok in H3 as (a1 & s & v' & os & _ & _ & Hv' & Hsent).
  exists v', os, (vlan_of j a1 s (db w1)). split; [done|]. split.
  - split; [done|]. intros x. simpl. rewrite HID.
    destruct (renames_row _ _ _ _ Hren Hi) as (i' & Hi' & Hname).
    rewrite Hd2, (security_of_spec _ _ _ _ Hi'). rewrite (proj1 Hren). simpl.
    assert (Interface.SecurityGroups i' = Interface.SecurityGroups i) as Hsg
      by (by destruct i, i'; unfold nameless in Hname; simplify_eq).
    unfold in_group. rewrite Hsg. done.
  - rewrite Hsent. apply elem_of_app. right. apply list_elem_of_here.
Qed.

(** The interfaces a group is applied to: those of an instance that exists, with
    an address. *)
Definition attached d sg i v : Prop :=
  ifs d !! Interface.ID i = Some i ∧ in_group (SecurityGroup.ID sg) i = true ∧
  rows (instances d) !! Interface.Instance i = Some v ∧
  ∃ a, ads d !! Address.ID a = Some a ∧ Address.Interface a = Interface.ID i.

(** The command that tells the hypervisor of [v] about [i], with the rules of [d]. *)
Definition notified d i v (l : list (string * string)) : Prop :=
  ∃ v' os info, v' = v <| Instance.Image := Instance.Image v' |> ∧ told d i info ∧
    ("inter=" +:+ fmt_d (Instance.Hyper v), sync_nic_command v' os false info) ∈ l.

Lemma ApplySecgroup_posts sg c w u w' i v :
  no_faults → all_posted → addresses_ok (db w) →
  SecruleAdmin_ApplySecgroup sg c w = (Ok u, w') →
  attached (db w) sg i v → notified (db w) i v (sent w').
Proof.
  intros Hn Hp Hok H (Hi & Hg & Hv & a & Ha & Hai). unfold SecruleAdmin_ApplySecgroup in H.
  rewrite GetContextDB_eq in H. apply bind_Ok in H as (l & w1 & Hl & H).
  assert (db w1 = db w) as Hd.
  { apply (reads_run _ _ _ _ _ (reads_preserves _ (λ _, GetSecgroupInterfaces_reads _ _)) Hl). }
  apply GetSecgroupInterfaces_Ok in Hl; [|done].
  pose proof (rows_pos _ _ _ Hv) as Hpos.
  assert (i ∈ g_find (λ i, in_group (SecurityGroup.ID sg) i && (0 <? Interface.Instance i))
            (interfaces (db w))) as [n Hin]%list_elem_of_lookup.
  { apply find_spec. split; [|done]. apply andb_true_iff. by rewrite Z.ltb_lt. }
  destruct (Forall2_lookup_l _ _ _ _ _ Hl Hin) as (j & Hj & Hload).
  destruct (for_each_elem (renames (db w)) l apply_iface (c <| dbkey := true |>) w1 u w' j (apply_iface_renames _)
              apply_iface_grows) as (w2 & x & w3 & more & Hren & Hrun & Hsent); [..|].
  - rewrite Hd. apply renames_refl.
  - done.
  - by eapply list_elem_of_lookup_2.
  - destruct (apply_iface_posts (db w) i j v (c <| dbkey := true |>) w2 x w3) as (v' & os & info & ? & ? & Hpost); try done.
    { by eapply loads_has. }
    exists v', os, info. split_and!; [done..|]. rewrite Hsent. apply elem_of_app. by left.
Qed.

(** *** Creating a rule *)

Lemma GetRule_reads ip dir proto pmin pmax sg I :
  preserves I (SecruleAdmin_GetRule ip dir proto pmin pmax sg).
Proof. unfold SecruleAdmin_GetRule. pres. Qed.

Lemma GetRule_quiet ip dir proto pmin pmax sg :
  quiet (SecruleAdmin_GetRule ip dir proto pmin pmax sg).
Proof. unfold SecruleAdmin_GetRule. quiet_tac. Qed.

Lemma GetRule_Ok ip dir proto pmin pmax sg c w r w' :
  SecruleAdmin_GetRule ip dir proto pmin pmax sg c w = (Ok r, w') →
  rules (db w) !! SecurityRule.ID r = Some r ∧
  same_rule (SecurityGroup.ID sg) ip dir proto pmin pmax r = true.
Proof.
  unfold SecruleAdmin_GetRule. intros (m & w0 & [_ <-]%GetMemberShip_Ok & H)%bind_Ok.
  apply bind_Ok in H as (u & w0 & [_ <-]%require_Ok & H%with_tx_Ok%wrap_Ok).
  apply db_take_Ok in H as ([? ?]%take_some & _ & _). done.
Qed.

(** When no statement fails, a reader is told "not found" only of a rule that
    does not exist. *)
Lemma GetRule_none ip dir proto pmin pmax sg c w e w' k r :
  no_faults → ValidateOwner (caller c) Reader (SecurityGroup.Owner sg) = true →
  SecruleAdmin_GetRule ip dir proto pmin pmax sg c w = (Err e, w') →
  rules (db w) !! k = Some r →
  same_rule (SecurityGroup.ID sg) ip dir proto pmin pmax r = false.
Proof.
  intros Hn Hv. unfold SecruleAdmin_GetRule, mbind at 1, M_bind at 1. cbn [GetMemberShip].
  unfold require. rewrite Hv. unfold mbind at 1, M_bind at 1. cbn [mret M_ret].
  unfold with_tx, wrap, db_take, mbind, M_bind. rewrite !(stmt_runs Hn). cbn [fst].
  destruct (g_take _ _) as [x|] eqn:Hx; [by destruct (dbkey c)|]. intros _ Hr.
  by eapply take_none in Hx.
Qed.

Lemma writer_reads m owner :
  ValidateOwner m Writer owner = true → ValidateOwner m Reader owner = true.
Proof. rewrite !ValidateOwner_true. unfold Writer, Reader. intuition lia. Qed.

(** The row a rule is stored as. *)
Definition stored_rule (m : MemberShip.t) (name ip dir proto : string) (pmin pmax : Z) sg r : Prop :=
  ∃ u, r = set_id (SecurityRule.ID r)
             (col_defaults (before_create u (rule_model m name ip dir proto pmin pmax sg))).

(** A successful creation: the rule existed, or it is inserted and the group
    applied. *)
Lemma SecruleAdmin_Create_steps name ip dir proto pmin pmax sg c w o w' :
  SecruleAdmin_Create name ip dir proto pmin pmax sg c w = (Ok o, w') →
  ValidateOwner (caller c) Writer (SecurityGroup.Owner sg) = true ∧
  match o with
  | None => db w' = db w ∧ sent w' = sent w ∧ ∃ r, rules (db w) !! SecurityRule.ID r = Some r ∧
      same_rule (SecurityGroup.ID sg) ip dir proto pmin pmax r = true
  | Some r => stored_rule (caller c) name ip dir proto pmin pmax sg r ∧ ∃ t w2 u,
      rules (db w) !! SecurityRule.ID r = None ∧ rows t = <[SecurityRule.ID r := r]> (rules (db w)) ∧
      db w2 = db w <| secrules := t |> ∧
      SecruleAdmin_ApplySecgroup sg (c <| dbkey := true |>) w2 = (Ok u, w') ∧
      ∃ e w1, SecruleAdmin_GetRule ip dir proto pmin pmax sg (c <| dbkey := true |>) w = (Err e, w1)
  end.
Proof.
  unfold SecruleAdmin_Create. intros (m & w0 & [<- <-]%GetMemberShip_Ok & H)%bind_Ok.
  apply bind_Ok in H as (u & w0 & [Hok <-]%require_Ok & H%with_tx_Ok).
  apply bind_Ok in H as (x & w1 & Hx & H). split; [done|].
  pose proof (reads_run _ _ _ _ _ (reads_preserves (try _) (λ _, pres_try _ _ (GetRule_reads _ _ _ _ _ _ _))) Hx) as Hd.
  pose proof (quiet_run _ _ _ _ _ (quiet_try _ (GetRule_quiet _ _ _ _ _ _)) Hx) as Hs.
  destruct x as [r|e].
  - apply ret_Ok in H as [<- <-]. split_and!; [done..|]. apply try_Ok, GetRule_Ok in Hx.
    by exists r.
  - apply bind_Ok in H as (r & w2 & Hc%wrap_Ok & H).
    apply bind_Ok in H as (u2 & w3 & Ha & [<- <-]%ret_Ok).
    apply db_create_Ok in Hc as (t & Hc & Hd2 & _). tables.
    apply create_spec in Hc as (_ & Hnone & Hr & Ht). rewrite Hd in *.
    split; [by eexists|]. exists t, w2, u2. split_and!; [done..|].
    apply try_Ok in Hx. by exists e, w1.
Qed.

(** A rule was inserted, and interfaces renamed. *)
Definition rule_added r d d' : Prop :=
  ∃ t, rules d !! SecurityRule.ID r = None ∧ rows t = <[SecurityRule.ID r := r]> (rules d) ∧
       renames (d <| secrules := t |>) d'.

Lemma ApplySecgroup_run_renames sg c w x w' :
  SecruleAdmin_ApplySecgroup sg c w = (x, w') → renames (db w) (db w').
Proof.
  intros H. pose proof (ApplySecgroup_renames (db w) sg c w (renames_refl _)) as Hren.
  by rewrite H in Hren.
Qed.

Lemma SecruleAdmin_Create_Ok name ip dir proto pmin pmax sg c w o w' :
  SecruleAdmin_Create name ip dir proto pmin pmax sg c w = (Ok o, w') →
  match o with
  | None => db w' = db w ∧ ∃ r, rules (db w) !! SecurityRule.ID r = Some r ∧
      same_rule (SecurityGroup.ID sg) ip dir proto pmin pmax r = true
  | Some r => stored_rule (caller c) name ip dir proto pmin pmax sg r ∧ rule_added r (db w) (db w')
  end.
Proof.
  intros [_ H]%SecruleAdmin_Create_steps. destruct o as [r|]; [|naive_solver].
  destruct H as (Hr & t & w2 & u & Hnone & Ht & Hd & Ha & Hget). split; [done|]. exists t.
  split_and!; [done..|]. rewrite <- Hd. by eapply ApplySecgroup_run_renames.
Qed.

Lemma SecruleAdmin_Create_runs name ip dir proto pmin pmax sg c w :
  no_faults → addresses_ok (db w) →
  ValidateOwner (caller c) Writer (SecurityGroup.Owner sg) = true →
  ∃ o w', SecruleAdmin_Create name ip dir proto pmin pmax sg c w = (Ok o, w').
Proof.
  intros Hn Hok Hv. unfold SecruleAdmin_Create, mbind at 1, M_bind at 1. cbn [GetMemberShip].
  unfold require. rewrite Hv. unfold mbind at 1, M_bind at 1. cbn [mret M_ret].
  setoid_rewrite with_tx_Ok. set (c' := c <| dbkey := true |>).
  destruct (runs (try (SecruleAdmin_GetRule ip dir proto pmin pmax sg)) c' w (ne_try _))
    as (x & w1 & Hx).
  { unfold SecruleAdmin_GetRule. np. }
  pose proof (reads_run _ _ _ _ _ (reads_preserves (try _) (λ _, pres_try _ _ (GetRule_reads _ _ _ _ _ _ _))) Hx) as Hd.
  unfold mbind at 1, M_bind at 1. rewrite Hx. destruct x as [r|e]; [by do 2 eexists|].
  unfold mbind at 1, M_bind at 1, wrap, db_create. rewrite (stmt_runs Hn).
  destruct (g_create _ _) as [r t]. simpl. set (w2 := tick w1 <| db := _ |>).
  destruct (ApplySecgroup_runs sg c' w2 Hn) as (u & w3 & Ha).
  { subst w2. simpl. rewrite Hd. exact Hok. }
  unfold mbind, M_bind. rewrite Ha. by do 2 eexists.
Qed.

(** *** The rules of a new group *)

Definition spec_of r : rule_spec :=
  (SecurityRule.RemoteIp r, SecurityRule.Direction r, SecurityRule.Protocol r,
   SecurityRule.PortMin r, SecurityRule.PortMax r).

(** A specification that is not weakened by a blank field. *)
Definition full_spec (x : rule_spec) : bool :=
  let '(ip, dir, proto, pmin, pmax) := x in
  negb (String.eqb ip "") && negb (String.eqb dir "") && negb (String.eqb proto "") &&
  negb (pmin =? 0) && negb (pmax =? 0) &&
  (negb (String.eqb proto "icmp") || (pmin =? -1) && (pmax =? -1)).

(** Rules with these specifications were added to a group, as far as it lacked
    them. *)
Record adds sg (l : list rule_spec) d d' : Prop := {
  adds_kept k r : rules d !! k = Some r → rules d' !! k = Some r;
  adds_new k r : rules d' !! k = Some r →
    rules d !! k = Some r ∨ SecurityRule.Secgroup r = SecurityGroup.ID sg ∧ spec_of r ∈ l;
  adds_has x : x ∈ l → ∃ k r, rules d' !! k = Some r ∧
    SecurityRule.Secgroup r = SecurityGroup.ID sg ∧ spec_of r = x;
  adds_frame : d' = d <| secrules := secrules d' |> <| interfaces := interfaces d' |>
}.

Lemma adds_nil sg d : adds sg [] d d.
Proof. split; [auto..| |by destruct d]. intros x Hx. by apply elem_of_nil in Hx. Qed.

Lemma adds_app sg l1 l2 d d1 d2 : adds sg l1 d d1 → adds sg l2 d1 d2 → adds sg (l1 ++ l2) d d2.
Proof.
  intros [K1 N1 H1 F1] [K2 N2 H2 F2]. split.
  - auto.
  - intros k r [Hr|[? ?]]%N2; [|right; rewrite elem_of_app; tauto].
    apply N1 in Hr as [?|[? ?]]; [tauto|]. right. rewrite elem_of_app. tauto.
  - intros x [Hx|Hx]%elem_of_app; [|by apply H2].
    destruct (H1 x Hx) as (k & r & Hr & ?). exists k, r. split; [by apply K2|done].
  - by rewrite F2, F1.
Qed.

Lemma same_rule_spec sg x r :
  0 < SecurityGroup.ID sg → full_spec x = true →
  (let '(ip, dir, proto, pmin, pmax) := x in
   same_rule (SecurityGroup.ID sg) ip dir proto pmin pmax r) = true →
  SecurityRule.Secgroup r = SecurityGroup.ID sg ∧ spec_of r = x.
Proof.
  destruct x as [[[[ip dir] proto] pmin] pmax]. unfold full_spec, same_rule, spec_of.
  intros Hpos Hf. rewrite !andb_true_iff, !negb_true_iff in Hf.
  destruct Hf as (((((Hip & Hdir) & Hproto) & Hmin) & Hmax) & _).
  rewrite Hip, Hdir, Hproto, Hmin, Hmax, (proj2 (Z.eqb_neq _ _) (Z.neq_sym _ _ (Z.lt_neq _ _ Hpos))).
  simpl. rewrite !andb_true_iff, !String.eqb_eq, !Z.eqb_eq. intuition congruence.
Qed.

Lemma stored_rule_spec m name sg x r :
  full_spec x = true →
  (let '(ip, dir, proto, pmin, pmax) := x in stored_rule m name ip dir proto pmin pmax sg r) →
  SecurityRule.Secgroup r = SecurityGroup.ID sg ∧ spec_of r = x.
Proof.
  destruct x as [[[[ip dir] proto] pmin] pmax]. unfold full_spec, stored_rule, spec_of.
  rewrite !andb_true_iff, orb_true_iff, andb_true_iff, !negb_true_iff, !Z.eqb_eq.
  intros (((((Hip & Hdir) & Hproto) & Hmin) & Hmax) & Hicmp) [u ->]. simpl.
  split; [done|]. unfold dflt_Z. destruct (String.eqb proto "icmp").
  - destruct Hicmp as [?|[-> ->]]; done.
  - by rewrite Hmin, Hmax.
Qed.

Lemma create_rule_adds sg x c w u w' :
  0 < SecurityGroup.ID sg → full_spec x = true →
  create_rule sg x c w = (Ok u, w') → adds sg [x] (db w) (db w').
Proof.
  intros Hpos Hf. pose proof (same_rule_spec sg x) as Hsame.
  pose proof (stored_rule_spec (caller c) "" sg x) as Hstored.
  destruct x as [[[[ip dir] proto] pmin] pmax]. unfold create_rule.
  intros (o & w1 & H%SecruleAdmin_Create_Ok & [_ <-]%ret_Ok)%bind_Ok.
  destruct o as [r|].
  - destruct H as (Hr & t & Hnone & Ht & Hd & _). apply Hstored in Hr as [Hg Hx]; [|done].
    assert (rules (db w1) = <[SecurityRule.ID r := r]> (rules (db w))) as Hrules
      by (unfold rules at 1; by rewrite Hd). split.
    + intros k r' Hr'. rewrite Hrules, lookup_insert_ne; [done|]. intros <-. congruence.
    + intros k r'. rewrite Hrules, lookup_insert_Some, list_elem_of_singleton. naive_solver.
    + intros y ->%list_elem_of_singleton. exists (SecurityRule.ID r), r.
      by rewrite Hrules, lookup_insert_eq.
    + by rewrite Hd.
  - destruct H as (-> & r & Hr & [Hg Hx]%Hsame); [|done..]. split; [auto..| |by destruct (db w)].
    intros y ->%list_elem_of_singleton. by exists (SecurityRule.ID r), r.
Qed.

Lemma create_rules_adds sg l c w u w' :
  0 < SecurityGroup.ID sg → forallb full_spec l = true →
  for_each l (create_rule sg) c w = (Ok u, w') → adds sg l (db w) (db w').
Proof.
  intros Hpos. revert w. induction l as [|x l IH]; intros w; simpl.
  - intros _ [_ <-]%ret_Ok. apply adds_nil.
  - intros [Hx Hl]%andb_true_iff (v & w1 & H1%create_rule_adds & H)%bind_Ok; [|done..].
    apply (adds_app sg [x] l _ _ _ H1). by apply IH.
Qed.

Lemma create_subnet_rules_adds sg (l : list Subnet.t) c w u w' :
  0 < SecurityGroup.ID sg →
  forallb (λ s, negb (String.eqb (Subnet.Network s) "")) l = true →
  for_each l (λ s, for_each (subnet_rules s) (create_rule sg)) c w = (Ok u, w') →
  adds sg (concat (map subnet_rules l)) (db w) (db w').
Proof.
  intros Hpos. revert w. induction l as [|s l IH]; intros w; cbn [for_each forallb map concat].
  - intros _ [_ <-]%ret_Ok. apply adds_nil.
  - intros [Hs Hl]%andb_true_iff (v & w1 & H1 & H)%bind_Ok.
    apply create_rules_adds in H1; [|done|by simpl; rewrite Hs].
    apply (adds_app sg _ _ _ _ _ H1). by apply IH.
Qed.

(** Rules and interfaces refer to groups that exist. *)
Record sec_ok d : Prop := {
  rules_owned k r : rules d !! k = Some r → is_Some (groups d !! SecurityRule.Secgroup r);
  ifaces_owned k i sg : ifs d !! k = Some i → sg ∈ Interface.SecurityGroups i →
    is_Some (groups d !! SecurityGroup.ID sg)
}.

(** The networks of subnets are not blank. *)
Definition networks_ok d : Prop :=
  ∀ k s, rows (subnets d) !! k = Some s → Subnet.Network s ≠ "".

(** The subnets of a router. *)
Definition router_subnets (router : option Router.t) d : list Subnet.t :=
  match router with
  | Some r => g_find (λ s, Subnet.RouterID s =? Router.ID r) (subnets d)
  | None => []
  end.

Definition group_rules (router : option Router.t) d : list rule_spec :=
  default_rules ++ concat (map subnet_rules (router_subnets router d)).

Lemma create_rules_Ok sg router c w u w' :
  0 < SecurityGroup.ID sg → networks_ok (db w) →
  create_rules sg router c w = (Ok u, w') → adds sg (group_rules router (db w)) (db w) (db w').
Proof.
  intros Hpos Hnet. unfold create_rules, group_rules.
  intros (v & w1 & H1%create_rules_adds & H)%bind_Ok; [|done..].
  apply (adds_app sg _ _ _ _ _ H1). destruct router as [r|]; simpl.
  - apply bind_Ok in H as (l & w2 & (-> & Hd & _)%wrap_Ok%db_find_Ok & H).
    apply create_subnet_rules_adds in H; [|done|].
    + rewrite Hd in H. tables. by rewrite (adds_frame _ _ _ _ H1) in H at 1.
    + apply forallb_forall. intros s [_ Hs]%list_elem_of_In%find_spec. tables.
      rewrite (adds_frame _ _ _ _ H1) in Hs. apply negb_true_iff, String.eqb_neq. by eapply Hnet.
  - apply ret_Ok in H as [_ <-]. apply adds_nil.
Qed.

Lemma create_rule_runs sg x c w :
  no_faults → ValidateOwner (caller c) Writer (SecurityGroup.Owner sg) = true →
  addresses_ok (db w) →
  ∃ u w', create_rule sg x c w = (Ok u, w') ∧ addresses_ok (db w').
Proof.
  intros Hn Hv Hok. destruct x as [[[[ip dir] proto] pmin] pmax].
  destruct (SecruleAdmin_Create_runs "" ip dir proto pmin pmax sg c w Hn Hok Hv) as (o & w' & H).
  exists tt, w'. unfold create_rule, mbind, M_bind. rewrite H. split; [done|].
  apply SecruleAdmin_Create_Ok in H. destruct o as [r|].
  - destruct H as (_ & t & _ & _ & -> & _). exact Hok.
  - by destruct H as [-> _].
Qed.

Lemma create_rules_runs sg router c w :
  no_faults → ValidateOwner (caller c) Writer (SecurityGroup.Owner sg) = true →
  addresses_ok (db w) → ∃ u w', create_rules sg router c w = (Ok u, w').
Proof.
  intros Hn Hv Hok. unfold create_rules.
  destruct (for_each_runs addresses_ok default_rules (create_rule sg) c w) as (u & w1 & H & Hok1);
    [by intros; apply create_rule_runs|done|].
  unfold mbind at 1, M_bind at 1. rewrite H. destruct router as [r|]; [|by do 2 eexists].
  unfold mbind, M_bind, wrap, db_find. rewrite (stmt_runs Hn). cbn [fst snd].
  match goal with |- context [for_each ?l ?f c ?w'] =>
    destruct (for_each_runs addresses_ok l f c w') as (u2 & w2 & H2 & _); [|exact Hok1|by eauto]
  end.
  intros s w3 Hok3. apply for_each_runs; [|done]. by intros; apply create_rule_runs.
Qed.

(** *** Default groups *)

Definition flag (id k : Z) (b : bool) sg : SecurityGroup.t :=
  if k =? id then sg <| SecurityGroup.IsDefault := b |> else sg.

Lemma set_default_Ok id b c w u w' :
  id ≠ 0 → set_default id b c w = (Ok u, w') →
  db w' = db w <| secgroups := secgroups (db w') |> ∧ sent w' = sent w ∧
  ∀ k, groups (db w') !! k = flag id k b <$> groups (db w) !! k.
Proof.
  intros Hid. unfold set_default. intros [Hd Hs]%wrap_Ok%db_update_Ok. tables. rewrite Hd.
  split_and!; [done..|]. intros k. unfold groups. simpl. rewrite update_lookup by (by intros []).
  destruct (rows (secgroups (db w)) !! k) as [g|] eqn:Hg; [|done]. simpl. f_equal.
  unfold by_pk, flag. rewrite (rows_id _ _ _ Hg), pk_nonzero, Z.eqb_sym by done. done.
Qed.

(** Who refers to the default group: a router, or the organization of the caller. *)
Definition default_of c (router : option Router.t) d : option Z :=
  match router with
  | Some r => Router.DefaultSG <$> rows (routers d) !! Router.ID r
  | None => Organization.DefaultSG <$> rows (organizations d) !! MemberShip.OrgID (caller c)
  end.

Lemma OrgAdmin_Get_Ok id c w org w' :
  OrgAdmin_Get id c w = (Ok org, w') →
  rows (organizations (db w)) !! id = Some org ∧ db w' = db w ∧ sent w' = sent w.
Proof.
  unfold OrgAdmin_Get. destruct (Z.leb_spec id 0); [done|]. rewrite GetContextDB_eq.
  intros (Ht & Hd & Hs)%wrap_Ok%db_take_Ok. apply take_pk_row in Ht as [? _]; [done|lia].
Qed.

Lemma db_get_Ok {R} {HR : Row R} {HRO : RowOk R} {HD : InDB R} id c w (x : R) w' :
  id ≠ 0 → db_get id c w = (Ok x, w') →
  rows (tbl (db w)) !! id = Some x ∧ get_id x = id ∧ db w' = db w ∧ sent w' = sent w.
Proof. intros Hid (Ht & Hd & Hs)%db_take_Ok. by apply take_pk_row in Ht as [? ?]. Qed.

(** A group replaces the default group there was, [old]. *)
Definition replaced sg (router : option Router.t) c d d' (old : Z) : Prop :=
  d' = d <| routers := routers d' |> <| organizations := organizations d' |> ∧
  is_Some (groups d !! old) ∧ default_of c router d' = Some (SecurityGroup.ID sg).

Lemma replace_default_router sg rt c w old w' :
  Router.DefaultSG rt ≠ 0 → is_Some (rows (routers (db w)) !! Router.ID rt) →
  replace_default sg (Some rt) c w = (Ok old, w') →
  old = Router.DefaultSG rt ∧ sent w' = sent w ∧ replaced sg (Some rt) c (db w) (db w') old.
Proof.
  intros H0 [r0 Hr]. unfold replace_default.
  intros (g & w1 & (Hg & Hid & Hd & Hs)%wrap_Ok%db_get_Ok & H)%bind_Ok; [|done].
  apply bind_Ok in H as (u & w2 & [Hd2 Hs2]%wrap_Ok%db_update_Ok & [<- <-]%ret_Ok). tables.
  split_and!; [done|congruence|]. rewrite Hd2, Hd. split; [done|]. simpl in Hid. split.
  - unfold groups. rewrite Hid. by eexists.
  - simpl. rewrite (update_pk _ _ _ r0); [by rewrite lookup_insert_eq| |by intros []|done].
    pose proof (rows_pos _ _ _ Hr). lia.
Qed.

Lemma replace_default_org sg c w old w' :
  replace_default sg None c w = (Ok old, w') →
  sent w' = sent w ∧ db w' = db w <| organizations := organizations (db w') |> ∧
  default_of c None (db w') = Some (SecurityGroup.ID sg) ∧
  ∃ org, rows (organizations (db w)) !! MemberShip.OrgID (caller c) = Some org ∧
    (0 < Organization.DefaultSG org → old = Organization.DefaultSG org) ∧
    (Organization.DefaultSG org ≤ 0 → old = 0).
Proof.
  unfold replace_default. intros (m & w0 & [<- <-]%GetMemberShip_Ok & H)%bind_Ok.
  apply bind_Ok in H as (org & w1 & (Ho & Hd & Hs)%wrap_Ok%OrgAdmin_Get_Ok & H).
  apply bind_Ok in H as (x & w2 & H2 & H).
  assert (db w2 = db w1 ∧ sent w2 = sent w1 ∧ (0 < Organization.DefaultSG org → x = Organization.DefaultSG org) ∧
          (Organization.DefaultSG org ≤ 0 → x = 0)) as (Hd2 & Hs2 & Hx1 & Hx2).
  { destruct (Z.ltb_spec 0 (Organization.DefaultSG org)).
    - apply bind_Ok in H2 as (g & w3 & (_ & Hid & Hd2 & Hs2)%db_get_Ok & [<- <-]%ret_Ok); [|lia].
      split_and!; [done..|lia].
    - apply ret_Ok in H2 as [<- <-]. split_and!; [done..|lia|done]. }
  apply bind_Ok in H as (u & w3 & [Hd3 Hs3]%wrap_Ok%db_update_Ok & [<- <-]%ret_Ok). tables.
  rewrite Hd3, Hd2, Hd. split_and!; [congruence|done| |by exists org].
  simpl. pose proof (rows_id _ _ _ Ho) as Hid. simpl in Hid. rewrite Hid.
  rewrite (update_pk _ _ _ org); [by rewrite lookup_insert_eq| |by intros []|done].
  pose proof (rows_pos _ _ _ Ho). lia.
Qed.

Lemma Switch_preserves (I : DB → Prop) sg router :
  (∀ d (p : Router.t → bool) f, I d → I (d <| routers := g_update p f (routers d) |>)) →
  (∀ d (p : Organization.t → bool) f, I d → I (d <| organizations := g_update p f (organizations d) |>)) →
  (∀ d p b, I d →
     I (d <| secgroups := g_update p (λ g, g <| SecurityGroup.IsDefault := b |>) (secgroups d) |>)) →
  preserves I (SecgroupAdmin_Switch sg router).
Proof.
  intros H1 H2 H3. unfold SecgroupAdmin_Switch, replace_default, OrgAdmin_Get, set_default.
  pres; apply pres_db_update; intros; simpl; auto.
Qed.

Lemma Switch_np sg router : no_panic (SecgroupAdmin_Switch sg router).
Proof. unfold SecgroupAdmin_Switch, replace_default, OrgAdmin_Get, set_default. np. Qed.

(** The columns of a group but the flag. *)
Definition unflagged sg : SecurityGroup.t := sg <| SecurityGroup.IsDefault := false |>.

Lemma Switch_groups d0 sg router :
  preserves (λ d, secrules d = secrules d0 ∧ ∀ k, unflagged <$> groups d !! k = unflagged <$> groups d0 !! k)
    (SecgroupAdmin_Switch sg router).
Proof.
  apply Switch_preserves; [done..|]. intros d p b [Hr Hg]. split; [done|]. intros k. rewrite <- Hg.
  unfold groups. simpl. rewrite update_lookup by (by intros []).
  destruct (rows (secgroups d) !! k) as [x|]; [|done]. simpl. by destruct (p x), x.
Qed.

Lemma new_group_owner m u k name isDefault router :
  MemberShip.OrgID m ≠ 0 → Writer ≤ MemberShip.Role m →
  ValidateOwner m Writer (SecurityGroup.Owner
    (set_id k (col_defaults (before_create u (group_model m name isDefault router))))) = true.
Proof.
  intros Ho Hr. simpl. unfold dflt_Z. rewrite (proj2 (Z.eqb_neq _ _) Ho).
  apply ValidateOwner_true. auto.
Qed.

(** The last step of a creation: it returns the group or fails to switch. *)
Lemma finish_create (isDefault : bool) sg router c w x w' :
  ((if isDefault then SecgroupAdmin_Switch sg router else mret tt) ≫= λ _, mret sg) c w = (x, w') →
  (secrules (db w') = secrules (db w) ∧
   ∀ k, unflagged <$> groups (db w') !! k = unflagged <$> groups (db w) !! k) ∧
  (x = Ok sg ∨ isDefault = true ∧ ∃ e, x = Err e).
Proof.
  unfold mbind, M_bind, mret, M_ret. destruct isDefault; [|intros; simplify_eq; auto].
  pose proof (Switch_groups (db w) sg router c w) as Hg. pose proof (Switch_np sg router c w) as Hp.
  destruct (SecgroupAdmin_Switch sg router c w) as [[u|e|] w1]; intros; simplify_eq; simpl in *;
    (split; [by apply Hg|]); [by left|right; by eauto].
Qed.

(** The rules a group has when it had none before. *)
Lemma adds_fresh sg l d d' :
  adds sg l d d' → (∀ k r, rules d !! k = Some r → SecurityRule.Secgroup r ≠ SecurityGroup.ID sg) →
  (∀ x, (∃ k r, rules d' !! k = Some r ∧ SecurityRule.Secgroup r = SecurityGroup.ID sg ∧
                spec_of r = x) ↔ x ∈ l) ∧
  (∀ k r, SecurityRule.Secgroup r ≠ SecurityGroup.ID sg →
     rules d' !! k = Some r ↔ rules d !! k = Some r).
Proof.
  intros [K N H _] Hno. split.
  - intros x. split; [|apply H]. intros (k & r & Hr & Hg & <-).
    apply N in Hr as [Hr|[_ ?]]; [|done]. by apply Hno in Hr.
  - intros k r Hg. split; [|apply K]. intros [?|[? _]]%N; done.
Qed.

(** *** Deleting a group *)

Definition is_default_of sg d : Prop :=
  SecurityGroup.IsDefault sg = true ∧ SecurityGroup.Name sg ≠ SystemDefaultSGName ∧
  if 0 <? SecurityGroup.RouterID sg then
    ∃ rt, rows (routers d) !! SecurityGroup.RouterID sg = Some rt ∧
          Router.DefaultSG rt = SecurityGroup.ID sg
  else is_Some (rows (organizations d) !! SecurityGroup.Owner sg).

Lemma guards_default_reads sg I : preserves I (guards_default sg).
Proof. unfold guards_default, OrgAdmin_Get. pres. Qed.

Lemma guards_default_quiet sg : quiet (guards_default sg).
Proof. unfold guards_default, OrgAdmin_Get. quiet_tac. Qed.

Lemma guards_default_np sg : no_panic (guards_default sg).
Proof. unfold guards_default, OrgAdmin_Get. np. Qed.

(** When no statement fails, the default group of a router or of an organization
    is recognized. *)
Lemma guards_default_false sg c w w' :
  no_faults → guards_default sg c w = (Ok false, w') → ¬ is_default_of sg (db w).
Proof.
  intros Hn H (Hd & Hname & Hof). unfold guards_default in H.
  rewrite Hd, (proj2 (String.eqb_neq _ _) Hname) in H. simpl in H.
  destruct (Z.ltb_spec 0 (SecurityGroup.RouterID sg)) as [Hr|Hr].
  - destruct Hof as (rt & Hrt & Hsg). apply bind_Ok in H as ([x|e] & w1 & Hx%try_Ok & [Hb _]%ret_Ok);
      [done|]. unfold db_take, mbind, M_bind in Hx. rewrite (stmt_runs Hn) in Hx. cbn [fst] in Hx.
    destruct (g_take _ _) eqn:Ht; [done|]. eapply take_none in Ht; [|exact Hrt]. tables.
    unfold by_pk in Ht. rewrite (rows_id _ _ _ Hrt), pk_self, Hsg, Z.eqb_refl in Ht. done.
  - destruct Hof as [o Ho]. pose proof (rows_pos _ _ _ Ho).
    apply bind_Ok in H as ([x|e] & w1 & Hx%try_Ok & [Hb _]%ret_Ok); [done|].
    unfold OrgAdmin_Get in Hx. rewrite (proj2 (Z.leb_gt _ _)) in Hx by lia.
    rewrite GetContextDB_eq in Hx. apply wrap_Err in Hx as (e1 & _ & Hx).
    edestruct (db_get_runs (HD := in_organizations) (SecurityGroup.Owner sg) o) as (w2 & Hg & _);
      [done|exact Ho|]. by erewrite Hg in Hx.
Qed.

Lemma delete_renamed (m : gmap Z SecurityGroup.t) id (f : SecurityGroup.t → SecurityGroup.t) :
  (∀ k x, m !! k = Some x → SecurityGroup.ID x = k) →
  (λ g, if by_id id g then f g else g) <$> delete id m = delete id m.
Proof.
  intros Hm. apply map_eq. intros k. rewrite lookup_fmap.
  destruct (decide (k = id)) as [->|Hk]; [by rewrite lookup_delete_eq|].
  rewrite lookup_delete_ne by done. destruct (m !! k) as [x|] eqn:Hx; [|done]. simpl.
  unfold by_id. simpl. rewrite (Hm _ _ Hx), (proj2 (Z.eqb_neq _ _) Hk). done.
Qed.

(** The effect of a deletion. *)
Record group_deleted sg d d' : Prop := {
  gd_unused k i : ifs d !! k = Some i → in_group (SecurityGroup.ID sg) i = false;
  gd_groups : groups d' = delete (SecurityGroup.ID sg) (groups d);
  gd_rules k : rules d' !! k = match rules d !! k with
    | Some r => if SecurityRule.Secgroup r =? SecurityGroup.ID sg then None else Some r
    | None => None end;
  gd_frame : d' = d <| secgroups := secgroups d' |> <| secrules := secrules d' |>
}.

Lemma SecgroupAdmin_Delete_Ok created sg c w u w' :
  0 < SecurityGroup.ID sg → SecgroupAdmin_Delete created sg c w = (Ok u, w') →
  ValidateOwner (caller c) Writer (SecurityGroup.Owner sg) = true ∧
  group_deleted sg (db w) (db w') ∧ sent w' = sent w ∧
  ∃ w1, guards_default sg (c <| dbkey := true |>) w = (Ok false, w1).
Proof.
  intros Hpos. unfold SecgroupAdmin_Delete.
  intros (m & w0 & [<- <-]%GetMemberShip_Ok & H)%with_tx_Ok%bind_Ok.
  apply bind_Ok in H as (x & w0 & [Hv <-]%require_Ok & H).
  apply bind_Ok in H as (b & w1 & Hb & H).
  apply bind_Ok in H as (x0 & w0 & [Hnb <-]%require_Ok & H). apply negb_true_iff in Hnb as ->.
  pose proof (reads_run _ _ _ _ _ (reads_preserves _ (λ _, guards_default_reads _ _)) Hb) as Hd1.
  pose proof (quiet_run _ _ _ _ _ (guards_default_quiet _) Hb) as Hs1.
  apply bind_Ok in H as (l & w2 & (-> & Hd2 & Hs2)%wrap_Ok%db_find_Ok & H).
  apply bind_Ok in H as (x1 & w0 & [Hl <-]%require_Ok & H). apply negb_true_iff, Nat.ltb_ge in Hl.
  apply bind_Ok in H as (x2 & w3 & [Hd3 Hs3]%wrap_Ok%db_delete_Ok & H).
  apply bind_Ok in H as (x3 & w4 & [Hd4 Hs4]%wrap_Ok%db_delete_Ok & H).
  apply wrap_Ok, db_update_all_Ok in H as [Hd5 Hs5]. tables. simpl in Hv.
  rewrite Hd4, Hd3, Hd2, Hd1 in Hd5. split_and!; [done| |congruence|by exists w1].
  rewrite Hd5. split; simpl.
  - assert (g_find (in_group (SecurityGroup.ID sg)) (interfaces (db w)) = []) as Hnil.
    { rewrite Hd1 in Hl. tables. by destruct (g_find _ _); simpl in Hl; [|lia]. }
    by apply find_nil.
  - unfold groups. simpl. rewrite update_all_spec by (by intros []).
    rewrite delete_pk by lia. apply delete_renamed. intros k g Hg. exact (rows_id _ _ _ Hg).
  - intros k. unfold rules. simpl. apply delete_spec.
  - done.
Qed.

(** *** Changing a rule *)

Lemma update_ports_inl pmin pmax r r' :
  update_ports pmin pmax r = inl r' →
  pmin ≤ pmax ∧
  (1 ≤ pmin ∧ pmax ≤ 65535 ∧
     r' = r <| SecurityRule.PortMin := pmin |> <| SecurityRule.PortMax := pmax |> ∨
   pmin = -1 ∧ r' = r <| SecurityRule.PortMin := -1 |>).
Proof.
  unfold update_ports.
  destruct (Z.leb_spec pmin pmax); [|done].
  destruct (Z.ltb_spec 0 pmin), (Z.ltb_spec pmin 65536); simpl; try lia.
  - destruct (Z.ltb_spec 0 pmax); simpl; [|lia].
    destruct (Z.ltb_spec pmax 65536); simpl; [|by rewrite (proj2 (Z.ltb_lt _ _)) by lia].
    intros [= <-]. split; [done|]. left. split_and!; [lia..|].
    rewrite !int32_id; [done|..]; unfold fits; rewrite andb_true_iff, Z.leb_le, Z.ltb_lt;
      change (2 ^ (32 - 1)) with 2147483648; lia.
  - destruct (Z.ltb_spec pmin (-1)), (Z.eqb_spec pmin 0); simpl; try done;
      (destruct (Z.ltb_spec 65535 pmin); [done|lia]).
  - destruct (Z.ltb_spec pmin (-1)), (Z.eqb_spec pmin 0); simpl; try done.
    destruct (Z.ltb_spec 65535 pmin); [done|]. intros [= <-]. split; [done|]. right.
    split; [lia|done].
Qed.

End secgroup_lemmas.

Section secgroup_theorems.
Context {G : Gorm} {E : Env} {GOk : GormOk G}.
Implicit Types (c : Ctx) (w : World) (i : Interface.t) (v : Instance.t) (sg : SecurityGroup.t).

(** The row of a new rule: the values given, IPv4, and -1 for the ports of an ICMP rule
    and for a port 0; the caller is the creator and its organization the owner. *)
Definition rule_row (m : MemberShip.t) (name ip dir proto : string) (pmin pmax : Z) sg r : Prop :=
  let or_default d x := if x =? 0 then d else x in
  let port x := if String.eqb proto "icmp" then -1 else or_default (-1) x in
  r = SecurityRule.mk (SecurityRule.ID r) (SecurityRule.UUID r)
        (or_default 1 (MemberShip.UserID m)) (or_default 1 (MemberShip.OrgID m))
        (SecurityGroup.ID sg) ip 0 dir "ipv4" proto (port pmin) (port pmax) name.

(** The rules a request is compared with: a blank text or a 0 matches any value. *)
Definition taken_for (ip dir proto : string) (pmin pmax : Z) sg r : Prop :=
  SecurityRule.Secgroup r = SecurityGroup.ID sg ∧ SecurityRule.IpVersion r = "ipv4" ∧
  (ip = "" ∨ SecurityRule.RemoteIp r = ip) ∧ (dir = "" ∨ SecurityRule.Direction r = dir) ∧
  (proto = "" ∨ SecurityRule.Protocol r = proto) ∧
  (pmin = 0 ∨ SecurityRule.PortMin r = pmin) ∧ (pmax = 0 ∨ SecurityRule.PortMax r = pmax).

(** A rule as a hypervisor reads it. *)
Definition rule_json (r : SecurityRule.t) : json :=
  JObj [("Secgroup", JNum (SecurityRule.Secgroup r)); ("remote_ip", JStr (SecurityRule.RemoteIp r));
        ("remote_group", JNum (SecurityRule.RemoteGroupID r));
        ("direction", JStr (SecurityRule.Direction r)); ("ip_version", JStr (SecurityRule.IpVersion r));
        ("protocol", JStr (SecurityRule.Protocol r)); ("port_min", JNum (SecurityRule.PortMin r));
        ("port_max", JNum (SecurityRule.PortMax r))].

Definition json_member (k : string) (fields : list (string * json)) : option json :=
  snd <$> List.find (λ f, String.eqb f.1 k) fields.

(** The hypervisor of [v] is sent the interface [i] with exactly the rules of its groups. *)
Definition told_rules d i v (l : list (string * string)) : Prop :=
  ∃ os fields objs,
    ("inter=" +:+ fmt_d (Instance.Hyper v),
     "/opt/cloudland/scripts/backend/sync_nic_info.sh '" +:+ fmt_d (Instance.ID v) +:+ "' '"
       +:+ Instance.Hostname v +:+ "' '" +:+ os +:+ "' '" +:+ "false" +:+ "'<<EOF" +:+ newline
       +:+ Marshal (JArr [JObj fields]) +:+ newline +:+ "EOF") ∈ l ∧
    json_member "mac_address" fields = Some (JStr (Interface.MacAddr i)) ∧
    json_member "security" fields = Some (match objs with [] => JNull | _ => JArr objs end) ∧
    ∀ o, o ∈ objs ↔ ∃ sg r, groups d !! SecurityGroup.ID sg = Some sg ∧
      in_group (SecurityGroup.ID sg) i = true ∧ rules d !! SecurityRule.ID r = Some r ∧
      SecurityRule.Secgroup r = SecurityGroup.ID sg ∧ o = rule_json r.

Lemma stored_rule_row m name ip dir proto pmin pmax sg r :
  stored_rule m name ip dir proto pmin pmax sg r → rule_row m name ip dir proto pmin pmax sg r.
Proof.
  intros [u Hr]. unfold rule_row. rewrite Hr. clear Hr. unfold rule_model. cbn. unfold dflt_Z.
  destruct (String.eqb proto "icmp"); reflexivity.
Qed.

Lemma same_rule_taken ip dir proto pmin pmax sg r :
  0 < SecurityGroup.ID sg →
  same_rule (SecurityGroup.ID sg) ip dir proto pmin pmax r = true ↔
  taken_for ip dir proto pmin pmax sg r.
Proof.
  intros Hsg. unfold same_rule, taken_for.
  rewrite !andb_true_iff, !orb_true_iff, !String.eqb_eq, !Z.eqb_eq. intuition (lia || congruence).
Qed.

Lemma notified_synced d i v l : notified d i v l → told_rules d i v l.
Proof.
  intros (v' & os & info & Hv & [Hm Ht] & Hin).
  assert (Instance.ID v' = Instance.ID v ∧ Instance.Hostname v' = Instance.Hostname v) as [H1 H2]
    by (by rewrite Hv).
  unfold sync_nic_command in Hin. rewrite H1, H2 in Hin.
  destruct (json_vlan info) as [| | | | |fields] eqn:Hj; try discriminate Hj.
  exists os, fields, (map json_security (VlanInfo.SecRules info)). split; [exact Hin|].
  injection Hj as <-. split; [by rewrite <- Hm|]. split; [by destruct (VlanInfo.SecRules info)|].
  intros o. rewrite list_elem_of_fmap. setoid_rewrite Ht. split.
  - intros (x & -> & sg & r & ? & ? & ? & ? & ->). by exists sg, r.
  - intros (sg & r & ? & ? & ? & ? & ->). exists (security_data r). split; [done|]. by exists sg, r.
Qed.

(** C28. A rule that a writer of the owner adds to a security group reaches the
    hypervisors.  When no statement fails, every post is answered and every address is in a
    subnet, the operation returns.  Either the group has a rule with the values given and
    nothing changes; a blank text or a port 0 matches any value there, and the ports of an
    ICMP rule are compared as given although they are stored as -1, so that such a rule is
    inserted again.  Or no rule matches, the rule is inserted with the values given, each in
    its column, and for every interface in the group with an address, of an instance that
    exists, the hypervisor of the instance is sent the interface with exactly the rules of
    all its groups, as they are after the insertion, each with its group, remote address and
    group, direction, version, protocol and ports. *)
Theorem secrule_create_applied name ip dir proto pmin pmax sg c w :
  no_faults → all_posted → addresses_ok (db w) → 0 < SecurityGroup.ID sg →
  ValidateOwner (caller c) Writer (SecurityGroup.Owner sg) = true →
  ∃ o w', SecruleAdmin_Create name ip dir proto pmin pmax sg c w = (Ok o, w') ∧
  match o with
  | None => db w' = db w ∧ sent w' = sent w ∧
      ∃ r, rules (db w) !! SecurityRule.ID r = Some r ∧ taken_for ip dir proto pmin pmax sg r
  | Some r => rule_row (caller c) name ip dir proto pmin pmax sg r ∧
      (∀ k r', rules (db w) !! k = Some r' → ¬ taken_for ip dir proto pmin pmax sg r') ∧
      rules (db w) !! SecurityRule.ID r = None ∧
      rules (db w') = <[SecurityRule.ID r := r]> (rules (db w)) ∧
      groups (db w') = groups (db w) ∧
      ∀ i v, attached (db w) sg i v → told_rules (db w') i v (sent w')
  end.
Proof.
  intros Hn Hp Hok Hpos Hv. destruct (SecruleAdmin_Create_runs name ip dir proto pmin pmax sg c w Hn Hok Hv)
    as (o & w' & H). exists o, w'. split; [done|].
  apply SecruleAdmin_Create_steps in H as [_ H]. destruct o as [r|].
  2: { destruct H as (? & ? & r & ? & Hr). split_and!; [done..|]. exists r. split; [done|].
       by apply same_rule_taken. }
  destruct H as (Hr & t & w2 & u & Hnone & Ht & Hd & Ha & Hget).
  pose proof (ApplySecgroup_run_renames _ _ _ _ _ Ha) as [Hd' _].
  assert (secrules (db w') = t ∧ secgroups (db w') = secgroups (db w)) as [Hrules Hgroups]
    by (by rewrite Hd', Hd).
  unfold rules, groups. rewrite Hrules, Hgroups. split_and!; try done.
  { by apply stored_rule_row. }
  { destruct Hget as (e & w1 & Hget). intros k r' Hk Hs. apply same_rule_taken in Hs; [|done].
    eapply GetRule_none in Hget; [|done|by apply writer_reads|exact Hk]. congruence. }
  intros i v Hatt. apply notified_synced.
  destruct (ApplySecgroup_posts sg (c <| dbkey := true |>) w2 u w' i v Hn Hp) as (v' & os & info & Hv' & [Hm Ht'] & Hin);
    [by rewrite Hd|done|by rewrite Hd|].
  exists v', os, info. split_and!; [done| |done]. split; [done|]. intros x. rewrite Ht'.
  unfold rules, groups. by rewrite Hrules, Hgroups, Hd.
Qed.

(** A new security group has exactly the default rules and, for a router,
    two rules per subnet of the router; the rules of other groups stay.  When no
    statement fails, a caller who may create the group gets it, unless the switch
    of the default group fails, which undoes everything; there is no panic. *)
Theorem secgroup_create_rules name isDefault router c w :
  no_faults → addresses_ok (db w) → sec_ok (db w) → networks_ok (db w) →
  MemberShip.OrgID (caller c) ≠ 0 → Writer ≤ MemberShip.Role (caller c) →
  may_create_group (caller c) router = true →
  match SecgroupAdmin_Create name isDefault router c w with
  | (Ok sg, w') =>
      groups (db w) !! SecurityGroup.ID sg = None ∧
      (∃ g, groups (db w') !! SecurityGroup.ID sg = Some g ∧ unflagged g = unflagged sg) ∧
      SecurityGroup.Name sg = name ∧ SecurityGroup.Owner sg = MemberShip.OrgID (caller c) ∧
      (∀ x, (∃ k r, rules (db w') !! k = Some r ∧
               SecurityRule.Secgroup r = SecurityGroup.ID sg ∧ spec_of r = x) ↔
            x ∈ group_rules router (db w)) ∧
      (∀ k r, SecurityRule.Secgroup r ≠ SecurityGroup.ID sg →
         rules (db w') !! k = Some r ↔ rules (db w) !! k = Some r)
  | (Err _, w') => isDefault = true ∧ (dbkey c = false → db w' = db w)
  | (Panic, _) => False
  end.
Proof.
  intros Hn Hok [Hrules _] Hnet Horg Hrole Hmay. unfold SecgroupAdmin_Create, mbind at 1, M_bind at 1.
  cbn [GetMemberShip]. unfold require. rewrite Hmay. unfold mbind at 1, M_bind at 1. cbn [mret M_ret].
  set (c' := c <| dbkey := true |>).
  match goal with |- context [with_tx ?b c w] => set (body := b) end.
  destruct (body c' w) as [r w1] eqn:Hb. destruct (with_tx_run body c w r w1 Hb) as (w' & -> & _ & Hw').
  unfold body, mbind at 1, M_bind at 1, wrap, db_create in Hb. rewrite (stmt_runs Hn) in Hb.
  destruct (g_create _ _) as [sg t] eqn:Hc. cbn [fst snd] in Hb.
  apply create_spec in Hc as (Hpos & Hnone & Hsg & Ht). tables.
  set (w2 := tick w <| db := _ |>) in Hb.
  assert (ValidateOwner (caller c') Writer (SecurityGroup.Owner sg) = true) as Hv
    by (rewrite Hsg; by apply new_group_owner).
  destruct (create_rules_runs sg router c' w2 Hn Hv) as (u & w3 & Hr); [exact Hok|].
  unfold mbind at 1, M_bind at 1 in Hb. rewrite Hr in Hb.
  apply create_rules_Ok in Hr; [|done|exact Hnet].
  apply finish_create in Hb as [[Hsr Hgr] [->|[-> [e ->]]]]; [|split; [done|]; intros Hk; by rewrite Hw', Hk].
  rewrite Hw'. destruct (adds_fresh _ _ _ _ Hr) as [Hspec Hother].
  { intros k x Hx Hg. apply Hrules in Hx as [g Hx]. rewrite Hg in Hx. unfold groups in Hx.
    simpl in Hnone. congruence. }
  assert (rules (db w1) = rules (db w3)) as -> by (unfold rules; by rewrite Hsr).
  split_and!; [done| |by rewrite Hsg| |done|done].
  - specialize (Hgr (SecurityGroup.ID sg)). rewrite (adds_frame _ _ _ _ Hr) in Hgr.
    unfold groups in Hgr at 2. simpl in Hgr, Ht. rewrite Ht, lookup_insert_eq in Hgr.
    destruct (groups (db w1) !! _) as [g|]; [|done]. exists g. split; [done|]. exact (inj Some _ _ Hgr).
  - rewrite Hsg. simpl. unfold dflt_Z. by rewrite (proj2 (Z.eqb_neq _ _) Horg).
Qed.

(** Deleting a security group: a success means that the caller may write the
    group, that no interface is in it, and that it is not the default group of its
    router or, for a group without a router, of an organization that exists; the
    group and its rules are gone and nothing else changed.  An error of a request
    of its own leaves the database as it was.  Nothing is posted, nothing panics. *)
Theorem secgroup_delete_outcomes created sg c w :
  0 < SecurityGroup.ID sg → no_faults →
  match SecgroupAdmin_Delete created sg c w with
  | (Ok _, w') => ValidateOwner (caller c) Writer (SecurityGroup.Owner sg) = true ∧
      ¬ is_default_of sg (db w) ∧ group_deleted sg (db w) (db w') ∧ sent w' = sent w
  | (Err _, w') => (dbkey c = false → db w' = db w) ∧ sent w' = sent w
  | (Panic, _) => False
  end.
Proof.
  intros Hpos Hn. destruct (SecgroupAdmin_Delete created sg c w) as [[u|e|] w'] eqn:H.
  - apply SecgroupAdmin_Delete_Ok in H as (Hv & Hdel & Hs & w1 & Hg); [|done].
    split_and!; [done| |done..]. by eapply guards_default_false.
  - split; [intros Hk; by eapply with_tx_Err|]. refine (quiet_run _ _ _ _ _ _ H).
    unfold SecgroupAdmin_Delete. quiet_tac; apply guards_default_quiet.
  - refine (np_refute _ _ _ _ _ H). unfold SecgroupAdmin_Delete. np. apply guards_default_np.
Qed.

(** The ports of a changed rule: a success means that a valid range was given,
    which is stored, or the lower port -1, which leaves the upper one as it was;
    the rule is the only row that changes, and no hypervisor is told.  An error
    changes nothing.  The operation panics only for a remote address without a
    prefix length. *)
Theorem secrule_update_ports id name ip dir proto pmin pmax c w :
  id ≠ 0 →
  match SecruleAdmin_Update id name ip dir proto pmin pmax c w with
  | (Ok r, w') => ∃ r0, rules (db w) !! id = Some r0 ∧ rules (db w') = <[id := r]> (rules (db w)) ∧
      SecurityRule.Secgroup r = SecurityRule.Secgroup r0 ∧
      (1 ≤ pmin ≤ pmax ∧ pmax ≤ 65535 ∧
         SecurityRule.PortMin r = pmin ∧ SecurityRule.PortMax r = pmax ∨
       pmin = -1 ∧ SecurityRule.PortMin r = -1 ∧
         SecurityRule.PortMax r = SecurityRule.PortMax r0) ∧
      sent w' = sent w
  | (Err _, w') => db w' = db w ∧ sent w' = sent w
  | (Panic, _) => ip ≠ "" ∧ Contains ip "/" = false
  end.
Proof.
  intros Hid. destruct (SecruleAdmin_Update id name ip dir proto pmin pmax c w) as [[r|e|] w'] eqn:H;
    unfold SecruleAdmin_Update in H; rewrite GetContextDB_eq in H.
  - apply bind_Ok in H as (r0 & w1 & (Hr & Hk & Hd & Hs)%wrap_Ok%db_get_Ok & H); [|done].
    apply bind_Ok in H as (r1 & w2 & H1 & H).
    assert (w2 = w1 ∧ ∃ s, r1 = r0 <| SecurityRule.RemoteIp := s |>) as [-> [s ->]].
    { destruct (String.eqb ip ""); go_ok; split; eauto. exists (SecurityRule.RemoteIp r1).
      by destruct r1. }
    destruct (update_ports _ _ _) as [r2|] eqn:Hp; [|done].
    apply bind_Ok in H as (u & w3 & [Hd3 Hs3]%wrap_Ok%db_update_Ok & [<- <-]%ret_Ok). tables.
    apply update_ports_inl in Hp as [Hle Hp]. exists r0. split; [done|].
    assert (SecurityRule.ID r2 = id) as HID by (destruct Hp as [(_ & _ & ->)|[_ ->]]; done).
    rewrite HID in Hd3. split_and!.
    + rewrite Hd3, Hd. unfold rules. simpl. rewrite (update_key _ _ _ r0); [|by intros []|done].
      f_equal. destruct Hp as [(_ & _ & ->)|[_ ->]]; by destruct r0.
    + destruct Hp as [(_ & _ & ->)|[_ ->]]; done.
    + destruct Hp as [(? & ? & ->)|[? ->]]; [left|right]; simpl; auto with lia.
    + congruence.
  - apply bind_Err in H as [H|(r0 & w1 & (_ & _ & Hd & Hs)%wrap_Ok%db_get_Ok & H)]; [..|done].
    { split; [refine (reads_run _ _ _ _ _ _ H); by reads_tac|].
      refine (quiet_run _ _ _ _ _ _ H). quiet_tac. }
    rewrite <- Hd, <- Hs. apply bind_Err in H as [H|(r1 & w2 & H1 & H)].
    { split; [refine (reads_run _ _ _ _ _ _ H); by reads_tac|].
      refine (quiet_run _ _ _ _ _ _ H). quiet_tac. }
    assert (w2 = w1) as -> by (destruct (String.eqb ip ""); by go_ok).
    destruct (update_ports _ _ _) as [r2|]; [|by apply fail_Err in H as [_ <-]].
    apply bind_Err in H as [H|(u & w3 & _ & H)]; [|done].
    apply wrap_Err in H as (e1 & _ & H). unfold db_update in H. by apply stmt_Err in H as (_ & ? & ?).
  - apply bind_Panic in H as [H|(r0 & w1 & _ & H)].
    { exfalso. refine (np_refute _ _ _ _ _ H). np. }
    apply bind_Panic in H as [H|(r1 & w2 & _ & H)].
    + destruct (String.eqb_spec ip ""); [done|]. split; [done|].
      apply bind_Panic in H as [H%deref_Panic|(x & w2 & _ & H)]; [by apply Split_second|].
      exfalso. refine (np_refute _ _ _ _ _ H). np.
    + exfalso. refine (np_refute _ _ _ _ _ H). np.
Qed.

(** The default group of a router moves: when no statement fails and the router
    has a default group that exists, [Switch] returns, the router refers to the new
    group, the new group is marked as default, the old one is not any more, and no
    other group changes. *)
Theorem default_group_switched sg rt c w :
  no_faults → 0 < SecurityGroup.ID sg → is_Some (rows (routers (db w)) !! Router.ID rt) →
  is_Some (groups (db w) !! Router.DefaultSG rt) →
  ∃ w', SecgroupAdmin_Switch sg (Some rt) c w = (Ok tt, w') ∧ sent w' = sent w ∧
    default_of c (Some rt) (db w') = Some (SecurityGroup.ID sg) ∧
    ∀ k, groups (db w') !! k =
      (λ g, if k =? SecurityGroup.ID sg then g <| SecurityGroup.IsDefault := true |>
            else if k =? Router.DefaultSG rt then g <| SecurityGroup.IsDefault := false |>
            else g) <$> groups (db w) !! k.
Proof.
  intros Hn Hpos Hrt [g0 Hg0]. pose proof (rows_pos _ _ _ Hg0) as Hpos0.
  destruct (SecgroupAdmin_Switch sg (Some rt) c w) as [[[]|e|] w'] eqn:H.
  - exists w'. split; [done|]. unfold SecgroupAdmin_Switch in H. rewrite GetContextDB_eq in H.
    apply bind_Ok in H as (old & w1 & Hold & H).
    apply replace_default_router in Hold as (-> & Hs1 & Hd1 & _ & Hdef); [|lia|done].
    rewrite (proj2 (Z.ltb_lt _ _) Hpos0) in H.
    apply bind_Ok in H as (u & w2 & (Hd2 & Hs2 & Hk2)%set_default_Ok & H); [|lia].
    apply set_default_Ok in H as (Hd3 & Hs3 & Hk3); [|lia].
    split_and!; [congruence|by rewrite Hd3, Hd2|].
    intros k. rewrite Hk3, Hk2, <- option_fmap_compose. rewrite Hd1.
    destruct (groups (db w) !! k) as [g|] eqn:Hg; unfold groups in *; simpl; rewrite Hg; [|done].
    simpl. f_equal. unfold flag. destruct g. by repeat case_if.
  - exfalso. unfold SecgroupAdmin_Switch, replace_default, set_default in H.
    rewrite GetContextDB_eq in H. apply bind_Err in H as [H|(old & w1 & _ & H)].
    + apply bind_Err in H as [(e1 & _ & H)%wrap_Err|(g & w1 & _ & H)].
      * edestruct (db_get_runs (HD := in_secgroups) (Router.DefaultSG rt) g0) as (w1 & Hget & _);
          [done|exact Hg0|]. by rewrite Hget in H.
      * refine (ne_refute _ _ _ _ _ _ H). ne_tac.
    + refine (ne_refute _ _ _ _ _ _ H). ne_tac.
  - exfalso. refine (np_refute _ _ _ _ _ H). apply Switch_np.
Qed.

End secgroup_theorems.
