(* ===== verification/SecgroupSystem.v ===== *)
(** * SecgroupSystem: requests on security groups, as a system

    A request looks a group up and works on it, the way the handlers of
    apis/secgroup.go, apis/secrule.go and apis/interface.go do.  Whatever the
    requests are and whatever fails in them, every rule belongs to a group that
    exists and no interface is left with a group that does not: [sec_ok] is an
    invariant. *)

From S2P Require Import Prelude GoLib ErrorCodes Gorm Model Store Scenario Member Catalog Volume Admin Ipam NetInfo Secgroup.

Section system.
Context {G : Gorm} {E : Env}.

(** The requests: [Create], [Patch], [Delete] of a group, [Create], [Delete] of a
    rule, the edit of a rule, and interfaces that are created in groups and
    deleted. *)
Inductive sg_op :=
  | CreateGroup (name : string) (isDefault : bool) (router : option Router.t)
  | UpdateGroup (uuid name : string) (isDefault : bool)
  | DeleteGroup (created : Z) (uuid : string)
  | DefaultGroup (timestamp : Z)
  | CreateRule (uuid name ip dir proto : string) (pmin pmax : Z)
  | UpdateRule (id : Z) (name ip dir proto : string) (pmin pmax : Z)
  | DeleteRule (uuid rule : string)
  | Plug (subnet : Subnet.t) (instance owner hyper : Z) (ip mac name : string)
      (references : list BaseReference.t)
  | Unplug (iface : Interface.t).

Fixpoint find_groups (references : list BaseReference.t) : M (list SecurityGroup.t) :=
  match references with
  | [] => mret []
  | r :: references =>
      sg ← SecgroupAdmin_GetSecurityGroup (Some r);
      sgs ← find_groups references;
      mret (sg :: sgs)
  end.

Definition run_op (o : sg_op) : M unit :=
  match o with
  | CreateGroup name isDefault router =>
      _ ← SecgroupAdmin_Create name isDefault router; mret tt
  | UpdateGroup uuid name isDefault =>
      sg ← SecgroupAdmin_GetSecgroupByUUID uuid; SecgroupAdmin_Update sg name isDefault
  | DeleteGroup created uuid =>
      sg ← SecgroupAdmin_GetSecgroupByUUID uuid; SecgroupAdmin_Delete created sg
  | DefaultGroup timestamp => _ ← SecgroupAdmin_GetDefaultSecgroup timestamp; mret tt
  | CreateRule uuid name ip dir proto pmin pmax =>
      sg ← SecgroupAdmin_GetSecgroupByUUID uuid;
      _ ← SecruleAdmin_Create name ip dir proto pmin pmax sg; mret tt
  | UpdateRule id name ip dir proto pmin pmax =>
      _ ← SecruleAdmin_Update id name ip dir proto pmin pmax; mret tt
  | DeleteRule uuid rule =>
      sg ← SecgroupAdmin_GetSecgroupByUUID uuid;
      r ← SecruleAdmin_GetSecruleByUUID rule sg;
      SecruleAdmin_Delete r sg
  | Plug subnet instance owner hyper ip mac name references =>
      sgs ← find_groups references;
      _ ← with_tx (CreateInterface subnet instance owner hyper 0 0 ip mac name "instance" sgs false);
      mret tt
  | Unplug iface => with_tx (DeleteInterface iface)
  end.

(** Requests one after the other; each ends in some outcome. *)
Fixpoint serve_ops (l : list (Ctx * sg_op)) (w : World) : World :=
  match l with
  | [] => w
  | (c, o) :: l => serve_ops l (run_op o c w).2
  end.

End system.

Section system_lemmas.
Context {G : Gorm} {E : Env} {GOk : GormOk G}.
Implicit Types (c : Ctx) (w : World) (d : DB) (i : Interface.t) (sg : SecurityGroup.t)
  (r : SecurityRule.t).

(** The invariant, with a group known to exist. *)
Definition ok_with (k : Z) d : Prop := sec_ok d ∧ is_Some (groups d !! k).

Lemma sec_ok_frame d d' :
  secrules d' = secrules d → secgroups d' = secgroups d → interfaces d' = interfaces d →
  sec_ok d → sec_ok d'.
Proof.
  intros H1 H2 H3 [Hr Hi]. unfold rules, groups, ifs in *.
  split; unfold rules, groups, ifs; rewrite ?H1, ?H2, ?H3; done.
Qed.

Lemma ok_with_frame k d d' :
  secrules d' = secrules d → secgroups d' = secgroups d → interfaces d' = interfaces d →
  ok_with k d → ok_with k d'.
Proof.
  intros H1 H2 H3 [Hok Hk]. split; [by apply (sec_ok_frame d)|]. unfold groups. by rewrite H2.
Qed.

Lemma sec_ok_renames d d' : renames d d' → sec_ok d → sec_ok d'.
Proof.
  intros [Hd Hk] [Hr Hi]. rewrite Hd. split; [exact Hr|].
  intros k i sg Hin Hsg. unfold ifs in Hin. simpl in Hin. specialize (Hk k).
  unfold ifs in Hk at 1. rewrite Hin in Hk. destruct (ifs d !! k) as [i0|] eqn:H0; [|done].
  apply (inj Some) in Hk. eapply (Hi k i0); [done|].
  by destruct i, i0; unfold nameless in Hk; simplify_eq.
Qed.

Lemma sec_ok_rule_added d r d' :
  rule_added r d d' → is_Some (groups d !! SecurityRule.Secgroup r) → sec_ok d → sec_ok d'.
Proof.
  intros (t & _ & Ht & Hren) Hg [Hr Hi]. eapply sec_ok_renames; [done|]. split; [|exact Hi].
  intros k r'. unfold rules. simpl. rewrite Ht, lookup_insert_Some. intros [[_ <-]|[_ Hk]]; [done|].
  by eapply Hr.
Qed.

(** Deleting rules, and deleting a group that nothing refers to. *)
Lemma sec_ok_rules_deleted d p :
  sec_ok d → sec_ok (d <| secrules := g_delete p (secrules d) |>).
Proof.
  intros [Hr Hi]. split; [|exact Hi]. intros k r. unfold rules. simpl. rewrite delete_spec.
  intros Hk. apply (Hr k). unfold rules. destruct (rows (secrules d) !! k) as [x|]; [|done].
  by destruct (p x).
Qed.

Lemma sec_ok_group_deleted d id :
  id ≠ 0 → (∀ k r, rules d !! k = Some r → SecurityRule.Secgroup r ≠ id) →
  (∀ k i, ifs d !! k = Some i → in_group id i = false) →
  sec_ok d → sec_ok (d <| secgroups := g_delete (by_pk id) (secgroups d) |>).
Proof.
  intros Hid Hno Hni [Hr Hi]. split.
  - intros k r Hk. unfold groups. simpl. rewrite delete_pk, lookup_delete_ne by (done || by eapply not_eq_sym, Hno).
    by eapply Hr.
  - intros k i sg Hk Hsg. unfold groups. simpl. rewrite delete_pk by done.
    rewrite lookup_delete_ne; [by eapply Hi|]. intros ->.
    specialize (Hni k i Hk). unfold in_group in Hni. rewrite <- not_true_iff_false, existsb_exists in Hni.
    apply Hni. exists sg. split; [by apply list_elem_of_In|apply Z.eqb_refl].
Qed.

(** A write to groups that keeps which exist. *)
Lemma sec_ok_groups_same d t :
  (∀ k, is_Some (groups d !! k) → is_Some (rows t !! k)) →
  sec_ok d → sec_ok (d <| secgroups := t |>).
Proof. intros Ht [Hr Hi]. split; intros; apply Ht; [by eapply Hr|by eapply Hi]. Qed.

Lemma groups_updated d p (f : SecurityGroup.t → SecurityGroup.t) k :
  keeps_id f → is_Some (groups d !! k) → is_Some (rows (g_update p f (secgroups d)) !! k).
Proof. intros Hf [x Hx]. rewrite update_lookup by done. unfold groups in Hx. rewrite Hx. by eexists. Qed.

Lemma ok_with_update d p (f : SecurityGroup.t → SecurityGroup.t) k :
  keeps_id f → ok_with k d → ok_with k (d <| secgroups := g_update p f (secgroups d) |>).
Proof.
  intros Hf [Hok Hk]. split; [|by apply groups_updated].
  apply sec_ok_groups_same; [|done]. intros. by apply groups_updated.
Qed.

(** *** Operations on an existing group *)

Lemma ApplySecgroup_ok k sg : preserves (ok_with k) (SecruleAdmin_ApplySecgroup sg).
Proof.
  intros c w [Hok Hk]. pose proof (ApplySecgroup_renames (db w) sg c w (renames_refl _)) as Hren.
  split; [by eapply sec_ok_renames|]. by rewrite (proj1 Hren).
Qed.

Lemma Create_rule_ok name ip dir proto pmin pmax sg :
  preserves (ok_with (SecurityGroup.ID sg)) (SecruleAdmin_Create name ip dir proto pmin pmax sg).
Proof.
  unfold SecruleAdmin_Create. pres; [apply GetRule_reads| |apply ApplySecgroup_ok].
  apply pres_db_create. intros d n [Hok Hg]. destruct (g_create _ _) as [r t] eqn:Hc. simpl.
  apply create_spec in Hc as (_ & Hnone & Hr & Ht). tables. split; [|done].
  eapply (sec_ok_rule_added d r); [|by rewrite Hr|done]. exists t. split_and!; [done..|].
  apply renames_refl.
Qed.

Lemma create_rule_ok sg x : preserves (ok_with (SecurityGroup.ID sg)) (create_rule sg x).
Proof.
  unfold create_rule. destruct x as [[[[ip dir] proto] pmin] pmax]. pres. apply Create_rule_ok.
Qed.

Lemma create_rules_ok sg router :
  preserves (ok_with (SecurityGroup.ID sg)) (create_rules sg router).
Proof.
  unfold create_rules. pres; apply create_rule_ok.
Qed.

Lemma Switch_ok k sg router : preserves (ok_with k) (SecgroupAdmin_Switch sg router).
Proof.
  apply Switch_preserves; [by intros d ? ?; apply ok_with_frame..|].
  intros d p b Hok. apply ok_with_update; [by intros []|done].
Qed.

Lemma Create_group_ok name isDefault router :
  preserves sec_ok (SecgroupAdmin_Create name isDefault router).
Proof.
  unfold SecgroupAdmin_Create. apply pres_bind; [apply pres_GetMemberShip|]. intros m.
  apply pres_guard. intros _. apply pres_with_tx. intros c w Hok.
  unfold mbind at 1, M_bind at 1, wrap.
  destruct (db_create _ c w) as [[sg|e|] w1] eqn:Hc.
  - apply db_create_Ok in Hc as (t & Hc & Hd & _). tables. apply create_spec in Hc as (_ & Hn & _ & Ht).
    assert (ok_with (SecurityGroup.ID sg) (db w1)) as H1.
    { rewrite Hd. split; [|by unfold groups; simpl; rewrite Ht, lookup_insert_eq].
      apply sec_ok_groups_same; [|done]. intros k [x Hx]. rewrite Ht.
      destruct (decide (k = get_id sg)) as [->|?]; [by rewrite lookup_insert_eq|].
      rewrite lookup_insert_ne by done. by eexists. }
    assert (preserves (ok_with (SecurityGroup.ID sg)) (_ ← create_rules sg router;
      _ ← (if isDefault then SecgroupAdmin_Switch sg router else mret tt); mret sg)) as Hp
      by (pres; [apply create_rules_ok|apply Switch_ok]).
    exact (proj1 (Hp c w1 H1)).
  - unfold db_create in Hc. apply stmt_Err in Hc as (_ & Hd & _). simpl. by rewrite Hd.
  - unfold db_create in Hc. exfalso. refine (np_refute _ _ _ _ _ Hc). apply np_stmt.
Qed.

(** *** Looking a group up *)

Lemma read_group_reads p I : preserves I (read_group p).
Proof. unfold read_group, load_router, may_read. pres. Qed.

Lemma read_group_row p c w sg w' :
  read_group p c w = (Ok sg, w') → is_Some (groups (db w) !! SecurityGroup.ID sg).
Proof.
  unfold read_group. rewrite GetContextDB_eq. intros (m & w0 & [_ <-]%GetMemberShip_Ok & H)%bind_Ok.
  apply bind_Ok in H as (g & w1 & ([_ Hg]%take_some & _)%wrap_Ok%db_take_Ok & H).
  apply bind_Ok in H as (g' & w2 & Hl & H). apply bind_Ok in H as (u & w3 & _ & [<- _]%ret_Ok).
  assert (SecurityGroup.ID g' = SecurityGroup.ID g) as ->.
  { unfold load_router in Hl. destruct (0 <? _); [|by go_ok].
    apply bind_Ok in Hl as (rt & w4 & _ & [<- _]%ret_Ok). done. }
  by eexists.
Qed.

Lemma by_uuid_reads uuid I : preserves I (SecgroupAdmin_GetSecgroupByUUID uuid).
Proof. unfold SecgroupAdmin_GetSecgroupByUUID. pres. apply read_group_reads. Qed.

Lemma by_uuid_row uuid c w sg w' :
  SecgroupAdmin_GetSecgroupByUUID uuid c w = (Ok sg, w') →
  is_Some (groups (db w) !! SecurityGroup.ID sg).
Proof.
  unfold SecgroupAdmin_GetSecgroupByUUID.
  intros (m & w0 & [_ <-]%GetMemberShip_Ok & H)%bind_Ok. by eapply read_group_row.
Qed.

(** What follows the look-up of a group works on a group that exists. *)
Lemma with_group {B} uuid (k : SecurityGroup.t → M B) :
  (∀ sg c w, ok_with (SecurityGroup.ID sg) (db w) → sec_ok (db (k sg c w).2)) →
  preserves sec_ok (SecgroupAdmin_GetSecgroupByUUID uuid ≫= k).
Proof.
  intros Hk c w Hok. apply after_read; [apply reads_preserves; intros; apply by_uuid_reads|done|].
  intros sg w1 H Hd Hok1. apply Hk. split; [done|]. rewrite Hd. by eapply by_uuid_row.
Qed.

Lemma get_group_reads reference I : preserves I (SecgroupAdmin_GetSecurityGroup reference).
Proof.
  unfold SecgroupAdmin_GetSecurityGroup, SecgroupAdmin_GetSecgroupByName. pres;
    [apply read_group_reads|apply by_uuid_reads].
Qed.

Lemma get_group_row reference c w sg w' :
  SecgroupAdmin_GetSecurityGroup reference c w = (Ok sg, w') →
  is_Some (groups (db w) !! SecurityGroup.ID sg).
Proof.
  unfold SecgroupAdmin_GetSecurityGroup. destruct reference as [r|]; [|done].
  destruct (String.eqb (BaseReference.ID r) ""); [destruct (String.eqb _ ""); [done|]|].
  - apply read_group_row.
  - apply by_uuid_row.
Qed.

Lemma find_groups_reads l I : preserves I (find_groups l).
Proof.
  induction l; cbn [find_groups]; [apply pres_ret|]. apply pres_bind; [apply get_group_reads|intros; pres].
Qed.

Lemma find_groups_rows l c w sgs w' :
  find_groups l c w = (Ok sgs, w') → ∀ sg, sg ∈ sgs → is_Some (groups (db w) !! SecurityGroup.ID sg).
Proof.
  revert sgs w w'. induction l as [|x l IH]; intros sgs w w'; cbn [find_groups].
  - intros [<- _]%ret_Ok sg Hsg. by apply elem_of_nil in Hsg.
  - intros (g & w1 & Hg & H)%bind_Ok sg.
    apply bind_Ok in H as (gs & w2 & H & [<- _]%ret_Ok).
    pose proof (reads_run _ _ _ _ _ (reads_preserves _ (λ _, get_group_reads _ _)) Hg) as Hd.
    intros [->|Hin]%elem_of_cons; [by eapply get_group_row|]. rewrite <- Hd. by eapply IH.
Qed.

(** *** The other operations *)

Lemma Switch_sec_ok sg router : preserves sec_ok (SecgroupAdmin_Switch sg router).
Proof.
  apply Switch_preserves; [by intros d ? ?; apply sec_ok_frame..|].
  intros d p b. apply sec_ok_groups_same. intros. apply groups_updated; [by intros []|done].
Qed.

Lemma Update_group_ok sg name isDefault : preserves sec_ok (SecgroupAdmin_Update sg name isDefault).
Proof.
  unfold SecgroupAdmin_Update. pres; [apply Switch_sec_ok|..]; apply pres_db_update; intros d;
    apply sec_ok_groups_same; intros; (apply groups_updated; [|done]); intros []; simpl; by repeat case_if.
Qed.

Lemma OrgAdmin_Get_reads id I : preserves I (OrgAdmin_Get id).
Proof. unfold OrgAdmin_Get. pres. Qed.

Lemma GetDefault_ok timestamp : preserves sec_ok (SecgroupAdmin_GetDefaultSecgroup timestamp).
Proof.
  unfold SecgroupAdmin_GetDefaultSecgroup. pres; [apply OrgAdmin_Get_reads|apply Create_group_ok|].
  apply pres_db_update. intros d. by apply sec_ok_frame.
Qed.

Lemma Update_rule_ok id name ip dir proto pmin pmax :
  preserves sec_ok (SecruleAdmin_Update id name ip dir proto pmin pmax).
Proof.
  unfold SecruleAdmin_Update. pres. apply pres_db_update. intros d [Hr Hi]. split; [|exact Hi].
  intros k r. unfold rules. simpl. rewrite update_lookup by (by intros []).
  intros (x & Hx & ->)%fmap_Some. destruct (by_id _ x); exact (Hr k x Hx).
Qed.

Lemma Delete_rule_ok r sg : preserves sec_ok (SecruleAdmin_Delete r sg).
Proof.
  unfold SecruleAdmin_Delete. pres.
  - apply pres_db_delete. intros d. apply sec_ok_rules_deleted.
  - intros c w. apply sec_ok_renames. apply (ApplySecgroup_renames (db w)), renames_refl.
Qed.

(** Nothing refers to a group. *)
Definition unused (id : Z) d : Prop :=
  sec_ok d ∧ (∀ k r, rules d !! k = Some r → SecurityRule.Secgroup r ≠ id) ∧
  (∀ k i, ifs d !! k = Some i → in_group id i = false).

Lemma Delete_group_ok created sg :
  0 < SecurityGroup.ID sg → preserves sec_ok (SecgroupAdmin_Delete created sg).
Proof.
  intros Hpos. unfold SecgroupAdmin_Delete. apply pres_with_tx. intros c w Hok.
  apply after_read; [by reads_tac|done|]. intros m w1 _ _ H1.
  apply after_read; [by reads_tac|done|]. intros u w2 _ _ H2.
  apply after_read; [apply reads_preserves; intros; apply guards_default_reads|done|].
  intros b w3 _ _ H3. apply after_read; [by reads_tac|done|]. intros u1 w4 _ _ H4.
  apply after_read; [by reads_tac|done|]. intros l w5 (-> & _)%wrap_Ok%db_find_Ok Hd5 H5.
  apply after_read; [by reads_tac|done|]. intros u2 w6 [Hl _]%require_Ok Hd6 H6.
  apply run_bind; [apply pres_wrap, H6; apply pres_db_delete; intros; by apply sec_ok_rules_deleted|].
  intros u3 w7 [Hd7 _]%wrap_Ok%db_delete_Ok H7. tables.
  assert (unused (SecurityGroup.ID sg) (db w7)) as H8.
  { split; [done|]. rewrite Hd7. unfold rules, ifs. simpl. split.
    - intros k r. rewrite delete_spec. destruct (rows _ !! k) as [x|]; [|done].
      destruct (Z.eqb_spec (SecurityRule.Secgroup x) (SecurityGroup.ID sg)); [done|].
      by intros [= <-].
    - rewrite Hd6, Hd5. apply find_nil. by destruct (g_find _ _). }
  refine (proj1 (_ : unused (SecurityGroup.ID sg) _)).
  match goal with |- unused ?k (db (?m c w7).2) =>
    assert (preserves (unused k) m) as Hp; [|exact (Hp c w7 H8)] end.
  pres.
  - apply pres_db_delete. intros d (Hd & Hr & Hi). split; [|done].
    by apply sec_ok_group_deleted; [lia|..].
  - apply pres_stmt. intros d n (Hd & Hr & Hi). simpl. split; [|done].
    apply sec_ok_groups_same; [|done]. intros k [x Hx]. rewrite update_all_spec by (by intros []).
    rewrite lookup_fmap. unfold groups in Hx. rewrite Hx. by eexists.
Qed.

(** *** Interfaces *)

Definition all_ok (sgs : list SecurityGroup.t) d : Prop :=
  sec_ok d ∧ ∀ sg, sg ∈ sgs → is_Some (groups d !! SecurityGroup.ID sg).

Lemma all_ok_frame sgs d d' :
  secrules d' = secrules d → secgroups d' = secgroups d → interfaces d' = interfaces d →
  all_ok sgs d → all_ok sgs d'.
Proof.
  intros H1 H2 H3 [Hok Hk]. split; [by apply (sec_ok_frame d)|]. unfold groups. by rewrite H2.
Qed.

Lemma sec_ok_iface_deleted d p :
  sec_ok d → sec_ok (d <| interfaces := g_delete p (interfaces d) |>).
Proof.
  intros [Hr Hi]. split; [exact Hr|]. intros k i sg. unfold ifs. simpl. rewrite delete_spec.
  intros Hk. apply (Hi k). unfold ifs. destruct (rows (interfaces d) !! k) as [x|]; [|done].
  by destruct (p x).
Qed.

Lemma interface_model_groups s k o h ib ob mac name ty sgs b :
  Interface.SecurityGroups (interface_model s k o h ib ob mac name ty sgs b) = sgs.
Proof. unfold interface_model. by repeat case_if. Qed.

Lemma CreateInterface_ok s k o h ib ob ip mac name ty sgs b :
  preserves (all_ok sgs) (CreateInterface s k o h ib ob ip mac name ty sgs b).
Proof.
  unfold CreateInterface, AllocateAddress. pres.
  - intros c w Hw. unfold GenerateMacaddr. by destruct (rand_read _) as [[[[] ?] ?]|].
  - apply pres_db_create. intros d n [[Hr Hi] Hg]. destruct (g_create _ _) as [x t] eqn:Hc. simpl.
    apply create_spec in Hc as (_ & _ & Hx & Ht). tables. split; [split; [exact Hr|]|done].
    intros k' i sg. unfold ifs. simpl. rewrite Ht, lookup_insert_Some.
    intros [[_ <-]|[_ Hk]]; [|by eapply Hi].
    rewrite Hx. simpl. rewrite interface_model_groups. apply Hg.
  - apply pres_db_update. intros d. by apply all_ok_frame.
  - apply pres_db_delete. intros d [Hok Hg]. split; [by apply sec_ok_iface_deleted|done].
Qed.

Lemma DeleteInterface_ok i : preserves sec_ok (DeleteInterface i).
Proof.
  unfold DeleteInterface. pres; [apply pres_db_delete; intros d; apply sec_ok_iface_deleted|..];
    apply pres_db_update; intros d; by apply sec_ok_frame.
Qed.

Lemma run_op_ok o : preserves sec_ok (run_op o).
Proof.
  destruct o; cbn [run_op].
  - pres. apply Create_group_ok.
  - apply with_group. intros sg c w [Hok _]. by apply Update_group_ok.
  - apply with_group. intros sg c w [Hok [g Hg]]. apply Delete_group_ok; [|done].
    by apply rows_pos in Hg.
  - pres. apply GetDefault_ok.
  - apply with_group. intros sg c w Hok. refine (proj1 (_ : ok_with (SecurityGroup.ID sg) _)).
    revert c w Hok. change (preserves (ok_with (SecurityGroup.ID sg))
      (_ ← SecruleAdmin_Create name ip dir proto pmin pmax sg; mret tt)). pres. apply Create_rule_ok.
  - pres. apply Update_rule_ok.
  - apply with_group. intros sg c w [Hok _]. revert c w Hok.
    change (preserves sec_ok (r ← SecruleAdmin_GetSecruleByUUID rule sg; SecruleAdmin_Delete r sg)).
    unfold SecruleAdmin_GetSecruleByUUID. pres. apply Delete_rule_ok.
  - intros c w Hok. apply after_read; [apply reads_preserves; intros; apply find_groups_reads|done|].
    intros sgs w1 H Hd Hok1. refine (proj1 (_ : all_ok sgs _)).
    assert (all_ok sgs (db w1)) as Ha.
    { split; [done|]. rewrite Hd. by eapply find_groups_rows. }
    assert (preserves (all_ok sgs) (_ ← with_tx (CreateInterface subnet instance owner hyper 0 0 ip
      mac name "instance" sgs false); mret tt)) as Hp by (pres; apply CreateInterface_ok).
    exact (Hp c w1 Ha).
  - pres. apply DeleteInterface_ok.
Qed.

(** C27. Security groups are never referred to in vain: over any sequence of
    requests of any callers (groups and rules created, changed and deleted,
    interfaces created in groups and deleted), whatever each request returns and
    whatever statement or post fails in it, every rule belongs to a group that
    exists and every group an interface is in exists. *)
Theorem secgroups_invariant l w : sec_ok (db w) → sec_ok (db (serve_ops l w)).
Proof.
  revert w. induction l as [|[c o] l IH]; intros w Hok; simpl; [done|].
  apply IH. by apply run_op_ok.
Qed.

End system_lemmas.
