(* ===== verification/IpGroup.v ===== *)
(** * IpGroup: groups of subnets and floating IPs (routes/ipgroup.go)

    The subnets and the floating IPs of a group come as results of their own; what
    gorm loads below them (the subnet of a floating IP, the group of that subnet)
    is left out. *)

From S2P Require Import Prelude GoLib ErrorCodes Gorm Model Store Scenario Member Catalog Volume Admin Secgroup.

Section ipgroup.
Context {G : Gorm} {E : Env}.

(** A row per foreign key, by one query; blank keys load nothing. *)
Definition preload_many {R} `{Row R, InDB R} (keys : list Z) : M (list R) :=
  match List.filter (λ k, negb (k =? 0)) keys with
  | [] => mret []
  | ks => db_find (λ r, existsb (Z.eqb (get_id r)) ks)
  end.

Definition pick {R} `{Row R} (id : Z) (l : list R) : option R := head (List.filter (by_id id) l).

(** [Preload("Subnets")], [Preload("FloatingIPs")] and [Preload("DictionaryType")] *)
Definition subnets_of (groups : list IpGroup.t) : M (list Subnet.t) :=
  match groups with
  | [] => mret []
  | _ => db_find (λ s, existsb (λ g, Subnet.GroupID s =? IpGroup.ID g) groups)
  end.

Definition floating_ips_of (groups : list IpGroup.t) : M (list FloatingIp.t) :=
  match groups with
  | [] => mret []
  | _ => db_page ["floating_ips.updated_at"] 0 (-1)
           (λ f, existsb (λ g, FloatingIp.GroupID f =? IpGroup.ID g) groups)
  end.

Definition preload_type (g : IpGroup.t) : M IpGroup.t :=
  d ← preload (R := Dictionary.t) (IpGroup.TypeID g);
  mret (g <| IpGroup.DictionaryType := d |>).

Definition IpGroupAdmin_Create (name typeName : string) (ipGroupType : Z)
    : M (IpGroup.t * list Subnet.t) :=
  m ← GetMemberShip;
  _ ← require (CheckPermission m Writer) NotAuthorized;
  with_tx (
    ipGroup ← wrap ErrIpGroupCreateFailed "Failed to create ipGroup"
                (db_create (IpGroup.zero <| IpGroup.Creater := MemberShip.UserID m |>
                   <| IpGroup.Owner := MemberShip.OrgID m |> <| IpGroup.Name := name |>
                   <| IpGroup.Type_ := typeName |> <| IpGroup.TypeID := ipGroupType |>));
    wrap ErrIpGroupCreateFailed "Error loading IpGroup details after creation" (
      g ← db_take (by_id (IpGroup.ID ipGroup));
      g ← preload_type g;
      subnets ← subnets_of [g];
      mret (g, subnets))).

(** The group a condition selects among those of the caller, with its subnets. *)
Definition read_ipgroup (p : IpGroup.t → bool) : M (IpGroup.t * list Subnet.t) :=
  GetContextDB (
    m ← GetMemberShip;
    wrap ErrIpGroupNotFound "IpGroup not found" (
      g ← db_take (λ g, where_ok (GetWhere m) (IpGroup.Owner g) && p g);
      subnets ← subnets_of [g];
      g ← preload_type g;
      mret (g, subnets))).

Definition IpGroupAdmin_Get (id : Z) : M (IpGroup.t * list Subnet.t) :=
  if id <=? 0 then
    fail (NewCLError ErrInvalidParameter ("Invalid ipGroup ID: " +:+ fmt_d id) None)
  else read_ipgroup (by_pk id).

Definition IpGroupAdmin_GetIpGroupByName (name : string) : M (IpGroup.t * list Subnet.t) :=
  read_ipgroup (λ g, String.eqb (IpGroup.Name g) name).

Definition IpGroupAdmin_GetIpGroupByUUID (uuID : string)
    : M (IpGroup.t * list Subnet.t * list FloatingIp.t) :=
  GetContextDB (
    m ← GetMemberShip;
    wrap ErrIpGroupNotFound "IpGroup not found" (
      g ← db_take (λ g, where_ok (GetWhere m) (IpGroup.Owner g)
                        && String.eqb (IpGroup.UUID g) uuID);
      subnets ← subnets_of [g];
      fips ← floating_ips_of [g];
      g ← preload_type g;
      mret (g, subnets, fips))).

(** A reference by name alone gives the nil pointer, without an error. *)
Definition IpGroupAdmin_GetIpGroup (reference : option BaseReference.t)
    : M (option (IpGroup.t * list Subnet.t * list FloatingIp.t)) :=
  let missing := NewCLError ErrInvalidParameter
                   "IpGroup base reference must be provided with either uuid or name" None in
  match reference with
  | Some r =>
      if String.eqb (BaseReference.ID r) "" then
        if String.eqb (BaseReference.Name r) "" then fail missing else mret None
      else g ← IpGroupAdmin_GetIpGroupByUUID (BaseReference.ID r); mret (Some g)
  | None => fail missing
  end.

(** The struct that is returned has the new name, and the type it had. *)
Definition IpGroupAdmin_Update (ipGroup : IpGroup.t) (name typeName : string) (ipGroupType : Z)
    : M IpGroup.t :=
  with_tx (
    m ← GetMemberShip;
    _ ← require (ValidateOwner m Writer (IpGroup.Owner ipGroup))
          (NewCLError ErrPermissionDenied "Not authorized to update the ip group" None);
    let ipGroup := if negb (String.eqb name "") && negb (String.eqb (IpGroup.Name ipGroup) name)
                   then ipGroup <| IpGroup.Name := name |> else ipGroup in
    _ ← wrap ErrIpGroupUpdateFailed "Failed to update ip group"
          (db_update (by_id (IpGroup.ID ipGroup))
             (λ g, g <| IpGroup.Name := IpGroup.Name ipGroup |> <| IpGroup.Type_ := typeName |>
                     <| IpGroup.TypeID := ipGroupType |>));
    mret ipGroup).

(** [created] is [ipGroup.CreatedAt.Unix()]. *)
Definition IpGroupAdmin_Delete (created : Z) (ipGroup : IpGroup.t) : M unit :=
  with_tx (
    m ← GetMemberShip;
    _ ← require (ValidateOwner m Writer (IpGroup.Owner ipGroup))
          (NewCLError ErrPermissionDenied "Not authorized to delete the ip group" None);
    _ ← wrap ErrIpGroupDeleteFailed "Failed to delete ip group"
          (db_delete (R := IpGroup.t) (by_pk (IpGroup.ID ipGroup)));
    wrap ErrIpGroupUpdateFailed "Failed to update ip group name"
      (db_update_all (by_id (IpGroup.ID ipGroup))
         (λ g, g <| IpGroup.Name := IpGroup.Name ipGroup +:+ "-" +:+ fmt_d created |>))).

(** A group of the list with the names of its subnets and floating IPs. *)
Definition IpGroupAdmin_List (offset limit : Z) (order : string) (query : IpGroup.t → bool)
    : M (Z * list (IpGroup.t * string * string)) :=
  GetContextDB (
    m ← GetMemberShip;
    let p g := where_ok (GetWhere m) (IpGroup.Owner g) && query g in
    total ← wrap ErrSQLSyntaxError "Failed to count ip groups" (db_count p);
    groups ← wrap ErrSQLSyntaxError "Failed to find ip groups" (
      l ← db_page (page_order_of order) offset (page_limit_of limit) p;
      subnets ← subnets_of l;
      types ← preload_many (R := Dictionary.t) (map IpGroup.TypeID l);
      fips ← floating_ips_of l;
      mret (map (λ g : IpGroup.t,
        (g <| IpGroup.DictionaryType := pick (IpGroup.TypeID g) types |>,
         Join (map Subnet.Name (List.filter (λ s, Subnet.GroupID s =? IpGroup.ID g) subnets)) ",",
         Join (map FloatingIp.Name
                 (List.filter (λ f, FloatingIp.GroupID f =? IpGroup.ID g) fips)) ",")) l));
    mret (total, groups)).

End ipgroup.
