(* ===== verification/Subnet.v ===== *)
(** * Subnet: subnets and their address pools (routes/subnet.go, address.go)

    A subnet is created with a row per address from [start] to [end], the gateway
    apart, and a row for the gateway.  In a router it gets a gateway interface and
    two rules in the default security group of the router.

    [getValidVni], [generateIPAddresses] and the address loop of [Create] take
    their fuel as an argument; [None] says that the loop is still running.  The
    release of a floating IP ([DeallocateFloatingIp], routes/floatingip.go) and the
    handler of a PATCH request (apis/subnet.go) are part of this file. *)

From S2P Require Import Prelude GoLib Net ErrorCodes Gorm Model Store Scenario Member Catalog Volume Admin Ipam NetInfo Secgroup IpGroup.

Definition vniMax : Z := 16777215.
Definition vniMin : Z := 4096.

(** [ipToInt]: value and width; a slice of another length panics ([None]). *)
Definition ipToInt (ip : IP) : option (Z * Z) :=
  let val := foldl (λ v b, v * 256 + b) 0 ip in
  if (length ip =? 4)%nat then Some (val, 32)
  else if (length ip =? 16)%nat then Some (val, 128)
  else None.

(** The subnets [List] and [Find] may show: public and site ones, and those of the
    caller's organization. *)
Definition subnet_visible (wh : Where) (s : Subnet.t) : bool :=
  match wh with
  | WhereAll => true
  | _ => String.eqb (Subnet.Type_ s) "public" || String.eqb (Subnet.Type_ s) "site"
         || where_ok wh (Subnet.Owner s)
  end.

(** The payload of a PATCH request. *)
Record SubnetPatchPayload := mkPatch {
  PatchName : string;
  PatchGroup : option BaseReference.t;
  PatchType : string;
  PatchPriority : Z
}.

Section subnet.
Context {G : Gorm} {E : Env} {C : Cidr}.

(** ** Segment identifiers *)

(** [rand.Intn(n)] *)
Definition rand_Intn (n : Z) : M Z := λ c w, (Ok (rand_intn (clock w) n), w).

Definition on_vlan (vni : Z) (s : Subnet.t) : bool := Subnet.Vlan s =? vni.

Fixpoint vni_loop (fuel : nat) : M (option Z) :=
  match fuel with
  | O => mret None
  | S fuel =>
      r ← rand_Intn (vniMax - vniMin);
      let vni := r + vniMin in
      count ← db_count (on_vlan vni);
      if 0 <? count then vni_loop fuel else mret (Some vni)
  end.

Definition getValidVni (fuel : nat) : M (option Z) := GetContextDB (vni_loop fuel).

Definition checkIfExistVni (vni : Z) : M bool :=
  GetContextDB (count ← db_count (on_vlan vni); mret (0 <? count)).

(** ** Address pools *)

(** The row of an address. *)
Definition pool_address (creater owner : Z) (netmask : string) (subnetID : Z) (address : string)
    : Address.t :=
  Address.zero <| Address.Creater := creater |> <| Address.Owner := owner |>
    <| Address.Address := address |> <| Address.Netmask := netmask |>
    <| Address.Type_ := "ipv4" |> <| Address.SubnetID := subnetID |>.

(** The loop of [generateIPAddresses]. *)
Fixpoint generate_loop (fuel : nat) (subnet : Subnet.t) (ip end_ : IP) (preSize : Z)
    : M (option unit) :=
  match fuel with
  | O => mret None
  | S fuel =>
      let put ip :=
        _ ← wrap ErrAddressCreateFailed "Failed to create IP address"
              (db_create (pool_address (Subnet.Creater subnet) (Subnet.Owner subnet)
                            (Subnet.Netmask subnet) (Subnet.ID subnet)
                            (cidr_text (IP_String ip) preSize)));
        if String.eqb (IP_String ip) (IP_String end_) then mret (Some tt)
        else generate_loop fuel subnet (Inc ip) end_ preSize in
      if String.eqb (cidr_text (IP_String ip) preSize) (Subnet.Gateway subnet) then
        if String.eqb (IP_String ip) (IP_String end_) then mret (Some tt) else put (Inc ip)
      else put ip
  end.

Definition generateIPAddresses (fuel : nat) (subnet : Subnet.t) (start end_ : IP) (preSize : Z)
    : M (option unit) :=
  GetContextDB (generate_loop fuel subnet start end_ preSize).

(** ** Look-ups *)

Definition preload_subnet (s : Subnet.t) : M Subnet.t :=
  router ← preload (R := Router.t) (Subnet.RouterID s);
  group ← preload (R := IpGroup.t) (Subnet.GroupID s);
  mret (s <| Subnet.Router := router |> <| Subnet.Group := group |>).

(** The subnet a condition selects, as a caller may read it: only an internal
    subnet is checked for its owner. *)
Definition read_subnet (p : Subnet.t → bool) : M Subnet.t :=
  GetContextDB (
    m ← GetMemberShip;
    subnet ← wrap ErrSubnetNotFound "Subnet not found" (s ← db_take p; preload_subnet s);
    subnet ← (if 0 <? Subnet.RouterID subnet then
                r ← wrap ErrRouterNotFound "Router not found"
                      (db_get (R := Router.t) (Subnet.RouterID subnet));
                mret (subnet <| Subnet.Router := Some r |>)
              else mret subnet);
    _ ← (if String.eqb (Subnet.Type_ subnet) "internal" then
           require (ValidateOwner m Reader (Subnet.Owner subnet))
             (NewCLError ErrPermissionDenied "Not authorized to read the subnet" None)
         else mret tt);
    mret subnet).

Definition SubnetAdmin_Get (id : Z) : M Subnet.t :=
  if id <=? 0 then fail (GoError ("Invalid subnet ID: " +:+ fmt_d id))
  else read_subnet (by_pk id).

Definition SubnetAdmin_GetSubnetByUUID (uuID : string) : M Subnet.t :=
  read_subnet (λ s, String.eqb (Subnet.UUID s) uuID).

Definition SubnetAdmin_GetSubnetByName (name : string) : M Subnet.t :=
  read_subnet (λ s, String.eqb (Subnet.Name s) name).

Definition SubnetAdmin_GetSubnet (reference : option BaseReference.t) : M Subnet.t :=
  let missing := GoError "Subnet base reference must be provided with either uuid or name" in
  match reference with
  | Some r =>
      if String.eqb (BaseReference.ID r) "" then
        if String.eqb (BaseReference.Name r) "" then fail missing
        else SubnetAdmin_GetSubnetByName (BaseReference.Name r)
      else SubnetAdmin_GetSubnetByUUID (BaseReference.ID r)
  | None => fail missing
  end.

(** ** Changes *)

Definition SubnetAdmin_Update (id : Z) (name subnetType : string) (ipGroup : option IpGroup.t)
    (priority : Z) : M unit :=
  with_tx (
    wrap ErrSubnetUpdateFailed "Failed to update subnet"
      (db_update (by_id id) (λ s, s <| Subnet.Name := name |> <| Subnet.Type_ := subnetType |>
         <| Subnet.Priority := priority |>
         <| Subnet.GroupID := from_option IpGroup.ID 0 ipGroup |>))).

Definition clearRouting (routerID : Z) (subnet : Subnet.t) : M unit :=
  GetContextDB (
    router ← wrap ErrRouterNotFound "Router not found" (db_get (R := Router.t) routerID);
    if 0 <=? Router.Hyper router then
      let control := "toall=router-" +:+ fmt_d (Router.ID router) +:+ ":"
                       +:+ fmt_d (Router.Hyper router) in
      let control := if 0 <=? Router.Peer router
                     then control +:+ "," +:+ fmt_d (Router.Peer router) else control in
      let control := if Router.Hyper router =? Router.Peer router
                     then "inter=" +:+ fmt_d (Router.Hyper router) else control in
      HyperExecute control
        ("/opt/cloudland/scripts/backend/clear_gateway.sh '" +:+ fmt_d (Router.ID router)
         +:+ "' '" +:+ Subnet.Gateway subnet +:+ "' '" +:+ fmt_d (Subnet.Vlan subnet) +:+ "'")
    else mret tt).

Definition setRouting (subnet : Subnet.t) : M unit :=
  GetContextDB (
    router ← wrap ErrRouterNotFound "Router not found"
               (db_get (R := Router.t) (Subnet.RouterID subnet));
    secgroup ← wrap ErrSecurityGroupNotFound "Security group not found"
                 (db_get (R := SecurityGroup.t) (Router.DefaultSG router));
    _ ← SecruleAdmin_Create "" (Subnet.Network subnet) "ingress" "tcp" 1 65535 secgroup;
    _ ← SecruleAdmin_Create "" (Subnet.Network subnet) "ingress" "udp" 1 65535 secgroup;
    _ ← CreateInterface subnet (Router.ID router) (Router.Owner router) (Router.Hyper router) 0 0
          (Subnet.Gateway subnet) "" "subnet-gw" "gateway" [] false;
    mret tt).

(** ** Creation *)

(** Gateway, first and last address of the pool where they are not given; the
    gateway is not the first and not the last one. *)
Definition subnet_plan (ipNet : IPNet) (gateway start end_ : string) : string * string * string :=
  let '(first, last) := AddressRange ipNet in
  let gateway := if String.eqb gateway "" then IP_String (Inc first) else gateway in
  let start := if String.eqb start "" then IP_String (Inc first) else start in
  let start := if String.eqb start gateway then IP_String (Inc (ParseIP start)) else start in
  let end_ := if String.eqb end_ "" then IP_String (Dec last) else end_ in
  let end_ := if String.eqb end_ gateway then IP_String (Dec (ParseIP end_)) else end_ in
  (gateway, start, end_).

(** The address loop: [address] makes the row of a text. *)
Fixpoint pool_loop (fuel : nat) (ipNet : IPNet) (gateway end_ : string) (preSize : Z)
    (address : string → Address.t) (ip : IP) : M (option unit) :=
  match fuel with
  | O => mret None
  | S fuel =>
      if IPNet_Contains ipNet ip then
        _ ← db_create (address (cidr_text (IP_String ip) preSize));
        if String.eqb (IP_String ip) end_ then mret (Some tt)
        else
          let ip := Inc ip in
          let ip := if String.eqb (cidr_text (IP_String ip) preSize) gateway then Inc ip else ip in
          pool_loop fuel ipNet gateway end_ preSize address ip
      else
        fail (NewCLError ErrInvalidParameter
                "Invalid start/end/gateway range, IP exceeded subnet range" None)
  end.

Definition check_create (m : MemberShip.t) (rtype : string) (router : option Router.t) : M unit :=
  _ ← require (CheckPermission m Writer) NotAuthorized;
  if String.eqb rtype "public" then
    _ ← require (CheckPermission m Admin) NotAuthorized;
    require (match router with None => true | Some _ => false end)
      (NewCLError ErrPublicSubnetCannotInVPC "Not able to create public subnet in a vpc" None)
  else mret tt.

(** What follows the pool: the gateway's address and, in a router, the routing.
    An error of the former is returned only when there is no router. *)
Definition finish_create (subnet : Subnet.t) (gateway_row : Address.t) : M unit :=
  r ← try (db_create gateway_row);
  if 0 <? Subnet.RouterID subnet then setRouting subnet
  else match r with inl _ => mret tt | inr e => fail e end.

Definition subnet_model (m : MemberShip.t) (vlan : Z)
    (name network netmask gateway start end_ rtype dns domain : string) (dhcp : bool)
    (router : option Router.t) (ipGroup : option IpGroup.t) (priority : Z) : Subnet.t :=
  Subnet.zero <| Subnet.Creater := MemberShip.UserID m |> <| Subnet.Owner := MemberShip.OrgID m |>
    <| Subnet.Name := name |> <| Subnet.Network := network |> <| Subnet.Netmask := netmask |>
    <| Subnet.Gateway := gateway |> <| Subnet.Start := start |> <| Subnet.End_ := end_ |>
    <| Subnet.NameServer := dns |> <| Subnet.DomainSearch := domain |> <| Subnet.Dhcp := dhcp |>
    <| Subnet.Vlan := vlan |> <| Subnet.Type_ := rtype |>
    <| Subnet.RouterID := from_option Router.ID 0 router |>
    <| Subnet.GroupID := from_option IpGroup.ID 0 ipGroup |> <| Subnet.Priority := priority |>.

(** [Create] from the parsed network on. *)
Definition create_in (fuel : nat) (m : MemberShip.t) (ipNet : IPNet) (vlan : Z)
    (name network gateway start end_ rtype dns domain : string) (dhcp : bool)
    (router : option Router.t) (ipGroup : option IpGroup.t) (priority : Z)
    : M (option Subnet.t) :=
  let rtype := if String.eqb rtype "" then "internal" else rtype in
  let preSize := Mask_Size (NetMask ipNet) in
  let '(gateway, start, end_) := subnet_plan ipNet gateway start end_ in
  let gateway := cidr_text gateway preSize in
  let netmask := IP_String (CIDRMask preSize 32) in
  subnet ← wrap ErrSubnetCreateFailed "Failed to create subnet"
             (db_create (subnet_model m vlan name network netmask gateway start end_ rtype dns
                           domain dhcp router ipGroup priority));
  subnet ← wrap ErrDatabaseError "Error loading subnet details after creation"
             (s ← db_take (by_id (Subnet.ID subnet)); preload_subnet s);
  let address := pool_address (MemberShip.UserID m) (MemberShip.OrgID m) netmask
                   (Subnet.ID subnet) in
  r ← pool_loop fuel ipNet gateway end_ preSize address (ParseIP start);
  match r with
  | None => mret None
  | Some _ => _ ← finish_create subnet (address gateway); mret (Some subnet)
  end.

(** The transaction of [Create]. *)
Definition create_body (fuel : nat) (m : MemberShip.t) (vlan : Z)
    (name network gateway start end_ rtype dns domain : string) (dhcp : bool)
    (router : option Router.t) (ipGroup : option IpGroup.t) (priority : Z)
    : M (option Subnet.t) :=
  _ ← check_create m rtype router;
  vni ← (if vlan <=? 0 then getValidVni fuel else mret (Some vlan));
  match vni with
  | None => mret None
  | Some vlan =>
      _ ← wrap ErrDatabaseError "Database failed to count network" (db_count (on_vlan vlan));
      match ParseCIDR network with
      | None => fail (NewCLError ErrInvalidCIDR "Invalid CIDR" (Some (GoError "invalid CIDR address")))
      | Some (_, ipNet) =>
          addrCount ← deref (AddressCount ipNet);
          _ ← require ((5 <=? addrCount) && (addrCount <=? 1000))
                (NewCLError ErrCIDRTooBig
                   "Network/mask must have more than 5 but less than 1000 addresses" None);
          create_in fuel m ipNet vlan name network gateway start end_ rtype dns domain dhcp
            router ipGroup priority
      end
  end.

Definition SubnetAdmin_Create (fuel : nat) (vlan : Z)
    (name network gateway start end_ rtype dns domain : string) (dhcp : bool)
    (router : option Router.t) (ipGroup : option IpGroup.t) (priority : Z)
    : M (option Subnet.t) :=
  m ← GetMemberShip;
  with_tx (create_body fuel m vlan name network gateway start end_ rtype dns domain dhcp router
             ipGroup priority).

(** ** Deletion *)

(** [FloatingIpAdmin.DeallocateFloatingIp] (routes/floatingip.go) *)
Definition FloatingIpAdmin_DeallocateFloatingIp (floatingIpID : Z) : M unit :=
  GetContextDB (
    _ ← wrap ErrInterfaceDeleteFailed "Failed to delete interfaces"
          (DeleteInterfaces floatingIpID 0 "floating");
    wrap ErrFIPDeleteFailed "Failed to delete floating ip"
      (db_delete (R := FloatingIp.t) (by_pk floatingIpID))).

(** The interfaces that keep a subnet from being deleted. *)
Definition in_use (subnetID : Z) (i : Interface.t) : bool :=
  (Interface.Subnet i =? subnetID) && negb (String.eqb (Interface.Type_ i) "dhcp")
  && negb (String.eqb (Interface.Type_ i) "gateway").

(** The row of the subnet, its addresses, and the reference of its router.
    [created] is [subnet.CreatedAt.Unix()]. *)
Definition drop_rows (created : Z) (subnet : Subnet.t) : M unit :=
  _ ← wrap ErrSubnetDeleteFailed "Database delete subnet failed"
        (db_delete (R := Subnet.t) (by_pk (Subnet.ID subnet)));
  _ ← wrap ErrSubnetUpdateFailed "DB failed to update subnet name"
        (db_update_all (by_id (Subnet.ID subnet))
           (λ s, s <| Subnet.Name := Subnet.Name subnet +:+ "-" +:+ fmt_d created |>));
  _ ← wrap ErrAddressDeleteFailed "Database delete ip address failed"
        (db_delete (λ a, Address.SubnetID a =? Subnet.ID subnet));
  if String.eqb (Subnet.Type_ subnet) "vrrp" && (0 <? Subnet.RouterID subnet) then
    wrap ErrDatabaseError "Database failed to update router vrrp subnet"
      (db_update (by_pk (Subnet.RouterID subnet)) (λ r, r <| Router.VrrpSubnetID := 0 |>))
  else mret tt.

(** Its floating IPs and interfaces. *)
Definition drop_uses (subnet : Subnet.t) : M unit :=
  floatingIps ← wrap ErrDatabaseError "Database query floatingip failed"
                  (db_find (λ f, FloatingIp.SubnetID f =? Subnet.ID subnet));
  _ ← for_each floatingIps (λ f, FloatingIpAdmin_DeallocateFloatingIp (FloatingIp.ID f));
  wrap ErrAddressDeleteFailed "Database delete interface failed"
    (db_delete (λ i, Interface.Subnet i =? Subnet.ID subnet)).

(** Is the subnet free to be deleted?  Site subnets are not checked. *)
Definition check_unused (subnet : Subnet.t) : M unit :=
  if String.eqb (Subnet.Type_ subnet) "site" then mret tt
  else
    count ← wrap ErrDatabaseError "Failed to query interfaces"
              (db_count (in_use (Subnet.ID subnet)));
    require (negb (0 <? count))
      (NewCLError ErrAddressInUse "Some addresses of this subnet are still in use" None).

(** The second count is not looked at. *)
Definition SubnetAdmin_Delete (created : Z) (subnet : Subnet.t) : M unit :=
  with_tx (
    m ← GetMemberShip;
    _ ← require (ValidateOwner m Writer (Subnet.Owner subnet))
          (NewCLError ErrPermissionDenied "Not authorized to delete the subnet" None);
    _ ← check_unused subnet;
    _ ← wrap ErrDatabaseError "Database failed to count subnet"
          (db_count (on_vlan (Subnet.Vlan subnet)));
    _ ← drop_rows created subnet;
    _ ← drop_uses subnet;
    if 0 <? Subnet.RouterID subnet then clearRouting (Subnet.RouterID subnet) subnet
    else mret tt).

(** ** Statistics and lists *)

Definition idle_address (subnet : Subnet.t) (a : Address.t) : bool :=
  (Address.SubnetID a =? Subnet.ID subnet) && negb (Address.Allocated a)
  && negb (Address.Reserved a) && negb (String.eqb (Address.Address a) (Subnet.Gateway subnet)).

Definition SubnetAdmin_CountIdleAddressesForSubnet (subnet : Subnet.t) : M Z :=
  GetContextDB (
    wrap ErrDatabaseError ("Failed to count idle addresses for subnet " +:+ Subnet.UUID subnet)
      (db_count (idle_address subnet))).

(** Total, allocated, reserved and available addresses. *)
Definition SubnetAdmin_CountAddressStatistics (subnet : Subnet.t) : M (Z * Z * Z * Z) :=
  GetContextDB (
    let failed what := "Failed to count " +:+ what +:+ " addresses for subnet "
                         +:+ Subnet.UUID subnet in
    let mine a := Address.SubnetID a =? Subnet.ID subnet in
    total ← wrap ErrDatabaseError (failed "total") (db_count mine);
    allocated ← wrap ErrDatabaseError (failed "allocated")
                  (db_count (λ a, mine a && Address.Allocated a));
    reserved ← wrap ErrDatabaseError (failed "reserved")
                 (db_count (λ a, mine a && Address.Reserved a));
    available ← wrap ErrDatabaseError (failed "available") (db_count (idle_address subnet));
    mret (total, allocated, reserved, available)).

Definition preload_subnet_list (l : list Subnet.t) : M (list Subnet.t) :=
  groups ← preload_many (R := IpGroup.t) (map Subnet.GroupID l);
  routers ← preload_many (R := Router.t) (map Subnet.RouterID l);
  mret (map (λ s, s <| Subnet.Group := pick (Subnet.GroupID s) groups |>
                    <| Subnet.Router := pick (Subnet.RouterID s) routers |>) l).

(** [query] and [intQuery] are the conditions of the caller. *)
Definition SubnetAdmin_List (offset limit : Z) (order : string) (query intQuery : Subnet.t → bool)
    : M (Z * list Subnet.t) :=
  GetContextDB (
    m ← GetMemberShip;
    let p s := subnet_visible (GetWhere m) s && query s && intQuery s in
    total ← wrap ErrSQLSyntaxError "Database failed to count subnets" (db_count p);
    subnets ← wrap ErrSQLSyntaxError "Database failed to query subnets" (
      l ← db_page (page_order_of order) offset (page_limit_of limit) p;
      preload_subnet_list l);
    _ ← (if CheckPermission m Writer then
           for_each subnets (λ s, _ ← wrap ErrUserNotFound "Failed to query owner info"
             (db_get (R := Organization.t) (Subnet.Owner s)); mret tt)
         else mret tt);
    mret (total, subnets)).

(** ** Addresses (routes/address.go) *)

(** [Preload("Subnet")] *)
Definition preload_address (a : Address.t) : M Address.t :=
  s ← preload (R := Subnet.t) (Address.SubnetID a); mret (a <| Address.Subnet := s |>).

Definition AddressAdmin_GetAddressByUUID (uuID : string) : M Address.t :=
  GetContextDB (
    wrap ErrAddressNotFound "Address not found"
      (a ← db_take (λ a, String.eqb (Address.UUID a) uuID); preload_address a)).

Definition AddressAdmin_Update (addr : Address.t) : M unit :=
  with_tx (
    m ← GetMemberShip;
    _ ← require (CheckPermission m Admin)
          (NewCLError ErrPermissionDenied "Not authorized for this operation"
             (Some (GoError "Not authorized for this operation")));
    wrap ErrAddressUpdateFailed "Failed to update address"
      (db_update (by_id (Address.ID addr))
         (λ a, a <| Address.Remark := Address.Remark addr |>
                 <| Address.Reserved := Address.Reserved addr |>))).

Definition AddressAdmin_ListBySubnetID (subnetID : Z) : M (list Address.t) :=
  GetContextDB (
    wrap ErrDatabaseError "Failed to list addresses" (
      l ← db_page ["id"] 0 (-1) (λ a, Address.SubnetID a =? subnetID);
      subnet ← (match l with [] => mret None | _ => preload (R := Subnet.t) subnetID end);
      mret (map (λ a, a <| Address.Subnet := subnet |>) l))).

(** ** The PATCH request (apis/subnet.go)

    The body of [SubnetAPI.Patch] up to the answer. *)
Definition SubnetAPI_Patch (uuID : string) (payload : SubnetPatchPayload) : M Subnet.t :=
  subnet ← SubnetAdmin_GetSubnetByUUID uuID;
  let subnet := if String.eqb (PatchName payload) "" then subnet
                else subnet <| Subnet.Name := PatchName payload |> in
  let subnet := if String.eqb (PatchType payload) "" then subnet
                else subnet <| Subnet.Type_ := PatchType payload |> in
  subnet ← (match PatchGroup payload with
            | Some r =>
                if String.eqb (BaseReference.ID r) "" then mret (subnet <| Subnet.Group := None |>)
                else g ← IpGroupAdmin_GetIpGroupByUUID (BaseReference.ID r);
                     mret (subnet <| Subnet.Group := Some g.1.1 |>)
            | None => mret subnet
            end);
  let subnet := subnet <| Subnet.Priority := PatchPriority payload |> in
  _ ← SubnetAdmin_Update (Subnet.ID subnet) (Subnet.Name subnet) (Subnet.Type_ subnet)
        (Subnet.Group subnet) (PatchPriority payload);
  mret subnet.

End subnet.
