(* ===== verification/SubnetPool.v ===== *)
(** * SubnetPool: the addresses of a subnet

    [pool_texts] is the reference definition of an address pool, a list.  The loops
    of routes/subnet.go are the enumeration of that list, for IPv4; the theorems
    below say what the creation of a subnet leaves in the database, what its
    deletion leaves, and which segment identifier a subnet gets. *)

From S2P Require Import Prelude GoLib Net ErrorCodes Gorm Model Store Scenario Member Catalog Volume Admin Ipam NetInfo Secgroup IpGroup Subnet.

(** ** The pool as a list

    The reference definition of a pool: the addresses from [s] to [e] in a network
    of prefix length [p], the gateway [g] left out. *)
Definition pool_texts (p s e g : Z) : list string :=
  map (λ n, cidr_text (dotted n) p) (List.filter (λ n, negb (n =? g)) (seqZ s (e - s + 1))).

Section put_all.
Context {G : Gorm} {E : Env}.

(** A row per text, in order. *)
Definition put_all (address : string → Address.t) (texts : list string) : M unit :=
  for_each texts (λ t, _ ← db_create (address t); mret tt).

Lemma put_all_cons {A} address t texts (k : M A) c w :
  (_ ← db_create (address t); (_ ← put_all address texts; k)) c w =
  (_ ← put_all address (t :: texts); k) c w.
Proof.
  unfold put_all. simpl. unfold mbind, M_bind, mret, M_ret.
  destruct (db_create (address t) c w) as [[]]; try done.
Qed.

Lemma bind_ext {A B} (m : M A) (k k' : A → M B) c w :
  (∀ a w1, k a c w1 = k' a c w1) → (m ≫= k) c w = (m ≫= k') c w.
Proof. intros H. unfold mbind, M_bind. by destruct (m c w) as [[]]. Qed.

End put_all.

Lemma pool_texts_cons p s e g :
  s ≤ e → pool_texts p s e g =
          if s =? g then pool_texts p (s + 1) e g
          else cidr_text (dotted s) p :: pool_texts p (s + 1) e g.
Proof.
  intros Hs. unfold pool_texts. rewrite seqZ_cons by lia.
  replace (Z.pred (e - s + 1)) with (e - (s + 1) + 1) by lia. rewrite <- Z.add_1_r. simpl.
  by destruct (s =? g).
Qed.

Lemma pool_texts_nil p s e g : e < s → pool_texts p s e g = [].
Proof. intros Hs. unfold pool_texts. by rewrite seqZ_nil by lia. Qed.

(** Every address of a pool is there once, and the gateway is not among them. *)
Lemma pool_nodup p s e g :
  0 ≤ s → e < 2 ^ 32 → 0 ≤ g < 2 ^ 32 → NoDup (pool_texts p s e g ++ [cidr_text (dotted g) p]).
Proof.
  intros Hs He Hg.
  assert (Hin : ∀ n, n ∈ List.filter (λ n, negb (n =? g)) (seqZ s (e - s + 1)) →
            0 ≤ n < 2 ^ 32 ∧ n ≠ g).
  { intros n [Hn%negb_true_iff%Z.eqb_neq Hr%elem_of_seqZ]%elem_of_filter_bool. lia. }
  apply NoDup_app. split_and!; [| |apply NoDup_singleton].
  - apply NoDup_fmap_2_strong.
    + intros x y Hx%Hin Hy%Hin Hxy. apply cidr_text_inj in Hxy; tauto.
    + apply NoDup_ListNoDup, List.NoDup_filter, NoDup_ListNoDup, NoDup_seqZ.
  - intros t Ht Hgw%list_elem_of_singleton. apply list_elem_of_fmap in Ht as (n & -> & Hn%Hin).
    apply cidr_text_inj in Hgw; tauto.
Qed.

(** ** The address loop *)

Section pool.
Context {G : Gorm} {E : Env} {C : Cidr} {COk : CidrOk C}.
Variables (base p g : Z) (address : string → Address.t).
Hypothesis Hp : 8 ≤ p ≤ 32.
Hypothesis Hbase : 0 ≤ base ∧ base + 2 ^ (32 - p) ≤ 2 ^ 32.
Hypothesis Hdiv : (2 ^ (32 - p) | base).
Hypothesis Hg : 0 ≤ g < 2 ^ 32.

Abbreviation top := (base + 2 ^ (32 - p)).
Abbreviation gateway := (cidr_text (dotted g) p).

Lemma size_bounds : 0 < 2 ^ (32 - p) ≤ 2 ^ 24.
Proof. split; [apply Z.pow_pos_nonneg; lia|apply Z.pow_le_mono_r; lia]. Qed.

Lemma Contains_in ip n :
  IP_To4 ip = bytes4 n → 0 ≤ n < 2 ^ 32 →
  IPNet_Contains (net4 base p) ip = (base <=? n) && (n <? top).
Proof.
  intros Hip Hn. pose proof size_bounds. apply Bool.eq_iff_eq_true.
  rewrite (Contains_range base p ip n) by (done || lia).
  rewrite andb_true_iff, Z.leb_le, Z.ltb_lt. done.
Qed.

(** The address after [n], the gateway skipped. *)
Definition next_ip (ip : IP) : IP :=
  if String.eqb (cidr_text (IP_String (Inc ip)) p) gateway then Inc (Inc ip) else Inc ip.

Definition next_n (n : Z) : Z :=
  let m := (n + 1) `mod` 2 ^ 32 in if m =? g then (m + 1) `mod` 2 ^ 32 else m.

Lemma next_ip_v4 ip n : IP_To4 ip = bytes4 n → IP_To4 (next_ip ip) = bytes4 (next_n n).
Proof.
  intros Hip. unfold next_ip, next_n. pose proof (Inc_v4 _ _ Hip) as H1.
  rewrite (IP_String_v4 _ _ H1).
  assert (Hm : 0 ≤ (n + 1) `mod` 2 ^ 32 < 2 ^ 32) by (apply Z.mod_pos_bound; lia).
  destruct (Z.eqb_spec ((n + 1) `mod` 2 ^ 32) g) as [Heq|Hne].
  - rewrite Heq, String.eqb_refl. rewrite Heq in H1. by apply Inc_v4.
  - rewrite (proj2 (String.eqb_neq _ _)); [done|]. by intros ?%cidr_text_inj.
Qed.

Lemma next_n_bounds n : 0 ≤ next_n n < 2 ^ 32.
Proof. unfold next_n. case_if; apply Z.mod_pos_bound; lia. Qed.

Lemma next_n_plain n : 0 ≤ n → n + 1 < 2 ^ 32 → n + 1 ≠ g → next_n n = n + 1.
Proof.
  intros. unfold next_n. rewrite Z.mod_small by lia. by rewrite (proj2 (Z.eqb_neq _ _)).
Qed.

Lemma next_n_skip n : 0 ≤ n → n + 2 < 2 ^ 32 → n + 1 = g → next_n n = n + 2.
Proof.
  intros. unfold next_n. rewrite (Z.mod_small (n + 1)) by lia. rewrite (proj2 (Z.eqb_eq _ _)) by done.
  rewrite Z.mod_small; lia.
Qed.

(** After the last address of the network the next one is outside. *)
Lemma next_n_out n :
  base ≤ n < top → n + 1 = top ∨ (n + 2 = top ∧ n + 1 = g) →
  ((base <=? next_n n) && (next_n n <? top)) = false.
Proof.
  intros Hn Hlast. pose proof size_bounds. apply andb_false_iff. rewrite Z.leb_gt, Z.ltb_ge.
  unfold next_n. destruct (Z.eqb_spec ((n + 1) `mod` 2 ^ 32) g) as [Heq|Hne].
  - destruct (Z.eq_dec (n + 1) (2 ^ 32)) as [Hw|Hw].
    { rewrite Hw in *. rewrite Z_mod_same_full in *. simpl. rewrite Z.mod_small; lia. }
    rewrite (Z.mod_small (n + 1)) in * by lia.
    destruct (Z.eq_dec (n + 2) (2 ^ 32)) as [Hw2|Hw2].
    + replace (n + 1 + 1) with (2 ^ 32) by lia. rewrite Z_mod_same_full. lia.
    + rewrite Z.mod_small; lia.
  - destruct (Z.eq_dec (n + 1) (2 ^ 32)) as [Hw|Hw].
    { rewrite Hw, Z_mod_same_full. lia. }
    rewrite Z.mod_small in * by lia. lia.
Qed.

Variable end_ : string.
Abbreviation loop fuel ip := (pool_loop fuel (net4 base p) gateway end_ p address ip).

Lemma loop_step fuel ip n c w :
  IP_To4 ip = bytes4 n → base ≤ n < top →
  loop (S fuel) ip c w =
  (_ ← db_create (address (cidr_text (dotted n) p));
   if String.eqb (dotted n) end_ then mret (Some tt) else loop fuel (next_ip ip)) c w.
Proof.
  intros Hip Hn. simpl. rewrite (Contains_in ip n) by (done || lia).
  rewrite (proj2 (Z.leb_le _ _)), (proj2 (Z.ltb_lt _ _)) by lia. simpl.
  by rewrite (IP_String_v4 _ _ Hip).
Qed.

Definition out_of_range : error :=
  NewCLError ErrInvalidParameter "Invalid start/end/gateway range, IP exceeded subnet range" None.

Lemma loop_out fuel ip n c w :
  IP_To4 ip = bytes4 n → 0 ≤ n < 2 ^ 32 → ((base <=? n) && (n <? top)) = false →
  loop (S fuel) ip c w = (Err out_of_range, w).
Proof. intros Hip Hn Ho. simpl. by rewrite (Contains_in ip n), Ho. Qed.

(** The last address is reached: the loop is the enumeration of the pool. *)
Lemma loop_reaches fuel : ∀ ip s e c w,
  IP_To4 ip = bytes4 s → base ≤ s ≤ e → e < top → s ≠ g → e ≠ g → end_ = dotted e →
  (Z.to_nat (e - s) < fuel)%nat →
  loop fuel ip c w = (_ ← put_all address (pool_texts p s e g); mret (Some tt)) c w.
Proof.
  induction fuel as [|fuel IH]; intros ip s e c w Hip Hs He Hsg Heg Hend Hf; [lia|].
  pose proof size_bounds. rewrite (loop_step _ _ s), pool_texts_cons by (done || lia).
  rewrite (proj2 (Z.eqb_neq s g)), <- put_all_cons by done. apply bind_ext. intros _ w1.
  destruct (String.eqb_spec (dotted s) end_) as [Heq|Hne].
  { rewrite Hend in Heq. apply dotted_inj in Heq; [|lia..]. subst e. by rewrite pool_texts_nil by lia. }
  assert (s ≠ e) by congruence. pose proof (next_ip_v4 _ _ Hip) as Hnext.
  destruct (Z.eq_dec (s + 1) g) as [Hskip|Hplain].
  - rewrite next_n_skip in Hnext by lia. rewrite (IH _ (s + 2) e) by (done || lia).
    rewrite (pool_texts_cons p (s + 1)) by lia. rewrite (proj2 (Z.eqb_eq _ _)) by done.
    by replace (s + 1 + 1) with (s + 2) by lia.
  - rewrite next_n_plain in Hnext by lia. by rewrite (IH _ (s + 1) e) by (done || lia).
Qed.

(** It is not reached: the loop runs into the end of the network. *)
Lemma loop_misses fuel : ∀ ip s c w,
  IP_To4 ip = bytes4 s → base ≤ s < top → s ≠ g →
  (∀ n, s ≤ n < top → n ≠ g → dotted n ≠ end_) →
  (Z.to_nat (top - s) < fuel)%nat →
  loop fuel ip c w = (_ ← put_all address (pool_texts p s (top - 1) g); fail out_of_range) c w.
Proof.
  induction fuel as [|fuel IH]; intros ip s c w Hip Hs Hsg Hend Hf; [lia|].
  pose proof size_bounds. rewrite (loop_step _ _ s), pool_texts_cons by (done || lia).
  rewrite (proj2 (Z.eqb_neq s g)), <- put_all_cons by done. apply bind_ext. intros _ w1.
  rewrite (proj2 (String.eqb_neq _ _)) by (apply Hend; [lia|done]).
  pose proof (next_ip_v4 _ _ Hip) as Hnext.
  destruct (decide (s + 1 = top ∨ (s + 2 = top ∧ s + 1 = g))) as [Hlast|Hmore].
  - destruct fuel as [|fuel]; [lia|].
    rewrite (loop_out fuel _ (next_n s)) by (done || apply next_n_bounds || by apply next_n_out).
    destruct Hlast as [Hlast|[Hlast Hskip]]; [by rewrite pool_texts_nil by lia|].
    rewrite pool_texts_cons by lia. rewrite (proj2 (Z.eqb_eq _ _)) by done.
    by rewrite pool_texts_nil by lia.
  - destruct (Z.eq_dec (s + 1) g) as [Hskip|Hplain].
    + rewrite next_n_skip in Hnext by lia.
      rewrite (IH _ (s + 2)); [|done|lia|lia|intros; apply Hend; lia|lia].
      rewrite (pool_texts_cons p (s + 1)) by lia. rewrite (proj2 (Z.eqb_eq _ _)) by done.
      by replace (s + 1 + 1) with (s + 2) by lia.
    + rewrite next_n_plain in Hnext by lia.
      by rewrite (IH _ (s + 1)); [|done|lia|lia|intros; apply Hend; lia|lia].
Qed.

End pool.

Section generate.
Context {G : Gorm} {E : Env} {C : Cidr} {COk : CidrOk C}.

(** The row of an address that [generateIPAddresses] creates. *)
Definition subnet_address (subnet : Subnet.t) : string → Address.t :=
  pool_address (Subnet.Creater subnet) (Subnet.Owner subnet) (Subnet.Netmask subnet)
    (Subnet.ID subnet).

Definition put_pool (subnet : Subnet.t) (texts : list string) : M unit :=
  for_each texts (λ t, _ ← wrap ErrAddressCreateFailed "Failed to create IP address"
                             (db_create (subnet_address subnet t)); mret tt).

Lemma put_pool_cons {A} subnet t texts (k : M A) c w :
  (_ ← wrap ErrAddressCreateFailed "Failed to create IP address"
         (db_create (subnet_address subnet t)); (_ ← put_pool subnet texts; k)) c w =
  (_ ← put_pool subnet (t :: texts); k) c w.
Proof.
  unfold put_pool. simpl. unfold mbind, M_bind, mret, M_ret.
  by destruct (wrap _ _ _ c w) as [[]].
Qed.

(** [generateIPAddresses] is the enumeration of the pool, wherever the gateway is. *)
Lemma generate_loop_pool subnet p g e endip fuel : ∀ ip s c w,
  0 ≤ g < 2 ^ 32 → Subnet.Gateway subnet = cidr_text (dotted g) p →
  IP_To4 ip = bytes4 s → IP_To4 endip = bytes4 e → 0 ≤ s ≤ e → e < 2 ^ 32 →
  (Z.to_nat (e - s) < fuel)%nat →
  generate_loop fuel subnet ip endip p c w =
  (_ ← put_pool subnet (pool_texts p s e g); mret (Some tt)) c w.
Proof.
  induction fuel as [|fuel IH]; intros ip s c w Hg Hgw Hip Hep Hs He Hf; [lia|]. simpl.
  assert (Hinc : ∀ ip n, IP_To4 ip = bytes4 n → 0 ≤ n → n + 1 < 2 ^ 32 →
            IP_To4 (Inc ip) = bytes4 (n + 1)).
  { intros ip' n H Hn Hn'. rewrite (Inc_v4 _ _ H). by rewrite Z.mod_small by lia. }
  assert (Hput : ∀ ip n c w, IP_To4 ip = bytes4 n → s ≤ n ≤ e → n ≠ g →
    (_ ← wrap ErrAddressCreateFailed "Failed to create IP address"
           (db_create (subnet_address subnet (cidr_text (IP_String ip) p)));
     if String.eqb (IP_String ip) (IP_String endip) then mret (Some tt)
     else generate_loop fuel subnet (Inc ip) endip p) c w =
    (_ ← put_pool subnet (pool_texts p n e g); mret (Some tt)) c w).
  { intros ip' n c' w' H Hn Hng. rewrite (pool_texts_cons p n) by lia.
    rewrite (proj2 (Z.eqb_neq n g)), <- put_pool_cons, (IP_String_v4 _ _ H) by done.
    apply bind_ext. intros _ w1. rewrite (IP_String_v4 _ _ Hep).
    destruct (String.eqb_spec (dotted n) (dotted e)) as [Heq|Hne].
    - apply dotted_inj in Heq; [|lia..]. subst n. by rewrite pool_texts_nil by lia.
    - assert (n ≠ e) by congruence. rewrite (IH _ (n + 1)); try (done || lia). apply Hinc; [done|lia..]. }
  rewrite (IP_String_v4 _ _ Hip), (IP_String_v4 _ _ Hep), Hgw.
  destruct (String.eqb_spec (cidr_text (dotted s) p) (cidr_text (dotted g) p)) as [Heq|Hne].
  - apply cidr_text_inj in Heq; [|lia..]. rewrite pool_texts_cons by lia.
    rewrite (proj2 (Z.eqb_eq s g)) by done.
    destruct (String.eqb_spec (dotted s) (dotted e)) as [Heq'|Hne'].
    + apply dotted_inj in Heq'; [|lia..]. by rewrite pool_texts_nil by lia.
    + assert (s ≠ e) by congruence. rewrite <- (IP_String_v4 _ _ Hep).
      apply (Hput _ (s + 1)); [apply Hinc; [done|lia..]|lia..].
  - rewrite <- (IP_String_v4 _ _ Hep), <- (IP_String_v4 _ _ Hip).
    apply Hput; [done|lia|congruence].
Qed.

End generate.

(** ** The plan of a subnet *)

(** An address that a request gives or leaves out. *)
Definition given (o : option Z) : string := from_option dotted "" o.

Definition plan_gateway (base : Z) (o : option Z) : Z := default (base + 1) o.

Definition plan_start (base g : Z) (o : option Z) : Z :=
  let s := default (base + 1) o in if s =? g then (s + 1) `mod` 2 ^ 32 else s.

Definition plan_end (top g : Z) (o : option Z) : Z :=
  let e := default (top - 2) o in if e =? g then (e - 1) `mod` 2 ^ 32 else e.

Definition addr_ok (o : option Z) : Prop := from_option (λ n, 0 ≤ n < 2 ^ 32) True o.

Section plan.
Context {C : Cidr} {COk : CidrOk C}.

Lemma eqb_dotted m n :
  0 ≤ m < 2 ^ 32 → 0 ≤ n < 2 ^ 32 → String.eqb (dotted m) (dotted n) = (m =? n).
Proof.
  intros Hm Hn. destruct (Z.eqb_spec m n) as [->|Hne]; [apply String.eqb_refl|].
  apply String.eqb_neq. by intros ?%dotted_inj.
Qed.

Lemma eqb_given o dflt :
  (if String.eqb (given o) "" then dotted dflt else given o) = dotted (default dflt o).
Proof.
  destruct o as [m|]; simpl; [|done]. by rewrite (proj2 (String.eqb_neq _ _)) by apply dotted_nonempty.
Qed.

Lemma subnet_plan_v4 base p og os oe :
  8 ≤ p ≤ 30 → 0 ≤ base → base + 2 ^ (32 - p) ≤ 2 ^ 32 → (2 ^ (32 - p) | base) →
  addr_ok og → addr_ok os → addr_ok oe →
  let g := plan_gateway base og in
  subnet_plan (net4 base p) (given og) (given os) (given oe) =
  (dotted g, dotted (plan_start base g os), dotted (plan_end (base + 2 ^ (32 - p)) g oe)).
Proof.
  intros Hp Hb Ht Hd Hg Hs He g. unfold subnet_plan.
  assert (Hk : 4 ≤ 2 ^ (32 - p)) by (change 4 with (2 ^ 2); apply Z.pow_le_mono_r; lia).
  destruct (AddressRange_v4 base p) as [Hf Hl]; [lia|lia|done|].
  destruct (AddressRange (net4 base p)) as [first last]. simpl in Hf, Hl.
  assert (H1 : IP_String (Inc first) = dotted (base + 1)).
  { apply IP_String_v4. rewrite (Inc_v4 _ _ Hf). by rewrite Z.mod_small by lia. }
  assert (H2 : IP_String (Dec last) = dotted (base + 2 ^ (32 - p) - 2)).
  { apply IP_String_v4. rewrite (Dec_v4 _ _ Hl). rewrite Z.mod_small by lia. f_equal. lia. }
  rewrite H1, H2. rewrite !eqb_given.
  fold (plan_gateway base og). fold g.
  assert (Hgb : 0 ≤ g < 2 ^ 32) by (unfold g, plan_gateway; destruct og; simpl in *; lia).
  assert (Hsb : 0 ≤ default (base + 1) os < 2 ^ 32) by (destruct os; simpl in *; lia).
  assert (Heb : 0 ≤ default (base + 2 ^ (32 - p) - 2) oe < 2 ^ 32) by (destruct oe; simpl in *; lia).
  rewrite !eqb_dotted by done. unfold plan_start, plan_end. f_equal; [f_equal|].
  - destruct (_ =? g); [|done]. apply IP_String_v4. by rewrite (Inc_v4 _ _ (To4_ParseIP _)).
  - destruct (_ =? g); [|done]. apply IP_String_v4. by rewrite (Dec_v4 _ _ (To4_ParseIP _)).
Qed.

End plan.

(** ** The rows of a pool *)

Section pooled.
Context {G : Gorm} {E : Env} {GOk : GormOk G}.

Abbreviation ads d := (rows (addresses d)).

(** [d'] is [d] with the rows [l], one per text. *)
Record pooled (address : string → Address.t) (texts : list string) (d d' : DB)
    (l : list Address.t) : Prop := {
  pooled_texts : map Address.Address l = texts;
  pooled_rows k a : ads d' !! k = Some a ↔ ads d !! k = Some a ∨ (a ∈ l ∧ Address.ID a = k);
  pooled_new a : a ∈ l → ads d !! Address.ID a = None;
  pooled_nodup : NoDup l;
  pooled_made a : a ∈ l → ∃ u, a = set_id (Address.ID a) (col_defaults (before_create u
                                          (address (Address.Address a))));
  pooled_frame : d' = d <| addresses := addresses d' |>
}.

Lemma pooled_nil address d : pooled address [] d d [].
Proof.
  split; [done| |by intros a ?%elem_of_nil|constructor|by intros a ?%elem_of_nil|by destruct d].
  intros k a. split; [by left|]. by intros [?|[?%elem_of_nil _]].
Qed.

Lemma pooled_cons address t texts d d1 d2 a l :
  (∀ t, Address.Address (address t) = t) →
  pooled address [t] d d1 [a] → pooled address texts d1 d2 l →
  pooled address (t :: texts) d d2 (a :: l).
Proof.
  intros Ht [T1 R1 N1 D1 M1 F1] [T2 R2 N2 D2 M2 F2].
  assert (Ha : ads d1 !! Address.ID a = Some a) by (apply R1; right; split; [apply list_elem_of_here|done]).
  split.
  - simpl in *. simplify_eq. done.
  - intros k x. rewrite R2, R1, !elem_of_cons, elem_of_nil. clear. intuition congruence.
  - intros x [->|Hx]%elem_of_cons; [apply N1, list_elem_of_here|].
    apply N2 in Hx. destruct (ads d !! Address.ID x) as [y|] eqn:Hy; [|done].
    assert (ads d1 !! Address.ID x = Some y) by (apply R1; by left). congruence.
  - constructor; [|done]. intros Hin. apply N2 in Hin. congruence.
  - intros x [->|Hx]%elem_of_cons; [apply M1, list_elem_of_here|by apply M2].
  - rewrite F2, F1. done.
Qed.

Lemma create_pooled address t c w a w' :
  (∀ t, Address.Address (address t) = t) →
  db_create (address t) c w = (Ok a, w') →
  pooled address [t] (db w) (db w') [a] ∧ sent w' = sent w.
Proof.
  intros Ht (tb & Hc & Hd & Hs)%db_create_Ok. split; [|done].
  apply create_spec in Hc as (Hpos & Hnone & Hrow & Hrows).
  change (get_id a) with (Address.ID a) in *.
  assert (Hads : ads (db w') = <[Address.ID a := a]> (ads (db w))) by (by rewrite Hd).
  assert (Htext : Address.Address a = t).
  { transitivity (Address.Address (address t)); [|apply Ht]. by rewrite Hrow. }
  split.
  - simpl. by rewrite Htext.
  - intros k x. rewrite Hads, lookup_insert_Some, list_elem_of_singleton. split.
    + intros [[<- <-]|[Hne Hx]]; [by right|by left].
    + intros [Hx|[-> <-]]; [|by left]. right. split; [|done]. intros <-.
      change (ads (db w) !! Address.ID a = None) in Hnone. congruence.
  - intros x ->%list_elem_of_singleton. done.
  - apply NoDup_singleton.
  - intros x ->%list_elem_of_singleton. exists (uuid_new (clock w)). by rewrite Htext.
  - rewrite Hd. done.
Qed.

Lemma put_all_Ok address texts c w u w' :
  (∀ t, Address.Address (address t) = t) →
  put_all address texts c w = (Ok u, w') →
  ∃ l, pooled address texts (db w) (db w') l ∧ sent w' = sent w.
Proof.
  intros Ht. revert w. induction texts as [|t texts IH]; intros w; unfold put_all; simpl for_each.
  - intros [_ <-]%ret_Ok. exists []. split; [apply pooled_nil|done].
  - intros (v & w1 & (a & w2 & Hc & [_ <-]%ret_Ok)%bind_Ok & Hrest)%bind_Ok.
    apply create_pooled in Hc as [Hc Hs1]; [|done]. apply IH in Hrest as (l & Hl & Hs). exists (a :: l). split; [by eapply pooled_cons|congruence].
Qed.

End pooled.

(** ** The creation of a subnet *)

Section create.
Context {G : Gorm} {E : Env} {C : Cidr} {GOk : GormOk G} {COk : CidrOk C}.

Lemma preload_subnet_runs s c w :
  no_faults → Subnet.RouterID s = 0 →
  ∃ o w', preload_subnet s c w = (Ok (s <| Subnet.Router := None |> <| Subnet.Group := o |>), w') ∧
    db w' = db w ∧ sent w' = sent w.
Proof.
  intros Hn Hr. unfold preload_subnet. rewrite Hr.
  change (preload 0 : M (option Router.t)) with (mret None : M (option Router.t)).
  destruct (runs (preload (R := IpGroup.t) (Subnet.GroupID s)) c w) as (o & w' & H);
    [ne_tac|np|]. exists o, w'. apply preload_Ok in H as H'. destruct H' as (_ & Hd & Hs).
  split; [|done]. unfold mbind at 1, M_bind at 1. simpl. by rewrite (bind_run _ _ _ _ _ _ H).
Qed.

(** The prefix lengths whose networks have 5 to 1000 addresses. *)
Lemma count_bounds p :
  0 ≤ p ≤ 32 → ((5 <=? 2 ^ (32 - p)) && (2 ^ (32 - p) <=? 1000)) = ((23 <=? p) && (p <=? 29)).
Proof.
  intros Hp. apply Bool.eqb_prop.
  apply (below 33 (λ p, Bool.eqb ((5 <=? 2 ^ (32 - p)) && (2 ^ (32 - p) <=? 1000))
                          ((23 <=? p) && (p <=? 29)))); [by vm_compute|lia].
Qed.

(** What a new subnet with the pool from [sa] to [ea] and the gateway [g] is in the
    database: its row, a free address per text of the pool and one for the
    gateway; nothing else changes. *)
Record subnet_made (m : MemberShip.t) (s : Subnet.t) (p sa ea g : Z) (d d' : DB) : Prop := {
  made_owner : Subnet.Owner s = dflt_Z 1 (MemberShip.OrgID m);
  made_router : Subnet.RouterID s = 0;
  made_fresh : rows (subnets d) !! Subnet.ID s = None;
  made_row : rows (subnets d') = <[Subnet.ID s := s <| Subnet.Group := None |>]> (rows (subnets d));
  made_gateway : Subnet.Gateway s = cidr_text (dotted g) p;
  made_range : Subnet.Start s = dotted sa ∧ Subnet.End_ s = dotted ea;
  made_pool : map Address.Address (g_find (λ a, Address.SubnetID a =? Subnet.ID s) (addresses d'))
              ≡ₚ pool_texts p sa ea g ++ [cidr_text (dotted g) p];
  made_free k a : rows (addresses d') !! k = Some a → Address.SubnetID a = Subnet.ID s →
    Address.Allocated a = false ∧ Address.Reserved a = false ∧ Address.Interface a = 0 ∧
    Address.Netmask a = Subnet.Netmask s;
  made_others k a : Address.SubnetID a ≠ Subnet.ID s →
    rows (addresses d') !! k = Some a ↔ rows (addresses d) !! k = Some a;
  made_frame : d' = d <| subnets := subnets d' |> <| addresses := addresses d' |>
}.

Lemma pool_columns cr ow nm sid u j t :
  let a := set_id j (col_defaults (before_create u (pool_address cr ow nm sid t))) in
  Address.SubnetID a = sid ∧ Address.Allocated a = false ∧ Address.Reserved a = false ∧
  Address.Interface a = 0 ∧ Address.Netmask a = nm.
Proof. done. Qed.

(** The rows of a pool are the rows of its subnet, when it had none before. *)
Lemma pooled_find cr ow nm sid texts d d' l :
  pooled (pool_address cr ow nm sid) texts d d' l →
  (∀ k a, rows (addresses d) !! k = Some a → Address.SubnetID a ≠ sid) →
  g_find (λ a, Address.SubnetID a =? sid) (addresses d') ≡ₚ l ∧
  (∀ k a, rows (addresses d') !! k = Some a → Address.SubnetID a = sid → a ∈ l) ∧
  (∀ k a, Address.SubnetID a ≠ sid →
     rows (addresses d') !! k = Some a ↔ rows (addresses d) !! k = Some a).
Proof.
  intros [T R N D Hm F] Hold.
  assert (Hsid : ∀ a, a ∈ l → Address.SubnetID a = sid).
  { intros a (u & Ha)%Hm. rewrite Ha. reflexivity. }
  split_and!.
  - apply NoDup_Permutation; [apply find_nodup|done|]. intros a. rewrite find_spec, R, Z.eqb_eq. split.
    + intros [Hs [Ho|[Hin _]]]; [by apply Hold in Ho|done].
    + intros Hin. split; [by apply Hsid|]. by right.
  - intros k a Ha Hs. apply R in Ha as [Ho|[Hin _]]; [by apply Hold in Ho|done].
  - intros k a Hs. rewrite R. split; [intros [?|[Hin _]]; [done|by apply Hsid in Hin]|by left].
Qed.

Lemma pooled_snoc address t texts d d1 d2 a l :
  pooled address texts d d1 l → pooled address [t] d1 d2 [a] → pooled address (texts ++ [t]) d d2 (l ++ [a]).
Proof.
  intros [T1 R1 N1 D1 M1 F1] [T2 R2 N2 D2 M2 F2].
  assert (Hnew : ∀ x, x ∈ l → rows (addresses d1) !! Address.ID x = Some x).
  { intros x Hx. apply R1. by right. }
  assert (Ha : rows (addresses d1) !! Address.ID a = None) by apply N2, list_elem_of_here.
  split.
  - rewrite map_app. by f_equal.
  - intros k x. rewrite R2, R1, elem_of_app. tauto.
  - intros x [Hx|Hx]%elem_of_app; [by apply N1|]. apply N2 in Hx.
    destruct (rows (addresses d) !! Address.ID x) as [y|] eqn:Hy; [|done].
    assert (rows (addresses d1) !! Address.ID x = Some y) by (apply R1; by left). congruence.
  - apply NoDup_app. split_and!; [done| |apply NoDup_singleton].
    intros x Hx ->%list_elem_of_singleton. apply Hnew in Hx. congruence.
  - intros x [Hx|Hx]%elem_of_app; [by apply M1|by apply M2].
  - rewrite F2, F1. done.
Qed.

Lemma put_all_runs address texts c w :
  no_faults → (∀ t, Address.Address (address t) = t) →
  ∃ w' l, put_all address texts c w = (Ok tt, w') ∧ pooled address texts (db w) (db w') l ∧
    sent w' = sent w.
Proof.
  intros Hn Ht. destruct (runs (put_all address texts) c w) as ([] & w' & H).
  { unfold put_all. ne_tac. }
  { unfold put_all. np. }
  apply put_all_Ok in H as H'; [|done]. destruct H' as (l & Hl & Hs). by exists w', l.
Qed.

Lemma wrap_run {A} code msg (m : M A) c w a w1 :
  m c w = (Ok a, w1) → wrap code msg m c w = (Ok a, w1).
Proof. unfold wrap. by intros ->. Qed.

Lemma unloaded_row r o :
  Subnet.Router r = None ∧ Subnet.Group r = None →
  r <| Subnet.Router := None |> <| Subnet.Group := o |> <| Subnet.Group := None |> = r.
Proof. destruct r. simpl. by intros [-> ->]. Qed.

Section parts.
Variables (base p : Z) (og os oe : option Z).
Hypothesis Hn : no_faults.
Hypothesis Hp : 23 ≤ p ≤ 29.
Hypothesis Hbase : 0 ≤ base ∧ base + 2 ^ (32 - p) ≤ 2 ^ 32.
Hypothesis Hdiv : (2 ^ (32 - p) | base).
Hypothesis Hgiven : addr_ok og ∧ addr_ok os ∧ addr_ok oe.

Abbreviation top := (base + 2 ^ (32 - p)).
Abbreviation g := (plan_gateway base og).
Abbreviation s := (plan_start base g os).
Abbreviation e := (plan_end top g oe).

(** The row of the subnet is created and read again; the pool follows. *)
Lemma create_in_head fuel m vlan name network rtype dns domain dhcp ipGroup priority c w :
  ∃ subnet w1,
    Subnet.Owner subnet = dflt_Z 1 (MemberShip.OrgID m) ∧
    Subnet.Gateway subnet = cidr_text (dotted g) p ∧
    (Subnet.Start subnet = dotted s ∧ Subnet.End_ subnet = dotted e) ∧
    Subnet.RouterID subnet = 0 ∧ rows (subnets (db w)) !! Subnet.ID subnet = None ∧
    rows (subnets (db w1)) =
      <[Subnet.ID subnet := subnet <| Subnet.Group := None |>]> (rows (subnets (db w))) ∧
    db w1 = db w <| subnets := subnets (db w1) |> ∧ sent w1 = sent w ∧
    let address := pool_address (MemberShip.UserID m) (MemberShip.OrgID m) (Subnet.Netmask subnet)
                     (Subnet.ID subnet) in
    create_in fuel m (net4 base p) vlan name network (given og) (given os) (given oe) rtype dns
      domain dhcp None ipGroup priority c w =
    (r ← pool_loop fuel (net4 base p) (cidr_text (dotted g) p) (dotted e) p address
           (ParseIP (dotted s));
     match r with
     | None => mret None
     | Some _ => _ ← finish_create subnet (address (cidr_text (dotted g) p)); mret (Some subnet)
     end) c w1.
Proof.
  destruct Hgiven as (Hg & Hs & He). unfold create_in.
  rewrite subnet_plan_v4 by (done || lia). simpl NetMask. rewrite CIDRMask_size by lia.
  set (s0 := subnet_model _ _ _ _ _ _ _ _ _ _ _ _ _ _ _).
  destruct (create_runs s0 c w Hn) as (row & t & w1 & Hc & Hs1 & Hd1 & Hg1).
  apply create_spec in Hg1 as Hg2. destruct Hg2 as (_ & Hfresh & Hrow & Hrows).
  tables. change (get_id row) with (Subnet.ID row) in *.
  assert (Hsub : rows (subnets (db w1)) = <[Subnet.ID row := row]> (rows (subnets (db w))))
    by (by rewrite Hd1).
  destruct (take_id_runs (Subnet.ID row) row c w1 Hn) as (w2 & Ht & Hd2 & Hs2).
  { tables. rewrite Hsub. apply lookup_insert_eq. }
  assert (Hr0 : Subnet.RouterID row = 0) by (by rewrite Hrow).
  destruct (preload_subnet_runs row c w2 Hn Hr0) as (o & w3 & Hpre & Hd3 & Hs3).
  assert (Hpn : Subnet.Router row = None ∧ Subnet.Group row = None) by (rewrite Hrow; done).
  exists (row <| Subnet.Router := None |> <| Subnet.Group := o |>), w3.
  rewrite Hd3, Hd2, Hs3, Hs2, Hs1, Hsub.
  split; [rewrite Hrow; reflexivity|].
  split; [rewrite Hrow; reflexivity|]. split; [rewrite Hrow; split; reflexivity|].
  split; [exact Hr0|]. split; [exact Hfresh|]. split; [|split; [by rewrite Hd1|split; [done|]]].
  - f_equal. symmetry. by apply unloaded_row.
  - cbv zeta. rewrite (bind_run _ _ _ _ _ _ (wrap_run _ _ _ _ _ _ _ Hc)).
    erewrite (bind_run _ _ c w1).
    2: { apply wrap_run. rewrite (bind_run _ _ _ _ _ _ Ht). exact Hpre. }
    assert (Hnm : Subnet.Netmask row = IP_String (CIDRMask p 32)) by (by rewrite Hrow).
    simpl Subnet.Netmask. by rewrite Hnm.
Qed.

Lemma mod_next_ne x d : 0 ≤ x < 2 ^ 32 → d = 1 ∨ d = -1 → (x + d) `mod` 2 ^ 32 ≠ x.
Proof.
  intros Hx Hd Heq. assert (Hd' : d `mod` 2 ^ 32 = 0).
  { replace d with (x + d - x) by lia. rewrite Zminus_mod, Heq, (Z.mod_small x) by lia.
    by rewrite Z.sub_diag. }
  by destruct Hd as [-> | ->].
Qed.

Lemma plan_bounds :
  0 ≤ g < 2 ^ 32 ∧ 0 ≤ s < 2 ^ 32 ∧ 0 ≤ e < 2 ^ 32 ∧ s ≠ g ∧ e ≠ g.
Proof.
  destruct Hgiven as (Hg & Hs & He). pose proof (size_bounds p ltac:(lia)).
  assert (4 ≤ 2 ^ (32 - p)) by (change 4 with (2 ^ 2); apply Z.pow_le_mono_r; lia).
  assert (Hgb : 0 ≤ g < 2 ^ 32) by (unfold plan_gateway; destruct og; simpl in *; lia).
  assert (Hsb : 0 ≤ default (base + 1) os < 2 ^ 32) by (destruct os; simpl in *; lia).
  assert (Heb : 0 ≤ default (top - 2) oe < 2 ^ 32) by (destruct oe; simpl in *; lia).
  assert (Hm : ∀ x, 0 ≤ x `mod` 2 ^ 32 < 2 ^ 32) by (intros; apply Z.mod_pos_bound; lia).
  unfold plan_start, plan_end. split; [exact Hgb|].
  destruct (Z.eqb_spec (default (base + 1) os) g) as [Hsg|Hsg],
    (Z.eqb_spec (default (top - 2) oe) g) as [Heg|Heg].
  all: split; [first [apply Hm|exact Hsb]|split; [first [apply Hm|exact Heb]|split]]; try assumption.
  all: first [rewrite Hsg; apply (mod_next_ne _ 1); [exact Hgb|by left]
             |rewrite Heg; apply (mod_next_ne _ (-1)); [exact Hgb|by right]].
Qed.

Lemma create_in_ok fuel m vlan name network rtype dns domain dhcp ipGroup priority c w :
  (1000 < fuel)%nat → base ≤ s ≤ e → e < top →
  (∀ k a, rows (addresses (db w)) !! k = Some a →
          is_Some (rows (subnets (db w)) !! Address.SubnetID a)) →
  ∃ subnet w',
    create_in fuel m (net4 base p) vlan name network (given og) (given os) (given oe) rtype dns
      domain dhcp None ipGroup priority c w = (Ok (Some subnet), w') ∧
    subnet_made m subnet p s e g (db w) (db w') ∧ sent w' = sent w.
Proof.
  intros Hf Hs He Hold. destruct plan_bounds as (Hg & Hsb & Heb & Hsg & Heg).
  pose proof (size_bounds p ltac:(lia)).
  assert (2 ^ (32 - p) ≤ 512) by (change 512 with (2 ^ 9); apply Z.pow_le_mono_r; lia).
  destruct (create_in_head fuel m vlan name network rtype dns domain dhcp ipGroup priority c w)
    as (subnet & w1 & Hown & Hgw & Hrange & Hr & Hfresh & Hrows & Hd1 & Hs1 & Hrun).
  cbv zeta in Hrun.
  set (address := pool_address (MemberShip.UserID m) (MemberShip.OrgID m) (Subnet.Netmask subnet)
                    (Subnet.ID subnet)) in *.
  destruct (put_all_runs address (pool_texts p s e g) c w1 Hn) as (w2 & l & Hput & Hl & Hs2); [done|].
  destruct (create_runs (address (cidr_text (dotted g) p)) c w2 Hn) as (a & tb & w3 & Hc & Hs3 & _).
  exists subnet, w3. split; [|split; [|congruence]].
  - rewrite Hrun. rewrite (bind_run _ _ c w1 (Some tt) w2).
    + unfold finish_create. rewrite Hr. simpl. unfold mbind, M_bind, try. by rewrite Hc.
    + rewrite (loop_reaches base p g address ltac:(lia) Hbase Hdiv Hg _ _ _ s e)
        by (done || lia || apply To4_ParseIP).
      by rewrite (bind_run _ _ _ _ _ _ Hput).
  - apply create_pooled in Hc as [Hlast _]; [|done].
    pose proof (pooled_snoc _ _ _ _ _ _ _ _ Hl Hlast) as Hall.
    assert (Hads : rows (addresses (db w1)) = rows (addresses (db w))) by (by rewrite Hd1).
    destruct (pooled_find _ _ _ _ _ _ _ _ Hall) as (Hperm & Hmine & Hother).
    { intros k x Hx Hsid. rewrite Hads in Hx. apply Hold in Hx as [y Hy]. rewrite Hsid in Hy. congruence. }
    pose proof (pooled_frame _ _ _ _ _ Hall) as Hframe.
    split; try done.
    + rewrite Hframe. exact Hrows.
    + rewrite Hperm. by rewrite (pooled_texts _ _ _ _ _ Hall).
    + intros k x Hx Hsid. apply (Hmine k) in Hsid; [|done].
      destruct (pooled_made _ _ _ _ _ Hall x Hsid) as [u ->]. done.
    + intros k x Hsid. rewrite (Hother k x Hsid). by rewrite Hads.
    + rewrite Hframe, Hd1. done.
Qed.

Lemma create_in_err fuel m vlan name network rtype dns domain dhcp ipGroup priority c w :
  (1000 < fuel)%nat → ¬ (base ≤ s ≤ e ∧ e < top) →
  ∃ w',
    create_in fuel m (net4 base p) vlan name network (given og) (given os) (given oe) rtype dns
      domain dhcp None ipGroup priority c w = (Err out_of_range, w').
Proof.
  intros Hf Hbad. destruct plan_bounds as (Hg & Hsb & Heb & Hsg & Heg).
  pose proof (size_bounds p ltac:(lia)).
  assert (2 ^ (32 - p) ≤ 512) by (change 512 with (2 ^ 9); apply Z.pow_le_mono_r; lia).
  destruct (create_in_head fuel m vlan name network rtype dns domain dhcp ipGroup priority c w)
    as (subnet & w1 & Hown & Hgw & Hrange & Hr & Hfresh & Hrows & Hd1 & Hs1 & Hrun).
  cbv zeta in Hrun. rewrite Hrun.
  set (address := pool_address _ _ _ _).
  assert (Hloop : ∃ w', pool_loop fuel (net4 base p) (cidr_text (dotted g) p) (dotted e) p address
                          (ParseIP (dotted s)) c w1 = (Err out_of_range, w')).
  { destruct ((base <=? s) && (s <? top)) eqn:Hin.
    - apply andb_true_iff in Hin as [Hlo%Z.leb_le Hhi%Z.ltb_lt].
      rewrite (loop_misses base p g address ltac:(lia) Hbase Hdiv Hg _ _ _ s);
        [|apply To4_ParseIP|lia|done| |lia].
      + destruct (put_all_runs address (pool_texts p s (top - 1) g) c w1 Hn)
          as (w2 & l & Hput & _); [done|].
        rewrite (bind_run _ _ _ _ _ _ Hput). by eexists.
      + intros n Hn' Hng Heq. assert (n = e); [|lia]. apply dotted_inj; [lia|done..].
    - destruct fuel as [|fuel]; [lia|].
      rewrite (loop_out base p g address ltac:(lia) Hbase Hdiv _ _ _ s) by (done || apply To4_ParseIP).
      by eexists. }
  destruct Hloop as [w' Hloop]. exists w'. unfold mbind, M_bind. by rewrite Hloop.
Qed.

End parts.

Definition too_big : error :=
  NewCLError ErrCIDRTooBig "Network/mask must have more than 5 but less than 1000 addresses" None.

Lemma check_create_runs m rtype c w :
  CheckPermission m Writer = true → (rtype = "public" → CheckPermission m Admin = true) →
  check_create m rtype None c w = (Ok tt, w).
Proof.
  intros Hw Ha. unfold check_create, require. rewrite Hw.
  unfold mbind, M_bind, mret, M_ret. destruct (String.eqb_spec rtype "public"); [|done].
  by rewrite Ha.
Qed.

(** Where the network starts: the host part of its text is cleared. *)
Lemma base_bounds n p :
  0 ≤ n < 2 ^ 32 → 0 ≤ p ≤ 32 →
  let base := n / 2 ^ (32 - p) * 2 ^ (32 - p) in
  (0 ≤ base ∧ base + 2 ^ (32 - p) ≤ 2 ^ 32) ∧ (2 ^ (32 - p) | base).
Proof.
  intros Hn Hp base. split; [|by exists (n / 2 ^ (32 - p))].
  assert (Hk : 0 < 2 ^ (32 - p)) by (apply Z.pow_pos_nonneg; lia).
  pose proof (Z.div_pos n _ (proj1 Hn) Hk).
  assert (Hlt : n / 2 ^ (32 - p) < 2 ^ p).
  { apply Z.div_lt_upper_bound; [lia|]. rewrite <- Z.pow_add_r by lia.
    replace (32 - p + p) with 32 by lia. lia. }
  assert (Hsum : 2 ^ p * 2 ^ (32 - p) = 2 ^ 32).
  { rewrite <- Z.pow_add_r by lia. f_equal. lia. }
  subst base. nia.
Qed.

(** The checks of [Create]: what is left is the size of the network. *)
Lemma create_body_head fuel vlan name n p gateway start end_ rtype dns domain dhcp ipGroup priority
    m c w :
  no_faults → CheckPermission m Writer = true →
  (rtype = "public" → CheckPermission m Admin = true) →
  0 < vlan → 0 ≤ n < 2 ^ 32 → 0 ≤ p ≤ 32 →
  ∃ w1, db w1 = db w ∧ sent w1 = sent w ∧
    create_body fuel m vlan name (cidr_text (dotted n) p) gateway start end_ rtype dns domain dhcp
      None ipGroup priority c w =
    if (23 <=? p) && (p <=? 29) then
      create_in fuel m (net4 (n / 2 ^ (32 - p) * 2 ^ (32 - p)) p) vlan name
        (cidr_text (dotted n) p) gateway start end_ rtype dns domain dhcp None ipGroup priority c w1
    else (Err too_big, w1).
Proof.
  intros Hn Hw Ha Hv Hnb Hp. destruct (base_bounds n p Hnb Hp) as [Hbase Hdiv].
  destruct (count_runs (on_vlan vlan) c w Hn) as (k & w1 & Hcount & Hd1 & Hs1).
  assert (0 < 2 ^ (32 - p)) by (apply Z.pow_pos_nonneg; lia).
  exists w1. split; [done|]. split; [done|]. unfold create_body.
  rewrite (bind_run _ _ _ _ _ _ (check_create_runs m rtype c w Hw Ha)).
  rewrite (proj2 (Z.leb_gt vlan 0)) by lia.
  rewrite (bind_run _ _ c w (Some vlan) w eq_refl).
  rewrite (bind_run _ _ _ _ _ _ (wrap_run _ _ _ _ _ _ _ Hcount)).
  rewrite ParseCIDR_v4, AddressCount_v4 by (done || lia).
  rewrite (bind_run _ _ c w1 (2 ^ (32 - p)) w1 eq_refl). rewrite <- count_bounds by done.
  by destruct ((5 <=? 2 ^ (32 - p)) && (2 ^ (32 - p) <=? 1000)).
Qed.

(** The branch that succeeds. *)
Lemma SubnetAdmin_Create_made fuel vlan name n p og os oe rtype dns domain dhcp ipGroup priority c w :
  no_faults → CheckPermission (caller c) Writer = true →
  (rtype = "public" → CheckPermission (caller c) Admin = true) →
  0 < vlan → 0 ≤ n < 2 ^ 32 → 23 ≤ p ≤ 29 → addr_ok og ∧ addr_ok os ∧ addr_ok oe →
  (1000 < fuel)%nat →
  (∀ k a, rows (addresses (db w)) !! k = Some a →
          is_Some (rows (subnets (db w)) !! Address.SubnetID a)) →
  let base := n / 2 ^ (32 - p) * 2 ^ (32 - p) in
  let g := plan_gateway base og in
  let s := plan_start base g os in
  let e := plan_end (base + 2 ^ (32 - p)) g oe in
  base ≤ s ≤ e → e < base + 2 ^ (32 - p) →
  ∃ subnet w', SubnetAdmin_Create fuel vlan name (cidr_text (dotted n) p) (given og) (given os)
      (given oe) rtype dns domain dhcp None ipGroup priority c w = (Ok (Some subnet), w') ∧
    subnet_made (caller c) subnet p s e g (db w) (db w') ∧
    NoDup (pool_texts p s e g ++ [cidr_text (dotted g) p]) ∧ sent w' = sent w.
Proof.
  intros Hn Hw Ha Hv Hnb Hp Hgiven Hf Hold base g s e Hs He.
  assert (Hp' : 0 ≤ p ≤ 32) by lia.
  destruct (base_bounds n p Hnb Hp') as [Hbase Hdiv]. fold base in Hbase, Hdiv.
  destruct (create_body_head fuel vlan name n p (given og) (given os) (given oe) rtype dns domain
              dhcp ipGroup priority (caller c) (c <| dbkey := true |>) w Hn Hw Ha Hv Hnb Hp')
    as (w1 & Hd1 & Hs1 & Hbody). fold base in Hbody. rewrite <- Hd1 in Hold.
  rewrite (proj2 (Z.leb_le 23 p)), (proj2 (Z.leb_le p 29)) in Hbody by lia. simpl in Hbody.
  edestruct (create_in_ok base p og os oe Hn Hp Hbase Hdiv Hgiven)
    as (subnet & w2 & Hrun & Hmade & Hs'); [exact Hf|exact Hs|exact He|exact Hold|].
  rewrite Hrun in Hbody. apply with_tx_run in Hbody as (w' & Hrun' & _ & ->).
  exists subnet, w2. rewrite <- Hd1. split; [exact Hrun'|]. split; [exact Hmade|].
  split; [|congruence].
  destruct (plan_bounds base p og os oe Hp Hbase Hgiven) as (Hgb & Hsb & Heb & _).
  apply pool_nodup; [apply Hsb|apply Heb|exact Hgb].
Qed.

(** C32. The creation of an IPv4 subnet outside a router by a caller who may do so,
    when no statement fails: a network of 8 to 512 addresses whose pool, from the
    first to the last address asked for (the gateway left out at either end), lies
    in it gets its row, exactly one free address per element of the pool and one
    for the gateway, and nothing else changes; a pool that leaves the network and
    a network of another size are refused and change nothing.  The address loop
    ends within 1000 rounds.  Assumed: the VLAN number is given (positive), the ends
    and the gateway are given as IPv4 addresses or left out, and every address belongs
    to a subnet that exists. *)
Theorem subnet_create_spec fuel vlan name n p og os oe rtype dns domain dhcp ipGroup priority c w :
  no_faults → dbkey c = false →
  CheckPermission (caller c) Writer = true →
  (rtype = "public" → CheckPermission (caller c) Admin = true) →
  0 < vlan → 0 ≤ n < 2 ^ 32 → 0 ≤ p ≤ 32 → addr_ok og ∧ addr_ok os ∧ addr_ok oe →
  (1000 < fuel)%nat →
  (∀ k a, rows (addresses (db w)) !! k = Some a →
          is_Some (rows (subnets (db w)) !! Address.SubnetID a)) →
  let base := n / 2 ^ (32 - p) * 2 ^ (32 - p) in
  let g := plan_gateway base og in
  let s := plan_start base g os in
  let e := plan_end (base + 2 ^ (32 - p)) g oe in
  let r := SubnetAdmin_Create fuel vlan name (cidr_text (dotted n) p) (given og) (given os)
             (given oe) rtype dns domain dhcp None ipGroup priority c w in
  if (23 <=? p) && (p <=? 29) then
    if (base <=? s) && (s <=? e) && (e <? base + 2 ^ (32 - p)) then
      ∃ subnet w', r = (Ok (Some subnet), w') ∧ subnet_made (caller c) subnet p s e g (db w) (db w') ∧
        NoDup (pool_texts p s e g ++ [cidr_text (dotted g) p]) ∧ sent w' = sent w
    else ∃ w', r = (Err out_of_range, w') ∧ db w' = db w
  else ∃ w', r = (Err too_big, w') ∧ db w' = db w.
Proof.
  intros Hn Hc Hw Ha Hv Hnb Hp Hgiven Hf Hold base g s e r.
  destruct (base_bounds n p Hnb Hp) as [Hbase Hdiv]. fold base in Hbase, Hdiv.
  destruct (create_body_head fuel vlan name n p (given og) (given os) (given oe) rtype dns domain
              dhcp ipGroup priority (caller c) (c <| dbkey := true |>) w Hn Hw Ha Hv Hnb Hp)
    as (w1 & Hd1 & Hs1 & Hbody). fold base in Hbody. rewrite <- Hd1 in Hold.
  change r with (with_tx (create_body fuel (caller c) vlan name (cidr_text (dotted n) p) (given og)
                            (given os) (given oe) rtype dns domain dhcp None ipGroup priority) c w).
  destruct ((23 <=? p) && (p <=? 29)) eqn:Hcb.
  2: { apply with_tx_run in Hbody as (w' & Hrun & _ & Hd'). rewrite Hc in Hd'. by exists w'. }
  apply andb_true_iff in Hcb as [H1%Z.leb_le H2%Z.leb_le].
  destruct ((base <=? s) && (s <=? e) && (e <? base + 2 ^ (32 - p))) eqn:Hin.
  - apply andb_true_iff in Hin as [[Hlo%Z.leb_le Hse%Z.leb_le]%andb_true_iff Hhi%Z.ltb_lt].
    apply SubnetAdmin_Create_made; try done. by rewrite <- Hd1.
  - edestruct (create_in_err base p og os oe Hn (conj H1 H2) Hbase Hdiv Hgiven)
      as (w2 & Hrun); [exact Hf| |].
    { intros [[Hlo Hse] Hhi]. fold g s e in Hlo, Hse, Hhi.
      rewrite (proj2 (Z.leb_le _ _) Hlo), (proj2 (Z.leb_le _ _) Hse), (proj2 (Z.ltb_lt _ _) Hhi) in Hin.
      done. }
    rewrite Hrun in Hbody. apply with_tx_run in Hbody as (w' & Hrun' & _ & Hd'). rewrite Hc in Hd'.
    by exists w'.
Qed.

(** C33. On a pool that lies inside its network and whose two ends are in order and are not
    the gateway, both routines that fill an address pool are the enumeration of one
    list: the address loop of [Create] and [generateIPAddresses] create, in order, a row
    per address from [s] to [e] with the gateway left out, and then end within one round
    per address, whatever statement fails on the way.  Outside these conditions the two
    differ: only the loop of [Create] checks that an address is in the network, and only
    it runs past an end that is the gateway ([pool_ends_differ] of SubnetLife). *)
Theorem pool_equivalence base p g s e subnet address fuel c w :
  8 ≤ p ≤ 32 → 0 ≤ base ∧ base + 2 ^ (32 - p) ≤ 2 ^ 32 → (2 ^ (32 - p) | base) →
  0 ≤ g < 2 ^ 32 → base ≤ s ≤ e → e < base + 2 ^ (32 - p) → s ≠ g → e ≠ g →
  (Z.to_nat (e - s) < fuel)%nat → Subnet.Gateway subnet = cidr_text (dotted g) p →
  pool_loop fuel (net4 base p) (cidr_text (dotted g) p) (dotted e) p address
    (ParseIP (dotted s)) c w =
  (_ ← put_all address (pool_texts p s e g); mret (Some tt)) c w ∧
  generateIPAddresses fuel subnet (ParseIP (dotted s)) (ParseIP (dotted e)) p c w =
  GetContextDB (_ ← put_pool subnet (pool_texts p s e g); mret (Some tt)) c w.
Proof.
  intros Hp Hb Hd Hg Hs He Hsg Heg Hf Hgw. pose proof (size_bounds p Hp). split.
  - by apply loop_reaches; [| | | |apply To4_ParseIP|..].
  - apply generate_loop_pool; [done|done|apply To4_ParseIP|apply To4_ParseIP|lia|lia|done].
Qed.

End create.
