(* ===== verification/SubnetLife.v ===== *)
(** * SubnetLife: the deletion of a subnet, segment identifiers, requests

    What a deletion leaves, that it undoes a creation, the segment identifier a
    subnet gets, and what a PATCH request may do. *)

From S2P Require Import Prelude GoLib Net ErrorCodes Gorm Model Store Scenario Member Catalog Volume Admin Ipam NetInfo Secgroup IpGroup Subnet SubnetPool.

Section delete.
Context {G : Gorm} {E : Env} {GOk : GormOk G}.

Abbreviation ads d := (rows (addresses d)).
Abbreviation ifs d := (rows (interfaces d)).
Abbreviation fips d := (rows (floating_ips d)).

(** The interfaces of the floating IPs of [l], and the addresses they hold. *)
Definition port (l : list FloatingIp.t) (i : Interface.t) : bool :=
  existsb (λ f, of_master (FloatingIp.ID f) 0 "floating" i) l.

Definition held d (l : list FloatingIp.t) (a : Address.t) : bool :=
  existsb (λ i, Address.Interface a =? Interface.ID i) (g_find (port l) (interfaces d)).

Lemma held_spec d l a :
  held d l a = true ↔
  ∃ k i, ifs d !! k = Some i ∧ port l i = true ∧ Address.Interface a = Interface.ID i.
Proof.
  unfold held. rewrite existsb_exists. setoid_rewrite <- list_elem_of_In.
  setoid_rewrite find_spec. setoid_rewrite Z.eqb_eq. split.
  - intros (i & [Hp Hi] & Ha). by exists (Interface.ID i), i.
  - intros (k & i & Hi & Hp & Ha). exists i. pose proof (rows_id _ _ _ Hi) as Hk.
    split; [|done]. split; [done|]. by rewrite Hk.
Qed.

(** The floating IPs of [l] are gone with their interfaces, and the addresses of these
    released. *)
Record released (l : list FloatingIp.t) (d d' : DB) : Prop := {
  released_fips k : fips d' !! k =
    if bool_decide (k ∈ map FloatingIp.ID l) then None else fips d !! k;
  released_ads : ads d' = (λ a, if held d l a then freed a else a) <$> ads d;
  released_ifs k : ifs d' !! k =
    match ifs d !! k with Some i => if port l i then None else Some i | None => None end;
  released_frame : d' = d <| interfaces := interfaces d' |> <| addresses := addresses d' |>
                          <| floating_ips := floating_ips d' |>
}.

Lemma DeallocateFloatingIp_Ok f c w u w' :
  0 < FloatingIp.ID f →
  FloatingIpAdmin_DeallocateFloatingIp (FloatingIp.ID f) c w = (Ok u, w') →
  released [f] (db w) (db w') ∧ sent w' = sent w.
Proof.
  intros Hpos. unfold FloatingIpAdmin_DeallocateFloatingIp. rewrite GetContextDB_eq.
  intros (v & w1 & (Hs1 & Hi & Ha & Hf1)%wrap_Ok%DeleteInterfaces_Ok & [Hd Hs]%wrap_Ok%db_delete_Ok)%bind_Ok.
  split; [|congruence]. tables. unfold Ipam.ads, Ipam.ifs in *.
  assert (H1 : floating_ips (db w1) = floating_ips (db w)) by (by rewrite Hf1).
  assert (Had : addresses (db w') = addresses (db w1)) by (by rewrite Hd).
  assert (Hif : interfaces (db w') = interfaces (db w1)) by (by rewrite Hd).
  split.
  - intros k. clear Ha Hi. rewrite Hd. simpl. rewrite H1, delete_pk by lia. simpl.
    case_bool_decide as Hk.
    + apply list_elem_of_singleton in Hk as ->. apply lookup_delete_eq.
    + apply lookup_delete_ne. intros <-. apply Hk, list_elem_of_here.
  - rewrite Had, Ha. apply map_fmap_ext. intros k a _. set (l := g_find _ _) in *.
    enough (bool_decide (l ≠ []) && of_interfaces l a = held (db w) [f] a) as -> by done.
    apply eq_true_iff_eq. rewrite andb_true_iff, bool_decide_eq_true, held_spec. split.
    + intros [Hne Hl]. apply of_interfaces_true in Hl as (i & [Hp Hrow]%find_spec & Hid); [|done].
      exists (Interface.ID i), i. split_and!; [done| |done]. unfold port. cbn [existsb].
      by rewrite Hp.
    + intros (k' & i & Hrow & Hp & Hid). unfold port in Hp. cbn [existsb] in Hp.
      rewrite orb_false_r in Hp.
      assert (i ∈ l) as Hin by (by apply (find_lookup _ _ k')).
      assert (l ≠ []) as Hne by (intros Hl; rewrite Hl in Hin; by apply not_elem_of_nil in Hin).
      split; [done|]. apply of_interfaces_true; [done|]. by exists i.
  - intros k. rewrite Hif, Hi. destruct (ifs (db w) !! k) as [i'|]; [|done].
    unfold port. cbn [existsb]. by rewrite orb_false_r.
  - rewrite Hd. simpl. by rewrite Hf1.
Qed.

Lemma released_nil d : released [] d d.
Proof.
  split; [done| | |by destruct d].
  - rewrite <- (map_fmap_id (ads d)) at 1. apply map_fmap_ext. intros k a _.
    destruct (held d [] a) eqn:Hh; [|done]. by apply held_spec in Hh as (? & ? & _ & ? & _).
  - intros k. by destruct (ifs d !! k).
Qed.

Lemma released_cons f l d d1 d2 :
  released [f] d d1 → released l d1 d2 → released (f :: l) d d2.
Proof.
  intros [F1 A1 I1 E1] [F2 A2 I2 E2].
  assert (Hp : ∀ i, port (f :: l) i = port [f] i || port l i)
    by (intros i; unfold port; cbn [existsb]; by rewrite orb_false_r). split.
  - intros k. rewrite F2, F1. simpl. rewrite !bool_decide_decide. repeat case_decide; try done; set_solver.
  - rewrite A2, A1, <- map_fmap_compose. apply map_fmap_ext. intros k a _. unfold compose.
    destruct (held d [f] a) eqn:Hf.
    + assert (held d (f :: l) a = true) as ->.
      { apply held_spec in Hf as (n & i & ? & Hi & ?). apply held_spec. exists n, i.
        rewrite Hp, Hi. done. }
      by destruct (held d1 l (freed a)).
    + enough (held d1 l a = held d (f :: l) a) as -> by done.
      apply eq_true_iff_eq. rewrite !held_spec. split.
      * intros (n & i & Hi & Hl & Ha). rewrite I1 in Hi. destruct (ifs d !! n) as [y|] eqn:Hy; [|done].
        destruct (port [f] y); [done|]. injection Hi as <-. exists n, y. rewrite Hp, Hl, orb_true_r. done.
      * intros (n & i & Hi & Hl & Ha). exists n, i. rewrite I1, Hi. rewrite Hp in Hl.
        destruct (port [f] i) eqn:Hpf; [|done].
        assert (held d [f] a = true) by (apply held_spec; by exists n, i). congruence.
  - intros k. rewrite I2, I1. destruct (ifs d !! k) as [i|]; [|done]. rewrite Hp.
    by destruct (port [f] i).
  - rewrite E2, E1. done.
Qed.

Lemma deallocate_all_Ok l c w u w' :
  Forall (λ f, 0 < FloatingIp.ID f) l →
  for_each l (λ f, FloatingIpAdmin_DeallocateFloatingIp (FloatingIp.ID f)) c w = (Ok u, w') →
  released l (db w) (db w') ∧ sent w' = sent w.
Proof.
  intros Hpos. revert w. induction Hpos as [|f l Hf Hl IH]; intros w; simpl.
  - intros [_ <-]%ret_Ok. split; [apply released_nil|done].
  - intros (v & w1 & H1 & H)%bind_Ok. apply DeallocateFloatingIp_Ok in H1 as [H1 Hs1]; [|done].
    apply IH in H as [H Hs]. split; [by eapply released_cons|congruence].
Qed.

(** An interface of a floating IP of the subnet. *)
Definition fip_port (subnet : Subnet.t) d (i : Interface.t) : Prop :=
  ∃ n x, fips d !! n = Some x ∧ FloatingIp.SubnetID x = Subnet.ID subnet ∧
         Interface.FloatingIp i = FloatingIp.ID x ∧ Interface.Type_ i = "floating".

(** An address such an interface holds. *)
Definition fip_address (subnet : Subnet.t) d (a : Address.t) : Prop :=
  ∃ n i, ifs d !! n = Some i ∧ fip_port subnet d i ∧ Address.Interface a = Interface.ID i.

(** What the deletion of a subnet leaves: no row of it, none of its addresses,
    interfaces and floating IPs, and everything of the other subnets, but for the
    interfaces of its floating IPs, whose addresses are released. *)
Record subnet_gone (subnet : Subnet.t) (d d' : DB) : Prop := {
  gone_subnet : rows (subnets d') = delete (Subnet.ID subnet) (rows (subnets d));
  gone_addresses k a : ads d' !! k = Some a ↔
    ∃ a0, ads d !! k = Some a0 ∧ Address.SubnetID a0 ≠ Subnet.ID subnet ∧
      (fip_address subnet d a0 ∧ a = a0 <| Address.Allocated := false |> <| Address.Interface := 0 |>
                                        <| Address.SecondInterface := 0 |> ∨
       ¬ fip_address subnet d a0 ∧ a = a0);
  gone_interfaces k i : ifs d' !! k = Some i ↔
    ifs d !! k = Some i ∧ Interface.Subnet i ≠ Subnet.ID subnet ∧ ¬ fip_port subnet d i;
  gone_fips k x : fips d' !! k = Some x ↔
    fips d !! k = Some x ∧ FloatingIp.SubnetID x ≠ Subnet.ID subnet;
  gone_routers k : rows (routers d') !! k =
    (λ r, if String.eqb (Subnet.Type_ subnet) "vrrp" && (Subnet.RouterID subnet =? k)
          then r <| Router.VrrpSubnetID := 0 |> else r) <$> rows (routers d) !! k;
  gone_frame : d' = d <| subnets := subnets d' |> <| addresses := addresses d' |>
    <| interfaces := interfaces d' |> <| floating_ips := floating_ips d' |>
    <| routers := routers d' |>
}.

Lemma drop_rows_Ok created subnet c w u w' :
  0 < Subnet.ID subnet → drop_rows created subnet c w = (Ok u, w') →
  rows (subnets (db w')) = delete (Subnet.ID subnet) (rows (subnets (db w))) ∧
  (∀ k, ads (db w') !! k =
     match ads (db w) !! k with
     | Some a => if Address.SubnetID a =? Subnet.ID subnet then None else Some a
     | None => None
     end) ∧
  (∀ k, rows (routers (db w')) !! k =
    (λ r, if String.eqb (Subnet.Type_ subnet) "vrrp" && (Subnet.RouterID subnet =? k)
          then r <| Router.VrrpSubnetID := 0 |> else r) <$> rows (routers (db w)) !! k) ∧
  db w' = db w <| subnets := subnets (db w') |> <| addresses := addresses (db w') |>
    <| routers := routers (db w') |> ∧ sent w' = sent w.
Proof.
  intros Hpos. unfold drop_rows.
  intros (v1 & w1 & [Hd1 Hs1]%wrap_Ok%db_delete_Ok & H)%bind_Ok.
  apply bind_Ok in H as (v2 & w2 & [Hd2 Hs2]%wrap_Ok%db_update_all_Ok & H).
  apply bind_Ok in H as (v3 & w3 & [Hd3 Hs3]%wrap_Ok%db_delete_Ok & H). tables.
  assert (Hsub : rows (subnets (db w3)) = delete (Subnet.ID subnet) (rows (subnets (db w)))).
  { rewrite Hd3. simpl. rewrite Hd2. simpl. rewrite update_all_spec by (by intros []).
    rewrite Hd1. simpl. rewrite delete_pk by lia. apply map_eq. intros k. rewrite lookup_fmap.
    destruct (delete _ _ !! k) as [x|] eqn:Hx; [|done]. simpl. apply lookup_delete_Some in Hx as [Hne Hx].
    unfold by_id. rewrite (rows_id _ _ _ Hx). by rewrite (proj2 (Z.eqb_neq k _)) by congruence. }
  assert (Hads : ∀ k, ads (db w3) !! k =
     match ads (db w) !! k with
     | Some a => if Address.SubnetID a =? Subnet.ID subnet then None else Some a
     | None => None
     end).
  { intros k. rewrite Hd3. simpl. rewrite delete_spec. rewrite Hd2. simpl. by rewrite Hd1. }
  assert (Hrt : rows (routers (db w3)) = rows (routers (db w))) by (by rewrite Hd3, Hd2, Hd1).
  assert (Hfr : db w3 = db w <| subnets := subnets (db w3) |> <| addresses := addresses (db w3) |>)
    by (by rewrite Hd3, Hd2, Hd1).
  destruct (String.eqb (Subnet.Type_ subnet) "vrrp") eqn:Hv; simpl in H.
  - destruct (0 <? Subnet.RouterID subnet) eqn:Hr.
    + apply wrap_Ok, db_update_Ok in H as [Hd Hs]. apply Z.ltb_lt in Hr. tables.
      rewrite Hd. simpl. split; [exact Hsub|]. split; [exact Hads|]. split; [|split; [|congruence]].
      * intros k. rewrite update_lookup by (by intros []). rewrite Hrt.
        destruct (rows (routers (db w)) !! k) as [r|] eqn:Hk; [|done]. simpl. unfold by_pk.
        by rewrite pk_nonzero, (rows_id _ _ _ Hk) by lia.
      * by rewrite Hfr.
    + apply ret_Ok in H as [_ <-]. apply Z.ltb_ge in Hr. split; [exact Hsub|]. split; [exact Hads|].
      split; [|split; [|congruence]].
      * intros k. rewrite Hrt. destruct (rows (routers (db w)) !! k) as [r|] eqn:Hk; [|done]. simpl.
        apply rows_pos in Hk. by rewrite (proj2 (Z.eqb_neq _ k)) by lia.
      * rewrite Hfr. done.
  - apply ret_Ok in H as [_ <-]. split; [exact Hsub|]. split; [exact Hads|].
    split; [|split; [|congruence]].
    + intros k. rewrite Hrt. by destruct (rows (routers (db w)) !! k).
    + rewrite Hfr. done.
Qed.

(** The floating IPs of the subnet, as the deletion finds them. *)
Lemma port_found subnet d i :
  port (g_find (λ f, FloatingIp.SubnetID f =? Subnet.ID subnet) (floating_ips d)) i = true ↔
  fip_port subnet d i.
Proof.
  unfold port, fip_port, of_master. rewrite existsb_exists. setoid_rewrite <- list_elem_of_In.
  setoid_rewrite find_spec. cbn. setoid_rewrite andb_true_r. setoid_rewrite andb_true_iff.
  setoid_rewrite Z.eqb_eq. setoid_rewrite String.eqb_eq. split.
  - intros (x & [Hs Hx] & Hi & Ht). by exists (FloatingIp.ID x), x.
  - intros (n & x & Hx & Hs & Hi & Ht). exists x. pose proof (rows_id _ _ _ Hx) as Hn.
    split; [|done]. split; [done|]. simpl in Hn. by rewrite Hn.
Qed.

Lemma drop_uses_Ok subnet c w u w' :
  drop_uses subnet c w = (Ok u, w') →
  (∀ k a, ads (db w') !! k = Some a ↔
    ∃ a0, ads (db w) !! k = Some a0 ∧
      (fip_address subnet (db w) a0 ∧ a = freed a0 ∨ ¬ fip_address subnet (db w) a0 ∧ a = a0)) ∧
  (∀ k i, ifs (db w') !! k = Some i ↔
     ifs (db w) !! k = Some i ∧ Interface.Subnet i ≠ Subnet.ID subnet ∧ ¬ fip_port subnet (db w) i) ∧
  (∀ k x, fips (db w') !! k = Some x ↔
     fips (db w) !! k = Some x ∧ FloatingIp.SubnetID x ≠ Subnet.ID subnet) ∧
  db w' = db w <| addresses := addresses (db w') |> <| interfaces := interfaces (db w') |>
    <| floating_ips := floating_ips (db w') |> ∧ sent w' = sent w.
Proof.
  unfold drop_uses. intros (l & w1 & (Hl & Hd1 & Hs1)%wrap_Ok%db_find_Ok & H)%bind_Ok.
  apply bind_Ok in H as (v & w2 & H2 & [Hd3 Hs3]%wrap_Ok%db_delete_Ok). tables.
  assert (Hmine : ∀ k x, fips (db w) !! k = Some x →
            k ∈ map FloatingIp.ID l ↔ FloatingIp.SubnetID x = Subnet.ID subnet).
  { intros k x Hx. rewrite Hl. split.
    - intros (y & -> & [Hy%Z.eqb_eq Hrow]%find_spec)%list_elem_of_fmap.
      change (fips (db w) !! FloatingIp.ID y = Some y) in Hrow. congruence.
    - intros Hs. apply list_elem_of_fmap. exists x. pose proof (rows_id _ _ _ Hx) as Hid.
      split; [done|]. apply (find_lookup _ _ k); [done|by apply Z.eqb_eq]. }
  assert (Hpos : Forall (λ f, 0 < FloatingIp.ID f) l).
  { rewrite Hl. apply Forall_forall. intros y [_ Hy]%find_spec. by apply rows_pos in Hy. }
  assert (Hport : ∀ i, port l i = true ↔ fip_port subnet (db w) i)
    by (intros i; rewrite Hl; apply port_found).
  apply deallocate_all_Ok in H2 as [[Hf2 Ha2 Hi2 Hfr2] Hs2]; [|done]. rewrite Hd1 in *.
  assert (Hheld : ∀ a, held (db w) l a = true ↔ fip_address subnet (db w) a)
    by (intros a; rewrite held_spec; unfold fip_address; by setoid_rewrite Hport).
  assert (Ha3 : addresses (db w') = addresses (db w2)) by (by rewrite Hd3).
  assert (Hf3 : floating_ips (db w') = floating_ips (db w2)) by (by rewrite Hd3).
  split_and!; [| | | |congruence].
  - intros k a. rewrite Ha3, Ha2, lookup_fmap, fmap_Some.
    split; intros (a0 & Ha0 & Hx); exists a0; (split; [done|]); specialize (Hheld a0);
      destruct (held (db w) l a0); [left| |..]; naive_solver.
  - intros k i. rewrite Hd3. simpl. rewrite delete_spec, Hi2.
    destruct (ifs (db w) !! k) as [y|]; [|naive_solver]. specialize (Hport y).
    destruct (port l y); [naive_solver|].
    destruct (Z.eqb_spec (Interface.Subnet y) (Subnet.ID subnet)); naive_solver.
  - intros k x. rewrite Hf3, Hf2.
    destruct (bool_decide_reflect (k ∈ map FloatingIp.ID l)) as [Hin|Hin]; split.
    + done.
    + intros [Hx Hne]. by apply (Hmine k x Hx) in Hin.
    + intros Hx. split; [done|]. intros Hs. by apply Hin, (Hmine k x Hx).
    + by intros [Hx _].
  - rewrite Hd3. simpl. rewrite Hfr2. done.
Qed.

Lemma clearRouting_reads id subnet : reads (clearRouting id subnet).
Proof. unfold clearRouting. reads_tac. Qed.

Lemma check_unused_Ok subnet c w u w' :
  check_unused subnet c w = (Ok u, w') →
  db w' = db w ∧ sent w' = sent w ∧
  (Subnet.Type_ subnet ≠ "site" →
   ∀ k i, ifs (db w) !! k = Some i → in_use (Subnet.ID subnet) i = false).
Proof.
  unfold check_unused. destruct (String.eqb_spec (Subnet.Type_ subnet) "site").
  - by intros [_ <-]%ret_Ok.
  - intros (n0 & w1 & (-> & Hd & Hs)%wrap_Ok%db_count_Ok & [Hz <-]%require_Ok)%bind_Ok.
    split; [done|]. split; [done|]. intros _. by apply count_none.
Qed.

(** The transaction of a deletion that succeeds. *)
Lemma SubnetAdmin_Delete_Ok created subnet c w u w' :
  0 < Subnet.ID subnet → SubnetAdmin_Delete created subnet c w = (Ok u, w') →
  ValidateOwner (caller c) Writer (Subnet.Owner subnet) = true ∧
  (Subnet.Type_ subnet ≠ "site" →
   ∀ k i, ifs (db w) !! k = Some i → in_use (Subnet.ID subnet) i = false) ∧
  subnet_gone subnet (db w) (db w').
Proof.
  intros Hpos (m & w0 & [<- <-]%GetMemberShip_Ok & H)%with_tx_Ok%bind_Ok.
  apply bind_Ok in H as (v0 & w0 & [Hv <-]%require_Ok & H).
  apply bind_Ok in H as (v1 & w1 & (Hd1 & _ & Hun)%check_unused_Ok & H).
  apply bind_Ok in H as (n & w2 & (_ & Hd2 & _)%wrap_Ok%db_count_Ok & H).
  apply bind_Ok in H as (v3 & w3 & H3 & H). apply bind_Ok in H as (v4 & w4 & H4 & H).
  split; [done|]. split; [done|].
  apply drop_rows_Ok in H3 as (Hsub & Hads & Hrt & Hfr & _); [|done].
  apply drop_uses_Ok in H4 as (Hads4 & Hifs & Hfips & Hfr4 & _).
  assert (Hd5 : db w' = db w4).
  { destruct (0 <? Subnet.RouterID subnet); [|by apply ret_Ok in H as [_ <-]].
    by apply (reads_run _ _ _ _ _ (clearRouting_reads _ _)) in H. }
  rewrite Hd2, Hd1 in *. rewrite Hd5.
  assert (Hi3 : interfaces (db w3) = interfaces (db w)) by (by rewrite Hfr).
  assert (Hf3 : floating_ips (db w3) = floating_ips (db w)) by (by rewrite Hfr).
  unfold fip_address, fip_port in Hads4, Hifs. rewrite Hi3, Hf3 in *. split.
  - rewrite Hfr4. exact Hsub.
  - intros k a. rewrite Hads4. rewrite Hads. destruct (ads (db w) !! k) as [y|];
      [|by split; intros (? & ? & _)].
    split.
    + intros (a0 & Ha0 & Hx). destruct (Z.eqb_spec (Address.SubnetID y) (Subnet.ID subnet)); [done|].
      injection Ha0 as <-. by exists y.
    + intros (a0 & [= <-] & Hne & Hx). exists y. by rewrite (proj2 (Z.eqb_neq _ _) Hne).
  - done.
  - done.
  - rewrite Hfr4. exact Hrt.
  - rewrite Hfr4, Hfr. done.
Qed.

Lemma SubnetAdmin_Delete_np created subnet : no_panic (SubnetAdmin_Delete created subnet).
Proof.
  unfold SubnetAdmin_Delete, check_unused, drop_rows, drop_uses, clearRouting,
    FloatingIpAdmin_DeallocateFloatingIp, DeleteInterfaces, DeallocateAddress. np.
Qed.

(** C34. Deleting a subnet, in a transaction of its own, either succeeds or changes nothing.  A success takes a
    writer of the owner and, unless the subnet is a site, no interface but DHCP
    ports and gateways in it.  It removes exactly the row of the subnet, its addresses, its
    interfaces, its floating IPs and the interfaces of these, wherever they are; the
    addresses such an interface holds in other subnets are released, every other address is
    as it was; the reference of a VRRP router is cleared, and no other table changes. *)
Theorem subnet_delete_outcomes created subnet c w :
  0 < Subnet.ID subnet → dbkey c = false →
  match SubnetAdmin_Delete created subnet c w with
  | (Ok _, w') =>
      ValidateOwner (caller c) Writer (Subnet.Owner subnet) = true ∧
      (Subnet.Type_ subnet ≠ "site" →
       ∀ k i, ifs (db w) !! k = Some i → in_use (Subnet.ID subnet) i = false) ∧
      subnet_gone subnet (db w) (db w')
  | (Err _, w') => db w' = db w
  | (Panic, _) => False
  end.
Proof.
  intros Hpos Hc. destruct (SubnetAdmin_Delete created subnet c w) as [[u|e|] w'] eqn:H.
  - by apply SubnetAdmin_Delete_Ok in H.
  - by apply with_tx_Err in H.
  - by apply np_refute in H; [|apply SubnetAdmin_Delete_np].
Qed.

End delete.

(** ** Creation and deletion *)

Section roundtrip.
Context {G : Gorm} {E : Env} {C : Cidr} {GOk : GormOk G} {COk : CidrOk C}.

Abbreviation ads d := (rows (addresses d)).
Abbreviation ifs d := (rows (interfaces d)).
Abbreviation fips d := (rows (floating_ips d)).

Lemma check_unused_runs subnet c w :
  no_faults → (∀ k i, ifs (db w) !! k = Some i → Interface.Subnet i ≠ Subnet.ID subnet) →
  ∃ w', check_unused subnet c w = (Ok tt, w') ∧ db w' = db w.
Proof.
  intros Hn Hi. unfold check_unused. case_if; [by exists w|].
  assert (Hnil : g_find (in_use (Subnet.ID subnet)) (interfaces (db w)) = []).
  { apply find_nil. intros k i Hk%Hi. unfold in_use. by rewrite (proj2 (Z.eqb_neq _ _) Hk). }
  unfold db_count, wrap, mbind, M_bind. rewrite stmt_runs by done. simpl. tables. rewrite Hnil.
  by eexists.
Qed.

Lemma SubnetAdmin_Delete_runs created subnet c w :
  no_faults → ValidateOwner (caller c) Writer (Subnet.Owner subnet) = true →
  (∀ k i, ifs (db w) !! k = Some i → Interface.Subnet i ≠ Subnet.ID subnet) →
  Subnet.RouterID subnet = 0 →
  ∃ w', SubnetAdmin_Delete created subnet c w = (Ok tt, w').
Proof.
  intros Hn Hv Hi Hr. set (c' := c <| dbkey := true |>).
  destruct (check_unused_runs subnet c' w Hn Hi) as (w1 & H1 & Hd1).
  destruct (count_runs (on_vlan (Subnet.Vlan subnet)) c' w1 Hn) as (k & w2 & H2 & _).
  destruct (runs (drop_rows created subnet) c' w2) as ([] & w3 & H3).
  { unfold drop_rows. ne_tac. }
  { unfold drop_rows. np. }
  destruct (runs (drop_uses subnet) c' w3) as ([] & w4 & H4).
  { unfold drop_uses, FloatingIpAdmin_DeallocateFloatingIp, DeleteInterfaces, DeallocateAddress. ne_tac. }
  { unfold drop_uses, FloatingIpAdmin_DeallocateFloatingIp, DeleteInterfaces, DeallocateAddress. np. }
  exists w4. unfold SubnetAdmin_Delete. apply with_tx_Ok. fold c'.
  rewrite (bind_run _ _ c' w (caller c) w eq_refl). rewrite Hv.
  rewrite (bind_run _ _ c' w tt w eq_refl). rewrite (bind_run _ _ _ _ _ _ H1).
  rewrite (bind_run _ _ _ _ _ _ (wrap_run _ _ _ _ _ _ _ H2)).
  rewrite (bind_run _ _ _ _ _ _ H3). rewrite (bind_run _ _ _ _ _ _ H4). by rewrite Hr.
Qed.

(** Deleting a subnet undoes its creation: after a creation that a writer of an
    organization asks for outside a router, its deletion by the same caller
    succeeds, and subnets, addresses, floating IPs and routers are as before the
    creation, when interfaces and floating IPs only name subnets that exist and no
    statement fails. *)
Theorem subnet_roundtrip fuel vlan name n p og os oe rtype dns domain dhcp ipGroup priority created
    c w :
  no_faults → MemberShip.OrgID (caller c) ≠ 0 → Writer ≤ MemberShip.Role (caller c) →
  (rtype = "public" → CheckPermission (caller c) Admin = true) →
  0 < vlan → 0 ≤ n < 2 ^ 32 → 23 ≤ p ≤ 29 → addr_ok og ∧ addr_ok os ∧ addr_ok oe →
  (1000 < fuel)%nat →
  (∀ k a, ads (db w) !! k = Some a → is_Some (rows (subnets (db w)) !! Address.SubnetID a)) →
  (∀ k i, ifs (db w) !! k = Some i → Interface.Subnet i = 0 ∨
     is_Some (rows (subnets (db w)) !! Interface.Subnet i)) →
  (∀ k x, fips (db w) !! k = Some x → FloatingIp.SubnetID x = 0 ∨
     is_Some (rows (subnets (db w)) !! FloatingIp.SubnetID x)) →
  let base := n / 2 ^ (32 - p) * 2 ^ (32 - p) in
  let g := plan_gateway base og in
  let s := plan_start base g os in
  let e := plan_end (base + 2 ^ (32 - p)) g oe in
  base ≤ s ≤ e → e < base + 2 ^ (32 - p) →
  ∃ subnet w1 w2,
    SubnetAdmin_Create fuel vlan name (cidr_text (dotted n) p) (given og) (given os) (given oe)
      rtype dns domain dhcp None ipGroup priority c w = (Ok (Some subnet), w1) ∧
    SubnetAdmin_Delete created subnet c w1 = (Ok tt, w2) ∧
    rows (subnets (db w2)) = rows (subnets (db w)) ∧ ads (db w2) = ads (db w) ∧
    fips (db w2) = fips (db w) ∧ rows (routers (db w2)) = rows (routers (db w)).
Proof.
  intros Hn Horg Hrole Ha Hv Hnb Hp Hgiven Hf Hads Hifs Hfips base g s e Hs He.
  destruct (SubnetAdmin_Create_made fuel vlan name n p og os oe rtype dns domain dhcp ipGroup
              priority c w) as (subnet & w1 & Hrun & Hmade & _ & _); try done.
  { unfold CheckPermission. by rewrite (proj2 (Z.leb_le _ _) Hrole). }
  pose proof Hmade as [Hown Hrt Hfresh Hrow Hgw _ Hpool _ Hothers Hframe].
  assert (Hpos : 0 < Subnet.ID subnet).
  { eapply (rows_pos (subnets (db w1))). rewrite Hrow. apply lookup_insert_eq. }
  assert (Hi1 : interfaces (db w1) = interfaces (db w)) by (by rewrite Hframe).
  assert (Hf1 : floating_ips (db w1) = floating_ips (db w)) by (by rewrite Hframe).
  assert (Hnof : ∀ k x, fips (db w1) !! k = Some x → FloatingIp.SubnetID x ≠ Subnet.ID subnet).
  { intros k x Hx Hid. rewrite Hf1 in Hx. apply Hfips in Hx as [Hz|[y Hy]]; [lia|].
    rewrite Hid in Hy. congruence. }
  destruct (SubnetAdmin_Delete_runs created subnet c w1 Hn) as [w2 Hdel]; [| |done|].
  { apply ValidateOwner_true. rewrite Hown. unfold dflt_Z. rewrite (proj2 (Z.eqb_neq _ _) Horg). auto. }
  { intros k i Hi Hid. rewrite Hi1 in Hi. apply Hifs in Hi as [Hz|[y Hy]]; [lia|].
    rewrite Hid in Hy. congruence. }
  exists subnet, w1, w2. split; [done|]. split; [done|].
  apply SubnetAdmin_Delete_Ok in Hdel as (_ & _ & [Gs Ga _ Gf Gr _]); [|done].
  assert (Hnone : ∀ a, ¬ fip_address subnet (db w1) a)
    by (intros a (_ & _ & _ & (n' & x & Hx & Hxs & _) & _); by apply (Hnof n' x)).
  split; [|split; [|split]].
  - rewrite Gs, Hrow. by rewrite delete_insert_id.
  - apply map_eq. intros k. apply option_eq. intros a. rewrite Ga. split.
    + intros (b & Hb & Hne & [[Hfa _]|[_ ->]]); [by apply Hnone in Hfa|]. by apply Hothers.
    + intros Hk. assert (Hne : Address.SubnetID a ≠ Subnet.ID subnet).
      { intros Hid. apply Hads in Hk as [y Hy]. rewrite Hid in Hy. congruence. }
      exists a. split; [by apply Hothers|]. split; [done|]. right. by split; [apply Hnone|].
  - apply map_eq. intros k. apply option_eq. intros x. rewrite Gf, Hf1. split; [tauto|].
    intros Hx. split; [done|]. apply (Hnof k). by rewrite Hf1.
  - apply map_eq. intros k. rewrite Gr, Hrt.
    assert (Hr1 : routers (db w1) = routers (db w)) by (by rewrite Hframe). rewrite Hr1.
    destruct (rows (routers (db w)) !! k) as [r|] eqn:Hk; [|done]. apply rows_pos in Hk.
    rewrite (proj2 (Z.eqb_neq 0 k)) by lia. by rewrite andb_false_r.
Qed.

End roundtrip.

(** ** Segment identifiers *)

Section vni.
Context {G : Gorm} {E : Env} {GOk : GormOk G}.

(** The identifier drawn at a time. *)
Definition drawn (t : nat) : Z := rand_intn t (vniMax - vniMin) + vniMin.

Definition vni_free (d : DB) (vni : Z) : Prop :=
  ∀ k s, rows (subnets d) !! k = Some s → Subnet.Vlan s ≠ vni.

Lemma vni_count_free d vni :
  (0 <? Z.of_nat (length (g_find (on_vlan vni) (subnets d)))) = false ↔ vni_free d vni.
Proof.
  unfold vni_free. split.
  - intros H k s Hs. apply Z.eqb_neq.
    apply (count_none (on_vlan vni) (subnets d)) with k; [by rewrite H|done].
  - intros H. rewrite (proj2 (find_nil (on_vlan vni) (subnets d))); [done|].
    intros k s Hs. by apply Z.eqb_neq, (H k).
Qed.

Lemma vni_loop_spec fuel c : ∀ w, no_faults →
  ∃ w', db w' = db w ∧ sent w' = sent w ∧
    ((∃ i, (i < fuel)%nat ∧ vni_free (db w) (drawn (clock w + i)) ∧
       vni_loop fuel c w = (Ok (Some (drawn (clock w + i))), w')) ∨
     ((∀ i, (i < fuel)%nat → ¬ vni_free (db w) (drawn (clock w + i))) ∧
      vni_loop fuel c w = (Ok None, w'))).
Proof.
  induction fuel as [|fuel IH]; intros w Hn.
  - exists w. split; [done|]. split; [done|]. right. split; [intros; lia|done].
  - simpl. unfold rand_Intn, db_count, mbind, M_bind. rewrite stmt_runs by done. simpl. tables.
    fold (drawn (clock w)).
    destruct (0 <? Z.of_nat (length (g_find (on_vlan (drawn (clock w))) (subnets (db w))))) eqn:Hc.
    + destruct (IH ((tick w) <| db := db w |>) Hn) as (w' & Hd & Hs & Hcase).
      exists w'. split; [done|]. split; [done|]. change (clock ((tick w) <| db := db w |>)) with (S (clock w)) in Hcase.
      change (db ((tick w) <| db := db w |>)) with (db w) in Hcase.
      destruct Hcase as [(i & Hi & Hfree & Hrun)|[Hnone Hrun]]; [left|right].
      * exists (S i). rewrite Nat.add_succ_r. split; [lia|]. by split.
      * split; [|done]. intros [|i] Hi.
        { rewrite Nat.add_0_r. intros Hfree%vni_count_free. congruence. }
        rewrite Nat.add_succ_r. apply Hnone. lia.
    + eexists. split; [|split; [|left; exists 0%nat; rewrite Nat.add_0_r; split; [lia|]]].
      3: { split; [by apply vni_count_free|reflexivity]. }
      all: done.
Qed.

(** C36. A generated segment identifier is used by no subnet and lies between 4096
    and 16777214, when rand.Intn(n) gives numbers below n; the loop that draws it
    ends as soon as a draw is free, and runs on while none is. *)
Theorem vni_generated fuel c w :
  no_faults → (∀ t n, 0 < n → 0 ≤ rand_intn t n < n) →
  ∃ w', db w' = db w ∧
    ((∃ i, (i < fuel)%nat ∧ vni_free (db w) (drawn (clock w + i)) ∧
       4096 ≤ drawn (clock w + i) < 16777215 ∧
       getValidVni fuel c w = (Ok (Some (drawn (clock w + i))), w')) ∨
     ((∀ i, (i < fuel)%nat → ¬ vni_free (db w) (drawn (clock w + i))) ∧
      getValidVni fuel c w = (Ok None, w'))).
Proof.
  intros Hn Hr. unfold getValidVni. rewrite GetContextDB_eq.
  destruct (vni_loop_spec fuel (c <| dbkey := true |>) w Hn) as (w' & Hd & _ & Hcase).
  exists w'. split; [done|]. destruct Hcase as [(i & Hi & Hfree & Hrun)|]; [left|by right].
  exists i. split; [done|]. split; [done|]. split; [|done]. unfold drawn, vniMax, vniMin.
  specialize (Hr (clock w + i)%nat (16777215 - 4096)). lia.
Qed.

End vni.

(** ** Requests on a subnet *)

Section patch.
Context {G : Gorm} {E : Env} {GOk : GormOk G}.

(** A subnet that is not internal is read by every caller. *)
Lemma read_subnet_runs p s c w :
  no_faults → rows (subnets (db w)) !! Subnet.ID s = Some s → p s = true →
  (∀ j x, rows (subnets (db w)) !! j = Some x → p x = true → x = s) →
  Subnet.Type_ s ≠ "internal" → Subnet.RouterID s = 0 →
  ∃ o w', read_subnet p c w = (Ok (s <| Subnet.Router := None |> <| Subnet.Group := o |>), w') ∧
    db w' = db w ∧ sent w' = sent w.
Proof.
  intros Hn Hs Hp Hu Ht Hr. unfold read_subnet. rewrite GetContextDB_eq.
  set (c' := c <| dbkey := true |>).
  destruct (take_unique (HD := in_subnets) p s (Subnet.ID s) c' w Hn Hs Hp Hu) as (w1 & H1 & Hd1 & Hs1).
  destruct (preload_subnet_runs s c' w1 Hn Hr) as (o & w2 & H2 & Hd2 & Hs2).
  exists o, w2. split; [|split; congruence].
  rewrite (bind_run _ _ c' w (caller c) w eq_refl).
  erewrite (bind_run _ _ c' w); [|apply wrap_run; rewrite (bind_run _ _ _ _ _ _ H1); exact H2].
  set (s' := s <| Subnet.Router := None |> <| Subnet.Group := o |>).
  change (Subnet.RouterID s') with (Subnet.RouterID s). rewrite Hr.
  rewrite (bind_run _ _ c' w2 s' w2 eq_refl).
  change (Subnet.Type_ s') with (Subnet.Type_ s). rewrite (proj2 (String.eqb_neq _ _) Ht). done.
Qed.

(** A PATCH request on a subnet that is not internal takes no permission:
    whoever the caller is, it sets the name, the type and the priority of the row,
    the priority also when the request leaves it out. *)
Theorem subnet_patch_any_caller s name type priority c w :
  no_faults → rows (subnets (db w)) !! Subnet.ID s = Some s →
  (∀ j x, rows (subnets (db w)) !! j = Some x → Subnet.UUID x = Subnet.UUID s → x = s) →
  Subnet.Type_ s ≠ "internal" → Subnet.RouterID s = 0 →
  ∃ s' row w',
    SubnetAPI_Patch (Subnet.UUID s) (mkPatch name None type priority) c w = (Ok s', w') ∧
    rows (subnets (db w')) = <[Subnet.ID s := row]> (rows (subnets (db w))) ∧
    Subnet.Name row = (if String.eqb name "" then Subnet.Name s else name) ∧
    Subnet.Type_ row = (if String.eqb type "" then Subnet.Type_ s else type) ∧
    Subnet.Priority row = priority.
Proof.
  intros Hn Hs Hu Ht Hr. unfold SubnetAPI_Patch, SubnetAdmin_GetSubnetByUUID.
  destruct (read_subnet_runs (λ x, String.eqb (Subnet.UUID x) (Subnet.UUID s)) s c w Hn Hs)
    as (o & w1 & H1 & Hd1 & Hs1); [apply String.eqb_refl| |done|done|].
  { intros j x Hx Heq%String.eqb_eq. by apply (Hu j). }
  rewrite (bind_run _ _ _ _ _ _ H1). cbn [PatchName PatchType PatchGroup PatchPriority].
  set (s0 := s <| Subnet.Router := None |> <| Subnet.Group := o |>).
  set (s1 := if String.eqb name "" then s0 else s0 <| Subnet.Name := name |>).
  set (s2 := if String.eqb type "" then s1 else s1 <| Subnet.Type_ := type |>).
  set (s3 := s2 <| Subnet.Priority := priority |>).
  assert (Hcols : Subnet.ID s3 = Subnet.ID s ∧
                  Subnet.Name s3 = (if String.eqb name "" then Subnet.Name s else name) ∧
                  Subnet.Type_ s3 = (if String.eqb type "" then Subnet.Type_ s else type)).
  { subst s3 s2 s1. by destruct (String.eqb name ""), (String.eqb type ""). }
  destruct Hcols as (Hid & Hname & Htype). rewrite (bind_run _ _ c w1 s2 w1 eq_refl). fold s3.
  rewrite Hid, Hname, Htype.
  destruct (runs (SubnetAdmin_Update (Subnet.ID s)
                    (if String.eqb name "" then Subnet.Name s else name)
                    (if String.eqb type "" then Subnet.Type_ s else type) (Subnet.Group s3) priority)
              c w1) as ([] & w2 & H2).
  { intros c0 w0 e0 w0' H0. unfold SubnetAdmin_Update, with_tx in H0.
    unfold wrap, db_update in H0. rewrite !stmt_runs in H0 by done. by destruct (dbkey c0). }
  { unfold SubnetAdmin_Update. np. }
  rewrite (bind_run _ _ _ _ _ _ H2). exists s3. eexists _, w2. split; [done|].
  apply with_tx_Ok, wrap_Ok, db_update_Ok in H2 as [Hd2 _]. rewrite Hd2. tables. simpl.
  rewrite Hd1. split; [by apply update_key; [intros []|]|]. done.
Qed.

End patch.

(** ** Concrete subnets *)

Module SubnetWitness.
Import Scenario.
#[local] Existing Instance MemGorm.
#[local] Existing Instance MemGormOk.
#[local] Existing Instance env.

(** Subnet 30 is public, belongs to organization 1 and has an address. *)
Definition subnet30 : Subnet.t :=
  Subnet.zero <| Subnet.ID := 30 |> <| Subnet.UUID := "s30" |> <| Subnet.Owner := 1 |>
    <| Subnet.Name := "public" |> <| Subnet.Network := "203.0.113.0/29" |>
    <| Subnet.Type_ := "public" |> <| Subnet.Vlan := 4096 |> <| Subnet.Priority := 7 |>.

Definition address31 : Address.t :=
  Address.zero <| Address.ID := 31 |> <| Address.Address := "203.0.113.2/29" |>
    <| Address.SubnetID := 30 |>.

Definition network : DB :=
  empty_db <| subnets := table_of [subnet30] |> <| addresses := table_of [address31] |>.

Definition network_world : World := mkWorld network [] 0.

Lemma network_no_faults : no_faults.
Proof. done. Qed.

Lemma network_addresses k a :
  rows (addresses (db network_world)) !! k = Some a →
  is_Some (rows (subnets (db network_world)) !! Address.SubnetID a).
Proof.
  intros Ha. pose proof (rows_all (λ a, Address.SubnetID a =? 30) (rows (addresses network))
    ltac:(by vm_compute) k a Ha) as H. apply Z.eqb_eq in H as ->. exists subnet30. by vm_compute.
Qed.

Lemma network_interfaces k i :
  rows (interfaces (db network_world)) !! k = Some i →
  Interface.Subnet i = 0 ∨ is_Some (rows (subnets (db network_world)) !! Interface.Subnet i).
Proof.
  intros Hi. by pose proof (rows_all (λ _, false) (rows (interfaces network))
    ltac:(by vm_compute) k i Hi).
Qed.

Lemma network_fips k x :
  rows (floating_ips (db network_world)) !! k = Some x →
  FloatingIp.SubnetID x = 0 ∨ is_Some (rows (subnets (db network_world)) !! FloatingIp.SubnetID x).
Proof.
  intros Hx. by pose proof (rows_all (λ _, false) (rows (floating_ips network))
    ltac:(by vm_compute) k x Hx).
Qed.

(** 10.0.0.0/29 with nothing else given: gateway .1, pool .2 to .6. *)
Lemma subnet_create_spec_witness : ∃ subnet w',
  SubnetAdmin_Create 1001 5 "lan" (cidr_text (dotted 167772160) 29) "" "" "" "" "" "" true None
    None 0 writer network_world = (Ok (Some subnet), w') ∧
  Subnet.Gateway subnet = "10.0.0.1/29" ∧
  map Address.Address (g_find (λ a, Address.SubnetID a =? Subnet.ID subnet) (addresses (db w')))
  ≡ₚ ["10.0.0.2/29"; "10.0.0.3/29"; "10.0.0.4/29"; "10.0.0.5/29"; "10.0.0.6/29"; "10.0.0.1/29"].
Proof.
  pose proof (subnet_create_spec 1001 5 "lan" 167772160 29 None None None "" "" "" true None 0
    writer network_world network_no_faults eq_refl eq_refl ltac:(done) ltac:(lia) ltac:(lia)
    ltac:(lia) ltac:(done) ltac:(lia) network_addresses) as H.
  cbv zeta in H.
  match type of H with if ?b then _ else _ => replace b with true in H by (by vm_compute) end.
  match type of H with if ?b then _ else _ => replace b with true in H by (by vm_compute) end.
  destruct H as (subnet & w' & Hrun & [_ _ _ _ Hgw _ Hpool _ _ _] & _).
  exists subnet, w'. split; [exact Hrun|]. split; [by rewrite Hgw|].
  etransitivity; [exact Hpool|]. by vm_compute.
Defined.

Lemma pool_equivalence_witness :
  generateIPAddresses 5 (subnet30 <| Subnet.Gateway := "10.0.0.3/29" |>)
    (ParseIP (dotted 167772161)) (ParseIP (dotted 167772165)) 29 writer network_world =
  GetContextDB (_ ← put_pool (subnet30 <| Subnet.Gateway := "10.0.0.3/29" |>)
                      ["10.0.0.1/29"; "10.0.0.2/29"; "10.0.0.4/29"; "10.0.0.5/29"];
                mret (Some tt)) writer network_world.
Proof.
  assert (Hdiv : (2 ^ (32 - 29) | 167772160)) by (by exists 20971520).
  destruct (pool_equivalence 167772160 29 167772163 167772161 167772165
    (subnet30 <| Subnet.Gateway := "10.0.0.3/29" |>) (subnet_address subnet30) 5 writer network_world
    ltac:(lia) ltac:(lia) Hdiv ltac:(lia) ltac:(lia) ltac:(lia) ltac:(lia) ltac:(lia) ltac:(lia)
    ltac:(by vm_compute)) as [_ H].
  assert (Ht : pool_texts 29 167772161 167772165 167772163 =
               ["10.0.0.1/29"; "10.0.0.2/29"; "10.0.0.4/29"; "10.0.0.5/29"]) by (by vm_compute).
  rewrite Ht in H. exact H.
Defined.

(** The two routines that fill a pool differ on an end that is the gateway:
    [generateIPAddresses] stops there, the loop of [Create] misses it, leaves the
    network and fails. *)
Example pool_ends_differ :
  let subnet := subnet30 <| Subnet.Gateway := "10.0.0.3/29" |> in
  (generateIPAddresses 9 subnet (ParseIP "10.0.0.1") (ParseIP "10.0.0.3") 29 writer network_world).1
    = Ok (Some tt) ∧
  (pool_loop 9 (net4 167772160 29) "10.0.0.3/29" "10.0.0.3" 29 (subnet_address subnet30)
     (ParseIP "10.0.0.1") writer network_world).1
    = Err (NewCLError ErrInvalidParameter
             "Invalid start/end/gateway range, IP exceeded subnet range" None).
Proof. split; vm_compute; reflexivity. Qed.

Lemma subnet_delete_outcomes_witness : ∃ w',
  SubnetAdmin_Delete 0 (subnet30 <| Subnet.Owner := 2 |>) writer network_world = (Ok tt, w') ∧
  subnet_gone (subnet30 <| Subnet.Owner := 2 |>) network (db w').
Proof.
  pose proof (subnet_delete_outcomes 0 (subnet30 <| Subnet.Owner := 2 |>) writer network_world
    ltac:(done) eq_refl) as H.
  run_ok (SubnetAdmin_Delete 0 (subnet30 <| Subnet.Owner := 2 |>) writer network_world) u w' Hr.
  rewrite Hr in H. destruct u. exists w'. split; [exact Hr|]. apply H.
Defined.

Lemma subnet_roundtrip_witness : ∃ subnet w1 w2,
  SubnetAdmin_Create 1001 5 "lan" (cidr_text (dotted 167772160) 29) "" "" "" "" "" "" true None
    None 0 writer network_world = (Ok (Some subnet), w1) ∧
  SubnetAdmin_Delete 0 subnet writer w1 = (Ok tt, w2) ∧
  rows (addresses (db w2)) = rows (addresses network).
Proof.
  destruct (subnet_roundtrip 1001 5 "lan" 167772160 29 None None None "" "" "" true None 0 0
    writer network_world network_no_faults ltac:(done) ltac:(done) ltac:(done) ltac:(lia)
    ltac:(lia) ltac:(lia) ltac:(done) ltac:(lia) network_addresses network_interfaces network_fips)
    as (subnet & w1 & w2 & H1 & H2 & _ & Ha & _).
  - split; by vm_compute.
  - by vm_compute.
  - exists subnet, w1, w2. split; [exact H1|]. split; [exact H2|exact Ha].
Defined.

(** The first draw, 4096, is the identifier of subnet 30: the loop draws again. *)
Lemma vni_generated_witness : ∃ w', getValidVni 8 writer network_world = (Ok None, w').
Proof.
  destruct (vni_generated 8 writer network_world network_no_faults) as (w' & _ & H).
  - intros t n Hn. simpl. lia.
  - destruct H as [(i & _ & Hfree & _)|[_ H]]; [|by exists w'].
    exfalso. apply (Hfree 30 subnet30); by vm_compute.
Defined.

(** A writer of organization 2 makes the public subnet of organization 1 internal. *)
Lemma subnet_patch_any_caller_witness : ∃ s' row w',
  SubnetAPI_Patch "s30" (mkPatch "" None "internal" 0) writer network_world = (Ok s', w') ∧
  rows (subnets (db w')) !! 30 = Some row ∧ Subnet.Type_ row = "internal" ∧
  Subnet.Owner subnet30 ≠ MemberShip.OrgID (caller writer).
Proof.
  destruct (subnet_patch_any_caller subnet30 "" "internal" 0 writer network_world network_no_faults)
    as (s' & row & w' & H & Hrows & _ & Ht & _); [by vm_compute| |done|done|].
  - intros j x Hx _. assert (Hj : rows (subnets network) = {[30 := subnet30]}) by (by vm_compute).
    change (rows (subnets network) !! j = Some x) in Hx. rewrite Hj in Hx.
    apply lookup_singleton_Some in Hx. by destruct Hx.
  - exists s', row, w'. split; [exact H|]. split; [rewrite Hrows; apply lookup_insert_eq|]. done.
Defined.

End SubnetWitness.
