(* ===== verification/Router.v ===== *)
(** * Router: routers and their default security groups (routes/router.go)

    A router is created together with a security group, its default group, and
    deleted together with all its groups and its VRRP subnet.  The loading of its
    subnets ([Preload("Subnets")]) is a second result. *)

From S2P Require Import Prelude GoLib ErrorCodes Gorm Model Store Scenario Member Catalog Volume Admin Ipam NetInfo Secgroup SecgroupSystem Net IpGroup Subnet SubnetPool SubnetLife.

Section router.
Context {G : Gorm} {E : Env}.

Definition RouterAdmin_Create (name : string) : M Router.t :=
  m ← GetMemberShip;
  _ ← require (CheckPermission m Writer)
        (NewCLError ErrPermissionDenied "Not authorized to create routers" None);
  with_tx (
    router ← wrap ErrRouterCreateFailed "Failed to create router"
               (db_create (Router.zero <| Router.Creater := MemberShip.UserID m |>
                  <| Router.Owner := MemberShip.OrgID m |> <| Router.Name := name |>
                  <| Router.Status := "available" |>));
    secGroup ← SecgroupAdmin_Create (name +:+ "-native") true (Some router);
    _ ← wrap ErrRouterUpdateDefaultSGFailed "Failed to update router default security group"
          (db_update (by_pk (Router.ID router))
             (λ r, r <| Router.DefaultSG := SecurityGroup.ID secGroup |>));
    mret (router <| Router.DefaultSG := SecurityGroup.ID secGroup |>)).

(** The router a condition selects with its subnets, as a caller may read it. *)
Definition read_router (p : Router.t → bool) : M (Router.t * list Subnet.t) :=
  GetContextDB (
    m ← GetMemberShip;
    '(router, subnets) ← wrap ErrRouterNotFound "Failed to find router" (
      router ← db_take (λ r, where_ok (GetWhere m) (Router.Owner r) && p r);
      subnets ← db_find (λ s, Subnet.RouterID s =? Router.ID router);
      mret (router, subnets));
    _ ← require (ValidateOwner m Reader (Router.Owner router))
          (NewCLError ErrPermissionDenied "Not authorized to read the router" None);
    mret (router, subnets)).

(** [None] is the nil pointer, which is returned without an error. *)
Definition RouterAdmin_Get (id : Z) : M (option (Router.t * list Subnet.t)) :=
  if id <=? 0 then mret None else r ← read_router (by_pk id); mret (Some r).

Definition RouterAdmin_GetRouterByUUID (uuID : string) : M (Router.t * list Subnet.t) :=
  read_router (λ r, String.eqb (Router.UUID r) uuID).

Definition RouterAdmin_GetRouterByName (name : string) : M (Router.t * list Subnet.t) :=
  read_router (λ r, String.eqb (Router.Name r) name).

Definition RouterAdmin_GetRouter (reference : option BaseReference.t)
    : M (Router.t * list Subnet.t) :=
  let missing := NewCLError ErrInvalidParameter
                   "Router base reference must be provided with either uuid or name" None in
  match reference with
  | Some r =>
      if String.eqb (BaseReference.ID r) "" then
        if String.eqb (BaseReference.Name r) "" then fail missing
        else RouterAdmin_GetRouterByName (BaseReference.Name r)
      else RouterAdmin_GetRouterByUUID (BaseReference.ID r)
  | None => fail missing
  end.

(** [db.Find] into a struct: every row that is selected is read into it, the last
    one stays. *)
Definition RouterAdmin_Update (id : Z) (name : string) : M Router.t :=
  GetContextDB (
    router ← wrap ErrRouterNotFound "Failed to find router"
               (l ← db_find (R := Router.t) (by_pk id); found (last l));
    if String.eqb (Router.Name router) name then mret router
    else
      _ ← wrap ErrRouterUpdateFailed "Failed to update router"
            (db_update (by_pk (Router.ID router)) (λ r, r <| Router.Name := name |>));
      mret (router <| Router.Name := name |>)).

(** The subnets of a page of routers are loaded by one query. *)
Definition RouterAdmin_List (offset limit : Z) (order query : string)
    : M (Z * list (Router.t * list Subnet.t)) :=
  m ← GetMemberShip;
  GetContextDB (
    let p := λ r, where_ok (GetWhere m) (Router.Owner r) && name_like query (Router.Name r) in
    total ← wrap ErrSQLSyntaxError "Failed to count router" (db_count p);
    routers ← wrap ErrSQLSyntaxError "Failed to query routers" (
      rs ← db_page (page_order_of order) offset (page_limit_of limit) p;
      subnets ← (match rs with
                 | [] => mret []
                 | _ => db_find (λ s, existsb (λ r, Subnet.RouterID s =? Router.ID r) rs)
                 end);
      mret (map (λ r, (r, List.filter (λ s, Subnet.RouterID s =? Router.ID r) subnets)) rs));
    _ ← (if CheckPermission m Admin then
           for_each routers (λ r : Router.t * list Subnet.t,
             _ ← wrap ErrOwnerNotFound "Failed to query owner info"
                   (db_get (R := Organization.t) (Router.Owner r.1)); mret tt)
         else mret tt);
    mret (total, routers)).

(** The gateway interface of a router in the first public or private subnet that
    has an address left; the last error is returned when none has.  The loop
    variable [subnet] keeps the subnet it stopped at. *)
Fixpoint router_iface_loop (rtype : string) (router : Router.t) (owner : Z)
    (subnets : list Subnet.t) (iface : option Interface.t) (last : option Subnet.t)
    (err : option error) : M (option Interface.t * option Subnet.t) :=
  match subnets with
  | [] => match err with Some e => fail e | None => mret (iface, last) end
  | subnet :: subnets =>
      let name := "pub" +:+ fmt_d (Subnet.ID subnet) in
      let next ifType :=
        r ← try (CreateInterface subnet (Router.ID router) owner (Router.Hyper router) 0 0 "" ""
                   name ifType [] false);
        match r with
        | inl i => mret (Some i, Some subnet)
        | inr e => router_iface_loop rtype router owner subnets None (Some subnet) (Some e)
        end in
      if String.eqb rtype "public" then next "gateway_public"
      else if String.eqb rtype "private" then next "gateway_private"
      else router_iface_loop rtype router owner subnets iface (Some subnet) err
  end.

Definition createRouterIface (rtype : string) (router : Router.t) (owner : Z)
    : M (option Interface.t * option Subnet.t) :=
  GetContextDB (
    subnets ← wrap ErrDatabaseError "Failed to query subnets"
                (db_find (λ s, String.eqb (Subnet.Type_ s) rtype));
    router_iface_loop rtype router owner subnets None None None).

(** [db.Model(&R{}).Where(p).Count(&count)] with an error when there are rows. *)
Definition refuse_if {R} `{Row R, InDB R} (p : R → bool) (what : string) (e : error) : M unit :=
  count ← wrap ErrDatabaseError what (db_count p);
  require (negb (0 <? count)) e.

(** What must be gone before a router is deleted. *)
Definition check_router (router : Router.t) : M unit :=
  _ ← refuse_if (λ f, FloatingIp.RouterID f =? Router.ID router)
        "Failed to count floating ip in the router"
        (NewCLError ErrRouterHasFloatingIPs "There are associated floating ips" None);
  _ ← refuse_if (λ s, (Subnet.RouterID s =? Router.ID router)
                      && negb (String.eqb (Subnet.Type_ s) "vrrp"))
        "Failed to count subnet in the router"
        (NewCLError ErrRouterHasSubnets "There are associated subnets" None);
  _ ← refuse_if (λ p, Portmap.RouterID p =? Router.ID router)
        "Failed to count portmap in the router"
        (NewCLError ErrRouterHasPortmaps "There are associated portmaps" None);
  refuse_if (λ l, LoadBalancer.RouterID l =? Router.ID router)
    "Failed to count load balancer in the router"
    (NewCLError ErrRouterHasPortmaps "There are associated load balancers" None).

(** The VRRP subnet goes first, if there is one.  [subnet_created] and
    [group_created] give the Unix time at which a row was created. *)
Definition vrrp_step (subnet_created : Subnet.t → Z) (router : Router.t) : M unit :=
  if 0 <? Router.VrrpSubnetID router then
    vrrpSubnet ← SubnetAdmin_Get (Router.VrrpSubnetID router);
    SubnetAdmin_Delete (subnet_created vrrpSubnet) vrrpSubnet
  else mret tt.

Definition RouterAdmin_Delete (created : Z) (subnet_created : Subnet.t → Z)
    (group_created : SecurityGroup.t → Z) (router : Router.t) : M unit :=
  with_tx (
    m ← GetMemberShip;
    _ ← require (ValidateOwner m Writer (Router.Owner router))
          (NewCLError ErrPermissionDenied "Not authorized to delete the router" None);
    _ ← check_router router;
    _ ← HyperExecute "toall="
          ("/opt/cloudland/scripts/backend/clear_local_router.sh '" +:+ fmt_d (Router.ID router)
           +:+ "'");
    _ ← vrrp_step subnet_created router;
    _ ← wrap ErrRouterDeleteFailed "Failed to delete router"
          (db_delete (R := Router.t) (by_pk (Router.ID router)));
    _ ← wrap ErrRouterUpdateFailed "Failed to update router name"
          (db_update_all (by_id (Router.ID router))
             (λ r, r <| Router.Name := Router.Name router +:+ "-" +:+ fmt_d created |>));
    secgroups ← wrap ErrDatabaseError "Failed to query security groups in the router"
                  (db_find (λ sg, SecurityGroup.RouterID sg =? Router.ID router));
    for_each secgroups (λ sg,
      wrap ErrSecurityGroupDeleteFailed "Failed to delete security group"
        (SecgroupAdmin_Delete (group_created sg) sg))).

End router.

(** ** The deletion of a router *)

Section delete.
Context {G : Gorm} {E : Env} {GOk : GormOk G}.

Lemma refuse_if_Ok {R} {HR : Row R} {HRO : RowOk R} {HD : InDB R} (p : R → bool) what e c w u w' :
  refuse_if p what e c w = (Ok u, w') →
  (∀ k r, rows (tbl (db w)) !! k = Some r → p r = false) ∧ db w' = db w ∧ sent w' = sent w.
Proof.
  intros (n & w1 & (-> & Hd & Hs)%wrap_Ok%db_count_Ok & [Hz <-]%require_Ok)%bind_Ok.
  split; [|done]. by apply count_none.
Qed.

(** No row but subnets for VRRP and security groups belongs to the router. *)
Record router_unused (router : Router.t) (d : DB) : Prop := {
  unused_fips k f : rows (floating_ips d) !! k = Some f → FloatingIp.RouterID f ≠ Router.ID router;
  unused_subnets k s : rows (subnets d) !! k = Some s →
    Subnet.RouterID s = Router.ID router → Subnet.Type_ s = "vrrp";
  unused_portmaps k p : rows (portmaps d) !! k = Some p → Portmap.RouterID p ≠ Router.ID router;
  unused_balancers k l : rows (load_balancers d) !! k = Some l →
    LoadBalancer.RouterID l ≠ Router.ID router
}.

Lemma check_router_Ok router c w u w' :
  check_router router c w = (Ok u, w') →
  router_unused router (db w) ∧ db w' = db w ∧ sent w' = sent w.
Proof.
  intros (v1 & w1 & (H1 & Hd1 & Hs1)%refuse_if_Ok & H)%bind_Ok.
  apply bind_Ok in H as (v2 & w2 & (H2 & Hd2 & Hs2)%refuse_if_Ok & H).
  apply bind_Ok in H as (v3 & w3 & (H3 & Hd3 & Hs3)%refuse_if_Ok & H).
  apply refuse_if_Ok in H as (H4 & Hd4 & Hs4). tables.
  rewrite Hd3, Hd2, Hd1 in *. split; [|split; congruence]. split.
  - intros k f Hf. by apply Z.eqb_neq, (H1 k).
  - intros k s Hs Hr. specialize (H2 k s Hs). simpl in H2.
    rewrite (proj2 (Z.eqb_eq _ _) Hr) in H2. simpl in H2.
    by apply negb_false_iff, String.eqb_eq in H2.
  - intros k f Hf. by apply Z.eqb_neq, (H3 k).
  - intros k f Hf. by apply Z.eqb_neq, (H4 k).
Qed.

(** The groups of a list and their rules are gone. *)
Record groups_deleted (l : list SecurityGroup.t) (d d' : DB) : Prop := {
  gsd_unused sg k i : sg ∈ l → ifs d !! k = Some i → in_group (SecurityGroup.ID sg) i = false;
  gsd_groups k : groups d' !! k =
    if bool_decide (k ∈ map SecurityGroup.ID l) then None else groups d !! k;
  gsd_rules k r : rules d' !! k = Some r ↔
    rules d !! k = Some r ∧ SecurityRule.Secgroup r ∉ map SecurityGroup.ID l;
  gsd_frame : d' = d <| secgroups := secgroups d' |> <| secrules := secrules d' |>
}.

Lemma delete_groups_Ok created l c w u w' :
  Forall (λ sg, 0 < SecurityGroup.ID sg) l →
  for_each l (λ sg, wrap ErrSecurityGroupDeleteFailed "Failed to delete security group"
                      (SecgroupAdmin_Delete (created sg) sg)) c w = (Ok u, w') →
  groups_deleted l (db w) (db w') ∧ sent w' = sent w.
Proof.
  intros Hpos. revert w. induction Hpos as [|sg l Hsg Hl IH]; intros w; simpl.
  - intros [_ <-]%ret_Ok. split; [|done]. split; [by intros sg k i ?%elem_of_nil|done| |by destruct (db w)].
    intros k r. split; [intros Hr; split; [done|apply not_elem_of_nil]|by intros [? _]].
  - intros (v & w1 & H1%wrap_Ok & H)%bind_Ok.
    apply SecgroupAdmin_Delete_Ok in H1 as (_ & [U1 G1 R1 F1] & Hs1 & _); [|done].
    apply IH in H as [[U2 G2 R2 F2] Hs2]. split; [|congruence]. split.
    + intros x k i [->|Hx]%elem_of_cons Hi; [by eapply U1|]. eapply U2; [exact Hx|].
      unfold ifs. by rewrite F1.
    + intros k. rewrite G2, G1. simpl.
      destruct (decide (k = SecurityGroup.ID sg)) as [->|Hk].
      * rewrite lookup_delete_eq, (bool_decide_eq_true_2 (_ ∈ _ :: _)) by apply list_elem_of_here.
        by case_bool_decide.
      * rewrite lookup_delete_ne by done. rewrite !bool_decide_decide.
        repeat case_decide; try done; set_solver.
    + intros k r. rewrite R2, R1. simpl. rewrite not_elem_of_cons.
      destruct (rules (db w) !! k) as [x|]; [|clear; intuition congruence].
      destruct (Z.eqb_spec (SecurityRule.Secgroup x) (SecurityGroup.ID sg)); naive_solver.
    + rewrite F2, F1. done.
Qed.

Lemma read_subnet_Ok p c w s w' :
  read_subnet p c w = (Ok s, w') →
  (∃ s0, rows (subnets (db w)) !! Subnet.ID s = Some s0 ∧ p s0 = true) ∧ db w' = db w.
Proof.
  unfold read_subnet. rewrite GetContextDB_eq.
  intros (m & w0 & [<- <-]%GetMemberShip_Ok & H)%bind_Ok.
  apply bind_Ok in H as (s1 & w1 & H1%wrap_Ok & H).
  apply bind_Ok in H1 as (s0 & w2 & (Ht & Hd2 & _)%db_take_Ok & H1). unfold preload_subnet in H1.
  apply bind_Ok in H1 as (r & w3 & (_ & Hd3 & _)%preload_Ok & H1).
  apply bind_Ok in H1 as (g & w4 & (_ & Hd4 & _)%preload_Ok & [<- <-]%ret_Ok).
  apply bind_Ok in H as (s2 & w5 & H2 & H). apply bind_Ok in H as (v & w6 & H3 & [<- <-]%ret_Ok).
  apply take_some in Ht as [Hp Hrow].
  assert (Hs2 : Subnet.ID s2 = Subnet.ID s0 ∧ db w5 = db w4).
  { destruct (0 <? Subnet.RouterID _) eqn:Hr; [|by apply ret_Ok in H2 as [<- <-]].
    apply bind_Ok in H2 as (x & w7 & (_ & Hd7 & _)%wrap_Ok%db_take_Ok & [<- <-]%ret_Ok). by split. }
  destruct Hs2 as [Hid Hd5].
  assert (Hd6 : db w6 = db w5).
  { destruct (String.eqb (Subnet.Type_ s2) "internal"); [by apply require_Ok in H3 as [_ <-]|].
    by apply ret_Ok in H3 as [_ <-]. }
  split; [|congruence]. exists s0. rewrite Hid. by split.
Qed.

Lemma SubnetAdmin_Get_Ok id c w s w' :
  SubnetAdmin_Get id c w = (Ok s, w') →
  0 < id ∧ Subnet.ID s = id ∧ is_Some (rows (subnets (db w)) !! id) ∧ db w' = db w.
Proof.
  unfold SubnetAdmin_Get. destruct (Z.leb_spec id 0); [by intros ?%fail_Ok|].
  intros ((s0 & Hs & Hp) & Hd)%read_subnet_Ok. unfold by_pk in Hp. rewrite pk_nonzero in Hp by lia.
  apply Z.eqb_eq in Hp. pose proof (rows_id _ _ _ Hs) as Hid. change (Subnet.ID s0 = Subnet.ID s) in Hid.
  change (id = Subnet.ID s0) in Hp. assert (Heq : Subnet.ID s = id) by congruence.
  rewrite Heq in Hs. split; [done|]. split; [done|]. split; [by exists s0|done].
Qed.

(** What the deletion of a router leaves. *)
Record router_gone (router : Router.t) (d d' : DB) : Prop := {
  rgone_row : rows (routers d') !! Router.ID router = None;
  rgone_others k : k ≠ Router.ID router →
    Router.Owner <$> rows (routers d') !! k = Router.Owner <$> rows (routers d) !! k;
  rgone_groups k sg : groups d' !! k = Some sg ↔
    groups d !! k = Some sg ∧ SecurityGroup.RouterID sg ≠ Router.ID router;
  rgone_rules k r : rules d' !! k = Some r ↔
    rules d !! k = Some r ∧
    (∀ sg, groups d !! SecurityRule.Secgroup r = Some sg →
           SecurityGroup.RouterID sg ≠ Router.ID router);
  rgone_subnets k s : rows (subnets d') !! k = Some s ↔
    rows (subnets d) !! k = Some s ∧ (0 < Router.VrrpSubnetID router → k ≠ Router.VrrpSubnetID router)
}.

Lemma vrrp_step_Ok sc router c w u w' :
  vrrp_step sc router c w = (Ok u, w') →
  (∀ k, Router.Owner <$> rows (routers (db w')) !! k = Router.Owner <$> rows (routers (db w)) !! k) ∧
  (∀ k s, rows (subnets (db w')) !! k = Some s ↔
     rows (subnets (db w)) !! k = Some s ∧
     (0 < Router.VrrpSubnetID router → k ≠ Router.VrrpSubnetID router)) ∧
  secgroups (db w') = secgroups (db w) ∧ secrules (db w') = secrules (db w).
Proof.
  unfold vrrp_step. destruct (Z.ltb_spec 0 (Router.VrrpSubnetID router)) as [Hv|Hv].
  - intros (s & w1 & (_ & Hid & _ & Hd1)%SubnetAdmin_Get_Ok & H)%bind_Ok.
    apply SubnetAdmin_Delete_Ok in H as (_ & _ & [Gs _ _ _ Gr Gf]); [|lia].
    rewrite Hd1 in *. split_and!.
    + intros k. rewrite Gr. destruct (rows (routers (db w)) !! k) as [r|]; [|done]. simpl. by case_if.
    + intros k x. rewrite Gs, lookup_delete_Some, Hid. clear -Hv. intuition congruence.
    + by rewrite Gf.
    + by rewrite Gf.
  - intros [_ <-]%ret_Ok. split_and!; try done. intros k s. split; [|by intros [? _]].
    intros Hs. split; [done|]. lia.
Qed.

Lemma RouterAdmin_Delete_Ok created sc gc router c w u w' :
  0 < Router.ID router → RouterAdmin_Delete created sc gc router c w = (Ok u, w') →
  ValidateOwner (caller c) Writer (Router.Owner router) = true ∧
  router_unused router (db w) ∧ router_gone router (db w) (db w').
Proof.
  intros Hpos (m & w0 & [<- <-]%GetMemberShip_Ok & H)%with_tx_Ok%bind_Ok.
  apply bind_Ok in H as (v0 & w0 & [Hv <-]%require_Ok & H).
  apply bind_Ok in H as (v1 & w1 & (Hun & Hd1 & _)%check_router_Ok & H).
  apply bind_Ok in H as (v2 & w2 & (Hd2 & _ & _)%HyperExecute_Ok & H).
  apply bind_Ok in H as (v3 & w3 & H3 & H).
  apply vrrp_step_Ok in H3 as (Hr3 & Hs3 & Hg3 & Hu3).
  apply bind_Ok in H as (v4 & w4 & [Hd4 _]%wrap_Ok%db_delete_Ok & H).
  apply bind_Ok in H as (v5 & w5 & [Hd5 _]%wrap_Ok%db_update_all_Ok & H).
  apply bind_Ok in H as (l & w6 & (Hl & Hd6 & _)%wrap_Ok%db_find_Ok & H). tables.
  assert (Hlpos : Forall (λ sg, 0 < SecurityGroup.ID sg) l).
  { rewrite Hl. apply Forall_forall. intros y [_ Hy]%find_spec. by apply rows_pos in Hy. }
  apply delete_groups_Ok in H as [[_ Gg Gr Gf] _]; [|done].
  split; [done|]. split; [done|]. assert (Hd0 : db w2 = db w) by congruence.
  rewrite Hd0 in Hr3, Hs3, Hg3, Hu3.
  assert (Hgrp : secgroups (db w6) = secgroups (db w)) by (rewrite Hd6, Hd5, Hd4; exact Hg3).
  assert (Hgrp5 : secgroups (db w5) = secgroups (db w)) by (rewrite Hd5, Hd4; exact Hg3).
  assert (Hrul : secrules (db w6) = secrules (db w)) by (rewrite Hd6, Hd5, Hd4; exact Hu3).
  assert (Hsub : subnets (db w') = subnets (db w3)) by (by rewrite Gf, Hd6, Hd5, Hd4).
  assert (Hrt : ∀ k, rows (routers (db w')) !! k =
            (λ r, if by_id (Router.ID router) r then r <| Router.Name := Router.Name router +:+ "-"
                  +:+ fmt_d created |> else r) <$> delete (Router.ID router) (rows (routers (db w3))) !! k).
  { intros k. rewrite Gf. simpl. rewrite Hd6, Hd5. simpl. rewrite update_all_spec by (by intros []).
    rewrite lookup_fmap, Hd4. simpl. by rewrite delete_pk by lia. }
  assert (Hmine : ∀ k sg, groups (db w) !! k = Some sg →
            k ∈ map SecurityGroup.ID l ↔ SecurityGroup.RouterID sg = Router.ID router).
  { intros k sg Hsg. rewrite Hl, Hgrp5. split.
    - intros (y & -> & [Hy%Z.eqb_eq Hrow]%find_spec)%list_elem_of_fmap.
      change (groups (db w) !! SecurityGroup.ID y = Some y) in Hrow. congruence.
    - intros Hs. apply list_elem_of_fmap. exists sg. pose proof (rows_id _ _ _ Hsg) as Hid.
      split; [done|]. apply (find_lookup _ _ k); [done|by apply Z.eqb_eq]. }
  assert (Hin : ∀ k, k ∈ map SecurityGroup.ID l → ∃ sg, groups (db w) !! k = Some sg).
  { intros k (y & -> & Hy)%list_elem_of_fmap. rewrite Hl, Hgrp5 in Hy. apply find_spec in Hy as [_ Hy].
    by exists y. }
  unfold groups, rules in *. rewrite Hgrp in Gg. rewrite Hrul in Gr. split.
  - rewrite Hrt, lookup_delete_eq. done.
  - intros k Hk. rewrite Hrt, lookup_delete_ne by done. rewrite <- Hr3.
    destruct (rows (routers (db w3)) !! k) as [r|]; [|done]. simpl. by case_if.
  - intros k sg. rewrite Gg. destruct (bool_decide_reflect (k ∈ map SecurityGroup.ID l)) as [Hi|Hi]; split.
    + done.
    + intros [Hk Hne]. by apply (Hmine k sg Hk) in Hi.
    + intros Hk. split; [done|]. intros Heq. by apply Hi, (Hmine k sg Hk).
    + by intros [? _].
  - intros k r. rewrite Gr. split; intros [Hk Hno]; (split; [done|]).
    + intros sg Hsg Heq. by apply Hno, (Hmine _ sg Hsg).
    + intros Hi. destruct (Hin _ Hi) as [sg Hsg]. apply (Hno sg Hsg). by apply (Hmine _ sg Hsg).
  - intros k s. by rewrite Hsub, Hs3.
Qed.

Lemma RouterAdmin_Delete_np created sc gc router : no_panic (RouterAdmin_Delete created sc gc router).
Proof.
  unfold RouterAdmin_Delete, check_router, refuse_if, vrrp_step, SubnetAdmin_Get, read_subnet, preload_subnet.
  np; try apply SubnetAdmin_Delete_np.
  unfold SecgroupAdmin_Delete, guards_default, OrgAdmin_Get. np.
Qed.

(** C35. Deleting a router either succeeds or changes nothing.  A success takes a
    writer of the owner and a router without floating IPs, port maps, load
    balancers and subnets other than for VRRP; the router, its VRRP subnet, all
    its security groups and their rules are gone, and the groups, rules and
    subnets of others are kept. *)
Theorem router_delete_outcomes created sc gc router c w :
  0 < Router.ID router → dbkey c = false →
  match RouterAdmin_Delete created sc gc router c w with
  | (Ok _, w') =>
      ValidateOwner (caller c) Writer (Router.Owner router) = true ∧
      router_unused router (db w) ∧ router_gone router (db w) (db w')
  | (Err _, w') => db w' = db w
  | (Panic, _) => False
  end.
Proof.
  intros Hpos Hc. destruct (RouterAdmin_Delete created sc gc router c w) as [[u|e|] w'] eqn:H.
  - by eapply RouterAdmin_Delete_Ok.
  - by apply with_tx_Err in H.
  - by apply np_refute in H; [|apply RouterAdmin_Delete_np].
Qed.

End delete.

(** ** A concrete network *)

Module RouterWitness.
Import Scenario.
#[local] Existing Instance MemGorm.
#[local] Existing Instance MemGormOk.
#[local] Existing Instance env.

(** Organization 2 has router 20 with the default group 7, a group 6, and instance
    5 with an interface in group 6. *)
Definition router20 : Router.t :=
  Router.zero <| Router.ID := 20 |> <| Router.UUID := "r20" |> <| Router.Owner := 2 |>
    <| Router.Name := "vpc" |> <| Router.DefaultSG := 7 |>.

Definition group7 : SecurityGroup.t :=
  SecurityGroup.zero <| SecurityGroup.ID := 7 |> <| SecurityGroup.UUID := "g7" |>
    <| SecurityGroup.Owner := 2 |> <| SecurityGroup.Name := "vpc-native" |>
    <| SecurityGroup.IsDefault := true |> <| SecurityGroup.RouterID := 20 |>.

Definition group6 : SecurityGroup.t :=
  SecurityGroup.zero <| SecurityGroup.ID := 6 |> <| SecurityGroup.UUID := "g6" |>
    <| SecurityGroup.Owner := 2 |> <| SecurityGroup.Name := "web" |>.

Definition subnet1 : Subnet.t :=
  Subnet.zero <| Subnet.ID := 1 |> <| Subnet.Owner := 2 |> <| Subnet.Network := "10.0.0.0/24" |>
    <| Subnet.Netmask := "255.255.255.0" |> <| Subnet.Gateway := "10.0.0.1/24" |>
    <| Subnet.RouterID := 20 |> <| Subnet.Vlan := 5000 |>.

Definition iface21 : Interface.t :=
  Interface.zero <| Interface.ID := 21 |> <| Interface.Owner := 2 |> <| Interface.Name := "eth0" |>
    <| Interface.MacAddr := "52:54:01:02:03:04" |> <| Interface.Instance := 5 |>
    <| Interface.PrimaryIf := true |> <| Interface.SecurityGroups := [group6] |>.

Definition address31 : Address.t :=
  Address.zero <| Address.ID := 31 |> <| Address.Address := "10.0.0.9/24" |>
    <| Address.SubnetID := 1 |> <| Address.Interface := 21 |> <| Address.Allocated := true |>.

Definition rule9 : SecurityRule.t :=
  SecurityRule.zero <| SecurityRule.ID := 9 |> <| SecurityRule.UUID := "s9" |>
    <| SecurityRule.Owner := 2 |> <| SecurityRule.Secgroup := 6 |>
    <| SecurityRule.RemoteIp := "0.0.0.0/0" |> <| SecurityRule.Direction := "ingress" |>
    <| SecurityRule.IpVersion := "ipv4" |> <| SecurityRule.Protocol := "tcp" |>
    <| SecurityRule.PortMin := 80 |> <| SecurityRule.PortMax := 80 |>.

Definition vpc : DB :=
  cloud <| routers := table_of [router20] |> <| secgroups := table_of [group6; group7] |>
    <| subnets := table_of [subnet1] |> <| interfaces := table_of [iface21] |>
    <| addresses := table_of [address31] |> <| secrules := table_of [rule9] |>.

Definition vpc_world : World := mkWorld vpc [] 0.

(** A request of organization 2: delete the group with this UUID. *)
Definition delete_group7 : M unit := run_op (DeleteGroup 0 "g7").

Definition dangling (d : DB) : bool :=
  match rows (routers d) !! 20, groups d !! 7 with
  | Some rt, None => Router.DefaultSG rt =? 7
  | _, _ => false
  end.

Definition cleared (r : Res Router.t * World) : bool :=
  is_Ok r && match groups (db r.2) !! 7 with
             | Some g => negb (SecurityGroup.IsDefault g) | None => false end &&
  is_Ok (delete_group7 writer r.2) && dangling (db (delete_group7 writer r.2).2).

(** Creating a router takes the default mark from a group of another
    organization: the router has no default group yet, and the group to replace is
    taken by primary key 0, which selects any.  The group that was the default one
    of a router, which could not be deleted before, can be deleted then, and the
    router keeps a reference to nothing. *)
Theorem router_create_clears_default :
  (∃ e w', delete_group7 writer vpc_world = (Err e, w')) ∧
  ∃ rt w1 u w2, RouterAdmin_Create "mine" stranger vpc_world = (Ok rt, w1) ∧
    (∃ g, groups (db w1) !! 7 = Some g ∧ SecurityGroup.IsDefault g = false) ∧
    delete_group7 writer w1 = (Ok u, w2) ∧ groups (db w2) !! 7 = None ∧
    ∃ r20, rows (routers (db w2)) !! 20 = Some r20 ∧ Router.DefaultSG r20 = 7.
Proof.
  split; [by apply run_Err; vm_compute|].
  assert (cleared (RouterAdmin_Create "mine" stranger vpc_world) = true) as H by (by vm_compute).
  destruct (RouterAdmin_Create _ _ _) as [[rt|e|] w1]; [|done|done]. unfold cleared in H.
  rewrite !andb_true_iff in H. cbn [snd] in H. destruct H as (((_ & Hg) & Hok) & Hd).
  apply run_Ok in Hok as (u & w2 & Hrun). exists rt, w1, u, w2. rewrite Hrun in Hd. cbn [snd] in Hd.
  unfold dangling in Hd. destruct (rows (routers (db w2)) !! 20) as [r20|] eqn:H20; [|done].
  destruct (groups (db w2) !! 7) eqn:H7; [done|]. apply Z.eqb_eq in Hd.
  split_and!; [done| |done|done|by exists r20].
  destruct (groups (db w1) !! 7) as [g|]; [|done]. apply negb_true_iff in Hg. by exists g.
Qed.

Lemma vpc_no_faults : no_faults.
Proof. done. Qed.

Lemma vpc_all_posted : all_posted.
Proof. done. Qed.

Lemma vpc_addresses : addresses_ok vpc.
Proof.
  intros k a Ha. pose proof (rows_all (λ a, Address.SubnetID a =? 1) (ads vpc)
    ltac:(by vm_compute) k a Ha) as Hs. apply Z.eqb_eq in Hs. rewrite Hs.
  exists subnet1. by vm_compute.
Qed.

Lemma vpc_networks : networks_ok vpc.
Proof.
  intros k s Hs. pose proof (rows_all (λ s, negb (String.eqb (Subnet.Network s) ""))
    (rows (subnets vpc)) ltac:(by vm_compute) k s Hs) as H.
  by apply negb_true_iff, String.eqb_neq in H.
Qed.

Lemma vpc_sec_ok : sec_ok vpc.
Proof.
  split.
  - intros k r Hr. pose proof (rows_all (λ r, SecurityRule.Secgroup r =? 6) (rules vpc)
      ltac:(by vm_compute) k r Hr) as H. apply Z.eqb_eq in H. rewrite H.
    exists group6. by vm_compute.
  - intros k i sg Hi Hsg. pose proof (rows_all
      (λ i, forallb (λ sg, SecurityGroup.ID sg =? 6) (Interface.SecurityGroups i)) (ifs vpc)
      ltac:(by vm_compute) k i Hi) as H. simpl in H. rewrite forallb_forall in H.
    apply list_elem_of_In, H, Z.eqb_eq in Hsg. rewrite Hsg. exists group6. by vm_compute.
Qed.

Lemma iface21_attached : attached vpc group6 iface21 instance5.
Proof. split_and!; [by vm_compute..|]. exists address31. by vm_compute. Qed.

Lemma secrule_create_applied_witness : ∃ r w',
  SecruleAdmin_Create "" "0.0.0.0/0" "ingress" "tcp" 443 443 group6 writer vpc_world = (Ok (Some r), w') ∧
  told_rules (db w') iface21 instance5 (sent w').
Proof.
  destruct (secrule_create_applied "" "0.0.0.0/0" "ingress" "tcp" 443 443 group6 writer vpc_world
              vpc_no_faults vpc_all_posted vpc_addresses ltac:(done) eq_refl) as (o & w' & H & Ho).
  destruct (run_check (SecruleAdmin_Create "" "0.0.0.0/0" "ingress" "tcp" 443 443 group6 writer
    vpc_world) (λ o, match o with Some _ => true | None => false end)) as (o1 & w1 & H1 & Hs);
    [by vm_compute|]. rewrite H in H1. injection H1 as <- <-. destruct o as [r|]; [|done].
  exists r, w'. split; [done|]. apply Ho, iface21_attached.
Defined.

(** The group of another router: two rules for its subnet. *)
Lemma secgroup_create_rules_witness : ∃ sg w',
  SecgroupAdmin_Create "extra" false (Some router20) writer vpc_world = (Ok sg, w') ∧
  ∃ k r, rules (db w') !! k = Some r ∧ SecurityRule.Secgroup r = SecurityGroup.ID sg ∧
    spec_of r = ("10.0.0.0/24", "ingress", "udp", 1, 65535).
Proof.
  pose proof (secgroup_create_rules "extra" false (Some router20) writer vpc_world
    vpc_no_faults vpc_addresses vpc_sec_ok vpc_networks ltac:(done) ltac:(done) eq_refl) as H.
  run_ok (SecgroupAdmin_Create "extra" false (Some router20) writer vpc_world) sg w' Hr.
  rewrite Hr in H. exists sg, w'. split; [done|]. apply H.
  apply elem_of_app. right. by vm_compute; repeat constructor.
Defined.

Lemma secgroup_delete_outcomes_witness : ∃ w' e,
  SecgroupAdmin_Delete 0 group6 writer vpc_world = (Err e, w') ∧ db w' = vpc.
Proof.
  run_err (SecgroupAdmin_Delete 0 group6 writer vpc_world) e w' Hr. exists w', e. split; [done|].
  pose proof (secgroup_delete_outcomes 0 group6 writer vpc_world ltac:(done) vpc_no_faults) as H.
  rewrite Hr in H. by apply H.
Defined.

(** Requests of two organizations: a rule, an interface in group 6, an attempt to
    delete the group, a router group. *)
Definition requests : list (Ctx * sg_op) :=
  [(writer, CreateRule "g6" "" "0.0.0.0/0" "ingress" "tcp" 443 443);
   (writer, Plug subnet1 5 2 3 "10.0.0.9" "" "eth1" [BaseReference.mk "g6" ""]);
   (stranger, DeleteGroup 0 "g6"); (writer, DeleteGroup 0 "g6");
   (writer, CreateGroup "extra" false (Some router20)); (writer, DeleteRule "g6" "s9")].

Lemma secgroups_invariant_witness : sec_ok (db (serve_ops requests vpc_world)).
Proof. apply (secgroups_invariant requests vpc_world vpc_sec_ok). Defined.

Lemma secrule_update_ports_witness : ∃ r w',
  SecruleAdmin_Update 9 "" "" "" "" (-1) 443 writer vpc_world = (Ok r, w') ∧
  SecurityRule.PortMin r = -1 ∧ SecurityRule.PortMax r = 80 ∧ sent w' = [].
Proof.
  run_ok (SecruleAdmin_Update 9 "" "" "" "" (-1) 443 writer vpc_world) r w' H. exists r, w'.
  pose proof (secrule_update_ports 9 "" "" "" "" (-1) 443 writer vpc_world ltac:(done)) as Ht.
  rewrite H in Ht. destruct Ht as (r0 & Hr0 & _ & _ & [(Hp & _)|(_ & Hmin & Hmax)] & Hs); [lia|].
  assert (rules (db vpc_world) !! 9 = Some rule9) as H9 by (by vm_compute).
  rewrite H9 in Hr0. injection Hr0 as <-. by rewrite Hmax.
Defined.

Lemma default_group_switched_witness : ∃ w',
  SecgroupAdmin_Switch group6 (Some router20) writer vpc_world = (Ok tt, w') ∧
  default_of writer (Some router20) (db w') = Some 6.
Proof.
  destruct (default_group_switched group6 router20 writer vpc_world vpc_no_faults) as (w' & H & _ & Hd & _);
    [done|exists router20; by vm_compute|exists group7; by vm_compute|]. by exists w'.
Defined.

(** A router with nothing but its default group. *)
Definition bare : DB :=
  empty_db <| routers := table_of [router20] |> <| secgroups := table_of [group7] |>.

Lemma router_delete_outcomes_witness : ∃ w',
  RouterAdmin_Delete 0 (λ _, 0) (λ _, 0) router20 writer (mkWorld bare [] 0) = (Ok tt, w') ∧
  router_gone router20 bare (db w').
Proof.
  pose proof (router_delete_outcomes 0 (λ _, 0) (λ _, 0) router20 writer (mkWorld bare [] 0)
    ltac:(done) eq_refl) as H.
  run_ok (RouterAdmin_Delete 0 (λ _, 0) (λ _, 0) router20 writer (mkWorld bare [] 0)) u w' Hr.
  rewrite Hr in H. destruct u. exists w'. split; [exact Hr|]. apply H.
Defined.

End RouterWitness.
