(* ===== verification/Hyper.v ===== *)
(** * Hyper: hypervisors, zones and their reports

    ZoneAdmin (routes/zone.go), HyperAdmin (routes/hyper.go), the struct methods of
    model/hyper.go, the choice of hypervisors (common/instance.go), the reports
    hyper_status, report_rc and system_router (package rpcs), the entry of every
    report, doExecute (rpcs/frontback.go), and the PATCH handler of apis/hyper.go.

    The over-commit rates a report carries are parsed and assigned to a struct that
    is not written: they are left out. *)

From S2P Require Import Prelude GoLib Net ErrorCodes Gorm Model Store Scenario Member Catalog Volume Commands VolumeRpc Dispatch Admin Ipam NetInfo Secgroup IpGroup Subnet.

(** ** Struct methods (model/hyper.go) *)

Definition HYPER_INIT := "".
Definition HYPER_DISABLED := "disabled".
Definition HYPER_ACTIVE := "active".

Definition Hyper_GetStatus (hyper : Hyper.t) : string :=
  if Hyper.Status hyper =? 0 then HYPER_DISABLED
  else if Hyper.Status hyper =? 1 then HYPER_ACTIVE
  else HYPER_INIT.

(** One item [k=v] of a control line. *)
Definition load_item (hyper : Hyper.t) (item : string) : Hyper.t :=
  match Split item "=" with
  | [k; v] =>
      if String.eqb v "" then hyper
      else if String.eqb k "id" then
        match Atoi v with Some id => hyper <| Hyper.Hostid := int32 id |> | None => hyper end
      else if String.eqb k "hostname" then hyper <| Hyper.Hostname := v |>
      else if String.eqb k "num" then
        match Atoi v with Some num => hyper <| Hyper.Children := int32 num |> | None => hyper end
      else hyper
  | _ => hyper
  end.

Definition Hyper_LoadControl (hyper : Hyper.t) (control : string) : Hyper.t :=
  foldl load_item hyper (Split control " ").

Definition Hyper_LoadCommand (hyper : Hyper.t) (command : string) : Hyper.t :=
  match Split command "," with
  | [i0; i1; i2] =>
      let hyper := if String.eqb i1 "" then hyper else hyper <| Hyper.Hostname := i1 |> in
      if String.eqb i0 "" then hyper
      else
        let hyper := match Atoi i0 with
                     | Some id => hyper <| Hyper.Hostid := int32 id |>
                     | None => hyper
                     end in
        match Atoi i2 with
        | Some status =>
            if (status =? 10)
               || ((0 <? Hyper.Status hyper) && negb (Hyper.Status hyper =? int32 status))
            then hyper <| Hyper.Status := int32 status |> else hyper
        | None => hyper
        end
  | _ => hyper
  end.

(** The columns gorm writes for a struct of new values: those that are not blank. *)
Definition keep_Z (new old : Z) : Z := if new =? 0 then old else new.
Definition keep_s (new old : string) : string := if String.eqb new "" then old else new.

Definition hyper_values (values r : Hyper.t) : Hyper.t := r
  <| Hyper.Hostid := keep_Z (Hyper.Hostid values) (Hyper.Hostid r) |>
  <| Hyper.Hostname := keep_s (Hyper.Hostname values) (Hyper.Hostname r) |>
  <| Hyper.Status := keep_Z (Hyper.Status values) (Hyper.Status r) |>
  <| Hyper.Parentid := keep_Z (Hyper.Parentid values) (Hyper.Parentid r) |>
  <| Hyper.Children := keep_Z (Hyper.Children values) (Hyper.Children r) |>
  <| Hyper.Duration := keep_Z (Hyper.Duration values) (Hyper.Duration r) |>.

Definition resource_values (v r : Resource.t) : Resource.t := r
  <| Resource.Hostid := keep_Z (Resource.Hostid v) (Resource.Hostid r) |>
  <| Resource.Cpu := keep_Z (Resource.Cpu v) (Resource.Cpu r) |>
  <| Resource.CpuTotal := keep_Z (Resource.CpuTotal v) (Resource.CpuTotal r) |>
  <| Resource.Memory := keep_Z (Resource.Memory v) (Resource.Memory r) |>
  <| Resource.MemoryTotal := keep_Z (Resource.MemoryTotal v) (Resource.MemoryTotal r) |>
  <| Resource.Disk := keep_Z (Resource.Disk v) (Resource.Disk r) |>
  <| Resource.DiskTotal := keep_Z (Resource.DiskTotal v) (Resource.DiskTotal r) |>.

(** [%f] of a rate in millionths. *)
Fixpoint zero_pad (n : nat) (s : string) : string :=
  match n with
  | O => s
  | S n => if (String.length s <=? n)%nat then "0" +:+ zero_pad n s else s
  end.

Definition fmt_f (x : Z) : string :=
  (if x <? 0 then "-" else "") +:+ fmt_d (Z.abs x / 1000000) +:+ "."
  +:+ zero_pad 6 (fmt_d (Z.abs x `mod` 1000000)).

(** The payload of a PATCH request; a field that is missing is [None]. *)
Record HyperPatchPayload := mkHyperPatch {
  PatchStatus : option Z;
  PatchZoneID : option Z;
  PatchCpuOverRate : option Z;
  PatchMemOverRate : option Z;
  PatchDiskOverRate : option Z;
  PatchRemark : option string;
  PatchRouteIP : option string;
  PatchSubnet : option BaseReference.t
}.

Definition patched_hyper (payload : HyperPatchPayload) (h : Hyper.t) : Hyper.t := h
  <| Hyper.Status := default (Hyper.Status h) (PatchStatus payload) |>
  <| Hyper.ZoneID := default (Hyper.ZoneID h) (PatchZoneID payload) |>
  <| Hyper.CpuOverRate := default (Hyper.CpuOverRate h) (PatchCpuOverRate payload) |>
  <| Hyper.MemOverRate := default (Hyper.MemOverRate h) (PatchMemOverRate payload) |>
  <| Hyper.DiskOverRate := default (Hyper.DiskOverRate h) (PatchDiskOverRate payload) |>
  <| Hyper.Remark := default (Hyper.Remark h) (PatchRemark payload) |>.

Section hyper.
Context {G : Gorm} {E : Env}.

(** A context with another value under a key. *)
Definition with_ctx {A} (f : Ctx → Ctx) (m : M A) : M A := λ c w, m (f c) w.

(** [return fmt.Errorf(msg, err)] for an error of [m] *)
Definition errorf {A} (msg : string) (m : M A) : M A :=
  r ← try m; match r with inl a => mret a | inr _ => fail (GoError msg) end.

(** [db.FirstOrCreate]: [init] is the struct that is created when no row is found. *)
Definition first_or_create {R} `{Row R, InDB R} (p : R → bool) (init : R) : M R :=
  r ← try (db_take p);
  match r with
  | inl r => mret r
  | inr RecordNotFound => db_create init
  | inr e => fail e
  end.

Definition hosted (hostid : Z) (h : Hyper.t) : bool := Hyper.Hostid h =? hostid.
Definition resource_of (hostid : Z) (r : Resource.t) : bool := Resource.Hostid r =? hostid.

(** ** Agents (rpcs/frontback.go) *)

Definition Hyper_Updates (values : Hyper.t) : M Hyper.t :=
  hyper ← first_or_create (hosted (Hyper.Hostid values))
            (Hyper.zero <| Hyper.Hostid := Hyper.Hostid values |>);
  _ ← db_update (by_pk (Hyper.ID hyper)) (hyper_values values);
  mret (hyper_values values hyper).

Fixpoint agent_loop (parent : Z) (items : list string) : M (list Z) :=
  match items with
  | [] => mret []
  | item :: items =>
      if String.eqb item "" then agent_loop parent items
      else
        let v := Hyper_LoadCommand Hyper.zero item <| Hyper.Parentid := parent |> in
        _ ← Hyper_Updates v;
        ids ← agent_loop parent items;
        mret (Hyper.Hostid v :: ids)
  end.

(** The duration is 0 in every call. *)
Definition CallbackAgent (control command : string) : M (list Z) :=
  agent ← Hyper_Updates (Hyper_LoadControl Hyper.zero control);
  ids ← agent_loop (Hyper.Hostid agent) (Split command newline);
  mret (Hyper.Hostid agent :: ids).

Definition synced (id : Z) : string :=
  (if id <? 0 then "agent " else "hyper ") +:+ fmt_d id +:+ " synced in 0".

(** The status of the reply. *)
Definition doExecute (frontbacks : Registry) (id : Z) (command control : string) : M string :=
  let firstToken := hd "" (Split control " ") in
  if (id <? 0) && String.eqb firstToken "callback=agent" then
    _ ← try (CallbackAgent control command); mret ""
  else if String.eqb firstToken "callback=agent" then
    ids ← CallbackAgent control command;
    mret (Join (map synced ids) newline)
  else if String.eqb firstToken "error=resource" then
    with_ctx (λ c, c <| errkey := Some "resource" |>) (executeLine frontbacks command)
  else with_ctx (λ c, c <| hostkey := Some id |>) (executeLine frontbacks command).

(** ** The hypervisors a command may run on (common/instance.go) *)

Definition qualified (zoneID skipHyper : Z) (h : Hyper.t) : bool :=
  (if 0 <? zoneID then Hyper.ZoneID h =? zoneID else true)
  && (Hyper.Status h =? 1) && (0 <=? Hyper.Hostid h) && negb (Hyper.Hostid h =? skipHyper).

Definition GetHyperGroup (zoneID skipHyper : Z) : M string :=
  GetContextDB (
    hypers ← wrap ErrSQLSyntaxError "Failed to query hypervisors"
               (db_find (qualified zoneID skipHyper));
    match hypers with
    | [] => fail (NewCLError ErrNoQualifiedHypervisor "No qualified hypervisor found" None)
    | _ => mret ("group-zone-" +:+ fmt_d zoneID +:+ ":"
                 +:+ Join (map (λ h, fmt_d (Hyper.Hostid h)) hypers) ",")
    end).

(** ** Zones (routes/zone.go) *)

Definition ZoneAdmin_List (offset limit : Z) (order query : string) : M (Z * list Zone.t) :=
  GetContextDB (
    let p z := name_like query (Zone.Name z) in
    let order := if String.eqb order "" then "name" else order in
    total ← wrap ErrSQLSyntaxError "Failed to count zones" (db_count p);
    zones ← wrap ErrSQLSyntaxError "Failed to query zones"
              (db_page (NewOrders order []) offset (page_limit_of limit) p);
    mret (total, zones)).

Definition ZoneAdmin_Get (id : Z) : M Zone.t :=
  GetContextDB (wrap ErrZoneNotFound "Zone not found" (db_get id)).

Definition ZoneAdmin_GetZoneByName (name : string) : M Zone.t :=
  GetContextDB (wrap ErrZoneNotFound "Zone not found" (db_take (λ z, String.eqb (Zone.Name z) name))).

Definition ZoneAdmin_Create (name : string) (isDefault : bool) (remark : string) : M Zone.t :=
  with_tx (
    m ← GetMemberShip;
    _ ← require (CheckPermission m Admin)
          (NewCLError ErrPermissionDenied "Not authorized to create zone" None);
    _ ← (if isDefault then
           wrap ErrUnsetDefaultZoneFailed "Failed to unset existing default zone"
             (db_update Zone.Default (λ z, z <| Zone.Default := false |>))
         else mret tt);
    wrap ErrZoneCreationFailed "Failed to create zone"
      (db_create (Zone.zero <| Zone.Name := name |> <| Zone.Default := isDefault |>
                            <| Zone.Remark := remark |>))).

(** [zone] is the struct of the caller; it keeps the new columns. *)
Definition ZoneAdmin_Update (zone : Zone.t) (isDefault : bool) (remark : string) : M Zone.t :=
  with_tx (
    m ← GetMemberShip;
    _ ← require (CheckPermission m Admin)
          (NewCLError ErrPermissionDenied "Not authorized to update zone" None);
    _ ← (if isDefault && negb (Zone.Default zone) then
           wrap ErrUnsetDefaultZoneFailed "Failed to unset existing default zone"
             (db_update (λ z, Zone.Default z && negb (Zone.ID z =? Zone.ID zone))
                (λ z, z <| Zone.Default := false |>))
         else mret tt);
    _ ← wrap ErrZoneUpdateFailed "Failed to update zone"
          (db_update (by_pk (Zone.ID zone))
             (λ z, z <| Zone.Remark := remark |> <| Zone.Default := isDefault |>));
    mret (zone <| Zone.Default := isDefault |> <| Zone.Remark := remark |>)).

Definition ZoneAdmin_Delete (zone : Zone.t) : M unit :=
  with_tx (
    m ← GetMemberShip;
    _ ← require (CheckPermission m Admin)
          (NewCLError ErrPermissionDenied "Not authorized to delete zone" None);
    hyperCount ← db_count (λ h, Hyper.ZoneID h =? Zone.ID zone);
    _ ← require (negb (0 <? hyperCount))
          (NewCLError ErrHypersInZone
             "Zone cannot be deleted while hypervisors belong to this zone" None);
    wrap ErrZoneDeleteFailed "Failed to delete zone"
      (db_delete (R := Zone.t) (by_pk (Zone.ID zone)))).

(** ** Hypervisors (routes/hyper.go) *)

(** [Preload("Zone")] *)
Definition preload_zone (h : Hyper.t) : M Hyper.t :=
  z ← preload (R := Zone.t) (Hyper.ZoneID h); mret (h <| Hyper.Zone := z |>).

(** The resources of the hypervisors of a page, blank where there are none; the
    error of the last query is the error of [List]. *)
Fixpoint load_resources (hypers : list Hyper.t) (err : option error)
    : M (list (Hyper.t * Resource.t)) :=
  match hypers with
  | [] => match err with Some e => fail e | None => mret [] end
  | h :: hypers =>
      r ← try (db_take (resource_of (Hyper.Hostid h)));
      match r with
      | inl x => rest ← load_resources hypers None; mret ((h, x) :: rest)
      | inr e => rest ← load_resources hypers (Some e); mret ((h, Resource.zero) :: rest)
      end
  end.

Definition HyperAdmin_List (offset limit : Z) (order query : string)
    : M (Z * list (Hyper.t * Resource.t)) :=
  GetContextDB (
    let p h := (0 <=? Hyper.Hostid h) && name_like query (Hyper.Hostname h) in
    let order := if String.eqb order "" then "hostid" else order in
    total ← wrap ErrSQLSyntaxError "Failed to count hypervisors" (db_count p);
    hypers ← wrap ErrSQLSyntaxError "Failed to retrieve hypervisors" (
      l ← db_page (NewOrders order []) offset (page_limit_of limit) p;
      zones ← preload_many (R := Zone.t) (map Hyper.ZoneID l);
      mret (map (λ h, h <| Hyper.Zone := pick (Hyper.ZoneID h) zones |>) l));
    hypers ← load_resources hypers None;
    mret (total, hypers)).

Definition find_hyper (p : Hyper.t → bool) : M Hyper.t :=
  m ← GetMemberShip;
  _ ← require (CheckPermission m Admin) NotAuthorized;
  GetContextDB (wrap ErrHypervisorNotFound "Specified hypervisor not found" (db_take p)).

Definition HyperAdmin_GetHyperByHostname (hostname : string) : M Hyper.t :=
  find_hyper (λ h, String.eqb (Hyper.Hostname h) hostname).

Definition HyperAdmin_GetHyperByHostIP (hostIP : string) : M Hyper.t :=
  find_hyper (λ h, String.eqb (Hyper.HostIP h) hostIP).

(** The hypervisor with its zone and its resources. *)
Definition HyperAdmin_GetHyperByHostid (hostid : Z) : M (Hyper.t * Resource.t) :=
  m ← GetMemberShip;
  _ ← require (CheckPermission m Admin) NotAuthorized;
  GetContextDB (
    hyper ← wrap ErrHypervisorNotFound "Specified hypervisor not found"
              (h ← db_take (hosted hostid); preload_zone h);
    r ← try (db_take (resource_of (Hyper.Hostid hyper)));
    mret (hyper, match r with
                 | inl x => x
                 | inr _ => Resource.zero <| Resource.Hostid := Hyper.Hostid hyper |>
                 end)).

Definition update_hyper_command (h : Hyper.t) (zone : Zone.t) (restartCloudlet : Z) : string :=
  "/opt/cloudland/scripts/backend/update_hyper.sh '" +:+ fmt_d (Hyper.Status h) +:+ "' '"
  +:+ Zone.Name zone +:+ "' '" +:+ fmt_d restartCloudlet +:+ "' '" +:+ fmt_f (Hyper.CpuOverRate h)
  +:+ "' '" +:+ fmt_f (Hyper.MemOverRate h) +:+ "' '" +:+ fmt_f (Hyper.DiskOverRate h) +:+ "'".

(** The struct [hyperInDB] with the new zone, where it changes. *)
Definition change_zone (hyper hyperInDB : Hyper.t) : M Hyper.t :=
  if Hyper.ZoneID hyper =? Hyper.ZoneID hyperInDB then mret hyperInDB
  else
    zone ← ZoneAdmin_Get (Hyper.ZoneID hyper);
    mret (hyperInDB <| Hyper.Zone := Some zone |> <| Hyper.ZoneID := Zone.ID zone |>).

(** Does the script have to run? *)
Definition hyper_changes (hyper hyperInDB : Hyper.t) : bool :=
  negb ((Hyper.Status hyper =? Hyper.Status hyperInDB)
        && (Hyper.ZoneID hyper =? Hyper.ZoneID hyperInDB)
        && (Hyper.CpuOverRate hyper =? Hyper.CpuOverRate hyperInDB)
        && (Hyper.MemOverRate hyper =? Hyper.MemOverRate hyperInDB)
        && (Hyper.DiskOverRate hyper =? Hyper.DiskOverRate hyperInDB)).

Definition HyperAdmin_Update (hyper : Hyper.t) : M unit :=
  m ← GetMemberShip;
  _ ← require (CheckPermission m Admin) NotAuthorized;
  GetContextDB (
    hyperInDB ← wrap ErrHypervisorNotFound "Specified hypervisor not found"
                  (h ← db_get (Hyper.ID hyper); preload_zone h);
    let callScript := hyper_changes hyper hyperInDB in
    let restartCloudlet := if Hyper.ZoneID hyper =? Hyper.ZoneID hyperInDB then 0 else 1 in
    hyperInDB ← change_zone hyper hyperInDB;
    let hyperInDB := hyperInDB <| Hyper.Status := Hyper.Status hyper |>
          <| Hyper.Remark := Hyper.Remark hyper |>
          <| Hyper.CpuOverRate := Hyper.CpuOverRate hyper |>
          <| Hyper.MemOverRate := Hyper.MemOverRate hyper |>
          <| Hyper.DiskOverRate := Hyper.DiskOverRate hyper |> in
    _ ← db_update (by_id (Hyper.ID hyper)) (λ h, h
          <| Hyper.Status := Hyper.Status hyperInDB |> <| Hyper.Remark := Hyper.Remark hyperInDB |>
          <| Hyper.ZoneID := Hyper.ZoneID hyperInDB |>
          <| Hyper.CpuOverRate := Hyper.CpuOverRate hyperInDB |>
          <| Hyper.MemOverRate := Hyper.MemOverRate hyperInDB |>
          <| Hyper.DiskOverRate := Hyper.DiskOverRate hyperInDB |>);
    if callScript then
      zone ← deref (Hyper.Zone hyperInDB);
      HyperExecute ("inter=" +:+ fmt_d (Hyper.Hostid hyperInDB))
        (update_hyper_command hyperInDB zone restartCloudlet)
    else mret tt).

Definition HyperAdmin_SetStatus (hostID status : Z) : M unit :=
  '(hyper, _) ← HyperAdmin_GetHyperByHostid hostID;
  if Hyper.Status hyper =? status then mret tt
  else HyperAdmin_Update (hyper <| Hyper.Status := status |>).

Definition HyperAdmin_cleanupSystemInterfaces (hostid : Z) : M unit :=
  oldIfaces ← db_find (λ i, (Interface.Hyper i =? hostid)
                            && String.eqb (Interface.Type_ i) "system");
  for_each oldIfaces DeleteInterface.

(** The address of a system interface: the given one, or any free one. *)
Definition route_address (subnet : Subnet.t) (ifaceID : Z) (newRouteIP : string) (subnetID : Z)
    : M (string * Z) :=
  if String.eqb newRouteIP "" then
    newAddr ← errorf "Failed to allocate address from subnet"
                (AllocateAddress subnet ifaceID "" "native");
    mret (Address.Address newAddr, Address.ID newAddr)
  else
    address ← errorf "Address is not available in subnet"
                (db_take (λ a, String.eqb (Address.Address a) newRouteIP
                               && (Address.SubnetID a =? subnetID) && negb (Address.Allocated a)));
    _ ← errorf "Failed to allocate address"
          (db_update (by_id (Address.ID address)) (λ a, a
             <| Address.Allocated := true |> <| Address.Interface := ifaceID |>
             <| Address.Type_ := "native" |>));
    mret (newRouteIP, Address.ID address).

Definition system_router_command (subnet : Subnet.t) (address : string) : string :=
  "/opt/cloudland/scripts/backend/system_router.sh '" +:+ fmt_d (Subnet.Vlan subnet) +:+ "' '"
  +:+ address +:+ "' '" +:+ Subnet.Gateway subnet +:+ "'".

Definition HyperAdmin_UpdateRouteIP (hyper : Hyper.t) (newRouteIP : string) (subnetID : Z)
    : M unit :=
  with_tx (
    _ ← errorf "Failed to cleanup old system interfaces"
          (HyperAdmin_cleanupSystemInterfaces (Hyper.Hostid hyper));
    subnet ← errorf "Subnet not found" (SubnetAdmin_Get subnetID);
    iface ← errorf "Failed to create system interface"
              (db_create (Interface.zero <| Interface.Name := "system" |>
                 <| Interface.Type_ := "system" |> <| Interface.Mtu := 1450 |>));
    _ ← errorf "Failed to update system interface"
          (db_update (by_pk (Interface.ID iface)) (λ i, i
             <| Interface.Owner := 1 |> <| Interface.Hyper := Hyper.Hostid hyper |>
             <| Interface.Subnet := Subnet.ID subnet |>
             <| Interface.RouterID := Subnet.RouterID subnet |>));
    '(routeIPAddr, addressID) ← route_address subnet (Interface.ID iface) newRouteIP subnetID;
    _ ← errorf "Failed to update interface"
          (db_update (by_id (Interface.ID iface)) (λ i, i <| Interface.AddressID := addressID |>));
    _ ← errorf "Failed to update hypervisor RouteIP"
          (db_update (by_id (Hyper.ID hyper)) (λ h, h <| Hyper.RouteIP := routeIPAddr |>));
    errorf "Failed to apply route IP change"
      (HyperExecute ("inter=" +:+ fmt_d (Hyper.Hostid hyper))
         (system_router_command subnet routeIPAddr))).

(** The body of the PATCH handler (apis/hyper.go) up to the answer. *)
Definition HyperAPI_Patch (hostid : Z) (payload : HyperPatchPayload) : M (Hyper.t * Resource.t) :=
  '(hyper, _) ← HyperAdmin_GetHyperByHostid hostid;
  let hyper := patched_hyper payload hyper in
  _ ← HyperAdmin_Update hyper;
  _ ← match PatchRouteIP payload with
      | Some routeIP =>
          if String.eqb routeIP (Hyper.RouteIP hyper) then mret tt
          else match PatchSubnet payload with
               | None => fail (GoError "subnet is required when changing route_ip")
               | Some reference =>
                   subnet ← SubnetAdmin_GetSubnet (Some reference);
                   HyperAdmin_UpdateRouteIP hyper routeIP (Subnet.ID subnet)
               end
      | None => mret tt
      end;
  HyperAdmin_GetHyperByHostid hostid.

(** ** Reports (rpcs/system_router.go, hyper_status.go, report_rc.go) *)

(** The interface of the system router in the first public subnet that has an
    address; [err] is the error so far.  After a failed INSERT the variable holds
    the struct, which has no address. *)
Fixpoint system_loop (hyper : Hyper.t) (hyperID : Z) (hyperName : string)
    (subnets : list Subnet.t) (sysIface : option Interface.t) (err : option error)
    : M (option Interface.t) :=
  match subnets with
  | [] => match sysIface, err with
          | None, Some e => fail e
          | _, _ => mret sysIface
          end
  | subnet :: subnets =>
      r ← try (CreateInterface subnet 0 0 (int32 hyperID) 0 0 "" "" hyperName "system" [] false);
      match r with
      | inl iface =>
          address ← deref (Interface.Address iface);
          _ ← db_update (by_id (Hyper.ID hyper))
                (λ h, h <| Hyper.RouteIP := Address.Address address |>);
          mret (Some iface)
      | inr (StatementFailed n) =>
          system_loop hyper hyperID hyperName subnets (Some Interface.zero)
            (Some (StatementFailed n))
      | inr e => system_loop hyper hyperID hyperName subnets None (Some e)
      end
  end.

(** The interface that carries the address the hypervisor has. *)
Definition known_router (hyper : Hyper.t) (hyperID : Z) (hyperName : string)
    : M (option Interface.t) :=
  address ← (a ← db_take (λ a, String.eqb (Address.Address a) (Hyper.RouteIP hyper));
             preload_address a);
  if Address.Allocated address then mret (Some (Interface.zero <| Interface.Address := Some address |>))
  else
    subnet ← deref (Address.Subnet address);
    iface ← CreateInterface subnet 0 0 (int32 hyperID) 0 0 (Hyper.RouteIP hyper) "" hyperName
              "system" [] false;
    mret (Some iface).

Definition SystemRouter (args : list string) : M string :=
  with_tx (
    _ ← require (negb (length args <? 2)%nat) (GoError "Wrong params");
    a1 ← arg args 1;
    hyperID ← parse_arg 64 a1;
    if hyperID <? 0 then mret ""
    else
      hyperName ← arg args 2;
      hyper ← db_take (hosted hyperID);
      if negb (String.eqb (Hyper.Hostname hyper) hyperName) then mret ""
      else
        subnets ← db_find (λ s, String.eqb (Subnet.Type_ s) "public");
        sysIface ← (if String.eqb (Hyper.RouteIP hyper) "" then
                      system_loop hyper hyperID hyperName subnets None None
                    else known_router hyper hyperID hyperName);
        match sysIface with
        | None => mret ""
        | Some iface =>
            address ← deref (Interface.Address iface);
            subnet ← deref (Address.Subnet address);
            _ ← HyperExecute ("inter=" +:+ fmt_d hyperID)
                  (system_router_command subnet (Address.Address address));
            mret ""
        end).

(** The numbers of a report; one that cannot be read counts as [dflt]. *)
Definition atoi_or (dflt : Z) (s : string) : Z := default dflt (Atoi s).

(** [db.Where("hostid = ?", id).Assign(resource).FirstOrCreate(&Resource{})]: blank
    values are not assigned to a row that exists. *)
Definition assign_resource (hostid : Z) (resource : Resource.t) : M unit :=
  r ← try (db_take (resource_of hostid));
  match r with
  | inl x => db_update (by_pk (Resource.ID x)) (resource_values resource)
  | inr RecordNotFound => _ ← db_create resource; mret tt
  | inr e => fail e
  end.

(** The statement that writes blank values. *)
Definition write_blanks (hostid : Z) (resource : Resource.t) : M unit :=
  if (Resource.Cpu resource =? 0) || (Resource.Memory resource =? 0)
     || (Resource.Disk resource =? 0) then
    db_update (resource_of hostid) (λ r, r <| Resource.Cpu := Resource.Cpu resource |>
      <| Resource.Memory := Resource.Memory resource |> <| Resource.Disk := Resource.Disk resource |>)
  else mret tt.

(** The resources of a hyper_status report. *)
Definition reported_resource (hyperID : Z) (args : list string) : Resource.t :=
  let num k := atoi_or 0 (nth k args "") in
  Resource.zero <| Resource.Hostid := int32 hyperID |>
    <| Resource.Cpu := num 3%nat |> <| Resource.CpuTotal := num 4%nat |>
    <| Resource.Memory := num 5%nat |> <| Resource.MemoryTotal := num 6%nat |>
    <| Resource.Disk := num 7%nat |> <| Resource.DiskTotal := num 8%nat |>.

Definition reported_status (args : list string) : Z := atoi_or 1 (nth 9 args "").

(** The columns of the hypervisor; gorm stores the reference to the zone along with
    them, and the zone itself when it has no key yet. *)
Definition reported_hyper (args : list string) (cpuModel : string) (zoneID : Z) (h : Hyper.t)
    : Hyper.t := h
  <| Hyper.Hostname := nth 2 args "" |> <| Hyper.Status := reported_status args |>
  <| Hyper.CpuModel := cpuModel |> <| Hyper.VirtType := "kvm-x86_64" |>
  <| Hyper.ZoneID := zoneID |> <| Hyper.HostIP := nth 10 args "" |>.

Definition report_zone (zoneName : string) : M Zone.t :=
  if String.eqb zoneName "" then mret Zone.zero
  else first_or_create (λ z, String.eqb (Zone.Name z) zoneName)
         (Zone.zero <| Zone.Name := zoneName |>).

Definition save_zone (zone : Zone.t) : M Zone.t :=
  if gorm_autosave && (Zone.ID zone =? 0) then db_create zone else mret zone.

(** Any error of the look-up makes a new hypervisor. *)
Definition take_or_create_hyper (hyperID : Z) : M Hyper.t :=
  r ← try (db_take (hosted hyperID));
  match r with
  | inl h => mret h
  | inr _ => db_create (Hyper.zero <| Hyper.Hostid := int32 hyperID |>)
  end.

Definition HyperStatus (args : list string) : M string :=
  with_tx (
    _ ← require (negb (length args <? 15)%nat) (GoError "Wrong params");
    a1 ← arg args 1;
    hyperID ← parse_arg 64 a1;
    if hyperID <? 0 then mret ""
    else
      zone ← report_zone (nth 11 args "");
      hyper ← take_or_create_hyper hyperID;
      cpuModel ← arg args 15;
      zone ← save_zone zone;
      _ ← require (fits 32 (reported_status args)) (GoError "integer out of range");
      _ ← db_update (hosted hyperID) (reported_hyper args cpuModel (Zone.ID zone));
      let resource := reported_resource hyperID args in
      _ ← assign_resource hyperID resource;
      r ← try (write_blanks hyperID resource);
      if String.eqb (Hyper.RouteIP hyper) "" then
        _ ← SystemRouter [nth 0 args ""; a1; nth 2 args ""]; mret ""
      else match r with inl _ => mret "" | inr e => fail e end).

(** One word [key=avail/total] of a report_rc report; [None] for a word that is not
    of this form. *)
Definition rc_word (r : Resource.t) (word : string) : option Resource.t :=
  match Split word "=" with
  | [key; value] =>
      match Split value "/" with
      | [avail; total] =>
          let a := Atoi_value avail in
          let t := Atoi_value total in
          Some (if String.eqb key "cpu" then r <| Resource.Cpu := a |> <| Resource.CpuTotal := t |>
                else if String.eqb key "memory" then
                  r <| Resource.Memory := a |> <| Resource.MemoryTotal := t |>
                else if String.eqb key "disk" then
                  r <| Resource.Disk := a |> <| Resource.DiskTotal := t |>
                else r)
      | _ => None
      end
  | _ => None
  end.

Fixpoint rc_words (r : Resource.t) (words : list string) : option Resource.t :=
  match words with
  | [] => Some r
  | word :: words => match rc_word r word with Some r => rc_words r words | None => None end
  end.

(** The variable err when the loop stops at a word that is not of this form: that of
    the last total it read. *)
Definition total_error (err : option error) (word : string) : option error :=
  match Split word "=" with
  | [key; value] =>
      match Split value "/" with
      | [_; total] =>
          if String.eqb key "cpu" || String.eqb key "memory" || String.eqb key "disk" then
            match ParseInt 64 total with
            | Some _ => None
            | None => Some (GoError ("strconv.ParseInt: parsing " +:+ total))
            end
          else err
      | _ => err
      end
  | _ => err
  end.

Fixpoint rc_error (err : option error) (words : list string) : option error :=
  match words with
  | [] => err
  | word :: words =>
      match rc_word Resource.zero word with
      | Some _ => rc_error (total_error err word) words
      | None => err
      end
  end.

Definition ReportRC (args : list string) : M string :=
  with_tx (
    _ ← require (negb (length args <? 4)%nat) (GoError "Wrong params");
    id ← ctx_hostid;
    match rc_words (Resource.zero <| Resource.Hostid := id |>) (tl args) with
    | None => match rc_error None (tl args) with Some e => fail e | None => mret "" end
    | Some resource =>
        _ ← assign_resource id resource;
        _ ← write_blanks id resource;
        mret ""
    end).

(** ** Registrations *)

Definition add_hyper_status (f : Registry) : Registry := Add "hyper_status" HyperStatus f.
Definition add_report_rc (f : Registry) : Registry := Add "report_rc" ReportRC f.
Definition add_system_router (f : Registry) : Registry := Add "system_router" SystemRouter f.

End hyper.
