(* ===== verification/HyperSystem.v ===== *)
(** * HyperSystem: what the reports and requests on hypervisors keep

    The invariant of the tables of zones and hypervisors over every outcome of a
    request or report, and over sequences of them. *)

From S2P Require Import Prelude GoLib Net ErrorCodes Gorm Model Store Scenario Member Catalog Volume Commands VolumeRpc Dispatch Admin Ipam NetInfo Secgroup IpGroup Subnet Hyper.

(** ** Combinators *)

Section combinators.
Context {G : Gorm} {E : Env}.
Variable I : DB → Prop.

Lemma pres_with_ctx {A} f (m : M A) : preserves I m → preserves I (with_ctx f m).
Proof. intros Hm c w. apply Hm. Qed.

Lemma pres_errorf {A} msg (m : M A) : preserves I m → preserves I (errorf msg m).
Proof. intros Hm. unfold errorf. pres. Qed.

Lemma pres_first_or_create {R} {HR : Row R} {HD : InDB R} (p : R → bool) init :
  preserves I (db_create init) → preserves I (first_or_create p init).
Proof. intros Hc. unfold first_or_create. pres. Qed.

(** The statements of the interface operations touch addresses and interfaces. *)
Definition framed : Prop :=
  (∀ d t, I d → I (d <| addresses := t |>)) ∧ (∀ d t, I d → I (d <| interfaces := t |>)).

Lemma pres_CreateInterface_framed s k o h ib ob ip mac name ty sgs spoof :
  framed → preserves I (CreateInterface s k o h ib ob ip mac name ty sgs spoof).
Proof.
  intros [Ha Hi]. unfold CreateInterface, AllocateAddress. pres.
  - intros c w Hw. unfold GenerateMacaddr. by destruct (rand_read _) as [[[[]]]|].
  - apply pres_db_create. intros. by apply Hi.
  - apply pres_db_update. intros. by apply Ha.
  - apply pres_db_delete. intros. by apply Hi.
Qed.

Lemma pres_preload_address a : preserves I (preload_address a).
Proof. unfold preload_address. pres. Qed.

End combinators.

#[export] Hint Resolve pres_preload_address : go.

(** ** The report system_router *)

Section system.
Context {G : Gorm} {E : Env} {GOk : GormOk G}.
Implicit Types (c : Ctx) (w : World) (d : DB) (h : Hyper.t) (z : Zone.t) (r : Resource.t).

Lemma pres_system_loop (I : DB → Prop) hyper id name l i e :
  framed I → (∀ ip, preserves I (db_update (by_id (Hyper.ID hyper)) (λ h, h <| Hyper.RouteIP := ip |>))) →
  preserves I (system_loop hyper id name l i e).
Proof.
  intros HF HR. revert i e. induction l as [|s l IH]; intros i e; simpl.
  - pres.
  - pres; try apply pres_CreateInterface_framed; auto.
Qed.

Lemma pres_SystemRouter (I : DB → Prop) args :
  framed I →
  (∀ k ip, preserves I (db_update (by_id k) (λ h, h <| Hyper.RouteIP := ip |>))) →
  preserves I (SystemRouter args).
Proof.
  intros HF HR. unfold SystemRouter, known_router. pres;
    try (by apply pres_CreateInterface_framed); try (by apply pres_system_loop; auto).
Qed.

(** ** The registry of the reports *)

(** The reports of this component, as doExecute receives them. *)
Definition host_frontbacks : Registry :=
  add_system_router (add_report_rc (add_hyper_status ∅)).

Definition host_registry (f : Registry) : Prop :=
  ∀ (cmd : string) (handler : Handler), f !! cmd = Some handler →
    handler = HyperStatus ∨ handler = ReportRC ∨ handler = SystemRouter.

Lemma host_frontbacks_ok : host_registry host_frontbacks.
Proof.
  intros cmd handler. unfold host_frontbacks, add_system_router, add_report_rc, add_hyper_status, Add.
  intros H.
  repeat (apply (lookup_insert_Some (M := gmap string)) in H as [[<- <-]|[_ H]]; [by auto|]).
  by apply (lookup_empty_Some (M := gmap string)) in H.
Qed.

(** ** Zones *)

(** At most one zone is the default, and the zone of a hypervisor exists. *)
Record zones_ok (d : DB) : Prop := {
  default_unique k1 k2 z1 z2 :
    rows (zones d) !! k1 = Some z1 → rows (zones d) !! k2 = Some z2 →
    Zone.Default z1 = true → Zone.Default z2 = true → k1 = k2;
  hyper_zones k h :
    rows (hypers d) !! k = Some h →
    Hyper.ZoneID h = 0 ∨ is_Some (rows (zones d) !! Hyper.ZoneID h)
}.

(** The same with a zone known to exist, where the key is not blank. *)
Definition ok_zone (k : Z) d : Prop := zones_ok d ∧ (k = 0 ∨ is_Some (rows (zones d) !! k)).

Lemma zones_ok_frame d d' :
  zones d' = zones d → hypers d' = hypers d → zones_ok d → zones_ok d'.
Proof. intros H1 H2 [Hu Hz]. by split; rewrite ?H1, ?H2. Qed.

Lemma ok_zone_frame k d d' :
  zones d' = zones d → hypers d' = hypers d → ok_zone k d → ok_zone k d'.
Proof. intros H1 H2 [Hok Hk]. split; [by apply (zones_ok_frame d)|by rewrite H1]. Qed.

Lemma zones_framed : framed zones_ok.
Proof. by split; intros d t; apply zones_ok_frame. Qed.

(** The zone of a new or changed hypervisor is checked. *)
Lemma zones_hyper_update k p f d :
  keeps_id f → (∀ h, Hyper.ZoneID (f h) = Hyper.ZoneID h ∨ Hyper.ZoneID (f h) = k) →
  ok_zone k d → ok_zone k (d <| hypers := g_update p f (hypers d) |>).
Proof.
  intros Hk Hf [[Hu Hz] Hok]. split; [|done]. split; [exact Hu|].
  intros j h. simpl. rewrite update_lookup by done. intros (x & Hx & ->)%fmap_Some.
  destruct (p x); [|by eapply Hz]. destruct (Hf x) as [->| ->]; [by eapply Hz|done].
Qed.

Lemma zones_hyper_same p f d :
  keeps_id f → (∀ h, Hyper.ZoneID (f h) = Hyper.ZoneID h) →
  zones_ok d → zones_ok (d <| hypers := g_update p f (hypers d) |>).
Proof.
  intros Hk Hf Hd. apply (zones_hyper_update 0); [done|by auto|]. split; [done|by left].
Qed.

Lemma zones_hyper_create h d :
  Hyper.ZoneID h = 0 → zones_ok d → zones_ok (d <| hypers := (g_create h (hypers d)).2 |>).
Proof.
  intros Hh [Hu Hz]. split; [exact Hu|]. destruct (g_create h (hypers d)) as [h' t] eqn:Hc.
  apply create_spec in Hc as (_ & _ & Hh' & Hrows). intros j x. simpl. rewrite Hrows.
  rewrite lookup_insert_Some. intros [[_ <-]|[_ Hx]]; [|by eapply Hz].
  left. rewrite Hh'. by destruct h.
Qed.

Lemma zones_zone_update p f d :
  keeps_id f → (∀ z, Zone.Default (f z) = true → Zone.Default z = true) →
  zones_ok d → zones_ok (d <| zones := g_update p f (zones d) |>).
Proof.
  intros Hk Hf [Hu Hz]. split.
  - intros k1 k2 z1 z2. simpl. rewrite !update_lookup by done.
    intros (x & Hx & ->)%fmap_Some (y & Hy & ->)%fmap_Some H1 H2.
    eapply Hu; [done..| |]; [destruct (p x); auto|destruct (p y); auto].
  - intros k h Hh. simpl in *. rewrite update_lookup by done.
    destruct (Hz k h Hh) as [H0|[x Hx]]; [by left|right]. rewrite Hx. by eexists.
Qed.

(** A new zone, when it is not a default one or there is no other. *)
Lemma zones_zone_create z d z' t :
  (Zone.Default z = true → ∀ k x, rows (zones d) !! k = Some x → Zone.Default x = false) →
  g_create z (zones d) = (z', t) → zones_ok d →
  ok_zone (Zone.ID z') (d <| zones := t |>).
Proof.
  intros Hdef Hc [Hu Hz]. apply create_spec in Hc as (_ & Hnew & Hz' & Hrows).
  assert (Hd : Zone.Default z' = Zone.Default z) by (rewrite Hz'; by destruct z).
  split; [split|].
  - intros k1 k2 z1 z2. simpl. rewrite Hrows, !lookup_insert_Some.
    intros [[<- <-]|[_ H1]] [[<- <-]|[_ H2]] D1 D2; [done| | |by eapply Hu].
    + rewrite Hd in D1. specialize (Hdef D1 _ _ H2). congruence.
    + rewrite Hd in D2. specialize (Hdef D2 _ _ H1). congruence.
  - intros k h Hh. simpl in *. destruct (Hz k h Hh) as [H0|[x Hx]]; [by left|right].
    rewrite Hrows. destruct (decide (Zone.ID z' = Hyper.ZoneID h)) as [E0|E0].
    + rewrite <- E0, lookup_insert_eq. by eexists.
    + rewrite lookup_insert_ne by done. by eexists.
  - right. simpl. rewrite Hrows, lookup_insert_eq. by eexists.
Qed.

Lemma zones_Create name b remark : preserves zones_ok (ZoneAdmin_Create name b remark).
Proof.
  intros c w Hw. unfold ZoneAdmin_Create. apply with_tx_at; [clear Hw; intros Hw|done].
  apply run_bind; [done|]. intros m w1 _ Hw1.
  apply run_bind; [by apply pres_require|]. intros u2 w2 _ Hw2.
  assert (Hunset : zones_ok (set_tbl (g_update Zone.Default
            (λ z, z <| Zone.Default := false |>) (tbl (db w2))) (db w2))).
  { by apply zones_zone_update. }
  destruct b; apply run_bind; [by apply run_wrap, run_update| |done|]; intros u3 w3 H3 Hw3;
    go_ok; apply run_wrap, run_create; try done; intros z t Hc; simpl.
  - eapply zones_zone_create; [|exact Hc|done]. intros _ k x.
    match goal with H : db w3 = _ |- _ => rewrite H end. simpl.
    rewrite update_lookup by done. intros (y & _ & ->)%fmap_Some.
    by destruct (Zone.Default y) eqn:?.
  - by eapply zones_zone_create; [|exact Hc|].
Qed.

Lemma zones_Update_row zone b remark c w :
  rows (zones (db w)) !! Zone.ID zone = Some zone → zones_ok (db w) →
  zones_ok (db (ZoneAdmin_Update zone b remark c w).2).
Proof.
  intros Hz Hw. pose proof (rows_pos _ _ _ Hz) as Hpos.
  unfold ZoneAdmin_Update. apply with_tx_at; [clear Hw; intros Hw|done].
  apply run_bind; [done|]. intros m w1 [_ <-]%GetMemberShip_Ok Hw1.
  apply run_bind; [by apply pres_require|]. intros u2 w2 [_ <-]%require_Ok Hw2.
  set (others := λ z, Zone.Default z && negb (Zone.ID z =? Zone.ID zone)).
  apply run_bind.
  { destruct (b && _); [|done]. apply run_wrap, run_update; [|done]. by apply zones_zone_update. }
  intros u3 w3 H3 Hw3. apply run_bind; [|intros; done].
  apply run_wrap, run_update; [|done].
  assert (Hother : b = true → ∀ k x, rows (zones (db w3)) !! k = Some x →
                     Zone.Default x = true → k = Zone.ID zone).
  { intros -> k x Hx Hd. destruct (Zone.Default zone) eqn:Hdef; simpl in H3; go_ok.
    - by eapply Hw.
    - match goal with H : db w3 = _ |- _ => rewrite H in Hx end. simpl in Hx.
      rewrite update_lookup in Hx by done. apply fmap_Some in Hx as (y & Hy & ->).
      unfold others in Hd. destruct (Zone.Default y) eqn:Hdy; simpl in Hd; [|congruence].
      destruct (Z.eqb_spec (Zone.ID y) (Zone.ID zone)) as [He|]; simpl in Hd; [|done].
      apply rows_id in Hy. simpl in Hy. congruence. }
  destruct Hw3 as [Hu Hh]. split.
  - intros k1 k2 z1 z2. simpl. rewrite !update_lookup by done.
    intros (x & Hx & ->)%fmap_Some (y & Hy & ->)%fmap_Some. unfold by_pk.
    rewrite !pk_nonzero by lia. pose proof (rows_id _ _ _ Hx) as Hxi. pose proof (rows_id _ _ _ Hy) as Hyi.
    destruct (Z.eqb_spec (Zone.ID zone) (get_id x)), (Z.eqb_spec (Zone.ID zone) (get_id y)); simpl.
    + congruence.
    + intros Hb Hd. specialize (Hother Hb _ _ Hy Hd). congruence.
    + intros Hd Hb. specialize (Hother Hb _ _ Hx Hd). congruence.
    + by eapply Hu.
  - intros k h Hk. simpl in *. rewrite update_lookup by done.
    destruct (Hh k h Hk) as [?|[x Hx]]; [by left|right]. rewrite Hx. by eexists.
Qed.

Lemma zones_Delete_row zone c w :
  rows (zones (db w)) !! Zone.ID zone = Some zone → zones_ok (db w) →
  zones_ok (db (ZoneAdmin_Delete zone c w).2).
Proof.
  intros Hz Hw. pose proof (rows_pos _ _ _ Hz) as Hpos.
  unfold ZoneAdmin_Delete. apply with_tx_at; [clear Hw; intros Hw|done].
  apply run_bind; [done|]. intros m w1 [_ <-]%GetMemberShip_Ok Hw1.
  apply run_bind; [by apply pres_require|]. intros u2 w2 [_ <-]%require_Ok Hw2.
  apply run_bind; [by apply pres_db_count|]. intros n w3 (-> & Hd3 & _)%db_count_Ok Hw3.
  apply run_bind; [by apply pres_require|]. intros u4 w4 [Hn <-]%require_Ok Hw4.
  apply run_wrap. unfold db_delete, stmt. destruct (db_fault _); [done|]. simpl.
  rewrite Hd3 in *. pose proof (count_none _ _ Hn) as Hnone. destruct Hw as [Hu Hh]. split.
  - intros k1 k2 z1 z2. simpl. rewrite delete_pk by lia. rewrite !lookup_delete_Some.
    intros [_ ?] [_ ?]. by eapply Hu.
  - intros k h Hk. simpl in *. destruct (Hh k h Hk) as [?|Hx]; [by left|right].
    rewrite delete_pk by lia. rewrite lookup_delete_ne; [done|].
    specialize (Hnone k h Hk). simpl in Hnone. intros E0. rewrite E0, Z.eqb_refl in Hnone. done.
Qed.

Lemma zones_SystemRouter args : preserves zones_ok (SystemRouter args).
Proof.
  apply pres_SystemRouter; [apply zones_framed|]. intros k ip. apply pres_db_update.
  intros d Hd. by apply zones_hyper_same.
Qed.

Lemma zones_Hyper_Updates v : preserves zones_ok (Hyper_Updates v).
Proof.
  unfold Hyper_Updates. pres.
  - apply pres_first_or_create, pres_db_create. intros d n Hd. by apply zones_hyper_create.
  - apply pres_db_update. intros d Hd. by apply zones_hyper_same.
Qed.

Lemma zones_CallbackAgent control command : preserves zones_ok (CallbackAgent control command).
Proof.
  assert (Hl : ∀ k l, preserves zones_ok (agent_loop k l)).
  { intros k l. induction l; simpl; pres. apply zones_Hyper_Updates. }
  unfold CallbackAgent. pres. apply zones_Hyper_Updates.
Qed.

Lemma zones_assign_resource k r : preserves zones_ok (assign_resource k r).
Proof.
  unfold assign_resource. pres.
  - apply pres_db_update. intros d. by apply zones_ok_frame.
  - apply pres_db_create. intros d n. by apply zones_ok_frame.
Qed.

Lemma zones_write_blanks k r : preserves zones_ok (write_blanks k r).
Proof. unfold write_blanks. pres. apply pres_db_update. intros d. by apply zones_ok_frame. Qed.

Lemma zones_ReportRC args : preserves zones_ok (ReportRC args).
Proof. unfold ReportRC. pres; [apply zones_assign_resource|apply zones_write_blanks]. Qed.

(** The zone of a report exists when the hypervisor is written; a blank one has no
    key. *)
Definition zone_kept (z : Zone.t) d : Prop :=
  ok_zone (Zone.ID z) d ∧ (Zone.ID z = 0 → Zone.Default z = false).

Lemma created_zone z0 c w z w' :
  Zone.Default z0 = false → zones_ok (db w) → db_create z0 c w = (Ok z, w') → zone_kept z (db w').
Proof.
  intros H0 Hw (t & Hc & -> & _)%db_create_Ok. split.
  - eapply zones_zone_create; [|exact Hc|done]. simpl. congruence.
  - apply create_spec in Hc as (Hpos & _). simpl in Hpos. lia.
Qed.

Lemma zones_zone_created z0 : Zone.Default z0 = false → preserves zones_ok (db_create z0).
Proof.
  intros H0 c w Hw. apply run_create; [|done]. intros z t Hc.
  by eapply zones_zone_create in Hc as [? _]; [| |done]; [|simpl; congruence].
Qed.

Lemma zones_report_zone name : preserves zones_ok (report_zone name).
Proof.
  unfold report_zone. pres. apply pres_first_or_create. by apply zones_zone_created.
Qed.

Lemma report_zone_kept name c w z w' :
  zones_ok (db w) → report_zone name c w = (Ok z, w') → zone_kept z (db w').
Proof.
  intros Hw. unfold report_zone, first_or_create. destruct (String.eqb name "").
  { intros [<- <-]%ret_Ok. repeat split; try apply Hw. by left. }
  intros (r & w1 & Hr%try_Ok & H)%bind_Ok. destruct r as [x|e].
  - apply ret_Ok in H as [<- <-]. apply db_take_Ok in Hr as (Hx & Hd & _). rewrite Hd.
    apply take_some in Hx as [_ Hx]. split; [split; [done|right; by eexists]|].
    apply rows_pos in Hx. simpl in Hx. lia.
  - assert (Hd : db w1 = db w) by (refine (reads_run _ _ _ _ _ _ Hr); reads_tac).
    destruct e; try done. rewrite <- Hd in Hw. by eapply created_zone; [| |exact H].
Qed.

Lemma zone_hyper_taken k id : preserves (ok_zone k) (take_or_create_hyper id).
Proof.
  unfold take_or_create_hyper. pres. apply pres_db_create. intros d n [Hd Hk].
  split; [by apply zones_hyper_create|done].
Qed.

Lemma zones_HyperStatus args : preserves zones_ok (HyperStatus args).
Proof.
  intros c w Hw. unfold HyperStatus. apply with_tx_at; [clear Hw; intros Hw|done].
  apply run_bind; [by apply pres_require|]. intros u1 w1 _ Hw1.
  apply run_bind; [by apply pres_arg|]. intros a1 w2 _ Hw2.
  apply run_bind; [by apply pres_parse_arg|]. intros id w3 _ Hw3.
  destruct (id <? 0); [done|].
  apply run_bind; [by apply zones_report_zone|]. intros zone w4 H4 _.
  apply report_zone_kept in H4 as [Hz' Hdef]; [|done].
  assert (Hrest : ∀ u v, preserves zones_ok (
    _ ← assign_resource id (reported_resource id args);
    r ← try (write_blanks id (reported_resource id args));
    if String.eqb (Hyper.RouteIP u) "" then
      _ ← SystemRouter [nth 0 args ""; a1; nth 2 args ""]; mret ""
    else match r with inl _ => mret v | inr e => fail e end)).
  { intros u v. pres; [apply zones_assign_resource|apply zones_write_blanks|apply zones_SystemRouter]. }
  pose proof (zone_hyper_taken (Zone.ID zone) id) as Htake. specialize (Htake (c <| dbkey := true |>) w4 Hz').
  apply run_bind; [by destruct Htake|]. intros hyper w5 H5 _. rewrite H5 in Htake. simpl in Htake.
  apply run_bind; [by destruct Htake; apply pres_arg|]. intros cpu w6 [_ <-]%arg_Ok _.
  destruct Htake as [Hok5 Hk5].
  assert (Hupd : ∀ k w0, ok_zone k (db w0) → zones_ok (set_tbl (g_update (hosted id)
            (reported_hyper args cpu k) (tbl (db w0))) (db w0))).
  { intros k w0 H0. eapply (zones_hyper_update k); [done| |done]. intros h. by right. }
  unfold save_zone. destruct (gorm_autosave && _) eqn:Hsave; apply run_bind.
  - apply zones_zone_created; [|done]. apply andb_true_iff in Hsave as [_ Hs]. apply Hdef. lia.
  - intros z w7 H7 _. apply created_zone in H7 as [H7 _]; [| |done].
    2: { apply andb_true_iff in Hsave as [_ Hs]. apply Hdef. lia. }
    destruct H7 as [H7 H7']. apply run_bind; [by apply pres_require|]. intros ? ? [_ <-]%require_Ok _.
    apply run_bind; [apply run_update; [by apply Hupd|done]|].
    intros u8 w8 _ Hw8. by apply Hrest.
  - done.
  - intros z w7 [<- <-]%ret_Ok _. apply run_bind; [by apply pres_require|]. intros ? ? [_ <-]%require_Ok _.
    apply run_bind; [apply run_update; [by apply Hupd|done]|].
    intros u8 w8 _ Hw8. by apply Hrest.
Qed.

Lemma preload_zone_reads h I : preserves I (preload_zone h).
Proof. unfold preload_zone. pres. Qed.

Lemma change_zone_ok hyper h c w h' w' :
  ok_zone (Hyper.ZoneID h) (db w) → change_zone hyper h c w = (Ok h', w') →
  ok_zone (Hyper.ZoneID h') (db w').
Proof.
  intros [Hok Hk]. unfold change_zone, ZoneAdmin_Get. destruct (_ =? _).
  { by intros [<- <-]%ret_Ok. }
  intros H. go_ok. match goal with H : g_take _ _ = Some _ |- _ => apply take_some in H as [_ Hz] end.
  flat. split; [done|right]. simpl. by eexists.
Qed.

Lemma change_zone_reads hyper h I : preserves I (change_zone hyper h).
Proof. unfold change_zone, ZoneAdmin_Get. pres. Qed.

Lemma zones_HyperUpdate hyper : preserves zones_ok (HyperAdmin_Update hyper).
Proof.
  intros c w Hw. unfold HyperAdmin_Update. apply run_bind; [done|]. intros m w1 _ Hw1.
  apply run_bind; [by apply pres_require|]. intros u2 w2 _ Hw2.
  rewrite GetContextDB_eq. apply run_bind.
  { apply run_wrap. apply run_bind; [by apply pres_db_get|]. intros h w3 _ ?. by apply preload_zone_reads. }
  intros h w3 H3 Hw3. assert (Hh : ok_zone (Hyper.ZoneID h) (db w3)).
  { apply wrap_Ok, bind_Ok in H3 as (x & w4 & (Hx & Hd & _)%db_take_Ok & H). unfold preload_zone in H.
    go_ok. apply take_some in Hx as [_ Hx]. flat. split; [done|]. simpl. by eapply Hw3. }
  apply run_bind; [by apply change_zone_reads|]. intros h' w4 H4 Hw4.
  apply change_zone_ok in H4; [|done].
  apply run_bind; [apply run_update; [|done]|].
  - eapply (zones_hyper_update (Hyper.ZoneID h')); [done| |done]. intros x. by right.
  - intros u5 w5 _ Hw5. destruct (hyper_changes hyper h); [|done].
    apply run_bind; [by apply pres_deref|]. intros. by apply pres_HyperExecute.
Qed.

Lemma pres_DeleteInterface_framed (I : DB → Prop) i :
  framed I → (∀ d t, I d → I (d <| subnets := t |>)) → preserves I (DeleteInterface i).
Proof.
  intros [Ha Hi] Hs. unfold DeleteInterface. pres;
    (apply pres_db_delete || apply pres_db_update); intros d Hd; simpl; auto.
Qed.

Lemma zones_UpdateRouteIP hyper ip k : preserves zones_ok (HyperAdmin_UpdateRouteIP hyper ip k).
Proof.
  unfold HyperAdmin_UpdateRouteIP, HyperAdmin_cleanupSystemInterfaces, route_address,
    SubnetAdmin_Get, read_subnet, preload_subnet, AllocateAddress, errorf. pres;
    try (apply pres_DeleteInterface_framed; [apply zones_framed|intros d t; by apply zones_ok_frame]);
    try (apply pres_db_update; intros d; by apply zones_ok_frame);
    try (apply pres_db_create; intros d n; by apply zones_ok_frame).
  apply pres_db_update. intros d. by apply zones_hyper_same.
Qed.

(** ** Requests and reports in sequence *)

Inductive host_op :=
  | CreateZone (name : string) (isDefault : bool) (remark : string)
  | UpdateZone (id : Z) (isDefault : bool) (remark : string)
  | DeleteZone (id : Z)
  | PatchHyper (hostid : Z) (payload : HyperPatchPayload)
  | SetHyperStatus (hostid status : Z)
  | HostReport (id : Z) (command control : string).

Definition run_host_op (frontbacks : Registry) (o : host_op) : M unit :=
  match o with
  | CreateZone name isDefault remark => _ ← ZoneAdmin_Create name isDefault remark; mret tt
  | UpdateZone id isDefault remark =>
      zone ← ZoneAdmin_Get id; _ ← ZoneAdmin_Update zone isDefault remark; mret tt
  | DeleteZone id => zone ← ZoneAdmin_Get id; ZoneAdmin_Delete zone
  | PatchHyper hostid payload => _ ← HyperAPI_Patch hostid payload; mret tt
  | SetHyperStatus hostid status => HyperAdmin_SetStatus hostid status
  | HostReport id command control => _ ← doExecute frontbacks id command control; mret tt
  end.

Fixpoint serve_hosts (frontbacks : Registry) (l : list (Ctx * host_op)) (w : World) : World :=
  match l with
  | [] => w
  | (c, o) :: l => serve_hosts frontbacks l (run_host_op frontbacks o c w).2
  end.

Lemma zones_executeLine f line : host_registry f → preserves zones_ok (executeLine f line).
Proof.
  intros Hf. unfold executeLine. destruct (DecodeCommand line) as [[cmd args]|]; [|pres].
  destruct (String.eqb cmd ""); [pres|]. unfold dispatchExecute, Get.
  destruct (f !! cmd) as [handler|] eqn:Hx; [|pres].
  destruct (Hf _ _ Hx) as [->|[->| ->]].
  - apply zones_HyperStatus.
  - apply zones_ReportRC.
  - apply zones_SystemRouter.
Qed.

Lemma GetHyper_reads k I : preserves I (HyperAdmin_GetHyperByHostid k).
Proof.
  unfold HyperAdmin_GetHyperByHostid. pres. apply preload_zone_reads.
Qed.

Lemma ZoneGet_reads k I : preserves I (ZoneAdmin_Get k).
Proof. unfold ZoneAdmin_Get. pres. Qed.

Lemma ZoneGet_row k c w z w' :
  ZoneAdmin_Get k c w = (Ok z, w') → rows (zones (db w')) !! Zone.ID z = Some z.
Proof.
  unfold ZoneAdmin_Get. intros H. go_ok.
  match goal with H : g_take _ _ = Some _ |- _ => apply take_some in H as [_ Hz] end. by flat.
Qed.

Lemma zones_run_op f o : host_registry f → preserves zones_ok (run_host_op f o).
Proof.
  intros Hf. destruct o; simpl.
  - pres. apply zones_Create.
  - intros c w Hw. apply run_bind; [by apply ZoneGet_reads|].
    intros zone w1 H1 Hw1. apply ZoneGet_row in H1.
    apply run_bind; [by apply zones_Update_row|]. by intros.
  - intros c w Hw. apply run_bind; [by apply ZoneGet_reads|].
    intros zone w1 H1 Hw1. apply ZoneGet_row in H1.
    by apply zones_Delete_row.
  - unfold HyperAPI_Patch, SubnetAdmin_GetSubnet, SubnetAdmin_GetSubnetByUUID,
      SubnetAdmin_GetSubnetByName, read_subnet, preload_subnet. pres;
      try apply GetHyper_reads; try apply zones_HyperUpdate; try apply zones_UpdateRouteIP.
  - unfold HyperAdmin_SetStatus. pres; [apply GetHyper_reads|apply zones_HyperUpdate].
  - unfold doExecute. pres; try apply zones_CallbackAgent;
      apply pres_with_ctx, zones_executeLine; done.
Qed.

(** C30. Whatever administrators request of zones and hypervisors and whatever
    hypervisors and agents report, in any order and whatever fails on the way, at
    most one zone is the default one, and the zone of every hypervisor exists, unless it
    has none (its zone is 0). *)
Theorem zones_invariant frontbacks l w :
  host_registry frontbacks → zones_ok (db w) → zones_ok (db (serve_hosts frontbacks l w)).
Proof.
  intros Hf. revert w. induction l as [|[c o] l IH]; intros w Hw; simpl; [done|].
  by apply IH, zones_run_op.
Qed.

End system.
