(* ===== verification/HyperReports.v ===== *)
(** * HyperReports: what a report of a hypervisor leaves in the database

    The resources and the hypervisor a report records, the hypervisors a command may
    be sent to, and a report that is lost. *)

From S2P Require Import Prelude GoLib Net ErrorCodes Gorm Model Store Scenario Member Catalog Volume Commands VolumeRpc Dispatch Admin Ipam NetInfo Secgroup IpGroup Subnet Hyper HyperSystem.

Section reports.
Context {G : Gorm} {E : Env} {GOk : GormOk G}.
Implicit Types (c : Ctx) (w : World) (d : DB).

(** ** Resources *)

(** The row a report leaves: the free resources are the reported ones, a total of 0
    leaves the one that was known. *)
Definition resource_after (old v : Resource.t) : Resource.t := v
  <| Resource.ID := Resource.ID old |>
  <| Resource.CpuTotal := keep_Z (Resource.CpuTotal v) (Resource.CpuTotal old) |>
  <| Resource.MemoryTotal := keep_Z (Resource.MemoryTotal v) (Resource.MemoryTotal old) |>
  <| Resource.DiskTotal := keep_Z (Resource.DiskTotal v) (Resource.DiskTotal old) |>.

(** A host has one row of resources. *)
Definition hosts_unique (m : gmap Z Resource.t) : Prop :=
  ∀ j1 j2 x1 x2, m !! j1 = Some x1 → m !! j2 = Some x2 →
    Resource.Hostid x1 = Resource.Hostid x2 → j1 = j2.

(** The row the report is about, a blank one under a new key when there is none. *)
Definition old_row (id : Z) (m : gmap Z Resource.t) (k : Z) (old : Resource.t) : Prop :=
  (m !! k = Some old ∧ Resource.Hostid old = id) ∨
  (m !! k = None ∧ old = Resource.zero <| Resource.ID := k |> ∧
   ∀ j x, m !! j = Some x → Resource.Hostid x ≠ id).

Definition any_blank (v : Resource.t) : bool :=
  (Resource.Cpu v =? 0) || (Resource.Memory v =? 0) || (Resource.Disk v =? 0).

Lemma keep_nonzero x y : (x =? 0) = false → keep_Z x y = x.
Proof. unfold keep_Z. by intros ->. Qed.

Lemma keep_zero x : keep_Z x 0 = x.
Proof. unfold keep_Z. by destruct (Z.eqb_spec x 0) as [->|]. Qed.

Lemma keep_same x : keep_Z x x = x.
Proof. unfold keep_Z. by destruct (x =? 0). Qed.

(** [assign_resource]: the columns that are not blank. *)
Lemma assign_resource_runs id v c w :
  no_faults → Resource.Hostid v = id → hosts_unique (rows (resources (db w))) →
  ∃ k old w', assign_resource id v c w = (Ok tt, w') ∧ sent w' = sent w ∧
    (∃ t, db w' = db w <| resources := t |> ∧
          rows t = <[k := resource_values v old]> (rows (resources (db w)))) ∧
    Resource.ID old = k ∧ old_row id (rows (resources (db w))) k old.
Proof.
  intros Hn Hv Hu. unfold assign_resource.
  destruct (g_take (resource_of id) (resources (db w))) as [x|] eqn:Hx.
  - apply take_some in Hx as [Hid Hx]. apply Z.eqb_eq in Hid. pose proof (rows_pos _ _ _ Hx) as Hpos.
    destruct (take_unique (resource_of id) x (Resource.ID x) c w) as (w1 & Ht & Hd1 & Hs1); try done.
    { by apply Z.eqb_eq. }
    { intros j y Hy Hyid%Z.eqb_eq. simpl in Hy, Hx. rewrite <- Hid in Hyid.
      pose proof (Hu _ _ _ _ Hy Hx Hyid) as ->. congruence. }
    destruct (update_runs (by_pk (Resource.ID x)) (resource_values v) c w1 Hn) as (w2 & Hup & Hd2 & Hs2).
    exists (Resource.ID x), x, w2.
    unfold mbind, M_bind, try. rewrite Ht. simpl. rewrite Hup.
    split; [done|]. split; [by rewrite Hs2|]. split; [|by split; [|left]].
    eexists. split; [by rewrite Hd2, Hd1|]. tables. simpl in Hpos. by apply update_pk; [lia|..].
  - destruct (take_nothing (resource_of id) c w) as (w1 & Ht & Hd1 & Hs1); [done|by apply take_none|].
    destruct (create_runs v c w1 Hn) as (y & t & w2 & Hc & Hs2 & Hd2 & Hg).
    unfold mbind, M_bind, try. rewrite Ht. simpl. rewrite Hc. simpl.
    apply create_spec in Hg as (_ & Hnew & Hy & Hrows). tables. rewrite Hd1 in *.
    exists (Resource.ID y), (Resource.zero <| Resource.ID := Resource.ID y |>), w2.
    split; [done|]. split; [by rewrite Hs2|]. split; [|split; [done|]].
    + exists t. split; [done|]. rewrite Hrows. f_equal. rewrite Hy. destruct v. simpl.
      unfold resource_values. simpl. by rewrite !keep_zero.
    + right. split; [done|]. split; [done|]. intros j x Hj Hjid.
      pose proof (take_none _ _ Hx _ _ Hj) as Hf. unfold resource_of in Hf. lia.
Qed.

(** The second statement completes the row. *)
Lemma write_blanks_runs id v k old c w m :
  no_faults → Resource.Hostid v = id → hosts_unique m → old_row id m k old →
  Resource.ID old = k → rows (resources (db w)) = <[k := resource_values v old]> m →
  ∃ w', write_blanks id v c w = (Ok tt, w') ∧ sent w' = sent w ∧
    ∃ t, db w' = db w <| resources := t |> ∧ rows t = <[k := resource_after old v]> m.
Proof.
  intros Hn Hv Hu Hold Hk Hm. unfold write_blanks.
  assert (Hhost : keep_Z (Resource.Hostid v) (Resource.Hostid old) = id).
  { destruct Hold as [[_ <-]|(_ & -> & _)]; rewrite Hv; [apply keep_same|apply keep_zero]. }
  fold (any_blank v). destruct (any_blank v) eqn:Hb.
  - destruct (update_runs (resource_of id) (λ r, r <| Resource.Cpu := Resource.Cpu v |>
      <| Resource.Memory := Resource.Memory v |> <| Resource.Disk := Resource.Disk v |>) c w Hn)
      as (w' & Hup & Hd & Hs).
    exists w'. split; [done|]. split; [done|]. eexists. split; [by rewrite Hd|].
    rewrite (update_one _ _ _ k (resource_values v old)); tables; try done.
    + rewrite Hm, insert_insert_eq. f_equal. unfold resource_after. destruct v, old.
      unfold resource_values. simpl in *. by rewrite Hhost, Hv, Hk.
    + by rewrite Hm, lookup_insert_eq.
    + unfold resource_of. simpl. by rewrite Hhost, Z.eqb_refl.
    + intros j y. rewrite Hm, lookup_insert_Some. intros [[<- _]|[Hne Hy]]; [done|].
      unfold resource_of. rewrite Z.eqb_eq. intros Hyid.
      destruct Hold as [[Ho Hoid]|(_ & _ & Hnone)]; [|by apply Hnone in Hy].
      eapply Hu; [done..|congruence].
  - exists w. split; [done|]. split; [done|]. exists (resources (db w)).
    split; [by destruct (db w)|]. rewrite Hm. f_equal. unfold any_blank in Hb.
    apply orb_false_iff in Hb as [Hb H3]. apply orb_false_iff in Hb as [H1 H2].
    unfold resource_after. destruct v, old. unfold resource_values. simpl in *.
    by rewrite Hhost, Hv, Hk, (keep_nonzero _ _ H1), (keep_nonzero _ _ H2), (keep_nonzero _ _ H3).
Qed.

(** ** The report report_rc *)

Lemma rc_words_host r l v : rc_words r l = Some v → Resource.Hostid v = Resource.Hostid r.
Proof.
  revert r. induction l as [|x l IH]; intros r; simpl; [by intros; simplify_eq|].
  destruct (rc_word r x) as [r1|] eqn:Hx; [|done]. intros ->%IH.
  unfold rc_word in Hx. by repeat case_match; simplify_eq.
Qed.

(** A resource report is recorded: the row of its host has the free processors,
    memory and disk it says, also when they are 0, and its totals where they are not
    0; no other row changes and nothing is posted.  A report with a word that is not
    of the form key=free/total changes nothing; it is refused when the last total
    before that word is not a number. *)
Theorem resource_report_recorded name words id c w :
  no_faults → hostkey c = Some id → (3 ≤ length words)%nat →
  hosts_unique (rows (resources (db w))) →
  match rc_words (Resource.zero <| Resource.Hostid := id |>) words with
  | Some v =>
      ∃ k old t w', ReportRC (name :: words) c w = (Ok "", w') ∧
        old_row id (rows (resources (db w))) k old ∧ Resource.ID old = k ∧
        db w' = db w <| resources := t |> ∧
        rows t = <[k := resource_after old v]> (rows (resources (db w))) ∧ sent w' = sent w
  | None => ReportRC (name :: words) c w =
      (match rc_error None words with Some e => Err e | None => Ok "" end, w)
  end.
Proof.
  intros Hn Hid Hl Hu. unfold ReportRC.
  assert (Hlen : negb (length (name :: words) <? 4)%nat = true).
  { apply negb_true_iff, Nat.ltb_ge. simpl. lia. }
  rewrite Hlen. set (c1 := c <| dbkey := true |>).
  assert (Hctx : ctx_hostid c1 w = (Ok id, w)) by (unfold ctx_hostid; simpl; by rewrite Hid).
  destruct (rc_words _ words) as [v|] eqn:Hv.
  - assert (Hvid : Resource.Hostid v = id) by by eapply rc_words_host in Hv.
    destruct (assign_resource_runs id v c1 w Hn Hvid Hu)
      as (k & old & w1 & H1 & Hs1 & (t1 & Hd1 & Ht1) & Hk & Hold).
    destruct (write_blanks_runs id v k old c1 w1 _ Hn Hvid Hu Hold Hk) as (w2 & H2 & Hs2 & t2 & Hd2 & Ht2).
    { by rewrite Hd1. }
    exists k, old, t2, w2. split; [|rewrite Hd2, Hd1, Hs2; done].
    apply with_tx_Ok. fold c1. simpl. unfold mbind, M_bind, require. simpl. rewrite Hctx, Hv. 
    by rewrite H1, H2.
  - destruct (rc_error None words) as [e|] eqn:He.
    + unfold with_tx. destruct (dbkey c) eqn:Hk; fold c1;
        [assert (Hc : c = c1) by (unfold c1; destruct c; simpl in *; by subst);
         rewrite Hc; clear Hc|];
        unfold mbind, M_bind, require; simpl; rewrite Hctx, Hv, He; by destruct w.
    + apply with_tx_Ok. fold c1. unfold mbind, M_bind, require. simpl. by rewrite Hctx, Hv, He.
Qed.

(** ** The report hyper_status *)

Lemma take_runs {R} {HR : Row R} {HD : InDB R} (p : R → bool) c w :
  no_faults →
  ∃ w', db_take p c w = (match g_take p (tbl (db w)) with
                         | Some x => Ok x
                         | None => Err RecordNotFound
                         end, w') ∧ db w' = db w ∧ sent w' = sent w.
Proof.
  intros Hn. unfold db_take, mbind, M_bind. rewrite stmt_runs by done. cbn.
  destruct (g_take p (tbl (db w))); by eexists.
Qed.

(** The zone of a report: one of that name that is known, or a new one, which is the
    only row that is added. *)
Definition zone_named (name : string) (m : gmap Z Zone.t) (z : Zone.t) (m' : gmap Z Zone.t) : Prop :=
  (m !! Zone.ID z = Some z ∧ Zone.Name z = name ∧ m' = m) ∨
  ((∀ k x, m !! k = Some x → Zone.Name x ≠ name) ∧ m !! Zone.ID z = None ∧
   z = Zone.mk (Zone.ID z) name "" false ∧ m' = <[Zone.ID z := z]> m).

Lemma report_zone_runs name c w :
  no_faults → name ≠ "" →
  ∃ z t w', report_zone name c w = (Ok z, w') ∧ sent w' = sent w ∧
    db w' = db w <| zones := t |> ∧ Zone.ID z ≠ 0 ∧
    zone_named name (rows (zones (db w))) z (rows t).
Proof.
  intros Hn Hname. unfold report_zone. rewrite (proj2 (String.eqb_neq _ _) Hname).
  unfold first_or_create.
  destruct (take_runs (λ z, String.eqb (Zone.Name z) name) c w Hn) as (w1 & Ht & Hd & Hs). tables.
  destruct (g_take _ (zones (db w))) as [z|] eqn:Hz; unfold mbind, M_bind, try; rewrite Ht.
  - apply take_some in Hz as [Hp Hz]. apply String.eqb_eq in Hp. pose proof (rows_pos _ _ _ Hz) as Hpos.
    exists z, (zones (db w)), w1. simpl in *. split_and!; try done; [|lia|by left].
    rewrite Hd. by destruct (db w).
  - destruct (create_runs (Zone.zero <| Zone.Name := name |>) c w1 Hn) as (z & t & w2 & Hc & Hs2 & Hd2 & Hg).
    tables. rewrite Hd in *. apply create_spec in Hg as (Hpos & Hnew & Hz' & Hrows).
    exists z, t, w2. simpl in *. split_and!; try done; [by rewrite Hs2|lia|].
    right. split_and!; try done. intros k x Hx He.
    pose proof (take_none _ _ Hz _ _ Hx) as Hf. simpl in Hf. by rewrite He, String.eqb_refl in Hf.
Qed.

(** A number of a report; a word that is not one counts as [dflt]. *)
Definition word_number (args : list string) (k : nat) (dflt : Z) : Z :=
  match Atoi (nth k args "") with Some x => x | None => dflt end.

(** A total of 0 leaves the one that was known. *)
Definition known_total (old new : Z) : Z := if new =? 0 then old else new.

(** C29. A status report of a hypervisor that is known and has a route address is
    recorded.  The row of the hypervisor gets the host name, processor model, address
    and zone of the report, the virtualization type kvm-x86_64, and the status of the
    report or 1 when it is not a number; its other columns stay.  The zone is one of the
    reported name; when there is none, exactly one zone is added, which is not the
    default.  The row of the host's resources, a new one when there is none, gets the
    reported free processors, memory and disk, also when they are 0 or unreadable (then
    0), and the reported totals, where a total of 0 leaves the known one.  No other row
    of the database changes and nothing is posted.  Assumed: no statement of the
    database fails, the host number is a non-negative 32-bit number that one hypervisor
    row and at most one resource row have, the status fits its 32-bit column, the
    report names a zone and has the processor model. *)
Theorem hyper_report_recorded args a1 id hk h zoneName cpuModel c w :
  no_faults → (15 ≤ length args)%nat → args !! 1%nat = Some a1 → ParseInt 64 a1 = Some id →
  0 ≤ id → fits 32 id = true → args !! 15%nat = Some cpuModel → nth 11 args "" = zoneName → zoneName ≠ "" →
  fits 32 (word_number args 9 1) = true →
  rows (hypers (db w)) !! hk = Some h → Hyper.Hostid h = id → Hyper.RouteIP h ≠ "" →
  (∀ j x, rows (hypers (db w)) !! j = Some x → Hyper.Hostid x = id → j = hk) →
  hosts_unique (rows (resources (db w))) →
  ∃ z k old tz th tr w', HyperStatus args c w = (Ok "", w') ∧ sent w' = sent w ∧
    db w' = db w <| zones := tz |> <| hypers := th |> <| resources := tr |> ∧
    zone_named zoneName (rows (zones (db w))) z (rows tz) ∧
    rows th = <[hk := h <| Hyper.Hostname := nth 2 args "" |>
                        <| Hyper.Status := word_number args 9 1 |>
                        <| Hyper.CpuModel := cpuModel |> <| Hyper.VirtType := "kvm-x86_64" |>
                        <| Hyper.ZoneID := Zone.ID z |>
                        <| Hyper.HostIP := nth 10 args "" |>]> (rows (hypers (db w))) ∧
    old_row id (rows (resources (db w))) k old ∧
    rows tr = <[k := Resource.mk k id
                  (word_number args 3 0) (known_total (Resource.CpuTotal old) (word_number args 4 0))
                  (word_number args 5 0) (known_total (Resource.MemoryTotal old) (word_number args 6 0))
                  (word_number args 7 0) (known_total (Resource.DiskTotal old) (word_number args 8 0))]>
                (rows (resources (db w))).
Proof.
  intros Hn Hlen H1 Hid Hpos Hfit H15 Hzn Hz Hst Hh Hhost Hroute Huniq Hres.
  change (fits 32 (reported_status args) = true) in Hst.
  set (c1 := c <| dbkey := true |>).
  destruct (report_zone_runs zoneName c1 w Hn Hz) as (z & tz & w1 & R1 & S1 & D1 & Z0 & Hzone).
  assert (Hh1 : rows (hypers (db w1)) !! hk = Some h) by by rewrite D1.
  destruct (take_unique (HD := in_hypers) (hosted id) h hk c1 w1 Hn Hh1) as (w2 & R2 & D2 & S2).
  { by apply Z.eqb_eq. }
  { intros j x Hx Hxid%Z.eqb_eq. tables. rewrite D1 in Hx. simpl in Hx.
    pose proof (Huniq _ _ Hx Hxid) as ->. congruence. }
  destruct (update_runs (hosted id) (reported_hyper args cpuModel (Zone.ID z)) c1 w2 Hn)
    as (w3 & R3 & D3 & S3).
  assert (Hvid : Resource.Hostid (reported_resource id args) = id) by by apply int32_id.
  assert (Hres3 : resources (db w3) = resources (db w)) by by rewrite D3, D2, D1.
  destruct (assign_resource_runs id (reported_resource id args) c1 w3 Hn Hvid)
    as (k & old & w4 & R4 & S4 & (t4 & D4 & Ht4) & Hk & Hold); [by rewrite Hres3|].
  rewrite Hres3 in *.
  destruct (write_blanks_runs id (reported_resource id args) k old c1 w4 _ Hn Hvid Hres Hold Hk)
    as (w5 & R5 & S5 & t5 & D5 & Ht5); [by rewrite D4|].
  exists z, k, old, tz, (g_update (hosted id) (reported_hyper args cpuModel (Zone.ID z)) (hypers (db w))), t5, w5.
  split; [|split; [congruence|]].
  - apply with_tx_Ok. fold c1. unfold mbind, M_bind.
    rewrite (proj2 (negb_true_iff _)) by (apply Nat.ltb_ge; lia). simpl.
    unfold arg at 1. rewrite H1. simpl. unfold parse_arg. rewrite Hid. simpl.
    rewrite (proj2 (Z.ltb_ge _ _)) by done. rewrite Hzn, R1.
    unfold take_or_create_hyper, mbind, M_bind, try. rewrite R2. simpl.
    unfold arg. rewrite H15. simpl. unfold save_zone.
    rewrite (proj2 (Z.eqb_neq _ _) Z0), andb_false_r. simpl. unfold require. rewrite Hst. simpl. rewrite R3, R4, R5.
    by rewrite (proj2 (String.eqb_neq _ _) Hroute).
  - split; [by rewrite D5, D4, D3, D2, D1|]. split; [done|]. split; [|split; [done|]].
    + rewrite (update_one _ _ _ hk h); [done..| |].
      * by apply Z.eqb_eq.
      * intros j x Hx Hxid%Z.eqb_eq. by eapply Huniq.
    + rewrite Ht5. f_equal. unfold resource_after, reported_resource in *. simpl in *. by rewrite Hvid, Hk.
Qed.

(** ** A report that is lost *)

(** No subnet of the list has an address to give. *)
Definition exhausted (l : list Subnet.t) d : Prop :=
  ∀ s j a, s ∈ l → rows (addresses d) !! j = Some a → candidate s "" a = false.

Lemma CreateInterface_exhausted s owner id ib ob h name ty sgs spoof c w :
  no_faults → (∀ n, rand_read n ≠ None) →
  (∀ j a, rows (addresses (db w)) !! j = Some a → candidate s "" a = false) →
  ∃ w', CreateInterface s id owner h ib ob "" "" name ty sgs spoof c w
          = (Err (GoError "Failed to allocate address"), w') ∧
        addresses (db w') = addresses (db w).
Proof.
  intros Hn Hr Hno. unfold CreateInterface. rewrite GetContextDB_eq. simpl.
  unfold mbind, M_bind, GenerateMacaddr. destruct (rand_read (clock w)) as [[[[b0 b1] b2] b3]|] eqn:Hb;
    [|by apply Hr in Hb]. set (c1 := c <| dbkey := true |>).
  match goal with |- context [db_create ?i c1 ?w1] =>
    destruct (create_runs i c1 w1 Hn) as (iface & t & w2 & Hc & _ & Hd & _) end. rewrite Hc.
  unfold try, AllocateAddress. rewrite GetContextDB_eq. unfold mbind, M_bind, db_take_by.
  unfold mbind, M_bind. rewrite stmt_runs by done. cbn -[db_delete].
  assert (Ha : addresses (db w2) = addresses (db w)) by (by rewrite Hd).
  destruct (g_take_by _ _ _) as [a|] eqn:Hg.
  { apply take_by_some in Hg as [Hp Hrow]. tables. rewrite Ha in Hrow. by rewrite (Hno _ _ Hrow) in Hp. }
  cbn -[db_delete]. unfold db_delete. rewrite stmt_runs by done. eexists. split; [reflexivity|].
  simpl. rewrite Ha. done.
Qed.

Lemma system_loop_exhausted hyper id name l c w e :
  no_faults → (∀ n, rand_read n ≠ None) → exhausted l (db w) → (l ≠ [] ∨ e ≠ None) →
  ∃ e' w', system_loop hyper id name l None e c w = (Err e', w').
Proof.
  intros Hn Hr. revert e w. induction l as [|s l IH]; intros e w Hex Hne; simpl.
  - destruct e as [e|]; [by do 2 eexists|by destruct Hne].
  - destruct (CreateInterface_exhausted s 0 0 0 0 (int32 id) name "system" [] false c w Hn Hr)
      as (w1 & Hc & Ha).
    { intros j a Ha. eapply Hex; [apply list_elem_of_here|done]. }
    unfold mbind, M_bind, try. rewrite Hc. apply IH; [|by right].
    intros x j a Hx. rewrite Ha. apply Hex. by apply list_elem_of_further.
Qed.

(** [SystemRouter] fails for a hypervisor that has no address and gets none. *)
Lemma SystemRouter_exhausted a0 a1 name id k h c w :
  no_faults → (∀ n, rand_read n ≠ None) → ParseInt 64 a1 = Some id → 0 ≤ id →
  rows (hypers (db w)) !! k = Some h → Hyper.Hostid h = id → Hyper.Hostname h = name →
  Hyper.RouteIP h = "" →
  (∀ j x, rows (hypers (db w)) !! j = Some x → Hyper.Hostid x = id → j = k) →
  (∃ j s, rows (subnets (db w)) !! j = Some s ∧ Subnet.Type_ s = "public") →
  (∀ j s, rows (subnets (db w)) !! j = Some s → Subnet.Type_ s = "public" → exhausted [s] (db w)) →
  ∃ e w', SystemRouter [a0; a1; name] c w = (Err e, w').
Proof.
  intros Hn Hr Ha1 Hpos Hh Hid Hname Hroute Hu (j & s & Hs & Hpub) Hex.
  unfold SystemRouter. set (c1 := c <| dbkey := true |>).
  destruct (take_unique (HD := in_hypers) (hosted id) h k c1 w Hn Hh) as (w1 & Ht & Hd1 & _).
  { by apply Z.eqb_eq. }
  { intros i x Hx Hxid%Z.eqb_eq. pose proof (Hu _ _ Hx Hxid) as ->. tables. congruence. }
  set (p := λ s, String.eqb (Subnet.Type_ s) "public").
  assert (Hf : ∃ w2, db_find p c1 w1 = (Ok (g_find p (subnets (db w))), w2) ∧ db w2 = db w).
  { unfold db_find. rewrite stmt_runs by done. tables. rewrite Hd1. eexists. split; [reflexivity|]. done. }
  destruct Hf as (w2 & Hf & Hd2).
  destruct (system_loop_exhausted h id name (g_find p (subnets (db w))) c1 w2 None Hn Hr) as (e & w3 & Hl).
  { rewrite Hd2. intros x i a Hx. apply find_spec in Hx as [Hp Hx]. apply String.eqb_eq in Hp.
    intros. eapply Hex; [done..|apply list_elem_of_here|done]. }
  { left. intros Hnil. eapply (proj1 (find_nil _ _)) in Hnil; [|exact Hs].
    unfold p in Hnil. by rewrite Hpub in Hnil. }
  assert (Hbody : ∃ e w', (SystemRouter [a0; a1; name]) c1 w = (Err e, w')).
  { exists e, w3. unfold SystemRouter. rewrite with_tx_nested by done.
    unfold mbind, M_bind. simpl. unfold parse_arg. rewrite Ha1. simpl.
    rewrite (proj2 (Z.ltb_ge _ _)) by done. unfold arg. simpl. rewrite Ht, Hname, String.eqb_refl. simpl.
    fold p. rewrite Hf, Hroute. simpl. by rewrite Hl. }
  destruct Hbody as (e1 & w4 & Hb). unfold SystemRouter in Hb. rewrite with_tx_nested in Hb by done.
  destruct (with_tx_run _ c w (Err e1) w4 Hb) as (w5 & H5 & _). by exists e1, w5.
Qed.

(** A hypervisor that is new gets a row without a route address. *)
Lemma new_hyper_runs id c w :
  no_faults → fits 32 id = true →
  (∀ j x, rows (hypers (db w)) !! j = Some x → Hyper.Hostid x ≠ id) →
  ∃ h t w', take_or_create_hyper id c w = (Ok h, w') ∧ db w' = db w <| hypers := t |> ∧
    rows t = <[Hyper.ID h := h]> (rows (hypers (db w))) ∧ Hyper.Hostid h = id ∧ Hyper.RouteIP h = "".
Proof.
  intros Hn Hfit Hno. unfold take_or_create_hyper.
  destruct (take_nothing (hosted id) c w Hn) as (w1 & Ht & Hd1 & _).
  { intros j x Hx. apply Z.eqb_neq. by eapply Hno. }
  destruct (create_runs (Hyper.zero <| Hyper.Hostid := int32 id |>) c w1 Hn)
    as (h & t & w2 & Hc & _ & Hd2 & (_ & _ & Hh & Hrows)%create_spec).
  exists h, t, w2. unfold mbind, M_bind, try. rewrite Ht, Hc. tables. rewrite Hd1 in *.
  split_and!; try done; rewrite Hh; simpl; [by apply int32_id|done].
Qed.

(** While no public subnet has a free address, the status report of a new
    hypervisor is lost: it ends in an error and the database is as it was, so that
    the hypervisor is not registered. *)
Theorem hyper_report_lost args a0 a1 id cpuModel c w :
  no_faults → (∀ n, rand_read n ≠ None) → dbkey c = false →
  (15 ≤ length args)%nat → args !! 0%nat = Some a0 → args !! 1%nat = Some a1 →
  ParseInt 64 a1 = Some id → 0 ≤ id → fits 32 id = true → args !! 15%nat = Some cpuModel →
  nth 11 args "" ≠ "" → fits 32 (reported_status args) = true → hosts_unique (rows (resources (db w))) →
  (∀ j x, rows (hypers (db w)) !! j = Some x → Hyper.Hostid x ≠ id) →
  (∃ j s, rows (subnets (db w)) !! j = Some s ∧ Subnet.Type_ s = "public") →
  (∀ j s, rows (subnets (db w)) !! j = Some s → Subnet.Type_ s = "public" → exhausted [s] (db w)) →
  ∃ e w', HyperStatus args c w = (Err e, w') ∧ db w' = db w.
Proof.
  intros Hn Hr Hc Hlen H0 H1 Hid Hpos Hfit H15 Hz Hst Hres Hno Hpub Hex.
  set (c1 := c <| dbkey := true |>).
  destruct (report_zone_runs _ c1 w Hn Hz) as (z & tz & w1 & R1 & _ & D1 & Z0 & _).
  destruct (new_hyper_runs id c1 w1 Hn Hfit) as (h & th & w2 & R2 & D2 & Hth & Hhost & Hroute).
  { by rewrite D1. }
  destruct (update_runs (hosted id) (reported_hyper args cpuModel (Zone.ID z)) c1 w2 Hn)
    as (w3 & R3 & D3 & _).
  assert (Hvid : Resource.Hostid (reported_resource id args) = id) by by apply int32_id.
  assert (Hres3 : resources (db w3) = resources (db w)) by by rewrite D3, D2, D1.
  destruct (assign_resource_runs id (reported_resource id args) c1 w3 Hn Hvid)
    as (k & old & w4 & R4 & _ & (t4 & D4 & Ht4) & Hk & Hold); [by rewrite Hres3|].
  rewrite Hres3 in *.
  destruct (write_blanks_runs id (reported_resource id args) k old c1 w4 _ Hn Hvid Hres Hold Hk)
    as (w5 & R5 & _ & t5 & D5 & _); [by rewrite D4|].
  assert (Hh5 : hypers (db w5) = g_update (hosted id) (reported_hyper args cpuModel (Zone.ID z)) th).
  { by rewrite D5, D4, D3, D2. }
  assert (Hold5 : ∀ j x, rows (hypers (db w5)) !! j = Some x → Hyper.Hostid x = id → j = Hyper.ID h).
  { intros j x. rewrite Hh5, update_lookup by done. intros (y & Hy & ->)%fmap_Some.
    rewrite Hth, lookup_insert_Some in Hy. destruct Hy as [[<- _]|[_ Hy]]; [done|].
    rewrite D1 in Hy. specialize (Hno j y Hy).
    unfold hosted. rewrite (proj2 (Z.eqb_neq _ _) Hno). done. }
  destruct (SystemRouter_exhausted a0 a1 (nth 2 args "") id (Hyper.ID h)
    (reported_hyper args cpuModel (Zone.ID z) h) c1 w5 Hn Hr Hid Hpos) as (e & w6 & R6); try done.
  { rewrite Hh5, update_lookup by done. rewrite Hth, lookup_insert_eq. simpl.
    unfold hosted. by rewrite Hhost, Z.eqb_refl. }
  1-2: by rewrite D5, D4, D3, D2, D1.
  assert (Hbody : HyperStatus args c1 w = (Err e, w6)).
  { unfold HyperStatus. rewrite with_tx_nested by done. unfold mbind, M_bind.
    rewrite (proj2 (negb_true_iff _)) by (apply Nat.ltb_ge; lia). simpl.
    unfold arg at 1. rewrite H1. simpl. unfold parse_arg. rewrite Hid. simpl.
    rewrite (proj2 (Z.ltb_ge _ _)) by done. rewrite R1, R2.
    unfold arg. rewrite H15. simpl. unfold save_zone.
    rewrite (proj2 (Z.eqb_neq _ _) Z0), andb_false_r. simpl. unfold require. rewrite Hst. simpl. rewrite R3, R4. unfold try. rewrite R5.
    rewrite Hroute. simpl. rewrite (nth_lookup_Some _ _ _ _ H0), R6. done. }
  unfold HyperStatus in Hbody. rewrite with_tx_nested in Hbody by done.
  destruct (with_tx_run _ c w (Err e) w6 Hbody) as (w7 & H7 & _ & Hd7).
  exists e, w7. split; [done|]. by rewrite Hd7, Hc.
Qed.

(** ** The hypervisors of a command *)

(** The group a command is sent to lists every hypervisor that is active, in the
    zone when one is given, and not the one to skip, each once; when there is none the
    caller gets an error.  Nothing is changed or posted. *)
Theorem hyper_group_spec zoneID skip c w :
  no_faults →
  ∃ w', db w' = db w ∧ sent w' = sent w ∧
    ((∃ hs, hs ≠ [] ∧ NoDup hs ∧
        (∀ x, x ∈ hs ↔ rows (hypers (db w)) !! Hyper.ID x = Some x ∧ Hyper.Status x = 1 ∧
           0 ≤ Hyper.Hostid x ∧ Hyper.Hostid x ≠ skip ∧ (0 < zoneID → Hyper.ZoneID x = zoneID)) ∧
        GetHyperGroup zoneID skip c w =
          (Ok ("group-zone-" +:+ fmt_d zoneID +:+ ":"
               +:+ Join (map (λ x, fmt_d (Hyper.Hostid x)) hs) ","), w')) ∨
     ((∀ k x, rows (hypers (db w)) !! k = Some x → qualified zoneID skip x = false) ∧
      GetHyperGroup zoneID skip c w =
        (Err (NewCLError ErrNoQualifiedHypervisor "No qualified hypervisor found" None), w'))).
Proof.
  intros Hn. unfold GetHyperGroup. rewrite GetContextDB_eq. unfold mbind, M_bind, wrap, db_find.
  rewrite stmt_runs by done. cbn. eexists. split; [|split]; [| |].
  3: destruct (g_find (qualified zoneID skip) (hypers (db w))) as [|x l] eqn:Hf.
  - shelve.
  - shelve.
  - right. split; [by apply find_nil|reflexivity].
  - left. exists (x :: l). split; [done|]. split; [rewrite <- Hf; apply find_nodup|].
    split; [|reflexivity]. intros y. rewrite <- Hf, find_spec. unfold qualified.
    rewrite !andb_true_iff, negb_true_iff, Z.eqb_eq, Z.leb_le, Z.eqb_neq.
    destruct (Z.ltb_spec 0 zoneID); rewrite ?Z.eqb_eq; naive_solver lia.
  Unshelve. all: done.
Qed.

End reports.

(** ** Witnesses *)

Module HyperWitness.
Import Scenario.

#[local] Existing Instance MemGorm.
#[local] Existing Instance MemGormOk.
#[local] Existing Instance env.

Definition zone1 : Zone.t := Zone.zero <| Zone.ID := 1 |> <| Zone.Name := "az1" |> <| Zone.Default := true |>.

Definition hyper3 : Hyper.t :=
  Hyper.zero <| Hyper.ID := 2 |> <| Hyper.Hostid := 3 |> <| Hyper.Hostname := "node3" |>
    <| Hyper.Status := 1 |> <| Hyper.ZoneID := 1 |> <| Hyper.RouteIP := "192.0.2.7/24" |>.

Definition resource3 : Resource.t :=
  Resource.zero <| Resource.ID := 4 |> <| Resource.Hostid := 3 |> <| Resource.Cpu := 9 |>
    <| Resource.CpuTotal := 16 |>.

(** One public subnet, whose only free address is its gateway. *)
Definition full_subnet : Subnet.t :=
  Subnet.zero <| Subnet.ID := 8 |> <| Subnet.Type_ := "public" |>
    <| Subnet.Gateway := "192.0.2.1/24" |>.
Definition gateway_address : Address.t :=
  Address.zero <| Address.ID := 9 |> <| Address.SubnetID := 8 |>
    <| Address.Address := "192.0.2.1/24" |>.

Definition hosts : DB :=
  empty_db <| zones := table_of [zone1] |> <| hypers := table_of [hyper3] |>
    <| resources := table_of [resource3] |> <| subnets := table_of [full_subnet] |>
    <| addresses := table_of [gateway_address] |>.

Definition hosts_world : World := mkWorld hosts [] 0.

Definition node (k : Z) : Ctx := background <| hostkey := Some k |>.

Lemma hosts_no_faults : no_faults.
Proof. done. Qed.

(** The rows of the tables are the ones listed. *)
Lemma one_row {R} {HR : Row R} {HRO : RowOk R} (x : R) k y :
  rows (table_of [x]) !! k = Some y → y = x ∧ k = get_id x.
Proof.
  unfold table_of. cbn [rows MemGorm]. rewrite MemOk.view_lookup. cbn. rewrite insert_empty.
  destruct (0 <? k); [|done]. intros (z & Hz & ->)%fmap_Some.
  apply lookup_singleton_Some in Hz as [<- <-]. by rewrite set_get_id.
Qed.

Lemma hosts_resources : hosts_unique (rows (resources hosts)).
Proof. intros j1 j2 x1 x2 [_ ->]%one_row [_ ->]%one_row. done. Qed.

Definition report (host : string) : list string :=
  ["hyper_status.sh"; host; "node"; "5"; "16"; "0"; "64"; "7"; "100"; "1"; "10.0.0.5"; "az2";
   "1.0"; "1.0"; "1.0"; "epyc"].

Definition admin_ops : list (Ctx * host_op) :=
  [(AdminWitness.admin, CreateZone "az2" true ""); (AdminWitness.admin, UpdateZone 1 true "back");
   (background, HostReport 3 "|:-COMMAND-:| report_rc.sh 'cpu=1/2' 'memory=1/2' 'disk=3/4'" "")].

Lemma zones_invariant_witness : zones_ok (db (serve_hosts host_frontbacks admin_ops hosts_world)).
Proof.
  apply (zones_invariant host_frontbacks admin_ops hosts_world host_frontbacks_ok).
  split.
  - intros k1 k2 z1 z2 [_ ->]%one_row [_ ->]%one_row. done.
  - intros k h [-> _]%one_row. right. exists zone1. reflexivity.
Defined.

Lemma resource_report_recorded_witness : ∃ k old t w',
  ReportRC ["report_rc.sh"; "cpu=12/0"; "memory=0/64"; "disk=5/10"] (node 3) hosts_world = (Ok "", w') ∧
  db w' = hosts <| resources := t |> ∧
  rows t = <[k := resource_after old (Resource.zero <| Resource.Hostid := 3 |>
    <| Resource.Cpu := 12 |> <| Resource.MemoryTotal := 64 |> <| Resource.Disk := 5 |>
    <| Resource.DiskTotal := 10 |>)]> (rows (resources hosts)).
Proof.
  destruct (resource_report_recorded "report_rc.sh" ["cpu=12/0"; "memory=0/64"; "disk=5/10"] 3
    (node 3) hosts_world hosts_no_faults eq_refl ltac:(simpl; lia) hosts_resources)
    as (k & old & t & w' & H & _ & _ & Hd & Ht & _).
  exists k, old, t, w'. split; [exact H|]. split; [exact Hd|exact Ht].
Defined.

Lemma hyper_report_recorded_witness : ∃ z k old w',
  HyperStatus (report "3") background hosts_world = (Ok "", w') ∧
  zone_named "az2" (rows (zones hosts)) z (rows (zones (db w'))) ∧
  old_row 3 (rows (resources hosts)) k old.
Proof.
  destruct (hyper_report_recorded (report "3") "3" 3 2 hyper3 "az2" "epyc" background hosts_world
    hosts_no_faults ltac:(simpl; lia) eq_refl eq_refl ltac:(lia) eq_refl eq_refl eq_refl
    ltac:(discriminate) eq_refl eq_refl eq_refl ltac:(discriminate))
    as (z & k & old & tz & th & tr & w' & H & _ & Hd & Hz & _ & Hold & _).
  - intros j x [_ ->]%one_row _. reflexivity.
  - exact hosts_resources.
  - exists z, k, old, w'. split; [exact H|]. split; [|exact Hold]. rewrite Hd. exact Hz.
Defined.

Lemma hyper_report_lost_witness : ∃ e w',
  HyperStatus (report "4") background hosts_world = (Err e, w') ∧ db w' = hosts.
Proof.
  apply (hyper_report_lost (report "4") "hyper_status.sh" "4" 4 "epyc" background hosts_world
    hosts_no_faults ltac:(intros n; discriminate) eq_refl ltac:(simpl; lia) eq_refl eq_refl eq_refl
    ltac:(lia) eq_refl eq_refl ltac:(discriminate) eq_refl hosts_resources).
  - intros j x [-> _]%one_row. discriminate.
  - exists 8, full_subnet. split; reflexivity.
  - intros j s [-> _]%one_row _ s' i a Hs [-> _]%one_row.
    apply list_elem_of_singleton in Hs as ->. reflexivity.
Defined.

Lemma hyper_group_spec_witness : ∃ hs w', hyper3 ∈ hs ∧
  GetHyperGroup 1 (-1) background hosts_world =
    (Ok ("group-zone-1:" +:+ Join (map (λ x, fmt_d (Hyper.Hostid x)) hs) ","), w').
Proof.
  destruct (hyper_group_spec 1 (-1) background hosts_world hosts_no_faults)
    as (w' & _ & _ & [(hs & _ & _ & Hin & H)|[Hno _]]).
  - exists hs, w'. split; [|exact H]. apply Hin. split; [reflexivity|]. simpl. lia.
  - specialize (Hno 2 hyper3 eq_refl). discriminate Hno.
Defined.

End HyperWitness.
