(* ===== verification/Fip.v ===== *)
(** * Fip: floating IPs (routes/floatingip.go) *)

From S2P Require Import Prelude GoLib Json ErrorCodes Gorm Model Store Scenario Member Catalog Volume Ipam NetInfo.

Definition PublicFloating := "floating".

Section fip.
Context {G : Gorm} {E : Env}.

(** ** Loading *)

(** [Preload("Address").Preload("Address.Subnet")] of interfaces. *)
Definition load_addresses (ifaces : list Interface.t) : M (list Interface.t) :=
  match ifaces with
  | [] => mret []
  | _ =>
      addrs ← db_find (λ a, existsb (λ i, Address.Interface a =? Interface.ID i) ifaces);
      addrs ← preload_subnets addrs;
      mret (map (λ i, i <| Interface.Address :=
              last (List.filter (λ a, Address.Interface a =? Interface.ID i) addrs) |>) ifaces)
  end.

(** [Preload("Interface")] with its address and subnet, of floating IPs. *)
Definition load_fip_interfaces (fips : list FloatingIp.t) : M (list FloatingIp.t) :=
  match fips with
  | [] => mret []
  | _ =>
      ifaces ← db_find (λ i, existsb (λ f, Interface.FloatingIp i =? FloatingIp.ID f) fips);
      ifaces ← load_addresses ifaces;
      mret (map (λ f, f <| FloatingIp.Interface :=
              last (List.filter (λ i, Interface.FloatingIp i =? FloatingIp.ID f) ifaces) |>) fips)
  end.

(** The subnet of the address of the interface of a floating IP, when all are loaded. *)
Definition fip_subnet (fip : FloatingIp.t) : option Subnet.t :=
  iface ← FloatingIp.Interface fip; address ← Interface.Address iface; Address.Subnet address.

(** The struct is returned as the call leaves it. *)
Definition FloatingIpAdmin_EnsureSubnetID (fip : FloatingIp.t) : M FloatingIp.t :=
  GetContextDB (
    fip ← match fip_subnet fip with
          | Some subnet =>
              if FloatingIp.SubnetID fip =? 0 then
                let fip := fip <| FloatingIp.SubnetID := Subnet.ID subnet |> in
                _ ← wrap ErrUpdateSubnetIDOfFIPFailed "Failed to update floating ip subnet_id"
                      (db_update (by_id (FloatingIp.ID fip))
                         (λ r, r <| FloatingIp.SubnetID := FloatingIp.SubnetID fip |>));
                mret fip
              else mret fip
          | None => mret fip
          end;
    match FloatingIp.Subnet fip with
    | Some _ => mret fip
    | None =>
        if 0 <? FloatingIp.SubnetID fip then
          subnet ← wrap ErrSubnetNotFound "Failed to load subnet for floating ip"
                     (db_get (FloatingIp.SubnetID fip));
          mret (fip <| FloatingIp.Subnet := Some subnet |>)
        else mret fip
    end).

End fip.
