(* ===== verification/InstanceRpc.v ===== *)
(** * InstanceRpc: the reports on instances (package rpcs)

    The handlers of inst_status, launch_vm, action_vm, clear_vm, migrate_vm,
    attach_vm_nic, detach_vm_nic, set_vrrp_ip, create_portmap, clear_router and
    set_vnc_passwd, and what they call.

    A struct that a Go function changes through a pointer is returned by its
    definition where a caller looks at it again.  Loads that nothing reads are left
    out. *)

From S2P Require Import Prelude GoLib Json Net ErrorCodes Gorm Model Store Scenario Member Catalog Volume Commands VolumeRpc Dispatch Admin Ipam NetInfo Secgroup IpGroup Subnet Hyper Fip.

Definition Public := "public".

(** ** Forwarding rules *)

Module FdbRule.
Record FdbRule_t := mk {
  Instance : string;
  Vni : Z;
  InnerIP : string;
  InnerMac : string;
  OuterIP : string;
  Gateway : string;
  Router : Z
}.
Abbreviation t := FdbRule_t.
End FdbRule.

Definition json_fdb (r : FdbRule.t) : json :=
  JObj [("instance", JStr (FdbRule.Instance r)); ("vni", JNum (FdbRule.Vni r));
        ("inner_ip", JStr (FdbRule.InnerIP r)); ("inner_mac", JStr (FdbRule.InnerMac r));
        ("outer_ip", JStr (FdbRule.OuterIP r)); ("gateway", JStr (FdbRule.Gateway r));
        ("router", JNum (FdbRule.Router r))].

Definition fwrule_command (script : string) (rules : list FdbRule.t) : string :=
  "/opt/cloudland/scripts/backend/" +:+ script +:+ " <<EOF" +:+ newline
  +:+ Marshal (JArr (map json_fdb rules)) +:+ newline +:+ "EOF".

(** ** Volumes of a migration *)

Module VolumeInfo.
Record VolumeInfo_t := mk { ID : Z; UUID : string; Device : string; Booting : bool }.
Abbreviation t := VolumeInfo_t.
End VolumeInfo.

Definition json_volume (v : VolumeInfo.t) : json :=
  JObj [("id", JNum (VolumeInfo.ID v)); ("uuid", JStr (VolumeInfo.UUID v));
        ("device", JStr (VolumeInfo.Device v)); ("booting", JBool (VolumeInfo.Booting v))].

Definition migrated_volume (v : Volume.t) : VolumeInfo.t :=
  VolumeInfo.mk (Volume.ID v) (Volume_GetOriginVolumeID v) (Volume.Target v) (Volume.Booting v).

Section instance_rpc.
Context {G : Gorm} {E : Env}.

Definition inter (hyper : Z) : string := "inter=" +:+ fmt_d hyper.

(** The keys of a map used as a set, in the order [range] visits them. *)
Definition range_keys (s : gset Z) : M (list Z) := λ c w,
  (Ok (map_order (clock w) (elements s)), w).

Definition hyper_group (hyperNode : Z) (keys : list Z) : string :=
  "group-fdb-" +:+ fmt_d hyperNode
  +:+ (match keys with [] => "" | _ => ":" +:+ Join (map fmt_d keys) "," end).

(** The rule of an interface on the hypervisor with the given address. *)
Definition fdb_rule (iface : Interface.t) (hostIP : string) : M FdbRule.t :=
  address ← deref (Interface.Address iface);
  subnet ← deref (Address.Subnet address);
  mret (FdbRule.mk (Interface.Name iface) (Subnet.Vlan subnet) (Address.Address address)
          (Interface.MacAddr iface) hostIP (Subnet.Gateway subnet) (Subnet.RouterID subnet)).

(** [iface.Address.Subnet.Type] *)
Definition subnet_type (iface : Interface.t) : M string :=
  address ← deref (Interface.Address iface);
  subnet ← deref (Address.Subnet address);
  mret (Subnet.Type_ subnet).

Fixpoint spread_rules (hostIP : string) (ifaces : list Interface.t) : M (list FdbRule.t) :=
  match ifaces with
  | [] => mret []
  | iface :: ifaces =>
      subnetType ← subnet_type iface;
      rule ← fdb_rule iface hostIP;
      rules ← spread_rules hostIP ifaces;
      mret (if String.eqb subnetType Public then rules else rule :: rules)
  end.

(** The rules of the interfaces on other hypervisors, and these hypervisors. *)
Fixpoint local_rules (hyperNode : Z) (ifaces : list Interface.t) (hyperSet : gset Z)
    : M (list FdbRule.t * gset Z) :=
  match ifaces with
  | [] => mret ([], hyperSet)
  | iface :: ifaces =>
      subnetType ← subnet_type iface;
      if String.eqb subnetType "public" || (Interface.Hyper iface =? -1) then
        local_rules hyperNode ifaces hyperSet
      else
        r ← try (db_take (λ h, (Hyper.Hostid h =? Interface.Hyper iface)
                               && negb (Hyper.Hostid h =? hyperNode)));
        match r with
        | inr _ => local_rules hyperNode ifaces hyperSet
        | inl hyper =>
            let hyperSet := if 0 <=? Interface.Hyper iface
                            then {[Interface.Hyper iface]} ∪ hyperSet else hyperSet in
            rule ← fdb_rule iface (Hyper.HostIP hyper);
            '(rules, hyperSet) ← local_rules hyperNode ifaces hyperSet;
            mret (rule :: rules, hyperSet)
        end
  end.

(** The hypervisor, the interfaces and the router the rules are about; [interfaces] is
    [instance.Interfaces]. *)
Definition fdb_scope (instance : option Instance.t) (interfaces : list Interface.t)
    (vrrpInstance : option VrrpInstance.t) (instIface : option Interface.t)
    : Z * list Interface.t * Z :=
  let '(hyperNode, ifaces, routerID) :=
    match instance, vrrpInstance with
    | Some i, _ => (Instance.Hyper i, interfaces, Instance.RouterID i)
    | None, Some v => (-1, [], VrrpInstance.RouterID v)
    | None, None => (-1, [], 0)
    end in
  match instIface with
  | Some iface => (Interface.Hyper iface, [iface], routerID)
  | None => (hyperNode, ifaces, routerID)
  end.

Definition sendFdbRules (instance : option Instance.t) (interfaces : list Interface.t)
    (vrrpInstance : option VrrpInstance.t) (instIface : option Interface.t) : M unit :=
  if match instance with Some i => Instance.RouterID i =? 0 | None => false end then mret tt
  else GetContextDB (
    let '(hyperNode, interfaces, routerID) :=
      fdb_scope instance interfaces vrrpInstance instIface in
    if hyperNode =? -1 then mret tt
    else
      hyper ← db_take (hosted hyperNode);
      if Hyper.Hostid hyper <? 0 then mret tt
      else
        spreadRules ← spread_rules (Hyper.HostIP hyper) interfaces;
        allIfaces ← (l ← db_find (λ i, (Interface.RouterID i =? routerID)
                                       && negb (String.eqb (Interface.Type_ i) "gateway")
                                       && negb (Interface.Hyper i =? hyperNode));
                     load_addresses l);
        '(localRules, hyperSet) ← local_rules hyperNode allIfaces ∅;
        _ ← (if negb (bool_decide (hyperSet = ∅)) && negb (length spreadRules =? 0)%nat then
               keys ← range_keys hyperSet;
               HyperExecute ("toall=" +:+ hyper_group hyperNode keys)
                 (fwrule_command "add_fwrule.sh" spreadRules)
             else mret tt);
        if (length localRules =? 0)%nat then mret tt
        else HyperExecute (inter hyperNode) (fwrule_command "add_fwrule.sh" localRules)).

(** ** Migration on the source hypervisor *)

Definition source_command (script : string) (migration : Migration.t) (taskID : Z)
    (instance : Instance.t) (target migrationType : string) (volumes : list Volume.t) : string :=
  script +:+ " '" +:+ fmt_d (Migration.ID migration) +:+ "' '" +:+ fmt_d taskID +:+ "' '"
  +:+ fmt_d (Instance.ID instance) +:+ "' '" +:+ fmt_d (Instance.RouterID instance) +:+ "' '"
  +:+ target +:+ "' '" +:+ migrationType +:+ "' <<EOF" +:+ newline
  +:+ Marshal (JArr (map (λ v, json_volume (migrated_volume v)) volumes)) +:+ newline +:+ "EOF".

(** [volumes] is [instance.Volumes], which is returned as the call leaves it. *)
Definition execSourceMigrate (instance : Instance.t) (volumes : list Volume.t)
    (migration : Migration.t) (taskID : Z) (migrationScript migrationType : string)
    : M (list Volume.t) :=
  GetContextDB (
    targetHyper ← db_take (hosted (Migration.TargetHyper migration));
    sourceHyper ← db_take (hosted (Migration.SourceHyper migration));
    volumes ← match volumes with
              | [] => db_find (λ v, Volume.InstanceID v =? Instance.ID instance)
              | _ => mret volumes
              end;
    _ ← require (negb (Hyper.Status sourceHyper =? 10))
          (GoError "Source hyper is not in a valid state");
    _ ← HyperExecute (inter (Migration.SourceHyper migration))
          (source_command migrationScript migration taskID instance (Hyper.Hostname targetHyper)
             migrationType volumes);
    mret volumes).

Fixpoint source_loop (instance : Instance.t) (volumes : list Volume.t) (migration : Migration.t)
    (phases : list Task.t) : M unit :=
  match phases with
  | [] => mret tt
  | task :: phases =>
      volumes ← execSourceMigrate instance volumes migration (Task.ID task)
                  "/opt/cloudland/scripts/backend/source_migration.sh" "cold";
      source_loop instance volumes migration phases
  end.

(** [Last]: the row with the greatest key. *)
Definition newest (a b : Migration.t) : bool := Migration.ID b <=? Migration.ID a.

(** [Preload("Phases", "name = 'Prepare_Source' and status != 'completed'")] *)
Definition open_phases (migration : Migration.t) : M (list Task.t) :=
  db_find (λ t, (Task.Mission t =? Migration.ID migration)
                && String.eqb (Task.Name t) "Prepare_Source"
                && negb (String.eqb (Task.Status t) "completed")).

Definition last_migration (p : Migration.t → bool) : M (option (Migration.t * list Task.t)) :=
  r ← try (m ← db_take_by newest p; phases ← open_phases m; mret (m, phases));
  match r with
  | inl x => mret (Some x)
  | inr RecordNotFound => mret None
  | inr e => fail e
  end.

Definition clear_target_command (migration : Migration.t) (taskID : Z) (instance : Instance.t)
    : string :=
  "/opt/cloudland/scripts/backend/clear_target_migration.sh '" +:+ fmt_d (Migration.ID migration)
  +:+ "' '" +:+ fmt_d taskID +:+ "' '" +:+ fmt_d (Instance.ID instance) +:+ "'".

(** The second query is on the struct of the first one, whose key gorm adds to the
    conditions. *)
Definition syncMigration (instance : Instance.t) (volumes : list Volume.t) : M unit :=
  GetContextDB (
    found ← last_migration (λ m, (Migration.InstanceID m =? Instance.ID instance)
                                 && (Migration.SourceHyper m =? Instance.Hyper instance));
    match found with
    | None => mret tt
    | Some (migration, task :: phases) => source_loop instance volumes migration (task :: phases)
    | Some (migration, []) =>
        if String.eqb (Instance.Status instance) "shutoff" then
          found ← last_migration (λ m, (Migration.InstanceID m =? Instance.ID instance)
                    && (Migration.TargetHyper m =? Instance.Hyper instance)
                    && negb (String.eqb (Migration.Status m) "completed")
                    && by_pk (Migration.ID migration) m);
          match found with
          | None => mret tt
          | Some (migration, phases) =>
              for_each phases (λ task,
                HyperExecute (inter (Migration.TargetHyper migration))
                  (clear_target_command migration (Task.ID task) instance))
          end
        else mret tt
    end).

(** ** launch_vm *)

Fixpoint interface_infos (instance : Instance.t) (ifaces : list Interface.t)
    : M (list VlanInfo.t * Instance.t) :=
  match ifaces with
  | [] => mret ([], instance)
  | iface :: ifaces =>
      '(vlanInfo, instance) ← GetInterfaceInfo instance iface;
      '(vlans, instance) ← interface_infos instance ifaces;
      mret (vlanInfo :: vlans, instance)
  end.

Definition sync_all_command (instance : Instance.t) (osCode : string) (vlans : list VlanInfo.t)
    : string :=
  "/opt/cloudland/scripts/backend/sync_nic_info.sh '" +:+ fmt_d (Instance.ID instance) +:+ "' '"
  +:+ Instance.Hostname instance +:+ "' '" +:+ osCode +:+ "' <<EOF" +:+ newline
  +:+ Marshal (JArr (map json_vlan vlans)) +:+ newline +:+ "EOF".

Definition syncNicInfo (instance : Instance.t) (interfaces : list Interface.t)
    : M Instance.t :=
  '(vlans, instance) ← interface_infos instance interfaces;
  '(osCode, instance) ← GetImageOSCode instance;
  _ ← HyperExecute (inter (Instance.Hyper instance)) (sync_all_command instance osCode vlans);
  mret instance.

Definition create_floating_command (fip : FloatingIp.t) (pubSubnet : Subnet.t)
    (address : Address.t) (subnet : Subnet.t) : string :=
  "/opt/cloudland/scripts/backend/create_floating.sh '" +:+ fmt_d (FloatingIp.RouterID fip)
  +:+ "' '" +:+ FloatingIp.FipAddress fip +:+ "' '" +:+ Subnet.Gateway pubSubnet +:+ "' '"
  +:+ fmt_d (Subnet.Vlan pubSubnet) +:+ "' '" +:+ Address.Address address +:+ "' '"
  +:+ fmt_d (Subnet.Vlan subnet) +:+ "' '" +:+ fmt_d (FloatingIp.ID fip) +:+ "' '"
  +:+ fmt_d (FloatingIp.Inbound fip) +:+ "' '" +:+ fmt_d (FloatingIp.Outbound fip) +:+ "'".

(** A floating IP without a subnet is passed over; [err] is the error so far. *)
Fixpoint floating_loop (instance : Instance.t) (primaryIface : Interface.t)
    (fips : list FloatingIp.t) (err : option error) : M unit :=
  match fips with
  | [] => match err with Some e => fail e | None => mret tt end
  | fip :: fips =>
      r ← try (FloatingIpAdmin_EnsureSubnetID fip);
      match r with
      | inr e => floating_loop instance primaryIface fips (Some e)
      | inl fip =>
          iface ← deref (FloatingIp.Interface fip);
          pubAddress ← deref (Interface.Address iface);
          pubSubnet ← deref (Address.Subnet pubAddress);
          address ← deref (Interface.Address primaryIface);
          subnet ← deref (Address.Subnet address);
          _ ← HyperExecute (inter (Instance.Hyper instance))
                (create_floating_command fip pubSubnet address subnet);
          floating_loop instance primaryIface fips None
      end
  end.

Definition syncFloatingIp (instance : Instance.t) (interfaces : list Interface.t) : M unit :=
  GetContextDB (
    match List.find Interface.PrimaryIf interfaces with
    | None => mret tt
    | Some primaryIface =>
        floatingIps ← (l ← db_find (λ f, (FloatingIp.InstanceID f =? Instance.ID instance)
                                         && String.eqb (FloatingIp.Type_ f) PublicFloating);
                       load_fip_interfaces l);
        floating_loop instance primaryIface floatingIps None
    end).

(** The columns of a launched instance; the sixth argument, when it is a number, is
    the snapshot. *)
Definition launched (args : list string) (hyperID zoneID : Z) (r : Instance.t) : Instance.t :=
  let r := r <| Instance.Status := nth 2 args "" |> <| Instance.Hyper := hyperID |>
             <| Instance.ZoneID := zoneID |> <| Instance.Reason := nth 4 args "" |> in
  match (s ← args !! 5%nat; if String.eqb s "" then None else ParseInt 64 s) with
  | Some snapshot => r <| Instance.Snapshot := snapshot |>
  | None => r
  end.

(** What a report with the reason sync posts again: each error is overwritten by the
    outcome of the next call. *)
Definition sync_all (instance : Instance.t) (volumes : list Volume.t)
    (interfaces : list Interface.t) : M unit :=
  _ ← try (syncMigration instance volumes);
  r ← try (syncNicInfo instance interfaces);
  if 0 <? Instance.RouterID instance then syncFloatingIp instance interfaces
  else match r with inr e => fail e | inl _ => mret tt end.

Definition of_instance (instID : Z) (i : Interface.t) : bool := Interface.Instance i =? instID.

(** The rows of a launched instance, unless it is being migrated. *)
Definition record_launch (args : list string) (instID hyperID zoneID : Z) (instance : Instance.t)
    : M unit :=
  if String.eqb (Instance.Status instance) InstanceStatusMigrating then mret tt
  else
    _ ← db_update (by_pk instID) (launched args hyperID zoneID);
    db_update (of_instance (Instance.ID instance)) (λ i, i <| Interface.Hyper := hyperID |>).

Definition LaunchVM (args : list string) : M string :=
  with_tx (
    _ ← require (negb (length args <? 5)%nat) (GoError "Wrong params");
    a1 ← arg args 1;
    instID ← parse_arg 64 a1;
    errHndl ← ctx_error;
    match errHndl with
    | Some _ =>
        _ ← db_update (by_pk instID) (λ r, r <| Instance.Status := "error" |>
              <| Instance.Reason := "Resource is not enough" |>);
        mret ""
    | None =>
        instance ← db_get instID;
        volumes ← db_find (λ v, Volume.InstanceID v =? Instance.ID instance);
        interfaces ← (l ← db_find (of_instance instID); preload_addresses l);
        a3 ← arg args 3;
        hyperID ← parse_arg 32 a3;
        hyper ← db_take (hosted hyperID);
        let instance := instance <| Instance.Hyper := hyperID |>
                          <| Instance.ZoneID := Hyper.ZoneID hyper |> in
        _ ← record_launch args instID hyperID (Hyper.ZoneID hyper) instance;
        _ ← (if String.eqb (nth 4 args "") "sync" then sync_all instance volumes interfaces
             else mret tt);
        mret ""
    end).

(** ** inst_status *)

(** The row of an instance the control plane does not know. *)
Definition unknown_instance (instID hyperID : Z) (status : string) : Instance.t :=
  Instance.zero <| Instance.ID := instID |> <| Instance.Hostname := "unknown" |>
    <| Instance.Status := status |> <| Instance.Hyper := hyperID |>.

(** [time.Since(instance.UpdatedAt) < 6*time.Minute] *)
Definition just_updated (instance : Instance.t) : M bool := λ c w,
  (Ok (recently_updated (clock w) (Instance.ID instance)), w).

(** The hypervisor of an instance that was reported by another one than before. *)
Definition move_instance (instance : Instance.t) (hyperID : Z) : M unit :=
  if Instance.Hyper instance =? hyperID then mret tt
  else
    let instance := instance <| Instance.Hyper := hyperID |> in
    _ ← (if 0 <=? Instance.Hyper instance then _ ← try (syncMigration instance []); mret tt
         else mret tt);
    _ ← try (db_update_all (by_pk (Instance.ID instance))
               (λ r, r <| Instance.Hyper := hyperID |>));
    _ ← try (db_update_all (of_instance (Instance.ID instance))
               (λ i, i <| Interface.Hyper := hyperID |>));
    mret tt.

(** A deleted instance that was reported comes back under another name. *)
Definition revive (instance : Instance.t) : M unit :=
  _ ← try (db_restore (by_pk (Instance.ID instance))
             (λ r, r <| Instance.Hostname := Instance.Hostname instance +:+ "-unknown" |>));
  mret tt.

(** The status, the deletion mark and the hypervisor of a reported instance. *)
Definition settle_instance (hyperID : Z) (status : string) (instance : Instance.t)
    (deleted : bool) : M unit :=
  instance ← (if String.eqb (Instance.Status instance) status then mret instance
              else
                _ ← try (db_update (by_pk (Instance.ID instance))
                           (λ r, r <| Instance.Status := status |>));
                mret (instance <| Instance.Status := status |>));
  _ ← (if deleted then revive instance else mret tt);
  move_instance instance hyperID.

(** An instance that is rescued, or migrated just now, is left alone. *)
Definition report_known (hyperID : Z) (status : string) (instance : Instance.t) (deleted : bool)
    : M unit :=
  recent ← just_updated instance;
  if String.eqb (Instance.Status instance) "rescuing"
     || (String.eqb (Instance.Status instance) "migrating" && recent) then mret tt
  else settle_instance hyperID status instance deleted.

(** One entry of the report; every error is only logged. *)
Definition report_entry (hyperID instID : Z) (status : string) : M unit :=
  r ← try (db_take_all (R := Instance.t) (by_pk instID));
  match r with
  | inr RecordNotFound => _ ← try (db_insert (unknown_instance instID hyperID status)); mret tt
  | inr _ => mret tt
  | inl (instance, deleted) => report_known hyperID status instance deleted
  end.

(** An entry whose first word is no number is passed over with the next word; one
    without a next word panics. *)
Fixpoint status_loop (hyperID : Z) (statusList : list string) : M unit :=
  match statusList with
  | [] => mret tt
  | id :: l =>
      match ParseInt 64 id, l with
      | None, [] => mret tt
      | None, _ :: l => status_loop hyperID l
      | Some _, [] => panic
      | Some instID, status :: l =>
          _ ← report_entry hyperID instID status; status_loop hyperID l
      end
  end.

(** A struct condition leaves out a blank host ID. *)
Definition InstanceStatus (args : list string) : M string :=
  with_tx (
    _ ← require (negb (length args <? 3)%nat) (GoError "Wrong params");
    a1 ← arg args 1;
    hyperID ← parse_arg 32 a1;
    _ ← db_take (λ h, (hyperID =? 0) || (Hyper.Hostid h =? hyperID));
    a2 ← arg args 2;
    _ ← status_loop hyperID (Split a2 " ");
    mret "").

(** ** action_vm *)

(** The status of the reply is that of the report. *)
Definition ActionVM (args : list string) : M string :=
  with_tx (
    _ ← require (negb (length args <? 2)%nat) (GoError "Wrong params");
    a1 ← arg args 1;
    instID ← parse_arg 64 a1;
    instance ← db_get (R := Instance.t) instID;
    status ← arg args 2;
    _ ← db_update (by_pk (Instance.ID instance)) (λ r, r <| Instance.Status := status |>);
    mret status).

(** ** clear_vm *)

(** The hypervisors that serve a router. *)
Definition router_hypers (routerID : Z) : M (gset Z) :=
  if 0 <? routerID then
    instances ← db_find (λ i, Instance.RouterID i =? routerID);
    vrrpIfaces ← db_find (λ i, Interface.RouterID i =? routerID);
    mret (list_to_set (List.filter (λ h, 0 <=? h)
            (map Instance.Hyper instances ++ map Interface.Hyper vrrpIfaces)))
  else mret ∅.

(** The rows of an interface that goes away: one that carries a floating IP is only
    taken off the instance. *)
Definition drop_interface (iface : Interface.t) : M unit :=
  _ ← (if Interface.FloatingIp iface =? 0 then
         db_delete (R := Interface.t) (by_pk (Interface.ID iface))
       else db_update (by_id (Interface.ID iface)) (λ i, i <| Interface.Instance := 0 |>
              <| Interface.PrimaryIf := false |> <| Interface.Name := "fip" |>
              <| Interface.Inbound := 0 |> <| Interface.Outbound := 0 |>
              <| Interface.AllowSpoofing := false |>));
  _ ← (if Interface.FloatingIp iface =? 0 then
         db_update (λ a, Address.Interface a =? Interface.ID iface)
           (λ a, a <| Address.Allocated := false |> <| Address.Interface := 0 |>)
       else mret tt);
  _ ← db_update (λ a, (Address.SecondInterface a =? Interface.ID iface)
                      && (Address.Interface a =? 0))
        (λ a, a <| Address.Allocated := false |> <| Address.SecondInterface := 0 |>);
  _ ← db_update (λ a, (Address.SecondInterface a =? Interface.ID iface)
                      && (0 <? Address.Interface a))
        (λ a, a <| Address.SecondInterface := 0 |>);
  db_update (λ s, Subnet.Interface s =? Interface.ID iface)
    (λ s, s <| Subnet.Interface := 0 |>).

Definition deleteInterfaces (instance : option Instance.t) (interfaces : list Interface.t)
    (vrrpInstance : option VrrpInstance.t) (instIface : option Interface.t) : M unit :=
  GetContextDB (
    let '(hyperNode, interfaces, routerID) :=
      fdb_scope instance interfaces vrrpInstance instIface in
    hyper ← db_take (hosted hyperNode);
    hyperSet ← router_hypers routerID;
    keys ← range_keys hyperSet;
    for_each interfaces (λ iface,
      _ ← drop_interface iface;
      if (0 <? routerID) && (0 <=? hyperNode) then
        rule ← fdb_rule iface (Hyper.HostIP hyper);
        HyperExecute ("toall=" +:+ hyper_group hyperNode keys) (fwrule_command "del_fwrule.sh" [rule])
      else mret tt)).

(** The rows of the instance and of its data volumes. *)
Definition bury_instance (instance : Instance.t) : M unit :=
  _ ← db_delete (R := Instance.t) (by_pk (Instance.ID instance));
  _ ← VolumeAdmin_UpdateDataVolumeStatus (Instance.ID instance) VolumeStatusAvailable;
  db_update_all (by_id (Instance.ID instance)) (λ r, r
    <| Instance.Hostname := Instance.Hostname instance +:+ "-"
         +:+ fmt_d (instance_created (Instance.ID instance)) |>
    <| Instance.Status := InstanceStatusDeleted |> <| Instance.Reason := "" |>).

Definition ClearVM (args : list string) : M string :=
  with_tx (
    _ ← require (negb (length args <? 2)%nat) (GoError "Wrong params");
    a1 ← arg args 1;
    instID ← parse_arg 64 a1;
    instance ← db_get instID;
    interfaces ← (l ← db_find (of_instance instID); load_addresses l);
    _ ← deleteInterfaces (Some instance) interfaces None None;
    _ ← bury_instance instance;
    mret "").

(** ** migrate_vm *)

(** [defer]: [fin] runs after the body with the error it has set, also after a panic,
    while the error is still nil; its error is that of the function. *)
Definition with_defer (body : M unit) (fin : option error → M unit) : M unit := λ c w,
  match body c w with
  | (Ok _, w1) => fin None c w1
  | (Err e, w1) => fin (Some e) c w1
  | (Panic, w1) => (Panic, (fin None c w1).2)
  end.

(** The status of the task and of the migration; the error of the first statement is
    overwritten by that of the second. *)
Definition record_migration (migration : Migration.t) (taskID : Z) (status message : string)
    (err : option error) : M unit :=
  let '(taskStatus, message) :=
    match err with
    | Some e => ("failed", Error error_text e)
    | None => (if String.eqb status "failed" then status else "completed", message)
    end in
  _ ← try (db_update (by_id taskID)
             (λ t, t <| Task.Status := taskStatus |> <| Task.Message := message |>));
  db_update (by_pk (Migration.ID migration)) (λ m, m <| Migration.Status := status |>).

Definition migration_task (name : string) (migration : Migration.t) (summary : string) : Task.t :=
  Task.zero <| Task.Name := name |> <| Task.Mission := Migration.ID migration |>
    <| Task.Summary := summary |> <| Task.Status := "in_progress" |>.

(** [LaunchVM(ctx, []string{args[0], args[3], "migrated", args[4], "sync"})] *)
Definition launch_migrated (args : list string) : M unit :=
  a0 ← arg args 0; a3 ← arg args 3; a4 ← arg args 4;
  _ ← LaunchVM [a0; a3; "migrated"; a4; "sync"];
  mret tt.

Definition set_instance_status (instID : Z) (status : string) : M unit :=
  db_update (by_pk instID) (λ r, r <| Instance.Status := status |>).

(** The target of a migration that had none yet. *)
Definition choose_target (migration : Migration.t) (hyperID : Z) : M Migration.t :=
  if Migration.TargetHyper migration =? -1 then
    _ ← db_update (by_pk (Migration.ID migration))
          (λ m, m <| Migration.TargetHyper := int32 hyperID |>);
    mret (migration <| Migration.TargetHyper := int32 hyperID |>)
  else mret migration.

(** After the failure of a cold migration [err] holds the outcome of LaunchVM, which is
    nil, when its text is read: the handler panics. *)
Definition target_prepared (args : list string) (migration : Migration.t)
    (instance : Instance.t) (volumes : list Volume.t) (hyperID : Z) : M unit :=
  migration ← choose_target migration hyperID;
  _ ← db_take (hosted hyperID);
  task2 ← db_create (migration_task "Prepare_Source" migration
                       "Prepare resources on source hypervisor");
  r ← try (execSourceMigrate instance volumes migration (Task.ID task2)
             "/opt/cloudland/scripts/backend/source_migration.sh" (Migration.Type_ migration));
  match r with
  | inl _ => mret tt
  | inr e =>
      if String.eqb (Migration.Type_ migration) "cold" then
        _ ← launch_migrated args; panic
      else db_update (by_id (Task.ID task2))
             (λ t, t <| Task.Status := "failed" |> <| Task.Message := Error error_text e |>)
  end.

Definition clear_floating_command (fip : FloatingIp.t) (subnet : Subnet.t) : string :=
  "/opt/cloudland/scripts/backend/clear_floating.sh '" +:+ fmt_d (FloatingIp.RouterID fip)
  +:+ "' '" +:+ FloatingIp.FipAddress fip +:+ "' '" +:+ FloatingIp.IntAddress fip +:+ "' '"
  +:+ fmt_d (Subnet.Vlan subnet) +:+ "' '" +:+ fmt_d (FloatingIp.ID fip) +:+ "'".

Definition clear_second_command (instance : Instance.t) (macAddr osCode : string)
    (addrs : option (list string)) : string :=
  "/opt/cloudland/scripts/backend/clear_second_ips.sh '" +:+ fmt_d (Instance.ID instance)
  +:+ "' '" +:+ macAddr +:+ "' '" +:+ osCode +:+ "'<<EOF" +:+ newline
  +:+ Marshal (match addrs with None => JNull | Some l => JArr (map JStr l) end)
  +:+ newline +:+ "EOF".

Definition complete_command (migration : Migration.t) (taskID : Z) (instance : Instance.t)
    : string :=
  "/opt/cloudland/scripts/backend/complete_migration.sh '" +:+ fmt_d (Migration.ID migration)
  +:+ "' '" +:+ fmt_d taskID +:+ "' '" +:+ fmt_d (Instance.ID instance) +:+ "' '"
  +:+ Migration.Type_ migration +:+ "'".

(** The further addresses of the primary interface leave the source. *)
Definition clear_second_ips (migration : Migration.t) (instance : Instance.t)
    (interfaces : list Interface.t) (primaryIface : Interface.t) : M unit :=
  if match Interface.SiteSubnets primaryIface, Interface.SecondAddresses primaryIface with
     | [], [] => true | _, _ => false end then mret tt
  else
    '(_, moreAddresses, _, instance) ← GetInstanceNetworks instance interfaces [primaryIface];
    '(osCode, instance) ← GetImageOSCode instance;
    HyperExecute (inter (Migration.SourceHyper migration))
      (clear_second_command instance (Interface.MacAddr primaryIface) osCode moreAddresses).

Definition source_prepared (migration : Migration.t) (taskID : Z) (instance : Instance.t)
    (instID : Z) : M unit :=
  interfaces ← (l ← db_find (of_instance instID); preload_addresses l);
  let primaryIface := List.find Interface.PrimaryIf interfaces in
  floatingIps ← db_find (λ f, (FloatingIp.InstanceID f =? Instance.ID instance)
                              && String.eqb (FloatingIp.Type_ f) PublicFloating);
  _ ← (if 0 <? Instance.RouterID instance then
         for_each floatingIps (λ fip,
           iface ← deref primaryIface;
           address ← deref (Interface.Address iface);
           subnet ← deref (Address.Subnet address);
           HyperExecute (inter (Migration.SourceHyper migration)) (clear_floating_command fip subnet))
       else mret tt);
  primary ← deref primaryIface;
  _ ← clear_second_ips migration instance interfaces primary;
  HyperExecute (inter (Migration.TargetHyper migration))
    (complete_command migration taskID instance).

Definition migrate_body (args : list string) (migration : Migration.t) (taskID : Z)
    (instance : Instance.t) (volumes : list Volume.t) (instID hyperID : Z) (status : string)
    : M unit :=
  if String.eqb status "completed" then
    _ ← set_instance_status instID InstanceStatusMigrated;
    _ ← launch_migrated args;
    _ ← execSourceMigrate instance volumes migration taskID
          "/opt/cloudland/scripts/backend/finish_source_migration.sh" (Migration.Type_ migration);
    mret tt
  else if String.eqb status "rollback" then
    _ ← execSourceMigrate instance volumes migration taskID
          "/opt/cloudland/scripts/backend/rollback_source_migration.sh" (Migration.Type_ migration);
    mret tt
  else if String.eqb status "source_rollback" then
    _ ← set_instance_status instID InstanceStatusRollback;
    task3 ← db_create (migration_task "Source_Rollback" migration "Clean up target hypervisor");
    HyperExecute (inter (Migration.TargetHyper migration))
      (clear_target_command migration (Task.ID task3) instance)
  else if String.eqb status "failed" then set_instance_status instID InstanceStatusUnknown
  else if String.eqb status "target_prepared" then
    target_prepared args migration instance volumes hyperID
  else if String.eqb status "source_prepared" then source_prepared migration taskID instance instID
  else mret tt.

(** Too few resources: the error of the first statement is overwritten. *)
Definition migration_refused (migration : Migration.t) (instance : Instance.t) : M unit :=
  _ ← try (db_update (by_pk (Instance.ID instance)) (λ r, r <| Instance.Status := "rollback" |>
             <| Instance.Reason := "Resource is not enough" |>));
  db_update (by_pk (Migration.ID migration)) (λ m, m <| Migration.Status := "failed" |>).

Definition MigrateVM (args : list string) : M string :=
  with_tx (
    _ ← require (negb (length args <? 5)%nat) (GoError "Wrong params");
    a1 ← arg args 1; migrationID ← parse_arg 64 a1;
    a2 ← arg args 2; taskID ← parse_arg 64 a2;
    a3 ← arg args 3; instID ← parse_arg 64 a3;
    a4 ← arg args 4; hyperID ← parse_arg 64 a4;
    status ← arg args 5;
    migration ← db_get migrationID;
    instance ← db_get instID;
    volumes ← db_find (λ v, Volume.InstanceID v =? Instance.ID instance);
    errHndl ← ctx_error;
    _ ← match errHndl with
        | Some _ => migration_refused migration instance
        | None =>
            with_defer
              (migrate_body args migration taskID instance volumes instID hyperID status)
              (record_migration migration taskID status (nth 6 args ""))
        end;
    mret status).

(** ** attach_vm_nic, detach_vm_nic *)

Definition take_loaded (p : Interface.t → bool) : M Interface.t :=
  iface ← db_take p;
  ifaces ← load_addresses [iface];
  deref (head ifaces).

Definition AttachInterface (args : list string) : M string :=
  with_tx (
    _ ← require (negb (length args <? 3)%nat) (GoError "Wrong params");
    a1 ← arg args 1;
    instID ← parse_arg 64 a1;
    instance ← db_get instID;
    macAddr ← arg args 2;
    iface ← take_loaded (λ i, of_instance instID i && String.eqb (Interface.MacAddr i) macAddr);
    a3 ← arg args 3;
    hyperID ← parse_arg 64 a3;
    _ ← db_update (by_pk (Interface.ID iface)) (λ i, i <| Interface.Hyper := int32 hyperID |>);
    _ ← sendFdbRules (Some instance) [] None
          (Some (iface <| Interface.Hyper := int32 hyperID |>));
    mret "").

Definition DetachInterface (args : list string) : M string :=
  with_tx (
    _ ← require (negb (length args <? 3)%nat) (GoError "Wrong params");
    a1 ← arg args 1;
    instID ← parse_arg 64 a1;
    instance ← db_get instID;
    a2 ← arg args 2;
    ifaceID ← parse_arg 64 a2;
    iface ← take_loaded (λ i, by_pk ifaceID i && of_instance instID i);
    _ ← deleteInterfaces (Some instance) [] None (Some iface);
    tmpIfaces ← db_find (λ i, of_instance (Instance.ID instance) i && (0 <? Interface.RouterID i));
    _ ← (if (length tmpIfaces =? 0)%nat then
           db_update (by_pk (Instance.ID instance)) (λ r, r <| Instance.RouterID := 0 |>)
         else mret tt);
    mret "").

(** ** set_vrrp_ip *)

Definition UpdateLoadBalancerStatus (vrrpInstance : VrrpInstance.t) : M unit :=
  GetContextDB (
    db_update (λ l, LoadBalancer.VrrpInstanceID l =? VrrpInstance.ID vrrpInstance)
      (λ l, l <| LoadBalancer.Status := "available" |>)).

Definition clear_vrrp_command (v : VrrpInstance.t) (vlan : Z) (a1 mac1 a2 mac2 : string)
    : string :=
  "/opt/cloudland/scripts/backend/clear_vrrp_ip.sh '" +:+ fmt_d (VrrpInstance.RouterID v)
  +:+ "' '" +:+ fmt_d (VrrpInstance.ID v) +:+ "' '" +:+ fmt_d vlan +:+ "' '" +:+ a1 +:+ "' '"
  +:+ mac1 +:+ "' '" +:+ a2 +:+ "' '" +:+ mac2 +:+ "'".

Definition set_backup_command (v : VrrpInstance.t) (vlan : Z) (mac2 a2 mac1 a1 : string)
    : string :=
  "/opt/cloudland/scripts/backend/set_vrrp_ip.sh '" +:+ fmt_d (VrrpInstance.RouterID v)
  +:+ "' '" +:+ fmt_d (VrrpInstance.ID v) +:+ "' '" +:+ fmt_d vlan +:+ "' '" +:+ mac2 +:+ "' '"
  +:+ a2 +:+ "' '" +:+ mac1 +:+ "' '" +:+ a1 +:+ "' 'BACKUP' 'true'".

(** An interface of the pair that is still on another hypervisor. *)
Definition clear_duplicate (vrrpInstance : VrrpInstance.t) (vrrpID : Z) (role : string)
    (vrrpIface : Interface.t) : M unit :=
  vrrpIface2 ← take_loaded (vrrp_side (if String.eqb role "MASTER" then "BACKUP" else "MASTER") vrrpID);
  subnet ← deref (VrrpInstance.VrrpSubnet vrrpInstance);
  address1 ← deref (Interface.Address vrrpIface);
  address2 ← deref (Interface.Address vrrpIface2);
  HyperExecute (inter (Interface.Hyper vrrpIface))
    (clear_vrrp_command vrrpInstance (Subnet.Vlan subnet) (Address.Address address1)
       (Interface.MacAddr vrrpIface) (Address.Address address2) (Interface.MacAddr vrrpIface2)).

(** The master is up: another hypervisor of the zone is asked for the backup; without
    one the load balancer is available as it is. *)
Definition start_backup (vrrpInstance : VrrpInstance.t) (vrrpID hyperID : Z)
    (vrrpIface : Interface.t) : M unit :=
  _ ← try (db_update (by_pk vrrpID) (λ v, v <| VrrpInstance.Hyper := hyperID |>));
  vrrpIface2 ← take_loaded (vrrp_side "BACKUP" vrrpID);
  r ← try (GetHyperGroup (VrrpInstance.ZoneID vrrpInstance) hyperID);
  match r with
  | inr _ => UpdateLoadBalancerStatus vrrpInstance
  | inl hyperGroup =>
      subnet ← deref (VrrpInstance.VrrpSubnet vrrpInstance);
      address2 ← deref (Interface.Address vrrpIface2);
      address1 ← deref (Interface.Address vrrpIface);
      HyperExecute ("select=" +:+ hyperGroup)
        (set_backup_command vrrpInstance (Subnet.Vlan subnet) (Interface.MacAddr vrrpIface2)
           (Address.Address address2) (Interface.MacAddr vrrpIface) (Address.Address address1))
  end.

Definition SetVrrpIp (args : list string) : M string :=
  with_tx (
    _ ← require (negb (length args <? 3)%nat) (GoError "Wrong params");
    a1 ← arg args 1; vrrpID ← parse_arg 64 a1;
    if vrrpID <? 0 then mret "" else
    a2 ← arg args 2; hyperID ← parse_arg 32 a2;
    if hyperID <? 0 then mret "" else
    hyper ← db_take (hosted hyperID);
    if Hyper.Hostid hyper <? 0 then mret "" else
    role ← arg args 3;
    vrrpInstance ← (v ← db_get vrrpID; s ← preload (VrrpInstance.VrrpSubnetID v);
                    mret (v <| VrrpInstance.VrrpSubnet := s |>));
    macAddr ← arg args 4;
    _ ← try (db_update (vrrp_side role vrrpID) (λ i, i <| Interface.Hyper := hyperID |>
               <| Interface.MacAddr := macAddr |>));
    vrrpIface ← take_loaded (vrrp_side role vrrpID);
    _ ← (if (0 <=? Interface.Hyper vrrpIface) && negb (Interface.Hyper vrrpIface =? hyperID) then
           clear_duplicate vrrpInstance vrrpID role vrrpIface
         else
           _ ← sendFdbRules None [] (Some vrrpInstance) (Some vrrpIface);
           if String.eqb role "MASTER" then start_backup vrrpInstance vrrpID hyperID vrrpIface
           else
             _ ← try (db_update (by_pk vrrpID) (λ v, v <| VrrpInstance.Peer := hyperID |>));
             UpdateLoadBalancerStatus vrrpInstance);
    mret "").

(** ** create_portmap, clear_router, set_vnc_passwd *)

(** The database reads the port. *)
Definition CreatePortmap (args : list string) : M string :=
  with_tx (
    _ ← require (negb (length args <? 3)%nat) (GoError "Wrong params");
    a1 ← arg args 1; a2 ← arg args 2;
    port ← parse_arg 32 a2;
    _ ← db_update (λ p, Portmap.RemotePort p =? port)
          (λ p, p <| Portmap.RemoteAddress := a1 |> <| Portmap.Status := "ready" |>);
    mret "").

(** The router is looked up, nothing else is done. *)
Definition ClearRouter (args : list string) : M string :=
  with_tx (
    _ ← require (negb (length args <? 3)%nat) (GoError "Wrong params");
    a1 ← arg args 1;
    routerID ← parse_arg 64 a1;
    _ ← db_get (R := Router.t) routerID;
    mret "").

(** The columns that are not blank. *)
Definition vnc_values (vnc r : Vnc.t) : Vnc.t := r
  <| Vnc.InstanceID := keep_Z (Vnc.InstanceID vnc) (Vnc.InstanceID r) |>
  <| Vnc.LocalAddress := keep_s (Vnc.LocalAddress vnc) (Vnc.LocalAddress r) |>
  <| Vnc.LocalPort := keep_Z (Vnc.LocalPort vnc) (Vnc.LocalPort r) |>.

(** Without a transaction. *)
Definition SetVncPasswd (args : list string) : M string :=
  _ ← require (negb (length args <? 3)%nat) (GoError "Wrong params");
  a1 ← arg args 1; instID ← parse_arg 64 a1;
  a2 ← arg args 2; portN ← parse_arg 64 a2;
  hyperip ← arg args 3;
  let vnc := Vnc.zero <| Vnc.InstanceID := instID |> <| Vnc.LocalAddress := hyperip |>
               <| Vnc.LocalPort := int32 portN |> in
  r ← try (db_take (λ v, Vnc.InstanceID v =? instID));
  match r with
  | inl x => _ ← db_update (by_pk (Vnc.ID x)) (vnc_values vnc); mret ""
  | inr RecordNotFound => _ ← db_create vnc; mret ""
  | inr e => fail e
  end.

(** ** Registrations *)

Definition add_inst_status (f : Registry) : Registry := Add "inst_status" InstanceStatus f.
Definition add_launch_vm (f : Registry) : Registry := Add "launch_vm" LaunchVM f.
Definition add_action_vm (f : Registry) : Registry := Add "action_vm" ActionVM f.
Definition add_clear_vm (f : Registry) : Registry := Add "clear_vm" ClearVM f.
Definition add_migrate_vm (f : Registry) : Registry := Add "migrate_vm" MigrateVM f.
Definition add_attach_vm_nic (f : Registry) : Registry := Add "attach_vm_nic" AttachInterface f.
Definition add_detach_vm_nic (f : Registry) : Registry := Add "detach_vm_nic" DetachInterface f.
Definition add_set_vrrp_ip (f : Registry) : Registry := Add "set_vrrp_ip" SetVrrpIp f.
Definition add_create_portmap (f : Registry) : Registry := Add "create_portmap" CreatePortmap f.
Definition add_clear_router (f : Registry) : Registry := Add "clear_router" ClearRouter f.
Definition add_set_vnc_passwd (f : Registry) : Registry := Add "set_vnc_passwd" SetVncPasswd f.

End instance_rpc.
