(* ===== verification/InstanceReports.v ===== *)
(** * InstanceReports: what the reports on instances record

    The status report of a hypervisor against an abstract description of the fleet
    of instances, the launch report, the removal of an instance and the book-keeping
    of a migration. *)

From S2P Require Import Prelude GoLib Json Net ErrorCodes Gorm Model Store Scenario Member Catalog Volume Commands VolumeRpc Dispatch Admin Ipam NetInfo Secgroup IpGroup Subnet Hyper Fip InstanceRpc.

(** ** The fleet

    The instances a user sees, the deleted ones, and the interfaces. *)

Record fleet := mkFleet {
  live : gmap Z Instance.t;
  lost : gmap Z Instance.t;
  nics : gmap Z Interface.t
}.

(** The interfaces of an instance that a hypervisor reports follow it there. *)
Definition follow (h id : Z) (x : Instance.t) (m : gmap Z Interface.t) : gmap Z Interface.t :=
  if Instance.Hyper x =? h then m
  else (λ i, if of_instance id i then i <| Interface.Hyper := h |> else i) <$> m.

(** What one entry of a status report of hypervisor [h] does to the fleet. *)
Inductive reported (h : Z) : Z * string → fleet → fleet → Prop :=
  | reported_held id st x F :
      live F !! id = Some x ∨ lost F !! id = Some x →
      Instance.Status x = "rescuing" ∨ Instance.Status x = "migrating" →
      reported h (id, st) F F
  | reported_live id st x F :
      live F !! id = Some x → Instance.Status x ≠ "rescuing" →
      reported h (id, st) F
        (mkFleet (<[id := x <| Instance.Status := st |> <| Instance.Hyper := h |>]> (live F))
           (lost F) (follow h id x (nics F)))
  | reported_lost id st x F :
      lost F !! id = Some x → Instance.Status x ≠ "rescuing" →
      reported h (id, st) F
        (mkFleet (<[id := x <| Instance.Hostname := Instance.Hostname x +:+ "-unknown" |>
                            <| Instance.Hyper := h |>]> (live F))
           (delete id (lost F)) (follow h id x (nics F)))
  | reported_new id st u F :
      live F !! id = None → lost F !! id = None →
      reported h (id, st) F
        (mkFleet (<[id := col_defaults (before_create u (unknown_instance id h st))]>
                    (live F)) (lost F) (nics F)).

Inductive reports (h : Z) : list (Z * string) → fleet → fleet → Prop :=
  | reports_nil F : reports h [] F F
  | reports_cons e l F1 F2 F3 : reported h e F1 F2 → reports h l F2 F3 → reports h (e :: l) F1 F3.

(** The entries of a report; [None] for a list that ends with a number. *)
Fixpoint entries (words : list string) : option (list (Z * string)) :=
  match words with
  | [] => Some []
  | id :: l =>
      match ParseInt 64 id, l with
      | None, [] => Some []
      | None, _ :: l => entries l
      | Some _, [] => None
      | Some instID, status :: l => cons (instID, status) <$> entries l
      end
  end.

Section tables.
Context {G : Gorm} {GOk : GormOk G} {R : Type} {HR : Row R} {HRO : RowOk R}.
Implicit Types (t : table R) (f : R → R).

Lemma by_pk_other k j (r : R) t :
  k ≠ 0 → rows t !! j = Some r ∨ gone t !! j = Some r → j ≠ k → by_pk k r = false.
Proof.
  intros Hk Hr Hj. unfold by_pk. rewrite pk_nonzero by done.
  assert (get_id r = j) as -> by (destruct Hr; [by eapply rows_id|by eapply gone_id]).
  by apply Z.eqb_neq.
Qed.

(** Statements by the key of a row that is there, of a deleted one, and of none. *)
Lemma update_all_live t k r f :
  k ≠ 0 → keeps_id f → rows t !! k = Some r →
  rows (g_update_all (by_pk k) f t) = <[k := f r]> (rows t) ∧
  gone (g_update_all (by_pk k) f t) = gone t.
Proof.
  intros Hk Hf Hr. rewrite update_all_spec, update_all_gone by done. split; apply map_eq; intros j.
  - rewrite lookup_fmap. destruct (decide (j = k)) as [->|Hj].
    + rewrite lookup_insert_eq, Hr. unfold by_pk. simpl. by rewrite (rows_id _ _ _ Hr), pk_self.
    + rewrite lookup_insert_ne by done. destruct (rows t !! j) as [x|] eqn:Hx; [|done]. simpl.
      by rewrite (by_pk_other k j x t) by auto.
  - rewrite lookup_fmap. destruct (gone t !! j) as [x|] eqn:Hx; [|done]. simpl.
    rewrite (by_pk_other k j x t); [done..|by auto|]. intros ->. apply gone_dead in Hx. congruence.
Qed.

Lemma update_missing t k f :
  k ≠ 0 → keeps_id f → rows t !! k = None → rows (g_update (by_pk k) f t) = rows t.
Proof.
  intros Hk Hf Hr. rewrite update_spec by done. apply map_eq. intros j. rewrite lookup_fmap.
  destruct (rows t !! j) as [x|] eqn:Hx; [|done]. simpl.
  rewrite (by_pk_other k j x t); [done..|by auto|]. intros ->. congruence.
Qed.

Lemma restore_gone_row t k r f :
  k ≠ 0 → keeps_id f → gone t !! k = Some r →
  rows (g_restore (by_pk k) f t) = <[k := f r]> (rows t) ∧
  gone (g_restore (by_pk k) f t) = delete k (gone t).
Proof.
  intros Hk Hf Hr. split; apply map_eq; intros j; rewrite ?restore_spec, ?restore_gone by done.
  - destruct (decide (j = k)) as [->|Hj].
    + rewrite lookup_insert_eq, (gone_dead _ _ _ Hr), Hr. unfold by_pk.
      by rewrite (gone_id _ _ _ Hr), pk_self.
    + rewrite lookup_insert_ne by done. destruct (rows t !! j) as [x|] eqn:Hx.
      { by rewrite (by_pk_other k j x t) by auto. }
      destruct (gone t !! j) as [x|] eqn:Hg; [|done]. by rewrite (by_pk_other k j x t) by auto.
  - destruct (decide (j = k)) as [->|Hj].
    + rewrite lookup_delete_eq, Hr. unfold by_pk. by rewrite (gone_id _ _ _ Hr), pk_self.
    + rewrite lookup_delete_ne by done. destruct (gone t !! j) as [x|] eqn:Hg; [|done].
      by rewrite (by_pk_other k j x t) by auto.
Qed.

End tables.

Section statements.
Context {G : Gorm} {E : Env} {GOk : GormOk G}.

Lemma take_all_runs {R} {HR : Row R} {HRO : RowOk R} {HD : InDB R} k c w :
  no_faults → k ≠ 0 →
  ∃ w', db_take_all (R := R) (by_pk k) c w =
    (match rows (tbl (db w)) !! k, gone (tbl (db w)) !! k with
     | Some r, _ => Ok (r, false)
     | None, Some r => Ok (r, true)
     | None, None => Err RecordNotFound
     end, w') ∧ db w' = db w ∧ sent w' = sent w.
Proof.
  intros Hn Hk. unfold db_take_all, mbind, M_bind. rewrite stmt_runs by done. cbn.
  assert (Hpk : ∀ j (r : R), rows (tbl (db w)) !! j = Some r ∨ gone (tbl (db w)) !! j = Some r →
                  by_pk k r = true → j = k).
  { intros j r Hr Hp. destruct (decide (j = k)); [done|].
    rewrite (by_pk_other k j r (tbl (db w))) in Hp by done. done. }
  destruct (g_take_all (by_pk k) (tbl (db w))) as [[r d]|] eqn:Ht; simpl.
  - apply take_all_some in Ht as [Hp Hr]. destruct d.
    + rewrite (Hpk _ _ (or_intror Hr) Hp) in Hr. rewrite (gone_dead _ _ _ Hr), Hr. by eexists.
    + rewrite (Hpk _ _ (or_introl Hr) Hp) in Hr. rewrite Hr. by eexists.
  - assert (Hself : ∀ r : R, rows (tbl (db w)) !! k = Some r ∨ gone (tbl (db w)) !! k = Some r → False).
    { intros r Hr. pose proof (take_all_none _ _ Ht _ _ Hr) as Hp. unfold by_pk in Hp.
      assert (Hid : get_id r = k) by (destruct Hr; [by eapply rows_id|by eapply gone_id]).
      by rewrite Hid, pk_self in Hp. }
    destruct (rows (tbl (db w)) !! k) eqn:Hr; [by exfalso; eauto|].
    destruct (gone (tbl (db w)) !! k) eqn:Hg; [by exfalso; eauto|]. by eexists.
Qed.

Lemma insert_runs {R} {HR : Row R} {HRO : RowOk R} {HD : InDB R} (r : R) c w :
  no_faults → (∀ u x, get_id (before_create u x : R) = get_id x) → 0 < get_id r →
  rows (tbl (db w)) !! get_id r = None → gone (tbl (db w)) !! get_id r = None →
  ∃ x t w', db_insert r c w = (Ok x, w') ∧ db w' = set_tbl t (db w) ∧ sent w' = sent w ∧
    rows t = <[get_id r := x]> (rows (tbl (db w))) ∧ gone t = gone (tbl (db w)) ∧
    x = set_id (get_id r) (col_defaults (before_create (uuid_new (clock w)) r)).
Proof.
  intros Hn Hid Hpos Hr Hg. unfold db_insert. rewrite (proj2 (Z.eqb_neq _ _)) by lia. rewrite Hn.
  destruct (g_insert _ (tbl (db w))) as [[x t]|] eqn:Hi.
  - apply insert_some in Hi as (_ & _ & Hx & Ht & Hgt). rewrite Hid in *.
    exists x, t. eexists. by split_and!.
  - apply insert_none in Hi; rewrite Hid in *; [|done]. rewrite Hr, Hg in Hi.
    by destruct Hi as [[]|[]].
Qed.

Lemma update_all_runs {R} {HR : Row R} {HD : InDB R} (p : R → bool) f c w :
  no_faults →
  ∃ w', db_update_all p f c w = (Ok tt, w') ∧
    db w' = set_tbl (g_update_all p f (tbl (db w))) (db w) ∧ sent w' = sent w.
Proof. intros Hn. unfold db_update_all. rewrite stmt_runs by done. by eexists. Qed.

Lemma restore_runs {R} {HR : Row R} {HD : InDB R} (p : R → bool) f c w :
  no_faults →
  ∃ w', db_restore p f c w = (Ok tt, w') ∧
    db w' = set_tbl (g_restore p f (tbl (db w))) (db w) ∧ sent w' = sent w.
Proof. intros Hn. unfold db_restore. rewrite stmt_runs by done. by eexists. Qed.

(** An operation whose error is only logged. *)
Lemma try_run {A B} (m : M A) (k : A + error → M B) c w a w1 :
  m c w = (Ok a, w1) → (try m ≫= k) c w = k (inl a) c w1.
Proof. intros H. apply bind_run. unfold try. by rewrite H. Qed.

Lemma try_logged {A B} (m : M A) (k : M B) c w :
  no_panic m → reads m →
  ∃ w', (try m ≫= λ _, k) c w = k c w' ∧ db w' = db w.
Proof.
  intros Hp Hr. unfold mbind, M_bind, try. specialize (Hp c w). specialize (Hr c w).
  destruct (m c w) as [[a|e|] w1]; simpl in *; by eauto.
Qed.

End statements.

Section reports.
Context {G : Gorm} {E : Env} {GOk : GormOk G}.
Implicit Types (c : Ctx) (w : World) (x : Instance.t).

Definition fleet_of (d : DB) : fleet :=
  mkFleet (rows (instances d)) (gone (instances d)) (rows (interfaces d)).

(** ** syncMigration only reads and posts *)

Lemma last_migration_reads p I : preserves I (last_migration p).
Proof. unfold last_migration, open_phases. pres. Qed.

Lemma execSourceMigrate_reads i v m t s ty I : preserves I (execSourceMigrate i v m t s ty).
Proof. unfold execSourceMigrate. pres. Qed.

Lemma source_loop_reads i v m ts I : preserves I (source_loop i v m ts).
Proof.
  revert v. induction ts as [|t ts IH]; intros v; simpl; [apply pres_ret|].
  apply pres_bind; [apply execSourceMigrate_reads|]. intros. apply IH.
Qed.

Lemma syncMigration_reads i v : reads (syncMigration i v).
Proof.
  unfold syncMigration. apply reads_preserves. intros.
  apply pres_GetContextDB, pres_bind; [apply last_migration_reads|]. intros [[m [|t ts]]|]; [|apply source_loop_reads|apply pres_ret].
  destruct (String.eqb _ _); [|apply pres_ret].
  apply pres_bind; [apply last_migration_reads|]. intros [[]|]; pres.
Qed.

Lemma np_execSourceMigrate i v m t s ty : no_panic (execSourceMigrate i v m t s ty).
Proof. unfold execSourceMigrate. np. Qed.

Lemma np_last_migration p : no_panic (last_migration p).
Proof. unfold last_migration, open_phases. np. Qed.

Lemma np_syncMigration i v : no_panic (syncMigration i v).
Proof.
  assert (Hloop : ∀ m ts v, no_panic (source_loop i v m ts)).
  { intros m ts. induction ts as [|t ts IH]; intros v'; simpl; [apply np_ret|].
    apply np_bind; [apply np_execSourceMigrate|auto]. }
  unfold syncMigration. apply np_GetContextDB, np_bind; [apply np_last_migration|].
  intros [[m [|t ts]]|]; [|apply Hloop|apply np_ret].
  destruct (String.eqb _ _); [|apply np_ret].
  apply np_bind; [apply np_last_migration|]. intros [[]|]; np.
Qed.

(** ** One entry *)

(** The tables a status report leaves alone. *)
Definition only_fleet (d d' : DB) : Prop :=
  ∃ ti tf, d' = d <| instances := ti |> <| interfaces := tf |>.

Lemma only_fleet_refl d : only_fleet d d.
Proof. exists (instances d), (interfaces d). by destruct d. Qed.

Lemma only_fleet_trans d1 d2 d3 : only_fleet d1 d2 → only_fleet d2 d3 → only_fleet d1 d3.
Proof. intros (t1 & t2 & ->) (t3 & t4 & ->). exists t3, t4. done. Qed.

Lemma move_runs x h c w :
  no_faults → Instance.ID x ≠ 0 → 
  (∃ y, rows (instances (db w)) !! Instance.ID x = Some y) →
  ∃ w', move_instance x h c w = (Ok tt, w') ∧ only_fleet (db w) (db w') ∧
    (∀ y, rows (instances (db w)) !! Instance.ID x = Some y → Instance.Hyper y = Instance.Hyper x →
     fleet_of (db w') =
     mkFleet (<[Instance.ID x := y <| Instance.Hyper := h |>]> (live (fleet_of (db w))))
       (lost (fleet_of (db w))) (follow h (Instance.ID x) x (nics (fleet_of (db w))))).
Proof.
  intros Hn Hid [y Hy]. unfold move_instance, follow.
  destruct (Instance.Hyper x =? h) eqn:Hh.
  - apply Z.eqb_eq in Hh. exists w. split; [done|]. split; [apply only_fleet_refl|].
    intros y' Hy' Hx. rewrite Hy in Hy'. simplify_eq. unfold fleet_of. simpl. f_equal.
    rewrite insert_id; [done|]. rewrite Hy. f_equal. rewrite <- Hx. by destruct y'.
  - set (x' := x <| Instance.Hyper := h |>).
    assert (∃ w1, (if 0 <=? Instance.Hyper x' then _ ← try (syncMigration x' []); mret tt
                   else mret tt : M unit) c w = (Ok tt, w1) ∧ db w1 = db w) as (w1 & H1 & Hd1).
    { destruct (0 <=? _); [|by exists w].
      destruct (try_logged (syncMigration x' []) (mret tt) c w) as (w1 & H1 & Hd1);
        [apply np_syncMigration|apply syncMigration_reads|]. by exists w1. }
    destruct (update_all_runs (by_pk (Instance.ID x')) (λ r, r <| Instance.Hyper := h |>) c w1 Hn)
      as (w2 & H2 & Hd2 & _).
    destruct (update_all_runs (of_instance (Instance.ID x')) (λ i, i <| Interface.Hyper := h |>) c w2 Hn)
      as (w3 & H3 & Hd3 & _).
    exists w3. split.
    { erewrite bind_run by exact H1. erewrite try_run by exact H2.
      by erewrite try_run by exact H3. }
    rewrite Hd3, Hd2, Hd1. split; [by eexists _, _|].
    intros y' Hy' _. rewrite Hy in Hy'. simplify_eq. unfold fleet_of. tables. simpl.
    destruct (update_all_live (instances (db w)) (Instance.ID x) y'
                (λ r, r <| Instance.Hyper := h |>) Hid ltac:(by intros r) Hy) as [H4 H5].
    f_equal; [exact H4|exact H5|by apply update_all_spec].
Qed.

(** The status of a row that is there. *)
Lemma set_status_runs x id st c w :
  no_faults → rows (instances (db w)) !! id = Some x →
  ∃ w', (if String.eqb (Instance.Status x) st then mret x
         else _ ← try (db_update (by_pk (Instance.ID x)) (λ r, r <| Instance.Status := st |>));
              mret (x <| Instance.Status := st |>)) c w = (Ok (x <| Instance.Status := st |>), w') ∧
    only_fleet (db w) (db w') ∧
    fleet_of (db w') = mkFleet (<[id := x <| Instance.Status := st |>]> (live (fleet_of (db w))))
                         (lost (fleet_of (db w))) (nics (fleet_of (db w))).
Proof.
  intros Hn Hx. pose proof (rows_id _ _ _ Hx) as Hid. pose proof (rows_pos _ _ _ Hx) as Hpos. 
  simpl in Hid. subst id.
  destruct (String.eqb_spec (Instance.Status x) st) as [<-|Hst].
  - exists w. assert (x <| Instance.Status := Instance.Status x |> = x) as -> by by destruct x.
    split; [done|]. split; [apply only_fleet_refl|]. unfold fleet_of. simpl. by rewrite insert_id.
  - destruct (update_runs (by_pk (Instance.ID x)) (λ r, r <| Instance.Status := st |>) c w Hn)
      as (w1 & H1 & Hd1 & _).
    exists w1. split; [by erewrite try_run by exact H1|]. rewrite Hd1.
    split; [exists (g_update (by_pk (Instance.ID x)) (λ r, r <| Instance.Status := st |>) (instances (db w))), (interfaces (db w)); by destruct (db w)|].
    unfold fleet_of. tables. simpl. f_equal; [|apply update_gone].
    apply update_pk; [lia|done|done].
Qed.

(** The same statement for a deleted row does nothing to it. *)
Lemma set_status_lost x id st c w :
  no_faults → gone (instances (db w)) !! id = Some x → id ≠ 0 →
  ∃ w', (if String.eqb (Instance.Status x) st then mret x
         else _ ← try (db_update (by_pk (Instance.ID x)) (λ r, r <| Instance.Status := st |>));
              mret (x <| Instance.Status := st |>)) c w = (Ok (x <| Instance.Status := st |>), w') ∧
    only_fleet (db w) (db w') ∧ fleet_of (db w') = fleet_of (db w).
Proof.
  intros Hn Hx Hid0. pose proof (gone_id _ _ _ Hx) as Hid. simpl in Hid. subst id.
  destruct (String.eqb_spec (Instance.Status x) st) as [<-|Hst].
  - exists w. assert (x <| Instance.Status := Instance.Status x |> = x) as -> by by destruct x.
    split; [done|]. split; [apply only_fleet_refl|done].
  - destruct (update_runs (by_pk (Instance.ID x)) (λ r, r <| Instance.Status := st |>) c w Hn)
      as (w1 & H1 & Hd1 & _).
    exists w1. split; [by erewrite try_run by exact H1|]. rewrite Hd1.
    split; [exists (g_update (by_pk (Instance.ID x)) (λ r, r <| Instance.Status := st |>) (instances (db w))), (interfaces (db w)); by destruct (db w)|].
    unfold fleet_of. tables. simpl. f_equal; [|apply update_gone].
    apply update_missing; [done|done|by eapply gone_dead].
Qed.

(** The row that appears when a deleted instance is reported. *)
Lemma revive_runs x c w :
  no_faults → Instance.ID x ≠ 0 → 
  ∃ w', revive x c w = (Ok tt, w') ∧ only_fleet (db w) (db w') ∧
    (∀ y, gone (instances (db w)) !! Instance.ID x = Some y →
     fleet_of (db w') =
     mkFleet (<[Instance.ID x := y <| Instance.Hostname := Instance.Hostname x +:+ "-unknown" |>]>
                (live (fleet_of (db w))))
       (delete (Instance.ID x) (lost (fleet_of (db w)))) (nics (fleet_of (db w)))).
Proof.
  intros Hn Hid. unfold revive.
  set (f := λ r, r <| Instance.Hostname := Instance.Hostname x +:+ "-unknown" |>).
  destruct (restore_runs (by_pk (Instance.ID x)) f c w Hn) as (w1 & H1 & Hd1 & _).
  exists w1. split; [by erewrite try_run by exact H1|]. rewrite Hd1.
  split; [exists (g_restore (by_pk (Instance.ID x)) f (instances (db w))), (interfaces (db w)); by destruct (db w)|].
  intros y Hy. unfold fleet_of. tables. simpl.
  destruct (restore_gone_row (instances (db w)) (Instance.ID x) y f Hid ltac:(by intros r) Hy) as [H4 H5].
  f_equal; [exact H4|exact H5].
Qed.

Lemma only_fleet_hypers d d' : only_fleet d d' → hypers d' = hypers d.
Proof. by intros (? & ? & ->). Qed.

(** An instance that is rescued or migrated may be left alone. *)
Lemma report_held h st x id deleted c w :
  live (fleet_of (db w)) !! id = Some x ∨ lost (fleet_of (db w)) !! id = Some x →
  (report_known h st x deleted c w = (Ok tt, w) ∧
   reported h (id, st) (fleet_of (db w)) (fleet_of (db w))) ∨
  (Instance.Status x ≠ "rescuing" ∧
   report_known h st x deleted c w = settle_instance h st x deleted c w).
Proof.
  intros Hx. unfold report_known. 
  assert (Hj : just_updated x c w = (Ok (recently_updated (clock w) (Instance.ID x)), w)) by done.
  erewrite bind_run by exact Hj. destruct (_ || _) eqn:Hb; [left|right].
  - split; [done|]. eapply reported_held; [exact Hx|].
    apply orb_true_iff in Hb as [Hb%String.eqb_eq|[Hb%String.eqb_eq _]%andb_true_iff]; auto.
  - apply orb_false_iff in Hb as [Hb%String.eqb_neq _]. done.
Qed.

Lemma settle_live h st x id c w :
  no_faults → rows (instances (db w)) !! id = Some x → Instance.Status x ≠ "rescuing" →
  ∃ w', settle_instance h st x false c w = (Ok tt, w') ∧ only_fleet (db w) (db w') ∧
    reported h (id, st) (fleet_of (db w)) (fleet_of (db w')).
Proof.
  intros Hn Hx Hst. unfold settle_instance.
  destruct (set_status_runs x id st c w Hn Hx) as (w2 & H2 & Ho2 & Hf2).
  erewrite bind_run by exact H2. pose proof (rows_id _ _ _ Hx) as Hid. simpl in Hid.
  pose proof (rows_pos _ _ _ Hx) as Hpos.
  assert (Hrow : rows (instances (db w2)) !! id = Some (x <| Instance.Status := st |>)).
  { change (rows (instances (db w2))) with (live (fleet_of (db w2))). rewrite Hf2. apply lookup_insert_eq. }
  destruct (move_runs (x <| Instance.Status := st |>) h c w2 Hn) as (w3 & H3 & Ho3 & Hf3);
    [simpl; lia|simpl; rewrite Hid; by eexists|].
  exists w3. split; [exact H3|]. split; [by eapply only_fleet_trans|].
  rewrite (Hf3 (x <| Instance.Status := st |>)); [|simpl; by rewrite Hid|done].
  rewrite Hf2. simpl. rewrite Hid, insert_insert_eq. by apply (reported_live h id st x).
Qed.

Lemma settle_lost h st x id c w :
  no_faults → 0 < id → gone (instances (db w)) !! id = Some x → Instance.Status x ≠ "rescuing" →
  ∃ w', settle_instance h st x true c w = (Ok tt, w') ∧ only_fleet (db w) (db w') ∧
    reported h (id, st) (fleet_of (db w)) (fleet_of (db w')).
Proof.
  intros Hn Hpos Hg Hst. unfold settle_instance.
  destruct (set_status_lost x id st c w Hn Hg ltac:(lia)) as (w2 & H2 & Ho2 & Hf2).
  erewrite bind_run by exact H2. pose proof (gone_id _ _ _ Hg) as Hid. simpl in Hid.
  destruct (revive_runs (x <| Instance.Status := st |>) c w2 Hn) as (w3 & H3 & Ho3 & Hf3); [simpl; lia|].
  erewrite bind_run by exact H3. specialize (Hf3 x). rewrite Hf2 in Hf3. simpl in Hf3.
  rewrite Hid in Hf3.
  assert (Hg2 : gone (instances (db w2)) !! id = Some x).
  { change (gone (instances (db w2))) with (lost (fleet_of (db w2))). by rewrite Hf2. }
  specialize (Hf3 Hg2). set (y := x <| Instance.Hostname := _ |>) in *.
  assert (Hrow : rows (instances (db w3)) !! id = Some y).
  { change (rows (instances (db w3))) with (live (fleet_of (db w3))). rewrite Hf3. apply lookup_insert_eq. }
  destruct (move_runs (x <| Instance.Status := st |>) h c w3 Hn) as (w4 & H4 & Ho4 & Hf4);
    [simpl; lia|simpl; rewrite Hid; by eexists|].
  exists w4. split; [exact H4|]. split; [by do 2 (eapply only_fleet_trans; [eassumption|])|].
  rewrite (Hf4 y); [|simpl; by rewrite Hid|done].
  rewrite Hf3. simpl. rewrite Hid, insert_insert_eq. by apply (reported_lost h id st x).
Qed.

Lemma report_entry_runs h id st c w :
  no_faults → 0 < id →
  ∃ w', report_entry h id st c w = (Ok tt, w') ∧ only_fleet (db w) (db w') ∧
    reported h (id, st) (fleet_of (db w)) (fleet_of (db w')).
Proof.
  intros Hn Hpos. unfold report_entry.
  destruct (take_all_runs (R := Instance.t) id c w Hn ltac:(lia)) as (w1 & H1 & Hd1 & _). tables.
  rewrite <- Hd1 in *.
  destruct (rows (instances (db w1)) !! id) as [x|] eqn:Hx;
    [|destruct (gone (instances (db w1)) !! id) as [x|] eqn:Hg].
  - erewrite try_run by exact H1.
    destruct (report_held h st x id false c w1) as [[-> Hr]|[Hst ->]]; [by left| |].
    + exists w1. by split; [|split; [apply only_fleet_refl|]].
    + by apply settle_live.
  - erewrite try_run by exact H1.
    destruct (report_held h st x id true c w1) as [[-> Hr]|[Hst ->]]; [by right| |].
    + exists w1. by split; [|split; [apply only_fleet_refl|]].
    + by apply settle_lost.
  - assert (Ht : try (db_take_all (R := Instance.t) (by_pk id)) c w = (Ok (inr RecordNotFound), w1))
      by (unfold try; by rewrite H1).
    erewrite bind_run by exact Ht.
    destruct (insert_runs (unknown_instance id h st) c w1 Hn)
      as (x & t & w2 & H2 & Hd2 & _ & Hr & Hgt & Hx2); [done|simpl; lia|done..|].
    exists w2. split; [by erewrite try_run by exact H2|]. tables.
    split; [rewrite Hd2; exists t, (interfaces (db w1)); by destruct (db w1)|].
    replace (fleet_of (db w2)) with
      (mkFleet (<[id := x]> (rows (instances (db w1)))) (gone (instances (db w1)))
         (rows (interfaces (db w1)))); [|unfold fleet_of; rewrite Hd2, <- Hgt; f_equal; by symmetry].
    rewrite Hx2. exact (reported_new h id st _ (fleet_of (db w1)) Hx Hg).
Qed.

Lemma status_loop_runs h words es c w :
  no_faults → entries words = Some es → Forall (λ e, 0 < e.1) es →
  ∃ w', status_loop h words c w = (Ok tt, w') ∧ only_fleet (db w) (db w') ∧
    reports h es (fleet_of (db w)) (fleet_of (db w')).
Proof.
  intros Hn. revert es w. induction words as [words IH] using (induction_ltof1 _ (@length _)).
  intros es w. destruct words as [|id l]; simpl.
  - intros [= <-] _. exists w. split; [done|]. split; [apply only_fleet_refl|constructor].
  - destruct (ParseInt 64 id) as [k|], l as [|st l]; try done.
    + intros (es' & He & ->)%fmap_Some [Hk Hes]%Forall_cons. simpl in Hk.
      destruct (report_entry_runs h k st c w Hn Hk) as (w1 & H1 & Ho1 & Hr1).
      destruct (IH l ltac:(unfold ltof; simpl; lia) es' w1 He Hes) as (w2 & H2 & Ho2 & Hr2).
      exists w2. split; [by erewrite bind_run by exact H1|].
      split; [by eapply only_fleet_trans|by econstructor].
    + intros [= <-] _. exists w. split; [done|]. split; [apply only_fleet_refl|constructor].
    + intros He Hes. apply (IH l ltac:(unfold ltof; simpl; lia) es w He Hes).
Qed.

Lemma status_report_runs name hyper text h k (y : Hyper.t) es c w :
  no_faults → ParseInt 32 hyper = Some h → rows (hypers (db w)) !! k = Some y →
  Hyper.Hostid y = h →
  entries (Split text " ") = Some es → Forall (λ e, 0 < e.1) es →
  ∃ w', InstanceStatus [name; hyper; text] c w = (Ok "", w') ∧ only_fleet (db w) (db w') ∧
    reports h es (fleet_of (db w)) (fleet_of (db w')).
Proof.
  intros Hn Hh Hy Hhost He Hes. set (c1 := c <| dbkey := true |>).
  set (p := λ z : Hyper.t, (h =? 0) || (Hyper.Hostid z =? h)).
  assert (∃ (z : Hyper.t) w1, db_take p c1 w = (Ok z, w1) ∧ db w1 = db w) as (z & w1 & H1 & Hd1).
  { unfold db_take, mbind, M_bind. rewrite stmt_runs by done. cbn.
    destruct (g_take p (hypers (db w))) as [x|] eqn:Hx; [by do 2 eexists|].
    pose proof (take_none _ _ Hx _ _ Hy) as Hp. unfold p in Hp.
    by rewrite Hhost, Z.eqb_refl, orb_true_r in Hp. }
  destruct (status_loop_runs h (Split text " ") es c1 w1 Hn He Hes) as (w2 & H2 & Ho & Hr).
  exists w2. rewrite <- Hd1. split; [|by split].
  apply with_tx_Ok. fold c1. simpl.
  do 2 (erewrite bind_run by reflexivity). unfold parse_arg. rewrite Hh.
  erewrite bind_run by reflexivity. erewrite bind_run by exact H1.
  erewrite bind_run by reflexivity. by erewrite bind_run by exact H2.
Qed.

(** C14. The status report of a hypervisor does to the fleet what its entries say, one
    after the other: an instance gets the reported status and moves to the hypervisor
    with its interfaces, a deleted one comes back under another name, an unknown one is
    added, one that is rescued or migrated may be left alone.  The report returns, and
    no other table changes. *)
Theorem status_report_refines name hyper text h k (y : Hyper.t) es c w :
  no_faults → ParseInt 32 hyper = Some h → rows (hypers (db w)) !! k = Some y →
  Hyper.Hostid y = h →
  entries (Split text " ") = Some es → Forall (λ e, 0 < e.1) es →
  ∃ w', InstanceStatus [name; hyper; text] c w = (Ok "", w') ∧ only_fleet (db w) (db w') ∧
    reports h es (fleet_of (db w)) (fleet_of (db w')).
Proof. apply status_report_runs. Qed.

(** What one entry does to an instance that is deleted, and to one that is there. *)
Lemma reported_lost_inv h id st x F F' :
  reported h (id, st) F F' → live F !! id = None → lost F !! id = Some x →
  Instance.Status x ≠ "rescuing" → Instance.Status x ≠ "migrating" →
  live F' !! id = Some (x <| Instance.Hostname := Instance.Hostname x +:+ "-unknown" |>
                          <| Instance.Hyper := h |>).
Proof.
  intros Hr Hl Hg Hs1 Hs2. inversion Hr as [? ? z ? Hz Hst|? ? z ? Hz|? ? z ? Hz|]; subst; simpl.
  - destruct Hz, Hst; congruence.
  - congruence.
  - replace x with z by congruence. apply lookup_insert_eq.
  - congruence.
Qed.

Lemma reported_live_inv h id st x F F' :
  reported h (id, st) F F' → live F !! id = Some x → lost F !! id = None →
  Instance.Status x ≠ "rescuing" → Instance.Status x ≠ "migrating" →
  live F' !! id = Some (x <| Instance.Status := st |> <| Instance.Hyper := h |>).
Proof.
  intros Hr Hl Hg Hs1 Hs2. inversion Hr as [? ? z ? Hz Hst|? ? z ? Hz|? ? z ? Hz|]; subst; simpl.
  - destruct Hz, Hst; congruence.
  - replace x with z by congruence. apply lookup_insert_eq.
  - congruence.
  - congruence.
Qed.

(** A deleted instance that a hypervisor still reports comes back with the status
    it was deleted with, whatever the report says; only the next report corrects it. *)
Theorem revived_instance name hyper text h k (y : Hyper.t) id st x c w :
  no_faults → ParseInt 32 hyper = Some h → rows (hypers (db w)) !! k = Some y →
  Hyper.Hostid y = h → entries (Split text " ") = Some [(id, st)] → 0 < id →
  gone (instances (db w)) !! id = Some x →
  Instance.Status x ≠ "rescuing" → Instance.Status x ≠ "migrating" →
  ∃ w1 w2 x1 x2,
    InstanceStatus [name; hyper; text] c w = (Ok "", w1) ∧
    rows (instances (db w1)) !! id = Some x1 ∧ Instance.Status x1 = Instance.Status x ∧
    InstanceStatus [name; hyper; text] c w1 = (Ok "", w2) ∧
    rows (instances (db w2)) !! id = Some x2 ∧ Instance.Status x2 = st.
Proof.
  intros Hn Hh Hy Hhost He Hpos Hx Hs1 Hs2.
  assert (Hes : Forall (λ e : Z * string, 0 < e.1) [(id, st)]) by (by repeat constructor).
  destruct (status_report_runs name hyper text h k y _ c w Hn Hh Hy Hhost He Hes)
    as (w1 & H1 & Ho1 & Hr1).
  assert (Hy1 : rows (hypers (db w1)) !! k = Some y) by (by destruct Ho1 as (? & ? & ->)).
  destruct (status_report_runs name hyper text h k y _ c w1 Hn Hh Hy1 Hhost He Hes)
    as (w2 & H2 & _ & Hr2).
  inversion Hr1 as [|? ? ? F1 ? Hr Hnil]; subst. inversion Hnil; subst; clear Hnil.
  inversion Hr2 as [|? ? ? F2 ? Hr' Hnil]; subst. inversion Hnil; subst; clear Hnil.
  eapply reported_lost_inv in Hr; [|by eapply gone_dead|done..].
  set (x1 := x <| Instance.Hostname := _ |> <| Instance.Hyper := _ |>) in *.
  assert (Hg1 : lost (fleet_of (db w1)) !! id = None).
  { simpl. destruct (gone (instances (db w1)) !! id) eqn:Hg; [|done]. apply gone_dead in Hg.
    simpl in Hr. congruence. }
  eapply reported_live_inv in Hr'; [|done..].
  exists w1, w2, x1, (x1 <| Instance.Status := st |> <| Instance.Hyper := Hyper.Hostid y |>).
  by split_and!.
Qed.

(** ** launch_vm *)

Lemma parse_runs bits s k c w : ParseInt bits s = Some k → parse_arg bits s c w = (Ok k, w).
Proof. unfold parse_arg. by intros ->. Qed.

(** An operation that only reads. *)
Lemma read_runs {A} (m : M A) c w :
  never_err m → no_panic m → reads m → quiet m →
  ∃ a w', m c w = (Ok a, w') ∧ db w' = db w ∧ sent w' = sent w.
Proof.
  intros Hn Hp Hr Hq. destruct (runs m c w Hn Hp) as (a & w' & H). exists a, w'.
  specialize (Hr c w). specialize (Hq c w). by rewrite H in *.
Qed.

Lemma loaded_runs p c w :
  no_faults →
  ∃ l w', (l ← db_find p; preload_addresses l) c w = (Ok l, w') ∧ db w' = db w ∧ sent w' = sent w.
Proof.
  intros Hn. apply read_runs; unfold preload_addresses, preload_subnets;
    [ne_tac|np|reads_tac|quiet_tac].
Qed.

(** The interfaces of a launched instance. *)
Definition on_hyper (id h : Z) (i : Interface.t) : Interface.t :=
  if of_instance id i then i <| Interface.Hyper := h |> else i.

(** The instance after a launch report, whose words after the reason are [more]. *)
Definition launch_row (status reason : string) (more : list string) (h zone : Z) x : Instance.t := x
  <| Instance.Status := status |> <| Instance.Hyper := h |> <| Instance.ZoneID := zone |>
  <| Instance.Reason := reason |>
  <| Instance.Snapshot := match more with
                          | s :: _ => default (Instance.Snapshot x) (ParseInt 64 s)
                          | [] => Instance.Snapshot x
                          end |>.

Lemma launched_row name idt status hyper reason more h zone x :
  launched (name :: idt :: status :: hyper :: reason :: more) h zone x =
  launch_row status reason more h zone x.
Proof.
  unfold launched, launch_row. destruct more as [|s more]; cbn; [by destruct x|].
  destruct (String.eqb_spec s "") as [->|]; [by destruct x|].
  destruct (ParseInt 64 s); by destruct x.
Qed.

Lemma record_launch_runs args id h z x0 x c w :
  no_faults → rows (instances (db w)) !! id = Some x → Instance.ID x0 = id →
  ∃ w', record_launch args id h z x0 c w = (Ok tt, w') ∧ sent w' = sent w ∧
    if String.eqb (Instance.Status x0) InstanceStatusMigrating then db w' = db w
    else ∃ ti tf, db w' = db w <| instances := ti |> <| interfaces := tf |> ∧
      rows ti = <[id := launched args h z x]> (rows (instances (db w))) ∧
      rows tf = on_hyper id h <$> rows (interfaces (db w)).
Proof.
  intros Hn Hx Hid. unfold record_launch. rewrite Hid. pose proof (rows_pos _ _ _ Hx) as Hpos.
  destruct (String.eqb _ _); [by exists w|].
  destruct (update_runs (by_pk id) (launched args h z) c w Hn) as (w1 & H1 & Hd1 & Hs1).
  destruct (update_runs (of_instance id) (λ i, i <| Interface.Hyper := h |>) c w1 Hn)
    as (w2 & H2 & Hd2 & Hs2).
  exists w2. split; [by erewrite bind_run by exact H1|]. split; [congruence|].
  rewrite Hd2, Hd1. tables. eexists _, _. split; [reflexivity|].
  split; [|by rewrite update_spec].
  apply update_pk; [lia| |done]. intros r. unfold launched. by case_match.
Qed.

(** The report on a launch is recorded: the instance gets the status, the
    hypervisor, its zone, the reason and the snapshot of the report, its interfaces the
    hypervisor; nothing is posted.  The report on an instance that is being migrated
    changes nothing. *)
Theorem launch_recorded name idt status hyper reason more id h x k (y : Hyper.t) c w :
  no_faults → errkey c = None → ParseInt 64 idt = Some id → ParseInt 32 hyper = Some h →
  rows (instances (db w)) !! id = Some x → rows (hypers (db w)) !! k = Some y →
  Hyper.Hostid y = h →
  (∀ j z, rows (hypers (db w)) !! j = Some z → Hyper.Hostid z = h → z = y) →
  reason ≠ "sync" →
  let args := name :: idt :: status :: hyper :: reason :: more in
  ∃ w', LaunchVM args c w = (Ok "", w') ∧ sent w' = sent w ∧
    if String.eqb (Instance.Status x) InstanceStatusMigrating then db w' = db w
    else ∃ ti tf, db w' = db w <| instances := ti |> <| interfaces := tf |> ∧
      rows ti = <[id := launch_row status reason more h (Hyper.ZoneID y) x]>
                  (rows (instances (db w))) ∧
      rows tf = on_hyper id h <$> rows (interfaces (db w)).
Proof.
  intros Hn Hc Hid Hh Hx Hy Hhost Hu Hreason args. set (c1 := c <| dbkey := true |>).
  pose proof (rows_id _ _ _ Hx) as Hxid. simpl in Hxid. pose proof (rows_pos _ _ _ Hx) as Hpos.
  destruct (db_get_runs (HD := in_instances) id x c1 w Hn Hx) as (w1 & H1 & Hd1 & Hs1).
  destruct (read_runs (db_find (λ v, Volume.InstanceID v =? Instance.ID x)) c1 w1)
    as (vs & w2 & H2 & Hd2 & Hs2); [ne_tac|np|reads_tac|quiet_tac|].
  destruct (loaded_runs (of_instance id) c1 w2 Hn) as (l & w3 & H3 & Hd3 & Hs3).
  destruct (take_unique (HD := in_hypers) (hosted h) y k c1 w3 Hn) as (w4 & H4 & Hd4 & Hs4).
  { tables. by rewrite Hd3, Hd2, Hd1. } { unfold hosted. by rewrite Hhost, Z.eqb_refl. }
  { tables. rewrite Hd3, Hd2, Hd1. intros j z Hz Hp%Z.eqb_eq. by eapply Hu. }
  assert (Hd : db w4 = db w) by congruence.
  destruct (record_launch_runs args id h (Hyper.ZoneID y)
              (x <| Instance.Hyper := h |> <| Instance.ZoneID := Hyper.ZoneID y |>) x c1 w4 Hn)
    as (w5 & H5 & Hs5 & Hd5); [by rewrite Hd|done|].
  exists w5. rewrite Hd in Hd5. unfold args in Hd5. rewrite launched_row in Hd5.
  split; [|split; [congruence|exact Hd5]].
  apply with_tx_Ok. fold c1. do 2 (erewrite bind_run by reflexivity).
  erewrite bind_run by (by apply parse_runs). erewrite bind_run by reflexivity. simpl. rewrite Hc.
  erewrite bind_run by exact H1. erewrite bind_run by exact H2. erewrite bind_run by exact H3.
  erewrite bind_run by reflexivity. erewrite bind_run by (by apply parse_runs).
  erewrite bind_run by exact H4. erewrite bind_run by exact H5. simpl.
  by rewrite (proj2 (String.eqb_neq _ _) Hreason).
Qed.

End reports.
