(* ===== verification/InstanceLife.v ===== *)
(** * InstanceLife: the end of an instance, and its migration

    What the report clear_vm leaves behind, and the book-keeping of migrate_vm. *)

From S2P Require Import Prelude GoLib Json Net ErrorCodes Gorm Model Store Scenario Member Catalog Volume Commands VolumeRpc Dispatch Admin Ipam NetInfo Secgroup IpGroup Subnet Hyper HyperSystem HyperReports Fip InstanceRpc InstanceReports.

(** ** Interfaces that go away *)

(** The interface of a floating IP, taken off its instance. *)
Definition taken_off (i : Interface.t) : Interface.t := i <| Interface.Instance := 0 |>
  <| Interface.PrimaryIf := false |> <| Interface.Name := "fip" |> <| Interface.Inbound := 0 |>
  <| Interface.Outbound := 0 |> <| Interface.AllowSpoofing := false |>.

Definition drop_nic (m : gmap Z Interface.t) (i : Interface.t) : gmap Z Interface.t :=
  if Interface.FloatingIp i =? 0 then delete (Interface.ID i) m
  else alter taken_off (Interface.ID i) m.

(** An address after one interface went away. *)
Definition drop_address (a : Address.t) (i : Interface.t) : Address.t :=
  let a := if (Interface.FloatingIp i =? 0) && (Address.Interface a =? Interface.ID i)
           then a <| Address.Allocated := false |> <| Address.Interface := 0 |> else a in
  let a := if (Address.SecondInterface a =? Interface.ID i) && (Address.Interface a =? 0)
           then a <| Address.Allocated := false |> <| Address.SecondInterface := 0 |> else a in
  if (Address.SecondInterface a =? Interface.ID i) && (0 <? Address.Interface a)
  then a <| Address.SecondInterface := 0 |> else a.

Section life.
Context {G : Gorm} {E : Env} {GOk : GormOk G}.
Implicit Types (c : Ctx) (w : World) (i : Interface.t) (x : Instance.t).

(** The tables that change when interfaces go away. *)
Definition only_nics (d d' : DB) : Prop :=
  ∃ tf ta ts, d' = d <| interfaces := tf |> <| addresses := ta |> <| subnets := ts |>.

Lemma only_nics_refl d : only_nics d d.
Proof. exists (interfaces d), (addresses d), (subnets d). by destruct d. Qed.

Lemma only_nics_trans d1 d2 d3 : only_nics d1 d2 → only_nics d2 d3 → only_nics d1 d3.
Proof. intros (? & ? & ? & ->) (? & ? & ? & ->). by do 3 eexists. Qed.

Lemma drop_first_runs i c w :
  no_faults → Interface.ID i ≠ 0 →
  ∃ w' tf, (if Interface.FloatingIp i =? 0 then
          db_delete (R := Interface.t) (by_pk (Interface.ID i))
        else db_update (by_id (Interface.ID i)) (λ i, i <| Interface.Instance := 0 |>
              <| Interface.PrimaryIf := false |> <| Interface.Name := "fip" |>
              <| Interface.Inbound := 0 |> <| Interface.Outbound := 0 |>
              <| Interface.AllowSpoofing := false |>)) c w = (Ok tt, w') ∧ sent w' = sent w ∧
    db w' = db w <| interfaces := tf |> ∧ rows tf = drop_nic (rows (interfaces (db w))) i.
Proof.
  intros Hn Hi. unfold drop_nic. destruct (Interface.FloatingIp i =? 0).
  - unfold db_delete. rewrite stmt_runs by done. eexists _, _.
    split; [reflexivity|]. split; [done|]. split; [reflexivity|]. by apply delete_pk.
  - destruct (update_runs (by_id (Interface.ID i)) taken_off c w Hn) as (w1 & H1 & Hd1 & Hs1).
    eexists w1, _. split; [exact H1|]. split; [done|]. split; [exact Hd1|]. tables.
    rewrite update_spec by done. apply map_eq. intros j. rewrite lookup_fmap.
    destruct (decide (j = Interface.ID i)) as [->|Hj].
    + rewrite lookup_alter_eq. destruct (rows _ !! _) as [z|] eqn:Hz; [|done]. simpl.
      unfold by_id. by rewrite (rows_id _ _ _ Hz), Z.eqb_refl.
    + rewrite lookup_alter_ne by done. destruct (rows _ !! j) as [z|] eqn:Hz; [|done]. simpl.
      unfold by_id. rewrite (rows_id _ _ _ Hz). by rewrite (proj2 (Z.eqb_neq _ _) Hj).
Qed.

Lemma drop_interface_runs i c w :
  no_faults → Interface.ID i ≠ 0 →
  ∃ w', drop_interface i c w = (Ok tt, w') ∧ sent w' = sent w ∧ only_nics (db w) (db w') ∧
    rows (interfaces (db w')) = drop_nic (rows (interfaces (db w))) i ∧
    rows (addresses (db w')) = (λ a, drop_address a i) <$> rows (addresses (db w)).
Proof.
  intros Hn Hi. unfold drop_interface.
  destruct (drop_first_runs i c w Hn Hi) as (w1 & tf & H1 & Hs1 & Hd1 & Ht1).
  erewrite bind_run by exact H1.
  set (f1 := λ a, a <| Address.Allocated := false |> <| Address.Interface := 0 |>).
  assert (∃ w2 t2, (if Interface.FloatingIp i =? 0 then
         db_update (λ a, Address.Interface a =? Interface.ID i) f1 else mret tt) c w1 = (Ok tt, w2) ∧
    sent w2 = sent w1 ∧ db w2 = db w1 <| addresses := t2 |> ∧
    rows t2 = (λ a, if (Interface.FloatingIp i =? 0) && (Address.Interface a =? Interface.ID i)
                    then f1 a else a) <$> rows (addresses (db w1))) as (w2 & t2 & H2 & Hs2 & Hd2 & Ht2).
  { destruct (Interface.FloatingIp i =? 0); simpl.
    - destruct (update_runs (λ a, Address.Interface a =? Interface.ID i) f1 c w1 Hn) as (w2 & H2 & Hd2 & Hs2).
      eexists w2, _. split; [exact H2|]. split; [done|]. split; [exact Hd2|]. tables. by rewrite update_spec.
    - exists w1, (addresses (db w1)). split; [done|]. split; [done|]. split; [by destruct (db w1)|].
      by rewrite map_fmap_id. }
  erewrite bind_run by exact H2.
  set (f2 := λ a, a <| Address.Allocated := false |> <| Address.SecondInterface := 0 |>).
  set (f3 := λ a, a <| Address.SecondInterface := 0 |>).
  destruct (update_runs (λ a, (Address.SecondInterface a =? Interface.ID i) && (Address.Interface a =? 0))
              f2 c w2 Hn) as (w3 & H3 & Hd3 & Hs3).
  destruct (update_runs (λ a, (Address.SecondInterface a =? Interface.ID i) && (0 <? Address.Interface a))
              f3 c w3 Hn) as (w4 & H4 & Hd4 & Hs4).
  destruct (update_runs (λ s, Subnet.Interface s =? Interface.ID i)
              (λ s, s <| Subnet.Interface := 0 |>) c w4 Hn) as (w5 & H5 & Hd5 & Hs5).
  exists w5. erewrite bind_run by exact H3. erewrite bind_run by exact H4.
  split; [exact H5|]. split; [congruence|]. rewrite Hd5, Hd4, Hd3, Hd2, Hd1. tables.
  split; [by do 3 eexists|]. split; [exact Ht1|]. simpl.
  rewrite !update_spec, Ht2, Hd1 by done. simpl. by rewrite <- !map_fmap_compose.
Qed.

(** Posts that reach the endpoint. *)
Definition endpoint_up : Prop := ∀ n, post_result n = PostOk.

Lemma post_runs control command c w :
  endpoint_up → ∃ w', HyperExecute control command c w = (Ok tt, w') ∧ db w' = db w.
Proof. intros Hp. unfold HyperExecute. rewrite Hp. by eexists. Qed.

Lemma drop_loop_runs l (post : Interface.t → M unit) c w :
  no_faults →
  Forall (λ i, Interface.ID i ≠ 0 ∧ ∀ w, ∃ w', post i c w = (Ok tt, w') ∧ db w' = db w) l →
  ∃ w', for_each l (λ i, _ ← drop_interface i; post i) c w = (Ok tt, w') ∧
    only_nics (db w) (db w') ∧
    rows (interfaces (db w')) = foldl drop_nic (rows (interfaces (db w))) l ∧
    rows (addresses (db w')) = (λ a, foldl drop_address a l) <$> rows (addresses (db w)).
Proof.
  intros Hn. revert w. induction l as [|i l IH]; intros w; simpl.
  - intros _. exists w. split; [done|]. split; [apply only_nics_refl|]. by rewrite map_fmap_id.
  - intros [[Hi Hpost] Hl]%Forall_cons.
    destruct (drop_interface_runs i c w Hn Hi) as (w1 & H1 & _ & Ho1 & Hf1 & Ha1).
    destruct (Hpost w1) as (w2 & H2 & Hd2). destruct (IH w2 Hl) as (w3 & H3 & Ho3 & Hf3 & Ha3).
    exists w3. rewrite Hd2 in *. split.
    { erewrite bind_run; [|erewrite bind_run by exact H1; exact H2]. exact H3. }
    split; [by eapply only_nics_trans|]. rewrite Hf3, Ha3, Hf1, Ha1. by rewrite <- map_fmap_compose.
Qed.

(** ** What the loop computes *)

Lemma taken_off_twice i : taken_off (taken_off i) = taken_off i.
Proof. destruct i. cbv. reflexivity. Qed.

(** The interfaces after the loop: [l] lists rows of [m]. *)
Lemma dropped_nics m l k :
  Forall (λ i, ∃ z, m !! Interface.ID i = Some z ∧
                    Interface.FloatingIp z = Interface.FloatingIp i) l →
  foldl drop_nic m l !! k =
  match m !! k with
  | Some z => if existsb (λ i, Interface.ID i =? k) l
              then (if Interface.FloatingIp z =? 0 then None else Some (taken_off z)) else Some z
  | None => None
  end.
Proof.
  induction l as [|i l IH] using rev_ind; intros Hl; [simpl; by destruct (m !! k)|].
  apply Forall_app in Hl as [Hl [(z & Hz & Hfz) _]%Forall_cons]. specialize (IH Hl).
  rewrite foldl_app, existsb_app. simpl. rewrite orb_false_r. unfold drop_nic at 1.
  destruct (Z.eqb_spec (Interface.ID i) k) as [<-|Hk].
  - rewrite orb_true_r, Hz in *. rewrite <- Hfz. destruct (Interface.FloatingIp z =? 0) eqn:Hf.
    + by rewrite lookup_delete_eq.
    + rewrite lookup_alter_eq, IH. destruct (existsb _ l); [|done]. simpl. by rewrite taken_off_twice.
  - rewrite orb_false_r. destruct (_ =? 0); [rewrite lookup_delete_ne by done|rewrite lookup_alter_ne by done];
      exact IH.
Qed.

(** The part of an interface list that is deleted. *)
Definition removes (j : Z) (i : Interface.t) : bool :=
  (Interface.FloatingIp i =? 0) && (j =? Interface.ID i).

(** The first interface of an address after the loop; the address is free when that
    interface was removed. *)
(** An address after all interfaces of a list went away: [R] when its own interface was
    deleted, [S] when the interface it is a second address of is in the list. *)
Definition after_drops (R S : bool) (a : Address.t) : Address.t :=
  let a1 := if R then a <| Address.Allocated := false |> <| Address.Interface := 0 |> else a in
  if S then (if Address.Interface a =? 0 then a1 <| Address.Allocated := false |> else a1)
              <| Address.SecondInterface := 0 |>
  else a1.

Definition holds_second (j : Z) i : bool := Interface.ID i =? j.

Lemma after_drops_fields (R S : bool) (a : Address.t) :
  Address.Interface (after_drops R S a) = (if R then 0 else Address.Interface a) ∧
  Address.SecondInterface (after_drops R S a) = (if S then 0 else Address.SecondInterface a).
Proof. unfold after_drops. by destruct R, S, (Address.Interface a =? 0). Qed.

Lemma after_drops_comp (R S R' S' : bool) (a : Address.t) :
  after_drops (if R then false else R') (if S then false else S') (after_drops R S a) =
  after_drops (R || R') (S || S') a.
Proof.
  destruct a as [? ? ? ? ? ? ? al ? ? ? ifc sec ?]. destruct R, S, R', S'; cbv -[Z.eqb];
    destruct (ifc =? 0); reflexivity.
Qed.

Lemma drop_address_after (a : Address.t) i :
  0 ≤ Address.Interface a →
  drop_address a i =
  after_drops (removes (Address.Interface a) i) (holds_second (Address.SecondInterface a) i) a.
Proof.
  intros Ha. unfold drop_address, after_drops, removes, holds_second.
  rewrite (Z.eqb_sym (Interface.ID i)).
  destruct ((Interface.FloatingIp i =? 0) && (Address.Interface a =? Interface.ID i)); cbn.
  - destruct (Address.SecondInterface a =? Interface.ID i) eqn:Hs; cbn; rewrite ?Hs; cbn;
      [|done]. rewrite andb_false_r. by destruct (Address.Interface a =? 0).
  - destruct (Address.SecondInterface a =? Interface.ID i) eqn:Hs; cbn; rewrite ?Hs; cbn; [|done].
    destruct (Z.eqb_spec (Address.Interface a) 0) as [H0|H0]; cbn.
    + by rewrite H0, andb_false_r.
    + rewrite Hs. by rewrite (proj2 (Z.ltb_lt 0 (Address.Interface a))) by lia.
Qed.

Lemma dropped_address (a : Address.t) l :
  Forall (λ i, Interface.ID i ≠ 0) l → 0 ≤ Address.Interface a →
  foldl drop_address a l =
  after_drops (existsb (removes (Address.Interface a)) l)
    (existsb (holds_second (Address.SecondInterface a)) l) a.
Proof.
  intros Hl. assert (existsb (removes 0) l = false ∧ existsb (holds_second 0) l = false) as [HR HS].
  { induction Hl as [|i l Hi Hl [H1 H2]]; [done|]. cbn [existsb]. rewrite H1, H2, !orb_false_r.
    unfold removes, holds_second. rewrite (proj2 (Z.eqb_neq 0 _)), andb_false_r by congruence.
    split; [done|]. by apply Z.eqb_neq. }
  revert a HR HS. induction Hl as [|i l Hi Hl IH]; intros a HR HS Ha; [done|].
  cbn [foldl existsb] in *. apply orb_false_iff in HR as [_ HR], HS as [_ HS].
  rewrite drop_address_after by done. set (R := removes _ i). set (S := holds_second _ i).
  destruct (after_drops_fields R S a) as [H1 H2].
  rewrite IH by (try done; rewrite H1; by destruct R). rewrite H1, H2, <- after_drops_comp.
  f_equal; [destruct R|destruct S]; done.
Qed.

(** ** clear_vm *)

(** An interface as [load_addresses] returns it. *)
Lemma load_addresses_Ok l c w l' w' :
  addresses_ok (db w) → load_addresses l c w = (Ok l', w') →
  Forall2 (λ i i', i' = i <| Interface.Address := Interface.Address i' |> ∧
    ((∃ k a, rows (addresses (db w)) !! k = Some a ∧ Address.Interface a = Interface.ID i) →
     ∃ a s, Interface.Address i' = Some a ∧ Address.Subnet a = Some s)) l l'.
Proof.
  intros Hok. unfold load_addresses. destruct l as [|i0 l0]; [by intros [<- _]%ret_Ok|].
  set (l := i0 :: l0). intros (addrs & w1 & H1 & H)%bind_Ok.
  apply bind_Ok in H as (subs & w2 & H2 & [<- _]%ret_Ok).
  apply db_find_Ok in H1 as (Hx & Hd1 & _). tables.
  apply preload_subnets_Ok in H2; [|by rewrite Hd1|]; rewrite Hd1 in *;
    [|intros a Ha; rewrite Hx in Ha; by apply find_spec in Ha as [_ ?]].
  rewrite <- (map_id l) at 1. apply Forall2_fmap, Forall_Forall2_diag, Forall_forall.
  intros i Hi. split; [by destruct i|]. intros (k & a0 & Ha0 & Hk). simpl.
  assert (a0 ∈ addrs) as Hin.
  { rewrite Hx. eapply find_lookup; [done|]. apply existsb_exists. exists i.
    split; [by apply list_elem_of_In|by apply Z.eqb_eq]. }
  apply list_elem_of_lookup in Hin as [n Hn].
  destruct (Forall2_lookup_l _ _ _ _ _ H2 Hn) as (a & Hn' & _ & s & _ & ->).
  destruct (filter_last_some (λ a, Address.Interface a =? Interface.ID i) subs
              (a0 <| Address.Subnet := Some s |>)) as [a Ha];
    [by eapply list_elem_of_lookup_2|simpl; by apply Z.eqb_eq|].
  exists a. rewrite Ha. apply filter_last_elem in Ha as [Hin _].
  apply list_elem_of_lookup in Hin as [m Hm].
  destruct (Forall2_lookup_r _ _ _ _ _ H2 Hm) as (a1 & _ & _ & s1 & _ & ->). by exists s1.
Qed.

(** The withdrawal of the rule of an interface that is loaded. *)
Lemma withdraw_runs i hostIP control c w :
  endpoint_up → (∃ a s, Interface.Address i = Some a ∧ Address.Subnet a = Some s) →
  ∃ w', (rule ← fdb_rule i hostIP;
         HyperExecute control (fwrule_command "del_fwrule.sh" [rule])) c w = (Ok tt, w') ∧
    db w' = db w.
Proof.
  intros Hup (a & s & Ha & Hs). unfold fdb_rule. rewrite Ha. simpl.
  unfold mbind at 1 2, M_bind. simpl. rewrite Hs. simpl. by apply post_runs.
Qed.

Lemma router_hypers_runs k c w :
  no_faults → ∃ s w', router_hypers k c w = (Ok s, w') ∧ db w' = db w.
Proof.
  intros Hn. destruct (read_runs (router_hypers k) c w) as (s & w' & H & Hd & _);
    [unfold router_hypers; ne_tac|unfold router_hypers; np|unfold router_hypers; reads_tac
    |unfold router_hypers; quiet_tac|by exists s, w'].
Qed.

(** The removal of the loaded interfaces of an instance on a known hypervisor. *)
Lemma deleteInterfaces_runs x l k (y : Hyper.t) c w :
  no_faults → endpoint_up → rows (hypers (db w)) !! k = Some y →
  Hyper.Hostid y = Instance.Hyper x →
  Forall (λ i, Interface.ID i ≠ 0 ∧
    (0 < Instance.RouterID x → ∃ a s, Interface.Address i = Some a ∧ Address.Subnet a = Some s)) l →
  ∃ w', deleteInterfaces (Some x) l None None c w = (Ok tt, w') ∧ only_nics (db w) (db w') ∧
    rows (interfaces (db w')) = foldl drop_nic (rows (interfaces (db w))) l ∧
    rows (addresses (db w')) = (λ a, foldl drop_address a l) <$> rows (addresses (db w)).
Proof.
  intros Hn Hup Hy Hhost Hl. unfold deleteInterfaces. simpl. unfold GetContextDB.
  set (c1 := c <| dbkey := true |>).
  assert (∃ (z : Hyper.t) w1, db_take (hosted (Instance.Hyper x)) c1 w = (Ok z, w1) ∧ db w1 = db w)
    as (z & w1 & H1 & Hd1).
  { unfold db_take, mbind, M_bind. rewrite stmt_runs by done. cbn.
    destruct (g_take (hosted (Instance.Hyper x)) (hypers (db w))) as [z|] eqn:Hz; [by do 2 eexists|].
    pose proof (take_none _ _ Hz _ _ Hy) as Hp. unfold hosted in Hp. by rewrite Hhost, Z.eqb_refl in Hp. }
  destruct (router_hypers_runs (Instance.RouterID x) c1 w1 Hn) as (s & w2 & H2 & Hd2).
  erewrite bind_run by exact H1. erewrite bind_run by exact H2. erewrite bind_run by reflexivity.
  rewrite <- Hd1, <- Hd2. apply drop_loop_runs; [done|]. eapply Forall_impl; [exact Hl|].
  intros i [Hi Ha]. split; [done|]. intros w3.
  destruct (0 <? Instance.RouterID x) eqn:Hr; simpl; [|by exists w3].
  destruct (0 <=? Instance.Hyper x); simpl; [|by exists w3].
  apply withdraw_runs; [done|]. apply Ha. by apply Z.ltb_lt.
Qed.

(** A volume after the instance is gone. *)
Definition released (id : Z) (v : Volume.t) : Volume.t :=
  if (Volume.InstanceID v =? id) && negb (Volume.Booting v)
  then v <| Volume.InstanceID := 0 |> <| Volume.Target := "" |>
         <| Volume.Status := VolumeStatusAvailable |> else v.

(** The row of the deleted instance. *)
Definition buried x : Instance.t := x
  <| Instance.Hostname := Instance.Hostname x +:+ "-" +:+ fmt_d (instance_created (Instance.ID x)) |>
  <| Instance.Status := InstanceStatusDeleted |> <| Instance.Reason := "" |>.

(** The interfaces of the instance, and those of them that are deleted. *)
Definition owns (id : Z) d (j : Z) : bool :=
  match rows (interfaces d) !! j with Some i => Interface.Instance i =? id | None => false end.

Definition deletes (id : Z) d (j : Z) : bool :=
  match rows (interfaces d) !! j with
  | Some i => (Interface.Instance i =? id) && (Interface.FloatingIp i =? 0) | None => false end.

(** An address after the instance is gone: free when its interface is deleted, or when it
    has no first interface and is a second address of one of the instance; no second
    address of the instance any more; otherwise as it was. *)
Definition left_address (id : Z) d (a : Address.t) : Address.t :=
  let first := deletes id d (Address.Interface a) in
  let second := owns id d (Address.SecondInterface a) in
  let unheld := second && (Address.Interface a =? 0) in
  a <| Address.Allocated := if first || unheld then false else Address.Allocated a |>
    <| Address.Interface := if first then 0 else Address.Interface a |>
    <| Address.SecondInterface := if second then 0 else Address.SecondInterface a |>.

(** What is left of an instance. *)
Record cleared (id : Z) x (d d' : DB) : Prop := {
  cleared_live : rows (instances d') = delete id (rows (instances d));
  cleared_gone : gone (instances d') !! id = Some (buried x);
  cleared_interfaces k : rows (interfaces d') !! k =
    match rows (interfaces d) !! k with
    | Some i => if of_instance id i
                then (if Interface.FloatingIp i =? 0 then None else Some (taken_off i)) else Some i
    | None => None
    end;
  cleared_addresses k (a : Address.t) :
    0 ≤ Address.Interface a →
    rows (addresses d) !! k = Some a → rows (addresses d') !! k = Some (left_address id d a);
  cleared_volumes : rows (volumes d') = released id <$> rows (volumes d)
}.

(** The interfaces of an instance as they are loaded. *)
Lemma instance_nics_runs id c w :
  no_faults → addresses_ok (db w) →
  ∃ l w', (l ← db_find (of_instance id); load_addresses l) c w = (Ok l, w') ∧ db w' = db w ∧
    Forall (λ i, ∃ z, rows (interfaces (db w)) !! Interface.ID i = Some z ∧
                      Interface.Instance z = id ∧ Interface.ID z = Interface.ID i ∧
                      Interface.FloatingIp z = Interface.FloatingIp i ∧
      ((∃ k a, rows (addresses (db w)) !! k = Some a ∧ Address.Interface a = Interface.ID i) →
       ∃ a s, Interface.Address i = Some a ∧ Address.Subnet a = Some s)) l ∧
    (∀ k z, rows (interfaces (db w)) !! k = Some z → Interface.Instance z = id →
       existsb (λ i, Interface.ID i =? k) l = true).
Proof.
  intros Hn Hok.
  destruct (read_runs (l ← db_find (of_instance id); load_addresses l) c w) as (l' & w' & H & Hd & _);
    [unfold load_addresses, preload_subnets; ne_tac|unfold load_addresses, preload_subnets; np
    |unfold load_addresses, preload_subnets; reads_tac|unfold load_addresses, preload_subnets; quiet_tac|].
  exists l', w'. split; [done|]. split; [done|].
  apply bind_Ok in H as (l & w1 & H1 & H2). apply db_find_Ok in H1 as (Hl & Hd1 & _). tables.
  apply load_addresses_Ok in H2; [|by rewrite Hd1]. rewrite Hd1 in H2.
  split.
  - apply Forall_forall. intros i Hi. apply list_elem_of_lookup in Hi as [n Hi].
    destruct (Forall2_lookup_r _ _ _ _ _ H2 Hi) as (z & Hz & Heq & Ha). exists z.
    apply list_elem_of_lookup_2 in Hz. rewrite Hl in Hz.
    apply find_spec in Hz as [Hp%Z.eqb_eq Hz].
    assert (Interface.ID i = Interface.ID z ∧ Interface.FloatingIp i = Interface.FloatingIp z) as [Hid Hf]
      by (by rewrite Heq).
    rewrite Hid, Hf. by split_and!.
  - intros k z Hz Hi. assert (z ∈ l) as Hin
      by (rewrite Hl; eapply find_lookup; [done|by apply Z.eqb_eq]).
    apply list_elem_of_lookup in Hin as [n Hin].
    destruct (Forall2_lookup_l _ _ _ _ _ H2 Hin) as (i & Hii & Heq & _).
    apply existsb_exists. exists i.
    split; [apply list_elem_of_In; by eapply list_elem_of_lookup_2|].
    rewrite Heq. simpl. apply Z.eqb_eq. by apply (rows_id _ _ _ Hz).
Qed.

Lemma bury_runs id x c w :
  no_faults → rows (instances (db w)) !! id = Some x →
  ∃ w' ti tv, bury_instance x c w = (Ok tt, w') ∧ db w' = db w <| instances := ti |> <| volumes := tv |> ∧
    rows ti = delete id (rows (instances (db w))) ∧ gone ti !! id = Some (buried x) ∧
    rows tv = released id <$> rows (volumes (db w)).
Proof.
  intros Hn Hx. pose proof (rows_id _ _ _ Hx) as Hid. simpl in Hid.
  pose proof (rows_pos _ _ _ Hx) as Hpos. unfold bury_instance. rewrite Hid.
  set (t1 := g_delete (by_pk id) (instances (db w))).
  assert (H1 : db_delete (R := Instance.t) (by_pk id) c w = (Ok tt, tick w <| db := db w <| instances := t1 |> |>))
    by (unfold db_delete; by rewrite stmt_runs).
  erewrite bind_run by exact H1. set (w1 := tick w <| db := _ |>).
  unfold VolumeAdmin_UpdateDataVolumeStatus.
  destruct (update_runs (λ r, (Volume.InstanceID r =? id) && negb (Volume.Booting r))
    (λ r, r <| Volume.InstanceID := 0 |> <| Volume.Target := "" |> <| Volume.Status := VolumeStatusAvailable |>)
    c w1 Hn) as (w2 & H2 & Hd2 & _).
  erewrite bind_run by exact H2. set (f := λ r, r <| Instance.Hostname := _ |> <| Instance.Status := _ |>
    <| Instance.Reason := _ |>).
  destruct (update_all_runs (by_id id) f c w2 Hn) as (w3 & H3 & Hd3 & _).
  exists w3, (g_update_all (by_id id) f t1), (g_update (λ r, (Volume.InstanceID r =? id) && negb (Volume.Booting r))
    (λ r, r <| Volume.InstanceID := 0 |> <| Volume.Target := "" |> <| Volume.Status := VolumeStatusAvailable |>)
    (volumes (db w))).
  split; [exact H3|]. rewrite Hd3, Hd2. tables. split; [reflexivity|].
  rewrite update_all_spec, update_spec by done.
  assert (Hr1 : rows t1 = delete id (rows (instances (db w)))) by (apply delete_pk; lia).
  split; [|split; [|done]].
  - rewrite Hr1. apply map_eq. intros j. rewrite lookup_fmap.
    destruct (decide (j = id)) as [->|Hj]; [by rewrite lookup_delete_eq|].
    rewrite lookup_delete_ne by done. destruct (rows (instances (db w)) !! j) as [z|] eqn:Hz; [|done].
    simpl. unfold by_id. rewrite (rows_id _ _ _ Hz). by rewrite (proj2 (Z.eqb_neq _ _) Hj).
  - rewrite update_all_gone by done. rewrite lookup_fmap. unfold t1. rewrite delete_gone, Hx.
    unfold by_pk, by_id. simpl. rewrite Hid, pk_self. simpl. rewrite Hid, Z.eqb_refl. f_equal.
    unfold buried, f. by rewrite Hid.
Qed.

(** What the loop on the interfaces [l] of an instance does to the rows. *)
Lemma dropped_rows id l d :
  Forall (λ i, ∃ z, rows (interfaces d) !! Interface.ID i = Some z ∧
                    Interface.Instance z = id ∧ Interface.ID z = Interface.ID i ∧
                    Interface.FloatingIp z = Interface.FloatingIp i ∧
    ((∃ k a, rows (addresses d) !! k = Some a ∧ Address.Interface a = Interface.ID i) →
     ∃ a s, Interface.Address i = Some a ∧ Address.Subnet a = Some s)) l →
  (∀ k z, rows (interfaces d) !! k = Some z → Interface.Instance z = id →
     existsb (λ i, Interface.ID i =? k) l = true) →
  (∀ k, foldl drop_nic (rows (interfaces d)) l !! k =
     match rows (interfaces d) !! k with
     | Some i => if of_instance id i
                 then (if Interface.FloatingIp i =? 0 then None else Some (taken_off i)) else Some i
     | None => None
     end) ∧
  (∀ a : Address.t, 0 ≤ Address.Interface a → foldl drop_address a l = left_address id d a).
Proof.
  intros Hl Hall.
  assert (Hids : Forall (λ i, Interface.ID i ≠ 0) l).
  { eapply Forall_impl; [exact Hl|]. intros i (z & Hz & _). apply rows_pos in Hz. lia. }
  assert (Hrows : Forall (λ i, ∃ z, rows (interfaces d) !! Interface.ID i = Some z ∧
                    Interface.FloatingIp z = Interface.FloatingIp i) l).
  { eapply Forall_impl; [exact Hl|]. intros i (z & Hz & _ & _ & Hfz & _). eauto. }
  rewrite Forall_forall in Hl. split_and!.
  - intros j. rewrite dropped_nics by done.
    destruct (rows (interfaces d) !! j) as [z|] eqn:Hz; [|done]. unfold of_instance.
    destruct (Z.eqb_spec (Interface.Instance z) id) as [Hi|Hi]; [by erewrite Hall|].
    destruct (existsb _ l) eqn:Hex; [|done].
    apply existsb_exists in Hex as (i & Hi1%list_elem_of_In & Hi2%Z.eqb_eq).
    destruct (Hl i Hi1) as (z' & Hz' & Hzi & _). rewrite Hi2, Hz in Hz'. by simplify_eq.
  - intros a Ha. rewrite dropped_address by done.
    assert (existsb (removes (Address.Interface a)) l = deletes id d (Address.Interface a)) as ->.
    { apply eq_true_iff_eq. unfold deletes, removes. rewrite existsb_exists.
      setoid_rewrite <- list_elem_of_In. setoid_rewrite andb_true_iff. setoid_rewrite Z.eqb_eq. split.
      - intros (i & Hi & Hf & Hid). destruct (Hl i Hi) as (z & Hz & Hzi & _ & Hzf & _).
        rewrite <- Hid in Hz. rewrite Hz, Hzf, Hf, Hzi, Z.eqb_refl. done.
      - destruct (rows (interfaces d) !! _) as [z|] eqn:Hz; [|done].
        intros [Hzi%Z.eqb_eq Hzf%Z.eqb_eq]%andb_true_iff.
        pose proof (Hall _ _ Hz Hzi) as (i & Hi%list_elem_of_In & Hid%Z.eqb_eq)%existsb_exists.
        destruct (Hl i Hi) as (z' & Hz' & _ & _ & Hf & _). rewrite Hid, Hz in Hz'. simplify_eq.
        exists i. split_and!; [done|congruence|done]. }
    assert (existsb (holds_second (Address.SecondInterface a)) l = owns id d (Address.SecondInterface a)) as ->.
    { apply eq_true_iff_eq. unfold owns, holds_second. split.
      - intros (i & Hi%list_elem_of_In & Hid%Z.eqb_eq)%existsb_exists.
        destruct (Hl i Hi) as (z & Hz & Hzi & _). rewrite Hid in Hz. by rewrite Hz, Hzi, Z.eqb_refl.
      - destruct (rows (interfaces d) !! _) as [z|] eqn:Hz; [|done]. intros Hzi%Z.eqb_eq.
        exact (Hall _ _ Hz Hzi). }
    unfold after_drops, left_address. destruct (deletes _ _ _), (owns _ _ _), (Address.Interface a =? 0); cbn;
      by destruct a.
Qed.

(** C15. When a hypervisor reports that it has removed an instance, the instance is
    deleted and marked so.  Its interfaces go, those of floating IPs apart, which stay and
    are taken off it; an address whose interface is deleted is free, the address of a
    floating IP keeps its interface and stays allocated, an address that is only a second
    address of the instance is free, one that is also the first address of an interface that
    stays only loses the reference, and every other address is as it was; its data volumes
    are available.  The report returns when the database and the endpoint work, the
    hypervisor of the instance is known, every address is in a subnet and every interface of
    the instance has an address, which is needed only behind a router. *)
Theorem clear_vm_spec name idt id x k (y : Hyper.t) c w :
  no_faults → endpoint_up → ParseInt 64 idt = Some id →
  rows (instances (db w)) !! id = Some x →
  rows (hypers (db w)) !! k = Some y → Hyper.Hostid y = Instance.Hyper x →
  addresses_ok (db w) →
  (0 < Instance.RouterID x → ∀ j i, rows (interfaces (db w)) !! j = Some i →
     Interface.Instance i = id →
     ∃ n a, rows (addresses (db w)) !! n = Some a ∧ Address.Interface a = j) →
  ∃ w', ClearVM [name; idt] c w = (Ok "", w') ∧ cleared id x (db w) (db w').
Proof.
  intros Hn Hup Hidt Hx Hy Hhost Hok Haddr. set (c1 := c <| dbkey := true |>).
  destruct (db_get_runs (HD := in_instances) id x c1 w Hn Hx) as (w1 & H1 & Hd1 & _).
  destruct (instance_nics_runs id c1 w1 Hn) as (l & w2 & H2 & Hd2 & Hl & Hall); [by rewrite Hd1|].
  rewrite Hd1 in *. assert (Hd : db w2 = db w) by done.
  assert (Hids : Forall (λ i, Interface.ID i ≠ 0) l).
  { eapply Forall_impl; [exact Hl|]. intros i (z & Hz & _). apply rows_pos in Hz. lia. }
  destruct (deleteInterfaces_runs x l k y c1 w2 Hn Hup) as (w3 & H3 & Ho3 & Hf3 & Ha3);
    [by rewrite Hd|done| |].
  { eapply Forall_impl; [exact Hl|]. intros i (z & Hz & Hzi & Hzid & _ & Hload).
    split; [apply rows_pos in Hz; lia|]. intros Hr. apply Hload. eauto. }
  rewrite Hd in *. destruct (bury_runs id x c1 w3 Hn) as (w4 & ti & tv & H4 & Hd4 & Hti & Hg & Htv).
  { by destruct Ho3 as (? & ? & ? & ->). }
  exists w4. split.
  { apply with_tx_Ok. fold c1. do 2 (erewrite bind_run by reflexivity).
    erewrite bind_run by (by apply parse_runs). erewrite bind_run by exact H1.
    erewrite bind_run by exact H2. erewrite bind_run by exact H3. by erewrite bind_run by exact H4. }
  destruct (dropped_rows id l (db w) Hl Hall) as (Hdn & Hda).
  destruct Ho3 as (? & ? & ? & Ho3).
  split; rewrite Hd4; simpl; [by rewrite Hti, Ho3|done|by rewrite Hf3| |by rewrite Htv, Ho3].
  intros j a Ha0 Ha. rewrite Ha3, lookup_fmap, Ha. simpl. f_equal. by apply Hda.
Qed.

(** ** migrate_vm *)

(** A property that does not look at instances, interfaces and floating IPs. *)
Definition fleet_free (I : DB → Prop) : Prop :=
  (∀ d t, I d → I (d <| instances := t |>)) ∧ (∀ d t, I d → I (d <| interfaces := t |>)) ∧
  (∀ d t, I d → I (d <| floating_ips := t |>)).

Lemma renames_pres {A} (I : DB → Prop) (m : M A) :
  fleet_free I → (∀ d0, preserves (renames d0) m) → preserves I m.
Proof.
  intros (_ & Hf & _) Hm c w Hw. destruct (Hm (db w) c w (renames_refl _)) as [Hd _].
  rewrite Hd. by apply Hf.
Qed.

Lemma reads_keep {A} (I : DB → Prop) (m : M A) : reads m → preserves I m.
Proof. intros Hm c w Hw. by rewrite Hm. Qed.

Lemma pres_interface_infos I x l : fleet_free I → preserves I (interface_infos x l).
Proof.
  intros HI. revert x. induction l as [|i l IH]; intros x; simpl; [apply pres_ret|].
  apply pres_bind; [apply renames_pres; [done|]; intros; apply GetInterfaceInfo_renames|].
  intros [v x']. apply pres_bind; [apply IH|]. intros []. apply pres_ret.
Qed.

Lemma pres_syncNicInfo I x l : fleet_free I → preserves I (syncNicInfo x l).
Proof.
  intros HI. unfold syncNicInfo. apply pres_bind; [by apply pres_interface_infos|].
  intros [v x']. apply pres_bind; [apply GetImageOSCode_reads|]. intros []. pres.
Qed.

Lemma pres_syncFloatingIp I x l : fleet_free I → preserves I (syncFloatingIp x l).
Proof.
  intros (_ & _ & Hf). unfold syncFloatingIp, load_fip_interfaces, load_addresses. pres;
    try apply preload_subnets_reads.
  match goal with |- preserves _ (floating_loop _ _ ?l ?e) => generalize e; induction l as [|f fs IH] end;
    intros e; simpl; [by destruct e; pres|].
  apply pres_bind; [apply pres_try; unfold FloatingIpAdmin_EnsureSubnetID; pres;
    apply pres_db_update; intros; by apply Hf|].
  intros [fip|e']; [|apply IH]. pres.
Qed.

Lemma pres_LaunchVM I args : fleet_free I → preserves I (LaunchVM args).
Proof.
  intros HI. pose proof HI as (Hi & Hf & _). unfold LaunchVM, record_launch, sync_all.
  pres; try (by apply preload_addresses_reads); try (apply pres_db_update; intros; (by apply Hi) || (by apply Hf));
    try (by apply pres_syncNicInfo); try (by apply pres_syncFloatingIp);
    try (by apply reads_keep, syncMigration_reads).
Qed.

(** The rows a migration is recorded in. *)
Definition tracked (migrationID taskID : Z) (d : DB) : Prop :=
  is_Some (rows (migrations d) !! migrationID) ∧ is_Some (rows (tasks d) !! taskID).

Lemma tracked_free m t : fleet_free (tracked m t).
Proof. by split_and!; intros d u [? ?]. Qed.

Lemma tracked_migrations m t p f d :
  keeps_id f → tracked m t d → tracked m t (d <| migrations := g_update p f (migrations d) |>).
Proof.
  intros Hf [[x Hx] Ht]. split; [|done]. simpl. rewrite update_lookup, Hx by done. by eexists.
Qed.

Lemma tracked_tasks m t p f d :
  keeps_id f → tracked m t d → tracked m t (d <| tasks := g_update p f (tasks d) |>).
Proof.
  intros Hf [Hm [x Hx]]. split; [done|]. simpl. rewrite update_lookup, Hx by done. by eexists.
Qed.

Lemma tracked_task m t (x : Task.t) : preserves (tracked m t) (db_create x).
Proof.
  apply pres_db_create. intros d n [Hm [z Hz]]. split; [done|]. tables. simpl.
  destruct (g_create _ _) as [y tb] eqn:Hc.
  apply create_spec in Hc as (_ & Hfree & _ & Hr). simpl. rewrite Hr.
  rewrite lookup_insert_ne; [by eexists|]. intros Heq.
  rewrite Heq in Hfree. by rewrite Hz in Hfree.
Qed.

Lemma tracked_body m t args mg taskID x vs instID hyperID status :
  preserves (tracked m t) (migrate_body args mg taskID x vs instID hyperID status).
Proof.
  assert (Hl : preserves (tracked m t) (launch_migrated args)).
  { unfold launch_migrated. pres. apply pres_LaunchVM, tracked_free. }
  assert (Hs : ∀ s, preserves (tracked m t) (set_instance_status instID s)).
  { intros s. apply pres_db_update. intros d. apply tracked_free. }
  assert (Hx : ∀ mg n s ty, preserves (tracked m t) (execSourceMigrate x vs mg n s ty))
    by (intros; apply execSourceMigrate_reads).
  unfold migrate_body. repeat case_match; pres; auto; try apply tracked_task.
  - unfold target_prepared, choose_target. pres; auto; try apply tracked_task;
      apply pres_db_update; intros d; by apply tracked_migrations || by apply tracked_tasks.
  - unfold source_prepared, clear_second_ips. pres; try apply preload_addresses_reads;
      try apply GetImageOSCode_reads.
    apply renames_pres; [apply tracked_free|]. intros. apply GetInstanceNetworks_renames.
Qed.

(** The status of the task, given the outcome of the step. *)
Definition task_status {A} (status : string) (r : Res A) : string :=
  match r with
  | Err _ => "failed"
  | _ => if String.eqb status "failed" then "failed" else "completed"
  end.

Lemma record_migration_runs mg taskID status message err c w :
  no_faults → tracked (Migration.ID mg) taskID (db w) →
  ∃ w' m t, record_migration mg taskID status message err c w = (Ok tt, w') ∧
    rows (migrations (db w')) !! Migration.ID mg = Some m ∧ Migration.Status m = status ∧
    rows (tasks (db w')) !! taskID = Some t ∧
    Task.Status t = task_status status (match err with Some e => Err e | None => Ok tt end) ∧
    ∀ e, err = Some e → Task.Message t = Error error_text e.
Proof.
  intros Hn [[m Hm] [t Ht]]. pose proof (rows_pos _ _ _ Hm) as Hpos. unfold record_migration.
  set (ts := match err with Some e => ("failed", Error error_text e)
             | None => (if String.eqb status "failed" then status else "completed", message) end).
  destruct ts as [st msg] eqn:Hts.
  destruct (update_runs (by_id taskID) (λ t, t <| Task.Status := st |> <| Task.Message := msg |>) c w Hn)
    as (w1 & H1 & Hd1 & _).
  destruct (update_runs (by_pk (Migration.ID mg)) (λ m, m <| Migration.Status := status |>) c w1 Hn)
    as (w2 & H2 & Hd2 & _).
  exists w2, (m <| Migration.Status := status |>), (t <| Task.Status := st |> <| Task.Message := msg |>).
  split; [by erewrite try_run by exact H1|]. rewrite Hd2, Hd1. tables. simpl.
  split_and!; [|done| | |].
  - rewrite update_pk with (r := m); [apply lookup_insert_eq|lia|done|done].
  - rewrite update_key with (r := t); [apply lookup_insert_eq|done|done].
  - subst ts. destruct err; simplify_eq; simpl; [done|].
    by destruct (String.eqb_spec status "failed") as [->|].
  - intros e ->. subst ts. by simplify_eq.
Qed.

(** A transaction that ends without an error. *)
Lemma with_tx_keep {A} (m : M A) c w r w' :
  m (c <| dbkey := true |>) w = (r, w') → (∀ e, r ≠ Err e) → with_tx m c w = (r, w').
Proof.
  intros H Hr. destruct (with_tx_run m c w r w' H) as (w2 & H2 & _ & Hw).
  rewrite H2. destruct r as [|e|]; [by subst|by destruct (Hr e)|by subst].
Qed.

(** C16. A migration report is recorded whatever its step does: the handler returns the
    reported status, or panics with the step, but never an error, and the transaction is
    committed.  The migration gets the reported status even when the step fails; then only
    the task is failed, with the text of the error as its message.  This is not what the
    comment in MigrateVM says, by which both the migration and the task are set to failed on
    any error: a step that fails leaves a migration that is not failed unless failed was
    reported.  It is assumed that no statement of the database fails, that the migration,
    the task and the instance exist, and that the report is not one of missing resources. *)
Theorem migration_report_recorded name a1 a2 a3 a4 status more migrationID taskID instID hyperID
    m t x c w :
  no_faults → errkey c = None →
  ParseInt 64 a1 = Some migrationID → ParseInt 64 a2 = Some taskID →
  ParseInt 64 a3 = Some instID → ParseInt 64 a4 = Some hyperID →
  rows (migrations (db w)) !! migrationID = Some m → rows (tasks (db w)) !! taskID = Some t →
  rows (instances (db w)) !! instID = Some x →
  let args := name :: a1 :: a2 :: a3 :: a4 :: status :: more in
  ∃ vs w0 r w1 w' m' t',
    db w0 = db w ∧ sent w0 = sent w ∧
    migrate_body args m taskID x vs instID hyperID status (c <| dbkey := true |>) w0 = (r, w1) ∧
    MigrateVM args c w = (match r with Panic => Panic | _ => Ok status end, w') ∧
    rows (migrations (db w')) !! migrationID = Some m' ∧ Migration.Status m' = status ∧
    rows (tasks (db w')) !! taskID = Some t' ∧ Task.Status t' = task_status status r ∧
    ∀ e, r = Err e → Task.Status t' = "failed" ∧ Task.Message t' = Error error_text e ∧
      (status ≠ "failed" → Migration.Status m' ≠ "failed").
Proof.
  intros Hn Hc H1 H2 H3 H4 Hm Ht Hx args. set (c1 := c <| dbkey := true |>).
  destruct (db_get_runs (HD := in_migrations) migrationID m c1 w Hn Hm) as (w1 & G1 & Hd1 & Hs1).
  destruct (db_get_runs (HD := in_instances) instID x c1 w1 Hn) as (w2 & G2 & Hd2 & Hs2);
    [tables; by rewrite Hd1|].
  destruct (read_runs (db_find (λ v, Volume.InstanceID v =? Instance.ID x)) c1 w2)
    as (vs & w3 & G3 & Hd3 & Hs3); [ne_tac|np|reads_tac|quiet_tac|].
  destruct (migrate_body args m taskID x vs instID hyperID status c1 w3) as [r w4] eqn:Hb.
  assert (Htr : tracked migrationID taskID (db w4)).
  { pose proof (tracked_body migrationID taskID args m taskID x vs instID hyperID status c1 w3) as Hk.
    rewrite Hb in Hk. apply Hk. rewrite Hd3, Hd2, Hd1. split; by eexists. }
  pose proof (rows_id _ _ _ Hm) as Hid. simpl in Hid. rewrite <- Hid in Htr.
  destruct (record_migration_runs m taskID status (nth 6 args "")
              (match r with Err e => Some e | _ => None end) c1 w4 Hn Htr)
    as (w5 & m' & t' & G5 & Hm' & Hms & Ht' & Hts & Htm).
  exists vs, w3, r, w4, w5, m', t'. rewrite Hid in Hm'.
  split_and!; [congruence|congruence|done| |done|done|done|by destruct r|].
  2: { intros e ->. split; [done|]. split; [by apply Htm|]. by rewrite Hms. }
  apply with_tx_keep; [|by destruct r]. fold c1.
  do 2 (erewrite bind_run by reflexivity). erewrite bind_run by (by apply parse_runs).
  do 3 (erewrite bind_run by reflexivity; erewrite bind_run by (by apply parse_runs)).
  erewrite bind_run by reflexivity. erewrite bind_run by exact G1. erewrite bind_run by exact G2.
  erewrite bind_run by exact G3. erewrite bind_run by reflexivity.
  change (errkey c1) with (errkey c). rewrite Hc.
  unfold mbind, M_bind, with_defer. rewrite Hb. by destruct r; rewrite G5.
Qed.

End life.

(** ** Witnesses *)

Module InstanceWitness.
Import Scenario.

#[local] Existing Instance MemGorm.
#[local] Existing Instance MemGormOk.
#[local] Existing Instance env.

Definition vm5 : Instance.t :=
  Instance.zero <| Instance.ID := 5 |> <| Instance.Hostname := "web" |>
    <| Instance.Status := "running" |> <| Instance.Hyper := 3 |> <| Instance.RouterID := 1 |>.

Definition nic7 : Interface.t :=
  Interface.zero <| Interface.ID := 7 |> <| Interface.Instance := 5 |> <| Interface.Name := "eth0" |>
    <| Interface.PrimaryIf := true |> <| Interface.Hyper := 3 |>.

Definition address9 : Address.t :=
  Address.zero <| Address.ID := 9 |> <| Address.SubnetID := 8 |> <| Address.Allocated := true |>
    <| Address.Address := "10.0.0.9/24" |> <| Address.Interface := 7 |>.

Definition subnet8 : Subnet.t := Subnet.zero <| Subnet.ID := 8 |> <| Subnet.Vlan := 5000 |>.

(** A cold migration away from a hypervisor that is down. *)
Definition down4 : Hyper.t :=
  Hyper.zero <| Hyper.ID := 4 |> <| Hyper.Hostid := 4 |> <| Hyper.Status := 10 |>.
Definition move2 : Migration.t :=
  Migration.zero <| Migration.ID := 2 |> <| Migration.InstanceID := 5 |>
    <| Migration.Type_ := "cold" |> <| Migration.SourceHyper := 4 |> <| Migration.TargetHyper := 3 |>.
Definition task6 : Task.t :=
  Task.zero <| Task.ID := 6 |> <| Task.Mission := 2 |> <| Task.Status := "in_progress" |>.

Definition fleet_db : DB :=
  empty_db <| instances := table_of [vm5] |> <| interfaces := table_of [nic7] |>
    <| addresses := table_of [address9] |> <| subnets := table_of [subnet8] |>
    <| hypers := table_of [HyperWitness.hyper3] |>.

Definition fleet_world : World := mkWorld fleet_db [] 0.

(** The instance deleted. *)
Definition deleted5 : Instance.t := vm5 <| Instance.Status := "deleted" |>.
Definition deleted_world : World :=
  mkWorld (fleet_db <| instances := g_delete (by_pk 5) (table_of [deleted5]) |>) [] 0.

Definition moving_world : World :=
  mkWorld (fleet_db <| hypers := table_of [HyperWitness.hyper3; down4] |>
             <| migrations := table_of [move2] |> <| tasks := table_of [task6] |>) [] 0.

Lemma fleet_up : endpoint_up.
Proof. done. Qed.

Lemma status_report_refines_witness : ∃ w',
  InstanceStatus ["inst_status.sh"; "3"; "5 paused 6 running"] background fleet_world = (Ok "", w') ∧
  reports 3 [(5, "paused"); (6, "running")] (fleet_of fleet_db) (fleet_of (db w')).
Proof.
  destruct (status_report_refines "inst_status.sh" "3" "5 paused 6 running" 3 2 HyperWitness.hyper3
    [(5, "paused"); (6, "running")] background fleet_world HyperWitness.hosts_no_faults
    eq_refl eq_refl eq_refl eq_refl ltac:(repeat constructor)) as (w' & H & _ & Hr).
  exists w'. split; [exact H|exact Hr].
Defined.

Lemma revived_instance_witness : ∃ w1 w2 x1 x2,
  InstanceStatus ["inst_status.sh"; "3"; "5 running"] background deleted_world = (Ok "", w1) ∧
  rows (instances (db w1)) !! 5 = Some x1 ∧ Instance.Status x1 = "deleted" ∧
  InstanceStatus ["inst_status.sh"; "3"; "5 running"] background w1 = (Ok "", w2) ∧
  rows (instances (db w2)) !! 5 = Some x2 ∧ Instance.Status x2 = "running".
Proof.
  exact (revived_instance "inst_status.sh" "3" "5 running" 3 2 HyperWitness.hyper3 5 "running"
    deleted5 background deleted_world HyperWitness.hosts_no_faults
    eq_refl eq_refl eq_refl eq_refl ltac:(lia) eq_refl ltac:(by vm_compute) ltac:(by vm_compute)).
Defined.

Lemma launch_recorded_witness : ∃ w',
  LaunchVM ["launch_vm.sh"; "5"; "running"; "3"; "init"; "12"] background fleet_world = (Ok "", w') ∧
  sent w' = [] ∧
  ∃ ti tf, db w' = fleet_db <| instances := ti |> <| interfaces := tf |> ∧
    rows ti = <[5 := launch_row "running" "init" ["12"] 3 1 vm5]>
                (rows (instances fleet_db)) ∧
    rows tf = on_hyper 5 3 <$> rows (interfaces fleet_db).
Proof.
  exact (launch_recorded "launch_vm.sh" "5" "running" "3" "init" ["12"] 5 3 vm5 2 HyperWitness.hyper3
    background fleet_world HyperWitness.hosts_no_faults eq_refl eq_refl eq_refl eq_refl eq_refl eq_refl
    (λ j z Hz _, proj1 (HyperWitness.one_row HyperWitness.hyper3 j z Hz)) ltac:(done)).
Defined.

Lemma clear_vm_spec_witness : ∃ w',
  ClearVM ["clear_vm.sh"; "5"] background fleet_world = (Ok "", w') ∧ cleared 5 vm5 fleet_db (db w').
Proof.
  apply (clear_vm_spec "clear_vm.sh" "5" 5 vm5 2 HyperWitness.hyper3 background fleet_world
    HyperWitness.hosts_no_faults fleet_up eq_refl eq_refl eq_refl eq_refl).
  - intros k a [-> _]%HyperWitness.one_row. by eexists.
  - intros _ j i [-> ->]%HyperWitness.one_row _. exists 9, address9. split; reflexivity.
Defined.

Lemma migration_report_recorded_witness : ∃ r w' m' t',
  MigrateVM ["migrate_vm.sh"; "2"; "6"; "5"; "3"; "rollback"] background moving_world = (r, w') ∧
  rows (migrations (db w')) !! 2 = Some m' ∧ Migration.Status m' = "rollback" ∧
  rows (tasks (db w')) !! 6 = Some t'.
Proof.
  destruct (migration_report_recorded "migrate_vm.sh" "2" "6" "5" "3" "rollback" [] 2 6 5 3 move2 task6
    vm5 background moving_world HyperWitness.hosts_no_faults eq_refl eq_refl eq_refl eq_refl eq_refl
    eq_refl eq_refl eq_refl) as (vs & w0 & r & w1 & w' & m' & t' & _ & _ & _ & H & Hm & Hs & Ht & _).
  eexists _, w', m', t'. split; [exact H|]. split; [exact Hm|]. split; [exact Hs|exact Ht].
Defined.

(** The report that the target of a cold migration is prepared, when the source
    hypervisor is down, makes the handler panic: after the instance was launched on the
    target it reads the text of an error that is nil.  The transaction is committed, with
    the task completed. *)
Theorem cold_migration_panics :
  let r := MigrateVM ["migrate_vm.sh"; "2"; "6"; "5"; "3"; "target_prepared"] background moving_world in
  r.1 = Panic ∧
  Migration.Status <$> rows (migrations (db r.2)) !! 2 = Some "target_prepared" ∧
  Task.Status <$> rows (tasks (db r.2)) !! 6 = Some "completed" ∧
  Instance.Status <$> rows (instances (db r.2)) !! 5 = Some "migrated".
Proof. vm_compute. repeat split. Qed.

End InstanceWitness.
