(* ===== verification/Balancer.v ===== *)
(** * Balancer: load balancers, listeners, backends (routes/loadbalancer.go,
      listener.go, backend.go; common/loadbalancer.go)

    A load balancer answers for the floating IPs bound to it.  It has listeners,
    each with its backends, and a VRRP instance: two interfaces, MASTER and
    BACKUP, on two hypervisors.  The configuration of keepalived (floating IPs and
    ports) and of haproxy (listeners and backends) is sent to the hypervisors as
    JSON whenever one of them changes.

    A struct is modelled with the associations gorm loads into it as a record
    around its row: [LoadedListener], [LoadedBalancer], [LoadedFip].  A struct a
    call changes is one of its results. *)

From S2P Require Import Prelude GoLib Json ErrorCodes Gorm Model Store Scenario Member Catalog Volume Admin Ipam NetInfo Secgroup IpGroup Subnet Dispatch Hyper Fip InstanceRpc.

Definition PublicLoadBalancer := "loadbalancer".

(** ** The structs with what is loaded into them *)

Module LoadedListener.
Record LoadedListener_t := mk { row : Listener.t; Backends : list Backend.t }.
Abbreviation t := LoadedListener_t.
#[global] Instance eta_t : Eta t := λ r, mk (row r) (Backends r).
Definition ID (l : t) : Z := Listener.ID (row l).
End LoadedListener.

Module LoadedBalancer.
Record LoadedBalancer_t := mk {
  row : LoadBalancer.t;
  FloatingIps : list FloatingIp.t;
  Router : option Router.t;
  Listeners : list LoadedListener.t;
  VrrpInstance : option VrrpInstance.t
}.
Abbreviation t := LoadedBalancer_t.
#[global] Instance eta_t : Eta t := λ r,
  mk (row r) (FloatingIps r) (Router r) (Listeners r) (VrrpInstance r).
Definition ID (l : t) : Z := LoadBalancer.ID (row l).
Definition bare (r : LoadBalancer.t) : t := mk r [] None [] None.
End LoadedBalancer.

Module LoadedFip.
Record LoadedFip_t := mk {
  row : FloatingIp.t;
  Instance : option (Instance.t * list Interface.t);   (* with its Interfaces *)
  LoadBalancer : option LoadedBalancer.t;
  Router : option Router.t;
  Group : option IpGroup.t
}.
Abbreviation t := LoadedFip_t.
#[global] Instance eta_t : Eta t := λ r,
  mk (row r) (Instance r) (LoadBalancer r) (Router r) (Group r).
Definition ID (f : t) : Z := FloatingIp.ID (row f).
Definition bare (r : FloatingIp.t) : t := mk r None None None None.
End LoadedFip.

(** ** The configuration of a load balancer (common/loadbalancer.go) *)

Module BackendConfig.
Record BackendConfig_t := mk { BackendURL : string; Status : string; SSL : bool }.
Abbreviation t := BackendConfig_t.
End BackendConfig.

Module ListenerConfig.
Record ListenerConfig_t := mk {
  Name : string;
  Mode : string;
  Key : string;
  Cert : string;
  Port : Z;
  Backends : list BackendConfig.t
}.
Abbreviation t := ListenerConfig_t.
End ListenerConfig.

Module LoadBalancerConfig.
Record LoadBalancerConfig_t := mk {
  Listeners : list ListenerConfig.t;
  FloatingIps : list string          (* no element is the nil slice *)
}.
Abbreviation t := LoadBalancerConfig_t.
End LoadBalancerConfig.

Module LoadBalancerFloatingIp.
Record LoadBalancerFloatingIp_t := mk {
  Address : string;
  Vlan : Z;
  Gateway : string;
  MarkID : Z;
  Inbound : Z;
  Outbound : Z
}.
Abbreviation t := LoadBalancerFloatingIp_t.
End LoadBalancerFloatingIp.

Module LoadBalancerFloatingIpConfig.
Record LoadBalancerFloatingIpConfig_t := mk {
  FloatingIps : list LoadBalancerFloatingIp.t;
  Ports : list Z
}.
Abbreviation t := LoadBalancerFloatingIpConfig_t.
End LoadBalancerFloatingIpConfig.

(** [json.Marshal] of a slice that is nil when it has no element. *)
Definition json_slice {A} (f : A → json) (l : list A) : json :=
  match l with [] => JNull | _ => JArr (map f l) end.

Definition json_backend (b : BackendConfig.t) : json :=
  JObj [("backend_url", JStr (BackendConfig.BackendURL b));
        ("status", JStr (BackendConfig.Status b)); ("ssl", JBool (BackendConfig.SSL b))].

Definition json_listener (l : ListenerConfig.t) : json :=
  JObj [("name", JStr (ListenerConfig.Name l)); ("mode", JStr (ListenerConfig.Mode l));
        ("key", JStr (ListenerConfig.Key l)); ("cert", JStr (ListenerConfig.Cert l));
        ("port", JNum (ListenerConfig.Port l));
        ("backends", JArr (map json_backend (ListenerConfig.Backends l)))].

Definition json_balancer (c : LoadBalancerConfig.t) : json :=
  JObj [("listeners", JArr (map json_listener (LoadBalancerConfig.Listeners c)));
        ("floating_ips", json_slice JStr (LoadBalancerConfig.FloatingIps c))].

Definition json_lb_fip (f : LoadBalancerFloatingIp.t) : json :=
  JObj [("address", JStr (LoadBalancerFloatingIp.Address f));
        ("vlan", JNum (LoadBalancerFloatingIp.Vlan f));
        ("gateway", JStr (LoadBalancerFloatingIp.Gateway f));
        ("mark_id", JNum (LoadBalancerFloatingIp.MarkID f));
        ("inbound", JNum (LoadBalancerFloatingIp.Inbound f));
        ("outbound", JNum (LoadBalancerFloatingIp.Outbound f))].

Definition json_lb_fips (c : LoadBalancerFloatingIpConfig.t) : json :=
  JObj [("floating_ips", json_slice json_lb_fip (LoadBalancerFloatingIpConfig.FloatingIps c));
        ("ports", json_slice JNum (LoadBalancerFloatingIpConfig.Ports c))].

(** [<<EOF\n..\nEOF] *)
Definition here_document (json : string) : string :=
  "<<EOF" +:+ newline +:+ json +:+ newline +:+ "EOF".

(** The words ['a' 'b' ..] after a script. *)
Definition quoted_words (words : list string) : string :=
  Join (map (λ s, "'" +:+ s +:+ "'") words) " ".

Definition backend_script (name : string) (words : list string) : string :=
  "/opt/cloudland/scripts/backend/" +:+ name +:+ " " +:+ quoted_words words.

Definition backend_config (b : Backend.t) : BackendConfig.t :=
  BackendConfig.mk (Backend.BackendAddr b) (Backend.Status b) (Backend.SSL b).

Definition listener_config (lbID : Z) (l : LoadedListener.t) : ListenerConfig.t :=
  let r := LoadedListener.row l in
  ListenerConfig.mk ("lb-" +:+ fmt_d lbID +:+ "-lsn-" +:+ fmt_d (Listener.ID r))
    (Listener.Mode r) (Listener.Key r) (Listener.Certificate r) (Listener.Port r)
    (map backend_config (LoadedListener.Backends l)).

(** The loop of [CreateHaproxyConf]: the listener that changed stands for the one
    loaded before, and a listener without backends is left out. *)
Fixpoint listener_configs (updated : option LoadedListener.t) (lbID : Z)
    (listeners : list LoadedListener.t) : list ListenerConfig.t :=
  match listeners with
  | [] => []
  | listener :: listeners =>
      let listener := match updated with
                      | Some u => if LoadedListener.ID listener =? LoadedListener.ID u then u
                                  else listener
                      | None => listener
                      end in
      match LoadedListener.Backends listener with
      | [] => listener_configs updated lbID listeners
      | _ => listener_config lbID listener :: listener_configs updated lbID listeners
      end
  end.

Definition haproxy_config (updated : option LoadedListener.t) (lb : LoadedBalancer.t)
    : LoadBalancerConfig.t :=
  LoadBalancerConfig.mk
    (listener_configs updated (LoadedBalancer.ID lb) (LoadedBalancer.Listeners lb))
    (map FloatingIp.FipAddress (LoadedBalancer.FloatingIps lb)).

Definition haproxy_command (lb : LoadedBalancer.t) (vrrpID : Z) (config : string) : string :=
  backend_script "create_haproxy_conf.sh"
    [fmt_d (LoadBalancer.RouterID (LoadedBalancer.row lb)); fmt_d (LoadedBalancer.ID lb);
     fmt_d vrrpID] +:+ here_document config.

(** The query of [FloatingIpAdmin.List]: its text has three verbs for two
    arguments. *)
Definition fip_like `{Env} (query : string) (f : FloatingIp.t) : bool :=
  if String.eqb query "" then true
  else sql_like (FloatingIp.FipAddress f) ("%" +:+ query +:+ "%")
       || sql_like (FloatingIp.IntAddress f) ("%" +:+ query +:+ "%")
       || sql_like (FloatingIp.Name f) "%%!s(MISSING)%".

Definition bound_to (lbID : Z) (f : FloatingIp.t) : bool := FloatingIp.LoadBalancerID f =? lbID.

Section loading.
Context {G : Gorm} {E : Env}.

(** ** Loading (the [Preload]s) *)

(** A floating IP as a SELECT leaves it, with no association. *)
Definition bare_fip (f : FloatingIp.t) : FloatingIp.t :=
  f <| FloatingIp.Interface := None |> <| FloatingIp.Subnet := None |>.

Definition lb_fips (lbs : list LoadBalancer.t) : M (list FloatingIp.t) :=
  match lbs with
  | [] => mret []
  | _ =>
      l ← db_find (λ f, existsb (λ b, FloatingIp.LoadBalancerID f =? LoadBalancer.ID b) lbs);
      mret (map bare_fip l)
  end.

(** VrrpInstance and VrrpInstance.VrrpSubnet *)
Definition lb_vrrps (lbs : list LoadBalancer.t) : M (list VrrpInstance.t) :=
  vs ← preload_many (map LoadBalancer.VrrpInstanceID lbs);
  ss ← preload_many (map VrrpInstance.VrrpSubnetID vs);
  mret (map (λ v, v <| VrrpInstance.VrrpSubnet := pick (VrrpInstance.VrrpSubnetID v) ss |>) vs).

Definition load_backends (ls : list Listener.t) : M (list LoadedListener.t) :=
  match ls with
  | [] => mret []
  | _ =>
      bs ← db_find (λ b, existsb (λ l, Backend.ListenerID b =? Listener.ID l) ls);
      mret (map (λ l, LoadedListener.mk l
                        (List.filter (λ b, Backend.ListenerID b =? Listener.ID l) bs)) ls)
  end.

(** Listeners and Listeners.Backends *)
Definition lb_listeners (lbs : list LoadBalancer.t) : M (list LoadedListener.t) :=
  match lbs with
  | [] => mret []
  | _ =>
      ls ← db_find (λ l, existsb (λ b, Listener.LoadBalancerID l =? LoadBalancer.ID b) lbs);
      load_backends ls
  end.

(** One load balancer with its share of what was loaded. *)
Definition assemble (fips : list FloatingIp.t) (routers : list Router.t)
    (listeners : list LoadedListener.t) (vrrps : list VrrpInstance.t) (lb : LoadBalancer.t)
    : LoadedBalancer.t :=
  LoadedBalancer.mk lb (List.filter (bound_to (LoadBalancer.ID lb)) fips)
    (pick (LoadBalancer.RouterID lb) routers)
    (List.filter (λ l, Listener.LoadBalancerID (LoadedListener.row l) =? LoadBalancer.ID lb)
       listeners)
    (pick (LoadBalancer.VrrpInstanceID lb) vrrps).

(** FloatingIps, Router, VrrpInstance and Listeners of one load balancer. *)
Definition load_balancer (lb : LoadBalancer.t) : M LoadedBalancer.t :=
  fips ← lb_fips [lb];
  routers ← preload_many [LoadBalancer.RouterID lb];
  vrrps ← lb_vrrps [lb];
  listeners ← lb_listeners [lb];
  mret (assemble fips routers listeners vrrps lb).

(** ** Reading a load balancer *)

Definition lb_denied : error :=
  NewCLError ErrPermissionDenied "Not authorized to read the load balancer" None.

(** The struct and the error of [Get]: a struct that is not found keeps its
    primary key only. *)
Definition get_balancer (id : Z) : M (LoadedBalancer.t * option error) :=
  GetContextDB (
    m ← GetMemberShip;
    r ← try (lb ← db_take (λ r, where_ok (GetWhere m) (LoadBalancer.Owner r) && by_pk id r);
             load_balancer lb);
    match r with
    | inr e =>
        mret (LoadedBalancer.bare (LoadBalancer.zero <| LoadBalancer.ID := id |>),
              Some (NewCLError ErrLoadBalancerNotFound "Failed to find load balancer" (Some e)))
    | inl lb =>
        mret (lb, if ValidateOwner m Reader (LoadBalancer.Owner (LoadedBalancer.row lb))
                  then None else Some lb_denied)
    end).

(** [None] is the nil pointer, which is returned without an error. *)
Definition LoadBalancerAdmin_Get (id : Z) : M (option LoadedBalancer.t) :=
  if id <=? 0 then mret None
  else
    '(lb, err) ← get_balancer id;
    match err with Some e => fail e | None => mret (Some lb) end.

(** The load balancer a condition selects, [load] doing the preloads. *)
Definition read_balancer (p : LoadBalancer.t → bool)
    (load : LoadBalancer.t → M LoadedBalancer.t) : M LoadedBalancer.t :=
  GetContextDB (
    m ← GetMemberShip;
    lb ← wrap ErrRouterNotFound "Failed to find load balancer" (
           lb ← db_take (λ r, where_ok (GetWhere m) (LoadBalancer.Owner r) && p r);
           load lb);
    _ ← require (ValidateOwner m Reader (LoadBalancer.Owner (LoadedBalancer.row lb))) lb_denied;
    mret lb).

Definition LoadBalancerAdmin_GetLoadBalancerByUUID (uuID : string) : M LoadedBalancer.t :=
  read_balancer (λ r, String.eqb (LoadBalancer.UUID r) uuID) load_balancer.

(** Only the router is loaded. *)
Definition LoadBalancerAdmin_GetLoadBalancerByName (name : string) : M LoadedBalancer.t :=
  read_balancer (λ r, String.eqb (LoadBalancer.Name r) name)
    (λ lb, routers ← preload_many [LoadBalancer.RouterID lb];
           mret (assemble [] routers [] [] lb)).

(** [reference == nil || (reference.ID == "" && reference.Name == "")], then by ID,
    then by name. *)
Definition by_reference {A} (byID byName : string → M A) (reference : option BaseReference.t)
    : M A :=
  let missing := NewCLError ErrInvalidParameter
                   "Router base reference must be provided with either uuid or name" None in
  match reference with
  | Some r =>
      if String.eqb (BaseReference.ID r) "" then
        if String.eqb (BaseReference.Name r) "" then fail missing
        else byName (BaseReference.Name r)
      else byID (BaseReference.ID r)
  | None => fail missing
  end.

Definition LoadBalancerAdmin_GetLoadBalancer : option BaseReference.t → M LoadedBalancer.t :=
  by_reference LoadBalancerAdmin_GetLoadBalancerByUUID LoadBalancerAdmin_GetLoadBalancerByName.

(** The owner of every row of a listing, for an administrator. *)
Definition check_owners (m : MemberShip.t) (owners : list Z) : M unit :=
  if CheckPermission m Admin then
    for_each owners (λ o, _ ← wrap ErrOwnerNotFound "Failed to query owner info"
                                (db_get (R := Organization.t) o); mret tt)
  else mret tt.

Definition LoadBalancerAdmin_List (offset limit : Z) (order query : string)
    : M (Z * list LoadedBalancer.t) :=
  m ← GetMemberShip;
  GetContextDB (
    let p := λ r, where_ok (GetWhere m) (LoadBalancer.Owner r)
                  && name_like query (LoadBalancer.Name r) in
    total ← wrap ErrSQLSyntaxError "Failed to count load balancers" (db_count p);
    lbs ← wrap ErrSQLSyntaxError "Failed to query load balancers" (
      lbs ← db_page (page_order_of order) offset (page_limit_of limit) p;
      fips ← lb_fips lbs;
      vrrps ← lb_vrrps lbs;
      listeners ← lb_listeners lbs;
      routers ← preload_many (map LoadBalancer.RouterID lbs);
      mret (map (assemble fips routers listeners vrrps) lbs));
    _ ← check_owners m (map (LoadBalancer.Owner ∘ LoadedBalancer.row) lbs);
    mret (total, lbs)).

Definition LoadBalancerAdmin_Update (lb : LoadedBalancer.t) (name : string)
    : M LoadedBalancer.t :=
  GetContextDB (
    if String.eqb (LoadBalancer.Name (LoadedBalancer.row lb)) name then mret lb
    else
      _ ← wrap ErrRouterUpdateFailed "Failed to update load balancer"
            (db_update (by_pk (LoadedBalancer.ID lb)) (λ r, r <| LoadBalancer.Name := name |>));
      mret (lb <| LoadedBalancer.row := (LoadedBalancer.row lb) <| LoadBalancer.Name := name |> |>)).

End loading.

Section conf.
Context {G : Gorm} {E : Env}.

(** ** Listing floating IPs ([FloatingIpAdmin.List], routes/floatingip.go) *)

(** Group, Interface with its address and subnet, and Subnet. *)
Definition load_fips (rows : list FloatingIp.t) : M (list LoadedFip.t) :=
  groups ← preload_many (map FloatingIp.GroupID rows);
  rows ← load_fip_interfaces rows;
  subnets ← preload_many (map FloatingIp.SubnetID rows);
  mret (map (λ f, LoadedFip.mk
                    (f <| FloatingIp.Subnet := pick (FloatingIp.SubnetID f) subnets |>)
                    None None None (pick (FloatingIp.GroupID f) groups)) rows).

(** [Preload("Address")] alone. *)
Definition load_bare_addresses (ifaces : list Interface.t) : M (list Interface.t) :=
  match ifaces with
  | [] => mret []
  | _ =>
      addrs ← db_find (λ a, existsb (λ i, Address.Interface a =? Interface.ID i) ifaces);
      mret (map (λ i, i <| Interface.Address :=
              last (map (λ a, a <| Address.Subnet := None |>)
                (List.filter (λ a, Address.Interface a =? Interface.ID i) addrs)) |>) ifaces)
  end.

(** [instance = ? and primary_if = true] *)
Definition primary_of (instID : Z) (i : Interface.t) : bool :=
  (Interface.Instance i =? instID) && Interface.PrimaryIf i.

(** The instance of a floating IP, and whether all could be read.  A struct that
    is not found keeps its key; the zone is loaded for the views only. *)
Definition list_instance (id : Z) : M ((Instance.t * list Interface.t) * bool) :=
  r ← try (i ← db_get id; _ ← preload (R := Zone.t) (Instance.ZoneID i); mret i);
  match r with
  | inr _ => mret ((Instance.zero <| Instance.ID := id |>, []), false)
  | inl i =>
      r ← try (l ← db_find (primary_of (Instance.ID i)); load_bare_addresses l);
      match r with
      | inr _ => mret ((i, []), false)
      | inl l => mret ((i, l), true)
      end
  end.

(** What [EnsureSubnetID] sets in the struct before its statements. *)
Definition ensured (f : FloatingIp.t) : FloatingIp.t :=
  match fip_subnet f with
  | Some subnet =>
      if FloatingIp.SubnetID f =? 0 then f <| FloatingIp.SubnetID := Subnet.ID subnet |> else f
  | None => f
  end.

(** One floating IP of the list: what it is bound to is loaded, and only an error
    of [EnsureSubnetID] stays in [err]. *)
Definition list_round (f : LoadedFip.t) : M (LoadedFip.t * option error) :=
  r ← try (FloatingIpAdmin_EnsureSubnetID (LoadedFip.row f));
  match r with
  | inr e => mret (f <| LoadedFip.row := ensured (LoadedFip.row f) |>, Some e)
  | inl fip =>
      let f := f <| LoadedFip.row := fip |> in
      '(f, ok) ←
        (if 0 <? FloatingIp.InstanceID fip then
           '(i, ok) ← list_instance (FloatingIp.InstanceID fip);
           mret (f <| LoadedFip.Instance := Some i |>, ok)
         else if 0 <? FloatingIp.LoadBalancerID fip then
           '(lb, err) ← get_balancer (FloatingIp.LoadBalancerID fip);
           mret (f <| LoadedFip.LoadBalancer := Some lb |>,
                 match err with None => true | Some _ => false end)
         else mret (f, true));
      if ok && (0 <? FloatingIp.RouterID fip) then
        r ← try (db_get (FloatingIp.RouterID fip));
        mret (f <| LoadedFip.Router := Some (match r with
                     | inl router => router
                     | inr _ => Router.zero <| Router.ID := FloatingIp.RouterID fip |>
                     end) |>, None)
      else mret (f, None)
  end.

Fixpoint list_loop (fips : list LoadedFip.t) (err : option error)
    : M (list LoadedFip.t * option error) :=
  match fips with
  | [] => mret ([], err)
  | f :: fips =>
      '(f, err) ← list_round f;
      '(fips, err) ← list_loop fips err;
      mret (f :: fips, err)
  end.

(** The query of the owners overwrites [err]. *)
Definition FloatingIpAdmin_List (offset limit : Z) (order query : string)
    (intQuery : FloatingIp.t → bool) : M (Z * list LoadedFip.t) :=
  m ← GetMemberShip;
  let p := λ f, where_ok (GetWhere m) (FloatingIp.Owner f) && fip_like query f && intQuery f in
  total ← wrap ErrSQLSyntaxError "Failed to count floating IPs" (db_count p);
  fips ← wrap ErrSQLSyntaxError "Failed to query floating IPs" (
    rows ← db_page (page_order_of order) offset (page_limit_of limit) p; load_fips rows);
  '(fips, err) ← list_loop fips None;
  if CheckPermission m Admin then
    _ ← check_owners m (map (FloatingIp.Owner ∘ LoadedFip.row) fips);
    mret (total, fips)
  else match err with Some e => fail e | None => mret (total, fips) end.

(** ** keepalived *)

Definition lb_fip_config (f : FloatingIp.t) (subnet : Subnet.t) : LoadBalancerFloatingIp.t :=
  LoadBalancerFloatingIp.mk (FloatingIp.FipAddress f) (Subnet.Vlan subnet)
    (Subnet.Gateway subnet) (FloatingIp.ID f) (FloatingIp.Inbound f) (FloatingIp.Outbound f).

(** A floating IP whose subnet is not loaded is a nil dereference. *)
Fixpoint lb_fip_configs (fips : list FloatingIp.t) : M (list LoadBalancerFloatingIp.t) :=
  match fips with
  | [] => mret []
  | f :: fips =>
      subnet ← deref (FloatingIp.Subnet f);
      cfgs ← lb_fip_configs fips;
      mret (lb_fip_config f subnet :: cfgs)
  end.

Definition listener_ports (lb : LoadedBalancer.t) : list Z :=
  map (Listener.Port ∘ LoadedListener.row) (LoadedBalancer.Listeners lb).

Definition GetLBFloatingIpJson (lb : LoadedBalancer.t) : M string :=
  '(_, fips) ← wrap ErrFIPListFailed "Failed to list floating ips"
                 (FloatingIpAdmin_List 0 (-1) "" "" (bound_to (LoadedBalancer.ID lb)));
  cfgs ← lb_fip_configs (map LoadedFip.row fips);
  mret (Marshal (json_lb_fips (LoadBalancerFloatingIpConfig.mk cfgs (listener_ports lb)))).

(** The words after the script: router, VRRP instance, vlan, then the address and
    the MAC of this side and of the other one. *)
Definition vrrp_words (routerID vrrpID vlan : Z) (this other : Interface.t) (a1 a2 : Address.t)
    : list string :=
  [fmt_d routerID; fmt_d vrrpID; fmt_d vlan; Address.Address a1; Interface.MacAddr this;
   Address.Address a2; Interface.MacAddr other].

Definition keepalived_command (routerID vrrpID vlan : Z) (this other : Interface.t)
    (a1 a2 : Address.t) (role json : string) : string :=
  backend_script "create_keepalived_conf.sh"
    (vrrp_words routerID vrrpID vlan this other a1 a2 ++ [role]) +:+ here_document json.

(** One side: nothing is sent to a side that has no hypervisor. *)
Definition keepalived_side (routerID vrrpID vlan : Z) (role json : string)
    (this other : Interface.t) : M unit :=
  if 0 <=? Interface.Hyper this then
    a1 ← deref (Interface.Address this);
    a2 ← deref (Interface.Address other);
    HyperExecute (inter (Interface.Hyper this))
      (keepalived_command routerID vrrpID vlan this other a1 a2 role json)
  else mret tt.

(** A load balancer that is not available is left alone, without an error. *)
Definition CreateVrrpConf (loadBalancer : option LoadedBalancer.t) : M unit :=
  match loadBalancer with
  | None => mret tt
  | Some lb =>
      let r := LoadedBalancer.row lb in
      if negb (String.eqb (LoadBalancer.Status r) "available") then mret tt
      else
        vrrp ← deref (LoadedBalancer.VrrpInstance lb);
        subnet ← deref (VrrpInstance.VrrpSubnet vrrp);
        json ← GetLBFloatingIpJson lb;
        '(vrrpIface1, vrrpIface2) ← GetVrrpInterfaces (VrrpInstance.ID vrrp);
        let side := keepalived_side (LoadBalancer.RouterID r) (LoadBalancer.VrrpInstanceID r)
                      (Subnet.Vlan subnet) in
        _ ← side "MASTER" json vrrpIface1 vrrpIface2;
        side "BACKUP" json vrrpIface2 vrrpIface1
  end.

(** ** haproxy *)

Definition BackendAdmin_CreateHaproxyConf (updatedlistener : option LoadedListener.t)
    (lb : LoadedBalancer.t) : M unit :=
  let json := Marshal (json_balancer (haproxy_config updatedlistener lb)) in
  vrrp ← deref (LoadedBalancer.VrrpInstance lb);
  '(hyperGroup, _, _) ← GetVrrpHyperGroup (VrrpInstance.ID vrrp);
  HyperExecute ("toall=" +:+ hyperGroup) (haproxy_command lb (VrrpInstance.ID vrrp) json).

(** ** Backends *)

Definition backend_denied : error :=
  NewCLError ErrPermissionDenied "Not authorized to read the backend" None.

Definition read_backend (code : Z) (p : Backend.t → bool) : M Backend.t :=
  GetContextDB (
    m ← GetMemberShip;
    backend ← wrap code "Failed to find backend"
                (db_take (λ r, where_ok (GetWhere m) (Backend.Owner r) && p r));
    _ ← require (ValidateOwner m Reader (Backend.Owner backend)) backend_denied;
    mret backend).

Definition BackendAdmin_Get (id : Z) : M (option Backend.t) :=
  if id <=? 0 then mret None
  else b ← read_backend ErrBackendNotFound (by_pk id); mret (Some b).

Definition BackendAdmin_GetBackendByUUID (uuID : string) : M Backend.t :=
  read_backend ErrRouterNotFound (λ r, String.eqb (Backend.UUID r) uuID).

Definition BackendAdmin_GetBackendByName (name : string) : M Backend.t :=
  read_backend ErrRouterNotFound (λ r, String.eqb (Backend.Name r) name).

Definition BackendAdmin_GetBackend : option BaseReference.t → M Backend.t :=
  by_reference BackendAdmin_GetBackendByUUID BackendAdmin_GetBackendByName.

(** [listener_id = ?] and the condition of the membership. *)
Definition BackendAdmin_List (offset limit : Z) (order : string) (listener : Listener.t)
    : M (Z * list Backend.t) :=
  m ← GetMemberShip;
  GetContextDB (
    let p := λ b, (Backend.ListenerID b =? Listener.ID listener)
                  && where_ok (GetWhere m) (Backend.Owner b) in
    total ← wrap ErrSQLSyntaxError "Failed to count backends" (db_count p);
    bs ← wrap ErrSQLSyntaxError "Failed to query backends"
           (db_page (page_order_of order) offset (page_limit_of limit) p);
    _ ← check_owners m (map Backend.Owner bs);
    mret (total, bs)).

Definition backend_model (m : MemberShip.t) (name addr : string) (ssl : bool) (listenerID : Z)
    : Backend.t :=
  Backend.zero <| Backend.Creater := MemberShip.UserID m |>
    <| Backend.Owner := MemberShip.OrgID m |> <| Backend.ListenerID := listenerID |>
    <| Backend.Name := name |> <| Backend.BackendAddr := addr |>
    <| Backend.Status := "available" |> <| Backend.SSL := ssl |>.

Definition BackendAdmin_Create (name backendAddr : string) (ssl : bool)
    (listener : LoadedListener.t) (lb : LoadedBalancer.t) : M Backend.t :=
  m ← GetMemberShip;
  _ ← require (CheckPermission m Writer)
        (NewCLError ErrPermissionDenied "Not authorized to create backend" None);
  with_tx (
    backend ← wrap ErrBackendCreateFailed "Failed to create backend"
                (db_create (backend_model m name backendAddr ssl (LoadedListener.ID listener)));
    let listener := listener <| LoadedListener.Backends :=
                                  LoadedListener.Backends listener ++ [backend] |> in
    _ ← wrap ErrBackendCreateFailed "Failed to create haproxy conf"
          (BackendAdmin_CreateHaproxyConf (Some listener) lb);
    mret backend).

Definition BackendAdmin_Update (backend : Backend.t) (backendAddr : string) : M Backend.t :=
  GetContextDB (
    if String.eqb (Backend.BackendAddr backend) backendAddr then mret backend
    else
      _ ← wrap ErrRouterUpdateFailed "Failed to update backend"
            (db_update (by_pk (Backend.ID backend))
               (λ r, r <| Backend.BackendAddr := backendAddr |>));
      mret (backend <| Backend.BackendAddr := backendAddr |>)).

(** The listener is returned with the backends it has left. *)
Definition BackendAdmin_Delete (backend : Backend.t) (listener : LoadedListener.t)
    (lb : LoadedBalancer.t) : M LoadedListener.t :=
  with_tx (
    m ← GetMemberShip;
    _ ← require (ValidateOwner m Writer (Backend.Owner backend))
          (NewCLError ErrPermissionDenied "Not authorized to delete the router" None);
    let addr := Backend.BackendAddr backend +:+ "-"
                +:+ fmt_d (created_at "backends" (Backend.ID backend)) in
    _ ← wrap ErrSubnetUpdateFailed "DB failed to update backend address"
          (db_update (by_pk (Backend.ID backend)) (λ r, r <| Backend.BackendAddr := addr |>));
    _ ← wrap ErrRouterDeleteFailed "Failed to delete backend"
          (db_delete (R := Backend.t) (by_pk (Backend.ID backend)));
    '(_, bs) ← wrap ErrSQLSyntaxError "Failed to count backends"
                 (BackendAdmin_List 0 (-1) "" (LoadedListener.row listener));
    let listener := listener <| LoadedListener.Backends := bs |> in
    _ ← wrap ErrBackendDeleteFailed "Failed to delete haproxy conf"
          (BackendAdmin_CreateHaproxyConf (Some listener) lb);
    mret listener).

(** ** Listeners *)

Definition read_listener (p : Listener.t → bool)
    (load : Listener.t → M LoadedListener.t) : M LoadedListener.t :=
  GetContextDB (
    m ← GetMemberShip;
    listener ← wrap ErrListenerNotFound "Failed to find listener" (
                 l ← db_take (λ r, where_ok (GetWhere m) (Listener.Owner r) && p r); load l);
    _ ← require (ValidateOwner m Reader (Listener.Owner (LoadedListener.row listener)))
          (NewCLError ErrPermissionDenied "Not authorized to read the listener" None);
    mret listener).

Definition load_listener (l : Listener.t) : M LoadedListener.t :=
  ls ← load_backends [l]; deref (head ls).

Definition ListenerAdmin_Get (id : Z) : M (option LoadedListener.t) :=
  if id <=? 0 then mret None else l ← read_listener (by_pk id) load_listener; mret (Some l).

Definition ListenerAdmin_GetListenerByUUID (uuID : string) : M LoadedListener.t :=
  read_listener (λ r, String.eqb (Listener.UUID r) uuID) load_listener.

(** The backends are not loaded. *)
Definition ListenerAdmin_GetListenerByName (name : string) : M LoadedListener.t :=
  read_listener (λ r, String.eqb (Listener.Name r) name) (λ l, mret (LoadedListener.mk l [])).

Definition ListenerAdmin_GetListener : option BaseReference.t → M LoadedListener.t :=
  by_reference ListenerAdmin_GetListenerByUUID ListenerAdmin_GetListenerByName.

Definition ListenerAdmin_List (offset limit : Z) (order : string) (lb : LoadedBalancer.t)
    : M (Z * list LoadedListener.t) :=
  m ← GetMemberShip;
  GetContextDB (
    let p := λ l, (Listener.LoadBalancerID l =? LoadedBalancer.ID lb)
                  && where_ok (GetWhere m) (Listener.Owner l) in
    total ← wrap ErrSQLSyntaxError "Failed to count listeners" (db_count p);
    ls ← wrap ErrSQLSyntaxError "Failed to query listeners" (
           ls ← db_page (page_order_of order) offset (page_limit_of limit) p; load_backends ls);
    _ ← check_owners m (map (Listener.Owner ∘ LoadedListener.row) ls);
    mret (total, ls)).

Definition listener_model (m : MemberShip.t) (name mode key cert : string) (port lbID : Z)
    : Listener.t :=
  Listener.zero <| Listener.Creater := MemberShip.UserID m |>
    <| Listener.Owner := MemberShip.OrgID m |> <| Listener.Name := name |>
    <| Listener.Mode := mode |> <| Listener.Key := EncodeToString key |>
    <| Listener.Certificate := EncodeToString cert |> <| Listener.Port := port |>
    <| Listener.LoadBalancerID := lbID |> <| Listener.Status := "available" |>.

Definition ListenerAdmin_Create (name mode key cert : string) (port : Z)
    (lb : LoadedBalancer.t) : M Listener.t :=
  m ← GetMemberShip;
  _ ← require (CheckPermission m Writer)
        (NewCLError ErrPermissionDenied "Not authorized to create listener" None);
  with_tx (
    listener ← wrap ErrListenerCreateFailed "Failed to create listener"
                 (db_create (listener_model m name mode key cert port (LoadedBalancer.ID lb)));
    let lb := lb <| LoadedBalancer.Listeners :=
                LoadedBalancer.Listeners lb ++ [LoadedListener.mk listener []] |> in
    _ ← wrap ErrVrrpInstanceCreateFailed "Recreate keepalived config failed"
          (CreateVrrpConf (Some lb));
    mret listener).

Definition ListenerAdmin_Update (listener : LoadedListener.t) (name : string)
    : M LoadedListener.t :=
  GetContextDB (
    let r := LoadedListener.row listener in
    if String.eqb (Listener.Name r) name then mret listener
    else
      _ ← wrap ErrRouterUpdateFailed "Failed to update listener"
            (db_update (by_pk (Listener.ID r)) (λ r, r <| Listener.Name := name |>));
      mret (listener <| LoadedListener.row := r <| Listener.Name := name |> |>)).

Fixpoint delete_backends (bs : list Backend.t) (listener : LoadedListener.t)
    (lb : LoadedBalancer.t) : M LoadedListener.t :=
  match bs with
  | [] => mret listener
  | b :: bs =>
      listener ← wrap ErrBackendListFailed "Failed to delete backend"
                   (BackendAdmin_Delete b listener lb);
      delete_backends bs listener lb
  end.

(** [Unix()] of a creation time, which is kept in nanoseconds. *)
Definition created_unix (table : string) (id : Z) : Z := created_at table id / 1000000000.

(** The load balancer is returned with the listeners it has left. *)
Definition ListenerAdmin_Delete (listener : LoadedListener.t) (lb : LoadedBalancer.t)
    : M LoadedBalancer.t :=
  with_tx (
    m ← GetMemberShip;
    let r := LoadedListener.row listener in
    _ ← require (ValidateOwner m Writer (Listener.Owner r))
          (NewCLError ErrPermissionDenied "Not authorized to delete the router" None);
    '(_, bs) ← wrap ErrBackendListFailed "Failed to list backends"
                 (BackendAdmin_List 0 (-1) "" r);
    _ ← delete_backends bs listener lb;
    _ ← wrap ErrListenerDeleteFailed "Failed to delete listener"
          (db_delete (R := Listener.t) (by_pk (Listener.ID r)));
    let name := Listener.Name r +:+ "-" +:+ fmt_d (created_unix "listeners" (Listener.ID r)) in
    _ ← wrap ErrListenerUpdateFailed "DB failed to update listener name"
          (db_update_all (by_id (Listener.ID r)) (λ r, r <| Listener.Name := name |>));
    '(_, ls) ← wrap ErrSQLSyntaxError "Failed to count listeners" (ListenerAdmin_List 0 (-1) "" lb);
    let lb := lb <| LoadedBalancer.Listeners := ls |> in
    _ ← wrap ErrVrrpInstanceCreateFailed "Recreate keepalived config failed"
          (CreateVrrpConf (Some lb));
    mret lb).

(** ** The VRRP instance and the creation of a load balancer *)

Definition set_vrrp_command (routerID vrrpID vlan : Z) (this other : Interface.t)
    (a1 a2 : Address.t) (rest : list string) : string :=
  backend_script "set_vrrp_ip.sh"
    ([fmt_d routerID; fmt_d vrrpID; fmt_d vlan; Interface.MacAddr this; Address.Address a1;
      Interface.MacAddr other; Address.Address a2] ++ rest).

(** The VRRP subnet of a router, created when it has none.  [fuel] bounds the
    loops of [SubnetAdmin.Create]; [None] is a loop that takes longer. *)
Definition vrrp_subnet (fuel : nat) (name : string) (router : Router.t) : M (option Subnet.t) :=
  if 0 <? Router.VrrpSubnetID router then
    s ← SubnetAdmin_Get (Router.VrrpSubnetID router); mret (Some s)
  else
    r ← SubnetAdmin_Create fuel 0 name "192.168.196.0/24" "" "" "" "vrrp" "" "" false
          (Some router) None 0;
    match r with
    | None => mret None
    | Some subnet =>
        _ ← db_update (by_pk (Router.ID router))
              (λ r, r <| Router.VrrpSubnetID := Subnet.ID subnet |>);
        mret (Some subnet)
    end.

Definition vrrp_interface (subnet : Subnet.t) (vrrpID owner : Z) (role : string)
    : M Interface.t :=
  CreateInterface subnet vrrpID owner (-1) 0 0 "" "" role "vrrp" [] false.

(** From the subnet on. *)
Definition vrrp_pair (router : Router.t) (zone : option Zone.t) (vrrpSubnet : Subnet.t)
    : M VrrpInstance.t :=
  m ← GetMemberShip;
  vrrp ← db_create (VrrpInstance.zero
           <| VrrpInstance.Creater := MemberShip.UserID m |>
           <| VrrpInstance.Owner := MemberShip.OrgID m |>
           <| VrrpInstance.VrrpSubnetID := Subnet.ID vrrpSubnet |>
           <| VrrpInstance.ZoneID := from_option Zone.ID 0 zone |>
           <| VrrpInstance.RouterID := Router.ID router |>);
  vrrpIface1 ← vrrp_interface vrrpSubnet (VrrpInstance.ID vrrp) (MemberShip.OrgID m) "MASTER";
  vrrpIface2 ← vrrp_interface vrrpSubnet (VrrpInstance.ID vrrp) (MemberShip.OrgID m) "BACKUP";
  control ← match zone with
            | Some z => hyperGroup ← GetHyperGroup (Zone.ID z) (-1);
                        mret ("select=" +:+ hyperGroup)
            | None => mret "inter="
            end;
  a1 ← deref (Interface.Address vrrpIface1);
  a2 ← deref (Interface.Address vrrpIface2);
  _ ← HyperExecute control
        (set_vrrp_command (Router.ID router) (VrrpInstance.ID vrrp) (Subnet.Vlan vrrpSubnet)
           vrrpIface1 vrrpIface2 a1 a2 ["MASTER"; "true"]);
  mret vrrp.

Definition now : M Z := λ c w, (Ok (time_now (clock w)), w).

Definition CreateVrrpInstance (fuel : nat) (name : string) (router : Router.t)
    (zone : option Zone.t) : M (option VrrpInstance.t) :=
  GetContextDB (
    t ← now;
    s ← vrrp_subnet fuel (name +:+ "-" +:+ fmt_d t) router;
    match s with
    | None => mret None
    | Some subnet => v ← vrrp_pair router zone subnet; mret (Some v)
    end).

Definition LoadBalancerAdmin_Create (fuel : nat) (name : string) (router : Router.t)
    (zone : option Zone.t) : M (option LoadBalancer.t) :=
  m ← GetMemberShip;
  _ ← require (CheckPermission m Writer)
        (NewCLError ErrPermissionDenied "Not authorized to create routers" None);
  with_tx (
    v ← wrap ErrVrrpInstanceCreateFailed "Failed to create vrrp instance"
          (CreateVrrpInstance fuel name router zone);
    match v with
    | None => mret None
    | Some vrrp =>
        lb ← wrap ErrLoadBalancerCreateFailed "Failed to create load balancer"
               (db_create (LoadBalancer.zero
                  <| LoadBalancer.Creater := MemberShip.UserID m |>
                  <| LoadBalancer.Owner := MemberShip.OrgID m |>
                  <| LoadBalancer.Name := name |>
                  <| LoadBalancer.RouterID := Router.ID router |>
                  <| LoadBalancer.VrrpInstanceID := VrrpInstance.ID vrrp |>
                  <| LoadBalancer.Status := "pending" |>));
        mret (Some lb)
    end).

End conf.
