(* ===== verification/FipAdmin.v ===== *)
(** * FipAdmin: floating IPs and the deletion and recovery of load balancers
      (routes/floatingip.go, routes/loadbalancer.go, rpcs/recover_loadbalancer.go)

    A floating IP is a row with an interface of type "floating" in a public or a
    site subnet, whose address is the one it stands for.  It is free, bound to the
    primary interface of an instance, or bound to a load balancer. *)

From stdpp Require Import sorting.
From S2P Require Import Prelude GoLib Json ErrorCodes Gorm Model Store Scenario Member Catalog Volume Admin Ipam NetInfo Secgroup IpGroup Subnet Dispatch Hyper Fip InstanceRpc Balancer.

Definition PublicNative := "native".
Definition PublicSite := "site".

(** The order of [sort.Slice] on subnets: priority, then ID. *)
Definition subnet_le (a b : Subnet.t) : Prop :=
  Subnet.Priority a < Subnet.Priority b ∨
  (Subnet.Priority a = Subnet.Priority b ∧ Subnet.ID a ≤ Subnet.ID b).

#[global] Instance subnet_le_dec a b : Decision (subnet_le a b).
Proof. unfold subnet_le. apply _. Defined.

Definition sort_subnets : list Subnet.t → list Subnet.t := merge_sort subnet_le.

(** The first interface that is primary. *)
Definition primary_iface (ifaces : list Interface.t) : option Interface.t :=
  head (List.filter Interface.PrimaryIf ifaces).

Definition attach_fip_command (routerID : Z) (f : FloatingIp.t) (pub subnet : Subnet.t)
    (address : Address.t) : string :=
  backend_script "create_floating.sh"
    [fmt_d routerID; FloatingIp.FipAddress f; Subnet.Gateway pub; fmt_d (Subnet.Vlan pub);
     Address.Address address; fmt_d (Subnet.Vlan subnet); fmt_d (FloatingIp.ID f);
     fmt_d (FloatingIp.Inbound f); fmt_d (FloatingIp.Outbound f)].

Definition detach_fip_command (f : FloatingIp.t) (vlan : Z) : string :=
  backend_script "clear_floating.sh"
    [fmt_d (FloatingIp.RouterID f); FloatingIp.FipAddress f; FloatingIp.IntAddress f;
     fmt_d vlan; fmt_d (FloatingIp.ID f)].

Definition detach_lb_command (f : FloatingIp.t) (vlan : Z) : string :=
  backend_script "clear_lb_floating.sh"
    [fmt_d (FloatingIp.RouterID f); FloatingIp.FipAddress f; fmt_d vlan;
     fmt_d (FloatingIp.ID f)].

(** The columns a detached floating IP has. *)
Definition detached_fip (r : FloatingIp.t) : FloatingIp.t :=
  r <| FloatingIp.InstanceID := 0 |> <| FloatingIp.LoadBalancerID := 0 |>
    <| FloatingIp.RouterID := 0 |> <| FloatingIp.IntAddress := "" |>
    <| FloatingIp.Type_ := PublicFloating |>.

(** Those of a reserved one: it stays with its load balancer. *)
Definition unreserved (r : FloatingIp.t) : FloatingIp.t :=
  r <| FloatingIp.InstanceID := 0 |> <| FloatingIp.RouterID := 0 |>
    <| FloatingIp.IntAddress := "" |> <| FloatingIp.Type_ := PublicFloating |>.

Section fips.
Context {G : Gorm} {E : Env}.

(** ** Reading *)

(** [Preload("Interface.SecurityGroups")] *)
Definition load_groups (ifaces : list Interface.t) : M (list Interface.t) :=
  match ifaces with
  | [] => mret []
  | _ => db_query (λ d, map (λ i, i <| Interface.SecurityGroups :=
                                       groups_of (Interface.ID i) d |>) ifaces)
  end.

(** Interface with its groups, its address and subnet; Subnet; Group. *)
Definition load_fip (f : FloatingIp.t) : M LoadedFip.t :=
  ifaces ← db_find (λ i, Interface.FloatingIp i =? FloatingIp.ID f);
  ifaces ← load_groups ifaces;
  ifaces ← load_addresses ifaces;
  subnet ← preload (FloatingIp.SubnetID f);
  group ← preload (FloatingIp.GroupID f);
  mret (LoadedFip.mk (f <| FloatingIp.Interface := last ifaces |> <| FloatingIp.Subnet := subnet |>)
          None None None group).

(** The instance a floating IP is bound to with its primary interfaces. *)
Definition fip_instance (id : Z) (cannotFind : string) : M (Instance.t * list Interface.t) :=
  i ← wrap ErrInstanceNotFound ("Failed to query instance: " +:+ fmt_d id) (db_get id);
  ifaces ← wrap ErrSQLSyntaxError cannotFind
             (l ← db_find (primary_of (Instance.ID i)); load_addresses l);
  mret (i, ifaces).

(** What follows the first query of [Get] and [GetFloatingIpByUUID]. *)
Definition complete_fip (cannotFind : Z → string) (lbError : error → error) (f : LoadedFip.t)
    : M LoadedFip.t :=
  let r := LoadedFip.row f in
  f ← (if 0 <? FloatingIp.InstanceID r then
         i ← fip_instance (FloatingIp.InstanceID r) (cannotFind (FloatingIp.InstanceID r));
         mret (f <| LoadedFip.Instance := Some i |>)
       else if 0 <? FloatingIp.LoadBalancerID r then
         '(lb, err) ← get_balancer (FloatingIp.LoadBalancerID r);
         match err with
         | Some e => fail (lbError e)
         | None => mret (f <| LoadedFip.LoadBalancer := Some lb |>)
         end
       else mret f);
  f ← (if 0 <? FloatingIp.RouterID r then
         router ← wrap ErrRouterNotFound
                    ("Failed to query router: " +:+ fmt_d (FloatingIp.RouterID r))
                    (db_get (FloatingIp.RouterID r));
         mret (f <| LoadedFip.Router := Some router |>)
       else mret f);
  fip ← FloatingIpAdmin_EnsureSubnetID (LoadedFip.row f);
  mret (f <| LoadedFip.row := fip |>).

Definition FloatingIpAdmin_Get (id : Z) : M LoadedFip.t :=
  if id <=? 0 then
    fail (NewCLError ErrInvalidParameter ("Invalid floatingIp ID: " +:+ fmt_d id) None)
  else
    m ← GetMemberShip;
    GetContextDB (
      f ← wrap ErrSQLSyntaxError "Failed to query floatingIp" (
            f ← db_take (λ r, where_ok (GetWhere m) (FloatingIp.Owner r) && by_pk id r);
            load_fip f);
      complete_fip (λ _, "Failed to query interfaces") (λ e, e) f).

Definition FloatingIpAdmin_GetFloatingIpByUUID (uuID : string) : M LoadedFip.t :=
  GetContextDB (
    m ← GetMemberShip;
    f ← wrap ErrDatabaseError "Failed to query floatingIp" (
          f ← db_take (λ r, where_ok (GetWhere m) (FloatingIp.Owner r)
                            && String.eqb (FloatingIp.UUID r) uuID);
          load_fip f);
    complete_fip (λ id, "Failed to query interfaces for instance: " +:+ fmt_d id)
      (λ e, NewCLError ErrSQLSyntaxError "Failed to query load balancer" (Some e)) f).

(** ** Attaching *)

(** The floating IP is returned as the call leaves it. *)
Definition FloatingIpAdmin_Attach (f : FloatingIp.t)
    (instance : option (Instance.t * list Interface.t)) : M FloatingIp.t :=
  _ ← require (String.eqb (FloatingIp.Type_ f) PublicFloating
               || String.eqb (FloatingIp.Type_ f) PublicSite)
        (NewCLError ErrInvalidParameter
           ("Cannot attach floating IP of type " +:+ FloatingIp.Type_ f +:+
            ", only PublicFloating and PublicSite types are supported for attachment") None);
  m ← GetMemberShip;
  _ ← require (CheckPermission m Writer) NotAuthorized;
  GetContextDB (
    match instance with
    | None => fail (NewCLError ErrInstanceInvalidState "Instance is not running" None)
    | Some (inst, ifaces) =>
        _ ← require (negb (String.eqb (Instance.Status inst) "pending"))
              (NewCLError ErrInstanceInvalidState "Instance is not running" None);
        _ ← require (negb (Instance.RouterID inst =? 0))
              (NewCLError ErrInstanceNoRouter "Instance has no router" None);
        router ← wrap ErrRouterNotFound "DB failed to query router"
                   (db_get (R := Router.t) (Instance.RouterID inst));
        match primary_iface ifaces with
        | None =>
            fail (NewCLError ErrInstanceNoPrimaryInterface
                    ("No primary interface for the instance, " +:+ fmt_d (Instance.ID inst)) None)
        | Some primaryIface =>
            address ← deref (Interface.Address primaryIface);
            let bind r := r <| FloatingIp.IntAddress := Address.Address address |>
                            <| FloatingIp.InstanceID := Instance.ID inst |>
                            <| FloatingIp.RouterID := Instance.RouterID inst |> in
            _ ← wrap ErrFIPUpdateFailed "DB failed to update floating ip"
                  (db_update (by_id (FloatingIp.ID f)) bind);
            f ← FloatingIpAdmin_EnsureSubnetID (bind f);
            iface ← deref (FloatingIp.Interface f);
            fipAddress ← deref (Interface.Address iface);
            pubSubnet ← deref (Address.Subnet fipAddress);
            subnet ← deref (Address.Subnet address);
            _ ← HyperExecute (inter (Instance.Hyper inst))
                  (attach_fip_command (Router.ID router) f pubSubnet subnet address);
            mret f
        end
    end).

(** ** Creation *)

(** The interface of a floating IP, in the first subnet that gives one; the last
    error is returned when none does. *)
Fixpoint allocate_loop (fipID owner : Z) (address : string) (subnets : list Subnet.t)
    (err : error) : M Interface.t :=
  match subnets with
  | [] => fail err
  | subnet :: subnets =>
      r ← try (CreateInterface subnet fipID owner (-1) 0 0 address "" "fip" "floating" [] false);
      match r with
      | inl iface => mret iface
      | inr e => allocate_loop fipID owner address subnets e
      end
  end.

Definition no_public_subnet : error :=
  NewCLError ErrPublicSubnetNotFound "No public subnets available" None.

(** [Order("priority ASC, id ASC")] *)
Definition public_subnets (cannotFind : error) : M (list Subnet.t) :=
  subnets ← wrap ErrSQLSyntaxError "Failed to query public subnets"
              (db_page ["priority ASC, id ASC"] 0 (-1)
                 (λ s, String.eqb (Subnet.Type_ s) "public"));
  match subnets with [] => fail cannotFind | _ => mret subnets end.

Definition AllocateFloatingIp (floatingIpID owner : Z) (pubSubnets : list Subnet.t)
    (address : string) : M Interface.t :=
  GetContextDB (
    subnets ← match pubSubnets with
              | [] => public_subnets no_public_subnet
              | _ => mret pubSubnets
              end;
    allocate_loop floatingIpID owner address subnets no_public_subnet).

(** Subnets that do not belong to the primary interface yet are given to it. *)
Definition give_subnets (primaryID : Z) (subnets : list Subnet.t) : M unit :=
  for_each subnets (λ s,
    if Subnet.Interface s =? primaryID then mret tt
    else wrap ErrSubnetUpdateFailed "Failed to update subnet interface"
           (db_update (by_pk (Subnet.ID s)) (λ r, r <| Subnet.Interface := primaryID |>))).

Definition fip_model (m : MemberShip.t) (name : string) (inbound outbound : Z) (type : string)
    (groupID lbID routerID : Z) : FloatingIp.t :=
  FloatingIp.zero <| FloatingIp.Creater := MemberShip.UserID m |>
    <| FloatingIp.Owner := MemberShip.OrgID m |> <| FloatingIp.Name := name |>
    <| FloatingIp.Inbound := inbound |> <| FloatingIp.Outbound := outbound |>
    <| FloatingIp.Type_ := type |> <| FloatingIp.GroupID := groupID |>
    <| FloatingIp.LoadBalancerID := lbID |> <| FloatingIp.RouterID := routerID |>.

(** The struct with the address it was given. *)
Definition addressed (iface : Interface.t) (address : Address.t) (subnet : Subnet.t)
    (f : FloatingIp.t) : FloatingIp.t :=
  f <| FloatingIp.FipAddress := Address.Address address |>
    <| FloatingIp.IPAddress := before_slash (Address.Address address) |>
    <| FloatingIp.Interface := Some iface |>
    <| FloatingIp.SubnetID := Subnet.ID subnet |>.

(** What one round takes from its caller: the name, the limits, the subnets, the
    wanted address, the instance, whether it is a site, group and load balancer. *)
Record FipOrder := mkFipOrder {
  fo_name : string;
  fo_inbound : Z;
  fo_outbound : Z;
  fo_subnets : list Subnet.t;
  fo_publicIp : string;
  fo_instance : option (Instance.t * list Interface.t);
  fo_isSite : bool;
  fo_group : option IpGroup.t;
  fo_balancer : option LoadedBalancer.t
}.

Definition order_type (o : FipOrder) : string :=
  match fo_balancer o with Some _ => PublicLoadBalancer | None => PublicFloating end.

Definition order_model (m : MemberShip.t) (o : FipOrder) (name : string) : FloatingIp.t :=
  fip_model m name (fo_inbound o) (fo_outbound o) (order_type o)
    (from_option IpGroup.ID 0 (fo_group o)) (from_option LoadedBalancer.ID 0 (fo_balancer o))
    (from_option (LoadBalancer.RouterID ∘ LoadedBalancer.row) 0 (fo_balancer o)).

(** The columns written at the end of a round. *)
Definition fip_columns (f r : FloatingIp.t) : FloatingIp.t :=
  r <| FloatingIp.FipAddress := FloatingIp.FipAddress f |>
    <| FloatingIp.IPAddress := FloatingIp.IPAddress f |>
    <| FloatingIp.SubnetID := FloatingIp.SubnetID f |>
    <| FloatingIp.Type_ := FloatingIp.Type_ f |>.

Definition allocate_round (m : MemberShip.t) (o : FipOrder) (i : nat) : M FloatingIp.t :=
  t ← now;
  f ← wrap ErrFIPCreateFailed "Failed to create floating ip"
        (db_create (order_model m o
           (fo_name o +:+ "-" +:+ fmt_d (Z.of_nat i) +:+ "-" +:+ fmt_d t)));
  iface ← AllocateFloatingIp (FloatingIp.ID f) (MemberShip.OrgID m) (fo_subnets o) (fo_publicIp o);
  address ← deref (Interface.Address iface);
  subnet ← deref (Address.Subnet address);
  let f := addressed iface address subnet f in
  f ← match fo_instance o with
      | Some _ => FloatingIpAdmin_Attach f (fo_instance o)
      | None => mret f
      end;
  f ← (if fo_isSite o then
         _ ← match fo_instance o with
             | Some (_, ifaces) =>
                 if (i =? 0)%nat then
                   give_subnets (from_option Interface.ID 0 (primary_iface ifaces)) (fo_subnets o)
                 else mret tt
             | None => mret tt
             end;
         mret (f <| FloatingIp.Type_ := PublicSite |>)
       else mret f);
  _ ← wrap ErrFIPUpdateFailed "Failed to update floating ip"
        (db_update (by_id (FloatingIp.ID f)) (fip_columns f));
  mret f.

Fixpoint allocate_rounds (m : MemberShip.t) (o : FipOrder) (i n : nat) : M (list FloatingIp.t) :=
  match n with
  | O => mret []
  | S n => f ← allocate_round m o i; fs ← allocate_rounds m o (S i) n; mret (f :: fs)
  end.

(** No round for a count that is not positive. *)
Definition FloatingIpAdmin_createAndAllocateFloatingIps (o : FipOrder) (count : Z)
    : M (list FloatingIp.t) :=
  GetContextDB (m ← GetMemberShip; allocate_rounds m o 0 (Z.to_nat count)).

(** The struct is not returned: the named result stays nil. *)
Definition FloatingIpAdmin_createDummyFloatingIp (instance : Instance.t) (publicIp : string)
    : M unit :=
  GetContextDB (
    m ← GetMemberShip;
    t ← now;
    _ ← wrap ErrDummyFIPCreateFailed "Failed to create floating ip"
          (db_create (fip_model m (Instance.Hostname instance +:+ "-" +:+ fmt_d t) 0 0 PublicNative
                        0 0 0
             <| FloatingIp.FipAddress := publicIp |> <| FloatingIp.IntAddress := publicIp |>
             <| FloatingIp.InstanceID := Instance.ID instance |>));
    mret tt).

(** The idle addresses of the public subnets. *)
Fixpoint count_idle (subnets : list Subnet.t) (total : Z) : M Z :=
  match subnets with
  | [] => mret total
  | subnet :: subnets =>
      _ ← require (String.eqb (Subnet.Type_ subnet) "public")
            (NewCLError ErrSubnetShouldBePublic "Subnet must be public" None);
      idle ← SubnetAdmin_CountIdleAddressesForSubnet subnet;
      count_idle subnets (total + idle)
  end.

(** Those of each site subnet, of which there must be some. *)
Fixpoint site_counts (subnets : list Subnet.t) : M (list (Subnet.t * Z)) :=
  match subnets with
  | [] => mret []
  | subnet :: subnets =>
      _ ← require (String.eqb (Subnet.Type_ subnet) "site")
            (NewCLError ErrSubnetShouldBeSite "Subnet must be site" None);
      idle ← SubnetAdmin_CountIdleAddressesForSubnet subnet;
      _ ← require (negb (idle =? 0))
            (NewCLError ErrInsufficientAddress "No idle addresses for site subnet" None);
      rest ← site_counts subnets;
      mret ((subnet, idle) :: rest)
  end.

Fixpoint site_rounds (o : FipOrder) (sites : list (Subnet.t * Z)) : M (list FloatingIp.t) :=
  match sites with
  | [] => mret []
  | (subnet, idle) :: sites =>
      fs ← FloatingIpAdmin_createAndAllocateFloatingIps
             (mkFipOrder (fo_name o) (fo_inbound o) (fo_outbound o) [subnet] ""
                (fo_instance o) true (fo_group o) None) idle;
      rest ← site_rounds o sites;
      mret (fs ++ rest)
  end.

(** keepalived and haproxy after the floating IPs of a load balancer changed. *)
Definition rebuild_balancer (lb : LoadedBalancer.t) : M unit :=
  _ ← wrap ErrVrrpInstanceCreateFailed "Recreate keepalived config failed"
        (CreateVrrpConf (Some lb));
  wrap ErrBackendCreateFailed "Failed to create haproxy conf"
    (BackendAdmin_CreateHaproxyConf None lb).

(** [o] carries the public subnets and the public address asked for. *)
Definition FloatingIpAdmin_Create (o : FipOrder) (activationCount : Z)
    (siteSubnets : list Subnet.t) : M (list FloatingIp.t) :=
  m ← GetMemberShip;
  _ ← require (CheckPermission m Writer) NotAuthorized;
  _ ← require (negb (negb (String.eqb (fo_publicIp o) "") &&
                     ((1 <? activationCount) || (0 <? length siteSubnets)%nat)))
        (NewCLError ErrInvalidParameter
           "Public ip and subnets cannot be specified at the same time" None);
  with_tx (
    pubSubnets ← match fo_subnets o with
                 | [] => public_subnets
                           (NewCLError ErrSubnetNotFound "No public subnets available" None)
                 | l => mret l
                 end;
    idleCountTotal ← count_idle pubSubnets 0;
    _ ← require (activationCount <=? idleCountTotal)
          (NewCLError ErrInsufficientAddress "Not enough idle addresses for public subnets" None);
    sites ← site_counts siteSubnets;
    fips ← FloatingIpAdmin_createAndAllocateFloatingIps
             (mkFipOrder (fo_name o) (fo_inbound o) (fo_outbound o) (sort_subnets pubSubnets)
                (fo_publicIp o) (fo_instance o) false (fo_group o) (fo_balancer o))
             activationCount;
    siteFips ← site_rounds o sites;
    let floatingIps := fips ++ siteFips in
    _ ← match fo_balancer o with
        | Some lb => rebuild_balancer (lb <| LoadedBalancer.FloatingIps :=
                                              LoadedBalancer.FloatingIps lb ++ floatingIps |>)
        | None => mret tt
        end;
    mret floatingIps).

(** ** Detaching *)

(** What the hypervisors are told first. *)
Definition detach_network (f : LoadedFip.t) : M unit :=
  let r := LoadedFip.row f in
  match LoadedFip.Instance f, LoadedFip.LoadBalancer f with
  | Some (inst, ifaces), _ =>
      primary ← deref (primary_iface ifaces);
      address ← deref (Interface.Address primary);
      subnet ← deref (Address.Subnet address);
      HyperExecute (inter (Instance.Hyper inst)) (detach_fip_command r (Subnet.Vlan subnet))
  | None, Some lb =>
      vrrp ← deref (LoadedBalancer.VrrpInstance lb);
      '(hyperGroup, _, _) ← GetVrrpHyperGroup (VrrpInstance.ID vrrp);
      subnet ← deref (FloatingIp.Subnet r);
      wrap ErrExecuteOnHyperFailed "Clear lb floating execution failed"
        (HyperExecute ("toall=" +:+ hyperGroup) (detach_lb_command r (Subnet.Vlan subnet)))
  | None, None => mret tt
  end.

(** The floating IP is returned as the call leaves it. *)
Definition FloatingIpAdmin_Detach (f : LoadedFip.t) : M LoadedFip.t :=
  with_tx (
    let r := LoadedFip.row f in
    if String.eqb (FloatingIp.Type_ r) PublicNative then
      _ ← wrap ErrDeleteNativeFIPFailed "Failed to delete native floating IP"
            (db_delete (R := FloatingIp.t) (by_pk (FloatingIp.ID r)));
      mret (f <| LoadedFip.Instance := None |>)
    else if String.eqb (FloatingIp.Type_ r) PublicReserved then
      _ ← wrap ErrUpdatePublicIPFailed "Failed to update public ip"
            (db_update (by_id (FloatingIp.ID r)) unreserved);
      mret (f <| LoadedFip.row := unreserved r <| FloatingIp.Interface := None |> |>
              <| LoadedFip.Instance := None |> <| LoadedFip.Router := None |>)
    else
      _ ← detach_network f;
      _ ← wrap ErrUpdateInstIDOfFIPFailed "Failed to update instance ID for floating ip"
            (db_update (by_pk (FloatingIp.ID r)) detached_fip);
      let f := f <| LoadedFip.row := r <| FloatingIp.InstanceID := 0 |> |>
                 <| LoadedFip.Instance := None |> in
      match LoadedFip.LoadBalancer f with
      | None => mret f
      | Some lb =>
          '(_, fips) ← FloatingIpAdmin_List 0 (-1) "" "" (bound_to (LoadedBalancer.ID lb));
          let lb := lb <| LoadedBalancer.FloatingIps := map LoadedFip.row fips |> in
          _ ← rebuild_balancer lb;
          mret (f <| LoadedFip.LoadBalancer := Some lb |>)
      end).

(** ** Update and deletion *)

(** The columns of a floating IP bound to a load balancer. *)
Definition balanced (lb : LoadedBalancer.t) (r : FloatingIp.t) : FloatingIp.t :=
  r <| FloatingIp.LoadBalancerID := LoadedBalancer.ID lb |>
    <| FloatingIp.RouterID := LoadBalancer.RouterID (LoadedBalancer.row lb) |>
    <| FloatingIp.Type_ := PublicLoadBalancer |>.

Definition FloatingIpAdmin_Update (f : LoadedFip.t)
    (instance : option (Instance.t * list Interface.t)) (group : option IpGroup.t)
    (loadBalancer : option LoadedBalancer.t) : M LoadedFip.t :=
  with_tx (
    f ← FloatingIpAdmin_Detach f;
    let id := LoadedFip.ID f in
    _ ← match instance, loadBalancer with
        | Some _, _ => _ ← FloatingIpAdmin_Attach (LoadedFip.row f) instance; mret tt
        | None, Some lb =>
            _ ← try (db_update (by_pk id) (balanced lb));
            rebuild_balancer lb
        | None, None => mret tt
        end;
    _ ← match group with
        | Some g => wrap ErrUpdateGroupIDFailed "Failed to update floating ip group_id"
                      (db_update (by_pk id) (λ r, r <| FloatingIp.GroupID := IpGroup.ID g |>))
        | None => mret tt
        end;
    FloatingIpAdmin_Get id).

Definition FloatingIpAdmin_Delete (f : LoadedFip.t) : M unit :=
  let type := FloatingIp.Type_ (LoadedFip.row f) in
  _ ← require (String.eqb type PublicFloating || String.eqb type PublicLoadBalancer)
        (NewCLError ErrInvalidParameter
           ("Cannot delete floating IP of type " +:+ type +:+
            ", only PublicFloating or PublicLoadBalancer type is supported for deletion") None);
  with_tx (
    _ ← match LoadedFip.Instance f, LoadedFip.LoadBalancer f with
        | None, None => mret tt
        | _, _ => _ ← FloatingIpAdmin_Detach f; mret tt
        end;
    FloatingIpAdmin_DeallocateFloatingIp (LoadedFip.ID f)).

(** ** The deletion of a load balancer (routes/loadbalancer.go) *)

Definition clear_vrrp_side (lb : LoadBalancer.t) (vrrp : VrrpInstance.t)
    (this other : Interface.t) : M unit :=
  if 0 <=? Interface.Hyper this then
    subnet ← deref (VrrpInstance.VrrpSubnet vrrp);
    a1 ← deref (Interface.Address this);
    a2 ← deref (Interface.Address other);
    HyperExecute (inter (Interface.Hyper this))
      (backend_script "clear_vrrp_ip.sh"
         (vrrp_words (LoadBalancer.RouterID lb) (VrrpInstance.ID vrrp) (Subnet.Vlan subnet)
            this other a1 a2))
  else mret tt.

Fixpoint delete_listeners (ls : list LoadedListener.t) (lb : LoadedBalancer.t)
    : M LoadedBalancer.t :=
  match ls with
  | [] => mret lb
  | l :: ls =>
      lb ← wrap ErrListenerDeleteFailed "Failed to delete listener" (ListenerAdmin_Delete l lb);
      delete_listeners ls lb
  end.

(** The VRRP pair and the row itself. *)
Definition drop_balancer (lb : LoadBalancer.t) (vrrp : VrrpInstance.t) : M unit :=
  '(vrrpIface1, vrrpIface2) ← wrap ErrInterfaceDeleteFailed "Failed to delete vrrp interface 2"
                                (GetVrrpInterfaces (VrrpInstance.ID vrrp));
  _ ← clear_vrrp_side lb vrrp vrrpIface1 vrrpIface2;
  _ ← clear_vrrp_side lb vrrp vrrpIface2 vrrpIface1;
  _ ← wrap ErrInterfaceDeleteFailed "Failed to delete vrrp interface 1"
        (DeleteInterface vrrpIface1);
  _ ← wrap ErrInterfaceDeleteFailed "Failed to delete vrrp interface 2"
        (DeleteInterface vrrpIface2);
  _ ← wrap ErrLoadBalancerDeleteFailed "Failed to delete vrrp instance"
        (db_delete (R := VrrpInstance.t) (by_pk (VrrpInstance.ID vrrp)));
  _ ← wrap ErrLoadBalancerDeleteFailed "Failed to delete load balancer"
        (db_delete (R := LoadBalancer.t) (by_pk (LoadBalancer.ID lb)));
  let name := LoadBalancer.Name lb +:+ "-"
              +:+ fmt_d (created_unix "load_balancers" (LoadBalancer.ID lb)) in
  wrap ErrLoadBalancerUpdateFailed "Failed to update loadBalancer name"
    (db_update_all (by_id (LoadBalancer.ID lb)) (λ r, r <| LoadBalancer.Name := name |>)).

Definition LoadBalancerAdmin_Delete (lb : LoadedBalancer.t) : M unit :=
  with_tx (
    m ← GetMemberShip;
    _ ← require (ValidateOwner m Writer (LoadBalancer.Owner (LoadedBalancer.row lb)))
          (NewCLError ErrPermissionDenied "Not authorized to delete the router" None);
    '(_, fips) ← wrap ErrFIPListFailed "Failed to list floating ips"
                   (FloatingIpAdmin_List 0 (-1) "" "" (bound_to (LoadedBalancer.ID lb)));
    _ ← for_each fips (λ f, wrap ErrFIPListFailed "Failed to delete floating ip"
                              (FloatingIpAdmin_Delete f));
    let lb := lb <| LoadedBalancer.FloatingIps := [] |> in
    '(_, ls) ← wrap ErrListenerListFailed "Failed to list listeners"
                 (ListenerAdmin_List 0 (-1) "" lb);
    lb ← delete_listeners ls lb;
    vrrp ← deref (LoadedBalancer.VrrpInstance lb);
    drop_balancer (LoadedBalancer.row lb) vrrp).

(** ** recover_loadbalancer (rpcs/recover_loadbalancer.go) *)

(** VrrpInstance, Listeners and FloatingIps; their subnets when [withSubnets]. *)
Definition load_for_recovery (withSubnets : bool) (lbs : list LoadBalancer.t)
    : M (list LoadedBalancer.t) :=
  vrrps ← lb_vrrps lbs;
  listeners ← lb_listeners lbs;
  fips ← lb_fips lbs;
  fips ← (if withSubnets then
            subnets ← preload_many (map FloatingIp.SubnetID fips);
            mret (map (λ f, f <| FloatingIp.Subnet :=
                              pick (FloatingIp.SubnetID f) subnets |>) fips)
          else mret fips);
  mret (map (assemble fips [] listeners vrrps) lbs).

(** The load balancers named: texts that are no number and IDs that are not found
    are skipped. *)
Fixpoint named_balancers (ids : list string) : M (list LoadedBalancer.t) :=
  match ids with
  | [] => mret []
  | id :: ids =>
      lb ← match ParseInt 64 id with
           | None => mret []
           | Some lbID =>
               r ← try (lb ← db_take (R := LoadBalancer.t) (by_id lbID);
                        load_for_recovery false [lb]);
               match r with inl l => mret l | inr _ => mret [] end
           end;
      rest ← named_balancers ids;
      mret (lb ++ rest)
  end.

(** Those with a VRRP interface on the hypervisor. *)
Definition hosted_balancers (hyperID : Z) : M (list LoadedBalancer.t) :=
  ifaces ← db_find (λ i, (Interface.Hyper i =? hyperID)
                         && String.eqb (Interface.Type_ i) "vrrp");
  let vrrpIDs := map Interface.Device
                   (List.filter (λ i, (0 <? Interface.Device i)
                                      && String.eqb (Interface.Type_ i) "vrrp") ifaces) in
  match vrrpIDs with
  | [] => fail (GoError ("No vrrp instances found for hypervisor " +:+ fmt_d hyperID))
  | _ =>
      lbs ← db_find (λ l, existsb (Z.eqb (LoadBalancer.VrrpInstanceID l)) vrrpIDs);
      load_for_recovery true lbs
  end.

(** One side of the pair, when it is on the hypervisor. *)
Definition recover_side (routerID vrrpID vlan hyperID : Z) (role json : string)
    (this other : Interface.t) : M unit :=
  if Interface.Hyper this =? hyperID then
    a1 ← deref (Interface.Address this);
    a2 ← deref (Interface.Address other);
    _ ← HyperExecute (inter (Interface.Hyper this))
          (set_vrrp_command routerID vrrpID vlan this other a1 a2 [role]);
    HyperExecute (inter (Interface.Hyper this))
      (keepalived_command routerID vrrpID vlan this other a1 a2 role json)
  else mret tt.

(** The configuration of the recovery does not say which backends use SSL. *)
Definition recovered_backend (b : Backend.t) : Backend.t := b <| Backend.SSL := false |>.

Definition recovered_balancer (lb : LoadedBalancer.t) : LoadedBalancer.t :=
  lb <| LoadedBalancer.Listeners :=
    map (λ l, l <| LoadedListener.Backends := map recovered_backend (LoadedListener.Backends l) |>)
      (LoadedBalancer.Listeners lb) |>.

Definition recover_fip (lb : LoadBalancer.t) (hyperID : Z) (f : FloatingIp.t) : M unit :=
  subnet ← deref (FloatingIp.Subnet f);
  _ ← try (HyperExecute (inter hyperID)
             (backend_script "create_lb_floating.sh"
                [fmt_d (LoadBalancer.RouterID lb); FloatingIp.FipAddress f; Subnet.Gateway subnet;
                 fmt_d (Subnet.Vlan subnet); fmt_d (FloatingIp.ID f);
                 fmt_d (FloatingIp.Inbound f); fmt_d (FloatingIp.Outbound f)]));
  mret tt.

(** One load balancer; an error ends its round only. *)
Definition recover_round (hyperID : Z) (lb : LoadedBalancer.t) : M unit :=
  let r := LoadedBalancer.row lb in
  let routerID := LoadBalancer.RouterID r in
  let vrrpID := LoadBalancer.VrrpInstanceID r in
  if negb (String.eqb (LoadBalancer.Status r) "available") then mret tt
  else
    vrrp ← deref (LoadedBalancer.VrrpInstance lb);
    subnet ← deref (VrrpInstance.VrrpSubnet vrrp);
    cfgs ← lb_fip_configs (LoadedBalancer.FloatingIps lb);
    let json := Marshal (json_lb_fips (LoadBalancerFloatingIpConfig.mk cfgs (listener_ports lb))) in
    '(vrrpIface1, vrrpIface2) ← GetVrrpInterfaces vrrpID;
    let side := recover_side routerID vrrpID (Subnet.Vlan subnet) hyperID in
    _ ← side "MASTER" json vrrpIface1 vrrpIface2;
    _ ← side "BACKUP" json vrrpIface2 vrrpIface1;
    _ ← HyperExecute (inter hyperID)
          (haproxy_command lb (VrrpInstance.ID vrrp)
             (Marshal (json_balancer (haproxy_config None (recovered_balancer lb)))));
    for_each (LoadedBalancer.FloatingIps lb) (recover_fip r hyperID).

Definition RecoverLoadbalancer (args : list string) : M string :=
  with_tx (
    _ ← require (negb (length args <? 2)%nat) (GoError "Wrong params");
    a1 ← arg args 1; hyperID ← parse_arg 32 a1;
    if hyperID <? 0 then mret ""
    else
      lbs ← (if (2 <? length args)%nat then
               a2 ← arg args 2; named_balancers (Split a2 " ")
             else hosted_balancers hyperID);
      match lbs with
      | [] => mret "No load balancers to recover"
      | _ =>
          _ ← for_each lbs (λ lb, _ ← try (recover_round hyperID lb); mret tt);
          mret ("Successfully recovered " +:+ fmt_d (Z.of_nat (length lbs))
                +:+ " load balancer(s) on hypervisor " +:+ fmt_d hyperID)
      end).

Definition add_recover_loadbalancer (f : Registry) : Registry :=
  Add "recover_loadbalancer" RecoverLoadbalancer f.

End fips.
