(* ===== verification/FipLife.v ===== *)
(** * FipLife: what the creation, the deletion and the moving of floating IPs do

    A floating IP that is created owns an address that was free, through an
    interface of its own, and no two of them own the same; its deletion gives the
    address back. *)

From stdpp Require Import sorting.
From S2P Require Import Prelude GoLib Json ErrorCodes Gorm Model Store Scenario Member Catalog Volume Admin Ipam NetInfo Secgroup IpGroup Subnet Dispatch Hyper Fip InstanceRpc Balancer FipAdmin.

Section fip_life.
Context {G : Gorm} {E : Env} {GOk : GormOk G}.
Implicit Types (c : Ctx) (w : World) (d : DB) (a : Address.t) (i : Interface.t) (s : Subnet.t).
Implicit Types (f r : FloatingIp.t) (o : FipOrder).

Definition fls d : gmap Z FloatingIp.t := rows (floating_ips d).

(** ** The address of a floating IP *)

(** The interfaces [d'] has more than [d] belong to floating IP [k]. *)
Definition adds_ifaces (k : Z) d d' : Prop :=
  (∀ j i, ifs d !! j = Some i → ifs d' !! j = Some i) ∧
  ∀ j i, ifs d' !! j = Some i →
    ifs d !! j = Some i ∨
    (ifs d !! j = None ∧ Interface.FloatingIp i = k ∧ Interface.Type_ i = "floating").

Lemma adds_ifaces_refl k d d' : ifs d' = ifs d → adds_ifaces k d d'.
Proof. intros Hi. split; intros j i; rewrite Hi; auto. Qed.

Lemma adds_ifaces_trans k d1 d2 d3 :
  adds_ifaces k d1 d2 → adds_ifaces k d2 d3 → adds_ifaces k d1 d3.
Proof.
  intros [H1 H1'] [H2 H2']. split; [eauto|]. intros j i [Hi|(Hn & ? & ?)]%H2'; [eauto|].
  right. split_and!; [|done..]. destruct (ifs d1 !! j) eqn:Hj; [|done].
  apply H1 in Hj. congruence.
Qed.

Lemma adds_ifaces_insert k d d' j i :
  ifs d !! j = None → ifs d' = <[j := i]> (ifs d) →
  Interface.FloatingIp i = k → Interface.Type_ i = "floating" → adds_ifaces k d d'.
Proof.
  intros Hj Hi Hk Ht. split; rewrite Hi.
  - intros j' i' Hi'. rewrite lookup_insert_ne; congruence.
  - intros j' i' [[<- <-]|[? ?]]%lookup_insert_Some; auto.
Qed.

(** A failed [CreateInterface]: at most an interface is left behind. *)
Lemma CreateInterface_Err_fip s k (o : Z) h ib ob ip mac name sgs spoof c w e w' :
  CreateInterface s k o h ib ob ip mac name "floating" sgs spoof c w = (Err e, w') →
  sent w' = sent w ∧ adds_ifaces k (db w) (db w') ∧
  db w' = db w <| interfaces := interfaces (db w') |>.
Proof.
  unfold CreateInterface. rewrite GetContextDB_eq.
  assert (Hsame : ∀ w', db w' = db w →
    adds_ifaces k (db w) (db w') ∧ db w' = db w <| interfaces := interfaces (db w') |>).
  { intros w2 Hd. rewrite Hd. split; [by apply adds_ifaces_refl|by destruct (db w)]. }
  intros [Hm|(mac' & w1 & Hm & H)]%bind_Err.
  { destruct (mac_world _ _ _ _ _ Hm) as (Hd & -> & _). auto. }
  destruct (mac_world _ _ _ _ _ Hm) as (Hd1 & Hs1 & _).
  apply bind_Err in H as [H|(i1 & w2 & Hi & H)].
  { unfold db_create in H. apply stmt_Err in H as (_ & Hd & Hs). rewrite Hd1 in Hd.
    split; [congruence|auto]. }
  apply db_create_Ok in Hi as (t & Ht & Hd2 & Hs2). rewrite Hd1 in *.
  pose proof (create_spec _ _ _ _ Ht) as (Hpos & Hfresh & Hrow & Hrows).
  apply bind_Err in H as [H|(x & w3 & Hx%try_Ok & H)]; [by apply try_Err in H|].
  destruct x as [a|e1]; [done|]. apply AllocateAddress_Err in Hx as [Hd3 Hs3].
  apply bind_Err in H as [H|(y & w4 & Hy%try_Ok & [_ <-]%fail_Err)]; [by apply try_Err in H|].
  assert (Hcol : Interface.FloatingIp i1 = k ∧ Interface.Type_ i1 = "floating").
  { rewrite Hrow. by destruct (interface_columns (uuid_new (clock w1)) (get_id i1) s k o h ib ob
      mac' name "floating" sgs spoof) as (_ & -> & _ & _ & -> & _). }
  destruct y as [u|e2].
  - apply db_delete_Ok in Hy as [Hd4 Hs4]. rewrite Hd4, Hd3, Hd2. simpl.
    split; [congruence|]. split; [|done]. apply adds_ifaces_refl. unfold ifs. simpl.
    assert (Interface.ID i1 ≠ 0) as Hne by (change (get_id i1 ≠ 0); lia).
    rewrite (delete_pk (R := Interface.t)) by done. rewrite Hrows.
    change (get_id i1) with (Interface.ID i1). by apply delete_insert_id.
  - unfold db_delete in Hy. apply stmt_Err in Hy as (_ & Hd4 & Hs4). rewrite Hd4, Hd3, Hd2. simpl.
    split; [congruence|]. split; [|done].
    by eapply adds_ifaces_insert; [exact Hfresh|unfold ifs; simpl; exact Hrows|apply Hcol..].
Qed.

(** What allocating the address of a floating IP did. *)
Record fip_allocated (k : Z) (ip : string) (subnets : list Subnet.t) d d' (iface : Interface.t)
    (i : Interface.t) a s : Prop := {
  fal_subnet : s ∈ subnets;
  fal_result : iface = i <| Interface.Address :=
                 Some (allocated (Interface.ID i) "native" a <| Address.Subnet := Some s |>) |>;
  fal_free : ads d !! Address.ID a = Some a;
  fal_candidate : candidate s ip a = true;
  fal_ads : ads d' = <[Address.ID a := allocated (Interface.ID i) "native" a]> (ads d);
  fal_fresh : ifs d !! Interface.ID i = None;
  fal_pos : 0 < Interface.ID i;
  fal_row : ifs d' !! Interface.ID i = Some i;
  fal_owner : Interface.FloatingIp i = k ∧ Interface.Type_ i = "floating";
  fal_ifs : adds_ifaces k d d';
  fal_fips : floating_ips d' = floating_ips d
}.

Lemma allocate_loop_Ok k owner ip subnets e c w iface w' :
  allocate_loop k owner ip subnets e c w = (Ok iface, w') →
  sent w' = sent w ∧ ∃ i a s, fip_allocated k ip subnets (db w) (db w') iface i a s.
Proof.
  revert e w. induction subnets as [|s subnets IH]; intros e w; simpl; [by intros ?%fail_Ok|].
  intros (x & w1 & Hx%try_Ok & H)%bind_Ok. destruct x as [i0|e1].
  - apply ret_Ok in H as [-> ->].
    apply CreateInterface_Ok in Hx as (Hs & mac & i & a & r & Hi & _ & Hcon).
    split; [done|]. exists i, r, s. destruct Hcon as [Hf Hp (u & Hrow) Hi' Hc _ Hr Ha Hads Hfr].
    assert (Hcol : Interface.FloatingIp i = k ∧ Interface.Type_ i = "floating").
    { rewrite Hrow. by destruct (interface_columns u (Interface.ID i) s k owner (-1) 0 0 mac "fip"
        "floating" [] false) as (_ & -> & _ & _ & -> & _). }
    split; try done; [apply list_elem_of_here|by rewrite Hi, Ha| |..].
    + rewrite Hi'. apply lookup_insert_eq.
    + eapply adds_ifaces_insert; [exact Hf|exact Hi'|apply Hcol..].
    + by rewrite Hfr.
  - apply CreateInterface_Err_fip in Hx as (Hs1 & Hi1 & Hd1).
    apply IH in H as (Hs & i & a & s' & [H1 H2 H3 H4 H5 H6 H7 H8 H9 H10 H11]).
    assert (Ha : ads (db w1) = ads (db w)) by (unfold ads; by rewrite Hd1).
    split; [congruence|]. exists i, a, s'. rewrite Ha in *.
    split; try done; [by apply list_elem_of_further| |by eapply adds_ifaces_trans|].
    + destruct (ifs (db w) !! Interface.ID i) eqn:Hx; [|done]. apply Hi1 in Hx. congruence.
    + rewrite H11, Hd1. done.
Qed.

Lemma AllocateFloatingIp_Ok k owner subnets ip c w iface w' :
  subnets ≠ [] →
  AllocateFloatingIp k owner subnets ip c w = (Ok iface, w') →
  sent w' = sent w ∧ ∃ i a s, fip_allocated k ip subnets (db w) (db w') iface i a s.
Proof.
  intros Hne. unfold AllocateFloatingIp. rewrite GetContextDB_eq. destruct subnets as [|s l]; [done|].
  intros (x & w1 & [-> ->]%ret_Ok & H)%bind_Ok. by apply allocate_loop_Ok in H.
Qed.

(** ** One round *)

(** The floating IP [f] stands for the address [a], which was free. *)
Record stands_for ip (subnets : list Subnet.t) d d' f a : Prop := {
  sf_new : fls d !! FloatingIp.ID f = None;
  sf_row : ∃ r, fls d' !! FloatingIp.ID f = Some r ∧
    FloatingIp.FipAddress r = Address.Address a ∧
    FloatingIp.IPAddress r = before_slash (Address.Address a) ∧
    FloatingIp.SubnetID r = Address.SubnetID a ∧ FloatingIp.Type_ r = PublicFloating ∧
    FloatingIp.InstanceID r = 0 ∧ FloatingIp.LoadBalancerID r = 0;
  sf_free : ads d !! Address.ID a = Some a;
  sf_candidate : ∃ s, s ∈ subnets ∧ candidate s ip a = true;
  sf_taken : ∃ i, ifs d' !! Interface.ID i = Some i ∧ Interface.FloatingIp i = FloatingIp.ID f ∧
    Interface.Type_ i = "floating" ∧
    ads d' !! Address.ID a = Some (allocated (Interface.ID i) "native" a)
}.

(** What a round changes besides. *)
Record fip_round d d' f a : Prop := {
  fr_fips : ∃ r, fls d' = <[FloatingIp.ID f := r]> (fls d);
  fr_ads : ∃ k, ads d' = <[Address.ID a := allocated k "native" a]> (ads d) ∧ ifs d !! k = None ∧ 0 < k;
  fr_ifs : adds_ifaces (FloatingIp.ID f) d d'
}.

Lemma fip_columns_id f : keeps_id (fip_columns f).
Proof. by intros []. Qed.

Lemma allocate_round_Ok m o n c w f w' :
  fo_subnets o ≠ [] → fo_instance o = None → fo_balancer o = None → fo_isSite o = false →
  allocate_round m o n c w = (Ok f, w') →
  sent w' = sent w ∧
  ∃ a, stands_for (fo_publicIp o) (fo_subnets o) (db w) (db w') f a ∧
       fip_round (db w) (db w') f a.
Proof.
  intros Hne Hi Hb Hs. unfold allocate_round. rewrite Hi, Hs.
  intros (t & w0 & Ht & H)%bind_Ok. unfold now in Ht. injection Ht as <- <-.
  apply bind_Ok in H as (f0 & w1 & Hf0%wrap_Ok%db_create_Ok & H).
  destruct Hf0 as (tb & Hc & Hd1 & Hs1).
  pose proof (create_spec _ _ _ _ Hc) as (Hpos & Hfresh & Hrow & Hrows).
  apply bind_Ok in H as (iface & w2 & Hal & H).
  apply AllocateFloatingIp_Ok in Hal as (Hs2 & i & a & s & Hal); [|done].
  destruct Hal as [A1 A2 A3 A4 A5 A6 A7 A8 A9 A10 A11].
  apply bind_Ok in H as (ad & ? & [Had <-]%deref_Ok & H). rewrite A2 in Had.
  injection Had as <-.
  apply bind_Ok in H as (s0 & ? & [Hs0 <-]%deref_Ok & H). injection Hs0 as <-.
  apply bind_Ok in H as (f1 & ? & [<- <-]%ret_Ok & H).
  apply bind_Ok in H as (f1 & ? & [<- <-]%ret_Ok & H).
  apply bind_Ok in H as (u & w3 & Hu%wrap_Ok%db_update_Ok & [<- <-]%ret_Ok).
  destruct Hu as [Hd3 Hs3]. rewrite Hd3. tables. split; [congruence|]. exists a.
  set (k := FloatingIp.ID f0) in *. change (get_id f0) with k in *.
  assert (Hads : ads (db w1) = ads (db w)) by (unfold ads; by rewrite Hd1).
  assert (Hifs : ifs (db w1) = ifs (db w)) by (unfold ifs; by rewrite Hd1).
  assert (Hfl : fls (db w2) = <[k := f0]> (fls (db w))) by (unfold fls; rewrite A11, Hd1; exact Hrows).
  set (f := addressed _ _ _ f0) in *.
  assert (Hup : rows (g_update (by_id k) (fip_columns f) (floating_ips (db w2)))
                = <[k := fip_columns f f0]> (fls (db w))).
  { rewrite (update_key _ _ k f0 (fip_columns_id f)); [|change (fls (db w2) !! k = Some f0);
      rewrite Hfl; apply lookup_insert_eq].
    change (rows (floating_ips (db w2))) with (fls (db w2)). by rewrite Hfl, insert_insert_eq. }
  assert (Hsub : Subnet.ID s = Address.SubnetID a).
  { unfold candidate in A4. simp. lia. }
  assert (Htype : FloatingIp.Type_ f0 = PublicFloating ∧ FloatingIp.InstanceID f0 = 0 ∧
                  FloatingIp.LoadBalancerID f0 = 0).
  { rewrite Hrow. unfold order_model, order_type. rewrite Hb. done. }
  destruct Htype as (Hty & Hin & Hlb).
  rewrite Hads, Hifs in *.
  split; split; unfold fls, ads, ifs in *; simpl; change (FloatingIp.ID f0) with k.
  - exact Hfresh.
  - exists (fip_columns f f0). rewrite Hup, lookup_insert_eq. split; [done|].
    unfold f, addressed, fip_columns. simpl. unfold allocated. simpl. split_and!; try done.
  - done.
  - eauto.
  - exists i. rewrite A5, lookup_insert_eq. destruct A9. eauto.
  - eauto.
  - exists (Interface.ID i). by rewrite A5.
  - split; unfold ifs; simpl; [intros j x Hj; apply A10|intros j x Hj%A10]; unfold ifs in *;
      by rewrite ?Hifs in *.
Qed.

(** ** All rounds *)

(** What the creation of the floating IPs [fs] for the addresses [l] did. *)
Record fips_created ip (subnets : list Subnet.t) d d' (fs : list FloatingIp.t)
    (l : list Address.t) : Prop := {
  fc_stand : Forall2 (stands_for ip subnets d d') fs l;
  fc_distinct : NoDup (Address.ID <$> l);
  fc_fips k : k ∉ FloatingIp.ID <$> fs → fls d' !! k = fls d !! k;
  fc_ads j : j ∉ Address.ID <$> l → ads d' !! j = ads d !! j;
  fc_ifs j i : ifs d !! j = Some i → ifs d' !! j = Some i;
  fc_added j i : ifs d' !! j = Some i → ifs d !! j = Some i ∨
    (ifs d !! j = None ∧ Interface.Type_ i = "floating" ∧
     Interface.FloatingIp i ∈ FloatingIp.ID <$> fs)
}.

Lemma fips_created_refl ip subnets d d' :
  fls d' = fls d → ads d' = ads d → ifs d' = ifs d → fips_created ip subnets d d' [] [].
Proof.
  intros Hf Ha Hi. split; intros; rewrite ?Hf, ?Ha, ?Hi in *; auto using NoDup_nil_2.
Qed.

(** The address a floating IP stands for is not the one taken before. *)
Lemma stands_for_other ip subnets d d1 d2 f a f1 a1 :
  fip_round d d1 f a → stands_for ip subnets d1 d2 f1 a1 →
  Address.ID a1 ≠ Address.ID a ∧ FloatingIp.ID f1 ≠ FloatingIp.ID f ∧
  stands_for ip subnets d d2 f1 a1.
Proof.
  intros [(r & Hf) (k & Ha & _) Hi] [S1 S2 S3 S4 S5].
  assert (Hne : Address.ID a1 ≠ Address.ID a).
  { intros Heq. rewrite Ha, Heq, lookup_insert_eq in S3. injection S3 as S3.
    destruct S4 as (s & _ & Hc%candidate_free). by rewrite <- S3 in Hc. }
  assert (Hne' : FloatingIp.ID f1 ≠ FloatingIp.ID f).
  { intros Heq. by rewrite Hf, Heq, lookup_insert_eq in S1. }
  split; [done|]. split; [done|]. split; try done.
  - by rewrite Hf, lookup_insert_ne in S1 by done.
  - by rewrite Ha, lookup_insert_ne in S3 by done.
Qed.

Lemma stands_for_kept ip subnets d d1 d2 f a fs l :
  stands_for ip subnets d d1 f a → fips_created ip subnets d1 d2 fs l →
  FloatingIp.ID f ∉ FloatingIp.ID <$> fs → Address.ID a ∉ Address.ID <$> l →
  stands_for ip subnets d d2 f a.
Proof.
  intros [S1 (r & S2) S3 S4 (i & S5 & S6 & S7 & S8)] [_ _ C3 C4 C5 _] Hf Ha. split; try done.
  - exists r. by rewrite C3.
  - exists i. rewrite C4 by done. auto.
Qed.

Lemma fips_created_cons ip subnets d d1 d2 f a fs l :
  stands_for ip subnets d d1 f a → fip_round d d1 f a → fips_created ip subnets d1 d2 fs l →
  fips_created ip subnets d d2 (f :: fs) (a :: l).
Proof.
  intros HS HR HC. pose proof HC as [C1 C2 C3 C4 C5 C6].
  pose proof HR as [(r & Hf) (k & Ha & _) [Hi Hi']].
  assert (Hall : Forall2 (λ f1 a1, Address.ID a1 ≠ Address.ID a ∧
    FloatingIp.ID f1 ≠ FloatingIp.ID f ∧ stands_for ip subnets d d2 f1 a1) fs l).
  { eapply Forall2_impl; [exact C1|]. intros. by eapply stands_for_other. }
  assert (Hfs : FloatingIp.ID f ∉ FloatingIp.ID <$> fs).
  { intros (x & Hx & [n Hn]%list_elem_of_lookup)%list_elem_of_fmap.
    destruct (Forall2_lookup_l _ _ _ _ _ Hall Hn) as (? & _ & _ & ? & _). done. }
  assert (Hl : Address.ID a ∉ Address.ID <$> l).
  { intros (x & Hx & [n Hn]%list_elem_of_lookup)%list_elem_of_fmap.
    destruct (Forall2_lookup_r _ _ _ _ _ Hall Hn) as (? & _ & ? & _). done. }
  split; simpl.
  - constructor; [by eapply stands_for_kept|]. eapply Forall2_impl; [exact Hall|]. by intros ?? (_ & _ & ?).
  - by constructor.
  - intros j Hj%not_elem_of_cons. destruct Hj as [? Hj]. rewrite C3 by done.
    by rewrite Hf, lookup_insert_ne.
  - intros j Hj%not_elem_of_cons. destruct Hj as [? Hj]. rewrite C4 by done.
    by rewrite Ha, lookup_insert_ne.
  - auto.
  - intros j i [Hj|(Hn & ? & ?)]%C6.
    + apply Hi' in Hj as [Hj|(? & -> & ?)]; [by left|]. right. split_and!; [done..|].
      apply list_elem_of_here.
    + right. split_and!; [|done|by apply list_elem_of_further].
      destruct (ifs d !! j) eqn:Hj; [|done]. apply Hi in Hj. congruence.
Qed.

Lemma allocate_rounds_Ok m o (j n : nat) c w fs w' :
  fo_subnets o ≠ [] → fo_instance o = None → fo_balancer o = None → fo_isSite o = false →
  allocate_rounds m o j n c w = (Ok fs, w') →
  sent w' = sent w ∧ length fs = n ∧
  ∃ l, fips_created (fo_publicIp o) (fo_subnets o) (db w) (db w') fs l.
Proof.
  intros H1 H2 H3 H4. revert j w fs. induction n as [|n IH]; intros j w fs; simpl.
  - intros [<- <-]%ret_Ok. split_and!; [done..|]. exists []. by apply fips_created_refl.
  - intros (f & w1 & Hf & (fs1 & w2 & Hfs & [<- <-]%ret_Ok)%bind_Ok)%bind_Ok.
    apply allocate_round_Ok in Hf as (Hs1 & a & HS & HR); [|done..].
    apply IH in Hfs as (Hs2 & Hn & l & HC).
    split_and!; [congruence|simpl; congruence|]. exists (a :: l). by eapply fips_created_cons.
Qed.

Lemma count_idle_Ok l n c w t w' :
  count_idle l n c w = (Ok t, w') →
  db w' = db w ∧ sent w' = sent w ∧ Forall (λ s, Subnet.Type_ s = "public") l.
Proof.
  revert n w. induction l as [|s l IH]; intros n w; simpl.
  - by intros [_ <-]%ret_Ok.
  - unfold SubnetAdmin_CountIdleAddressesForSubnet.
    intros (u & w1 & [Ht <-]%require_Ok & (k & w2 & Hk & H)%bind_Ok)%bind_Ok.
    apply IH in H as (Hd & Hs & Hl). go_ok. flat. apply String.eqb_eq in Ht. auto.
Qed.

Lemma sort_subnets_elem s l : s ∈ sort_subnets l ↔ s ∈ l.
Proof. unfold sort_subnets. by rewrite (merge_sort_Permutation subnet_le l). Qed.

Lemma candidate_subnet s ip a : candidate s ip a = true → Address.SubnetID a = Subnet.ID s.
Proof. unfold candidate. intros H. simp. lia. Qed.

(** The subnets an order is served from: those it names, or all public ones. *)
Definition served_from o d s : Prop :=
  match fo_subnets o with
  | [] => rows (subnets d) !! Subnet.ID s = Some s
  | l => s ∈ l
  end.

Lemma public_subnets_Ok e c w l w' :
  public_subnets e c w = (Ok l, w') →
  db w' = db w ∧ sent w' = sent w ∧ l ≠ [] ∧
  ∀ s, s ∈ l → rows (subnets (db w)) !! Subnet.ID s = Some s.
Proof.
  unfold public_subnets. intros (l1 & w1 & Hl%wrap_Ok%db_page_Ok & H)%bind_Ok.
  destruct Hl as (-> & Hd & Hs).
  destruct (g_page _ _ _ _ _) as [|x lx] eqn:Hx; [by apply fail_Ok in H|].
  apply ret_Ok in H as [<- <-]. split_and!; [done..|].
  intros s Hin. rewrite <- Hx in Hin. by apply page_spec in Hin as [_ ?].
Qed.

Lemma FloatingIpAdmin_Create_Ok o count c w fs w' :
  fo_instance o = None → fo_balancer o = None →
  FloatingIpAdmin_Create o count [] c w = (Ok fs, w') →
  length fs = Z.to_nat count ∧ sent w' = sent w ∧
  ∃ pubs l, fips_created (fo_publicIp o) pubs (db w) (db w') fs l ∧
    (∀ s, s ∈ pubs → Subnet.Type_ s = "public" ∧ served_from o (db w) s).
Proof.
  intros Hi Hb. unfold FloatingIpAdmin_Create. rewrite Hb.
  intros (m & w0 & [<- <-]%GetMemberShip_Ok & H)%bind_Ok.
  apply bind_Ok in H as (? & ? & [_ <-]%require_Ok & H).
  apply bind_Ok in H as (? & ? & [_ <-]%require_Ok & H). apply with_tx_Ok in H.
  apply bind_Ok in H as (pubs & w1 & Hp & H).
  assert (db w1 = db w ∧ sent w1 = sent w ∧ pubs ≠ [] ∧ ∀ s, s ∈ pubs → served_from o (db w) s)
    as (Hd1 & Hs1 & Hne & Hpub).
  { unfold served_from. destruct (fo_subnets o) as [|s0 l0]; [by apply public_subnets_Ok in Hp|].
    by apply ret_Ok in Hp as [<- <-]. }
  apply bind_Ok in H as (t & w2 & (Hd2 & Hs2 & Hty)%count_idle_Ok & H).
  apply bind_Ok in H as (? & ? & [_ <-]%require_Ok & H).
  apply bind_Ok in H as (sites & w3 & Hsites & H). simpl in Hsites. apply ret_Ok in Hsites as [<- <-].
  apply bind_Ok in H as (fips & w4 & Hf & H).
  apply bind_Ok in H as (? & ? & Hsr & H). simpl in Hsr. apply ret_Ok in Hsr as [<- <-].
  apply bind_Ok in H as (? & ? & [_ <-]%ret_Ok & [<- <-]%ret_Ok). rewrite app_nil_r.
  unfold FloatingIpAdmin_createAndAllocateFloatingIps in Hf. rewrite GetContextDB_eq in Hf.
  apply bind_Ok in Hf as (m2 & ? & [<- <-]%GetMemberShip_Ok & Hf).
  apply allocate_rounds_Ok in Hf as (Hs4 & Hn & l & HC); simpl in *; try done.
  2:{ intros He. destruct pubs as [|s0 l0]; [done|].
      assert (s0 ∈ sort_subnets (s0 :: l0)) as Hin by (apply sort_subnets_elem, list_elem_of_here).
      rewrite He in Hin. by apply elem_of_nil in Hin. }
  split; [done|]. split; [congruence|]. exists (sort_subnets pubs), l.
  split; [by rewrite Hd2, Hd1 in HC|]. intros s Hin. apply (proj1 (sort_subnets_elem _ _)) in Hin.
  split; [|exact (Hpub _ Hin)].
  rewrite Forall_forall in Hty. exact (Hty _ Hin).
Qed.

(** C12. Every floating IP that is asked for, bound to nothing, is created: each has a row
    of its own with the text of an address that was free in one of the public
    subnets, the address is allocated to an interface of the floating IP, and no
    two share an address.  Other floating IPs, addresses and interfaces stay as
    they are and no hypervisor is told. *)
Theorem fip_create_spec o count c w fs w' :
  fo_instance o = None → fo_balancer o = None →
  FloatingIpAdmin_Create o count [] c w = (Ok fs, w') →
  length fs = Z.to_nat count ∧ sent w' = sent w ∧
  ∃ pubs l, fips_created (fo_publicIp o) pubs (db w) (db w') fs l ∧
    (∀ s, s ∈ pubs → Subnet.Type_ s = "public" ∧ served_from o (db w) s).
Proof. apply FloatingIpAdmin_Create_Ok. Qed.

(** ** Deletion *)

Lemma fip_released_Ok k c w u w' :
  k ≠ 0 → FloatingIpAdmin_DeallocateFloatingIp k c w = (Ok u, w') →
  let l := g_find (of_master k 0 "floating") (interfaces (db w)) in
  sent w' = sent w ∧ fls (db w') = delete k (fls (db w)) ∧
  (∀ j, ifs (db w') !! j =
     match ifs (db w) !! j with
     | Some i => if of_master k 0 "floating" i then None else Some i
     | None => None
     end) ∧
  ads (db w') =
    (λ a, if bool_decide (l ≠ []) && of_interfaces l a then freed a else a) <$> ads (db w).
Proof.
  intros Hk. unfold FloatingIpAdmin_DeallocateFloatingIp. rewrite GetContextDB_eq.
  intros (x & w1 & Hx%wrap_Ok%DeleteInterfaces_Ok & Hd%wrap_Ok%db_delete_Ok)%bind_Ok.
  destruct Hx as (Hs1 & Hi & Ha & Hfr). destruct Hd as [Hd Hs]. unfold fls, ifs, ads in *.
  rewrite Hd. simpl. split_and!; [congruence| |done|done].
  rewrite (delete_pk (R := FloatingIp.t)) by done. by rewrite Hfr.
Qed.

(** Interfaces of type "floating" belong to floating IPs that exist. *)
Definition fip_ifaces_owned d : Prop :=
  ∀ j i, ifs d !! j = Some i → Interface.Type_ i = "floating" →
    is_Some (fls d !! Interface.FloatingIp i).

(** The interfaces that were added are those of the floating IP. *)
Lemma created_masters ip pubs d d' f l j i :
  fip_ifaces_owned d → fls d !! FloatingIp.ID f = None → fips_created ip pubs d d' [f] l →
  ifs d' !! j = Some i →
  of_master (FloatingIp.ID f) 0 "floating" i = negb (bool_decide (is_Some (ifs d !! j))).
Proof.
  intros Hown Hnew [_ _ _ _ _ Hi] Hj. unfold of_master. simpl. rewrite andb_true_r.
  destruct (Hi _ _ Hj) as [Ho|(Hn & Ht & Hk)].
  - rewrite bool_decide_true by eauto. simpl.
    destruct (Z.eqb_spec (Interface.FloatingIp i) (FloatingIp.ID f)) as [He|]; [|done].
    destruct (String.eqb_spec (Interface.Type_ i) "floating") as [Ht|]; [|done].
    destruct (Hown _ _ Ho Ht) as [x Hx]. rewrite He in Hx. congruence.
  - apply list_elem_of_singleton in Hk.
    rewrite Hn, bool_decide_false by (by intros []). by rewrite Hk, Ht, Z.eqb_refl.
Qed.

(** The addresses of interfaces that were added: only the one allocated. *)
Lemma created_address ip pubs d d' f a j b :
  Consistent d → fip_ifaces_owned d → fips_created ip pubs d d' [f] [a] →
  ads d' !! j = Some b →
  let l := g_find (of_master (FloatingIp.ID f) 0 "floating") (interfaces d') in
  bool_decide (l ≠ []) && of_interfaces l b = bool_decide (j = Address.ID a).
Proof.
  intros HC Hown Hcr Hb l. pose proof Hcr as [C1 _ _ C4 C5 C6].
  apply Forall2_cons in C1 as [[S1 _ S3 _ (i & S5 & S6 & S7 & S8)] _].
  assert (Hil : i ∈ l).
  { apply (find_lookup _ _ (Interface.ID i)); [exact S5|]. unfold of_master. simpl.
    by rewrite S6, S7, Z.eqb_refl. }
  assert (Hne : l ≠ []) by (intros He; rewrite He in Hil; by apply elem_of_nil in Hil).
  rewrite (bool_decide_true _ Hne). simpl. apply eq_bool_prop_intro.
  rewrite bool_decide_spec, Is_true_true, of_interfaces_true by done. split.
  - intros (i' & Hi' & Heq). destruct (decide (j = Address.ID a)) as [|Hj]; [done|]. exfalso.
    rewrite C4 in Hb by (by intros ?%list_elem_of_singleton).
    apply find_spec in Hi' as [Hm Hr].
    change (ifs d' !! Interface.ID i' = Some i') in Hr.
    rewrite (created_masters _ _ _ _ _ _ _ _ Hown S1 Hcr Hr) in Hm.
    apply negb_true_iff, bool_decide_eq_false in Hm. rewrite Heq in Hm. apply Hm.
    apply (interface_exists _ HC _ _ Hb). rewrite <- Heq.
    pose proof (rows_pos _ _ _ Hr). lia.
  - intros ->. exists i. split; [done|]. rewrite S8 in Hb. by injection Hb as <-.
Qed.

(** C13. Creating one floating IP that is bound to no instance or load balancer, and then
    deleting it unbound, restores the tables: floating IPs and interfaces are exactly
    those of before, and so is every address, except that the address that was
    allocated, a free one, now has the type native and is recorded as the second address
    of no interface (its second interface is reset to 0).  Assumed of the state before:
    addresses and interfaces are consistent, and the interfaces of type floating belong
    to floating IPs that exist. *)
Theorem fip_roundtrip o c w f w1 g c' u w2 :
  Consistent (db w) → fip_ifaces_owned (db w) →
  fo_instance o = None → fo_balancer o = None →
  FloatingIpAdmin_Create o 1 [] c w = (Ok [f], w1) →
  LoadedFip.ID g = FloatingIp.ID f → LoadedFip.Instance g = None → LoadedFip.LoadBalancer g = None →
  FloatingIpAdmin_Delete g c' w1 = (Ok u, w2) →
  fls (db w2) = fls (db w) ∧ ifs (db w2) = ifs (db w) ∧
  ∃ a, ads (db w) !! Address.ID a = Some a ∧ Address.Allocated a = false ∧
    ads (db w2) = <[Address.ID a := a <| Address.Type_ := "native" |>
                                      <| Address.SecondInterface := 0 |>]> (ads (db w)).
Proof.
  intros HC Hown Hi Hb (_ & _ & pubs & l & Hcr & _)%FloatingIpAdmin_Create_Ok Hid HgI HgL HD; [|done..].
  pose proof Hcr as [C1 _ C3 C4 C5 C6]. apply Forall2_cons_inv_l in C1 as (a & l' & HS & Hl & ->).
  apply Forall2_nil_inv_l in Hl as ->. pose proof HS as [S1 (r & S2 & _) S3 (s & _ & Hc) (i & S5 & _ & _ & S8)].
  assert (Hk : FloatingIp.ID f ≠ 0) by (pose proof (rows_pos _ _ _ S2); lia).
  unfold FloatingIpAdmin_Delete in HD. rewrite HgI, HgL, Hid in HD.
  apply bind_Ok in HD as (? & ? & [_ <-]%require_Ok & HD). apply with_tx_Ok in HD.
  apply bind_Ok in HD as (? & ? & [_ <-]%ret_Ok & HD).
  apply fip_released_Ok in HD as (_ & Hf2 & Hi2 & Ha2); [|done]. split_and!.
  - rewrite Hf2. apply map_eq. intros j. destruct (decide (j = FloatingIp.ID f)) as [->|Hj].
    + by rewrite lookup_delete_eq.
    + rewrite lookup_delete_ne by done. apply C3. by intros ?%list_elem_of_singleton.
  - apply map_eq. intros j. rewrite Hi2. destruct (ifs (db w1) !! j) as [z|] eqn:Hx.
    + rewrite (created_masters _ _ _ _ _ _ _ _ Hown S1 Hcr Hx).
      destruct (ifs (db w) !! j) as [y|] eqn:Hy.
      * rewrite bool_decide_true by eauto. apply C5 in Hy. simpl. congruence.
      * by rewrite bool_decide_false by (by intros []).
    + destruct (ifs (db w) !! j) eqn:Hy; [|done]. apply C5 in Hy. congruence.
  - exists a. split; [done|]. split; [by eapply candidate_free|]. rewrite Ha2. apply map_eq.
    intros j. rewrite lookup_fmap. destruct (decide (j = Address.ID a)) as [->|Hj].
    + rewrite lookup_insert_eq, S8. simpl. f_equal.
      rewrite (created_address _ _ _ _ _ _ _ _ HC Hown Hcr S8), bool_decide_true by done.
      pose proof (free_unused _ HC _ _ S3 (candidate_free _ _ _ Hc)) as H0.
      pose proof (candidate_free _ _ _ Hc) as H1. destruct a; simpl in *. by subst.
    + rewrite lookup_insert_ne by done.
      destruct (ads (db w1) !! j) as [b|] eqn:Hbj; simpl.
      * rewrite (created_address _ _ _ _ _ _ _ _ HC Hown Hcr Hbj), bool_decide_false by done.
        rewrite <- Hbj. apply C4. by intros ?%list_elem_of_singleton.
      * rewrite <- Hbj. apply C4. by intros ?%list_elem_of_singleton.
Qed.

End fip_life.
