(* ===== verification/BalancerLife.v ===== *)
(** * BalancerLife: what the deletion of a load balancer leaves

    The deletion goes through the floating IPs, the listeners and their backends
    one by one.  [gentle I] and [calm I] say which statements are issued on the way:
    a property that survives them survives the operation, so that what is gone
    stays gone. *)

From S2P Require Import Prelude GoLib Json ErrorCodes Gorm Model Store Scenario Member Catalog Volume Admin Ipam NetInfo Secgroup IpGroup Subnet Dispatch Hyper Fip InstanceRpc Balancer FipAdmin FipLife.

Section balancer_life.
Context {G : Gorm} {E : Env} {GOk : GormOk G}.
Implicit Types (c : Ctx) (w : World) (d : DB) (lb : LoadedBalancer.t).

Definition lsns d : gmap Z Listener.t := rows (listeners d).
Definition bks d : gmap Z Backend.t := rows (backends d).

(** ** The statements of the deletion *)

(** Those of the deletion of a floating IP. *)
Record gentle (I : DB → Prop) : Prop := {
  gentle_addresses d t : I d → I (d <| addresses := t |>);
  gentle_iface d p : I d → I (d <| interfaces := g_delete p (interfaces d) |>);
  gentle_subnet_id d p x : I d →
    I (d <| floating_ips :=
         g_update p (λ r, r <| FloatingIp.SubnetID := x |>) (floating_ips d) |>);
  gentle_detach d p : I d → I (d <| floating_ips := g_update p detached_fip (floating_ips d) |>);
  gentle_reserve d p : I d → I (d <| floating_ips := g_update p unreserved (floating_ips d) |>);
  gentle_fip d p : I d → I (d <| floating_ips := g_delete p (floating_ips d) |>)
}.

(** All of them. *)
Record calm (I : DB → Prop) : Prop := {
  calm_gentle : gentle I;
  calm_address d p x : I d →
    I (d <| backends := g_update p (λ r, r <| Backend.BackendAddr := x |>) (backends d) |>);
  calm_backend d p : I d → I (d <| backends := g_delete p (backends d) |>);
  calm_listener d p : I d → I (d <| listeners := g_delete p (listeners d) |>);
  calm_name d p x : I d →
    I (d <| listeners := g_update_all p (λ r, r <| Listener.Name := x |>) (listeners d) |>);
  calm_vrrp d t : I d → I (d <| vrrp_instances := t |>);
  calm_balancer d t : I d → I (d <| load_balancers := t |>)
}.

Section gentle.
Context (I : DB → Prop) (HI : gentle I).

Lemma pres_db_update_all {R} {HR : Row R} {HD : InDB R} (p : R → bool) f :
  (∀ d, I d → I (set_tbl (g_update_all p f (tbl d)) d)) → preserves I (db_update_all p f).
Proof. intros Hf. apply pres_stmt. intros d n Hd. by apply Hf. Qed.

Lemma pres_preload_many {R} {HR : Row R} {HD : InDB R} keys :
  preserves I (preload_many (R := R) keys).
Proof. unfold preload_many. pres. Qed.

Lemma pres_load_backends ls : preserves I (load_backends ls).
Proof. unfold load_backends. pres. Qed.

Lemma pres_load_balancer (r : LoadBalancer.t) : preserves I (load_balancer r).
Proof.
  unfold load_balancer, lb_fips, lb_vrrps, lb_listeners. pres;
    first [apply pres_preload_many|apply pres_load_backends].
Qed.

Lemma pres_get_balancer id : preserves I (get_balancer id).
Proof. unfold get_balancer. pres. apply pres_load_balancer. Qed.

Lemma pres_check_owners m l : preserves I (check_owners m l).
Proof. unfold check_owners. pres. Qed.

Lemma pres_load_addresses l : preserves I (load_addresses l).
Proof. unfold load_addresses, preload_subnets. pres. Qed.

Lemma pres_EnsureSubnetID f : preserves I (FloatingIpAdmin_EnsureSubnetID f).
Proof.
  unfold FloatingIpAdmin_EnsureSubnetID. pres. apply pres_db_update. intros. by apply (gentle_subnet_id _ HI).
Qed.

Lemma pres_list_round f : preserves I (list_round f).
Proof.
  unfold list_round, list_instance, load_bare_addresses. pres;
    first [apply pres_EnsureSubnetID|apply pres_get_balancer].
Qed.

Lemma pres_list_loop l err : preserves I (list_loop l err).
Proof.
  revert err. induction l as [|f l IH]; intros err; simpl; [apply pres_ret|].
  apply pres_bind; [apply pres_list_round|]. intros [f1 err1].
  apply pres_bind; [apply IH|]. intros []. apply pres_ret.
Qed.

Lemma pres_load_fips l : preserves I (load_fips l).
Proof.
  unfold load_fips, load_fip_interfaces. pres;
    first [apply pres_preload_many|apply pres_load_addresses].
Qed.

Lemma pres_fip_List o l ord q p : preserves I (FloatingIpAdmin_List o l ord q p).
Proof.
  unfold FloatingIpAdmin_List. pres;
    first [apply pres_load_fips|apply pres_list_loop|apply pres_check_owners].
Qed.

Lemma pres_lb_fip_configs l : preserves I (lb_fip_configs l).
Proof. induction l as [|f l IH]; simpl; pres. Qed.

Lemma pres_GetVrrpInterfaces k : preserves I (GetVrrpInterfaces k).
Proof. unfold GetVrrpInterfaces, take_interface. pres. Qed.

Lemma pres_CreateVrrpConf o : preserves I (CreateVrrpConf o).
Proof.
  unfold CreateVrrpConf, GetLBFloatingIpJson, keepalived_side. pres;
    first [apply pres_fip_List|apply pres_lb_fip_configs|apply pres_GetVrrpInterfaces].
Qed.

Lemma pres_CreateHaproxyConf u lb : preserves I (BackendAdmin_CreateHaproxyConf u lb).
Proof.
  unfold BackendAdmin_CreateHaproxyConf, GetVrrpHyperGroup. pres. apply pres_GetVrrpInterfaces.
Qed.

Lemma pres_rebuild_balancer lb : preserves I (rebuild_balancer lb).
Proof.
  unfold rebuild_balancer. pres; first [apply pres_CreateVrrpConf|apply pres_CreateHaproxyConf].
Qed.

Lemma pres_DeleteInterfaces m sn ty : preserves I (DeleteInterfaces m sn ty).
Proof.
  unfold DeleteInterfaces, DeallocateAddress. pres;
    (apply pres_db_delete || apply pres_db_update); intros d Hd;
    by first [apply (gentle_iface _ HI)|apply (gentle_addresses _ HI)].
Qed.

Lemma pres_fip_Detach f : preserves I (FloatingIpAdmin_Detach f).
Proof.
  unfold FloatingIpAdmin_Detach, detach_network, GetVrrpHyperGroup. pres;
    try first [apply pres_GetVrrpInterfaces|apply pres_fip_List|apply pres_rebuild_balancer];
    (apply pres_db_delete || apply pres_db_update); intros d Hd; simpl;
    by first [apply (gentle_fip _ HI)|apply (gentle_detach _ HI)|apply (gentle_reserve _ HI)].
Qed.

Lemma pres_fip_Delete f : preserves I (FloatingIpAdmin_Delete f).
Proof.
  unfold FloatingIpAdmin_Delete, FloatingIpAdmin_DeallocateFloatingIp. pres;
    try first [apply pres_fip_Detach|apply pres_DeleteInterfaces].
  apply pres_db_delete. intros d Hd. by apply (gentle_fip _ HI).
Qed.

End gentle.

Section calm.
Context (I : DB → Prop) (HI : calm I).

Lemma pres_backend_List o l ord x : preserves I (BackendAdmin_List o l ord x).
Proof. unfold BackendAdmin_List. pres. apply pres_check_owners. Qed.

Lemma pres_listener_List o l ord x : preserves I (ListenerAdmin_List o l ord x).
Proof.
  unfold ListenerAdmin_List. pres; first [apply pres_check_owners|apply pres_load_backends].
Qed.

Lemma pres_backend_Delete b l lb : preserves I (BackendAdmin_Delete b l lb).
Proof.
  unfold BackendAdmin_Delete. pres;
    try first [apply pres_backend_List|apply pres_CreateHaproxyConf];
    (apply pres_db_delete || apply pres_db_update); intros d Hd;
    by first [apply (calm_backend _ HI)|apply (calm_address _ HI)].
Qed.

Lemma pres_delete_backends bs l lb : preserves I (delete_backends bs l lb).
Proof.
  revert l. induction bs as [|b bs IH]; intros l; simpl; [apply pres_ret|].
  pres. apply pres_backend_Delete.
Qed.

Lemma pres_listener_Delete l lb : preserves I (ListenerAdmin_Delete l lb).
Proof.
  unfold ListenerAdmin_Delete. pres;
    try first [apply pres_backend_List|apply pres_delete_backends|apply pres_listener_List
              |apply (pres_CreateVrrpConf _ (calm_gentle _ HI))].
  - apply pres_db_delete. intros d Hd. by apply (calm_listener _ HI).
  - apply pres_db_update_all. intros d Hd. by apply (calm_name _ HI).
Qed.

Lemma pres_delete_listeners ls lb : preserves I (delete_listeners ls lb).
Proof.
  revert lb. induction ls as [|l ls IH]; intros lb; simpl; [apply pres_ret|].
  pres. apply pres_listener_Delete.
Qed.

Lemma pres_drop_balancer (r : LoadBalancer.t) v : preserves I (drop_balancer r v).
Proof.
  unfold drop_balancer, clear_vrrp_side, DeleteInterface. pres;
    try apply pres_GetVrrpInterfaces;
    (apply pres_db_delete || apply pres_db_update || apply pres_db_update_all); intros d Hd;
    by first [apply (gentle_iface _ (calm_gentle _ HI))|apply (gentle_addresses _ (calm_gentle _ HI))|apply (calm_vrrp _ HI)
             |apply (calm_balancer _ HI)].
Qed.

End calm.

(** ** Properties that survive *)

(** The row with key [k], if there is one. *)
Definition at_key {R} `{Row R} (P : R → Prop) (t : table R) (k : Z) : Prop :=
  ∀ r, rows t !! k = Some r → P r.

Section rows.
Context {R : Type} `{RowOk R} (P : R → Prop) (t : table R) (k : Z).

Lemma at_key_update p f :
  keeps_id f → (∀ r, P r → P (f r)) → at_key P t k → at_key P (g_update p f t) k.
Proof.
  intros Hid Hf Ht r. rewrite update_lookup by done. intros (x & Hx & ->)%fmap_Some.
  destruct (p x); eauto.
Qed.

Lemma at_key_update_all p f :
  keeps_id f → (∀ r, P r → P (f r)) → at_key P t k → at_key P (g_update_all p f t) k.
Proof.
  intros Hid Hf Ht r. rewrite update_all_spec, lookup_fmap by done.
  intros (x & Hx & ->)%fmap_Some. destruct (p x); eauto.
Qed.

Lemma at_key_delete p : at_key P t k → at_key P (g_delete p t) k.
Proof.
  intros Ht r. rewrite delete_spec. destruct (rows t !! k) as [x|] eqn:Hx; [|done].
  destruct (p x); [done|]. intros [= <-]. eauto.
Qed.

Lemma at_key_gone : rows t !! k = None → at_key P t k.
Proof. intros Hn r Hr. congruence. Qed.

End rows.

(** Properties of one floating IP, one listener, one backend, and of the
    interfaces. *)
Lemma calm_fip_row P k :
  (∀ f x, P f → P (f <| FloatingIp.SubnetID := x |>)) → (∀ f, P f → P (detached_fip f)) →
  (∀ f, P f → P (unreserved f)) → calm (λ d, at_key P (floating_ips d) k).
Proof.
  intros Hs Hd Hu. split; [split|..]; intros; simpl; try done;
    first [by apply at_key_delete|apply at_key_update; [by intros []|by auto|done]].
Qed.

Lemma calm_listener_row P k :
  (∀ l x, P l → P (l <| Listener.Name := x |>)) → calm (λ d, at_key P (listeners d) k).
Proof.
  intros Hn. split; [split|..]; intros; simpl; try done;
    first [by apply at_key_delete|apply at_key_update_all; [by intros []|by auto|done]].
Qed.

Lemma calm_backend_row P k :
  (∀ b x, P b → P (b <| Backend.BackendAddr := x |>)) → calm (λ d, at_key P (backends d) k).
Proof.
  intros Hn. split; [split|..]; intros; simpl; try done;
    first [by apply at_key_delete|apply at_key_update; [by intros []|by auto|done]].
Qed.

Lemma calm_iface_row P k : calm (λ d, at_key P (interfaces d) k).
Proof. split; [split|..]; intros; simpl; try done. by apply at_key_delete. Qed.

(** ** Pages that hold everything *)

Lemma page_keys {R} `{RowOk R} os (p : R → bool) (t : table R) k r :
  rows t !! k = Some r → p r = true → k ∈ get_id <$> g_page os 0 (-1) p t.
Proof.
  intros Hk Hp. rewrite <- (rows_id _ _ _ Hk). apply list_elem_of_fmap_2.
  rewrite (page_all _ _ _ _ (eq_refl : -1 < 0)). by apply (find_lookup _ _ k).
Qed.

Lemma page_nonzero {R} `{RowOk R} os o l (p : R → bool) (t : table R) k :
  k ∈ get_id <$> g_page os o l p t → k ≠ 0.
Proof.
  intros (r & -> & Hin)%list_elem_of_fmap. apply page_spec in Hin as [_ Hr].
  apply rows_pos in Hr. lia.
Qed.

(** ** The floating IPs *)

Lemma EnsureSubnetID_id f c w g w' :
  FloatingIpAdmin_EnsureSubnetID f c w = (Ok g, w') → FloatingIp.ID g = FloatingIp.ID f.
Proof.
  unfold FloatingIpAdmin_EnsureSubnetID. rewrite GetContextDB_eq.
  intros (f1 & w1 & H1 & H)%bind_Ok. assert (FloatingIp.ID f1 = FloatingIp.ID f) as <-.
  { destruct (fip_subnet f); [|by apply ret_Ok in H1 as [<- _]].
    destruct (_ =? _); [|by apply ret_Ok in H1 as [<- _]]. go_ok. done. }
  destruct (FloatingIp.Subnet f1); [by apply ret_Ok in H as [<- _]|].
  destruct (0 <? _); go_ok; done.
Qed.

Lemma list_round_id f c w g err w' :
  list_round f c w = (Ok (g, err), w') → LoadedFip.ID g = LoadedFip.ID f.
Proof.
  unfold list_round. intros (x & w1 & Hx%try_Ok & H)%bind_Ok. destruct x as [fip|e].
  - apply EnsureSubnetID_id in Hx.
    apply bind_Ok in H as ([f1 ok] & w2 & H1 & H).
    assert (LoadedFip.ID f1 = LoadedFip.ID f) as <-.
    { destruct (0 <? FloatingIp.InstanceID fip); [|destruct (0 <? FloatingIp.LoadBalancerID fip)].
      - apply bind_Ok in H1 as ([i b] & w3 & _ & [Hr _]%ret_Ok). by simplify_eq.
      - apply bind_Ok in H1 as ([i b] & w3 & _ & [Hr _]%ret_Ok). by simplify_eq.
      - apply ret_Ok in H1 as [Hr _]. by simplify_eq. }
    destruct (ok && _).
    + apply bind_Ok in H as (y & w3 & _ & [Hr _]%ret_Ok). by simplify_eq.
    + apply ret_Ok in H as [Hr _]. by simplify_eq.
  - apply ret_Ok in H as [Hr _]. simplify_eq. unfold LoadedFip.ID, ensured. simpl.
    destruct (fip_subnet _); [|done]. by destruct (_ =? 0).
Qed.

Lemma list_loop_ids l err c w l' err' w' :
  list_loop l err c w = (Ok (l', err'), w') → LoadedFip.ID <$> l' = LoadedFip.ID <$> l.
Proof.
  revert err w l'. induction l as [|f l IH]; intros err w l'; simpl.
  - intros [Hr _]%ret_Ok. by simplify_eq.
  - intros ([f1 e1] & w1 & Hf & ([l1 e2] & w2 & Hl & [Hr <-]%ret_Ok)%bind_Ok)%bind_Ok. simplify_eq.
    simpl. f_equal; [exact (list_round_id _ _ _ _ _ _ Hf)|exact (IH _ _ _ Hl)].
Qed.

Lemma load_fips_ids l c w l' w' :
  load_fips l c w = (Ok l', w') → LoadedFip.ID <$> l' = FloatingIp.ID <$> l.
Proof.
  unfold load_fips. intros (gs & w1 & _ & (l1 & w2 & H1 &
    (ss & w3 & _ & [<- _]%ret_Ok)%bind_Ok)%bind_Ok)%bind_Ok.
  rewrite <- list_fmap_compose. change (FloatingIp.ID <$> l1 = FloatingIp.ID <$> l).
  unfold load_fip_interfaces in H1. destruct l as [|f l]; [by apply ret_Ok in H1 as [<- _]|].
  apply bind_Ok in H1 as (? & ? & _ & (? & ? & _ & [<- _]%ret_Ok)%bind_Ok).
  rewrite <- list_fmap_compose. done.
Qed.

(** Every row the caller may see is in the list. *)
Lemma fip_List_Ok p c w n l w' :
  FloatingIpAdmin_List 0 (-1) "" "" p c w = (Ok (n, l), w') →
  (∀ k f, fls (db w) !! k = Some f → p f = true →
     where_ok (GetWhere (caller c)) (FloatingIp.Owner f) = true → k ∈ LoadedFip.ID <$> l) ∧
  ∀ k, k ∈ LoadedFip.ID <$> l → k ≠ 0.
Proof.
  unfold FloatingIpAdmin_List. intros (m & w0 & [<- <-]%GetMemberShip_Ok & H)%bind_Ok.
  apply bind_Ok in H as (t & w1 & (_ & Hd1 & _)%wrap_Ok%db_count_Ok & H).
  apply bind_Ok in H as (fips & w2 & Hf%wrap_Ok & H).
  apply bind_Ok in Hf as (rs & w3 & (-> & Hd3 & _)%db_page_Ok & Hf). apply load_fips_ids in Hf.
  apply bind_Ok in H as ([l1 err] & w4 & Hl%list_loop_ids & H).
  assert (l1 = l) as ->.
  { destruct (CheckPermission _ _).
    - apply bind_Ok in H as (? & ? & _ & [Hr _]%ret_Ok). by simplify_eq.
    - destruct err; [by apply fail_Ok in H|]. apply ret_Ok in H as [Hr _]. by simplify_eq. }
  rewrite Hd1, <- Hl in Hf. simpl in Hf. clear -GOk Hf. split.
  - intros k f Hk Hp Hw. rewrite Hf.
    refine (page_keys (R := FloatingIp.t) _ _ _ k f Hk _). by rewrite Hw, Hp.
  - intros k Hk. rewrite Hf in Hk. exact (page_nonzero (R := FloatingIp.t) _ _ _ _ _ k Hk).
Qed.

Lemma fip_Delete_gone f c w u w' :
  LoadedFip.ID f ≠ 0 → FloatingIpAdmin_Delete f c w = (Ok u, w') →
  at_key (λ _, False) (floating_ips (db w')) (LoadedFip.ID f).
Proof.
  intros Hk. unfold FloatingIpAdmin_Delete. intros (? & ? & _ & H%with_tx_Ok)%bind_Ok.
  apply bind_Ok in H as (? & ? & _ & H). apply fip_released_Ok in H as (_ & Hf & _); [|done].
  apply at_key_gone. change (fls (db w') !! LoadedFip.ID f = None). rewrite Hf. apply lookup_delete_eq.
Qed.

Lemma delete_fips_Ok l c w u w' :
  (∀ k, k ∈ LoadedFip.ID <$> l → k ≠ 0) →
  for_each l (λ f, wrap ErrFIPListFailed "Failed to delete floating ip" (FloatingIpAdmin_Delete f))
    c w = (Ok u, w') →
  ∀ k, k ∈ LoadedFip.ID <$> l → at_key (λ _, False) (floating_ips (db w')) k.
Proof.
  revert w. induction l as [|f l IH]; intros w Hl; simpl; [by intros _ k ?%elem_of_nil|].
  intros (x & w1 & Hx%wrap_Ok & H)%bind_Ok k [->|Hk]%elem_of_cons.
  - apply fip_Delete_gone in Hx; [|apply Hl, list_elem_of_here].
    pose proof (calm_fip_row (λ _, False) (LoadedFip.ID f)) as HI.
    specialize (HI ltac:(done) ltac:(done) ltac:(done)).
    match type of H with ?m c w1 = _ => assert (Hp : preserves _ m) by
      (pres; apply (pres_fip_Delete _ (calm_gentle _ HI))) end.
    specialize (Hp c w1 Hx). by rewrite H in Hp.
  - eapply IH; [|exact H|done]. intros j Hj. by apply Hl, list_elem_of_further.
Qed.

(** A property kept by the rest of a run. *)
Lemma kept {A} (I : DB → Prop) (m : M A) c w r w' :
  preserves I m → I (db w) → m c w = (r, w') → I (db w').
Proof. intros Hm Hw H. specialize (Hm c w Hw). by rewrite H in Hm. Qed.

(** ** The backends *)

(** The caller may see the backends of listener [k]. *)
Definition sees_backend c (k : Z) (b : Backend.t) : Prop :=
  Backend.ListenerID b = k → where_ok (GetWhere (caller c)) (Backend.Owner b) = true.

Lemma backend_List_Ok c l w n bs w' :
  BackendAdmin_List 0 (-1) "" l c w = (Ok (n, bs), w') →
  (∀ j b, bks (db w) !! j = Some b → Backend.ListenerID b = Listener.ID l →
     sees_backend c (Listener.ID l) b → j ∈ Backend.ID <$> bs) ∧
  ∀ j, j ∈ Backend.ID <$> bs → j ≠ 0.
Proof.
  unfold BackendAdmin_List. intros (m & w0 & [<- <-]%GetMemberShip_Ok & H)%bind_Ok.
  rewrite GetContextDB_eq in H.
  apply bind_Ok in H as (t & w1 & (_ & Hd1 & _)%wrap_Ok%db_count_Ok & H).
  apply bind_Ok in H as (rs & w2 & (-> & _)%wrap_Ok%db_page_Ok & H).
  apply bind_Ok in H as (? & ? & _ & [Hr _]%ret_Ok). simplify_eq. rewrite Hd1. split.
  - intros j b Hj Hl Hs. refine (page_keys (R := Backend.t) _ _ _ j b Hj _).
    rewrite Hl, Z.eqb_refl. simpl. by apply Hs.
  - intros j Hj. exact (page_nonzero (R := Backend.t) _ _ _ _ _ j Hj).
Qed.

Lemma backend_Delete_gone b l lb c w l' w' :
  Backend.ID b ≠ 0 → BackendAdmin_Delete b l lb c w = (Ok l', w') →
  at_key (λ _, False) (backends (db w')) (Backend.ID b).
Proof.
  intros Hk. unfold BackendAdmin_Delete. intros H%with_tx_Ok.
  apply bind_Ok in H as (? & ? & _ & (? & ? & _ & (? & w1 & _ & H)%bind_Ok)%bind_Ok).
  apply bind_Ok in H as (? & w2 & (Hd & _)%wrap_Ok%db_delete_Ok & H).
  pose proof (calm_backend_row (λ _, False) (Backend.ID b) ltac:(done)) as HI.
  refine (kept (λ d, at_key _ (backends d) _) _ _ _ _ _ _ _ H).
  - pres; first [apply pres_backend_List|by apply pres_CreateHaproxyConf].
  - apply at_key_gone. rewrite Hd. simpl. rewrite (delete_pk (R := Backend.t)) by done.
    apply lookup_delete_eq.
Qed.

Lemma delete_backends_Ok bs l lb c w l' w' :
  (∀ j, j ∈ Backend.ID <$> bs → j ≠ 0) → delete_backends bs l lb c w = (Ok l', w') →
  ∀ j, j ∈ Backend.ID <$> bs → at_key (λ _, False) (backends (db w')) j.
Proof.
  revert l w. induction bs as [|b bs IH]; intros l w Hl; simpl; [by intros _ k ?%elem_of_nil|].
  intros (x & w1 & Hx%wrap_Ok & H)%bind_Ok k [->|Hk]%elem_of_cons.
  - apply backend_Delete_gone in Hx; [|apply Hl, list_elem_of_here].
    refine (kept (λ d, at_key _ (backends d) _) _ _ _ _ _ _ Hx H).
    by apply pres_delete_backends, calm_backend_row.
  - eapply IH; [|exact H|done]. intros j Hj. by apply Hl, list_elem_of_further.
Qed.

(** ** The listeners *)

Definition sees_listener c (lbID : Z) (l : Listener.t) : Prop :=
  Listener.LoadBalancerID l = lbID → where_ok (GetWhere (caller c)) (Listener.Owner l) = true.

Lemma load_backends_rows ls c w l' w' :
  load_backends ls c w = (Ok l', w') → LoadedListener.row <$> l' = ls.
Proof.
  unfold load_backends. destruct ls as [|l ls]; [by intros [<- _]%ret_Ok|].
  intros (bs & w1 & _ & [<- _]%ret_Ok)%bind_Ok. rewrite <- list_fmap_compose.
  apply list_fmap_id.
Qed.

Lemma listener_List_Ok c lb w n ls w' :
  ListenerAdmin_List 0 (-1) "" lb c w = (Ok (n, ls), w') →
  (∀ k l, lsns (db w) !! k = Some l → Listener.LoadBalancerID l = LoadedBalancer.ID lb →
     sees_listener c (LoadedBalancer.ID lb) l → k ∈ LoadedListener.ID <$> ls) ∧
  ∀ k, k ∈ LoadedListener.ID <$> ls → k ≠ 0.
Proof.
  unfold ListenerAdmin_List. intros (m & w0 & [<- <-]%GetMemberShip_Ok & H)%bind_Ok.
  rewrite GetContextDB_eq in H.
  apply bind_Ok in H as (t & w1 & (_ & Hd1 & _)%wrap_Ok%db_count_Ok & H).
  apply bind_Ok in H as (rs & w2 & Hr%wrap_Ok & H).
  apply bind_Ok in Hr as (rs0 & w3 & (-> & _)%db_page_Ok & Hr%load_backends_rows).
  apply bind_Ok in H as (? & ? & _ & [Heq _]%ret_Ok). simplify_eq. rewrite Hd1 in Hr.
  assert (Hids : LoadedListener.ID <$> ls = Listener.ID <$> (LoadedListener.row <$> ls))
    by (by rewrite <- list_fmap_compose).
  rewrite Hids, Hr. split.
  - intros k l Hk Hl Hs. refine (page_keys (R := Listener.t) _ _ _ k l Hk _).
    rewrite Hl, Z.eqb_refl. simpl. by apply Hs.
  - intros k Hk. exact (page_nonzero (R := Listener.t) _ _ _ _ _ k Hk).
Qed.

Lemma listener_Delete_gone l lb c w lb' w' :
  LoadedListener.ID l ≠ 0 → ListenerAdmin_Delete l lb c w = (Ok lb', w') →
  at_key (λ _, False) (listeners (db w')) (LoadedListener.ID l) ∧
  ∀ j, at_key (sees_backend c (LoadedListener.ID l)) (backends (db w)) j →
       at_key (λ b, Backend.ListenerID b ≠ LoadedListener.ID l) (backends (db w')) j.
Proof.
  intros Hk. unfold ListenerAdmin_Delete. intros H%with_tx_Ok.
  apply bind_Ok in H as (m & ? & [<- <-]%GetMemberShip_Ok & H).
  apply bind_Ok in H as (? & ? & [_ <-]%require_Ok & H).
  apply bind_Ok in H as ([n bs] & w1 & HL%wrap_Ok & H).
  apply bind_Ok in H as (l1 & w2 & HB & H).
  assert (HbI : ∀ P j, (∀ b x, P b → P (b <| Backend.BackendAddr := x |>)) →
    calm (λ d, at_key P (backends d) j)) by (intros; by apply calm_backend_row).
  split.
  - apply bind_Ok in H as (? & w3 & (Hd & _)%wrap_Ok%db_delete_Ok & H).
    pose proof (calm_listener_row (λ _, False) (LoadedListener.ID l) ltac:(done)) as HI.
    refine (kept (λ d, at_key _ (listeners d) _) _ _ _ _ _ _ _ H).
    + pres; try first [apply pres_listener_List|by apply pres_CreateVrrpConf, calm_gentle].
      apply pres_db_update_all. intros d Hd'. by apply (calm_name _ HI).
    + apply at_key_gone. rewrite Hd. simpl. rewrite (delete_pk (R := Listener.t)) by done.
      apply lookup_delete_eq.
  - intros j Hsee.
    assert (Hj : at_key (λ b, Backend.ListenerID b ≠ LoadedListener.ID l) (backends (db w2)) j).
    { pose proof (backend_List_Ok _ _ _ _ _ _ HL) as [Hall Hnz].
      destruct (bks (db w) !! j) as [b|] eqn:Hb;
        [destruct (decide (Backend.ListenerID b = LoadedListener.ID l)) as [He|He]|].
      - assert (j ∈ Backend.ID <$> bs) as Hin by (by eapply Hall; eauto).
        intros b' Hb'. by destruct (delete_backends_Ok _ _ _ _ _ _ _ Hnz HB j Hin b').
      - refine (kept (λ d, at_key _ (backends d) _) _ _ _ _ _ _ _ HB).
        + by apply pres_delete_backends, HbI.
        + refine (kept (λ d, at_key _ (backends d) _) _ _ _ _ _ _ _ HL);
            [apply pres_backend_List|]. intros b' Hb'. unfold bks in Hb. congruence.
      - refine (kept (λ d, at_key _ (backends d) _) _ _ _ _ _ _ _ HB).
        + by apply pres_delete_backends, HbI.
        + refine (kept (λ d, at_key _ (backends d) _) _ _ _ _ _ _ _ HL);
            [apply pres_backend_List|]. by apply at_key_gone. }
    refine (kept (λ d, at_key _ (backends d) _) _ _ _ _ _ _ Hj H).
    pres; try first [apply pres_listener_List|by apply pres_CreateVrrpConf, calm_gentle, HbI].
    + by apply pres_db_delete.
    + by apply pres_db_update_all.
Qed.

Lemma listener_Delete_struct l lb c w lb' w' :
  ListenerAdmin_Delete l lb c w = (Ok lb', w') →
  LoadedBalancer.row lb' = LoadedBalancer.row lb ∧
  LoadedBalancer.VrrpInstance lb' = LoadedBalancer.VrrpInstance lb.
Proof.
  unfold ListenerAdmin_Delete. intros H%with_tx_Ok.
  do 2 (apply bind_Ok in H as (? & ? & _ & H)). apply bind_Ok in H as ([? ?] & ? & _ & H).
  do 3 (apply bind_Ok in H as (? & ? & _ & H)). apply bind_Ok in H as ([n ls] & ? & _ & H).
  apply bind_Ok in H as (? & ? & _ & [<- _]%ret_Ok). done.
Qed.

Lemma delete_listeners_Ok ls lb c w lb' w' :
  (∀ k, k ∈ LoadedListener.ID <$> ls → k ≠ 0) → delete_listeners ls lb c w = (Ok lb', w') →
  (LoadedBalancer.row lb' = LoadedBalancer.row lb ∧
   LoadedBalancer.VrrpInstance lb' = LoadedBalancer.VrrpInstance lb) ∧
  ∀ k, k ∈ LoadedListener.ID <$> ls →
    at_key (λ _, False) (listeners (db w')) k ∧
    ∀ j, at_key (sees_backend c k) (backends (db w)) j →
         at_key (λ b, Backend.ListenerID b ≠ k) (backends (db w')) j.
Proof.
  revert lb w. induction ls as [|l ls IH]; intros lb w Hl; simpl.
  { intros [<- <-]%ret_Ok. split; [done|]. by intros k ?%elem_of_nil. }
  intros (lb1 & w1 & Hx%wrap_Ok & H)%bind_Ok.
  pose proof (listener_Delete_struct _ _ _ _ _ _ Hx) as [Hs1 Hs2].
  pose proof (listener_Delete_gone _ _ _ _ _ _ (Hl _ (list_elem_of_here _ _)) Hx) as [Hg Hb].
  destruct (IH lb1 w1) as [[Hr1 Hr2] Hrest]; [intros k Hk; by apply Hl, list_elem_of_further|done|].
  split; [split; congruence|]. intros k [->|Hk]%elem_of_cons.
  - split.
    + refine (kept (λ d, at_key _ (listeners d) _) _ _ _ _ _ _ Hg H).
      by apply pres_delete_listeners, calm_listener_row.
    + intros j Hj. refine (kept (λ d, at_key _ (backends d) _) _ _ _ _ _ _ (Hb j Hj) H).
      by apply pres_delete_listeners, calm_backend_row.
  - destruct (Hrest k Hk) as [Hgk Hbk]. split; [done|]. intros j Hj. apply Hbk.
    refine (kept (λ d, at_key _ (backends d) _) _ _ _ _ _ _ Hj Hx).
    by apply pres_listener_Delete, calm_backend_row.
Qed.

(** ** The pair of interfaces and the rows *)

(** The VRRP instance [k] has lost interface [i] of side [role]. *)
Definition side_gone (role : string) (k : Z) d d' (i : Interface.t) : Prop :=
  vrrp_side role k i = true ∧ ifs d !! Interface.ID i = Some i ∧
  ifs d' !! Interface.ID i = None ∧
  ∀ j a, ads d' !! j = Some a → Address.Interface a ≠ Interface.ID i.

Lemma take_interface_Ok p c w i w' :
  take_interface p c w = (Ok i, w') →
  db w' = db w ∧ ∃ r, p r = true ∧ ifs (db w) !! Interface.ID r = Some r ∧
    Interface.ID i = Interface.ID r.
Proof.
  unfold take_interface. intros (r & w1 & (Ht & Hd & _)%db_take_Ok & H)%bind_Ok.
  apply bind_Ok in H as (l & w2 & (_ & Hd2 & _)%db_find_Ok & [<- <-]%ret_Ok).
  split; [congruence|]. exists r. apply take_some in Ht as [Hp Hr]. done.
Qed.

Lemma clear_vrrp_side_db r v i i' c w u w' :
  clear_vrrp_side r v i i' c w = (Ok u, w') → db w' = db w.
Proof. unfold clear_vrrp_side. destruct (0 <=? _); intros; go_ok; done. Qed.

Lemma DeleteInterface_gone i c w u w' :
  Interface.ID i ≠ 0 → DeleteInterface i c w = (Ok u, w') →
  db w' = db w <| interfaces := interfaces (db w') |> <| addresses := addresses (db w') |> ∧
  ifs (db w') = delete (Interface.ID i) (ifs (db w)) ∧
  (∀ j a, ads (db w') !! j = Some a → Address.Interface a ≠ Interface.ID i) ∧
  ∀ k, (∀ j a, ads (db w) !! j = Some a → Address.Interface a ≠ k) → k ≠ 0 →
       ∀ j a, ads (db w') !! j = Some a → Address.Interface a ≠ k.
Proof.
  intros Hk H. apply DeleteInterface_Ok in H as (_ & Hi & Ha & Hd); [|done].
  split_and!; [done|done| |].
  - intros j a. rewrite Ha, lookup_fmap. intros (b & Hb & ->)%fmap_Some.
    rewrite released_Interface. case_match; lia.
  - intros k Hall Hk0 j a. rewrite Ha, lookup_fmap. intros (b & Hb & ->)%fmap_Some.
    rewrite released_Interface. case_match; [done|]. by eapply Hall.
Qed.

Lemma GetVrrpInterfaces_Ok k c w i1 i2 w' :
  GetVrrpInterfaces k c w = (Ok (i1, i2), w') →
  db w' = db w ∧ ∃ r1 r2,
    (vrrp_side "MASTER" k r1 = true ∧ ifs (db w) !! Interface.ID r1 = Some r1) ∧
    (vrrp_side "BACKUP" k r2 = true ∧ ifs (db w) !! Interface.ID r2 = Some r2) ∧
    Interface.ID i1 = Interface.ID r1 ∧ Interface.ID i2 = Interface.ID r2.
Proof.
  unfold GetVrrpInterfaces. rewrite GetContextDB_eq. intros (x1 & w1 & H1 & H)%bind_Ok.
  apply bind_Ok in H as (x2 & w2 & H2 & [Hr <-]%ret_Ok). simplify_eq.
  apply take_interface_Ok in H1 as (Hd1 & r1 & ? & ? & ?).
  apply take_interface_Ok in H2 as (Hd2 & r2 & ? & Hr2 & ?). rewrite Hd1 in Hr2.
  split; [congruence|]. exists r1, r2. done.
Qed.

Lemma drop_balancer_Ok r v c w u w' :
  VrrpInstance.ID v ≠ 0 → LoadBalancer.ID r ≠ 0 →
  drop_balancer r v c w = (Ok u, w') →
  rows (load_balancers (db w')) !! LoadBalancer.ID r = None ∧
  rows (vrrp_instances (db w')) !! VrrpInstance.ID v = None ∧
  ∃ i1 i2, side_gone "MASTER" (VrrpInstance.ID v) (db w) (db w') i1 ∧
           side_gone "BACKUP" (VrrpInstance.ID v) (db w) (db w') i2.
Proof.
  intros Hv Hr. unfold drop_balancer.
  intros ([x1 x2] & w1 & Hi%wrap_Ok%GetVrrpInterfaces_Ok & H)%bind_Ok.
  destruct Hi as (Hd1 & r1 & r2 & [Hs1 Hr1] & [Hs2 Hr2] & E1 & E2).
  assert (Interface.ID r1 ≠ 0) by (pose proof (rows_pos _ _ _ Hr1); lia).
  assert (Interface.ID r2 ≠ 0) by (pose proof (rows_pos _ _ _ Hr2); lia).
  apply bind_Ok in H as (? & w2 & Hd2%clear_vrrp_side_db & H).
  apply bind_Ok in H as (? & w3 & Hd3%clear_vrrp_side_db & H).
  apply bind_Ok in H as (? & w4 & H4%wrap_Ok & H). apply DeleteInterface_gone in H4; [|congruence].
  apply bind_Ok in H as (? & w5 & H5%wrap_Ok & H). apply DeleteInterface_gone in H5; [|congruence].
  rewrite E1, E2 in *. destruct H4 as (_ & Hi4 & Ha4 & _), H5 as (_ & Hi5 & Ha5 & Hk5).
  apply bind_Ok in H as (? & w6 & [Hd6 _]%wrap_Ok%db_delete_Ok & H).
  apply bind_Ok in H as (? & w7 & [Hd7 _]%wrap_Ok%db_delete_Ok & H).
  apply wrap_Ok, db_update_all_Ok in H as [Hd8 _].
  assert (Hifs : ifs (db w') = delete (Interface.ID r2) (delete (Interface.ID r1) (ifs (db w)))).
  { unfold ifs in *. rewrite Hd8, Hd7, Hd6. simpl. rewrite Hi5, Hi4. congruence. }
  assert (Hads : ads (db w') = ads (db w5)) by (unfold ads; by rewrite Hd8, Hd7, Hd6).
  split_and!.
  - rewrite Hd8. simpl. rewrite update_all_spec, lookup_fmap by (by intros []).
    rewrite Hd7. simpl. rewrite (delete_pk (R := LoadBalancer.t)) by done.
    by rewrite lookup_delete_eq.
  - rewrite Hd8, Hd7, Hd6. simpl. rewrite (delete_pk (R := VrrpInstance.t)) by done.
    apply lookup_delete_eq.
  - exists r1, r2. unfold side_gone. rewrite Hifs, Hads. split_and!; try done.
    + destruct (decide (Interface.ID r1 = Interface.ID r2)) as [->|Hne].
      * apply lookup_delete_eq.
      * rewrite lookup_delete_ne by done. apply lookup_delete_eq.
    + by apply Hk5.
    + apply lookup_delete_eq.
Qed.

(** ** The whole deletion *)

(** The caller may see all that belongs to the load balancer: an administrator
    sees everything, another member what its organization owns. *)
Record sees_all c (lbID : Z) d : Prop := {
  sees_fips k f : fls d !! k = Some f → FloatingIp.LoadBalancerID f = lbID →
    where_ok (GetWhere (caller c)) (FloatingIp.Owner f) = true;
  sees_listeners k l : lsns d !! k = Some l → sees_listener c lbID l;
  sees_backends k l j b : lsns d !! k = Some l → Listener.LoadBalancerID l = lbID →
    bks d !! j = Some b → sees_backend c (Listener.ID l) b
}.

Lemma calm_unbound (lbID k : Z) :
  lbID ≠ 0 → calm (λ d, at_key (λ f, FloatingIp.LoadBalancerID f ≠ lbID) (floating_ips d) k).
Proof. intros H0. apply calm_fip_row; simpl; auto. Qed.

Lemma fips_phase (lbID : Z) c w n fips w1 u w2 :
  lbID ≠ 0 →
  (∀ k f, fls (db w) !! k = Some f → FloatingIp.LoadBalancerID f = lbID →
     where_ok (GetWhere (caller c)) (FloatingIp.Owner f) = true) →
  FloatingIpAdmin_List 0 (-1) "" "" (bound_to lbID) c w = (Ok (n, fips), w1) →
  for_each fips (λ f, wrap ErrFIPListFailed "Failed to delete floating ip"
                        (FloatingIpAdmin_Delete f)) c w1 = (Ok u, w2) →
  ∀ k, at_key (λ f, FloatingIp.LoadBalancerID f ≠ lbID) (floating_ips (db w2)) k.
Proof.
  intros H0 Hsee HL HD k. pose proof (fip_List_Ok _ _ _ _ _ _ HL) as [Hall Hnz].
  pose proof (calm_gentle _ (calm_unbound lbID k H0)) as HI.
  destruct (decide (k ∈ LoadedFip.ID <$> fips)) as [Hk|Hk].
  - intros f Hf. by destruct (delete_fips_Ok _ _ _ _ _ Hnz HD k Hk f).
  - refine (kept (λ d, at_key _ (floating_ips d) _) _ _ _ _ _ _ _ HD);
      [pres; by apply pres_fip_Delete|].
    refine (kept (λ d, at_key _ (floating_ips d) _) _ _ _ _ _ _ _ HL); [by apply pres_fip_List|].
    intros f Hf He. apply Hk. eapply Hall; [exact Hf| |by eapply Hsee].
    unfold bound_to. by apply Z.eqb_eq.
Qed.

Lemma listeners_phase lb c w n ls w1 lb' w2 :
  (∀ k l, lsns (db w) !! k = Some l → sees_listener c (LoadedBalancer.ID lb) l) →
  ListenerAdmin_List 0 (-1) "" lb c w = (Ok (n, ls), w1) →
  delete_listeners ls lb c w1 = (Ok lb', w2) →
  (LoadedBalancer.row lb' = LoadedBalancer.row lb ∧
   LoadedBalancer.VrrpInstance lb' = LoadedBalancer.VrrpInstance lb) ∧
  (∀ k, at_key (λ l, Listener.LoadBalancerID l ≠ LoadedBalancer.ID lb) (listeners (db w2)) k) ∧
  ∀ k l j, lsns (db w) !! k = Some l → Listener.LoadBalancerID l = LoadedBalancer.ID lb →
    at_key (sees_backend c k) (backends (db w)) j →
    at_key (λ b, Backend.ListenerID b ≠ k) (backends (db w2)) j.
Proof.
  intros Hsee HL HD. pose proof (listener_List_Ok _ _ _ _ _ _ HL) as [Hall Hnz].
  pose proof (delete_listeners_Ok _ _ _ _ _ _ Hnz HD) as [Hs Hgone].
  assert (Hd : db w1 = db w).
  { refine (kept (λ d, d = db w) _ _ _ _ _ (pres_listener_List _ _ _ _ _) _ HL). done. }
  split; [done|]. split.
  - intros k. destruct (decide (k ∈ LoadedListener.ID <$> ls)) as [Hk|Hk].
    + intros l Hl. by destruct (proj1 (Hgone k Hk) l).
    + refine (kept (λ d, at_key _ (listeners d) _) _ _ _ _ _ _ _ HD);
        [by apply pres_delete_listeners, calm_listener_row|].
      rewrite Hd. intros l Hl He. apply Hk. by eapply Hall; [exact Hl|done|eapply Hsee].
  - intros k l j Hl He Hj. apply (Hgone k); [|by rewrite Hd].
    by eapply Hall; [exact Hl|done|eapply Hsee].
Qed.

(** No interface is new. *)
Definition old_ifaces d d' : Prop := ∀ k, at_key (λ i, ifs d !! k = Some i) (interfaces d') k.

Lemma calm_old d : calm (old_ifaces d).
Proof.
  split; [split|..]; intros; intros k; simpl; try done. by apply at_key_delete.
Qed.

Lemma gentle_same d :
  gentle (λ d', listeners d' = listeners d ∧ backends d' = backends d).
Proof. done. Qed.

(** What is left when the rows of the load balancer itself are dropped. *)
Record emptied (lbID : Z) d d' : Prop := {
  em_fips k : at_key (λ f, FloatingIp.LoadBalancerID f ≠ lbID) (floating_ips d') k;
  em_listeners k : at_key (λ l, Listener.LoadBalancerID l ≠ lbID) (listeners d') k;
  em_backends k l j : lsns d !! k = Some l → Listener.LoadBalancerID l = lbID →
    at_key (λ b, Backend.ListenerID b ≠ Listener.ID l) (backends d') j;
  em_ifaces : old_ifaces d d'
}.

Lemma delete_phases lb v c w u w' :
  LoadedBalancer.ID lb ≠ 0 → LoadedBalancer.VrrpInstance lb = Some v →
  sees_all c (LoadedBalancer.ID lb) (db w) →
  LoadBalancerAdmin_Delete lb c w = (Ok u, w') →
  ∃ w4, emptied (LoadedBalancer.ID lb) (db w) (db w4) ∧
    drop_balancer (LoadedBalancer.row lb) v (c <| dbkey := true |>) w4 = (Ok u, w').
Proof.
  intros Hlb Hvi [Sf Sl Sb]. unfold LoadBalancerAdmin_Delete. intros H%with_tx_Ok.
  set (c1 := c <| dbkey := true |>) in *.
  apply bind_Ok in H as (m & ? & [_ <-]%GetMemberShip_Ok & H).
  apply bind_Ok in H as (? & ? & [_ <-]%require_Ok & H).
  apply bind_Ok in H as ([n fips] & w1 & HL%wrap_Ok & H).
  apply bind_Ok in H as (? & w2 & HF & H).
  apply bind_Ok in H as ([n2 ls] & w3 & HLs%wrap_Ok & H).
  apply bind_Ok in H as (lb' & w4 & HD & H).
  assert (Hphase : ∀ I, gentle I → I (db w) → I (db w2)).
  { intros I HI Hw. refine (kept I _ _ _ _ _ _ _ HF); [pres; by apply pres_fip_Delete|].
    refine (kept I _ _ _ _ _ _ Hw HL). by apply pres_fip_List. }
  assert (Hcalm : ∀ I, calm I → I (db w2) → I (db w4)).
  { intros I HI Hw. refine (kept I _ _ _ _ _ _ _ HD); [by apply pres_delete_listeners|].
    refine (kept I _ _ _ _ _ (pres_listener_List _ _ _ _ _) Hw HLs). }
  destruct (Hphase _ (gentle_same (db w))) as [El Eb]; [done|].
  destruct (listeners_phase (lb <| LoadedBalancer.FloatingIps := [] |>) c1 w2 n2 ls w3 lb' w4)
    as ([Er Ev] & Hls & Hbs); [|done..|].
  { intros k l. unfold lsns. rewrite El. apply Sl. }
  simpl in Er, Ev. rewrite Ev, Hvi, Er in H.
  apply bind_Ok in H as (? & ? & [[= <-] <-]%deref_Ok & H). exists w4. split; [|done]. split.
  - intros k. apply (Hcalm _ (calm_unbound _ k Hlb)).
    exact (fips_phase _ c1 _ _ _ _ _ _ Hlb Sf HL HF k).
  - exact Hls.
  - intros k l j Hl He. pose proof (rows_id _ _ _ Hl : Listener.ID l = k) as Hk. rewrite Hk.
    refine (Hbs k l j _ He _); [unfold lsns; by rewrite El|]. rewrite Eb. intros b' Hb'.
    rewrite <- Hk. exact (Sb _ _ _ _ Hl He Hb').
  - apply (Hcalm _ (calm_old (db w))), (Hphase _ (calm_gentle _ (calm_old (db w)))). by intros k i.
Qed.

(** C10. A load balancer that is deleted by a caller who sees all that hangs on it (every
    floating IP bound to it, every listener of it and every backend of these: an
    administrator, or a member of the organization that owns them all) leaves nothing
    behind: its row and its VRRP instance are gone, no floating IP is bound to it, no
    listener belongs to it, no backend to a listener it had, and the interfaces of both
    sides are gone with their addresses released.  What another organization owns is
    not found by the deletion of a caller who does not see it, and stays. *)
Theorem balancer_delete_clean lb v c w u w' :
  LoadedBalancer.ID lb ≠ 0 → LoadedBalancer.VrrpInstance lb = Some v → VrrpInstance.ID v ≠ 0 →
  sees_all c (LoadedBalancer.ID lb) (db w) →
  LoadBalancerAdmin_Delete lb c w = (Ok u, w') →
  rows (load_balancers (db w')) !! LoadedBalancer.ID lb = None ∧
  rows (vrrp_instances (db w')) !! VrrpInstance.ID v = None ∧
  (∀ k f, fls (db w') !! k = Some f → FloatingIp.LoadBalancerID f ≠ LoadedBalancer.ID lb) ∧
  (∀ k l, lsns (db w') !! k = Some l → Listener.LoadBalancerID l ≠ LoadedBalancer.ID lb) ∧
  (∀ k l j b, lsns (db w) !! k = Some l → Listener.LoadBalancerID l = LoadedBalancer.ID lb →
     bks (db w') !! j = Some b → Backend.ListenerID b ≠ Listener.ID l) ∧
  ∃ i1 i2, side_gone "MASTER" (VrrpInstance.ID v) (db w) (db w') i1 ∧
           side_gone "BACKUP" (VrrpInstance.ID v) (db w) (db w') i2.
Proof.
  intros Hlb Hvi Hv Hsee HX.
  destruct (delete_phases _ _ _ _ _ _ Hlb Hvi Hsee HX) as (w4 & [Ef El Eb Ei] & H).
  pose proof (drop_balancer_Ok _ _ _ _ _ _ Hv Hlb H) as (G1 & G2 & i1 & i2 & I1 & I2).
  assert (Hcalm : ∀ I, calm I → I (db w4) → I (db w')).
  { intros I HI Hw. exact (kept I _ _ _ _ _ (pres_drop_balancer I HI _ _) Hw H). }
  split_and!; [done|done| | | |].
  - intros k. exact (Hcalm _ (calm_unbound _ k Hlb) (Ef k)).
  - intros k. refine (Hcalm _ (calm_listener_row _ k _) (El k)). done.
  - intros k l j b Hl He. refine (Hcalm _ (calm_backend_row _ j _) (Eb k l j Hl He) b). done.
  - exists i1, i2. destruct I1 as (? & J1 & ? & ?), I2 as (? & J2 & ? & ?).
    split; (split_and!; [done|by apply Ei|done..]).
Qed.

End balancer_life.
