(* ===== verification/BalancerConf.v ===== *)
(** * BalancerConf: the configuration the hypervisors get

    A load balancer is sent to its hypervisors as it is in the database
    whenever a backend is created or deleted; changing the address of a backend
    sends nothing.  The recovery of load balancers and the moving of a floating IP
    from a load balancer to an instance do not do what they are for. *)

From S2P Require Import Prelude GoLib Json ErrorCodes Gorm Model Store Scenario Member Catalog Volume Admin Ipam NetInfo Secgroup IpGroup Subnet Dispatch Hyper HyperReports Fip InstanceRpc Balancer FipAdmin FipLife BalancerLife.

Section conf.
Context {G : Gorm} {E : Env} {GOk : GormOk G}.
Implicit Types (c : Ctx) (w : World) (d : DB) (lb : LoadedBalancer.t) (l u : LoadedListener.t).

(** ** Structs that agree with the database *)

Record loaded_listener d l : Prop := {
  ll_row : lsns d !! LoadedListener.ID l = Some (LoadedListener.row l);
  ll_nodup : NoDup (LoadedListener.Backends l);
  ll_backends b : b ∈ LoadedListener.Backends l ↔
    bks d !! Backend.ID b = Some b ∧ Backend.ListenerID b = LoadedListener.ID l
}.

Record loaded_balancer d lb : Prop := {
  lo_nodup : NoDup (LoadedListener.ID <$> LoadedBalancer.Listeners lb);
  lo_all k r : lsns d !! k = Some r → Listener.LoadBalancerID r = LoadedBalancer.ID lb →
    k ∈ LoadedListener.ID <$> LoadedBalancer.Listeners lb;
  lo_listeners l : l ∈ LoadedBalancer.Listeners lb →
    Listener.LoadBalancerID (LoadedListener.row l) = LoadedBalancer.ID lb ∧ loaded_listener d l;
  lo_fips f : f ∈ LoadedBalancer.FloatingIps lb ↔
    ∃ g, fls d !! FloatingIp.ID g = Some g ∧
         FloatingIp.LoadBalancerID g = LoadedBalancer.ID lb ∧ f = bare_fip g
}.

Lemma NoDup_fmap_filter {A} (f : A → Z) p (l : list A) :
  NoDup (f <$> l) → NoDup (f <$> List.filter p l).
Proof.
  induction l as [|x l IH]; simpl; [done|]. intros [Hx Hl]%NoDup_cons.
  destruct (p x); simpl; [|auto]. constructor; [|auto].
  intros (y & Hy & [_ Hin]%elem_of_filter_bool)%list_elem_of_fmap. apply Hx. rewrite Hy.
  by apply list_elem_of_fmap_2.
Qed.

Lemma load_backends_loaded ls c w lls w' :
  Forall (λ r, lsns (db w) !! Listener.ID r = Some r) ls →
  load_backends ls c w = (Ok lls, w') →
  db w' = db w ∧ ∀ l, l ∈ lls → LoadedListener.row l ∈ ls ∧ loaded_listener (db w) l.
Proof.
  intros Hls H. pose proof (load_backends_rows _ _ _ _ _ H) as Hrows. revert H. unfold load_backends.
  destruct ls as [|r0 ls]; [intros [<- <-]%ret_Ok; split; [done|by intros l ?%elem_of_nil]|].
  set (rs := r0 :: ls) in *.
  intros (bs & w1 & (-> & Hd & _)%db_find_Ok & [<- <-]%ret_Ok)%bind_Ok. split; [done|].
  intros l (r & -> & Hr)%list_elem_of_fmap. split; [done|]. rewrite Forall_forall in Hls.
  split; unfold LoadedListener.ID; cbn [LoadedListener.row LoadedListener.Backends].
  - by apply Hls.
  - apply NoDup_ListNoDup, List.NoDup_filter, NoDup_ListNoDup, find_nodup.
  - intros b. rewrite elem_of_filter_bool, find_spec, Z.eqb_eq. cbv beta.
    rewrite existsb_exists. split.
    + intros (He & _ & Hb). done.
    + intros [Hb He]. split; [done|]. split; [|done]. exists r.
      split; [by apply list_elem_of_In|by apply Z.eqb_eq].
Qed.

(** What [Get] loads agrees with the database. *)
Lemma load_balancer_loaded r c w lb w' :
  load_balancer r c w = (Ok lb, w') → loaded_balancer (db w) lb ∧ db w' = db w.
Proof.
  unfold load_balancer, lb_fips, lb_listeners.
  intros (fips & w1 & Hf & (rts & w2 & Hr & (vs & w3 & Hv & (lss & w4 & Hl &
    [<- <-]%ret_Ok)%bind_Ok)%bind_Ok)%bind_Ok)%bind_Ok.
  apply bind_Ok in Hf as (fs & wf & (-> & Hd1 & _)%db_find_Ok & [<- <-]%ret_Ok).
  assert (Hd2 : db w2 = db wf).
  { exact (kept (λ d, d = db wf) _ _ _ _ _ (pres_preload_many _ _) eq_refl Hr). }
  assert (Hd3 : db w3 = db w2).
  { refine (kept (λ d, d = db w2) _ _ _ _ _ _ eq_refl Hv). unfold lb_vrrps. pres;
      apply pres_preload_many. }
  apply bind_Ok in Hl as (ls & w5 & (-> & Hd5 & _)%db_find_Ok & Hl).
  assert (Hdw : db w3 = db w) by congruence.
  pose proof (load_backends_rows _ _ _ _ _ Hl) as Hrows.
  apply load_backends_loaded in Hl as [Hd4 Hl];
    [|apply Forall_forall; intros x Hx; apply find_spec in Hx as [_ Hx]; by rewrite Hd5].
  rewrite Hd5, Hdw in *.
  assert (Hkeep : ∀ l, l ∈ lss → Listener.LoadBalancerID (LoadedListener.row l) = LoadBalancer.ID r).
  { intros l [Hin _]%Hl. apply find_spec in Hin as [Hp _]. simpl in Hp.
    rewrite orb_false_r in Hp. lia. }
  split; [|congruence]. unfold assemble. split; simpl.
  - assert (Hfi : NoDup (LoadedListener.ID <$> lss)).
    { assert (LoadedListener.ID <$> lss = Listener.ID <$> (LoadedListener.row <$> lss)) as ->
        by (by rewrite <- list_fmap_compose). rewrite Hrows.
      apply NoDup_fmap_2_strong; [|apply find_nodup]. intros x y Hx Hy Heq.
      apply find_spec in Hx as [_ Hx], Hy as [_ Hy]. simpl in Hx, Hy. congruence. }
    by apply NoDup_fmap_filter.
  - intros k x Hk Hx. apply list_elem_of_fmap.
    assert (x ∈ LoadedListener.row <$> lss) as Hin.
    { rewrite Hrows. apply (find_lookup _ _ k); [exact Hk|]. simpl.
      unfold LoadedBalancer.ID in Hx. simpl in Hx. rewrite Hx, Z.eqb_refl. done. }
    apply list_elem_of_fmap in Hin as (l & -> & Hin). exists l.
    split; [symmetry; exact (rows_id _ _ _ Hk)|]. apply elem_of_filter_bool. split; [|done].
    apply Z.eqb_eq. by apply Hkeep.
  - intros l Hin%elem_of_filter_bool. destruct Hin as [_ Hin]. split; [by apply Hkeep|by apply Hl].
  - intros f. rewrite elem_of_filter_bool, list_elem_of_fmap. split.
    + intros (_ & g & -> & Hg). apply find_spec in Hg as [Hp Hg]. simpl in Hp.
      rewrite orb_false_r in Hp. exists g. split; [done|]. split; [|done].
      unfold LoadedBalancer.ID. simpl. lia.
    + intros (g & Hg & He & ->). unfold LoadedBalancer.ID in He. simpl in He. split.
      * unfold bound_to. simpl. by apply Z.eqb_eq.
      * exists g. split; [done|]. apply find_spec. split; [|done]. simpl. rewrite He, Z.eqb_refl. done.
Qed.
(** ** The listener that changed *)

Definition replaced u l : LoadedListener.t :=
  if LoadedListener.ID l =? LoadedListener.ID u then u else l.

Definition replace_listener u lb : LoadedBalancer.t :=
  lb <| LoadedBalancer.Listeners := map (replaced u) (LoadedBalancer.Listeners lb) |>.

(** [CreateHaproxyConf] with the listener that changed configures the load
    balancer in which it has taken its place. *)
Lemma haproxy_replaced u lb :
  haproxy_config (Some u) lb = haproxy_config None (replace_listener u lb).
Proof.
  unfold haproxy_config. f_equal. simpl. unfold replace_listener, LoadedBalancer.ID. simpl.
  generalize (LoadBalancer.ID (LoadedBalancer.row lb)) as k. intros k.
  induction (LoadedBalancer.Listeners lb) as [|l ls IH]; [done|]. simpl.
  change (if LoadedListener.ID l =? LoadedListener.ID u then u else l) with (replaced u l).
  by destruct (LoadedListener.Backends (replaced u l)); rewrite IH.
Qed.

Lemma replaced_id u l : LoadedListener.ID (replaced u l) = LoadedListener.ID l.
Proof. unfold replaced. destruct (Z.eqb_spec (LoadedListener.ID l) (LoadedListener.ID u)); congruence. Qed.

Lemma replace_loaded u l0 d d' lb :
  loaded_balancer d lb → l0 ∈ LoadedBalancer.Listeners lb →
  LoadedListener.row u = LoadedListener.row l0 → loaded_listener d' u →
  listeners d' = listeners d → floating_ips d' = floating_ips d →
  (∀ b, Backend.ListenerID b ≠ LoadedListener.ID u →
     bks d' !! Backend.ID b = Some b ↔ bks d !! Backend.ID b = Some b) →
  loaded_balancer d' (replace_listener u lb).
Proof.
  intros [H1 H2 H3 H4] Hl0 Hrow Hu Hls Hfl Hbs.
  assert (Hids : LoadedListener.ID <$> LoadedBalancer.Listeners (replace_listener u lb)
                 = LoadedListener.ID <$> LoadedBalancer.Listeners lb).
  { simpl. rewrite <- list_fmap_compose. apply list_fmap_ext. intros i l _. apply replaced_id. }
  split.
  - by rewrite Hids.
  - intros k r. unfold lsns. rewrite Hids, Hls. apply H2.
  - intros l (l1 & -> & Hl1)%list_elem_of_fmap. unfold replaced.
    destruct (Z.eqb_spec (LoadedListener.ID l1) (LoadedListener.ID u)) as [He|He].
    + split; [|done]. rewrite Hrow. by apply (H3 l0).
    + destruct (H3 l1 Hl1) as [Hb [L1 L2 L3]]. split; [done|]. split; [|done|].
      * unfold lsns. by rewrite Hls.
      * intros b. rewrite L3. split; intros [Hb1 Hb2]; (split; [|done]); apply Hbs; congruence.
  - intros f. unfold fls. rewrite Hfl. apply H4.
Qed.

(** One side of a VRRP instance, as a row. *)
Lemma vrrp_sides_Ok k c w i1 i2 w' :
  GetVrrpInterfaces k c w = (Ok (i1, i2), w') →
  db w' = db w ∧ sent w' = sent w ∧ ∃ r1 r2,
    (vrrp_side "MASTER" k r1 = true ∧ ifs (db w) !! Interface.ID r1 = Some r1) ∧
    (vrrp_side "BACKUP" k r2 = true ∧ ifs (db w) !! Interface.ID r2 = Some r2) ∧
    Interface.Hyper i1 = Interface.Hyper r1 ∧ Interface.Hyper i2 = Interface.Hyper r2.
Proof.
  unfold GetVrrpInterfaces, take_interface. rewrite GetContextDB_eq.
  intros (x1 & w1 & (r1 & w2 & (T1 & Hd1 & Hs1)%db_take_Ok & (l1 & w3 & (_ & Hd2 & Hs2)%db_find_Ok &
    [<- <-]%ret_Ok)%bind_Ok)%bind_Ok & H)%bind_Ok.
  apply bind_Ok in H as (x2 & w4 & (r2 & w5 & (T2 & Hd3 & Hs3)%db_take_Ok & (l2 & w6 &
    (_ & Hd4 & Hs4)%db_find_Ok & [<- <-]%ret_Ok)%bind_Ok)%bind_Ok & [[= <- <-] <-]%ret_Ok).
  apply take_some in T1 as [P1 R1], T2 as [P2 R2]. simpl in *.
  split_and!; [congruence..|]. exists r1, r2. split_and!; try done. unfold ifs. congruence.
Qed.

(** The hypervisors of both sides, the group the configuration goes to. *)
Definition vrrp_group (k : Z) d (group : string) : Prop :=
  ∃ r1 r2, (vrrp_side "MASTER" k r1 = true ∧ ifs d !! Interface.ID r1 = Some r1) ∧
    (vrrp_side "BACKUP" k r2 = true ∧ ifs d !! Interface.ID r2 = Some r2) ∧
    group = "group-vrrp-" +:+ fmt_d k +:+ ":"
              +:+ (if 0 <=? Interface.Hyper r2 then
                     (if 0 <=? Interface.Hyper r1 then fmt_d (Interface.Hyper r1) +:+ "," else "")
                     +:+ fmt_d (Interface.Hyper r2)
                   else if 0 <=? Interface.Hyper r1 then fmt_d (Interface.Hyper r1) +:+ "," else "").

Lemma CreateHaproxyConf_Ok o lb c w x w' :
  BackendAdmin_CreateHaproxyConf o lb c w = (Ok x, w') →
  db w' = db w ∧ ∃ v group, LoadedBalancer.VrrpInstance lb = Some v ∧
    vrrp_group (VrrpInstance.ID v) (db w) group ∧
    sent w' = sent w ++ [("toall=" +:+ group,
      haproxy_command lb (VrrpInstance.ID v) (Marshal (json_balancer (haproxy_config o lb))))].
Proof.
  unfold BackendAdmin_CreateHaproxyConf, GetVrrpHyperGroup.
  intros (v & ? & [Hv <-]%deref_Ok & H)%bind_Ok.
  apply bind_Ok in H as ([[group i1] i2] & w1 & Hg & H).
  apply bind_Ok in Hg as ([j1 j2] & w2 & Hi & Hg).
  apply bind_Ok in Hg as (? & ? & [_ <-]%require_Ok & [Heq <-]%ret_Ok). simplify_eq.
  apply vrrp_sides_Ok in Hi as (Hd & Hs & r1 & r2 & R1 & R2 & E1 & E2).
  apply HyperExecute_Ok in H as (Hd' & Hs' & _).
  split; [congruence|]. eexists v, _. split; [done|]. rewrite Hs', Hs. split; [|reflexivity].
  exists r1, r2. split; [done|]. split; [done|]. by rewrite E1, E2.
Qed.

(** The document a database describes: per listener of the load balancer that has
    backends its columns and its backends, and the addresses of the floating IPs. *)
Definition backend_doc (b : Backend.t) : json :=
  JObj [("backend_url", JStr (Backend.BackendAddr b)); ("status", JStr (Backend.Status b));
        ("ssl", JBool (Backend.SSL b))].

Definition listener_doc (lbID : Z) (p : Listener.t * list Backend.t) : json :=
  JObj [("name", JStr ("lb-" +:+ fmt_d lbID +:+ "-lsn-" +:+ fmt_d (Listener.ID p.1)));
        ("mode", JStr (Listener.Mode p.1)); ("key", JStr (Listener.Key p.1));
        ("cert", JStr (Listener.Certificate p.1)); ("port", JNum (Listener.Port p.1));
        ("backends", JArr (map backend_doc p.2))].

Definition balancer_doc (lbID : Z) (ls : list (Listener.t * list Backend.t)) (addrs : list string)
    : json :=
  JObj [("listeners", JArr (map (listener_doc lbID) ls));
        ("floating_ips", match addrs with [] => JNull | _ => JArr (map JStr addrs) end)].

Record described (lbID : Z) d (ls : list (Listener.t * list Backend.t)) (addrs : list string)
    : Prop := {
  de_nodup : NoDup (map (Listener.ID ∘ fst) ls);
  de_sound r bs : (r, bs) ∈ ls →
    lsns d !! Listener.ID r = Some r ∧ Listener.LoadBalancerID r = lbID ∧ bs ≠ [] ∧ NoDup bs ∧
    ∀ b, b ∈ bs ↔ bks d !! Backend.ID b = Some b ∧ Backend.ListenerID b = Listener.ID r;
  de_complete k r j b : lsns d !! k = Some r → Listener.LoadBalancerID r = lbID →
    bks d !! j = Some b → Backend.ListenerID b = Listener.ID r → ∃ bs, (r, bs) ∈ ls;
  de_addrs a : a ∈ addrs ↔ ∃ k g, fls d !! k = Some g ∧ FloatingIp.LoadBalancerID g = lbID ∧
    FloatingIp.FipAddress g = a
}.

(** The hypervisors of the load balancer were posted one configuration, the one the
    database describes. *)
Definition deployed lb d' (added : list (string * string)) : Prop :=
  ∃ v group ls addrs, LoadedBalancer.VrrpInstance lb = Some v ∧
    vrrp_group (VrrpInstance.ID v) d' group ∧ described (LoadedBalancer.ID lb) d' ls addrs ∧
    added = [("toall=" +:+ group,
      ("/opt/cloudland/scripts/backend/create_haproxy_conf.sh " +:+ quoted_words
         [fmt_d (LoadBalancer.RouterID (LoadedBalancer.row lb)); fmt_d (LoadedBalancer.ID lb);
          fmt_d (VrrpInstance.ID v)]) +:+ "<<EOF" +:+ newline
      +:+ Marshal (balancer_doc (LoadedBalancer.ID lb) ls addrs) +:+ newline +:+ "EOF")].

Definition served (lb : LoadedBalancer.t) : list (Listener.t * list Backend.t) :=
  map (λ l, (LoadedListener.row l, LoadedListener.Backends l))
    (List.filter (λ l, match LoadedListener.Backends l with [] => false | _ => true end)
       (LoadedBalancer.Listeners lb)).

Lemma haproxy_doc lb :
  json_balancer (haproxy_config None lb) =
  balancer_doc (LoadedBalancer.ID lb) (served lb)
    (map FloatingIp.FipAddress (LoadedBalancer.FloatingIps lb)).
Proof.
  unfold haproxy_config, json_balancer, balancer_doc, served, json_slice. cbn [LoadBalancerConfig.Listeners
    LoadBalancerConfig.FloatingIps]. do 4 f_equal.
  generalize (LoadedBalancer.ID lb) as k. intros k.
  induction (LoadedBalancer.Listeners lb) as [|l ls IH]; [done|]. cbn [listener_configs List.filter].
  destruct (LoadedListener.Backends l) as [|b bs] eqn:Hb; [exact IH|]. cbn [map]. f_equal; [|exact IH].
  unfold json_listener, listener_doc, listener_config. cbn [ListenerConfig.Name ListenerConfig.Mode
    ListenerConfig.Key ListenerConfig.Cert ListenerConfig.Port ListenerConfig.Backends fst snd].
  rewrite map_map, Hb. done.
Qed.

Lemma loaded_described d lb :
  loaded_balancer d lb →
  described (LoadedBalancer.ID lb) d (served lb)
    (map FloatingIp.FipAddress (LoadedBalancer.FloatingIps lb)).
Proof.
  intros [H1 H2 H3 H4]. unfold served. split.
  - rewrite map_map. by apply NoDup_fmap_filter.
  - intros r bs (l & [= -> ->] & [Hne Hl]%elem_of_filter_bool)%list_elem_of_fmap.
    destruct (H3 l Hl) as [Hlb [L1 L2 L3]]. split_and!; try done. by destruct (LoadedListener.Backends l).
  - intros k r j b Hr Hlb Hb Hbl.
    pose proof (H2 k r Hr Hlb) as (l & -> & Hl)%list_elem_of_fmap.
    destruct (H3 l Hl) as [_ [L1 L2 L3]]. rewrite L1 in Hr. injection Hr as <-.
    exists (LoadedListener.Backends l). apply list_elem_of_fmap. exists l. split; [done|].
    apply elem_of_filter_bool. split; [|done].
    assert (b ∈ LoadedListener.Backends l) as Hin.
    { apply L3. split; [|done]. by rewrite (rows_id _ _ _ Hb : Backend.ID b = j). }
    by destruct (LoadedListener.Backends l); [apply not_elem_of_nil in Hin|].
  - intros a. rewrite list_elem_of_fmap. setoid_rewrite H4. split.
    + intros (f & -> & g & Hg & Hlb & ->). by exists (FloatingIp.ID g), g.
    + intros (k & g & Hg & Hlb & <-). exists (bare_fip g). split; [done|]. exists g.
      split_and!; [|done|done]. by rewrite (rows_id _ _ _ Hg : FloatingIp.ID g = k).
Qed.

Lemma deploys u l0 lb c w1 x w' d :
  loaded_balancer d lb → l0 ∈ LoadedBalancer.Listeners lb →
  LoadedListener.row u = LoadedListener.row l0 → loaded_listener (db w1) u →
  listeners (db w1) = listeners d → floating_ips (db w1) = floating_ips d →
  (∀ b, Backend.ListenerID b ≠ LoadedListener.ID u →
     bks (db w1) !! Backend.ID b = Some b ↔ bks d !! Backend.ID b = Some b) →
  BackendAdmin_CreateHaproxyConf (Some u) lb c w1 = (Ok x, w') →
  db w' = db w1 ∧ ∃ added, sent w' = sent w1 ++ added ∧ deployed lb (db w') added.
Proof.
  intros Hlo Hl0 Hrow Hu H1 H2 H3 (Hd & v & group & Hv & Hg & Hs)%CreateHaproxyConf_Ok.
  split; [done|]. eexists. split; [exact Hs|].
  assert (loaded_balancer (db w') (replace_listener u lb)) as Hlo'
    by (rewrite Hd; by eapply replace_loaded).
  rewrite <- Hd in Hg. eexists v, group, _, _. split; [done|]. split; [done|].
  split; [exact (loaded_described _ _ Hlo')|]. by rewrite haproxy_replaced, haproxy_doc.
Qed.

(** A backend more. *)
Lemma append_loaded d d' l b :
  loaded_listener d l → listeners d' = listeners d →
  bks d !! Backend.ID b = None → bks d' = <[Backend.ID b := b]> (bks d) →
  Backend.ListenerID b = LoadedListener.ID l →
  loaded_listener d' (l <| LoadedListener.Backends := LoadedListener.Backends l ++ [b] |>).
Proof.
  intros [L1 L2 L3] Hls Hfresh Hb He. split.
  - unfold lsns. rewrite Hls. exact L1.
  - apply NoDup_app. split_and!; [done| |apply NoDup_singleton].
    intros y [Hy _]%L3 ->%list_elem_of_singleton. congruence.
  - intros y. change (LoadedListener.ID (l <| LoadedListener.Backends := _ |>))
      with (LoadedListener.ID l). simpl.
    rewrite elem_of_app, list_elem_of_singleton, L3, Hb, lookup_insert_Some. split.
    + intros [[Hy Hl]| ->]; [|by auto]. split; [|done]. right. split; [|done]. intros Heq.
      rewrite <- Heq in Hy. congruence.
    + intros [[[_ <-]|[_ Hy]] Hl]; auto.
Qed.

Lemma append_frame d d' b (k : Z) :
  bks d !! Backend.ID b = None → bks d' = <[Backend.ID b := b]> (bks d) →
  Backend.ListenerID b = k →
  ∀ y, Backend.ListenerID y ≠ k →
    bks d' !! Backend.ID y = Some y ↔ bks d !! Backend.ID y = Some y.
Proof.
  intros Hfresh Hb He y Hy. rewrite Hb, lookup_insert_Some. split.
  - intros [[_ <-]|[_ Hy1]]; [|done]. by destruct Hy.
  - intros Hy1. right. split; [|done]. intros Heq. rewrite <- Heq in Hy1. congruence.
Qed.

Lemma backend_created m name addr ssl k c w b w' :
  db_create (backend_model m name addr ssl k) c w = (Ok b, w') →
  sent w' = sent w ∧ listeners (db w') = listeners (db w) ∧
  floating_ips (db w') = floating_ips (db w) ∧
  bks (db w) !! Backend.ID b = None ∧ bks (db w') = <[Backend.ID b := b]> (bks (db w)) ∧
  Backend.BackendAddr b = addr ∧ Backend.SSL b = ssl ∧ Backend.ListenerID b = k ∧
  Backend.Name b = name ∧ Backend.Status b = "available".
Proof.
  intros (t & Ht & Hd & Hs)%db_create_Ok.
  pose proof (create_spec _ _ _ _ Ht) as (_ & Hfresh & Hrow & Hrows).
  unfold bks. rewrite Hd. split_and!; [done..|by rewrite Hrow|by rewrite Hrow|by rewrite Hrow|by rewrite Hrow|by rewrite Hrow].
Qed.

(** C11. A backend that is created is recorded with the values given and deployed, when the
    load balancer and its listeners were read as the database has them: exactly one command
    is posted, create_haproxy_conf.sh to the hypervisors of the two sides of its VRRP
    instance, with a document that lists every listener of the load balancer that has
    backends, each with its name, mode, key, certificate and port and exactly the backends
    of the database, each with its address, status and SSL flag, and exactly the addresses
    of the floating IPs bound to the load balancer. *)
Theorem backend_create_deployed name addr ssl l lb c w b w' :
  loaded_balancer (db w) lb → l ∈ LoadedBalancer.Listeners lb →
  BackendAdmin_Create name addr ssl l lb c w = (Ok b, w') →
  bks (db w) !! Backend.ID b = None ∧ bks (db w') = <[Backend.ID b := b]> (bks (db w)) ∧
  (Backend.BackendAddr b = addr ∧ Backend.SSL b = ssl ∧
   Backend.ListenerID b = LoadedListener.ID l ∧ Backend.Name b = name ∧
   Backend.Status b = "available") ∧
  ∃ added, sent w' = sent w ++ added ∧ deployed lb (db w') added.
Proof.
  intros Hlo Hl. unfold BackendAdmin_Create.
  intros (m & ? & [<- <-]%GetMemberShip_Ok & H)%bind_Ok.
  apply bind_Ok in H as (? & ? & [_ <-]%require_Ok & H). apply with_tx_Ok in H.
  apply bind_Ok in H as (b1 & w1 & Hb%wrap_Ok%backend_created & H).
  destruct Hb as (Hs & Hls & Hfl & Hfresh & Hb & Ha & Hssl & Hk & Hname & Hst).
  apply bind_Ok in H as (? & w2 & Hx%wrap_Ok & [<- <-]%ret_Ok).
  pose proof (lo_listeners _ _ Hlo l Hl) as [_ HL].
  pose proof (append_loaded _ _ _ _ HL Hls Hfresh Hb Hk) as HA.
  set (u := l <| LoadedListener.Backends := LoadedListener.Backends l ++ [b1] |>) in *.
  pose proof (deploys u l _ _ _ _ _ _ Hlo Hl eq_refl HA Hls Hfl
    (append_frame _ _ _ _ Hfresh Hb Hk) Hx) as (Hd2 & added & Hs2 & Hdep).
  rewrite Hd2 in *. rewrite <- Hs. split_and!; [done..|eauto].
Qed.

(** Changing the address of a backend changes the row only: no hypervisor is told, and
    haproxy keeps sending to the old address. *)
Theorem backend_update_not_deployed b addr c w b' w' :
  Backend.ID b ≠ 0 → bks (db w) !! Backend.ID b = Some b → Backend.BackendAddr b ≠ addr →
  BackendAdmin_Update b addr c w = (Ok b', w') →
  bks (db w') !! Backend.ID b = Some (b <| Backend.BackendAddr := addr |>) ∧
  sent w' = sent w.
Proof.
  intros H0 Hb Ha. unfold BackendAdmin_Update. rewrite (proj2 (String.eqb_neq _ _) Ha). intros H.
  go_ok. flat. split; [|done]. unfold bks in *. simpl.
  rewrite (update_pk (R := Backend.t) _ _ _ b) by (done || by intros []). apply lookup_insert_eq.
Qed.

(** ** Recovery *)

Lemma recovered_listener_configs (k : Z) ls :
  listener_configs None k
    (map (λ l, l <| LoadedListener.Backends :=
                      map recovered_backend (LoadedListener.Backends l) |>) ls) =
  listener_configs None k ls ↔
  Forall (λ l, Forall (λ b, Backend.SSL b = false) (LoadedListener.Backends l)) ls.
Proof.
  assert (Hb : ∀ bs, map backend_config (map recovered_backend bs) = map backend_config bs ↔
                     Forall (λ b, Backend.SSL b = false) bs).
  { induction bs as [|b bs IH]; [done|]. simpl. rewrite Forall_cons, <- IH. split.
    - intros [= Hssl Hbs]. done.
    - intros [Hssl Hbs]. f_equal; [|done]. unfold backend_config. simpl. by rewrite Hssl. }
  induction ls as [|l ls IH]; [done|]. rewrite Forall_cons, <- IH, <- Hb. simpl.
  destruct (LoadedListener.Backends l) as [|b bs] eqn:Hl; [simpl; tauto|]. simpl.
  unfold listener_config. simpl. rewrite Hl. split.
  - intros [= Hssl Hbs Hls]. split; [|done]. unfold backend_config at 1 3. simpl. congruence.
  - intros [[= Hssl Hbs] Hls]. simpl. unfold backend_config at 1 3. simpl. congruence.
Qed.

(** The recovery of a load balancer sends the configuration that the requests
    send exactly when none of its backends uses SSL: it forgets the flag. *)
Theorem recovery_forgets_ssl lb :
  haproxy_config None (recovered_balancer lb) = haproxy_config None lb ↔
  Forall (λ l, Forall (λ b, Backend.SSL b = false) (LoadedListener.Backends l))
    (LoadedBalancer.Listeners lb).
Proof.
  rewrite <- (recovered_listener_configs (LoadedBalancer.ID lb)). unfold haproxy_config. simpl.
  split; [by intros [= H]|]. intros H. f_equal. exact H.
Qed.

(** ** A floating IP of a load balancer *)

(** [Detach] leaves the type of the struct alone. *)
Lemma Detach_Ok_type f c w g w' :
  FloatingIp.Type_ (LoadedFip.row f) = PublicLoadBalancer →
  FloatingIpAdmin_Detach f c w = (Ok g, w') →
  FloatingIp.Type_ (LoadedFip.row g) = PublicLoadBalancer.
Proof.
  intros Ht. unfold FloatingIpAdmin_Detach. rewrite Ht. intros H%with_tx_Ok. simpl in H.
  apply bind_Ok in H as (? & ? & _ & H). apply bind_Ok in H as (? & ? & _ & H).
  destruct (LoadedFip.LoadBalancer f) as [lb|].
  - apply bind_Ok in H as ([n fips] & ? & _ & H). by apply bind_Ok in H as (? & ? & _ & [<- _]%ret_Ok).
  - by apply ret_Ok in H as [<- _].
Qed.

(** A floating IP that is bound to a load balancer cannot be moved to an instance: the
    struct keeps its old type after it was detached, which [Attach] refuses.  The
    database is rolled back, but the hypervisors have been told to clear the
    address. *)
Theorem lb_fip_not_moved f i group olb c w g w1 :
  dbkey c = false → FloatingIp.Type_ (LoadedFip.row f) = PublicLoadBalancer →
  FloatingIpAdmin_Detach f (c <| dbkey := true |>) w = (Ok g, w1) →
  ∃ e w', FloatingIpAdmin_Update f (Some i) group olb c w = (Err e, w') ∧
    error_code e = Some ErrInvalidParameter ∧ db w' = db w ∧ sent w' = sent w1.
Proof.
  intros Hk Ht Hd. pose proof (Detach_Ok_type _ _ _ _ _ Ht Hd) as Hg.
  unfold FloatingIpAdmin_Update, with_tx. rewrite Hk. unfold mbind at 1, M_bind at 1. rewrite Hd.
  unfold FloatingIpAdmin_Attach. rewrite Hg. simpl. eexists _, _. split; [reflexivity|].
  split; [reflexivity|]. done.
Qed.

End conf.

(** ** Witnesses *)

Module BalancerWitness.
Import Scenario.

#[local] Existing Instance MemGorm.
#[local] Existing Instance MemGormOk.
#[local] Existing Instance env.

(** Load balancer 2 of organization 2, its VRRP pair on hypervisors 3 and 4, one
    listener with one backend, and floating IP 5. *)
Definition vrrp3 : VrrpInstance.t :=
  VrrpInstance.zero <| VrrpInstance.ID := 3 |> <| VrrpInstance.VrrpSubnetID := 8 |>
    <| VrrpInstance.RouterID := 1 |>.
Definition balancer2 : LoadBalancer.t :=
  LoadBalancer.zero <| LoadBalancer.ID := 2 |> <| LoadBalancer.Owner := 2 |>
    <| LoadBalancer.Name := "web" |> <| LoadBalancer.Status := "available" |>
    <| LoadBalancer.RouterID := 1 |> <| LoadBalancer.VrrpInstanceID := 3 |>.
Definition listener4 : Listener.t :=
  Listener.zero <| Listener.ID := 4 |> <| Listener.Owner := 2 |> <| Listener.Name := "https" |>
    <| Listener.Mode := "tcp" |> <| Listener.Port := 443 |> <| Listener.LoadBalancerID := 2 |>.
Definition backend6 : Backend.t :=
  Backend.zero <| Backend.ID := 6 |> <| Backend.Owner := 2 |> <| Backend.ListenerID := 4 |>
    <| Backend.BackendAddr := "10.0.0.5:443" |> <| Backend.Status := "available" |>
    <| Backend.SSL := true |>.
Definition fip5 : FloatingIp.t :=
  FloatingIp.zero <| FloatingIp.ID := 5 |> <| FloatingIp.Owner := 2 |>
    <| FloatingIp.FipAddress := "203.0.113.5/24" |> <| FloatingIp.Type_ := "loadbalancer" |>
    <| FloatingIp.LoadBalancerID := 2 |> <| FloatingIp.RouterID := 1 |>
    <| FloatingIp.SubnetID := 9 |>.
Definition vrrp_net : Subnet.t := Subnet.zero <| Subnet.ID := 8 |> <| Subnet.Vlan := 5000 |>.
Definition public_net : Subnet.t :=
  Subnet.zero <| Subnet.ID := 9 |> <| Subnet.Vlan := 10 |> <| Subnet.Type_ := "public" |>
    <| Subnet.Gateway := "203.0.113.1/24" |>.
Definition side_of (k hyper : Z) (role : string) : Interface.t :=
  Interface.zero <| Interface.ID := k |> <| Interface.Type_ := "vrrp" |>
    <| Interface.Name := role |> <| Interface.Device := 3 |> <| Interface.Hyper := hyper |>
    <| Interface.MacAddr := "52:54:00:00:00:01" |>.
Definition fip_iface : Interface.t :=
  Interface.zero <| Interface.ID := 15 |> <| Interface.Type_ := "floating" |>
    <| Interface.FloatingIp := 5 |>.
Definition address_of (k subnetID iface : Z) (text : string) : Address.t :=
  Address.zero <| Address.ID := k |> <| Address.SubnetID := subnetID |>
    <| Address.Address := text |> <| Address.Interface := iface |>
    <| Address.Allocated := negb (iface =? 0) |>.

Definition site_db : DB :=
  empty_db <| vrrp_instances := table_of [vrrp3] |> <| load_balancers := table_of [balancer2] |>
    <| listeners := table_of [listener4] |> <| backends := table_of [backend6] |>
    <| floating_ips := table_of [fip5] |> <| subnets := table_of [vrrp_net; public_net] |>
    <| interfaces := table_of [side_of 11 3 "MASTER"; side_of 12 4 "BACKUP"; fip_iface] |>
    <| addresses := table_of [address_of 21 8 11 "192.168.196.2/24"; address_of 22 8 12 "192.168.196.3/24";
                              address_of 25 9 15 "203.0.113.5/24"; address_of 26 9 0 "203.0.113.6/24"] |>
    <| routers := table_of [Router.zero <| Router.ID := 1 |>] |>.

Definition site : World := mkWorld site_db [] 0.

Definition loaded2 : LoadedBalancer.t :=
  result_of (LoadedBalancer.bare balancer2) id (load_balancer balancer2 writer site).
Definition loaded4 : LoadedListener.t := LoadedListener.mk listener4 [backend6].
Definition loaded5 : LoadedFip.t :=
  result_of (LoadedFip.bare fip5) id (FloatingIpAdmin_Get 5 writer site).

Example loaded2_listeners : LoadedBalancer.Listeners loaded2 = [loaded4].
Proof. vm_compute. reflexivity. Qed.

(** The recovery of a named load balancer that has a floating IP is a nil dereference:
    the subnets of the floating IPs are loaded only when all load balancers of the
    hypervisor are recovered, which works. *)
Theorem named_recovery_panics :
  (RecoverLoadbalancer ["recover_loadbalancer.sh"; "3"; "2"] background site).1 = Panic ∧
  (RecoverLoadbalancer ["recover_loadbalancer.sh"; "3"] background site).1
    = Ok "Successfully recovered 1 load balancer(s) on hypervisor 3".
Proof. split; vm_compute; reflexivity. Qed.

(** The rows of a table are the ones listed. *)
Lemma listed {R} {HR : Row R} {HRO : RowOk R} (l : list R) k y :
  rows (table_of l) !! k = Some y → y ∈ l ∧ get_id y = k.
Proof.
  simpl. rewrite MemOk.view_lookup. destruct (0 <? k); [|done].
  intros (x & Hx & ->)%fmap_Some. apply elem_of_list_to_map_2 in Hx.
  apply list_elem_of_fmap in Hx as (z & [= -> ->] & Hz). by rewrite set_get_id.
Qed.

Lemma site_sees : sees_all writer 2 site_db.
Proof.
  split.
  - intros k f [->%list_elem_of_singleton _]%listed _. reflexivity.
  - intros k l [->%list_elem_of_singleton _]%listed _. reflexivity.
  - intros k l j b _ _ [->%list_elem_of_singleton _]%listed _. reflexivity.
Qed.

Lemma balancer_delete_clean_witness : ∃ u w',
  LoadBalancerAdmin_Delete loaded2 writer site = (Ok u, w') ∧
  (∀ k l, lsns (db w') !! k = Some l → Listener.LoadBalancerID l ≠ 2) ∧
  ∃ i, side_gone "MASTER" 3 site_db (db w') i.
Proof.
  run_ok (LoadBalancerAdmin_Delete loaded2 writer site) u w' H. exists u, w'. split; [done|].
  destruct (balancer_delete_clean loaded2 (vrrp3 <| VrrpInstance.VrrpSubnet := Some vrrp_net |>)
    writer site u w' ltac:(by vm_compute) ltac:(by vm_compute) ltac:(done) site_sees H)
    as (_ & _ & _ & Hl & _ & i1 & _ & Hi & _).
  split; [exact Hl|]. by exists i1.
Defined.

Lemma loaded2_loaded : loaded_balancer (db site) loaded2.
Proof.
  run_ok (load_balancer balancer2 writer site) lb w' H.
  assert (loaded2 = lb) as -> by (unfold loaded2; by rewrite H).
  by apply load_balancer_loaded in H as [? _].
Qed.

Lemma backend_create_deployed_witness : ∃ b w' added,
  BackendAdmin_Create "b2" "10.0.0.6:443" true loaded4 loaded2 writer site = (Ok b, w') ∧
  sent w' = added ∧ deployed loaded2 (db w') added.
Proof.
  run_ok (BackendAdmin_Create "b2" "10.0.0.6:443" true loaded4 loaded2 writer site) b w' H.
  destruct (backend_create_deployed "b2" "10.0.0.6:443" true loaded4 loaded2 writer site b w'
    loaded2_loaded) as (_ & _ & _ & added & Hs & Hd).
  - rewrite loaded2_listeners. apply list_elem_of_here.
  - exact H.
  - exists b, w', added. split; [exact H|]. split; [exact Hs|exact Hd].
Defined.

Lemma backend_update_not_deployed_witness : ∃ b w',
  BackendAdmin_Update backend6 "10.0.0.7:443" writer site = (Ok b, w') ∧
  bks (db w') !! 6 = Some (backend6 <| Backend.BackendAddr := "10.0.0.7:443" |>) ∧ sent w' = [].
Proof.
  run_ok (BackendAdmin_Update backend6 "10.0.0.7:443" writer site) b w' H. exists b, w'.
  split; [exact H|].
  exact (backend_update_not_deployed backend6 "10.0.0.7:443" writer site b w' ltac:(done)
    ltac:(by vm_compute) ltac:(done) H).
Defined.

Lemma lb_fip_not_moved_witness : ∃ e w',
  FloatingIpAdmin_Update loaded5 (Some (Instance.zero, [])) None None writer site = (Err e, w') ∧
  db w' = site_db ∧ sent w' ≠ [].
Proof.
  run_ok (FloatingIpAdmin_Detach loaded5 (writer <| dbkey := true |>) site) g w1 H.
  destruct (lb_fip_not_moved loaded5 (Instance.zero, []) None None writer site g w1 eq_refl
    ltac:(by vm_compute) H) as (e & w' & Hu & _ & Hd & Hs).
  exists e, w'. split; [exact Hu|]. split; [exact Hd|]. rewrite Hs.
  assert (sent w1 = sent (FloatingIpAdmin_Detach loaded5 (writer <| dbkey := true |>) site).2)
    as -> by (by rewrite H). by vm_compute.
Defined.

(** An order for a floating IP in the public subnet. *)
Definition order : FipOrder := mkFipOrder "web" 0 0 [] "" None false None None.

Lemma fip_create_spec_witness : ∃ fs w' pubs l,
  FloatingIpAdmin_Create order 1 [] writer site = (Ok fs, w') ∧ length fs = 1%nat ∧
  fips_created "" pubs site_db (db w') fs l.
Proof.
  run_ok (FloatingIpAdmin_Create order 1 [] writer site) fs w' H.
  destruct (fip_create_spec order 1 writer site fs w' eq_refl eq_refl H)
    as (Hn & _ & pubs & l & Hc & _).
  exists fs, w', pubs, l. split; [exact H|]. split; [exact Hn|exact Hc].
Defined.

Ltac cases_in H := repeat (apply elem_of_cons in H as [->|H]); [..|by apply elem_of_nil in H].

Lemma site_consistent : Consistent site_db.
Proof.
  split.
  - intros k a [Hin _]%listed. cases_in Hin; by vm_compute.
  - intros k a [Hin _]%listed. cases_in Hin; first [by intros _; left|done].
  - intros k a [Hin _]%listed. cases_in Hin; first [by intros _; eexists|by intros []].
  - intros j k a b [Ha <-]%listed [Hb <-]%listed. cases_in Ha; cases_in Hb; by vm_compute.
Qed.

Lemma site_owned : fip_ifaces_owned site_db.
Proof. intros j i [Hin _]%listed. cases_in Hin; first [by intros _; eexists|done]. Qed.

Lemma fip_roundtrip_witness : ∃ f w1 u w2,
  FloatingIpAdmin_Create order 1 [] writer site = (Ok [f], w1) ∧
  FloatingIpAdmin_Delete (LoadedFip.bare f) writer w1 = (Ok u, w2) ∧
  fls (db w2) = fls site_db ∧ ifs (db w2) = ifs site_db.
Proof.
  run_ok (FloatingIpAdmin_Create order 1 [] writer site) fs w1 H.
  assert (∃ f, fs = [f]) as (f & ->).
  { assert (length fs = 1%nat) as Hn.
    { assert (fs = result_of [] id (FloatingIpAdmin_Create order 1 [] writer site)) as ->
        by (by rewrite H). by vm_compute. }
    destruct fs as [|f [|]]; try done. by exists f. }
  assert (is_Ok (FloatingIpAdmin_Delete (LoadedFip.bare f) writer w1) = true) as HD.
  { assert (w1 = (FloatingIpAdmin_Create order 1 [] writer site).2) as -> by (by rewrite H).
    assert (f = default FloatingIp.zero (head (result_of [] id
      (FloatingIpAdmin_Create order 1 [] writer site)))) as -> by (by rewrite H).
    by vm_compute. }
  apply run_Ok in HD as (u & w2 & HD). exists f, w1, u, w2. split; [exact H|]. split; [exact HD|].
  destruct (fip_roundtrip order writer site f w1 (LoadedFip.bare f) writer u w2 site_consistent
    site_owned eq_refl eq_refl H eq_refl eq_refl eq_refl HD) as (Hf & Hi & _).
  split; [exact Hf|exact Hi].
Defined.

End BalancerWitness.
