(* ===== verification/Crypto.v ===== *)
(** * Crypto: password hashes, keys, tokens and UUIDs

    The libraries that hash, sign and parse are not part of the repository: the class
    [Crypto] names the functions the program calls, [CryptoOk] what it relies on.
    utils/encrpt/mkpasswd.go, utils/uuid.go, the claims of routes/jwt.go and
    common/token.go are modelled on top of it. *)

From S2P Require Import Prelude GoLib ErrorCodes Gorm Model Store Balancer.

(** ** Claims (common/token.go, routes/jwt.go) *)

(** The claims of a console token; the expiry is in seconds. *)
Module TokenClaim.
Record TokenClaim_t := mk {
  OrgID : Z;
  Role : Z;
  InstanceID : Z;
  Secret : string;
  ExpiresAt : Z
}.
Abbreviation t := TokenClaim_t.
End TokenClaim.

(** The claims of an access token; times are in seconds. *)
Module CustomClaims.
Record CustomClaims_t := mk {
  Audience : string;
  ExpiresAt : Z;
  ID : string;
  IssuedAt : Z;
  Issuer : string;
  NotBefore : Z;
  Subject : string;
  UID : string;
  OID : string;
  Role : Z
}.
Abbreviation t := CustomClaims_t.
End CustomClaims.

(** ** The libraries *)

Class Crypto := {
  crypt : nat → string → string → option string;       (* crypt.Crypter of a hash type *)
  bcrypt_hash : nat → string → option string;          (* bcrypt.GenerateFromPassword *)
  bcrypt_ok : string → string → bool;                  (* bcrypt.CompareHashAndPassword *)
  rsa_key_pair : nat → option (string * string);       (* rsa.GenerateKey: private and public text *)
  fingerprint : string → option string;                (* ssh.ParseAuthorizedKey, FingerprintLegacyMD5 *)
  shake256 : string → string;                          (* 32 bytes of SHAKE256 in hexadecimal digits *)
  sign_hs256 : TokenClaim.t → string;                  (* SignedString with the shared secret *)
  parse_hs256 : Z → string → option TokenClaim.t;      (* jwt.ParseWithClaims at a time *)
  rsa_private : string → bool;                         (* is jwt.ParseRSAPrivateKeyFromPEM *)
  rsa_public : string → bool;                          (* and the public one successful? *)
  sign_rs256 : CustomClaims.t → option string;         (* SignedString with the private key *)
  parse_rs256 : Z → string → option CustomClaims.t     (* jwt.ParseWithClaims with the public key *)
}.

(** A token that was signed is read back until it expires; a password matches the hash
    it was stored as, and none the blank hash; 32 bytes are 64 hexadecimal digits. *)
Class CryptoOk (C : Crypto) : Prop := {
  hs256_fresh claims now : now < TokenClaim.ExpiresAt claims →
    parse_hs256 now (sign_hs256 claims) = Some claims;
  rs256_fresh claims token now : sign_rs256 claims = Some token →
    CustomClaims.NotBefore claims ≤ now → CustomClaims.IssuedAt claims ≤ now →
    now < CustomClaims.ExpiresAt claims →
    parse_rs256 now token = Some claims;
  bcrypt_matches n password hash : bcrypt_hash n password = Some hash → bcrypt_ok hash password = true;
  bcrypt_blank password : bcrypt_ok "" password = false;
  shake_length s : String.length (shake256 s) = 64%nat
}.

(** ** Passwords of guests (utils/encrpt/mkpasswd.go) *)

Section crypto.
Context {G : Gorm} {E : Env} {C : Crypto}.

Definition Mkpasswd (plain hashType : string) : M string := λ c w,
  if existsb (String.eqb hashType) ["md5"; "sha256"; "sha512"; "apr1"] then
    match crypt (clock w) hashType plain with
    | Some h => (Ok h, tick w)
    | None => (Err (GoError "crypt"), tick w)
    end
  else (Err (GoError ("Unknown hash type: " +:+ hashType)), w).

(** ** Access tokens (routes/jwt.go) *)

Definition claims_of (u o uid oid : string) (role : Z) (nano salt : Z) : CustomClaims.t :=
  let issuedAt := nano / 1000000000 in
  let expiresAt := (nano + 7200 * 1000000000) / 1000000000 in
  CustomClaims.mk u expiresAt (fmt_d (int64 (nano + salt))) issuedAt "Cloudland" issuedAt o uid oid role.

(** A key that is missing or malformed is a panic. *)
Definition key_or_panic (valid : string → bool) (name : string) : M unit :=
  let key := viper_GetString name in
  if String.eqb key "" || negb (valid key) then panic else mret tt.

(** The signed token, the time of issue and the expiry. *)
Definition NewToken (u o uid oid : string) (role : Z) : M (string * Z * Z) :=
  t ← now;
  salt ← (λ c w, (Ok (rand_intn (clock w) (2 ^ 63)), w)) : M Z;
  let claims := claims_of u o uid oid role t salt in
  _ ← key_or_panic rsa_private "key.private";
  match sign_rs256 claims with
  | Some signed => mret (signed, CustomClaims.IssuedAt claims, CustomClaims.ExpiresAt claims)
  | None => fail (GoError "SignedString")
  end.

Definition ParseToken (token : string) : M CustomClaims.t :=
  t ← now;
  _ ← key_or_panic rsa_public "key.public";
  match parse_rs256 (t / 1000000000) token with
  | Some claims => mret claims
  | None => fail (GoError "ParseWithClaims")
  end.

End crypto.

(** ** UUIDs (utils/uuid.go) *)

Definition hex_ascii (c : ascii) : bool :=
  let n := Ascii.nat_of_ascii c in
  ((48 <=? n) && (n <=? 57) || (97 <=? n) && (n <=? 102) || (65 <=? n) && (n <=? 70))%nat.

(** The regular expressions of the file are fixed sequences of character classes. *)
Fixpoint matches (classes : list (ascii → bool)) (s : string) : bool :=
  match classes, s with
  | [], EmptyString => true
  | p :: classes, String c s => p c && matches classes s
  | _, _ => false
  end.

Definition dash (c : ascii) : bool := Ascii.eqb c "-".

Definition hex_groups (sizes : list nat) : list (ascii → bool) :=
  match sizes with
  | [] => []
  | n :: sizes => replicate n hex_ascii ++ concat (map (λ m, dash :: replicate m hex_ascii) sizes)
  end.

Definition IsUUID (s : string) : bool :=
  (String.length s =? 36)%nat && matches (hex_groups [8; 4; 4; 4; 12]%nat) s.

(** The class [[8|9|aA|bB]] contains the bar. *)
Definition ValidateUUID (s : string) : bool :=
  matches (hex_groups [8; 4]%nat ++ dash :: Ascii.eqb "4" :: replicate 3 hex_ascii
           ++ dash :: (λ c, existsb (Ascii.eqb c) ["8"; "|"; "9"; "a"; "A"; "b"; "B"]%char)
              :: replicate 3 hex_ascii ++ dash :: replicate 12 hex_ascii) s.

Example uuids :
  IsUUID "123e4567-e89b-12d3-A456-426614174000" = true ∧
  ValidateUUID "123e4567-e89b-42d3-|456-426614174000" = true ∧
  ValidateUUID "123e4567-e89b-12d3-a456-426614174000" = false.
Proof. split_and!; reflexivity. Qed.

(** ** An implementation

    Tokens are the claims in binary digits; it shows that [CryptoOk] can be met, and
    the definitions of the clients run on it. *)

Module ToyCrypto.

Fixpoint digits (p : positive) : string :=
  match p with
  | xH => ""
  | xO p => String "0" (digits p)
  | xI p => String "1" (digits p)
  end.

Fixpoint of_digits (s : string) : positive :=
  match s with
  | "" => xH
  | String c s => if Ascii.eqb c "1" then xI (of_digits s) else xO (of_digits s)
  end.

Lemma of_digits_digits p : of_digits (digits p) = p.
Proof. induction p as [p IH|p IH|]; simpl; by rewrite ?IH. Qed.

Definition console_fields (c : TokenClaim.t) : Z * Z * Z * string * Z :=
  (TokenClaim.OrgID c, TokenClaim.Role c, TokenClaim.InstanceID c, TokenClaim.Secret c,
   TokenClaim.ExpiresAt c).

Definition of_console_fields (f : Z * Z * Z * string * Z) : TokenClaim.t :=
  let '(o, r, i, s, e) := f in TokenClaim.mk o r i s e.

Definition access_fields (c : CustomClaims.t)
    : string * Z * string * Z * string * Z * string * string * string * Z :=
  (CustomClaims.Audience c, CustomClaims.ExpiresAt c, CustomClaims.ID c, CustomClaims.IssuedAt c,
   CustomClaims.Issuer c, CustomClaims.NotBefore c, CustomClaims.Subject c, CustomClaims.UID c,
   CustomClaims.OID c, CustomClaims.Role c).

Definition of_access_fields
    (f : string * Z * string * Z * string * Z * string * string * string * Z) : CustomClaims.t :=
  let '(a, e, d, i, s, n, u, x, o, r) := f in CustomClaims.mk a e d i s n u x o r.

Definition sign {A} `{Countable A} (a : A) : string := digits (encode a).
Definition unsign {A} `{Countable A} (s : string) : option A := decode (of_digits s).

Lemma unsign_sign {A} `{Countable A} (a : A) : unsign (sign a) = Some a.
Proof. unfold unsign, sign. by rewrite of_digits_digits, decode_encode. Qed.

Fixpoint pad (n : nat) (s : string) : string :=
  match n, s with
  | O, _ => ""
  | S n, "" => String "0" (pad n "")
  | S n, String c s => String c (pad n s)
  end.

Lemma pad_length n s : String.length (pad n s) = n.
Proof. revert s. induction n as [|n IH]; intros [|c s]; simpl; by rewrite ?IH. Qed.

Definition live (now : Z) (c : TokenClaim.t) : option TokenClaim.t :=
  if now <? TokenClaim.ExpiresAt c then Some c else None.

Definition valid_at (now : Z) (c : CustomClaims.t) : option CustomClaims.t :=
  if (CustomClaims.NotBefore c <=? now) && (CustomClaims.IssuedAt c <=? now)
     && (now <? CustomClaims.ExpiresAt c) then Some c else None.

#[export] Instance crypto : Crypto := {|
  crypt _ kind s := Some ("$" +:+ kind +:+ "$" +:+ s);
  bcrypt_hash _ s := Some ("$2a$" +:+ s);
  bcrypt_ok h s := String.eqb h ("$2a$" +:+ s);
  rsa_key_pair n := Some ("private", "ssh-rsa key");
  fingerprint s := Some s;
  shake256 := pad 64;
  sign_hs256 c := sign (console_fields c);
  parse_hs256 now s := unsign s ≫= λ f, live now (of_console_fields f);
  rsa_private := λ _, true;
  rsa_public := λ _, true;
  sign_rs256 c := Some (sign (access_fields c));
  parse_rs256 now s := unsign s ≫= λ f, valid_at now (of_access_fields f)
|}.

#[export] Instance crypto_ok : CryptoOk crypto.
Proof.
  split; cbn -[unsign sign pad].
  - intros claims now Hn. rewrite unsign_sign. simpl. destruct claims. unfold live; simpl in *.
    by rewrite (proj2 (Z.ltb_lt _ _) Hn).
  - intros claims token now [= <-] H1 H2 H3. rewrite unsign_sign. simpl. destruct claims.
    unfold valid_at; simpl in *.
    by rewrite (proj2 (Z.leb_le _ _) H1), (proj2 (Z.leb_le _ _) H2), (proj2 (Z.ltb_lt _ _) H3).
  - intros _ password hash [= <-]. apply String.eqb_refl.
  - done.
  - intros s. apply pad_length.
Qed.

End ToyCrypto.
