(* ===== verification/NicAdmin.v ===== *)
(** * NicAdmin: the requests on the network interfaces of instances

    InterfaceAdmin of routes/interface.go: reading, detaching, creating and updating
    the interfaces of an instance, and the checks on their subnets.  An operation that
    changes a struct of its caller returns the struct as it leaves it. *)

From S2P Require Import Prelude GoLib Json ErrorCodes Gorm Model Store Scenario Member Catalog Ipam NetInfo Volume Admin Secgroup Fip InstanceRpc Balancer FipAdmin.

(** An instance with the associations [InstanceAdmin.Get] loads. *)
Module LoadedInstance.
Record LoadedInstance_t := mk {
  row : Instance.t;
  Interfaces : list Interface.t;
  Volumes : list Volume.t;
  FloatingIps : list FloatingIp.t;
  Zone : option Zone.t;
  Flavor : option Flavor.t;
  Router : option Router.t
}.
Abbreviation t := LoadedInstance_t.
#[global] Instance eta_t : Eta t := λ r,
  mk (row r) (Interfaces r) (Volumes r) (FloatingIps r) (Zone r) (Flavor r) (Router r).
Definition ID (i : t) : Z := Instance.ID (row i).
Definition bare (r : Instance.t) : t := mk r [] [] [] None None None.
End LoadedInstance.

(** What is asked of an interface of a new instance. *)
Module InterfaceInfo.
Record InterfaceInfo_t := mk {
  PublicIps : list FloatingIp.t;
  Subnets : list Subnet.t;
  MacAddress : string;
  IpAddress : string;
  Count : Z;
  SiteSubnets : list Subnet.t;
  Inbound : Z;
  Outbound : Z;
  AllowSpoofing : bool;
  SecurityGroups : list SecurityGroup.t
}.
Abbreviation t := InterfaceInfo_t.
#[global] Instance eta_t : Eta t := λ r,
  mk (PublicIps r) (Subnets r) (MacAddress r) (IpAddress r) (Count r) (SiteSubnets r) (Inbound r)
    (Outbound r) (AllowSpoofing r) (SecurityGroups r).
Definition zero : t := mk [] [] "" "" 0 [] 0 0 false [].
End InterfaceInfo.

(** ** The checks on subnets *)

(** All subnets are in one segment, and in [vlan] when it is not 0. *)
Fixpoint same_vlan (vlan : Z) (subnets : list Subnet.t) : bool :=
  match subnets with
  | [] => true
  | s :: subnets =>
      if vlan =? 0 then same_vlan (Subnet.Vlan s) subnets
      else (vlan =? Subnet.Vlan s) && same_vlan vlan subnets
  end.

Definition InterfaceAdmin_checkSubnets (subnets : list Subnet.t) (vlan : Z) : option error :=
  match subnets with
  | [] => Some (GoError "At least one subnet must be specified")
  | _ => if same_vlan vlan subnets then None
         else Some (GoError "Subnets are not all in the same vlan")
  end.

Definition first_vlan (subnets : list Subnet.t) : option Z := Subnet.Vlan <$> head subnets.

(** The segments of the second interfaces against the one of the first. *)
Fixpoint check_seconds (checkVlan : Z) (ifaces : list InterfaceInfo.t) : option error :=
  match ifaces with
  | [] => None
  | i :: ifaces =>
      match InterfaceAdmin_checkSubnets (InterfaceInfo.Subnets i) 0 with
      | Some e => Some e
      | None =>
          if bool_decide (first_vlan (InterfaceInfo.Subnets i) = Some checkVlan)
          then Some (GoError "Second interfaces can not use same vlan with primary")
          else check_seconds checkVlan ifaces
      end
  end.

(** The segments of the second interfaces against each other. *)
Fixpoint check_pairs (ifaces : list InterfaceInfo.t) : option error :=
  match ifaces with
  | [] => None
  | i :: ifaces =>
      if existsb (λ j, bool_decide (first_vlan (InterfaceInfo.Subnets j) =
                                    first_vlan (InterfaceInfo.Subnets i))) ifaces
      then Some (GoError "Different interfaces can not use same vlan")
      else check_pairs ifaces
  end.

Definition InterfaceAdmin_CheckIfaceSubnets (primary : InterfaceInfo.t)
    (seconds : list InterfaceInfo.t) : option error :=
  let own := match InterfaceInfo.Subnets primary with
             | [] => None
             | l => InterfaceAdmin_checkSubnets l 0
             end in
  let checkVlan := default 0 (first_vlan (InterfaceInfo.Subnets primary)) in
  let site := match InterfaceInfo.SiteSubnets primary with
              | [] => None
              | l => InterfaceAdmin_checkSubnets l checkVlan
              end in
  match own, site with
  | Some e, _ | None, Some e => Some e
  | None, None =>
      match check_seconds checkVlan seconds with
      | Some e => Some e
      | None => check_pairs seconds
      end
  end.

(** ** Whether the addresses of an interface change *)

(** [pubIp.Interface.Address.Subnet.Vlan] *)
Definition fip_vlan (f : FloatingIp.t) : option Z :=
  i ← FloatingIp.Interface f; a ← Interface.Address i; s ← Address.Subnet a; Some (Subnet.Vlan s).

(** The sites that are asked for against the ones the interface has: [valid] and
    [changed]. *)
Fixpoint check_sites (vlan : Z) (have sites : list Subnet.t) (changed : bool) : bool * bool :=
  match sites with
  | [] => (true, changed)
  | site :: sites =>
      if negb (vlan =? Subnet.Vlan site) then (false, true)
      else if existsb (λ s, Subnet.ID site =? Subnet.ID s) have
           then check_sites vlan have sites changed
           else (true, true)
  end.

(** The columns of a floating IP that no interface uses any more. *)
Definition floated (r : FloatingIp.t) : FloatingIp.t :=
  r <| FloatingIp.InstanceID := 0 |> <| FloatingIp.RouterID := 0 |>
    <| FloatingIp.IntAddress := "" |> <| FloatingIp.Type_ := PublicFloating |>.

(** The columns of a first interface that goes back to its floating IP. *)
Definition demoted (uuid mac : string) (r : Interface.t) : Interface.t :=
  r <| Interface.Instance := 0 |> <| Interface.UUID := uuid |> <| Interface.PrimaryIf := false |>
    <| Interface.Name := "fip" |> <| Interface.Inbound := 0 |> <| Interface.Outbound := 0 |>
    <| Interface.AllowSpoofing := false |> <| Interface.MacAddr := mac |>.

Definition nic_denied : error :=
  NewCLError ErrPermissionDenied "Not authorized to read the interface" None.

Definition detach_nic_command (instance : Instance.t) (iface : Interface.t) (vlan : Z)
    (address : string) : string :=
  backend_script "detach_vm_nic.sh"
    [fmt_d (Instance.ID instance); fmt_d (Interface.ID iface); fmt_d vlan; address;
     Interface.MacAddr iface].

Section nics.
Context {G : Gorm} {E : Env}.

(** ** Reading *)

(** [Preload] of SiteSubnets, SecurityGroups, Address, Address.Subnet,
    SecondAddresses (in the order of their last change) and their subnets *)
Definition load_interfaces (ifaces : list Interface.t) : M (list Interface.t) :=
  ifaces ← load_groups ifaces; preload_addresses ifaces.

Definition take_nic (p : Interface.t → bool) : M Interface.t :=
  wrap ErrInterfaceNotFound "Interface not found" (
    i ← db_take p; l ← load_interfaces [i]; deref (head l)).

Definition InterfaceAdmin_Get (id : Z) : M Interface.t :=
  if id <=? 0 then fail (NewCLError ErrInvalidParameter "Invalid interface ID" None)
  else
    m ← GetMemberShip;
    GetContextDB (
      iface ← take_nic (by_pk id);
      _ ← require (ValidateOwner m Reader (Interface.Owner iface)) nic_denied;
      mret iface).

Definition InterfaceAdmin_GetInterfaceByUUID (uuID : string) : M Interface.t :=
  m ← GetMemberShip;
  GetContextDB (
    iface ← take_nic (λ i, where_ok (GetWhere m) (Interface.Owner i)
                           && String.eqb (Interface.UUID i) uuID);
    _ ← require (ValidateOwner m Reader (Interface.Owner iface)) nic_denied;
    mret iface).

Definition InterfaceAdmin_List (offset limit : Z) (order : string) (instance : Instance.t)
    : M (Z * list Interface.t) :=
  m ← GetMemberShip;
  _ ← require (ValidateOwner m Reader (Instance.Owner instance))
        (NewCLError ErrPermissionDenied "Not authorized for this operation" None);
  GetContextDB (
    let p i := (Interface.Instance i =? Instance.ID instance)
               && where_ok (GetWhere m) (Interface.Owner i) in
    '(total, l) ← list_rows "Failed to count interfaces" "Failed to query interfaces" offset limit
                    order p;
    l ← wrap ErrSQLSyntaxError "Failed to query interfaces" (load_interfaces l);
    mret (total, l)).

(** The rows are removed when the hypervisor reports (detach_vm_nic). *)
Definition InterfaceAdmin_Delete (instance : Instance.t) (iface : Interface.t) : M unit :=
  _ ← require (negb (Interface.PrimaryIf iface))
        (NewCLError ErrCannotDeletePrimaryInterface "Primary interface can not be deleted" None);
  m ← GetMemberShip;
  _ ← require (ValidateOwner m Writer (Interface.Owner iface))
        (NewCLError ErrPermissionDenied "Not authorized to delete the interface" None);
  address ← deref (Interface.Address iface);
  subnet ← deref (Address.Subnet address);
  HyperExecute (inter (Instance.Hyper instance))
    (detach_nic_command instance iface (Subnet.Vlan subnet) (Address.Address address)).

(** ** Creating *)

(** [CreateInterface] returns the struct along with the error when its INSERT failed,
    and nil along with any other error.  A MAC address it generated is not read from
    such a struct. *)
Definition attempt_interface (subnet : Subnet.t) (ID owner hyper inbound outbound : Z)
    (address mac ifname ifType : string) (groups : list SecurityGroup.t) (spoofing : bool)
    : M (option Interface.t * option error) :=
  r ← try (CreateInterface subnet ID owner hyper inbound outbound address mac ifname ifType groups
             spoofing);
  mret match r with
       | inl i => (Some i, None)
       | inr (StatementFailed _ as e) =>
           (Some (interface_model subnet ID owner hyper inbound outbound mac ifname ifType groups
                    spoofing), Some e)
       | inr e => (None, Some e)
       end.

(** A public address gets a floating IP that stands for it. *)
Definition stand_in (subnet : Subnet.t) (instance : Instance.t) (a : option Address.t) : M unit :=
  if String.eqb (Subnet.Type_ subnet) "public" then
    a ← deref a; FloatingIpAdmin_createDummyFloatingIp instance (Address.Address a)
  else mret tt.

(** The first of the subnets that has an address: the interface, the subnet and the
    last error.  A subnet is checked before it is tried. *)
Fixpoint first_interface (check : Subnet.t → M unit)
    (create : Subnet.t → M (option Interface.t * option error)) (instance : Instance.t)
    (subnets : list Subnet.t) (iface : option Interface.t) (err : option error)
    : M (option Interface.t * option Subnet.t * option error) :=
  match subnets with
  | [] => mret (iface, None, err)
  | subnet :: subnets =>
      _ ← check subnet;
      match iface with
      | Some _ => first_interface check create instance subnets iface err
      | None =>
          '(iface, err) ← create subnet;
          match err with
          | Some _ => first_interface check create instance subnets iface err
          | None =>
              _ ← stand_in subnet instance (iface ≫= Interface.Address);
              mret (iface, Some subnet, None)
          end
      end
  end.

(** [if iface == nil { if err == nil { err = ... }; return }] *)
Definition or_no_interface (iface : option Interface.t) (err : option error) : M Interface.t :=
  match iface with
  | Some i => mret i
  | None => fail (default (NewCLError ErrInterfaceCreateFailed "Failed to create interface" None) err)
  end.

(** One subnet: [n] attempts, [cnt] addresses were found before. *)
Fixpoint second_rounds (instance : Instance.t) (subnet : Subnet.t) (n : nat) (cnt count : Z)
    (iface : Interface.t) : M (Interface.t * Z) :=
  match n with
  | O => mret (iface, cnt)
  | S n =>
      r ← try (AllocateAddress subnet (Interface.ID iface) "" "second");
      match r with
      | inl a =>
          let iface := iface <| Interface.SecondAddresses :=
                               Interface.SecondAddresses iface ++ [a] |> in
          _ ← stand_in subnet instance (Some a);
          if count <=? cnt + 1 then mret (iface, cnt + 1)
          else second_rounds instance subnet n (cnt + 1) count iface
      | inr _ => second_rounds instance subnet n cnt count iface
      end
  end.

Fixpoint second_subnets (instance : Instance.t) (subnets : list Subnet.t) (cnt count : Z)
    (iface : Interface.t) : M Interface.t :=
  match subnets with
  | [] =>
      if cnt <? count then
        fail (NewCLError ErrInsufficientAddress
                ("Only " +:+ fmt_d cnt +:+ " addresses can be allocated") None)
      else mret iface
  | subnet :: subnets =>
      '(iface, cnt) ← second_rounds instance subnet (Z.to_nat count) cnt count iface;
      if (0 <? count) && (count <=? cnt) then mret iface
      else second_subnets instance subnets cnt count iface
  end.

Definition InterfaceAdmin_allocateSecondAddresses (instance : Instance.t) (iface : Interface.t)
    (subnets : list Subnet.t) (count : Z) : M Interface.t :=
  second_subnets instance subnets 0 count iface.

(** What [InterfaceAdmin.Create] asks of a subnet. *)
Definition nic_subnet_ok (routerID : Z) (subnet : Subnet.t) : M unit :=
  _ ← require (negb (String.eqb (Subnet.Type_ subnet) "site"))
        (NewCLError ErrNotAllowInterfaceInSiteSubnet "Not allowed to create interface in site subnet"
           None);
  require (negb ((0 <? routerID) && negb (Subnet.RouterID subnet =? routerID)))
    (NewCLError ErrSubnetsCrossVPCInOneInstance "Subnets can not belong to different router" None).

(** No interface of the instance is in the segment. *)
Fixpoint other_vlans (vlan : Z) (ifaces : list Interface.t) : M unit :=
  match ifaces with
  | [] => mret tt
  | i :: ifaces =>
      address ← deref (Interface.Address i);
      subnet ← deref (Address.Subnet address);
      _ ← require (negb (Subnet.Vlan subnet =? vlan))
            (NewCLError ErrInterfaceInvalidSubnet "Invalid or duplicate subnets for interfaces" None);
      other_vlans vlan ifaces
  end.

Definition InterfaceAdmin_Create (inst : LoadedInstance.t) (address mac : string)
    (inbound outbound : Z) (spoofing : bool) (groups : list SecurityGroup.t)
    (subnets : list Subnet.t) (secondAddrsCount : Z) : M Interface.t :=
  with_tx (
    m ← GetMemberShip;
    let instance := LoadedInstance.row inst in
    let ifaces := LoadedInstance.Interfaces inst in
    _ ← require (Z.of_nat (length ifaces) <? 8)
          (NewCLError ErrTooManyInterfaces "Can not create interfaces more than 8" None);
    let routerID := Instance.RouterID instance in
    let ifname := "eth" +:+ fmt_d (Z.of_nat (length ifaces)) in
    _ ← match InterfaceAdmin_checkSubnets subnets 0 with Some e => fail e | None => mret tt end;
    vlan ← deref (first_vlan subnets);
    _ ← other_vlans vlan ifaces;
    '(iface, _, err) ← first_interface (nic_subnet_ok routerID) (λ subnet,
        attempt_interface subnet (Instance.ID instance) (MemberShip.OrgID m)
          (Instance.Hyper instance) inbound outbound address mac ifname "instance" groups spoofing)
        instance subnets None None;
    iface ← or_no_interface iface err;
    instance ← (if routerID =? 0 then
                  a ← deref (Interface.Address iface);
                  subnet ← deref (Address.Subnet a);
                  let instance := instance <| Instance.RouterID := Subnet.RouterID subnet |> in
                  _ ← wrap ErrInstanceUpdateFailed "Failed to update instance"
                        (db_update (by_pk (Instance.ID instance))
                           (λ r, r <| Instance.RouterID := Instance.RouterID instance |>));
                  mret instance
                else mret instance);
    _ ← ApplyInterface instance iface false;
    mret iface).

(** ** Changing addresses *)

(** The public IPs that are asked for against the addresses of the interface, [i] is
    the number of the first: is there one in another segment or with another
    address? *)
Fixpoint check_publics (vlan : Z) (address : string) (seconds : list Address.t) (i : nat)
    (pubs : list FloatingIp.t) : M bool :=
  match pubs with
  | [] => mret false
  | pub :: pubs =>
      v ← deref (fip_vlan pub);
      if negb (vlan =? v) then mret true
      else
        let expected := match i with
                        | O => Some address
                        | S i => Address.Address <$> seconds !! i
                        end in
        match expected with
        | Some a => if String.eqb (FloatingIp.FipAddress pub) a
                    then check_publics vlan address seconds (S i) pubs else mret true
        | None => check_publics vlan address seconds (S i) pubs
        end
  end.

(** [valid] and [changed]. *)
Definition InterfaceAdmin_checkAddresses (iface : Interface.t) (subnets sites : list Subnet.t)
    (secondAddrsCount : Z) (pubs : list FloatingIp.t) : M (bool * bool) :=
  a ← deref (Interface.Address iface);
  s ← deref (Address.Subnet a);
  let vlan := Subnet.Vlan s in
  let seconds := Interface.SecondAddresses iface in
  '(other, changed) ←
    match pubs with
    | [] => mret (existsb (λ s, negb (vlan =? Subnet.Vlan s)) subnets,
                  negb (secondAddrsCount =? Z.of_nat (length seconds)))
    | _ => other ← check_publics vlan (Address.Address a) seconds 0 pubs;
           mret (other, negb (length pubs =? S (length seconds))%nat)
    end;
  if other : bool then mret (false, true)
  else mret (check_sites vlan (Interface.SiteSubnets iface) sites
               (changed || negb (length sites =? length (Interface.SiteSubnets iface))%nat)).

Definition new_uuid : M string := λ c w, (Ok (uuid_new (clock w)), w).

(** A second address is taken from the interface; the floating IP it belongs to is
    free again. *)
Definition release_second (addr : Address.t) : M unit :=
  _ ← wrap ErrAddressUpdateFailed "Failed to reset second_interface"
        (db_update (by_id (Address.ID addr)) (λ r, r <| Address.SecondInterface := 0 |>));
  if 0 <? Address.Interface addr then
    addrIface ← db_get (R := Interface.t) (Address.Interface addr);
    if 0 <? Interface.FloatingIp addrIface then
      wrap ErrFIPUpdateFailed "Failed to convert floating ip type"
        (db_update (by_pk (Interface.FloatingIp addrIface)) floated)
    else mret tt
  else mret tt.

(** [db.Model(iface).Association("Security_Groups").Replace(groups)] *)
Definition replace_groups (ifaceID : Z) (groups : list SecurityGroup.t) : M unit :=
  db_update (by_pk ifaceID) (λ r, r <| Interface.SecurityGroups := groups |>).

(** The first interface goes back to its floating IP. *)
Definition demote (iface : Interface.t) : M unit :=
  floatingIp ← FloatingIpAdmin_Get (Interface.FloatingIp iface);
  _ ← FloatingIpAdmin_Detach floatingIp;
  _ ← replace_groups (Interface.ID iface) [];
  mac ← GenerateMacaddr;
  uuid ← new_uuid;
  db_update (by_id (Interface.ID iface)) (demoted uuid mac).

Definition change_publics (instance : Instance.t) (iface : Interface.t)
    (pubs : list FloatingIp.t) (groups : list SecurityGroup.t) : M Interface.t :=
  _ ← for_each (Interface.SecondAddresses iface) release_second;
  match pubs with
  | [] => panic
  | pub :: rest =>
      let pubs := pub :: map (λ f, f <| FloatingIp.InstanceID := 0 |>) rest in
      kept ← (if Interface.FloatingIp iface =? FloatingIp.ID pub then mret (Some iface)
              else _ ← demote iface; mret None);
      '(iface, _, _) ← DerivePublicInterface instance kept pubs (Interface.MacAddr iface)
                         (Interface.UUID iface);
      match groups with
      | [] => mret iface
      | _ => _ ← replace_groups (Interface.ID iface) groups;
             mret (iface <| Interface.SecurityGroups := groups |>)
      end
  end.

(** [cnt] addresses more, or [- cnt] less. *)
Definition change_seconds (instance : Instance.t) (iface : Interface.t) (subnets : list Subnet.t)
    (cnt : Z) : M Interface.t :=
  if 0 <? cnt then InterfaceAdmin_allocateSecondAddresses instance iface subnets cnt
  else
    _ ← for_each (take (Z.to_nat (- cnt)) (Interface.SecondAddresses iface)) (λ a,
          wrap ErrAddressUpdateFailed "Failed to update second address of interface"
            (db_update (by_pk (Address.ID a))
               (λ r, r <| Address.SecondInterface := 0 |> <| Address.Allocated := false |>)));
    mret iface.

Definition InterfaceAdmin_changeAddresses (instance : Instance.t) (iface : Interface.t)
    (subnets sites : list Subnet.t) (secondAddrsCount : Z) (pubs : list FloatingIp.t)
    (groups : list SecurityGroup.t) : M Interface.t :=
  GetContextDB (
    _ ← for_each (Interface.SiteSubnets iface) (λ site,
          wrap ErrSiteSubnetUpdateFailed "Failed to update site subnets"
            (db_update (by_id (Subnet.ID site)) (λ r, r <| Subnet.Interface := 0 |>)));
    let iface := iface <| Interface.SiteSubnets := [] |> in
    iface ← match pubs with
            | [] => change_seconds instance iface subnets
                      (secondAddrsCount - Z.of_nat (length (Interface.SecondAddresses iface)))
            | _ => change_publics instance iface pubs groups
            end;
    _ ← for_each sites (λ site,
          wrap ErrSiteSubnetUpdateFailed "Failed to update interface"
            (db_update (by_pk (Subnet.ID site))
               (λ r, r <| Subnet.Interface := Interface.ID iface |>)));
    seconds ← wrap ErrSQLSyntaxError "Failed to query second addresses of interface"
                (l ← db_find (λ a, Address.SecondInterface a =? Interface.ID iface);
                 preload_subnets l);
    mret (iface <| Interface.SiteSubnets := Interface.SiteSubnets iface ++
                     map (λ s, s <| Subnet.Interface := Interface.ID iface |>) sites |>
                <| Interface.SecondAddresses := seconds |>)).

(** ** Updating *)

Definition clear_second_ips_command (instance : Instance.t) (mac osCode : string)
    (addresses : option (list string)) : string :=
  backend_script "clear_second_ips.sh" [fmt_d (Instance.ID instance); mac; osCode]
  +:+ here_document (Marshal match addresses with
                             | None => JNull | Some l => JArr (map JStr l) end).

(** The settings a request names. *)
Definition nic_columns (name : string) (inbound outbound : Z) (spoofing : bool)
    (r : Interface.t) : Interface.t :=
  r <| Interface.Inbound := inbound |> <| Interface.Outbound := outbound |>
    <| Interface.AllowSpoofing := spoofing |> <| Interface.Name := name |>.

(** The addresses of a first interface outside any router are changed; was there a
    change?  A Windows guest has its old addresses cleared. *)
Definition update_addresses (instance : Instance.t) (interfaces : list Interface.t)
    (iface : Interface.t) (subnets sites : list Subnet.t) (secondAddrsCount : Z)
    (pubs : list FloatingIp.t) (groups : list SecurityGroup.t)
    : M (Interface.t * Instance.t * bool) :=
  '(_, changed) ← InterfaceAdmin_checkAddresses iface subnets sites secondAddrsCount pubs;
  if changed : bool then
    '(_, old, ifaces, instance) ← GetInstanceNetworks instance interfaces [iface];
    iface ← deref (head ifaces);
    iface ← InterfaceAdmin_changeAddresses instance iface subnets sites secondAddrsCount pubs groups;
    '(osCode, instance) ← GetImageOSCode instance;
    _ ← (if String.eqb osCode "windows" then
           HyperExecute (inter (Instance.Hyper instance))
             (clear_second_ips_command instance (Interface.MacAddr iface) osCode old)
         else mret tt);
    mret (iface, instance, true)
  else mret (iface, instance, false).

(** A request without security groups is refused, one with them always has something
    to tell the hypervisor. *)
Definition InterfaceAdmin_Update (inst : LoadedInstance.t) (iface : Interface.t) (name : string)
    (inbound outbound : Z) (spoofing : bool) (groups : list SecurityGroup.t)
    (subnets sites : list Subnet.t) (secondAddrsCount : Z) (pubs : list FloatingIp.t)
    : M Interface.t :=
  with_tx (
    let instance := LoadedInstance.row inst in
    _ ← match groups with
        | [] => fail (NewCLError ErrAtLeastOneSGRequired "At least one security group is needed" None)
        | _ => wrap ErrInterfaceUpdateFailed "Failed to update interface security groups"
                 (replace_groups (Interface.ID iface) groups)
        end;
    let iface := nic_columns name inbound outbound spoofing iface
                   <| Interface.SecurityGroups := groups |> in
    _ ← wrap ErrInterfaceUpdateFailed "Failed to update interface"
          (db_update (by_pk (Interface.ID iface)) (nic_columns name inbound outbound spoofing));
    '(iface, instance, changed) ←
      (if Interface.PrimaryIf iface then
         a ← deref (Interface.Address iface);
         s ← deref (Address.Subnet a);
         if Subnet.RouterID s =? 0 then
           update_addresses instance (LoadedInstance.Interfaces inst) iface subnets sites
             secondAddrsCount pubs groups
         else mret (iface, instance, false)
       else mret (iface, instance, false));
    _ ← ApplyInterface instance iface changed;
    mret iface).

End nics.
