(* ===== verification/ImageAdmin.v ===== *)
(** * ImageAdmin: images and their copies in storage pools

    ImageAdmin of routes/image.go, ImageStorageAdmin of routes/storage.go, [Clone] of
    model/image.go and the reports of rpcs/create_image.go, capture_image.go and
    sync_image_info.go. *)

From S2P Require Import Prelude GoLib ErrorCodes Gorm Model Store Member Catalog Volume Admin Secgroup Commands VolumeRpc Dispatch InstanceRpc Crypto Balancer.

(** ** Images *)

(** [Clone] leaves out the key, the creator and the two rescue columns. *)
Definition Image_Clone (i : Image.t) : Image.t :=
  Image.zero
    <| Image.Owner := Image.Owner i |> <| Image.Name := Image.Name i |>
    <| Image.OSCode := Image.OSCode i |> <| Image.Format := Image.Format i |>
    <| Image.Architecture := Image.Architecture i |> <| Image.BootLoader := Image.BootLoader i |>
    <| Image.Status := Image.Status i |> <| Image.Href := Image.Href i |>
    <| Image.Checksum := Image.Checksum i |> <| Image.OsHashAlgo := Image.OsHashAlgo i |>
    <| Image.OsHashValue := Image.OsHashValue i |> <| Image.Holder := Image.Holder i |>
    <| Image.Protected := Image.Protected i |> <| Image.Visibility := Image.Visibility i |>
    <| Image.MiniDisk := Image.MiniDisk i |> <| Image.MiniMem := Image.MiniMem i |>
    <| Image.Size := Image.Size i |> <| Image.OsVersion := Image.OsVersion i |>
    <| Image.VirtType := Image.VirtType i |> <| Image.UserName := Image.UserName i |>
    <| Image.QAEnabled := Image.QAEnabled i |>
    <| Image.CaptureFromInstanceID := Image.CaptureFromInstanceID i |>
    <| Image.StorageType := Image.StorageType i |> <| Image.OsFamily := Image.OsFamily i |>.

(** What a request asks for. *)
Record ImageOrder := mkImageOrder {
  io_osCode : string;
  io_name : string;
  io_osVersion : string;
  io_virtType : string;
  io_userName : string;
  io_url : string;
  io_architecture : string;
  io_bootLoader : string;
  io_isRescue : bool;
  io_instID : Z;
  io_uuid : string;
  io_rescueImage : option Image.t;
  io_osFamily : string
}.

(** [strings.Split(uuid, "-")[0]] *)
Definition uuid_prefix (uuid : string) : string := hd "" (Split uuid "-").

Definition image_model (m : MemberShip.t) (o : ImageOrder) : Image.t :=
  Image.zero
    <| Image.Creater := MemberShip.UserID m |> <| Image.Owner := MemberShip.OrgID m |>
    <| Image.OsVersion := io_osVersion o |> <| Image.VirtType := io_virtType o |>
    <| Image.UserName := io_userName o |> <| Image.Name := io_name o |>
    <| Image.OSCode := io_osCode o |> <| Image.Status := "creating" |>
    <| Image.Architecture := io_architecture o |> <| Image.BootLoader := io_bootLoader o |>
    <| Image.OsFamily := io_osFamily o |> <| Image.UUID := io_uuid o |>.

Definition captured_model (m : MemberShip.t) (o : ImageOrder) (instance : Instance.t)
    (image : Image.t) : Image.t :=
  Image_Clone image
    <| Image.Creater := MemberShip.UserID m |> <| Image.Owner := MemberShip.OrgID m |>
    <| Image.Name := io_name o |> <| Image.Status := "creating" |>
    <| Image.CaptureFromInstanceID := Instance.ID instance |>
    <| Image.OsFamily := io_osFamily o |>.

Definition create_image_command (image : Image.t) (url : string) (storageID : Z) : string :=
  backend_script "create_image.sh"
    [fmt_d (Image.ID image); uuid_prefix (Image.UUID image); url; fmt_d storageID].

Definition capture_image_command (image : Image.t) (instance : Instance.t)
    (volumes : list Volume.t) (storageID : Z) : string :=
  backend_script "capture_image.sh"
    [fmt_d (Image.ID image); uuid_prefix (Image.UUID image); fmt_d (Instance.ID instance);
     match List.find Volume.Booting volumes with
     | Some v => Volume_GetOriginVolumeID v
     | None => ""
     end; fmt_d storageID].

Definition clear_image_command (image : Image.t) (volumeID : string) : string :=
  backend_script "clear_image.sh"
    [fmt_d (Image.ID image); uuid_prefix (Image.UUID image); Image.Format image; volumeID].

(** Without storages the last quote is not opened. *)
Definition clear_bare_image_command (image : Image.t) : string :=
  backend_script "clear_image.sh"
    [fmt_d (Image.ID image); uuid_prefix (Image.UUID image); Image.Format image] +:+ " '".

Definition clone_image_command (image : Image.t) (storage : ImageStorage.t) (source : string)
    : string :=
  backend_script "clone_image.sh"
    [fmt_d (Image.ID image); uuid_prefix (Image.UUID image); ImageStorage.PoolID storage;
     fmt_d (ImageStorage.ID storage); source].

Definition sync_image_command (image : Image.t) (storage : ImageStorage.t) : string :=
  backend_script "sync_image_info.sh"
    [fmt_d (Image.ID image); uuid_prefix (Image.UUID image); ImageStorage.PoolID storage;
     fmt_d (ImageStorage.ID storage)].

(** The columns a request may change; an empty value leaves the column alone. *)
Definition image_updates (osCode name osVersion userName uuid osFamily : string) (r : Image.t)
    : Image.t :=
  let set_if (s : string) (f : Image.t → Image.t) (r : Image.t) :=
    if String.eqb s "" then r else f r in
  set_if osFamily (λ r, r <| Image.OsFamily := osFamily |>)
  (set_if uuid (λ r, r <| Image.UUID := uuid |>)
  (set_if userName (λ r, r <| Image.UserName := userName |>)
  (set_if osVersion (λ r, r <| Image.OsVersion := osVersion |>)
  (set_if name (λ r, r <| Image.Name := name |>)
  (set_if osCode (λ r, r <| Image.OSCode := osCode |>) r))))).

(** Every column but the primary key is written. *)
Definition save_image (i r : Image.t) : Image.t := i <| Image.ID := Image.ID r |>.

Definition settled (status : string) : bool :=
  String.eqb status StorageStatusSynced || String.eqb status StorageStatusSyncing.

Definition storage_model (imageID : Z) (pool : string) : ImageStorage.t :=
  ImageStorage.zero <| ImageStorage.ImageID := imageID |> <| ImageStorage.PoolID := pool |>
    <| ImageStorage.Status := StorageStatusUnknown |>.

Section images.
Context {G : Gorm} {E : Env}.

Definition default_pool : string := viper_GetString "volume.default_wds_pool_id".

(** The image loaded in a storage is saved with it, as it was when it was read. *)
Definition autosave_image (image : Image.t) : M unit :=
  if gorm_autosave then db_update (by_pk (Image.ID image)) (save_image image) else mret tt.

Definition create_storage (image : Image.t) (pool : string) : M ImageStorage.t :=
  _ ← autosave_image image;
  db_create (storage_model (Image.ID image) pool).

(** The instance an image is captured from, with its volumes. *)
Definition captured_instance (instID : Z) : M (Instance.t * list Volume.t) :=
  '(instance, volumes) ← wrap ErrInstanceNotFound "Instance not found" (
    i ← db_get (R := Instance.t) instID;
    image ← preload (Instance.ImageID i);
    volumes ← db_find (λ v, Volume.InstanceID v =? Instance.ID i);
    mret (i <| Instance.Image := image |>, volumes));
  _ ← require (String.eqb (Instance.Status instance) InstanceStatusShutoff)
        (NewCLError ErrInstanceInvalidState "Instance is running"
           (Some (GoError ("instance [" +:+ Instance.Hostname instance
                           +:+ "] is running, shut it down first before capturing"))));
  mret (instance, volumes).

Definition ImageAdmin_Create (o : ImageOrder) : M Image.t :=
  m ← GetMemberShip;
  with_tx (
    source ← (if 0 <? io_instID o then s ← captured_instance (io_instID o); mret (Some s)
              else mret None);
    image ← match source with
            | Some (instance, _) => i ← deref (Instance.Image instance);
                                    mret (captured_model m o instance i)
            | None => mret (image_model m o)
            end;
    image ← wrap ErrImageCreateFailed "Failed to create image record"
      (db_create (image <| Image.QAEnabled := true |> <| Image.IsRescue := io_isRescue o |>
                        <| Image.RescueImage := from_option Image.ID 0 (io_rescueImage o) |>
                        <| Image.StorageType := GetVolumeDriver |>));
    storageID ← (if String.eqb default_pool "" then mret 0
                 else s ← wrap ErrImageStorageCreateFailed "Failed to create default image storage"
                            (create_storage image default_pool);
                      mret (ImageStorage.ID s));
    _ ← match source with
        | Some (instance, volumes) =>
            HyperExecute (inter (Instance.Hyper instance))
              (capture_image_command image instance volumes storageID)
        | None => HyperExecute "inter=" (create_image_command image (io_url o) storageID)
        end;
    mret image).

Definition read_image (p : Image.t → bool) : M Image.t :=
  GetContextDB (
    image ← wrap ErrImageNotFound "Image not found" (db_take p);
    m ← GetMemberShip;
    _ ← require (CheckPermission m Reader)
          (NewCLError ErrPermissionDenied "Not authorized to get image" None);
    mret image).

Definition ImageAdmin_GetImageByUUID (uuID : string) : M Image.t :=
  read_image (λ i, String.eqb (Image.UUID i) uuID).

Definition ImageAdmin_GetImageByName (name : string) : M Image.t :=
  read_image (λ i, String.eqb (Image.Name i) name).

Definition ImageAdmin_Get (id : Z) : M Image.t :=
  if id <=? 0 then fail (NewCLError ErrInvalidParameter "Invalid image ID" None)
  else read_image (by_pk id).

(** Look-up by reference, with the text of the error. *)
Definition reference_or {A} (missing : error) (byID byName : string → M A)
    (reference : option BaseReference.t) : M A :=
  match reference with
  | Some r =>
      if String.eqb (BaseReference.ID r) "" then
        if String.eqb (BaseReference.Name r) "" then fail missing
        else byName (BaseReference.Name r)
      else byID (BaseReference.ID r)
  | None => fail missing
  end.

Definition ImageAdmin_GetImage : option BaseReference.t → M Image.t :=
  reference_or (NewCLError ErrInvalidParameter
                  "Image base reference must be provided with either uuid or name" None)
    ImageAdmin_GetImageByUUID ImageAdmin_GetImageByName.

Definition ImageAdmin_List (offset limit : Z) (order query : string) : M (Z * list Image.t) :=
  GetContextDB (
    list_rows "Failed to count images" "Failed to find images" offset limit order
      (λ i, name_like query (Image.Name i))).

(** ** Storages *)

Definition of_image (imageID : Z) (pool : string) (s : ImageStorage.t) : bool :=
  (ImageStorage.ImageID s =? imageID) &&
  (String.eqb pool "" || String.eqb (ImageStorage.PoolID s) pool).

(** The results of [List] along with its error: the count is known when the second
    statement fails. *)
Definition list_storages (offset limit : Z) (order : string) (image : Image.t) (pool : string)
    : M (Z * list ImageStorage.t * option error) :=
  let p := of_image (Image.ID image) pool in
  r ← try (wrap ErrSQLSyntaxError "Failed to count image storage(s)" (db_count p));
  match r with
  | inr e => mret (0, [], Some e)
  | inl total =>
      r ← try (wrap ErrSQLSyntaxError "Failed to query image storage(s)"
                 (db_page (page_order_of order) offset (page_limit_of limit) p));
      match r with
      | inl l => mret (total, l, None)
      | inr e => mret (total, [], Some e)
      end
  end.

Definition ImageStorageAdmin_List (offset limit : Z) (order : string) (image : Image.t)
    (pool : string) : M (Z * list ImageStorage.t) :=
  '(total, l, err) ← list_storages offset limit order image pool;
  match err with Some e => fail e | None => mret (total, l) end.

(** The pools a request names: the default pool as it is, the others by the
    dictionary. *)
Fixpoint final_pools (pools : list string) : M (list string) :=
  match pools with
  | [] => mret []
  | pool :: pools =>
      p ← (if String.eqb pool default_pool then mret pool
           else d ← DictionaryAdmin_Find "storage_pool" pool; mret (Dictionary.Value d));
      ps ← final_pools pools;
      mret (p :: ps)
  end.

(** The storage of a pool: the last one listed, as the map keeps it. *)
Definition storage_of (pool : string) (storages : list ImageStorage.t) : option ImageStorage.t :=
  last (List.filter (λ s, String.eqb (ImageStorage.PoolID s) pool) storages).

Definition init_storage (image : Image.t) (storages : list ImageStorage.t) (pool : string)
    : M ImageStorage.t :=
  match storage_of pool storages with
  | Some s =>
      if settled (ImageStorage.Status s) then mret s
      else
        _ ← wrap ErrImageStorageCreateFailed "Failed to Create image storage"
              (db_update (by_id (ImageStorage.ID s))
                 (λ r, r <| ImageStorage.Status := StorageStatusUnknown |>));
        mret (s <| ImageStorage.Status := StorageStatusUnknown |>)
  | None => wrap ErrImageStorageCreateFailed "Failed to Create image storage"
              (create_storage image pool)
  end.

Fixpoint init_storages (image : Image.t) (storages : list ImageStorage.t) (pools : list string)
    : M (list ImageStorage.t) :=
  match pools with
  | [] => mret []
  | pool :: pools =>
      s ← init_storage image storages pool;
      l ← init_storages image storages pools;
      mret (s :: l)
  end.

Definition ImageStorageAdmin_InitStorages (image : Image.t) (pools : list string)
    : M (list ImageStorage.t) :=
  GetContextDB (
    ps ← final_pools pools;
    let ps := if existsb (String.eqb default_pool) pools then ps else ps ++ [default_pool] in
    storages ← wrap ErrSQLSyntaxError "Failed to list image storage data"
                 (db_find (λ s, ImageStorage.ImageID s =? Image.ID image));
    init_storages image storages ps).

Definition ImageStorageAdmin_CheckDefaultPool : M unit :=
  if String.eqb GetVolumeDriver "local" then mret tt
  else
    r ← try (db_take (λ d, String.eqb (Dictionary.Category d) "storage_pool"
                           && String.eqb (Dictionary.Value d) default_pool));
    match r with
    | inl _ => mret tt
    | inr _ => fail (GoError ("default storage pool " +:+ default_pool
                              +:+ " is not in configurations"))
    end.

(** ** Deleting and updating *)

Definition clear_image (image : Image.t) (total : Z) (storages : list ImageStorage.t) : M unit :=
  if String.eqb (Image.Status image) "available" then
    if 0 <? total then
      for_each storages (λ s,
        if String.eqb (ImageStorage.Status s) StorageStatusSynced then
          HyperExecute "inter=0" (clear_image_command image (ImageStorage.VolumeID s))
        else mret tt)
    else HyperExecute "inter=0" (clear_bare_image_command image)
  else mret tt.

Definition ImageAdmin_Delete (image : Image.t) : M unit :=
  with_tx (
    m ← GetMemberShip;
    _ ← require (ValidateOwner m Writer (Image.Owner image))
          (NewCLError ErrPermissionDenied "Not authorized to delete image" None);
    refCount ← wrap ErrSQLSyntaxError "Failed to count instances using the image"
                 (db_count (λ i, Instance.ImageID i =? Image.ID image));
    _ ← require (negb (0 <? refCount))
          (NewCLError ErrImageInUse
             "The image can not be deleted if there are instances using it" None);
    '(total, storages, _) ← list_storages 0 (-1) "" image "";
    _ ← clear_image image total storages;
    _ ← wrap ErrImageDeleteFailed "Failed to delete image record"
          (db_delete (R := Image.t) (by_pk (Image.ID image)));
    wrap ErrImageStorageDeleteFailed "Failed to delete image storage records"
      (db_delete (λ s, ImageStorage.ImageID s =? Image.ID image))).

(** Every storage that is not settled is asked for; the error of the last post is the
    error of the call. A pool listed twice gives the same struct twice, which is syncing
    when it is met again: [asked] keeps the rows already asked for. *)
Fixpoint sync_storages (image : Image.t) (source : string) (storages : list ImageStorage.t)
    (asked : list Z) (err : option error) : M unit :=
  match storages with
  | [] => match err with Some e => fail e | None => mret tt end
  | s :: storages =>
      if settled (ImageStorage.Status s) || existsb (Z.eqb (ImageStorage.ID s)) asked
      then sync_storages image source storages asked err
      else
        _ ← wrap ErrImageStorageUpdateFailed "Failed to update image storage status"
              (db_update (by_id (ImageStorage.ID s))
                 (λ r, r <| ImageStorage.Status := StorageStatusSyncing |>));
        r ← try (HyperExecute "inter="
                   (if String.eqb (ImageStorage.PoolID s) default_pool
                    then sync_image_command image s else clone_image_command image s source));
        sync_storages image source storages (ImageStorage.ID s :: asked)
          (match r with inl _ => None | inr e => Some e end)
  end.

Definition ImageAdmin_Update (image : Image.t) (osCode name osVersion userName : string)
    (pools : list string) (osFamily uuid : string) : M unit :=
  with_tx (
    m ← GetMemberShip;
    _ ← require (CheckPermission m Admin)
          (NewCLError ErrPermissionDenied "Not authorized to update image" None);
    _ ← require (String.eqb uuid "" || IsUUID uuid)
          (NewCLError ErrInvalidParameter "Invalid UUID format" None);
    _ ← require (String.eqb (Image.Status image) "available")
          (NewCLError ErrImageNotAvailable "Image status is not available, cannot update" None);
    _ ← wrap ErrImageUpdateFailed "Failed to save image"
          (db_update (by_id (Image.ID image))
             (image_updates osCode name osVersion userName uuid osFamily));
    if String.eqb GetVolumeDriver "local" then mret tt
    else
      storages ← ImageStorageAdmin_InitStorages image pools;
      let source := match List.find (λ s, String.eqb (ImageStorage.PoolID s) default_pool) storages with
                    | Some s => ImageStorage.VolumeID s
                    | None => ""
                    end in
      _ ← require (negb (String.eqb source ""))
            (NewCLError ErrImageStorageNotFound "Source volume ID not found for image" None);
      sync_storages image source storages [] None).

(** ** Reports *)

(** What the reports on images do with the storage they name. *)
Definition report_storage (args : list string) (state : string) : M unit :=
  a6 ← arg args 6;
  storageID ← parse_arg 64 a6;
  if 0 <? storageID then
    storage ← db_get (R := ImageStorage.t) storageID;
    volumeID ← arg args 5;
    db_update (by_id (ImageStorage.ID storage)) (λ r, r
      <| ImageStorage.Status := if String.eqb state "available" then StorageStatusSynced
                                else StorageStatusError |>
      <| ImageStorage.VolumeID := volumeID |>)
  else mret tt.

Definition parse_size (s : string) : M Z :=
  match Atoi s with
  | Some n => mret n
  | None => fail (GoError ("strconv.Atoi: parsing " +:+ s))
  end.

(** The columns a report sets. *)
Definition reported_image (status format : string) (size : Z) (r : Image.t) : Image.t :=
  r <| Image.Status := status |> <| Image.Format := format |> <| Image.Size := size |>.

Definition CreateImage (args : list string) : M string :=
  with_tx (
    _ ← require (negb (length args <? 5)%nat) wrong_params;
    a1 ← arg args 1;
    imgID ← parse_arg 64 a1;
    image ← db_get (R := Image.t) imgID;
    state ← arg args 2;
    format ← arg args 3;
    a4 ← arg args 4;
    size ← parse_size a4;
    _ ← db_update (by_id (Image.ID image)) (reported_image state format size);
    _ ← report_storage args state;
    mret "").

Definition CaptureImage (args : list string) : M string :=
  with_tx (
    _ ← require (negb (length args <? 6)%nat) wrong_params;
    a1 ← arg args 1;
    imgID ← parse_arg 64 a1;
    image ← db_get (R := Image.t) imgID;
    state ← arg args 2;
    '(format, size) ← (if String.eqb GetVolumeDriver "local" then
                         format ← arg args 3;
                         a4 ← arg args 4;
                         size ← parse_size a4;
                         mret (format, size)
                       else mret (Image.Format image, Image.Size image));
    _ ← db_update (by_id (Image.ID image)) (reported_image state format size);
    _ ← report_storage args state;
    mret "").

Definition SyncImageInfo (args : list string) : M string :=
  with_tx (
    _ ← require (negb (length args <? 3)%nat) wrong_params;
    a1 ← arg args 1;
    storageID ← parse_arg 64 a1;
    storage ← db_get (R := ImageStorage.t) storageID;
    volumeID ← arg args 2;
    status ← arg args 3;
    _ ← db_update (by_pk (ImageStorage.ID storage)) (λ r, r
          <| ImageStorage.VolumeID := volumeID |> <| ImageStorage.Status := status |>);
    mret "").

Definition add_create_image (f : Registry) : Registry := Add "create_image" CreateImage f.
Definition add_capture_image (f : Registry) : Registry := Add "capture_image" CaptureImage f.
Definition add_sync_image_info (f : Registry) : Registry := Add "sync_image_info" SyncImageInfo f.

End images.
