(* ===== verification/InstanceAdmin.v ===== *)
(** * InstanceAdmin: the requests on instances (routes/instance.go)

    Creation with its interfaces and the metadata the guest is started with, power
    actions, resizing, reinstallation, rescue, deletion, reading.  An operation that
    changes a struct of its caller returns the struct as it leaves it where something
    reads it.  [UpdateMatchedVMsJSON] writes a file of the monitoring system: its
    arguments are returned, the file is not modelled. *)

From S2P Require Import Prelude GoLib Json ErrorCodes Gorm Model Store Member Catalog Volume Admin Ipam NetInfo Secgroup Hyper Fip InstanceRpc Crypto Balancer FipAdmin NicAdmin ImageAdmin ConsistencyGroup IpGroup.

(** ** What a guest is started with *)

Module NetworkLink.
Record NetworkLink_t := mk { MacAddr : string; Mtu : Z; ID : string; Type_ : string }.
Abbreviation t := NetworkLink_t.
End NetworkLink.

Module PoolRelationItem.
Record PoolRelationItem_t := mk { ImageVolumeID : string; Snapshot : Z }.
Abbreviation t := PoolRelationItem_t.
End PoolRelationItem.

(** A nil slice is [None]; the map of pools is a list in the order of its keys. *)
Module InstanceData.
Record InstanceData_t := mk {
  Userdata : string;
  UserdataType : string;
  Vendordata : string;
  VendordataType : string;
  DNS : string;
  Vlans : list VlanInfo.t;
  Networks : list InstanceNetwork.t;
  Links : list NetworkLink.t;
  Volumes : option (list VolumeInfo.t);
  Keys : list string;
  RootPasswd : string;
  LoginPort : Z;
  OSCode : string;
  DiskIopsLimit : Z;
  DiskBpsLimit : Z;
  StoragePoolRelation : list (string * PoolRelationItem.t)
}.
Abbreviation t := InstanceData_t.
End InstanceData.

Definition json_route (r : NetworkRoute.t) : json :=
  JObj [("network", JStr (NetworkRoute.Network r)); ("netmask", JStr (NetworkRoute.Netmask r));
        ("gateway", JStr (NetworkRoute.Gateway r))].

(** [type] and [routes] are left out when they are empty. *)
Definition json_network (n : InstanceNetwork.t) : json :=
  JObj ((if String.eqb (InstanceNetwork.Type_ n) "" then []
         else [("type", JStr (InstanceNetwork.Type_ n))]) ++
        [("ip_address", JStr (InstanceNetwork.Address n));
         ("netmask", JStr (InstanceNetwork.Netmask n)); ("link", JStr (InstanceNetwork.Link n));
         ("id", JStr (InstanceNetwork.ID n))] ++
        match InstanceNetwork.Routes n with
        | [] => [] | l => [("routes", JArr (map json_route l))] end).

Definition json_link (l : NetworkLink.t) : json :=
  JObj ([("ethernet_mac_address", JStr (NetworkLink.MacAddr l)); ("mtu", JNum (NetworkLink.Mtu l));
         ("id", JStr (NetworkLink.ID l))] ++
        if String.eqb (NetworkLink.Type_ l) "" then [] else [("type", JStr (NetworkLink.Type_ l))]).

Definition json_pool (p : string * PoolRelationItem.t) : string * json :=
  (p.1, JObj [("image_volume_id", JStr (PoolRelationItem.ImageVolumeID p.2));
              ("snapshot", JNum (PoolRelationItem.Snapshot p.2))]).

Definition json_instance (d : InstanceData.t) : json :=
  JObj ([("userdata", JStr (InstanceData.Userdata d));
         ("userdata_type", JStr (InstanceData.UserdataType d));
         ("vendordata", JStr (InstanceData.Vendordata d));
         ("vendordata_type", JStr (InstanceData.VendordataType d));
         ("dns", JStr (InstanceData.DNS d)); ("vlans", JArr (map json_vlan (InstanceData.Vlans d)));
         ("networks", json_slice json_network (InstanceData.Networks d));
         ("links", JArr (map json_link (InstanceData.Links d)));
         ("volumes", match InstanceData.Volumes d with
                     | None => JNull | Some l => JArr (map json_volume l) end);
         ("keys", json_slice JStr (InstanceData.Keys d));
         ("root_passwd", JStr (InstanceData.RootPasswd d));
         ("login_port", JNum (InstanceData.LoginPort d));
         ("os_code", JStr (InstanceData.OSCode d));
         ("disk_iops_limit", JNum (InstanceData.DiskIopsLimit d));
         ("disk_bps_limit", JNum (InstanceData.DiskBpsLimit d))] ++
        match InstanceData.StoragePoolRelation d with
        | [] => [] | l => [("storage_pool_relation", JObj (map json_pool l))] end).

(** An assignment to the map of pools. *)
Fixpoint pool_put (k : string) (v : PoolRelationItem.t) (l : list (string * PoolRelationItem.t))
    : list (string * PoolRelationItem.t) :=
  match l with
  | [] => [(k, v)]
  | (k', v') :: l =>
      if String.eqb k k' then (k, v) :: l
      else if String.ltb k k' then (k, v) :: (k', v') :: l
      else (k', v') :: pool_put k v l
  end.

Definition MaxmumSnapshot : Z := 64.

Definition phy_link (i : Interface.t) : NetworkLink.t :=
  NetworkLink.mk (Interface.MacAddr i) (Interface.Mtu i) (Interface.Name i) "phy".

Definition boot_volume (volumes : list Volume.t) : option Volume.t :=
  List.find Volume.Booting volumes.

(** [image-<id>-<first part of the uuid>] *)
Definition image_prefix (image : Image.t) : string :=
  "image-" +:+ fmt_d (Image.ID image) +:+ "-" +:+ uuid_prefix (Image.UUID image).

Definition image_too_big (image : Image.t) (disk : Z) : bool :=
  disk * 1024 * 1024 * 1024 <? Image.Size image.

(** ** Commands *)

(** The resources a guest needs; the product with 1024 is one of 32-bit integers. *)
Definition rc_needed (i : Instance.t) : string :=
  "cpu=" +:+ fmt_d (Instance.Cpu i) +:+ " memory=" +:+ fmt_d (int32 (Instance.Memory i * 1024))
  +:+ " disk=" +:+ fmt_d (Instance.Disk i * 1024 * 1024) +:+ " network=" +:+ fmt_d 0.

Definition with_metadata (command metadata : string) : string :=
  command +:+ here_document (EncodeToString metadata).

Definition launch_command (i : Instance.t) (image : Image.t) (bootVolume : Volume.t) (nested : bool)
    (metadata : string) : string :=
  with_metadata
    (backend_script "launch_vm.sh"
       [fmt_d (Instance.ID i); image_prefix image +:+ "." +:+ Image.Format image;
        fmt_t (Image.QAEnabled image); Instance.Hostname i; fmt_d (Instance.Cpu i);
        fmt_d (Instance.Memory i); fmt_d (Instance.Disk i); fmt_d (Volume.ID bootVolume);
        fmt_t nested; Image.BootLoader image; Instance.UUID i] +:+ " ") metadata.

Definition rescue_command (i : Instance.t) (image rescue : Image.t) (bootVolume : Volume.t)
    (metadata : string) : string :=
  with_metadata
    (backend_script "rescue_vm.sh"
       [fmt_d (Instance.ID i); image_prefix rescue +:+ "." +:+ Image.Format image;
        Instance.Hostname i; fmt_d (Instance.Cpu i); fmt_d (Instance.Memory i);
        fmt_d (Instance.Disk i); fmt_d (Volume.ID bootVolume); Image.BootLoader rescue;
        Instance.UUID i] +:+ " ") metadata.

Definition reinstall_command (i : Instance.t) (image : Image.t) (snapshot : Z) (bootVolume : Volume.t)
    (poolID imageVolumeID metadata : string) : string :=
  with_metadata
    (backend_script "reinstall_vm.sh"
       [fmt_d (Instance.ID i); image_prefix image +:+ "." +:+ Image.Format image; fmt_d snapshot;
        fmt_d (Volume.ID bootVolume); poolID; Volume_GetOriginVolumeID bootVolume;
        fmt_d (Instance.Cpu i); fmt_d (Instance.Memory i); fmt_d (Instance.Disk i);
        Instance.Hostname i; Image.BootLoader image; Instance.UUID i; imageVolumeID]) metadata.

Definition end_rescue_command (i : Instance.t) : string :=
  backend_script "end_rescue.sh" [fmt_d (Instance.ID i)].

Definition action_command (i : Instance.t) (action : string) : string :=
  backend_script "action_vm.sh" [fmt_d (Instance.ID i); action].

Definition resize_vm_command (i : Instance.t) (cpu memory : Z) : string :=
  backend_script "resize_vm.sh" [fmt_d (Instance.ID i); fmt_d cpu; fmt_d memory].

Definition set_user_command (i : Instance.t) (user password : string) : string :=
  backend_script "set_user_passwd.sh" [fmt_d (Instance.ID i); user; password].

Definition del_host_command (vlan : Z) (mac address : string) : string :=
  backend_script "del_host.sh" [fmt_d vlan; mac; address].

Definition clear_vm_command (i : Instance.t) (bootVolumeUUID : string) (image : option Image.t)
    (more : option (list string)) : string :=
  backend_script "clear_vm.sh"
    [fmt_d (Instance.ID i); fmt_d (Instance.RouterID i); bootVolumeUUID;
     from_option image_prefix "" image]
  +:+ here_document (Marshal match more with None => JNull | Some l => JArr (map JStr l) end).

(** ** Helpers *)

(** [db.First]: the least primary key. *)
Definition db_first {G : Gorm} {E : Env} {R} `{Row R, !InDB R} (p : R → bool) : M R :=
  db_take_by (λ a b, get_id a <=? get_id b) p.

(** [db.Unscoped()]: every row, deleted or not. *)
Definition all_rows {G : Gorm} {R} `{Row R} (t : table R) : list R :=
  map snd (map_to_list (rows t)) ++ map snd (map_to_list (gone t)).

Definition image_count {G : Gorm} (imageID : Z) (d : DB) : Z :=
  Z.of_nat (length (List.filter (λ i, Instance.ImageID i =? imageID) (all_rows (instances d)))).

(** The join with the boot volumes of a pool counts pairs. *)
Definition pool_count {G : Gorm} (imageID : Z) (pool : string) (d : DB) : Z :=
  let of_image := List.filter (λ i, Instance.ImageID i =? imageID) (all_rows (instances d)) in
  Z.of_nat (length (flat_map (λ i,
    List.filter (λ v, (Volume.InstanceID v =? Instance.ID i) && Volume.Booting v
                      && String.eqb (Volume.PoolID v) pool) (all_rows (volumes d))) of_image)).

Definition no_boot_volume : error :=
  NewCLError ErrBootVolumeNotFound "Instance has no boot volume" None.

(** The columns of a new instance. *)
Record InstanceOrder := mkInstanceOrder {
  no_count : Z;
  no_prefix : string;
  no_userdata : string;
  no_userdataType : string;
  no_vendorData : string;
  no_vendorDataType : string;
  no_image : Image.t;
  no_zone : Zone.t;
  no_routerID : Z;
  no_primary : InterfaceInfo.t;
  no_seconds : list InterfaceInfo.t;
  no_keys : list Key.t;
  no_rootPasswd : string;
  no_loginPort : Z;
  no_hyperID : Z;
  no_cpu : Z;
  no_memory : Z;
  no_disk : Z;
  no_iopsLimit : Z;
  no_bpsLimit : Z;
  no_nested : bool;
  no_poolID : string
}.

Definition login_port (o : InstanceOrder) : Z :=
  if no_loginPort o <=? 0 then
    if String.eqb (Image.OSCode (no_image o)) "linux" then 22
    else if String.eqb (Image.OSCode (no_image o)) "windows" then 3389
    else no_loginPort o
  else no_loginPort o.

Definition instance_model (m : MemberShip.t) (o : InstanceOrder) (hostname : string) : Instance.t :=
  Instance.zero
    <| Instance.Creater := MemberShip.UserID m |> <| Instance.Owner := MemberShip.OrgID m |>
    <| Instance.Hostname := hostname |> <| Instance.ImageID := Image.ID (no_image o) |>
    <| Instance.Keys := no_keys o |>
    <| Instance.PasswdLogin := negb (String.eqb (no_rootPasswd o) "") |>
    <| Instance.LoginPort := int32 (login_port o) |> <| Instance.Userdata := no_userdata o |>
    <| Instance.UserdataType := no_userdataType o |> <| Instance.Vendordata := no_vendorData o |>
    <| Instance.VendordataType := no_vendorDataType o |>
    <| Instance.Status := InstanceStatusPending |> <| Instance.ZoneID := Zone.ID (no_zone o) |>
    <| Instance.RouterID := no_routerID o |> <| Instance.Cpu := no_cpu o |>
    <| Instance.Memory := no_memory o |> <| Instance.Disk := no_disk o |>.

(** The number of a guest is part of its name when there are several. *)
Definition hostname_of (o : InstanceOrder) (i : nat) : string :=
  if 1 <? no_count o then no_prefix o +:+ "-" +:+ fmt_d (Z.of_nat i + 1) else no_prefix o.

Definition vlan_info (device : string) (vlan : Z) (info : InterfaceInfo.t) (iface : Interface.t)
    (subnet : Subnet.t) (address : Address.t) (security : list SecurityData) : VlanInfo.t :=
  VlanInfo.mk device vlan (Subnet.Gateway subnet) (Subnet.RouterID subnet) 0
    (InterfaceInfo.Inbound info) (InterfaceInfo.Outbound info) (Interface.AllowSpoofing iface)
    (Address.Address address) (Interface.MacAddr iface) security None.

(** [vlans[0].MoreAddresses = more] *)
Definition set_more (more : option (list string)) (vlans : list VlanInfo.t) : list VlanInfo.t :=
  match vlans with
  | VlanInfo.mk d v g r p i o a ip mac sec _ :: rest =>
      VlanInfo.mk d v g r p i o a ip mac sec more :: rest
  | [] => []
  end.

Section requests.
Context {G : Gorm} {E : Env} {C : Crypto}.

(** ** Interfaces of a new instance *)

(** Inside the [M] of a call that may fail: the result, or the error and whether the
    subnet that is returned along with it is set. *)
Definition Partial (A : Type) : Type := A + error * bool.

Definition no_site (subnet : Subnet.t) : M unit :=
  require (negb (String.eqb (Subnet.Type_ subnet) "site"))
    (NewCLError ErrNotAllowInterfaceInSiteSubnet "Not allowed to create interface in site subnet"
       None).

Definition clock_now : M nat := λ c w, (Ok (clock w), w).

(** The interface of public IPs the caller owns. *)
Definition public_interface (info : InterfaceInfo.t) (instance : Instance.t)
    : M (Partial (Interface.t * option Subnet.t)) :=
  t ← clock_now;
  r ← try (DerivePublicInterface instance None (InterfaceInfo.PublicIps info) "" "");
  match r with
  | inr e =>
      (* the subnet is known once the first statement succeeded *)
      let known := negb (db_fault t) && match head (InterfaceInfo.PublicIps info) ≫= fip_vlan with
                                        | Some _ => true | None => false end in
      mret (inr (e, known))
  | inl (iface, subnet, _) =>
      r ← try (
        iface ← match InterfaceInfo.SecurityGroups info with
                | [] => mret iface
                | groups =>
                    _ ← wrap ErrAssociateSG2InterfaceFailed
                          "Failed to associate security groups with interface"
                          (replace_groups (Interface.ID iface) groups);
                    mret (iface <| Interface.SecurityGroups := groups |>)
                end;
        let settings r := r
          <| Interface.Inbound := InterfaceInfo.Inbound info |>
          <| Interface.Outbound := InterfaceInfo.Outbound info |>
          <| Interface.AllowSpoofing := InterfaceInfo.AllowSpoofing info |> in
        _ ← wrap ErrInterfaceUpdateFailed "Failed to update interface"
              (db_update (by_pk (Interface.ID iface)) settings);
        mret (settings iface));
      mret match r with inl iface => inl (iface, subnet) | inr e => inr (e, false) end
  end.

(** An interface with addresses of the subnets. *)
Definition subnet_interface (info : InterfaceInfo.t) (instance : Instance.t) (ifname : string)
    : M (Partial (Interface.t * option Subnet.t)) :=
  m ← GetMemberShip;
  r ← try (first_interface no_site (λ subnet,
        attempt_interface subnet (Instance.ID instance) (MemberShip.OrgID m)
          (Instance.Hyper instance) (InterfaceInfo.Inbound info) (InterfaceInfo.Outbound info)
          (InterfaceInfo.IpAddress info) (InterfaceInfo.MacAddress info) ifname "instance"
          (InterfaceInfo.SecurityGroups info) (InterfaceInfo.AllowSpoofing info))
        instance (InterfaceInfo.Subnets info) None None);
  match r with
  | inr e => mret (inr (e, negb (bool_decide (error_code e = Some ErrNotAllowInterfaceInSiteSubnet))))
  | inl (None, _, err) =>
      mret (inr (default (NewCLError ErrInterfaceCreateFailed "Failed to create interface" None) err,
                 false))
  | inl (Some iface, subnet, _) =>
      r ← try (InterfaceAdmin_allocateSecondAddresses instance iface (InterfaceInfo.Subnets info)
                 (InterfaceInfo.Count info - 1));
      mret match r with
           | inl iface => inl (iface, subnet)
           | inr e => inr (e, match subnet with Some _ => true | None => false end)
           end
  end.

Definition InstanceAdmin_createInterface (info : InterfaceInfo.t) (instance : Instance.t)
    (ifname : string) : M (Partial (Interface.t * option Subnet.t)) :=
  GetContextDB (
    r ← match InterfaceInfo.PublicIps info with
        | [] => subnet_interface info instance ifname
        | _ => public_interface info instance
        end;
    match r with
    | inr e => mret (inr e)
    | inl (iface, subnet) =>
        r ← try (for_each (InterfaceInfo.SiteSubnets info) (λ site,
              wrap ErrSubnetUpdateFailed "Failed to update site subnet"
                (db_update (by_pk (Subnet.ID site))
                   (λ r, r <| Subnet.Interface := Interface.ID iface |>))));
        mret match r with
             | inl _ => inl (iface <| Interface.SiteSubnets := Interface.SiteSubnets iface ++
                               map (λ s, s <| Subnet.Interface := Interface.ID iface |>)
                                 (InterfaceInfo.SiteSubnets info) |>, subnet)
             | inr e => inr (e, false)
             end
    end).

(** ** Metadata *)

Definition first_nic (o : InterfaceInfo.t) (instance : Instance.t) (loginPort : Z)
    : M (Interface.t * Subnet.t * VlanInfo.t * NetworkLink.t) :=
  r ← InstanceAdmin_createInterface o instance "eth0";
  match r with
  | inr (e, _) => fail e
  | inl (iface, subnet) =>
      address ← deref (Interface.Address iface);
      own ← deref (Address.Subnet address);
      _ ← SecgroupAdmin_AllowInstanceLoginPort (int32 loginPort) iface;
      security ← GetSecurityData (Interface.SecurityGroups iface);
      primary ← deref subnet;
      mret (iface, primary,
            vlan_info "eth0" (Subnet.Vlan own) o iface primary address security, phy_link iface)
  end.

(** The message of a failure names the subnet, which is nil when no subnet had an
    address. *)
Fixpoint second_nics (infos : list InterfaceInfo.t) (instance : Instance.t) (loginPort : Z)
    (i : nat) : M (list (Interface.t * VlanInfo.t * NetworkLink.t)) :=
  match infos with
  | [] => mret []
  | info :: infos =>
      let ifname := "eth" +:+ fmt_d (Z.of_nat i + 1) in
      r ← InstanceAdmin_createInterface info instance ifname;
      match r with
      | inr (e, known) => if known : bool then fail e else panic
      | inl (iface, subnet) =>
          _ ← SecgroupAdmin_AllowInstanceLoginPort (int32 loginPort) iface;
          security ← GetSecurityData (Interface.SecurityGroups iface);
          subnet ← deref subnet;
          address ← deref (Interface.Address iface);
          let v := vlan_info ifname (Subnet.Vlan subnet) info iface subnet address security in
          rest ← second_nics infos instance loginPort (S i);
          mret ((iface, v, phy_link iface) :: rest)
      end
  end.

Definition InstanceAdmin_buildMetadata (primaryIface : InterfaceInfo.t)
    (secondaryIfaces : list InterfaceInfo.t) (rootPasswd : string) (loginPort : Z)
    (keys : list Key.t) (instance : Instance.t) (iopsLimit bpsLimit : Z)
    (pools : list (string * PoolRelationItem.t)) : M (list Interface.t * string) :=
  '(iface, primary, vlan, link) ← first_nic primaryIface instance loginPort;
  seconds ← second_nics secondaryIfaces instance loginPort 0;
  '(nets, more, ifaces, instance) ←
    GetInstanceNetworks instance [] (iface :: map (λ x, x.1.1) seconds);
  '(osCode, instance) ← GetImageOSCode instance;
  let dns := if String.eqb (Subnet.NameServer primary) (InterfaceInfo.IpAddress primaryIface)
             then "" else Subnet.NameServer primary in
  mret (ifaces, Marshal (json_instance (InstanceData.mk
    (Instance.Userdata instance) (Instance.UserdataType instance) (Instance.Vendordata instance)
    (Instance.VendordataType instance) dns
    (set_more more (vlan :: map (λ x, x.1.2) seconds)) nets (link :: map snd seconds) None
    (map Key.PublicKey keys) rootPasswd loginPort osCode iopsLimit bpsLimit pools))).

(** The interfaces of an existing instance: name server, segments and links. *)
Fixpoint nic_data (more : option (list string)) (ifaces : list Interface.t) (dns : string)
    : M (string * list VlanInfo.t * list NetworkLink.t) :=
  match ifaces with
  | [] => mret (dns, [], [])
  | iface :: ifaces =>
      address ← deref (Interface.Address iface);
      subnet ← deref (Address.Subnet address);
      let dns := if Interface.PrimaryIf iface then Subnet.NameServer subnet else dns in
      '(dns, vlans, links) ← nic_data more ifaces dns;
      mret (dns,
            VlanInfo.mk (Interface.Name iface) (Subnet.Vlan subnet) (Subnet.Gateway subnet)
              (Subnet.RouterID subnet) 0 (Interface.Inbound iface) (Interface.Outbound iface)
              (Interface.AllowSpoofing iface) (Address.Address address) (Interface.MacAddr iface)
              [] more :: vlans, phy_link iface :: links)
  end.

(** The limits of the last boot volume listed. *)
Definition disk_limits (volumes : list Volume.t) : Z * Z :=
  from_option (λ v, (Volume.IopsLimit v, Volume.BpsLimit v)) (0, 0)
    (last (List.filter Volume.Booting volumes)).

(** The instance is returned as the call leaves it: with its image. *)
Definition InstanceAdmin_GetMetadata (inst : LoadedInstance.t) (rootPasswd : string)
    : M (string * Instance.t) :=
  '(nets, more, ifaces, instance) ←
    GetInstanceNetworks (LoadedInstance.row inst) (LoadedInstance.Interfaces inst) [];
  '(dns, vlans, links) ← nic_data more ifaces "";
  '(osCode, instance) ← GetImageOSCode instance;
  let volumes := LoadedInstance.Volumes inst in
  let limits := disk_limits volumes in
  mret (Marshal (json_instance (InstanceData.mk
    (Instance.Userdata instance) (Instance.UserdataType instance) (Instance.Vendordata instance)
    (Instance.VendordataType instance) dns vlans nets links (Some (map migrated_volume volumes))
    (map Key.PublicKey (Instance.Keys instance)) rootPasswd (Instance.LoginPort instance) osCode
    limits.1 limits.2 [])), instance).

(** ** Creating *)

(** The pools of a request: those of a group of pools, or the pool itself. *)
Definition pool_names (poolID : string) : M (list string) :=
  r ← try (DictionaryAdmin_GetDictionaryByUUID poolID);
  let members := match r with
                 | inl d =>
                     if String.eqb (Dictionary.Category d) DICT_CATEGORY_STORAGE_POOL_GROUP then
                       List.filter (λ s, negb (String.eqb s ""))
                         (map TrimSpace (Split (Dictionary.Value d) ","))
                     else []
                 | inr _ => []
                 end in
  mret match members with [] => [poolID] | _ => members end.

(** The image must be in every pool. *)
Fixpoint pool_relation (imageID : Z) (pools : list string) (rel : list (string * PoolRelationItem.t))
    : M (list (string * PoolRelationItem.t)) :=
  match pools with
  | [] => mret rel
  | pid :: pools =>
      storage ← wrap ErrImageStorageNotFound "Image storage not found"
        (db_first (λ s, (ImageStorage.ImageID s =? imageID) && String.eqb (ImageStorage.PoolID s) pid
                        && String.eqb (ImageStorage.Status s) StorageStatusSynced));
      pool_relation imageID pools
        (pool_put pid (PoolRelationItem.mk (ImageStorage.VolumeID storage) 0) rel)
  end.

Definition image_pools (imageID : Z) (poolID : string) : M (list (string * PoolRelationItem.t)) :=
  if String.eqb GetVolumeDriver "local" then mret []
  else
    pools ← pool_names (if String.eqb poolID "" then default_pool else poolID);
    pool_relation imageID pools [].

(** The entries of the map of pools, in the order [range] visits them. *)
Definition range_pools (rel : list (string * PoolRelationItem.t))
    : M (list (string * PoolRelationItem.t)) := λ c w,
  (Ok (omap (λ k, rel !! Z.to_nat k)
         (map_order (clock w) (map Z.of_nat (seq 0 (length rel))))), w).

(** The snapshot of each pool; a pool whose count fails keeps the one it has. *)
Fixpoint count_pools (imageID : Z) (entries rel : list (string * PoolRelationItem.t))
    : M (list (string * PoolRelationItem.t)) :=
  match entries with
  | [] => mret rel
  | (pid, item) :: entries =>
      r ← try (db_query (pool_count imageID pid));
      count_pools imageID entries
        match r with
        | inl total =>
            pool_put pid (PoolRelationItem.mk (PoolRelationItem.ImageVolumeID item)
                            (total / MaxmumSnapshot + 1)) rel
        | inr _ => rel
        end
  end.

Definition snapshots (imageID : Z) (rel : list (string * PoolRelationItem.t))
    : M (list (string * PoolRelationItem.t)) :=
  if String.eqb GetVolumeDriver "local" then
    _ ← wrap ErrSQLSyntaxError "Failed to query total instances with the image"
          (db_query (image_count imageID));
    mret rel
  else entries ← range_pools rel; count_pools imageID entries rel.

(** The password of cloud-init: encrypted, but for Windows. *)
Definition guest_password (image : Image.t) (rootPasswd : string) : M string :=
  if negb (String.eqb rootPasswd "") && negb (String.eqb (Image.OSCode image) "windows") then
    wrap ErrEncryptionFailed "Failed to encrypt admin password" (Mkpasswd rootPasswd "sha512")
  else mret rootPasswd.

Definition launch_control (o : InstanceOrder) (hyperGroup : string) (i : nat) (r : Instance.t)
    : string :=
  (if (i =? 0)%nat && (0 <=? no_hyperID o) then inter (no_hyperID o) else "select=" +:+ hyperGroup)
  +:+ " " +:+ rc_needed r.

(** One guest: its rows, and the command that starts it. *)
Definition create_guest (m : MemberShip.t) (o : InstanceOrder) (hyperGroup : string) (i : nat)
    (rel : list (string * PoolRelationItem.t))
    : M (LoadedInstance.t * (string * string) * list (string * PoolRelationItem.t)) :=
  let image := no_image o in
  rel ← snapshots (Image.ID image) rel;
  instance ← wrap ErrInstanceCreationFailed "Failed to create instance record"
               (db_create (instance_model m o (hostname_of o i)));
  let instance := instance <| Instance.Image := Some image |> in
  bootVolume ← VolumeAdmin_CreateVolume
    ("instance-" +:+ fmt_d (Instance.ID instance) +:+ "-boot-volume") (Instance.Disk instance)
    (Instance.ID instance) true (no_iopsLimit o) 0 (no_bpsLimit o) 0;
  passwd ← guest_password image (no_rootPasswd o);
  _ ← match InterfaceAdmin_CheckIfaceSubnets (no_primary o) (no_seconds o) with
      | Some e => fail (NewCLError ErrInterfaceInvalidSubnet
                          "Invalid or duplicate subnets for interfaces" (Some e))
      | None => mret tt
      end;
  '(ifaces, metadata) ← wrap ErrInvalidMetadata "Failed to build instance metadata"
    (InstanceAdmin_buildMetadata (no_primary o) (no_seconds o) passwd (login_port o) (no_keys o)
       instance (no_iopsLimit o) (no_bpsLimit o) rel);
  mret (LoadedInstance.mk instance ifaces [] [] (Some (no_zone o)) None None,
        (launch_control o hyperGroup i instance,
         launch_command instance image bootVolume (no_nested o) metadata), rel).

Fixpoint create_guests (m : MemberShip.t) (o : InstanceOrder) (hyperGroup : string) (i n : nat)
    (rel : list (string * PoolRelationItem.t)) : M (list (LoadedInstance.t * (string * string))) :=
  match n with
  | O => mret []
  | S n =>
      '(instance, command, rel) ← create_guest m o hyperGroup i rel;
      rest ← create_guests m o hyperGroup (S i) n rel;
      mret ((instance, command) :: rest)
  end.

(** A command that fails is only logged. *)
Definition executeCommandList (commands : list (string * string)) : M unit :=
  for_each commands (λ cmd, _ ← try (HyperExecute cmd.1 cmd.2); mret tt).

Definition check_hyper (o : InstanceOrder) : M unit :=
  if 0 <=? no_hyperID o then
    hyper ← wrap ErrHypervisorNotFound "Failed to find the specified hypervisor"
              (db_take (λ h, Hyper.Hostid h =? no_hyperID o));
    require (Hyper.ZoneID hyper =? Zone.ID (no_zone o))
      (NewCLError ErrInvalidParameter "Hypervisor is not in this zone" None)
  else mret tt.

Definition InstanceAdmin_Create (o : InstanceOrder) : M (list LoadedInstance.t) :=
  _ ← require (negb ((1 <? no_count o) && (0 <? length (InterfaceInfo.PublicIps (no_primary o)))%nat))
        (NewCLError ErrInvalidParameter "Public addresses are not allowed to set when count > 1"
           None);
  with_tx (
    m ← GetMemberShip;
    _ ← require (String.eqb (Image.Status (no_image o)) "available")
          (NewCLError ErrImageNotAvailable "Image status not available" None);
    _ ← require (negb (image_too_big (no_image o) (no_disk o)))
          (NewCLError ErrDiskTooSmall "Flavor disk size is not enough for the image" None);
    _ ← check_hyper o;
    hyperGroup ← GetHyperGroup (Zone.ID (no_zone o)) (-1);
    rel ← image_pools (Image.ID (no_image o)) (no_poolID o);
    guests ← create_guests m o hyperGroup 0 (Z.to_nat (no_count o)) rel;
    _ ← executeCommandList (map snd guests);
    mret (map fst guests)).

(** ** Rescue *)

Definition InstanceAdmin_CheckVolumeIsRestoring (instanceID : Z) : M unit :=
  vols ← VolumeAdmin_GetVolumesByInstanceID instanceID;
  for_each vols (λ vol,
    require (negb (String.eqb (Volume.Status vol) VolumeStatusRestoring))
      (NewCLError ErrVolumeIsRestoring ("Volume " +:+ fmt_d (Volume.ID vol) +:+ " is restoring")
         None)).

Definition instance_status (status : string) (r : Instance.t) : Instance.t :=
  r <| Instance.Status := status |>.

Definition rescue_image (instance : Instance.t) (rescueImage : option Image.t) : M Image.t :=
  match rescueImage with
  | Some i => mret i
  | None =>
      image ← deref (Instance.Image instance);
      _ ← require (0 <? Image.RescueImage image)
            (NewCLError ErrRescueImageNotFound "No rescue image specified for the instance image"
               None);
      ImageAdmin_Get (Image.RescueImage image)
  end.

Definition InstanceAdmin_Rescue (inst : LoadedInstance.t) (rescueImage : option Image.t)
    (rootPasswd : string) : M unit :=
  let instance := LoadedInstance.row inst in
  with_tx (
    _ ← require (negb (String.eqb (Instance.Status instance) "rescuing"))
          (NewCLError ErrInstanceInvalidState "Instance is already in rescue status" None);
    _ ← InstanceAdmin_CheckVolumeIsRestoring (Instance.ID instance);
    rescue ← rescue_image instance rescueImage;
    _ ← wrap ErrInstanceUpdateFailed "Failed to update instance status to rescuing"
          (db_update (by_pk (Instance.ID instance)) (instance_status "rescuing"));
    bootVolume ← wrap ErrBootVolumeNotFound "Failed to query boot volume"
      (db_take (λ v, (Volume.InstanceID v =? Instance.ID instance) && Volume.Booting v));
    '(metadata, _) ← InstanceAdmin_GetMetadata
                 (inst <| LoadedInstance.row := instance_status "rescuing" instance |>) rootPasswd;
    image ← deref (Instance.Image instance);
    HyperExecute (inter (Instance.Hyper instance))
      (rescue_command instance image rescue bootVolume metadata)).

Definition InstanceAdmin_EndRescue (instance : Instance.t) : M unit :=
  with_tx (
    _ ← require (String.eqb (Instance.Status instance) "rescuing")
          (NewCLError ErrInstanceInvalidState "Instance is not in rescue status" None);
    _ ← wrap ErrInstanceUpdateFailed "Failed to update instance status to rescuing"
          (db_update (by_pk (Instance.ID instance)) (instance_status "shut_off"));
    HyperExecute (inter (Instance.Hyper instance)) (end_rescue_command instance)).

(** ** Power, name and size *)

Definition InstanceAdmin_ChangeInstanceStatus (instance : Instance.t) (action : string) : M unit :=
  HyperExecute (inter (Instance.Hyper instance)) (action_command instance action).

Definition InstanceAdmin_Update (instance : Instance.t) (hostname action : string) (hyperID : Z)
    : M unit :=
  _ ← require (negb (String.eqb (Instance.Status instance) InstanceStatusMigrating))
        (GoError "Instance is not in a valid state");
  m ← GetMemberShip;
  permit ← CheckOwner Instance.Owner m Writer (Instance.ID instance);
  _ ← require permit (NewCLError ErrPermissionDenied "Not authorized to update the instance" None);
  with_tx (
    _ ← (if hyperID =? Instance.Hyper instance then mret tt
         else
           permit ← try (CheckAdmin Instance.Owner m Model.Admin (Instance.ID instance));
           require match permit with inl b => b | inr _ => false end
             (NewCLError ErrPermissionDenied "Not authorized to migrate VM" None));
    _ ← wrap ErrInstanceUpdateFailed "Failed to save instance"
          (db_update (by_id (Instance.ID instance)) (λ r, r <| Instance.Hostname := hostname |>));
    if String.eqb action "" then mret tt
    else InstanceAdmin_ChangeInstanceStatus (instance <| Instance.Hostname := hostname |>) action).

Definition resized_instance (cpu memory disk : Z) (r : Instance.t) : Instance.t :=
  r <| Instance.FlavorID := 0 |> <| Instance.Status := InstanceStatusResizing |>
    <| Instance.Memory := memory |> <| Instance.Cpu := cpu |> <| Instance.Disk := disk |>.

Definition InstanceAdmin_Resize (inst : LoadedInstance.t) (cpu memory : Z) : M unit :=
  let instance := LoadedInstance.row inst in
  with_tx (
    m ← GetMemberShip;
    permit ← CheckOwner Instance.Owner m Writer (Instance.ID instance);
    _ ← require permit (GoError "Not authorized");
    bootVolume ← match boot_volume (LoadedInstance.Volumes inst) with
                 | Some v => mret v | None => fail no_boot_volume end;
    _ ← require (negb (String.eqb (Instance.Status instance) InstanceStatusResizing))
          (NewCLError ErrInstanceInvalidState "Instance is already resizing" None);
    _ ← InstanceAdmin_CheckVolumeIsRestoring (Instance.ID instance);
    let disk := if Instance.Disk instance =? 0 then Volume.Size bootVolume
                else Instance.Disk instance in
    _ ← wrap ErrInstanceUpdateFailed "Failed to save instance"
          (db_update (by_id (Instance.ID instance)) (resized_instance cpu memory disk));
    HyperExecute (inter (Instance.Hyper instance)) (resize_vm_command instance cpu memory)).

(** ** Reinstallation *)

(** The volume of the image in the pool of the boot volume, and how many guests use it. *)
Definition image_use (imageID : Z) (poolID : string) : M (string * Z) :=
  if String.eqb GetVolumeDriver "local" then
    total ← wrap ErrInstanceNotFound "Failed to query total instances with the image"
              (db_query (image_count imageID));
    mret ("", total)
  else
    storage ← wrap ErrImageStorageNotFound "Image storage not found"
      (db_first (λ s, (ImageStorage.ImageID s =? imageID) && String.eqb (ImageStorage.PoolID s) poolID
                      && String.eqb (ImageStorage.Status s) StorageStatusSynced));
    total ← try (db_query (pool_count imageID poolID));
    mret (ImageStorage.VolumeID storage, match total with inl n => n | inr _ => 0 end).

Definition reinstall_port (instance : Instance.t) (image : Image.t) (loginPort : Z) : Z :=
  if loginPort <=? 0 then
    if (Instance.LoginPort instance =? 22) || (Instance.LoginPort instance =? 3389) then
      if String.eqb (Image.OSCode image) "windows" then 3389 else 22
    else Instance.LoginPort instance
  else loginPort.

(** The rules of the old port are removed, those of the new one added. *)
Definition move_login_port (inst : LoadedInstance.t) (loginPort : Z) : M unit :=
  let instance := LoadedInstance.row inst in
  if loginPort =? Instance.LoginPort instance then mret tt
  else for_each (LoadedInstance.Interfaces inst) (λ iface,
         _ ← try (SecgroupAdmin_RemoveInstanceLoginPort instance iface);
         SecgroupAdmin_AllowInstanceLoginPort (int32 loginPort) iface).

Definition reinstalled (image : Image.t) (rootPasswd : string) (loginPort cpu memory disk : Z)
    (r : Instance.t) : Instance.t :=
  r <| Instance.Status := InstanceStatusReinstalling |> <| Instance.LoginPort := int32 loginPort |>
    <| Instance.PasswdLogin := negb (String.eqb rootPasswd "") |>
    <| Instance.ImageID := Image.ID image |> <| Instance.Cpu := cpu |>
    <| Instance.Memory := memory |> <| Instance.Disk := disk |>.

Definition InstanceAdmin_Reinstall (inst : LoadedInstance.t) (image : Image.t) (rootPasswd : string)
    (keys : list Key.t) (cpu memory disk loginPort : Z) : M unit :=
  let instance := LoadedInstance.row inst in
  _ ← require (negb (String.eqb (Instance.Status instance) "rescuing"))
        (NewCLError ErrInstanceInvalidState "Instance is not in the right state" None);
  with_tx (
    m ← GetMemberShip;
    permit ← CheckOwner Instance.Owner m Writer (Instance.ID instance);
    _ ← require permit
          (NewCLError ErrPermissionDenied "Not authorized to reinstall the instance" None);
    _ ← InstanceAdmin_CheckVolumeIsRestoring (Instance.ID instance);
    bootVolume ← match boot_volume (LoadedInstance.Volumes inst) with
                 | Some v => mret v | None => fail no_boot_volume end;
    let poolID := Volume_GetVolumePoolID bootVolume in
    '(imageVolumeID, total) ← image_use (Image.ID image) poolID;
    _ ← require (negb (image_too_big image disk))
          (NewCLError ErrDiskTooSmall "Flavor disk size is not enough for the image" None);
    let port := reinstall_port instance image loginPort in
    _ ← move_login_port inst port;
    let columns := reinstalled image rootPasswd port cpu memory disk in
    _ ← wrap ErrInstanceUpdateFailed "Failed to save instance"
          (db_update (by_id (Instance.ID instance)) (λ r, columns r <| Instance.FlavorID := 0 |>));
    _ ← wrap ErrInstanceUpdateFailed "Failed to update keys association"
          (db_update (by_pk (Instance.ID instance)) (λ r, r <| Instance.Keys := keys |>));
    _ ← wrap ErrBootVolumeUpdateFailed "Failed to save volume"
          (db_update (by_id (Volume.ID bootVolume))
             (λ v, v <| Volume.Status := "reinstalling" |> <| Volume.Size := disk |>));
    passwd ← guest_password image rootPasswd;
    let bootVolume := bootVolume <| Volume.Status := "reinstalling" |> <| Volume.Size := disk |> in
    let instance := columns instance <| Instance.Image := Some image |> <| Instance.Keys := keys |> in
    '(metadata, _) ← InstanceAdmin_GetMetadata (inst <| LoadedInstance.row := instance |>) passwd;
    HyperExecute (inter (Instance.Hyper instance))
      (reinstall_command instance image (total / MaxmumSnapshot + 1) bootVolume poolID imageVolumeID
         metadata)).

Definition InstanceAdmin_SetUserPassword (id : Z) (user password : string) : M unit :=
  GetContextDB (
    instance ← wrap ErrInstanceNotFound "Failed to get instance" (
      i ← db_get (R := Instance.t) id;
      image ← preload (Instance.ImageID i);
      mret (i <| Instance.Image := image |>));
    m ← GetMemberShip;
    permit ← CheckOwner Instance.Owner m Writer (Instance.ID instance);
    _ ← require permit
          (NewCLError ErrPermissionDenied "Not authorized to set password for the instance" None);
    image ← deref (Instance.Image instance);
    _ ← require (Image.QAEnabled image)
          (NewCLError ErrImageNoQA "Guest Agent is not enabled for the image of instance" None);
    _ ← require (String.eqb (Instance.Status instance) InstanceStatusRunning)
          (NewCLError ErrInstanceInvalidState "Instance is not in running state" None);
    HyperExecute (inter (Instance.Hyper instance)) (set_user_command instance user password)).

(** ** Deleting *)

Definition InstanceAdmin_deleteInterface (iface : Interface.t) : M unit :=
  _ ← DeleteInterface iface;
  address ← deref (Interface.Address iface);
  subnet ← deref (Address.Subnet address);
  HyperExecute "" (del_host_command (Subnet.Vlan subnet) (Interface.MacAddr iface)
                     (Address.Address address)).

(** The first interface that cannot be deleted ends the loop without an error. *)
Fixpoint InstanceAdmin_deleteInterfaces (ifaces : list Interface.t) : M unit :=
  match ifaces with
  | [] => mret tt
  | iface :: ifaces =>
      r ← try (GetContextDB (InstanceAdmin_deleteInterface iface));
      match r with
      | inr _ => mret tt
      | inl _ =>
          _ ← wrap ErrSubnetUpdateFailed "Failed to update subnet"
                (db_update (λ s, Subnet.Interface s =? Interface.ID iface)
                   (λ s, s <| Subnet.Interface := 0 |>));
          InstanceAdmin_deleteInterfaces ifaces
      end
  end.

(** *** The alarm rules of an instance (routes/alarm.go) *)

Definition RuleTypeAdjustCPU : string := "adjust_cpu".
Definition RuleTypeAdjustInBW : string := "adjust_in_bw".
Definition RuleTypeAdjustOutBW : string := "adjust_out_bw".

Definition map_append {K} `{Countable K} {A} (k : K) (a : A) (m : gmap K (list A)) : gmap K (list A) :=
  <[k := default [] (m !! k) ++ [a]]> m.

Definition GetInstanceRuleLinks (uuids : list string) : M (gmap string (list VMRuleLink.t)) :=
  match uuids with
  | [] => mret ∅
  | _ =>
      r ← try (db_find (λ l, existsb (String.eqb (VMRuleLink.VMUUID l)) uuids));
      match r with
      | inr e => fail (GoError ("failed to query rule links: " +:+ Error error_text e))
      | inl links =>
          mret (fold_left (λ m l, map_append (VMRuleLink.VMUUID l) l m) links ∅)
      end
  end.

(** With no interface every link of the machine to the group goes; the number of rows
    is returned. *)
Definition DeleteVMLink (groupUUID vmUUID iface : string) : M Z :=
  let p l := String.eqb (VMRuleLink.GroupUUID l) groupUUID
             && String.eqb (VMRuleLink.VMUUID l) vmUUID
             && (String.eqb iface "" || String.eqb (VMRuleLink.Interface l) iface) in
  stmt (λ d _, (Z.of_nat (length (g_find p (vm_rule_links d))),
                d <| vm_rule_links := g_delete p (vm_rule_links d) |>)).

Definition rule_type_of (group : RuleGroupV2.t) : string :=
  let t := RuleGroupV2.Type_ group in
  (if String.eqb t RuleTypeAdjustCPU || String.eqb t RuleTypeAdjustInBW
      || String.eqb t RuleTypeAdjustOutBW then "adjust" else "alarm")
  +:+ "-" +:+ (if Contains t "bw" then "bw" else "cpu").

Fixpoint unlink_rules (uuid : string) (links : list VMRuleLink.t)
    (grouped : gmap (string * string) (list string)) : M (gmap (string * string) (list string)) :=
  match links with
  | [] => mret grouped
  | link :: links =>
      group ← try (db_first (λ g, String.eqb (RuleGroupV2.UUID g) (VMRuleLink.GroupUUID link)));
      let ruleType := match group with inl g => rule_type_of g | inr _ => "alarm-cpu" end in
      _ ← try (DeleteVMLink (VMRuleLink.GroupUUID link) uuid (VMRuleLink.Interface link));
      unlink_rules uuid links
        (map_append (VMRuleLink.GroupUUID link, ruleType) (VMRuleLink.Interface link) grouped)
  end.

(** The result: the interfaces that are to be removed from the file of each group and
    type of rule. *)
Definition InstanceAdmin_CleanupInstanceRuleLinks (uuid : string)
    : M (gmap (string * string) (list string)) :=
  r ← try (GetInstanceRuleLinks [uuid]);
  match r with
  | inr e => fail (GoError ("failed to get rule links: " +:+ Error error_text e))
  | inl m =>
      match default [] (m !! uuid) with
      | [] => mret ∅
      | links => GetContextDB (unlink_rules uuid links ∅)
      end
  end.

(** *** Delete *)

Definition unbound_site (s : Subnet.t) : Subnet.t := s <| Subnet.Interface := 0 |>.

(** The rules of the login port go; the site subnets of the primary interface are
    released, and its further addresses returned with the instance as the calls leave
    it. *)
Fixpoint release_interfaces (inst : Instance.t) (all ifaces : list Interface.t)
    (more : option (list string)) : M (option (list string) * Instance.t) :=
  match ifaces with
  | [] => mret (more, inst)
  | iface :: ifaces =>
      _ ← try (SecgroupAdmin_RemoveInstanceLoginPort inst iface);
      if Interface.PrimaryIf iface then
        '(_, more, _, inst) ← GetInstanceNetworks inst all [iface];
        _ ← for_each (Interface.SiteSubnets iface) (λ site,
              _ ← try (db_update (by_pk (Subnet.ID site)) unbound_site); mret tt);
        release_interfaces inst all ifaces more
      else release_interfaces inst all ifaces more
  end.

Definition detach_fips (inst : Instance.t) (ifaces : list Interface.t) : M unit :=
  fips ← wrap ErrSQLSyntaxError "Failed to query floating ip(s) for instance" (
    fips ← db_page ["updated_at"] 0 (-1) (λ f, FloatingIp.InstanceID f =? Instance.ID inst);
    groups ← preload_many (map FloatingIp.GroupID fips);
    mret (map (λ f, LoadedFip.mk f (Some (inst, ifaces)) None None
                      (pick (FloatingIp.GroupID f) groups)) fips));
  for_each fips (λ f, _ ← FloatingIpAdmin_Detach f; mret tt).

Definition not_in_group (v : Volume.t) : M unit :=
  inCG ← ConsistencyGroupAdmin_IsVolumeInCG (Volume.ID v);
  require (negb inCG)
    (NewCLError ErrVolumeInConsistencyGroup
       ("Volume " +:+ Volume.UUID v +:+ " is in a consistency group, please remove it from the CG first before deleting the instance")
       None).

Fixpoint delete_boot_volumes (volumes : list Volume.t) (uuid : string) : M string :=
  match volumes with
  | [] => mret uuid
  | v :: volumes =>
      if Volume.Booting v then
        _ ← wrap ErrBootVolumeDeleteFailed "Delete boot volume failed"
              (db_delete (R := Volume.t) (by_pk (Volume.ID v)));
        delete_boot_volumes volumes (Volume_GetOriginVolumeID v)
      else delete_boot_volumes volumes uuid
  end.

(** The site subnets of the interfaces are saved with the instance, each bound to its
    interface again. *)
Definition resave_sites (ifaces : list Interface.t) : M unit :=
  if gorm_autosave then
    for_each ifaces (λ iface, for_each (Interface.SiteSubnets iface) (λ site,
      db_update (by_pk (Subnet.ID site)) (λ s, s <| Subnet.Interface := Interface.ID iface |>)))
  else mret tt.

Definition InstanceAdmin_Delete (inst : LoadedInstance.t) : M unit :=
  let instance := LoadedInstance.row inst in
  let ifaces := LoadedInstance.Interfaces inst in
  _ ← require (negb (String.eqb (Instance.Status instance) InstanceStatusMigrating))
        (NewCLError ErrInstanceInvalidState "Instance is not in a valid state" None);
  with_tx (
    m ← GetMemberShip;
    _ ← require (ValidateOwner m Writer (Instance.Owner instance))
          (NewCLError ErrPermissionDenied "Not authorized to delete the instance" None);
    '(more, instance) ← release_interfaces instance ifaces ifaces None;
    _ ← detach_fips instance ifaces;
    volumes ← wrap ErrSQLSyntaxError "Failed to query volumes for instance"
                (db_find (λ v, Volume.InstanceID v =? Instance.ID instance));
    _ ← for_each volumes not_in_group;
    bootVolumeUUID ← delete_boot_volumes volumes "";
    _ ← try (InstanceAdmin_CleanupInstanceRuleLinks (Instance.UUID instance));
    _ ← wrap ErrInstanceUpdateFailed "Failed to mark vm as deleting" (
          _ ← db_update (by_pk (Instance.ID instance)) (instance_status InstanceStatusDeleting);
          resave_sites ifaces);
    HyperExecute (if Instance.Hyper instance =? -1 then "toall=" else inter (Instance.Hyper instance))
      (clear_vm_command instance bootVolumeUUID (Instance.Image instance) more)).

(** ** Reading *)

(** [Preload("Keys")] *)
Definition keys_of (i : Instance.t) (d : DB) : list Key.t :=
  g_find (λ k, existsb (λ k', Key.ID k' =? Key.ID k) (Instance.Keys i)) (keys d).

(** [Preload] of Volumes, Image, Zone, Flavor and Keys, each one query. *)
Definition load_instances (l : list Instance.t) : M (list LoadedInstance.t) :=
  match l with
  | [] => mret []
  | _ =>
      vols ← db_find (λ v, existsb (λ i, Volume.InstanceID v =? Instance.ID i) l);
      imgs ← preload_many (map Instance.ImageID l);
      zs ← preload_many (map Instance.ZoneID l);
      flvs ← preload_many (map Instance.FlavorID l);
      l ← db_query (λ d, map (λ i, i <| Instance.Keys := keys_of i d |>) l);
      mret (map (λ i, LoadedInstance.mk
        (i <| Instance.Image := pick (Instance.ImageID i) imgs |>) []
        (List.filter (λ v, Volume.InstanceID v =? Instance.ID i) vols) []
        (pick (Instance.ZoneID i) zs) (pick (Instance.FlavorID i) flvs) None) l)
  end.

Definition instance_fips (id : Z) : M (list FloatingIp.t) :=
  wrap ErrSQLSyntaxError "Failed to query floating ip(s) for instance" (
    fips ← db_page ["updated_at"] 0 (-1) (λ f, FloatingIp.InstanceID f =? id);
    _ ← preload_many (R := IpGroup.t) (map FloatingIp.GroupID fips);
    subs ← preload_many (map FloatingIp.SubnetID fips);
    mret (map (λ f, f <| FloatingIp.Subnet := pick (FloatingIp.SubnetID f) subs |>) fips)).

Definition instance_interfaces (cannotFind : string) (id : Z) : M (list Interface.t) :=
  wrap ErrSQLSyntaxError cannotFind (
    ifaces ← db_find (λ i, Interface.Instance i =? id);
    load_interfaces ifaces).

Definition instance_router (i : Instance.t) : M (option Router.t) :=
  if 0 <? Instance.RouterID i then
    r ← wrap ErrRouterNotFound "Failed to query router for instance" (db_get (Instance.RouterID i));
    mret (Some r)
  else mret None.

(** Administrators see the owner. *)
Definition instance_owner (m : MemberShip.t) (i : Instance.t) : M unit :=
  if CheckPermission m Model.Admin then
    _ ← wrap ErrOwnerNotFound "Failed to query owner info for instance"
          (db_get (R := Organization.t) (Instance.Owner i));
    mret tt
  else mret tt.

Definition InstanceAdmin_Get (id : Z) : M LoadedInstance.t :=
  if id <=? 0 then fail (GoError ("Invalid instance ID: " +:+ fmt_d id))
  else GetContextDB (
    m ← GetMemberShip;
    inst ← wrap ErrInstanceNotFound "Instance not found" (
      i ← db_take (λ i, by_pk id i && where_ok (GetWhere m) (Instance.Owner i));
      l ← load_instances [i];
      deref (head l));
    let row := LoadedInstance.row inst in
    fips ← instance_fips (Instance.ID row);
    ifaces ← instance_interfaces "Failed to query interfaces for instance" (Instance.ID row);
    router ← instance_router row;
    _ ← require (ValidateOwner m Reader (Instance.Owner row))
          (NewCLError ErrPermissionDenied "Not authorized to read the instance" None);
    _ ← instance_owner m row;
    mret (inst <| LoadedInstance.FloatingIps := fips |> <| LoadedInstance.Interfaces := ifaces |>
               <| LoadedInstance.Router := router |>)).

Definition InstanceAdmin_GetInstanceByUUID (uuID : string) : M LoadedInstance.t :=
  GetContextDB (
    i ← wrap ErrInstanceNotFound "Instance not found"
          (db_take (λ i, String.eqb (Instance.UUID i) uuID));
    InstanceAdmin_Get (Instance.ID i)).

Definition is_not_found (e : error) : bool :=
  match e with RecordNotFound => true | _ => false end.

Definition GetInstanceUUIDByDomain (domain : string) : M string :=
  if negb (String.prefix "inst-" domain) then
    fail (NewCLError ErrInvalidDomainFormat "Invalid domain format, must start with 'inst-'" None)
  else
    match Atoi (TrimPrefix domain "inst-") with
    | None => fail (NewCLError ErrInvalidDomainFormat
                      "Invalid domain format, ID part is not an integer"
                      (Some (GoError ("strconv.Atoi: parsing " +:+ TrimPrefix domain "inst-"))))
    | Some instanceID =>
        r ← try (db_first (by_id instanceID));
        match r with
        | inl i => mret (Instance.UUID i)
        | inr e => if is_not_found e then fail (NewCLError ErrInstanceNotFound "Instance not found" (Some e))
                   else fail (NewCLError ErrDatabaseError "Database error" (Some e))
        end
    end.

Definition GetDomainByInstanceUUID (uuid : string) : M string :=
  r ← try (db_first (λ i, String.eqb (Instance.UUID i) uuid));
  match r with
  | inl i => mret ("inst-" +:+ fmt_d (Instance.ID i))
  | inr e => if is_not_found e then fail (GoError "instance not found")
             else fail (GoError "database error")
  end.

Definition complete_instance (m : MemberShip.t) (inst : LoadedInstance.t) : M LoadedInstance.t :=
  let row := LoadedInstance.row inst in
  ifaces ← instance_interfaces "Failed to query interfaces" (Instance.ID row);
  fips ← instance_fips (Instance.ID row);
  router ← instance_router row;
  _ ← instance_owner m row;
  mret (inst <| LoadedInstance.Interfaces := ifaces |> <| LoadedInstance.FloatingIps := fips |>
             <| LoadedInstance.Router := router |>).

Fixpoint complete_instances (m : MemberShip.t) (l : list LoadedInstance.t) : M (list LoadedInstance.t) :=
  match l with
  | [] => mret []
  | i :: l => i ← complete_instance m i; l ← complete_instances m l; mret (i :: l)
  end.

(** [query] is a condition in SQL. *)
Definition InstanceAdmin_List (offset limit : Z) (order : string) (query : Instance.t → bool)
    : M (Z * list LoadedInstance.t) :=
  m ← GetMemberShip;
  _ ← require (CheckPermission m Reader)
        (NewCLError ErrPermissionDenied "Not authorized for this operation" None);
  let p i := where_ok (GetWhere m) (Instance.Owner i) && query i in
  total ← wrap ErrSQLSyntaxError "Failed to count instance(s)" (db_count p);
  l ← wrap ErrSQLSyntaxError "Failed to query instance(s)" (
        rows ← db_page (page_order_of order) offset (page_limit_of limit) p;
        load_instances rows);
  l ← complete_instances m l;
  mret (total, l).

End requests.
