(* ===== verification/Accounts.v ===== *)
(** * Accounts: keys, users and organizations (routes/key.go, user.go, org.go)

    The organization a request works in is the one of its membership; a user belongs to
    organizations through the rows of [members]. *)

From S2P Require Import Prelude GoLib ErrorCodes Gorm Model Store Member Catalog Volume Admin Secgroup Balancer Crypto ImageAdmin InstanceAdmin Router Scenario BalancerConf.

(** The name a row is given when it is deleted. *)
Definition prefix_name {E : Env} (table : string) (id : Z) (name : string) : string :=
  name +:+ "-" +:+ fmt_d (created_unix table id).

Section requests.
Context {G : Gorm} {E : Env} {C : Crypto}.

(** ** SSH keys *)

(** The public key, its fingerprint and the private key. *)
Definition KeyAdmin_CreateKeyPair : M (string * string * string) :=
  m ← GetMemberShip;
  _ ← require (CheckPermission m Writer)
        (NewCLError ErrPermissionDenied "Not authorized to create keys" None);
  pair ← (λ c w, (Ok (rsa_key_pair (clock w)), tick w)) : M (option (string * string));
  match pair with
  | None => fail (GoError "rsa.GenerateKey")
  | Some (private, public) => mret (public, default "" (fingerprint public), private)
  end.

Definition KeyAdmin_Create (name publicKey uuid : string) : M Key.t :=
  m ← GetMemberShip;
  _ ← require (CheckPermission m Writer)
        (NewCLError ErrPermissionDenied "Not authorized to create keys" None);
  match fingerprint publicKey with
  | None => fail (NewCLError ErrInvalidParameter "Invalid public key"
                    (Some (GoError "ssh.ParseAuthorizedKey")))
  | Some fp =>
      with_tx (
        wrap ErrSSHKeyCreateFailed "Failed to create key"
          (db_create (Key.zero <| Key.Creater := MemberShip.UserID m |>
             <| Key.Owner := MemberShip.OrgID m |> <| Key.Name := name |>
             <| Key.PublicKey := publicKey |> <| Key.FingerPrint := fp |> <| Key.UUID := uuid |>)))
  end.

(** An instance has the key. *)
Definition has_key (keyID : Z) (i : Instance.t) : bool :=
  existsb (λ k, Key.ID k =? keyID) (Instance.Keys i).

Definition renamed_key (r k : Key.t) : Key.t :=
  k <| Key.Name := prefix_name "keys" (Key.ID r) (Key.Name r) |>.

Definition KeyAdmin_Delete (key : Key.t) : M unit :=
  with_tx (
    m ← GetMemberShip;
    _ ← require (ValidateOwner m Writer (Key.Owner key))
          (NewCLError ErrPermissionDenied "Not authorized to delete the key" None);
    users ← wrap ErrSQLSyntaxError "Failed to count the number of instances using the key"
              (db_find (has_key (Key.ID key)));
    _ ← require (negb (0 <? length users)%nat)
          (NewCLError ErrSSHKeyInUse "Key can not be deleted if there are instances using it" None);
    _ ← wrap ErrSSHKeyDeleteFailed "Failed to delete key"
          (db_delete (R := Key.t) (by_pk (Key.ID key)));
    wrap ErrSSHKeyUpdateFailed "Failed to update key name"
      (db_update_all (by_id (Key.ID key)) (renamed_key key))).

Definition take_key (p : Key.t → bool) : M Key.t :=
  GetContextDB (
    m ← GetMemberShip;
    db_take (λ k, where_ok (GetWhere m) (Key.Owner k) && p k)).

Definition KeyAdmin_Get (id : Z) : M Key.t :=
  if id <=? 0 then
    fail (NewCLError ErrInvalidParameter ("Invalid key ID: " +:+ fmt_d id) None)
  else wrap ErrSSHKeyNotFound "Failed to query key" (take_key (by_pk id)).

Definition KeyAdmin_GetKeyByUUID (uuID : string) : M Key.t :=
  take_key (λ k, String.eqb (Key.UUID k) uuID).

Definition KeyAdmin_GetKeyByName (name : string) : M Key.t :=
  take_key (λ k, String.eqb (Key.Name k) name).

Definition KeyAdmin_GetKey : option BaseReference.t → M Key.t :=
  reference_or (NewCLError ErrInvalidParameter
                  "Key base reference must be provided with either uuid or name" None)
    KeyAdmin_GetKeyByUUID KeyAdmin_GetKeyByName.

(** The owner is looked up for administrators; that it is missing does not matter. *)
Definition KeyAdmin_List (offset limit : Z) (order query : string) : M (Z * list Key.t) :=
  m ← GetMemberShip;
  GetContextDB (
    '(total, l) ← list_rows "Failed to count keys" "Failed to query keys" offset limit order
      (λ k, where_ok (GetWhere m) (Key.Owner k) && name_like query (Key.Name k));
    _ ← (if CheckPermission m Model.Admin then
           for_each l (λ k, _ ← try (db_get (R := Organization.t) (Key.Owner k)); mret tt)
         else mret tt);
    mret (total, l)).

(** ** Passwords *)

Definition UserAdmin_GenerateFromPassword (password : string) : M string := λ c w,
  match bcrypt_hash (clock w) password with
  | Some h => (Ok h, tick w)
  | None => (Err (NewCLError ErrPasswordHashFailed "Failed to generate password hash"
                    (Some (GoError "bcrypt"))), tick w)
  end.

Definition UserAdmin_CompareHashAndPassword (hash password : string) : M unit :=
  require (bcrypt_ok hash password)
    (NewCLError ErrPasswordMismatch "Failed to compare password hash" (Some (GoError "bcrypt"))).

(** ** Users *)

Definition user_model (m : MemberShip.t) (username password uuid : string) : User.t :=
  User.zero <| User.Creater := MemberShip.UserID m |> <| User.Username := username |>
            <| User.Password := password |> <| User.UUID := uuid |>.

Definition member_model (userID : Z) (username : string) (orgID : Z) (orgName : string) (role : Z)
    : Member.t :=
  Member.zero <| Member.UserID := userID |> <| Member.UserName := username |>
    <| Member.OrgID := orgID |> <| Member.OrgName := orgName |> <| Member.Role := role |>.

(** When the row of the user cannot be created only a log entry tells, unless the
    caller works in the organization admin. *)
Definition UserAdmin_Create (username password uuid : string) : M User.t :=
  m ← GetMemberShip;
  _ ← require (String.eqb username "admin" || CheckPermission m Model.Admin)
        (NewCLError ErrPermissionDenied "Not authorized to create the user" None);
  with_tx (
    hash ← UserAdmin_GenerateFromPassword password;
    let user := user_model m username hash uuid in
    t ← clock_now;
    r ← try (db_create user);
    if String.eqb (MemberShip.OrgName m) "admin" then
      match r with inl user => mret user | inr e => fail e end
    else
      let user := match r with inl user => user | inr _ => before_create (uuid_new t) user end in
      _ ← wrap ErrMemberCreationFailed "DB failed to create organization member"
            (db_create (member_model (User.ID user) username (MemberShip.OrgID m)
                          (MemberShip.OrgName m) Reader));
      mret user).

Definition read_user (missing : string) (p : User.t → bool) : M User.t :=
  GetContextDB (
    m ← GetMemberShip;
    user ← wrap ErrUserNotFound missing
             (db_take (λ u, where_ok (GetWhere m) (User.Owner u) && p u));
    _ ← require (ValidateOwner m Reader (User.Owner user))
          (NewCLError ErrPermissionDenied "Not authorized to read the user" None);
    mret user).

Definition UserAdmin_Get (id : Z) : M User.t :=
  if id <=? 0 then fail (GoError ("Invalid user ID: " +:+ fmt_d id))
  else read_user "Failed to query user" (by_pk id).

Definition UserAdmin_GetUserByUUID (uuID : string) : M User.t :=
  read_user "User not found" (λ u, String.eqb (User.UUID u) uuID).

Definition UserAdmin_GetUserByName (name : string) : M User.t :=
  wrap ErrUserNotFound "User not found" (db_take (λ u, String.eqb (User.Username u) name)).

Definition renamed_user (r u : User.t) : User.t :=
  u <| User.Username := prefix_name "users" (User.ID r) (User.Username r) |>.

Definition UserAdmin_Delete (user : User.t) : M unit :=
  m ← GetMemberShip;
  _ ← require (CheckPermission m Model.Admin)
        (NewCLError ErrPermissionDenied "Not authorized to delete the user" None);
  with_tx (
    _ ← wrap ErrMemberDeleteFailed "Failed to delete organization members"
          (db_delete (λ x, Member.UserID x =? User.ID user));
    _ ← wrap ErrUserDeleteFailed "Failed to delete user"
          (db_delete (R := User.t) (by_pk (User.ID user)));
    wrap ErrUserUpdateFailed "Failed to update user name"
      (db_update_all (by_id (User.ID user)) (renamed_user user))).

(** Memberships that are not named go; no permission is asked for. *)
Definition UserAdmin_Update (id : Z) (password : string) (orgs : list string) : M User.t :=
  GetContextDB (
    '(user, own) ← wrap ErrUserNotFound "User not found" (
      user ← db_get (R := User.t) id;
      own ← db_find (λ x, Member.UserID x =? User.ID user);
      mret (user, own));
    let password := TrimSpace password in
    user ← (if String.eqb password "" then mret user
            else
              hash ← UserAdmin_GenerateFromPassword password;
              _ ← wrap ErrUserUpdateFailed "Failed to update user password"
                    (db_update (by_pk (User.ID user)) (λ u, u <| User.Password := hash |>));
              mret (user <| User.Password := hash |>));
    _ ← for_each own (λ em,
          if existsb (String.eqb (Member.OrgName em)) orgs then mret tt
          else wrap ErrMemberDeleteFailed "Failed to delete organization members"
                 (db_delete (λ x, String.eqb (Member.UserName x) (User.Username user)
                                  && String.eqb (Member.OrgName x) (Member.OrgName em))));
    mret user).

(** An organization with everything [gorm:auto_preload] loads; the members are
    returned. *)
Definition load_org (id : Z) : M (Organization.t * list Member.t) :=
  org ← db_get (R := Organization.t) id;
  members ← db_find (λ x, Member.OrgID x =? Organization.ID org);
  owner ← db_find (R := User.t) (by_id (Organization.ID org));
  _ ← match owner with
      | [] => mret []
      | _ => db_find (λ x, Member.UserID x =? Organization.ID org)
      end;
  mret (org, members).

Definition list_users (offset limit : Z) (order : string) (p : User.t → bool)
    : M (Z * list User.t) :=
  total ← wrap ErrDatabaseError "Failed to count users" (db_count p);
  l ← wrap ErrDatabaseError "Failed to get user list"
        (db_page (page_order_of order) offset (page_limit_of limit) p);
  mret (total, l).

(** Administrators see every user, the others those of their organization. *)
Definition UserAdmin_List (offset limit : Z) (order query : string) : M (Z * list User.t) :=
  m ← GetMemberShip;
  GetContextDB (
    if MemberShip.Role m =? Model.Admin then
      list_users offset limit order (λ u, name_like query (User.Username u))
    else
      '(_, own) ← wrap ErrOrgNotFound "Failed to query organization" (load_org (MemberShip.OrgID m));
      list_users offset limit order (λ u,
        existsb (λ x, Member.UserID x =? User.ID u) own && name_like query (User.Username u))).

(** A user who is not found has the empty hash. *)
Definition UserAdmin_Validate (username password : string) : M User.t :=
  GetContextDB (
    r ← try (db_take (λ u, String.eqb (User.Username u) username));
    let user := match r with inl u => u | inr _ => User.zero end in
    _ ← UserAdmin_CompareHashAndPassword (User.Password user) password;
    mret user).

(** The organization, the role, the token, when it was issued and when it expires. *)
Definition UserAdmin_AccessToken (uid : Z) (username organization : string)
    : M (Z * Z * (string * Z * Z)) :=
  GetContextDB (
    member ← wrap ErrMemberNotFound "Membership not found"
      (db_take (λ x, String.eqb (Member.UserName x) username
                     && String.eqb (Member.OrgName x) organization));
    _ ← require (negb (Member.Role member =? RoleNone))
          (NewCLError ErrNoRoleOnUser
             ("user " +:+ username +:+ " has no role under organization " +:+ organization) None);
    org ← wrap ErrOrgNotFound "Organization not found"
            (db_first (R := Organization.t) (by_pk (Member.OrgID member)));
    user ← wrap ErrUserNotFound "User not found" (db_first (R := User.t) (by_pk uid));
    token ← NewToken username organization (User.UUID user) (Organization.UUID org)
              (Member.Role member);
    mret (Member.OrgID member, Member.Role member, token)).

(** ** Organizations *)

(** A condition on a string that is left out when it is blank. *)
Definition unless_blank (value column : string) : bool :=
  String.eqb value "" || String.eqb column value.

Definition org_model (m : MemberShip.t) (owner : Z) (name uuid : string) : Organization.t :=
  Organization.zero <| Organization.Creater := MemberShip.UserID m |>
    <| Organization.Owner := owner |> <| Organization.Name := name |>
    <| Organization.UUID := uuid |>.

Definition OrgAdmin_Create (name owner uuid : string) : M Organization.t :=
  m ← GetMemberShip;
  _ ← require (String.eqb name "admin" || CheckPermission m Model.Admin)
        (NewCLError ErrPermissionDenied "Not authorized to create organization" None);
  with_tx (
    user ← wrap ErrUserNotFound "Failed to find user"
             (db_take (λ u, unless_blank owner (User.Username u)));
    org ← wrap ErrOrgCreationFailed "Failed to create organization"
            (db_create (org_model m (User.ID user) name uuid));
    _ ← wrap ErrMemberCreationFailed "Failed to create organization member"
          (db_create (member_model (User.ID user) owner (Organization.ID org) name Model.Owner));
    _ ← wrap ErrUserUpdateFailed "Failed to update user owner"
          (db_update (by_id (User.ID user)) (λ u, u <| User.Owner := Organization.ID org |>));
    mret org).

(** Users who are named and not members yet become readers; a name that fails is
    skipped. *)
Definition add_member (m : MemberShip.t) (org : Organization.t) (orgID : Z) (own : list Member.t)
    (name : string) : M unit :=
  let name := TrimSpace name in
  if String.eqb name "" || existsb (λ em, String.eqb name (Member.UserName em)) own then mret tt
  else
    r ← try (db_take (λ u, unless_blank name (User.Username u)));
    match r with
    | inr _ => mret tt
    | inl user =>
        if User.ID user <=? 0 then mret tt
        else
          _ ← try (db_create (member_model (User.ID user) name orgID (Organization.Name org) Reader
                     <| Member.Creater := MemberShip.UserID m |> <| Member.Owner := orgID |>));
          mret tt
    end.

Definition drop_member (orgID : Z) (names : list string) (em : Member.t) : M unit :=
  if existsb (λ n, negb (String.eqb (TrimSpace n) "")
                   && String.eqb (TrimSpace n) (Member.UserName em)) names then mret tt
  else
    _ ← try (db_delete (λ x, unless_blank (Member.UserName em) (Member.UserName x)
                             && ((orgID =? 0) || (Member.OrgID x =? orgID))));
    mret tt.

(** [roles] is indexed with the position of the user. *)
Fixpoint set_roles (orgID : Z) (users : list string) (roles : list Z) (i : nat) : M unit :=
  match users with
  | [] => mret tt
  | user :: users =>
      role ← deref (roles !! i);
      _ ← try (db_update (λ x, String.eqb (Member.UserName x) user && (Member.OrgID x =? orgID))
                 (λ x, x <| Member.Role := role |>));
      set_roles orgID users roles (S i)
  end.

(** No permission is asked for. *)
Definition OrgAdmin_Update (orgID : Z) (names users : list string) (roles : list Z)
    : M Organization.t :=
  m ← GetMemberShip;
  GetContextDB (
    '(org, own) ← wrap ErrOrgNotFound "Failed to find organization"
                    (_ ← load_org orgID; load_org orgID);
    _ ← for_each names (add_member m org orgID own);
    _ ← for_each own (drop_member orgID names);
    _ ← set_roles orgID users roles 0;
    mret org).

Definition take_org (p : Organization.t → bool) : M Organization.t :=
  GetContextDB (wrap ErrOrgNotFound "Failed to find organization" (db_take p)).

Definition OrgAdmin_GetOrgByUUID (uuID : string) : M (Organization.t * list Member.t) :=
  GetContextDB (
    wrap ErrOrgNotFound "Failed to find organization" (
      org ← db_take (λ o, String.eqb (Organization.UUID o) uuID);
      own ← db_find (λ x, Member.OrgID x =? Organization.ID org);
      mret (org, own))).

Definition OrgAdmin_GetOrgByName (name : string) : M Organization.t :=
  take_org (λ o, unless_blank name (Organization.Name o)).

(** The empty name when there is no such organization. *)
Definition OrgAdmin_GetOrgName (id : Z) : M string :=
  r ← try (GetContextDB (db_get (R := Organization.t) id));
  mret match r with inl o => Organization.Name o | inr _ => "" end.

Definition renamed_org (r o : Organization.t) : Organization.t :=
  o <| Organization.Name := prefix_name "organizations" (Organization.ID r) (Organization.Name r) |>.

Definition OrgAdmin_Delete (org : Organization.t) : M unit :=
  let id := Organization.ID org in
  m ← GetMemberShip;
  _ ← require (CheckPermission m Model.Admin)
        (NewCLError ErrPermissionDenied "Not authorized to delete the org" None);
  with_tx (
    nics ← db_count (λ i, (Interface.Owner i =? id)
                          && negb (String.eqb (Interface.Type_ i) "gateway"));
    _ ← require (negb (0 <? nics))
          (NewCLError ErrResourcesInOrg "There are resources in this org" None);
    users ← db_count (λ u, User.Owner u =? id);
    _ ← require (negb (0 <? users))
          (NewCLError ErrResourcesInOrg "There are users in this org" None);
    _ ← wrap ErrMemberDeleteFailed "Failed to delete organization member"
          (db_delete (λ x, Member.OrgID x =? id));
    own ← wrap ErrDatabaseError "Failed to query keys" (db_find (λ k, Key.Owner k =? id));
    _ ← for_each own (λ k, wrap ErrSSHKeyDeleteFailed "Failed to delete SSH key" (KeyAdmin_Delete k));
    _ ← wrap ErrOrgDeleteFailed "Failed to delete organization"
          (db_delete (R := Organization.t) (by_pk id));
    _ ← wrap ErrOrgUpdateFailed "Failed to update organization name"
          (db_update_all (by_id id) (renamed_org org));
    groups ← wrap ErrDatabaseError "Failed to query security groups"
               (db_find (λ g, SecurityGroup.Owner g =? id));
    for_each groups (λ g, wrap ErrSecurityGroupDeleteFailed "Failed to delete security group"
      (SecgroupAdmin_Delete (created_unix "security_groups" (SecurityGroup.ID g)) g))).

(** The administrator of the organization admin sees all, with their members. *)
Definition OrgAdmin_List (offset limit : Z) (order query : string)
    : M (Z * list (Organization.t * list Member.t)) :=
  m ← GetMemberShip;
  GetContextDB (
    _ ← wrap ErrUserNotFound "Failed to find user" (db_get (R := User.t) (MemberShip.UserID m));
    let all := String.eqb (MemberShip.OrgName m) "admin" && (MemberShip.Role m =? Model.Admin) in
    let p o := (all || (Organization.ID o =? MemberShip.OrgID m))
               && name_like query (Organization.Name o) in
    total ← wrap ErrSQLSyntaxError "Failed to count organizations" (db_count p);
    l ← wrap ErrSQLSyntaxError "Failed to query organizations" (
      orgs ← db_page (page_order_of order) offset (page_limit_of limit) p;
      match orgs with
      | [] => mret []
      | _ =>
          own ← db_find (λ x, existsb (λ o, Member.OrgID x =? Organization.ID o) orgs);
          mret (map (λ o, (o, List.filter (λ x, Member.OrgID x =? Organization.ID o) own)) orgs)
      end);
    mret (total, l)).

End requests.

(** ** What the requests achieve *)

(** The code of the error a run ended with. *)
Definition error_of {G : Gorm} {A} (r : Res A * World) : option Z :=
  match r.1 with Err e => error_code e | _ => None end.

Section laws.
Context {G : Gorm} {E : Env} {C : Crypto} {GOk : GormOk G} {COk : CryptoOk C}.
Implicit Types (c : Ctx) (w : World).

(** A row that is deleted and renamed where it lies. *)
Lemma buried {R} {HR : Row R} {HRO : RowOk R} (t : table R) (f : R → R) k :
  keeps_id f → k ≠ 0 → rows (g_update_all (by_id k) f (g_delete (by_pk k) t)) = delete k (rows t).
Proof.
  intros Hf Hk. rewrite update_all_spec by done. rewrite delete_pk by done.
  apply map_eq. intros j. rewrite lookup_fmap. destruct (decide (j = k)) as [->|Hj].
  { by rewrite lookup_delete_eq. }
  rewrite lookup_delete_ne by done. destruct (rows t !! j) as [x|] eqn:Hx; [|done].
  unfold by_id. simpl. by rewrite (rows_id _ _ _ Hx), (proj2 (Z.eqb_neq _ _) Hj).
Qed.

(** A key pair is deleted only by a writer of its organization and while no live
    instance lists it among its keys; exactly its row goes, and nothing is posted. *)
Theorem key_delete_spec key c w u w' :
  0 < Key.ID key → KeyAdmin_Delete key c w = (Ok u, w') →
  ValidateOwner (caller c) Writer (Key.Owner key) = true ∧
  (∀ k i, rows (instances (db w)) !! k = Some i → has_key (Key.ID key) i = false) ∧
  rows (keys (db w')) = delete (Key.ID key) (rows (keys (db w))) ∧
  db w' = db w <| keys := keys (db w') |> ∧ sent w' = sent w.
Proof.
  intros Hid. unfold KeyAdmin_Delete. intros H. go_ok. flat.
  split_and!; [done| |by apply buried; [done|lia]|done..].
  apply negb_true_iff, Nat.ltb_ge in H2. apply find_nil. by destruct (g_find _ _); [|simpl in *; lia].
Qed.

Lemma count_zero {R} {HR : Row R} {HRO : RowOk R} {HD : InDB R} (p : R → bool) c w n w' k r :
  db_count p c w = (Ok n, w') → rows (tbl (db w)) !! k = Some r → p r = true → 0 < n.
Proof.
  intros (-> & _)%db_count_Ok Hr Hp. pose proof (find_lookup _ _ _ _ Hr Hp) as Hin.
  destruct (g_find p (tbl (db w))); [by apply elem_of_nil in Hin|simpl; lia].
Qed.

(** An organization with a user of its own is not deleted. *)
Lemma org_delete_refused org c w k r u w' :
  rows (users (db w)) !! k = Some r → User.Owner r = Organization.ID org →
  OrgAdmin_Delete org c w ≠ (Ok u, w').
Proof.
  intros Hr Ho. unfold OrgAdmin_Delete.
  intros (m & ? & [<- <-]%GetMemberShip_Ok & (_ & ? & [_ <-]%require_Ok & H%with_tx_Ok)%bind_Ok)%bind_Ok.
  apply bind_Ok in H as (n & w1 & (_ & Hd & _)%db_count_Ok & H).
  apply bind_Ok in H as (_ & ? & [_ <-]%require_Ok & (n2 & w2 & Hn & H)%bind_Ok).
  apply bind_Ok in H as (_ & ? & [Hz _]%require_Ok & _).
  apply (count_zero _ _ _ _ _ k r) in Hn; [|by rewrite Hd|by apply Z.eqb_eq].
  by rewrite (proj2 (Z.ltb_lt _ _) Hn) in Hz.
Qed.

(** What [OrgAdmin_Create] leaves: the organization, its owner as a member, and the
    owner's own organization. *)
Lemma org_create_Ok name owner uuid c w org w' :
  OrgAdmin_Create name owner uuid c w = (Ok org, w') →
  rows (organizations (db w')) !! Organization.ID org = Some org ∧
  Organization.Name org = name ∧
  ∃ user k x, rows (users (db w)) !! User.ID user = Some user ∧
    rows (users (db w')) !! User.ID user = Some (user <| User.Owner := Organization.ID org |>) ∧
    Organization.Owner org = User.ID user ∧
    rows (members (db w')) !! k = Some x ∧ Member.UserID x = User.ID user ∧
    Member.OrgID x = Organization.ID org ∧ Member.Role x = Model.Owner.
Proof.
  unfold OrgAdmin_Create. intros H. go_ok. flat.
  match goal with H : g_take _ _ = Some ?x |- _ => apply take_some in H as [_ Hu]; rename x into user end.
  match goal with H : g_create _ (organizations _) = _ |- _ =>
    destruct (create_spec _ _ _ _ H) as (_ & _ & Ho & Hro) end.
  match goal with H : g_create _ (members _) = (?x, _) |- _ =>
    destruct (create_spec _ _ _ _ H) as (_ & _ & Hm & Hrm); rename x into member end.
  simpl in *. pose proof (rows_pos _ _ _ Hu) as Hpos. simpl in Hpos.
  rewrite Hro, lookup_insert_eq. split; [done|]. split; [by rewrite Ho|].
  exists user, (Member.ID member), member. rewrite Hrm, lookup_insert_eq.
  rewrite (update_key (R := User.t) _ _ _ user) by done. rewrite lookup_insert_eq.
  split_and!; try done; [|by rewrite Hm..].
  rewrite Ho. simpl. unfold dflt_Z. by rewrite (proj2 (Z.eqb_neq _ _)) by lia.
Qed.

Lemma count_eq {R} {HR : Row R} {HD : InDB R} (p : R → bool) c w :
  no_faults → db_count p c w = (Ok (Z.of_nat (length (g_find p (tbl (db w))))), tick w).
Proof. intros Hn. unfold db_count. rewrite stmt_runs by done. by destruct w. Qed.

(** C25. Creating an organization makes it the default organization of its owner: as long as
    the users stay as they are, an administrator's request to delete it is refused with
    ErrResourcesInOrg, and nothing is written. *)
Theorem org_create_blocks_delete name owner uuid c w org w' c2 w2 :
  no_faults → OrgAdmin_Create name owner uuid c w = (Ok org, w') →
  users (db w2) = users (db w') → dbkey c2 = false → CheckPermission (caller c2) Model.Admin = true →
  ∃ w3, OrgAdmin_Delete org c2 w2 =
          (Err (NewCLError ErrResourcesInOrg
                  (if (0 <? Z.of_nat (length (g_find (λ i, (Interface.Owner i =? Organization.ID org)
                         && negb (String.eqb (Interface.Type_ i) "gateway")) (interfaces (db w2)))))
                   then "There are resources in this org" else "There are users in this org") None), w3)
        ∧ db w3 = db w2 ∧ sent w3 = sent w2.
Proof.
  intros Hn H Hsame Hk Hp.
  destruct (org_create_Ok _ _ _ _ _ _ _ H) as (_ & _ & user & _ & _ & _ & Hu & _).
  unfold OrgAdmin_Delete. rewrite (bind_run _ _ _ _ (caller c2) w2) by done.
  rewrite (bind_run _ _ _ _ tt w2) by (unfold require; by rewrite Hp).
  unfold with_tx. rewrite Hk, (bind_run _ _ _ _ _ _ (count_eq _ _ _ Hn)).
  destruct (0 <? _); [by eexists|]. rewrite (bind_run _ _ _ _ tt (tick w2)) by done.
  rewrite (bind_run _ _ _ _ _ _ (count_eq _ _ _ Hn)). simpl. rewrite Hsame.
  destruct (g_find (λ u, User.Owner u =? Organization.ID org) (users (db w'))) as [|x l] eqn:Hf.
  - pose proof (proj1 (find_nil _ _) Hf _ _ Hu) as Hx. simpl in Hx. by rewrite Z.eqb_refl in Hx.
  - by eexists.
Qed.

(** ** Logging in *)

Lemma validate_missing username password c w :
  no_faults → (∀ k r, rows (users (db w)) !! k = Some r → User.Username r ≠ username) →
  (UserAdmin_Validate username password c w).1 =
  Err (NewCLError ErrPasswordMismatch "Failed to compare password hash" (Some (GoError "bcrypt"))).
Proof.
  intros Hn Hno. unfold UserAdmin_Validate. rewrite GetContextDB_eq.
  destruct (take_nothing (HD := in_users) (λ u, String.eqb (User.Username u) username)
              (c <| dbkey := true |>) w Hn) as (w1 & Ht & _).
  { intros j x Hx. apply String.eqb_neq. by eapply Hno. }
  rewrite (bind_run _ _ _ _ (inr RecordNotFound) w1) by (unfold try; by rewrite Ht).
  unfold UserAdmin_CompareHashAndPassword. simpl. by rewrite bcrypt_blank.
Qed.

Lemma validate_found username password user c w :
  no_faults → rows (users (db w)) !! User.ID user = Some user → User.Username user = username →
  (∀ k r, rows (users (db w)) !! k = Some r → User.Username r = username → r = user) →
  (UserAdmin_Validate username password c w).1 =
  if bcrypt_ok (User.Password user) password then Ok user
  else Err (NewCLError ErrPasswordMismatch "Failed to compare password hash"
              (Some (GoError "bcrypt"))).
Proof.
  intros Hn Hu Hname Huniq. unfold UserAdmin_Validate. rewrite GetContextDB_eq.
  destruct (take_unique (HD := in_users) (λ u, String.eqb (User.Username u) username) user _
              (c <| dbkey := true |>) w Hn Hu) as (w1 & Ht & _).
  { by apply String.eqb_eq. }
  { intros j x Hx Hp%String.eqb_eq. by eapply Huniq. }
  rewrite (bind_run _ _ _ _ (inl user) w1) by (unfold try; by rewrite Ht).
  unfold UserAdmin_CompareHashAndPassword, require. simpl. by destruct (bcrypt_ok _ _).
Qed.

Lemma user_delete_Ok user c w u w' :
  0 < User.ID user → UserAdmin_Delete user c w = (Ok u, w') →
  CheckPermission (caller c) Model.Admin = true ∧
  rows (users (db w')) = delete (User.ID user) (rows (users (db w))) ∧
  (∀ k x, rows (members (db w')) !! k = Some x ↔
          rows (members (db w)) !! k = Some x ∧ Member.UserID x ≠ User.ID user).
Proof.
  intros Hid. unfold UserAdmin_Delete. intros H. go_ok. flat.
  split_and!; [done|by apply buried; [done|lia]|]. intros k x. simpl. rewrite delete_spec.
  destruct (rows _ !! k) as [y|]; [|naive_solver]. destruct (Member.UserID y =? User.ID user) eqn:Hy.
  - apply Z.eqb_eq in Hy. naive_solver.
  - apply Z.eqb_neq in Hy. naive_solver.
Qed.

Lemma no_member_no_token uid username org c w :
  no_faults → (∀ k x, rows (members (db w)) !! k = Some x → Member.UserName x ≠ username) →
  error_of (UserAdmin_AccessToken uid username org c w) = Some ErrMemberNotFound.
Proof.
  intros Hn Hno. unfold UserAdmin_AccessToken. rewrite GetContextDB_eq.
  destruct (take_nothing (HD := in_members) (λ x, String.eqb (Member.UserName x) username
              && String.eqb (Member.OrgName x) org) (c <| dbkey := true |>) w Hn) as (w3 & Ht & _).
  { intros j x Hx. simpl. by rewrite (proj2 (String.eqb_neq _ _) (Hno j x Hx)). }
  unfold mbind at 1, M_bind at 1, wrap at 1. by rewrite Ht.
Qed.

(** C18. After a user is deleted, no password passes for that name and no organization gives
    it an access token: Validate answers ErrPasswordMismatch and AccessToken
    ErrMemberNotFound, in every later state with the same users and members. *)
Theorem deleted_user_locked_out user c w u w' password org c2 w2 :
  no_faults → 0 < User.ID user →
  (∀ k r, rows (users (db w)) !! k = Some r → User.Username r = User.Username user →
          k = User.ID user) →
  (∀ k x, rows (members (db w)) !! k = Some x → Member.UserName x = User.Username user →
          Member.UserID x = User.ID user) →
  UserAdmin_Delete user c w = (Ok u, w') →
  users (db w2) = users (db w') → members (db w2) = members (db w') →
  error_of (UserAdmin_Validate (User.Username user) password c2 w2) = Some ErrPasswordMismatch ∧
  error_of (UserAdmin_AccessToken (User.ID user) (User.Username user) org c2 w2)
    = Some ErrMemberNotFound.
Proof.
  intros Hn Hid Huniq Hmem (_ & Hus & Hms)%user_delete_Ok Hu Hm; [|done]. split.
  - unfold error_of. rewrite validate_missing; [done..|]. rewrite Hu, Hus.
    intros k r [Hk Hr]%lookup_delete_Some Heq. by apply Hk, eq_sym, (Huniq k r).
  - apply no_member_no_token; [done|]. intros k x. rewrite Hm. intros [Hx Hne]%Hms Heq.
    by apply Hmem in Hx.
Qed.

(** The rows of a new user and of its membership. *)
Definition joined (m : MemberShip.t) (user : User.t) (x : Member.t) : Prop :=
  Member.UserID x = User.ID user ∧ Member.UserName x = User.Username user ∧
  Member.OrgID x = MemberShip.OrgID m ∧ Member.OrgName x = MemberShip.OrgName m ∧
  Member.Role x = Reader.

Lemma user_create_Ok username password uuid c w user w' :
  no_faults →
  UserAdmin_Create username password uuid c w = (Ok user, w') →
  rows (users (db w')) = <[User.ID user := user]> (rows (users (db w))) ∧
  User.Username user = username ∧ bcrypt_ok (User.Password user) password = true ∧
  organizations (db w') = organizations (db w) ∧
  if String.eqb (MemberShip.OrgName (caller c)) "admin" then members (db w') = members (db w)
  else ∃ x, rows (members (db w')) = <[Member.ID x := x]> (rows (members (db w))) ∧
            joined (caller c) user x.
Proof.
  intros Hn. unfold UserAdmin_Create.
  intros (m & ? & [<- <-]%GetMemberShip_Ok & (_ & ? & [_ <-]%require_Ok & H%with_tx_Ok)%bind_Ok)%bind_Ok.
  apply bind_Ok in H as (hash & w1 & Hh & H). unfold UserAdmin_GenerateFromPassword in Hh.
  destruct (bcrypt_hash _ _) as [h|] eqn:Hb; [|done]. injection Hh as <- <-.
  apply bind_Ok in H as (t & ? & Ht & H). injection Ht as <- <-.
  apply bind_Ok in H as (r & w2 & Hr%try_Ok & H).
  destruct r as [y|e]; [|by apply (ne_stmt Hn) in Hr].
  destruct (String.eqb (MemberShip.OrgName (caller c)) "admin"); go_ok; flat; simpl in *.
  { match goal with H : g_create _ (users _) = _ |- _ =>
      destruct (create_spec _ _ _ _ H) as (_ & _ & Hy & Hry) end.
    split_and!; [done|by rewrite Hy|rewrite Hy; by apply (bcrypt_matches _ _ _ Hb)|done|done]. }
  match goal with H : g_create _ (users _) = _ |- _ =>
    destruct (create_spec _ _ _ _ H) as (_ & _ & Hy & Hry) end.
  match goal with H : g_create _ (members _) = (?x, _) |- _ =>
    destruct (create_spec _ _ _ _ H) as (_ & _ & Hm & Hrm); rename x into member end.
  split_and!; [done|by rewrite Hy|rewrite Hy; by apply (bcrypt_matches _ _ _ Hb)|done|].
  exists member. split; [done|]. unfold joined. by rewrite Hm, Hy.
Qed.

Lemma first_pk_runs {R} {HR : Row R} {HRO : RowOk R} {HD : InDB R} k (r : R) c w :
  no_faults → rows (tbl (db w)) !! k = Some r →
  ∃ w', db_first (by_pk k) c w = (Ok r, w') ∧ db w' = db w.
Proof.
  intros Hn Hr. pose proof (rows_pos _ _ _ Hr) as Hpos.
  unfold db_first, db_take_by, mbind, M_bind. rewrite stmt_runs by done. simpl.
  destruct (g_take_by _ _ _) as [x|] eqn:Hx.
  - apply take_by_some in Hx as [Hp Hx]. unfold by_pk in Hp. rewrite pk_nonzero in Hp by lia.
    apply Z.eqb_eq in Hp. rewrite <- Hp, Hr in Hx. simplify_eq. by eexists.
  - eapply take_by_none in Hx; [|done]. unfold by_pk in Hx.
    by rewrite (rows_id _ _ _ Hr), pk_self in Hx.
Qed.

(** The keys of the configuration can be read. *)
Definition keys_configured : Prop :=
  viper_GetString "key.private" ≠ "" ∧ rsa_private (viper_GetString "key.private") = true ∧
  viper_GetString "key.public" ≠ "" ∧ rsa_public (viper_GetString "key.public") = true.

Lemma key_ok valid name c w :
  viper_GetString name ≠ "" → valid (viper_GetString name) = true →
  key_or_panic valid name c w = (Ok tt, w).
Proof. intros Hb%String.eqb_neq Hv. unfold key_or_panic. by rewrite Hb, Hv. Qed.

(** A membership that is the only one of its names gives a token, which is read back. *)
Lemma access_token_runs x user org c w :
  no_faults → keys_configured → (∀ claims, is_Some (sign_rs256 claims)) →
  rows (members (db w)) !! Member.ID x = Some x →
  Member.UserName x = User.Username user →
  (∀ k y, rows (members (db w)) !! k = Some y → Member.UserName y = Member.UserName x → y = x) →
  Member.Role x ≠ RoleNone →
  rows (organizations (db w)) !! Member.OrgID x = Some org →
  rows (users (db w)) !! User.ID user = Some user →
  ∃ token iat exp w3,
    UserAdmin_AccessToken (User.ID user) (User.Username user) (Member.OrgName x) c w
      = (Ok (Member.OrgID x, Member.Role x, (token, iat, exp)), w3) ∧ db w3 = db w ∧
    ∀ c4 w4, iat ≤ time_now (clock w4) / 1000000000 < exp →
      ∃ claims, ParseToken token c4 w4 = (Ok claims, w4) ∧
        CustomClaims.UID claims = User.UUID user ∧
        CustomClaims.OID claims = Organization.UUID org ∧ CustomClaims.Role claims = Member.Role x.
Proof.
  intros Hn (Hp1 & Hp2 & Hp3 & Hp4) Hsign Hx Hxu Hux Hrole Horg Hu.
  unfold UserAdmin_AccessToken. rewrite GetContextDB_eq.
  destruct (take_unique (HD := in_members) (λ y, String.eqb (Member.UserName y) (User.Username user)
    && String.eqb (Member.OrgName y) (Member.OrgName x)) x _ (c <| dbkey := true |>) w Hn Hx)
    as (wa & Ha & Hda & _).
  { by rewrite Hxu, !String.eqb_refl. }
  { intros j y Hy [Hy1%String.eqb_eq _]%andb_true_iff. apply (Hux j y Hy). congruence. }
  rewrite (bind_run _ _ _ _ x wa) by (by apply wrap_Ok).
  rewrite (bind_run _ _ _ _ tt wa) by (by apply require_Ok; rewrite (proj2 (Z.eqb_neq _ _) Hrole)).
  rewrite <- Hda in Horg, Hu |- *.
  destruct (first_pk_runs (HD := in_organizations) _ org (c <| dbkey := true |>) wa Hn Horg)
    as (wb & Hb & Hdb).
  rewrite (bind_run _ _ _ _ org wb) by (by apply wrap_Ok). rewrite <- Hdb in Hu |- *.
  destruct (first_pk_runs (HD := in_users) _ user (c <| dbkey := true |>) wb Hn Hu) as (wc & Hc & Hdc).
  rewrite (bind_run _ _ _ _ user wc) by (by apply wrap_Ok). rewrite <- Hdc.
  set (claims := claims_of (User.Username user) (Member.OrgName x) (User.UUID user)
    (Organization.UUID org) (Member.Role x) (time_now (clock wc)) (rand_intn (clock wc) (2 ^ 63))).
  destruct (Hsign claims) as (token & Htok).
  exists token, (CustomClaims.IssuedAt claims), (CustomClaims.ExpiresAt claims), wc.
  split; [|split; [done|]].
  - unfold NewToken, now, mbind, M_bind. rewrite key_ok by done. fold claims. by rewrite Htok.
  - intros c4 w4 Ht. exists claims. split; [|done].
    unfold ParseToken, now, mbind, M_bind. rewrite key_ok by done.
    assert (CustomClaims.NotBefore claims = CustomClaims.IssuedAt claims) by done.
    by rewrite (rs256_fresh _ _ _ Htok) by lia.
Qed.

(** C17. A new user can log in.  With a name that no user and no membership has, keys that
    are configured and sign, and a database that works and is as the creation left it,
    Validate accepts the password of the creation and returns the user.  When the caller's organization is not the one named admin,
    AccessToken issues a token for that organization with the role Reader, and until it
    expires ParseToken gives back the UUID of the user, the UUID of the organization and the
    role.  A user created from the organization named admin gets no membership: no
    organization issues a token for it, AccessToken answers ErrMemberNotFound. *)
Theorem login_roundtrip username password uuid c w user w1 org c2 w2 :
  no_faults → keys_configured → (∀ claims, is_Some (sign_rs256 claims)) →
  (∀ k r, rows (users (db w)) !! k = Some r → User.Username r ≠ username) →
  (∀ k x, rows (members (db w)) !! k = Some x → Member.UserName x ≠ username) →
  rows (organizations (db w)) !! MemberShip.OrgID (caller c) = Some org →
  UserAdmin_Create username password uuid c w = (Ok user, w1) → db w2 = db w1 →
  (UserAdmin_Validate username password c2 w2).1 = Ok user ∧
  if String.eqb (MemberShip.OrgName (caller c)) "admin" then
    ∀ organization, error_of (UserAdmin_AccessToken (User.ID user) username organization c2 w2)
                    = Some ErrMemberNotFound
  else ∃ token iat exp w3,
    UserAdmin_AccessToken (User.ID user) username (MemberShip.OrgName (caller c)) c2 w2
      = (Ok (MemberShip.OrgID (caller c), Reader, (token, iat, exp)), w3) ∧ db w3 = db w2 ∧
    ∀ c4 w4, iat ≤ time_now (clock w4) / 1000000000 < exp →
      ∃ claims, ParseToken token c4 w4 = (Ok claims, w4) ∧
        CustomClaims.UID claims = User.UUID user ∧
        CustomClaims.OID claims = Organization.UUID org ∧ CustomClaims.Role claims = Reader.
Proof.
  intros Hn Hkeys Hsign Hnou Hnom Hrow H Hsame.
  destruct (user_create_Ok _ _ _ _ _ _ _ Hn H) as (Hus & Hname & Hpw & Ho & Hmem).
  rewrite <- Hsame in *. split.
  - rewrite (validate_found _ _ user), Hpw; [done..| |done|]; rewrite Hus; [apply lookup_insert_eq|].
    intros k r [[_ <-]|[_ Hr]]%lookup_insert_Some; [done|]. by intros ?%(Hnou k r).
  - destruct (String.eqb _ _).
    { intros organization. apply no_member_no_token; [done|]. intros k x. rewrite Hmem. apply Hnom. }
    destruct Hmem as (x & Hms & Hx). destruct Hx as (Hx1 & Hx2 & Hx3 & Hx4 & Hx5). rewrite <- Hx3, <- Hx4, <- Hx5, <- Hname.
    destruct (access_token_runs x user org c2 w2) as (token & iat & exp & w3 & Ht & Hd & Hp); try done.
    + rewrite Hms. apply lookup_insert_eq.
    + rewrite Hms, Hx2, Hname. intros k y [[_ <-]|[_ Hy]]%lookup_insert_Some; [done|].
      by intros ?%(Hnom k y).
    + by rewrite Hx5.
    + by rewrite Ho, Hx3.
    + rewrite Hus. apply lookup_insert_eq.
    + by exists token, iat, exp, w3.
Qed.

End laws.

(** ** Examples *)

Module AccountsWitness.
Import Scenario ToyCrypto.

#[local] Existing Instance MemGorm.
#[local] Existing Instance MemGormOk.
#[local] Existing Instance env.

(** Organization 2, whose owner is alice (user 4), with a key that instance 5 does not
    have. *)
Definition key6 : Key.t :=
  Key.zero <| Key.ID := 6 |> <| Key.Owner := 2 |> <| Key.Name := "laptop" |>.
Definition user4 : User.t :=
  User.zero <| User.ID := 4 |> <| User.Owner := 2 |> <| User.Username := "alice" |>.
Definition member1 : Member.t := member_model 4 "alice" 2 "tenant" 3 <| Member.ID := 1 |>.
Definition tenant_db : DB :=
  cloud <| keys := table_of [key6] |> <| users := table_of [user4] |>
        <| members := table_of [member1] |>.
Definition tenant : World := mkWorld tenant_db [] 0.
Definition root : Ctx := mkCtx (Some (MemberShip.mk 1 "admin" 2 "tenant" 4)) false None None.

Lemma nothing_fails : no_faults.
Proof. done. Qed.

Lemma key_delete_spec_witness : ∃ u w',
  KeyAdmin_Delete key6 writer tenant = (Ok u, w') ∧
  rows (keys (db w')) = delete 6 (rows (keys tenant_db)).
Proof.
  run_ok (KeyAdmin_Delete key6 writer tenant) u w' H. exists u, w'. split; [exact H|].
  destruct (key_delete_spec key6 writer tenant u w' eq_refl H) as (_ & _ & Hk & _). exact Hk.
Defined.

Lemma org_create_blocks_delete_witness : ∃ org w1 w2,
  OrgAdmin_Create "lab" "alice" "" root tenant = (Ok org, w1) ∧
  error_of (OrgAdmin_Delete org root w1) = Some ErrResourcesInOrg ∧
  OrgAdmin_Delete org root w1 = w2.
Proof.
  run_ok (OrgAdmin_Create "lab" "alice" "" root tenant) org w1 H.
  destruct (org_create_blocks_delete "lab" "alice" "" root tenant org w1 root w1 nothing_fails H
    eq_refl eq_refl eq_refl) as (w3 & Hd & _).
  exists org, w1, (OrgAdmin_Delete org root w1). split; [exact H|]. rewrite Hd. by split.
Defined.

Lemma deleted_user_locked_out_witness : ∃ u w',
  UserAdmin_Delete user4 root tenant = (Ok u, w') ∧
  error_of (UserAdmin_Validate "alice" "secret" background w') = Some ErrPasswordMismatch ∧
  error_of (UserAdmin_AccessToken 4 "alice" "tenant" background w') = Some ErrMemberNotFound.
Proof.
  run_ok (UserAdmin_Delete user4 root tenant) u w' H. exists u, w'. split; [exact H|].
  apply (deleted_user_locked_out user4 root tenant u w' "secret" "tenant" background w'
    nothing_fails eq_refl); [| |exact H|reflexivity|reflexivity].
  - intros k r [Hr <-]%BalancerWitness.listed _. apply list_elem_of_singleton in Hr as ->. reflexivity.
  - intros k x [Hx _]%BalancerWitness.listed _. apply list_elem_of_singleton in Hx as ->. reflexivity.
Defined.

Lemma login_roundtrip_witness : ∃ user w1 token iat exp w3,
  UserAdmin_Create "bob" "secret" "" root tenant = (Ok user, w1) ∧
  (UserAdmin_Validate "bob" "secret" background w1).1 = Ok user ∧
  UserAdmin_AccessToken (User.ID user) "bob" "tenant" background w1
    = (Ok (2, Reader, (token, iat, exp)), w3).
Proof.
  run_ok (UserAdmin_Create "bob" "secret" "" root tenant) user w1 H.
  destruct (login_roundtrip "bob" "secret" "" root tenant user w1 org2 background w1 nothing_fails)
    as (Hv & token & iat & exp & w3 & Ht & _).
  - by split_and!.
  - intros claims. by eexists.
  - intros k r [Hr _]%BalancerWitness.listed. by apply list_elem_of_singleton in Hr as ->.
  - intros k x [Hx _]%BalancerWitness.listed. by apply list_elem_of_singleton in Hx as ->.
  - by vm_compute.
  - exact H.
  - done.
  - exists user, w1, token, iat, exp, w3. split; [exact H|]. split; [exact Hv|exact Ht].
Defined.

End AccountsWitness.
