(* ===== verification/ConsoleToken.v ===== *)
(** * ConsoleToken: the tokens of the web consoles (routes/console.go, rpcs/console_resolve.go)

    A token names an instance and a secret; the hash of the secret is kept in the row of
    the instance, so that a new token replaces the old one. *)

From S2P Require Import Prelude GoLib ErrorCodes Gorm Model Store Member Hyper Balancer Crypto InstanceAdmin Scenario BalancerConf.

(** Two hours, in nanoseconds. *)
Definition TokenExpireDuration : Z := 2 * 3600 * 1000000000.

Definition letters : string := "0123456789abcdefghijklmnopqrstuvwxyzABCDEFGHIJKLMNOPQRSTUVWXYZ".

Section console.
Context {G : Gorm} {E : Env} {C : Crypto}.

(** [bytes[r.Intn(len(bytes))]] *)
Definition random_letter : M ascii := λ c w,
  (match String.get (Z.to_nat (rand_intn (clock w) (Z.of_nat (String.length letters)))) letters with
   | Some a => Ok a
   | None => Panic
   end, tick w).

Fixpoint random_letters (n : nat) : M string :=
  match n with
  | O => mret ""
  | S n => a ← random_letter; s ← random_letters n; mret (String a s)
  end.

Definition RandomStr : M string := random_letters 10.

Definition console_values (instanceID : Z) (hash : string) (r : Console.t) : Console.t :=
  r <| Console.Instance := keep_Z instanceID (Console.Instance r) |> <| Console.Type_ := "vnc" |>
    <| Console.HashSecret := keep_s hash (Console.HashSecret r) |>.

(** [db.Where(..).Assign(console).FirstOrCreate(..)] *)
Definition assign_console (instanceID : Z) (hash : string) : M unit :=
  r ← try (db_first (λ x, Console.Instance x =? instanceID));
  match r with
  | inl x => db_update (by_pk (Console.ID x)) (console_values instanceID hash)
  | inr RecordNotFound => _ ← db_create (console_values instanceID hash Console.zero); mret tt
  | inr e => fail e
  end.

Definition MakeToken (instance : Instance.t) : M string :=
  m ← GetMemberShip;
  _ ← require (CheckPermission m Writer)
        (NewCLError ErrPermissionDenied "Not authorized to create interface in public subnet" None);
  secret ← RandomStr;
  t ← now;
  let claim := TokenClaim.mk (MemberShip.OrgID m) (MemberShip.Role m) (Instance.ID instance) secret
                 ((t + TokenExpireDuration) / 1000000000) in
  GetContextDB (
    _ ← wrap ErrConsoleCreateFailed "Failed to make console record"
          (assign_console (Instance.ID instance) (shake256 secret));
    mret (sign_hs256 claim)).

(** The row of the instance: no condition when the instance is 0. *)
Definition console_of (instanceID : Z) (r : Console.t) : bool :=
  (instanceID =? 0) || (Console.Instance r =? instanceID).

(** The checks of a token; the errors are those of the two packages that make them. *)
Definition resolve_token (missing : error → error) (refused : error) (token : string)
    : M (Z * MemberShip.t) :=
  t ← now;
  match parse_hs256 (t / 1000000000) token with
  | None => fail (GoError "ParseWithClaims")
  | Some claims =>
      GetContextDB (
        r ← try (db_take (console_of (TokenClaim.InstanceID claims)));
        match r with
        | inr e => fail (missing e)
        | inl console =>
            _ ← require (String.eqb (shake256 (TokenClaim.Secret claims))
                           (Console.HashSecret console)) refused;
            mret (TokenClaim.InstanceID claims,
                  MemberShip.zero <| MemberShip.OrgID := TokenClaim.OrgID claims |>
                                  <| MemberShip.Role := TokenClaim.Role claims |>)
        end)
  end.

Definition ResolveToken : string → M (Z * MemberShip.t) :=
  resolve_token
    (λ e, NewCLError ErrConsoleNotFound "Failed to retrieve console record" (Some e))
    (NewCLError ErrInvalidConsoleToken "Secret can not pass validation" None).

Definition rpcs_ResolveToken : string → M (Z * MemberShip.t) :=
  resolve_token (λ e, e) (GoError "Secret can not pass validation").

End console.

(** ** What the tokens give access to *)

(** At most one row per instance. *)
Definition one_console {G : Gorm} (d : DB) : Prop := ∀ j k r s,
  rows (consoles d) !! j = Some r → rows (consoles d) !! k = Some s →
  Console.Instance r = Console.Instance s → j = k.

(** The abstract state: the hash of the token in force for an instance. *)
Definition in_force {G : Gorm} (d : DB) (instanceID : Z) (hash : string) : Prop :=
  ∃ k r, rows (consoles d) !! k = Some r ∧ Console.Instance r = instanceID ∧
         Console.HashSecret r = hash.

Section console_laws.
Context {G : Gorm} {E : Env} {C : Crypto} {GOk : GormOk G} {COk : CryptoOk C}.
Implicit Types (c : Ctx) (w : World).

Lemma take_by_missing {R} {HR : Row R} {HRO : RowOk R} {HD : InDB R} le (p : R → bool) c w w' :
  db_take_by le p c w = (Err RecordNotFound, w') →
  (∀ k r, rows (tbl (db w)) !! k = Some r → p r = false) ∧ db w' = db w ∧ sent w' = sent w.
Proof.
  unfold db_take_by. intros [H|(o & w1 & (_ & Ho & Hs & _)%stmt_Ok & H)]%bind_Err.
  { by apply stmt_Err in H as (? & _). }
  injection Ho as Ho Hd. destruct o as [r|]; [done|]. injection H as <-.
  split_and!; [|done..]. intros k r. by apply take_by_none with (le := le).
Qed.

(** An assignment writes one row, the one of the instance. *)
Lemma assign_console_Ok id h c w u w' :
  id ≠ 0 → h ≠ "" → one_console (db w) → assign_console id h c w = (Ok u, w') →
  ∃ k r, rows (consoles (db w')) = <[k := r]> (rows (consoles (db w))) ∧
    Console.Instance r = id ∧ Console.HashSecret r = h ∧
    (∀ j s, rows (consoles (db w)) !! j = Some s → Console.Instance s = id ↔ j = k).
Proof.
  intros Hid Hh Hone. unfold assign_console. intros (r & w1 & Hr%try_Ok & H)%bind_Ok.
  assert (Hv : ∀ x, Console.Instance (console_values id h x) = id ∧
                    Console.HashSecret (console_values id h x) = h).
  { intros x. unfold console_values, keep_Z, keep_s. simpl.
    by rewrite (proj2 (Z.eqb_neq _ _) Hid), (proj2 (String.eqb_neq _ _) Hh). }
  destruct r as [x|[| | |]]; try done.
  - apply db_take_by_Ok in Hr as ([Hx%Z.eqb_eq Hrow]%take_by_some & Hd & _). go_ok. flat.
    assert (0 < Console.ID x) by apply (rows_pos _ _ _ Hrow).
    eexists (Console.ID x), _. simpl.
    rewrite (update_pk _ _ _ x) by (done || lia).
    split_and!; [done|by apply Hv|by apply Hv|]. intros j s Hs. split; [|intros ->; naive_solver].
    intros Hi. by apply (Hone j _ s x).
  - apply take_by_missing in Hr as (Hn & Hd & _). go_ok. flat.
    destruct (create_spec _ _ _ _ H) as (_ & Hfresh & Hr & Hrows).
    exists (get_id a), a. split_and!; [done| | |].
    1,2: rewrite Hr; simpl; destruct (Hv Console.zero); by destruct a.
    intros j s Hs. split; [|intros ->; congruence]. intros Hi. apply Hn in Hs.
    rewrite Hi, Z.eqb_refl in Hs. done.
Qed.

(** On the abstract state an assignment is an update of a finite map. *)
Lemma assign_console_in_force id h c w u w' :
  id ≠ 0 → h ≠ "" → one_console (db w) → assign_console id h c w = (Ok u, w') →
  one_console (db w') ∧
  ∀ i x, in_force (db w') i x ↔ if decide (i = id) then x = h else in_force (db w) i x.
Proof.
  intros Hid Hh Hone H. destruct (assign_console_Ok id h c w u w') as (k & r & Hrows & Hi & Hx & Hk);
    [done..|]. unfold one_console, in_force. rewrite Hrows. split.
  - intros j1 j2 r1 r2 [[<- <-]|[? H1]]%lookup_insert_Some [[<- <-]|[? H2]]%lookup_insert_Some Heq;
      [done|symmetry; apply (Hk _ _ H2); congruence|apply (Hk _ _ H1); congruence|].
    by eapply Hone.
  - intros i x. split.
    + intros (j & s & [[<- <-]|[Hj Hs]]%lookup_insert_Some & <- & <-).
      { by rewrite decide_True. }
      rewrite decide_False by (intros He; apply Hj; symmetry; by apply (Hk _ _ Hs)). by eauto.
    + case_decide as Hd.
      { intros ->. exists k, r. rewrite lookup_insert_eq. by subst. }
      intros (j & s & Hs & <- & <-). exists j, s. rewrite lookup_insert_ne; [done|].
      intros <-. by apply Hd, (Hk _ _ Hs).
Qed.

Lemma random_letters_Ok n c w s w' :
  random_letters n c w = (Ok s, w') → db w' = db w ∧ sent w' = sent w ∧ clock w' = (clock w + n)%nat.
Proof.
  revert w s w'. induction n as [|n IH]; intros w s w'; simpl; [intros [_ <-]%ret_Ok; split_and!; lia || done|].
  intros (a & w1 & Ha & (s1 & w2 & (Hd & Hs & Hc)%IH & [_ <-]%ret_Ok)%bind_Ok)%bind_Ok.
  unfold random_letter in Ha. case_match; [|done]. injection Ha as <- <-. simpl in *.
  rewrite Hd, Hs, Hc. split_and!; [done..|lia].
Qed.

Definition claim_of (m : MemberShip.t) (instanceID : Z) (secret : string) (t : nat) : TokenClaim.t :=
  TokenClaim.mk (MemberShip.OrgID m) (MemberShip.Role m) instanceID secret
    ((time_now t + TokenExpireDuration) / 1000000000).

Lemma shake_not_blank s : shake256 s ≠ "".
Proof. intros H. pose proof (shake_length s) as Hl. by rewrite H in Hl. Qed.

Lemma MakeToken_Ok i c w token w' :
  Instance.ID i ≠ 0 → one_console (db w) → MakeToken i c w = (Ok token, w') →
  ∃ secret w1, RandomStr c w = (Ok secret, w1) ∧
    token = sign_hs256 (claim_of (caller c) (Instance.ID i) secret (clock w + 10)) ∧
    one_console (db w') ∧
    ∀ id h, in_force (db w') id h ↔
            if decide (id = Instance.ID i) then h = shake256 secret else in_force (db w) id h.
Proof.
  intros Hid Hone. unfold MakeToken.
  intros (m & ? & [<- <-]%GetMemberShip_Ok & (_ & ? & [_ <-]%require_Ok & H)%bind_Ok)%bind_Ok.
  apply bind_Ok in H as (secret & w1 & Hs & (t & ? & Ht & H)%bind_Ok). exists secret, w1.
  split; [done|]. apply random_letters_Ok in Hs as (Hd & _ & Hc).
  unfold now in Ht. injection Ht as <- <-. rewrite GetContextDB_eq in H.
  apply bind_Ok in H as (u & w2 & Ha%wrap_Ok & [<- <-]%ret_Ok). rewrite Hc. split; [done|].
  apply assign_console_in_force in Ha; [|done|apply shake_not_blank|by rewrite Hd].
  by rewrite Hd in Ha.
Qed.

Definition access_of (claims : TokenClaim.t) : Z * MemberShip.t :=
  (TokenClaim.InstanceID claims,
   MemberShip.zero <| MemberShip.OrgID := TokenClaim.OrgID claims |>
                   <| MemberShip.Role := TokenClaim.Role claims |>).

(** A token that parses is resolved by the hash in force. *)
Lemma resolve_in_force missing refused claims token h c w :
  no_faults → one_console (db w) →
  parse_hs256 (time_now (clock w) / 1000000000) token = Some claims →
  TokenClaim.InstanceID claims ≠ 0 → in_force (db w) (TokenClaim.InstanceID claims) h →
  (resolve_token missing refused token c w).1 =
  if String.eqb (shake256 (TokenClaim.Secret claims)) h then Ok (access_of claims) else Err refused.
Proof.
  intros Hn Hone Hp Hid (k & r & Hr & Hi & Hh).
  destruct (take_unique (HD := in_consoles) (console_of (TokenClaim.InstanceID claims)) r k
              (c <| dbkey := true |>) w Hn Hr) as (w' & Ht & _).
  - unfold console_of. by rewrite Hi, Z.eqb_refl, orb_true_r.
  - unfold console_of. rewrite (proj2 (Z.eqb_neq _ _) Hid). simpl. intros j x Hx Heq%Z.eqb_eq.
    rewrite (Hone j k x r) in Hx; [by simplify_eq|done..|congruence].
  - unfold resolve_token, now, mbind, M_bind, try. rewrite Hp, GetContextDB_eq, Ht, Hh.
    by destruct (String.eqb _ _).
Qed.

(** A fresh token of [MakeToken], resolved while a hash is in force. *)
Lemma resolve_made missing refused m id secret t h c w :
  no_faults → one_console (db w) → id ≠ 0 →
  time_now (clock w) / 1000000000 < (time_now t + TokenExpireDuration) / 1000000000 →
  in_force (db w) id h →
  (resolve_token missing refused (sign_hs256 (claim_of m id secret t)) c w).1 =
  if String.eqb (shake256 secret) h then Ok (access_of (claim_of m id secret t)) else Err refused.
Proof.
  intros. by apply (resolve_in_force missing refused (claim_of m id secret t)); [..|apply hs256_fresh| |].
Qed.

(** C19. A console token resolves, as long as the table of consoles is as its creation left
    it (no newer token was made) and before it expires, to the instance it was made for
    and to the organization and role of its maker, in the server and in the report handler
    alike; only a writer gets one, and an instance that had at most one console row still
    has at most one.  Assumed: no statement of the database fails and the table has at
    most one row per instance. *)
Theorem console_token_resolves i c c2 w w1 w2 token :
  no_faults → 0 < Instance.ID i → one_console (db w) →
  MakeToken i c w = (Ok token, w1) →
  consoles (db w2) = consoles (db w1) →
  time_now (clock w2) / 1000000000
    < (time_now (clock w + 10)%nat + TokenExpireDuration) / 1000000000 →
  let access := (Instance.ID i, MemberShip.zero
                   <| MemberShip.OrgID := MemberShip.OrgID (caller c) |>
                   <| MemberShip.Role := MemberShip.Role (caller c) |>) in
  CheckPermission (caller c) Writer = true ∧ one_console (db w1) ∧
  (ResolveToken token c2 w2).1 = Ok access ∧ (rpcs_ResolveToken token c2 w2).1 = Ok access.
Proof.
  intros Hn Hid Hone H Hsame Ht access.
  destruct (MakeToken_Ok i c w token w1) as (secret & _ & _ & -> & Hone1 & Hf); [lia|done..|].
  assert (in_force (db w2) (Instance.ID i) (shake256 secret) ∧ one_console (db w2)) as [Hin Hone2].
  { unfold in_force, one_console in *. rewrite Hsame. split; [|done].
    apply Hf. by rewrite decide_True. }
  split; [|split; [done|split]].
  - unfold MakeToken in H. by go_ok.
  - unfold ResolveToken. erewrite resolve_made by (done || lia). by rewrite String.eqb_refl.
  - unfold rpcs_ResolveToken. erewrite resolve_made by (done || lia). by rewrite String.eqb_refl.
Qed.

(** C20. A second console token for an instance replaces the first: both resolvers refuse the
    old token, although it has not expired, unless the hashes of the two secrets collide. *)
Theorem console_token_replaced i c c' c2 w w1 w2 old new :
  no_faults → 0 < Instance.ID i → one_console (db w) →
  MakeToken i c w = (Ok old, w1) → MakeToken i c' w1 = (Ok new, w2) →
  (∀ s s' u u', RandomStr c w = (Ok s, u) → RandomStr c' w1 = (Ok s', u') →
                shake256 s ≠ shake256 s') →
  time_now (clock w2) / 1000000000
    < (time_now (clock w + 10)%nat + TokenExpireDuration) / 1000000000 →
  (ResolveToken old c2 w2).1 =
    Err (NewCLError ErrInvalidConsoleToken "Secret can not pass validation" None) ∧
  (rpcs_ResolveToken old c2 w2).1 = Err (GoError "Secret can not pass validation").
Proof.
  intros Hn Hid Hone H1 H2 Hne Ht.
  destruct (MakeToken_Ok i c w old w1) as (s & u & Hs & -> & Hone1 & _); [lia|done..|].
  destruct (MakeToken_Ok i c' w1 new w2) as (s' & u' & Hs' & -> & Hone2 & Hf); [lia|done..|].
  assert (in_force (db w2) (Instance.ID i) (shake256 s')) by (apply Hf; by rewrite decide_True).
  specialize (Hne _ _ _ _ Hs Hs'). apply String.eqb_neq in Hne.
  unfold ResolveToken, rpcs_ResolveToken.
  by split; erewrite resolve_made by (done || lia); rewrite Hne.
Qed.

End console_laws.

(** ** Examples *)

Module ConsoleWitness.
Import Scenario ToyCrypto.

#[local] Existing Instance MemGorm.
#[local] Existing Instance MemGormOk.

(** A generator whose letters depend on the time. *)
Definition env_random : Env := {|
  db_fault := λ _, false;
  post_result := λ _, PostOk;
  uuid_new n := "uuid-" +:+ fmt_d (Z.of_nat n);
  rand_read := λ _, Some (1, 2, 3, 4);
  rand_intn n k := Z.of_nat n mod k;
  viper_IsSet := λ _, true;
  viper_GetString := λ _, "wds_vhost";
  viper_GetInt32 := λ _, 0;
  sql_like := λ _ _, true;
  inet_le a b := String.leb a b;
  gorm_autosave := true;
  recently_updated := λ _ _, false;
  instance_created := λ _, 1700000000;
  error_text := λ _, "error";
  map_order := λ _ l, l;
  time_now := Z.of_nat;
  created_at := λ _ k, k * 1000000000;
|}.
#[local] Existing Instance env_random.

Lemma never_fails : no_faults.
Proof. done. Qed.

Lemma positive5 : 0 < Instance.ID instance5.
Proof. reflexivity. Qed.

Lemma no_console : one_console (db world).
Proof. intros j k r s [Hr _]%BalancerWitness.listed. by apply elem_of_nil in Hr. Qed.

Lemma console_token_resolves_witness : ∃ token w1,
  MakeToken instance5 writer world = (Ok token, w1) ∧
  (ResolveToken token stranger w1).1 =
    Ok (5, MemberShip.zero <| MemberShip.OrgID := 2 |> <| MemberShip.Role := 2 |>).
Proof.
  run_ok (MakeToken instance5 writer world) token w1 H. exists token, w1. split; [exact H|].
  assert (clock w1 = 12%nat) as Hc.
  { assert (w1 = (MakeToken instance5 writer world).2) as -> by (by rewrite H). by vm_compute. }
  destruct (console_token_resolves instance5 writer stranger world w1 w1 token never_fails
    positive5 no_console H eq_refl ltac:(rewrite Hc; reflexivity)) as (_ & _ & Hr & _).
  exact Hr.
Defined.

Lemma console_token_replaced_witness : ∃ old new w1 w2,
  MakeToken instance5 writer world = (Ok old, w1) ∧ MakeToken instance5 writer w1 = (Ok new, w2) ∧
  (ResolveToken old writer w2).1 =
    Err (NewCLError ErrInvalidConsoleToken "Secret can not pass validation" None).
Proof.
  run_ok (MakeToken instance5 writer world) old w1 H.
  assert (w1 = (MakeToken instance5 writer world).2) as Hw by (by rewrite H).
  destruct (run_Ok (MakeToken instance5 writer w1)) as (new & w2 & H2).
  { rewrite Hw. by vm_compute. }
  exists old, new, w1, w2. split; [exact H|]. split; [exact H2|].
  assert (clock w2 = 24%nat) as Hc.
  { assert (w2 = (MakeToken instance5 writer (MakeToken instance5 writer world).2).2) as ->
      by (by rewrite <- Hw, H2). by vm_compute. }
  destruct (console_token_replaced instance5 writer writer writer world w1 w2 old new
    never_fails positive5 no_console H H2) as [Hr _].
  - intros s s' u u' Hs Hs'.
    assert (s = result_of "" id (RandomStr writer world)) as -> by (by rewrite Hs).
    assert (s' = result_of "" id (RandomStr writer (MakeToken instance5 writer world).2)) as ->
      by (by rewrite <- Hw, Hs').
    by vm_compute.
  - rewrite Hc. reflexivity.
  - exact Hr.
Defined.

End ConsoleWitness.
