(* ===== verification/InstanceSystem.v ===== *)
(** * InstanceSystem: what the requests on instances achieve

    Deleting: the rows it changes and the command it ends with.  The names the
    monitoring system uses for a guest.  Resizing and rescue.  Creation, with the
    interfaces of the guest. *)

From S2P Require Import Prelude GoLib Json ErrorCodes Gorm Model Store Member Catalog Volume Admin Ipam NetInfo Secgroup Hyper Fip InstanceRpc Crypto Balancer FipAdmin NicAdmin ImageAdmin ConsistencyGroup IpGroup InstanceAdmin Scenario BalancerConf.

(** ** Tables a request leaves alone *)

Lemma pres_db_first {G : Gorm} {E : Env} {R} {HR : Row R} {HD : InDB R} I (p : R → bool) :
  preserves I (db_first p).
Proof. apply pres_db_take_by. Qed.

#[export] Hint Resolve pres_db_first : go.

(** The instances, the volumes and the members of consistency groups. *)
Definition guest_tables {G : Gorm} (d : DB)
    : table Instance.t * table Volume.t * table ConsistencyGroupVolume.t :=
  (instances d, volumes d, cg_volumes d).

Section frames.
Context {G : Gorm} {E : Env} {GOk : GormOk G}.
Context (X : table Instance.t * table Volume.t * table ConsistencyGroupVolume.t).

Definition guests_kept (d : DB) : Prop := guest_tables d = X.

Lemma kept_renames {A} (m : M A) : (∀ d, preserves (renames d) m) → preserves guests_kept m.
Proof.
  intros Hm c w HX. destruct (Hm (db w) c w (renames_refl _)) as [Hd _].
  unfold guests_kept. by rewrite Hd.
Qed.

Lemma kept_RemoveLoginPort i iface :
  preserves guests_kept (SecgroupAdmin_RemoveInstanceLoginPort i iface).
Proof.
  unfold SecgroupAdmin_RemoveInstanceLoginPort, SecruleAdmin_GetRule, SecruleAdmin_Delete. pres.
  - apply pres_db_delete. done.
  - apply kept_renames. intros. apply ApplySecgroup_renames.
Qed.

Lemma kept_release inst all ifaces more :
  preserves guests_kept (release_interfaces inst all ifaces more).
Proof.
  revert inst more. induction ifaces as [|i l IH]; intros; simpl; pres.
  - apply kept_RemoveLoginPort.
  - apply kept_renames. intros. apply GetInstanceNetworks_renames.
  - apply pres_db_update. done.
Qed.

End frames.

(** The floating IPs as well. *)
Definition cleared {G : Gorm} (d0 d : DB) : Prop :=
  guest_tables d = guest_tables d0 ∧ floating_ips d = floating_ips d0.

Section after_release.
Context {G : Gorm} {E : Env} {GOk : GormOk G}.
Implicit Types (d : DB).

Lemma cleared_cleanup d uuid : preserves (cleared d) (InstanceAdmin_CleanupInstanceRuleLinks uuid).
Proof.
  unfold InstanceAdmin_CleanupInstanceRuleLinks, GetInstanceRuleLinks. pres.
  generalize (∅ : gmap (string * string) (list string)).
  generalize (v :: l). intros links. induction links as [|x links IH]; intros; simpl; pres.
  unfold DeleteVMLink. by apply pres_stmt.
Qed.

Lemma cleared_resave d ifaces : preserves (cleared d) (resave_sites ifaces).
Proof. unfold resave_sites. pres. by apply pres_db_update. Qed.

End after_release.


(** The instance a call returns differs in its image at most, and keeps one it has. *)
Definition but_image (i j : Instance.t) : Prop :=
  j = i <| Instance.Image := Instance.Image j |> ∧
  ∀ x, Instance.Image i = Some x → Instance.Image j = Some x.

Section deletion.
Context {G : Gorm} {E : Env} {GOk : GormOk G}.
Implicit Types (c : Ctx) (w : World).

Lemma but_image_refl i : but_image i i.
Proof. split; [by destruct i|done]. Qed.

Lemma but_image_trans i j k : but_image i j → but_image j k → but_image i k.
Proof.
  intros [-> H1] [-> H2]. split; [by destruct i|]. intros x Hx. by apply H2, H1.
Qed.

Lemma GetImageOSCode_but i c w s j w' : GetImageOSCode i c w = (Ok (s, j), w') → but_image i j.
Proof.
  unfold GetImageOSCode. destruct (Instance.Image i) eqn:Hi.
  - intros [[= _ <-] _]%ret_Ok. apply but_image_refl.
  - rewrite GetContextDB_eq. intros (r & w1 & _ & H)%bind_Ok.
    destruct r; apply ret_Ok in H as [[= _ <-] _]; split; try by destruct i.
    all: intros x Hx; congruence.
Qed.

Lemma GetInstanceNetworks_but i il l c w nets more ifs' j w' :
  GetInstanceNetworks i il l c w = (Ok (nets, more, ifs', j), w') → but_image i j.
Proof.
  unfold GetInstanceNetworks. rewrite GetContextDB_eq.
  intros ([s k] & w1 & Hk%GetImageOSCode_but & H)%bind_Ok.
  apply bind_Ok in H as ([[]] & w2 & _ & [[= _ _ _ <-] _]%ret_Ok). done.
Qed.

Lemma release_but i all l more c w more' j w' :
  release_interfaces i all l more c w = (Ok (more', j), w') → but_image i j.
Proof.
  revert i more w. induction l as [|x l IH]; intros i more w; simpl.
  { intros [[= _ <-] _]%ret_Ok. apply but_image_refl. }
  intros (r & w1 & _ & H)%bind_Ok. destruct (Interface.PrimaryIf x); [|by apply IH in H].
  apply bind_Ok in H as ([[[]]] & w2 & Hj%GetInstanceNetworks_but & H).
  apply bind_Ok in H as (u & w3 & _ & H%IH). by eapply but_image_trans.
Qed.

(** *** Floating IPs *)

Lemma unbind_rows (t : table FloatingIp.t) (p : FloatingIp.t → bool) h id k x :
  keeps_id h → (∀ y, FloatingIp.InstanceID (h y) = 0) → (∀ y, p y = (FloatingIp.ID y =? id)) →
  rows (g_update p h t) !! k = Some x →
  (k = id ∧ FloatingIp.InstanceID x = 0) ∨ (k ≠ id ∧ rows t !! k = Some x).
Proof.
  intros Hh H0 Hp. rewrite update_lookup by done. intros (y & Hy & ->)%fmap_Some.
  pose proof (rows_id _ _ _ Hy) as Hk. simpl in Hk. rewrite Hp, Hk.
  destruct (Z.eqb_spec k id); [left|right]; auto.
Qed.

(** A floating IP of the instance is removed, or bound to no instance. *)
Lemma detach_rows f inst g c w r w' :
  0 < FloatingIp.ID f →
  FloatingIpAdmin_Detach (LoadedFip.mk f (Some inst) None None g) c w = (Ok r, w') →
  guest_tables (db w') = guest_tables (db w) ∧
  ∀ k x, rows (floating_ips (db w')) !! k = Some x →
    (k = FloatingIp.ID f ∧ FloatingIp.InstanceID x = 0) ∨
    (k ≠ FloatingIp.ID f ∧ rows (floating_ips (db w)) !! k = Some x).
Proof.
  intros Hid. unfold FloatingIpAdmin_Detach. intros H%with_tx_Ok. simpl in H.
  destruct (String.eqb _ PublicNative); [|destruct (String.eqb _ PublicReserved)].
  - go_ok. flat. split; [done|]. intros k x. simpl.
    rewrite delete_pk by (simpl in *; lia). intros [? ?]%lookup_delete_Some. by right.
  - go_ok. flat. split; [done|]. intros k x. by apply unbind_rows.
  - destruct inst as [inst ifaces]. unfold detach_network in H. simpl in H. go_ok. flat. split; [done|]. intros k x.
    apply unbind_rows; [done..|]. intros y. unfold by_pk. rewrite pk_nonzero by lia. by rewrite Z.eqb_sym.
Qed.

Lemma detach_loop l inst ifaces grp c w u w' :
  (∀ f, f ∈ l → 0 < FloatingIp.ID f) →
  for_each (map (λ f, LoadedFip.mk f (Some (inst, ifaces)) None None (grp f)) l)
    (λ f, _ ← FloatingIpAdmin_Detach f; mret tt) c w = (Ok u, w') →
  guest_tables (db w') = guest_tables (db w) ∧
  ∀ k x, rows (floating_ips (db w')) !! k = Some x →
    FloatingIp.InstanceID x = 0 ∨
    ((∀ f, f ∈ l → FloatingIp.ID f ≠ k) ∧ rows (floating_ips (db w)) !! k = Some x).
Proof.
  revert w. induction l as [|f l IH]; intros w Hpos; simpl.
  { intros [_ <-]%ret_Ok. split; [done|]. intros k x Hx. right. split; [|done].
    intros f Hf. by apply elem_of_nil in Hf. }
  intros (v & w1 & (r & w2 & Hd & [_ <-]%ret_Ok)%bind_Ok & H)%bind_Ok.
  apply detach_rows in Hd; [|apply Hpos; left].
  apply IH in H as (HT & HF); [|intros; apply Hpos; by right].
  destruct Hd as (HT1 & HF1). rewrite HT. split; [done|].
  intros k x [Hx|[Hne [[_ Hx]|[Hk Hx]]%HF1]]%HF; [by left..|]. right. split; [|done].
  intros g [->|Hg]%elem_of_cons; [done|by apply Hne].
Qed.

Lemma detach_fips_Ok inst ifaces c w u w' :
  0 < Instance.ID inst → detach_fips inst ifaces c w = (Ok u, w') →
  guest_tables (db w') = guest_tables (db w) ∧
  ∀ k x, rows (floating_ips (db w')) !! k = Some x → FloatingIp.InstanceID x ≠ Instance.ID inst.
Proof.
  intros Hid. unfold detach_fips. intros (fips & w1 & Hf%wrap_Ok & H)%bind_Ok.
  apply bind_Ok in Hf as (l & w2 & (Hl & Hd2 & _)%db_page_Ok & (grps & w3 & Hg & [<- <-]%ret_Ok)%bind_Ok).
  assert (db w3 = db w) as Hd.
  { unfold preload_many in Hg. case_match; go_ok; congruence. }
  apply detach_loop in H as (HT & HF).
  - rewrite HT, Hd. split; [done|]. intros k x [Hx|[Hne Hx]]%HF; [lia|].
    intros Heq. rewrite Hd in Hx. pose proof (rows_id _ _ _ Hx) as Hk.
    apply (Hne x); [|done]. rewrite Hl, page_all by lia. apply find_spec.
    split; [by apply Z.eqb_eq|]. by rewrite Hk.
  - intros f Hf. rewrite Hl in Hf. apply page_spec in Hf as [_ Hr]. apply (rows_pos _ _ _ Hr).
Qed.

(** *** Volumes *)

(** Whose boot volume is removed. *)
Definition boots (id : Z) (v : Volume.t) : bool := (Volume.InstanceID v =? id) && Volume.Booting v.

Lemma delete_boot_volumes_Ok l uuid c w s w' :
  (∀ v, v ∈ l → 0 < Volume.ID v) → delete_boot_volumes l uuid c w = (Ok s, w') →
  db w' = db w <| volumes := volumes (db w') |> ∧ sent w' = sent w ∧
  (∀ k, rows (volumes (db w')) !! k =
     if existsb (λ v, (Volume.ID v =? k) && Volume.Booting v) l then None
     else rows (volumes (db w)) !! k) ∧
  s = from_option Volume_GetOriginVolumeID uuid (last (List.filter Volume.Booting l)).
Proof.
  revert uuid w. induction l as [|v l IH]; intros uuid w Hpos; simpl.
  { intros [<- <-]%ret_Ok. split_and!; [by destruct (db w)|done..]. }
  destruct (Volume.Booting v) eqn:Hb; simpl.
  - intros (? & w1 & [Hd1 Hs1]%wrap_Ok%db_delete_Ok & H)%bind_Ok.
    apply IH in H as (Hd' & Hs & Hr & ->); [|intros; apply Hpos; by right].
    rewrite Hd1 in Hd', Hr. tables. split_and!.
    + by rewrite Hd'.
    + congruence.
    + intros k. rewrite Hr. simpl. rewrite delete_pk by (pose proof (Hpos v (list_elem_of_here _ _)); lia).
      destruct (Z.eqb_spec (Volume.ID v) k) as [->|Hk]; simpl.
      * rewrite lookup_delete_eq. by case_match.
      * by rewrite lookup_delete_ne.
    + rewrite last_cons. by destruct (last _).
  - intros (Hd & Hs & Hr & ->)%IH; [|intros; apply Hpos; by right]. split_and!; [done..| |done].
    intros k. by rewrite Hr, andb_false_r.
Qed.

Lemma no_group_Ok l c w u w' :
  for_each l not_in_group c w = (Ok u, w') →
  db w' = db w ∧
  ∀ v, v ∈ l → ∀ k x, rows (cg_volumes (db w)) !! k = Some x →
                      ConsistencyGroupVolume.VolumeID x ≠ Volume.ID v.
Proof.
  revert w. induction l as [|v l IH]; intros w; simpl.
  { intros [_ <-]%ret_Ok. split; [done|]. intros v Hv. by apply elem_of_nil in Hv. }
  intros (r & w1 & Hv & H)%bind_Ok. unfold not_in_group, ConsistencyGroupAdmin_IsVolumeInCG in Hv.
  apply bind_Ok in Hv as (b & w2 & Hb & [Hz <-]%require_Ok). rewrite GetContextDB_eq in Hb.
  apply bind_Ok in Hb as (n & w3 & (-> & Hd & _)%wrap_Ok%db_count_Ok & [<- <-]%ret_Ok).
  apply IH in H as [Hd' Hl]. rewrite Hd in *. split; [congruence|].
  intros y [->|Hy]%elem_of_cons; [|by apply Hl]. intros k x Hx.
  apply Z.eqb_neq. by apply (count_none _ _ Hz k).
Qed.

Lemma boot_rows id (t : table Volume.t) k :
  (if existsb (λ v, (Volume.ID v =? k) && Volume.Booting v)
        (g_find (λ v, Volume.InstanceID v =? id) t)
   then None else rows t !! k) =
  match rows t !! k with Some v => if boots id v then None else Some v | None => None end.
Proof.
  destruct (existsb _ _) eqn:Hx.
  - apply existsb_exists in Hx as (v & Hv & [Hk%Z.eqb_eq Hb]%andb_true_iff).
    apply list_elem_of_In, find_spec in Hv as [Hi Hr]. simpl in Hr. rewrite Hk in Hr.
    unfold boots. by rewrite Hr, Hi, Hb.
  - destruct (rows t !! k) as [v|] eqn:Hr; [|done]. unfold boots.
    destruct (Volume.InstanceID v =? id) eqn:Hi; [|done]. destruct (Volume.Booting v) eqn:Hb; [|done].
    exfalso. pose proof (rows_id _ _ _ Hr) as Hk. simpl in Hk.
    rewrite (proj2 (existsb_exists _ _)) in Hx; [done|]. exists v. split.
    + apply list_elem_of_In. by apply (find_lookup _ _ k).
    + by rewrite Hk, Z.eqb_refl, Hb.
Qed.

(** *** The request *)

(** A run of an operation that keeps a relation to where it starts. *)
Lemma kept_run {A} (Q : DB → DB → Prop) (m : M A) c w r w' :
  (∀ d, Q d d) → (∀ d, preserves (Q d) m) → m c w = (r, w') → Q (db w) (db w').
Proof. intros Hr Hm H. specialize (Hm (db w) c w (Hr _)). by rewrite H in Hm. Qed.

(** C3. A successful request to delete an instance comes from a writer of its organization
    and is not made while it migrates. Its row becomes deleting and no other instance
    changes; exactly its boot volumes are deleted; no floating IP refers to it any more;
    none of its volumes is in a consistency group; and the last request posted is clear_vm
    for its hypervisor, or for all when it has none. *)
Theorem instance_delete_spec inst c w u w' :
  let i := LoadedInstance.row inst in
  let id := Instance.ID i in
  0 < id → InstanceAdmin_Delete inst c w = (Ok u, w') →
  Instance.Status i ≠ InstanceStatusMigrating ∧
  ValidateOwner (caller c) Writer (Instance.Owner i) = true ∧
  rows (instances (db w')) =
    (λ r, if Instance.ID r =? id then instance_status InstanceStatusDeleting r else r)
      <$> rows (instances (db w)) ∧
  (∀ k, rows (volumes (db w')) !! k =
          match rows (volumes (db w)) !! k with
          | Some v => if boots id v then None else Some v
          | None => None
          end) ∧
  (∀ k f, rows (floating_ips (db w')) !! k = Some f → FloatingIp.InstanceID f ≠ id) ∧
  (∀ v k x, rows (volumes (db w)) !! Volume.ID v = Some v → Volume.InstanceID v = id →
     rows (cg_volumes (db w)) !! k = Some x → ConsistencyGroupVolume.VolumeID x ≠ Volume.ID v) ∧
  ∃ image more,
    last (sent w') = Some
      (if Instance.Hyper i =? -1 then "toall=" else inter (Instance.Hyper i),
       clear_vm_command i (from_option Volume_GetOriginVolumeID ""
         (last (List.filter Volume.Booting (g_find (λ v, Volume.InstanceID v =? id) (volumes (db w))))))
         image more) ∧
    (∀ x, Instance.Image i = Some x → image = Some x).
Proof.
  intros i id Hid. unfold InstanceAdmin_Delete. fold i.
  intros (_ & w0 & [Hst <-]%require_Ok & H%with_tx_Ok)%bind_Ok.
  apply bind_Ok in H as (m & ? & [<- <-]%GetMemberShip_Ok & (_ & ? & [Hp <-]%require_Ok & H)%bind_Ok).
  apply bind_Ok in H as ([more j] & w1 & Hrel & H).
  pose proof (release_but _ _ _ _ _ _ _ _ _ Hrel) as [Hj Himg].
  pose proof (kept_release (guest_tables (db w)) i (LoadedInstance.Interfaces inst)
    (LoadedInstance.Interfaces inst) None (c <| dbkey := true |>) w eq_refl) as HX.
  rewrite Hrel in HX. simpl in HX.
  assert (Instance.ID j = id) as Hjid by (by rewrite Hj).
  apply bind_Ok in H as (? & w2 & Hf & H). apply detach_fips_Ok in Hf as [HX2 HF]; [|lia].
  apply bind_Ok in H as (vols & w3 & (-> & Hd3 & _)%wrap_Ok%db_find_Ok & H).
  apply bind_Ok in H as (? & w4 & [Hd4 Hcg]%no_group_Ok & H).
  apply bind_Ok in H as (uuid & w5 & Hb & H).
  apply delete_boot_volumes_Ok in Hb as (Hd5 & _ & Hv5 & ->);
    [|intros v [_ Hv]%find_spec; apply (rows_pos _ _ _ Hv)].
  apply bind_Ok in H as (? & w6 & Hcl & H). apply (kept_run cleared) in Hcl as [HX6 HF6];
    [|done|intros; apply pres_try, cleared_cleanup].
  apply bind_Ok in H as (? & w7 & Hup%wrap_Ok & (Hd' & Hs & _)%HyperExecute_Ok).
  apply bind_Ok in Hup as (? & w8 & [Hd8 _]%db_update_Ok & Hre).
  apply (kept_run cleared) in Hre as [HX7 HF7]; [|done|intros; apply cleared_resave].
  assert (guest_tables (db w4) = guest_tables (db w) ∧ floating_ips (db w4) = floating_ips (db w2))
    as [HX4 HF4] by (rewrite Hd4, Hd3; split; congruence).
  assert (tbl (db w2) = volumes (db w)) as HV2.
  { simpl. rewrite HX in HX2. unfold guest_tables in HX2. congruence. }
  rewrite HV2, Hjid in *. unfold guest_tables in *. rewrite Hd8 in HX7, HF7. tables.
  assert (cg_volumes (db w3) = cg_volumes (db w)) as HQ by (rewrite Hd3; congruence).
  injection HX4 as HT4 HV4 _. injection HX6 as HT6 HV6 _. injection HX7 as HT7 HV7 _.
  rewrite Hd', HT7, HV7, HF7. simpl. rewrite HT6, HV6, HF6, Hd5. simpl. rewrite HT4, HF4.
  split_and!; [by intros ?%String.eqb_eq; simplify_eq; rewrite H in Hst|done| | | | |].
  - rewrite update_spec by done. apply map_fmap_ext. intros k r Hr. unfold by_pk.
    rewrite pk_nonzero by lia. by rewrite Z.eqb_sym.
  - intros k. rewrite Hv5, HV4. apply boot_rows.
  - intros k f Hf. by apply (HF k).
  - intros v k y Hv Hvi Hy. rewrite HQ in Hcg. eapply Hcg; [|done]. apply find_spec.
    split; [by apply Z.eqb_eq|done].
  - exists (Instance.Image j), more. rewrite Hs, last_snoc. split; [|done]. by rewrite Hj.
Qed.

End deletion.

(** ** The names of the monitoring system *)

Section domains.
Context {G : Gorm} {E : Env} {GOk : GormOk G}.
Implicit Types (c : Ctx) (w : World).

Lemma first_unique {R} {HR : Row R} {HRO : RowOk R} {HD : InDB R} (p : R → bool) (r : R) k c w :
  no_faults → rows (tbl (db w)) !! k = Some r → p r = true →
  (∀ j x, rows (tbl (db w)) !! j = Some x → p x = true → x = r) →
  ∃ w', db_first p c w = (Ok r, w') ∧ db w' = db w.
Proof.
  intros Hn Hr Hp Hu. unfold db_first, db_take_by, mbind, M_bind. rewrite stmt_runs by done. simpl.
  destruct (g_take_by _ _ _) as [x|] eqn:Hx.
  - apply take_by_some in Hx as [Hpx Hx]. rewrite (Hu _ _ Hx Hpx). by eexists.
  - eapply take_by_none in Hx; [|done]. congruence.
Qed.

Lemma prefix_of_app p s : String.prefix p (p +:+ s) = true.
Proof. induction p as [|a p IH]; simpl; [by destruct s|]. by destruct (ascii_dec a a). Qed.

Lemma TrimPrefix_app p s : TrimPrefix (p +:+ s) p = s.
Proof. unfold TrimPrefix. rewrite prefix_of_app. by induction p as [|a p IH]. Qed.

(** The domain name of an instance leads back to the instance: GetDomainByInstanceUUID
    gives inst-<id>, from which GetInstanceUUIDByDomain reads the UUID again. *)
Theorem domain_roundtrip i c w :
  no_faults → rows (instances (db w)) !! Instance.ID i = Some i → Instance.ID i < 2 ^ 63 →
  (∀ k r, rows (instances (db w)) !! k = Some r → Instance.UUID r = Instance.UUID i → r = i) →
  ∃ w1, GetDomainByInstanceUUID (Instance.UUID i) c w = (Ok ("inst-" +:+ fmt_d (Instance.ID i)), w1) ∧
    db w1 = db w ∧
    (GetInstanceUUIDByDomain ("inst-" +:+ fmt_d (Instance.ID i)) c w1).1 = Ok (Instance.UUID i).
Proof.
  intros Hn Hi Hb Hu. pose proof (rows_pos _ _ _ Hi) as Hpos.
  destruct (first_unique (HD := in_instances) (λ r, String.eqb (Instance.UUID r) (Instance.UUID i)) i _
    c w Hn Hi) as (w1 & H1 & Hd).
  { apply String.eqb_refl. }
  { intros j x Hx Hp%String.eqb_eq. by eapply Hu. }
  exists w1. split; [|split; [done|]].
  - unfold GetDomainByInstanceUUID, try, mbind, M_bind. by rewrite H1.
  - rewrite <- Hd in Hi. destruct (first_unique (HD := in_instances) (by_id (Instance.ID i)) i _
      c w1 Hn Hi) as (w2 & H2 & _).
    { apply Z.eqb_refl. }
    { intros j x Hx Hp%Z.eqb_eq. pose proof (rows_id _ _ _ Hx) as Hj. simpl in Hj, Hp, Hx.
      rewrite <- Hj, Hp in Hx. congruence. }
    unfold GetInstanceUUIDByDomain. rewrite TrimPrefix_app, prefix_of_app. cbn [negb].
    assert (Atoi (fmt_d (Instance.ID i)) = Some (Instance.ID i)) as ->.
    { unfold Atoi. apply ParseInt_fmt_d. unfold fits. lia. }
    rewrite (bind_run _ _ _ _ (inl i) w2) by (unfold try; by rewrite H2). done.
Qed.

End domains.

(** ** Rescue and size *)

Section rescue.
Context {G : Gorm} {E : Env} {GOk : GormOk G}.
Implicit Types (c : Ctx) (w : World).

Lemma restoring_reads I id : preserves I (InstanceAdmin_CheckVolumeIsRestoring id).
Proof.
  unfold InstanceAdmin_CheckVolumeIsRestoring, VolumeAdmin_GetVolumesByInstanceID, preload_instances. pres.
Qed.

Lemma rescue_image_reads I i o : preserves I (rescue_image i o).
Proof. unfold rescue_image, ImageAdmin_Get, read_image. pres. Qed.

Lemma nic_data_reads I more l dns : preserves I (nic_data more l dns).
Proof. revert dns. induction l as [|i l IH]; intros; simpl; pres. Qed.

Lemma GetMetadata_renames d inst pw : preserves (renames d) (InstanceAdmin_GetMetadata inst pw).
Proof.
  unfold InstanceAdmin_GetMetadata. pres;
    first [apply GetInstanceNetworks_renames|apply nic_data_reads|apply GetImageOSCode_reads].
Qed.

(** The rows of the other tables are those before the run. *)
Lemma renames_run {A} (m : M A) c w r w' :
  (∀ d, preserves (renames d) m) → m c w = (r, w') →
  db w' = db w <| interfaces := interfaces (db w') |>.
Proof.
  intros Hm H. specialize (Hm (db w) c w (renames_refl _)). rewrite H in Hm. by destruct Hm.
Qed.

Lemma kept_db {A} (m : M A) c w r w' : (∀ I, preserves I m) → m c w = (r, w') → db w' = db w.
Proof. intros Hm H. specialize (Hm (λ d, d = db w) c w eq_refl). by rewrite H in Hm. Qed.

Lemma nic_data_quiet more l dns : quiet (nic_data more l dns).
Proof. revert dns. induction l as [|x l IH]; intros; simpl; quiet_tac; apply IH. Qed.

Lemma networks_loop_quiet os n l more : quiet (networks_loop os n l more).
Proof.
  revert n more. induction l as [|x l IH]; intros; simpl; quiet_tac;
    first [apply interface_networks_quiet|apply IH].
Qed.

Lemma networks_quiet v il l : quiet (GetInstanceNetworks v il l).
Proof.
  unfold GetInstanceNetworks. quiet_tac;
    first [apply GetImageOSCode_quiet|apply networks_loop_quiet].
Qed.

Lemma GetMetadata_quiet inst pw : quiet (InstanceAdmin_GetMetadata inst pw).
Proof.
  unfold InstanceAdmin_GetMetadata. quiet_tac;
    first [apply networks_quiet|apply nic_data_quiet|apply GetImageOSCode_quiet].
Qed.

Lemma restoring_quiet id : quiet (InstanceAdmin_CheckVolumeIsRestoring id).
Proof.
  unfold InstanceAdmin_CheckVolumeIsRestoring, VolumeAdmin_GetVolumesByInstanceID, preload_instances.
  quiet_tac. generalize a. intros l. induction l; simpl; quiet_tac; done.
Qed.

Lemma rescue_image_quiet i o : quiet (rescue_image i o).
Proof. unfold rescue_image, ImageAdmin_Get, read_image. quiet_tac. Qed.

(** The image to boot from: the one of the request, or the one the image of the instance
    names. *)
Definition rescues_with (i : Instance.t) (o : option Image.t) d (rescue : Image.t) : Prop :=
  match o with
  | Some r => rescue = r
  | None => ∃ img, Instance.Image i = Some img ∧ 0 < Image.RescueImage img ∧
                   rows (images d) !! Image.RescueImage img = Some rescue
  end.

Lemma rescue_image_Ok i o c w r w' :
  rescue_image i o c w = (Ok r, w') → rescues_with i o (db w) r.
Proof.
  unfold rescue_image, ImageAdmin_Get, read_image. destruct o; [by intros [<- _]%ret_Ok|].
  intros (img & ? & [Himg <-]%deref_Ok & (_ & ? & [Hp%Z.ltb_lt <-]%require_Ok & H)%bind_Ok)%bind_Ok.
  exists img. split_and!; [done..|]. rewrite (proj2 (Z.leb_gt _ _)) in H by lia. go_ok. flat.
  match goal with Ht : g_take _ _ = Some _ |- _ => apply take_pk_row in Ht as [? _]; [done|lia] end.
Qed.

(** What the hypervisor is told to run. *)
Definition rescue_text (i : Instance.t) (img rescue : Image.t) (boot : Volume.t) (metadata : string)
    : string :=
  ("/opt/cloudland/scripts/backend/rescue_vm.sh " +:+ quoted_words
    [fmt_d (Instance.ID i);
     ("image-" +:+ fmt_d (Image.ID rescue) +:+ "-" +:+ hd "" (Split (Image.UUID rescue) "-"))
       +:+ "." +:+ Image.Format img;
     Instance.Hostname i; fmt_d (Instance.Cpu i); fmt_d (Instance.Memory i);
     fmt_d (Instance.Disk i); fmt_d (Volume.ID boot); Image.BootLoader rescue; Instance.UUID i]
   +:+ " ") +:+ "<<EOF" +:+ newline +:+ EncodeToString metadata +:+ newline +:+ "EOF".

Lemma rescue_Ok inst image pw c w u w' :
  let i := LoadedInstance.row inst in
  InstanceAdmin_Rescue inst image pw c w = (Ok u, w') →
  Instance.Status i ≠ "rescuing" ∧
  db w' = db w <| interfaces := interfaces (db w') |>
               <| instances := g_update (by_pk (Instance.ID i)) (instance_status "rescuing")
                                 (instances (db w)) |> ∧
  ∃ img rescue boot metadata,
    Instance.Image i = Some img ∧ rescues_with i image (db w) rescue ∧
    rows (volumes (db w)) !! Volume.ID boot = Some boot ∧
    Volume.InstanceID boot = Instance.ID i ∧ Volume.Booting boot = true ∧
    (∃ c0 w0 w0' j, db w0 = db w <| instances := g_update (by_pk (Instance.ID i))
                                      (instance_status "rescuing") (instances (db w)) |> ∧
       InstanceAdmin_GetMetadata (inst <| LoadedInstance.row := instance_status "rescuing" i |>) pw
         c0 w0 = (Ok (metadata, j), w0')) ∧
    sent w' = sent w ++ [(inter (Instance.Hyper i), rescue_command i img rescue boot metadata)].
Proof.
  intros i. unfold InstanceAdmin_Rescue. fold i. intros H%with_tx_Ok.
  apply bind_Ok in H as (_ & ? & [Hst <-]%require_Ok & H).
  apply bind_Ok in H as (? & w1 & H1 & H). pose proof (quiet_run _ _ _ _ _ (restoring_quiet _) H1) as S1.
  apply kept_db in H1; [|intros; apply restoring_reads].
  apply bind_Ok in H as (rescue & w2 & H2 & H). pose proof (quiet_run _ _ _ _ _ (rescue_image_quiet _ _) H2) as S2.
  pose proof (rescue_image_Ok _ _ _ _ _ _ H2) as Hr. apply kept_db in H2; [|intros; apply rescue_image_reads].
  apply bind_Ok in H as (? & w3 & [H3 S3]%wrap_Ok%db_update_Ok & H).
  apply bind_Ok in H as (boot & w4 & (Hb & H4 & S4)%wrap_Ok%db_take_Ok & H).
  apply bind_Ok in H as ([metadata j] & w5 & H5 & H).
  pose proof (quiet_run _ _ _ _ _ (GetMetadata_quiet _ _) H5) as S5. pose proof H5 as Hmd.
  apply renames_run in H5; [|intros; apply GetMetadata_renames].
  apply bind_Ok in H as (img & ? & [Himg <-]%deref_Ok & (H6 & Hs & _)%HyperExecute_Ok).
  rewrite H2, H1 in H3. split; [|split].
  - intros Heq. by rewrite Heq in Hst.
  - rewrite H6, H5, H4, H3. by destruct (db w).
  - apply take_some in Hb as [[Hbi%Z.eqb_eq Hbb]%andb_true_iff Hrow].
    exists img, rescue, boot, metadata. split_and!; try done.
    + by rewrite H1 in Hr.
    + revert Hrow. by rewrite H3.
    + do 4 eexists. split; [|exact Hmd]. by rewrite H4, H3.
    + by rewrite Hs, S5, S4, S3, S2, S1.
Qed.

Lemma end_rescue_Ok i c w u w' :
  InstanceAdmin_EndRescue i c w = (Ok u, w') →
  Instance.Status i = "rescuing" ∧
  db w' = db w <| instances := g_update (by_pk (Instance.ID i)) (instance_status "shut_off")
                                 (instances (db w)) |> ∧
  sent w' = sent w ++ [(inter (Instance.Hyper i), end_rescue_command i)].
Proof.
  unfold InstanceAdmin_EndRescue. intros H. go_ok. flat. split; [by apply String.eqb_eq|done].
Qed.

(** C22. Rescue and EndRescue of an instance: it was not rescuing before, it is in between,
    and it ends shut_off with every other column, all other instances and all tables but
    that of the interfaces, which GetMetadata may rename, as they were.  Each posts exactly
    one command, to the hypervisor of the instance: rescue_vm.sh with the columns of the
    instance, the rescue image (of the request, or the one its image names), its boot volume
    and the metadata GetMetadata builds for it, then end_rescue.sh with its number. *)
Theorem rescue_cycle inst image pw c w u w1 i2 c2 u2 w2 :
  let i := LoadedInstance.row inst in
  0 < Instance.ID i →
  InstanceAdmin_Rescue inst image pw c w = (Ok u, w1) →
  rows (instances (db w1)) !! Instance.ID i = Some i2 →
  InstanceAdmin_EndRescue i2 c2 w1 = (Ok u2, w2) →
  Instance.Status i ≠ "rescuing" ∧ Instance.Status i2 = "rescuing" ∧
  (∃ i0, rows (instances (db w)) !! Instance.ID i = Some i0 ∧ i2 = instance_status "rescuing" i0 ∧
     rows (instances (db w2)) =
       <[Instance.ID i := instance_status "shut_off" i0]> (rows (instances (db w)))) ∧
  db w2 = db w <| interfaces := interfaces (db w2) |> <| instances := instances (db w2) |> ∧
  ∃ img rescue boot metadata,
    Instance.Image i = Some img ∧ rescues_with i image (db w) rescue ∧
    rows (volumes (db w)) !! Volume.ID boot = Some boot ∧
    Volume.InstanceID boot = Instance.ID i ∧ Volume.Booting boot = true ∧
    (∃ c0 w0 w0' j, db w0 = db w <| instances := g_update (by_pk (Instance.ID i))
                                      (instance_status "rescuing") (instances (db w)) |> ∧
       InstanceAdmin_GetMetadata (inst <| LoadedInstance.row := instance_status "rescuing" i |>) pw
         c0 w0 = (Ok (metadata, j), w0')) ∧
    sent w2 = sent w ++
      [("inter=" +:+ fmt_d (Instance.Hyper i), rescue_text i img rescue boot metadata);
       ("inter=" +:+ fmt_d (Instance.Hyper i2),
        "/opt/cloudland/scripts/backend/end_rescue.sh '" +:+ fmt_d (Instance.ID i) +:+ "'")].
Proof.
  intros i Hid (Hst & Hd1 & img & rescue & boot & metadata & Hx)%rescue_Ok Hi2 H2.
  apply end_rescue_Ok in H2 as (Hst2 & Hd2 & Hs2). fold i in Hd1, Hst, Hx.
  assert (instances (db w1) = g_update (by_pk (Instance.ID i)) (instance_status "rescuing")
            (instances (db w))) as HT by (by rewrite Hd1).
  pose proof (rows_id _ _ _ Hi2) as Hid2. simpl in Hid2.
  split_and!; [done|done| |by rewrite Hd2, Hd1|].
  2: { exists img, rescue, boot, metadata. destruct Hx as (? & ? & ? & ? & ? & ? & Hs1).
       split_and!; try done. rewrite Hs2, Hs1, <- app_assoc. unfold end_rescue_command. by rewrite Hid2. }
  rewrite HT, update_lookup in Hi2 by done. apply fmap_Some in Hi2 as (i0 & Hi0 & Heq).
  pose proof (rows_id _ _ _ Hi0) as Hid0. simpl in Hid0. unfold by_pk in Heq.
  simpl in Heq. rewrite Hid0, pk_self in Heq. exists i0. split_and!; [done..|].
  rewrite Hd2. simpl. rewrite HT, Hid2.
  rewrite (update_pk _ _ _ (instance_status "rescuing" i0)); [|lia|done|].
  - rewrite (update_pk _ _ _ i0) by (done || lia). rewrite insert_insert_eq. by destruct i0.
  - rewrite (update_pk _ _ _ i0) by (done || lia). apply lookup_insert_eq.
Qed.

End rescue.

(** ** Creation *)

(** Statements on other tables keep an invariant on some. *)
Ltac keeps :=
  repeat (pres; try first [apply pres_db_create; done|apply pres_db_update; done
                          |apply pres_db_delete; done]).

Lemma pres_now {G : Gorm} {E : Env} I : preserves I now.
Proof. by intros c w Hw. Qed.

Lemma pres_clock_now {G : Gorm} I : preserves I clock_now.
Proof. by intros c w Hw. Qed.

#[export] Hint Resolve pres_now pres_clock_now : go.

Section creation_frames.
Context {G : Gorm} {E : Env} {C : Crypto} {GOk : GormOk G}.
Context (X : table Instance.t * table Volume.t * table ConsistencyGroupVolume.t).

Abbreviation kept := (preserves (guests_kept X)).

Lemma kept_GenerateMacaddr : kept GenerateMacaddr.
Proof. unfold GenerateMacaddr. intros c w Hw. by destruct (rand_read _) as [[[[]]]|]. Qed.

Lemma kept_AllocateAddress s i a ty : kept (AllocateAddress s i a ty).
Proof. unfold AllocateAddress. keeps. Qed.

Lemma kept_CreateInterface s i o h x y ip mac nm ty sgs sp :
  kept (CreateInterface s i o h x y ip mac nm ty sgs sp).
Proof.
  unfold CreateInterface. keeps; [apply kept_GenerateMacaddr|apply kept_AllocateAddress].
Qed.

Lemma kept_SecruleCreate n ip d p x y sg : kept (SecruleAdmin_Create n ip d p x y sg).
Proof.
  unfold SecruleAdmin_Create, SecruleAdmin_GetRule. keeps.
  apply kept_renames. intros. apply ApplySecgroup_renames.
Qed.

Lemma kept_AllowLoginPort p i : kept (SecgroupAdmin_AllowInstanceLoginPort p i).
Proof. unfold SecgroupAdmin_AllowInstanceLoginPort. keeps. apply kept_SecruleCreate. Qed.

Lemma kept_stand_in s i a : kept (stand_in s i a).
Proof. unfold stand_in, FloatingIpAdmin_createDummyFloatingIp. keeps. Qed.

Lemma kept_derive_loop i b u v n l p : kept (derive_loop i b u v n l p).
Proof. revert n p. induction l as [|f l IH]; intros; simpl; unfold derive_round; keeps. Qed.

Lemma kept_DerivePublic i o ips a b : kept (DerivePublicInterface i o ips a b).
Proof. unfold DerivePublicInterface. keeps; apply kept_derive_loop. Qed.

Lemma kept_first_interface check create i l o e :
  (∀ s, kept (check s)) → (∀ s, kept (create s)) → kept (first_interface check create i l o e).
Proof.
  intros Hc Hm. revert o e. induction l as [|s l IH]; intros; simpl; keeps; auto.
  apply kept_stand_in.
Qed.

Lemma kept_second_rounds i s n x y iface : kept (second_rounds i s n x y iface).
Proof.
  revert x iface. induction n as [|n IH]; intros; simpl; keeps;
    first [apply kept_AllocateAddress|apply kept_stand_in].
Qed.

Lemma kept_seconds i iface l n : kept (InterfaceAdmin_allocateSecondAddresses i iface l n).
Proof.
  unfold InterfaceAdmin_allocateSecondAddresses. generalize 0. revert iface.
  induction l as [|s l IH]; intros; simpl; keeps.
  apply kept_second_rounds.
Qed.

Lemma kept_createInterface info i nm : kept (InstanceAdmin_createInterface info i nm).
Proof.
  unfold InstanceAdmin_createInterface, public_interface, subnet_interface, replace_groups. keeps.
  all: first [apply kept_DerivePublic|apply kept_seconds|apply kept_first_interface; intros;
              unfold no_site, attempt_interface; keeps; apply kept_CreateInterface].
Qed.

Lemma kept_buildMetadata p l pw port ks i x y rel :
  kept (InstanceAdmin_buildMetadata p l pw port ks i x y rel).
Proof.
  unfold InstanceAdmin_buildMetadata, first_nic. keeps.
  all: try first [apply kept_createInterface|apply kept_AllowLoginPort|apply GetSecurityData_reads
    |apply GetImageOSCode_reads|apply kept_renames; intros; apply GetInstanceNetworks_renames].
  generalize 0%nat. induction l as [|info l IH]; intros; simpl; keeps.
  all: first [apply kept_createInterface|apply kept_AllowLoginPort|apply GetSecurityData_reads|apply IH].
Qed.

Lemma kept_password img s : kept (guest_password img s).
Proof.
  unfold guest_password. keeps. intros c w Hw. unfold Mkpasswd. by repeat case_match.
Qed.

End creation_frames.

(** The row of guest [i] of an order, and its boot volume. *)
Definition guest_of {G : Gorm} (m : MemberShip.t) (o : InstanceOrder) (i : nat) (d : DB)
    (inst : LoadedInstance.t) : Prop :=
  ∃ uuid row boot,
    row = set_id (LoadedInstance.ID inst)
            (col_defaults (before_create uuid (instance_model m o (hostname_of o i)))) ∧
    LoadedInstance.row inst = row <| Instance.Image := Some (no_image o) |> ∧
    rows (instances d) !! LoadedInstance.ID inst = Some row ∧
    rows (volumes d) !! Volume.ID boot = Some boot ∧
    Volume.InstanceID boot = LoadedInstance.ID inst ∧ Volume.Booting boot = true ∧
    Volume.Size boot = no_disk o.

Section creation.
Context {G : Gorm} {E : Env} {C : Crypto} {GOk : GormOk G}.
Implicit Types (c : Ctx) (w : World).

Lemma count_pools_reads I id l rel : preserves I (count_pools id l rel).
Proof. revert rel. induction l as [|[] l IH]; intros; simpl; pres. Qed.

Lemma snapshots_reads I id rel : preserves I (snapshots id rel).
Proof. unfold snapshots, range_pools. pres; [by intros c w Hw|apply count_pools_reads]. Qed.

(** A run that leaves the guests alone. *)
Lemma kept_guests {A} (m : M A) c w r w' :
  (∀ X, preserves (guests_kept X) m) → m c w = (r, w') → guest_tables (db w') = guest_tables (db w).
Proof. intros Hm H. specialize (Hm (guest_tables (db w)) c w eq_refl). by rewrite H in Hm. Qed.

Lemma boot_volume_Ok name size id x y c w v w' :
  VolumeAdmin_CreateVolume name size id true x 0 y 0 c w = (Ok v, w') →
  instances (db w') = instances (db w) ∧
  rows (volumes (db w')) = <[Volume.ID v := v]> (rows (volumes (db w))) ∧
  rows (volumes (db w)) !! Volume.ID v = None ∧
  Volume.InstanceID v = id ∧ Volume.Booting v = true ∧ Volume.Size v = size.
Proof.
  unfold VolumeAdmin_CreateVolume. intros H. go_ok. flat.
  match goal with H : g_create _ _ = _ |- _ => destruct (create_spec _ _ _ _ H) as (_ & Hf & Hv & Hr) end.
  split_and!; [done|done|done|by rewrite Hv..].
Qed.

(** One guest adds a row to the instances and one to the volumes. *)
Lemma create_guest_Ok m o g i rel c w inst cmd rel' w' :
  create_guest m o g i rel c w = (Ok (inst, cmd, rel'), w') →
  guest_of m o i (db w') inst ∧
  (∃ row, rows (instances (db w')) = <[LoadedInstance.ID inst := row]> (rows (instances (db w)))) ∧
  rows (instances (db w)) !! LoadedInstance.ID inst = None ∧
  rows (volumes (db w)) ⊆ rows (volumes (db w')).
Proof.
  unfold create_guest. intros (rel1 & w1 & H1 & H)%bind_Ok.
  apply kept_db in H1; [|intros; apply snapshots_reads].
  apply bind_Ok in H as (r & w2 & (t & Hc & Hd2 & _)%wrap_Ok%db_create_Ok & H).
  apply bind_Ok in H as (boot & w3 & Hb%boot_volume_Ok & H).
  apply bind_Ok in H as (pw & w4 & H4 & H). apply kept_guests in H4; [|intros; apply kept_password].
  apply bind_Ok in H as (? & w5 & H5 & H). assert (w5 = w4) as -> by (case_match; by go_ok).
  apply bind_Ok in H as ([ifaces metadata] & w6 & H6%wrap_Ok & [[= <- _ _] <-]%ret_Ok).
  apply kept_guests in H6; [|intros; apply kept_buildMetadata].
  rewrite H1 in Hc, Hd2. destruct (create_spec _ _ _ _ Hc) as (_ & Hfresh & Hr & Hrows).
  destruct Hb as (HT & HV & Hvf & Hvi & Hvb & Hvs). rewrite Hd2 in HT, HV, Hvf.
  simpl in HT, HV, Hvf.
  rewrite H6 in H4 || rewrite H4 in H6. unfold guest_tables in H6. injection H6 as HT6 HV6 _.
  set (inst := LoadedInstance.mk _ _ _ _ _ _ _).
  assert (LoadedInstance.ID inst = get_id r) as Hid by reflexivity.
  assert (Instance.Disk (r <| Instance.Image := Some (no_image o) |>) = no_disk o) as Hdisk
    by (rewrite Hr; reflexivity).
  rewrite Hid, HT6, HT, HV6, HV. split_and!.
  - exists (uuid_new (clock w1)), r, boot. rewrite Hid, HT6, HT, HV6, HV, Hrows, !lookup_insert_eq.
    rewrite Hdisk in Hvs. split; [exact Hr|]. split; [reflexivity|]. split; [reflexivity|].
    split; [reflexivity|]. split; [exact Hvi|]. split; [exact Hvb|exact Hvs].
  - by eexists.
  - done.
  - by apply insert_subseteq.
Qed.

Lemma guest_of_mono m o i d d' inst :
  rows (instances d) ⊆ rows (instances d') → rows (volumes d) ⊆ rows (volumes d') →
  guest_of m o i d inst → guest_of m o i d' inst.
Proof.
  intros HT HV (uuid & row & boot & Hrow & Hi & Hr & Hv & Hrest). exists uuid, row, boot.
  split_and!; try done; [by eapply lookup_weaken..|apply Hrest|apply Hrest|apply Hrest].
Qed.

Definition ids (l : list (LoadedInstance.t * (string * string))) : list Z :=
  map (λ x, LoadedInstance.ID x.1) l.

Lemma create_guests_Ok m o g i n rel c w l w' :
  create_guests m o g i n rel c w = (Ok l, w') →
  length l = n ∧ (∀ k x, l !! k = Some x → guest_of m o (i + k) (db w') x.1) ∧ NoDup (ids l) ∧
  rows (instances (db w)) ⊆ rows (instances (db w')) ∧
  rows (volumes (db w)) ⊆ rows (volumes (db w')) ∧
  (∀ j, j ∈ ids l → rows (instances (db w)) !! j = None) ∧
  (∀ j r, rows (instances (db w')) !! j = Some r → rows (instances (db w)) !! j = Some r ∨ j ∈ ids l).
Proof.
  revert i rel w l w'. induction n as [|n IH]; intros i rel w l w'; simpl.
  { intros [<- <-]%ret_Ok. split_and!; try done; [apply NoDup_nil_2| |by left].
    intros j Hj. by apply elem_of_nil in Hj. }
  intros ([[inst cmd] rel1] & w1 & (Hg & (row & Hrows) & Hfresh & HV)%create_guest_Ok & H)%bind_Ok.
  apply bind_Ok in H as (rest & w2 & (Hlen & Hl & Hnd & HT2 & HV2 & Hnew & Hback)%IH & [<- <-]%ret_Ok).
  assert (rows (instances (db w)) ⊆ rows (instances (db w1))) as HT
    by (rewrite Hrows; by apply insert_subseteq).
  split_and!.
  - simpl. by rewrite Hlen.
  - intros [|k] x; simpl; [intros [= <-]; rewrite Nat.add_0_r; by eapply guest_of_mono|].
    intros Hx%Hl. by rewrite Nat.add_succ_r.
  - simpl. apply NoDup_cons. split; [|done]. intros Hin%Hnew. rewrite Hrows, lookup_insert_eq in Hin.
    done.
  - by etrans.
  - by etrans.
  - intros j [->|Hj]%elem_of_cons; [done|]. apply Hnew in Hj.
    by eapply lookup_weaken_None.
  - intros j r [Hr|Hj]%Hback; [|right; by right]. rewrite Hrows in Hr.
    apply lookup_insert_Some in Hr as [[<- _]|[_ Hr]]; [right; left|by left].
Qed.

Lemma executeCommandList_reads I l : preserves I (executeCommandList l).
Proof. unfold executeCommandList. pres. Qed.

Lemma image_pools_reads I id pool : preserves I (image_pools id pool).
Proof.
  unfold image_pools, pool_names, DictionaryAdmin_GetDictionaryByUUID. pres.
  generalize (@nil (string * PoolRelationItem.t)).
  induction a as [|p l IH]; intros; simpl; pres.
Qed.

(** C2. A successful request for [count] instances: the image is available and fits the
    disk, a requested hypervisor exists in the zone, exactly [count] rows with distinct ids
    are added to the instances, each of them the requested one (its columns and a boot volume of the requested size), and
    every old row is as it was. *)
Theorem instance_create_spec o c w l w' :
  InstanceAdmin_Create o c w = (Ok l, w') →
  Image.Status (no_image o) = "available" ∧ image_too_big (no_image o) (no_disk o) = false ∧
  (0 ≤ no_hyperID o → ∃ k h, rows (hypers (db w)) !! k = Some h ∧ Hyper.Hostid h = no_hyperID o ∧
                             Hyper.ZoneID h = Zone.ID (no_zone o)) ∧
  length l = Z.to_nat (no_count o) ∧
  (∀ k inst, l !! k = Some inst → guest_of (caller c) o k (db w') inst) ∧
  NoDup (map LoadedInstance.ID l) ∧
  rows (instances (db w)) ⊆ rows (instances (db w')) ∧
  (∀ j r, rows (instances (db w')) !! j = Some r →
          rows (instances (db w)) !! j = Some r ∨ j ∈ map LoadedInstance.ID l).
Proof.
  unfold InstanceAdmin_Create. intros (_ & ? & [_ <-]%require_Ok & H%with_tx_Ok)%bind_Ok.
  apply bind_Ok in H as (m & ? & [<- <-]%GetMemberShip_Ok & H).
  apply bind_Ok in H as (_ & ? & [Hst <-]%require_Ok & (_ & ? & [Hbig <-]%require_Ok & H)%bind_Ok).
  apply bind_Ok in H as (? & w1 & Hh & (g & w2 & Hg & (rel & w3 & Hr & H)%bind_Ok)%bind_Ok).
  apply bind_Ok in H as (guests & w4 & Hc%create_guests_Ok & (? & w5 & He & [<- <-]%ret_Ok)%bind_Ok).
  apply kept_db in He; [|intros; apply executeCommandList_reads].
  apply kept_db in Hr; [|intros; apply image_pools_reads].
  apply kept_db in Hg; [|intros; unfold GetHyperGroup; pres].
  assert (db w1 = db w) as Hd1 by (eapply kept_db; [|done]; intros; unfold check_hyper; pres).
  rewrite Hr, Hg, Hd1 in Hc. rewrite He. destruct Hc as (Hlen & Hl & Hnd & HT & _ & _ & Hback).
  assert (ids guests = map LoadedInstance.ID (map fst guests)) as Hids by (by rewrite map_map).
  rewrite <- Hids. split_and!; try done.
  - by apply String.eqb_eq.
  - by apply negb_true_iff.
  - intros Hpos. unfold check_hyper in Hh. rewrite (proj2 (Z.leb_le _ _) Hpos) in Hh. go_ok.
    match goal with H : g_take _ _ = Some ?x |- _ =>
      apply take_some in H as [Hk%Z.eqb_eq Hx]; exists (get_id x), x end.
    split; [exact Hx|]. split; [exact Hk|]. by apply Z.eqb_eq.
  - by rewrite length_map.
  - intros k inst. rewrite list_lookup_fmap. intros (y & Hy & ->)%fmap_Some. by apply Hl in Hy.
Qed.

End creation.

(** ** Examples *)

Module InstanceAdminWitness.
Import Scenario ToyCrypto.

#[local] Existing Instance MemGorm.
#[local] Existing Instance MemGormOk.
#[local] Existing Instance env_local.

(** One hypervisor in zone 1; subnet 10 has two addresses left, subnet 11 none. *)
Definition image1 : Image.t :=
  Image.zero <| Image.ID := 1 |> <| Image.UUID := "i1-x" |> <| Image.Status := "available" |>
    <| Image.OSCode := "linux" |> <| Image.Format := "qcow2" |>.
Definition zone1 : Zone.t := Zone.zero <| Zone.ID := 1 |> <| Zone.Name := "zone" |>.
Definition hyper3 : Hyper.t :=
  Hyper.zero <| Hyper.ID := 1 |> <| Hyper.Hostid := 3 |> <| Hyper.ZoneID := 1 |>
    <| Hyper.Status := 1 |>.
Definition subnet10 : Subnet.t :=
  Subnet.zero <| Subnet.ID := 10 |> <| Subnet.Owner := 2 |> <| Subnet.Vlan := 5001 |>
    <| Subnet.Type_ := "internal" |> <| Subnet.Gateway := "10.0.0.1/24" |>.
Definition subnet11 : Subnet.t :=
  subnet10 <| Subnet.ID := 11 |> <| Subnet.Vlan := 5002 |>.
Definition address10 (k : Z) : Address.t :=
  Address.zero <| Address.ID := k |> <| Address.SubnetID := 10 |>
    <| Address.Address := "10.0.0." +:+ fmt_d k +:+ "/24" |>.

Definition lab_db : DB :=
  empty_db <| organizations := table_of [org2] |> <| images := table_of [image1] |>
    <| zones := table_of [zone1] |> <| hypers := table_of [hyper3] |>
    <| subnets := table_of [subnet10; subnet11] |>
    <| addresses := table_of [address10 2; address10 3] |>.
Definition lab : World := mkWorld lab_db [] 0.

Definition nic (s : Subnet.t) : InterfaceInfo.t :=
  InterfaceInfo.zero <| InterfaceInfo.Subnets := [s] |> <| InterfaceInfo.Count := 1 |>.

Definition order (seconds : list InterfaceInfo.t) : InstanceOrder :=
  mkInstanceOrder 1 "web" "" "" "" "" image1 zone1 0 (nic subnet10) seconds [] "" 0 (-1) 2 4096 20
    0 0 false "".

Lemma instance_create_spec_witness : ∃ l w',
  InstanceAdmin_Create (order []) writer lab = (Ok l, w') ∧ length l = 1%nat ∧
  ∀ k inst, l !! k = Some inst → guest_of (caller writer) (order []) k (db w') inst.
Proof.
  run_ok (InstanceAdmin_Create (order []) writer lab) l w' H. exists l, w'. split; [exact H|].
  destruct (instance_create_spec (order []) writer lab l w' H) as (_ & _ & _ & Hn & Hg & _).
  split; [exact Hn|exact Hg].
Defined.

(** A request whose second network interface finds no free address panics, because the
    message that is logged reads the name of the subnet, which is nil: the instance, its boot volume and its first
    address are written by then, the deferred EndTransaction commits them, and no launch
    command is posted. *)
Theorem second_nic_panics :
  let r := InstanceAdmin_Create (order [nic subnet11]) writer lab in
  r.1 = Panic ∧ sent r.2 = [] ∧
  map Instance.Status (g_find (λ _, true) (instances (db r.2))) = [InstanceStatusPending] ∧
  map Volume.Booting (g_find (λ _, true) (volumes (db r.2))) = [true] ∧
  existsb Address.Allocated (g_find (λ _, true) (addresses (db r.2))) = true.
Proof. by vm_compute. Qed.

(** Instance 5 of organization 2 with its boot volume, on hypervisor 3. *)
Definition image_of5 : Instance.t := instance5 <| Instance.Image := Some image1 |>.
Definition loaded5 : LoadedInstance.t := LoadedInstance.mk image_of5 [] [volume9] [] None None None.

Lemma instance_delete_spec_witness : ∃ u w',
  InstanceAdmin_Delete loaded5 writer world = (Ok u, w') ∧
  (∀ k f, rows (floating_ips (db w')) !! k = Some f → FloatingIp.InstanceID f ≠ 5) ∧
  rows (volumes (db w')) !! 9 = None ∧ rows (volumes (db w')) !! 8 = Some volume8.
Proof.
  run_ok (InstanceAdmin_Delete loaded5 writer world) u w' H. exists u, w'. split; [exact H|].
  destruct (instance_delete_spec loaded5 writer world u w' eq_refl H)
    as (_ & _ & _ & Hv & Hf & _).
  split; [exact Hf|]. rewrite !Hv. by vm_compute.
Defined.

Lemma local_no_faults : no_faults.
Proof. done. Qed.

Lemma domain_roundtrip_witness : ∃ w1,
  GetDomainByInstanceUUID "" background world = (Ok "inst-5", w1) ∧
  (GetInstanceUUIDByDomain "inst-5" background w1).1 = Ok "".
Proof.
  destruct (domain_roundtrip instance5 background world local_no_faults) as (w1 & H1 & _ & H2).
  - by vm_compute.
  - by vm_compute.
  - intros k r [Hr _]%BalancerWitness.listed _. by apply list_elem_of_singleton in Hr.
  - exists w1. split; [exact H1|exact H2].
Defined.

Lemma rescue_cycle_witness : ∃ u w1 i2 u2 w2,
  InstanceAdmin_Rescue loaded5 (Some image1) "" writer world = (Ok u, w1) ∧
  InstanceAdmin_EndRescue i2 writer w1 = (Ok u2, w2) ∧ Instance.Status i2 = "rescuing".
Proof.
  run_ok (InstanceAdmin_Rescue loaded5 (Some image1) "" writer world) u w1 H.
  assert (w1 = (InstanceAdmin_Rescue loaded5 (Some image1) "" writer world).2) as Hw by (by rewrite H).
  pose (i2 := instance_status "rescuing" instance5).
  assert (rows (instances (db w1)) !! 5 = Some i2) as Hi2 by (rewrite Hw; by vm_compute).
  destruct (run_Ok (InstanceAdmin_EndRescue i2 writer w1)) as (u2 & w2 & H2).
  { rewrite Hw. by vm_compute. }
  exists u, w1, i2, u2, w2. split; [exact H|]. split; [exact H2|].
  destruct (rescue_cycle loaded5 (Some image1) "" writer world u w1 i2 writer u2 w2 eq_refl H Hi2 H2)
    as (_ & Hs & _). exact Hs.
Defined.

End InstanceAdminWitness.
