(* ===== verification/MigrationAdmin.v ===== *)
(** * MigrationAdmin: the requests on migrations (routes/migration.go) *)

From S2P Require Import Prelude GoLib ErrorCodes Gorm Model Store Member Catalog Volume Admin Secgroup NetInfo Hyper InstanceRpc Balancer NicAdmin ImageAdmin InstanceAdmin IpGroup InstanceSystem Scenario BalancerConf.

(** A migration with its instance and its phases. *)
Module LoadedMigration.
Record LoadedMigration_t := mk {
  row : Migration.t;
  Instance : option Instance.t;
  Phases : list Task.t
}.
Abbreviation t := LoadedMigration_t.
#[global] Instance eta_t : Eta t := λ r, mk (row r) (Instance r) (Phases r).
Definition bare (r : Migration.t) : t := mk r None [].
End LoadedMigration.

Definition HyperStatusDown : Z := 10.

(** The guests that can be moved. *)
Definition can_migrate (i : Instance.t) : bool :=
  String.eqb (Instance.Status i) InstanceStatusShutoff
  || String.eqb (Instance.Status i) InstanceStatusRunning
  || String.eqb (Instance.Status i) InstanceStatusPaused.

Definition migration_type (source : Hyper.t) (force : bool) : string :=
  if negb (Hyper.Status source =? HyperStatusDown) && negb force then "warm" else "cold".

Definition prepare_task : Task.t :=
  Task.zero <| Task.Name := "Prepare_Target" |>
    <| Task.Summary := "Prepare resources on target hypervisor" |> <| Task.Status := "in_progress" |>.

Definition migration_model (m : MemberShip.t) (name : string) (i : Instance.t) (kind : string)
    (force : bool) (tgtHyper : Z) : Migration.t :=
  Migration.zero <| Migration.Creater := MemberShip.UserID m |> <| Migration.Name := name |>
    <| Migration.InstanceID := Instance.ID i |> <| Migration.Type_ := kind |>
    <| Migration.Force := force |> <| Migration.SourceHyper := Instance.Hyper i |>
    <| Migration.TargetHyper := tgtHyper |> <| Migration.Status := "in_progress" |>.

(** The sizes of the flavor, when the instance has one. *)
Definition sizes (inst : LoadedInstance.t) : Z * Z * Z :=
  match LoadedInstance.Flavor inst with
  | Some f => (Flavor.Cpu f, Flavor.Memory f, Flavor.Disk f)
  | None => let i := LoadedInstance.row inst in (Instance.Cpu i, Instance.Memory i, Instance.Disk i)
  end.

Definition target_migration_command (migration : Migration.t) (task : Task.t)
    (inst : LoadedInstance.t) (source : Hyper.t) (kind poolID metadata : string) : string :=
  let i := LoadedInstance.row inst in
  let '(cpu, memory, disk) := sizes inst in
  with_metadata
    (backend_script "target_migration.sh"
       [fmt_d (Migration.ID migration); fmt_d (Task.ID task); fmt_d (Instance.ID i);
        Instance.Hostname i; fmt_d cpu; fmt_d memory; fmt_d disk; Hyper.Hostname source; kind;
        from_option Image.BootLoader "bios" (Instance.Image i); poolID; Instance.UUID i]) metadata.

Section requests.
Context {G : Gorm} {E : Env}.

(** The hypervisor of an instance: the condition is empty when its number is 0. *)
Definition source_hyper (i : Instance.t) : M Hyper.t :=
  wrap ErrHypervisorNotFound "Failed to query source hypervisor"
    (db_take (λ h, (Instance.Hyper i =? 0) || (Hyper.Hostid h =? Instance.Hyper i))).

(** The phase is saved with the migration. *)
Definition create_migration (r : Migration.t) : M (Migration.t * Task.t) :=
  wrap ErrMigrationCreateFailed "DB create migration failed" (
    r ← db_create r;
    let task := prepare_task <| Task.Mission := Migration.ID r |> in
    task ← (if gorm_autosave then db_create task else mret task);
    mret (r, task)).

(** The control of the command, or nothing when no hypervisor qualifies. *)
Definition migration_control (i : Instance.t) (tgtHyper : Z) : M (option string) :=
  if tgtHyper =? -1 then
    r ← try (GetHyperGroup (Instance.ZoneID i) (Instance.Hyper i));
    mret match r with
         | inl group => Some ("select=" +:+ group +:+ " " +:+ rc_needed i)
         | inr _ => None
         end
  else mret (Some (inter tgtHyper)).

(** One guest: nothing when it is left alone. *)
Definition migrate_instance (m : MemberShip.t) (name : string) (force : bool) (tgtHyper : Z)
    (inst : LoadedInstance.t) : M (option LoadedMigration.t) :=
  let i := LoadedInstance.row inst in
  if negb (can_migrate i) then mret None
  else
    source ← source_hyper i;
    let kind := migration_type source force in
    if Instance.Hyper i =? tgtHyper then mret None
    else
      '(migration, task) ← create_migration (migration_model m name i kind force tgtHyper);
      '(metadata, i) ← InstanceAdmin_GetMetadata inst "";
      let inst := inst <| LoadedInstance.row := i |> in
      bootVolume ← match boot_volume (LoadedInstance.Volumes inst) with
                   | Some v => mret v | None => fail no_boot_volume end;
      control ← migration_control i tgtHyper;
      match control with
      | None =>
          _ ← wrap ErrMigrationUpdateFailed "Failed to update migration"
                (db_update (by_id (Migration.ID migration))
                   (λ r, r <| Migration.Status := "not_doing" |>));
          mret None
      | Some control =>
          _ ← wrap ErrInstanceUpdateFailed "Failed to update instance status"
                (db_update (by_pk (Instance.ID i)) (instance_status InstanceStatusMigrating));
          _ ← HyperExecute control
                (target_migration_command migration task inst source kind
                   (Volume_GetVolumePoolID bootVolume) metadata);
          mret (Some (LoadedMigration.mk migration
                        (Some (instance_status InstanceStatusMigrating i)) [task]))
      end.

Fixpoint migrate_instances (m : MemberShip.t) (name : string) (force : bool) (tgtHyper : Z)
    (instances : list LoadedInstance.t) : M (list LoadedMigration.t) :=
  match instances with
  | [] => mret []
  | inst :: instances =>
      r ← migrate_instance m name force tgtHyper inst;
      rest ← migrate_instances m name force tgtHyper instances;
      mret match r with Some x => x :: rest | None => rest end
  end.

Definition check_target (tgtHyper : Z) : M unit :=
  if -1 <? tgtHyper then
    target ← wrap ErrHypervisorNotFound "Failed to find target hypervisor"
               (db_take (λ h, Hyper.Hostid h =? tgtHyper));
    require (negb (Hyper.Status target =? HyperStatusDown))
      (NewCLError ErrHypervisorInvalidState "Target hypervisor is in wrong state" None)
  else mret tt.

Definition MigrationAdmin_Create (name : string) (instances : list LoadedInstance.t) (force : bool)
    (tgtHyper : Z) : M (list LoadedMigration.t) :=
  m ← GetMemberShip;
  _ ← require (CheckPermission m Model.Admin)
        (NewCLError ErrPermissionDenied "Not authorized for this operation" None);
  with_tx (
    _ ← check_target tgtHyper;
    migrate_instances m name force tgtHyper instances).

(** ** Reading *)

(** [Preload] of Instance and Phases. *)
Definition load_migrations (l : list Migration.t) : M (list LoadedMigration.t) :=
  match l with
  | [] => mret []
  | _ =>
      insts ← preload_many (map Migration.InstanceID l);
      phases ← db_find (λ t, existsb (λ m, Task.Mission t =? Migration.ID m) l);
      mret (map (λ m, LoadedMigration.mk m (pick (Migration.InstanceID m) insts)
                        (List.filter (λ t, Task.Mission t =? Migration.ID m) phases)) l)
  end.

Definition read_migration (m : M LoadedMigration.t) : M LoadedMigration.t :=
  GetContextDB (
    migration ← wrap ErrMigrationNotFound "Failed to find migration" m;
    m ← GetMemberShip;
    _ ← require (CheckPermission m Model.Admin)
          (NewCLError ErrPermissionDenied "Not authorized to get migration" None);
    mret migration).

Definition MigrationAdmin_GetMigrationByUUID (uuID : string) : M LoadedMigration.t :=
  read_migration (
    r ← db_take (λ r, String.eqb (Migration.UUID r) uuID);
    l ← load_migrations [r];
    deref (head l)).

Definition MigrationAdmin_GetMigrationByName (name : string) : M LoadedMigration.t :=
  read_migration (r ← db_take (λ r, String.eqb (Migration.Name r) name); mret (LoadedMigration.bare r)).

Definition MigrationAdmin_Get (id : Z) : M LoadedMigration.t :=
  if id <=? 0 then fail (GoError ("Invalid migration ID: " +:+ fmt_d id))
  else read_migration (r ← db_get id; mret (LoadedMigration.bare r)).

Definition MigrationAdmin_GetMigration : option BaseReference.t → M LoadedMigration.t :=
  reference_or (GoError "Migration base reference must be provided with either uuid or name")
    MigrationAdmin_GetMigrationByUUID MigrationAdmin_GetMigrationByName.

Definition MigrationAdmin_List (offset limit : Z) (order query : string)
    : M (Z * list LoadedMigration.t) :=
  GetContextDB (
    let p r := name_like query (Migration.Name r) in
    total ← wrap ErrSQLSyntaxError "Failed to count migrations" (db_count p);
    l ← wrap ErrSQLSyntaxError "Failed to query migrations" (
          rows ← db_page (page_order_of order) offset (page_limit_of limit) p;
          load_migrations rows);
    mret (total, l)).

End requests.

(** ** What a request achieves *)

Section laws.
Context {G : Gorm} {E : Env} {GOk : GormOk G}.
Implicit Types (c : Ctx) (w : World).

(** The rows of a migration that has begun: its phase names it. *)
Definition begun (i : Instance.t) (tgtHyper : Z) (mig : Migration.t) (task : Task.t) : Prop :=
  Migration.InstanceID mig = Instance.ID i ∧ Migration.SourceHyper mig = Instance.Hyper i ∧
  Migration.TargetHyper mig = tgtHyper ∧ Migration.Status mig = "in_progress" ∧
  Task.Mission task = Migration.ID mig ∧ Task.Name task = "Prepare_Target" ∧
  Task.Status task = "in_progress".

Lemma create_migration_Ok m name i kind force tgt c w mig task w' :
  gorm_autosave = true →
  create_migration (migration_model m name i kind force tgt) c w = (Ok (mig, task), w') →
  begun i tgt mig task ∧ sent w' = sent w ∧
  rows (migrations (db w')) = <[Migration.ID mig := mig]> (rows (migrations (db w))) ∧
  rows (tasks (db w')) = <[Task.ID task := task]> (rows (tasks (db w))) ∧
  db w' = db w <| migrations := migrations (db w') |> <| tasks := tasks (db w') |>.
Proof.
  intros Hs. unfold create_migration. rewrite Hs. intros H. go_ok. flat. simpl in *.
  match goal with H : g_create _ (migrations _) = _ |- _ =>
    destruct (create_spec _ _ _ _ H) as (_ & _ & Hm & Hrm) end.
  match goal with H : g_create _ (tasks _) = _ |- _ =>
    destruct (create_spec _ _ _ _ H) as (_ & _ & Ht & Hrt) end.
  split_and!; [|congruence|done..]. unfold begun. by rewrite Hm, Ht.
Qed.

(** No hypervisor of the zone qualifies. *)
Definition unqualified (i : Instance.t) (d : DB) : Prop :=
  ∀ k h, rows (hypers d) !! k = Some h → qualified (Instance.ZoneID i) (Instance.Hyper i) h = false.

Lemma migration_control_Ok i tgt c w o w' :
  no_faults → migration_control i tgt c w = (Ok o, w') →
  db w' = db w ∧ sent w' = sent w ∧
  match o with
  | Some control => tgt ≠ -1 → control = inter tgt
  | None => tgt = -1 ∧ unqualified i (db w)
  end.
Proof.
  intros Hn. unfold migration_control. destruct (Z.eqb_spec tgt (-1)) as [->|Ht].
  - intros (r & w1 & Hr%try_Ok & [<- <-]%ret_Ok)%bind_Ok. unfold GetHyperGroup in Hr.
    destruct r as [g|e]; rewrite GetContextDB_eq in Hr.
    + assert (db w1 = db w ∧ sent w1 = sent w) as [Hd Hs] by (go_ok; case_match; by go_ok).
      by split_and!.
    + apply bind_Err in Hr as [Hr|(l & w2 & (-> & Hd & Hs)%wrap_Ok%db_find_Ok & Hr)].
      { apply wrap_Err in Hr as (? & _ & Hr). by apply (ne_stmt Hn) in Hr. }
      destruct (g_find _ _) eqn:Hf; [|by apply ret_Err in Hr].
      apply fail_Err in Hr as [_ <-]. split_and!; [done..|]. exact (proj1 (find_nil _ _) Hf).
  - intros [<- <-]%ret_Ok. done.
Qed.

Lemma source_hyper_Ok i c w h w' :
  source_hyper i c w = (Ok h, w') → db w' = db w ∧ sent w' = sent w.
Proof. unfold source_hyper. intros H. by go_ok. Qed.

Lemma GetMetadata_Ok inst pw c w s j w' :
  InstanceAdmin_GetMetadata inst pw c w = (Ok (s, j), w') →
  sent w' = sent w ∧ but_image (LoadedInstance.row inst) j.
Proof.
  unfold InstanceAdmin_GetMetadata.
  intros ([[[nets more] ifs'] k] & w1 & H1 & H)%bind_Ok.
  apply bind_Ok in H as ([[dns vlans] links] & w2 & H2 & H).
  apply bind_Ok in H as ([os k'] & w3 & H3 & [[= _ <-] <-]%ret_Ok). split.
  - pose proof (networks_quiet (LoadedInstance.row inst) (LoadedInstance.Interfaces inst) [] c w) as Q1.
    rewrite H1 in Q1. pose proof (nic_data_quiet more ifs' "" c w1) as Q2. rewrite H2 in Q2.
    pose proof (GetImageOSCode_quiet k c w2) as Q3. rewrite H3 in Q3. simpl in *. congruence.
  - apply GetInstanceNetworks_but in H1. apply GetImageOSCode_but in H3. by eapply but_image_trans.
Qed.

(** C4. What a migration request does to one instance. An instance that is not running, shut off or paused, or is already on the target, is skipped without a trace. Otherwise a migration
    with one task is recorded; if no target was named and no hypervisor qualifies, the
    migration becomes not_doing while its task stays in progress, and the instance is
    untouched; if not, the instance becomes migrating and exactly one command is posted, to
    the target when one is named. *)
Theorem migrate_outcomes m name force tgt inst c w r w' :
  let i := LoadedInstance.row inst in
  no_faults → gorm_autosave = true → 0 < Instance.ID i →
  migrate_instance m name force tgt inst c w = (Ok r, w') →
  ((can_migrate i = false ∨ Instance.Hyper i = tgt) ∧ r = None ∧ db w' = db w ∧ sent w' = sent w) ∨
  (can_migrate i = true ∧ Instance.Hyper i ≠ tgt ∧ ∃ mig task,
     begun i tgt mig task ∧
     rows (tasks (db w')) = <[Task.ID task := task]> (rows (tasks (db w))) ∧
     match r with
     | None =>
         tgt = -1 ∧ unqualified i (db w) ∧ instances (db w') = instances (db w) ∧
         sent w' = sent w ∧
         rows (migrations (db w')) =
           <[Migration.ID mig := mig <| Migration.Status := "not_doing" |>]>
             (rows (migrations (db w)))
     | Some x =>
         LoadedMigration.row x = mig ∧ LoadedMigration.Phases x = [task] ∧
         rows (migrations (db w')) = <[Migration.ID mig := mig]> (rows (migrations (db w))) ∧
         rows (instances (db w')) =
           (λ k, if Instance.ID k =? Instance.ID i then instance_status InstanceStatusMigrating k
                 else k) <$> rows (instances (db w)) ∧
         ∃ control command, sent w' = sent w ++ [(control, command)] ∧
                            (tgt ≠ -1 → control = inter tgt)
     end).
Proof.
  intros i Hn Ha Hid. unfold migrate_instance. fold i.
  destruct (can_migrate i) eqn:Hc; simpl; [|intros [<- <-]%ret_Ok; left; by auto].
  intros (source & w1 & [Hd1 Hs1]%source_hyper_Ok & H)%bind_Ok.
  destruct (Z.eqb_spec (Instance.Hyper i) tgt) as [Ht|Ht].
  { apply ret_Ok in H as [<- <-]. left. by auto. }
  right. split; [done|]. split; [done|].
  apply bind_Ok in H as ([mig task] & w2 & Hm & H).
  apply create_migration_Ok in Hm as (Hb & Hs2 & Hrm & Hrt & Hd2); [|done].
  exists mig, task. split; [done|].
  apply bind_Ok in H as ([metadata j] & w3 & Hmd & H).
  pose proof (renames_run _ _ _ _ _ (λ d, GetMetadata_renames d inst "") Hmd) as Hd3.
  apply GetMetadata_Ok in Hmd as [Hs3 [Hj _]]. fold i in Hj.
  apply bind_Ok in H as (boot & wb & Hboot & (o & w4 & Ho & H)%bind_Ok).
  assert (wb = w3) as -> by (clear -Hboot; destruct (boot_volume _); by go_ok).
  assert (Instance.ID j = Instance.ID i ∧ unqualified j = unqualified i) as [Hji Hju]
    by (by rewrite Hj).
  apply migration_control_Ok in Ho as (Hd4 & Hs4 & Ho); [|done].
  assert (hypers (db w3) = hypers (db w)) as Hh by (by rewrite Hd3, Hd2, Hd1).
  destruct o as [control|].
  - apply bind_Ok in H as (? & w5 & [Hd5 Hs5]%wrap_Ok%db_update_Ok & H).
    apply bind_Ok in H as (? & w6 & (Hd6 & Hs6 & _)%HyperExecute_Ok & [<- <-]%ret_Ok).
    rewrite Hd6, Hd5, Hd4, Hd3. simpl. rewrite Hrt, Hrm, Hd2, Hd1. simpl.
    split_and!; try done.
    + rewrite update_spec by done. apply map_fmap_ext. intros k y _. unfold by_pk.
      rewrite Hji, pk_nonzero by lia. by rewrite Z.eqb_sym.
    + eexists _, _. split; [|exact Ho]. rewrite Hs6, Hs5, Hs4, Hs3, Hs2, Hs1. reflexivity.
  - destruct Ho as [Htgt Hu].
    apply bind_Ok in H as (? & w5 & [Hd5 Hs5]%wrap_Ok%db_update_Ok & [<- <-]%ret_Ok).
    rewrite Hd5, Hd4, Hd3. simpl. rewrite Hrt, Hd1. split_and!; try done.
    + rewrite Hju in Hu. unfold unqualified in *. by rewrite <- Hh.
    + by rewrite Hd2, Hd1.
    + congruence.
    + rewrite (update_key _ _ _ mig); [|done|by rewrite Hrm, lookup_insert_eq].
      by rewrite Hrm, insert_insert_eq, Hd1.
Qed.

End laws.

(** ** Examples *)

Module MigrationWitness.
Import Scenario InstanceAdminWitness.

#[local] Existing Instance MemGorm.
#[local] Existing Instance MemGormOk.
#[local] Existing Instance env_local.

(** Instance 5 runs on hypervisor 3, the only one of its zone. *)
Definition guest5 : LoadedInstance.t :=
  loaded5 <| LoadedInstance.row := image_of5 <| Instance.ZoneID := 1 |> |>.
Definition site_world : World := mkWorld (cloud <| hypers := table_of [hyper3] |>) [] 0.
Definition root : Ctx := mkCtx (Some (MemberShip.mk 1 "admin" 1 "admin" 4)) false None None.

Lemma migrate_outcomes_witness : ∃ w' mig task,
  migrate_instance (caller root) "move" false (-1) guest5 root site_world = (Ok None, w') ∧
  begun (LoadedInstance.row guest5) (-1) mig task ∧
  rows (migrations (db w')) =
    <[Migration.ID mig := mig <| Migration.Status := "not_doing" |>]> (rows (migrations cloud)).
Proof.
  run_ok (migrate_instance (caller root) "move" false (-1) guest5 root site_world) r w' H.
  assert (r = result_of None id
    (migrate_instance (caller root) "move" false (-1) guest5 root site_world)) as Hr by (by rewrite H).
  vm_compute in Hr. subst r.
  destruct (migrate_outcomes (caller root) "move" false (-1) guest5 root site_world None w'
    local_no_faults eq_refl eq_refl H) as [([Hc|Hc] & _)|(_ & _ & mig & task & Hb & _ & _ & _ & _ & _ & Hm)].
  - discriminate Hc.
  - discriminate Hc.
  - exists w', mig, task. split; [exact H|]. split; [exact Hb|exact Hm].
Defined.

End MigrationWitness.
