(* ===== verification/ImageLife.v ===== *)
(** * ImageLife: what the requests on images achieve *)

From S2P Require Import Prelude GoLib ErrorCodes Gorm Model Store Member Catalog Volume Admin InstanceRpc Balancer ImageAdmin InstanceSystem Scenario BalancerConf.

Section deletion.
Context {G : Gorm} {E : Env} {GOk : GormOk G}.
Implicit Types (c : Ctx) (w : World).

(** The storages of an image, in the order they are listed. *)
Definition storages_of (image : Image.t) (d : DB) : list ImageStorage.t :=
  g_page (page_order_of "") 0 (-1) (of_image (Image.ID image) "") (image_storages d).

Definition synced_copy (s : ImageStorage.t) : bool := String.eqb (ImageStorage.Status s) StorageStatusSynced.

(** What the hypervisors are told. *)
Definition clear_commands (image : Image.t) (d : DB) : list (string * string) :=
  if String.eqb (Image.Status image) "available" then
    match g_find (of_image (Image.ID image) "") (image_storages d) with
    | [] => [("inter=0", clear_bare_image_command image)]
    | _ => map (λ s, ("inter=0", clear_image_command image (ImageStorage.VolumeID s)))
             (List.filter synced_copy (storages_of image d))
    end
  else [].

Lemma clear_loop image l c w u w' :
  for_each l (λ s, if String.eqb (ImageStorage.Status s) StorageStatusSynced then
                     HyperExecute "inter=0" (clear_image_command image (ImageStorage.VolumeID s))
                   else mret tt) c w = (Ok u, w') →
  db w' = db w ∧
  sent w' = sent w ++ map (λ s, ("inter=0", clear_image_command image (ImageStorage.VolumeID s)))
                        (List.filter synced_copy l).
Proof.
  revert w. induction l as [|s l IH]; intros w; simpl.
  { intros [_ <-]%ret_Ok. by rewrite app_nil_r. }
  intros (? & w1 & [Hd1 Hs1]%HyperExecute_if_Ok & [Hd Hs]%IH)%bind_Ok.
  split; [congruence|]. rewrite Hs, Hs1. unfold synced_copy.
  destruct (String.eqb _ _); simpl; by rewrite <- app_assoc.
Qed.

(** The commands in terms of the rows: of an image that is available, one per synced copy,
    in some order, or, without any storage, the one for the bare image, which opens a quote
    after its three words that it does not close. *)
Definition clear_words (image : Image.t) : string :=
  "/opt/cloudland/scripts/backend/clear_image.sh " +:+ quoted_words
    [fmt_d (Image.ID image); hd "" (Split (Image.UUID image) "-"); Image.Format image].

Definition clears (image : Image.t) (d : DB) (posts : list (string * string)) : Prop :=
  let mine s := ImageStorage.ImageID s = Image.ID image in
  let stored k s := rows (image_storages d) !! k = Some s in
  (Image.Status image ≠ "available" ∧ posts = []) ∨
  (Image.Status image = "available" ∧ (∀ k s, stored k s → ¬ mine s) ∧
   posts = [("inter=0", clear_words image +:+ " '")]) ∨
  (Image.Status image = "available" ∧ (∃ k s, stored k s ∧ mine s) ∧
   ∃ l, NoDup l ∧
     (∀ s, s ∈ l ↔ stored (ImageStorage.ID s) s ∧ mine s ∧ ImageStorage.Status s = "synced") ∧
     posts = map (λ s, ("inter=0",
       "/opt/cloudland/scripts/backend/clear_image.sh " +:+ quoted_words
         [fmt_d (Image.ID image); hd "" (Split (Image.UUID image) "-"); Image.Format image;
          ImageStorage.VolumeID s])) l).

Lemma clear_commands_clears image d : clears image d (clear_commands image d).
Proof.
  assert (∀ s, of_image (Image.ID image) "" s = true ↔ ImageStorage.ImageID s = Image.ID image) as Hof.
  { intros s. unfold of_image. simpl. rewrite andb_true_r. apply Z.eqb_eq. }
  unfold clears, clear_commands. destruct (String.eqb_spec (Image.Status image) "available"); [right|by left].
  destruct (g_find _ _) as [|x l] eqn:Hf; [left|right]; (split; [done|]).
  - split; [|done]. intros k s Hk Hs. apply Hof in Hs. by rewrite (proj1 (find_nil _ _) Hf k s Hk) in Hs.
  - split.
    + assert (x ∈ g_find (of_image (Image.ID image) "") (image_storages d)) as [Hx Hr]%find_spec
        by (rewrite Hf; apply list_elem_of_here).
      exists (get_id x), x. split; [done|]. by apply Hof.
    + exists (List.filter synced_copy (storages_of image d)). unfold storages_of.
      pose proof (page_all (page_order_of "") (-1) (of_image (Image.ID image) "") (image_storages d)
        ltac:(lia)) as Hp. split_and!; [| |done].
      * apply NoDup_ListNoDup, List.NoDup_filter, NoDup_ListNoDup. rewrite Hp. apply find_nodup.
      * intros s. rewrite elem_of_filter_bool, Hp, find_spec, Hof. unfold synced_copy.
        rewrite String.eqb_eq. unfold StorageStatusSynced. simpl. tauto.
Qed.

(** C21. An image is deleted only by a writer of its organization and when no live instance
    uses it: exactly its row and the rows of its storages go, and no other table changes.
    Posted are, for an image that is available, one clear_image.sh per synced copy with the
    volume of the copy and nothing for the other copies; when the image has no storage, one
    clear_image.sh without a volume whose last quote is not balanced, as in the source, so
    that a shell does not run it and the bare image stays; and nothing for an image that is
    not available. *)
Theorem image_delete_spec image c w u w' :
  no_faults → 0 < Image.ID image → ImageAdmin_Delete image c w = (Ok u, w') →
  ValidateOwner (caller c) Writer (Image.Owner image) = true ∧
  (∀ k i, rows (instances (db w)) !! k = Some i → Instance.ImageID i ≠ Image.ID image) ∧
  rows (images (db w')) = delete (Image.ID image) (rows (images (db w))) ∧
  (∀ k s, rows (image_storages (db w')) !! k = Some s ↔
          rows (image_storages (db w)) !! k = Some s ∧ ImageStorage.ImageID s ≠ Image.ID image) ∧
  db w' = db w <| images := images (db w') |> <| image_storages := image_storages (db w') |> ∧
  ∃ posts, sent w' = sent w ++ posts ∧ clears image (db w) posts.
Proof.
  intros Hn Hid. unfold ImageAdmin_Delete. intros H%with_tx_Ok.
  apply bind_Ok in H as (m & ? & [<- <-]%GetMemberShip_Ok & (_ & ? & [Hp <-]%require_Ok & H)%bind_Ok).
  apply bind_Ok in H as (n & w1 & (-> & Hd1 & Hs1)%wrap_Ok%db_count_Ok & H).
  apply bind_Ok in H as (_ & ? & [Hz <-]%require_Ok & H).
  apply bind_Ok in H as ([[total l] err] & w2 & Hl & H).
  assert (total = Z.of_nat (length (g_find (of_image (Image.ID image) "") (image_storages (db w)))) ∧
          l = storages_of image (db w) ∧ db w2 = db w ∧ sent w2 = sent w) as (-> & -> & Hd2 & Hs2).
  { unfold list_storages in Hl. apply bind_Ok in Hl as (r & w3 & Hr%try_Ok & Hl).
    destruct r as [t|e]; [|apply wrap_Err in Hr as (? & _ & Hr); by apply (ne_stmt Hn) in Hr].
    apply wrap_Ok, db_count_Ok in Hr as (-> & Hd3 & Hs3).
    apply bind_Ok in Hl as (r & w4 & Hr%try_Ok & Hl).
    destruct r as [t|e]; [|apply wrap_Err in Hr as (? & _ & Hr); by apply (ne_stmt Hn) in Hr].
    apply wrap_Ok, db_page_Ok in Hr as (-> & Hd4 & Hs4). apply ret_Ok in Hl as [[= <- <- <-] <-].
    rewrite Hd3, Hd1 in *. split_and!; congruence || done. }
  apply bind_Ok in H as (? & w3 & Hc & H).
  assert (db w3 = db w ∧ sent w3 = sent w ++ clear_commands image (db w)) as [Hd3 Hs3].
  { unfold clear_image in Hc. unfold clear_commands. destruct (String.eqb _ "available").
    2: { apply ret_Ok in Hc as [_ <-]. by rewrite app_nil_r. }
    destruct (g_find _ (image_storages (db w))) eqn:Hf; simpl in Hc.
    - apply HyperExecute_Ok in Hc as (Hd & Hs & _). rewrite Hd, Hs. split; congruence.
    - apply clear_loop in Hc as [Hd Hs]. rewrite Hd, Hs. split; congruence. }
  go_ok. flat. split_and!; try done.
  - intros k i Hi. apply Z.eqb_neq. by apply (count_none _ _ Hz k).
  - apply delete_pk. lia.
  - intros k s. simpl. rewrite delete_spec.
    destruct (rows _ !! k) as [y|]; [|naive_solver].
    destruct (Z.eqb_spec (ImageStorage.ImageID y) (Image.ID image)); naive_solver.
  - exists (clear_commands image (db w)). split; [done|apply clear_commands_clears].
Qed.

End deletion.

(** ** Saving the loaded image with a new storage *)

Section lost_updates.
Context {G : Gorm} {E : Env} {GOk : GormOk G}.
Variable image : Image.t.
Implicit Types (c : Ctx) (w : World).

Definition storage_keys (d : DB) (k : Z) : Prop := is_Some (rows (image_storages d) !! k).

Definition storage_created (d d' : DB) : Prop := ∃ k, ¬ storage_keys d k ∧ storage_keys d' k.

(** Between two states storages are only added; when one was, the row of the image is the
    struct the caller holds, and otherwise the images are the same. *)
Definition saved_or_same (d d' : DB) : Prop :=
  (∀ k, storage_keys d k → storage_keys d' k) ∧
  (rows (images d') !! Image.ID image = Some image ∧ storage_created d d' ∨
   images d' = images d ∧ ¬ storage_created d d').

#[local] Instance saved_or_same_preorder : PreOrder saved_or_same.
Proof.
  split.
  { intros d. split; [done|]. right. split; [done|]. intros (k & Hk & Hk'). done. }
  intros d1 d2 d3 [K1 H1] [K2 H2]. split; [auto|].
  destruct H2 as [[H2 (k & Hn & Hs)]|[H2 N2]].
  { left. split; [done|]. exists k. auto. }
  destruct H1 as [[H1 (k & Hn & Hs)]|[H1 N1]].
  { left. rewrite H2. split; [done|]. exists k. auto. }
  right. split; [congruence|]. intros (k & Hn & Hs).
  destruct (rows (image_storages d2) !! k) as [x|] eqn:Hx.
  - apply N1. exists k. split; [done|]. by exists x.
  - apply N2. exists k. split; [|done]. intros [y Hy]. congruence.
Qed.

Lemma storage_status_same id status c w u w' :
  db_update (by_id id) (λ r, r <| ImageStorage.Status := status |>) c w = (Ok u, w') →
  saved_or_same (db w) (db w').
Proof.
  intros [-> _]%db_update_Ok.
  assert (∀ k, storage_keys (set_tbl (g_update (by_id id) (λ r, r <| ImageStorage.Status := status |>)
    (tbl (db w))) (db w)) k ↔ storage_keys (db w) k) as Hk.
  { intros k. unfold storage_keys. simpl. rewrite update_lookup by done. apply fmap_is_Some. }
  split; [naive_solver|]. right. split; [done|]. intros (k & Hn & Hs). naive_solver.
Qed.

Lemma create_storage_saves pool r c w s w' :
  gorm_autosave = true → 0 < Image.ID image → rows (images (db w)) !! Image.ID image = Some r →
  create_storage image pool c w = (Ok s, w') → saved_or_same (db w) (db w').
Proof.
  intros Ha Hid Hr. unfold create_storage, autosave_image. rewrite Ha.
  intros (? & w1 & [Hd _]%db_update_Ok & (t & Ht & -> & _)%db_create_Ok)%bind_Ok.
  apply create_spec in Ht as (_ & Hnew & _ & Ht). rewrite Hd in *. simpl in *.
  split; [|left; split].
  - intros k. unfold storage_keys. simpl. rewrite Ht, lookup_insert_is_Some'. auto.
  - simpl. rewrite (update_pk (R := Image.t) _ _ _ r); [|lia|done|done].
    rewrite lookup_insert_eq. f_equal. unfold save_image.
    pose proof (rows_id _ _ _ Hr) as Hk. simpl in Hk. rewrite Hk. by destruct image.
  - exists (ImageStorage.ID s). unfold storage_keys. simpl. rewrite Ht, Hnew, lookup_insert_eq.
    split; [by intros []|done].
Qed.

Lemma init_storages_saves storages pools r c w l w' :
  gorm_autosave = true → 0 < Image.ID image → rows (images (db w)) !! Image.ID image = Some r →
  init_storages image storages pools c w = (Ok l, w') →
  saved_or_same (db w) (db w').
Proof.
  intros Ha Hid. revert r w l. induction pools as [|pool pools IH]; intros r w l Hr; simpl.
  { by intros [_ <-]%ret_Ok. }
  intros (s & w1 & Hs & (l' & w2 & Hl & [_ <-]%ret_Ok)%bind_Ok)%bind_Ok.
  assert (saved_or_same (db w) (db w1)) as H1.
  { unfold init_storage in Hs. destruct (storage_of pool storages) as [x|].
    - destruct (settled _); [by apply ret_Ok in Hs as [_ <-]|].
      apply bind_Ok in Hs as (? & ? & Hu%wrap_Ok & [_ <-]%ret_Ok). by apply storage_status_same in Hu.
    - apply wrap_Ok in Hs. by eapply create_storage_saves. }
  etrans; [exact H1|]. destruct H1 as [_ [[H1 _]|[H1 _]]]; eapply IH; try exact Hl; [exact H1|].
  rewrite H1. exact Hr.
Qed.

Lemma sync_storages_saves source storages asked err c w u w' :
  sync_storages image source storages asked err c w = (Ok u, w') →
  saved_or_same (db w) (db w').
Proof.
  revert asked err w. induction storages as [|s l IH]; intros asked err w; simpl.
  { destruct err; [done|]. by intros [_ <-]%ret_Ok. }
  destruct (settled _ || _); [apply IH|].
  intros (? & w1 & Hu%wrap_Ok%storage_status_same & (r & w2 & Hp & Hl%IH)%bind_Ok)%bind_Ok.
  etrans; [exact Hu|]. replace (db w1) with (db w2); [exact Hl|].
  eapply kept_db; [|exact Hp]. intros I. pres.
Qed.

Lemma final_pools_reads pools I : preserves I (final_pools pools).
Proof. induction pools; simpl; unfold DictionaryAdmin_Find; pres. Qed.

(** C24. An update of an image with a shared volume driver is kept only when every pool
    already has a storage: if a storage is created, the image loaded in it is saved with it,
    and the row of the image ends as it was read, without the new columns. *)
Theorem image_update_lost r osCode name osVersion userName pools osFamily uuid c w u w' :
  gorm_autosave = true → String.eqb GetVolumeDriver "local" = false →
  0 < Image.ID image → rows (images (db w)) !! Image.ID image = Some r →
  ImageAdmin_Update image osCode name osVersion userName pools osFamily uuid c w = (Ok u, w') →
  (storage_created (db w) (db w') → rows (images (db w')) !! Image.ID image = Some image) ∧
  (¬ storage_created (db w) (db w') →
     rows (images (db w')) !! Image.ID image =
       Some (image_updates osCode name osVersion userName uuid osFamily r)).
Proof.
  intros Ha Hd Hid Hr. unfold ImageAdmin_Update. rewrite Hd. intros H%with_tx_Ok.
  apply bind_Ok in H as (m & ? & [<- <-]%GetMemberShip_Ok & (_ & ? & [_ <-]%require_Ok & H)%bind_Ok).
  apply bind_Ok in H as (_ & ? & [_ <-]%require_Ok & (_ & ? & [_ <-]%require_Ok & H)%bind_Ok).
  apply bind_Ok in H as (? & w1 & [Hd1 _]%wrap_Ok%db_update_Ok & H).
  apply bind_Ok in H as (l & w2 & Hi & (_ & ? & [_ <-]%require_Ok & Hl%sync_storages_saves)%bind_Ok).
  unfold ImageStorageAdmin_InitStorages in Hi. rewrite GetContextDB_eq in Hi.
  apply bind_Ok in Hi as (ps & w3 & Hp & (sl & w4 & (_ & Hd4 & _)%wrap_Ok%db_find_Ok & Hi)%bind_Ok).
  apply kept_db in Hp; [|apply final_pools_reads].
  assert (rows (images (db w1)) !! Image.ID image =
    Some (image_updates osCode name osVersion userName uuid osFamily r)) as H1.
  { rewrite Hd1. simpl. rewrite (update_key (R := Image.t) _ _ _ r); [by rewrite lookup_insert_eq| |done].
    intros y. unfold image_updates. by repeat destruct (String.eqb _ _). }
  apply init_storages_saves with (r := image_updates osCode name osVersion userName uuid osFamily r)
    in Hi; [|done|done|congruence].
  rewrite Hd4, Hp in Hi. destruct (transitivity Hi Hl) as [_ HQ].
  assert (storage_created (db w1) (db w') ↔ storage_created (db w) (db w')) as Hc
    by (unfold storage_created, storage_keys; rewrite Hd1; done).
  rewrite Hc in HQ. destruct HQ as [[]|[Hq ?]]; [tauto|]. rewrite Hq. tauto.
Qed.

End lost_updates.

(** ** Witnesses *)

Module ImageWitness.
Import Scenario.

#[local] Existing Instance MemGorm.
#[local] Existing Instance MemGormOk.
#[local] Existing Instance env.

(** Image 7 is synced to the default pool; another pool is registered. *)
Definition image7 : Image.t :=
  Image.zero <| Image.ID := 7 |> <| Image.UUID := "ab12-cd" |> <| Image.Name := "jammy" |>
    <| Image.Status := "available" |> <| Image.Owner := 2 |> <| Image.Format := "raw" |>.
Definition storage20 : ImageStorage.t :=
  storage_model 7 "wds_vhost" <| ImageStorage.ID := 20 |> <| ImageStorage.VolumeID := "v20" |>
    <| ImageStorage.Status := StorageStatusSynced |>.
Definition pool30 : Dictionary.t :=
  Dictionary.zero <| Dictionary.ID := 30 |> <| Dictionary.Category := "storage_pool" |>
    <| Dictionary.Value := "pool2" |>.
Definition image_world : World :=
  mkWorld (cloud <| images := table_of [image7] |> <| image_storages := table_of [storage20] |>
                 <| dictionaries := table_of [pool30] |>) [] 0.
Definition admin : Ctx := mkCtx (Some (MemberShip.mk 1 "admin" 2 "tenant" 4)) false None None.

Lemma image_no_faults : no_faults.
Proof. done. Qed.

Lemma image_delete_spec_witness : ∃ w',
  ImageAdmin_Delete image7 admin image_world = (Ok tt, w') ∧
  (∀ k s, rows (image_storages (db w')) !! k = Some s → ImageStorage.ImageID s ≠ 7) ∧
  ∃ posts, sent w' = posts ∧ clears image7 (db image_world) posts.
Proof.
  run_ok (ImageAdmin_Delete image7 admin image_world) r w' H. destruct r.
  destruct (image_delete_spec image7 admin image_world tt w' image_no_faults eq_refl H)
    as (_ & _ & _ & Hs & _ & posts & Hc & Hp).
  exists w'. split; [exact H|]. split.
  - intros k s Hk. apply Hs in Hk as [_ Hk]. exact Hk.
  - exists posts. split; [exact Hc|exact Hp].
Defined.

(** Seven quotes part eight pieces: the command for a bare image is not balanced. *)
Lemma bare_command_unbalanced :
  length (Split (clear_bare_image_command image7) "'") = 8%nat.
Proof. vm_compute. reflexivity. Qed.

(** The rename to noble is undone: the storage of the new pool saves the image as read. *)
Lemma image_update_lost_witness : ∃ w',
  ImageAdmin_Update image7 "" "noble" "" "" ["pool2"] "" "" admin image_world = (Ok tt, w') ∧
  rows (images (db w')) !! 7 = Some image7.
Proof.
  pose (run := ImageAdmin_Update image7 "" "noble" "" "" ["pool2"] "" "" admin image_world).
  run_ok (ImageAdmin_Update image7 "" "noble" "" "" ["pool2"] "" "" admin image_world) r w' H.
  destruct r.
  assert (w' = run.2) as Hw by (unfold run; by rewrite H).
  exists w'. split; [exact H|].
  apply (image_update_lost (E := env) image7 image7 "" "noble" "" "" ["pool2"] "" "" admin image_world tt w'
    eq_refl eq_refl eq_refl ltac:(vm_compute; reflexivity) H).
  exists 101. split.
  - intros Hk. vm_compute in Hk. destruct Hk as [x Hx]. discriminate Hx.
  - unfold storage_keys. rewrite Hw. vm_compute. eexists. reflexivity.
Defined.

End ImageWitness.
