(* ===== verification/AlarmRules.v ===== *)
(** * AlarmRules: the alarm rules in the database (AlarmOperator of routes/alarm.go)

    A rule is a group, the details of its type and links to the machines it watches.  What
    is rendered from them for the monitoring system is not modelled. *)

From S2P Require Import Prelude GoLib ErrorCodes Gorm Model Store Member InstanceAdmin.

Module ListRuleGroupsParams.
Record ListRuleGroupsParams_t := mk {
  RuleType : string;
  Page : Z;
  PageSize : Z;
  GroupUUID : string;
  RuleID : string
}.
Abbreviation t := ListRuleGroupsParams_t.
End ListRuleGroupsParams.

(** The details that are stored behind the group of a result. *)
Inductive RuleDetails :=
  | CPUDetails (l : list CPURuleDetail.t)
  | MemoryDetails (l : list MemoryRuleDetail.t)
  | BWDetails (l : list BWRuleDetail.t).

Definition rule_link (groupUUID vmUUID iface : string) : VMRuleLink.t :=
  VMRuleLink.zero <| VMRuleLink.GroupUUID := groupUUID |> <| VMRuleLink.VMUUID := vmUUID |>
    <| VMRuleLink.Interface := iface |>.

(** No condition for an empty value. *)
Definition when_given (value column : string) : bool :=
  String.eqb value "" || String.eqb column value.

Section rules.
Context {G : Gorm} {E : Env}.

(** [fmt.Errorf("msg: %w", err)] *)
Definition errorw {A} (msg : string) (m : M A) : M A := λ c w,
  match m c w with
  | (Err e, w1) => (Err (GoError (msg +:+ ": " +:+ Error error_text e)), w1)
  | r => r
  end.

(** [db.Transaction] on a handle that is in no transaction: an error or a panic rolls
    back. *)
Definition db_transaction {A} (body : M A) : M A := λ c w,
  match body c w with
  | (Ok a, w1) => (Ok a, w1)
  | (r, w1) => (r, w1 <| db := db w |>)
  end.

(** An update with [RowsAffected]. *)
Definition db_update_count {R} `{Row R, !InDB R} (p : R → bool) (f : R → R) : M Z :=
  stmt (λ d _, (Z.of_nat (length (g_find p (tbl d))), set_tbl (g_update p f (tbl d)) d)).

(** ** Groups and details *)

Definition group_matches (q : ListRuleGroupsParams.t) (g : RuleGroupV2.t) : bool :=
  when_given (ListRuleGroupsParams.RuleType q) (RuleGroupV2.Type_ g)
  && when_given (ListRuleGroupsParams.GroupUUID q) (RuleGroupV2.UUID g)
  && when_given (ListRuleGroupsParams.RuleID q) (RuleGroupV2.RuleID g).

Definition ListRuleGroups (q : ListRuleGroupsParams.t) : M (list RuleGroupV2.t * Z) :=
  total ← errorw "get rules count failed" (db_count (group_matches q));
  groups ← errorw "page query failed"
    (db_page [] ((ListRuleGroupsParams.Page q - 1) * ListRuleGroupsParams.PageSize q)
       (ListRuleGroupsParams.PageSize q) (group_matches q));
  mret (groups, total).

(** The first group of a query for one. *)
Definition first_group (q : ListRuleGroupsParams.t) : M (option RuleGroupV2.t) :=
  '(groups, _) ← ListRuleGroups q; mret (head groups).

(** A failure is logged and gives no details. *)
Definition GetCPURuleDetails (groupUUID : string) : M (list CPURuleDetail.t) :=
  r ← try (db_find (λ d, String.eqb (CPURuleDetail.GroupUUID d) groupUUID));
  mret match r with inl l => l | inr _ => [] end.

Definition GetMemoryRuleDetails (groupUUID : string) : M (list MemoryRuleDetail.t) :=
  r ← try (db_find (λ d, String.eqb (MemoryRuleDetail.GroupUUID d) groupUUID));
  mret match r with inl l => l | inr _ => [] end.

Definition GetBWRuleDetails (groupUUID : string) : M (list BWRuleDetail.t) :=
  errorw "query db BW rules detailed"
    (db_find (λ d, String.eqb (BWRuleDetail.GroupUUID d) groupUUID)).

Definition cpu_details (uuid : string) : M RuleDetails :=
  l ← GetCPURuleDetails uuid; mret (CPUDetails l).
Definition memory_details (uuid : string) : M RuleDetails :=
  l ← GetMemoryRuleDetails uuid; mret (MemoryDetails l).
Definition bw_details (uuid : string) : M RuleDetails :=
  l ← errorw "detail rules query failed" (GetBWRuleDetails uuid); mret (BWDetails l).

Definition unsupported {A} (ruleType : string) : M A :=
  fail (GoError ("unsupported rule type: " +:+ ruleType)).

Definition GetRulesByGroupUUID (groupUUID : string) : M (RuleGroupV2.t * RuleDetails) :=
  group ← errorw "rules query failed"
            (first_group (ListRuleGroupsParams.mk "" 0 1 groupUUID ""));
  match group with
  | None => fail RecordNotFound
  | Some g =>
      let t := RuleGroupV2.Type_ g in
      details ← (if String.eqb t "cpu" then cpu_details groupUUID
                 else if String.eqb t "bw" then bw_details groupUUID
                 else unsupported t);
      mret (g, details)
  end.

Definition GetRulesByRuleID (ruleID : string) : M (RuleGroupV2.t * RuleDetails) :=
  group ← errorw "rules query failed"
            (first_group (ListRuleGroupsParams.mk "" 0 1 "" ruleID));
  match group with
  | None => fail RecordNotFound
  | Some g =>
      let t := RuleGroupV2.Type_ g in
      let uuid := RuleGroupV2.UUID g in
      details ← (if String.eqb t "cpu" then cpu_details uuid
                 else if String.eqb t "bw" then bw_details uuid
                 else if String.eqb t "memory" then memory_details uuid
                 else unsupported t);
      mret (g, details)
  end.

(** A group of a type with its details; the error of a missing group formats nil. *)
Definition typed_rules (read : string → M RuleDetails) (groupUUID ruleType : string)
    : M (RuleGroupV2.t * RuleDetails) :=
  group ← errorw "rules query failed"
            (first_group (ListRuleGroupsParams.mk ruleType 0 1 groupUUID ""));
  match group with
  | None => fail (GoError "rules query failed: %!w(<nil>)")
  | Some g => details ← read groupUUID; mret (g, details)
  end.

Definition GetCPURulesByGroupUUID : string → string → M (RuleGroupV2.t * RuleDetails) :=
  typed_rules cpu_details.
Definition GetMemoryRulesByGroupUUID : string → string → M (RuleGroupV2.t * RuleDetails) :=
  typed_rules memory_details.
Definition GetBWRulesByGroupUUID : string → string → M (RuleGroupV2.t * RuleDetails) :=
  typed_rules bw_details.

Definition UpdateRuleGroupStatus (groupID : string) (enabled : bool) : M unit :=
  db_transaction (
    n ← errorw "update satus failed"
          (db_update_count (λ g, String.eqb (RuleGroupV2.UUID g) groupID)
             (λ g, g <| RuleGroupV2.Enabled := enabled |>));
    require (negb (n =? 0)) (GoError "group rules no found")).

Definition IncrementTriggerCount (groupID : string) : M unit :=
  db_update (λ g, String.eqb (RuleGroupV2.UUID g) groupID)
    (λ g, g <| RuleGroupV2.TriggerCnt := RuleGroupV2.TriggerCnt g + 1 |>).

Definition CreateRuleGroup (group : RuleGroupV2.t) : M RuleGroupV2.t :=
  errorw "failed to create rule" (db_create group).

(** [detail.UUID = uuid.NewString()] *)
Definition fresh_uuid : M string := λ c w, (Ok (uuid_new (clock w)), w).

Definition CreateCPURuleDetail (detail : CPURuleDetail.t) : M CPURuleDetail.t :=
  u ← fresh_uuid;
  errorw "create cpu rule detail failed" (db_create (detail <| CPURuleDetail.UUID := u |>)).

Definition CreateMemoryRuleDetail (detail : MemoryRuleDetail.t) : M MemoryRuleDetail.t :=
  u ← fresh_uuid;
  errorw "create memory rule detail failed" (db_create (detail <| MemoryRuleDetail.UUID := u |>)).

Definition CreateBWRuleDetail (detail : BWRuleDetail.t) : M BWRuleDetail.t :=
  errorw "create bw rule detail failed" (db_create detail).

Definition DeleteRuleGroup (groupUUID ruleType : string) : M unit :=
  db_delete (λ g, String.eqb (RuleGroupV2.UUID g) groupUUID
                  && String.eqb (RuleGroupV2.Type_ g) ruleType).

Definition delete_details (groupUUID ruleType : string) : M unit :=
  if String.eqb ruleType "cpu" then
    errorw "CPU rules delete failed"
      (db_delete (λ d, String.eqb (CPURuleDetail.GroupUUID d) groupUUID))
  else if String.eqb ruleType "memory" then
    errorw "Memory rules delete failed"
      (db_delete (λ d, String.eqb (MemoryRuleDetail.GroupUUID d) groupUUID))
  else if String.eqb ruleType "bw" then
    errorw "bw rules delete failed"
      (db_delete (λ d, String.eqb (BWRuleDetail.GroupUUID d) groupUUID))
  else fail (GoError ("unknow type: " +:+ ruleType)).

Definition of_rule_group (groupUUID : string) (l : VMRuleLink.t) : bool :=
  String.eqb (VMRuleLink.GroupUUID l) groupUUID.

Definition DeleteRuleGroupWithDependencies (groupUUID ruleType : string) : M unit :=
  db_transaction (
    _ ← delete_details groupUUID ruleType;
    _ ← errorw "failed to del vm link" (db_delete (of_rule_group groupUUID));
    errorw "group del failed" (DeleteRuleGroup groupUUID ruleType)).

(** ** Links *)

Definition of_vm (groupUUID vmUUID : string) (l : VMRuleLink.t) : bool :=
  of_rule_group groupUUID l && String.eqb (VMRuleLink.VMUUID l) vmUUID.

(** A count that fails counts nothing. *)
Definition CheckVMLinkExists (groupUUID vmUUID iface : string) : M bool :=
  r ← try (db_count (λ l, of_vm groupUUID vmUUID l && when_given iface (VMRuleLink.Interface l)));
  mret match r with inl n => 0 <? n | inr _ => false end.

Definition CreateVMLink (groupUUID vmUUID iface : string) : M unit :=
  _ ← errorw "create link failed" (db_create (rule_link groupUUID vmUUID iface)); mret tt.

Fixpoint link_vms (groupUUID : string) (vmUUIDs : list string) (iface : string) : M unit :=
  match vmUUIDs with
  | [] => mret tt
  | vm :: vmUUIDs =>
      r ← try (db_count (λ l, of_vm groupUUID vm l && String.eqb (VMRuleLink.Interface l) iface));
      _ ← (if match r with inl n => n =? 0 | inr _ => true end
           then CreateVMLink groupUUID vm iface else mret tt);
      link_vms groupUUID vmUUIDs iface
  end.

Definition BatchLinkVMs (groupUUID : string) (vmUUIDs : list string) (iface : string) : M unit :=
  db_transaction (link_vms groupUUID vmUUIDs iface).

Definition GetLinkedVMs (groupUUID : string) : M (list VMRuleLink.t) :=
  db_find (λ l, when_given groupUUID (VMRuleLink.GroupUUID l)).

(** The join reads deleted rows of both tables. *)
Definition joined_links (p : RuleGroupV2.t → bool) (d : DB) : list VMRuleLink.t :=
  flat_map (λ l, flat_map (λ g, if String.eqb (VMRuleLink.GroupUUID l) (RuleGroupV2.UUID g) && p g
                                then [l] else []) (all_rows (rule_groups d)))
    (all_rows (vm_rule_links d)).

Definition GetLinkedVMsByRuleIDOrOwner (ruleID owner : string)
    : M (gmap string (list VMRuleLink.t)) :=
  links ← db_query (joined_links (λ g, when_given ruleID (RuleGroupV2.RuleID g)
                                       && when_given owner (RuleGroupV2.Owner g)));
  mret (fold_left (λ m l, map_append (VMRuleLink.GroupUUID l) l m) links ∅).

End rules.
