(* ===== verification/Adjust.v ===== *)
(** * Adjust: automatic adjustment of resources (AdjustOperator of routes/adjust.go)

    Rules that limit the CPU or the bandwidth of a machine while an alert is active: the
    groups, their details, the links to machines, the history with its cooldown, and the
    commands that limit and restore.  The configuration file is read through viper;
    [config_readable] says whether that works. *)

From S2P Require Import Prelude GoLib ErrorCodes Gorm Model Store Member Crypto Balancer InstanceRpc NicAdmin InstanceAdmin Accounts AlarmRules.

Class ConfigFile := { config_readable : bool }.

Module AdjustmentRecord.
Record AdjustmentRecord_t := mk {
  Name : string;
  RuleGroupUUID : string;
  Summary : string;
  Description : string;
  StartsAt : Z;
  AdjustType : string;
  TargetDevice : string
}.
Abbreviation t := AdjustmentRecord_t.
End AdjustmentRecord.

(** The field [EnabledSQL], which nothing sets, is left out. *)
Module ListAdjustRuleGroupsParams.
Record ListAdjustRuleGroupsParams_t := mk {
  RuleType : string;
  GroupUUID : string;
  RuleID : string;
  Owner : string;
  Page : Z;
  PageSize : Z
}.
Abbreviation t := ListAdjustRuleGroupsParams_t.
End ListAdjustRuleGroupsParams.

(** What [GetCompleteRuleByRuleID] answers. *)
Inductive CompleteRule :=
  | AlarmRule (g : RuleGroupV2.t) (details : RuleDetails)
  | AdjustCPURule (g : AdjustRuleGroup.t) (details : list CPUAdjustRuleDetail.t)
  | AdjustBWRule (g : AdjustRuleGroup.t) (details : list BWAdjustRuleDetail.t).

Definition lower (a : ascii) : ascii :=
  let n := Ascii.nat_of_ascii a in
  if (65 <=? n)%nat && (n <=? 90)%nat then Ascii.ascii_of_nat (n + 32) else a.

(** [strings.EqualFold] on ASCII. *)
Fixpoint EqualFold (s t : string) : bool :=
  match s, t with
  | "", "" => true
  | String a s, String b t => Ascii.eqb (lower a) (lower b) && EqualFold s t
  | _, _ => false
  end.

Definition mac_suffix (mac : string) : option string :=
  let parts := Split mac ":" in
  if (3 <=? length parts)%nat then Some (Join (drop (length parts - 3) parts) "") else None.

Definition findInterfaceByTargetDevice (ifaces : list Interface.t) (targetDevice : string)
    : option Interface.t :=
  if negb (String.prefix "tap" targetDevice) || negb (String.length targetDevice =? 9)%nat then None
  else List.find (λ i, negb (String.eqb (Interface.MacAddr i) "")
                       && match mac_suffix (Interface.MacAddr i) with
                          | Some s => EqualFold s (drop_bytes 3 targetDevice)
                          | None => false
                          end) ifaces.

(** ** Commands *)

Definition kvm_script (name : string) : string := "/opt/cloudland/scripts/kvm/" +:+ name +:+ " ".

Definition cpu_command (domain value : string) : string :=
  kvm_script "adjust_cpu_hotplug.sh" +:+ quoted_words [domain; value].

Definition cpu_status_command (domain groupUUID : string) (status : Z) : string :=
  kvm_script "update_vm_cpu_adjustment_status.sh" +:+ "--domain '" +:+ domain
  +:+ "' --rule-id '" +:+ domain +:+ "-" +:+ groupUUID +:+ "' --status " +:+ fmt_d status.

Definition nic_speed_command (domain nic : string) (inBw outBw : Z) : string :=
  kvm_script "set_nic_speed.sh"
  +:+ quoted_words [TrimPrefix domain "inst-"; nic; fmt_d inBw; fmt_d outBw].

Definition bw_status_command (domain groupUUID bwType : string) (status : Z) (nic : string) : string :=
  kvm_script "update_vm_bandwidth_adjustment_status.sh" +:+ "--domain '" +:+ domain
  +:+ "' --rule-id 'adjust-bw-" +:+ domain +:+ "-" +:+ groupUUID +:+ "' --type '" +:+ bwType
  +:+ "' --status " +:+ fmt_d status +:+ " --target-device '" +:+ nic +:+ "'".

Definition bw_metric_command (domain device : string) (inBw outBw : Z) : string :=
  kvm_script "update_vm_interface_bandwidth.sh" +:+ quoted_words ["add"; domain; device]
  +:+ " " +:+ fmt_d inBw +:+ " " +:+ fmt_d outBw.

(** The device of the record, or the one of the call. *)
Definition nic_name (record : AdjustmentRecord.t) (device : string) : string :=
  if String.eqb (AdjustmentRecord.TargetDevice record) "" then device
  else AdjustmentRecord.TargetDevice record.

Section adjust.
Context {G : Gorm} {E : Env} {C : Crypto} {F : ConfigFile}.

(** ** The administrator a webhook acts as *)

Definition getAdminPassword : string :=
  if config_readable then
    let password := viper_GetString "admin.password" in
    if String.eqb password "" then "passw0rd" else password
  else "passw0rd".

(** The membership that is put into the context. *)
Definition CreateAdminContext : M MemberShip.t :=
  user ← errorw "failed to validate admin user" (UserAdmin_Validate "admin" getAdminPassword);
  org ← errorw "failed to get admin org" (OrgAdmin_GetOrgByName "admin");
  ms ← errorw "failed to get admin membership"
         (GetDBMemberShip (User.ID user) (Organization.ID org));
  mret (ms <| MemberShip.Role := Model.Admin |>).

Definition in_context {A} (ms : MemberShip.t) (m : M A) : M A := λ c w,
  m (c <| membership := Some ms |>) w.

Definition GetInstanceByUUIDWithAuth (instanceID : string) : M LoadedInstance.t :=
  ms ← errorw "failed to create admin context" CreateAdminContext;
  errorw "failed to get instance" (in_context ms (InstanceAdmin_GetInstanceByUUID instanceID)).

Definition adjusted_instance (domain instanceID : string) : M LoadedInstance.t :=
  if negb (String.eqb instanceID "") then
    errorw "failed to get instance" (GetInstanceByUUIDWithAuth instanceID)
  else
    uuid ← errorw "failed to get instance UUID" (GetInstanceUUIDByDomain domain);
    errorw "failed to get instance" (GetInstanceByUUIDWithAuth uuid).

(** ** Groups and details *)

Definition named (uuid : string) (g : AdjustRuleGroup.t) : bool :=
  String.eqb (AdjustRuleGroup.UUID g) uuid.

(** An empty UUID is set before the row is created. *)
Definition CreateAdjustRuleGroup (group : AdjustRuleGroup.t) : M AdjustRuleGroup.t :=
  u ← fresh_uuid;
  db_create (if String.eqb (AdjustRuleGroup.UUID group) ""
             then group <| AdjustRuleGroup.UUID := u |> else group).

Definition GetAdjustRulesByGroupUUID (uuid : string) : M AdjustRuleGroup.t :=
  db_first (named uuid).

Definition GetAdjustRulesByIdentifier (identifier : string) : M AdjustRuleGroup.t :=
  r ← try (db_first (λ g, String.eqb (AdjustRuleGroup.RuleID g) identifier));
  match r with
  | inl g => mret g
  | inr e => if is_not_found e then db_first (named identifier) else fail e
  end.

(** Both identifiers are alternatives. *)
Definition adjust_matches (q : ListAdjustRuleGroupsParams.t) (g : AdjustRuleGroup.t) : bool :=
  let byRule := String.eqb (AdjustRuleGroup.RuleID g) (ListAdjustRuleGroupsParams.RuleID q) in
  let byUUID := named (ListAdjustRuleGroupsParams.GroupUUID q) g in
  when_given (ListAdjustRuleGroupsParams.RuleType q) (AdjustRuleGroup.Type_ g)
  && match negb (String.eqb (ListAdjustRuleGroupsParams.RuleID q) ""),
           negb (String.eqb (ListAdjustRuleGroupsParams.GroupUUID q) "") with
     | true, true => byRule || byUUID
     | true, false => byRule
     | false, true => byUUID
     | false, false => true
     end
  && when_given (ListAdjustRuleGroupsParams.Owner q) (AdjustRuleGroup.Owner g).

Definition ListAdjustRuleGroups (q : ListAdjustRuleGroupsParams.t)
    : M (list AdjustRuleGroup.t * Z) :=
  total ← db_count (adjust_matches q);
  groups ← db_page ["created_at desc"]
             ((ListAdjustRuleGroupsParams.Page q - 1) * ListAdjustRuleGroupsParams.PageSize q)
             (ListAdjustRuleGroupsParams.PageSize q) (adjust_matches q);
  mret (groups, total).

Definition CreateCPUAdjustRuleDetail (detail : CPUAdjustRuleDetail.t) : M CPUAdjustRuleDetail.t :=
  db_create detail.

Definition of_cpu_group (uuid : string) (d : CPUAdjustRuleDetail.t) : bool :=
  String.eqb (CPUAdjustRuleDetail.GroupUUID d) uuid.

Definition GetCPUAdjustRuleDetails (groupUUID : string) : M (list CPUAdjustRuleDetail.t) :=
  db_find (of_cpu_group groupUUID).

Definition CreateBWAdjustRuleDetail (detail : BWAdjustRuleDetail.t) : M BWAdjustRuleDetail.t :=
  u ← fresh_uuid;
  db_create (if String.eqb (BWAdjustRuleDetail.UUID detail) ""
             then detail <| BWAdjustRuleDetail.UUID := u |> else detail).

Definition of_bw_group (uuid : string) (d : BWAdjustRuleDetail.t) : bool :=
  String.eqb (BWAdjustRuleDetail.GroupUUID d) uuid.

Definition GetBWAdjustRuleDetails (groupUUID : string) : M (list BWAdjustRuleDetail.t) :=
  db_find (of_bw_group groupUUID).

(** The group of a type; the error of a missing one formats nil. *)
Definition adjust_group (groupUUID ruleType : string) : M AdjustRuleGroup.t :=
  '(groups, _) ← errorw "adjust rules query failed"
    (ListAdjustRuleGroups (ListAdjustRuleGroupsParams.mk ruleType groupUUID "" "" 0 1));
  match head groups with
  | Some g => mret g
  | None => fail (GoError "adjust rules query failed: %!w(<nil>)")
  end.

Definition GetCPUAdjustRulesByGroupUUID (groupUUID ruleType : string)
    : M (AdjustRuleGroup.t * list CPUAdjustRuleDetail.t) :=
  g ← adjust_group groupUUID ruleType;
  details ← errorw "CPU adjust detail rules query failed" (GetCPUAdjustRuleDetails groupUUID);
  mret (g, details).

Definition GetBWAdjustRulesByGroupUUID (groupUUID ruleType : string)
    : M (AdjustRuleGroup.t * list BWAdjustRuleDetail.t) :=
  g ← adjust_group groupUUID ruleType;
  details ← errorw "bandwidth adjust detail rules query failed" (GetBWAdjustRuleDetails groupUUID);
  mret (g, details).

Definition UpdateAdjustRuleGroupStatus (groupUUID : string) (enabled : bool) : M unit :=
  n ← errorw "update adjust rule group status failed"
        (db_update_count (named groupUUID) (λ g, g <| AdjustRuleGroup.Enabled := enabled |>));
  require (negb (n =? 0)) (GoError "adjust rule group not found").

Definition of_history (groupUUID : string) (h : AdjustmentHistory.t) : bool :=
  String.eqb (AdjustmentHistory.GroupUUID h) groupUUID.

Definition DeleteAdjustRuleGroupWithDependencies (groupUUID : string) : M unit :=
  db_transaction (
    _ ← db_delete (of_cpu_group groupUUID);
    _ ← db_delete (of_bw_group groupUUID);
    _ ← db_delete (of_rule_group groupUUID);
    _ ← db_delete (of_history groupUUID);
    db_delete (named groupUUID)).

(** The columns of a request, in any number. *)
Definition UpdateAdjustRuleGroupBasicInfo (groupUUID : string)
    (updates : list (AdjustRuleGroup.t → AdjustRuleGroup.t)) : M unit :=
  match updates with
  | [] => mret tt
  | _ =>
      n ← errorw "failed to update rule group"
            (db_update_count (named groupUUID) (λ g, fold_left (λ g f, f g) updates g));
      require (negb (n =? 0)) (GoError ("no rule group found with uuid: " +:+ groupUUID))
  end.

Definition cpu_columns (u r : CPUAdjustRuleDetail.t) : CPUAdjustRuleDetail.t :=
  r <| CPUAdjustRuleDetail.Name := CPUAdjustRuleDetail.Name u |>
    <| CPUAdjustRuleDetail.HighThreshold := CPUAdjustRuleDetail.HighThreshold u |>
    <| CPUAdjustRuleDetail.SmoothWindow := CPUAdjustRuleDetail.SmoothWindow u |>
    <| CPUAdjustRuleDetail.TriggerDuration := CPUAdjustRuleDetail.TriggerDuration u |>
    <| CPUAdjustRuleDetail.LimitDuration := CPUAdjustRuleDetail.LimitDuration u |>
    <| CPUAdjustRuleDetail.LimitPercent := CPUAdjustRuleDetail.LimitPercent u |>.

Definition count_text (n : nat) : string := fmt_d (Z.of_nat n).

Definition UpdateCPUAdjustRuleDetails (identifier : string) (newDetails : list CPUAdjustRuleDetail.t)
    : M unit :=
  r ← try (GetAdjustRulesByIdentifier identifier);
  match r with
  | inr e =>
      fail (GoError (if is_not_found e then "rule not found: identifier=" +:+ identifier
                     else "failed to get rule group: " +:+ Error error_text e))
  | inl group =>
      let uuid := AdjustRuleGroup.UUID group in
      let ids := " (rule_id=" +:+ AdjustRuleGroup.RuleID group +:+ ", group_uuid=" +:+ uuid +:+ ")" in
      match newDetails with
      | [u] =>
          olds ← errorw "failed to get existing details" (GetCPUAdjustRuleDetails uuid);
          match olds with
          | [old] =>
              db_transaction (errorw "failed to update CPU detail"
                (db_update (λ r, String.eqb (CPUAdjustRuleDetail.UUID r) (CPUAdjustRuleDetail.UUID old))
                   (cpu_columns u)))
          | _ => fail (GoError ("data inconsistency: expected 1 detail, found "
                                +:+ count_text (length olds) +:+ ids))
          end
      | _ => fail (GoError ("invalid detail count: expected 1, got "
                            +:+ count_text (length newDetails) +:+ ids))
      end
  end.

Definition bw_columns (u r : BWAdjustRuleDetail.t) : BWAdjustRuleDetail.t :=
  r <| BWAdjustRuleDetail.Name := BWAdjustRuleDetail.Name u |>
    <| BWAdjustRuleDetail.Direction := BWAdjustRuleDetail.Direction u |>
    <| BWAdjustRuleDetail.HighThresholdPct := BWAdjustRuleDetail.HighThresholdPct u |>
    <| BWAdjustRuleDetail.SmoothWindow := BWAdjustRuleDetail.SmoothWindow u |>
    <| BWAdjustRuleDetail.TriggerDuration := BWAdjustRuleDetail.TriggerDuration u |>
    <| BWAdjustRuleDetail.LimitDuration := BWAdjustRuleDetail.LimitDuration u |>
    <| BWAdjustRuleDetail.LimitValuePct := BWAdjustRuleDetail.LimitValuePct u |>.

Definition UpdateBWAdjustRuleDetails (groupUUID : string) (newDetails : list BWAdjustRuleDetail.t)
    : M unit :=
  let ids := " (group_uuid=" +:+ groupUUID +:+ ")" in
  match newDetails with
  | [u] =>
      olds ← errorw "failed to get existing details" (GetBWAdjustRuleDetails groupUUID);
      match olds with
      | [old] =>
          db_transaction (errorw "failed to update BW detail"
            (db_update (λ r, String.eqb (BWAdjustRuleDetail.UUID r) (BWAdjustRuleDetail.UUID old))
               (bw_columns u)))
      | _ => fail (GoError ("data inconsistency: expected 1 detail, found "
                            +:+ count_text (length olds) +:+ ids))
      end
  | _ => fail (GoError ("invalid detail count: expected 1, got "
                        +:+ count_text (length newDetails) +:+ ids))
  end.

(** ** History and cooldown *)

Definition RecordAdjustmentHistory (history : AdjustmentHistory.t) : M AdjustmentHistory.t :=
  t ← now; db_create (history <| AdjustmentHistory.AdjustTime := t |>).

Definition SaveAdjustmentHistory (history : AdjustmentHistory.t) : M AdjustmentHistory.t :=
  db_create history.

(** [ORDER BY adjust_time desc, id] *)
Definition latest (a b : AdjustmentHistory.t) : bool :=
  (AdjustmentHistory.AdjustTime b <? AdjustmentHistory.AdjustTime a)
  || ((AdjustmentHistory.AdjustTime a =? AdjustmentHistory.AdjustTime b)
      && (AdjustmentHistory.ID a <=? AdjustmentHistory.ID b)).

Definition adjustment_of (domain ruleID actionType : string) (h : AdjustmentHistory.t) : bool :=
  String.eqb (AdjustmentHistory.DomainName h) domain
  && String.eqb (AdjustmentHistory.RuleID h) ruleID
  && String.eqb (AdjustmentHistory.ActionType h) actionType.

Definition IsInCooldown (domain ruleID actionType : string) (cooldownSeconds : Z) : M bool :=
  r ← try (db_take_by latest (adjustment_of domain ruleID actionType));
  match r with
  | inr e => if is_not_found e then mret false else fail e
  | inl h =>
      t ← now;
      mret (t - AdjustmentHistory.AdjustTime h <? int64 (cooldownSeconds * 1000000000))
  end.

Definition GetAdjustmentHistory (groupUUID : string) (limit : Z) : M (list AdjustmentHistory.t) :=
  db_page ["adjust_time desc"] 0 (if 0 <? limit then limit else -1) (of_history groupUUID).

Definition defaultCooldown : Z := 300.

Definition GetAdjustmentCooldownConfig (adjustType groupUUID : string) : M Z :=
  if existsb (String.eqb adjustType) [RuleTypeAdjustCPU; "limit_cpu"; "restore_cpu"] then
    r ← try (GetCPUAdjustRuleDetails groupUUID);
    mret match r with
         | inl (d :: _) => CPUAdjustRuleDetail.LimitDuration d
         | _ => defaultCooldown
         end
  else if existsb (String.eqb adjustType)
            [RuleTypeAdjustInBW; RuleTypeAdjustOutBW; "limit_in_bw"; "restore_in_bw"; "limit_out_bw";
             "restore_out_bw"] then
    r ← try (GetBWAdjustRuleDetails groupUUID);
    mret match r with
         | inl (d :: _) => BWAdjustRuleDetail.LimitDuration d
         | _ => defaultCooldown
         end
  else mret defaultCooldown.

(** ** Limiting and restoring *)

(** The details of the group; the error of a group without details formats nil. *)
Definition some_details {A} (msg : string) (m : M (list A)) : M (list A) :=
  l ← errorw msg m;
  match l with [] => fail (GoError (msg +:+ ": <nil>")) | _ => mret l end.

(** The command that sets, then the one that records the status, whose failure is only
    logged. *)
Definition adjust_and_record (failed control command status : string) : M unit :=
  _ ← errorw failed (HyperExecute control command);
  _ ← try (HyperExecute control status); mret tt.

Definition AdjustCPUResource (record : AdjustmentRecord.t) (domain : string) (limit : bool)
    (instanceID : string) : M unit :=
  instance ← adjusted_instance domain instanceID;
  let control := inter (Instance.Hyper (LoadedInstance.row instance)) in
  value ← (if limit then
             details ← some_details "failed to get CPU adjustment rule details"
                         (GetCPUAdjustRuleDetails (AdjustmentRecord.RuleGroupUUID record));
             d ← deref (head details);
             mret (fmt_d (CPUAdjustRuleDetail.LimitPercent d))
           else mret "restore");
  adjust_and_record "failed to adjust CPU resources" control (cpu_command domain value)
    (cpu_status_command domain (AdjustmentRecord.RuleGroupUUID record) (if limit then 1 else 0)).

Definition RestoreCPUResource (record : AdjustmentRecord.t) (domain instanceID : string) : M unit :=
  instance ← adjusted_instance domain instanceID;
  adjust_and_record "failed to restore CPU resources"
    (inter (Instance.Hyper (LoadedInstance.row instance))) (cpu_command domain "restore")
    (cpu_status_command domain (AdjustmentRecord.RuleGroupUUID record) 0).

Definition limits_in (t : string) : bool :=
  String.eqb t "limit_in_bw" || String.eqb t RuleTypeAdjustInBW.
Definition limits_out (t : string) : bool :=
  String.eqb t "limit_out_bw" || String.eqb t RuleTypeAdjustOutBW.

(** The share of the bandwidth for a direction; nothing when it is unlimited or when no
    rule has the direction. *)
Definition limited_bw (direction : string) (total : Z) (details : list BWAdjustRuleDetail.t)
    : option Z :=
  match List.find (λ d, String.eqb (BWAdjustRuleDetail.Direction d) direction) details with
  | Some d => if 0 <? total then Some (Z.quot (int64 (total * BWAdjustRuleDetail.LimitValuePct d)) 100)
              else None
  | None => None
  end.

(** The direction and the command that limits it, if there is one. *)
Definition bw_limit (record : AdjustmentRecord.t) (domain nic : string) (inBw outBw : Z)
    (details : list BWAdjustRuleDetail.t) : string * option string :=
  let t := AdjustmentRecord.AdjustType record in
  if limits_in t then
    ("in", (λ v, nic_speed_command domain nic v 0 +:+ " --inbound-only")
             <$> limited_bw "in" inBw details)
  else if limits_out t then
    ("out", (λ v, nic_speed_command domain nic 0 v +:+ " --outbound-only")
              <$> limited_bw "out" outBw details)
  else ("", None).

Definition post_if (failed control : string) (command : option string) : M unit :=
  match command with
  | Some command => errorw failed (HyperExecute control command)
  | None => mret tt
  end.

Definition record_bw (control domain groupUUID bwType : string) (status : Z) (nic : string) : M unit :=
  if String.eqb bwType "" then mret tt
  else _ ← try (HyperExecute control (bw_status_command domain groupUUID bwType status nic)); mret tt.

Definition AdjustBandwidthResource (record : AdjustmentRecord.t) (domain device : string)
    (limit : bool) (instanceID : string) (totalInBw totalOutBw : Z) : M unit :=
  instance ← adjusted_instance domain instanceID;
  let control := inter (Instance.Hyper (LoadedInstance.row instance)) in
  _ ← require (negb (String.eqb device "" && String.eqb (AdjustmentRecord.TargetDevice record) ""))
        (GoError "target device not specified");
  let nic := nic_name record device in
  '(bwType, command) ←
    (if limit then
       details ← some_details "failed to get bandwidth adjustment rule details"
                   (GetBWAdjustRuleDetails (AdjustmentRecord.RuleGroupUUID record));
       mret (bw_limit record domain nic totalInBw totalOutBw details)
     else mret ("", None));
  _ ← post_if "failed to adjust bandwidth resources" control command;
  record_bw control domain (AdjustmentRecord.RuleGroupUUID record) bwType (if limit then 1 else 0) nic.

(** The direction whose limit a restoration ends. *)
Definition restored_type (t : string) : string :=
  if String.eqb t RuleTypeAdjustInBW || String.eqb t "restore_in_bw" then "in"
  else if String.eqb t RuleTypeAdjustOutBW || String.eqb t "restore_out_bw" then "out"
  else "".

Definition RestoreBandwidthResource (record : AdjustmentRecord.t) (domain device instanceID : string)
    : M unit :=
  instance ← adjusted_instance domain instanceID;
  let control := inter (Instance.Hyper (LoadedInstance.row instance)) in
  match findInterfaceByTargetDevice (LoadedInstance.Interfaces instance)
          (if negb (String.eqb device "") then device else AdjustmentRecord.TargetDevice record) with
  | None => fail (GoError ("interface not found: device=" +:+ device))
  | Some i =>
      let nic := nic_name record device in
      _ ← post_if "failed to restore bandwidth resources" control
            (if (0 <? Interface.Inbound i) || (0 <? Interface.Outbound i)
             then Some (nic_speed_command domain nic (Interface.Inbound i) (Interface.Outbound i))
             else None);
      record_bw control domain (AdjustmentRecord.RuleGroupUUID record)
        (restored_type (AdjustmentRecord.AdjustType record)) 0 nic
  end.

Definition UpdateVMBandwidthMetric (hyperID : Z) (domain targetDevice : string) (inBw outBw : Z)
    : M unit :=
  errorw "failed to update bandwidth metric"
    (HyperExecute (inter hyperID) (bw_metric_command domain targetDevice inBw outBw)).

(** ** The machines of a rule *)

(** The keys of a map, in the order [range] visits them. *)
Definition range_map {K} (l : list K) : M (list K) := λ c w,
  (Ok (omap (λ k, l !! Z.to_nat k) (map_order (clock w) (map Z.of_nat (seq 0 (length l))))), tick w).

Fixpoint add_links (groupUUID : string) (pairs : list (string * string)) (added : Z) : M Z :=
  match pairs with
  | [] => mret added
  | (vm, device) :: pairs =>
      r ← try (CreateVMLink groupUUID vm device);
      add_links groupUUID pairs (match r with inl _ => added + 1 | inr _ => added end)
  end.

Fixpoint remove_links (groupUUID : string) (pairs : list (string * string)) (removed : Z) : M Z :=
  match pairs with
  | [] => mret removed
  | (vm, device) :: pairs =>
      r ← try (DeleteVMLink groupUUID vm device);
      remove_links groupUUID pairs (match r with inl n => removed + n | inr _ => removed end)
  end.

(** Machines are added and removed without a device. *)
Definition SyncVMLinks (groupUUID : string) (newVMUUIDs : list string)
    : M (Z * Z * list string * list string) :=
  links ← errorw "failed to get existing VM links" (GetLinkedVMs groupUUID);
  let existing : gset string := list_to_set (map VMRuleLink.VMUUID links) in
  let news : gset string := list_to_set newVMUUIDs in
  vms ← range_map (elements news);
  let toAdd := List.filter (λ vm, negb (bool_decide (vm ∈ existing))) vms in
  olds ← range_map (elements existing);
  let toRemove := List.filter (λ vm, negb (bool_decide (vm ∈ news))) olds in
  added ← add_links groupUUID (map (λ vm, (vm, "")) toAdd) 0;
  removed ← remove_links groupUUID (map (λ vm, (vm, "")) toRemove) 0;
  mret (added, removed, toAdd, toRemove).

(** The machines of each device, in the order the pairs were visited. *)
Definition by_device (pairs : list (string * string)) : gmap string (list string) :=
  fold_left (λ m p, map_append p.2 p.1 m) pairs ∅.

Definition device_pairs (m : gmap string (list string)) (devices : list string)
    : list (string * string) :=
  flat_map (λ device, map (λ vm, (vm, device)) (default [] (m !! device))) devices.

Definition SyncVMLinksWithDevice (groupUUID : string) (newVMLinks : list (string * string))
    : M (Z * Z * gmap string (list string) * gmap string (list string)) :=
  links ← errorw "failed to get existing VM links" (GetLinkedVMs groupUUID);
  let existing : gset (string * string) :=
    list_to_set (map (λ l, (VMRuleLink.VMUUID l, VMRuleLink.Interface l)) links) in
  let news : gset (string * string) := list_to_set newVMLinks in
  pairs ← range_map (elements news);
  let toAdd := by_device (List.filter (λ p, negb (bool_decide (p ∈ existing))) pairs) in
  olds ← range_map (elements existing);
  let toRemove := by_device (List.filter (λ p, negb (bool_decide (p ∈ news))) olds) in
  devices ← range_map (elements (dom toAdd));
  added ← add_links groupUUID (device_pairs toAdd devices) 0;
  devices ← range_map (elements (dom toRemove));
  removed ← remove_links groupUUID (device_pairs toRemove devices) 0;
  mret (added, removed, toAdd, toRemove).

(** ** The rules of a machine (AlarmOperator of routes/alarm.go) *)

(** The rule ids of the groups that links point to, each once; the groups may be deleted. *)
Definition linked_rules (vmUUID : string) (groups : DB → list (string * string)) (d : DB)
    : list string :=
  remove_dups (flat_map (λ l, omap (λ g, if String.eqb (VMRuleLink.GroupUUID l) g.1 then Some g.2
                                         else None) (groups d))
    (g_find (λ l, String.eqb (VMRuleLink.VMUUID l) vmUUID) (vm_rule_links d))).

Definition GetRuleIDsByInstance (instanceUUID : string) : M (list string) :=
  if String.eqb instanceUUID "" then mret []
  else
    alarms ← errorw "failed to query alarm rules" (db_query (linked_rules instanceUUID (λ d,
      map (λ g, (RuleGroupV2.UUID g, RuleGroupV2.RuleID g)) (all_rows (rule_groups d)))));
    adjusts ← errorw "failed to query adjust rules" (db_query (linked_rules instanceUUID (λ d,
      map (λ g, (AdjustRuleGroup.UUID g, AdjustRuleGroup.RuleID g)) (all_rows (adjust_groups d)))));
    mret (alarms ++ adjusts).

Definition complete_alarm (g : RuleGroupV2.t) : M CompleteRule :=
  let t := RuleGroupV2.Type_ g in
  let uuid := RuleGroupV2.UUID g in
  r ← (if String.eqb t "cpu" then GetCPURulesByGroupUUID uuid t
       else if String.eqb t "memory" then GetMemoryRulesByGroupUUID uuid t
       else if String.eqb t "bandwidth" then GetBWRulesByGroupUUID uuid t
       else fail (GoError ("unknown alarm rule type: " +:+ t)));
  mret (AlarmRule r.1 r.2).

Definition complete_adjust (g : AdjustRuleGroup.t) : M CompleteRule :=
  let t := AdjustRuleGroup.Type_ g in
  let uuid := AdjustRuleGroup.UUID g in
  if String.eqb t "adjust_cpu" then
    r ← GetCPUAdjustRulesByGroupUUID uuid t; mret (AdjustCPURule r.1 r.2)
  else if String.eqb t "adjust_in_bw" || String.eqb t "adjust_out_bw" then
    r ← GetBWAdjustRulesByGroupUUID uuid t; mret (AdjustBWRule r.1 r.2)
  else fail (GoError ("unknown adjust rule type: " +:+ t)).

Definition GetCompleteRuleByRuleID (ruleID : string) : M CompleteRule :=
  if String.eqb ruleID "" then fail (GoError "ruleID cannot be empty")
  else
    r ← try (ListRuleGroups (ListRuleGroupsParams.mk "" 0 1 "" ruleID));
    match r with
    | inl (g :: _, _) => complete_alarm g
    | _ =>
        r ← try (ListAdjustRuleGroups (ListAdjustRuleGroupsParams.mk "" "" ruleID "" 0 1));
        match r with
        | inl (g :: _, _) => complete_adjust g
        | _ => fail (GoError ("rule not found: " +:+ ruleID))
        end
    end.

End adjust.
