(* ===== verification/AdjustLife.v ===== *)
(** * AdjustLife: what the adjustment of resources achieves

    The links of a rule as a set of pairs of a machine and a device, which the two
    synchronisations replace; the deletion of a rule; the cooldown. *)

From S2P Require Import Prelude GoLib ErrorCodes Gorm Model Store Member Crypto Balancer InstanceAdmin Accounts AlarmRules Adjust Scenario BalancerConf.

(** ** Ranging over a map *)

Lemma omap_lookup_seq {A} (l : list A) :
  omap (λ k, l !! Z.to_nat k) (map Z.of_nat (seq 0 (length l))) = l.
Proof.
  enough (∀ n m : list A, omap (λ k, (m ++ n) !! Z.to_nat k)
    (map Z.of_nat (seq (length m) (length n))) = n) as H by apply (H l []).
  induction n as [|x n IH]; intros m; [done|]. cbn [length seq map omap list_omap].
  simpl. rewrite Nat2Z.id, lookup_app_r, Nat.sub_diag by lia. simpl. f_equal.
  specialize (IH (m ++ [x])). rewrite length_app, Nat.add_1_r, <- app_assoc in IH. exact IH.
Qed.

(** [range] visits every key of a map once, in any order. *)
Definition range_any_order {E : Env} : Prop := ∀ n l, map_order n l ≡ₚ l.

Lemma range_map_runs {G : Gorm} {E : Env} {K} (l : list K) c w :
  range_any_order → ∃ l', range_map l c w = (Ok l', tick w) ∧ l' ≡ₚ l.
Proof.
  intros Ho. eexists. split; [reflexivity|]. transitivity (omap (λ k, l !! Z.to_nat k) (map Z.of_nat (seq 0 (length l)))).
  - apply omap_Permutation, Ho.
  - by rewrite omap_lookup_seq.
Qed.

Section links.
Context {G : Gorm} {E : Env} {GOk : GormOk G}.
Implicit Types (c : Ctx) (w : World) (d : DB) (g : string) (p : string * string).

(** The abstract state: the pairs a group is linked to. *)
Definition linked g d p : Prop :=
  ∃ k l, rows (vm_rule_links d) !! k = Some l ∧ VMRuleLink.GroupUUID l = g ∧
         (VMRuleLink.VMUUID l, VMRuleLink.Interface l) = p.

(** A removal names a machine and a device; no device stands for all of them. *)
Definition hits g (ps : list (string * string)) (l : VMRuleLink.t) : Prop :=
  VMRuleLink.GroupUUID l = g ∧
  ∃ p, p ∈ ps ∧ VMRuleLink.VMUUID l = p.1 ∧ (p.2 = "" ∨ VMRuleLink.Interface l = p.2).

Definition only_links d d' : Prop := d' = d <| vm_rule_links := vm_rule_links d' |>.

#[global] Instance only_links_preorder : PreOrder only_links.
Proof.
  split; [by intros []|]. unfold only_links. intros d1 d2 d3 H1 H2. rewrite H2, H1. done.
Qed.

Lemma find_size (q : VMRuleLink.t → bool) (t : table VMRuleLink.t) :
  (size (rows t) = length (g_find q t) + size (rows (g_delete q t)))%nat.
Proof.
  set (f := λ kv : Z * VMRuleLink.t, q kv.2 = true).
  assert (∀ kv, Decision (f kv)) by (intros; apply _).
  assert (Hd : rows (g_delete q t) = filter (λ kv, ¬ f kv) (rows t)).
  { apply map_eq. intros k. rewrite delete_spec, map_lookup_filter.
    destruct (rows t !! k) as [l|]; [|done]. simpl.
    destruct (q l) eqn:Hq; [rewrite option_guard_False|rewrite option_guard_True]; unfold f; simpl;
      try done; rewrite Hq; auto. }
  assert (Hl : g_find q t ≡ₚ (map_to_list (filter f (rows t))).*2).
  { apply NoDup_Permutation; [apply find_nodup| |].
    - apply NoDup_fmap_2_strong; [|apply NoDup_map_to_list].
      intros [k1 l1] [k2 l2] H1 H2 Heq. simpl in Heq. subst.
      apply elem_of_map_to_list, map_lookup_filter_Some in H1 as [H1 _].
      apply elem_of_map_to_list, map_lookup_filter_Some in H2 as [H2 _].
      by rewrite <- (rows_id _ _ _ H1), <- (rows_id _ _ _ H2).
    - intros l. rewrite find_spec. setoid_rewrite list_elem_of_fmap. split.
      + intros [Hq Hr]. exists (get_id l, l). split; [done|].
        by apply elem_of_map_to_list, map_lookup_filter_Some.
      + intros ([k x] & -> & Hx). apply elem_of_map_to_list, map_lookup_filter_Some in Hx as [Hr Hq].
        split; [exact Hq|]. pose proof (rows_id _ _ _ Hr) as Hk. simpl in *. by rewrite Hk. }
  rewrite Hd, Hl, length_fmap, length_map_to_list.
  rewrite <- map_size_disj_union by apply map_disjoint_filter_complement.
  by rewrite map_filter_union_complement.
Qed.

(** New links, one row per pair. *)
Lemma add_links_runs g ps n c w :
  no_faults →
  ∃ w', add_links g ps n c w = (Ok (n + Z.of_nat (length ps)), w') ∧
    only_links (db w) (db w') ∧ sent w' = sent w ∧
    rows (vm_rule_links (db w)) ⊆ rows (vm_rule_links (db w')) ∧
    (∀ k l, rows (vm_rule_links (db w')) !! k = Some l →
       rows (vm_rule_links (db w)) !! k = Some l ∨
       VMRuleLink.GroupUUID l = g ∧ (VMRuleLink.VMUUID l, VMRuleLink.Interface l) ∈ ps) ∧
    (∀ p, linked g (db w') p ↔ linked g (db w) p ∨ p ∈ ps) ∧
    (size (rows (vm_rule_links (db w'))) = size (rows (vm_rule_links (db w))) + length ps)%nat.
Proof.
  intros Hn. revert n w. induction ps as [|[vm dev] ps IH]; intros n w; simpl.
  { exists w. rewrite Z.add_0_r. split_and!; [done..|naive_solver| |lia].
    intros p. rewrite elem_of_nil. naive_solver. }
  assert (∃ l t, g_create (before_create (uuid_new (clock w)) (rule_link g vm dev))
                   (vm_rule_links (db w)) = (l, t)) as (l & t & Hc)
    by (destruct (g_create _ _); eauto).
  set (w1 := (tick w) <| db := db w <| vm_rule_links := t |> |>).
  rewrite (bind_run _ _ _ _ (inl tt) w1).
  2: { unfold try, CreateVMLink, errorw, mbind, M_bind, db_create. rewrite stmt_runs by done.
       simpl in Hc |- *. by rewrite Hc. }
  apply create_spec in Hc as (_ & Hnew & Hl & Hrows).
  assert (VMRuleLink.GroupUUID l = g ∧ (VMRuleLink.VMUUID l, VMRuleLink.Interface l) = (vm, dev))
    as [Hlg Hlp] by (by rewrite Hl).
  destruct (IH (n + 1) w1) as (w' & H & Ho & Hs & Hsub & Hback & Hlink & Hsize).
  exists w'. replace (n + Z.of_nat (S (length ps))) with (n + 1 + Z.of_nat (length ps)) by lia.
  split; [exact H|]. simpl in *. rewrite Hrows in *. split_and!.
  - etrans; [|exact Ho]. done.
  - done.
  - etrans; [|exact Hsub]. by apply insert_subseteq.
  - intros k x Hx. destruct (Hback k x Hx) as [Hi|[? ?]]; [|right; by rewrite elem_of_cons; auto].
    apply lookup_insert_Some in Hi as [[_ <-]|[_ ?]]; [right|by left].
    split; [done|]. rewrite Hlp. by left.
  - intros p. rewrite Hlink, elem_of_cons. unfold linked at 1. simpl. rewrite Hrows.
    split.
    + intros [(k & x & Hi & Hg & Hp)|?]; [|auto].
      apply lookup_insert_Some in Hi as [[_ <-]|[_ ?]]; [right; left; congruence|].
      left. by exists k, x.
    + intros [(k & x & Hx & Hg & Hp)|[->|?]]; [left|left|auto].
      * exists k, x. split; [|done]. rewrite lookup_insert_ne; [done|]. intros <-. congruence.
      * exists (get_id l), l. split; [apply lookup_insert_eq|done].
  - rewrite Hsize, map_size_insert_None by done. lia.
Qed.

(** Links that are taken away: every row that is named. *)
Lemma remove_links_runs g ps n c w :
  no_faults →
  ∃ m w', remove_links g ps n c w = (Ok m, w') ∧ only_links (db w) (db w') ∧ sent w' = sent w ∧
    (∀ k l, rows (vm_rule_links (db w')) !! k = Some l ↔
            rows (vm_rule_links (db w)) !! k = Some l ∧ ¬ hits g ps l) ∧
    Z.of_nat (size (rows (vm_rule_links (db w)))) + n
      = Z.of_nat (size (rows (vm_rule_links (db w')))) + m.
Proof.
  intros Hn. revert n w. induction ps as [|[vm dev] ps IH]; intros n w; simpl.
  { exists n, w. split_and!; try done. intros k l. unfold hits. set_solver. }
  set (q l := String.eqb (VMRuleLink.GroupUUID l) g && String.eqb (VMRuleLink.VMUUID l) vm
              && (String.eqb dev "" || String.eqb (VMRuleLink.Interface l) dev)).
  set (t := vm_rule_links (db w)).
  set (w1 := (tick w) <| db := db w <| vm_rule_links := g_delete q t |> |>).
  rewrite (bind_run _ _ _ _ (inl (Z.of_nat (length (g_find q t)))) w1).
  2: { unfold try, DeleteVMLink. by rewrite stmt_runs. }
  destruct (IH (n + Z.of_nat (length (g_find q t))) w1) as (m & w' & H & Ho & Hs & Hrows & Hsize).
  exists m, w'. split; [exact H|]. split; [etrans; [|exact Ho]; done|]. split; [done|]. split.
  - intros k l. rewrite Hrows. simpl. rewrite delete_spec. fold t.
    assert (q l = true ↔ hits g [(vm, dev)] l) as Hq.
    { unfold q, hits. rewrite !andb_true_iff, orb_true_iff, !String.eqb_eq. split.
      - intros [[-> ->] ?]. split; [done|]. exists (vm, dev). set_solver.
      - intros (-> & p & ->%list_elem_of_singleton & -> & ?). done. }
    assert (hits g ((vm, dev) :: ps) l ↔ hits g [(vm, dev)] l ∨ hits g ps l) as ->
      by (unfold hits; set_solver).
    rewrite <- Hq. clear - Hq. destruct (rows t !! k) as [x|]; [|split; by intros [? _]].
    destruct (q x) eqn:Hqx.
    + split; [by intros [? _]|]. intros [[= ->] Hh]. destruct Hh. by left.
    + split; intros [[= ->] Hh]; (split; [done|]); [|tauto]. rewrite Hqx. intros [?|?]; [done|tauto].
  - pose proof (find_size q t). simpl in *. fold t in Hsize |- *. lia.
Qed.

Lemma links_read g c w :
  no_faults → g ≠ "" →
  ∃ links w1, errorw "failed to get existing VM links" (GetLinkedVMs g) c w = (Ok links, w1) ∧
    db w1 = db w ∧ sent w1 = sent w ∧
    (∀ p, p ∈ map (λ l, (VMRuleLink.VMUUID l, VMRuleLink.Interface l)) links ↔ linked g (db w) p).
Proof.
  intros Hn Hg. unfold errorw, GetLinkedVMs, db_find. rewrite stmt_runs by done. simpl.
  do 2 eexists. split_and!; try reflexivity. intros p. rewrite list_elem_of_fmap. unfold linked.
  assert (∀ l, when_given g (VMRuleLink.GroupUUID l) = true ↔ VMRuleLink.GroupUUID l = g) as Hw.
  { intros l. unfold when_given. destruct (String.eqb_spec g ""); [done|]. apply String.eqb_eq. }
  split.
  - intros (l & -> & [Hl%Hw Hr]%find_spec). by exists (get_id l), l.
  - intros (k & l & Hr & Hl & <-). exists l. split; [done|]. apply find_spec.
    split; [by apply Hw|]. by rewrite (rows_id _ _ _ Hr).
Qed.

(** The keys that are visited and are not in the other set. *)
Lemma difference_runs {K} `{Countable K} (news olds : gset K) c w :
  range_any_order →
  ∃ l, range_map (elements news) c w = (Ok l, tick w) ∧
    let diff := List.filter (λ x, negb (bool_decide (x ∈ olds))) l in
    NoDup diff ∧ ∀ x, x ∈ diff ↔ x ∈ news ∧ x ∉ olds.
Proof.
  intros Ho. destruct (range_map_runs (elements news) c w Ho) as (l & Hr & Hl).
  exists l. split; [exact Hr|]. split.
  - apply NoDup_ListNoDup, List.NoDup_filter, NoDup_ListNoDup. rewrite Hl. apply NoDup_elements.
  - intros x. rewrite elem_of_filter_bool, Hl, elem_of_elements, negb_true_iff, bool_decide_eq_false.
    tauto.
Qed.

(** C23. SyncVMLinks makes the machines linked to a rule exactly the requested ones, in
    whatever order the map of machines is visited and when no statement fails: it returns the
    machines that were missing and the ones that were too many, each once, its two numbers
    account for the rows of the table, and the links of other rules and of machines that stay
    keep their rows. *)
Theorem sync_links_exact g vms c w :
  no_faults → range_any_order → g ≠ "" →
  let on d vm := ∃ dev, linked g d (vm, dev) in
  ∃ added removed toAdd toRemove w',
    SyncVMLinks g vms c w = (Ok (added, removed, toAdd, toRemove), w') ∧
    (∀ vm, on (db w') vm ↔ vm ∈ vms) ∧
    (∀ vm, vm ∈ toAdd ↔ vm ∈ vms ∧ ¬ on (db w) vm) ∧
    (∀ vm, vm ∈ toRemove ↔ on (db w) vm ∧ vm ∉ vms) ∧
    NoDup toAdd ∧ NoDup toRemove ∧ added = Z.of_nat (length toAdd) ∧
    Z.of_nat (size (rows (vm_rule_links (db w')))) + removed
      = Z.of_nat (size (rows (vm_rule_links (db w)))) + added ∧
    (∀ k l, VMRuleLink.GroupUUID l ≠ g ∨ VMRuleLink.VMUUID l ∈ vms ∧ on (db w) (VMRuleLink.VMUUID l) →
       rows (vm_rule_links (db w')) !! k = Some l ↔ rows (vm_rule_links (db w)) !! k = Some l) ∧
    only_links (db w) (db w') ∧ sent w' = sent w.
Proof.
  intros Hn Ho Hg on. unfold SyncVMLinks.
  destruct (links_read g c w Hn Hg) as (links & w1 & H1 & Hd1 & Hs1 & Hl).
  rewrite (bind_run _ _ _ _ _ _ H1).
  set (existing := list_to_set (map VMRuleLink.VMUUID links) : gset string).
  assert (∀ vm, vm ∈ existing ↔ on (db w) vm) as Hex.
  { intros vm. unfold existing, on. rewrite elem_of_list_to_set, list_elem_of_fmap. split.
    - intros (l & -> & Hi). exists (VMRuleLink.Interface l). apply Hl, list_elem_of_fmap. by exists l.
    - intros (dev & (l & [= -> _] & Hi)%Hl%list_elem_of_fmap). by exists l. }
  set (news := list_to_set vms : gset string).
  assert (∀ vm, vm ∈ news ↔ vm ∈ vms) as Hnw by (intros; apply elem_of_list_to_set).
  destruct (difference_runs news existing c w1 Ho) as (l1 & R1 & N1 & A1).
  rewrite (bind_run _ _ _ _ _ _ R1).
  destruct (difference_runs existing news c (tick w1) Ho) as (l2 & R2 & N2 & A2).
  rewrite (bind_run _ _ _ _ _ _ R2).
  set (toAdd := List.filter _ l1) in *. set (toRemove := List.filter _ l2) in *.
  destruct (add_links_runs g (map (λ vm, (vm, "")) toAdd) 0 c (tick (tick w1)) Hn)
    as (w2 & H2 & O2 & S2 & Sub2 & Back2 & Link2 & Size2).
  rewrite (bind_run _ _ _ _ _ _ H2).
  destruct (remove_links_runs g (map (λ vm, (vm, "")) toRemove) 0 c w2 Hn)
    as (m & w3 & H3 & O3 & S3 & Rows3 & Size3).
  rewrite (bind_run _ _ _ _ _ _ H3).
  exists (0 + Z.of_nat (length (map (λ vm, (vm, "")) toAdd))), m, toAdd, toRemove, w3.
  simpl in *. rewrite length_map in *. rewrite Hd1 in *.
  assert (∀ l, hits g (map (λ vm, (vm, "")) toRemove) l ↔
               VMRuleLink.GroupUUID l = g ∧ VMRuleLink.VMUUID l ∈ toRemove) as Hh.
  { intros l. unfold hits. setoid_rewrite list_elem_of_fmap. naive_solver. }
  assert (∀ vm, vm ∈ vms → vm ∉ toRemove) as Hkeep by (intros vm ? ?%A2; naive_solver).
  split; [done|]. split_and!; try done.
  - intros vm. split.
    + intros (dev & k & l & [Hr Hhit]%Rows3 & Hlg & Hlp). simplify_eq.
      destruct (decide (VMRuleLink.VMUUID l ∈ vms)) as [?|Hv]; [done|]. exfalso.
      destruct (Back2 _ _ Hr) as [Hr'|[_ Hin]].
      * apply Hhit, Hh. split; [done|]. apply A2. rewrite Hnw. split; [|done]. apply Hex.
        exists (VMRuleLink.Interface l), k, l. done.
      * apply list_elem_of_fmap in Hin as (vm & [= Hvm _] & Hin). apply A1 in Hin as [Hin%Hnw _].
        destruct Hv. by rewrite Hvm.
    + intros Hv. assert (∃ dev, linked g (db w2) (vm, dev)) as (dev & k & l & Hr & Hlg & [= <- <-]).
      { destruct (decide (vm ∈ existing)) as [(dev & ?)%Hex|?].
        - exists dev. apply Link2. by left.
        - exists "". apply Link2. right. apply list_elem_of_fmap. exists vm. split; [done|].
          apply A1. by rewrite Hnw. }
      exists (VMRuleLink.Interface l), k, l. split; [|done]. apply Rows3. split; [done|].
      rewrite Hh. intros [_ ?]. by eapply Hkeep.
  - intros vm. by rewrite A1, Hnw, Hex.
  - intros vm. by rewrite A2, Hnw, Hex.
  - lia.
  - intros k l Hkl. rewrite Rows3, Hh. split.
    + intros [[?|[Hgl Hin]]%Back2 _]; [done|]. destruct Hkl as [?|[_ Hon]]; [done|].
      apply list_elem_of_fmap in Hin as (vm & [= Hvm _] & Hin). apply A1 in Hin as [_ Hin].
      destruct Hin. apply Hex. by subst.
    + intros Hr. split; [by eapply lookup_weaken|]. intros [Hgl Hrm].
      destruct Hkl as [?|[Hv _]]; [done|]. by eapply Hkeep.
  - by etrans.
  - congruence.
Qed.

Lemma by_device_elem ps (m : gmap string (list string)) vm dev :
  vm ∈ default [] (fold_left (λ m p, map_append p.2 p.1 m) ps m !! dev) ↔
  vm ∈ default [] (m !! dev) ∨ (vm, dev) ∈ ps.
Proof.
  revert m. induction ps as [|[vm' dev'] ps IH]; intros m; simpl.
  { rewrite elem_of_nil. tauto. }
  rewrite IH, elem_of_cons. unfold map_append. destruct (decide (dev = dev')) as [->|Hd].
  - rewrite lookup_insert_eq. simpl. rewrite elem_of_app, list_elem_of_singleton. naive_solver.
  - rewrite lookup_insert_ne by done. naive_solver.
Qed.

Lemma device_pairs_elem ps devices p :
  devices ≡ₚ elements (dom (by_device ps)) →
  p ∈ device_pairs (by_device ps) devices ↔ p ∈ ps.
Proof.
  intros Hd. destruct p as [vm dev]. unfold device_pairs.
  pose proof (by_device_elem ps ∅ vm dev) as Hb. fold (by_device ps) in Hb.
  rewrite lookup_empty in Hb. simpl in Hb. rewrite elem_of_nil in Hb.
  rewrite list_elem_of_In, in_flat_map. setoid_rewrite <- list_elem_of_In.
  setoid_rewrite list_elem_of_fmap. split.
  - intros (dev' & _ & vm' & [= -> ->] & Hin). tauto.
  - intros Hin. exists dev. assert (vm ∈ default [] (by_device ps !! dev)) as Hv by tauto. split.
    + rewrite Hd, elem_of_elements, elem_of_dom.
      destruct (by_device ps !! dev); [done|]. by apply not_elem_of_nil in Hv.
    + by exists vm.
Qed.

(** SyncVMLinksWithDevice makes the pairs of a machine and a device that are linked to
    a rule exactly the requested ones, when no link of the rule lacks a device; links of
    other rules keep their rows, and the numbers account for the rows of the table. *)
Theorem sync_devices_exact g pairs c w :
  no_faults → range_any_order → g ≠ "" → (∀ vm, ¬ linked g (db w) (vm, "")) →
  ∃ added removed toAdd toRemove w',
    SyncVMLinksWithDevice g pairs c w = (Ok (added, removed, toAdd, toRemove), w') ∧
    (∀ p, linked g (db w') p ↔ p ∈ pairs) ∧
    Z.of_nat (size (rows (vm_rule_links (db w')))) + removed
      = Z.of_nat (size (rows (vm_rule_links (db w)))) + added ∧
    (∀ k l, VMRuleLink.GroupUUID l ≠ g →
       rows (vm_rule_links (db w')) !! k = Some l ↔ rows (vm_rule_links (db w)) !! k = Some l) ∧
    only_links (db w) (db w') ∧ sent w' = sent w.
Proof.
  intros Hn Ho Hg Hblank. unfold SyncVMLinksWithDevice.
  destruct (links_read g c w Hn Hg) as (links & w1 & H1 & Hd1 & Hs1 & Hl).
  rewrite (bind_run _ _ _ _ _ _ H1).
  set (existing := list_to_set (map _ links) : gset (string * string)).
  assert (∀ p, p ∈ existing ↔ linked g (db w) p) as Hex
    by (intros p; unfold existing; rewrite elem_of_list_to_set; apply Hl).
  set (news := list_to_set pairs : gset (string * string)).
  assert (∀ p, p ∈ news ↔ p ∈ pairs) as Hnw by (intros; apply elem_of_list_to_set).
  destruct (difference_runs news existing c w1 Ho) as (l1 & R1 & _ & A1).
  rewrite (bind_run _ _ _ _ _ _ R1).
  destruct (difference_runs existing news c (tick w1) Ho) as (l2 & R2 & _ & A2).
  rewrite (bind_run _ _ _ _ _ _ R2).
  set (toAdd := List.filter _ l1) in *. set (toRemove := List.filter _ l2) in *.
  destruct (range_map_runs (elements (dom (by_device toAdd))) c (tick (tick w1)) Ho)
    as (ds & Rd & Hds). rewrite (bind_run _ _ _ _ _ _ Rd).
  destruct (add_links_runs g (device_pairs (by_device toAdd) ds) 0 c (tick (tick (tick w1))) Hn)
    as (w2 & H2 & O2 & S2 & Sub2 & Back2 & Link2 & Size2).
  rewrite (bind_run _ _ _ _ _ _ H2).
  destruct (range_map_runs (elements (dom (by_device toRemove))) c w2 Ho) as (es & Re & Hes).
  rewrite (bind_run _ _ _ _ _ _ Re).
  destruct (remove_links_runs g (device_pairs (by_device toRemove) es) 0 c (tick w2) Hn)
    as (m & w3 & H3 & O3 & S3 & Rows3 & Size3).
  rewrite (bind_run _ _ _ _ _ _ H3).
  exists (0 + Z.of_nat (length (device_pairs (by_device toAdd) ds))), m, (by_device toAdd),
    (by_device toRemove), w3.
  simpl in *. rewrite Hd1 in *.
  assert (∀ l, hits g (device_pairs (by_device toRemove) es) l ↔
               VMRuleLink.GroupUUID l = g ∧ (VMRuleLink.VMUUID l, VMRuleLink.Interface l) ∈ toRemove)
    as Hh.
  { intros l. unfold hits. setoid_rewrite (device_pairs_elem toRemove es _ Hes). split.
    - intros (Hlg & [vm dev] & Hin & Hv & [Hb|Hi]); simpl in *; subst; [|done].
      apply A2 in Hin as [Hin%Hex _]. by apply Hblank in Hin.
    - intros [Hlg Hin]. split; [done|]. eexists. split; [exact Hin|]. auto. }
  split; [done|]. split_and!; [|lia| |by etrans|congruence].
  - intros p. split.
    + intros (k & l & [Hr Hhit]%Rows3 & Hlg & <-). rewrite Hh in Hhit.
      destruct (decide ((VMRuleLink.VMUUID l, VMRuleLink.Interface l) ∈ pairs)) as [?|Hv]; [done|].
      destruct (Back2 _ _ Hr) as [Hr'|[_ Hin]].
      * destruct Hhit. split; [done|]. apply A2. rewrite Hnw. split; [|done]. apply Hex. by exists k, l.
      * apply (device_pairs_elem _ _ _ Hds), A1 in Hin as [Hin%Hnw _]. done.
    + intros Hv. assert (linked g (db w2) p) as (k & l & Hr & Hlg & <-).
      { apply Link2. destruct (decide (p ∈ existing)) as [?%Hex|?]; [by left|right].
        apply (device_pairs_elem _ _ _ Hds), A1. by rewrite Hnw. }
      exists k, l. split; [|done]. apply Rows3. split; [done|]. rewrite Hh. intros [_ [_ Hno]%A2].
      by apply Hno, Hnw.
  - intros k l Hkl. rewrite Rows3, Hh. split.
    + by intros [[?|[? _]]%Back2 _].
    + intros Hr. split; [by eapply lookup_weaken|]. by intros [? _].
Qed.

End links.

(** ** Deleting a rule *)

Section deleting.
Context {G : Gorm} {E : Env} {GOk : GormOk G}.
Implicit Types (c : Ctx) (w : World).

(** Exactly the rows with [p] are gone. *)
Definition without {R} `{Row R} (p : R → bool) (t t' : table R) : Prop :=
  ∀ k r, rows t' !! k = Some r ↔ rows t !! k = Some r ∧ p r = false.

Lemma without_delete {R} `{RowOk R} (p : R → bool) (t : table R) : without p t (g_delete p t).
Proof.
  intros k r. rewrite delete_spec. destruct (rows t !! k) as [x|]; [|by split; [|intros [? _]]].
  destruct (p x) eqn:Hp; split.
  - done.
  - intros [[= <-] ?]. congruence.
  - by intros [= <-].
  - by intros [[= <-] _].
Qed.

Lemma db_transaction_run {A} (m : M A) c w r w' :
  db_transaction m c w = (r, w') →
  ∃ w1, m c w = (r, w1) ∧ sent w' = sent w1 ∧
        match r with Ok _ => db w' = db w1 | _ => db w' = db w end.
Proof.
  unfold db_transaction. destruct (m c w) as [[a|e|] w1]; intros [= <- <-]; eexists; by split.
Qed.

Lemma errorf_Ok {A} msg (m : M A) c w a w' : errorw msg m c w = (Ok a, w') ↔ m c w = (Ok a, w').
Proof. unfold errorw. destruct (m c w) as [[]]; naive_solver. Qed.

(** C26. DeleteAdjustRuleGroupWithDependencies removes exactly the group, its CPU and
    bandwidth details, its links and its history and touches no other table; when a statement
    fails the database is as it was.  It sends nothing and does not panic. *)
Theorem adjust_group_deleted g c w r w' :
  DeleteAdjustRuleGroupWithDependencies g c w = (r, w') →
  sent w' = sent w ∧
  match r with
  | Ok _ =>
      without (named g) (adjust_groups (db w)) (adjust_groups (db w')) ∧
      without (of_cpu_group g) (cpu_adjust_details (db w)) (cpu_adjust_details (db w')) ∧
      without (of_bw_group g) (bw_adjust_details (db w)) (bw_adjust_details (db w')) ∧
      without (of_rule_group g) (vm_rule_links (db w)) (vm_rule_links (db w')) ∧
      without (of_history g) (adjustment_histories (db w)) (adjustment_histories (db w')) ∧
      db w' = db w <| adjust_groups := adjust_groups (db w') |>
                   <| cpu_adjust_details := cpu_adjust_details (db w') |>
                   <| bw_adjust_details := bw_adjust_details (db w') |>
                   <| vm_rule_links := vm_rule_links (db w') |>
                   <| adjustment_histories := adjustment_histories (db w') |>
  | Err _ => db w' = db w
  | Panic => False
  end.
Proof.
  intros (w1 & H & Hs & Hd)%db_transaction_run. rewrite Hs. split.
  { refine (quiet_run _ _ _ _ _ _ H). quiet_tac. }
  destruct r as [u|e|]; [|done|by refine (np_refute _ _ _ _ _ H); np].
  go_ok. flat. split_and!; try apply without_delete. done.
Qed.

(** The same for the alarm rules of a type. *)
Lemma rule_group_deleted g t c w r w' :
  DeleteRuleGroupWithDependencies g t c w = (r, w') →
  match r with
  | Ok _ =>
      without (λ x, String.eqb (RuleGroupV2.UUID x) g && String.eqb (RuleGroupV2.Type_ x) t)
        (rule_groups (db w)) (rule_groups (db w')) ∧
      without (of_rule_group g) (vm_rule_links (db w)) (vm_rule_links (db w')) ∧
      (t = "cpu" ∨ t = "memory" ∨ t = "bw")
  | _ => db w' = db w
  end.
Proof.
  intros (w1 & H & Hs & Hd)%db_transaction_run. destruct r as [u|e|]; [|done|done].
  apply bind_Ok in H as (? & w2 & H1 & (? & w3 & H2%errorf_Ok & H3%errorf_Ok)%bind_Ok).
  unfold DeleteRuleGroup in H3. unfold delete_details in H1.
  destruct (String.eqb_spec t "cpu") as [->|?];
    [|destruct (String.eqb_spec t "memory") as [->|?];
      [|destruct (String.eqb_spec t "bw") as [->|?]; [|done]]];
    apply errorf_Ok in H1; go_ok; flat; (split_and!; [apply without_delete..|auto]).
Qed.

End deleting.

(** ** The cooldown *)

Section cooldown.
Context {G : Gorm} {E : Env} {GOk : GormOk G}.
Implicit Types (c : Ctx) (w : World).

Lemma latest_total x y : latest x y = true ∨ latest y x = true.
Proof. unfold latest. rewrite !orb_true_iff, !andb_true_iff, !Z.ltb_lt, !Z.eqb_eq, !Z.leb_le. lia. Qed.

Lemma latest_trans x y z : latest x y = true → latest y z = true → latest x z = true.
Proof. unfold latest. rewrite !orb_true_iff, !andb_true_iff, !Z.ltb_lt, !Z.eqb_eq, !Z.leb_le. lia. Qed.


(** C31. After an adjustment was recorded, IsInCooldown answers true exactly while fewer
    than the given seconds have passed since the time of the record, as long as the number of
    seconds is less than 2^33, so that in nanoseconds it fits the 64 bits of a Duration, no
    adjustment was recorded in between, and the earlier adjustments of the same machine, rule
    and action are older. *)
Theorem cooldown_spec h c w h' w1 seconds c2 w2 :
  no_faults → RecordAdjustmentHistory h c w = (Ok h', w1) →
  let same := adjustment_of (AdjustmentHistory.DomainName h) (AdjustmentHistory.RuleID h)
                (AdjustmentHistory.ActionType h) in
  (∀ k x, rows (adjustment_histories (db w)) !! k = Some x → same x = true →
          AdjustmentHistory.AdjustTime x < time_now (clock w)) →
  adjustment_histories (db w2) = adjustment_histories (db w1) →
  0 ≤ seconds < 2 ^ 33 →
  (IsInCooldown (AdjustmentHistory.DomainName h) (AdjustmentHistory.RuleID h)
     (AdjustmentHistory.ActionType h) seconds c2 w2).1
  = Ok (time_now (S (clock w2)) - time_now (clock w) <? seconds * 1000000000).
Proof.
  intros Hn H same Hold Heq Hsec. unfold RecordAdjustmentHistory in H.
  apply bind_Ok in H as (t & w0 & [= <- <-] & (tb & Hc & Hd & _)%db_create_Ok).
  apply create_spec in Hc as (_ & _ & Hh & Hrows). simpl in Hrows, Hh.
  assert (same h' = true ∧ AdjustmentHistory.AdjustTime h' = time_now (clock w)) as [Hsame Ht].
  { rewrite Hh. unfold same, adjustment_of. simpl. by rewrite !String.eqb_refl. }
  assert (rows (adjustment_histories (db w2)) =
          <[AdjustmentHistory.ID h' := h']> (rows (adjustment_histories (db w)))) as Hr
    by (by rewrite Heq, Hd).
  unfold IsInCooldown, db_take_by. fold same.
  destruct (g_take_by latest same (adjustment_histories (db w2))) as [x|] eqn:Hx.
  2: { eapply take_by_none with (k := AdjustmentHistory.ID h') in Hx;
         [|rewrite Hr; apply lookup_insert_eq]. congruence. }
  assert (AdjustmentHistory.AdjustTime x = time_now (clock w)) as Hxt.
  { pose proof (take_by_some _ _ _ _ Hx) as [Hsx Hin]. rewrite Hr in Hin.
    apply lookup_insert_Some in Hin as [[_ <-]|[_ Hin]]; [done|].
    assert (latest x h' = true) as Hle.
    { eapply (take_by_least latest same _ x latest_total latest_trans Hx);
        [rewrite Hr; apply lookup_insert_eq|done]. }
    unfold latest in Hle. specialize (Hold _ _ Hin Hsx).
    rewrite orb_true_iff, andb_true_iff, Z.ltb_lt, Z.eqb_eq in Hle. lia. }
  unfold try, mbind, M_bind. rewrite stmt_runs by done. simpl. rewrite Hx. simpl.
  rewrite Hxt, int64_id by lia. done.
Qed.

End cooldown.

(** ** Witnesses *)

Module AdjustWitness.
Import Scenario.

#[local] Existing Instance MemGorm.
#[local] Existing Instance MemGormOk.
#[local] Existing Instance env.

Definition link_row (k : Z) (g vm dev : string) : VMRuleLink.t :=
  rule_link g vm dev <| VMRuleLink.ID := k |>.

(** Rule r1 watches vm1 and vm2, rule r2 watches vm1. *)
Definition rules_world : World :=
  mkWorld (cloud <| vm_rule_links := table_of [link_row 1 "r1" "vm1" "tap1"; link_row 2 "r1" "vm2" "tap2";
                                               link_row 3 "r2" "vm1" ""] |>) [] 0.

Lemma adjust_no_faults : no_faults.
Proof. done. Qed.

Lemma adjust_any_order : range_any_order.
Proof. intros n l. reflexivity. Qed.

Lemma sync_links_exact_witness : ∃ w' added removed toAdd toRemove,
  SyncVMLinks "r1" ["vm2"; "vm3"] background rules_world
    = (Ok (added, removed, toAdd, toRemove), w') ∧
  ∀ vm, (∃ dev, linked "r1" (db w') (vm, dev)) ↔ vm ∈ ["vm2"; "vm3"].
Proof.
  destruct (sync_links_exact "r1" ["vm2"; "vm3"] background rules_world adjust_no_faults
    adjust_any_order ltac:(discriminate)) as (added & removed & toAdd & toRemove & w' & H & Hon & _).
  exists w', added, removed, toAdd, toRemove. split; [exact H|exact Hon].
Defined.

Lemma sync_devices_exact_witness : ∃ w' r,
  SyncVMLinksWithDevice "r1" [("vm1", "tap9")] background rules_world = (Ok r, w') ∧
  ∀ p, linked "r1" (db w') p ↔ p ∈ [("vm1", "tap9")].
Proof.
  assert (∀ vm, ¬ linked "r1" (db rules_world) (vm, "")) as Hb.
  { intros vm (k & l & Hk & Hg & Hp).
    assert (l ∈ (rev [link_row 1 "r1" "vm1" "tap1"; link_row 2 "r1" "vm2" "tap2"; link_row 3 "r2" "vm1" ""]))
      as Hl.
    { replace (rev [link_row 1 "r1" "vm1" "tap1"; link_row 2 "r1" "vm2" "tap2"; link_row 3 "r2" "vm1" ""])
        with (g_find (λ _, true) (vm_rule_links (db rules_world))) by (vm_compute; reflexivity).
      apply find_spec. split; [done|]. by rewrite (rows_id _ _ _ Hk). }
    simpl in Hl. rewrite !elem_of_cons, elem_of_nil in Hl.
    destruct Hl as [->|[->|[->|[]]]]; vm_compute in Hg, Hp; discriminate. }
  destruct (sync_devices_exact "r1" [("vm1", "tap9")] background rules_world adjust_no_faults
    adjust_any_order ltac:(discriminate) Hb) as (added & removed & toAdd & toRemove & w' & H & Hon & _).
  exists w', (added, removed, toAdd, toRemove). split; [exact H|exact Hon].
Defined.

(** Moving the link of vm1 from no device to tap1 loses it. *)
Lemma blank_device_loses :
  let r := SyncVMLinksWithDevice "r2" [("vm1", "tap1")] background rules_world in
  is_Ok r = true ∧
  g_find (λ l, String.eqb (VMRuleLink.GroupUUID l) "r2") (vm_rule_links (db r.2)) = [].
Proof. by vm_compute. Qed.

Lemma adjust_group_deleted_witness : ∃ w',
  DeleteAdjustRuleGroupWithDependencies "r1" background rules_world = (Ok tt, w') ∧
  without (of_rule_group "r1") (vm_rule_links (db rules_world)) (vm_rule_links (db w')).
Proof.
  run_ok (DeleteAdjustRuleGroupWithDependencies "r1" background rules_world) u w' H. destruct u.
  destruct (adjust_group_deleted "r1" background rules_world (Ok tt) w' H) as (_ & _ & _ & _ & Hl & _).
  exists w'. split; [exact H|exact Hl].
Defined.

Definition history : AdjustmentHistory.t :=
  AdjustmentHistory.zero <| AdjustmentHistory.DomainName := "inst-5" |>
    <| AdjustmentHistory.RuleID := "adjust-1" |> <| AdjustmentHistory.ActionType := "limit_cpu" |>.

Lemma cooldown_spec_witness : ∃ h' w1,
  RecordAdjustmentHistory history background rules_world = (Ok h', w1) ∧
  (IsInCooldown "inst-5" "adjust-1" "limit_cpu" 300 background w1).1 = Ok true.
Proof.
  run_ok (RecordAdjustmentHistory history background rules_world) h' w1 H.
  exists h', w1. split; [exact H|].
  change ((IsInCooldown (AdjustmentHistory.DomainName history) (AdjustmentHistory.RuleID history)
    (AdjustmentHistory.ActionType history) 300 background w1).1 = Ok true).
  rewrite (cooldown_spec history background rules_world h' w1 300 background w1 adjust_no_faults H).
  - assert (w1 = (RecordAdjustmentHistory history background rules_world).2) as -> by (by rewrite H).
    vm_compute. reflexivity.
  - intros k x Hx. vm_compute in Hx. discriminate Hx.
  - reflexivity.
  - vm_compute. split; [discriminate|reflexivity].
Defined.

End AdjustWitness.
